(* ===== verification/_CoqProject ===== *)
-Q . S2P
Prelude.v
CInt.v
Sys.v
Cards.v
Async.v
Mask.v
Interval.v
Format.v
PcmTypes.v
PcmSw.v
Pcm.v
Toy.v
PcmSpec.v
PcmMmap.v
HwParams.v
HwAccessors.v
HwParamsSpec.v
PcmOpen.v
Tlv.v
TlvSpec.v
CtlTypes.v
Control.v
ControlSpec.v
Hcontrol.v
HcontrolSpec.v
HcontrolLife.v
CtlAscii.v
Mixer.v
MixerOk.v
MixerSpec.v
MixerSelem.v
MixerLife.v
MixerTidy.v
Area.v
Chmap.v
ChmapSpec.v
IoDev.v
Rawmidi.v
RawmidiSpec.v
Timer.v
Hwdep.v
Output.v
OutputPlain.v
MixerVolume.v
CtlFields.v
PcmInfo.v
Text.v
Dump.v
DumpSpec.v
MmapCopy.v
Accessors.v
MmapPages.v
MmapStream.v
MmapRing.v
MmapCapture.v
MmapOpen.v
Seq.v
Disabled.v
Conf.v
Handles.v
TlvLinear.v
