(* ===== verification/Prelude.v ===== *)
(** * salsa-lib: a verification development

    salsa-lib is a small C library with the programming interface of alsa-lib: its
    functions talk to the sound devices of the Linux kernel by system calls, without
    plugins or configuration.  The sources are under src/src/.

    ** The program's parts and the files that model them

    - integers, errno (the C language): CInt.v.  Integers are [Z]; the wrap-around of
      a C type is written out ([u32], [s64], ...) where the code can reach it.
    - the operating system (not part of the sources): Sys.v.  The system calls are the
      class [Os]; [world] adds a ledger of the descriptors, mappings and blocks the
      process holds; [OsLaws] is what the library relies on.
    - cards.c (device names, cards, opening a subdevice): Cards.v.
    - async.c (handlers run on SIGIO): Async.v.  [proc] is the process: the world, the
      handler list, what SIGIO does and the owners' pointers to their handlers.
    - pcm_params.c 38-363, pcm_macros.h 545-597 (masks and intervals): Mask.v and
      Interval.v.
    - pcm_params.c 365-906 (parameter sets) and the accessors of pcm_macros.h 413-513
      and 598-1788: HwParams.v and HwAccessors.v; their theorems: HwParamsSpec.v.
    - pcm_params.c 346-363 and pcm_macros.h 1791-1975 (software parameters): PcmSw.v.
    - pcm_misc.c and the name tables of pcm.c (formats): Format.v.
    - the structures of asound.h and the handle [struct _snd_pcm]: PcmTypes.v, with the
      ioctls of a PCM device as the class [PcmKernel].
    - pcm.c 166-259 and 925-1134, pcm_macros.h 84-315 (operations of an open PCM):
      Pcm.v; theorems: PcmSpec.v.  [ps] is the state: a handle and the process.
    - pcm.c 770-942 (mapping buffers and status): PcmMmap.v.
    - pcm.c 44-163, pcm_params.c 908-1013 (open, configure, close): PcmOpen.v.
    - control.c 387-764 (TLV data and decibels): Tlv.v; theorems: TlvSpec.v.
    - the control structures of asound.h: CtlTypes.v, with the ioctls of a control
      device as the class [CtlKernel].
    - control.c 33-385 and ctl_macros.h 26-265 (the control interface): Control.v;
      theorems: ControlSpec.v.  control.c 764-966 (elements as text): CtlAscii.v.
    - hcontrol.c, hctl_macros.h (the list of a card's elements and its events):
      Hcontrol.v; theorems: HcontrolSpec.v (the list) and HcontrolLife.v (sessions).
      [hs] is the state: a handle, the store of its elements, the process and the data
      of its client.
    - mixer.c 34-760 (the mixer, a client of hcontrol): Mixer.v; its memory: MixerOk.v;
      its operations keep it: MixerSpec.v.  mixer.c 765-1103 and mixer_macros.h (simple
      elements): MixerSelem.v.  Sessions: MixerLife.v; what closing leaves: MixerTidy.v.
      The values a setter and a getter agree on, and the scaling of volumes: MixerVolume.v.
    - pcm.c 576-766 (silencing and copying areas, over the bytes of memory): Area.v.
    - pcm_macros.h 2188-2211 (transfers through the mapped buffer): in Pcm.v; over the
      bytes: MmapCopy.v; over time, with the hardware on the other side of the shared
      pages (MmapPages.v): MmapStream.v (playback) and MmapCapture.v; from mapping to
      transfer, with a driver of interleaved channels: MmapRing.v; from opening on:
      MmapOpen.v.
    - pcm.c 1136-1481 (channel maps): Chmap.v; theorems: ChmapSpec.v.
    - pcm_macros.h 93-165 and 1982-2150 (information and status of a PCM): PcmInfo.v.
    - ctl_macros.h 268-1090 (fields of the control structures): CtlFields.v.  The rest of
      ctl_macros.h, hctl_macros.h and mixer_macros.h: Accessors.v.
    - what rawmidi, timer and hwdep share (poll, read, write, allocation): IoDev.v.
    - rawmidi.c, rawmidi_macros.h: Rawmidi.v; theorems: RawmidiSpec.v.
    - timer.c, timer_macros.h: Timer.v.  hwdep.c, hwdep_macros.h: Hwdep.v.
    - output.c (streams and the growing buffer): Output.v; the version of output.h without
      the buffer: OutputPlain.v.
    - pcm_params.c 1015-1132 and pcm.c 482-573 (the dump functions, as the output calls
      they make): Dump.v; theorems: DumpSpec.v.  Text.v has the lemmas on text they use.
    - control.c 498-522 and 712-735 (linear decibels with floating point): TlvLinear.v.
    - input_abi.c, error.h, the fields of handles and handlers: Handles.v.
    - the interfaces that answer constants: Seq.v (seq.h, seqmid.h), Conf.v (conf.h) and
      Disabled.v (the functions of builds without TLV data, user elements or asynchronous
      notification).
    - Toy.v is no part of the program: it is a concrete kernel for the witnesses.

    A function that changes state is a computation of the monad [io] below; a pointer
    that may be NULL is an option, and what is stored through a pointer is given back
    with the result.  A failed system call is a negative result, its errno negated,
    which is how every caller reads it.  Every model definition of a function names
    its lines in a comment [file first-last function].

    ** Interfaces

    The parts meet in type classes: [Os] and [OsLaws] (system calls), [CardKernel]
    (ioctls of a card), [AsyncKernel] (signals), [PcmKernel] (ioctls of a PCM),
    [CtlKernel] (ioctls of a control device), [DevKernel] (read and write of a
    descriptor), [RawmidiKernel], [TimerKernel], [HwdepKernel], [PcmInfoKernel] and
    [CtlInfoKernel] (the ioctls of those interfaces), [Stdio] and [StdioIn] (the C library's
    streams) and [SharedPages] (the status and control pages are memory).  A high-level
    control handle calls its client through the class [HctlClient]; [HctlClientLaws] is what the client promises
    (it leaves the list and other people's resources alone and keeps its own data in
    order), and the theorems of HcontrolSpec.v and HcontrolLife.v hold for every such
    client.  The mixer is one: [mixer_client] and [mixer_laws] (MixerSpec.v); the
    application's callbacks and its [qsort] are in turn [MixerApp] and [MixerAppLaws].
    What a theorem asks of the card is a named hypothesis: [fills_list] (ELEM_LIST writes
    into the array it is given, within its room; the elements may change at any time),
    [lists_card] for loading alone (they do not change meanwhile) and the like.  No
    definition is made up for the kernel: theorems hold for every instance, or for
    every one with the laws named in the statement, and the witnesses instantiate
    them with the toy kernel of Toy.v or a permissive driver.  The reserved fields of
    the kernel's structures are left out.

    ** What the theorems show

    - Masks and intervals: each refinement computes exactly the values it should keep,
      with the returned code (Mask.v, Interval.v), but for the bounds at which the
      32-bit arithmetic wraps.
    - Parameter sets: a set or test that fails leaves the parameters as they were, a
      value set is the value read, choosing leaves one value of each parameter
      (HwParamsSpec.v), whatever the driver answers within its contract.
    - A PCM's life: any sequence of calls between open and close leaves no descriptor,
      mapping or block behind (PcmOpen.v, by an invariant every call keeps), but that with
      [errno] 0 at the start the process may lose its own descriptor 0; a mapping
      covers every sample and its undoing is exact (PcmMmap.v); a configuration is
      recorded as the driver gave it.
    - Positions: the window of [snd_pcm_mmap_begin] lies in the buffer (PcmSpec.v).  The
      handle's boundary is never set ([boundary_never_set]), so no position wraps:
      [avail_on_open_handle] (PcmOpen.v) says when the available space is what the positions
      mean, and that it is wrong once the kernel's position has wrapped.
    - Mapped transfers: a write moves exactly the frames it reports to the application's
      position and nothing else ([mmap_writei_moves]); and however transfers and the
      hardware's work interleave, what is played is what was written, and what is received
      is what was recorded, in order: the ring refines a queue in both directions
      ([mmap_playback_fifo], [mmap_capture_fifo]).  The ring is the one that mapping sets
      up, in a mapping the process holds, and transfers stay inside it ([mmap_ring_safe]).
      [open_stream_fifo] puts these together: it starts at [snd_pcm_open], goes through any
      calls and a configuration, and ends at the samples.
    - Areas: copying whole-byte formats is the copy frame by frame, also where source and
      destination share memory, and the 4-bit formats are shown to go wrong (Area.v).
    - Loops that wait for the kernel return with the first answer that decides, and with
      the result that answer stands for ([wait_returns], [recover_returns]).
    - Software parameters: the default boundary's loop ends for every buffer size but
      0; accessors are independent fields (PcmSw.v).
    - Formats: names, silence patterns and linear formats agree with the meaning of
      the formats (Format.v).
    - Handlers: the list, the signal and the pointers stay consistent (Async.v).
    - Names and cards: a device name parses to what was printed, enumeration visits
      each card once (Cards.v).
    - Controls: a handle follows the card's element list and its events exactly
      ([hctl_load_complete], [hctl_follows_events]), a session leaks at most a
      block for each event refused because its name was taken and each load that does not
      end ([hctl_session_balanced]; the mixer's sessions likewise); TLV reads stay in their
      buffer and give what the driver answered ([tlv_read_bounded]); printed element ids
      parse back (CtlAscii.v).
    - Mixer: whatever happens in a session, no item pointer dangles or is cast to the
      wrong type, and the array and the indices agree ([mixer_session_safe]); a tidy
      mixer is given back completely ([mixer_session_balanced]), and an item put over
      another is lost ([global_over_capture_lost]).
    - Decibels: parsing finds the first decibel element of any nested data without
      reading outside it, and scale conversions are inverse roundings (TlvSpec.v); the
      range conversion from a gain is shown to be wrong.  Linear decibels keep the ends of
      their range, whatever the C library's [pow] (TlvLinear.v).
    - Channel maps: a driver's data are taken apart into the maps they were put together
      from, a map's text parses back, and asking leaves nothing behind, except where a
      container's map announces more than is there: the code then reads past its array
      (ChmapSpec.v).
    - Rawmidi: sessions over any number of devices are balanced where the memory suffices
      ([rawmidi_session_balanced]); where it does not, a descriptor is closed twice
      ([rawmidi_open_double_close]).
    - Output: a session on the buffer stays inside its block up to a text with conversions
      that does not fit, where the code uses an argument list twice
      ([output_session_bounded]); a dump's text determines the parameters, but the buffer
      keeps only newlines of it (DumpSpec.v).
    - Constants: no dummy function hands out an object ([no_sequencer]), the configuration's
      mark is the last call's ([config_marked]); a 32-bit time stamp is exact up to 2038
      ([htimestamp_exact]).

    ** Fuel

    [boundary_fuel] is 64, more than a 64-bit number can be doubled
    ([sw_default_boundary] shows it is enough).  [snd_pcm_wait] and [snd_pcm_recover]
    take fuel since only the kernel ends them; [wait_returns] and [recover_returns]
    give the result for every fuel above the number of undecided answers.  The
    alignment loop has fuel 3 ([min_align_least]).  TLV parsing has the number of words
    as fuel ([parse_dB_info_finds]); a search of sub-ranges passes four words a round,
    so 65 rounds pass the 256 words a range may have.  The loops over channels have the
    number of channels.  Walks along the list of control elements have one more than the
    number of stored elements; [snd_hctl_load] retries and [snd_hctl_handle_events] reads
    while the card has more, so their fuel is the caller's and running out is [None].  A
    container of channel maps has 256 words of which a map takes two at least, so 130
    rounds count them; a channel map has at most 64 positions; walking a mixer takes one
    step more than it has elements.

    ** What is not modelled

    The ABI files compile the inline functions a second time, and hold no others but
    those of Handles.v; the build that compares the sizes of the structures
    (SALSA_CHECK_ABI) stops the program where they differ and is otherwise the same.  Both
    are left out, as are constants and types without operations (the sequencer's events,
    asoundef.h) and the macros of seqmid.h, which are empty.  The text of %g, the messages
    of [strerror] and the last bits of [pow] and [log10] are parameters.  What
    memzero_valgrind leaves unset is arbitrary.  Concurrent use of a handle (which the
    library does not support) is not modelled; the hardware is, as the other party to the
    shared pages. *)

From stdpp Require Export base list option numbers.
From Stdlib Require Export ZArith Lia.

#[global] Open Scope Z_scope.

(** ** Automation shared by the whole library *)

Create HintDb salsa.
Create HintDb quiet.

(** Case analysis on the scrutinee of a match or of an [if] in the goal. *)
Ltac case_goal :=
  match goal with
  | |- context [match ?x with _ => _ end] => destruct x eqn:?
  end.

(** The same in a hypothesis. *)
Ltac case_hyp H :=
  match type of H with
  | context [match ?x with _ => _ end] => destruct x eqn:?
  end.

(** Turn boolean tests on [Z] into propositions [lia] reads. *)
Ltac zbool :=
  repeat match goal with
  | H : (_ <? _) = true |- _ => apply Z.ltb_lt in H
  | H : (_ <? _) = false |- _ => apply Z.ltb_ge in H
  | H : (_ <=? _) = true |- _ => apply Z.leb_le in H
  | H : (_ <=? _) = false |- _ => apply Z.leb_gt in H
  | H : (_ =? _) = true |- _ => apply Z.eqb_eq in H
  | H : (_ =? _) = false |- _ => apply Z.eqb_neq in H
  | H : negb _ = true |- _ => apply negb_true_iff in H
  | H : negb _ = false |- _ => apply negb_false_iff in H
  | H : (_ && _)%bool = true |- _ => apply andb_true_iff in H; destruct H
  | H : (_ || _)%bool = false |- _ => apply orb_false_iff in H; destruct H
  end.

(** A closed decidable proposition, by computing its decision. *)
Ltac by_decide := apply (bool_decide_unpack _); vm_compute; exact I.

(** ** Effects

    A computation that changes a state [S] and returns an [A]. *)

Definition io (S A : Type) : Type := S -> A * S.

Definition ret {S A} (a : A) : io S A := fun s => (a, s).

Definition bind {S A B} (m : io S A) (f : A -> io S B) : io S B :=
  fun s => let '(a, s') := m s in f a s'.

Declare Scope salsa_scope.
Delimit Scope salsa_scope with salsa.

Notation "'let*' x ':=' m 'in' f" := (bind m (fun x => f))
  (at level 10, x name, m at level 100, f at level 200) : salsa_scope.
Notation "'let*' ' p ':=' m 'in' f" := (bind m (fun p => f))
  (at level 10, p strict pattern, m at level 100, f at level 200) : salsa_scope.

#[global] Open Scope salsa_scope.

(** ** Booleans as C integers *)

(** The value of a C comparison or of a one-bit field. *)
Definition b2z (b : bool) : Z := if b then 1 else 0.

(** C's truth test on an integer. *)
Definition nz (z : Z) : bool := negb (z =? 0).

(** ** Lists *)

(** The list with its index-[i] element changed by [f]; nothing where [i] is
    out of range. *)
Definition upd {A} (i : Z) (f : A -> A) (l : list A) : list A :=
  alter f (Z.to_nat i) l.

(** Read at a [Z] index, with a default outside the list. *)
Definition nthz {A} (d : A) (l : list A) (i : Z) : A :=
  if i <? 0 then d else nth (Z.to_nat i) l d.

#[global] Arguments nthz : simpl never.
#[global] Arguments upd : simpl never.

(** [zseq a n] is [a, a+1, ..., a+n-1]. *)
Fixpoint zseq (a : Z) (n : nat) : list Z :=
  match n with
  | O => []
  | S n' => a :: zseq (a + 1) n'
  end.

(** ** Lemmas *)

Lemma bind_ret_l {S A B} (a : A) (f : A -> io S B) s : bind (ret a) f s = f a s.
Proof. reflexivity. Qed.

Lemma nz_true z : nz z = true <-> z <> 0.
Proof. unfold nz. rewrite negb_true_iff, Z.eqb_neq. tauto. Qed.

Lemma nz_false z : nz z = false <-> z = 0.
Proof. unfold nz. rewrite negb_false_iff, Z.eqb_eq. tauto. Qed.

Lemma length_upd {A} i (f : A -> A) l : length (upd i f l) = length l.
Proof. apply length_alter. Qed.

Lemma nthz_upd_eq {A} (d : A) l i f :
  0 <= i < Z.of_nat (length l) -> nthz d (upd i f l) i = f (nthz d l i).
Proof.
  intros Hi. unfold nthz, upd.
  destruct (Z.ltb_spec i 0); [lia|].
  destruct (nth_lookup_or_length l (Z.to_nat i) d) as [He|He]; [|lia].
  apply nth_lookup_Some. rewrite list_lookup_alter_eq, He. reflexivity.
Qed.

Lemma nthz_upd_ne {A} (d : A) l i j f :
  0 <= i -> i <> j -> nthz d (upd i f l) j = nthz d l j.
Proof.
  intros Hi Hne. unfold nthz, upd.
  destruct (Z.ltb_spec j 0); [done|].
  rewrite !nth_lookup. rewrite list_lookup_alter_ne by lia. done.
Qed.

Lemma forallb_Forall_eq {A} (f : A -> bool) l :
  forallb f l = true <-> Forall (fun x => f x = true) l.
Proof. rewrite List.forallb_forall, List.Forall_forall. done. Qed.

Lemma forallb_false_lookup {A} (f : A -> bool) l :
  forallb f l = false -> exists n x, l !! n = Some x /\ f x = false.
Proof.
  induction l as [|y l IH]; simpl; [done|].
  destruct (f y) eqn:Hy; simpl; intros H.
  - destruct (IH H) as (n & x & ? & ?). exists (S n), x. done.
  - exists 0%nat, y. done.
Qed.

Lemma zseq_In a n x : In x (zseq a n) <-> a <= x < a + Z.of_nat n.
Proof.
  revert a. induction n as [|n IH]; intros a; simpl; [lia|].
  rewrite IH. lia.
Qed.

Lemma zseq_length a n : length (zseq a n) = n.
Proof. revert a; induction n; simpl; auto. Qed.

Lemma zseq_lookup a n k : (k < n)%nat -> zseq a n !! k = Some (a + Z.of_nat k).
Proof.
  revert a k. induction n as [|n IH]; intros a [|k] Hk; simpl; try lia; [f_equal; lia|].
  rewrite IH by lia. f_equal. lia.
Qed.

Lemma find_zseq f a n i :
  find f (zseq a n) = Some i ->
  a <= i < a + Z.of_nat n /\ f i = true /\ forall j, a <= j < i -> f j = false.
Proof.
  revert a. induction n as [|n IH]; intros a; simpl; [done|].
  destruct (f a) eqn:Ha.
  - intros [= ->]. repeat split; auto; lia.
  - intros (H1 & H2 & H3)%IH. repeat split; auto; try lia.
    intros j Hj. destruct (Z.eq_dec j a) as [->|]; [done|]. apply H3. lia.
Qed.

Lemma find_zseq_none f a n :
  find f (zseq a n) = None -> forall j, a <= j < a + Z.of_nat n -> f j = false.
Proof. intros H j Hj. apply (find_none _ _ H). apply zseq_In. lia. Qed.

Lemma zseq_snoc a n : zseq a (S n) = zseq a n ++ [a + Z.of_nat n].
Proof.
  revert a. induction n as [|n IH]; intros a.
  - simpl. f_equal. lia.
  - change (zseq a (S (S n))) with (a :: zseq (a + 1) (S n)). rewrite IH. simpl.
    do 3 f_equal. lia.
Qed.

Lemma filter_find_zseq f a n i :
  find f (zseq a n) = Some i ->
  List.filter f (zseq a n) = i :: List.filter f (zseq (i + 1) (Z.to_nat (a + Z.of_nat n - (i + 1)))).
Proof.
  revert a. induction n as [|n IH]; intros a; simpl; [done|].
  destruct (f a) eqn:Ha.
  - intros [= ->]. do 3 f_equal. lia.
  - intros H. rewrite (IH _ H). do 4 f_equal. lia.
Qed.

Lemma filter_find_none {A} (f : A -> bool) l : find f l = None -> List.filter f l = [].
Proof. induction l as [|x l IH]; simpl; [done|]. destruct (f x); [done|auto]. Qed.

Lemma Forall2_map_l {A B C} (P : B -> C -> Prop) (f : A -> B) l k :
  Forall2 P (map f l) k -> Forall2 (fun x y => P (f x) y) l k.
Proof.
  revert k. induction l as [|x l IH]; intros k H; inversion H; simplify_eq/=; constructor; auto.
Qed.

Create Rewrite HintDb salsa.
#[export] Hint Rewrite @length_upd zseq_length : salsa.
