(* ===== verification/CInt.v ===== *)
(** * C integers on an LP64 target

    Machine integers are [Z] with the wrap-around written out; [errno] values
    and the limits of the types are the ones of Linux. *)

From S2P Require Import Prelude.

Definition UINT_MAX : Z := 4294967295.
Definition INT_MAX : Z := 2147483647.
Definition INT_MIN : Z := -2147483648.
Definition LONG_MAX : Z := 9223372036854775807.
Definition ULONG_MAX : Z := 18446744073709551615.

(** Conversions to the C types. *)
Definition u8 (z : Z) : Z := z mod 256.
Definition u16 (z : Z) : Z := z mod 65536.
Definition u32 (z : Z) : Z := z mod 4294967296.
Definition u64 (z : Z) : Z := z mod 18446744073709551616.
Definition s32 (z : Z) : Z :=
  let w := u32 z in if w <? 2147483648 then w else w - 4294967296.
Definition s64 (z : Z) : Z :=
  let w := u64 z in if w <? 9223372036854775808 then w else w - 18446744073709551616.

Definition is_u32 (z : Z) : Prop := 0 <= z <= UINT_MAX.
Definition is_u64 (z : Z) : Prop := 0 <= z <= ULONG_MAX.
Definition is_s32 (z : Z) : Prop := INT_MIN <= z <= INT_MAX.
Definition is_s64 (z : Z) : Prop := - LONG_MAX - 1 <= z <= LONG_MAX.

(** errno values *)
Definition ENOENT : Z := 2.
Definition EINTR : Z := 4.
Definition EIO : Z := 5.
Definition ENXIO : Z := 6.
Definition EBADF : Z := 9.
Definition EAGAIN : Z := 11.
Definition ENOMEM : Z := 12.
Definition EBUSY : Z := 16.
Definition ENODEV : Z := 19.
Definition EINVAL : Z := 22.
Definition ENOTTY : Z := 25.
Definition EPIPE : Z := 32.
Definition ENOSYS : Z := 38.
Definition EBADFD : Z := 77.
Definition ESTRPIPE : Z := 86.

#[global] Instance is_u32_dec z : Decision (is_u32 z).
Proof. unfold is_u32. apply _. Defined.
#[global] Instance is_u64_dec z : Decision (is_u64 z).
Proof. unfold is_u64. apply _. Defined.
#[global] Instance is_s32_dec z : Decision (is_s32 z).
Proof. unfold is_s32. apply _. Defined.

(** ** Lemmas *)

Lemma u32_range z : is_u32 (u32 z).
Proof. unfold is_u32, u32, UINT_MAX. pose proof (Z.mod_pos_bound z 4294967296). lia. Qed.

Lemma u32_id z : is_u32 z -> u32 z = z.
Proof. unfold is_u32, u32, UINT_MAX. intros. apply Z.mod_small. lia. Qed.

Lemma u64_range z : is_u64 (u64 z).
Proof.
  unfold is_u64, u64, ULONG_MAX. pose proof (Z.mod_pos_bound z 18446744073709551616). lia.
Qed.

Lemma u64_id z : is_u64 z -> u64 z = z.
Proof. unfold is_u64, u64, ULONG_MAX. intros. apply Z.mod_small. lia. Qed.

Lemma u8_range z : 0 <= u8 z < 256.
Proof. unfold u8. apply Z.mod_pos_bound. lia. Qed.

Lemma s32_range z : is_s32 (s32 z).
Proof.
  unfold is_s32, s32, INT_MIN, INT_MAX. pose proof (u32_range z) as H. unfold is_u32, UINT_MAX in H.
  destruct (Z.ltb_spec (u32 z) 2147483648); lia.
Qed.

Lemma s32_id z : is_s32 z -> s32 z = z.
Proof.
  unfold is_s32, s32, u32, INT_MIN, INT_MAX. intros H.
  destruct (Z.lt_ge_cases z 0).
  - assert (z mod 4294967296 = z + 4294967296) as ->.
    { symmetry. apply Z.mod_unique_pos with (q := -1); lia. }
    destruct (Z.ltb_spec (z + 4294967296) 2147483648); lia.
  - rewrite Z.mod_small by lia. destruct (Z.ltb_spec z 2147483648); lia.
Qed.

Lemma u64_mod z k : u64 (z + k * 18446744073709551616) = u64 z.
Proof. unfold u64. apply Z.mod_add. lia. Qed.

Lemma s64_u64 z : s64 (u64 z) = s64 z.
Proof. unfold s64. rewrite (u64_id (u64 z)); [done|apply u64_range]. Qed.

Lemma s64_id z : is_s64 z -> s64 z = z.
Proof.
  unfold is_s64, s64, u64, LONG_MAX. intros H.
  destruct (Z.lt_ge_cases z 0).
  - assert (z mod 18446744073709551616 = z + 18446744073709551616) as ->.
    { symmetry. apply Z.mod_unique_pos with (q := -1); lia. }
    destruct (Z.ltb_spec (z + 18446744073709551616) 9223372036854775808); lia.
  - rewrite Z.mod_small by lia. destruct (Z.ltb_spec z 9223372036854775808); lia.
Qed.

Lemma s64_range z : is_s64 (s64 z).
Proof.
  unfold is_s64, s64, LONG_MAX. pose proof (u64_range z) as H. unfold is_u64, ULONG_MAX in H.
  destruct (Z.ltb_spec (u64 z) 9223372036854775808); lia.
Qed.

(** Testing a bit of a value cut to 32 bits. *)
Lemma u32_testbit z i : 0 <= i < 32 -> Z.testbit (u32 z) i = Z.testbit z i.
Proof.
  intros Hi. unfold u32. change 4294967296 with (2 ^ 32).
  rewrite Z.mod_pow2_bits_low by lia. done.
Qed.

(** Complement of a 32-bit value. *)
Lemma compl32_testbit x i :
  is_u32 x -> 0 <= i < 32 -> Z.testbit (UINT_MAX - x) i = negb (Z.testbit x i).
Proof.
  intros Hx Hi. rewrite <- Z.lnot_spec, <- (u32_testbit (Z.lnot x)) by lia.
  unfold is_u32, u32, UINT_MAX, Z.lnot in *. f_equal.
  symmetry. rewrite <- (Z.mod_add _ 1) by lia. rewrite Z.mod_small; lia.
Qed.

(** Two 32-bit values with the same bits are equal. *)
Lemma u32_bits_inj a b :
  is_u32 a -> is_u32 b ->
  (forall i, 0 <= i < 32 -> Z.testbit a i = Z.testbit b i) -> a = b.
Proof.
  unfold is_u32, UINT_MAX. intros Ha Hb H. apply Z.bits_inj'. intros n Hn.
  destruct (Z.lt_ge_cases n 32) as [Hlt|Hge]; [auto|].
  rewrite <- (Z.mod_small a (2 ^ 32)), <- (Z.mod_small b (2 ^ 32)) by lia.
  rewrite !Z.mod_pow2_bits_high by lia. done.
Qed.

Lemma land_u32 a b : is_u32 a -> is_u32 b -> is_u32 (Z.land a b).
Proof.
  unfold is_u32, UINT_MAX. intros Ha Hb. split; [apply Z.land_nonneg; lia|].
  enough (Z.land a b < 2 ^ 32) by lia.
  destruct (Z.eq_dec (Z.land a b) 0) as [->|Hne]; [lia|].
  assert (0 < Z.land a b) by (pose proof (proj2 (Z.land_nonneg a b)); lia).
  apply Z.log2_lt_pow2; [lia|].
  destruct (Z.eq_dec a 0) as [->|]; [done|].
  pose proof (Z.log2_land a b). assert (Z.log2 a < 32) by (apply Z.log2_lt_pow2; lia). lia.
Qed.

Lemma lor_u32 a b : is_u32 a -> is_u32 b -> is_u32 (Z.lor a b).
Proof.
  unfold is_u32, UINT_MAX. intros Ha Hb. split; [apply Z.lor_nonneg; lia|].
  enough (Z.lor a b < 2 ^ 32) by lia.
  destruct (Z.eq_dec (Z.lor a b) 0) as [->|Hne]; [lia|].
  assert (0 <= Z.lor a b) by (apply Z.lor_nonneg; lia).
  apply Z.log2_lt_pow2; [lia|]. rewrite Z.log2_lor by lia.
  assert (forall x, 0 <= x <= 4294967295 -> Z.log2 x < 32) as Hl.
  { intros x Hx. destruct (Z.eq_dec x 0) as [->|]; [done|]. apply Z.log2_lt_pow2; lia. }
  pose proof (Hl a Ha). pose proof (Hl b Hb). lia.
Qed.

#[export] Hint Resolve u32_range u64_range s32_range land_u32 lor_u32 : salsa.
#[export] Hint Rewrite u32_id u64_id s32_id using (first [assumption | auto with salsa]) : salsa.
