(* ===== verification/Sys.v ===== *)
(** * The operating system

    The system calls and the C library's allocation functions, as far as the
    library sees them.  [Os K] is the interface: what each call answers and how
    it changes the system's state [K] is a parameter of the model.  A call
    returns its value, or the negative [errno] where it fails, which is how the
    sources turn every failure into a result ([return -errno]).

    [world] adds a ledger of the resources the library holds: a successful
    [open], [mmap] or allocation enters it, [close], [munmap] and [free] remove
    the entry.  The theorems on leaks are about this ledger. *)

From stdpp Require Export strings.
From S2P Require Import Prelude CInt.

Inductive resource :=
  | RFd (fd : Z)
  | RMap (addr size : Z)
  | RMem (addr : Z).

#[global] Instance resource_eq_dec : EqDecision resource.
Proof. solve_decision. Defined.

(** The events of [poll]. *)
Definition POLLIN : Z := 1.
Definition POLLOUT : Z := 4.
Definition POLLERR : Z := 8.
Definition POLLNVAL : Z := 32.

Class Os (K : Type) := {
  os_open : string -> Z -> io K Z;
  os_close : Z -> io K Z;
  os_setfl : Z -> Z -> io K Z;
  os_getfl : Z -> io K Z;
  os_access_ok : string -> io K bool;
  os_mmap : Z -> Z -> Z -> io K Z;        (* size, fd, offset *)
  os_munmap : Z -> Z -> io K Z;           (* address, size *)
  os_alloc : Z -> list resource -> io K (option Z);  (* malloc, calloc, strdup; what is held *)
  os_poll : Z -> Z -> Z -> io K (Z * Z);  (* fd, events, timeout; result, revents *)
  os_sleep : Z -> io K unit;
  os_page_size : Z
}.

(** What the library relies on: pages have a size, a new mapping is at an address that
    is neither NULL nor taken, a mapping can be undone, and a new block is neither at NULL
    nor a block that is held. *)
Class OsLaws (K : Type) `{!Os K} := {
  taken : K -> Z -> Prop;
  page_size_pos : 0 < @os_page_size K _ <= INT_MAX;
  mmap_law size fd offset k p k' :
    os_mmap size fd offset k = (p, k') ->
    (forall a, taken k a -> taken k' a) /\ (0 <= p -> p <> 0 /\ ~ taken k p /\ taken k' p);
  munmap_law addr size k : 0 <= (os_munmap addr size k).1;
  alloc_law size l k a k' : os_alloc size l k = (Some a, k') -> 0 < a /\ RMem a ∉ l
}.

Record world (K : Type) := World { ker : K; held : list resource }.
Arguments World {K}.
Arguments ker {K}.
Arguments held {K}.

(** Remove one entry. *)
Fixpoint release (r : resource) (l : list resource) : list resource :=
  match l with
  | [] => []
  | x :: l => if decide (x = r) then l else x :: release r l
  end.

Section Calls.
Context {K : Type} `{!Os K}.

(** A call that neither takes nor gives a resource. *)
Definition lift {A} (m : io K A) : io (world K) A :=
  fun w => let '(a, k) := m (ker w) in (a, World k (held w)).

Definition acquire (r : resource) : io (world K) unit :=
  fun w => (tt, World (ker w) (r :: held w)).

Definition drop_resource (r : resource) : io (world K) unit :=
  fun w => (tt, World (ker w) (release r (held w))).

Definition sys_open (name : string) (flags : Z) : io (world K) Z :=
  let* fd := lift (os_open name flags) in
  if fd <? 0 then ret fd
  else let* _ := acquire (RFd fd) in ret fd.

Definition sys_close (fd : Z) : io (world K) Z :=
  let* _ := drop_resource (RFd fd) in lift (os_close fd).

(** A negative result is [MAP_FAILED] with its errno. *)
Definition sys_mmap (size fd offset : Z) : io (world K) Z :=
  let* p := lift (os_mmap size fd offset) in
  if p <? 0 then ret p
  else let* _ := acquire (RMap p size) in ret p.

(** [munmap] may fail; the mapping is then still there. *)
Definition sys_munmap (addr size : Z) : io (world K) Z :=
  let* r := lift (os_munmap addr size) in
  if r <? 0 then ret r
  else let* _ := drop_resource (RMap addr size) in ret r.

Definition sys_alloc (size : Z) : io (world K) (option Z) :=
  let* p := fun w => lift (os_alloc size (held w)) w in
  match p with
  | None => ret None
  | Some a => let* _ := acquire (RMem a) in ret (Some a)
  end.

(** [realloc]: the old block is given back for the new one, which may be in its place;
    where there is no room nothing changes. *)
Definition sys_realloc (old size : Z) : io (world K) (option Z) := fun w =>
  let rest := if nz old then release (RMem old) (held w) else held w in
  let '(p, k) := os_alloc size rest (ker w) in
  match p with
  | None => (None, World k (held w))
  | Some a => (Some a, World k (RMem a :: rest))
  end.

Definition sys_free (addr : Z) : io (world K) unit := drop_resource (RMem addr).
End Calls.

(** ** Lemmas *)

Lemma release_head r l : release r (r :: l) = l.
Proof. simpl. rewrite decide_True; done. Qed.

Lemma release_next r x l : x <> r -> release r (x :: l) = x :: release r l.
Proof. intros. simpl. rewrite decide_False; done. Qed.

Lemma release_permutation r l : r ∈ l -> r :: release r l ≡ₚ l.
Proof.
  induction l as [|x l IH]; simpl; [intros []%elem_of_nil|].
  destruct (decide (x = r)) as [->|Hne]; [done|].
  intros [->|Hin]%elem_of_cons; [done|].
  rewrite (Permutation_swap x r). constructor. auto.
Qed.

#[export] Instance release_proper r : Proper ((≡ₚ) ==> (≡ₚ)) (release r).
Proof.
  intros l l' H. induction H as [|x l l' H IH|x y l|l l' l'' H1 IH1 H2 IH2]; simpl.
  - done.
  - destruct (decide (x = r)); [done|]. constructor. done.
  - destruct (decide (y = r)) as [->|], (decide (x = r)) as [->|]; try done. constructor.
  - etransitivity; eauto.
Qed.

Create Rewrite HintDb release.
#[export] Hint Rewrite release_head : release.

(** ** Calls that give back what they take *)

Section Balanced.
Context {K : Type} `{!Os K}.

Definition balanced {A} (m : io (world K) A) : Prop := forall w, held (m w).2 = held w.

Lemma balanced_ret {A} (a : A) : balanced (ret a).
Proof. intros w. done. Qed.

Lemma balanced_bind {A B} (m : io (world K) A) (f : A -> io (world K) B) :
  balanced m -> (forall a, balanced (f a)) -> balanced (bind m f).
Proof.
  intros Hm Hf w. unfold bind. specialize (Hm w). destruct (m w) as [a w1]. simpl in Hm.
  rewrite (Hf a w1). done.
Qed.

Lemma balanced_lift {A} (m : io K A) : balanced (lift m).
Proof. intros w. unfold lift. destruct (m (ker w)). done. Qed.

Lemma alloc_spec n (w : world K) :
  let '(r, w') := sys_alloc n w in
  held w' = match r with Some a => RMem a :: held w | None => held w end.
Proof.
  unfold sys_alloc, bind, lift. destruct (os_alloc n (held w) (ker w)) as [[a|] k]; done.
Qed.

Lemma sys_open_spec name flags (w : world K) :
  let '(fd, w') := sys_open name flags w in
  held w' = if fd <? 0 then held w else RFd fd :: held w.
Proof.
  unfold sys_open, bind, lift. destruct (os_open name flags (ker w)) as [fd k].
  destruct (fd <? 0) eqn:Hfd; simpl; rewrite Hfd; done.
Qed.

Lemma sys_close_spec fd (w : world K) :
  let '(_, w') := sys_close fd w in held w' = release (RFd fd) (held w).
Proof. unfold sys_close, bind, lift, drop_resource. simpl. destruct (os_close fd _). done. Qed.
End Balanced.

Create HintDb balanced.
#[export] Hint Resolve balanced_ret balanced_lift : balanced.

(** Follow the shape of the computation. *)
Ltac balanced_tac :=
  repeat first
    [ solve [auto with balanced]
    | apply balanced_bind; [|intros ?]
    | match goal with |- balanced (match ?x with _ => _ end) => destruct x end ].
