(* ===== verification/Cards.v ===== *)
(** * Cards and device names

    src/src/cards.c: the enumeration of cards, the card information, the opening
    of a given subdevice and the parsing of device names; the C library's [sscanf]
    for the two formats they use.  A failing call's negative result stands for
    [-errno]; a successful [close] does not touch [errno]. *)

From stdpp Require Import pretty strings.
From Stdlib Require Import Ascii String.
From S2P Require Import Prelude CInt Sys.
#[local] Open Scope Z_scope.

(** The directory of the device files, set by configure (its default), and the
    limits of src/src/local.h. *)
Definition SALSA_DEVPATH : string := "/dev/snd".
(* [local.h 4-4 SALSA_MAX_CARDS] *)
Definition SALSA_MAX_CARDS : Z := 32.
(* [local.h 5-5 SALSA_MAX_DEVICES] *)
Definition SALSA_MAX_DEVICES : Z := 32.

Definition O_RDONLY : Z := 0.
Definition O_WRONLY : Z := 1.
Definition O_RDWR : Z := 2.
Definition O_ACCMODE : Z := 3.
Definition O_NONBLOCK : Z := 2048.
Definition O_APPEND : Z := 1024.
Definition O_ASYNC : Z := 8192.
Definition O_SYNC : Z := 1052672.

(** ** Strings of the C library *)

Definition code (c : ascii) : Z := Z.of_nat (nat_of_ascii c).

Definition isspace (c : ascii) : bool :=
  (code c =? 32) || ((9 <=? code c) && (code c <=? 13)).

Fixpoint skip_space (s : string) : string :=
  match s with
  | String c s' => if isspace c then skip_space s' else s
  | EmptyString => s
  end.

(** The value of a digit in a base up to 16. *)
Definition digit (base : Z) (c : ascii) : option Z :=
  let n := code c in
  let v := if (48 <=? n) && (n <=? 57) then n - 48
           else if (97 <=? n) && (n <=? 102) then n - 87
           else if (65 <=? n) && (n <=? 70) then n - 55
           else 99 in
  if v <? base then Some v else None.

(** The longest run of digits: its value, what follows, and whether there was one. *)
Fixpoint digits (base : Z) (s : string) (acc : Z) (seen : bool) : option (Z * string) :=
  match s with
  | String c s' =>
      match digit base c with
      | Some v => digits base s' (acc * base + v) true
      | None => if seen then Some (acc, s) else None
      end
  | EmptyString => if seen then Some (acc, s) else None
  end.

(** A number is saturated to [long] and stored in an [int]. *)
Definition to_int (neg : bool) (v : Z) : Z :=
  let v := if neg then - v else v in
  s32 (if LONG_MAX <? v then LONG_MAX else if v <? - LONG_MAX - 1 then - LONG_MAX - 1 else v).

Definition signed (s : string) : bool * string :=
  match s with
  | String "-" s' => (true, s')
  | String "+" s' => (false, s')
  | _ => (false, s)
  end.

(** The conversion [%d]. *)
Definition scan_d (s : string) : option (Z * string) :=
  let '(neg, s) := signed (skip_space s) in
  match digits 10 s 0 false with
  | Some (v, rest) => Some (to_int neg v, rest)
  | None => None
  end.

(** The conversion [%i]: the base follows from the prefix. *)
Definition scan_i (s : string) : option (Z * string) :=
  let '(neg, s) := signed (skip_space s) in
  let '(base, s) :=
    match s with
    | String "0" (String "x" s') => (16, s')
    | String "0" (String "X" s') => (16, s')
    | String "0" _ => (8, s)
    | _ => (10, s)
    end in
  match digits base s 0 false with
  | Some (v, rest) => Some (to_int neg v, rest)
  | None => None
  end.

(** [sscanf(s, ",%d,%d", d1, d2)]: the numbers assigned. *)
Definition scan_comma_dd (s : string) : option Z * option Z :=
  match s with
  | String "," s =>
      match scan_d s with
      | Some (d1, String "," s) =>
          match scan_d s with
          | Some (d2, _) => (Some d1, Some d2)
          | None => (Some d1, None)
          end
      | Some (d1, _) => (Some d1, None)
      | None => (None, None)
      end
  | _ => (None, None)
  end.

(** [strchr]: the string from the first occurrence on. *)
Fixpoint strchr (s : string) (c : ascii) : option string :=
  match s with
  | String x s' => if Ascii.eqb x c then Some s else strchr s' c
  | EmptyString => None
  end.

(** What follows a prefix ([strncmp] and the advance of the pointer). *)
Fixpoint after_prefix (p s : string) : option string :=
  match p, s with
  | EmptyString, _ => Some s
  | String x p, String y s => if Ascii.eqb x y then after_prefix p s else None
  | _, _ => None
  end.

(** ** Operations *)

Record snd_ctl_card_info_t := CardInfo {
  ci_card : Z;
  ci_id : string;
  ci_driver : string;
  ci_name : string;
  ci_longname : string;
  ci_mixername : string;
  ci_components : string
}.

Definition no_card_info : snd_ctl_card_info_t := CardInfo 0 "" "" "" "" "" "".

Inductive prefer_ioctl := PcmPreferSubdevice | RawmidiPreferSubdevice.

Class CardKernel (K : Type) := {
  ioctl_card_info : Z -> io K (Z * snd_ctl_card_info_t);
  ioctl_prefer : prefer_ioctl -> Z -> Z -> io K Z
}.

(* [cards.c 50-53 fill_control_name] *)
Definition control_name (card : Z) : string :=
  String.append SALSA_DEVPATH (String.append "/controlC" (pretty card)).

Section Cards.
Context {K : Type} `{!Os K, !CardKernel K}.

(* [cards.c 35-48 _snd_set_nonblock] *)
Definition _snd_set_nonblock (fd nonblock : Z) : io (world K) Z :=
  let* flags := lift (os_getfl fd) in
  if flags <? 0 then ret flags
  else
    let flags := if nz nonblock then Z.lor flags O_NONBLOCK
                 else Z.land flags (Z.lnot O_NONBLOCK) in
    let* r := lift (os_setfl fd flags) in
    ret (if r <? 0 then r else 0).

(* [cards.c 55-60 snd_card_load] *)
Definition snd_card_load (card : Z) : io (world K) bool :=
  lift (os_access_ok (control_name card)).

Fixpoint card_next_loop (n : nat) (card : Z) : io (world K) Z :=
  match n with
  | O => ret (-1)
  | S n =>
      let* ok := snd_card_load card in
      if ok : bool then ret card else card_next_loop n (card + 1)
  end.

(** The card number is given and returned with the code; [None] is NULL. *)
(* [cards.c 62-78 snd_card_next] *)
Definition snd_card_next (rcard : option Z) : io (world K) (Z * option Z) :=
  match rcard with
  | None => ret (- EINVAL, None)
  | Some card =>
      let card := if card <? 0 then 0 else card + 1 in
      let* next := card_next_loop (Z.to_nat (SALSA_MAX_CARDS - card)) card in
      ret (0, Some next)
  end.

(** [errno0] is the [errno] left by earlier calls: it is what the function
    returns, negated, where no call of its own failed. *)
(* [cards.c 81-97 _snd_open_subdev] *)
Definition _snd_open_subdev (errno0 : Z) (filename : string) (fmode card subdev : Z)
  (prefer : prefer_ioctl) : io (world K) Z :=
  let* ctl := sys_open (control_name card) O_RDWR in
  if ctl <? 0 then ret ctl
  else
    let* r := lift (ioctl_prefer prefer ctl subdev) in
    let* fd := if 0 <=? r then ret (- errno0) else sys_open filename fmode in
    let* _ := sys_close ctl in
    ret fd.

(* [cards.c 99-113 load_card_info] *)
Definition load_card_info (control : string) : io (world K) (Z * snd_ctl_card_info_t) :=
  let* open_dev := sys_open control O_RDONLY in
  if open_dev <? 0 then ret (open_dev, no_card_info)
  else
    let* '(r, info) := lift (ioctl_card_info open_dev) in
    let* _ := sys_close open_dev in
    ret (if r <? 0 then (r, info) else (0, info)).

(* [cards.c 115-122 snd_card_load2] *)
Definition snd_card_load2 (control : string) : io (world K) Z :=
  let* '(err, info) := load_card_info control in
  ret (if err <? 0 then err else ci_card info).

(* [cards.c 124-129 get_card_info] *)
Definition get_card_info (card : Z) : io (world K) (Z * snd_ctl_card_info_t) :=
  load_card_info (control_name card).

Fixpoint card_index_loop (n : nat) (card : Z) (id : string) : io (world K) Z :=
  match n with
  | O => ret (- ENODEV)
  | S n =>
      let* '(err, info) := get_card_info card in
      if err <? 0 then card_index_loop n (card + 1) id
      else if String.eqb (ci_id info) id then ret card
      else card_index_loop n (card + 1) id
  end.

(* [cards.c 131-154 snd_card_get_index] *)
Definition snd_card_get_index (string : option string) : io (world K) Z :=
  match string with
  | None | Some EmptyString => ret (- EINVAL)
  | Some (String c _ as s) =>
      if Ascii.eqb c "/" then snd_card_load2 s
      else
        match scan_i s with
        | Some (card, _) =>
            if (card <? 0) || (SALSA_MAX_CARDS <=? card) then ret (- EINVAL)
            else
              let* ok := snd_card_load card in
              ret (if ok : bool then card else - ENODEV)
        | None => card_index_loop (Z.to_nat SALSA_MAX_CARDS) 0 s
        end
  end.

(** A [strdup] that succeeds gives a new block, held by the caller. *)
(* [cards.c 156-168 snd_card_get_name] *)
Definition snd_card_get_name (card : Z) : io (world K) (Z * option (Z * string)) :=
  let* '(err, info) := get_card_info card in
  if err <? 0 then ret (err, None)
  else
    let* p := sys_alloc (Z.of_nat (String.length (ci_name info)) + 1) in
    ret (match p with None => (- ENOMEM, None) | Some a => (0, Some (a, ci_name info)) end).

(* [cards.c 170-182 snd_card_get_longname] *)
Definition snd_card_get_longname (card : Z) : io (world K) (Z * option (Z * string)) :=
  let* '(err, info) := get_card_info card in
  if err <? 0 then ret (err, None)
  else
    let* p := sys_alloc (Z.of_nat (String.length (ci_longname info)) + 1) in
    ret (match p with None => (- ENOMEM, None) | Some a => (0, Some (a, ci_longname info)) end).

(** The prefixes that are accepted. *)
Definition strip_device_prefix (name : string) : option string :=
  match after_prefix "hw:" name with
  | Some s => Some s
  | None =>
      match after_prefix "default:" name with
      | Some s => Some s
      | None => after_prefix "sysdefault:" name
      end
  end.

(** [want_dev] and [want_sub] tell whether the pointers for the device and the
    subdevice are not NULL; the results are the values stored. *)
(* [cards.c 187-220 _snd_dev_get_device] *)
Definition _snd_dev_get_device (name : string) (want_dev want_sub : bool)
  : io (world K) (Z * (Z * Z * Z)) :=
  if String.eqb name "hw" || String.eqb name "default" || String.eqb name "sysdefault"
  then ret (0, (0, 0, -1))
  else
    match strip_device_prefix name with
    | None => ret (- EINVAL, (0, 0, -1))
    | Some name =>
        let* card := snd_card_get_index (Some name) in
        if card <? 0 then ret (card, (0, 0, -1))
        else if want_dev && want_sub then
          match strchr name "," with
          | None => ret (0, (card, 0, -1))
          | Some args =>
              let '(d, s) := scan_comma_dd args in
              let dev := default 0 d in
              let sub := default (-1) s in
              ret (if (dev <? 0) || (SALSA_MAX_DEVICES <=? dev) then (- EINVAL, (card, dev, sub))
                   else (0, (card, dev, sub)))
          end
        else ret (0, (card, 0, -1))
    end.
End Cards.

(** ** Theorems *)

Section CardTheorems.
Context {K : Type} `{!Os K, !CardKernel K}.

(** The device names a user writes. *)
Definition device_name (prefix : string) (card dev sub : Z) : string :=
  String.append prefix (String.append (pretty card) (String.append ","
    (String.append (pretty dev) (String.append "," (pretty sub))))).

(** A card number before a comma, and the two numbers after it, read back. *)
Lemma scan_card card rest :
  0 <= card < 32 ->
  let text := String.append (pretty card) (String "," rest) in
  scan_i text = Some (card, String "," rest) /\ strchr text "," = Some (String "," rest) /\
  exists c text', text = String c text' /\ Ascii.eqb c "/" = false.
Proof.
  intros Hc. assert (Hin : In card (zseq 0 32)) by (apply zseq_In; lia).
  simpl in Hin. repeat destruct Hin as [<-|Hin]; try destruct Hin;
    (split; [reflexivity|split; [reflexivity|eexists _, _; split; reflexivity]]).
Qed.

Lemma scan_dev_sub dev sub :
  0 <= dev < 32 -> 0 <= sub < 32 ->
  scan_comma_dd (String "," (String.append (pretty dev) (String "," (pretty sub)))) = (Some dev, Some sub).
Proof.
  intros Hd Hs.
  assert (H : forallb (fun d => forallb (fun s =>
    bool_decide (scan_comma_dd (String "," (String.append (pretty d) (String "," (pretty s)))) =
      (Some d, Some s))) (zseq 0 32)) (zseq 0 32) = true) by (vm_compute; reflexivity).
  rewrite List.forallb_forall in H. specialize (H dev ltac:(apply zseq_In; lia)).
  rewrite List.forallb_forall in H. specialize (H sub ltac:(apply zseq_In; lia)).
  apply bool_decide_eq_true_1 in H. done.
Qed.

Lemma after_prefix_append p s : after_prefix p (String.append p s) = Some s.
Proof. induction p as [|c p IH]; simpl; [done|]. rewrite Ascii.eqb_refl. done. Qed.

Lemma strip_prefix_of prefix s :
  prefix ∈ ["hw:"; "default:"; "sysdefault:"]%string ->
  strip_device_prefix (String.append prefix s) = Some s /\
  (String.eqb (String.append prefix s) "hw" || String.eqb (String.append prefix s) "default" ||
   String.eqb (String.append prefix s) "sysdefault") = false.
Proof.
  intros H. rewrite !elem_of_cons, elem_of_nil in H.
  destruct H as [->|[->|[->|[]]]]; split; done.
Qed.

(** Device names read back: "hw:C,D,S" (and the same after "default:" and
    "sysdefault:"), printed from a present card and a device and a subdevice in
    range, is parsed to that card, device and subdevice. *)
Theorem dev_get_device_roundtrip (prefix : string) (card dev sub : Z) (w : world K) (k : K) :
  prefix ∈ ["hw:"; "default:"; "sysdefault:"]%string ->
  0 <= card < SALSA_MAX_CARDS -> 0 <= dev < SALSA_MAX_DEVICES -> 0 <= sub < 32 ->
  os_access_ok (control_name card) (ker w) = (true, k) ->
  (_snd_dev_get_device (device_name prefix card dev sub) true true w).1 = (0, (card, dev, sub)).
Proof.
  intros Hp Hc Hd Hs Hacc. unfold SALSA_MAX_CARDS, SALSA_MAX_DEVICES in *.
  set (args := String "," (String.append (pretty dev) (String "," (pretty sub)))).
  assert (Hname : device_name prefix card dev sub =
    String.append prefix (String.append (pretty card) args)) by done.
  rewrite Hname. set (text := String.append (pretty card) args).
  destruct (strip_prefix_of prefix text Hp) as [Hstrip Hne].
  destruct (scan_card card (String.append (pretty dev) (String "," (pretty sub))) Hc)
    as (Hscan & Hchr & c & text' & Htext & Hsl).
  unfold _snd_dev_get_device. rewrite Hne, Hstrip. fold args in Hscan, Hchr, Htext. fold text in Hscan, Hchr, Htext.
  unfold bind, snd_card_get_index, ret. rewrite Htext, Hsl, <- Htext, Hscan.
  unfold SALSA_MAX_CARDS, SALSA_MAX_DEVICES, bind, snd_card_load, lift.
  destruct (Z.ltb_spec card 0); [lia|]. destruct (Z.leb_spec 32 card); [lia|].
  cbn [orb]. rewrite Hacc. destruct (Z.ltb_spec card 0); [lia|].
  simpl andb. cbv iota. rewrite Hchr. unfold args. rewrite scan_dev_sub by done.
  simpl. rewrite (proj2 (Z.ltb_ge dev 0)), (proj2 (Z.leb_gt 32 dev)) by lia. done.
Qed.

(** Without a pointer for the subdevice (the hwdep interface), the device
    part of a name is not parsed: whatever the name and the system, the device is 0. *)
Theorem dev_get_device_no_subdev (name : string) (w : world K) :
  (_snd_dev_get_device name true false w).1.2.1.2 = 0.
Proof.
  unfold _snd_dev_get_device, bind, ret. destruct (_ || _); [done|].
  destruct (strip_device_prefix name) as [s|]; [|done].
  destruct (snd_card_get_index (Some s) w) as [card w']. destruct (card <? 0); done.
Qed.

(** ** Enumeration of cards *)

(** The loop every client writes: [card = -1; while (snd_card_next(&card) >= 0 &&
    card >= 0) visit(card);]. *)
Fixpoint visit_cards (fuel : nat) (card : Z) : io (world K) (option (list Z)) :=
  match fuel with
  | O => ret None
  | S fuel =>
      let* '(err, next) := snd_card_next (Some card) in
      match next with
      | Some card =>
          if (0 <=? err) && (0 <=? card) then
            let* rest := visit_cards fuel card in
            ret (option_map (cons card) rest)
          else ret (Some [])
      | None => ret (Some [])
      end
  end.

Context (present : Z -> bool).
Context (Hpresent : forall c k, os_access_ok (control_name c) k = (present c, k)).

Lemma card_load_present c w : snd_card_load c w = (present c, w).
Proof using Hpresent.
  unfold snd_card_load, lift. rewrite Hpresent. destruct w. done.
Qed.

Lemma card_next_loop_spec n c w :
  card_next_loop n c w = (default (-1) (find present (zseq c n)), w).
Proof using Hpresent.
  revert c. induction n as [|n IH]; intros c; simpl; [done|].
  unfold bind. rewrite card_load_present. destruct (present c); [done|]. apply IH.
Qed.

Lemma visit_cards_spec fuel c w :
  -1 <= c < 32 -> 32 - c <= Z.of_nat fuel ->
  visit_cards fuel c w =
    (Some (List.filter present (zseq (c + 1) (Z.to_nat (32 - (c + 1))))), w).
Proof using Hpresent.
  revert c. induction fuel as [|fuel IH]; intros c Hc Hf; [lia|].
  simpl. unfold bind, snd_card_next, ret.
  replace (if c <? 0 then 0 else c + 1) with (c + 1) by (destruct (Z.ltb_spec c 0); lia).
  unfold bind. rewrite card_next_loop_spec. unfold SALSA_MAX_CARDS.
  destruct (find present _) as [c'|] eqn:Hfind; simpl.
  - pose proof (filter_find_zseq _ _ _ _ Hfind) as Hfil.
    apply find_zseq in Hfind as (Hr & Hp & Hlow). destruct (Z.leb_spec 0 c'); [|lia].
    rewrite IH by lia. simpl. rewrite Hfil. do 6 f_equal. lia.
  - rewrite filter_find_none; done.
Qed.

(** Walking the cards with [snd_card_next] from -1 ends, and visits exactly
    the cards present among the first 32, each once and in order. *)
Theorem card_next_enumerates (w : world K) :
  visit_cards 33 (-1) w = (Some (List.filter present (zseq 0 (Z.to_nat SALSA_MAX_CARDS))), w).
Proof using Hpresent. apply (visit_cards_spec 33 (-1) w); lia. Qed.
End CardTheorems.

(** ** Opening a subdevice *)

Section OpenSubdev.
Context {K : Type} `{!Os K, !CardKernel K}.

(** [_snd_open_subdev] has its test inverted: where the control device takes
    the preference, the device file is not opened at all and the result is the
    negated [errno] of some earlier call (0 where there was none, which callers
    take for descriptor 0); the file is opened only where the preference was
    refused.  In both cases the control descriptor is closed again. *)
Theorem open_subdev_inverted (errno0 : Z) (filename : string) (fmode card subdev : Z)
  (prefer : prefer_ioctl) (w w1 : world K) (ctl r : Z) (k : K) :
  sys_open (control_name card) O_RDWR w = (ctl, w1) -> 0 <= ctl ->
  ioctl_prefer prefer ctl subdev (ker w1) = (r, k) ->
  let '(res, w') := _snd_open_subdev errno0 filename fmode card subdev prefer w in
  if 0 <=? r then res = - errno0 /\ held w' = held w
  else res = (sys_open filename fmode (World k (held w1))).1 /\
    held w' ≡ₚ (if res <? 0 then held w else RFd res :: held w).
Proof.
  intros Hopen Hctl Hpref. unfold _snd_open_subdev, bind at 1. rewrite Hopen.
  destruct (Z.ltb_spec ctl 0); [lia|]. unfold bind, lift. rewrite Hpref.
  assert (Hw1 : held w1 = RFd ctl :: held w).
  { unfold sys_open, bind, lift, acquire, ret in Hopen.
    destruct (os_open _ _ (ker w)) as [fd k']. destruct (fd <? 0) eqn:Hfd; injection Hopen as <- <-.
    - zbool. lia.
    - done. }
  destruct (0 <=? r).
  - unfold ret, sys_close, bind, drop_resource, lift. simpl. rewrite Hw1.
    destruct (os_close _ _) as [c k']. simpl. rewrite decide_True by done. done.
  - unfold sys_open, sys_close, bind, drop_resource, lift, acquire, ret. simpl. rewrite Hw1.
    destruct (os_open filename fmode k) as [fd k'] eqn:Hfd.
    destruct (Z.ltb_spec fd 0) as [Hneg|Hpos]; simpl;
      destruct (os_close _ _) as [c k'']; simpl; split; auto.
    + destruct (Z.ltb_spec fd 0); [|lia]. rewrite decide_True by done. done.
    + destruct (Z.ltb_spec fd 0); [lia|]. destruct (decide (RFd fd = RFd ctl)) as [[= ->]|];
        [done|]. rewrite decide_True by done. done.
Qed.
End OpenSubdev.

(** ** What the lookups take, they give back *)

Section Balance.
Context {K : Type} `{!Os K, !CardKernel K}.

Lemma balanced_load_card_info control : balanced (load_card_info (K := K) control).
Proof.
  unfold load_card_info. intros w. unfold bind at 1. pose proof (sys_open_spec control O_RDONLY w) as Ho.
  destruct (sys_open control O_RDONLY w) as [fd w1]. destruct (fd <? 0); [done|].
  unfold bind, lift. destruct (ioctl_card_info fd (ker w1)) as [[r info] k].
  pose proof (sys_close_spec fd (World k (held w1))) as Hc.
  destruct (sys_close fd _) as [c w3]. unfold ret. simpl in *. rewrite Hc, Ho, release_head. done.
Qed.

#[local] Hint Resolve balanced_load_card_info : balanced.

Lemma balanced_card_index_loop n card id : balanced (card_index_loop (K := K) n card id).
Proof. revert card. induction n as [|n IH]; intros card; simpl; unfold get_card_info; balanced_tac. Qed.

#[local] Hint Resolve balanced_card_index_loop : balanced.

Lemma balanced_get_index s : balanced (snd_card_get_index (K := K) s).
Proof. unfold snd_card_get_index, snd_card_load2, snd_card_load. balanced_tac. Qed.

#[local] Hint Resolve balanced_get_index : balanced.

Lemma balanced_get_device name d s : balanced (_snd_dev_get_device (K := K) name d s).
Proof. unfold _snd_dev_get_device. balanced_tac. Qed.

(** What the process is left with, [base], beside the descriptor [_snd_open_subdev] answers:
    all it had; or, where the [errno] left behind is 0 and that is the answer, descriptor 0
    is the answer itself, and it is one the process had before. *)
Definition spared (errno0 : Z) (before base : list resource) : Prop :=
  base ≡ₚ before \/ errno0 = 0 /\ RFd 0 :: base ≡ₚ before.

(** Opening a subdevice: the answer is a new descriptor, an error, or descriptor 0, which
    was open before. *)
Lemma open_subdev_spares errno0 filename fmode card subdev prefer (w : world K) :
  0 <= errno0 -> (errno0 = 0 -> RFd 0 ∈ held w) ->
  let '(fd, w') := _snd_open_subdev errno0 filename fmode card subdev prefer w in
  exists base, spared errno0 (held w) base /\ held w' ≡ₚ if fd <? 0 then base else RFd fd :: base.
Proof.
  intros He Hin. unfold _snd_open_subdev, bind at 1.
  pose proof (sys_open_spec (control_name card) O_RDWR w) as Ho.
  destruct (sys_open _ O_RDWR w) as [ctl w1]. destruct (ctl <? 0) eqn:Hctl.
  { exists (held w). split; [left; done|]. rewrite Hctl, Ho. done. }
  unfold bind at 1. pose proof (balanced_lift (ioctl_prefer prefer ctl subdev) w1) as Hl.
  destruct (lift _ w1) as [r w2]. simpl in Hl. unfold bind at 1. destruct (0 <=? r).
  - simpl. unfold bind. pose proof (sys_close_spec ctl w2) as Hc. destruct (sys_close ctl w2) as [c w3].
    assert (H3 : held w3 ≡ₚ held w) by (rewrite Hc, Hl, Ho, release_head; done).
    cbn. destruct (Z.ltb_spec (- errno0) 0); [exists (held w); split; [left; done|exact H3]|].
    assert (errno0 = 0) as -> by lia.
    destruct (elem_of_Permutation (held w) (RFd 0)) as [Hp _]. destruct (Hp (Hin eq_refl)) as [base Hb].
    exists base. split; [right; split; [done|symmetry; exact Hb]|]. change (- 0) with 0. rewrite H3. exact Hb.
  - pose proof (sys_open_spec filename fmode w2) as Ho2. destruct (sys_open filename fmode w2) as [fd w3].
    unfold bind. pose proof (sys_close_spec ctl w3) as Hc. destruct (sys_close ctl w3) as [c w4].
    exists (held w). split; [left; done|]. cbn.
    rewrite Hc, Ho2, Hl, Ho. destruct (fd <? 0); [rewrite release_head; done|].
    rewrite (Permutation_swap (RFd ctl) (RFd fd)), release_head. done.
Qed.

Lemma spared_positive errno0 before base : 0 < errno0 -> spared errno0 before base -> base ≡ₚ before.
Proof. intros He [H|[-> _]]; [done|lia]. Qed.

(** With a non-zero [errno] left behind no descriptor is returned that was not opened. *)
Lemma open_subdev_spec errno0 filename fmode card subdev prefer (w : world K) :
  0 < errno0 ->
  let '(fd, w') := _snd_open_subdev errno0 filename fmode card subdev prefer w in
  held w' ≡ₚ if fd <? 0 then held w else RFd fd :: held w.
Proof.
  intros He. pose proof (open_subdev_spares errno0 filename fmode card subdev prefer w) as H.
  destruct (_snd_open_subdev _ _ _ _ _ _ w) as [fd w'].
  destruct H as (base & Hb & ->); [lia..|]. apply spared_positive in Hb; [|done].
  destruct (fd <? 0); rewrite Hb; done.
Qed.
End Balance.

#[export] Hint Resolve balanced_load_card_info balanced_card_index_loop balanced_get_index
  balanced_get_device : balanced.

(** ** A small system, for the witnesses

    Files open under rising descriptors and nothing fails; cards 0 and 2 exist. *)

#[export] Instance tiny_os : Os Z := {
  os_open _ _ := fun k => (k, k + 1);
  os_close _ := ret 0;
  os_setfl _ _ := ret 0;
  os_getfl _ := ret 0;
  os_access_ok name := ret (String.eqb name (control_name 0) || String.eqb name (control_name 2));
  os_mmap _ _ _ := fun k => (4096 * (Z.abs k + 1), Z.abs k + 1);
  os_munmap _ _ := ret 0;
  os_alloc _ _ := fun k => (Some (1000000 + k), k + 1);
  os_poll _ _ _ := ret (0, 0);
  os_sleep _ := ret tt;
  os_page_size := 4096
}.

#[export] Instance tiny_cards : CardKernel Z := {
  ioctl_card_info _ := ret (0, CardInfo 0 "PCH" "" "HDA" "HDA Intel" "" "");
  ioctl_prefer _ _ _ := ret 0
}.

Lemma dev_get_device_roundtrip_witness :
  (_snd_dev_get_device "hw:2,1,3" true true (World 3 [])).1 = (0, (2, 1, 3)).
Proof.
  apply (dev_get_device_roundtrip "hw:" 2 1 3 (World 3 []) 3);
    [by_decide|unfold SALSA_MAX_CARDS; lia|unfold SALSA_MAX_DEVICES; lia|lia|reflexivity].
Defined.

Lemma card_next_enumerates_witness : visit_cards 33 (-1) (World 3 []) = (Some [0; 2], World 3 []).
Proof.
  apply (card_next_enumerates (fun c => String.eqb (control_name c) (control_name 0) ||
    String.eqb (control_name c) (control_name 2))). reflexivity.
Defined.

Lemma open_subdev_inverted_witness :
  let '(res, w') := _snd_open_subdev 0 "/dev/snd/pcmC0D0p" O_RDWR 0 1 PcmPreferSubdevice (World 3 []) in
  res = 0 /\ held w' = [].
Proof.
  apply (open_subdev_inverted 0 "/dev/snd/pcmC0D0p" O_RDWR 0 1 PcmPreferSubdevice
    (World 3 []) (World 4 [RFd 3]) 3 0 4); [reflexivity|lia|reflexivity].
Defined.
