(* ===== verification/Async.v ===== *)
(** * Asynchronous notification

    src/src/async.c: the process-wide list of handlers for SIGIO.  A handler is
    entered at the head; the list owns the handlers' blocks.  [ptrs] holds the
    owners' pointers to their handlers ([pcm->async], [ctl->async]), by the address
    of the pointer; a pointer without an entry is NULL.  The callbacks are opaque;
    they are taken not to change the list while it is walked. *)

From stdpp Require Import gmap.
From S2P Require Import Prelude CInt Sys Cards.
#[local] Open Scope Z_scope.

(* [global.h 57-64 struct snd_async_handler] *)
Record snd_async_handler_t := Handler {
  h_addr : Z;              (* the block *)
  h_fd : Z;
  h_callback : Z;          (* 0 is NULL *)
  h_private : Z;
  h_rec : Z;
  h_pointer : Z            (* address of the owner's pointer; 0 is NULL *)
}.

#[global] Instance handler_eq_dec : EqDecision snd_async_handler_t.
Proof. solve_decision. Defined.

Definition sizeof_handler : Z := 56.
Definition SIGIO : Z := 29.

Class AsyncKernel (K : Type) := {
  os_setsig : Z -> Z -> io K Z;          (* fcntl F_SETSIG *)
  os_setown : Z -> io K Z;               (* fcntl F_SETOWN, this process *)
  os_sigaction : bool -> io K Z          (* SIGIO to our handler, or SIG_DFL *)
}.

(** The process: the system, the list, what SIGIO does and the owners' pointers. *)
Record proc (K : Type) := Proc {
  wld : world K;
  async_list : list snd_async_handler_t;
  sigio_ours : bool;
  ptrs : gmap Z Z
}.
Arguments Proc {K}.
Arguments wld {K}.
Arguments async_list {K}.
Arguments sigio_ours {K}.
Arguments ptrs {K}.

Section Async.
Context {K : Type} `{!Os K, !AsyncKernel K}.

Definition onsys {A} (m : io (world K) A) : io (proc K) A :=
  fun p => let '(a, w) := m (wld p) in (a, Proc w (async_list p) (sigio_ours p) (ptrs p)).

Definition set_list (l : list snd_async_handler_t) : io (proc K) unit :=
  fun p => (tt, Proc (wld p) l (sigio_ours p) (ptrs p)).

Definition set_ptr (loc : Z) (v : option Z) : io (proc K) unit :=
  fun p => (tt, Proc (wld p) (async_list p) (sigio_ours p)
    (match v with Some a => <[loc := a]> (ptrs p) | None => delete loc (ptrs p) end)).

Definition get_list : io (proc K) (list snd_async_handler_t) := fun p => (async_list p, p).

(** [sigaction], remembering what SIGIO does. *)
Definition sigaction (ours : bool) : io (proc K) Z :=
  let* r := onsys (lift (os_sigaction ours)) in
  if r <? 0 then ret r
  else fun p => (r, Proc (wld p) (async_list p) ours (ptrs p)).

(* [async.c 38-61 snd_set_async] *)
Definition snd_set_async (fd sig : Z) : io (proc K) Z :=
  let* flags := onsys (lift (os_getfl fd)) in
  if flags <? 0 then ret flags
  else
    let flags := if 0 <=? sig then Z.lor flags O_ASYNC else Z.land flags (Z.lnot O_ASYNC) in
    let* r := onsys (lift (os_setfl fd flags)) in
    if r <? 0 then ret r
    else if 0 <=? sig then
      let* r1 := onsys (lift (os_setsig fd sig)) in
      let* r2 := if r1 <? 0 then ret r1 else onsys (lift (os_setown fd)) in
      if r2 <? 0 then
        let* _ := onsys (lift (os_setfl fd (Z.land flags (Z.lnot O_ASYNC)))) in ret r2
      else ret 0
    else ret 0.

(** The callbacks a signal on [fd] runs, each with its handler, in order. *)
(* [async.c 63-72 snd_async_handler] *)
Definition snd_async_handler (fd : Z) : io (proc K) (list (Z * snd_async_handler_t)) :=
  let* l := get_list in
  ret (omap (fun h => if (h_fd h =? fd) && nz (h_callback h) then Some (h_callback h, h) else None) l).

(** [loc] is the address of the owner's pointer, where the new handler is stored. *)
(* [async.c 74-108 snd_async_add_handler] *)
Definition snd_async_add_handler (loc fd callback private_data : Z) : io (proc K) Z :=
  let* p := onsys (sys_alloc sizeof_handler) in
  match p with
  | None => ret (- ENOMEM)
  | Some a =>
      let h := Handler a fd callback private_data 0 0 in
      let* err := snd_set_async fd SIGIO in
      if err <? 0 then let* _ := onsys (sys_free a) in ret err
      else
        let* l := get_list in
        let* r := if bool_decide (l = []) then sigaction true else ret 0 in
        if r <? 0 then
          let* _ := snd_set_async fd (-1) in
          let* _ := onsys (sys_free a) in
          ret r
        else
          let* _ := set_list (h :: l) in
          let* _ := set_ptr loc (Some a) in
          ret 0
  end.

(** The walk with [prev]: the handlers before the one found, and the ones after. *)
Fixpoint split_handler (a : Z) (l : list snd_async_handler_t)
  : option (list snd_async_handler_t * snd_async_handler_t * list snd_async_handler_t) :=
  match l with
  | [] => None
  | h :: l =>
      if h_addr h =? a then Some ([], h, l)
      else match split_handler a l with
           | Some (before, x, after) => Some (h :: before, x, after)
           | None => None
           end
  end.

(* [async.c 110-136 snd_async_del_handler] *)
Definition snd_async_del_handler (handler : Z) : io (proc K) Z :=
  let* l := get_list in
  let* _ :=
    match split_handler handler l with
    | None => ret tt
    | Some (before, h, after) =>
        let* _ := set_list (before ++ after) in
        let* _ := snd_set_async (h_fd h) (-1) in
        let* _ := if nz (h_pointer h) then set_ptr (h_pointer h) None else ret tt in
        onsys (sys_free (h_addr h))
    end in
  let* l := get_list in
  let* _ := if bool_decide (l = []) then sigaction false else ret 0 in
  ret 0.

(** [h->rec = rec; h->pointer = &owner->async;] on the newest handler. *)
Definition set_owner (handler rec loc : Z) : io (proc K) unit :=
  fun p => (tt, Proc (wld p)
    (map (fun h => if h_addr h =? handler
                   then Handler (h_addr h) (h_fd h) (h_callback h) (h_private h) rec loc else h)
       (async_list p))
    (sigio_ours p) (ptrs p)).

(** The common body of [snd_async_add_pcm_handler] and [snd_async_add_ctl_handler]:
    [rec] is the owner, [loc] the address of its pointer. *)
Definition add_owned_handler (rec loc fd callback private_data : Z) : io (proc K) Z :=
  let* busy := fun p => (match ptrs p !! loc with Some _ => true | None => false end, p) in
  if busy : bool then ret (- EBUSY)
  else
    let* err := snd_async_add_handler loc fd callback private_data in
    if err <? 0 then ret err
    else
      let* a := fun p => (default 0 (ptrs p !! loc), p) in
      let* _ := set_owner a rec loc in
      ret 0.

(** ** Theorems *)

Definition async_ok (p : proc K) : Prop :=
  (async_list p <> [] -> sigio_ours p = true) /\
  NoDup (h_addr <$> async_list p) /\
  forall h, h ∈ async_list p -> RMem (h_addr h) ∈ held (wld p).

Lemma onsys_eq {A} (m : io (world K) A) (p : proc K) :
  onsys m p = let '(a, w) := m (wld p) in (a, Proc w (async_list p) (sigio_ours p) (ptrs p)).
Proof. done. Qed.

(** A step of the list's life: what leaves the list, the signal and the pointers. *)
Lemma set_async_frame fd sig p :
  let '(r, p') := snd_set_async fd sig p in
  async_list p' = async_list p /\ sigio_ours p' = sigio_ours p /\ ptrs p' = ptrs p /\
  held (wld p') = held (wld p).
Proof.
  unfold snd_set_async, onsys, lift, bind, ret.
  destruct (os_getfl fd _) as [fl k1]. destruct (fl <? 0); [done|].
  destruct (os_setfl fd _ _) as [r k2]. destruct (r <? 0); [done|].
  destruct (0 <=? sig); [|done]. simpl.
  destruct (os_setsig fd sig k2) as [r1 k3]. destruct (r1 <? 0) eqn:Hr1; simpl.
  - rewrite Hr1. simpl. destruct (os_setfl fd _ k3). done.
  - destruct (os_setown fd k3) as [r2 k4]. destruct (r2 <? 0); simpl; [|done].
    destruct (os_setfl fd _ k4). done.
Qed.

Lemma sigaction_frame b p :
  let '(r, p') := sigaction b p in
  async_list p' = async_list p /\ ptrs p' = ptrs p /\ held (wld p') = held (wld p) /\
  sigio_ours p' = if r <? 0 then sigio_ours p else b.
Proof.
  unfold sigaction, onsys, lift, bind, ret. destruct (os_sigaction b _) as [r k].
  destruct (r <? 0) eqn:Hr; simpl; rewrite Hr; done.
Qed.

Lemma split_handler_spec a l before h after :
  split_handler a l = Some (before, h, after) ->
  l = before ++ h :: after /\ h_addr h = a /\ forall x, x ∈ before -> h_addr x <> a.
Proof.
  revert before. induction l as [|x l IH]; intros before; simpl; [done|].
  destruct (Z.eqb_spec (h_addr x) a) as [He|Hne].
  - intros [= <- <- <-]. split; [done|]. split; [done|]. intros y Hy. inversion Hy.
  - destruct (split_handler a l) as [[[b y] c]|]; [|done]. intros [= <- <- <-].
    destruct (IH b eq_refl) as (-> & Ha & Hb). split; [done|]. split; [done|].
    intros z [->|Hz]%elem_of_cons; auto.
Qed.

(** The allocator gives blocks the process does not hold. *)
Definition alloc_fresh (p : proc K) : Prop :=
  forall a k', os_alloc sizeof_handler (held (wld p)) (ker (wld p)) = (Some a, k') -> RMem a ∉ held (wld p).

(** What [snd_async_add_handler] does, on every path. *)
Lemma add_handler_spec loc fd cb priv p :
  let '(rc, p') := snd_async_add_handler loc fd cb priv p in
  if rc <? 0 then
    async_list p' = async_list p /\ ptrs p' = ptrs p /\ held (wld p') = held (wld p) /\
    sigio_ours p' = sigio_ours p
  else exists a k', os_alloc sizeof_handler (held (wld p)) (ker (wld p)) = (Some a, k') /\
    async_list p' = Handler a fd cb priv 0 0 :: async_list p /\
    ptrs p' = <[loc := a]> (ptrs p) /\ held (wld p') = RMem a :: held (wld p) /\
    sigio_ours p' = if decide (async_list p = []) then true else sigio_ours p.
Proof.
  unfold snd_async_add_handler, bind at 1, onsys at 1, sys_alloc, bind at 1, lift at 1.
  destruct (os_alloc _ _ _) as [[a|] k1] eqn:Ha; [|simpl; destruct p as [[]]; done].
  unfold acquire, bind at 1, ret at 1. simpl.
  set (p1 := Proc _ _ _ _). unfold bind at 1.
  pose proof (set_async_frame fd SIGIO p1) as H1.
  destruct (snd_set_async fd SIGIO p1) as [e p2]. destruct H1 as (Hl2 & Hs2 & Hp2 & Hh2).
  subst p1. simpl in *. destruct (e <? 0) eqn:He.
  { unfold bind, onsys, sys_free, drop_resource, ret. simpl. rewrite He, Hh2.
    simpl. rewrite decide_True by done. done. }
  unfold bind at 1, get_list. rewrite Hl2. unfold bind at 1.
  assert (Hr : exists r p3, (if bool_decide (async_list p = []) then sigaction true else ret 0) p2 = (r, p3) /\
    async_list p3 = async_list p /\ ptrs p3 = ptrs p /\ held (wld p3) = RMem a :: held (wld p) /\
    sigio_ours p3 = if r <? 0 then sigio_ours p
                    else if decide (async_list p = []) then true else sigio_ours p).
  { case_bool_decide as Hempty.
    - pose proof (sigaction_frame true p2) as H2. destruct (sigaction true p2) as [r p3].
      destruct H2 as (H21 & H22 & H23 & H24). exists r, p3. rewrite decide_True by done.
      rewrite H21, H22, H23, H24, Hl2, Hp2, Hh2, Hs2. destruct (r <? 0); done.
    - exists 0, p2. rewrite decide_False by done. rewrite Hl2, Hp2, Hh2, Hs2. done. }
  destruct Hr as (r & p3 & -> & Hl3 & Hp3 & Hh3 & Hs3). destruct (r <? 0) eqn:Hr.
  - unfold bind at 1. pose proof (set_async_frame fd (-1) p3) as H4.
    destruct (snd_set_async fd (-1) p3) as [e4 p4]. destruct H4 as (Hl4 & Hs4 & Hp4 & Hh4).
    unfold bind, onsys, sys_free, drop_resource, ret. simpl. rewrite Hr, Hl4, Hs4, Hp4, Hh4.
    rewrite Hl3, Hp3, Hh3, Hs3. simpl. rewrite decide_True by done. done.
  - unfold bind, set_list, set_ptr, ret. simpl. exists a, k1. rewrite Hp3, Hh3, Hs3. done.
Qed.

(** What [snd_async_del_handler] does. *)
Lemma del_handler_spec a p :
  let '(rc, p') := snd_async_del_handler a p in
  rc = 0 /\
  async_list p' =
    (match split_handler a (async_list p) with Some (b, _, c) => b ++ c | None => async_list p end) /\
  held (wld p') =
    (match split_handler a (async_list p) with
     | Some _ => release (RMem a) (held (wld p)) | None => held (wld p) end) /\
  ptrs p' =
    (match split_handler a (async_list p) with
     | Some (_, h, _) => if nz (h_pointer h) then delete (h_pointer h) (ptrs p) else ptrs p
     | None => ptrs p end) /\
  (async_list p' <> [] -> sigio_ours p' = sigio_ours p).
Proof.
  unfold snd_async_del_handler, bind at 1, get_list at 1. unfold bind at 1.
  assert (Hm : exists p1, (match split_handler a (async_list p) with
    | None => ret tt
    | Some (before, h, after) =>
        let* _ := set_list (before ++ after) in
        let* _ := snd_set_async (h_fd h) (-1) in
        let* _ := if nz (h_pointer h) then set_ptr (h_pointer h) None else ret tt in
        onsys (sys_free (h_addr h))
    end : io (proc K) unit) p = (tt, p1) /\
    async_list p1 = (match split_handler a (async_list p) with Some (b, _, c) => b ++ c | None => async_list p end) /\
    held (wld p1) = (match split_handler a (async_list p) with
      | Some _ => release (RMem a) (held (wld p)) | None => held (wld p) end) /\
    ptrs p1 = (match split_handler a (async_list p) with
      | Some (_, h, _) => if nz (h_pointer h) then delete (h_pointer h) (ptrs p) else ptrs p
      | None => ptrs p end) /\ sigio_ours p1 = sigio_ours p).
  { destruct (split_handler a (async_list p)) as [[[b h] c]|] eqn:Hs; [|exists p; done].
    apply split_handler_spec in Hs as (_ & Ha & _). unfold bind, set_list. simpl.
    set (q := Proc _ _ _ _). pose proof (set_async_frame (h_fd h) (-1) q) as H1.
    destruct (snd_set_async (h_fd h) (-1) q) as [e p2]. destruct H1 as (Hl & Hs & Hp & Hh).
    subst q. simpl in *. unfold onsys, sys_free, drop_resource, set_ptr, ret.
    destruct (nz (h_pointer h)); simpl; rewrite Ha, Hh, ?Hp; eexists; split; try reflexivity; done. }
  destruct Hm as (p1 & -> & Hl & Hh & Hp & Hs). unfold bind, get_list, ret. simpl.
  case_bool_decide as Hempty.
  - pose proof (sigaction_frame false p1) as H2. destruct (sigaction false p1) as [r p2].
    destruct H2 as (H21 & H22 & H23 & H24). rewrite H21, H22, H23. repeat split; auto.
    intros Hne. congruence.
  - repeat split; auto.
Qed.

Lemma split_handler_in a l b h c : split_handler a l = Some (b, h, c) -> h ∈ l.
Proof. intros (-> & _)%split_handler_spec. set_solver. Qed.

(** C39. The handler list is kept: adding a handler, failing or not, and deleting one
    keep the invariant that SIGIO is ours while the list is not empty, that the
    handlers' blocks are distinct and that the process still holds each of them. *)
Theorem async_invariant (p : proc K) (loc fd cb priv a : Z) :
  async_ok p -> alloc_fresh p ->
  async_ok (snd_async_add_handler loc fd cb priv p).2 /\ async_ok (snd_async_del_handler a p).2.
Proof.
  intros (Hsig & Hnd & Hheld) Hfresh. split.
  - pose proof (add_handler_spec loc fd cb priv p) as Hs.
    destruct (snd_async_add_handler _ _ _ _ p) as [rc p']. simpl. destruct (rc <? 0).
    + destruct Hs as (Hl & _ & Hh & Hsg). unfold async_ok. rewrite Hl, Hh, Hsg. done.
    + destruct Hs as (b & k' & Ha & Hl & _ & Hh & Hsg). specialize (Hfresh _ _ Ha).
      unfold async_ok. rewrite Hl, Hh, Hsg. split; [|split].
      * intros _. case_decide; auto.
      * simpl. constructor; [|done]. intros (h & -> & Hin)%list_elem_of_fmap.
        apply Hfresh. simpl in Hfresh. apply Hheld in Hin. done.
      * intros h [->|Hin]%elem_of_cons; [left|right; auto].
  - pose proof (del_handler_spec a p) as Hs.
    destruct (snd_async_del_handler a p) as [rc p']. simpl.
    destruct Hs as (_ & Hl & Hh & _ & Hsg). unfold async_ok. rewrite Hh.
    destruct (split_handler a (async_list p)) as [[[b h] c]|] eqn:Hsp.
    + apply split_handler_spec in Hsp as (Hlist & Ha & _). rewrite Hlist in Hnd, Hheld, Hsig.
      rewrite Hl. split; [|split].
      * intros Hne. rewrite Hsg by congruence. apply Hsig. destruct b; done.
      * rewrite fmap_app in Hnd |- *. simpl in Hnd. eapply NoDup_app in Hnd as (H1 & H2 & H3).
        apply NoDup_cons in H3 as [_ H3]. apply NoDup_app. split; [done|]. split; [|done].
        intros x Hx Hc. apply (H2 x Hx). right. done.
      * intros x Hx. assert (Hne : h_addr x <> h_addr h).
        { intros Heq. rewrite fmap_app in Hnd. simpl in Hnd.
          apply NoDup_app in Hnd as (_ & H2 & H3). apply NoDup_cons in H3 as [H3 _].
          apply elem_of_app in Hx as [Hx|Hx].
          - apply (H2 (h_addr x)); [apply list_elem_of_fmap; eauto|rewrite Heq; left].
          - apply H3. rewrite <- Heq. apply list_elem_of_fmap. eauto. }
        assert (Hin : RMem (h_addr x) ∈ held (wld p))
          by (apply Hheld; apply elem_of_app in Hx as [?|?]; apply elem_of_app; [left|right; right]; done).
        rewrite <- (release_permutation (RMem a)) in Hin.
        -- apply elem_of_cons in Hin as [[= Hc]|Hin]; [congruence|done].
        -- rewrite <- Ha. apply Hheld. apply elem_of_app. right. left.
    + rewrite Hl. split; [|split; done]. intros Hne. rewrite Hsg by congruence. auto.
Qed.

(** Deleting the handler just added undoes the addition: the list, the owner's
    other pointers and the blocks held are what they were before. *)
Theorem async_add_del (p p1 : proc K) (rec loc fd cb priv a : Z) :
  ptrs p !! loc = None -> loc <> 0 ->
  (forall h, h ∈ async_list p -> h_addr h <> a) ->
  add_owned_handler rec loc fd cb priv p = (0, p1) -> ptrs p1 !! loc = Some a ->
  let p2 := (snd_async_del_handler a p1).2 in
  (snd_async_handler fd p1).1 =
    (if nz cb then [(cb, Handler a fd cb priv rec loc)] else []) ++ (snd_async_handler fd p).1 /\
  async_list p2 = async_list p /\ ptrs p2 = ptrs p /\ held (wld p2) = held (wld p).
Proof.
  intros Hptr Hloc Hfresh Hadd Ha. unfold add_owned_handler, bind at 1 in Hadd. rewrite Hptr in Hadd.
  unfold bind at 1 in Hadd. pose proof (add_handler_spec loc fd cb priv p) as Hs.
  destruct (snd_async_add_handler loc fd cb priv p) as [rc p'] eqn:Hrun.
  destruct (rc <? 0) eqn:Hrc; [unfold ret in Hadd; injection Hadd as -> _; discriminate|].
  destruct Hs as (b & k' & _ & Hl & Hp & Hh & _).
  unfold bind, ret, set_owner in Hadd. rewrite Hp, lookup_insert_eq in Hadd. simpl in Hadd.
  injection Hadd as <-. simpl in Ha. rewrite ?Hp, lookup_insert_eq in Ha. injection Ha as ->.
  assert (Hmap : map (fun h => if h_addr h =? a
      then Handler (h_addr h) (h_fd h) (h_callback h) (h_private h) rec loc else h) (async_list p')
    = Handler a fd cb priv rec loc :: async_list p).
  { rewrite Hl. simpl. rewrite Z.eqb_refl. f_equal. rewrite <- (map_id (async_list p)) at 2.
    apply map_ext_in. intros h Hin. apply list_elem_of_In, Hfresh in Hin.
    destruct (Z.eqb_spec (h_addr h) a); done. }
  set (p1 := Proc _ _ _ _). pose proof (del_handler_spec a p1) as Hd.
  destruct (snd_async_del_handler a p1) as [rc2 p2]. subst p1. simpl in Hd |- *.
  rewrite Hmap in Hd. simpl in Hd. rewrite Z.eqb_refl in Hd. simpl in Hd.
  destruct Hd as (_ & Hl2 & Hh2 & Hp2 & _).
  rewrite (proj2 (nz_true loc) Hloc) in Hp2. split; [|split; [done|split]].
  - unfold snd_async_handler, bind, get_list, ret. simpl. rewrite Hmap. simpl.
    rewrite Z.eqb_refl. destruct (nz cb); done.
  - rewrite Hp2, ?Hp, delete_insert_id; done.
  - rewrite Hh2, Hh, release_head. done.
Qed.
End Async.

(** ** Witnesses *)

#[export] Instance tiny_async : AsyncKernel Z := {
  os_setsig _ _ := ret 0;
  os_setown _ := ret 0;
  os_sigaction _ := ret 0
}.

Definition quiet : proc Z := Proc (World 3 []) [] false ∅.

(** One handler is added to an empty list, then a second one, or the first is deleted. *)
Lemma async_invariant_witness :
  let p1 := (snd_async_add_handler 16 3 7 0 quiet).2 in
  h_addr <$> async_list p1 = [1000003] /\ async_ok p1 /\
  async_ok (snd_async_add_handler 24 4 8 0 p1).2 /\ async_ok (snd_async_del_handler 1000003 p1).2 /\
  length (async_list (snd_async_add_handler 24 4 8 0 p1).2) = 2%nat /\
  async_list (snd_async_del_handler 1000003 p1).2 = [].
Proof.
  intros p1. assert (H1 : async_ok p1).
  { apply (async_invariant quiet 16 3 7 0 5).
    - split; [done|]. split; [constructor|]. intros h Hh. inversion Hh.
    - intros a k' _ Hin. inversion Hin. }
  destruct (async_invariant p1 24 4 8 0 1000003 H1) as [H2 H3].
  { intros a k' Ha. vm_compute in Ha. injection Ha as <- _. apply (bool_decide_unpack _). vm_compute. exact I. }
  split; [reflexivity|]. split; [exact H1|]. split; [exact H2|]. split; [exact H3|]. split; reflexivity.
Defined.

Lemma async_add_del_witness :
  let p1 := (add_owned_handler 1 16 3 7 0 quiet).2 in
  async_list p1 <> [] /\ async_list (snd_async_del_handler 1000003 p1).2 = async_list quiet.
Proof.
  split; [discriminate|].
  pose proof (async_add_del quiet (add_owned_handler 1 16 3 7 0 quiet).2 1 16 3 7 0 1000003) as H.
  assert (H1 : ptrs quiet !! 16 = None) by reflexivity.
  assert (H2 : 16 <> 0) by discriminate.
  assert (H3 : forall h, h ∈ async_list quiet -> h_addr h <> 1000003) by (intros h Hh; inversion Hh).
  assert (H4 : add_owned_handler 1 16 3 7 0 quiet = (0, (add_owned_handler 1 16 3 7 0 quiet).2))
    by (vm_compute; reflexivity).
  assert (H5 : ptrs (add_owned_handler 1 16 3 7 0 quiet).2 !! 16 = Some 1000003)
    by (vm_compute; reflexivity).
  exact (proj1 (proj2 (H H1 H2 H3 H4 H5))).
Defined.
