(* ===== verification/Mask.v ===== *)
(** * Masks

    The bit masks of the hardware parameters: [_snd_mask_*] of
    src/src/pcm_macros.h and the mask operations of src/src/pcm_params.c.
    A mask is the array [bits] of [SND_MASK_MAX / 32] 32-bit words.  An access
    past the array is undefined in C; the model reads 0 and writes nothing
    there, and the theorems ask for values below [SND_MASK_MAX]. *)

From S2P Require Import Prelude CInt.

(* [asound.h 357-361 snd_mask_t] *)
Record snd_mask_t := Mask { bits : list Z }.

Definition SND_MASK_MAX : Z := 256.
(* [pcm_params.c 38-38 MASK_SIZE] *)
Definition MASK_SIZE : Z := SND_MASK_MAX / 32.
(* [pcm_macros.h 549-549 MASK_OFS] *)
Definition MASK_OFS (i : Z) : Z := Z.shiftr i 5.
(* [pcm_macros.h 550-550 MASK_BIT] *)
Definition MASK_BIT (i : Z) : Z := u32 (Z.shiftl 1 (Z.land i 31)).

Definition word (m : snd_mask_t) (i : Z) : Z := nthz 0 (bits m) i.

(* [pcm_macros.h 552-556 _snd_mask_none] *)
Definition _snd_mask_none : snd_mask_t := Mask (replicate (Z.to_nat MASK_SIZE) 0).

(* [pcm_macros.h 558-562 _snd_mask_any] *)
Definition _snd_mask_any : snd_mask_t := Mask (replicate (Z.to_nat MASK_SIZE) UINT_MAX).

(* [pcm_macros.h 564-568 _snd_mask_set] *)
Definition _snd_mask_set (m : snd_mask_t) (val : Z) : snd_mask_t :=
  Mask (upd (MASK_OFS val) (fun w => Z.lor w (MASK_BIT val)) (bits m)).

(* [pcm_macros.h 570-574 _snd_mask_reset] *)
Definition _snd_mask_reset (m : snd_mask_t) (val : Z) : snd_mask_t :=
  Mask (upd (MASK_OFS val) (fun w => Z.land w (UINT_MAX - MASK_BIT val)) (bits m)).

(** Returned as the C [int]: the bit in place, so bit 31 gives a negative value. *)
(* [pcm_macros.h 576-580 _snd_mask_test] *)
Definition _snd_mask_test (m : snd_mask_t) (val : Z) : Z :=
  s32 (Z.land (word m (MASK_OFS val)) (MASK_BIT val)).

(* [pcm_macros.h 582-590 _snd_mask_empty] *)
Definition _snd_mask_empty (m : snd_mask_t) : bool :=
  forallb (fun w => negb (nz w)) (bits m).

(** The loop over the words, with its counter [c] of the words that hold a bit. *)
Fixpoint mask_is_single_loop (l : list Z) (c : Z) : bool :=
  match l with
  | [] => true
  | w :: l =>
      if negb (nz w) then mask_is_single_loop l c
      else if nz (Z.land w (u32 (w - 1))) then false
      else if nz c then false
      else mask_is_single_loop l (c + 1)
  end.

(* [pcm_params.c 49-62 mask_is_single] *)
Definition mask_is_single (m : snd_mask_t) : bool := mask_is_single_loop (bits m) 0.

(* [pcm_params.c 64-70 mask_leave_single] *)
Definition mask_leave_single (m : snd_mask_t) (val : Z) : snd_mask_t :=
  let v := u32 (_snd_mask_test m val) in
  Mask (upd (MASK_OFS val) (fun _ => v) (bits _snd_mask_none)).

(* [pcm_params.c 72-77 mask_reset_range] *)
Definition mask_reset_range (m : snd_mask_t) (from to : Z) : snd_mask_t :=
  fold_left _snd_mask_reset (zseq from (Z.to_nat (to - from + 1))) m.

(** The loop of [ld2]; [None] where the fuel is spent. *)
Fixpoint ld2_loop (fuel : nat) (v r nbits : Z) : option Z :=
  match fuel with
  | O => None
  | S fuel =>
      if negb (1 <? v) then Some r
      else if u32 (Z.shiftl 1 nbits) <=? v
        then ld2_loop fuel (Z.shiftr v nbits) (u32 (r + nbits)) (Z.shiftr nbits 1)
        else ld2_loop fuel v r (Z.shiftr nbits 1)
  end.

(* [pcm_params.c 79-89 ld2] *)
Definition ld2 (v : Z) : option Z := ld2_loop 6 v 0 16.

(** [ffs] of the C library: the position, from 1, of the lowest set bit; 0 for 0. *)
Definition ffs (x : Z) : Z :=
  match find (Z.testbit x) (zseq 0 32) with
  | Some i => i + 1
  | None => 0
  end.

Definition mask_get_max_loop (m : snd_mask_t) : list Z -> Z :=
  fix go l :=
    match l with
    | [] => 0
    | i :: l =>
        if nz (word m i) then u32 (default 0 (ld2 (word m i)) + Z.shiftl i 5) else go l
    end.

(* [pcm_params.c 91-99 mask_get_max] *)
Definition mask_get_max (m : snd_mask_t) : Z :=
  mask_get_max_loop m (rev (zseq 0 (Z.to_nat MASK_SIZE))).

Definition mask_get_min_loop (m : snd_mask_t) : list Z -> Z :=
  fix go l :=
    match l with
    | [] => 0
    | i :: l =>
        if nz (word m i) then u32 (ffs (word m i) - 1 + Z.shiftl i 5) else go l
    end.

(* [pcm_params.c 101-109 mask_get_min] *)
Definition mask_get_min (m : snd_mask_t) : Z :=
  mask_get_min_loop m (zseq 0 (Z.to_nat MASK_SIZE)).

(* [pcm_params.c 113-120 mask_is_full] *)
Definition mask_is_full (m : snd_mask_t) : bool :=
  forallb (fun w => w =? UINT_MAX) (bits m).

(** The bytes of a word in memory order (little endian). *)
Definition word_bytes (w : Z) : list Z :=
  [Z.land w 255; Z.land (Z.shiftr w 8) 255; Z.land (Z.shiftr w 16) 255; Z.land (Z.shiftr w 24) 255].

(** [memcmp] of the C library, which fixes the sign of its result only: the
    sign of the first difference. *)
Fixpoint memcmp (a b : list Z) : Z :=
  match a, b with
  | x :: a, y :: b => if x <? y then -1 else if y <? x then 1 else memcmp a b
  | _, _ => 0
  end.

(* [pcm_params.c 122-131 snd_mask_refine] *)
Definition snd_mask_refine (mask v : snd_mask_t) : Z * snd_mask_t :=
  let old := mask in
  let mask := Mask (zip_with Z.land (bits mask) (bits v)) in
  if _snd_mask_empty mask then (- EINVAL, mask)
  else (memcmp (concat (map word_bytes (bits mask))) (concat (map word_bytes (bits old))), mask).

(* [pcm_params.c 133-141 snd_mask_refine_first] *)
Definition snd_mask_refine_first (mask : snd_mask_t) : Z * snd_mask_t :=
  if _snd_mask_empty mask then (- ENOENT, mask)
  else if mask_is_single mask then (0, mask)
  else (1, mask_leave_single mask (mask_get_min mask)).

(* [pcm_params.c 143-151 snd_mask_refine_last] *)
Definition snd_mask_refine_last (mask : snd_mask_t) : Z * snd_mask_t :=
  if _snd_mask_empty mask then (- ENOENT, mask)
  else if mask_is_single mask then (0, mask)
  else (1, mask_leave_single mask (mask_get_max mask)).

(* [pcm_params.c 153-163 snd_mask_refine_min] *)
Definition snd_mask_refine_min (mask : snd_mask_t) (val : Z) : Z * snd_mask_t :=
  if _snd_mask_empty mask then (- ENOENT, mask)
  else if val <=? mask_get_min mask then (0, mask)
  else
    let mask := mask_reset_range mask 0 (u32 (val - 1)) in
    if _snd_mask_empty mask then (- EINVAL, mask) else (1, mask).

(* [pcm_params.c 165-175 snd_mask_refine_max] *)
Definition snd_mask_refine_max (mask : snd_mask_t) (val : Z) : Z * snd_mask_t :=
  if _snd_mask_empty mask then (- ENOENT, mask)
  else if mask_get_max mask <=? val then (0, mask)
  else
    let mask := mask_reset_range mask (u32 (val + 1)) (SND_MASK_MAX - 1) in
    if _snd_mask_empty mask then (- EINVAL, mask) else (1, mask).

(* [pcm_params.c 177-187 snd_mask_refine_set] *)
Definition snd_mask_refine_set (mask : snd_mask_t) (val : Z) : Z * snd_mask_t :=
  if _snd_mask_empty mask then (- ENOENT, mask)
  else
    let changed := b2z (negb (mask_is_single mask)) in
    let mask := mask_leave_single mask val in
    if _snd_mask_empty mask then (- EINVAL, mask) else (changed, mask).

(** Membership as a set sees it, with its decision below. *)
Definition in_mask (m : snd_mask_t) (v : Z) : Prop :=
  0 <= v < SND_MASK_MAX /\ Z.testbit (word m (v / 32)) (v mod 32) = true.

#[global] Instance in_mask_dec m v : Decision (in_mask m v).
Proof. unfold in_mask. apply _. Defined.

#[global] Instance snd_mask_t_eq_dec : EqDecision snd_mask_t.
Proof. solve_decision. Defined.

(** ** Specification: a mask is a finite set of numbers below [SND_MASK_MAX] *)

(** Eight words of 32 bits. *)
Definition mask_wf (m : snd_mask_t) : Prop :=
  Z.of_nat (length (bits m)) = MASK_SIZE /\ Forall is_u32 (bits m).

(** The code a refinement from [m] to [m'] returns. *)
Definition refine_code (m m' : snd_mask_t) : Z :=
  if _snd_mask_empty m then - ENOENT
  else if _snd_mask_empty m' then - EINVAL
  else b2z (negb (bool_decide (m' = m))).

(** [m'] is [m] cut down to the values [P] holds of, and [rc] says so. *)
Definition mask_refined (m : snd_mask_t) (P : Z -> Prop) (res : Z * snd_mask_t) : Prop :=
  mask_wf res.2 /\
  (forall v, in_mask res.2 v <-> in_mask m v /\ P v) /\
  res.1 = refine_code m res.2.

(** ** Words and bits *)

Lemma land_31 v : Z.land v 31 = v mod 32.
Proof. change 31 with (Z.ones 5). rewrite Z.land_ones by lia. done. Qed.

Lemma mask_ofs_div v : MASK_OFS v = v / 32.
Proof. unfold MASK_OFS. rewrite Z.shiftr_div_pow2 by lia. done. Qed.

Lemma mask_bit_pow v : MASK_BIT v = 2 ^ (v mod 32).
Proof.
  unfold MASK_BIT. rewrite land_31, Z.shiftl_1_l.
  pose proof (Z.mod_pos_bound v 32).
  apply u32_id. unfold is_u32, UINT_MAX.
  assert (2 ^ (v mod 32) < 2 ^ 32) by (apply Z.pow_lt_mono_r; lia). lia.
Qed.

Lemma mask_bit_testbit v i : 0 <= i -> Z.testbit (MASK_BIT v) i = (i =? v mod 32).
Proof.
  intros Hi. rewrite mask_bit_pow. pose proof (Z.mod_pos_bound v 32).
  rewrite Z.pow2_bits_eqb by lia. apply Z.eqb_sym.
Qed.

Lemma mask_bit_u32 v : is_u32 (MASK_BIT v).
Proof. apply u32_range. Qed.

(** A word holds at most one bit exactly where [w & (w - 1)] is 0. *)
Lemma land_pred_single w :
  is_u32 w -> w <> 0 ->
  (Z.land w (u32 (w - 1)) = 0 <->
   forall i j, 0 <= i -> 0 <= j -> Z.testbit w i = true -> Z.testbit w j = true -> i = j).
Proof.
  intros Hw Hnz. unfold is_u32, UINT_MAX in Hw.
  rewrite u32_id by (unfold is_u32, UINT_MAX; lia).
  set (k := Z.log2 w). assert (0 <= k) by apply Z.log2_nonneg.
  assert (Hk : 2 ^ k <= w < 2 ^ (k + 1)) by (apply Z.log2_spec; lia).
  assert (Hbk : Z.testbit w k = true) by (apply Z.bit_log2; lia).
  clearbody k.
  split.
  - intros Hland.
    assert (w = 2 ^ k) as ->.
    { destruct (Z.eq_dec w (2 ^ k)) as [|Hne]; [done|exfalso].
      assert (Z.testbit (w - 1) k = true).
      { assert (Hl : Z.log2 (w - 1) = k) by (apply Z.log2_unique; lia).
        rewrite <- Hl. apply Z.bit_log2. lia. }
      assert (Z.testbit (Z.land w (w - 1)) k = true) as Hb
        by (rewrite Z.land_spec, Hbk; done).
      rewrite Hland, Z.bits_0 in Hb. done. }
    intros i j Hi Hj. rewrite !Z.pow2_bits_eqb by lia. intros ??; zbool. lia.
  - intros Huniq.
    assert (w = 2 ^ k) as ->.
    { apply Z.bits_inj'. intros n Hn. rewrite Z.pow2_bits_eqb by lia.
      destruct (Z.eqb_spec k n) as [<-|Hne]; [done|].
      destruct (Z.testbit w n) eqn:Hb; [|done]. destruct Hne. auto. }
    replace (2 ^ k - 1) with (Z.ones k) by (rewrite Z.ones_equiv; lia).
    rewrite Z.land_ones, Z.mod_same by (try apply Z.pow_nonzero; lia). done.
Qed.

(** A 32-bit word other than 0 has a bit below 32. *)
Lemma nonzero_bit w : is_u32 w -> w <> 0 -> exists i, 0 <= i < 32 /\ Z.testbit w i = true.
Proof.
  unfold is_u32, UINT_MAX. intros Hw Hnz. exists (Z.log2 w). repeat split.
  - apply Z.log2_nonneg.
  - apply Z.log2_lt_pow2; lia.
  - apply Z.bit_log2. lia.
Qed.

Lemma testbit_u32_bound w i : is_u32 w -> Z.testbit w i = true -> i < 32.
Proof.
  unfold is_u32, UINT_MAX. intros Hw Hb. apply Z.nle_gt. intros Hge.
  rewrite <- (Z.mod_small w (2 ^ 32)), Z.mod_pow2_bits_high in Hb by lia. done.
Qed.

Lemma ffs_spec w :
  is_u32 w -> w <> 0 ->
  exists i, ffs w = i + 1 /\ 0 <= i < 32 /\ Z.testbit w i = true /\
    forall j, 0 <= j < i -> Z.testbit w j = false.
Proof.
  intros Hw Hnz. unfold ffs. destruct (find _ _) as [i|] eqn:Hf.
  - apply find_zseq in Hf as (H1 & H2 & H3). exists i. repeat split; auto; lia.
  - destruct (nonzero_bit w Hw Hnz) as (i & Hi & Hb).
    rewrite (find_zseq_none _ _ _ Hf i) in Hb by lia. done.
Qed.

(** One round of [ld2] keeps [r + log2 v]. *)
Lemma ld2_round v k :
  0 < v -> 0 <= k -> 2 ^ k <= v -> Z.log2 (Z.shiftr v k) = Z.log2 v - k.
Proof.
  intros Hv Hk Hle. rewrite Z.log2_shiftr by lia.
  assert (k <= Z.log2 v) by (apply Z.log2_le_pow2; lia). lia.
Qed.

Lemma ld2_loop_done fuel v r b : v <= 1 -> ld2_loop (S fuel) v r b = Some r.
Proof. intros Hv. simpl. destruct (Z.ltb_spec 1 v); [lia|done]. Qed.

Lemma ld2_loop_step fuel v r k :
  0 < v < 2 ^ (2 * k) -> 0 < k <= 16 -> 0 <= r <= 32 ->
  exists v' r', ld2_loop (S fuel) v r k =
      (if 1 <? v then ld2_loop fuel v' r' (Z.shiftr k 1) else Some r) /\
    0 < v' < 2 ^ k /\ r' + Z.log2 v' = r + Z.log2 v /\ r <= r' <= r + k.
Proof.
  intros Hv Hk Hr. simpl. rewrite Z.shiftl_1_l.
  assert (2 ^ k <= 2 ^ 16) by (apply Z.pow_le_mono_r; lia).
  rewrite (u32_id (2 ^ k)) by (unfold is_u32, UINT_MAX; lia).
  destruct (Z.ltb_spec 1 v) as [H1|H1]; simpl.
  - destruct (Z.leb_spec (2 ^ k) v) as [Hle|Hgt].
    + exists (Z.shiftr v k), (r + k).
      rewrite u32_id by (unfold is_u32, UINT_MAX; lia). split; [done|].
      rewrite ld2_round by lia. rewrite Z.shiftr_div_pow2 by lia.
      replace (2 * k) with (k + k) in Hv by lia. rewrite Z.pow_add_r in Hv by lia.
      repeat split; try lia.
      * apply Z.div_str_pos. lia.
      * apply Z.div_lt_upper_bound; lia.
    + exists v, r. repeat split; lia.
  - exists 1, (r + Z.log2 v). assert (v = 1) as -> by lia.
    pose proof (Z.pow_gt_1 2 k). repeat split; simpl; lia.
Qed.

(** Six rounds always do: the routine is the binary logarithm. *)
Lemma ld2_log2 v : 0 < v <= UINT_MAX -> ld2 v = Some (Z.log2 v).
Proof.
  unfold ld2, UINT_MAX. intros Hv.
  assert (Hdone : forall v0 r0, 0 < v0 < 2 -> r0 + Z.log2 v0 = Z.log2 v -> r0 = Z.log2 v).
  { intros v0 r0 ? Hs. assert (v0 = 1) as -> by lia. simpl in Hs. lia. }
  assert (Hone : forall v0 r0, (1 <? v0) = false -> 0 < v0 -> r0 + Z.log2 v0 = Z.log2 v ->
    Some r0 = Some (Z.log2 v)).
  { intros. zbool. f_equal. apply (Hdone v0); lia. }
  destruct (ld2_loop_step 5 v 0 16) as (v1 & r1 & -> & ? & ? & ?); try lia.
  destruct (1 <? v) eqn:?; [|apply (Hone v); lia || done].
  change (Z.shiftr 16 1) with 8.
  destruct (ld2_loop_step 4 v1 r1 8) as (v2 & r2 & -> & ? & ? & ?); try lia.
  destruct (1 <? v1) eqn:?; [|apply (Hone v1); lia || done].
  change (Z.shiftr 8 1) with 4.
  destruct (ld2_loop_step 3 v2 r2 4) as (v3 & r3 & -> & ? & ? & ?); try lia.
  destruct (1 <? v2) eqn:?; [|apply (Hone v2); lia || done].
  change (Z.shiftr 4 1) with 2.
  destruct (ld2_loop_step 2 v3 r3 2) as (v4 & r4 & -> & ? & ? & ?); try lia.
  destruct (1 <? v3) eqn:?; [|apply (Hone v3); lia || done].
  change (Z.shiftr 2 1) with 1.
  destruct (ld2_loop_step 1 v4 r4 1) as (v5 & r5 & -> & ? & ? & ?); try lia.
  destruct (1 <? v4) eqn:?; [|apply (Hone v4); lia || done].
  rewrite ld2_loop_done by lia. f_equal. apply (Hdone v5); lia.
Qed.

(** ** A mask as the set of its members *)

Lemma word_u32 m i : mask_wf m -> is_u32 (word m i).
Proof.
  intros [Hl Hall]. unfold word, nthz. destruct (i <? 0); [unfold is_u32, UINT_MAX; lia|].
  rewrite nth_lookup. destruct (bits m !! Z.to_nat i) eqn:He; simpl.
  - eapply (Forall_lookup_1 _ _ _ _ Hall He).
  - unfold is_u32, UINT_MAX; lia.
Qed.

Lemma split_index v : 0 <= v < SND_MASK_MAX ->
  0 <= v / 32 < MASK_SIZE /\ 0 <= v mod 32 < 32 /\ v = 32 * (v / 32) + v mod 32.
Proof.
  unfold SND_MASK_MAX. change MASK_SIZE with 8. intros Hv.
  pose proof (Z.div_mod v 32). pose proof (Z.mod_pos_bound v 32).
  assert (0 <= v / 32 < 8) by (split; [apply Z.div_pos|apply Z.div_lt_upper_bound]; lia). lia.
Qed.

Lemma join_index q r : 0 <= q < MASK_SIZE -> 0 <= r < 32 ->
  0 <= 32 * q + r < SND_MASK_MAX /\ (32 * q + r) / 32 = q /\ (32 * q + r) mod 32 = r.
Proof.
  unfold SND_MASK_MAX. change MASK_SIZE with 8. intros Hq Hr. split; [lia|].
  rewrite Z.mul_comm, Z.add_comm, Z.div_add, Z.mod_add by lia.
  rewrite Z.div_small, Z.mod_small by lia. lia.
Qed.

Lemma in_mask_word m q r : 0 <= q < MASK_SIZE -> 0 <= r < 32 ->
  in_mask m (32 * q + r) <-> Z.testbit (word m q) r = true.
Proof.
  intros Hq Hr. unfold in_mask. destruct (join_index q r Hq Hr) as (? & -> & ->). tauto.
Qed.

Lemma nthz_out {A} (d : A) l i : Z.of_nat (length l) <= i -> nthz d l i = d.
Proof.
  intros Hi. unfold nthz. destruct (Z.ltb_spec i 0); [done|]. apply nth_overflow. lia.
Qed.

(** Masks with the same members are equal. *)
Lemma mask_ext m m' :
  mask_wf m -> mask_wf m' -> (forall v, in_mask m v <-> in_mask m' v) -> m = m'.
Proof.
  intros Hw Hw' H. destruct m as [l], m' as [l']. f_equal.
  pose proof Hw as [Hl _]. pose proof Hw' as [Hl' _]. simpl in Hl, Hl'.
  apply (nth_ext _ _ 0 0); [lia|]. intros n Hn.
  assert (Hnth : forall k : list Z, nth n k 0 = nthz 0 k (Z.of_nat n)).
  { intros k. unfold nthz. destruct (Z.ltb_spec (Z.of_nat n) 0); [lia|].
    rewrite Nat2Z.id. done. }
  rewrite !Hnth. apply u32_bits_inj.
  - apply (word_u32 (Mask l)), Hw.
  - apply (word_u32 (Mask l')), Hw'.
  - intros i Hi. specialize (H (32 * Z.of_nat n + i)).
    rewrite !in_mask_word in H by lia. unfold word in H. simpl in H.
    destruct (Z.testbit _ _), (Z.testbit _ _); tauto || (symmetry; tauto) || intuition congruence.
Qed.

Lemma word_forall m (P : Z -> Prop) :
  mask_wf m -> Forall P (bits m) <-> forall i, 0 <= i < MASK_SIZE -> P (word m i).
Proof.
  intros [Hl _]. rewrite Forall_lookup. unfold word, nthz. split.
  - intros H i Hi. destruct (Z.ltb_spec i 0); [lia|].
    destruct (nth_lookup_or_length (bits m) (Z.to_nat i) 0) as [He|He]; [eauto|lia].
  - intros H n w Hn. pose proof (lookup_lt_Some _ _ _ Hn) as Hlt.
    specialize (H (Z.of_nat n)). destruct (Z.ltb_spec (Z.of_nat n) 0); [lia|].
    rewrite Nat2Z.id in H. rewrite nth_lookup, Hn in H. apply H. lia.
Qed.

Lemma word_zero m i : mask_wf m -> 0 <= i < MASK_SIZE ->
  word m i = 0 <-> forall r, 0 <= r < 32 -> ~ in_mask m (32 * i + r).
Proof.
  intros Hm Hi. split.
  - intros Hz r Hr. rewrite in_mask_word, Hz, Z.bits_0 by lia. done.
  - intros H. destruct (Z.eq_dec (word m i) 0) as [|Hne]; [done|exfalso].
    destruct (nonzero_bit _ (word_u32 m i Hm) Hne) as (r & Hr & Hb).
    apply (H r); [lia|]. apply in_mask_word; auto.
Qed.

Lemma word_zero_no m i r :
  mask_wf m -> 0 <= i < MASK_SIZE -> 0 <= r < 32 -> word m i = 0 -> ~ in_mask m (32 * i + r).
Proof. intros Hm Hi Hr Hz. apply (word_zero m i); done. Qed.

Lemma mask_empty_spec m :
  mask_wf m -> _snd_mask_empty m = true <-> forall v, ~ in_mask m v.
Proof.
  intros Hm. unfold _snd_mask_empty. rewrite forallb_Forall_eq, (word_forall m _ Hm). split.
  - intros H v Hv. pose proof Hv as [Hr _]. destruct (split_index v Hr) as (Hq & Hr' & Heq).
    specialize (H _ Hq). rewrite Heq in Hv. revert Hv. apply word_zero_no; try done.
    apply negb_true_iff, nz_false in H. done.
  - intros H i Hi. apply negb_true_iff, nz_false, word_zero; auto.
Qed.

Lemma mask_empty_false m :
  mask_wf m -> _snd_mask_empty m = false <-> exists v, in_mask m v.
Proof.
  intros Hm. split.
  - intros (n & w & Hn & Hw)%forallb_false_lookup. apply negb_false_iff, nz_true in Hw.
    pose proof (lookup_lt_Some _ _ _ Hn) as Hlt. pose proof Hm as [Hl Hall].
    destruct (nonzero_bit w) as (r & Hr & Hb); [eapply Forall_lookup_1; eauto|done|].
    exists (32 * Z.of_nat n + r). apply in_mask_word; [lia|lia|].
    unfold word, nthz. destruct (Z.ltb_spec (Z.of_nat n) 0); [lia|].
    rewrite Nat2Z.id, nth_lookup, Hn. done.
  - intros [v Hv]. apply not_true_is_false. intros He. eapply mask_empty_spec; eauto.
Qed.

Lemma mask_upd_wf l i f :
  mask_wf (Mask l) -> (forall w, is_u32 w -> is_u32 (f w)) -> mask_wf (Mask (upd i f l)).
Proof.
  intros [Hl Hall] Hf. split; simpl in *; [rewrite length_upd; done|].
  unfold upd. apply Forall_alter; [done|]. intros; auto.
Qed.

Lemma in_mask_upd l v f x :
  mask_wf (Mask l) -> 0 <= x < SND_MASK_MAX ->
  in_mask (Mask (upd (MASK_OFS x) f l)) v <->
  0 <= v < SND_MASK_MAX /\
  Z.testbit (if v / 32 =? x / 32 then f (word (Mask l) (v / 32)) else word (Mask l) (v / 32))
    (v mod 32) = true.
Proof.
  intros [Hl _] Hx. simpl in Hl. destruct (split_index x Hx) as (Hq & _).
  unfold in_mask, word. simpl. rewrite mask_ofs_div.
  destruct (Z.eqb_spec (v / 32) (x / 32)) as [->|Hne].
  - rewrite nthz_upd_eq by lia. done.
  - rewrite nthz_upd_ne by lia. done.
Qed.

(** Two indices in one word differ exactly where their bits do. *)
Lemma same_word_eq v x : v / 32 = x / 32 -> v mod 32 = x mod 32 <-> v = x.
Proof.
  intros H. split; [|intros ->; done].
  pose proof (Z.div_mod v 32). pose proof (Z.div_mod x 32). lia.
Qed.

Lemma in_mask_set m v x :
  mask_wf m -> 0 <= x < SND_MASK_MAX ->
  in_mask (_snd_mask_set m x) v <-> in_mask m v \/ v = x.
Proof.
  intros Hm Hx. unfold _snd_mask_set. destruct m as [l]. rewrite in_mask_upd by done. simpl.
  unfold in_mask. destruct (Z.eqb_spec (v / 32) (x / 32)) as [He|Hne].
  - pose proof (Z.mod_pos_bound v 32). pose proof (same_word_eq v x He) as Hs.
    rewrite Z.lor_spec, mask_bit_testbit, orb_true_iff, Z.eqb_eq, Hs by lia.
    intuition (subst; auto).
  - split; [tauto|]. intros [?| ->]; [done|congruence].
Qed.

Lemma in_mask_reset m v x :
  mask_wf m -> 0 <= x < SND_MASK_MAX ->
  in_mask (_snd_mask_reset m x) v <-> in_mask m v /\ v <> x.
Proof.
  intros Hm Hx. unfold _snd_mask_reset. destruct m as [l]. rewrite in_mask_upd by done. simpl.
  unfold in_mask. destruct (Z.eqb_spec (v / 32) (x / 32)) as [He|Hne].
  - pose proof (Z.mod_pos_bound v 32). pose proof (same_word_eq v x He) as Hs.
    rewrite Z.land_spec, compl32_testbit by (lia || apply mask_bit_u32).
    rewrite mask_bit_testbit, andb_true_iff, negb_true_iff, Z.eqb_neq, Hs by lia. tauto.
  - split; [|tauto]. intros [? ?]. split; [done|]. intros ->. done.
Qed.

Lemma mask_set_wf m x : mask_wf m -> mask_wf (_snd_mask_set m x).
Proof.
  intros Hm. apply mask_upd_wf; [destruct m; done|]. intros.
  auto using lor_u32, mask_bit_u32.
Qed.

Lemma mask_reset_wf m x : mask_wf m -> mask_wf (_snd_mask_reset m x).
Proof.
  intros Hm. apply mask_upd_wf; [destruct m; done|]. intros. apply land_u32; [done|].
  pose proof (mask_bit_u32 x). unfold is_u32, UINT_MAX in *. lia.
Qed.

Lemma mask_none_wf : mask_wf _snd_mask_none.
Proof. split; [done|]. apply Forall_replicate. done. Qed.

Lemma mask_any_wf : mask_wf _snd_mask_any.
Proof. split; [done|]. apply Forall_replicate. done. Qed.

Lemma mask_none_word i : word _snd_mask_none i = 0.
Proof.
  unfold word, nthz. destruct (i <? 0); [done|]. rewrite nth_lookup.
  destruct (bits _snd_mask_none !! Z.to_nat i) eqn:He; [|done].
  apply lookup_replicate_1 in He as [-> _]. done.
Qed.

Lemma mask_test_spec m x :
  mask_wf m -> 0 <= x < SND_MASK_MAX ->
  u32 (_snd_mask_test m x) = if decide (in_mask m x) then MASK_BIT x else 0.
Proof.
  intros Hm Hx. unfold _snd_mask_test.
  assert (Hs : forall w, is_u32 w -> u32 (s32 w) = w).
  { intros w Hw. unfold s32. rewrite (u32_id w) by done.
    destruct (w <? 2147483648); [apply u32_id; done|]. unfold u32.
    rewrite <- (Z.mod_add _ 1) by lia. unfold is_u32, UINT_MAX in Hw.
    rewrite Z.mod_small; lia. }
  rewrite Hs by auto using land_u32, word_u32, mask_bit_u32. rewrite mask_ofs_div.
  destruct (split_index x Hx) as (_ & Hr & _).
  case_decide as Hd.
  - apply Z.bits_inj'. intros n Hn. rewrite Z.land_spec, mask_bit_testbit by lia.
    destruct (Z.eqb_spec n (x mod 32)) as [->|]; [|apply andb_false_r].
    destruct Hd as [_ ->]. done.
  - apply Z.bits_inj'. intros n Hn. rewrite Z.land_spec, mask_bit_testbit, Z.bits_0 by lia.
    destruct (Z.eqb_spec n (x mod 32)) as [->|]; [|apply andb_false_r].
    destruct (Z.testbit _ _) eqn:Hb; [|done]. destruct Hd. split; done.
Qed.

Lemma in_mask_leave m x v :
  mask_wf m -> 0 <= x < SND_MASK_MAX ->
  in_mask (mask_leave_single m x) v <-> in_mask m v /\ v = x.
Proof.
  intros Hm Hx. unfold mask_leave_single. rewrite mask_test_spec by done.
  rewrite in_mask_upd by (done || apply mask_none_wf).
  rewrite mask_none_word. destruct (Z.eqb_spec (v / 32) (x / 32)) as [He|Hne].
  - pose proof (Z.mod_pos_bound v 32). pose proof (same_word_eq v x He) as Hs. case_decide as Hd.
    + rewrite mask_bit_testbit, Z.eqb_eq, Hs by lia.
      split; [intros [? ->]; done|intros [? ->]; done].
    + rewrite Z.bits_0. split; [intros [_ [=]]|intros [? ->]; done].
  - rewrite Z.bits_0. split; [intros [_ [=]]|intros [? ->]; done].
Qed.

Lemma mask_leave_wf m x : mask_wf m -> 0 <= x < SND_MASK_MAX -> mask_wf (mask_leave_single m x).
Proof.
  intros Hm Hx. apply mask_upd_wf; [apply mask_none_wf|]. intros. apply u32_range.
Qed.

#[export] Hint Resolve mask_leave_wf mask_reset_wf mask_set_wf mask_none_wf mask_any_wf : salsa.

Lemma reset_range_spec n a m v :
  mask_wf m -> 0 <= a -> a + Z.of_nat n <= SND_MASK_MAX ->
  mask_wf (fold_left _snd_mask_reset (zseq a n) m) /\
  (in_mask (fold_left _snd_mask_reset (zseq a n) m) v <->
   in_mask m v /\ ~ (a <= v < a + Z.of_nat n)).
Proof.
  revert a m. induction n as [|n IH]; intros a m Hm Ha Hn; simpl zseq; simpl fold_left.
  - split; [done|]. split; [intros; split; [done|lia]|tauto].
  - destruct (IH (a + 1) (_snd_mask_reset m a)) as [? ->]; auto with salsa; try lia.
    split; [done|]. rewrite in_mask_reset by (done || lia).
    split; intros; intuition lia.
Qed.

(** ** Least, greatest and only members *)

Definition in_words (l : list Z) (v : Z) : Prop :=
  0 <= v /\ Z.testbit (nthz 0 l (v / 32)) (v mod 32) = true.

Lemma in_words_cons w l v : is_u32 w ->
  in_words (w :: l) v <-> (0 <= v < 32 /\ Z.testbit w v = true) \/ in_words l (v - 32).
Proof.
  intros Hw. unfold in_words, nthz.
  destruct (Z.lt_ge_cases v 0) as [|Hv]; [intuition lia|].
  destruct (Z.lt_ge_cases v 32) as [Hlt|Hge].
  - rewrite (Z.div_small v), (Z.mod_small v) by lia. simpl. intuition lia.
  - replace (v / 32) with ((v - 32) / 32 + 1)
      by (rewrite <- Z.div_add by lia; f_equal; lia).
    replace (v mod 32) with ((v - 32) mod 32)
      by (rewrite <- (Z.mod_add (v - 32) 1) by lia; f_equal; lia).
    pose proof (Z.div_pos (v - 32) 32). rewrite (Z2Nat.inj_add _ 1) by lia.
    replace (Z.to_nat ((v - 32) / 32) + Z.to_nat 1)%nat
      with (S (Z.to_nat ((v - 32) / 32))) by lia.
    destruct (Z.ltb_spec ((v - 32) / 32 + 1) 0); [lia|].
    destruct (Z.ltb_spec ((v - 32) / 32) 0); [lia|]. simpl. intuition lia.
Qed.

Lemma in_words_mask m v : mask_wf m -> in_words (bits m) v <-> in_mask m v.
Proof.
  intros [Hl _]. unfold in_words, in_mask, word. split; [|tauto].
  intros [H0 Hb]. repeat split; auto.
  destruct (Z.lt_ge_cases v SND_MASK_MAX) as [|Hge]; [done|].
  rewrite nthz_out, Z.bits_0 in Hb; [done|].
  change MASK_SIZE with 8 in Hl. unfold SND_MASK_MAX in Hge. rewrite Hl.
  apply Z.div_le_lower_bound; lia.
Qed.

Lemma single_loop_spec l c :
  Forall is_u32 l ->
  mask_is_single_loop l c = true <->
  (forall v w, in_words l v -> in_words l w -> v = w) /\
  (c <> 0 -> forall v, ~ in_words l v).
Proof.
  intros Hall. revert c. induction Hall as [|w l Hw Hl IH]; intros c; simpl.
  - split; [intros _|done]. assert (forall v, ~ in_words [] v) as Hno.
    { intros v [Hv Hb]. unfold nthz in Hb. destruct (v / 32 <? 0);
        [|destruct (Z.to_nat (v / 32))]; simpl in Hb; rewrite Z.bits_0 in Hb; done. }
    split; [intros v ? Hv; destruct (Hno _ Hv)|auto].
  - assert (Hc : forall v, in_words (w :: l) v <->
      (0 <= v < 32 /\ Z.testbit w v = true) \/ in_words l (v - 32))
      by (intros; apply in_words_cons; done).
    assert (Hpos : forall v, in_words l v -> in_words (w :: l) (v + 32)).
    { intros v Hv. apply Hc. right. replace (v + 32 - 32) with v by lia. done. }
    destruct (Z.eq_dec w 0) as [->|Hnz].
    + simpl. rewrite IH. assert (Hc' : forall v, in_words (0 :: l) v <-> in_words l (v - 32)).
      { intros v. rewrite Hc, Z.bits_0. intuition congruence. }
      split; intros [H1 H2]; split.
      * intros v x Hv%Hc' Hx%Hc'. pose proof (H1 _ _ Hv Hx). lia.
      * intros Hcz v Hv%Hc'. eapply H2; eauto.
      * intros v x Hv%Hpos Hx%Hpos. pose proof (H1 _ _ Hv Hx). lia.
      * intros Hcz v Hv%Hpos. eapply H2; eauto.
    + rewrite (proj2 (nz_true w) Hnz). simpl.
      destruct (nonzero_bit w Hw Hnz) as (i & Hi & Hb).
      assert (Hiw : in_words (w :: l) i) by (apply Hc; auto).
      pose proof (land_pred_single w Hw Hnz) as Hs.
      destruct (nz (Z.land w (u32 (w - 1)))) eqn:Hland.
      { split; [done|]. intros [H1 _]. exfalso. apply nz_true in Hland. apply Hland, Hs.
        intros a b Ha Hb' Hta Htb. apply H1; apply Hc; left; split; auto; split; auto.
        all: eapply testbit_u32_bound; eauto. }
      apply nz_false in Hland. pose proof (proj1 Hs Hland) as Huniq. destruct (nz c) eqn:Hcz.
      { split; [done|]. intros [_ H2]. apply nz_true in Hcz. destruct (H2 Hcz i Hiw). }
      apply nz_false in Hcz. subst c. rewrite IH. split; intros [H1 H2].
      * split; [|done]. intros a b Ha%Hc Hb'%Hc.
        destruct Ha as [[? ?]|Ha]; [|destruct (H2 ltac:(lia) _ Ha)].
        destruct Hb' as [[? ?]|Hb']; [|destruct (H2 ltac:(lia) _ Hb')].
        apply Huniq; auto; lia.
      * assert (Hno : forall v, ~ in_words l v).
        { intros v Hv. pose proof Hv as [? _]. pose proof (H1 _ _ Hiw (Hpos _ Hv)). lia. }
        split; [intros v ? Hv; destruct (Hno _ Hv)|auto].
Qed.

Lemma mask_single_spec m : mask_wf m ->
  mask_is_single m = true <-> forall v w, in_mask m v -> in_mask m w -> v = w.
Proof.
  intros Hm. unfold mask_is_single. rewrite single_loop_spec by apply Hm.
  setoid_rewrite (fun v => in_words_mask m v Hm). split; [intros [? _]; done|].
  intros. split; [done|]. intros []. done.
Qed.

(** The loops from the low and from the high end stop at the first word that
    holds a bit. *)
Lemma get_min_loop_spec m a n :
  mask_wf m -> 0 <= a -> a + Z.of_nat n <= MASK_SIZE ->
  let r := mask_get_min_loop m (zseq a n) in
  ((forall i, a <= i < a + Z.of_nat n -> word m i = 0) /\ r = 0) \/
  (in_mask m r /\ forall v, in_mask m v -> 32 * a <= v -> r <= v).
Proof.
  intros Hm. revert a. induction n as [|n IH]; intros a Ha Hn; simpl.
  { left. split; [lia|done]. }
  destruct (nz (word m a)) eqn:Hz.
  - right. apply nz_true in Hz.
    destruct (ffs_spec _ (word_u32 m a Hm) Hz) as (i & -> & Hi & Hb & Hlow).
    change MASK_SIZE with 8 in Hn. rewrite Z.shiftl_mul_pow2 by lia.
    replace (i + 1 - 1 + a * 2 ^ 5) with (32 * a + i) by lia.
    rewrite u32_id by (unfold is_u32, UINT_MAX; lia).
    split; [apply in_mask_word; auto; change MASK_SIZE with 8; lia|].
    intros v Hv Hav. apply Z.nlt_ge. intros Hlt.
    replace v with (32 * a + (v - 32 * a)) in Hv by lia.
    apply in_mask_word in Hv; [|change MASK_SIZE with 8; lia|lia].
    rewrite Hlow in Hv by lia. done.
  - apply nz_false in Hz. destruct (IH (a + 1)) as [[Hzs ->]|[Hin Hle]]; [lia|lia| |].
    + left. split; [|done]. intros i Hi. destruct (Z.eq_dec i a) as [->|]; [done|]. apply Hzs. lia.
    + right. split; [done|]. intros v Hv Hav. apply Hle; [done|].
      apply Z.nlt_ge. intros Hlt. replace v with (32 * a + (v - 32 * a)) in Hv by lia.
      revert Hv. apply word_zero_no; done || lia.
Qed.

Lemma get_max_loop_spec m n :
  mask_wf m -> Z.of_nat n <= MASK_SIZE ->
  let r := mask_get_max_loop m (rev (zseq 0 n)) in
  ((forall i, 0 <= i < Z.of_nat n -> word m i = 0) /\ r = 0) \/
  (in_mask m r /\ forall v, in_mask m v -> v < 32 * Z.of_nat n -> v <= r).
Proof.
  intros Hm. induction n as [|n IH]; intros Hn.
  { left. split; [lia|done]. }
  rewrite zseq_snoc, rev_app_distr. simpl. rewrite Z.add_0_l || idtac.
  set (a := Z.of_nat n) in *. destruct (nz (word m a)) eqn:Hz.
  - right. apply nz_true in Hz. pose proof (word_u32 m a Hm) as Hw. unfold is_u32, UINT_MAX in Hw.
    rewrite ld2_log2 by (unfold UINT_MAX; lia). simpl. change MASK_SIZE with 8 in Hn.
    assert (0 <= Z.log2 (word m a) < 32).
    { split; [apply Z.log2_nonneg|]. apply Z.log2_lt_pow2; lia. }
    rewrite Z.shiftl_mul_pow2 by lia.
    replace (Z.log2 (word m a) + a * 2 ^ 5) with (32 * a + Z.log2 (word m a)) by lia.
    rewrite u32_id by (unfold is_u32, UINT_MAX; lia).
    split; [apply in_mask_word; [change MASK_SIZE with 8; lia|lia|apply Z.bit_log2; lia]|].
    intros v Hv Hav. apply Z.nlt_ge. intros Hlt.
    replace v with (32 * a + (v - 32 * a)) in Hv by lia.
    apply in_mask_word in Hv; [|change MASK_SIZE with 8; lia|lia].
    rewrite Z.bits_above_log2 in Hv by lia. done.
  - apply nz_false in Hz. destruct IH as [[Hzs ->]|[Hin Hle]]; [lia| |].
    + left. split; [|done]. intros i Hi. destruct (Z.eq_dec i a) as [->|]; [done|]. apply Hzs. lia.
    + right. split; [done|]. intros v Hv Hav. apply Hle; [done|].
      apply Z.nle_gt. intros Hge. replace v with (32 * a + (v - 32 * a)) in Hv by lia.
      revert Hv. apply word_zero_no; done || lia.
Qed.

Lemma mask_get_min_spec m v : mask_wf m -> in_mask m v ->
  in_mask m (mask_get_min m) /\ mask_get_min m <= v.
Proof.
  intros Hm Hv. pose proof Hv as [Hr _]. destruct (split_index v Hr) as (Hq & Hr' & He).
  destruct (get_min_loop_spec m 0 (Z.to_nat MASK_SIZE) Hm) as [[Hz _]|[Hin Hle]]; try done.
  - rewrite He in Hv. exfalso. revert Hv. apply word_zero_no; try done.
    apply Hz. change (Z.of_nat (Z.to_nat MASK_SIZE)) with MASK_SIZE. lia.
  - split; [done|]. apply Hle; [done|lia].
Qed.

Lemma mask_get_max_spec m v : mask_wf m -> in_mask m v ->
  in_mask m (mask_get_max m) /\ v <= mask_get_max m.
Proof.
  intros Hm Hv. pose proof Hv as [Hr _]. destruct (split_index v Hr) as (Hq & Hr' & He).
  destruct (get_max_loop_spec m (Z.to_nat MASK_SIZE) Hm) as [[Hz _]|[Hin Hle]]; try done.
  - rewrite He in Hv. exfalso. revert Hv. apply word_zero_no; try done.
    apply Hz. change (Z.of_nat (Z.to_nat MASK_SIZE)) with MASK_SIZE. lia.
  - split; [done|]. apply Hle; [done|]. change (32 * _) with SND_MASK_MAX. lia.
Qed.

Lemma mask_reset_range_spec m a b v :
  mask_wf m -> 0 <= a -> b < SND_MASK_MAX ->
  mask_wf (mask_reset_range m a b) /\
  (in_mask (mask_reset_range m a b) v <-> in_mask m v /\ ~ (a <= v <= b)).
Proof.
  intros Hm Ha Hb. unfold mask_reset_range. destruct (Z.lt_ge_cases b a) as [Hlt|Hge].
  - rewrite Z2Nat.nonpos by lia. simpl. split; [done|]. split; [intros; split; [done|lia]|tauto].
  - destruct (reset_range_spec (Z.to_nat (b - a + 1)) a m v Hm Ha) as [? ->]; [lia|].
    split; [done|]. rewrite Z2Nat.id by lia. split; intros; intuition lia.
Qed.

(** ** What each refinement returns *)

(** The refinements of one mask by a constant. *)
Inductive mask_op :=
  | RefineFirst
  | RefineLast
  | RefineMin (val : Z)
  | RefineMax (val : Z)
  | RefineSet (val : Z).

Definition run_mask_op (op : mask_op) (m : snd_mask_t) : Z * snd_mask_t :=
  match op with
  | RefineFirst => snd_mask_refine_first m
  | RefineLast => snd_mask_refine_last m
  | RefineMin val => snd_mask_refine_min m val
  | RefineMax val => snd_mask_refine_max m val
  | RefineSet val => snd_mask_refine_set m val
  end.

(** The members an operation keeps. *)
Definition mask_op_keeps (op : mask_op) (m : snd_mask_t) (v : Z) : Prop :=
  match op with
  | RefineFirst => forall w, in_mask m w -> v <= w
  | RefineLast => forall w, in_mask m w -> w <= v
  | RefineMin val => val <= v
  | RefineMax val => v <= val
  | RefineSet val => v = val
  end.

(** Arguments that keep the accesses inside the array. *)
Definition mask_op_ok (op : mask_op) : Prop :=
  match op with
  | RefineFirst | RefineLast => True
  | RefineMin val => 0 <= val <= SND_MASK_MAX
  | RefineMax val => is_u32 val
  | RefineSet val => 0 <= val < SND_MASK_MAX
  end.

(** The three ways a refinement ends. *)
Lemma refined_empty m (P : Z -> Prop) :
  mask_wf m -> _snd_mask_empty m = true -> mask_refined m P (- ENOENT, m).
Proof.
  intros Hm He. split; [done|]. split; simpl.
  - intros v. pose proof (proj1 (mask_empty_spec m Hm) He v). tauto.
  - unfold refine_code. rewrite He. done.
Qed.

Lemma refined_same m (P : Z -> Prop) :
  mask_wf m -> _snd_mask_empty m = false -> (forall v, in_mask m v -> P v) ->
  mask_refined m P (0, m).
Proof.
  intros Hm He HP. split; [done|]. split; [intros v; simpl; split; [auto|tauto]|].
  unfold refine_code; simpl. rewrite He, bool_decide_true; done.
Qed.

Lemma refined_changed m m' (P : Z -> Prop) x :
  mask_wf m -> mask_wf m' -> in_mask m x -> ~ P x ->
  (forall v, in_mask m' v <-> in_mask m v /\ P v) ->
  mask_refined m P (if _snd_mask_empty m' then - EINVAL else 1, m').
Proof.
  intros Hm Hm' Hx Hnx HP. split; [done|]. split; [done|]. unfold refine_code; simpl.
  rewrite (proj2 (mask_empty_false m Hm)) by eauto.
  destruct (_snd_mask_empty m'); [done|].
  rewrite bool_decide_false; [done|]. intros ->. apply Hnx, HP. done.
Qed.

Lemma mask_not_single m : mask_wf m -> mask_is_single m = false ->
  exists v w, in_mask m v /\ in_mask m w /\ v < w.
Proof.
  intros Hm Hs. destruct (_snd_mask_empty m) eqn:He.
  { exfalso. apply eq_true_false_abs with (mask_is_single m); [|done].
    apply mask_single_spec; [done|]. intros v w Hv. exfalso. eapply mask_empty_spec; eauto. }
  apply mask_empty_false in He as [v Hv]; [|done].
  destruct (mask_get_min_spec m v Hm Hv) as [Hmin _].
  destruct (mask_get_max_spec m v Hm Hv) as [Hmax _].
  exists (mask_get_min m), (mask_get_max m). split; [done|]. split; [done|].
  apply Z.nle_gt. intros Hle. apply eq_true_false_abs with (mask_is_single m); [|done].
  apply mask_single_spec; [done|]. intros a b Ha Hb.
  pose proof (mask_get_min_spec m a Hm Ha). pose proof (mask_get_max_spec m a Hm Ha).
  pose proof (mask_get_min_spec m b Hm Hb). pose proof (mask_get_max_spec m b Hm Hb). lia.
Qed.

(** Leaving one member of a mask that has others. *)
Lemma refined_leave m (P : Z -> Prop) val :
  mask_wf m -> mask_is_single m = false -> 0 <= val < SND_MASK_MAX ->
  (forall v, in_mask m v -> P v <-> v = val) ->
  mask_refined m P
    (if _snd_mask_empty (mask_leave_single m val) then - EINVAL else 1, mask_leave_single m val).
Proof.
  intros Hm Hs Hval HP. destruct (mask_not_single m Hm Hs) as (v & w & Hv & Hw & Hlt).
  assert (Hx : exists x, in_mask m x /\ ~ P x).
  { destruct (Z.eq_dec v val) as [->|]; [exists w|exists v]; (split; [done|]);
      intros Hp; apply HP in Hp; lia || done. }
  destruct Hx as (x & Hx & Hnx). eapply refined_changed; eauto with salsa.
  intros y. rewrite in_mask_leave by done. split; intros [? ?]; split; auto; apply HP; auto.
Qed.

Lemma leave_nonempty m v : mask_wf m -> in_mask m v ->
  _snd_mask_empty (mask_leave_single m v) = false.
Proof.
  intros Hm Hv. pose proof Hv as [? _]. apply mask_empty_false; [auto with salsa|].
  exists v. apply in_mask_leave; auto.
Qed.

Section RefineNonempty.
Context (m : snd_mask_t) (Hm : mask_wf m) (He : _snd_mask_empty m = false).

Lemma mask_min_in : in_mask m (mask_get_min m).
Proof using Hm He.
  apply (mask_empty_false m Hm) in He as [x Hx]. apply (mask_get_min_spec m x Hm Hx).
Qed.

Lemma mask_max_in : in_mask m (mask_get_max m).
Proof using Hm He.
  apply (mask_empty_false m Hm) in He as [x Hx]. apply (mask_get_max_spec m x Hm Hx).
Qed.

Lemma mask_min_le v : in_mask m v -> mask_get_min m <= v.
Proof using Hm. intros Hv. apply (mask_get_min_spec m v Hm Hv). Qed.

Lemma mask_max_ge v : in_mask m v -> v <= mask_get_max m.
Proof using Hm. intros Hv. apply (mask_get_max_spec m v Hm Hv). Qed.

Lemma refine_first_nonempty :
  mask_refined m (mask_op_keeps RefineFirst m) (snd_mask_refine_first m).
Proof using Hm He.
  pose proof mask_min_in as Hmin. pose proof Hmin as [Hr _].
  unfold snd_mask_refine_first. rewrite He. destruct (mask_is_single m) eqn:Hs.
  - apply refined_same; auto. intros v Hv w Hw.
    rewrite (proj1 (mask_single_spec m Hm) Hs v w Hv Hw). lia.
  - pose proof (refined_leave m (mask_op_keeps RefineFirst m) _ Hm Hs Hr) as Hl.
    rewrite leave_nonempty in Hl by done. apply Hl. intros v Hv. simpl. split.
    + intros Hle. specialize (Hle _ Hmin). pose proof (mask_min_le v Hv). lia.
    + intros -> w Hw. auto using mask_min_le.
Qed.

Lemma refine_last_nonempty :
  mask_refined m (mask_op_keeps RefineLast m) (snd_mask_refine_last m).
Proof using Hm He.
  pose proof mask_max_in as Hmax. pose proof Hmax as [Hr _].
  unfold snd_mask_refine_last. rewrite He. destruct (mask_is_single m) eqn:Hs.
  - apply refined_same; auto. intros v Hv w Hw.
    rewrite (proj1 (mask_single_spec m Hm) Hs v w Hv Hw). lia.
  - pose proof (refined_leave m (mask_op_keeps RefineLast m) _ Hm Hs Hr) as Hl.
    rewrite leave_nonempty in Hl by done. apply Hl. intros v Hv. simpl. split.
    + intros Hle. specialize (Hle _ Hmax). pose proof (mask_max_ge v Hv). lia.
    + intros -> w Hw. auto using mask_max_ge.
Qed.

(** Resetting a range that holds a member. *)
Lemma refine_range a b x (P : Z -> Prop) :
  0 <= a -> b < SND_MASK_MAX -> in_mask m x -> ~ P x ->
  (forall v, 0 <= v < SND_MASK_MAX -> P v <-> ~ (a <= v <= b)) ->
  mask_refined m P
    (if _snd_mask_empty (mask_reset_range m a b) then (- EINVAL, mask_reset_range m a b)
     else (1, mask_reset_range m a b)).
Proof using Hm.
  intros Ha Hb Hx Hnx HP.
  pose proof (fun v => mask_reset_range_spec m a b v Hm Ha Hb) as Hr.
  pose proof (refined_changed m (mask_reset_range m a b) P x Hm (proj1 (Hr 0)) Hx Hnx) as Hc.
  destruct (_snd_mask_empty (mask_reset_range m a b)); apply Hc; intros v; rewrite (proj2 (Hr v));
    split; intros [Hv ?]; split; auto; pose proof Hv as [? _]; apply HP; auto.
Qed.

Lemma refine_min_nonempty val : 0 <= val <= SND_MASK_MAX ->
  mask_refined m (fun v => val <= v) (snd_mask_refine_min m val).
Proof using Hm He.
  intros Hval. unfold snd_mask_refine_min. rewrite He.
  pose proof mask_min_in as Hmin. pose proof Hmin as [Hr _].
  destruct (Z.leb_spec val (mask_get_min m)).
  - apply refined_same; auto. intros v Hv. pose proof (mask_min_le v Hv). lia.
  - rewrite u32_id by (unfold is_u32, UINT_MAX, SND_MASK_MAX in *; lia).
    apply refine_range with (mask_get_min m); unfold SND_MASK_MAX in *; auto; cbv beta; intros; lia.
Qed.

Lemma refine_max_nonempty val : is_u32 val ->
  mask_refined m (fun v => v <= val) (snd_mask_refine_max m val).
Proof using Hm He.
  intros Hval. unfold is_u32 in Hval. unfold snd_mask_refine_max. rewrite He.
  pose proof mask_max_in as Hmax. pose proof Hmax as [Hr _].
  destruct (Z.leb_spec (mask_get_max m) val).
  - apply refined_same; auto. intros v Hv. pose proof (mask_max_ge v Hv). lia.
  - rewrite u32_id by (unfold is_u32, UINT_MAX, SND_MASK_MAX in *; lia).
    apply refine_range with (mask_get_max m); unfold SND_MASK_MAX in *; auto; cbv beta; intros; lia.
Qed.

Lemma refine_set_nonempty val : 0 <= val < SND_MASK_MAX ->
  mask_refined m (fun v => v = val) (snd_mask_refine_set m val).
Proof using Hm He.
  intros Hval. unfold snd_mask_refine_set. rewrite He. destruct (mask_is_single m) eqn:Hs.
  - simpl. pose proof (proj1 (mask_single_spec m Hm) Hs) as Huniq.
    pose proof mask_min_in as Hmin. destruct (decide (in_mask m val)) as [Hin|Hout].
    + rewrite leave_nonempty by done.
      assert (mask_leave_single m val = m) as ->.
      { apply mask_ext; auto with salsa. intros v. rewrite in_mask_leave by done.
        split; [tauto|]. auto. }
      apply refined_same; auto.
    + rewrite (proj2 (mask_empty_spec _ (mask_leave_wf m val Hm Hval))).
      2:{ intros v. rewrite in_mask_leave by done. intros [? ->]. done. }
      pose proof (refined_changed m (mask_leave_single m val) (fun v => v = val)
        (mask_get_min m) Hm) as Hc.
      rewrite (proj2 (mask_empty_spec _ (mask_leave_wf m val Hm Hval))) in Hc.
      2:{ intros v. rewrite in_mask_leave by done. intros [? ->]. done. }
      apply Hc; auto with salsa; [congruence|]. intros. apply in_mask_leave; done.
  - pose proof (refined_leave m (fun v => v = val) val Hm Hs Hval) as Hl.
    simpl. destruct (_snd_mask_empty (mask_leave_single m val)); apply Hl; tauto.
Qed.
End RefineNonempty.

(** An empty mask, or one of the five cases. *)
Lemma run_mask_op_refined (op : mask_op) (m : snd_mask_t) :
  mask_wf m -> mask_op_ok op -> mask_refined m (mask_op_keeps op m) (run_mask_op op m).
Proof.
  intros Hm Hok. destruct (_snd_mask_empty m) eqn:He.
  - pose proof (fun P => refined_empty m P Hm He) as Hr.
    destruct op; simpl; unfold snd_mask_refine_first, snd_mask_refine_last, snd_mask_refine_min,
      snd_mask_refine_max, snd_mask_refine_set; rewrite He; apply Hr.
  - destruct op; simpl in *.
    + apply refine_first_nonempty; done.
    + apply refine_last_nonempty; done.
    + apply refine_min_nonempty; done.
    + apply refine_max_nonempty; done.
    + apply refine_set_nonempty; done.
Qed.

(** C21. Each refinement of a mask by a constant keeps exactly the members the
    operation names (at least the given value, at most it, equal to it, the
    least, the greatest), keeps the mask well formed, and returns -ENOENT for an
    empty mask, -EINVAL where nothing is left, else whether it changed the mask. *)
Theorem mask_op_correct (op : mask_op) (m : snd_mask_t) :
  mask_wf m -> mask_op_ok op -> mask_refined m (mask_op_keeps op m) (run_mask_op op m).
Proof. apply run_mask_op_refined. Qed.

Lemma mask_op_correct_witness :
  mask_refined (_snd_mask_set (_snd_mask_set _snd_mask_none 3) 40)
    (fun v => 4 <= v) (1, _snd_mask_set _snd_mask_none 40).
Proof.
  change (1, _snd_mask_set _snd_mask_none 40) with
    (run_mask_op (RefineMin 4) (_snd_mask_set (_snd_mask_set _snd_mask_none 3) 40)).
  apply (mask_op_correct (RefineMin 4)); [repeat apply mask_set_wf; apply mask_none_wf|].
  simpl. unfold SND_MASK_MAX. lia.
Defined.

(** ** Refinement by another mask *)

Lemma bytes_le w v k : is_u32 w -> 0 <= k -> Z.land (Z.shiftr (Z.land w v) k) 255 <= Z.land (Z.shiftr w k) 255.
Proof.
  intros Hw Hk. rewrite Z.shiftr_land.
  replace (Z.land (Z.land (Z.shiftr w k) (Z.shiftr v k)) 255)
    with (Z.land (Z.land (Z.shiftr w k) 255) (Z.shiftr v k))
    by (rewrite <- !Z.land_assoc; f_equal; apply Z.land_comm).
  set (x := Z.land (Z.shiftr w k) 255).
  assert (0 <= x) by (apply Z.land_nonneg; right; lia).
  apply Z.ldiff_le; [done|]. apply Z.bits_inj'. intros n Hn.
  rewrite Z.ldiff_spec, Z.land_spec, Z.bits_0. destruct (Z.testbit x n); done || idtac.
  all: simpl; destruct (Z.testbit _ n); done.
Qed.

Lemma memcmp_le a b :
  Forall2 Z.le a b -> memcmp a b = if decide (a = b) then 0 else -1.
Proof.
  induction 1 as [|x y a b Hxy Hab IH]; simpl; [done|].
  destruct (Z.ltb_spec x y).
  - rewrite decide_False; [done|]. intros [= ? ?]. lia.
  - destruct (Z.ltb_spec y x); [lia|]. assert (x = y) as -> by lia. rewrite IH.
    destruct (decide (a = b)) as [->|]; [rewrite decide_True; done|].
    rewrite decide_False; congruence.
Qed.

Lemma word_bytes_inj v w : is_u32 v -> is_u32 w -> word_bytes v = word_bytes w -> v = w.
Proof.
  intros Hv Hw [= H0 H1 H2 H3]. apply u32_bits_inj; auto. intros i Hi.
  assert (Hbyte : forall x k, 0 <= k <= i -> i < k + 8 ->
    Z.testbit x i = Z.testbit (Z.land (Z.shiftr x k) 255) (i - k)).
  { intros x k Hk Hk'. rewrite Z.land_spec, Z.shiftr_spec by lia.
    replace (i - k + k) with i by lia. change 255 with (Z.ones 8).
    rewrite Z.ones_spec_low by lia. rewrite andb_true_r. done. }
  assert (i < 8 \/ 8 <= i < 16 \/ 16 <= i < 24 \/ 24 <= i) as [?|[?|[?|?]]] by lia.
  - rewrite (Hbyte v 0), (Hbyte w 0) by lia. rewrite !Z.shiftr_0_r, H0. done.
  - rewrite (Hbyte v 8), (Hbyte w 8) by lia. rewrite H1. done.
  - rewrite (Hbyte v 16), (Hbyte w 16) by lia. rewrite H2. done.
  - rewrite (Hbyte v 24), (Hbyte w 24) by lia. rewrite H3. done.
Qed.

Lemma concat_bytes_inj l l' :
  Forall is_u32 l -> Forall is_u32 l' -> length l = length l' ->
  concat (map word_bytes l) = concat (map word_bytes l') -> l = l'.
Proof.
  intros Hl. revert l'. induction Hl as [|x l Hx Hl IH]; intros [|y l'] Hl' Hlen;
    try discriminate Hlen; [done|].
  apply Forall_cons_1 in Hl' as [Hy Hl']. intros [= H0 H1 H2 H3 Hrest]. f_equal.
  - apply word_bytes_inj; auto. unfold word_bytes. congruence.
  - apply IH; auto.
Qed.

Lemma memcmp_zip_land l k :
  Forall is_u32 l -> Forall is_u32 k -> length l = length k ->
  memcmp (concat (map word_bytes (zip_with Z.land l k))) (concat (map word_bytes l)) =
  if decide (zip_with Z.land l k = l) then 0 else -1.
Proof.
  intros Hl Hk Hlen. rewrite memcmp_le.
  - assert (Hz : Forall is_u32 (zip_with Z.land l k)).
    { clear Hlen. revert k Hk. induction Hl as [|x l Hx Hl IH]; intros [|y k] Hk; simpl; auto.
      apply Forall_cons_1 in Hk as [? ?]. auto using Forall_cons_2, land_u32. }
    destruct (decide (zip_with Z.land l k = l)) as [->|Hne]; [rewrite decide_True; done|].
    rewrite decide_False; [done|]. intros Heq. apply Hne, concat_bytes_inj; auto.
    rewrite length_zip_with. lia.
  - revert k Hk Hlen. induction Hl as [|x l Hx Hl IH]; intros [|y k] Hk Hlen; simpl; try done.
    apply Forall_cons_1 in Hk as [? Hk].
    pose proof (bytes_le x y 0 Hx ltac:(lia)) as H0. rewrite !Z.shiftr_0_r in H0.
    repeat (constructor; [first [exact H0 | apply bytes_le; [done|lia]]|]). apply IH; auto.
Qed.

(** C14. Refining a mask by another leaves the common members; it returns
    -EINVAL where there is none, 0 where the mask did not change and a negative
    number where it did (the sign of [memcmp], not the 1 of the other
    refinements). *)
Theorem mask_refine_correct (m v : snd_mask_t) :
  mask_wf m -> mask_wf v ->
  let '(rc, m') := snd_mask_refine m v in
  mask_wf m' /\ (forall x, in_mask m' x <-> in_mask m x /\ in_mask v x) /\
  rc = if _snd_mask_empty m' then - EINVAL else if decide (m' = m) then 0 else -1.
Proof.
  intros [Hl Hall] [Hl' Hall']. unfold snd_mask_refine.
  set (m' := Mask (zip_with Z.land (bits m) (bits v))).
  assert (Hwf : mask_wf m').
  { split; simpl; [rewrite length_zip_with; lia|].
    rewrite Forall_lookup in Hall, Hall' |- *. intros i x.
    rewrite lookup_zip_with_Some. intros (a & b & -> & ? & ?). eauto using land_u32. }
  assert (Hw : forall i, word m' i = Z.land (word m i) (word v i)).
  { intros i. unfold word, nthz. destruct (i <? 0); [done|]. rewrite !nth_lookup. simpl.
    rewrite lookup_zip_with. destruct (bits m !! Z.to_nat i) eqn:Hm; simpl; [|done].
    destruct (bits v !! Z.to_nat i) eqn:Hv; simpl; [done|].
    apply lookup_ge_None in Hv. apply lookup_lt_Some in Hm. lia. }
  assert (Hin : forall x, in_mask m' x <-> in_mask m x /\ in_mask v x).
  { intros x. unfold in_mask. rewrite Hw, Z.land_spec, andb_true_iff. tauto. }
  destruct (_snd_mask_empty m') eqn:He; rewrite ?He; (split; [done|]); (split; [done|]);
    [done|].
  simpl. rewrite memcmp_zip_land by (auto; lia). unfold m'. destruct m as [l]; simpl.
  destruct (decide (zip_with Z.land l (bits v) = l)) as [Hz|Hz].
  - rewrite decide_True; [done|]. rewrite Hz. done.
  - rewrite decide_False; [done|]. intros [= ?]. done.
Qed.

Lemma mask_refine_correct_witness :
  let '(rc, m') := snd_mask_refine (_snd_mask_set (_snd_mask_set _snd_mask_none 3) 40)
     (_snd_mask_set _snd_mask_none 40) in
  mask_wf m' /\
  (forall x, in_mask m' x <->
    in_mask (_snd_mask_set (_snd_mask_set _snd_mask_none 3) 40) x /\
    in_mask (_snd_mask_set _snd_mask_none 40) x) /\ rc = -1.
Proof.
  apply (mask_refine_correct (_snd_mask_set (_snd_mask_set _snd_mask_none 3) 40)
     (_snd_mask_set _snd_mask_none 40)); repeat apply mask_set_wf; apply mask_none_wf.
Defined.
