(* ===== verification/Interval.v ===== *)
(** * Intervals

    The intervals of the hardware parameters: [snd_interval_t] and its
    operations in src/src/pcm_params.c.  The functions that change an interval
    in place return the C code with the changed interval. *)

From Stdlib Require Import QArith Lqa.
From S2P Require Import Prelude CInt.
#[local] Open Scope Z_scope.

(* [asound.h 349-355 snd_interval_t] *)
Record snd_interval_t := Interval {
  imin : Z;
  imax : Z;
  openmin : bool;
  openmax : bool;
  integer : bool;
  iempty : bool
}.

Definition set_min (v : Z) (i : snd_interval_t) : snd_interval_t :=
  Interval v (imax i) (openmin i) (openmax i) (integer i) (iempty i).
Definition set_max (v : Z) (i : snd_interval_t) : snd_interval_t :=
  Interval (imin i) v (openmin i) (openmax i) (integer i) (iempty i).
Definition set_openmin (b : bool) (i : snd_interval_t) : snd_interval_t :=
  Interval (imin i) (imax i) b (openmax i) (integer i) (iempty i).
Definition set_openmax (b : bool) (i : snd_interval_t) : snd_interval_t :=
  Interval (imin i) (imax i) (openmin i) b (integer i) (iempty i).
Definition set_integer (b : bool) (i : snd_interval_t) : snd_interval_t :=
  Interval (imin i) (imax i) (openmin i) (openmax i) b (iempty i).
Definition set_empty (b : bool) (i : snd_interval_t) : snd_interval_t :=
  Interval (imin i) (imax i) (openmin i) (openmax i) (integer i) b.

#[global] Instance snd_interval_t_eq_dec : EqDecision snd_interval_t.
Proof. solve_decision. Defined.

(* [pcm_params.c 193-201 interval_set_any] *)
Definition interval_set_any : snd_interval_t := Interval 0 UINT_MAX false false false false.

(* [pcm_params.c 203-203 interval_is_empty] *)
Definition interval_is_empty (i : snd_interval_t) : bool := iempty i.

(* [pcm_params.c 205-209 interval_is_full] *)
Definition interval_is_full (i : snd_interval_t) : bool :=
  (imin i =? 0) && negb (openmin i) && (imax i =? UINT_MAX) && negb (openmax i).

(* [pcm_params.c 211-215 interval_is_single] *)
Definition interval_is_single (i : snd_interval_t) : bool :=
  (imin i =? imax i) || ((u32 (imin i + 1) =? imax i) && openmax i).

(* [pcm_params.c 221-229 interval_check_empty] *)
Definition interval_check_empty (i : snd_interval_t) : Z * snd_interval_t :=
  if (imax i <? imin i) || ((imin i =? imax i) && (openmin i || openmax i))
  then (-1, set_empty true i)
  else (0, i).

(* [pcm_params.c 231-258 snd_interval_refine_min] *)
Definition snd_interval_refine_min (i : snd_interval_t) (min : Z) (openmin_ integer_ : bool)
  : Z * snd_interval_t :=
  if interval_is_empty i then (- ENOENT, i)
  else
    let '(i, changed) :=
      if imin i <? min then (set_openmin openmin_ (set_min min i), 1)
      else if (imin i =? min) && negb (openmin i) && openmin_ then (set_openmin true i, 1)
      else (i, 0) in
    let '(i, changed) :=
      if negb (integer i) && integer_ then (set_integer true i, 1) else (i, changed) in
    let i :=
      if integer i then
        if openmin i then set_openmin false (set_min (u32 (imin i + 1)) i) else i
      else i in
    let '(err, i) := interval_check_empty i in
    if nz err then (- EINVAL, i) else (changed, i).

(* [pcm_params.c 260-287 snd_interval_refine_max] *)
Definition snd_interval_refine_max (i : snd_interval_t) (max : Z) (openmax_ integer_ : bool)
  : Z * snd_interval_t :=
  if interval_is_empty i then (- ENOENT, i)
  else
    let '(i, changed) :=
      if max <? imax i then (set_openmax openmax_ (set_max max i), 1)
      else if (imax i =? max) && negb (openmax i) && openmax_ then (set_openmax true i, 1)
      else (i, 0) in
    let '(i, changed) :=
      if negb (integer i) && integer_ then (set_integer true i, 1) else (i, changed) in
    let i :=
      if integer i then
        if openmax i then set_openmax false (set_max (u32 (imax i - 1)) i) else i
      else i in
    let '(err, i) := interval_check_empty i in
    if nz err then (- EINVAL, i) else (changed, i).

(* [pcm_params.c 289-303 snd_interval_refine] *)
Definition snd_interval_refine (i v : snd_interval_t) : Z * snd_interval_t :=
  let '(err, i) := snd_interval_refine_min i (imin v) (openmin v) (integer v) in
  if err <? 0 then (err, i)
  else
    let changed := err in
    let '(err, i) := snd_interval_refine_max i (imax v) (openmax v) (integer v) in
    if err <? 0 then (err, i)
    else
      let changed := Z.lor changed err in
      let i := if negb (integer i) && negb (openmin i) && negb (openmax i) && (imin i =? imax i)
               then set_integer true i else i in
      (changed, i).

(* [pcm_params.c 305-316 snd_interval_refine_first] *)
Definition snd_interval_refine_first (i : snd_interval_t) : Z * snd_interval_t :=
  if interval_is_empty i then (- ENOENT, i)
  else if interval_is_single i then (0, i)
  else
    let i := set_max (imin i) i in
    let i := set_openmax (openmin i) i in
    let i := if openmax i then set_max (u32 (imax i + 1)) i else i in
    (1, i).

(* [pcm_params.c 318-329 snd_interval_refine_last] *)
Definition snd_interval_refine_last (i : snd_interval_t) : Z * snd_interval_t :=
  if interval_is_empty i then (- ENOENT, i)
  else if interval_is_single i then (0, i)
  else
    let i := set_min (imax i) i in
    let i := set_openmin (openmax i) i in
    let i := if openmin i then set_min (u32 (imin i - 1)) i else i in
    (1, i).

(* [pcm_params.c 331-339 snd_interval_refine_set] *)
Definition snd_interval_refine_set (i : snd_interval_t) (val : Z) : Z * snd_interval_t :=
  snd_interval_refine i (Interval val val false false true false).

(** ** Specification: an interval is a set of rational points *)

Definition is_int (x : Q) : Prop := exists z : Z, (x == inject_Z z)%Q.

(** [x] is above a lower bound, below an upper bound. *)
Definition above (open : bool) (m : Z) (x : Q) : Prop :=
  if open then (inject_Z m < x)%Q else (inject_Z m <= x)%Q.
Definition below (open : bool) (m : Z) (x : Q) : Prop :=
  if open then (x < inject_Z m)%Q else (x <= inject_Z m)%Q.

Definition in_interval (i : snd_interval_t) (x : Q) : Prop :=
  iempty i = false /\ above (openmin i) (imin i) x /\ below (openmax i) (imax i) x /\
  (integer i = true -> is_int x).

(** The bounds leave a point. *)
Definition bounds_ok (i : snd_interval_t) : Prop :=
  imin i < imax i \/ imin i = imax i /\ openmin i = false /\ openmax i = false.

(** Bounds are 32-bit, and an interval not marked empty has a point. *)
Definition interval_wf (i : snd_interval_t) : Prop :=
  is_u32 (imin i) /\ is_u32 (imax i) /\ (iempty i = false -> bounds_ok i).

#[global] Instance interval_wf_dec i : Decision (interval_wf i).
Proof. unfold interval_wf, bounds_ok. apply _. Defined.

(** The code of a refinement from [i] to [i']: 1 where it changed the interval,
    0 where it lost no point. *)
Definition interval_code (i i' : snd_interval_t) (rc : Z) : Prop :=
  if iempty i then rc = - ENOENT
  else if iempty i' then rc = - EINVAL
  else rc = 1 /\ i' <> i \/ rc = 0 /\ forall x, in_interval i x -> in_interval i' x.

(** The bounds of [i'] lie within the ones of [i]. *)
Definition tighter (i i' : snd_interval_t) : Prop :=
  (imin i < imin i' \/ imin i = imin i' /\ (openmin i = true -> openmin i' = true)) /\
  (imax i' < imax i \/ imax i = imax i' /\ (openmax i = true -> openmax i' = true)) /\
  (integer i = true -> integer i' = true) /\
  (iempty i = true -> iempty i' = true).

(** [res] holds the points of [i] that [P] accepts, and its code says so. *)
Definition interval_refined (i : snd_interval_t) (P : Q -> Prop) (res : Z * snd_interval_t) : Prop :=
  interval_wf res.2 /\
  (forall x, in_interval res.2 x <-> in_interval i x /\ P x) /\
  interval_code i res.2 res.1 /\
  tighter i res.2.

(** ** Bounds as sets of points *)

#[local] Arguments above : simpl never.
#[local] Arguments below : simpl never.

Lemma above_tighter o o' m m' x : m < m' -> above o' m' x -> above o m x.
Proof.
  intros Hlt H. rewrite Zlt_Qlt in Hlt. unfold above in *. destruct o, o'; lra.
Qed.

Lemma below_tighter o o' m m' x : m' < m -> below o' m' x -> below o m x.
Proof.
  intros Hlt H. rewrite Zlt_Qlt in Hlt. unfold below in *. destruct o, o'; lra.
Qed.

Lemma above_int m x : is_int x -> above true m x <-> above false (m + 1) x.
Proof.
  intros [z Hz]. unfold above. rewrite Hz, <- Zlt_Qlt, <- Zle_Qle. lia.
Qed.

Lemma below_int m x : is_int x -> below true m x <-> below false (m - 1) x.
Proof.
  intros [z Hz]. unfold below. rewrite Hz, <- Zlt_Qlt, <- Zle_Qle. lia.
Qed.

Lemma above_open m x : above true m x -> above false m x.
Proof. unfold above. lra. Qed.

Lemma below_open m x : below true m x -> below false m x.
Proof. unfold below. lra. Qed.

(** No point lies between crossed bounds. *)
Lemma crossed_none o m o' m' x :
  m' < m \/ m = m' /\ (o || o')%bool = true -> above o m x -> below o' m' x -> False.
Proof.
  unfold above, below. intros [Hlt|[-> Ho]] Ha Hb.
  - rewrite Zlt_Qlt in Hlt. destruct o, o'; lra.
  - destruct o, o'; simpl in Ho; try done; lra.
Qed.

(** The lower bound after a meet with [min]: its value, openness, and whether
    it moved. *)
Definition meet_min (m : Z) (o : bool) (min : Z) (o' : bool) : Z * bool * Z :=
  if m <? min then (min, o', 1)
  else if (m =? min) && negb o && o' then (m, true, 1) else (m, o, 0).
Definition meet_max (m : Z) (o : bool) (max : Z) (o' : bool) : Z * bool * Z :=
  if max <? m then (max, o', 1)
  else if (m =? max) && negb o && o' then (m, true, 1) else (m, o, 0).

Lemma meet_min_above m o min o' x :
  let '(m1, o1, _) := meet_min m o min o' in
  above o1 m1 x <-> above o m x /\ above o' min x.
Proof.
  unfold meet_min. destruct (Z.ltb_spec m min) as [Hlt|Hge].
  - split; [intros H; split; [eapply above_tighter; eauto|done]|tauto].
  - destruct (Z.eqb_spec m min) as [->|Hne].
    + destruct o, o'; simpl; split; try tauto; intros H; split; auto using above_open.
    + simpl. split; [|tauto]. intros H. split; [done|].
      apply (above_tighter _ o _ m); [lia|done].
Qed.

Lemma meet_max_below m o max o' x :
  let '(m1, o1, _) := meet_max m o max o' in
  below o1 m1 x <-> below o m x /\ below o' max x.
Proof.
  unfold meet_max. destruct (Z.ltb_spec max m) as [Hlt|Hge].
  - split; [intros H; split; [eapply below_tighter; eauto|done]|tauto].
  - destruct (Z.eqb_spec m max) as [->|Hne].
    + destruct o, o'; simpl; split; try tauto; intros H; split; auto using below_open.
    + simpl. split; [|tauto]. intros H. split; [done|].
      apply (below_tighter _ o _ m); [lia|done].
Qed.

(** Both refinements close the moved bound of an integer interval and then look
    whether anything is left. *)
Definition close_min (m : Z) (o n : bool) : Z * bool :=
  if n && o then (u32 (m + 1), false) else (m, o).
Definition close_max (m : Z) (o n : bool) : Z * bool :=
  if n && o then (u32 (m - 1), false) else (m, o).

Lemma close_min_above m o n x :
  (n = true -> is_int x) -> 0 <= m -> (n && o = true -> m < UINT_MAX) ->
  let '(m1, o1) := close_min m o n in above o1 m1 x <-> above o m x.
Proof.
  intros Hx Hm Hov. unfold close_min. destruct (n && o) eqn:Hno; [|done].
  apply andb_true_iff in Hno as [-> ->]. rewrite u32_id.
  - symmetry. apply above_int. auto.
  - specialize (Hov eq_refl). unfold is_u32. lia.
Qed.

Lemma close_max_below m o n x :
  (n = true -> is_int x) -> m <= UINT_MAX -> (n && o = true -> 0 < m) ->
  let '(m1, o1) := close_max m o n in below o1 m1 x <-> below o m x.
Proof.
  intros Hx Hm Hov. unfold close_max. destruct (n && o) eqn:Hno; [|done].
  apply andb_true_iff in Hno as [-> ->]. rewrite u32_id.
  - symmetry. apply below_int. auto.
  - specialize (Hov eq_refl). unfold is_u32. lia.
Qed.

Definition emptied (i : snd_interval_t) : bool :=
  (imax i <? imin i) || ((imin i =? imax i) && (openmin i || openmax i)).

(** The value a refinement ends with: the interval and its code, from the new
    contents [i'] and the flag [changed]. *)
Definition finish (changed : Z) (i' : snd_interval_t) : Z * snd_interval_t :=
  if emptied i' then (- EINVAL, set_empty true i') else (changed, i').

Lemma check_finish c i :
  (let '(err, i') := interval_check_empty i in if nz err then (- EINVAL, i') else (c, i')) =
  finish c i.
Proof. unfold interval_check_empty, finish, emptied. destruct ((imax i <? imin i) || _); done. Qed.

Lemma refine_min_eq i min o n : iempty i = false ->
  snd_interval_refine_min i min o n =
  let '(m1, o1, c) := meet_min (imin i) (openmin i) min o in
  let '(m2, o2) := close_min m1 o1 (integer i || n) in
  finish (if negb (integer i) && n then 1 else c)
    (Interval m2 (imax i) o2 (openmax i) (integer i || n) (iempty i)).
Proof.
  intros He. destruct i as [m M o0 O0 n0 e0]; simpl in He; subst e0.
  unfold snd_interval_refine_min, interval_is_empty, meet_min, close_min,
    set_min, set_openmin, set_integer; simpl.
  destruct (m <? min), (m =? min), o0, o, n0, n; simpl; apply check_finish.
Qed.

Lemma refine_max_eq i max o n : iempty i = false ->
  snd_interval_refine_max i max o n =
  let '(m1, o1, c) := meet_max (imax i) (openmax i) max o in
  let '(m2, o2) := close_max m1 o1 (integer i || n) in
  finish (if negb (integer i) && n then 1 else c)
    (Interval (imin i) m2 (openmin i) o2 (integer i || n) (iempty i)).
Proof.
  intros He. destruct i as [m M o0 O0 n0 e0]; simpl in He; subst e0.
  unfold snd_interval_refine_max, interval_is_empty, meet_max, close_max,
    set_max, set_openmax, set_integer; simpl.
  destruct (max <? M), (M =? max), O0, o, n0, n; simpl; apply check_finish.
Qed.

Lemma tighter_refl i : tighter i i.
Proof. unfold tighter. intuition. Qed.

Lemma tighter_trans i j k : tighter i j -> tighter j k -> tighter i k.
Proof. unfold tighter. intuition lia. Qed.

Lemma tighter_antisym i j : tighter i j -> tighter j i -> i = j.
Proof.
  unfold tighter. destruct i as [m M o O n e], j as [m' M' o' O' n' e']; simpl.
  intros (? & ? & ? & ?) (? & ? & ? & ?).
  assert (m = m') as -> by lia. assert (M = M') as -> by lia.
  f_equal; apply eq_true_iff_eq; intuition lia.
Qed.

(** What a refinement of a non-empty interval has to show of its new contents. *)
Lemma finish_refined i i' (P : Q -> Prop) c :
  iempty i = false -> iempty i' = false -> is_u32 (imin i') -> is_u32 (imax i') ->
  (forall x, above (openmin i') (imin i') x /\ below (openmax i') (imax i') x /\
     (integer i' = true -> is_int x) <-> in_interval i x /\ P x) ->
  (c = 1 /\ i' <> i \/ c = 0 /\ forall x, in_interval i x -> P x) ->
  tighter i i' ->
  interval_refined i P (finish c i').
Proof.
  intros He He' Hm HM Hpts Hc Ht. unfold interval_refined, finish, interval_code.
  assert (Hin : forall x, in_interval i' x <-> in_interval i x /\ P x).
  { intros x. rewrite <- Hpts. unfold in_interval. tauto. }
  destruct (emptied i') eqn:Hemp; simpl; rewrite He.
  - split; [split; [done|split; [done|discriminate]]|].
    split; [|split; [done|unfold tighter in *; simpl; rewrite He; intuition]].
    intros x. split; [intros [? _]; discriminate|]. intros Hx.
    apply Hpts in Hx as (Ha & Hb & _). exfalso.
    eapply crossed_none; [|exact Ha|exact Hb]. unfold emptied in Hemp.
    apply orb_true_iff in Hemp as [H|H]; zbool; auto.
  - rewrite He'. split; [split; [done|split; [done|]]|].
    + intros _. unfold emptied in Hemp. zbool. unfold bounds_ok.
      destruct (Z.eqb_spec (imin i') (imax i')) as [->|]; [|left; lia].
      right. simpl in *. destruct (openmin i'), (openmax i'); done.
    + split; [done|]. split; [|done]. destruct Hc as [?|[-> Hc]]; [auto|right].
      split; [done|]. intros x Hx. apply Hin. auto.
Qed.

Inductive bound :=
  | Lower (min : Z) (open : bool)
  | Upper (max : Z) (open : bool).

Definition refine_bound (b : bound) (n : bool) (i : snd_interval_t) : Z * snd_interval_t :=
  match b with
  | Lower min o => snd_interval_refine_min i min o n
  | Upper max o => snd_interval_refine_max i max o n
  end.

Definition within (b : bound) (x : Q) : Prop :=
  match b with
  | Lower min o => above o min x
  | Upper max o => below o max x
  end.

(** The bound is 32-bit and closing it does not wrap. *)
Definition bound_ok (b : bound) (n : bool) : Prop :=
  match b with
  | Lower min o => is_u32 min /\ (n && o = true -> min < UINT_MAX)
  | Upper max o => is_u32 max /\ (n && o = true -> 0 < max)
  end.

(** Where the met bound can be closed without wrapping. *)
Lemma meet_min_ok i min o n m1 o1 c :
  interval_wf i -> iempty i = false -> bound_ok (Lower min o) n ->
  meet_min (imin i) (openmin i) min o = (m1, o1, c) ->
  is_u32 m1 /\ (n && o1 = true -> m1 < UINT_MAX).
Proof.
  intros (Hm & HM & Hok) He [Hmin Hov] Hmm. pose proof (Hok He) as Hb.
  unfold meet_min, is_u32, bounds_ok in *. repeat case_hyp Hmm; injection Hmm as <- <- <-; zbool.
  - auto.
  - subst. split; [done|]. rewrite andb_true_r. intros ->. auto.
  - split; [done|]. intros H. apply andb_true_iff in H as [_ H]. rewrite H in Hb.
    intuition (lia || congruence).
Qed.

Lemma meet_max_ok i max o n m1 o1 c :
  interval_wf i -> iempty i = false -> bound_ok (Upper max o) n ->
  meet_max (imax i) (openmax i) max o = (m1, o1, c) ->
  is_u32 m1 /\ (n && o1 = true -> 0 < m1).
Proof.
  intros (Hm & HM & Hok) He [Hmax Hov] Hmm. pose proof (Hok He) as Hb.
  unfold meet_max, is_u32, bounds_ok in *. repeat case_hyp Hmm; injection Hmm as <- <- <-; zbool.
  - auto.
  - subst. split; [done|]. rewrite andb_true_r. intros ->. auto.
  - split; [done|]. intros H. apply andb_true_iff in H as [_ H]. rewrite H in Hb.
    intuition (lia || congruence).
Qed.

Lemma close_u32 m o n :
  is_u32 m -> is_u32 (close_min m o n).1 /\ is_u32 (close_max m o n).1.
Proof. intros. unfold close_min, close_max. destruct (n && o); simpl; split; auto; apply u32_range. Qed.

(** A moved bound stays moved when it is closed. *)
Lemma meet_min_changed i min o n m1 o1 c m2 o2 :
  interval_wf i -> iempty i = false -> bound_ok (Lower min o) n ->
  meet_min (imin i) (openmin i) min o = (m1, o1, c) -> close_min m1 o1 n = (m2, o2) ->
  c = 1 /\ (m2, o2) <> (imin i, openmin i) \/
  c = 0 /\ forall x, above (openmin i) (imin i) x -> above o min x.
Proof.
  intros Hwf He Hb Hmm Hcm.
  destruct (meet_min_ok _ _ _ _ _ _ _ Hwf He Hb Hmm) as [Hm1 Hov].
  destruct Hwf as (Hm & _ & _). pose proof (fun x => meet_min_above (imin i) (openmin i) min o x) as Ha.
  unfold meet_min, is_u32 in *. unfold close_min in Hcm.
  repeat case_hyp Hmm; injection Hmm as <- <- <-; zbool.
  - left. split; [done|]. destruct (n && o) eqn:Hn; injection Hcm as <- <-;
      intros Heq; apply (f_equal fst) in Heq; simpl in Heq.
    + specialize (Hov eq_refl). rewrite u32_id in Heq; unfold is_u32 in *; lia.
    + lia.
  - left. split; [done|]. destruct (n && true) eqn:Hn; injection Hcm as <- <-; intros Heq.
    + apply (f_equal fst) in Heq. simpl in Heq.
      specialize (Hov eq_refl). rewrite u32_id in Heq; unfold is_u32 in *; lia.
    + apply (f_equal snd) in Heq. simpl in Heq. congruence.
  - right. split; [done|]. intros x Hx. apply (Ha x). done.
Qed.

Lemma meet_max_changed i max o n m1 o1 c m2 o2 :
  interval_wf i -> iempty i = false -> bound_ok (Upper max o) n ->
  meet_max (imax i) (openmax i) max o = (m1, o1, c) -> close_max m1 o1 n = (m2, o2) ->
  c = 1 /\ (m2, o2) <> (imax i, openmax i) \/
  c = 0 /\ forall x, below (openmax i) (imax i) x -> below o max x.
Proof.
  intros Hwf He Hb Hmm Hcm.
  destruct (meet_max_ok _ _ _ _ _ _ _ Hwf He Hb Hmm) as [Hm1 Hov].
  destruct Hwf as (_ & Hm & _). pose proof (fun x => meet_max_below (imax i) (openmax i) max o x) as Ha.
  unfold meet_max, is_u32 in *. unfold close_max in Hcm.
  repeat case_hyp Hmm; injection Hmm as <- <- <-; zbool.
  - left. split; [done|]. destruct (n && o) eqn:Hn; injection Hcm as <- <-;
      intros Heq; apply (f_equal fst) in Heq; simpl in Heq.
    + specialize (Hov eq_refl). rewrite u32_id in Heq; unfold is_u32 in *; lia.
    + lia.
  - left. split; [done|]. destruct (n && true) eqn:Hn; injection Hcm as <- <-; intros Heq.
    + apply (f_equal fst) in Heq. simpl in Heq.
      specialize (Hov eq_refl). rewrite u32_id in Heq; unfold is_u32 in *; lia.
    + apply (f_equal snd) in Heq. simpl in Heq. congruence.
  - right. split; [done|]. intros x Hx. apply (Ha x). done.
Qed.

Lemma close_min_lex m o n : 0 <= m -> (n && o = true -> m < UINT_MAX) ->
  let '(m2, o2) := close_min m o n in m < m2 \/ m = m2 /\ (o = true -> o2 = true).
Proof.
  intros Hm Hov. unfold close_min. destruct (n && o); [left|right; done].
  specialize (Hov eq_refl). rewrite u32_id; unfold is_u32; lia.
Qed.

Lemma close_max_lex m o n : m <= UINT_MAX -> (n && o = true -> 0 < m) ->
  let '(m2, o2) := close_max m o n in m2 < m \/ m = m2 /\ (o = true -> o2 = true).
Proof.
  intros Hm Hov. unfold close_max. destruct (n && o); [left|right; done].
  specialize (Hov eq_refl). rewrite u32_id; unfold is_u32; lia.
Qed.

Lemma meet_min_lex m o min o' :
  let '(m1, o1, _) := meet_min m o min o' in m < m1 \/ m = m1 /\ (o = true -> o1 = true).
Proof.
  unfold meet_min. destruct (Z.ltb_spec m min); [auto|].
  destruct ((m =? min) && negb o && o'); auto.
Qed.

Lemma meet_max_lex m o max o' :
  let '(m1, o1, _) := meet_max m o max o' in m1 < m \/ m = m1 /\ (o = true -> o1 = true).
Proof.
  unfold meet_max. destruct (Z.ltb_spec max m); [auto|].
  destruct ((m =? max) && negb o && o'); auto.
Qed.

(** An empty interval stays as it is. *)
Lemma refined_enoent i (P : Q -> Prop) :
  interval_wf i -> iempty i = true -> interval_refined i P (- ENOENT, i).
Proof.
  intros Hwf He. split; [done|].
  split; [|split; [unfold interval_code; rewrite He; done|apply tighter_refl]].
  intros x. unfold in_interval. simpl. rewrite He. intuition congruence.
Qed.

Lemma orb_imp (n n' : bool) (I : Prop) :
  (n || n' = true -> I) <-> (n = true -> I) /\ (n' = true -> I).
Proof. destruct n, n'; simpl; tauto. Qed.

Lemma refine_lower_correct i min o n :
  interval_wf i -> bound_ok (Lower min o) (integer i || n) ->
  interval_refined i (fun x => above o min x /\ (n = true -> is_int x))
    (snd_interval_refine_min i min o n).
Proof.
  intros Hwf Hbk. destruct (iempty i) eqn:He.
  { unfold snd_interval_refine_min, interval_is_empty. rewrite He. apply refined_enoent; done. }
  rewrite refine_min_eq by done. pose proof Hwf as (Hm & HM & _).
  pose proof (meet_min_above (imin i) (openmin i) min o) as Hmeet.
  pose proof (meet_min_lex (imin i) (openmin i) min o) as Hl1.
  destruct (meet_min _ _ _ _) as [[m1 o1] c] eqn:Hmm.
  destruct (meet_min_ok i min o _ _ _ _ Hwf He Hbk Hmm) as [Hm1 Hov].
  pose proof (close_u32 m1 o1 (integer i || n) Hm1) as [Hu _].
  pose proof (fun x H => close_min_above m1 o1 (integer i || n) x H (proj1 Hm1) Hov) as Hab.
  pose proof (close_min_lex m1 o1 _ (proj1 Hm1) Hov) as Hl2.
  destruct (close_min m1 o1 (integer i || n)) as [m2 o2] eqn:Hcm.
  pose proof (meet_min_changed _ _ _ _ _ _ _ _ _ Hwf He Hbk Hmm Hcm) as Hch.
  apply finish_refined; simpl; auto.
  - intros x. unfold in_interval. rewrite He. split.
    + intros (H1 & H2 & H3). pose proof (proj1 (orb_imp _ _ _) H3). apply Hab, Hmeet in H1; tauto.
    + intros [(_ & H1 & H2 & H3) [H4 H5]]. pose proof (proj2 (orb_imp _ _ _) (conj H3 H5)).
      rewrite Hab, Hmeet; tauto.
  - destruct (negb (integer i) && n) eqn:Hn.
    + left. split; [done|]. intros Hi. apply (f_equal integer) in Hi. simpl in Hi.
      zbool. rewrite H, H0 in Hi. done.
    + destruct Hch as [[-> Hne]|[-> Ha]].
      * left. split; [done|]. intros Hi. apply Hne. rewrite <- Hi. done.
      * right. split; [done|]. intros x (_ & H1 & _ & H3). split; [auto|]. intros ->.
        rewrite andb_true_r in Hn. zbool. auto.
  - unfold tighter; simpl. rewrite He. split; [intuition lia|]. split; [intuition lia|].
    split; [intros ->; done|done].
Qed.

Lemma refine_upper_correct i max o n :
  interval_wf i -> bound_ok (Upper max o) (integer i || n) ->
  interval_refined i (fun x => below o max x /\ (n = true -> is_int x))
    (snd_interval_refine_max i max o n).
Proof.
  intros Hwf Hbk. destruct (iempty i) eqn:He.
  { unfold snd_interval_refine_max, interval_is_empty. rewrite He. apply refined_enoent; done. }
  rewrite refine_max_eq by done. pose proof Hwf as (Hm & HM & _).
  pose proof (meet_max_below (imax i) (openmax i) max o) as Hmeet.
  pose proof (meet_max_lex (imax i) (openmax i) max o) as Hl1.
  destruct (meet_max _ _ _ _) as [[m1 o1] c] eqn:Hmm.
  destruct (meet_max_ok i max o _ _ _ _ Hwf He Hbk Hmm) as [Hm1 Hov].
  pose proof (close_u32 m1 o1 (integer i || n) Hm1) as [_ Hu].
  pose proof (fun x H => close_max_below m1 o1 (integer i || n) x H (proj2 Hm1) Hov) as Hab.
  pose proof (close_max_lex m1 o1 _ (proj2 Hm1) Hov) as Hl2.
  destruct (close_max m1 o1 (integer i || n)) as [m2 o2] eqn:Hcm.
  pose proof (meet_max_changed _ _ _ _ _ _ _ _ _ Hwf He Hbk Hmm Hcm) as Hch.
  apply finish_refined; simpl; auto.
  - intros x. unfold in_interval. rewrite He. split.
    + intros (H1 & H2 & H3). pose proof (proj1 (orb_imp _ _ _) H3). apply Hab, Hmeet in H2; tauto.
    + intros [(_ & H1 & H2 & H3) [H4 H5]]. pose proof (proj2 (orb_imp _ _ _) (conj H3 H5)).
      rewrite Hab, Hmeet; tauto.
  - destruct (negb (integer i) && n) eqn:Hn.
    + left. split; [done|]. intros Hi. apply (f_equal integer) in Hi. simpl in Hi.
      zbool. rewrite H, H0 in Hi. done.
    + destruct Hch as [[-> Hne]|[-> Ha]].
      * left. split; [done|]. intros Hi. apply Hne. rewrite <- Hi. done.
      * right. split; [done|]. intros x (_ & _ & H2 & H3). split; [auto|]. intros ->.
        rewrite andb_true_r in Hn. zbool. auto.
  - unfold tighter; simpl. rewrite He. split; [intuition lia|]. split; [intuition lia|].
    split; [intros ->; done|done].
Qed.

(** C22. A refinement by a bound keeps exactly the points within the bound (the
    integer ones, where asked for), keeps the interval well formed, and returns
    -ENOENT for an empty interval, -EINVAL where no point is left, 1 where the
    interval changed and 0 where no point was lost, provided closing the bound of
    an integer interval does not wrap. *)
Theorem interval_bound_correct (b : bound) (n : bool) (i : snd_interval_t) :
  interval_wf i -> bound_ok b (integer i || n) ->
  interval_refined i (fun x => within b x /\ (n = true -> is_int x)) (refine_bound b n i).
Proof.
  destruct b as [m o|m o]; simpl; [apply refine_lower_correct|apply refine_upper_correct].
Qed.

Lemma interval_bound_correct_witness :
  refine_bound (Lower 4 true) true interval_set_any =
    (1, Interval 5 UINT_MAX false false true false) /\
  interval_refined interval_set_any (fun x => above true 4 x /\ (true = true -> is_int x))
    (refine_bound (Lower 4 true) true interval_set_any).
Proof.
  split; [reflexivity|]. apply (interval_bound_correct (Lower 4 true)).
  - by_decide.
  - split; done.
Defined.

(** ** Intersections *)

Lemma code_negative i i' rc : interval_code i i' rc ->
  rc < 0 -> tighter i i' -> iempty i' = true.
Proof.
  unfold interval_code, tighter. destruct (iempty i); [intuition|].
  destruct (iempty i'); [done|]. lia.
Qed.

Lemma code_nonneg i i' rc : interval_code i i' rc -> (rc <? 0) = false ->
  iempty i = false /\ iempty i' = false.
Proof.
  unfold interval_code, ENOENT, EINVAL.
  destruct (iempty i), (iempty i'); intros Hc Hn; auto; subst; discriminate.
Qed.

(** Marking a one-point interval as integer keeps its point. *)
Definition mark_integer (i : snd_interval_t) : snd_interval_t :=
  if negb (integer i) && negb (openmin i) && negb (openmax i) && (imin i =? imax i)
  then set_integer true i else i.

Lemma mark_integer_spec i x :
  interval_wf i ->
  interval_wf (mark_integer i) /\ tighter i (mark_integer i) /\
  (in_interval (mark_integer i) x <-> in_interval i x) /\ iempty (mark_integer i) = iempty i.
Proof.
  intros Hwf. unfold mark_integer. destruct (_ && _ && _ && _) eqn:Hc.
  2:{ split; [done|]. split; [apply tighter_refl|done]. }
  zbool. split; [done|]. split; [unfold tighter; simpl; intuition|]. split; [|done].
  unfold in_interval; simpl. split; [intuition congruence|].
  intros (He & Ha & Hb & Hi). repeat split; auto. intros _.
  exists (imin i). unfold above, below in *.
  replace (imax i) with (imin i) in Hb by done.
  destruct (openmin i), (openmax i); try done. lra.
Qed.

(** The point set of [refine i v], by the two bounds of [v]. *)
Lemma in_interval_bounds v x : iempty v = false ->
  in_interval v x <->
  (above (openmin v) (imin v) x /\ (integer v = true -> is_int x)) /\
  (below (openmax v) (imax v) x /\ (integer v = true -> is_int x)).
Proof. unfold in_interval. intuition. Qed.

Lemma refined_stop i (P R : Q -> Prop) rc i' :
  interval_refined i P (rc, i') -> (rc <? 0) = true ->
  interval_refined i (fun x => P x /\ R x) (rc, i').
Proof.
  intros (Hwf & Hp & Hc & Ht) Hn. simpl in *. zbool.
  pose proof (code_negative _ _ _ Hc Hn Ht) as He.
  split; [done|]. split; [|done]. intros x. simpl. pose proof (Hp x) as Hx.
  unfold in_interval in Hx at 1 |- * at 1. rewrite He in *. intuition congruence.
Qed.

Lemma refined_then i (P R : Q -> Prop) c1 i1 c2 i2 :
  interval_refined i P (c1, i1) -> (c1 <? 0) = false ->
  interval_refined i1 R (c2, i2) ->
  interval_refined i (fun x => P x /\ R x)
    (if c2 <? 0 then (c2, i2) else (Z.lor c1 c2, mark_integer i2)).
Proof.
  intros (Hwf1 & Hp1 & Hc1 & Ht1) Hn (Hwf2 & Hp2 & Hc2 & Ht2). simpl in *.
  destruct (code_nonneg _ _ _ Hc1 Hn) as [He He1].
  assert (Hp : forall x, in_interval i2 x <-> in_interval i x /\ P x /\ R x).
  { intros x. rewrite Hp2, Hp1. tauto. }
  pose proof (tighter_trans _ _ _ Ht1 Ht2) as Ht.
  unfold interval_code in Hc1, Hc2. rewrite He, He1 in Hc1. rewrite He1 in Hc2.
  destruct (c2 <? 0) eqn:Hn2.
  - split; [done|]. split; [done|]. split; [|done]. unfold interval_code. simpl. rewrite He.
    zbool. destruct (iempty i2); [done|lia].
  - pose proof (fun x => mark_integer_spec i2 x Hwf2) as Hm.
    destruct (Hm 0%Q) as (Hwm & Htm & _ & Hem).
    split; [done|]. split; [intros x; simpl; rewrite (proj1 (proj2 (proj2 (Hm x)))); apply Hp|].
    split; [|eapply tighter_trans; eauto]. unfold interval_code. simpl. rewrite He, Hem.
    destruct (iempty i2); [unfold EINVAL in Hc2; subst; discriminate|].
    destruct Hc1 as [[-> Hne]|[-> Hk1]].
    + left. destruct Hc2 as [[-> _]|[-> _]]; (split; [done|]); intros Heq;
        apply Hne, tighter_antisym; auto; rewrite <- Heq; eapply tighter_trans; eauto.
    + destruct Hc2 as [[-> Hne]|[-> Hk2]].
      * left. split; [done|]. intros Heq. apply Hne, tighter_antisym; auto.
        eapply tighter_trans; [exact Htm|]. rewrite Heq. done.
      * right. split; [done|]. intros x Hx. apply (Hm x). auto.
Qed.

(** Refining by the lower bound, then by the upper one. *)
Lemma interval_refine_meets (i v : snd_interval_t) :
  interval_wf i -> interval_wf v -> iempty v = false ->
  interval_refined i (in_interval v) (snd_interval_refine i v).
Proof.
  intros Hwf (Hm & HM & Hok) He. pose proof (Hok He) as Hb. unfold is_u32, bounds_ok in *.
  assert (Hr : interval_refined i (fun x =>
    (above (openmin v) (imin v) x /\ (integer v = true -> is_int x)) /\
    (below (openmax v) (imax v) x /\ (integer v = true -> is_int x)))
    (snd_interval_refine i v)).
  { unfold snd_interval_refine.
    pose proof (refine_lower_correct i (imin v) (openmin v) (integer v) Hwf) as Hlo.
    destruct (snd_interval_refine_min _ _ _ _) as [c1 i1].
    lapply Hlo; [clear Hlo; intros Hlo|].
    2:{ split; [done|]. intros [_ Ho]%andb_true_iff. rewrite Ho in Hb. intuition (lia || congruence). }
    destruct (c1 <? 0) eqn:Hn; [apply refined_stop; done|].
    pose proof (refine_upper_correct i1 (imax v) (openmax v) (integer v) (proj1 Hlo)) as Hup.
    destruct (snd_interval_refine_max _ _ _ _) as [c2 i2].
    lapply Hup; [clear Hup; intros Hup|].
    2:{ split; [done|]. intros [_ Ho]%andb_true_iff. rewrite Ho in Hb. intuition (lia || congruence). }
    apply (refined_then _ _ _ _ _ _ _ Hlo Hn Hup). }
  destruct Hr as (H1 & H2 & H3). split; [exact H1|]. split; [|exact H3].
  intros x. rewrite H2, (in_interval_bounds v) by done. tauto.
Qed.

(** C13. Refining an interval by a non-empty one intersects them: the result is
    well formed, holds exactly the common points, and the code is -ENOENT, -EINVAL,
    1 or 0 as for the bounds. *)
Theorem interval_refine_correct (i v : snd_interval_t) :
  interval_wf i -> interval_wf v -> iempty v = false ->
  interval_refined i (in_interval v) (snd_interval_refine i v).
Proof. apply interval_refine_meets. Qed.

Lemma interval_refine_correct_witness :
  snd_interval_refine (Interval 3 8 true false false false) (Interval 0 5 false true true false) =
    (1, Interval 4 4 false false true false) /\
  interval_refined (Interval 3 8 true false false false)
    (in_interval (Interval 0 5 false true true false))
    (snd_interval_refine (Interval 3 8 true false false false) (Interval 0 5 false true true false)).
Proof.
  split; [reflexivity|]. apply interval_refine_correct.
  - by_decide.
  - by_decide.
  - reflexivity.
Defined.

(** ** Choosing an end of an interval *)

Inductive interval_end := First | Last.

Definition refine_end (e : interval_end) (i : snd_interval_t) : Z * snd_interval_t :=
  match e with
  | First => snd_interval_refine_first i
  | Last => snd_interval_refine_last i
  end.

(** The points an end keeps: the end itself where it is closed, else the open
    unit next to it. *)
Definition at_end (e : interval_end) (i : snd_interval_t) (x : Q) : Prop :=
  match e with
  | First => if openmin i then (x < inject_Z (imin i + 1))%Q else (x <= inject_Z (imin i))%Q
  | Last => if openmax i then (inject_Z (imax i - 1) < x)%Q else (inject_Z (imax i) <= x)%Q
  end.

Lemma not_single_bounds i :
  interval_wf i -> iempty i = false -> interval_is_single i = false ->
  imin i < imax i /\ (imin i + 1 = imax i -> openmax i = false).
Proof.
  intros (Hm & HM & Hok) He Hs. specialize (Hok He).
  unfold interval_is_single, bounds_ok, is_u32 in *. zbool.
  split; [lia|]. intros Heq. rewrite u32_id in H0 by (unfold is_u32; lia).
  rewrite (proj2 (Z.eqb_eq _ _) Heq) in H0. done.
Qed.

Lemma above_le o m m' x : m' <= m -> above o m x -> above o m' x.
Proof. intros Hle H. rewrite Zle_Qle in Hle. unfold above in *. destruct o; lra. Qed.

Lemma below_le o m m' x : m <= m' -> below o m x -> below o m' x.
Proof. intros Hle H. rewrite Zle_Qle in Hle. unfold below in *. destruct o; lra. Qed.

(** The two ends, each open or closed. *)
Lemma first_points m M o O n : m < M -> (m + 1 = M -> O = false) -> is_u32 m -> is_u32 M ->
  let i := Interval m M o O n false in
  let i' := (snd_interval_refine_first i).2 in
  interval_is_single i = false ->
  interval_wf i' /\ interval_is_single i' = true /\ (snd_interval_refine_first i).1 = 1 /\
  forall x, in_interval i' x <-> in_interval i x /\ at_end First i x.
Proof.
  intros Hlt Hop Hm HM i i' Hs. subst i i'. unfold is_u32 in *.
  unfold snd_interval_refine_first, interval_is_empty. rewrite Hs.
  assert (Hlast : forall x, (x < inject_Z (m + 1))%Q -> below O M x).
  { intros x Hx. destruct (Z.eq_dec (m + 1) M) as [<-|].
    - rewrite Hop by done. unfold below. lra.
    - eapply (below_tighter _ true); [|exact Hx]. lia. }
  destruct o; simpl; unfold set_max, set_openmax, interval_wf, bounds_ok, interval_is_single,
    in_interval, is_u32; simpl; rewrite ?u32_id by (unfold is_u32; lia);
    rewrite ?Z.eqb_refl, ?orb_true_r.
  - split; [lia|]. split; [done|]. split; [done|].
    intros x. unfold below at 1. pose proof (Hlast x). tauto.
  - split; [lia|]. split; [done|]. split; [done|]. intros x. unfold below at 1.
    assert (x <= inject_Z m -> below O M x)%Q by (apply (below_tighter O false M m); done).
    tauto.
Qed.

Lemma last_points m M o O n : m < M -> (m + 1 = M -> O = false) -> is_u32 m -> is_u32 M ->
  let i := Interval m M o O n false in
  let i' := (snd_interval_refine_last i).2 in
  interval_is_single i = false ->
  interval_wf i' /\ interval_is_single i' = true /\ (snd_interval_refine_last i).1 = 1 /\
  forall x, in_interval i' x <-> in_interval i x /\ at_end Last i x.
Proof.
  intros Hlt Hop Hm HM i i' Hs. subst i i'. unfold is_u32 in *.
  unfold snd_interval_refine_last, interval_is_empty. rewrite Hs.
  assert (Hfirst : forall x, O = true -> (inject_Z (M - 1) < x)%Q -> above o m x).
  { intros x HO Hx. eapply (above_tighter _ true); [|exact Hx].
    destruct (Z.eq_dec (m + 1) M); [rewrite Hop in HO by done; done|lia]. }
  destruct O; simpl; unfold set_min, set_openmin, interval_wf, bounds_ok, interval_is_single,
    in_interval, is_u32; simpl; rewrite ?(u32_id (M - 1)) by (unfold is_u32; lia);
    replace (M - 1 + 1) with M by lia; rewrite ?(u32_id M) by (unfold is_u32; lia);
    rewrite ?Z.eqb_refl, ?orb_true_r.
  - split; [lia|]. split; [done|]. split; [done|].
    intros x. unfold above at 1. pose proof (Hfirst x eq_refl). tauto.
  - split; [lia|]. split; [done|]. split; [done|]. intros x. unfold above at 1.
    assert (inject_Z M <= x -> above o m x)%Q by (apply (above_tighter o false m M); done).
    tauto.
Qed.

(** Choosing the first or the last configuration of an interval leaves a
    single-valued interval, at the closed end or in the open unit next to the open
    one, inside the interval; an interval that is single already stays as it is
    and gives 0, an empty one gives -ENOENT. *)
Theorem interval_end_correct (e : interval_end) (i : snd_interval_t) :
  interval_wf i ->
  let '(rc, i') := refine_end e i in
  interval_wf i' /\
  (if iempty i then rc = - ENOENT /\ i' = i
   else interval_is_single i' = true /\
     if interval_is_single i then rc = 0 /\ i' = i
     else rc = 1 /\ forall x, in_interval i' x <-> in_interval i x /\ at_end e i x).
Proof.
  intros Hwf. destruct (refine_end e i) as [rc i'] eqn:Hr.
  destruct (iempty i) eqn:He.
  { destruct e; simpl in Hr; unfold snd_interval_refine_first, snd_interval_refine_last,
      interval_is_empty in Hr; rewrite He in Hr; injection Hr as <- <-; done. }
  destruct (interval_is_single i) eqn:Hs.
  { destruct e; simpl in Hr; unfold snd_interval_refine_first, snd_interval_refine_last,
      interval_is_empty in Hr; rewrite He, Hs in Hr; injection Hr as <- <-; done. }
  destruct (not_single_bounds i Hwf He Hs) as [Hlt Hop]. destruct Hwf as (Hm & HM & _).
  destruct i as [m M o O n e0]; simpl in *; subst e0.
  destruct e; simpl in Hr.
  - pose proof (first_points m M o O n Hlt Hop Hm HM Hs) as Hp. simpl in Hp.
    rewrite Hr in Hp. tauto.
  - pose proof (last_points m M o O n Hlt Hop Hm HM Hs) as Hp. simpl in Hp.
    rewrite Hr in Hp. tauto.
Qed.

Lemma interval_end_correct_witness :
  let i := Interval 3 8 false true false false in
  let '(rc, i') := refine_end Last i in
  interval_wf i' /\ interval_is_single i' = true /\ rc = 1 /\
  forall x, in_interval i' x <-> in_interval i x /\ (inject_Z 7 < x)%Q.
Proof. apply (interval_end_correct Last (Interval 3 8 false true false false)). by_decide. Defined.

(** ** Wrap-around *)

(** Where an integer interval meets the open upper bound 0, the bound wraps:
    the refinement answers "changed" and leaves the whole range where no value is
    left; likewise for the open lower bound at [UINT_MAX]. *)
Theorem interval_bound_wraps (i : snd_interval_t) :
  interval_wf i -> iempty i = false ->
  (imin i < UINT_MAX -> snd_interval_refine_max i 0 true true =
     (1, Interval (imin i) UINT_MAX (openmin i) false true false)) /\
  (0 < imax i -> snd_interval_refine_min i UINT_MAX true true =
     (1, Interval 0 (imax i) false (openmax i) true false)).
Proof.
  intros (Hm & HM & Hok) He. specialize (Hok He). unfold is_u32, bounds_ok in *. split; intros Hlt.
  - rewrite refine_max_eq by done.
    assert (Hmeet : meet_max (imax i) (openmax i) 0 true = (0, true, 1)).
    { unfold meet_max. destruct (Z.ltb_spec 0 (imax i)); [done|].
      destruct Hok as [?|(? & ? & ->)]; [lia|]. replace (imax i) with 0 by lia. done. }
    rewrite Hmeet, orb_true_r. unfold close_max, finish, emptied. cbn [andb imin imax openmin openmax].
    change (u32 (0 - 1)) with UINT_MAX.
    destruct (Z.ltb_spec UINT_MAX (imin i)); [lia|]. destruct (Z.eqb_spec (imin i) UINT_MAX); [lia|].
    rewrite He. destruct (integer i); done.
  - rewrite refine_min_eq by done.
    assert (Hmeet : meet_min (imin i) (openmin i) UINT_MAX true = (UINT_MAX, true, 1)).
    { unfold meet_min. destruct (Z.ltb_spec (imin i) UINT_MAX); [done|].
      destruct Hok as [?|(? & -> & ?)]; [lia|]. replace (imin i) with UINT_MAX by lia. done. }
    rewrite Hmeet, orb_true_r. unfold close_min, finish, emptied. cbn [andb imin imax openmin openmax].
    change (u32 (UINT_MAX + 1)) with 0.
    destruct (Z.ltb_spec (imax i) 0); [lia|]. destruct (Z.eqb_spec 0 (imax i)); [lia|].
    rewrite He. destruct (integer i); done.
Qed.

Lemma interval_bound_wraps_witness :
  snd_interval_refine_max (Interval 0 0 false false true false) 0 true true =
    (1, Interval 0 UINT_MAX false false true false).
Proof.
  apply (interval_bound_wraps (Interval 0 0 false false true false)); [by_decide|done|done].
Defined.
