(* ===== verification/Format.v ===== *)
(** * Sample formats

    The table of sample formats and the routines on it (src/src/pcm_misc.c), the
    predicates of src/src/pcm_macros.h, and the name tables with the search by
    name of src/src/pcm.c.  Formats are the numbers of [snd_pcm_format_t], from 0
    to 52; an access outside the tables, undefined in C, reads a zeroed entry.  The
    target is little endian. *)

From stdpp Require Import strings.
From Stdlib Require Import Ascii String.
From S2P Require Import Prelude CInt.
#[local] Open Scope Z_scope.

Definition FORMAT_UNKNOWN : Z := -1.
Definition FORMAT_S8 : Z := 0.
Definition FORMAT_U8 : Z := 1.
Definition FORMAT_S16_LE : Z := 2.
Definition FORMAT_S16_BE : Z := 3.
Definition FORMAT_U16_LE : Z := 4.
Definition FORMAT_U16_BE : Z := 5.
Definition FORMAT_S24_LE : Z := 6.
Definition FORMAT_S24_BE : Z := 7.
Definition FORMAT_U24_LE : Z := 8.
Definition FORMAT_U24_BE : Z := 9.
Definition FORMAT_S32_LE : Z := 10.
Definition FORMAT_S32_BE : Z := 11.
Definition FORMAT_U32_LE : Z := 12.
Definition FORMAT_U32_BE : Z := 13.
Definition FORMAT_FLOAT_LE : Z := 14.
Definition FORMAT_FLOAT_BE : Z := 15.
Definition FORMAT_FLOAT64_LE : Z := 16.
Definition FORMAT_FLOAT64_BE : Z := 17.
Definition FORMAT_IEC958_SUBFRAME_LE : Z := 18.
Definition FORMAT_IEC958_SUBFRAME_BE : Z := 19.
Definition FORMAT_MU_LAW : Z := 20.
Definition FORMAT_A_LAW : Z := 21.
Definition FORMAT_IMA_ADPCM : Z := 22.
Definition FORMAT_MPEG : Z := 23.
Definition FORMAT_GSM : Z := 24.
Definition FORMAT_SPECIAL : Z := 31.
Definition FORMAT_S24_3LE : Z := 32.
Definition FORMAT_S24_3BE : Z := 33.
Definition FORMAT_U24_3LE : Z := 34.
Definition FORMAT_U24_3BE : Z := 35.
Definition FORMAT_S20_3LE : Z := 36.
Definition FORMAT_S20_3BE : Z := 37.
Definition FORMAT_U20_3LE : Z := 38.
Definition FORMAT_U20_3BE : Z := 39.
Definition FORMAT_S18_3LE : Z := 40.
Definition FORMAT_S18_3BE : Z := 41.
Definition FORMAT_U18_3LE : Z := 42.
Definition FORMAT_U18_3BE : Z := 43.
Definition FORMAT_G723_24 : Z := 44.
Definition FORMAT_G723_24_1B : Z := 45.
Definition FORMAT_G723_40 : Z := 46.
Definition FORMAT_G723_40_1B : Z := 47.
Definition FORMAT_DSD_U8 : Z := 48.
Definition FORMAT_DSD_U16_LE : Z := 49.
Definition FORMAT_DSD_U32_LE : Z := 50.
Definition FORMAT_DSD_U16_BE : Z := 51.
Definition FORMAT_DSD_U32_BE : Z := 52.
Definition FORMAT_LAST : Z := 52.

(* [pcm_macros.h 2271-2277 struct snd_pcm_format_data] *)
Record snd_pcm_format_data := FormatData {
  fmt_width : Z;
  fmt_phys : Z;
  fmt_le : Z;
  fmt_signd : Z;
  fmt_silence : list Z
}.

Definition no_format : snd_pcm_format_data := FormatData 0 0 0 0 [0; 0; 0; 0; 0; 0; 0; 0].

(** One entry per format; the designated initialisers leave G723_24_1B and
    G723_40_1B zeroed. *)
(* [pcm_misc.c 30-124 _snd_pcm_formats] *)
Definition format_table_low : list snd_pcm_format_data := [
  FormatData 8 8 (-22) 1 [0; 0; 0; 0; 0; 0; 0; 0] (* S8 *) ;
  FormatData 8 8 (-22) 0 [128; 0; 0; 0; 0; 0; 0; 0] (* U8 *) ;
  FormatData 16 16 1 1 [0; 0; 0; 0; 0; 0; 0; 0] (* S16_LE *) ;
  FormatData 16 16 0 1 [0; 0; 0; 0; 0; 0; 0; 0] (* S16_BE *) ;
  FormatData 16 16 1 0 [0; 128; 0; 0; 0; 0; 0; 0] (* U16_LE *) ;
  FormatData 16 16 0 0 [128; 0; 0; 0; 0; 0; 0; 0] (* U16_BE *) ;
  FormatData 24 32 1 1 [0; 0; 0; 0; 0; 0; 0; 0] (* S24_LE *) ;
  FormatData 24 32 0 1 [0; 0; 0; 0; 0; 0; 0; 0] (* S24_BE *) ;
  FormatData 24 32 1 0 [0; 0; 128; 0; 0; 0; 0; 0] (* U24_LE *) ;
  FormatData 24 32 0 0 [0; 128; 0; 0; 0; 0; 0; 0] (* U24_BE *) ;
  FormatData 32 32 1 1 [0; 0; 0; 0; 0; 0; 0; 0] (* S32_LE *) ;
  FormatData 32 32 0 1 [0; 0; 0; 0; 0; 0; 0; 0] (* S32_BE *) ;
  FormatData 32 32 1 0 [0; 0; 0; 128; 0; 0; 0; 0] (* U32_LE *) ;
  FormatData 32 32 0 0 [128; 0; 0; 0; 0; 0; 0; 0] (* U32_BE *) ;
  FormatData 32 32 1 (-22) [0; 0; 0; 0; 0; 0; 0; 0] (* FLOAT_LE *) ;
  FormatData 32 32 0 (-22) [0; 0; 0; 0; 0; 0; 0; 0] (* FLOAT_BE *) ;
  FormatData 64 64 1 (-22) [0; 0; 0; 0; 0; 0; 0; 0] (* FLOAT64_LE *) ;
  FormatData 64 64 0 (-22) [0; 0; 0; 0; 0; 0; 0; 0] (* FLOAT64_BE *) ;
  FormatData 32 32 1 (-22) [0; 0; 0; 0; 0; 0; 0; 0] (* IEC958_SUBFRAME_LE *) ;
  FormatData 32 32 0 (-22) [0; 0; 0; 0; 0; 0; 0; 0] (* IEC958_SUBFRAME_BE *) ;
  FormatData 8 8 (-22) (-22) [127; 0; 0; 0; 0; 0; 0; 0] (* MU_LAW *) ;
  FormatData 8 8 (-22) (-22) [85; 0; 0; 0; 0; 0; 0; 0] (* A_LAW *) ;
  FormatData 4 4 (-22) (-22) [0; 0; 0; 0; 0; 0; 0; 0] (* IMA_ADPCM *) ;
  FormatData (-22) (-22) (-22) (-22) [0; 0; 0; 0; 0; 0; 0; 0] (* MPEG *) ;
  FormatData (-22) (-22) (-22) (-22) [0; 0; 0; 0; 0; 0; 0; 0] (* GSM *) ;
  FormatData (-22) (-22) (-22) (-22) [0; 0; 0; 0; 0; 0; 0; 0] (* (unnamed) *) ;
  FormatData (-22) (-22) (-22) (-22) [0; 0; 0; 0; 0; 0; 0; 0] (* (unnamed) *) ;
  FormatData (-22) (-22) (-22) (-22) [0; 0; 0; 0; 0; 0; 0; 0] (* (unnamed) *) ;
  FormatData (-22) (-22) (-22) (-22) [0; 0; 0; 0; 0; 0; 0; 0] (* (unnamed) *) ;
  FormatData (-22) (-22) (-22) (-22) [0; 0; 0; 0; 0; 0; 0; 0] (* (unnamed) *) ;
  FormatData (-22) (-22) (-22) (-22) [0; 0; 0; 0; 0; 0; 0; 0] (* (unnamed) *) ;
  FormatData (-22) (-22) (-22) (-22) [0; 0; 0; 0; 0; 0; 0; 0] (* SPECIAL *)
].

(* [pcm_misc.c 124-204 _snd_pcm_formats] *)
Definition format_table_high : list snd_pcm_format_data := [
  FormatData 24 24 1 1 [0; 0; 0; 0; 0; 0; 0; 0] (* S24_3LE *);
  FormatData 24 24 0 1 [0; 0; 0; 0; 0; 0; 0; 0] (* S24_3BE *);
  FormatData 24 24 1 0 [0; 0; 128; 0; 0; 0; 0; 0] (* U24_3LE *);
  FormatData 24 24 0 0 [128; 0; 0; 0; 0; 0; 0; 0] (* U24_3BE *);
  FormatData 20 24 1 1 [0; 0; 0; 0; 0; 0; 0; 0] (* S20_3LE *);
  FormatData 20 24 0 1 [0; 0; 0; 0; 0; 0; 0; 0] (* S20_3BE *);
  FormatData 20 24 1 0 [0; 0; 8; 0; 0; 0; 0; 0] (* U20_3LE *);
  FormatData 20 24 0 0 [8; 0; 0; 0; 0; 0; 0; 0] (* U20_3BE *);
  FormatData 18 24 1 1 [0; 0; 0; 0; 0; 0; 0; 0] (* S18_3LE *);
  FormatData 18 24 0 1 [0; 0; 0; 0; 0; 0; 0; 0] (* S18_3BE *);
  FormatData 18 24 1 0 [0; 0; 2; 0; 0; 0; 0; 0] (* U18_3LE *);
  FormatData 18 24 0 0 [2; 0; 0; 0; 0; 0; 0; 0] (* U18_3BE *);
  FormatData 3 3 (-1) (-1) [0; 0; 0; 0; 0; 0; 0; 0] (* G723_24 *);
  no_format (* G723_24_1B *);
  FormatData 5 5 (-1) (-1) [0; 0; 0; 0; 0; 0; 0; 0] (* G723_40 *);
  no_format (* G723_40_1B *);
  FormatData 8 8 1 0 [105; 0; 0; 0; 0; 0; 0; 0] (* DSD_U8 *);
  FormatData 16 16 1 0 [105; 105; 0; 0; 0; 0; 0; 0] (* DSD_U16_LE *);
  FormatData 32 32 1 0 [105; 105; 105; 105; 0; 0; 0; 0] (* DSD_U32_LE *);
  FormatData 16 16 0 0 [105; 105; 0; 0; 0; 0; 0; 0] (* DSD_U16_BE *);
  FormatData 32 32 0 0 [105; 105; 105; 105; 0; 0; 0; 0] (* DSD_U32_BE *)
].

Definition _snd_pcm_formats (format : Z) : snd_pcm_format_data :=
  nthz no_format (format_table_low ++ format_table_high) format.

(** ** Names *)

(* [pcm.c 302-350 _snd_pcm_format_names] *)
Definition _snd_pcm_format_names : list (option string) := [
  Some "S8"%string;
  Some "U8"%string;
  Some "S16_LE"%string;
  Some "S16_BE"%string;
  Some "U16_LE"%string;
  Some "U16_BE"%string;
  Some "S24_LE"%string;
  Some "S24_BE"%string;
  Some "U24_LE"%string;
  Some "U24_BE"%string;
  Some "S32_LE"%string;
  Some "S32_BE"%string;
  Some "U32_LE"%string;
  Some "U32_BE"%string;
  Some "FLOAT_LE"%string;
  Some "FLOAT_BE"%string;
  Some "FLOAT64_LE"%string;
  Some "FLOAT64_BE"%string;
  Some "IEC958_SUBFRAME_LE"%string;
  Some "IEC958_SUBFRAME_BE"%string;
  Some "MU_LAW"%string;
  Some "A_LAW"%string;
  Some "IMA_ADPCM"%string;
  Some "MPEG"%string;
  Some "GSM"%string;
  None;
  None;
  None;
  None;
  None;
  None;
  Some "SPECIAL"%string;
  Some "S24_3LE"%string;
  Some "S24_3BE"%string;
  Some "U24_3LE"%string;
  Some "U24_3BE"%string;
  Some "S20_3LE"%string;
  Some "S20_3BE"%string;
  Some "U20_3LE"%string;
  Some "U20_3BE"%string;
  Some "S18_3LE"%string;
  Some "S18_3BE"%string;
  Some "U18_3LE"%string;
  Some "U18_3BE"%string;
  Some "G723_24"%string;
  Some "G723_24_1B"%string;
  Some "G723_40"%string;
  Some "G723_40_1B"%string;
  Some "DSD_U8"%string;
  Some "DSD_U16_LE"%string;
  Some "DSD_U32_LE"%string;
  Some "DSD_U16_BE"%string;
  Some "DSD_U32_BE"%string
].

(* [pcm.c 352-362 _snd_pcm_format_aliases] *)
Definition _snd_pcm_format_aliases : list (option string) := [
  None;
  None;
  Some "S16"%string;
  None;
  Some "U16"%string;
  None;
  Some "S24"%string;
  None;
  Some "U24"%string;
  None;
  Some "S32"%string;
  None;
  Some "U32"%string;
  None;
  Some "FLOAT"%string;
  None;
  Some "FLOAT64"%string;
  None;
  Some "IEC958_SUBFRAME"%string;
  None;
  None;
  None;
  None;
  None;
  None;
  None;
  None;
  None;
  None;
  None;
  None;
  None;
  None;
  None;
  None;
  None;
  None;
  None;
  None;
  None;
  None;
  None;
  None;
  None;
  None;
  None;
  None;
  None;
  None;
  None;
  None;
  None;
  None
].

(* [pcm.c 364-412 _snd_pcm_format_descriptions] *)
Definition _snd_pcm_format_descriptions : list (option string) := [
  Some "Signed 8 bit"%string;
  Some "Unsigned 8 bit"%string;
  Some "Signed 16 bit Little Endian"%string;
  Some "Signed 16 bit Big Endian"%string;
  Some "Unsigned 16 bit Little Endian"%string;
  Some "Unsigned 16 bit Big Endian"%string;
  Some "Signed 24 bit Little Endian"%string;
  Some "Signed 24 bit Big Endian"%string;
  Some "Unsigned 24 bit Little Endian"%string;
  Some "Unsigned 24 bit Big Endian"%string;
  Some "Signed 32 bit Little Endian"%string;
  Some "Signed 32 bit Big Endian"%string;
  Some "Unsigned 32 bit Little Endian"%string;
  Some "Unsigned 32 bit Big Endian"%string;
  Some "Float 32 bit Little Endian"%string;
  Some "Float 32 bit Big Endian"%string;
  Some "Float 64 bit Little Endian"%string;
  Some "Float 64 bit Big Endian"%string;
  Some "IEC-958 Little Endian"%string;
  Some "IEC-958 Big Endian"%string;
  Some "Mu-Law"%string;
  Some "A-Law"%string;
  Some "Ima-ADPCM"%string;
  Some "MPEG"%string;
  Some "GSM"%string;
  None;
  None;
  None;
  None;
  None;
  None;
  Some "Special"%string;
  Some "Signed 24 bit Little Endian in 3bytes"%string;
  Some "Signed 24 bit Big Endian in 3bytes"%string;
  Some "Unsigned 24 bit Little Endian in 3bytes"%string;
  Some "Unsigned 24 bit Big Endian in 3bytes"%string;
  Some "Signed 20 bit Little Endian in 3bytes"%string;
  Some "Signed 20 bit Big Endian in 3bytes"%string;
  Some "Unsigned 20 bit Little Endian in 3bytes"%string;
  Some "Unsigned 20 bit Big Endian in 3bytes"%string;
  Some "Signed 18 bit Little Endian in 3bytes"%string;
  Some "Signed 18 bit Big Endian in 3bytes"%string;
  Some "Unsigned 18 bit Little Endian in 3bytes"%string;
  Some "Unsigned 18 bit Big Endian in 3bytes"%string;
  Some "G.723 (ADPCM) 24 kbit/s, 8 samples in 3 bytes"%string;
  Some "G.723 (ADPCM) 24 kbit/s, 1 sample in 1 byte"%string;
  Some "G.723 (ADPCM) 40 kbit/s, 8 samples in 3 bytes"%string;
  Some "G.723 (ADPCM) 40 kbit/s, 1 sample in 1 byte"%string;
  Some "Direct Stream Digital (DSD) in 1-byte samples (x8)"%string;
  Some "Direct Stream Digital (DSD) in 2-byte samples (x16)"%string;
  Some "Direct Stream Digital (DSD) in 4-byte samples (x32)"%string;
  Some "Direct Stream Digital (DSD) in 2-byte samples (x16)"%string;
  Some "Direct Stream Digital (DSD) in 4-byte samples (x32)"%string
].

(* [pcm.c 277-280 _snd_pcm_stream_names] *)
Definition _snd_pcm_stream_names : list (option string) :=
  [Some "PLAYBACK"%string; Some "CAPTURE"%string].

(* [pcm.c 282-292 _snd_pcm_state_names] *)
Definition _snd_pcm_state_names : list (option string) :=
  [Some "OPEN"%string; Some "SETUP"%string; Some "PREPARED"%string; Some "RUNNING"%string; Some "XRUN"%string; Some "DRAINING"%string; Some "PAUSED"%string; Some "SUSPENDED"%string; Some "DISCONNECTED"%string].

(* [pcm.c 294-300 _snd_pcm_access_names] *)
Definition _snd_pcm_access_names : list (option string) :=
  [Some "MMAP_INTERLEAVED"%string; Some "MMAP_NONINTERLEAVED"%string; Some "MMAP_COMPLEX"%string; Some "RW_INTERLEAVED"%string; Some "RW_NONINTERLEAVED"%string].

(* [pcm.c 446-448 _snd_pcm_subformat_names] *)
Definition _snd_pcm_subformat_names : list (option string) :=
  [Some "STD"%string].

(* [pcm.c 450-452 _snd_pcm_subformat_descriptions] *)
Definition _snd_pcm_subformat_descriptions : list (option string) :=
  [Some "Standard"%string].

(* [pcm.c 454-457 _snd_pcm_tstamp_mode_names] *)
Definition _snd_pcm_tstamp_mode_names : list (option string) :=
  [Some "NONE"%string; Some "MMAP"%string].
(** DSHARE, number 25, has no entry. *)
(* [pcm.c 414-444 _snd_pcm_type_names] *)
Definition _snd_pcm_type_names : list (option string) :=
  (Some <$> ["HW"; "HOOKS"; "MULTI"; "FILE"; "NULL"; "SHM"; "INET"; "COPY"; "LINEAR"; "ALAW";
    "MULAW"; "ADPCM"; "RATE"; "ROUTE"; "PLUG"; "SHARE"; "METER"; "MIX"; "DROUTE"; "LBSERVER";
    "LINEAR_FLOAT"; "LADSPA"; "DMIX"; "JACK"; "DSNOOP"]%string) ++
  [None] ++ (Some <$> ["IEC958"; "SOFTVOL"; "IOPLUG"; "EXTPLUG"]%string).

Definition name_at (l : list (option string)) (i : Z) : option string := nthz None l i.

(* [pcm_macros.h 328-332 snd_pcm_stream_name] *)
Definition snd_pcm_stream_name := name_at _snd_pcm_stream_names.
(* [pcm_macros.h 334-338 snd_pcm_access_name] *)
Definition snd_pcm_access_name := name_at _snd_pcm_access_names.
(* [pcm_macros.h 340-344 snd_pcm_format_name] *)
Definition snd_pcm_format_name := name_at _snd_pcm_format_names.
(* [pcm_macros.h 346-350 snd_pcm_format_description] *)
Definition snd_pcm_format_description := name_at _snd_pcm_format_descriptions.
(* [pcm_macros.h 352-356 snd_pcm_subformat_name] *)
Definition snd_pcm_subformat_name := name_at _snd_pcm_subformat_names.
(* [pcm_macros.h 358-362 snd_pcm_subformat_description] *)
Definition snd_pcm_subformat_description := name_at _snd_pcm_subformat_descriptions.
(* [pcm_macros.h 364-368 snd_pcm_tstamp_mode_name] *)
Definition snd_pcm_tstamp_mode_name := name_at _snd_pcm_tstamp_mode_names.
(* [pcm_macros.h 370-374 snd_pcm_state_name] *)
Definition snd_pcm_state_name := name_at _snd_pcm_state_names.
(* [pcm_macros.h 376-380 snd_pcm_type_name] *)
Definition snd_pcm_type_name := name_at _snd_pcm_type_names.

(** [strcasecmp(a, b) == 0] for ASCII strings. *)
Definition lower (c : ascii) : ascii :=
  let n := nat_of_ascii c in
  if (65 <=? n)%nat && (n <=? 90)%nat then ascii_of_nat (n + 32) else c.

Fixpoint strcaseeq (a b : string) : bool :=
  match a, b with
  | EmptyString, EmptyString => true
  | String x a, String y b => Ascii.eqb (lower x) (lower y) && strcaseeq a b
  | _, _ => false
  end.

Definition name_matches (name : string) (entry : option string) : bool :=
  match entry with Some s => strcaseeq name s | None => false end.

(* [pcm.c 459-479 snd_pcm_format_value] *)
Definition snd_pcm_format_value (name : string) : Z :=
  let formats := zseq 0 (Z.to_nat (FORMAT_LAST + 1)) in
  match find (fun f => name_matches name (name_at _snd_pcm_format_names f) ||
                       name_matches name (name_at _snd_pcm_format_aliases f)) formats with
  | Some f => f
  | None =>
      match find (fun f => name_matches name (name_at _snd_pcm_format_descriptions f)) formats with
      | Some f => f
      | None => FORMAT_UNKNOWN
      end
  end.

(** ** Predicates *)

(* [pcm_macros.h 2281-2285 snd_pcm_format_signed] *)
Definition snd_pcm_format_signed (format : Z) : Z := fmt_signd (_snd_pcm_formats format).

(* [pcm_macros.h 2287-2294 snd_pcm_format_unsigned] *)
Definition snd_pcm_format_unsigned (format : Z) : Z :=
  let val := snd_pcm_format_signed format in
  if val <? 0 then val else b2z (val =? 0).

(* [pcm_macros.h 2296-2300 snd_pcm_format_linear] *)
Definition snd_pcm_format_linear (format : Z) : bool := 0 <=? snd_pcm_format_signed format.

(* [pcm_macros.h 2302-2314 snd_pcm_format_float] *)
Definition snd_pcm_format_float (format : Z) : bool :=
  (format =? FORMAT_FLOAT_LE) || (format =? FORMAT_FLOAT_BE) ||
  (format =? FORMAT_FLOAT64_LE) || (format =? FORMAT_FLOAT64_BE).

(* [pcm_macros.h 2316-2320 snd_pcm_format_little_endian] *)
Definition snd_pcm_format_little_endian (format : Z) : Z := fmt_le (_snd_pcm_formats format).

(* [pcm_macros.h 2322-2329 snd_pcm_format_big_endian] *)
Definition snd_pcm_format_big_endian (format : Z) : Z :=
  let val := snd_pcm_format_little_endian format in
  if val <? 0 then val else b2z (val =? 0).

(* [pcm_macros.h 2331-2339 snd_pcm_format_cpu_endian] *)
Definition snd_pcm_format_cpu_endian (format : Z) : Z := snd_pcm_format_little_endian format.

(* [pcm_macros.h 2341-2345 snd_pcm_format_width] *)
Definition snd_pcm_format_width (format : Z) : Z := fmt_width (_snd_pcm_formats format).

(* [pcm_macros.h 2347-2351 snd_pcm_format_physical_width] *)
Definition snd_pcm_format_physical_width (format : Z) : Z := fmt_phys (_snd_pcm_formats format).

(* [pcm_macros.h 2353-2360 snd_pcm_format_size] *)
Definition snd_pcm_format_size (format samples : Z) : Z :=
  let phys_width := snd_pcm_format_physical_width format in
  if phys_width <? 0 then - EINVAL
  else s64 (u64 (samples * phys_width) / 8).

(** ** Silence *)

(** The inner loop: append [w] bytes of the pattern to [acc]. *)
Definition silence_pass (pat : list Z) (w : Z) (acc : Z) : Z :=
  fold_left (fun s i => Z.lor (u64 (Z.shiftl s 8)) (nthz 0 pat i)) (zseq 0 (Z.to_nat w)) acc.

(** [while (p < w)]; a pass moves [p] by [w], so two rounds of fuel are enough. *)
Fixpoint silence_loop (fuel : nat) (pat : list Z) (w p acc : Z) : Z :=
  match fuel with
  | O => acc
  | S fuel => if p <? w then silence_loop fuel pat w (p + w) (silence_pass pat w acc) else acc
  end.

(* [pcm_misc.c 206-223 snd_pcm_format_silence_64] *)
Definition snd_pcm_format_silence_64 (format : Z) : Z :=
  let fmt := _snd_pcm_formats format in
  if fmt_phys fmt <=? 0 then 0
  else silence_loop 2 (fmt_silence fmt) (Z.quot (fmt_width fmt) 8) 0 0.

(* [pcm_macros.h 2364-2368 snd_pcm_format_silence_32] *)
Definition snd_pcm_format_silence_32 (format : Z) : Z := u32 (snd_pcm_format_silence_64 format).
(* [pcm_macros.h 2370-2374 snd_pcm_format_silence_16] *)
Definition snd_pcm_format_silence_16 (format : Z) : Z := u16 (snd_pcm_format_silence_64 format).
(* [pcm_macros.h 2376-2380 snd_pcm_format_silence] *)
Definition snd_pcm_format_silence (format : Z) : Z := u8 (snd_pcm_format_silence_64 format).

(** [memset] and the advancing [memcpy] on a buffer of bytes. *)
Definition memset (data : list Z) (c : Z) (n : nat) : list Z := replicate n c ++ drop n data.

Fixpoint fill_pattern (samples : nat) (pat data : list Z) : list Z :=
  match samples with
  | O => data
  | S samples => pat ++ fill_pattern samples pat (drop (length pat) data)
  end.

(* [pcm_misc.c 225-252 snd_pcm_format_set_silence] *)
Definition snd_pcm_format_set_silence (format : Z) (data : list Z) (samples : Z) : Z * list Z :=
  if samples =? 0 then (0, data)
  else
    let fmt := _snd_pcm_formats format in
    let width := fmt_phys fmt in
    if width <=? 0 then (- EINVAL, data)
    else
      let pat := fmt_silence fmt in
      if (fmt_signd fmt =? 1) || (width <=? 8) then
        let nbytes := u32 (samples * width) / 8 in
        (0, memset data (nthz 0 pat 0) (Z.to_nat nbytes))
      else
        let width := width / 8 in
        (0, fill_pattern (Z.to_nat samples) (take (Z.to_nat width) pat) data).

(** ** Linear formats by their properties *)

(* [pcm_misc.c 254-263 linear_formats] *)
Definition linear_formats (width : Z) (unsignd big_endian : bool) : Z :=
  let row := nthz ((0, 0), (0, 0))
    [((FORMAT_S8, FORMAT_S8), (FORMAT_U8, FORMAT_U8));
     ((FORMAT_S16_LE, FORMAT_S16_BE), (FORMAT_U16_LE, FORMAT_U16_BE));
     ((FORMAT_S24_LE, FORMAT_S24_BE), (FORMAT_U24_LE, FORMAT_U24_BE));
     ((FORMAT_S32_LE, FORMAT_S32_BE), (FORMAT_U32_LE, FORMAT_U32_BE))] width in
  let p := if unsignd then snd row else fst row in
  if big_endian then snd p else fst p.

(* [pcm_misc.c 265-272 linear24_formats] *)
Definition linear24_formats (width : Z) (unsignd big_endian : bool) : Z :=
  let row := nthz ((0, 0), (0, 0))
    [((FORMAT_S24_3LE, FORMAT_S24_3BE), (FORMAT_U24_3LE, FORMAT_U24_3BE));
     ((FORMAT_S20_3LE, FORMAT_S20_3BE), (FORMAT_U20_3LE, FORMAT_U20_3BE));
     ((FORMAT_S18_3LE, FORMAT_S18_3BE), (FORMAT_U18_3LE, FORMAT_U18_3BE))] width in
  let p := if unsignd then snd row else fst row in
  if big_endian then snd p else fst p.

(* [pcm_misc.c 274-311 snd_pcm_build_linear_format] *)
Definition snd_pcm_build_linear_format (width pwidth unsignd big_endian : Z) : Z :=
  if pwidth =? 24 then
    if width =? 24 then linear24_formats 0 (nz unsignd) (nz big_endian)
    else if width =? 20 then linear24_formats 1 (nz unsignd) (nz big_endian)
    else if width =? 18 then linear24_formats 2 (nz unsignd) (nz big_endian)
    else FORMAT_UNKNOWN
  else
    if width =? 8 then linear_formats 0 (nz unsignd) (nz big_endian)
    else if width =? 16 then linear_formats 1 (nz unsignd) (nz big_endian)
    else if width =? 24 then linear_formats 2 (nz unsignd) (nz big_endian)
    else if width =? 32 then linear_formats 3 (nz unsignd) (nz big_endian)
    else FORMAT_UNKNOWN.

(** ** Specification *)

(** The formats with an entry in the name table. *)
Definition named_formats : list Z :=
  List.filter (fun f => match snd_pcm_format_name f with Some _ => true | None => false end)
    (zseq 0 (Z.to_nat (FORMAT_LAST + 1))).

Definition is_dsd (f : Z) : bool := (FORMAT_DSD_U8 <=? f) && (f <=? FORMAT_DSD_U32_BE).

(** Linear PCM: the formats whose samples are plain integers. *)
Definition linear_pcm : list Z :=
  List.filter (fun f => (0 <? snd_pcm_format_width f) && snd_pcm_format_linear f && negb (is_dsd f))
    (zseq 0 (Z.to_nat (FORMAT_LAST + 1))).

(** The number a byte string spells. *)
Fixpoint le_value (l : list Z) : Z :=
  match l with [] => 0 | b :: l => b + 256 * le_value l end.

Definition sample_value (f : Z) (l : list Z) : Z :=
  if snd_pcm_format_little_endian f =? 0 then le_value (rev l) else le_value l.

(** The bytes of one sample of silence. *)
Definition silence_bytes (f : Z) : list Z :=
  take (Z.to_nat (snd_pcm_format_physical_width f / 8)) (fmt_silence (_snd_pcm_formats f)).

Lemma Forall_formats (P : Z -> bool) l :
  forallb P l = true -> forall f, f ∈ l -> P f = true.
Proof. rewrite List.forallb_forall. intros H f Hf. apply H, list_elem_of_In, Hf. Qed.

(** Silence is the middle of the scale: for every linear PCM format the
    silence pattern, read in the format's byte order, is 0 for a signed format and
    half the range (2^(width-1)) for an unsigned one, and a sample is at most its
    physical width, which is a whole number of bytes. *)
Theorem silence_is_midscale (f : Z) :
  f ∈ linear_pcm ->
  sample_value f (silence_bytes f) =
    (if snd_pcm_format_signed f =? 1 then 0 else 2 ^ (snd_pcm_format_width f - 1)) /\
  0 < snd_pcm_format_width f <= snd_pcm_format_physical_width f /\
  snd_pcm_format_physical_width f mod 8 = 0.
Proof.
  intros Hf.
  assert (H : forallb (fun f =>
    (sample_value f (silence_bytes f) =?
      (if snd_pcm_format_signed f =? 1 then 0 else 2 ^ (snd_pcm_format_width f - 1))) &&
    (0 <? snd_pcm_format_width f) && (snd_pcm_format_width f <=? snd_pcm_format_physical_width f) &&
    (snd_pcm_format_physical_width f mod 8 =? 0)) linear_pcm = true) by (vm_compute; reflexivity).
  apply (Forall_formats _ _ H) in Hf. zbool. lia.
Qed.

Lemma silence_is_midscale_witness :
  sample_value FORMAT_U24_3BE (silence_bytes FORMAT_U24_3BE) = 2 ^ 23 /\
  0 < snd_pcm_format_width FORMAT_U24_3BE <= snd_pcm_format_physical_width FORMAT_U24_3BE /\
  snd_pcm_format_physical_width FORMAT_U24_3BE mod 8 = 0.
Proof. apply (silence_is_midscale FORMAT_U24_3BE). by_decide. Defined.

Lemma strcaseeq_cong a b c : strcaseeq a b = true -> strcaseeq a c = strcaseeq b c.
Proof.
  revert b c. induction a as [|x a IH]; intros [|y b] c; simpl; try done.
  intros [Hxy Hab]%andb_true_iff. apply Ascii.eqb_eq in Hxy.
  destruct c as [|z c]; [done|]. rewrite Hxy. f_equal. apply IH. done.
Qed.

Lemma find_ext_eq {A} (f g : A -> bool) l : (forall x, f x = g x) -> find f l = find g l.
Proof. intros H. induction l as [|x l IH]; simpl; [done|]. rewrite H, IH. done. Qed.

Lemma format_value_cong a b :
  strcaseeq a b = true -> snd_pcm_format_value a = snd_pcm_format_value b.
Proof.
  intros H.
  assert (Hm : forall e, name_matches a e = name_matches b e).
  { intros [e|]; simpl; [apply strcaseeq_cong; done|done]. }
  unfold snd_pcm_format_value.
  rewrite (find_ext_eq
    (fun f => name_matches a (name_at _snd_pcm_format_names f) ||
              name_matches a (name_at _snd_pcm_format_aliases f))
    (fun f => name_matches b (name_at _snd_pcm_format_names f) ||
              name_matches b (name_at _snd_pcm_format_aliases f)))
    by (intros f; rewrite !Hm; done).
  rewrite (find_ext_eq
    (fun f => name_matches a (name_at _snd_pcm_format_descriptions f))
    (fun f => name_matches b (name_at _snd_pcm_format_descriptions f)))
    by (intros f; rewrite Hm; done).
  done.
Qed.

(** What a description finds. *)
Definition described_format (f : Z) : Z :=
  if f =? FORMAT_DSD_U16_BE then FORMAT_DSD_U16_LE
  else if f =? FORMAT_DSD_U32_BE then FORMAT_DSD_U32_LE else f.

Definition names_invert (f : Z) : bool :=
  match snd_pcm_format_name f, snd_pcm_format_description f with
  | Some name, Some desc =>
      (snd_pcm_format_value name =? f) && (snd_pcm_format_value desc =? described_format f)
  | _, _ => false
  end.

(** The search by name inverts the name table: every format that has a name
    is found under it whatever its case, and under its description, except the two
    big-endian DSD formats, whose descriptions find the little-endian ones. *)
Theorem format_value_name (f : Z) (name : string) :
  f ∈ named_formats -> snd_pcm_format_name f = Some name ->
  (forall name', strcaseeq name' name = true -> snd_pcm_format_value name' = f) /\
  exists desc, snd_pcm_format_description f = Some desc /\
    snd_pcm_format_value desc = described_format f.
Proof.
  intros Hf Hn.
  assert (H : forallb names_invert named_formats = true) by (vm_compute; reflexivity).
  apply (Forall_formats _ _ H) in Hf. unfold names_invert in Hf. rewrite Hn in Hf.
  destruct (snd_pcm_format_description f) as [desc|]; [|discriminate Hf].
  apply andb_true_iff in Hf as [Hv Hd]. apply Z.eqb_eq in Hv, Hd. split.
  - intros name' Hname. rewrite (format_value_cong _ _ Hname). exact Hv.
  - exists desc. split; [reflexivity|exact Hd].
Qed.

Lemma format_value_name_witness :
  snd_pcm_format_value "s24_3le" = FORMAT_S24_3LE /\
  exists desc, snd_pcm_format_description FORMAT_S24_3LE = Some desc /\
    snd_pcm_format_value desc = FORMAT_S24_3LE.
Proof.
  destruct (format_value_name FORMAT_S24_3LE "S24_3LE") as [H1 H2]; [by_decide|reflexivity|].
  split; [apply H1; reflexivity|exact H2].
Defined.

(** [snd_pcm_build_linear_format] and the predicates invert each other: the
    format built for a width, a physical width, a sign and an endianness, where it
    is not UNKNOWN, has that width and sign, the physical width 24 exactly where
    24 was asked for, and the endianness where a sample has more than a byte; and
    each linear PCM format is the one built from its own properties. *)
Theorem build_linear_format_inverts (width pwidth unsignd big_endian : Z) :
  (let f := snd_pcm_build_linear_format width pwidth unsignd big_endian in
   f <> FORMAT_UNKNOWN ->
     f ∈ linear_pcm /\ snd_pcm_format_width f = width /\
     snd_pcm_format_unsigned f = b2z (nz unsignd) /\
     (snd_pcm_format_physical_width f = 24 <-> pwidth = 24) /\
     (8 < width -> snd_pcm_format_big_endian f = b2z (nz big_endian))) /\
  (forall f, f ∈ linear_pcm -> width = snd_pcm_format_width f ->
     pwidth = snd_pcm_format_physical_width f -> unsignd = snd_pcm_format_unsigned f ->
     big_endian = snd_pcm_format_big_endian f ->
     snd_pcm_build_linear_format width pwidth unsignd big_endian = f).
Proof.
  split.
  - unfold snd_pcm_build_linear_format.
    destruct (Z.eqb_spec pwidth 24) as [->|Hp], (nz unsignd), (nz big_endian);
      repeat (match goal with |- context [width =? ?k] =>
        destruct (Z.eqb_spec width k) as [->|]; [intros _; split; [by_decide|];
          vm_compute; intuition (congruence || lia)|] end); intros []; reflexivity.
  - intros f Hf -> -> -> ->.
    assert (H : forallb (fun f => snd_pcm_build_linear_format (snd_pcm_format_width f)
      (snd_pcm_format_physical_width f) (snd_pcm_format_unsigned f) (snd_pcm_format_big_endian f)
      =? f) linear_pcm = true) by (vm_compute; reflexivity).
    apply (Forall_formats _ _ H) in Hf. zbool. done.
Qed.

Lemma build_linear_format_inverts_witness :
  snd_pcm_build_linear_format 20 24 1 1 = FORMAT_U20_3BE.
Proof.
  apply (proj2 (build_linear_format_inverts 20 24 1 1)); [by_decide|reflexivity..].
Defined.

(** ** Filling with silence *)

Lemma fill_pattern_app n pat data :
  fill_pattern n pat data = mjoin (replicate n pat) ++ drop (n * length pat) data.
Proof.
  revert data. induction n as [|n IH]; intros data; simpl; [done|].
  rewrite IH, drop_drop, <- app_assoc. done.
Qed.

Lemma replicate_mjoin {A} n k (x : A) : mjoin (replicate n (replicate k x)) = replicate (n * k) x.
Proof.
  induction n as [|n IH]; simpl; [done|]. rewrite IH, replicate_add. done.
Qed.

(** The facts about the table the fast path rests on. *)
Definition fast_path_ok (f : Z) : bool :=
  let fmt := _snd_pcm_formats f in
  if (0 <? fmt_phys fmt) && (fmt_phys fmt mod 8 =? 0) then
    bool_decide (length (silence_bytes f) = Z.to_nat (fmt_phys fmt / 8)) &&
    (if (fmt_signd fmt =? 1) || (fmt_phys fmt <=? 8) then
       bool_decide (silence_bytes f = replicate (Z.to_nat (fmt_phys fmt / 8)) (nthz 0 (fmt_silence fmt) 0))
     else true)
  else true.

Lemma fast_path_table f : 0 <= f <= FORMAT_LAST -> fast_path_ok f = true.
Proof.
  intros Hf.
  assert (H : forallb fast_path_ok (zseq 0 (Z.to_nat (FORMAT_LAST + 1))) = true)
    by (vm_compute; reflexivity).
  rewrite List.forallb_forall in H. apply H, zseq_In. unfold FORMAT_LAST in *. lia.
Qed.

(** Filling with silence is filling with the pattern of one sample: for
    every format whose samples are whole bytes, the fast path of
    [snd_pcm_format_set_silence] (one [memset]) and its loop write the same, the
    pattern once per sample, and leave the rest of the buffer; this while the
    bit count fits the unsigned int it is computed in. *)
Theorem set_silence_correct (f : Z) (data : list Z) (samples : Z) :
  0 <= f <= FORMAT_LAST -> 0 <= samples ->
  0 < snd_pcm_format_physical_width f -> snd_pcm_format_physical_width f mod 8 = 0 ->
  samples * snd_pcm_format_physical_width f <= UINT_MAX ->
  snd_pcm_format_set_silence f data samples =
    (0, mjoin (replicate (Z.to_nat samples) (silence_bytes f)) ++
        drop (Z.to_nat samples * length (silence_bytes f)) data).
Proof.
  intros Hf Hs Hw Hmod Hfit. pose proof (fast_path_table f Hf) as Hok.
  unfold snd_pcm_format_physical_width, fast_path_ok in *.
  rewrite (proj2 (Z.ltb_lt _ _) Hw), Hmod in Hok. simpl in Hok. zbool.
  apply bool_decide_eq_true_1 in H. unfold snd_pcm_format_set_silence.
  destruct (Z.eqb_spec samples 0) as [->|Hne]; [done|].
  destruct (Z.leb_spec (fmt_phys (_snd_pcm_formats f)) 0); [lia|].
  set (w := fmt_phys (_snd_pcm_formats f)) in *.
  destruct ((fmt_signd _ =? 1) || (w <=? 8)) eqn:Hfast.
  - apply bool_decide_eq_true_1 in H0. rewrite H, H0, replicate_mjoin. unfold memset.
    rewrite u32_id by (unfold is_u32; nia).
    assert (Hb : Z.to_nat (samples * w / 8) = (Z.to_nat samples * Z.to_nat (w / 8))%nat).
    { assert (w = 8 * (w / 8)) as Hw8 by (apply Z_div_exact_full_2; lia).
      rewrite Hw8 at 1. replace (samples * (8 * (w / 8))) with (samples * (w / 8) * 8) by lia.
      rewrite Z.div_mul by lia. apply Z2Nat.inj_mul; [lia|apply Z.div_pos; lia]. }
    rewrite Hb. done.
  - rewrite fill_pattern_app. done.
Qed.

Lemma set_silence_correct_witness :
  snd_pcm_format_set_silence FORMAT_U24_3LE [1; 2; 3; 4; 5; 6; 7] 2 = (0, [0; 0; 128; 0; 0; 128; 7]).
Proof.
  apply (set_silence_correct FORMAT_U24_3LE [1; 2; 3; 4; 5; 6; 7] 2);
    [unfold FORMAT_LAST, FORMAT_U24_3LE; lia|lia|vm_compute; reflexivity|vm_compute; reflexivity|].
  vm_compute. discriminate.
Defined.

(** [snd_pcm_format_silence_16] does not give a sample to store: on this
    little-endian target its value for unsigned 16-bit little-endian samples,
    stored, spells the bytes of the pattern in reverse. *)
Theorem silence_16_swapped :
  snd_pcm_format_silence_16 FORMAT_U16_LE = 128 /\
  le_value (silence_bytes FORMAT_U16_LE) = 32768 /\
  snd_pcm_format_silence_16 FORMAT_U16_BE = 32768 /\
  le_value (silence_bytes FORMAT_U16_BE) = 128.
Proof. vm_compute. auto. Qed.
