(* ===== verification/PcmTypes.v ===== *)
(** * PCM data

    The structures of src/src/asound.h and the handle [struct _snd_pcm] of
    src/src/pcm_macros.h, the state the PCM operations work on, and the ioctls of
    a PCM device as an interface. *)

From S2P Require Import Prelude CInt Sys Mask Interval.
#[local] Open Scope Z_scope.

(** Parameter numbers ([enum sndrv_pcm_hw_param]). *)
Definition HW_PARAM_ACCESS : Z := 0.
Definition HW_PARAM_FORMAT : Z := 1.
Definition HW_PARAM_SUBFORMAT : Z := 2.
Definition HW_PARAM_FIRST_MASK : Z := HW_PARAM_ACCESS.
Definition HW_PARAM_LAST_MASK : Z := HW_PARAM_SUBFORMAT.
Definition HW_PARAM_SAMPLE_BITS : Z := 8.
Definition HW_PARAM_FRAME_BITS : Z := 9.
Definition HW_PARAM_CHANNELS : Z := 10.
Definition HW_PARAM_RATE : Z := 11.
Definition HW_PARAM_PERIOD_TIME : Z := 12.
Definition HW_PARAM_PERIOD_SIZE : Z := 13.
Definition HW_PARAM_PERIOD_BYTES : Z := 14.
Definition HW_PARAM_PERIODS : Z := 15.
Definition HW_PARAM_BUFFER_TIME : Z := 16.
Definition HW_PARAM_BUFFER_SIZE : Z := 17.
Definition HW_PARAM_BUFFER_BYTES : Z := 18.
Definition HW_PARAM_TICK_TIME : Z := 19.
Definition HW_PARAM_FIRST_INTERVAL : Z := HW_PARAM_SAMPLE_BITS.
Definition HW_PARAM_LAST_INTERVAL : Z := HW_PARAM_TICK_TIME.

(** The flags of [snd_pcm_hw_params_t]. *)
Definition HW_PARAMS_NORESAMPLE : Z := 1.
Definition HW_PARAMS_NO_PERIOD_WAKEUP : Z := 4.

(** States ([snd_pcm_state_t]). *)
Definition STATE_OPEN : Z := 0.
Definition STATE_SETUP : Z := 1.
Definition STATE_PREPARED : Z := 2.
Definition STATE_RUNNING : Z := 3.
Definition STATE_XRUN : Z := 4.
Definition STATE_DRAINING : Z := 5.
Definition STATE_PAUSED : Z := 6.
Definition STATE_SUSPENDED : Z := 7.
Definition STATE_DISCONNECTED : Z := 8.

Definition STREAM_PLAYBACK : Z := 0.
Definition STREAM_CAPTURE : Z := 1.

Definition ACCESS_MMAP_INTERLEAVED : Z := 0.
Definition ACCESS_MMAP_NONINTERLEAVED : Z := 1.
Definition ACCESS_MMAP_COMPLEX : Z := 2.
Definition ACCESS_RW_INTERLEAVED : Z := 3.
Definition ACCESS_RW_NONINTERLEAVED : Z := 4.

Definition SYNC_PTR_HWSYNC : Z := 1.
Definition SYNC_PTR_APPL : Z := 2.
Definition SYNC_PTR_AVAIL_MIN : Z := 4.

(** The reserved fields, which the library only copies, are left out. *)
(* [asound.h 363-379 snd_pcm_hw_params_t] *)
Record snd_pcm_hw_params_t := HwParams {
  hp_flags : Z;
  masks : list snd_mask_t;
  intervals : list snd_interval_t;
  rmask : Z;
  cmask : Z;
  hp_info : Z;
  hp_msbits : Z;
  hp_rate_num : Z;
  hp_rate_den : Z;
  hp_fifo_size : Z
}.

(* [asound.h 395-410 snd_pcm_sw_params_t] *)
Record snd_pcm_sw_params_t := SwParams {
  tstamp_mode : Z;
  period_step : Z;
  sleep_min : Z;
  sw_avail_min : Z;
  xfer_align : Z;
  start_threshold : Z;
  stop_threshold : Z;
  silence_threshold : Z;
  silence_size : Z;
  sw_boundary : Z;
  tstamp_type : Z;
  period_event : Z
}.

(** A structure after [memset] to 0. *)
Definition zero_interval : snd_interval_t := Interval 0 0 false false false false.
Definition zero_hw_params : snd_pcm_hw_params_t :=
  HwParams 0 (replicate 3 _snd_mask_none) (replicate 12 zero_interval) 0 0 0 0 0 0 0.
Definition zero_sw_params : snd_pcm_sw_params_t := SwParams 0 0 0 0 0 0 0 0 0 0 0 0.

(* [asound.h 459-466 snd_pcm_mmap_status] *)
Record mmap_status_t := MmapStatus {
  ms_state : Z;
  hw_ptr : Z;
  ms_tstamp : Z * Z;
  suspended_state : Z;
  ms_audio_tstamp : Z * Z
}.

(* [asound.h 468-471 snd_pcm_mmap_control] *)
Record mmap_control_t := MmapControl {
  appl_ptr : Z;
  mc_avail_min : Z
}.

(* [asound.h 477-487 snd_pcm_sync_ptr] *)
Record sync_ptr_t := SyncPtr {
  sp_flags : Z;
  sp_status : mmap_status_t;
  sp_control : mmap_control_t
}.

Definition zero_status : mmap_status_t := MmapStatus 0 0 (0, 0) 0 (0, 0).
Definition zero_sync_ptr : sync_ptr_t := SyncPtr 0 zero_status (MmapControl 0 0).

(** The kernel's description of a channel, with the address the library maps
    it to (0 for NULL). *)
(* [pcm_macros.h 17-20 snd_pcm_channel_info_t] *)
Record channel_info := ChannelInfo {
  ci_channel : Z;
  ci_offset : Z;
  ci_first : Z;
  ci_step : Z;
  ci_addr : Z
}.

Record snd_pcm_channel_area_t := Area {
  area_addr : Z;
  area_first : Z;
  area_step : Z
}.

(** Where the status and the control record live: nowhere, inside the
    [sync_ptr] block, or in pages shared with the kernel. *)
Inductive shared_ptr :=
  | PtrNull
  | PtrSync
  | PtrMap (addr : Z).

(** The handle.  [pcm_block] is its own address.  The fields the library never reads
    back ([name], [type], [mode], [info], [msbits], [periods], ...) are left out; the
    last field, [async], is a pointer that other code writes through: it is the cell
    [async_loc] of the pointers of the process (file Async.v). *)
(* [pcm_macros.h 22-71 struct _snd_pcm] *)
Record snd_pcm_t := Pcm {
  pcm_block : Z;
  stream : Z;
  setup : bool;
  card : Z;
  device : Z;
  subdevice : Z;
  protocol : Z;
  fd : Z;
  pollfd_events : Z;
  hw_params : snd_pcm_hw_params_t;
  sw_params : snd_pcm_sw_params_t;
  _access : Z;
  format : Z;
  subformat : Z;
  channels : Z;
  rate : Z;
  period_size : Z;
  period_time : Z;
  boundary : Z;
  buffer_size : Z;
  sample_bits : Z;
  frame_bits : Z;
  mmap_status : shared_ptr;
  mmap_control : shared_ptr;
  sync_ptr : option (Z * sync_ptr_t);      (* the block and its contents *)
  mmap_channels : option (Z * list channel_info);
  running_areas : option (Z * list snd_pcm_channel_area_t)
}.

Definition sizeof_pcm : Z := 976.

(** [&pcm->async]. *)
Definition async_loc (pcm : snd_pcm_t) : Z := pcm_block pcm + (sizeof_pcm - 8).

(** The handle [calloc] gives, with what [snd_pcm_open] fills in. *)
Definition new_pcm (block card device subdevice stream protocol fd events : Z) : snd_pcm_t :=
  Pcm block stream false card device subdevice protocol fd events zero_hw_params zero_sw_params
    0 0 0 0 0 0 0 0 0 0 0 PtrNull PtrNull None None None.

(** ** Assignments to the handle *)

Definition put_setup (v : bool) (p : snd_pcm_t) : snd_pcm_t :=
  Pcm (pcm_block p) (stream p) v (card p) (device p) (subdevice p) (protocol p) (fd p)
    (pollfd_events p) (hw_params p) (sw_params p) (_access p) (format p) (subformat p) (channels
    p) (rate p) (period_size p) (period_time p) (boundary p) (buffer_size p) (sample_bits p)
    (frame_bits p) (mmap_status p) (mmap_control p) (sync_ptr p) (mmap_channels p)
    (running_areas p).

Definition put_hw_params (v : snd_pcm_hw_params_t) (p : snd_pcm_t) : snd_pcm_t :=
  Pcm (pcm_block p) (stream p) (setup p) (card p) (device p) (subdevice p) (protocol p) (fd p)
    (pollfd_events p) v (sw_params p) (_access p) (format p) (subformat p) (channels p) (rate p)
    (period_size p) (period_time p) (boundary p) (buffer_size p) (sample_bits p) (frame_bits p)
    (mmap_status p) (mmap_control p) (sync_ptr p) (mmap_channels p) (running_areas p).

Definition put_sw_params (v : snd_pcm_sw_params_t) (p : snd_pcm_t) : snd_pcm_t :=
  Pcm (pcm_block p) (stream p) (setup p) (card p) (device p) (subdevice p) (protocol p) (fd p)
    (pollfd_events p) (hw_params p) v (_access p) (format p) (subformat p) (channels p) (rate p)
    (period_size p) (period_time p) (boundary p) (buffer_size p) (sample_bits p) (frame_bits p)
    (mmap_status p) (mmap_control p) (sync_ptr p) (mmap_channels p) (running_areas p).

Definition put_shared (st ct : shared_ptr) (sp : option (Z * sync_ptr_t)) (p : snd_pcm_t) : snd_pcm_t :=
  Pcm (pcm_block p) (stream p) (setup p) (card p) (device p) (subdevice p) (protocol p) (fd p)
    (pollfd_events p) (hw_params p) (sw_params p) (_access p) (format p) (subformat p) (channels
    p) (rate p) (period_size p) (period_time p) (boundary p) (buffer_size p) (sample_bits p)
    (frame_bits p) st ct sp (mmap_channels p) (running_areas p).

Definition put_mmap_channels (v : option (Z * list channel_info)) (p : snd_pcm_t) : snd_pcm_t :=
  Pcm (pcm_block p) (stream p) (setup p) (card p) (device p) (subdevice p) (protocol p) (fd p)
    (pollfd_events p) (hw_params p) (sw_params p) (_access p) (format p) (subformat p) (channels
    p) (rate p) (period_size p) (period_time p) (boundary p) (buffer_size p) (sample_bits p)
    (frame_bits p) (mmap_status p) (mmap_control p) (sync_ptr p) v (running_areas p).

Definition put_running_areas (v : option (Z * list snd_pcm_channel_area_t)) (p : snd_pcm_t) : snd_pcm_t :=
  Pcm (pcm_block p) (stream p) (setup p) (card p) (device p) (subdevice p) (protocol p) (fd p)
    (pollfd_events p) (hw_params p) (sw_params p) (_access p) (format p) (subformat p) (channels
    p) (rate p) (period_size p) (period_time p) (boundary p) (buffer_size p) (sample_bits p)
    (frame_bits p) (mmap_status p) (mmap_control p) (sync_ptr p) (mmap_channels p) v.

Definition put_configuration (ac fm sf ch rt pt ps bs sb fb : Z) (p : snd_pcm_t) : snd_pcm_t :=
  Pcm (pcm_block p) (stream p) (setup p) (card p) (device p) (subdevice p) (protocol p) (fd p)
    (pollfd_events p) (hw_params p) (sw_params p) ac fm sf ch rt ps pt (boundary p) bs sb fb
    (mmap_status p) (mmap_control p) (sync_ptr p) (mmap_channels p) (running_areas p).

(** ioctls that take no structure. *)
Inductive pcm_cmd :=
  | CmdHwFree | CmdPrepare | CmdReset | CmdStart | CmdDrop | CmdDrain | CmdPause (enable : Z)
  | CmdResume | CmdXrun | CmdHwsync | CmdLink (fd2 : Z) | CmdUnlink.

Inductive move := Rewind | Forward.

Inductive xfer := WriteI | WriteN | ReadI | ReadN.

(** The ioctls of a PCM device.  Those that take a structure give it back as the
    kernel left it. *)
Class PcmKernel (K : Type) := {
  ioctl_cmd : Z -> pcm_cmd -> io K Z;
  ioctl_move : move -> Z -> Z -> io K (Z * Z);       (* fd, frames; frames moved *)
  ioctl_info_subdevice : Z -> io K (Z * Z);
  ioctl_pversion : Z -> io K (Z * Z);
  ioctl_user_pversion : Z -> Z -> io K Z;
  ioctl_hw_refine : Z -> snd_pcm_hw_params_t -> io K (Z * snd_pcm_hw_params_t);
  ioctl_hw_params : Z -> snd_pcm_hw_params_t -> io K (Z * snd_pcm_hw_params_t);
  ioctl_sw_params : Z -> snd_pcm_sw_params_t -> io K (Z * snd_pcm_sw_params_t);
  ioctl_sync_ptr : Z -> sync_ptr_t -> io K (Z * sync_ptr_t);
  ioctl_channel_info : Z -> channel_info -> io K (Z * channel_info);
  ioctl_delay : Z -> io K (Z * Z);
  ioctl_xfer : xfer -> Z -> Z -> Z -> io K (Z * Z);  (* fd, buffer, frames; result field *)
  shared_status : Z -> io K mmap_status_t;           (* read a mapped status page *)
  shared_control : Z -> io K mmap_control_t;
  set_shared_control : Z -> mmap_control_t -> io K unit
}.
