(* ===== verification/PcmSw.v ===== *)
(** * Software parameters

    [snd_pcm_sw_params_default] of src/src/pcm_params.c and the accessors of the
    software parameters in src/src/pcm_macros.h.  A setter returns its code 0 with
    the changed structure. *)

From S2P Require Import Prelude CInt Sys Mask Interval PcmTypes.
#[local] Open Scope Z_scope.

Definition put_tstamp_mode (v : Z) (p : snd_pcm_sw_params_t) : snd_pcm_sw_params_t :=
  let '(SwParams _ ps sm am xa st sp sl sz bd ty pe) := p in
  SwParams v ps sm am xa st sp sl sz bd ty pe.

Definition put_period_step (v : Z) (p : snd_pcm_sw_params_t) : snd_pcm_sw_params_t :=
  let '(SwParams ts _ sm am xa st sp sl sz bd ty pe) := p in
  SwParams ts v sm am xa st sp sl sz bd ty pe.

Definition put_sleep_min (v : Z) (p : snd_pcm_sw_params_t) : snd_pcm_sw_params_t :=
  let '(SwParams ts ps _ am xa st sp sl sz bd ty pe) := p in
  SwParams ts ps v am xa st sp sl sz bd ty pe.

Definition put_sw_avail_min (v : Z) (p : snd_pcm_sw_params_t) : snd_pcm_sw_params_t :=
  let '(SwParams ts ps sm _ xa st sp sl sz bd ty pe) := p in
  SwParams ts ps sm v xa st sp sl sz bd ty pe.

Definition put_xfer_align (v : Z) (p : snd_pcm_sw_params_t) : snd_pcm_sw_params_t :=
  let '(SwParams ts ps sm am _ st sp sl sz bd ty pe) := p in
  SwParams ts ps sm am v st sp sl sz bd ty pe.

Definition put_start_threshold (v : Z) (p : snd_pcm_sw_params_t) : snd_pcm_sw_params_t :=
  let '(SwParams ts ps sm am xa _ sp sl sz bd ty pe) := p in
  SwParams ts ps sm am xa v sp sl sz bd ty pe.

Definition put_stop_threshold (v : Z) (p : snd_pcm_sw_params_t) : snd_pcm_sw_params_t :=
  let '(SwParams ts ps sm am xa st _ sl sz bd ty pe) := p in
  SwParams ts ps sm am xa st v sl sz bd ty pe.

Definition put_silence_threshold (v : Z) (p : snd_pcm_sw_params_t) : snd_pcm_sw_params_t :=
  let '(SwParams ts ps sm am xa st sp _ sz bd ty pe) := p in
  SwParams ts ps sm am xa st sp v sz bd ty pe.

Definition put_silence_size (v : Z) (p : snd_pcm_sw_params_t) : snd_pcm_sw_params_t :=
  let '(SwParams ts ps sm am xa st sp sl _ bd ty pe) := p in
  SwParams ts ps sm am xa st sp sl v bd ty pe.

Definition put_sw_boundary (v : Z) (p : snd_pcm_sw_params_t) : snd_pcm_sw_params_t :=
  let '(SwParams ts ps sm am xa st sp sl sz _ ty pe) := p in
  SwParams ts ps sm am xa st sp sl sz v ty pe.

Definition put_tstamp_type (v : Z) (p : snd_pcm_sw_params_t) : snd_pcm_sw_params_t :=
  let '(SwParams ts ps sm am xa st sp sl sz bd _ pe) := p in
  SwParams ts ps sm am xa st sp sl sz bd v pe.

Definition put_period_event (v : Z) (p : snd_pcm_sw_params_t) : snd_pcm_sw_params_t :=
  let '(SwParams ts ps sm am xa st sp sl sz bd ty _) := p in
  SwParams ts ps sm am xa st sp sl sz bd ty v.

(** The value of [snd_pcm_tstamp_t] for no time stamps. *)
Definition TSTAMP_NONE : Z := 0.

(** [while (boundary * 2 <= LONG_MAX - buffer_size) boundary *= 2;] in unsigned
    long arithmetic; [None] where the fuel is spent. *)
(* [pcm_params.c 359-361 snd_pcm_sw_params_default] *)
Fixpoint boundary_loop (fuel : nat) (buffer_size boundary : Z) : option Z :=
  match fuel with
  | O => None
  | S fuel =>
      if u64 (boundary * 2) <=? u64 (LONG_MAX - buffer_size)
      then boundary_loop fuel buffer_size (u64 (boundary * 2))
      else Some boundary
  end.

(** More rounds than a non-zero 64-bit number can be doubled. *)
Definition boundary_fuel : nat := 64.

(* [pcm_params.c 346-363 snd_pcm_sw_params_default] *)
Definition snd_pcm_sw_params_default (pcm : snd_pcm_t) (params : snd_pcm_sw_params_t)
  : option snd_pcm_sw_params_t :=
  let params := put_tstamp_mode TSTAMP_NONE params in
  let params := put_tstamp_type (tstamp_type (sw_params pcm)) params in
  let params := put_period_step 1 params in
  let params := put_sleep_min 0 params in
  let params := put_sw_avail_min (period_size pcm) params in
  let params := put_xfer_align (period_size pcm) params in
  let params := put_start_threshold 1 params in
  let params := put_stop_threshold (buffer_size pcm) params in
  let params := put_silence_threshold 0 params in
  let params := put_silence_size 0 params in
  match boundary_loop boundary_fuel (buffer_size pcm) (buffer_size pcm) with
  | Some b => Some (put_sw_boundary b params)
  | None => None
  end.

(** ** Accessors *)

(* [pcm_macros.h 1791-1796 snd_pcm_sw_params_current] *)
Definition snd_pcm_sw_params_current (pcm : snd_pcm_t) : Z * snd_pcm_sw_params_t :=
  (0, sw_params pcm).

(* [pcm_macros.h 1800-1806 snd_pcm_sw_params_get_boundary] *)
Definition snd_pcm_sw_params_get_boundary (params : snd_pcm_sw_params_t) : Z * Z :=
  (0, sw_boundary params).

(* [pcm_macros.h 1808-1814 snd_pcm_sw_params_set_tstamp_mode] *)
Definition snd_pcm_sw_params_set_tstamp_mode (pcm : snd_pcm_t) (params : snd_pcm_sw_params_t) (val : Z)
  : Z * snd_pcm_sw_params_t :=
  (0, put_tstamp_mode val params).

(* [pcm_macros.h 1816-1822 snd_pcm_sw_params_get_tstamp_mode] *)
Definition snd_pcm_sw_params_get_tstamp_mode (params : snd_pcm_sw_params_t) : Z * Z :=
  (0, tstamp_mode params).

(* [pcm_macros.h 1824-1830 snd_pcm_sw_params_set_tstamp_type] *)
Definition snd_pcm_sw_params_set_tstamp_type (pcm : snd_pcm_t) (params : snd_pcm_sw_params_t) (val : Z)
  : Z * snd_pcm_sw_params_t :=
  (0, put_tstamp_type val params).

(* [pcm_macros.h 1832-1838 snd_pcm_sw_params_get_tstamp_type] *)
Definition snd_pcm_sw_params_get_tstamp_type (params : snd_pcm_sw_params_t) : Z * Z :=
  (0, tstamp_type params).

(* [pcm_macros.h 1840-1847 snd_pcm_sw_params_set_sleep_min] *)
Definition snd_pcm_sw_params_set_sleep_min (pcm : snd_pcm_t) (params : snd_pcm_sw_params_t) (val : Z)
  : Z * snd_pcm_sw_params_t :=
  (0, put_sleep_min val params).

(* [pcm_macros.h 1849-1856 snd_pcm_sw_params_get_sleep_min] *)
Definition snd_pcm_sw_params_get_sleep_min (params : snd_pcm_sw_params_t) : Z * Z :=
  (0, sleep_min params).

(* [pcm_macros.h 1858-1870 snd_pcm_sw_params_set_avail_min] *)
Definition snd_pcm_sw_params_set_avail_min (pcm : snd_pcm_t) (params : snd_pcm_sw_params_t) (val : Z)
  : Z * snd_pcm_sw_params_t :=
  let val := if val <? period_size pcm then period_size pcm else val in
  (0, put_sw_avail_min val params).

(* [pcm_macros.h 1872-1878 snd_pcm_sw_params_get_avail_min] *)
Definition snd_pcm_sw_params_get_avail_min (params : snd_pcm_sw_params_t) : Z * Z :=
  (0, sw_avail_min params).

(* [pcm_macros.h 1881-1888 snd_pcm_sw_params_set_xfer_align] *)
Definition snd_pcm_sw_params_set_xfer_align (pcm : snd_pcm_t) (params : snd_pcm_sw_params_t) (val : Z)
  : Z * snd_pcm_sw_params_t :=
  (0, put_xfer_align val params).

(* [pcm_macros.h 1890-1897 snd_pcm_sw_params_get_xfer_align] *)
Definition snd_pcm_sw_params_get_xfer_align (params : snd_pcm_sw_params_t) : Z * Z :=
  (0, xfer_align params).

(* [pcm_macros.h 1900-1906 snd_pcm_sw_params_set_start_threshold] *)
Definition snd_pcm_sw_params_set_start_threshold (pcm : snd_pcm_t) (params : snd_pcm_sw_params_t) (val : Z)
  : Z * snd_pcm_sw_params_t :=
  (0, put_start_threshold val params).

(* [pcm_macros.h 1908-1914 snd_pcm_sw_params_get_start_threshold] *)
Definition snd_pcm_sw_params_get_start_threshold (params : snd_pcm_sw_params_t) : Z * Z :=
  (0, start_threshold params).

(* [pcm_macros.h 1917-1923 snd_pcm_sw_params_set_stop_threshold] *)
Definition snd_pcm_sw_params_set_stop_threshold (pcm : snd_pcm_t) (params : snd_pcm_sw_params_t) (val : Z)
  : Z * snd_pcm_sw_params_t :=
  (0, put_stop_threshold val params).

(* [pcm_macros.h 1925-1931 snd_pcm_sw_params_get_stop_threshold] *)
Definition snd_pcm_sw_params_get_stop_threshold (params : snd_pcm_sw_params_t) : Z * Z :=
  (0, stop_threshold params).

(* [pcm_macros.h 1934-1941 snd_pcm_sw_params_set_silence_threshold] *)
Definition snd_pcm_sw_params_set_silence_threshold (pcm : snd_pcm_t) (params : snd_pcm_sw_params_t) (val : Z)
  : Z * snd_pcm_sw_params_t :=
  (0, put_silence_threshold val params).

(* [pcm_macros.h 1943-1949 snd_pcm_sw_params_get_silence_threshold] *)
Definition snd_pcm_sw_params_get_silence_threshold (params : snd_pcm_sw_params_t) : Z * Z :=
  (0, silence_threshold params).

(* [pcm_macros.h 1952-1958 snd_pcm_sw_params_set_silence_size] *)
Definition snd_pcm_sw_params_set_silence_size (pcm : snd_pcm_t) (params : snd_pcm_sw_params_t) (val : Z)
  : Z * snd_pcm_sw_params_t :=
  (0, put_silence_size val params).

(* [pcm_macros.h 1960-1966 snd_pcm_sw_params_get_silence_size] *)
Definition snd_pcm_sw_params_get_silence_size (params : snd_pcm_sw_params_t) : Z * Z :=
  (0, silence_size params).

(* [pcm_macros.h 1968-1973 snd_pcm_sw_params_set_period_event] *)
Definition snd_pcm_sw_params_set_period_event (pcm : snd_pcm_t) (params : snd_pcm_sw_params_t) (val : Z)
  : Z * snd_pcm_sw_params_t :=
  (0, put_period_event (u32 val) params).

(* [pcm_macros.h 1975-1980 snd_pcm_sw_params_get_period_event] *)
Definition snd_pcm_sw_params_get_period_event (params : snd_pcm_sw_params_t) : Z * Z :=
  (0, s32 (period_event params)).

(** The accessors in pairs: a field's setter with its getter. *)
Definition sw_accessors
  : list ((snd_pcm_t -> snd_pcm_sw_params_t -> Z -> Z * snd_pcm_sw_params_t) *
          (snd_pcm_sw_params_t -> Z * Z)) :=
  [(snd_pcm_sw_params_set_tstamp_mode, snd_pcm_sw_params_get_tstamp_mode);
   (snd_pcm_sw_params_set_tstamp_type, snd_pcm_sw_params_get_tstamp_type);
   (snd_pcm_sw_params_set_sleep_min, snd_pcm_sw_params_get_sleep_min);
   (snd_pcm_sw_params_set_xfer_align, snd_pcm_sw_params_get_xfer_align);
   (snd_pcm_sw_params_set_start_threshold, snd_pcm_sw_params_get_start_threshold);
   (snd_pcm_sw_params_set_stop_threshold, snd_pcm_sw_params_get_stop_threshold);
   (snd_pcm_sw_params_set_silence_threshold, snd_pcm_sw_params_get_silence_threshold);
   (snd_pcm_sw_params_set_silence_size, snd_pcm_sw_params_get_silence_size);
   (snd_pcm_sw_params_set_period_event, snd_pcm_sw_params_get_period_event);
   (snd_pcm_sw_params_set_avail_min, snd_pcm_sw_params_get_avail_min)].

(** ** Theorems *)

Lemma boundary_loop_spec fuel bs b :
  1 <= bs <= LONG_MAX -> bs <= b <= LONG_MAX -> LONG_MAX < b * 2 ^ (Z.of_nat fuel - 1) ->
  (0 < fuel)%nat ->
  exists k, 0 <= k /\ boundary_loop fuel bs b = Some (b * 2 ^ k) /\
    LONG_MAX - bs < b * 2 ^ k * 2 /\ (k = 0 \/ b * 2 ^ k <= LONG_MAX - bs).
Proof.
  unfold LONG_MAX. intros Hbs. revert b. induction fuel as [|fuel IH]; intros b Hb Hf Hpos; [lia|].
  simpl. unfold LONG_MAX.
  rewrite !u64_id by (unfold is_u64, ULONG_MAX; lia).
  destruct (Z.leb_spec (b * 2) (9223372036854775807 - bs)) as [Hle|Hgt].
  - destruct fuel as [|fuel]; [simpl in Hf; lia|].
    destruct (IH (b * 2)) as (k & Hk & -> & H1 & H2); [lia| |lia|].
    { replace (Z.of_nat (S (S fuel)) - 1) with (Z.succ (Z.of_nat (S fuel) - 1)) in Hf by lia.
      rewrite Z.pow_succ_r in Hf by lia. lia. }
    exists (Z.succ k). rewrite Z.pow_succ_r by done.
    replace (b * (2 * 2 ^ k)) with (b * 2 * 2 ^ k) by lia.
    split; [lia|]. split; [done|]. split; [lia|]. right.
    destruct H2 as [->|?]; lia.
  - exists 0. rewrite Z.pow_0_r, Z.mul_1_r. repeat split; lia || auto.
Qed.

(** The default software parameters end, for every buffer size from 1 to
    LONG_MAX, with the largest multiple of the buffer size by a power of two that
    stays one buffer below LONG_MAX (or the buffer size itself), so that
    positions up to the boundary plus one buffer never overflow a long. *)
Theorem sw_default_boundary (pcm : snd_pcm_t) (params : snd_pcm_sw_params_t) :
  1 <= buffer_size pcm <= LONG_MAX ->
  exists params' k,
    snd_pcm_sw_params_default pcm params = Some params' /\ 0 <= k /\
    sw_boundary params' = buffer_size pcm * 2 ^ k /\
    LONG_MAX - buffer_size pcm < sw_boundary params' * 2 /\
    (k = 0 \/ sw_boundary params' + buffer_size pcm <= LONG_MAX) /\
    sw_avail_min params' = period_size pcm /\ start_threshold params' = 1 /\
    stop_threshold params' = buffer_size pcm.
Proof.
  intros Hbs. unfold snd_pcm_sw_params_default.
  destruct (boundary_loop_spec boundary_fuel (buffer_size pcm) (buffer_size pcm) Hbs)
    as (k & Hk & -> & H1 & H2); [lia| |unfold boundary_fuel; lia|].
  { change (Z.of_nat boundary_fuel - 1) with 63. change (2 ^ 63) with 9223372036854775808.
    unfold LONG_MAX in *. lia. }
  destruct params. eexists _, k. split; [reflexivity|]. simpl.
  repeat split; auto. destruct H2; [auto|right; lia].
Qed.

(** A handle with a buffer and a period size. *)
Definition configured_pcm (buffer period : Z) : snd_pcm_t :=
  put_configuration 0 0 0 2 48000 0 period buffer 16 32 (new_pcm 0 0 0 0 0 0 3 0).

Lemma sw_default_boundary_witness :
  let pcm := configured_pcm 4096 1024 in
  exists params' k,
    snd_pcm_sw_params_default pcm zero_sw_params = Some params' /\ 0 <= k /\
    sw_boundary params' = 4096 * 2 ^ k /\
    LONG_MAX - 4096 < sw_boundary params' * 2 /\
    (k = 0 \/ sw_boundary params' + 4096 <= LONG_MAX) /\
    sw_avail_min params' = 1024 /\ start_threshold params' = 1 /\ stop_threshold params' = 4096.
Proof.
  apply (sw_default_boundary (configured_pcm 4096 1024) zero_sw_params).
  unfold LONG_MAX. simpl. lia.
Defined.

Lemma boundary_loop_zero fuel : boundary_loop fuel 0 0 = None.
Proof. induction fuel as [|fuel IH]; simpl; done. Qed.

(** With a buffer size of 0, which a handle has until a configuration is set,
    the loop for the default boundary never ends: no amount of fuel gives a result,
    and the function gives none. *)
Theorem sw_default_diverges (pcm : snd_pcm_t) (params : snd_pcm_sw_params_t) (fuel : nat) :
  buffer_size pcm = 0 ->
  boundary_loop fuel (buffer_size pcm) (buffer_size pcm) = None /\
  snd_pcm_sw_params_default pcm params = None.
Proof.
  intros H. unfold snd_pcm_sw_params_default. rewrite H, !boundary_loop_zero. done.
Qed.

Lemma sw_default_diverges_witness :
  snd_pcm_sw_params_default (new_pcm 0 0 0 0 0 0 3 0) zero_sw_params = None.
Proof.
  exact (proj2 (sw_default_diverges (new_pcm 0 0 0 0 0 0 3 0) zero_sw_params 0 eq_refl)).
Defined.

(** The accessors of the software parameters are independent fields: a
    getter reads what its setter stored (for [avail_min] at least the period
    size, for [period_event] as an int) and no other setter changes it. *)
Theorem sw_accessors_independent (pcm : snd_pcm_t) (params : snd_pcm_sw_params_t) (val : Z)
  (i j : nat) set get :
  fst <$> (sw_accessors !! i) = Some set -> snd <$> (sw_accessors !! j) = Some get ->
  get (set pcm params val).2 =
    if decide (i = j) then
      (0, if decide (j = 9%nat) then Z.max (period_size pcm) val
          else if decide (j = 8%nat) then s32 (u32 val) else val)
    else get params.
Proof.
  intros Hi Hj. pose proof Hi as Hi'. pose proof Hj as Hj'.
  apply fmap_Some in Hi' as (x & Hx%lookup_lt_Some & _).
  apply fmap_Some in Hj' as (y & Hy%lookup_lt_Some & _). simpl in Hx, Hy.
  destruct params.
  do 10 (destruct i as [|i]; [simpl in Hi; injection Hi as <-;
    do 10 (destruct j as [|j]; [simpl in Hj; injection Hj as <-; try reflexivity;
      unfold snd_pcm_sw_params_get_avail_min, snd_pcm_sw_params_set_avail_min; simpl; f_equal;
      destruct (Z.ltb_spec val (period_size pcm)); lia|]); lia|]). lia.
Qed.

Lemma sw_accessors_independent_witness :
  let pcm := configured_pcm 4096 1024 in
  snd_pcm_sw_params_get_avail_min (snd_pcm_sw_params_set_avail_min pcm zero_sw_params 16).2 = (0, 1024).
Proof.
  apply (sw_accessors_independent (configured_pcm 4096 1024) zero_sw_params 16 9 9
    snd_pcm_sw_params_set_avail_min snd_pcm_sw_params_get_avail_min); reflexivity.
Defined.
