(* ===== verification/Pcm.v ===== *)
(** * PCM state, transfer and positions

    The operations of an open PCM: the simple ioctls and the state of
    src/src/pcm_macros.h (lines 84-290), the transfers and the position arithmetic
    of src/src/pcm.c (lines 166-259 and 925-1060), waiting and recovering.

    An operation is a computation on [ps]: the handle and the process it is in.
    Positions are [snd_pcm_uframes_t], 64-bit unsigned, and [snd_pcm_sframes_t],
    64-bit signed, with their wrap-around. *)

From stdpp Require Import gmap.
From S2P Require Import Prelude CInt Sys Cards Async PcmTypes.
#[local] Open Scope Z_scope.

Record ps (K : Type) := PS { the_pcm : snd_pcm_t; prc : proc K }.
Arguments PS {K}.
Arguments the_pcm {K}.
Arguments prc {K}.

Section Lifting.
Context {K : Type}.

Definition getp : io (ps K) snd_pcm_t := fun s => (the_pcm s, s).

Definition setp (f : snd_pcm_t -> snd_pcm_t) : io (ps K) unit :=
  fun s => (tt, PS (f (the_pcm s)) (prc s)).

Definition onproc {A} (m : io (proc K) A) : io (ps K) A :=
  fun s => let '(a, p) := m (prc s) in (a, PS (the_pcm s) p).

Definition onworld {A} (m : io (world K) A) : io (ps K) A := onproc (onsys m).

(** A call to the system. *)
Definition sysk {A} (m : io K A) : io (ps K) A := onworld (lift m).
End Lifting.

Section Pcm.
Context {K : Type} `{!Os K, !AsyncKernel K, !PcmKernel K}.

(** ** The status and control records

    They are in pages shared with the kernel, or in the [sync_ptr] block.  (A NULL
    pointer would be dereferenced; an open handle has none, see
    [PcmOpen.pcm_session_balanced].) *)

Definition get_status : io (ps K) mmap_status_t :=
  let* pcm := getp in
  match mmap_status pcm with
  | PtrMap a => sysk (shared_status a)
  | _ => ret (match sync_ptr pcm with Some (_, sp) => sp_status sp | None => zero_status end)
  end.

Definition get_control : io (ps K) mmap_control_t :=
  let* pcm := getp in
  match mmap_control pcm with
  | PtrMap a => sysk (shared_control a)
  | _ => ret (match sync_ptr pcm with
              | Some (_, sp) => sp_control sp | None => MmapControl 0 0 end)
  end.

Definition put_sync (f : sync_ptr_t -> sync_ptr_t) (pcm : snd_pcm_t) : snd_pcm_t :=
  put_shared (mmap_status pcm) (mmap_control pcm)
    (match sync_ptr pcm with Some (a, sp) => Some (a, f sp) | None => None end) pcm.

Definition set_control (c : mmap_control_t) : io (ps K) unit :=
  let* pcm := getp in
  match mmap_control pcm with
  | PtrMap a => sysk (set_shared_control a c)
  | _ => setp (put_sync (fun sp => SyncPtr (sp_flags sp) (sp_status sp) c))
  end.

(** [pcm->mmap_control->avail_min = v;] *)
Definition set_avail_min (v : Z) : io (ps K) unit :=
  let* c := get_control in set_control (MmapControl (appl_ptr c) v).

(** [pcm->mmap_control->appl_ptr = v;] *)
Definition set_appl_ptr (v : Z) : io (ps K) unit :=
  let* c := get_control in set_control (MmapControl v (mc_avail_min c)).

(* [pcm_macros.h 168-176 _snd_pcm_sync_ptr] *)
Definition _snd_pcm_sync_ptr (flags : Z) : io (ps K) Z :=
  let* pcm := getp in
  match sync_ptr pcm with
  | None => ret 0
  | Some (_, sp) =>
      let sp := SyncPtr (u32 flags) (sp_status sp) (sp_control sp) in
      let* '(r, sp) := sysk (ioctl_sync_ptr (fd pcm) sp) in
      let* _ := setp (put_sync (fun _ => sp)) in
      ret (if r <? 0 then r else 0)
  end.

(** ** Simple operations *)

(** An ioctl without a structure. *)
Definition cmd (c : pcm_cmd) : io (ps K) Z :=
  let* pcm := getp in sysk (ioctl_cmd (fd pcm) c).

(* [pcm_macros.h 179-184 snd_pcm_state] *)
Definition snd_pcm_state : io (ps K) Z :=
  let* _ := _snd_pcm_sync_ptr SYNC_PTR_APPL in
  let* st := get_status in
  ret (ms_state st).

(* [pcm_macros.h 188-195 _snd_pcm_hwsync] *)
Definition _snd_pcm_hwsync : io (ps K) Z :=
  let* pcm := getp in
  match sync_ptr pcm with
  | Some _ => _snd_pcm_sync_ptr SYNC_PTR_HWSYNC
  | None => let* r := cmd CmdHwsync in ret (if r <? 0 then r else 0)
  end.

(** The delay is given back where the ioctl writes it. *)
(* [pcm_macros.h 215-220 snd_pcm_delay] *)
Definition snd_pcm_delay : io (ps K) (Z * Z) :=
  let* pcm := getp in
  let* '(r, d) := sysk (ioctl_delay (fd pcm)) in
  ret (if r <? 0 then (r, d) else (0, d)).

Definition simple (c : pcm_cmd) : io (ps K) Z :=
  let* r := cmd c in ret (if r <? 0 then r else 0).

(* [pcm_macros.h 223-228 snd_pcm_resume] *)
Definition snd_pcm_resume : io (ps K) Z := simple CmdResume.

(* [pcm_macros.h 231-236 snd_pcm_prepare] *)
Definition snd_pcm_prepare : io (ps K) Z :=
  let* r := cmd CmdPrepare in
  if r <? 0 then ret r else _snd_pcm_sync_ptr SYNC_PTR_APPL.

(* [pcm_macros.h 239-244 snd_pcm_reset] *)
Definition snd_pcm_reset : io (ps K) Z :=
  let* r := cmd CmdReset in
  if r <? 0 then ret r else _snd_pcm_sync_ptr SYNC_PTR_APPL.

(* [pcm_macros.h 247-253 snd_pcm_start] *)
Definition snd_pcm_start : io (ps K) Z :=
  let* _ := _snd_pcm_sync_ptr 0 in simple CmdStart.

(* [pcm_macros.h 256-261 snd_pcm_drop] *)
Definition snd_pcm_drop : io (ps K) Z := simple CmdDrop.

(* [pcm_macros.h 264-269 snd_pcm_drain] *)
Definition snd_pcm_drain : io (ps K) Z := simple CmdDrain.

(* [pcm_macros.h 272-277 snd_pcm_pause] *)
Definition snd_pcm_pause (enable : Z) : io (ps K) Z := simple (CmdPause enable).

(* [pcm_macros.h 302-307 snd_pcm_link] *)
Definition snd_pcm_link (fd2 : Z) : io (ps K) Z := simple (CmdLink fd2).

(* [pcm_macros.h 310-315 snd_pcm_unlink] *)
Definition snd_pcm_unlink : io (ps K) Z := simple CmdUnlink.

(** The kernel stores the number of frames it moved by in the argument. *)
(* [pcm_macros.h 280-299 snd_pcm_rewind] *)
Definition move_by (m : move) (frames : Z) : io (ps K) Z :=
  if frames =? 0 then ret 0
  else
    let* pcm := getp in
    let* '(r, frames) := sysk (ioctl_move m (fd pcm) frames) in
    if r <? 0 then ret r
    else let* _ := _snd_pcm_sync_ptr SYNC_PTR_APPL in ret (s64 frames).

(* [pcm_macros.h 280-288 snd_pcm_rewind] *)
Definition snd_pcm_rewind (frames : Z) : io (ps K) Z := move_by Rewind frames.

(* [pcm_macros.h 291-299 snd_pcm_forward] *)
Definition snd_pcm_forward (frames : Z) : io (ps K) Z := move_by Forward frames.

(* [pcm_macros.h 88-91 snd_pcm_nonblock] *)
Definition snd_pcm_nonblock (nonblock : Z) : io (ps K) Z :=
  let* pcm := getp in onworld (_snd_set_nonblock (fd pcm) nonblock).

(* [pcm_macros.h 149-155 snd_pcm_hw_params_current] *)
Definition snd_pcm_hw_params_current (params : snd_pcm_hw_params_t)
  : io (ps K) (Z * snd_pcm_hw_params_t) :=
  let* pcm := getp in
  ret (if negb (setup pcm) then (- EBADFD, params) else (0, hw_params pcm)).

(** The sizes are given and returned. *)
(* [pcm_macros.h 2156-2165 snd_pcm_get_params] *)
Definition snd_pcm_get_params (bs psz : Z) : io (ps K) (Z * Z * Z) :=
  let* pcm := getp in
  ret (if negb (setup pcm) then (- EBADFD, bs, psz)
       else (0, buffer_size pcm, period_size pcm)).

(** ** Transfer *)

(* [pcm.c 170-182 correct_pcm_error] *)
Definition correct_pcm_error (err : Z) : io (ps K) Z :=
  let* st := snd_pcm_state in
  ret (if st =? STATE_XRUN then - EPIPE
       else if st =? STATE_SUSPENDED then - ESTRPIPE
       else if st =? STATE_DISCONNECTED then - ENODEV
       else err).

(* [pcm.c 184-189 snd_pcm_check_error] *)
Definition snd_pcm_check_error (err : Z) : io (ps K) Z :=
  if err =? - EINTR then correct_pcm_error err else ret err.

(** The common body of the four transfers. *)
(* [pcm.c 191-205 snd_pcm_writei] *)
Definition transfer (x : xfer) (buffer size : Z) : io (ps K) Z :=
  let* pcm := getp in
  let* '(r, result) := sysk (ioctl_xfer x (fd pcm) buffer size) in
  if r <? 0 then snd_pcm_check_error r
  else let* _ := _snd_pcm_sync_ptr SYNC_PTR_APPL in ret result.

(* [pcm.c 191-205 snd_pcm_writei] *)
Definition snd_pcm_writei (buffer size : Z) : io (ps K) Z := transfer WriteI buffer size.

(* [pcm.c 207-221 snd_pcm_writen] *)
Definition snd_pcm_writen (bufs size : Z) : io (ps K) Z := transfer WriteN bufs size.

(* [pcm.c 223-237 snd_pcm_readi] *)
Definition snd_pcm_readi (buffer size : Z) : io (ps K) Z := transfer ReadI buffer size.

(* [pcm.c 239-253 snd_pcm_readn] *)
Definition snd_pcm_readn (bufs size : Z) : io (ps K) Z := transfer ReadN bufs size.

(** ** Positions *)

(* [pcm.c 944-953 snd_pcm_mmap_playback_avail] *)
Definition playback_avail (hw appl bs bd : Z) : Z :=
  let avail := s64 (u64 (hw + bs - appl)) in
  let avail := if avail <? 0 then s64 (u64 (avail + bd))
               else if bd <=? u64 avail then s64 (u64 (avail - bd)) else avail in
  u64 avail.

(* [pcm.c 955-962 snd_pcm_mmap_capture_avail] *)
Definition capture_avail (hw appl bd : Z) : Z :=
  let avail := s64 (u64 (hw - appl)) in
  u64 (if avail <? 0 then s64 (u64 (avail + bd)) else avail).

(** The two positions, the boundary and the buffer size give the result. *)
Definition with_ptrs (f : snd_pcm_t -> Z -> Z -> Z) : io (ps K) Z :=
  let* pcm := getp in
  let* st := get_status in
  let* ct := get_control in
  ret (f pcm (hw_ptr st) (appl_ptr ct)).

(* [pcm.c 944-953 snd_pcm_mmap_playback_avail] *)
Definition snd_pcm_mmap_playback_avail : io (ps K) Z :=
  with_ptrs (fun pcm hw appl => playback_avail hw appl (buffer_size pcm) (boundary pcm)).

(* [pcm.c 955-962 snd_pcm_mmap_capture_avail] *)
Definition snd_pcm_mmap_capture_avail : io (ps K) Z :=
  with_ptrs (fun pcm hw appl => capture_avail hw appl (boundary pcm)).

(* [pcm.c 964-970 snd_pcm_mmap_avail] *)
Definition snd_pcm_mmap_avail : io (ps K) Z :=
  let* pcm := getp in
  if stream pcm =? STREAM_PLAYBACK then snd_pcm_mmap_playback_avail
  else snd_pcm_mmap_capture_avail.

(* [pcm.c 972-975 snd_pcm_mmap_hw_avail] *)
Definition snd_pcm_mmap_hw_avail : io (ps K) Z :=
  let* pcm := getp in
  let* avail := snd_pcm_mmap_avail in
  ret (s64 (u64 (buffer_size pcm - avail))).

(** Aliases of the two. *)
(* [pcm.c 977-978 snd_pcm_forwardable] *)
Definition snd_pcm_forwardable : io (ps K) Z :=
  let* avail := snd_pcm_mmap_avail in ret (s64 avail).
(* [pcm.c 980-981 snd_pcm_rewindable] *)
Definition snd_pcm_rewindable : io (ps K) Z := snd_pcm_mmap_hw_avail.

(* [pcm.c 983-1006 snd_pcm_avail_update] *)
Definition snd_pcm_avail_update : io (ps K) Z :=
  let* _ := _snd_pcm_sync_ptr 0 in
  let* avail := snd_pcm_mmap_avail in
  let* st := snd_pcm_state in
  let* pcm := getp in
  if st =? STATE_RUNNING then
    if stop_threshold (sw_params pcm) <=? avail then
      let* r := cmd CmdXrun in
      ret (if r <? 0 then r else - EPIPE)
    else ret (s64 avail)
  else if st =? STATE_XRUN then ret (- EPIPE)
  else ret (s64 avail).

(* [pcm_macros.h 206-212 snd_pcm_avail] *)
Definition snd_pcm_avail : io (ps K) Z :=
  let* err := _snd_pcm_hwsync in
  if err <? 0 then ret err else snd_pcm_avail_update.

(** The two results are given back where they are written; [(int)val] on errors. *)
(* [pcm.c 1008-1023 snd_pcm_avail_delay] *)
Definition snd_pcm_avail_delay (avail0 : Z) : io (ps K) (Z * Z * Z) :=
  let* '(err, delay) := snd_pcm_delay in
  if err <? 0 then ret (err, avail0, delay)
  else
    let* val := snd_pcm_avail_update in
    ret (if val <? 0 then (s32 val, avail0, delay) else (0, val, delay)).

(** The time stamp is copied as it is. *)
(* [pcm_macros.h 2143-2149 snd_pcm_htimestamp] *)
Definition snd_pcm_htimestamp : io (ps K) (Z * Z * (Z * Z)) :=
  let* avail := snd_pcm_avail_update in
  let* st := get_status in
  ret (0, u64 avail, ms_tstamp st).

(** Returns the areas, the offset and the number of frames.  (A buffer size of 0,
    before a configuration is set, divides by zero.) *)
(* [pcm.c 1025-1047 snd_pcm_mmap_begin] *)
Definition snd_pcm_mmap_begin (frames : Z)
  : io (ps K) (Z * option (Z * list snd_pcm_channel_area_t) * Z * Z) :=
  let* pcm := getp in
  let* ct := get_control in
  let offset := appl_ptr ct `mod` buffer_size pcm in
  let* avail := snd_pcm_mmap_avail in
  let avail := if buffer_size pcm <? avail then buffer_size pcm else avail in
  let cont := u64 (buffer_size pcm - offset) in
  let f := frames in
  let f := if avail <? f then avail else f in
  let f := if cont <? f then cont else f in
  ret (0, running_areas pcm, offset, f).

(* [pcm.c 1053-1057 snd_pcm_mmap_commit] *)
Definition advance (appl frames bd : Z) : Z :=
  let appl := u64 (appl + frames) in
  if bd <=? appl then u64 (appl - bd) else appl.

(* [pcm.c 1049-1060 snd_pcm_mmap_commit] *)
Definition snd_pcm_mmap_commit (offset frames : Z) : io (ps K) Z :=
  let* pcm := getp in
  let* ct := get_control in
  let* _ := set_appl_ptr (advance (appl_ptr ct) frames (boundary pcm)) in
  let* _ := _snd_pcm_sync_ptr 0 in
  ret (s64 frames).

(** ** Areas and sizes *)

(** The bit offset is computed in 64 bits and kept in an unsigned int. *)
(* [pcm_macros.h 2167-2173 snd_pcm_channel_area_addr] *)
Definition snd_pcm_channel_area_addr (area : snd_pcm_channel_area_t) (offset : Z) : Z :=
  let bitofs := u32 (area_first area + area_step area * offset) in
  area_addr area + bitofs / 8.

(* [pcm_macros.h 383-386 snd_pcm_bytes_to_frames] *)
Definition snd_pcm_bytes_to_frames (pcm : snd_pcm_t) (bytes : Z) : Z :=
  Z.quot (s64 (bytes * 8)) (frame_bits pcm).

(* [pcm_macros.h 389-392 snd_pcm_frames_to_bytes] *)
Definition snd_pcm_frames_to_bytes (pcm : snd_pcm_t) (frames : Z) : Z :=
  Z.quot (s64 (frames * frame_bits pcm)) 8.

(* [pcm_macros.h 395-398 snd_pcm_bytes_to_samples] *)
Definition snd_pcm_bytes_to_samples (pcm : snd_pcm_t) (bytes : Z) : Z :=
  Z.quot (s64 (bytes * 8)) (sample_bits pcm).

(* [pcm_macros.h 401-404 snd_pcm_samples_to_bytes] *)
Definition snd_pcm_samples_to_bytes (pcm : snd_pcm_t) (samples : Z) : Z :=
  Z.quot (s64 (samples * sample_bits pcm)) 8.

(** A [memcpy]: destination, source and number of bytes. *)
Record copy := Copy { copy_dst : Z; copy_src : Z; copy_bytes : Z }.

Definition first_area (areas : option (Z * list snd_pcm_channel_area_t)) : snd_pcm_channel_area_t :=
  match areas with
  | Some (_, a :: _) => a
  | _ => Area 0 0 0
  end.

(** The copy the function makes is given with its result. *)
(* [pcm_macros.h 2188-2198 snd_pcm_mmap_writei] *)
Definition snd_pcm_mmap_writei (buffer size : Z) : io (ps K) (Z * copy) :=
  let* '(_, areas, offset, size) := snd_pcm_mmap_begin size in
  let* pcm := getp in
  let c := Copy (snd_pcm_channel_area_addr (first_area areas) offset) buffer
             (u64 (snd_pcm_frames_to_bytes pcm (s64 size))) in
  let* r := snd_pcm_mmap_commit offset size in
  ret (r, c).

(* [pcm_macros.h 2201-2211 snd_pcm_mmap_readi] *)
Definition snd_pcm_mmap_readi (buffer size : Z) : io (ps K) (Z * copy) :=
  let* '(_, areas, offset, size) := snd_pcm_mmap_begin size in
  let* pcm := getp in
  let c := Copy buffer (snd_pcm_channel_area_addr (first_area areas) offset)
             (u64 (snd_pcm_frames_to_bytes pcm (s64 size))) in
  let* r := snd_pcm_mmap_commit offset size in
  ret (r, c).

(** ** Waiting and recovering

    Both loops end only when the kernel answers: the result is [None] where the
    fuel is spent. *)

(** What one answer of [poll] decides. *)
Inductive verdict :=
  | Done (r : Z)
  | Broken
  | Again.

(* [pcm.c 1102-1114 snd_pcm_wait] *)
Definition judge (err revents : Z) : verdict :=
  if err <? 0 then (if err =? - EINTR then Again else Done err)
  else if err =? 0 then Done 0
  else if nz (Z.land revents (Z.lor POLLERR POLLNVAL)) then Broken
  else if nz (Z.land revents (Z.lor POLLIN POLLOUT)) then Done 1
  else Again.

(* [pcm.c 1089-1115 snd_pcm_wait] *)
Fixpoint snd_pcm_wait (fuel : nat) (timeout : Z) : io (ps K) (option Z) :=
  match fuel with
  | O => ret None
  | S fuel =>
      let* pcm := getp in
      let* '(err, revents) := sysk (os_poll (fd pcm) (pollfd_events pcm) timeout) in
      match judge err revents with
      | Done r => ret (Some r)
      | Broken => let* r := correct_pcm_error (- EIO) in ret (Some r)
      | Again => snd_pcm_wait fuel timeout
      end
  end.

(* [pcm.c 1127-1128 snd_pcm_recover] *)
Fixpoint resume_loop (fuel : nat) : io (ps K) (option Z) :=
  match fuel with
  | O => ret None
  | S fuel =>
      let* err := snd_pcm_resume in
      if err =? - EAGAIN then
        let* _ := sysk (os_sleep 1) in resume_loop fuel
      else ret (Some err)
  end.

(* [pcm.c 1117-1134 snd_pcm_recover] *)
Definition snd_pcm_recover (fuel : nat) (err : Z) : io (ps K) (option Z) :=
  let err := if 0 <? err then - err else err in
  if err =? - EINTR then ret (Some 0)
  else if err =? - EPIPE then let* r := snd_pcm_prepare in ret (Some r)
  else if err =? - ESTRPIPE then
    let* r := resume_loop fuel in
    match r with
    | None => ret None
    | Some err =>
        if err <? 0 then let* r := snd_pcm_prepare in ret (Some r) else ret (Some 0)
    end
  else ret (Some err).
End Pcm.
