(* ===== verification/Toy.v ===== *)
(** * A toy kernel

    Concrete answers of the system for the witnesses: the state is a counter, from
    which new descriptors, blocks and mappings are numbered.  The first two polls are
    interrupted and the first two resumes refused.  The PCM driver has two
    interleaved 16-bit channels and grants every configuration it is asked for. *)

From S2P Require Import Prelude CInt Sys Cards Async PcmTypes.
#[local] Open Scope Z_scope.

(** An address above [m] and every held block. *)
Definition above (m : Z) (l : list resource) : Z :=
  foldr (fun r n => match r with RMem a => Z.max (a + 1) n | _ => n end) m l.

Lemma above_spec m l : 0 < m -> 0 < above m l /\ RMem (above m l) ∉ l.
Proof.
  intros Hm. assert (H : m <= above m l /\ forall a, RMem a ∈ l -> a < above m l).
  { induction l as [|r l [IH1 IH2]]; simpl; [split; [done|intros a []%elem_of_nil]|].
    split; [destruct r; lia|]. intros a [<-|Ha]%elem_of_cons; [lia|].
    specialize (IH2 a Ha). destruct r; lia. }
  destruct H as [H1 H2]. split; [lia|]. intros Hin%H2. lia.
Qed.

#[export] Instance toy_os : Os Z := {
  os_open _ _ := fun k => (Z.abs k + 3, Z.abs k + 1);
  os_close _ := ret 0;
  os_setfl _ _ := ret 0;
  os_getfl _ := ret 0;
  os_access_ok _ := ret true;
  os_mmap _ _ _ := fun k => (4096 * (Z.abs k + 1), Z.abs k + 1);
  os_munmap _ _ := ret 0;
  os_alloc _ l := fun k => (Some (above (1000000 + Z.abs k) l), Z.abs k + 1);
  os_poll _ _ _ := fun k => (if k <? 2 then (- EINTR, 0) else (1, 4), k + 1);
  os_sleep _ := ret tt;
  os_page_size := 4096
}.

(** Every address up to the last mapping is taken. *)
#[export] Program Instance toy_laws : OsLaws Z := {
  taken k a := a <= 4096 * Z.abs k
}.
Next Obligation. unfold INT_MAX. simpl. lia. Qed.
Next Obligation.
  intros size fd offset k p k' H. simpl in H. injection H as <- <-. split; intros; lia.
Qed.
Next Obligation. intros. simpl. lia. Qed.
Next Obligation.
  intros size l k a k' H. simpl in H. injection H as <- <-. apply above_spec. lia.
Qed.

#[export] Instance toy_async : AsyncKernel Z := {
  os_setsig _ _ := ret 0;
  os_setown _ := ret 0;
  os_sigaction _ := ret 0
}.

#[export] Instance toy_cards : CardKernel Z := {
  ioctl_card_info _ := ret (0, CardInfo 0 "PCH" "" "HDA" "HDA Intel" "" "");
  ioctl_prefer _ _ _ := ret 0
}.

#[export] Instance toy_driver : PcmKernel Z := {
  ioctl_cmd _ c :=
    fun k => (match c with CmdResume => if k <? 2 then - EAGAIN else 0 | _ => 0 end, k + 1);
  ioctl_move _ _ frames := ret (0, frames);
  ioctl_info_subdevice _ := ret (0, 0);
  ioctl_pversion _ := ret (0, 131085);
  ioctl_user_pversion _ _ := ret 0;
  ioctl_hw_refine _ p := ret (0, p);
  ioctl_hw_params _ p := ret (0, p);
  ioctl_sw_params _ p := ret (0, p);
  ioctl_sync_ptr _ sp := ret (0, sp);
  ioctl_channel_info _ c := ret (0, ChannelInfo (ci_channel c) 0 (16 * ci_channel c) 32 0);
  ioctl_delay _ := ret (0, 0);
  ioctl_xfer _ _ _ n := ret (0, n);
  shared_status _ := ret zero_status;
  shared_control _ := ret (MmapControl 0 1);
  set_shared_control _ _ := ret tt
}.
