(* ===== verification/PcmSpec.v ===== *)
(** * Positions, waiting and errors of a PCM

    The theorems about the operations of Pcm.v: the free space and the queued
    frames that the two positions stand for, the frames [snd_pcm_mmap_begin] offers,
    what a failed transfer reports, and that the two loops return as soon as the
    kernel's answer decides. *)

From stdpp Require Import gmap.
From S2P Require Import Prelude CInt Sys Cards Async PcmTypes Pcm Toy.
#[local] Open Scope Z_scope.

(** ** Positions *)

(** The boundary of every handle is 0 ([PcmOpen.boundary_never_set]).  Then the two space
    functions and the commit are plain differences and sums, modulo the word. *)
Lemma wrap_diff a b :
  0 <= a <= LONG_MAX -> 0 <= b <= LONG_MAX ->
  s64 (u64 (a - b)) = a - b /\ u64 (a - b) = if b <=? a then a - b else a - b + (ULONG_MAX + 1).
Proof.
  unfold LONG_MAX. intros Ha Hb. rewrite s64_u64, s64_id by (unfold is_s64, LONG_MAX; lia). split; [done|].
  destruct (Z.leb_spec b a); [apply u64_id; unfold is_u64, ULONG_MAX; lia|].
  rewrite <- (u64_mod _ 1). apply u64_id. unfold is_u64, ULONG_MAX. lia.
Qed.

Lemma playback_avail_unwrapped (bs hw appl : Z) :
  0 < bs <= LONG_MAX -> 0 <= hw <= LONG_MAX - bs -> 0 <= appl <= LONG_MAX ->
  playback_avail hw appl bs 0 = if appl <=? hw + bs then hw + bs - appl else hw + bs - appl + (ULONG_MAX + 1).
Proof.
  intros Hbs Hhw Ha. destruct (wrap_diff (hw + bs) appl) as [H1 H2]; [lia..|].
  unfold playback_avail. rewrite H1, Z.add_0_r, Z.sub_0_r, H1. repeat case_match; done.
Qed.

Lemma capture_avail_unwrapped (hw appl : Z) :
  0 <= hw <= LONG_MAX -> 0 <= appl <= LONG_MAX ->
  capture_avail hw appl 0 = if appl <=? hw then hw - appl else hw - appl + (ULONG_MAX + 1).
Proof.
  intros Hhw Ha. destruct (wrap_diff hw appl) as [H1 H2]; [lia..|].
  unfold capture_avail. rewrite H1, Z.add_0_r, H1. repeat case_match; done.
Qed.

Lemma advance_unwrapped appl f : 0 <= appl -> 0 <= f -> appl + f <= ULONG_MAX -> advance appl f 0 = appl + f.
Proof.
  intros Ha Hf Hm. unfold advance. rewrite (u64_id (appl + f)) by (unfold is_u64; lia).
  destruct (Z.leb_spec 0 (appl + f)); [|done]. rewrite Z.sub_0_r. apply u64_id. unfold is_u64. lia.
Qed.

(** ** What an operation leaves alone

    [same_handle p p']: [p'] is [p] up to the contents of the [sync_ptr] block and
    the recorded software parameters. *)

Definition same_handle (p p' : snd_pcm_t) : Prop :=
  exists sp sw, p' = put_sw_params sw (put_shared (mmap_status p) (mmap_control p) sp p) /\
    fst <$> sp = fst <$> sync_ptr p.

#[export] Instance same_handle_preorder : PreOrder same_handle.
Proof.
  split.
  - intros p. exists (sync_ptr p), (sw_params p). destruct p. done.
  - intros p q r (sp & sw & -> & H1) (sp2 & sw2 & -> & H2). exists sp2, sw2.
    split; [done|]. rewrite H2. done.
Qed.

Section Frame.
Context {K : Type}.

(** The process but for the kernel's own state. *)
Definition same_process (p p' : proc K) : Prop :=
  held (wld p') = held (wld p) /\ async_list p' = async_list p /\
  sigio_ours p' = sigio_ours p /\ ptrs p' = ptrs p.

#[export] Instance same_process_preorder : PreOrder same_process.
Proof.
  split; [done|]. intros p q r (H1 & H2 & H3 & H4) (G1 & G2 & G3 & G4).
  split; [congruence|]. split; [congruence|]. split; congruence.
Qed.

(** An operation that takes and gives no resource and keeps the handle. *)
Definition quiet {A} (m : io (ps K) A) : Prop :=
  forall s, same_handle (the_pcm s) (the_pcm (m s).2) /\ same_process (prc s) (prc (m s).2).

Lemma quiet_ret {A} (a : A) : quiet (ret a).
Proof. intros s. done. Qed.

Lemma quiet_bind {A B} (m : io (ps K) A) (f : A -> io (ps K) B) :
  quiet m -> (forall a, quiet (f a)) -> quiet (bind m f).
Proof.
  intros Hm Hf s. unfold bind. destruct (Hm s) as [H1 H2]. destruct (m s) as [a s1]. simpl in *.
  destruct (Hf a s1) as [H3 H4]. split; [etrans; eauto|etrans; eauto].
Qed.

Lemma quiet_getp : quiet getp.
Proof. intros s. done. Qed.

Lemma quiet_sysk {A} (m : io K A) : quiet (sysk m).
Proof.
  intros [p [[k h] l o t]]. unfold sysk, onworld, onproc, onsys, lift. simpl.
  destruct (m k). done.
Qed.

Lemma quiet_put_sync f : quiet (setp (put_sync f)).
Proof.
  intros [p q]. split; [|done]. simpl. unfold put_sync.
  exists (match sync_ptr p with Some (a, sp) => Some (a, f sp) | None => None end), (sw_params p).
  split; [destruct p; done|]. destruct (sync_ptr p) as [[]|]; done.
Qed.

Lemma quiet_put_sw sw : quiet (setp (put_sw_params sw)).
Proof. intros [p q]. split; [|done]. exists (sync_ptr p), sw. destruct p. done. Qed.
End Frame.

#[export] Hint Resolve quiet_ret quiet_getp quiet_sysk quiet_put_sync quiet_put_sw : quiet.

(** Follow the shape of the operation. *)
Ltac quiet_tac :=
  repeat first
    [ solve [auto with quiet]
    | apply quiet_bind; [|intros ?]
    | match goal with |- quiet (match ?x with _ => _ end) => destruct x end ].

Section Quiet.
Context {K : Type} `{!Os K, !AsyncKernel K, !PcmKernel K}.

Lemma quiet_sync_ptr flags : quiet (_snd_pcm_sync_ptr (K := K) flags).
Proof. unfold _snd_pcm_sync_ptr. quiet_tac. Qed.

#[local] Hint Resolve quiet_sync_ptr : quiet.

Lemma quiet_get_status : quiet (get_status (K := K)).
Proof. unfold get_status. quiet_tac. Qed.

Lemma quiet_get_control : quiet (get_control (K := K)).
Proof. unfold get_control. quiet_tac. Qed.

Lemma quiet_set_control c : quiet (set_control (K := K) c).
Proof. unfold set_control. quiet_tac. Qed.

#[local] Hint Resolve quiet_get_status quiet_get_control quiet_set_control : quiet.

Lemma quiet_cmd c : quiet (cmd (K := K) c).
Proof. unfold cmd. quiet_tac. Qed.

#[local] Hint Resolve quiet_cmd : quiet.

Lemma quiet_simple c : quiet (simple (K := K) c).
Proof. unfold simple. quiet_tac. Qed.

#[local] Hint Resolve quiet_simple : quiet.

Lemma quiet_state : quiet (snd_pcm_state (K := K)).
Proof. unfold snd_pcm_state. quiet_tac. Qed.

Lemma quiet_avail_min v : quiet (set_avail_min (K := K) v).
Proof. unfold set_avail_min. quiet_tac. Qed.

Lemma quiet_appl_ptr v : quiet (set_appl_ptr (K := K) v).
Proof. unfold set_appl_ptr. quiet_tac. Qed.

#[local] Hint Resolve quiet_state quiet_avail_min quiet_appl_ptr : quiet.

Lemma quiet_correct_error e : quiet (correct_pcm_error (K := K) e).
Proof. unfold correct_pcm_error. quiet_tac. Qed.

#[local] Hint Resolve quiet_correct_error : quiet.

Lemma quiet_prepare : quiet (snd_pcm_prepare (K := K)).
Proof. unfold snd_pcm_prepare. quiet_tac. Qed.

Lemma quiet_start : quiet (snd_pcm_start (K := K)).
Proof. unfold snd_pcm_start. quiet_tac. Qed.

Lemma quiet_move m n : quiet (move_by (K := K) m n).
Proof. unfold move_by. quiet_tac. Qed.

Lemma quiet_transfer x b n : quiet (transfer (K := K) x b n).
Proof. unfold transfer, snd_pcm_check_error. quiet_tac. Qed.

Lemma quiet_mmap_avail : quiet (snd_pcm_mmap_avail (K := K)).
Proof.
  unfold snd_pcm_mmap_avail, snd_pcm_mmap_playback_avail, snd_pcm_mmap_capture_avail, with_ptrs.
  quiet_tac.
Qed.

#[local] Hint Resolve quiet_mmap_avail : quiet.

Lemma quiet_avail_update : quiet (snd_pcm_avail_update (K := K)).
Proof. unfold snd_pcm_avail_update. quiet_tac. Qed.

Lemma quiet_commit o n : quiet (snd_pcm_mmap_commit (K := K) o n).
Proof. unfold snd_pcm_mmap_commit. quiet_tac. Qed.

Lemma quiet_wait n t : quiet (snd_pcm_wait (K := K) n t).
Proof. induction n as [|n IH]; simpl; quiet_tac. Qed.

Lemma quiet_resume_loop n : quiet (resume_loop (K := K) n).
Proof. induction n as [|n IH]; simpl; unfold snd_pcm_resume; quiet_tac. Qed.
End Quiet.

#[export] Hint Resolve quiet_sync_ptr quiet_get_status quiet_get_control quiet_set_control
  quiet_cmd quiet_simple quiet_state quiet_avail_min quiet_appl_ptr quiet_correct_error
  quiet_prepare quiet_start quiet_move quiet_transfer quiet_mmap_avail quiet_avail_update
  quiet_commit quiet_wait quiet_resume_loop : quiet.

Section Theorems.
Context {K : Type} `{!Os K, !AsyncKernel K, !PcmKernel K}.
Implicit Types (s : ps K).

Lemma same_handle_buffer p p' :
  same_handle p p' -> buffer_size p' = buffer_size p /\ running_areas p' = running_areas p.
Proof. intros (sp & sw & -> & _). done. Qed.

Lemma mmap_avail_nonneg s : 0 <= (snd_pcm_mmap_avail s).1.
Proof.
  unfold snd_pcm_mmap_avail, snd_pcm_mmap_playback_avail, snd_pcm_mmap_capture_avail, with_ptrs,
    bind, getp, ret.
  destruct (stream _ =? STREAM_PLAYBACK); destruct (get_status s) as [st s1];
    destruct (get_control s1) as [ct s2]; simpl; unfold playback_avail, capture_avail;
    match goal with |- context [u64 ?z] => idtac end; apply u64_range.
Qed.

(** What [snd_pcm_mmap_begin] computes. *)
Lemma mmap_begin_eq s frames :
  let bs := buffer_size (the_pcm s) in
  0 < bs <= LONG_MAX ->
  let '(ct, s1) := get_control s in
  let '(avail, s2) := snd_pcm_mmap_avail s1 in
  let offset := appl_ptr ct `mod` bs in
  snd_pcm_mmap_begin frames s =
    ((0, running_areas (the_pcm s), offset, Z.min frames (Z.min avail (bs - offset))), s2).
Proof.
  intros bs Hbs. unfold LONG_MAX in Hbs. unfold snd_pcm_mmap_begin, bind, getp, ret.
  destruct (get_control s) as [ct s1]. destruct (snd_pcm_mmap_avail s1) as [av s2].
  fold bs. pose proof (Z.mod_pos_bound (appl_ptr ct) bs ltac:(lia)) as Hoff.
  rewrite u64_id by (unfold is_u64, ULONG_MAX; lia).
  do 2 f_equal. repeat case_match; zbool; lia.
Qed.

(** With a buffer, [snd_pcm_mmap_begin] offers a window inside it: the offset is
    below the buffer size, the frames do not pass the buffer's end, the frames asked
    for or the space available, and they are the most that satisfy this; the areas
    are the handle's, and neither the handle nor the process changes. *)
Theorem mmap_begin_window (s : ps K) (frames : Z) :
  let bs := buffer_size (the_pcm s) in
  0 < bs <= LONG_MAX -> is_u64 frames ->
  let '(rc, areas, offset, f, s') := snd_pcm_mmap_begin frames s in
  let avail := (snd_pcm_mmap_avail (get_control s).2).1 in
  rc = 0 /\ areas = running_areas (the_pcm s) /\ 0 <= offset < bs /\
  f = Z.min frames (Z.min avail (bs - offset)) /\ 0 <= f <= bs /\ offset + f <= bs /\
  same_handle (the_pcm s) (the_pcm s') /\ same_process (prc s) (prc s').
Proof.
  intros bs Hbs Hf. pose proof (mmap_begin_eq s frames Hbs) as He. fold bs in He.
  pose proof (quiet_get_control s) as [Hh1 Hp1]. destruct (get_control s) as [ct s1]. simpl in Hh1, Hp1 |- *.
  pose proof (quiet_mmap_avail s1) as [Hh2 Hp2]. pose proof (mmap_avail_nonneg s1) as Hav.
  destruct (snd_pcm_mmap_avail s1) as [av s2]. simpl in Hh2, Hp2, Hav |- *. rewrite He.
  pose proof (Z.mod_pos_bound (appl_ptr ct) bs ltac:(lia)) as Hoff. unfold is_u64 in Hf.
  split; [done|]. split; [done|]. split; [lia|]. split; [done|]. split; [lia|]. split; [lia|].
  split; etrans; eauto.
Qed.

(** ** Waiting *)

(** What one [poll] of the handle's descriptor answers: its result and the events. *)
Definition poll_answer (timeout : Z) : io (ps K) (Z * Z) :=
  let* pcm := getp in sysk (os_poll (fd pcm) (pollfd_events pcm) timeout).

(** The events by their bits. *)
Definition has_error (revents : Z) : Prop := Z.testbit revents 3 = true \/ Z.testbit revents 5 = true.
Definition has_data (revents : Z) : Prop := Z.testbit revents 0 = true \/ Z.testbit revents 2 = true.

(** An answer that says nothing: interrupted, or events that are none of the four. *)
Definition undecided (answer : Z * Z) : Prop :=
  let '(err, revents) := answer in
  err = - EINTR \/ 0 < err /\ ~ has_error revents /\ ~ has_data revents.

(** [rounds n m s s']: [n] rounds of [m] that decide nothing lead from [s] to [s']. *)
Fixpoint rounds {A} (again : A -> Prop) (m : io (ps K) A) (n : nat) (s s' : ps K) : Prop :=
  match n with
  | O => s' = s
  | S n => again (m s).1 /\ rounds again m n (m s).2 s'
  end.

Lemma two_bits r m i j :
  0 <= i -> 0 <= j -> m = Z.lor (2 ^ i) (2 ^ j) ->
  nz (Z.land r m) = true <-> Z.testbit r i = true \/ Z.testbit r j = true.
Proof.
  intros Hi Hj ->. rewrite nz_true. split.
  - intros H. destruct (Z.testbit r i) eqn:E1; [left; done|]. destruct (Z.testbit r j) eqn:E2; [right; done|].
    exfalso. apply H, Z.bits_inj'. intros k Hk. rewrite Z.land_spec, Z.lor_spec, Z.bits_0.
    rewrite !Z.pow2_bits_eqb by done. destruct (Z.eqb_spec i k) as [->|], (Z.eqb_spec j k) as [->|];
      rewrite ?E1, ?E2; try done. apply andb_false_r.
  - intros H He. assert (Hb : forall k, Z.testbit (Z.land r (Z.lor (2 ^ i) (2 ^ j))) k = false)
      by (intros k; rewrite He; apply Z.bits_0).
    destruct H as [H|H]; [specialize (Hb i)|specialize (Hb j)];
      rewrite Z.land_spec, Z.lor_spec, !Z.pow2_bits_eqb, H, Z.eqb_refl, ?orb_true_r in Hb by done; done.
Qed.

Lemma error_events r : nz (Z.land r (Z.lor POLLERR POLLNVAL)) = true <-> has_error r.
Proof. apply two_bits; done. Qed.

Lemma data_events r : nz (Z.land r (Z.lor POLLIN POLLOUT)) = true <-> has_data r.
Proof. apply two_bits; done. Qed.

Lemma wait_unfold fuel timeout s :
  snd_pcm_wait (S fuel) timeout s =
    (let* '(err, revents) := poll_answer timeout in
     match judge err revents with
     | Done r => ret (Some r)
     | Broken => let* r := correct_pcm_error (- EIO) in ret (Some r)
     | Again => snd_pcm_wait fuel timeout
     end) s.
Proof. done. Qed.

Lemma undecided_again fuel timeout s :
  undecided (poll_answer timeout s).1 ->
  snd_pcm_wait (S fuel) timeout s = snd_pcm_wait fuel timeout (poll_answer timeout s).2.
Proof.
  intros Hu. rewrite wait_unfold. unfold bind at 1. destruct (poll_answer timeout s) as [[err rev] s1].
  simpl in Hu |- *. unfold judge. destruct Hu as [->|(H1 & H2 & H3)]; [done|].
  destruct (Z.ltb_spec err 0); [lia|]. destruct (Z.eqb_spec err 0); [lia|].
  rewrite <- error_events in H2. rewrite <- data_events in H3.
  destruct (nz _); [destruct H2; done|]. destruct (nz _); [destruct H3; done|]. done.
Qed.

Lemma wait_skips n m timeout s s' :
  rounds undecided (poll_answer timeout) n s s' ->
  snd_pcm_wait (n + m) timeout s = snd_pcm_wait m timeout s'.
Proof.
  revert s. induction n as [|n IH]; intros s Hr; [simpl in *; congruence|].
  destruct Hr as [Hu Hr]. cbn [Nat.add]. rewrite undecided_again by done. apply IH, Hr.
Qed.

(** C37. [snd_pcm_wait] goes on polling while the answers say nothing - interrupted, or
    events other than input, output, error and invalid - and returns with the first that
    does: 0 on a time out; 1 where the descriptor is ready for input or output and has no
    error; the error of a [poll] that failed; and on an error event the error of the
    stream's state, -EPIPE, -ESTRPIPE or -ENODEV, and -EIO in any other state. *)
Theorem wait_returns (n m : nat) (timeout : Z) (s s' : ps K) :
  rounds undecided (poll_answer timeout) n s s' ->
  let '((err, revents), s2) := poll_answer timeout s' in
  let waited := snd_pcm_wait (n + S m) timeout s in
  (err = 0 -> waited = (Some 0, s2)) /\
  (0 < err -> ~ has_error revents -> has_data revents -> waited = (Some 1, s2)) /\
  (err < 0 -> err <> - EINTR -> waited = (Some err, s2)) /\
  (0 < err -> has_error revents ->
   let '(st, s3) := snd_pcm_state s2 in
   waited.2 = s3 /\
   (st = STATE_XRUN -> waited.1 = Some (- EPIPE)) /\
   (st = STATE_SUSPENDED -> waited.1 = Some (- ESTRPIPE)) /\
   (st = STATE_DISCONNECTED -> waited.1 = Some (- ENODEV)) /\
   (st <> STATE_XRUN -> st <> STATE_SUSPENDED -> st <> STATE_DISCONNECTED -> waited.1 = Some (- EIO))).
Proof.
  intros Hr. rewrite (wait_skips n (S m) timeout s s' Hr), wait_unfold. unfold bind at 1.
  destruct (poll_answer timeout s') as [[err rev] s2]. cbv zeta. unfold judge.
  split; [intros ->; done|].
  pose proof (error_events rev) as He. pose proof (data_events rev) as Hd. split; [|split].
  - intros Hpos Hne Hda. destruct (Z.ltb_spec err 0); [lia|]. destruct (Z.eqb_spec err 0); [lia|].
    destruct (nz _); [destruct Hne, He; auto|]. rewrite (proj2 Hd Hda). done.
  - intros Hneg Hne. destruct (Z.ltb_spec err 0); [|lia]. destruct (Z.eqb_spec err (- EINTR)); [done|]. done.
  - intros Hpos Her. destruct (Z.ltb_spec err 0); [lia|]. destruct (Z.eqb_spec err 0); [lia|].
    rewrite (proj2 He Her). unfold correct_pcm_error, bind, ret. destruct (snd_pcm_state s2) as [st s3].
    simpl. split; [done|]. split; [intros ->; done|]. split; [intros ->; done|]. split; [intros ->; done|].
    intros H1 H2 H3. destruct (Z.eqb_spec st STATE_XRUN), (Z.eqb_spec st STATE_SUSPENDED),
      (Z.eqb_spec st STATE_DISCONNECTED); done.
Qed.

(** ** Recovering *)

(** One [snd_pcm_resume] that is to be tried again, and the second of sleep. *)
Definition resume_once : io (ps K) Z :=
  let* err := snd_pcm_resume in
  if err =? - EAGAIN then let* _ := sysk (os_sleep 1) in ret err else ret err.

Lemma resume_loop_returns n m s s' :
  rounds (fun e => e = - EAGAIN) resume_once n s s' ->
  (resume_once s').1 <> - EAGAIN ->
  resume_loop (n + S m) s = (Some (resume_once s').1, (resume_once s').2).
Proof.
  assert (Hunf : forall k s, resume_loop (S k) s = (let* e := resume_once in
    if e =? - EAGAIN then resume_loop k else ret (Some e)) s).
  { intros k s0. simpl. unfold resume_once, bind, ret. destruct (snd_pcm_resume s0) as [e s1].
    destruct (e =? - EAGAIN) eqn:He; [destruct (sysk _ s1) as [[] s2]|]; rewrite He; done. }
  revert s. induction n as [|n IH]; intros s Hr Hd.
  - simpl in Hr. subst s'. rewrite Nat.add_0_l, Hunf. unfold bind.
    destruct (resume_once s) as [e s2]. simpl in *.
    destruct (Z.eqb_spec e (- EAGAIN)); done.
  - destruct Hr as [Ha Hr]. rewrite Nat.add_succ_l, Hunf. unfold bind at 1.
    destruct (resume_once s) as [e s2]. simpl in Ha, Hr. subst e. apply IH; done.
Qed.

(** C36. [snd_pcm_recover] returns once resuming ends, after any number of
    refusals with -EAGAIN: an interrupted call needs nothing, an underrun is
    prepared, a suspended stream is resumed and, where that fails, prepared, and
    every other error is given back, negative whatever its sign was. *)
Theorem recover_returns (n m : nat) (err : Z) (s s' : ps K) :
  rounds (fun e => e = - EAGAIN) resume_once n s s' ->
  (resume_once s').1 <> - EAGAIN ->
  snd_pcm_recover (n + S m) err s =
    if Z.abs err =? EINTR then (Some 0, s)
    else if Z.abs err =? EPIPE then (Some (snd_pcm_prepare s).1, (snd_pcm_prepare s).2)
    else if Z.abs err =? ESTRPIPE then
      if (resume_once s').1 <? 0
      then (Some (snd_pcm_prepare (resume_once s').2).1, (snd_pcm_prepare (resume_once s').2).2)
      else (Some 0, (resume_once s').2)
    else (Some (- Z.abs err), s).
Proof.
  intros Hr Hd. unfold snd_pcm_recover. pose proof (resume_loop_returns n m s s' Hr Hd) as Hl.
  assert (Habs : (if 0 <? err then - err else err) = - Z.abs err)
    by (destruct (Z.ltb_spec 0 err); lia).
  rewrite Habs. clear Habs.
  assert (Hop : forall e, (- Z.abs err =? - e) = (Z.abs err =? e)).
  { intros e. destruct (Z.eqb_spec (- Z.abs err) (- e)), (Z.eqb_spec (Z.abs err) e); lia. }
  rewrite !Hop. destruct (Z.abs err =? EINTR); [done|].
  destruct (Z.abs err =? EPIPE).
  { unfold bind, ret. destruct (snd_pcm_prepare s). done. }
  destruct (Z.abs err =? ESTRPIPE); [|done].
  unfold bind at 1. rewrite Hl. destruct ((resume_once s').1 <? 0); [|done].
  unfold bind, ret. destruct (snd_pcm_prepare _). done.
Qed.

(** ** Transfers *)

(** What the state makes of an interrupted call. *)
Definition state_error (st err : Z) : Z :=
  if st =? STATE_XRUN then - EPIPE
  else if st =? STATE_SUSPENDED then - ESTRPIPE
  else if st =? STATE_DISCONNECTED then - ENODEV else err.

(** A transfer in either direction and of either layout returns the frames the
    kernel counted, and the positions are exchanged; a failed one returns its error
    and does nothing more, except that an interrupted one reports the state: -EPIPE
    in an overrun or underrun, -ESTRPIPE when suspended, -ENODEV when disconnected. *)
Theorem transfer_result (x : xfer) (buffer size : Z) (s : ps K) :
  let '(r, n, s1) := sysk (ioctl_xfer x (fd (the_pcm s)) buffer size) s in
  transfer x buffer size s =
    if r <? 0 then
      if r =? - EINTR then (state_error (snd_pcm_state s1).1 (- EINTR), (snd_pcm_state s1).2)
      else (r, s1)
    else (n, (_snd_pcm_sync_ptr SYNC_PTR_APPL s1).2).
Proof.
  unfold transfer, bind at 1, getp at 1, bind at 1.
  destruct (sysk (ioctl_xfer x (fd (the_pcm s)) buffer size) s) as [[r n] s1].
  destruct (r <? 0).
  - unfold snd_pcm_check_error. destruct (Z.eqb_spec r (- EINTR)) as [->|]; [|done].
    unfold correct_pcm_error, bind, ret. destruct (snd_pcm_state s1). done.
  - unfold bind, ret. destruct (_snd_pcm_sync_ptr _ s1). done.
Qed.
End Theorems.

(** ** Witnesses

    On the toy kernel, whose first answers are refusals; the positions are in a
    [sync_ptr] block that the ioctl leaves as it is. *)

(** A playback of 1024 frames, 100 of them queued. *)
Definition playing : ps Z :=
  PS (put_shared PtrSync PtrSync
        (Some (2000, SyncPtr 0 (MmapStatus STATE_RUNNING 1000 (0, 0) 0 (0, 0)) (MmapControl 1100 1)))
        (put_configuration 0 0 0 2 48000 0 256 1024 16 32 (new_pcm 1 0 0 0 STREAM_PLAYBACK 0 3 4)))
    (Proc (World 0 []) [] false ∅).

Lemma mmap_begin_window_witness :
  let '(rc, areas, offset, f, s') := snd_pcm_mmap_begin 2000 playing in
  offset = 76 /\ f = 924 /\ offset + f <= 1024.
Proof.
  pose proof (mmap_begin_window playing 2000) as H. simpl in H.
  assert (H1 : 0 < 1024 <= LONG_MAX) by (unfold LONG_MAX; lia).
  assert (H2 : is_u64 2000) by by_decide.
  specialize (H H1 H2). vm_compute in H |- *. intuition.
Defined.

(** Two interrupted polls, then output; and a stream whose descriptor reports an error. *)
Definition polled (k : Z) : ps Z := PS (the_pcm playing) (Proc (World k []) [] false ∅).

Lemma wait_returns_witness : snd_pcm_wait 3 1000 playing = (Some 1, polled 3).
Proof.
  pose proof (wait_returns 2 0 1000 playing (polled 2)) as H. cbn [Nat.add] in H.
  destruct H as (_ & H & _).
  - cbn [rounds]. repeat split; left; vm_compute; reflexivity.
  - apply H; [lia| |]; vm_compute; intuition discriminate.
Defined.

Lemma recover_returns_witness : (snd_pcm_recover 3 ESTRPIPE playing).1 = Some 0.
Proof.
  rewrite (recover_returns 2 0 ESTRPIPE playing (PS (the_pcm playing) (Proc (World 2 []) [] false ∅)));
    [vm_compute; reflexivity| |discriminate].
  repeat split.
Defined.
