(* ===== verification/PcmMmap.v ===== *)
(** * Mapping a PCM's buffer and status

    src/src/pcm.c 773-942: the mapping of the channel buffers, where channels that
    share an offset share one mapping, its undoing, and the mapping of the status
    and control records with the [sync_ptr] block as the fallback.  The theorems
    show that a mapping covers every sample of its channels and that undoing gives
    back exactly what was taken, after a failure too. *)

From stdpp Require Import gmap.
From S2P Require Import Prelude CInt Sys Cards Async PcmTypes Pcm Toy PcmSpec.
#[local] Open Scope Z_scope.
#[local] Set Warnings "-clear-no-such-hyp".

Definition sizeof_channel_info : Z := 32.
Definition sizeof_area : Z := 16.
Definition sizeof_mmap_status : Z := 56.
Definition sizeof_mmap_control : Z := 16.
Definition sizeof_sync_ptr : Z := 136.
Definition MMAP_OFFSET_STATUS : Z := 2147483648.
Definition MMAP_OFFSET_CONTROL : Z := 2164260864.

Definition set_addr (a : Z) (i : channel_info) : channel_info :=
  ChannelInfo (ci_channel i) (ci_offset i) (ci_first i) (ci_step i) a.

(** [info.first + info.step * (pcm->buffer_size - 1) + pcm->sample_bits], in 64 bits. *)
Definition channel_bits (pcm : snd_pcm_t) (i : channel_info) : Z :=
  u64 (ci_first i + ci_step i * u64 (buffer_size pcm - 1) + sample_bits pcm).

(** The loops over [c1]: the largest of the channels that pass the test. *)
Definition group_bits (pcm : snd_pcm_t) (same : channel_info -> bool) (i : channel_info)
  (rest : list channel_info) : Z :=
  fold_left (fun size i1 =>
    if same i1 then (let s := channel_bits pcm i1 in if size <? s then s else size) else size)
    rest (channel_bits pcm i).

Definition same_offset (i i1 : channel_info) : bool := ci_offset i1 =? ci_offset i.
Definition same_addr (i i1 : channel_info) : bool := ci_addr i1 =? ci_addr i.

Definition area_of (i : channel_info) : snd_pcm_channel_area_t :=
  Area (ci_addr i) (ci_first i) (ci_step i).

(** The channels of [mmap_channels]; a NULL has none. *)
Definition channel_list (pcm : snd_pcm_t) : list channel_info :=
  match mmap_channels pcm with Some (_, l) => l | None => [] end.

Section Mmap.
Context {K : Type} `{!Os K, !AsyncKernel K, !PcmKernel K}.

(* [pcm.c 773-781 page_align] *)
Definition page_align (size : Z) : Z :=
  let r := size `mod` os_page_size in
  if nz r then u64 (size + os_page_size - r) else size.

(** The size in bytes of the mapping of a channel and the ones like it. *)
Definition map_size (pcm : snd_pcm_t) (same : channel_info -> bool) (i : channel_info)
  (rest : list channel_info) : Z :=
  page_align (u64 (group_bits pcm same i rest + 7) / 8).

(** The loop of [_snd_pcm_munmap]: the channels from the [c]-th on are given and
    returned; the fuel is their number. *)
(* [pcm.c 854-879 _snd_pcm_munmap] *)
Fixpoint unmap_loop (fuel : nat) (pcm : snd_pcm_t) (infos : list channel_info)
  : io (world K) (Z * list channel_info) :=
  match fuel, infos with
  | S fuel, i :: rest =>
      if negb (nz (ci_addr i)) then
        let* '(err, rest) := unmap_loop fuel pcm rest in ret (err, i :: rest)
      else
        let size := map_size pcm (same_addr i) i rest in
        let rest := map (fun i1 => if same_addr i i1 then set_addr 0 i1 else i1) rest in
        let* err := sys_munmap (ci_addr i) size in
        if err <? 0 then ret (err, i :: rest)
        else
          let* '(err, rest) := unmap_loop fuel pcm rest in
          ret (err, set_addr 0 i :: rest)
  | _, _ => ret (0, infos)
  end.

Definition free_block {A} (p : option (Z * A)) : io (world K) unit :=
  match p with Some (a, _) => sys_free a | None => ret tt end.

(** The loop runs over the channels of the configuration. *)
(* [pcm.c 846-885 _snd_pcm_munmap] *)
Definition _snd_pcm_munmap : io (ps K) Z :=
  let* pcm := getp in
  match mmap_channels pcm with
  | None => ret 0
  | Some (block, infos) =>
      let n := Z.to_nat (channels pcm) in
      let* '(err, shown) := onworld (unmap_loop n pcm (take n infos)) in
      let infos := shown ++ drop n infos in
      let* _ := setp (put_mmap_channels (Some (block, infos))) in
      if err <? 0 then ret err
      else
        let* _ := onworld (sys_free block) in
        let* _ := onworld (free_block (running_areas pcm)) in
        let* _ := setp (put_mmap_channels None) in
        let* _ := setp (put_running_areas None) in
        ret 0
  end.

(** The kernel describes each channel in turn; [addr] is the library's. *)
(* [pcm.c 799-804 _snd_pcm_mmap] *)
Fixpoint info_loop (pcm : snd_pcm_t) (c : Z) (infos : list channel_info)
  : io (world K) (Z * list channel_info) :=
  match infos with
  | [] => ret (0, [])
  | i :: rest =>
      let i := ChannelInfo c (ci_offset i) (ci_first i) (ci_step i) (ci_addr i) in
      let* '(r, i') := lift (ioctl_channel_info (fd pcm) i) in
      let i' := set_addr (ci_addr i) i' in
      if r <? 0 then ret (r, i' :: rest)
      else let* '(err, rest) := info_loop pcm (c + 1) rest in ret (err, i' :: rest)
  end.

(** The mapping loop: the channels and areas from the [c]-th on. *)
(* [pcm.c 805-842 _snd_pcm_mmap] *)
Fixpoint map_loop (fuel : nat) (pcm : snd_pcm_t) (infos : list channel_info)
  (areas : list snd_pcm_channel_area_t)
  : io (world K) (Z * list channel_info * list snd_pcm_channel_area_t) :=
  match fuel, infos, areas with
  | S fuel, i :: rest, a :: areas =>
      if nz (ci_addr i) then
        let* '(err, rest, areas) := map_loop fuel pcm rest areas in
        ret (err, i :: rest, area_of i :: areas)
      else
        let size := map_size pcm (same_offset i) i rest in
        let* ptr := sys_mmap size (fd pcm) (ci_offset i) in
        if ptr <? 0 then ret (ptr, i :: rest, a :: areas)
        else
          let i := set_addr ptr i in
          let rest := map (fun i1 => if same_offset i i1 then set_addr ptr i1 else i1) rest in
          let* '(err, rest, areas) := map_loop fuel pcm rest areas in
          ret (err, i :: rest, area_of i :: areas)
  | _, _, _ => ret (0, infos, areas)
  end.

Definition zero_channel : channel_info := ChannelInfo 0 0 0 0 0.
Definition zero_area : snd_pcm_channel_area_t := Area 0 0 0.

(* [pcm.c 783-844 _snd_pcm_mmap] *)
Definition _snd_pcm_mmap : io (ps K) Z :=
  let* _ := _snd_pcm_munmap in
  let* pcm := getp in
  let n := Z.to_nat (channels pcm) in
  let* block := onworld (sys_alloc (channels pcm * sizeof_channel_info)) in
  match block with
  | None => let* _ := setp (put_mmap_channels None) in ret (- ENOMEM)
  | Some block =>
      let* ablock := onworld (sys_alloc (channels pcm * sizeof_area)) in
      match ablock with
      | None =>
          let* _ := onworld (sys_free block) in
          let* _ := setp (put_mmap_channels None) in
          let* _ := setp (put_running_areas None) in
          ret (- ENOMEM)
      | Some ablock =>
          let* '(err, infos) := onworld (info_loop pcm 0 (replicate n zero_channel)) in
          if err <? 0 then
            let* _ := setp (put_mmap_channels (Some (block, infos))) in
            let* _ := setp (put_running_areas (Some (ablock, replicate n zero_area))) in
            ret err
          else
            let* '(err, infos, areas) := onworld (map_loop n pcm infos (replicate n zero_area)) in
            let* _ := setp (put_mmap_channels (Some (block, infos))) in
            let* _ := setp (put_running_areas (Some (ablock, areas))) in
            ret err
      end
  end.

(** ** Status and control *)

(** The two mappings; a negative second result is neither. *)
(* [pcm.c 892-914 snd_pcm_hw_mmap_status] *)
Definition map_records (fd : Z) : io (world K) (Z * Z) :=
  let* st := sys_mmap (page_align sizeof_mmap_status) fd MMAP_OFFSET_STATUS in
  let* ct :=
    if st <? 0 then ret (-1)
    else
      let* ct := sys_mmap (page_align sizeof_mmap_control) fd MMAP_OFFSET_CONTROL in
      if ct <? 0 then
        let* _ := sys_munmap st (page_align sizeof_mmap_status) in ret ct
      else ret ct in
  ret (st, ct).

(* [pcm.c 887-924 snd_pcm_hw_mmap_status] *)
Definition snd_pcm_hw_mmap_status : io (ps K) Z :=
  let* pcm := getp in
  match sync_ptr pcm with
  | Some _ => ret 0
  | None =>
      let* '(st, ct) := onworld (map_records (fd pcm)) in
      if ct <? 0 then
        let* _ := setp (put_shared PtrNull PtrNull None) in
        let* block := onworld (sys_alloc sizeof_sync_ptr) in
        match block with
        | None => ret (- ENOMEM)
        | Some a =>
            let* _ := setp (put_shared PtrSync PtrSync (Some (a, zero_sync_ptr))) in
            let* _ := set_avail_min 1 in
            let* _ := _snd_pcm_sync_ptr 0 in
            ret 0
        end
      else
        let* _ := setp (put_shared (PtrMap st) (PtrMap ct) None) in
        let* _ := set_avail_min 1 in
        ret 0
  end.

(** Unmapping a NULL record has no effect. *)
(* [pcm.c 926-939 snd_pcm_hw_munmap_status] *)
Definition snd_pcm_hw_munmap_status : io (ps K) unit :=
  let* pcm := getp in
  let* _ :=
    match sync_ptr pcm with
    | Some (a, _) => onworld (sys_free a)
    | None =>
        let* _ := match mmap_status pcm with
                  | PtrMap st => onworld (sys_munmap st (page_align sizeof_mmap_status))
                  | _ => ret 0
                  end in
        let* _ := match mmap_control pcm with
                  | PtrMap ct => onworld (sys_munmap ct (page_align sizeof_mmap_control))
                  | _ => ret 0
                  end in
        ret tt
    end in
  setp (put_shared PtrNull PtrNull None).
End Mmap.

(** ** The mappings an array of channels stands for *)

Section Owned.
Context {K : Type} `{!Os K}.

(** The most bits of the selected channels. *)
Definition max_bits (pcm : snd_pcm_t) (sel : channel_info -> bool) (infos : list channel_info) : Z :=
  foldr (fun i m => if sel i then Z.max (channel_bits pcm i) m else m) 0 infos.

(** The addresses in use, and the size of the mapping at one. *)
Definition addrs (infos : list channel_info) : gset Z :=
  list_to_set (base.filter (fun a => a <> 0) (ci_addr <$> infos)).

Definition size_at (pcm : snd_pcm_t) (infos : list channel_info) (a : Z) : Z :=
  page_align (K := K) (u64 (max_bits pcm (fun i => ci_addr i =? a) infos + 7) / 8).

Definition owned (pcm : snd_pcm_t) (infos : list channel_info) : list resource :=
  (fun a => RMap a (size_at pcm infos a)) <$> elements (addrs infos).

Lemma channel_bits_nonneg pcm i : 0 <= channel_bits pcm i.
Proof. apply u64_range. Qed.

Lemma max_bits_nonneg pcm sel infos : 0 <= max_bits pcm sel infos.
Proof. induction infos as [|i l IH]; simpl; [done|]. case_match; lia. Qed.

Lemma max_bits_in pcm sel infos i :
  i ∈ infos -> sel i = true -> channel_bits pcm i <= max_bits pcm sel infos.
Proof.
  induction infos as [|j l IH]; simpl; [intros []%elem_of_nil|].
  intros [->|Hin]%elem_of_cons Hs; [rewrite Hs; lia|]. specialize (IH Hin Hs). case_match; lia.
Qed.

(** Two arrays that select the same channels. *)
Lemma max_bits_ext pcm sel sel' l l' :
  Forall2 (fun i i' => sel i = sel' i' /\ channel_bits pcm i = channel_bits pcm i') l l' ->
  max_bits pcm sel l = max_bits pcm sel' l'.
Proof. induction 1 as [|i i' l l' [Hs Hb] _ IH]; simpl; [done|]. rewrite Hs, Hb, IH. done. Qed.

Lemma group_bits_max pcm same i rest :
  group_bits pcm same i rest = Z.max (channel_bits pcm i) (max_bits pcm same rest).
Proof.
  unfold group_bits. pose proof (channel_bits_nonneg pcm i) as Hm. revert Hm.
  generalize (channel_bits pcm i). induction rest as [|j rest IH]; intros m Hm; simpl; [lia|].
  pose proof (channel_bits_nonneg pcm j). destruct (same j); [|auto].
  rewrite IH by (case_match; lia). case_match; zbool; lia.
Qed.

Lemma elem_of_addrs infos a : a ∈ addrs infos <-> a <> 0 /\ exists i, i ∈ infos /\ ci_addr i = a.
Proof.
  unfold addrs. rewrite elem_of_list_to_set, list_elem_of_filter, list_elem_of_fmap.
  split; intros [? (i & ? & ?)]; split; eauto.
Qed.

Lemma addrs_cons i infos :
  addrs (i :: infos) = (if decide (ci_addr i = 0) then ∅ else {[ci_addr i]}) ∪ addrs infos.
Proof.
  unfold addrs. rewrite fmap_cons, filter_cons. case_decide; case_decide; try done; set_solver.
Qed.

Lemma size_at_skip pcm i infos a : ci_addr i <> a -> size_at pcm (i :: infos) a = size_at pcm infos a.
Proof.
  intros Hne. unfold size_at. simpl. destruct (Z.eqb_spec (ci_addr i) a); done.
Qed.

Lemma owned_skip pcm i infos : ci_addr i = 0 -> owned pcm (i :: infos) = owned pcm infos.
Proof.
  intros Hz. unfold owned. rewrite addrs_cons, decide_True, (left_id_L ∅ (∪)) by done.
  apply list_fmap_ext. intros k a Ha. rewrite size_at_skip; [done|].
  apply list_elem_of_lookup_2, elem_of_elements, elem_of_addrs in Ha. destruct Ha. lia.
Qed.

(** Clearing an address. *)
Definition clear_addr (a : Z) (infos : list channel_info) : list channel_info :=
  map (fun i1 => if ci_addr i1 =? a then set_addr 0 i1 else i1) infos.

Lemma addrs_clear a infos : addrs (clear_addr a infos) = addrs infos ∖ {[a]}.
Proof.
  induction infos as [|i l IH]; [set_solver|]. simpl. rewrite !addrs_cons, IH.
  destruct (Z.eqb_spec (ci_addr i) a) as [->|Hne]; simpl.
  - case_decide; set_solver.
  - case_decide; set_solver.
Qed.

Lemma size_at_clear pcm a b infos : b <> a -> b <> 0 -> size_at pcm (clear_addr a infos) b = size_at pcm infos b.
Proof.
  intros Hne Hb. unfold size_at. do 4 f_equal. apply max_bits_ext.
  induction infos as [|i l IH]; simpl; constructor; [|exact IH].
  destruct (Z.eqb_spec (ci_addr i) a) as [He|]; [|done]. simpl. rewrite He. split; [|done].
  rewrite (proj2 (Z.eqb_neq a b)) by congruence. destruct b; done.
Qed.

Lemma owned_used pcm i infos :
  ci_addr i <> 0 ->
  owned pcm (i :: infos) ≡ₚ
    RMap (ci_addr i) (map_size (K := K) pcm (same_addr i) i infos) :: owned pcm (clear_addr (ci_addr i) infos).
Proof.
  intros Hnz. unfold owned. rewrite addrs_cons, decide_False, addrs_clear by done.
  assert (Hs : {[ci_addr i]} ∪ addrs infos = {[ci_addr i]} ∪ addrs infos ∖ {[ci_addr i]}).
  { apply set_eq. intros x. destruct (decide (x = ci_addr i)); set_solver. }
  rewrite Hs, elements_union_singleton by set_solver. simpl. f_equiv.
  - do 2 f_equal. unfold size_at, map_size. rewrite group_bits_max. simpl.
    rewrite Z.eqb_refl. done.
  - apply Permutation_refl'. apply list_fmap_ext. intros k a Ha.
    apply list_elem_of_lookup_2, elem_of_elements in Ha.
    apply elem_of_difference in Ha as [Ha Hne]. apply elem_of_addrs in Ha as [Ha _].
    rewrite size_at_clear, size_at_skip; set_solver.
Qed.
End Owned.

(** ** The two loops *)

Section Loops.
Context {K : Type} `{!Os K, !AsyncKernel K, !PcmKernel K, !OsLaws K}.

Lemma munmap_spec a size (w : world K) h :
  held w ≡ₚ RMap a size :: h ->
  let '(r, w') := sys_munmap a size w in 0 <= r /\ held w' ≡ₚ h.
Proof.
  intros Hh. unfold sys_munmap, bind, lift. pose proof (munmap_law a size (ker w)) as Hl.
  destruct (os_munmap a size (ker w)) as [r k]. simpl in Hl. rewrite (proj2 (Z.ltb_ge r 0)) by lia.
  simpl. split; [done|]. rewrite Hh, release_head. done.
Qed.

(** The loop of [_snd_pcm_munmap] undoes the mappings of its channels. *)
Lemma unmap_loop_spec n pcm infos (w : world K) h :
  (length infos <= n)%nat -> held w ≡ₚ owned (K := K) pcm infos ++ h ->
  let '(r, infos', w') := unmap_loop n pcm infos w in
  r = 0 /\ held w' ≡ₚ h /\ length infos' = length infos.
Proof.
  revert infos w. induction n as [|n IH]; intros infos w Hn Hh.
  { destruct infos; [|simpl in Hn; lia]. simpl. done. }
  destruct infos as [|i rest]; [done|]. simpl in Hn. simpl unmap_loop.
  destruct (nz (ci_addr i)) eqn:Hz; simpl.
  - apply nz_true in Hz. rewrite owned_used in Hh by done. unfold bind at 1.
    pose proof (munmap_spec _ _ w _ Hh) as Hm.
    destruct (sys_munmap _ _ w) as [r w1]. destruct Hm as [Hr Hh1].
    rewrite (proj2 (Z.ltb_ge r 0)) by lia. unfold bind at 1. fold (clear_addr (ci_addr i) rest).
    change (map _ rest) with (clear_addr (ci_addr i) rest).
    pose proof (IH (clear_addr (ci_addr i) rest) w1) as IH'.
    destruct (unmap_loop n pcm _ w1) as [[r2 rest2] w2]. simpl.
    unfold clear_addr in IH'. rewrite length_map in IH'. destruct IH' as (-> & ? & ->); [lia|done|done].
  - apply nz_false in Hz. rewrite owned_skip in Hh by done. unfold bind.
    pose proof (IH rest w) as IH'. destruct (unmap_loop n pcm rest w) as [[r2 rest2] w2]. simpl.
    destruct IH' as (-> & ? & ->); [lia|done|done].
Qed.

(** Channels have the same address just where they have the same offset, as far as
    they have one. *)
Definition coherent (infos : list channel_info) : Prop :=
  forall i j, i ∈ infos -> j ∈ infos ->
    (ci_offset i = ci_offset j -> ci_addr i = ci_addr j) /\
    (ci_addr i = ci_addr j -> ci_addr i <> 0 -> ci_offset i = ci_offset j).

Definition all_taken (k : K) (infos : list channel_info) : Prop :=
  forall a, a ∈ addrs infos -> taken k a.

(** What the loop may do to a channel: give it an address. *)
Definition grown (k : K) (i i' : channel_info) : Prop :=
  ci_offset i' = ci_offset i /\ ci_first i' = ci_first i /\ ci_step i' = ci_step i /\
  (ci_addr i' = ci_addr i \/ (ci_addr i = 0 /\ ~ taken k (ci_addr i'))).

Lemma grown_bits k pcm i i' : grown k i i' -> channel_bits pcm i = channel_bits pcm i'.
Proof. intros (_ & Hf & Hs & _). unfold channel_bits. rewrite Hf, Hs. done. Qed.

(** The address a fresh mapping gives to the channels of an offset. *)
Definition give (o ptr : Z) (infos : list channel_info) : list channel_info :=
  map (fun i1 => if ci_offset i1 =? o then set_addr ptr i1 else i1) infos.

Lemma coherent_tail i infos : coherent (i :: infos) -> coherent infos.
Proof. intros H a b Ha Hb. apply H; right; done. Qed.

Lemma elem_of_give o ptr infos j :
  j ∈ give o ptr infos ->
  exists i, i ∈ infos /\ ci_offset j = ci_offset i /\
    ci_addr j = (if ci_offset i =? o then ptr else ci_addr i).
Proof.
  intros (i & -> & Hi)%list_elem_of_fmap. exists i. split; [done|]. case_match; done.
Qed.

Lemma coherent_give o ptr infos :
  coherent infos -> ptr <> 0 -> ptr ∉ addrs infos -> coherent (give o ptr infos).
Proof.
  intros Hc Hp Hfresh a b Ha Hb.
  apply elem_of_give in Ha as (i & Hi & Ho & Had). apply elem_of_give in Hb as (j & Hj & Ho' & Had').
  rewrite Ho, Ho', Had, Had'. clear Had Had'. specialize (Hc i j Hi Hj) as [H1 H2]. split.
  - intros He. rewrite He. case_match; [done|]. apply H1. done.
  - destruct (Z.eqb_spec (ci_offset i) o), (Z.eqb_spec (ci_offset j) o); intros He Hnz;
      [congruence| | |auto].
    + exfalso. apply Hfresh, elem_of_addrs. split; [done|].
      exists j. split; [done|congruence].
    + exfalso. apply Hfresh, elem_of_addrs. split; [done|].
      exists i. split; [done|congruence].
Qed.

Lemma addrs_give o ptr infos :
  ptr <> 0 -> (forall i, i ∈ infos -> ci_offset i = o -> ci_addr i = 0) ->
  addrs (give o ptr infos) ⊆ {[ptr]} ∪ addrs infos /\ addrs infos ⊆ addrs (give o ptr infos).
Proof.
  intros Hp Hz. split; intros a [Ha (j & Hj & Hja)]%elem_of_addrs.
  - apply elem_of_give in Hj as (i & Hi & _ & Had). rewrite Had in Hja.
    case_match; [set_solver|]. apply elem_of_union_r, elem_of_addrs. eauto.
  - apply elem_of_addrs. split; [done|]. exists j. split; [|done].
    apply list_elem_of_fmap. exists j. split; [|done].
    case_match; [|done]. zbool. exfalso. apply Ha. rewrite <- Hja. auto.
Qed.

Lemma give_grown k o ptr infos :
  ~ taken k ptr -> (forall i, i ∈ infos -> ci_offset i = o -> ci_addr i = 0) ->
  Forall2 (grown k) infos (give o ptr infos).
Proof.
  intros Hfr Hz. induction infos as [|i l IH]; simpl; constructor.
  - case_match; [|by repeat split; auto]. zbool. repeat split; auto. right. simpl.
    split; [apply Hz; [left|done]|done].
  - apply IH. intros j Hj. apply Hz. right. done.
Qed.

Lemma grown_trans k k' l l1 l2 :
  (forall a, taken k a -> taken k' a) ->
  Forall2 (grown k) l l1 -> Forall2 (grown k') l1 l2 -> Forall2 (grown k) l l2.
Proof.
  intros Hmono H1. revert l2. induction H1 as [|i i1 l l1 (Ho & Hf & Hs & Ha) _ IH];
    intros l2 H2; inversion H2 as [|? i2 ? ? (Ho2 & Hf2 & Hs2 & Ha2) H2']; simplify_eq; constructor; auto.
  repeat split; try congruence.
  destruct Ha as [Ha|[Hz Ha]], Ha2 as [Ha2|[Hz2 Ha2]].
  - left. congruence.
  - right. split; [congruence|]. auto.
  - right. split; [done|]. congruence.
  - right. split; [done|]. auto.
Qed.

Lemma addrs_grown k l l' a :
  Forall2 (grown k) l l' -> a ∈ addrs l' -> a ∉ addrs l -> ~ taken k a.
Proof.
  intros HF [Ha (j & Hj & Hja)]%elem_of_addrs Hn.
  apply list_elem_of_lookup in Hj as (n & Hj).
  destruct (Forall2_lookup_r _ _ _ _ _ HF Hj) as (i & Hi & (_ & _ & _ & Hg)).
  destruct Hg as [He|[_ Hg]]; [|congruence].
  exfalso. apply Hn, elem_of_addrs. split; [done|]. exists i.
  split; [eapply list_elem_of_lookup_2; eauto|congruence].
Qed.

Lemma addrs_grown_mono k l l' : Forall2 (grown k) l l' -> addrs l ⊆ addrs l'.
Proof.
  intros HF a [Ha (i & Hi & Hia)]%elem_of_addrs. apply list_elem_of_lookup in Hi as (n & Hi).
  destruct (Forall2_lookup_l _ _ _ _ _ HF Hi) as (j & Hj & (_ & _ & _ & Hg)).
  apply elem_of_addrs. split; [done|]. exists j.
  split; [eapply list_elem_of_lookup_2; eauto|]. destruct Hg as [Hg|[Hz _]]; congruence.
Qed.

(** The mappings made since [old]. *)
Definition new_maps (pcm : snd_pcm_t) (old infos : list channel_info) : list resource :=
  (fun a => RMap a (size_at (K := K) pcm infos a)) <$> elements (addrs infos ∖ addrs old).

Lemma new_maps_same pcm infos : new_maps pcm infos infos = [].
Proof. unfold new_maps. rewrite difference_diag_L, elements_empty. done. Qed.

(** A channel that had its address already adds nothing. *)
Lemma new_maps_skip k pcm i old infos :
  ci_addr i <> 0 -> taken k (ci_addr i) -> Forall2 (grown k) old infos ->
  new_maps pcm (i :: old) (i :: infos) = new_maps pcm old infos.
Proof.
  intros Hnz Ht HF. unfold new_maps. rewrite !addrs_cons, decide_False by done.
  assert (Hd : forall a, a ∈ addrs infos -> a ∉ addrs old -> a <> ci_addr i).
  { intros a H1 H2 ->. exact (addrs_grown _ _ _ _ HF H1 H2 Ht). }
  assert (Hs : ({[ci_addr i]} ∪ addrs infos) ∖ ({[ci_addr i]} ∪ addrs old) = addrs infos ∖ addrs old).
  { apply set_eq. intros x. specialize (Hd x). set_solver. }
  rewrite Hs. apply list_fmap_ext. intros n a Ha.
  apply list_elem_of_lookup_2, elem_of_elements, elem_of_difference in Ha as [H1 H2].
  rewrite size_at_skip; [done|]. intros He. apply (Hd a H1 H2). done.
Qed.

(** The size computed when a group is mapped is the size its address shows later. *)
Lemma group_size k pcm ptr i rest rest' :
  taken k ptr -> ptr <> 0 -> ptr ∉ addrs rest ->
  Forall2 (grown k) (give (ci_offset i) ptr rest) rest' ->
  size_at (K := K) pcm (set_addr ptr i :: rest') ptr = map_size (K := K) pcm (same_offset i) i rest.
Proof.
  intros Ht Hp Hfr HF. unfold size_at, map_size. do 4 f_equal. rewrite group_bits_max. simpl.
  rewrite Z.eqb_refl. f_equal. symmetry. apply max_bits_ext.
  apply Forall2_map_l in HF. apply Forall2_same_length_lookup.
  split; [eapply Forall2_length; eauto|]. intros n j j' Hj Hj'.
  pose proof (Forall2_lookup_lr _ _ _ _ _ _ HF Hj Hj') as Hg. simpl in Hg.
  assert (Hjn : ci_addr j <> ptr).
  { intros He. apply Hfr, elem_of_addrs. split; [done|]. exists j.
    split; [eapply list_elem_of_lookup_2; eauto|done]. }
  unfold same_offset. pose proof (grown_bits k pcm _ _ Hg) as Hb.
  destruct Hg as (_ & _ & _ & Ha). destruct (Z.eqb_spec (ci_offset j) (ci_offset i)) as [He|Hne].
  - split; [|exact Hb]. simpl in Ha. destruct Ha as [Ha|[Hz _]]; [|congruence].
    rewrite Ha, Z.eqb_refl. done.
  - split; [|exact Hb]. symmetry. apply Z.eqb_neq.
    destruct Ha as [->|[_ Ha]]; [done|]. intros He. rewrite He in Ha. done.
Qed.

(** A fresh mapping for a channel and the ones of its offset, and what the rest of
    the loop maps. *)
Lemma new_maps_mapped k k1 pcm ptr i rest rest' :
  ~ taken k ptr -> taken k1 ptr -> ptr <> 0 -> ci_addr i = 0 -> all_taken k rest ->
  (forall j, j ∈ rest -> ci_offset j = ci_offset i -> ci_addr j = 0) ->
  Forall2 (grown k1) (give (ci_offset i) ptr rest) rest' ->
  new_maps pcm (i :: rest) (set_addr ptr i :: rest') ≡ₚ
    RMap ptr (map_size (K := K) pcm (same_offset i) i rest) ::
      new_maps pcm (give (ci_offset i) ptr rest) rest'.
Proof.
  intros Hfr Ht Hp Hz Hall Hoff HF.
  assert (Hn : ptr ∉ addrs rest) by (intros Hin; apply Hfr, Hall, Hin).
  destruct (addrs_give (ci_offset i) ptr rest Hp Hoff) as [Hsub Hsup].
  pose proof (addrs_grown_mono _ _ _ HF) as Hmono.
  assert (Hnew : forall a, a ∈ addrs rest' -> a ∉ addrs (give (ci_offset i) ptr rest) -> a <> ptr).
  { intros a H1 H2 ->. exact (addrs_grown _ _ _ _ HF H1 H2 Ht). }
  unfold new_maps. rewrite !addrs_cons. simpl ci_addr. rewrite Hz, decide_False, decide_True by done.
  rewrite (left_id_L ∅ (∪)).
  assert (Hs : ({[ptr]} ∪ addrs rest') ∖ addrs rest =
    {[ptr]} ∪ addrs rest' ∖ ({[ptr]} ∪ addrs (give (ci_offset i) ptr rest))).
  { apply set_eq. intros x. destruct (decide (x = ptr)) as [->|]; [set_solver|].
    pose proof (proj1 (elem_of_subseteq _ _) Hsub x). pose proof (proj1 (elem_of_subseteq _ _) Hsup x).
    pose proof (proj1 (elem_of_subseteq _ _) Hmono x). set_solver. }
  assert (Hs2 : addrs rest' ∖ ({[ptr]} ∪ addrs (give (ci_offset i) ptr rest)) =
    addrs rest' ∖ addrs (give (ci_offset i) ptr rest)).
  { apply set_eq. intros x. specialize (Hnew x). set_solver. }
  rewrite Hs, Hs2, elements_union_singleton by (rewrite <- Hs2; set_solver). simpl.
  rewrite (group_size k1 pcm ptr i rest rest') by done. f_equiv. apply Permutation_refl', list_fmap_ext.
  intros n a Ha. apply list_elem_of_lookup_2, elem_of_elements, elem_of_difference in Ha as [H1 H2].
  rewrite size_at_skip; [done|]. simpl. intros He. apply (Hnew a H1 H2). done.
Qed.

Lemma grown_refl k l : Forall2 (grown k) l l.
Proof. induction l; constructor; [|done]. repeat split; auto. Qed.

(** What was taken still is, and so is the new address. *)
Lemma taken_give k k1 off ptr rest :
  ptr <> 0 -> (forall j, j ∈ rest -> ci_offset j = off -> ci_addr j = 0) ->
  (forall a, taken k a -> taken k1 a) -> taken k1 ptr -> all_taken k rest -> all_taken k1 (give off ptr rest).
Proof using Type*.
  intros Hp Hoff Hmono Htk Htr x Hx. apply (addrs_give _ ptr rest Hp Hoff) in Hx.
  apply elem_of_union in Hx as [->%elem_of_singleton|Hx]; [done|]. apply Hmono, Htr, Hx.
Qed.

(** The mapping loop, where it succeeds and where it fails. *)
Lemma map_loop_spec n pcm infos areas (w : world K) :
  length infos = n -> length areas = n -> coherent infos -> all_taken (ker w) infos ->
  let '(err, infos', areas', w') := map_loop n pcm infos areas w in
  err <= 0 /\ Forall2 (grown (ker w)) infos infos' /\ length areas' = n /\
  held w' ≡ₚ new_maps pcm infos infos' ++ held w /\
  (err = 0 -> areas' = area_of <$> infos' /\ forall i, i ∈ infos' -> ci_addr i <> 0).
Proof.
  pose proof grown_refl as Hrefl. revert infos areas w. induction n as [|n IH]; intros infos areas w Hn Ha Hc Ht.
  { destruct infos, areas; try done. simpl. rewrite new_maps_same.
    split; [lia|]. split; [done|]. split; [done|]. split; [done|]. intros _. split; [done|].
    intros i Hi. inversion Hi. }
  destruct infos as [|i rest], areas as [|a areas]; try done.
  simpl in Hn, Ha. injection Hn as Hn. injection Ha as Ha. simpl map_loop.
  destruct (nz (ci_addr i)) eqn:Hz.
  - apply nz_true in Hz. unfold bind.
    assert (Ht' : all_taken (ker w) rest)
      by (intros x Hx; apply Ht; rewrite addrs_cons; apply elem_of_union_r; done).
    pose proof (IH rest areas w Hn Ha (coherent_tail _ _ Hc) Ht') as H.
    destruct (map_loop n pcm rest areas w) as [[[err rest'] areas'] w']. simpl.
    destruct H as (He & HF & Hl & Hh & Hok).
    assert (Hti : taken (ker w) (ci_addr i)).
    { apply Ht, elem_of_addrs. split; [done|]. exists i. split; [left|done]. }
    split; [done|]. split; [constructor; [repeat split; auto|done]|]. split; [congruence|].
    rewrite (new_maps_skip (ker w)) by done. split; [done|]. intros He0.
    destruct (Hok He0) as [-> Hall]. split; [done|]. intros j [->|Hj]%elem_of_cons; auto.
  - apply nz_false in Hz. unfold bind at 1, sys_mmap, bind at 1, lift.
    destruct (os_mmap _ (fd pcm) (ci_offset i) (ker w)) as [ptr k1] eqn:Hm.
    destruct (mmap_law _ _ _ _ _ _ Hm) as [Hmono Hptr].
    destruct (ptr <? 0) eqn:Hneg; zbool; simpl.
    + rewrite (proj2 (Z.ltb_lt ptr 0)) by done. simpl. rewrite new_maps_same.
      repeat split; try done; try lia; simpl; congruence.
    + destruct (Hptr Hneg) as (Hp & Hfr & Htk). rewrite (proj2 (Z.ltb_ge ptr 0)) by done.
      unfold bind. change (map _ rest) with (give (ci_offset i) ptr rest).
      set (w1 := World k1 _).
      assert (Hoff : forall j, j ∈ rest -> ci_offset j = ci_offset i -> ci_addr j = 0).
      { intros j Hj Ho. rewrite <- Hz. apply (Hc j i); [right; done|left|done]. }
      assert (Htr : all_taken (ker w) rest).
      { intros x Hx. apply Ht. rewrite addrs_cons. apply elem_of_union_r. done. }
      assert (Hfa : ptr ∉ addrs rest) by (intros Hin; apply Hfr, Htr, Hin).
      assert (Hlen : length (give (ci_offset i) ptr rest) = n)
        by (unfold give; rewrite length_map; done).
      assert (Hta : all_taken (ker w1) (give (ci_offset i) ptr rest)) by (apply (taken_give (ker w)); done).
      pose proof (IH _ areas w1 Hlen Ha (coherent_give _ _ _ (coherent_tail _ _ Hc) Hp Hfa) Hta) as H.
      destruct (map_loop n pcm _ areas w1) as [[[err rest'] areas'] w'].
      destruct H as (He & HF & Hl & Hh & Hok). simpl in HF, Hh.
      split; [done|]. split.
      { constructor; [repeat split; auto; right; done|].
        apply (grown_trans _ k1 _ (give (ci_offset i) ptr rest)); [done| |done].
        apply give_grown; done. }
      split; [simpl; congruence|]. split.
      { rewrite (new_maps_mapped (ker w) k1) by done. rewrite Hh.
        symmetry. apply Permutation_middle. }
      intros He0. destruct (Hok He0) as [-> Hall]. split; [done|].
      intros j [->|Hj]%elem_of_cons; auto.
Qed.
End Loops.

(** ** Mapping and unmapping a handle *)

Section Handle.
Context {K : Type} `{!Os K, !AsyncKernel K, !PcmKernel K, !OsLaws K}.

(** What a handle holds for its channels. *)
Definition channel_resources (pcm : snd_pcm_t) : list resource :=
  (match mmap_channels pcm with
   | Some (b, infos) => RMem b :: owned (K := K) pcm infos
   | None => []
   end) ++
  (match running_areas pcm with Some (b, _) => [RMem b] | None => [] end).

Definition map_inv (pcm : snd_pcm_t) : Prop :=
  match mmap_channels pcm, running_areas pcm with
  | None, None => True
  | Some (_, infos), Some _ => length infos = Z.to_nat (channels pcm)
  | _, _ => False
  end.

(** The rest of the process: all but the kernel's state and the ledger. *)
Definition same_lists (p p' : proc K) : Prop :=
  async_list p' = async_list p /\ sigio_ours p' = sigio_ours p /\ ptrs p' = ptrs p.

#[export] Instance same_lists_preorder : PreOrder same_lists.
Proof.
  split; [done|]. intros p q r (H1 & H2 & H3) (G1 & G2 & G3).
  split; [congruence|]. split; congruence.
Qed.

Definition led (s : ps K) : list resource := held (wld (prc s)).

(** [onworld] changes the world only. *)
Lemma onworld_eq {A} (m : io (world K) A) (s : ps K) :
  onworld m s = let '(a, w) := m (wld (prc s)) in
    (a, PS (the_pcm s) (Proc w (async_list (prc s)) (sigio_ours (prc s)) (ptrs (prc s)))).
Proof. unfold onworld, onproc, onsys. destruct (m _). done. Qed.

Definition unmapped (pcm : snd_pcm_t) : snd_pcm_t :=
  put_running_areas None (put_mmap_channels None pcm).

Lemma handle_munmap_spec (s : ps K) h :
  map_inv (the_pcm s) -> led s ≡ₚ channel_resources (the_pcm s) ++ h ->
  let '(r, s') := _snd_pcm_munmap s in
  r = 0 /\ the_pcm s' = unmapped (the_pcm s) /\ led s' ≡ₚ h /\ same_lists (prc s) (prc s').
Proof.
  unfold map_inv, channel_resources, led. intros Hinv Hh.
  unfold _snd_pcm_munmap, bind at 1, getp.
  destruct (mmap_channels (the_pcm s)) as [[b infos]|] eqn:Hmc.
  2:{ destruct (running_areas (the_pcm s)) eqn:Hra; [done|]. simpl in *. split; [done|].
      split; [|done]. unfold unmapped. destruct s as [[] ?]. simpl in *. subst. done. }
  destruct (running_areas (the_pcm s)) as [[ab areas]|] eqn:Hra; [|done].
  unfold bind. rewrite onworld_eq, firstn_all2 by lia.
  pose proof (unmap_loop_spec (Z.to_nat (channels (the_pcm s))) (the_pcm s) infos (wld (prc s))
    (RMem b :: RMem ab :: h)) as Hu.
  destruct (unmap_loop _ _ infos _) as [[r infos'] w1]. destruct Hu as (-> & Hh1 & _); [lia| |].
  { rewrite Hh. simpl. rewrite <- app_assoc. simpl. solve_Permutation. }
  simpl. unfold setp, free_block, sys_free, drop_resource, ret. simpl.
  split; [done|]. split; [done|]. split; [|done].
  rewrite Hh1, release_head, release_head. done.
Qed.

Lemma info_loop_spec pcm c infos (w : world K) :
  (forall i, i ∈ infos -> ci_addr i = 0) ->
  let '(err, infos', w') := info_loop pcm c infos w in
  err <= 0 /\ held w' = held w /\ length infos' = length infos /\
  (forall i, i ∈ infos' -> ci_addr i = 0).
Proof.
  revert c w. induction infos as [|i rest IH]; intros c w Hz; simpl; [done|].
  unfold bind at 1, lift. destruct (ioctl_channel_info _ _ (ker w)) as [[r i'] k].
  assert (Hi : ci_addr i = 0) by (apply Hz; left).
  destruct (r <? 0) eqn:Hr; zbool; simpl.
  - split; [lia|]. split; [done|]. split; [done|].
    intros j [->|Hj]%elem_of_cons; [done|]. apply Hz. right. done.
  - unfold bind. pose proof (IH (c + 1) (World k (held w))) as H.
    destruct (info_loop pcm (c + 1) rest _) as [[err rest'] w']. simpl.
    destruct H as (He & Hh & Hl & Hr'); [intros j Hj; apply Hz; right; done|].
    split; [done|]. split; [done|]. split; [congruence|].
    intros j [->|Hj]%elem_of_cons; auto.
Qed.

Lemma addrs_zero infos : (forall i, i ∈ infos -> ci_addr i = 0) -> addrs infos = ∅.
Proof.
  intros Hz. apply set_eq. intros a. rewrite elem_of_addrs. split; [|set_solver].
  intros [Ha (i & Hi & He)]. rewrite Hz in He by done. congruence.
Qed.

Lemma owned_zero pcm infos : (forall i, i ∈ infos -> ci_addr i = 0) -> owned (K := K) pcm infos = [].
Proof. intros Hz. unfold owned. rewrite addrs_zero, elements_empty by done. done. Qed.

Lemma new_maps_zero pcm old infos :
  (forall i, i ∈ old -> ci_addr i = 0) -> new_maps pcm old infos = owned (K := K) pcm infos.
Proof. intros Hz. unfold new_maps. rewrite (addrs_zero old), difference_empty_L by done. done. Qed.

(** What [_snd_pcm_mmap] leaves: nothing, or two arrays and the mappings made. *)
Definition mapped_state (pcm : snd_pcm_t) (r : Z) (mc : option (Z * list channel_info))
  (ra : option (Z * list snd_pcm_channel_area_t)) : Prop :=
  match mc, ra with
  | Some (_, infos), Some (_, areas) =>
      length infos = Z.to_nat (channels pcm) /\
      (r = 0 -> areas = area_of <$> infos /\ forall i, i ∈ infos -> ci_addr i <> 0)
  | None, None => r < 0
  | _, _ => False
  end.

Definition with_maps (mc : option (Z * list channel_info))
  (ra : option (Z * list snd_pcm_channel_area_t)) (pcm : snd_pcm_t) : snd_pcm_t :=
  put_running_areas ra (put_mmap_channels mc pcm).

(** The part of [_snd_pcm_mmap] after both arrays are there. *)
Lemma fill_spec pcm n b ab (w : world K) h :
  n = Z.to_nat (channels pcm) -> held w ≡ₚ RMem ab :: RMem b :: h ->
  let '(err, infos, w1) := info_loop pcm 0 (replicate n zero_channel) w in
  let '(err', infos', areas', w2) :=
    if err <? 0 then (err, infos, replicate n zero_area, w1)
    else map_loop n pcm infos (replicate n zero_area) w1 in
  err' <= 0 /\ mapped_state pcm err' (Some (b, infos')) (Some (ab, areas')) /\
  held w2 ≡ₚ channel_resources (with_maps (Some (b, infos')) (Some (ab, areas')) pcm) ++ h.
Proof.
  intros -> Hh. set (n := Z.to_nat (channels pcm)).
  pose proof (info_loop_spec pcm 0 (replicate n zero_channel) w) as Hi.
  destruct (info_loop pcm 0 _ w) as [[err infos] w1]. rewrite length_replicate in Hi.
  destruct Hi as (He & Hh1 & Hl & Hz).
  { intros i Hi. apply elem_of_replicate in Hi as [-> _]. done. }
  unfold channel_resources, mapped_state. simpl.
  destruct (err <? 0) eqn:Herr; zbool.
  - split; [done|]. split; [split; [done|lia]|].
    change (owned (with_maps (Some (b, infos)) (Some (ab, replicate n zero_area)) pcm) infos) with
      (owned (K := K) pcm infos).
    rewrite owned_zero by done. rewrite Hh1, Hh. simpl. solve_Permutation.
  - pose proof (map_loop_spec n pcm infos (replicate n zero_area) w1 Hl (length_replicate _ _)) as Hm.
    destruct (map_loop n pcm infos _ w1) as [[[err' infos'] areas'] w2]. destruct Hm as (He' & HF & _ & Hh2 & Hok).
    + intros i j Hi Hj. rewrite !Hz by done. split; [done|]. intros _ []. done.
    + intros a Ha. rewrite addrs_zero in Ha by done. set_solver.
    + split; [done|]. split.
      * split; [|done]. rewrite <- (Forall2_length _ _ _ HF). done.
      * change (owned (with_maps (Some (b, infos')) (Some (ab, areas')) pcm) infos') with
          (owned (K := K) pcm infos').
        rewrite Hh2, new_maps_zero, Hh1, Hh by done. simpl. solve_Permutation.
Qed.

Lemma handle_mmap_spec (s : ps K) h :
  map_inv (the_pcm s) -> led s ≡ₚ channel_resources (the_pcm s) ++ h ->
  let '(r, s') := _snd_pcm_mmap s in
  exists mc ra, the_pcm s' = with_maps mc ra (the_pcm s) /\ r <= 0 /\
    mapped_state (the_pcm s) r mc ra /\ led s' ≡ₚ channel_resources (the_pcm s') ++ h /\
    same_lists (prc s) (prc s').
Proof.
  intros Hinv Hh. unfold _snd_pcm_mmap, bind at 1.
  pose proof (handle_munmap_spec s h Hinv Hh) as Hm.
  destruct (_snd_pcm_munmap s) as [r0 s1]. destruct Hm as (_ & Hp1 & Hh1 & Hl1).
  unfold bind at 1, getp. unfold bind at 1. rewrite onworld_eq.
  pose proof (alloc_spec (channels (the_pcm s1) * sizeof_channel_info) (wld (prc s1))) as Ha.
  destruct (sys_alloc _ (wld (prc s1))) as [[b|] w1].
  2:{ simpl. exists None, None. rewrite Hp1. split; [done|]. split; [unfold ENOMEM; lia|].
      split; [unfold mapped_state, ENOMEM; lia|].
      split; [|done]. unfold led. simpl. rewrite Ha. exact Hh1. }
  unfold bind at 1. rewrite onworld_eq. simpl.
  pose proof (alloc_spec (channels (the_pcm s1) * sizeof_area) w1) as Ha2.
  destruct (sys_alloc _ w1) as [[ab|] w2].
  2:{ unfold bind. rewrite onworld_eq. unfold sys_free, drop_resource, setp, ret. simpl.
      exists None, None. rewrite Hp1. split; [done|]. split; [unfold ENOMEM; lia|].
      split; [unfold mapped_state, ENOMEM; lia|]. split; [|done].
      unfold led. simpl. rewrite Ha2, Ha, release_head. exact Hh1. }
  pose proof (fill_spec (the_pcm s1) (Z.to_nat (channels (the_pcm s1))) b ab w2 h eq_refl) as Hf.
  unfold bind at 1. rewrite onworld_eq. simpl.
  destruct (info_loop _ 0 _ w2) as [[err infos] w3].
  destruct (err <? 0).
  - unfold bind, setp, ret. simpl. exists (Some (b, infos)), (Some (ab, replicate (Z.to_nat (channels (the_pcm s1))) zero_area)).
    destruct Hf as (He & Hs & Hh3); [rewrite Ha2, Ha; unfold led in Hh1; rewrite Hh1; done|].
    rewrite Hp1. split; [done|]. split; [done|]. split; [rewrite Hp1 in Hs; exact Hs|].
    split; [|done]. unfold led. simpl. rewrite Hh3, Hp1. done.
  - unfold bind. rewrite onworld_eq. simpl.
    destruct (map_loop _ _ infos _ w3) as [[[err' infos'] areas'] w4].
    unfold setp, ret. simpl. exists (Some (b, infos')), (Some (ab, areas')).
    destruct Hf as (He & Hs & Hh3); [rewrite Ha2, Ha; unfold led in Hh1; rewrite Hh1; done|].
    rewrite Hp1. split; [done|]. split; [done|]. split; [rewrite Hp1 in Hs; exact Hs|].
    split; [|done]. unfold led. simpl. rewrite Hh3, Hp1. done.
Qed.
End Handle.

(** ** Theorems *)

Section Theorems.
Context {K : Type} `{!Os K, !AsyncKernel K, !PcmKernel K, !OsLaws K}.

Lemma page_align_ge size :
  0 <= size <= UINT_MAX -> size <= page_align (K := K) size <= size + INT_MAX.
Proof.
  unfold UINT_MAX, INT_MAX. intros Hs. unfold page_align.
  assert (Hp : 0 < os_page_size (K := K) <= 2147483647) by apply page_size_pos.
  revert Hp. generalize (os_page_size (K := K)). intros p Hp.
  pose proof (Z.mod_pos_bound size p) as Hm.
  destruct (nz _); [|lia]. rewrite u64_id by (unfold is_u64, ULONG_MAX; lia). lia.
Qed.

(** A channel whose samples all lie below 2^32 bits. *)
Definition sane_channel (pcm : snd_pcm_t) (i : channel_info) : Prop :=
  0 <= ci_first i /\ 0 <= ci_step i /\ 0 <= sample_bits pcm /\
  ci_first i + ci_step i * (buffer_size pcm - 1) + sample_bits pcm <= UINT_MAX.

#[export] Instance sane_channel_dec pcm i : Decision (sane_channel pcm i).
Proof. unfold sane_channel. apply _. Defined.

Lemma sane_bits pcm i :
  0 < buffer_size pcm <= LONG_MAX -> sane_channel pcm i ->
  channel_bits pcm i = ci_first i + ci_step i * (buffer_size pcm - 1) + sample_bits pcm.
Proof.
  unfold LONG_MAX, UINT_MAX, channel_bits. intros Hb (H1 & H2 & H3 & H4). unfold UINT_MAX in H4.
  rewrite (u64_id (buffer_size pcm - 1)) by (unfold is_u64, ULONG_MAX; lia).
  apply u64_id. unfold is_u64, ULONG_MAX.
  assert (0 <= ci_step i * (buffer_size pcm - 1)) by (apply Z.mul_nonneg_nonneg; lia). lia.
Qed.

Lemma max_bits_bound pcm sel infos m :
  0 <= m -> (forall i, i ∈ infos -> channel_bits pcm i <= m) -> max_bits pcm sel infos <= m.
Proof.
  intros Hm. induction infos as [|i l IH]; intros Hb; simpl; [done|].
  assert (channel_bits pcm i <= m) by (apply Hb; left).
  assert (max_bits pcm sel l <= m) by (apply IH; intros j Hj; apply Hb; right; done).
  case_match; lia.
Qed.

Lemma size_covers pcm infos i :
  i ∈ infos -> 0 < buffer_size pcm <= LONG_MAX -> Forall (sane_channel pcm) infos ->
  channel_bits pcm i <= 8 * size_at (K := K) pcm infos (ci_addr i).
Proof.
  intros Hi Hb Hs. unfold size_at. set (sel := fun j => ci_addr j =? ci_addr i).
  assert (Hle : channel_bits pcm i <= max_bits pcm sel infos)
    by (apply max_bits_in; [done|apply Z.eqb_refl]).
  assert (Hmax : max_bits pcm sel infos <= UINT_MAX).
  { apply max_bits_bound; [unfold UINT_MAX; lia|]. intros j Hj.
    rewrite sane_bits; [|done|eapply Forall_forall; eauto].
    rewrite Forall_forall in Hs. destruct (Hs j Hj) as (_ & _ & _ & ?). done. }
  pose proof (max_bits_nonneg pcm sel infos). unfold UINT_MAX in *.
  rewrite (u64_id (_ + 7)) by (unfold is_u64, ULONG_MAX; lia).
  set (m := max_bits pcm sel infos) in *.
  assert (H8 : m <= 8 * ((m + 7) / 8)).
  { pose proof (Z.div_mod (m + 7) 8). pose proof (Z.mod_pos_bound (m + 7) 8). lia. }
  assert ((m + 7) / 8 <= m + 7) by (apply Z.div_le_upper_bound; lia).
  pose proof (page_align_ge ((m + 7) / 8)) as Hp.
  assert (0 <= (m + 7) / 8) by (apply Z.div_pos; lia). unfold UINT_MAX in Hp.
  assert ((m + 7) / 8 <= 4294967295) by (apply Z.div_le_upper_bound; lia). lia.
Qed.

(** C12. After [_snd_pcm_mmap] succeeds, every channel has an area on a mapping the
    process holds, and, where the channels' samples lie below 2^32 bits, each of its
    samples lies inside the mapping: the address [snd_pcm_channel_area_addr] computes
    for a frame of the buffer is in it, with all the sample's bits. *)
Theorem mmap_covers (s : ps K) (h : list resource) (c : nat) (f : Z) :
  map_inv (the_pcm s) -> led s ≡ₚ channel_resources (the_pcm s) ++ h ->
  let '(r, s') := _snd_pcm_mmap s in
  let pcm := the_pcm s' in
  r = 0 -> (c < Z.to_nat (channels pcm))%nat -> 0 <= f < buffer_size pcm ->
  buffer_size pcm <= LONG_MAX ->
  Forall (sane_channel pcm) (channel_list pcm) ->
  exists areas b a size,
    running_areas pcm = Some (b, areas) /\ areas !! c = Some a /\
    RMap (area_addr a) size ∈ led s' /\
    snd_pcm_channel_area_addr a f = area_addr a + (area_first a + area_step a * f) / 8 /\
    area_addr a <= snd_pcm_channel_area_addr a f /\
    area_first a + area_step a * f + sample_bits pcm <= 8 * size.
Proof.
  intros Hinv Hh. pose proof (handle_mmap_spec s h Hinv Hh) as Hm.
  destruct (_snd_pcm_mmap s) as [r s']. destruct Hm as (mc & ra & Hp & _ & Hs & Hl & _).
  simpl. intros Hr Hc Hf Hb Hsane. rewrite Hp in Hl, Hc, Hf, Hb, Hsane |- *. simpl in Hc, Hf, Hb.
  unfold mapped_state in Hs. destruct mc as [[b infos]|], ra as [[ab areas]|]; try (done || lia).
  destruct Hs as [Hlen Hok]. destruct (Hok Hr) as [-> Hnz].
  unfold channel_list in Hsane. simpl in Hsane. rewrite <- Hlen in Hc.
  destruct (lookup_lt_is_Some_2 infos c Hc) as [i Hi].
  pose proof (list_elem_of_lookup_2 _ _ _ Hi) as Hin.
  set (pcm := with_maps _ _ _) in *.
  pose proof (size_covers pcm infos i Hin ltac:(simpl; lia) Hsane) as Hcov.
  rewrite Forall_forall in Hsane. destruct (Hsane i Hin) as (H1 & H2 & H3 & H4). simpl in H3, H4.
  rewrite sane_bits in Hcov by (simpl; lia || auto). simpl in Hcov.
  assert (Hstep : ci_step i * f <= ci_step i * (buffer_size (the_pcm s) - 1)) by nia.
  unfold UINT_MAX in H4.
  assert (Haddr : snd_pcm_channel_area_addr (area_of i) f = ci_addr i + (ci_first i + ci_step i * f) / 8).
  { unfold snd_pcm_channel_area_addr. simpl. rewrite u32_id; [done|]. unfold is_u32, UINT_MAX. nia. }
  exists (area_of <$> infos), ab, (area_of i), (size_at (K := K) pcm infos (ci_addr i)).
  split; [done|]. split; [rewrite list_lookup_fmap, Hi; done|]. split.
  { rewrite Hl. apply elem_of_app. left. unfold channel_resources. simpl. right.
    apply elem_of_app. left. apply list_elem_of_fmap. exists (ci_addr i). split; [done|].
    apply elem_of_elements, elem_of_addrs. eauto. }
  split; [exact Haddr|]. rewrite Haddr. simpl. split; [|lia].
  assert (0 <= (ci_first i + ci_step i * f) / 8) by (apply Z.div_pos; nia). lia.
Qed.

(** Unmapping undoes mapping: after [_snd_pcm_mmap], whether it succeeded, ran
    out of memory or failed on the way, [_snd_pcm_munmap] succeeds, leaves no arrays
    in the handle and gives back every mapping and block, and nothing else. *)
Theorem mmap_munmap_balanced (s : ps K) (h : list resource) :
  map_inv (the_pcm s) -> led s ≡ₚ channel_resources (the_pcm s) ++ h ->
  let '(r, s2) := _snd_pcm_munmap (_snd_pcm_mmap s).2 in
  r = 0 /\ the_pcm s2 = unmapped (the_pcm s) /\ led s2 ≡ₚ h.
Proof.
  intros Hinv Hh. pose proof (handle_mmap_spec s h Hinv Hh) as Hm.
  destruct (_snd_pcm_mmap s) as [r s1]. destruct Hm as (mc & ra & Hp & _ & Hs & Hl & _). simpl.
  assert (Hinv1 : map_inv (the_pcm s1)).
  { rewrite Hp. unfold map_inv, mapped_state in *. simpl.
    destruct mc as [[]|], ra as [[]|]; try done. destruct Hs as [Hs _]. exact Hs. }
  pose proof (handle_munmap_spec s1 h Hinv1 Hl) as Hu.
  destruct (_snd_pcm_munmap s1) as [r2 s2]. destruct Hu as (-> & Hp2 & Hl2 & _).
  split; [done|]. split; [|done]. rewrite Hp2, Hp. done.
Qed.
End Theorems.

(** ** Witnesses *)

(** A configured handle, nothing mapped. *)
Definition configured : ps Z :=
  PS (put_configuration 0 0 0 2 48000 0 256 1024 16 32 (new_pcm 1 0 0 0 STREAM_PLAYBACK 0 3 4))
    (Proc (World 5 [RFd 3]) [] false ∅).

Lemma mmap_covers_witness :
  exists areas b a size,
    running_areas (the_pcm (_snd_pcm_mmap configured).2) = Some (b, areas) /\
    areas !! 1%nat = Some a /\ RMap (area_addr a) size ∈ led (_snd_pcm_mmap configured).2 /\
    area_first a + area_step a * 1023 + 16 <= 8 * size.
Proof.
  pose proof (mmap_covers configured [RFd 3] 1 1023) as H.
  assert (Hs : _snd_pcm_mmap configured = (0, (_snd_pcm_mmap configured).2)) by (vm_compute; reflexivity).
  rewrite Hs in H.
  destruct H as (areas & b & a & size & H1 & H2 & H3 & _ & _ & H6);
    [exact I|reflexivity|reflexivity|vm_compute; lia|split; vm_compute; congruence
    |vm_compute; congruence| |].
  - by_decide.
  - exists areas, b, a, size. split; [exact H1|]. split; [exact H2|]. split; [exact H3|].
    change (sample_bits _) with 16 in H6. exact H6.
Defined.

Lemma mmap_munmap_balanced_witness :
  led (_snd_pcm_munmap (_snd_pcm_mmap configured).2).2 ≡ₚ [RFd 3].
Proof.
  pose proof (mmap_munmap_balanced configured [RFd 3] I ltac:(reflexivity)) as H.
  destruct (_snd_pcm_munmap (_snd_pcm_mmap configured).2) as [r s2]. exact (proj2 (proj2 H)).
Defined.
