(* ===== verification/HwParams.v ===== *)
(** * Hardware parameters

    The parameter functions of src/src/pcm_params.c that the accessors of
    src/src/pcm_macros.h are made of.  A structure passed by pointer is given and
    returned; a pointer that may be NULL is an option.  The only use of the PCM
    handle is its descriptor, for the ioctl HW_REFINE. *)

From S2P Require Import Prelude CInt Sys Mask Interval PcmTypes.
#[local] Open Scope Z_scope.

(** ** The parameter a number names *)

(* [pcm_params.c 365-369 hw_is_mask] *)
Definition hw_is_mask (var : Z) : bool :=
  (HW_PARAM_FIRST_MASK <=? var) && (var <=? HW_PARAM_LAST_MASK).

(* [pcm_params.c 371-375 hw_is_interval] *)
Definition hw_is_interval (var : Z) : bool :=
  (HW_PARAM_FIRST_INTERVAL <=? var) && (var <=? HW_PARAM_LAST_INTERVAL).

(** The pointer functions become a read and a write. *)
(* [pcm_params.c 377-382 hw_param_mask] *)
Definition hw_param_mask (params : snd_pcm_hw_params_t) (var : Z) : snd_mask_t :=
  nthz _snd_mask_none (masks params) (var - HW_PARAM_FIRST_MASK).

(* [pcm_params.c 384-389 hw_param_interval] *)
Definition hw_param_interval (params : snd_pcm_hw_params_t) (var : Z) : snd_interval_t :=
  nthz zero_interval (intervals params) (var - HW_PARAM_FIRST_INTERVAL).

(* [pcm_params.c 391-396 hw_param_mask_c] *)
Definition hw_param_mask_c := hw_param_mask.
(* [pcm_params.c 398-403 hw_param_interval_c] *)
Definition hw_param_interval_c := hw_param_interval.

Definition put_mask (params : snd_pcm_hw_params_t) (var : Z) (m : snd_mask_t) : snd_pcm_hw_params_t :=
  let '(HwParams fl ms is_ rm cm inf mb rn rd ff) := params in
  HwParams fl (upd (var - HW_PARAM_FIRST_MASK) (fun _ => m) ms) is_ rm cm inf mb rn rd ff.

Definition put_interval (params : snd_pcm_hw_params_t) (var : Z) (i : snd_interval_t)
  : snd_pcm_hw_params_t :=
  let '(HwParams fl ms is_ rm cm inf mb rn rd ff) := params in
  HwParams fl ms (upd (var - HW_PARAM_FIRST_INTERVAL) (fun _ => i) is_) rm cm inf mb rn rd ff.

Definition set_rmask (v : Z) (params : snd_pcm_hw_params_t) : snd_pcm_hw_params_t :=
  let '(HwParams fl ms is_ _ cm inf mb rn rd ff) := params in
  HwParams fl ms is_ v cm inf mb rn rd ff.

Definition set_cmask (v : Z) (params : snd_pcm_hw_params_t) : snd_pcm_hw_params_t :=
  let '(HwParams fl ms is_ rm _ inf mb rn rd ff) := params in
  HwParams fl ms is_ rm v inf mb rn rd ff.

Definition set_hp_info (v : Z) (params : snd_pcm_hw_params_t) : snd_pcm_hw_params_t :=
  let '(HwParams fl ms is_ rm cm _ mb rn rd ff) := params in
  HwParams fl ms is_ rm cm v mb rn rd ff.

Definition set_hp_flags (v : Z) (params : snd_pcm_hw_params_t) : snd_pcm_hw_params_t :=
  let '(HwParams _ ms is_ rm cm inf mb rn rd ff) := params in
  HwParams v ms is_ rm cm inf mb rn rd ff.

(** [params->cmask |= 1 << var; params->rmask |= 1 << var;] *)
Definition mark_changed (params : snd_pcm_hw_params_t) (var : Z) : snd_pcm_hw_params_t :=
  let bit := u32 (Z.shiftl 1 var) in
  set_rmask (Z.lor (rmask params) bit) (set_cmask (Z.lor (cmask params) bit) params).

(* [pcm_params.c 407-416 _snd_pcm_hw_param_any] *)
Definition _snd_pcm_hw_param_any (params : snd_pcm_hw_params_t) (var : Z) : snd_pcm_hw_params_t :=
  let params :=
    if hw_is_mask var then put_mask params var _snd_mask_any
    else put_interval params var interval_set_any in
  mark_changed params var.

(* [pcm_params.c 418-425 snd_pcm_hw_param_empty] *)
Definition snd_pcm_hw_param_empty (params : snd_pcm_hw_params_t) (var : Z) : bool :=
  if hw_is_mask var then _snd_mask_empty (hw_param_mask_c params var)
  else interval_is_empty (hw_param_interval_c params var).

(* [pcm_params.c 427-441 _snd_pcm_hw_params_any] *)
Definition _snd_pcm_hw_params_any : snd_pcm_hw_params_t :=
  let params := zero_hw_params in
  let params := fold_left _snd_pcm_hw_param_any
    (zseq HW_PARAM_FIRST_MASK (Z.to_nat (HW_PARAM_LAST_MASK - HW_PARAM_FIRST_MASK + 1))) params in
  let params := fold_left _snd_pcm_hw_param_any
    (zseq HW_PARAM_FIRST_INTERVAL
      (Z.to_nat (HW_PARAM_LAST_INTERVAL - HW_PARAM_FIRST_INTERVAL + 1))) params in
  set_hp_flags HW_PARAMS_NORESAMPLE (set_hp_info UINT_MAX (set_cmask 0 (set_rmask UINT_MAX params))).

(** ** Reading a parameter *)

(** Store through a pointer that may be NULL. *)
Definition store (p : option Z) (v : Z) : option Z :=
  match p with None => None | Some _ => Some v end.

(* [pcm_params.c 449-472 _snd_pcm_hw_param_get] *)
Definition _snd_pcm_hw_param_get (params : snd_pcm_hw_params_t) (var : Z) (val dir : option Z)
  : Z * option Z * option Z :=
  if hw_is_mask var then
    let mask := hw_param_mask_c params var in
    if _snd_mask_empty mask || negb (mask_is_single mask) then (- EINVAL, val, dir)
    else (0, store val (mask_get_min mask), store dir 0)
  else if hw_is_interval var then
    let i := hw_param_interval_c params var in
    if interval_is_empty i || negb (interval_is_single i) then (- EINVAL, val, dir)
    else (0, store val (imin i), store dir (b2z (openmin i)))
  else (- EINVAL, val, dir).

(* [pcm_params.c 474-493 _snd_pcm_hw_param_get_min] *)
Definition _snd_pcm_hw_param_get_min (params : snd_pcm_hw_params_t) (var : Z) (val dir : option Z)
  : Z * option Z * option Z :=
  if hw_is_mask var then
    (0, store val (mask_get_min (hw_param_mask_c params var)), store dir 0)
  else if hw_is_interval var then
    let i := hw_param_interval_c params var in
    (0, store val (imin i), store dir (b2z (openmin i)))
  else (0, val, dir).

(* [pcm_params.c 495-514 _snd_pcm_hw_param_get_max] *)
Definition _snd_pcm_hw_param_get_max (params : snd_pcm_hw_params_t) (var : Z) (val dir : option Z)
  : Z * option Z * option Z :=
  if hw_is_mask var then
    (0, store val (mask_get_max (hw_param_mask_c params var)), store dir 0)
  else if hw_is_interval var then
    let i := hw_param_interval_c params var in
    (0, store val (imax i), store dir (- b2z (openmax i)))
  else (0, val, dir).

(** ** Narrowing one parameter *)

(** Run a refinement of the mask or the interval in place. *)
Definition on_mask (params : snd_pcm_hw_params_t) (var : Z) (f : snd_mask_t -> Z * snd_mask_t)
  : Z * snd_pcm_hw_params_t :=
  let '(rc, m) := f (hw_param_mask params var) in (rc, put_mask params var m).

Definition on_interval (params : snd_pcm_hw_params_t) (var : Z)
  (f : snd_interval_t -> Z * snd_interval_t) : Z * snd_pcm_hw_params_t :=
  let '(rc, i) := f (hw_param_interval params var) in (rc, put_interval params var i).

(* [pcm_params.c 516-533 hw_param_set_min] *)
Definition hw_param_set_min (params : snd_pcm_hw_params_t) (var val dir : Z)
  : Z * snd_pcm_hw_params_t :=
  if hw_is_mask var then on_mask params var (fun m => snd_mask_refine_min m val)
  else
    let '(openmin_, val) :=
      if 0 <? dir then (true, val)
      else if (dir <? 0) && (0 <? val) then (true, u32 (val - 1))
      else (false, val) in
    on_interval params var (fun i => snd_interval_refine_min i val openmin_ false).

(* [pcm_params.c 569-585 hw_param_set_max] *)
Definition hw_param_set_max (params : snd_pcm_hw_params_t) (var val dir : Z)
  : Z * snd_pcm_hw_params_t :=
  if hw_is_mask var then on_mask params var (fun m => snd_mask_refine_max m val)
  else
    let '(openmax_, val) :=
      if nz dir then (true, if 0 <? dir then u32 (val + 1) else val) else (false, val) in
    on_interval params var (fun i => snd_interval_refine_max i val openmax_ false).

(* [pcm_params.c 602-615 hw_param_set_minmax] *)
Definition hw_param_set_minmax (params : snd_pcm_hw_params_t) (var min mindir max maxdir : Z)
  : Z * snd_pcm_hw_params_t :=
  let '(c1, params) := hw_param_set_min params var min mindir in
  if c1 <? 0 then (c1, params)
  else
    let '(c2, params) := hw_param_set_max params var max maxdir in
    if c2 <? 0 then (c2, params) else (b2z (nz c1 || nz c2), params).

(* [pcm_params.c 640-678 hw_param_set] *)
Definition hw_param_set (params : snd_pcm_hw_params_t) (var val dir : Z)
  : Z * snd_pcm_hw_params_t :=
  if hw_is_mask var then
    if (val =? 0) && (dir <? 0) then (- EINVAL, put_mask params var _snd_mask_none)
    else
      let val := if 0 <? dir then u32 (val + 1) else if dir <? 0 then u32 (val - 1) else val in
      on_mask params var (fun m => snd_mask_refine_set m val)
  else
    if (val =? 0) && (dir <? 0)
    then (- EINVAL, put_interval params var (set_empty true (hw_param_interval params var)))
    else if dir =? 0 then on_interval params var (fun i => snd_interval_refine_set i val)
    else
      let t := if dir <? 0 then Interval (u32 (val - 1)) val true true false false
               else Interval val (u32 (val + 1)) true true false false in
      on_interval params var (fun i => snd_interval_refine i t).

(* [pcm_params.c 732-738 hw_param_set_first] *)
Definition hw_param_set_first (params : snd_pcm_hw_params_t) (var : Z) : Z * snd_pcm_hw_params_t :=
  if hw_is_mask var then on_mask params var snd_mask_refine_first
  else on_interval params var snd_interval_refine_first.

(* [pcm_params.c 740-746 hw_param_set_last] *)
Definition hw_param_set_last (params : snd_pcm_hw_params_t) (var : Z) : Z * snd_pcm_hw_params_t :=
  if hw_is_mask var then on_mask params var snd_mask_refine_last
  else on_interval params var snd_interval_refine_last.

(** ** Distances between boundaries, for [set_near] *)

Definition sign (z : Z) : Z := if z <? 0 then -1 else if 0 <? z then 1 else 0.

(* [pcm_params.c 770-781 boundary_sub] *)
Definition boundary_sub (a adir b bdir : Z) : Z * Z :=
  let adir := sign adir in
  let bdir := sign bdir in
  let a := s32 (a - b) in
  let cdir := adir - bdir in
  (if cdir =? -2 then s32 (a - 1) else if cdir =? 2 then s32 (a + 1) else a, cdir).

(* [pcm_params.c 783-796 boundary_lt] *)
Definition boundary_lt (a adir b bdir : Z) : bool :=
  let '(a, adir) :=
    if adir <? 0 then (u32 (a - 1), 1) else if 0 <? adir then (a, 1) else (a, adir) in
  let '(b, bdir) :=
    if bdir <? 0 then (u32 (b - 1), 1) else if 0 <? bdir then (b, 1) else (b, bdir) in
  (a <? b) || ((a =? b) && (adir <? bdir)).

(** The operands pass through [int] parameters, the distances through the
    [unsigned] ones of [boundary_lt]. *)
(* [pcm_params.c 799-807 boundary_nearer] *)
Definition boundary_nearer (min mindir best bestdir max maxdir : Z) : bool :=
  let '(dmin, dmindir) := boundary_sub (s32 best) bestdir (s32 min) mindir in
  let '(dmax, dmaxdir) := boundary_sub (s32 max) maxdir (s32 best) bestdir in
  boundary_lt (u32 dmin) dmindir (u32 dmax) dmaxdir.

(** ** The operations: narrow one parameter, then let the driver refine the rest *)

Section Driver.
Context {K : Type} `{!PcmKernel K}.

(* [pcm_macros.h 406-411 snd_pcm_hw_refine] *)
Definition snd_pcm_hw_refine (pcm : snd_pcm_t) (params : snd_pcm_hw_params_t)
  : io K (Z * snd_pcm_hw_params_t) :=
  let* '(rc, params) := ioctl_hw_refine (fd pcm) params in
  ret (if rc <? 0 then (rc, params) else (0, params)).

(* [pcm_params.c 443-447 snd_pcm_hw_params_any] *)
Definition snd_pcm_hw_params_any (pcm : snd_pcm_t) : io K (Z * snd_pcm_hw_params_t) :=
  snd_pcm_hw_refine pcm _snd_pcm_hw_params_any.

(* [pcm_params.c 535-552 hw_param_update_var] *)
Definition hw_param_update_var (pcm : snd_pcm_t) (params : snd_pcm_hw_params_t) (var changed : Z)
  : io K (Z * snd_pcm_hw_params_t) :=
  if changed <? 0 then ret (changed, params)
  else
    let params := if nz changed then mark_changed params var else params in
    if nz (rmask params) then
      let* '(changed, params) := snd_pcm_hw_refine pcm params in
      ret (if changed <? 0 then (changed, params)
           else if snd_pcm_hw_param_empty params var then (- ENOENT, params)
           else (0, params))
    else ret (0, params).

(** [dir ? *dir : 0] *)
Definition deref (dir : option Z) : Z := default 0 dir.

(* [pcm_params.c 554-567 _snd_pcm_hw_param_set_min] *)
Definition _snd_pcm_hw_param_set_min (pcm : snd_pcm_t) (params : snd_pcm_hw_params_t) (var : Z)
  (val : Z) (dir : option Z) : io K (Z * snd_pcm_hw_params_t * Z * option Z) :=
  let save := params in
  let '(err, params) := hw_param_set_min params var val (deref dir) in
  let* '(err, params) := hw_param_update_var pcm params var err in
  ret (if err =? 0 then
         let '(err, val', dir) := _snd_pcm_hw_param_get_min params var (Some val) dir in
         (err, params, default val val', dir)
       else (err, save, val, dir)).

(* [pcm_params.c 587-600 _snd_pcm_hw_param_set_max] *)
Definition _snd_pcm_hw_param_set_max (pcm : snd_pcm_t) (params : snd_pcm_hw_params_t) (var : Z)
  (val : Z) (dir : option Z) : io K (Z * snd_pcm_hw_params_t * Z * option Z) :=
  let save := params in
  let '(err, params) := hw_param_set_max params var val (deref dir) in
  let* '(err, params) := hw_param_update_var pcm params var err in
  ret (if err =? 0 then
         let '(err, val', dir) := _snd_pcm_hw_param_get_max params var (Some val) dir in
         (err, params, default val val', dir)
       else (err, save, val, dir)).

(* [pcm_params.c 617-638 _snd_pcm_hw_param_set_minmax] *)
Definition _snd_pcm_hw_param_set_minmax (pcm : snd_pcm_t) (params : snd_pcm_hw_params_t) (var : Z)
  (min : Z) (mindir : option Z) (max : Z) (maxdir : option Z)
  : io K (Z * snd_pcm_hw_params_t * (Z * option Z) * (Z * option Z)) :=
  let save := params in
  let '(err, params) := hw_param_set_minmax params var min (deref mindir) max (deref maxdir) in
  let* '(err, params) := hw_param_update_var pcm params var err in
  ret (if err =? 0 then
         let '(err, min', mindir) := _snd_pcm_hw_param_get_min params var (Some min) mindir in
         let min := default min min' in
         if 0 <=? err then
           let '(err, max', maxdir) := _snd_pcm_hw_param_get_max params var (Some max) maxdir in
           (err, params, (min, mindir), (default max max', maxdir))
         else (err, save, (min, mindir), (max, maxdir))
       else (err, save, (min, mindir), (max, maxdir))).

(* [pcm_params.c 680-689 _snd_pcm_hw_param_set] *)
Definition _snd_pcm_hw_param_set (pcm : snd_pcm_t) (params : snd_pcm_hw_params_t) (var val dir : Z)
  : io K (Z * snd_pcm_hw_params_t) :=
  let save := params in
  let '(err, params) := hw_param_set params var val dir in
  let* '(err, params) := hw_param_update_var pcm params var err in
  ret (if err <? 0 then (err, save) else (err, params)).

(* [pcm_params.c 691-698 _snd_pcm_hw_param_test] *)
Definition _snd_pcm_hw_param_test (pcm : snd_pcm_t) (params : snd_pcm_hw_params_t) (var val : Z)
  (dir : option Z) : io K (Z * snd_pcm_hw_params_t) :=
  let save := params in
  let* '(err, params) := _snd_pcm_hw_param_set pcm params var val (deref dir) in
  ret (err, save).

(* [pcm_params.c 700-718 _snd_pcm_hw_param_set_integer] *)
Definition _snd_pcm_hw_param_set_integer (pcm : snd_pcm_t) (params : snd_pcm_hw_params_t) (var : Z)
  : io K (Z * snd_pcm_hw_params_t) :=
  let i := hw_param_interval params var in
  if integer i then ret (0, params)
  else
    let '(e, i) := interval_check_empty i in
    let params := put_interval params var i in
    if nz e then ret (- EINVAL, params)
    else
      let save := params in
      let params := put_interval params var (set_integer true i) in
      let* '(err, params) := hw_param_update_var pcm params var 1 in
      ret (if err <? 0 then (err, save) else (err, params)).

(* [pcm_params.c 720-730 _snd_pcm_hw_param_set_mask] *)
Definition _snd_pcm_hw_param_set_mask (pcm : snd_pcm_t) (params : snd_pcm_hw_params_t) (var : Z)
  (val : snd_mask_t) : io K (Z * snd_pcm_hw_params_t) :=
  let '(rc, params) := on_mask params var (fun m => snd_mask_refine m val) in
  let params := if nz rc then mark_changed params var else params in
  if nz (rmask params) then snd_pcm_hw_refine pcm params else ret (0, params).

(* [pcm_params.c 748-756 _snd_pcm_hw_param_set_first] *)
Definition _snd_pcm_hw_param_set_first (pcm : snd_pcm_t) (params : snd_pcm_hw_params_t) (var : Z)
  (val dir : option Z) : io K (Z * snd_pcm_hw_params_t * option Z * option Z) :=
  let '(err, params) := hw_param_set_first params var in
  let* '(err, params) := hw_param_update_var pcm params var err in
  ret (if err =? 0 then
         let '(err, val, dir) := _snd_pcm_hw_param_get params var val dir in
         (err, params, val, dir)
       else (err, params, val, dir)).

(* [pcm_params.c 758-766 _snd_pcm_hw_param_set_last] *)
Definition _snd_pcm_hw_param_set_last (pcm : snd_pcm_t) (params : snd_pcm_hw_params_t) (var : Z)
  (val dir : option Z) : io K (Z * snd_pcm_hw_params_t * option Z * option Z) :=
  let '(err, params) := hw_param_set_last params var in
  let* '(err, params) := hw_param_update_var pcm params var err in
  ret (if err =? 0 then
         let '(err, val, dir) := _snd_pcm_hw_param_get params var val dir in
         (err, params, val, dir)
       else (err, params, val, dir)).

(** The tail of [set_near], from the label [_end]. *)
Definition set_near_end (pcm : snd_pcm_t) (params : snd_pcm_hw_params_t) (var : Z)
  (val : Z) (dir : option Z) (last : bool) : io K (Z * snd_pcm_hw_params_t * Z * option Z) :=
  let* '(err, params, val', dir) :=
    if last then _snd_pcm_hw_param_set_last pcm params var (Some val) dir
    else _snd_pcm_hw_param_set_first pcm params var (Some val) dir in
  ret (err, params, default val val', dir).

(* [pcm_params.c 809-867 _snd_pcm_hw_param_set_near] *)
Definition _snd_pcm_hw_param_set_near (pcm : snd_pcm_t) (params : snd_pcm_hw_params_t) (var : Z)
  (val : Z) (dir : option Z) : io K (Z * snd_pcm_hw_params_t * Z * option Z) :=
  let best := val in
  let valdir := deref dir in
  let best := if INT_MAX <? best then INT_MAX else best in
  let min := best in
  let max := best in
  let mindir := valdir in
  let '(maxdir, max) :=
    if 0 <? valdir then (0, max) else if valdir =? 0 then (-1, max) else (1, u32 (max - 1)) in
  let save := params in
  let saved_min := min in
  let* '(err, params, min, mindir) :=
    _snd_pcm_hw_param_set_min pcm params var min (Some mindir) in
  let mindir := deref mindir in
  let i := hw_param_interval params var in
  if negb (interval_is_empty i) && interval_is_single i then
    let '(err, val', dir) := _snd_pcm_hw_param_get_min params var (Some val) dir in
    ret (err, params, default val val', dir)
  else if 0 <=? err then
    if (min =? saved_min) && (mindir =? valdir) then set_near_end pcm params var val dir false
    else
      let params1 := save in
      let* '(err, params1, max, maxdir) :=
        _snd_pcm_hw_param_set_max pcm params1 var max (Some maxdir) in
      let maxdir := deref maxdir in
      if err <? 0 then set_near_end pcm params var val dir false
      else if boundary_nearer max maxdir best valdir min mindir
        then set_near_end pcm params1 var val dir true
        else set_near_end pcm params var val dir false
  else
    let params := save in
    let* '(err, params, max, maxdir) :=
      _snd_pcm_hw_param_set_max pcm params var max (Some maxdir) in
    if err <? 0 then ret (err, params, val, dir)
    else set_near_end pcm params var val dir true.

(* [pcm_params.c 869-872 _snd_pcm_hw_param_get_mask] *)
Definition _snd_pcm_hw_param_get_mask (params : snd_pcm_hw_params_t) (var : Z) : snd_mask_t :=
  hw_param_mask params var.

(** The table of [snd_pcm_hw_params_choose]: a parameter and whether its last
    configuration is taken. *)
(* [pcm_params.c 876-890 vars] *)
Definition choose_vars : list (Z * bool) :=
  [(HW_PARAM_ACCESS, false); (HW_PARAM_FORMAT, false); (HW_PARAM_SUBFORMAT, false);
   (HW_PARAM_CHANNELS, false); (HW_PARAM_RATE, false); (HW_PARAM_BUFFER_SIZE, true);
   (HW_PARAM_PERIOD_SIZE, false); (HW_PARAM_PERIOD_TIME, false); (HW_PARAM_TICK_TIME, false)].

Fixpoint choose_loop (pcm : snd_pcm_t) (params : snd_pcm_hw_params_t) (vars : list (Z * bool))
  : io K (Z * snd_pcm_hw_params_t) :=
  match vars with
  | [] => ret (0, params)
  | (var, last) :: vars =>
      let* '(err, params, _, _) :=
        if last : bool then _snd_pcm_hw_param_set_last pcm params var None None
        else _snd_pcm_hw_param_set_first pcm params var None None in
      if err <? 0 then ret (err, params) else choose_loop pcm params vars
  end.

(* [pcm_params.c 874-906 snd_pcm_hw_params_choose] *)
Definition snd_pcm_hw_params_choose (pcm : snd_pcm_t) (params : snd_pcm_hw_params_t)
  : io K (Z * snd_pcm_hw_params_t) :=
  choose_loop pcm params choose_vars.
End Driver.
