(* ===== verification/HwAccessors.v ===== *)
(** * Parameter accessors

    The accessors of src/src/pcm_macros.h for the hardware parameters: each names
    one parameter and passes its arguments on.  On a 64-bit target the accessors of
    frame counts go through the [*64] functions, which cut the count to 32 bits. *)

From S2P Require Import Prelude CInt Sys Mask Interval PcmTypes HwParams.
#[local] Open Scope Z_scope.

(** ** 64-bit frame counts *)

(** A failing read stores the indeterminate local, [junk]. *)
(* [pcm_macros.h 598-607 DEFINE_GET64] *)
Definition get64 (get : option Z -> option Z -> Z * option Z * option Z) (junk : Z) (dir : option Z)
  : Z * Z * option Z :=
  let '(err, v, dir) := get (Some junk) dir in
  (err, default junk v, dir).

Definition __snd_pcm_hw_param_get64 params var := get64 (_snd_pcm_hw_param_get params var).
Definition __snd_pcm_hw_param_get_min64 params var := get64 (_snd_pcm_hw_param_get_min params var).
Definition __snd_pcm_hw_param_get_max64 params var := get64 (_snd_pcm_hw_param_get_max params var).

Section Accessors.
Context {K : Type} `{!PcmKernel K}.

(* [pcm_macros.h 619-628 DEFINE_SET64] *)
Definition set64 (set : Z -> option Z -> io K (Z * snd_pcm_hw_params_t * Z * option Z))
  (val : Z) (dir : option Z) : io K (Z * snd_pcm_hw_params_t * Z * option Z) :=
  set (u32 val) dir.

(** [set_first] and [set_last] take a pointer to the value too. *)
Definition set64_end
  (set : option Z -> option Z -> io K (Z * snd_pcm_hw_params_t * option Z * option Z))
  (val : Z) (dir : option Z) : io K (Z * snd_pcm_hw_params_t * Z * option Z) :=
  let* '(err, params, v, dir) := set (Some (u32 val)) dir in
  ret (err, params, default (u32 val) v, dir).

Definition __snd_pcm_hw_param_set_min64 pcm params var := set64 (_snd_pcm_hw_param_set_min pcm params var).
Definition __snd_pcm_hw_param_set_max64 pcm params var := set64 (_snd_pcm_hw_param_set_max pcm params var).
Definition __snd_pcm_hw_param_set_near64 pcm params var := set64 (_snd_pcm_hw_param_set_near pcm params var).
Definition __snd_pcm_hw_param_set_first64 pcm params var :=
  set64_end (_snd_pcm_hw_param_set_first pcm params var).
Definition __snd_pcm_hw_param_set_last64 pcm params var :=
  set64_end (_snd_pcm_hw_param_set_last pcm params var).

(* [pcm_macros.h 645-658 __snd_pcm_hw_param_set_minmax64] *)
Definition __snd_pcm_hw_param_set_minmax64 pcm params var (minval : Z) (mindir : option Z)
  (maxval : Z) (maxdir : option Z) :=
  _snd_pcm_hw_param_set_minmax pcm params var (u32 minval) mindir (u32 maxval) maxdir.

(** ** Masks by name *)

(* [pcm_macros.h 693-697 snd_pcm_access_mask_none] *)
Definition snd_pcm_access_mask_none : snd_mask_t :=
  _snd_mask_none.

(* [pcm_macros.h 699-703 snd_pcm_access_mask_any] *)
Definition snd_pcm_access_mask_any : snd_mask_t :=
  _snd_mask_any.

(* [pcm_macros.h 705-709 snd_pcm_access_mask_test] *)
Definition snd_pcm_access_mask_test (mask : snd_mask_t) (val : Z) : Z :=
  _snd_mask_test mask (u32 val).

(* [pcm_macros.h 711-715 snd_pcm_access_mask_empty] *)
Definition snd_pcm_access_mask_empty (mask : snd_mask_t) : bool :=
  _snd_mask_empty mask.

(* [pcm_macros.h 717-721 snd_pcm_access_mask_set] *)
Definition snd_pcm_access_mask_set (mask : snd_mask_t) (val : Z) : snd_mask_t :=
  _snd_mask_set mask (u32 val).

(* [pcm_macros.h 723-727 snd_pcm_access_mask_reset] *)
Definition snd_pcm_access_mask_reset (mask : snd_mask_t) (val : Z) : snd_mask_t :=
  _snd_mask_reset mask (u32 val).

(* [pcm_macros.h 731-735 snd_pcm_format_mask_none] *)
Definition snd_pcm_format_mask_none : snd_mask_t :=
  _snd_mask_none.

(* [pcm_macros.h 737-741 snd_pcm_format_mask_any] *)
Definition snd_pcm_format_mask_any : snd_mask_t :=
  _snd_mask_any.

(* [pcm_macros.h 743-747 snd_pcm_format_mask_test] *)
Definition snd_pcm_format_mask_test (mask : snd_mask_t) (val : Z) : Z :=
  _snd_mask_test mask (u32 val).

(* [pcm_macros.h 749-753 snd_pcm_format_mask_empty] *)
Definition snd_pcm_format_mask_empty (mask : snd_mask_t) : bool :=
  _snd_mask_empty mask.

(* [pcm_macros.h 755-759 snd_pcm_format_mask_set] *)
Definition snd_pcm_format_mask_set (mask : snd_mask_t) (val : Z) : snd_mask_t :=
  _snd_mask_set mask (u32 val).

(* [pcm_macros.h 761-765 snd_pcm_format_mask_reset] *)
Definition snd_pcm_format_mask_reset (mask : snd_mask_t) (val : Z) : snd_mask_t :=
  _snd_mask_reset mask (u32 val).

(* [pcm_macros.h 770-774 snd_pcm_subformat_mask_none] *)
Definition snd_pcm_subformat_mask_none : snd_mask_t :=
  _snd_mask_none.

(* [pcm_macros.h 776-780 snd_pcm_subformat_mask_any] *)
Definition snd_pcm_subformat_mask_any : snd_mask_t :=
  _snd_mask_any.

(* [pcm_macros.h 782-787 snd_pcm_subformat_mask_test] *)
Definition snd_pcm_subformat_mask_test (mask : snd_mask_t) (val : Z) : Z :=
  _snd_mask_test mask (u32 val).

(* [pcm_macros.h 789-793 snd_pcm_subformat_mask_empty] *)
Definition snd_pcm_subformat_mask_empty (mask : snd_mask_t) : bool :=
  _snd_mask_empty mask.

(* [pcm_macros.h 795-800 snd_pcm_subformat_mask_set] *)
Definition snd_pcm_subformat_mask_set (mask : snd_mask_t) (val : Z) : snd_mask_t :=
  _snd_mask_set mask (u32 val).

(* [pcm_macros.h 802-807 snd_pcm_subformat_mask_reset] *)
Definition snd_pcm_subformat_mask_reset (mask : snd_mask_t) (val : Z) : snd_mask_t :=
  _snd_mask_reset mask (u32 val).

(** ** Flags of the configuration *)

(* [pcm_macros.h 413-417 snd_pcm_hw_params_can_mmap_sample_resolution] *)
Definition snd_pcm_hw_params_can_mmap_sample_resolution (params : snd_pcm_hw_params_t) : bool :=
  nz (Z.land (hp_info params) 2).

(* [pcm_macros.h 419-423 snd_pcm_hw_params_is_double] *)
Definition snd_pcm_hw_params_is_double (params : snd_pcm_hw_params_t) : bool :=
  nz (Z.land (hp_info params) 4).

(* [pcm_macros.h 425-429 snd_pcm_hw_params_is_batch] *)
Definition snd_pcm_hw_params_is_batch (params : snd_pcm_hw_params_t) : bool :=
  nz (Z.land (hp_info params) 16).

(* [pcm_macros.h 431-435 snd_pcm_hw_params_is_block_transfer] *)
Definition snd_pcm_hw_params_is_block_transfer (params : snd_pcm_hw_params_t) : bool :=
  nz (Z.land (hp_info params) 65536).

(* [pcm_macros.h 437-441 snd_pcm_hw_params_can_overrange] *)
Definition snd_pcm_hw_params_can_overrange (params : snd_pcm_hw_params_t) : bool :=
  nz (Z.land (hp_info params) 131072).

(* [pcm_macros.h 443-447 snd_pcm_hw_params_can_pause] *)
Definition snd_pcm_hw_params_can_pause (params : snd_pcm_hw_params_t) : bool :=
  nz (Z.land (hp_info params) 524288).

(* [pcm_macros.h 449-453 snd_pcm_hw_params_can_resume] *)
Definition snd_pcm_hw_params_can_resume (params : snd_pcm_hw_params_t) : bool :=
  nz (Z.land (hp_info params) 262144).

(* [pcm_macros.h 455-459 snd_pcm_hw_params_is_half_duplex] *)
Definition snd_pcm_hw_params_is_half_duplex (params : snd_pcm_hw_params_t) : bool :=
  nz (Z.land (hp_info params) 1048576).

(* [pcm_macros.h 461-465 snd_pcm_hw_params_is_joint_duplex] *)
Definition snd_pcm_hw_params_is_joint_duplex (params : snd_pcm_hw_params_t) : bool :=
  nz (Z.land (hp_info params) 2097152).

(* [pcm_macros.h 467-471 snd_pcm_hw_params_can_sync_start] *)
Definition snd_pcm_hw_params_can_sync_start (params : snd_pcm_hw_params_t) : bool :=
  nz (Z.land (hp_info params) 4194304).

(* [pcm_macros.h 473-477 snd_pcm_hw_params_supports_audio_wallclock_ts] *)
Definition snd_pcm_hw_params_supports_audio_wallclock_ts (params : snd_pcm_hw_params_t) : bool :=
  nz (Z.land (hp_info params) 16777216).

(* [pcm_macros.h 479-487 snd_pcm_hw_params_get_rate_numden] *)
Definition snd_pcm_hw_params_get_rate_numden (params : snd_pcm_hw_params_t) : Z * (Z * Z) :=
  (0, (hp_rate_num params, hp_rate_den params)).

(* [pcm_macros.h 489-493 snd_pcm_hw_params_get_sbits] *)
Definition snd_pcm_hw_params_get_sbits (params : snd_pcm_hw_params_t) : Z :=
  s32 (hp_msbits params).

(* [pcm_macros.h 495-499 snd_pcm_hw_params_get_fifo_size] *)
Definition snd_pcm_hw_params_get_fifo_size (params : snd_pcm_hw_params_t) : Z :=
  s32 (hp_fifo_size params).

(* [pcm_macros.h 501-505 snd_pcm_hw_params_can_disable_period_wakeup] *)
Definition snd_pcm_hw_params_can_disable_period_wakeup (params : snd_pcm_hw_params_t) : bool :=
  nz (Z.land (hp_info params) 8388608).

(* [pcm_macros.h 509-513 snd_pcm_hw_params_is_monotonic] *)
Definition snd_pcm_hw_params_is_monotonic (params : snd_pcm_hw_params_t) : bool :=
  nz (Z.land (hp_info params) 2147483648).

(** ** Parameters by name *)

(* [pcm_macros.h 812-818 snd_pcm_hw_params_get_access] *)
Definition snd_pcm_hw_params_get_access (params : snd_pcm_hw_params_t) (acc : option Z) :=
  _snd_pcm_hw_param_get params HW_PARAM_ACCESS acc None.

(* [pcm_macros.h 820-826 snd_pcm_hw_params_test_access] *)
Definition snd_pcm_hw_params_test_access (pcm : snd_pcm_t) (params : snd_pcm_hw_params_t) (acc : Z) :=
  _snd_pcm_hw_param_test pcm params HW_PARAM_ACCESS (u32 acc) None.

(* [pcm_macros.h 828-834 snd_pcm_hw_params_set_access] *)
Definition snd_pcm_hw_params_set_access (pcm : snd_pcm_t) (params : snd_pcm_hw_params_t) (acc : Z) :=
  _snd_pcm_hw_param_set pcm params HW_PARAM_ACCESS (u32 acc) 0.

(* [pcm_macros.h 836-844 snd_pcm_hw_params_set_access_first] *)
Definition snd_pcm_hw_params_set_access_first (pcm : snd_pcm_t) (params : snd_pcm_hw_params_t) (acc : option Z) :=
  _snd_pcm_hw_param_set_first pcm params HW_PARAM_ACCESS acc None.

(* [pcm_macros.h 846-854 snd_pcm_hw_params_set_access_last] *)
Definition snd_pcm_hw_params_set_access_last (pcm : snd_pcm_t) (params : snd_pcm_hw_params_t) (acc : option Z) :=
  _snd_pcm_hw_param_set_last pcm params HW_PARAM_ACCESS acc None.

(* [pcm_macros.h 856-864 snd_pcm_hw_params_set_access_mask] *)
Definition snd_pcm_hw_params_set_access_mask (pcm : snd_pcm_t) (params : snd_pcm_hw_params_t) (mask : snd_mask_t) :=
  _snd_pcm_hw_param_set_mask pcm params HW_PARAM_ACCESS mask.

(* [pcm_macros.h 866-874 snd_pcm_hw_params_get_access_mask] *)
Definition snd_pcm_hw_params_get_access_mask (params : option snd_pcm_hw_params_t) (mask : option snd_mask_t) : Z * option snd_mask_t :=
  match params, mask with
  | Some params, Some _ => (0, Some (_snd_pcm_hw_param_get_mask params HW_PARAM_ACCESS))
  | _, _ => (- EINVAL, mask)
  end.

(* [pcm_macros.h 877-883 snd_pcm_hw_params_get_format] *)
Definition snd_pcm_hw_params_get_format (params : snd_pcm_hw_params_t) (format : option Z) :=
  _snd_pcm_hw_param_get params HW_PARAM_FORMAT format None.

(* [pcm_macros.h 885-891 snd_pcm_hw_params_test_format] *)
Definition snd_pcm_hw_params_test_format (pcm : snd_pcm_t) (params : snd_pcm_hw_params_t) (format : Z) :=
  _snd_pcm_hw_param_test pcm params HW_PARAM_FORMAT (u32 format) None.

(* [pcm_macros.h 893-899 snd_pcm_hw_params_set_format] *)
Definition snd_pcm_hw_params_set_format (pcm : snd_pcm_t) (params : snd_pcm_hw_params_t) (format : Z) :=
  _snd_pcm_hw_param_set pcm params HW_PARAM_FORMAT (u32 format) 0.

(* [pcm_macros.h 901-907 snd_pcm_hw_params_set_format_first] *)
Definition snd_pcm_hw_params_set_format_first (pcm : snd_pcm_t) (params : snd_pcm_hw_params_t) (format : option Z) :=
  _snd_pcm_hw_param_set_first pcm params HW_PARAM_FORMAT format None.

(* [pcm_macros.h 909-915 snd_pcm_hw_params_set_format_last] *)
Definition snd_pcm_hw_params_set_format_last (pcm : snd_pcm_t) (params : snd_pcm_hw_params_t) (format : option Z) :=
  _snd_pcm_hw_param_set_last pcm params HW_PARAM_FORMAT format None.

(* [pcm_macros.h 917-923 snd_pcm_hw_params_set_format_mask] *)
Definition snd_pcm_hw_params_set_format_mask (pcm : snd_pcm_t) (params : snd_pcm_hw_params_t) (mask : snd_mask_t) :=
  _snd_pcm_hw_param_set_mask pcm params HW_PARAM_FORMAT mask.

(* [pcm_macros.h 925-930 snd_pcm_hw_params_get_format_mask] *)
Definition snd_pcm_hw_params_get_format_mask (params : snd_pcm_hw_params_t) : snd_mask_t :=
  _snd_pcm_hw_param_get_mask params HW_PARAM_FORMAT.

(* [pcm_macros.h 933-939 snd_pcm_hw_params_get_subformat] *)
Definition snd_pcm_hw_params_get_subformat (params : snd_pcm_hw_params_t) (subformat : option Z) :=
  _snd_pcm_hw_param_get params HW_PARAM_SUBFORMAT subformat None.

(* [pcm_macros.h 941-948 snd_pcm_hw_params_test_subformat] *)
Definition snd_pcm_hw_params_test_subformat (pcm : snd_pcm_t) (params : snd_pcm_hw_params_t) (subformat : Z) :=
  _snd_pcm_hw_param_test pcm params HW_PARAM_SUBFORMAT (u32 subformat) None.

(* [pcm_macros.h 950-956 snd_pcm_hw_params_set_subformat] *)
Definition snd_pcm_hw_params_set_subformat (pcm : snd_pcm_t) (params : snd_pcm_hw_params_t) (subformat : Z) :=
  _snd_pcm_hw_param_set pcm params HW_PARAM_SUBFORMAT (u32 subformat) 0.

(* [pcm_macros.h 958-965 snd_pcm_hw_params_set_subformat_first] *)
Definition snd_pcm_hw_params_set_subformat_first (pcm : snd_pcm_t) (params : snd_pcm_hw_params_t) (subformat : option Z) :=
  _snd_pcm_hw_param_set_first pcm params HW_PARAM_SUBFORMAT subformat None.

(* [pcm_macros.h 967-975 snd_pcm_hw_params_set_subformat_last] *)
Definition snd_pcm_hw_params_set_subformat_last (pcm : snd_pcm_t) (params : snd_pcm_hw_params_t) (subformat : option Z) :=
  _snd_pcm_hw_param_set_last pcm params HW_PARAM_SUBFORMAT subformat None.

(* [pcm_macros.h 977-985 snd_pcm_hw_params_set_subformat_mask] *)
Definition snd_pcm_hw_params_set_subformat_mask (pcm : snd_pcm_t) (params : snd_pcm_hw_params_t) (mask : snd_mask_t) :=
  _snd_pcm_hw_param_set_mask pcm params HW_PARAM_SUBFORMAT mask.

(* [pcm_macros.h 987-992 snd_pcm_hw_params_get_subformat_mask] *)
Definition snd_pcm_hw_params_get_subformat_mask (params : snd_pcm_hw_params_t) : snd_mask_t :=
  _snd_pcm_hw_param_get_mask params HW_PARAM_SUBFORMAT.

(* [pcm_macros.h 995-1000 snd_pcm_hw_params_get_channels] *)
Definition snd_pcm_hw_params_get_channels (params : snd_pcm_hw_params_t) (val : option Z) :=
  _snd_pcm_hw_param_get params HW_PARAM_CHANNELS val None.

(* [pcm_macros.h 1002-1007 snd_pcm_hw_params_get_channels_min] *)
Definition snd_pcm_hw_params_get_channels_min (params : snd_pcm_hw_params_t) (val : option Z) :=
  _snd_pcm_hw_param_get_min params HW_PARAM_CHANNELS val None.

(* [pcm_macros.h 1009-1014 snd_pcm_hw_params_get_channels_max] *)
Definition snd_pcm_hw_params_get_channels_max (params : snd_pcm_hw_params_t) (val : option Z) :=
  _snd_pcm_hw_param_get_max params HW_PARAM_CHANNELS val None.

(* [pcm_macros.h 1016-1022 snd_pcm_hw_params_test_channels] *)
Definition snd_pcm_hw_params_test_channels (pcm : snd_pcm_t) (params : snd_pcm_hw_params_t) (val : Z) :=
  _snd_pcm_hw_param_test pcm params HW_PARAM_CHANNELS val None.

(* [pcm_macros.h 1024-1030 snd_pcm_hw_params_set_channels] *)
Definition snd_pcm_hw_params_set_channels (pcm : snd_pcm_t) (params : snd_pcm_hw_params_t) (val : Z) :=
  _snd_pcm_hw_param_set pcm params HW_PARAM_CHANNELS val 0.

(* [pcm_macros.h 1032-1038 snd_pcm_hw_params_set_channels_min] *)
Definition snd_pcm_hw_params_set_channels_min (pcm : snd_pcm_t) (params : snd_pcm_hw_params_t) (val : Z) :=
  _snd_pcm_hw_param_set_min pcm params HW_PARAM_CHANNELS val None.

(* [pcm_macros.h 1040-1046 snd_pcm_hw_params_set_channels_max] *)
Definition snd_pcm_hw_params_set_channels_max (pcm : snd_pcm_t) (params : snd_pcm_hw_params_t) (val : Z) :=
  _snd_pcm_hw_param_set_max pcm params HW_PARAM_CHANNELS val None.

(* [pcm_macros.h 1048-1054 snd_pcm_hw_params_set_channels_minmax] *)
Definition snd_pcm_hw_params_set_channels_minmax (pcm : snd_pcm_t) (params : snd_pcm_hw_params_t) (min : Z) (max : Z) :=
  _snd_pcm_hw_param_set_minmax pcm params HW_PARAM_CHANNELS min None max None.

(* [pcm_macros.h 1056-1062 snd_pcm_hw_params_set_channels_near] *)
Definition snd_pcm_hw_params_set_channels_near (pcm : snd_pcm_t) (params : snd_pcm_hw_params_t) (val : Z) :=
  _snd_pcm_hw_param_set_near pcm params HW_PARAM_CHANNELS val None.

(* [pcm_macros.h 1064-1070 snd_pcm_hw_params_set_channels_first] *)
Definition snd_pcm_hw_params_set_channels_first (pcm : snd_pcm_t) (params : snd_pcm_hw_params_t) (val : option Z) :=
  _snd_pcm_hw_param_set_first pcm params HW_PARAM_CHANNELS val None.

(* [pcm_macros.h 1072-1078 snd_pcm_hw_params_set_channels_last] *)
Definition snd_pcm_hw_params_set_channels_last (pcm : snd_pcm_t) (params : snd_pcm_hw_params_t) (val : option Z) :=
  _snd_pcm_hw_param_set_last pcm params HW_PARAM_CHANNELS val None.

(* [pcm_macros.h 1081-1086 snd_pcm_hw_params_get_rate] *)
Definition snd_pcm_hw_params_get_rate (params : snd_pcm_hw_params_t) (val : option Z) (dir : option Z) :=
  _snd_pcm_hw_param_get params HW_PARAM_RATE val dir.

(* [pcm_macros.h 1088-1093 snd_pcm_hw_params_get_rate_min] *)
Definition snd_pcm_hw_params_get_rate_min (params : snd_pcm_hw_params_t) (val : option Z) (dir : option Z) :=
  _snd_pcm_hw_param_get_min params HW_PARAM_RATE val dir.

(* [pcm_macros.h 1095-1100 snd_pcm_hw_params_get_rate_max] *)
Definition snd_pcm_hw_params_get_rate_max (params : snd_pcm_hw_params_t) (val : option Z) (dir : option Z) :=
  _snd_pcm_hw_param_get_max params HW_PARAM_RATE val dir.

(* [pcm_macros.h 1102-1108 snd_pcm_hw_params_test_rate] *)
Definition snd_pcm_hw_params_test_rate (pcm : snd_pcm_t) (params : snd_pcm_hw_params_t) (val : Z) (dir : Z) :=
  _snd_pcm_hw_param_test pcm params HW_PARAM_RATE val (Some dir).

(* [pcm_macros.h 1110-1116 snd_pcm_hw_params_set_rate] *)
Definition snd_pcm_hw_params_set_rate (pcm : snd_pcm_t) (params : snd_pcm_hw_params_t) (val : Z) (dir : Z) :=
  _snd_pcm_hw_param_set pcm params HW_PARAM_RATE val dir.

(* [pcm_macros.h 1118-1124 snd_pcm_hw_params_set_rate_min] *)
Definition snd_pcm_hw_params_set_rate_min (pcm : snd_pcm_t) (params : snd_pcm_hw_params_t) (val : Z) (dir : option Z) :=
  _snd_pcm_hw_param_set_min pcm params HW_PARAM_RATE val dir.

(* [pcm_macros.h 1126-1132 snd_pcm_hw_params_set_rate_max] *)
Definition snd_pcm_hw_params_set_rate_max (pcm : snd_pcm_t) (params : snd_pcm_hw_params_t) (val : Z) (dir : option Z) :=
  _snd_pcm_hw_param_set_max pcm params HW_PARAM_RATE val dir.

(* [pcm_macros.h 1134-1141 snd_pcm_hw_params_set_rate_minmax] *)
Definition snd_pcm_hw_params_set_rate_minmax (pcm : snd_pcm_t) (params : snd_pcm_hw_params_t) (min : Z) (mindir : option Z) (max : Z) (maxdir : option Z) :=
  _snd_pcm_hw_param_set_minmax pcm params HW_PARAM_RATE min mindir max maxdir.

(* [pcm_macros.h 1143-1148 snd_pcm_hw_params_set_rate_near] *)
Definition snd_pcm_hw_params_set_rate_near (pcm : snd_pcm_t) (params : snd_pcm_hw_params_t) (val : Z) (dir : option Z) :=
  _snd_pcm_hw_param_set_near pcm params HW_PARAM_RATE val dir.

(* [pcm_macros.h 1150-1156 snd_pcm_hw_params_set_rate_first] *)
Definition snd_pcm_hw_params_set_rate_first (pcm : snd_pcm_t) (params : snd_pcm_hw_params_t) (val : option Z) (dir : option Z) :=
  _snd_pcm_hw_param_set_first pcm params HW_PARAM_RATE val dir.

(* [pcm_macros.h 1158-1163 snd_pcm_hw_params_set_rate_last] *)
Definition snd_pcm_hw_params_set_rate_last (pcm : snd_pcm_t) (params : snd_pcm_hw_params_t) (val : option Z) (dir : option Z) :=
  _snd_pcm_hw_param_set_last pcm params HW_PARAM_RATE val dir.

(* [pcm_macros.h 1165-1170 snd_pcm_hw_params_set_rate_resample] *)
Definition snd_pcm_hw_params_set_rate_resample (pcm : snd_pcm_t) (params : snd_pcm_hw_params_t) (val : Z) : Z :=
  if nz val then - EINVAL else 0.

(* [pcm_macros.h 1172-1177 snd_pcm_hw_params_get_rate_resample] *)
Definition snd_pcm_hw_params_get_rate_resample (pcm : snd_pcm_t) (params : snd_pcm_hw_params_t) (val : Z) : Z * Z :=
  (0, val).

(* [pcm_macros.h 1179-1184 snd_pcm_hw_params_set_export_buffer] *)
Definition snd_pcm_hw_params_set_export_buffer (pcm : snd_pcm_t) (params : snd_pcm_hw_params_t) (val : Z) : Z :=
  - EINVAL.

(* [pcm_macros.h 1186-1191 snd_pcm_hw_params_get_export_buffer] *)
Definition snd_pcm_hw_params_get_export_buffer (pcm : snd_pcm_t) (params : snd_pcm_hw_params_t) (val : Z) : Z * Z :=
  (0, val).

(* [pcm_macros.h 1193-1201 snd_pcm_hw_params_set_period_wakeup] *)
Definition snd_pcm_hw_params_set_period_wakeup (pcm : snd_pcm_t) (params : snd_pcm_hw_params_t) (val : Z)
  : io K (Z * snd_pcm_hw_params_t) :=
  let params :=
    if negb (nz val) then set_hp_flags (Z.lor (hp_flags params) HW_PARAMS_NO_PERIOD_WAKEUP) params
    else set_hp_flags (Z.land (hp_flags params) (UINT_MAX - HW_PARAMS_NO_PERIOD_WAKEUP)) params in
  snd_pcm_hw_refine pcm params.

(* [pcm_macros.h 1203-1208 snd_pcm_hw_params_get_period_wakeup] *)
Definition snd_pcm_hw_params_get_period_wakeup (pcm : snd_pcm_t) (params : snd_pcm_hw_params_t) : Z * Z :=
  (0, if nz (Z.land (hp_flags params) HW_PARAMS_NO_PERIOD_WAKEUP) then 0 else 1).

(* [pcm_macros.h 1210-1215 snd_pcm_hw_params_get_period_time] *)
Definition snd_pcm_hw_params_get_period_time (params : snd_pcm_hw_params_t) (val : option Z) (dir : option Z) :=
  _snd_pcm_hw_param_get params HW_PARAM_PERIOD_TIME val dir.

(* [pcm_macros.h 1217-1223 snd_pcm_hw_params_get_period_time_min] *)
Definition snd_pcm_hw_params_get_period_time_min (params : snd_pcm_hw_params_t) (val : option Z) (dir : option Z) :=
  _snd_pcm_hw_param_get_min params HW_PARAM_PERIOD_TIME val dir.

(* [pcm_macros.h 1225-1231 snd_pcm_hw_params_get_period_time_max] *)
Definition snd_pcm_hw_params_get_period_time_max (params : snd_pcm_hw_params_t) (val : option Z) (dir : option Z) :=
  _snd_pcm_hw_param_get_max params HW_PARAM_PERIOD_TIME val dir.

(* [pcm_macros.h 1233-1239 snd_pcm_hw_params_test_period_time] *)
Definition snd_pcm_hw_params_test_period_time (pcm : snd_pcm_t) (params : snd_pcm_hw_params_t) (val : Z) (dir : Z) :=
  _snd_pcm_hw_param_test pcm params HW_PARAM_PERIOD_TIME val (Some dir).

(* [pcm_macros.h 1241-1247 snd_pcm_hw_params_set_period_time] *)
Definition snd_pcm_hw_params_set_period_time (pcm : snd_pcm_t) (params : snd_pcm_hw_params_t) (val : Z) (dir : Z) :=
  _snd_pcm_hw_param_set pcm params HW_PARAM_PERIOD_TIME val dir.

(* [pcm_macros.h 1250-1257 snd_pcm_hw_params_set_period_time_min] *)
Definition snd_pcm_hw_params_set_period_time_min (pcm : snd_pcm_t) (params : snd_pcm_hw_params_t) (val : Z) (dir : option Z) :=
  _snd_pcm_hw_param_set_min pcm params HW_PARAM_PERIOD_TIME val dir.

(* [pcm_macros.h 1259-1266 snd_pcm_hw_params_set_period_time_max] *)
Definition snd_pcm_hw_params_set_period_time_max (pcm : snd_pcm_t) (params : snd_pcm_hw_params_t) (val : Z) (dir : option Z) :=
  _snd_pcm_hw_param_set_max pcm params HW_PARAM_PERIOD_TIME val dir.

(* [pcm_macros.h 1268-1276 snd_pcm_hw_params_set_period_time_minmax] *)
Definition snd_pcm_hw_params_set_period_time_minmax (pcm : snd_pcm_t) (params : snd_pcm_hw_params_t) (min : Z) (mindir : option Z) (max : Z) (maxdir : option Z) :=
  _snd_pcm_hw_param_set_minmax pcm params HW_PARAM_PERIOD_TIME min mindir max maxdir.

(* [pcm_macros.h 1278-1285 snd_pcm_hw_params_set_period_time_near] *)
Definition snd_pcm_hw_params_set_period_time_near (pcm : snd_pcm_t) (params : snd_pcm_hw_params_t) (val : Z) (dir : option Z) :=
  _snd_pcm_hw_param_set_near pcm params HW_PARAM_PERIOD_TIME val dir.

(* [pcm_macros.h 1287-1294 snd_pcm_hw_params_set_period_time_first] *)
Definition snd_pcm_hw_params_set_period_time_first (pcm : snd_pcm_t) (params : snd_pcm_hw_params_t) (val : option Z) (dir : option Z) :=
  _snd_pcm_hw_param_set_first pcm params HW_PARAM_PERIOD_TIME val dir.

(* [pcm_macros.h 1296-1303 snd_pcm_hw_params_set_period_time_last] *)
Definition snd_pcm_hw_params_set_period_time_last (pcm : snd_pcm_t) (params : snd_pcm_hw_params_t) (val : option Z) (dir : option Z) :=
  _snd_pcm_hw_param_set_last pcm params HW_PARAM_PERIOD_TIME val dir.

(* [pcm_macros.h 1306-1312 snd_pcm_hw_params_get_period_size] *)
Definition snd_pcm_hw_params_get_period_size (params : snd_pcm_hw_params_t) (junk : Z) (dir : option Z) :=
  __snd_pcm_hw_param_get64 params HW_PARAM_PERIOD_SIZE junk dir.

(* [pcm_macros.h 1314-1320 snd_pcm_hw_params_get_period_size_min] *)
Definition snd_pcm_hw_params_get_period_size_min (params : snd_pcm_hw_params_t) (junk : Z) (dir : option Z) :=
  __snd_pcm_hw_param_get_min64 params HW_PARAM_PERIOD_SIZE junk dir.

(* [pcm_macros.h 1322-1328 snd_pcm_hw_params_get_period_size_max] *)
Definition snd_pcm_hw_params_get_period_size_max (params : snd_pcm_hw_params_t) (junk : Z) (dir : option Z) :=
  __snd_pcm_hw_param_get_max64 params HW_PARAM_PERIOD_SIZE junk dir.

(* [pcm_macros.h 1330-1336 snd_pcm_hw_params_test_period_size] *)
Definition snd_pcm_hw_params_test_period_size (pcm : snd_pcm_t) (params : snd_pcm_hw_params_t) (val : Z) (dir : Z) :=
  _snd_pcm_hw_param_test pcm params HW_PARAM_PERIOD_SIZE (u32 val) (Some dir).

(* [pcm_macros.h 1338-1344 snd_pcm_hw_params_set_period_size] *)
Definition snd_pcm_hw_params_set_period_size (pcm : snd_pcm_t) (params : snd_pcm_hw_params_t) (val : Z) (dir : Z) :=
  _snd_pcm_hw_param_set pcm params HW_PARAM_PERIOD_SIZE (u32 val) dir.

(* [pcm_macros.h 1346-1352 snd_pcm_hw_params_set_period_size_min] *)
Definition snd_pcm_hw_params_set_period_size_min (pcm : snd_pcm_t) (params : snd_pcm_hw_params_t) (val : Z) (dir : option Z) :=
  __snd_pcm_hw_param_set_min64 pcm params HW_PARAM_PERIOD_SIZE val dir.

(* [pcm_macros.h 1354-1360 snd_pcm_hw_params_set_period_size_max] *)
Definition snd_pcm_hw_params_set_period_size_max (pcm : snd_pcm_t) (params : snd_pcm_hw_params_t) (val : Z) (dir : option Z) :=
  __snd_pcm_hw_param_set_max64 pcm params HW_PARAM_PERIOD_SIZE val dir.

(* [pcm_macros.h 1362-1370 snd_pcm_hw_params_set_period_size_minmax] *)
Definition snd_pcm_hw_params_set_period_size_minmax (pcm : snd_pcm_t) (params : snd_pcm_hw_params_t) (min : Z) (mindir : option Z) (max : Z) (maxdir : option Z) :=
  __snd_pcm_hw_param_set_minmax64 pcm params HW_PARAM_PERIOD_SIZE min mindir max maxdir.

(* [pcm_macros.h 1372-1379 snd_pcm_hw_params_set_period_size_near] *)
Definition snd_pcm_hw_params_set_period_size_near (pcm : snd_pcm_t) (params : snd_pcm_hw_params_t) (val : Z) (dir : option Z) :=
  __snd_pcm_hw_param_set_near64 pcm params HW_PARAM_PERIOD_SIZE val dir.

(* [pcm_macros.h 1381-1388 snd_pcm_hw_params_set_period_size_first] *)
Definition snd_pcm_hw_params_set_period_size_first (pcm : snd_pcm_t) (params : snd_pcm_hw_params_t) (val : Z) (dir : option Z) :=
  __snd_pcm_hw_param_set_first64 pcm params HW_PARAM_PERIOD_SIZE val dir.

(* [pcm_macros.h 1390-1397 snd_pcm_hw_params_set_period_size_last] *)
Definition snd_pcm_hw_params_set_period_size_last (pcm : snd_pcm_t) (params : snd_pcm_hw_params_t) (val : Z) (dir : option Z) :=
  __snd_pcm_hw_param_set_last64 pcm params HW_PARAM_PERIOD_SIZE val dir.

(* [pcm_macros.h 1399-1405 snd_pcm_hw_params_set_period_size_integer] *)
Definition snd_pcm_hw_params_set_period_size_integer (pcm : snd_pcm_t) (params : snd_pcm_hw_params_t) :=
  _snd_pcm_hw_param_set_integer pcm params HW_PARAM_PERIOD_SIZE.

(* [pcm_macros.h 1408-1413 snd_pcm_hw_params_get_periods] *)
Definition snd_pcm_hw_params_get_periods (params : snd_pcm_hw_params_t) (val : option Z) (dir : option Z) :=
  _snd_pcm_hw_param_get params HW_PARAM_PERIODS val dir.

(* [pcm_macros.h 1415-1420 snd_pcm_hw_params_get_periods_min] *)
Definition snd_pcm_hw_params_get_periods_min (params : snd_pcm_hw_params_t) (val : option Z) (dir : option Z) :=
  _snd_pcm_hw_param_get_min params HW_PARAM_PERIODS val dir.

(* [pcm_macros.h 1422-1427 snd_pcm_hw_params_get_periods_max] *)
Definition snd_pcm_hw_params_get_periods_max (params : snd_pcm_hw_params_t) (val : option Z) (dir : option Z) :=
  _snd_pcm_hw_param_get_max params HW_PARAM_PERIODS val dir.

(* [pcm_macros.h 1429-1435 snd_pcm_hw_params_test_periods] *)
Definition snd_pcm_hw_params_test_periods (pcm : snd_pcm_t) (params : snd_pcm_hw_params_t) (val : Z) (dir : Z) :=
  _snd_pcm_hw_param_test pcm params HW_PARAM_PERIODS val (Some dir).

(* [pcm_macros.h 1437-1443 snd_pcm_hw_params_set_periods] *)
Definition snd_pcm_hw_params_set_periods (pcm : snd_pcm_t) (params : snd_pcm_hw_params_t) (val : Z) (dir : Z) :=
  _snd_pcm_hw_param_set pcm params HW_PARAM_PERIODS val dir.

(* [pcm_macros.h 1445-1451 snd_pcm_hw_params_set_periods_min] *)
Definition snd_pcm_hw_params_set_periods_min (pcm : snd_pcm_t) (params : snd_pcm_hw_params_t) (val : Z) (dir : option Z) :=
  _snd_pcm_hw_param_set_min pcm params HW_PARAM_PERIODS val dir.

(* [pcm_macros.h 1453-1459 snd_pcm_hw_params_set_periods_max] *)
Definition snd_pcm_hw_params_set_periods_max (pcm : snd_pcm_t) (params : snd_pcm_hw_params_t) (val : Z) (dir : option Z) :=
  _snd_pcm_hw_param_set_max pcm params HW_PARAM_PERIODS val dir.

(* [pcm_macros.h 1462-1470 snd_pcm_hw_params_set_periods_minmax] *)
Definition snd_pcm_hw_params_set_periods_minmax (pcm : snd_pcm_t) (params : snd_pcm_hw_params_t) (min : Z) (mindir : option Z) (max : Z) (maxdir : option Z) :=
  _snd_pcm_hw_param_set_minmax pcm params HW_PARAM_PERIODS min mindir max maxdir.

(* [pcm_macros.h 1472-1478 snd_pcm_hw_params_set_periods_near] *)
Definition snd_pcm_hw_params_set_periods_near (pcm : snd_pcm_t) (params : snd_pcm_hw_params_t) (val : Z) (dir : option Z) :=
  _snd_pcm_hw_param_set_near pcm params HW_PARAM_PERIODS val dir.

(* [pcm_macros.h 1480-1486 snd_pcm_hw_params_set_periods_first] *)
Definition snd_pcm_hw_params_set_periods_first (pcm : snd_pcm_t) (params : snd_pcm_hw_params_t) (val : option Z) (dir : option Z) :=
  _snd_pcm_hw_param_set_first pcm params HW_PARAM_PERIODS val dir.

(* [pcm_macros.h 1488-1494 snd_pcm_hw_params_set_periods_last] *)
Definition snd_pcm_hw_params_set_periods_last (pcm : snd_pcm_t) (params : snd_pcm_hw_params_t) (val : option Z) (dir : option Z) :=
  _snd_pcm_hw_param_set_last pcm params HW_PARAM_PERIODS val dir.

(* [pcm_macros.h 1496-1501 snd_pcm_hw_params_set_periods_integer] *)
Definition snd_pcm_hw_params_set_periods_integer (pcm : snd_pcm_t) (params : snd_pcm_hw_params_t) :=
  _snd_pcm_hw_param_set_integer pcm params HW_PARAM_PERIODS.

(* [pcm_macros.h 1504-1509 snd_pcm_hw_params_get_buffer_time] *)
Definition snd_pcm_hw_params_get_buffer_time (params : snd_pcm_hw_params_t) (val : option Z) (dir : option Z) :=
  _snd_pcm_hw_param_get params HW_PARAM_BUFFER_TIME val dir.

(* [pcm_macros.h 1511-1517 snd_pcm_hw_params_get_buffer_time_min] *)
Definition snd_pcm_hw_params_get_buffer_time_min (params : snd_pcm_hw_params_t) (val : option Z) (dir : option Z) :=
  _snd_pcm_hw_param_get_min params HW_PARAM_BUFFER_TIME val dir.

(* [pcm_macros.h 1519-1525 snd_pcm_hw_params_get_buffer_time_max] *)
Definition snd_pcm_hw_params_get_buffer_time_max (params : snd_pcm_hw_params_t) (val : option Z) (dir : option Z) :=
  _snd_pcm_hw_param_get_max params HW_PARAM_BUFFER_TIME val dir.

(* [pcm_macros.h 1527-1533 snd_pcm_hw_params_test_buffer_time] *)
Definition snd_pcm_hw_params_test_buffer_time (pcm : snd_pcm_t) (params : snd_pcm_hw_params_t) (val : Z) (dir : Z) :=
  _snd_pcm_hw_param_test pcm params HW_PARAM_BUFFER_TIME val (Some dir).

(* [pcm_macros.h 1535-1541 snd_pcm_hw_params_set_buffer_time] *)
Definition snd_pcm_hw_params_set_buffer_time (pcm : snd_pcm_t) (params : snd_pcm_hw_params_t) (val : Z) (dir : Z) :=
  _snd_pcm_hw_param_set pcm params HW_PARAM_BUFFER_TIME val dir.

(* [pcm_macros.h 1543-1549 snd_pcm_hw_params_set_buffer_time_min] *)
Definition snd_pcm_hw_params_set_buffer_time_min (pcm : snd_pcm_t) (params : snd_pcm_hw_params_t) (val : Z) (dir : option Z) :=
  _snd_pcm_hw_param_set_min pcm params HW_PARAM_BUFFER_TIME val dir.

(* [pcm_macros.h 1551-1557 snd_pcm_hw_params_set_buffer_time_max] *)
Definition snd_pcm_hw_params_set_buffer_time_max (pcm : snd_pcm_t) (params : snd_pcm_hw_params_t) (val : Z) (dir : option Z) :=
  _snd_pcm_hw_param_set_max pcm params HW_PARAM_BUFFER_TIME val dir.

(* [pcm_macros.h 1559-1568 snd_pcm_hw_params_set_buffer_time_minmax] *)
Definition snd_pcm_hw_params_set_buffer_time_minmax (pcm : snd_pcm_t) (params : snd_pcm_hw_params_t) (min : Z) (mindir : option Z) (max : Z) (maxdir : option Z) :=
  _snd_pcm_hw_param_set_minmax pcm params HW_PARAM_BUFFER_TIME min mindir max maxdir.

(* [pcm_macros.h 1570-1577 snd_pcm_hw_params_set_buffer_time_near] *)
Definition snd_pcm_hw_params_set_buffer_time_near (pcm : snd_pcm_t) (params : snd_pcm_hw_params_t) (val : Z) (dir : option Z) :=
  _snd_pcm_hw_param_set_near pcm params HW_PARAM_BUFFER_TIME val dir.

(* [pcm_macros.h 1579-1586 snd_pcm_hw_params_set_buffer_time_first] *)
Definition snd_pcm_hw_params_set_buffer_time_first (pcm : snd_pcm_t) (params : snd_pcm_hw_params_t) (val : option Z) (dir : option Z) :=
  _snd_pcm_hw_param_set_first pcm params HW_PARAM_BUFFER_TIME val dir.

(* [pcm_macros.h 1588-1595 snd_pcm_hw_params_set_buffer_time_last] *)
Definition snd_pcm_hw_params_set_buffer_time_last (pcm : snd_pcm_t) (params : snd_pcm_hw_params_t) (val : option Z) (dir : option Z) :=
  _snd_pcm_hw_param_set_last pcm params HW_PARAM_BUFFER_TIME val dir.

(* [pcm_macros.h 1598-1604 snd_pcm_hw_params_get_buffer_size] *)
Definition snd_pcm_hw_params_get_buffer_size (params : snd_pcm_hw_params_t) (junk : Z) :=
  __snd_pcm_hw_param_get64 params HW_PARAM_BUFFER_SIZE junk None.

(* [pcm_macros.h 1606-1612 snd_pcm_hw_params_get_buffer_size_min] *)
Definition snd_pcm_hw_params_get_buffer_size_min (params : snd_pcm_hw_params_t) (junk : Z) :=
  __snd_pcm_hw_param_get_min64 params HW_PARAM_BUFFER_SIZE junk None.

(* [pcm_macros.h 1614-1620 snd_pcm_hw_params_get_buffer_size_max] *)
Definition snd_pcm_hw_params_get_buffer_size_max (params : snd_pcm_hw_params_t) (junk : Z) :=
  __snd_pcm_hw_param_get_max64 params HW_PARAM_BUFFER_SIZE junk None.

(* [pcm_macros.h 1622-1628 snd_pcm_hw_params_test_buffer_size] *)
Definition snd_pcm_hw_params_test_buffer_size (pcm : snd_pcm_t) (params : snd_pcm_hw_params_t) (val : Z) :=
  _snd_pcm_hw_param_test pcm params HW_PARAM_BUFFER_SIZE (u32 val) None.

(* [pcm_macros.h 1630-1636 snd_pcm_hw_params_set_buffer_size] *)
Definition snd_pcm_hw_params_set_buffer_size (pcm : snd_pcm_t) (params : snd_pcm_hw_params_t) (val : Z) :=
  _snd_pcm_hw_param_set pcm params HW_PARAM_BUFFER_SIZE (u32 val) 0.

(* [pcm_macros.h 1638-1644 snd_pcm_hw_params_set_buffer_size_min] *)
Definition snd_pcm_hw_params_set_buffer_size_min (pcm : snd_pcm_t) (params : snd_pcm_hw_params_t) (val : Z) :=
  __snd_pcm_hw_param_set_min64 pcm params HW_PARAM_BUFFER_SIZE val None.

(* [pcm_macros.h 1646-1652 snd_pcm_hw_params_set_buffer_size_max] *)
Definition snd_pcm_hw_params_set_buffer_size_max (pcm : snd_pcm_t) (params : snd_pcm_hw_params_t) (val : Z) :=
  __snd_pcm_hw_param_set_max64 pcm params HW_PARAM_BUFFER_SIZE val None.

(* [pcm_macros.h 1654-1663 snd_pcm_hw_params_set_buffer_size_minmax64] *)
Definition snd_pcm_hw_params_set_buffer_size_minmax64 (pcm : snd_pcm_t) (params : snd_pcm_hw_params_t) (min : Z) (max : Z) :=
  __snd_pcm_hw_param_set_minmax64 pcm params HW_PARAM_BUFFER_SIZE min None max None.

(* [pcm_macros.h 1665-1672 snd_pcm_hw_params_set_buffer_size_near] *)
Definition snd_pcm_hw_params_set_buffer_size_near (pcm : snd_pcm_t) (params : snd_pcm_hw_params_t) (val : Z) :=
  __snd_pcm_hw_param_set_near64 pcm params HW_PARAM_BUFFER_SIZE val None.

(* [pcm_macros.h 1674-1681 snd_pcm_hw_params_set_buffer_size_first] *)
Definition snd_pcm_hw_params_set_buffer_size_first (pcm : snd_pcm_t) (params : snd_pcm_hw_params_t) (val : Z) :=
  __snd_pcm_hw_param_set_first64 pcm params HW_PARAM_BUFFER_SIZE val None.

(* [pcm_macros.h 1683-1690 snd_pcm_hw_params_set_buffer_size_last] *)
Definition snd_pcm_hw_params_set_buffer_size_last (pcm : snd_pcm_t) (params : snd_pcm_hw_params_t) (val : Z) :=
  __snd_pcm_hw_param_set_last64 pcm params HW_PARAM_BUFFER_SIZE val None.

(* [pcm_macros.h 1692-1698 snd_pcm_hw_params_get_tick_time] *)
Definition snd_pcm_hw_params_get_tick_time (params : snd_pcm_hw_params_t) (val : option Z) (dir : option Z) :=
  _snd_pcm_hw_param_get params HW_PARAM_TICK_TIME val dir.

(* [pcm_macros.h 1700-1706 snd_pcm_hw_params_get_tick_time_min] *)
Definition snd_pcm_hw_params_get_tick_time_min (params : snd_pcm_hw_params_t) (val : option Z) (dir : option Z) :=
  _snd_pcm_hw_param_get_min params HW_PARAM_TICK_TIME val dir.

(* [pcm_macros.h 1708-1714 snd_pcm_hw_params_get_tick_time_max] *)
Definition snd_pcm_hw_params_get_tick_time_max (params : snd_pcm_hw_params_t) (val : option Z) (dir : option Z) :=
  _snd_pcm_hw_param_get_max params HW_PARAM_TICK_TIME val dir.

(* [pcm_macros.h 1716-1723 snd_pcm_hw_params_test_tick_time] *)
Definition snd_pcm_hw_params_test_tick_time (pcm : snd_pcm_t) (params : snd_pcm_hw_params_t) (val : Z) (dir : Z) :=
  _snd_pcm_hw_param_test pcm params HW_PARAM_TICK_TIME val (Some dir).

(* [pcm_macros.h 1725-1732 snd_pcm_hw_params_set_tick_time] *)
Definition snd_pcm_hw_params_set_tick_time (pcm : snd_pcm_t) (params : snd_pcm_hw_params_t) (val : Z) (dir : Z) :=
  _snd_pcm_hw_param_set pcm params HW_PARAM_TICK_TIME val dir.

(* [pcm_macros.h 1734-1741 snd_pcm_hw_params_set_tick_time_min] *)
Definition snd_pcm_hw_params_set_tick_time_min (pcm : snd_pcm_t) (params : snd_pcm_hw_params_t) (val : Z) (dir : option Z) :=
  _snd_pcm_hw_param_set_min pcm params HW_PARAM_TICK_TIME val dir.

(* [pcm_macros.h 1743-1750 snd_pcm_hw_params_set_tick_time_max] *)
Definition snd_pcm_hw_params_set_tick_time_max (pcm : snd_pcm_t) (params : snd_pcm_hw_params_t) (val : Z) (dir : option Z) :=
  _snd_pcm_hw_param_set_max pcm params HW_PARAM_TICK_TIME val dir.

(* [pcm_macros.h 1752-1761 snd_pcm_hw_params_set_tick_time_minmax] *)
Definition snd_pcm_hw_params_set_tick_time_minmax (pcm : snd_pcm_t) (params : snd_pcm_hw_params_t) (min : Z) (mindir : option Z) (max : Z) (maxdir : option Z) :=
  _snd_pcm_hw_param_set_minmax pcm params HW_PARAM_TICK_TIME min mindir max maxdir.

(* [pcm_macros.h 1763-1770 snd_pcm_hw_params_set_tick_time_near] *)
Definition snd_pcm_hw_params_set_tick_time_near (pcm : snd_pcm_t) (params : snd_pcm_hw_params_t) (val : Z) (dir : option Z) :=
  _snd_pcm_hw_param_set_near pcm params HW_PARAM_TICK_TIME val dir.

(* [pcm_macros.h 1772-1779 snd_pcm_hw_params_set_tick_time_first] *)
Definition snd_pcm_hw_params_set_tick_time_first (pcm : snd_pcm_t) (params : snd_pcm_hw_params_t) (val : option Z) (dir : option Z) :=
  _snd_pcm_hw_param_set_first pcm params HW_PARAM_TICK_TIME val dir.

(* [pcm_macros.h 1781-1788 snd_pcm_hw_params_set_tick_time_last] *)
Definition snd_pcm_hw_params_set_tick_time_last (pcm : snd_pcm_t) (params : snd_pcm_hw_params_t) (val : option Z) (dir : option Z) :=
  _snd_pcm_hw_param_set_last pcm params HW_PARAM_TICK_TIME val dir.

End Accessors.
