(* ===== verification/HwParamsSpec.v ===== *)
(** * Hardware parameters: correctness

    What the operations of [HwParams] promise: a failing operation changes
    nothing, a successful one only narrows the configuration space, a value set is
    the value read back, and the choice of a configuration leaves one. *)

From S2P Require Import Prelude CInt Sys Mask Interval PcmTypes HwParams.
#[local] Open Scope Z_scope.

(** ** Configuration spaces *)

Definition params_wf (p : snd_pcm_hw_params_t) : Prop :=
  length (masks p) = 3%nat /\ Forall mask_wf (masks p) /\
  length (intervals p) = 12%nat /\ Forall interval_wf (intervals p).

Definition valid_var (var : Z) : Prop := hw_is_mask var = true \/ hw_is_interval var = true.

#[global] Instance valid_var_dec var : Decision (valid_var var).
Proof. unfold valid_var. apply _. Defined.

(** The parameter [var] of [q] allows no more than the one of [p]. *)
Definition narrower_at (p q : snd_pcm_hw_params_t) (var : Z) : Prop :=
  (hw_is_mask var = true ->
     forall x, in_mask (hw_param_mask q var) x -> in_mask (hw_param_mask p var) x) /\
  (hw_is_interval var = true -> tighter (hw_param_interval p var) (hw_param_interval q var)).

Definition narrower (p q : snd_pcm_hw_params_t) : Prop := forall var, narrower_at p q var.

(** Every parameter still allows something. *)
Definition inhabited (p : snd_pcm_hw_params_t) : Prop :=
  forall var, valid_var var -> snd_pcm_hw_param_empty p var = false.

(** What HW_REFINE promises: where it succeeds, the space it gives back is well
    formed, lies within the one it was given, and is not empty. *)
Class RefiningKernel (K : Type) `{!PcmKernel K} := {
  refine_narrows : forall fd p k rc p' k',
    ioctl_hw_refine fd p k = (rc, p', k') -> 0 <= rc -> params_wf p ->
    params_wf p' /\ narrower p p' /\ inhabited p'
}.

(** ** Lemmas on the parameter arrays *)

Lemma mask_not_interval var : hw_is_mask var = true -> hw_is_interval var = false.
Proof.
  unfold hw_is_mask, hw_is_interval, HW_PARAM_FIRST_MASK, HW_PARAM_LAST_MASK,
    HW_PARAM_FIRST_INTERVAL, HW_PARAM_LAST_INTERVAL, HW_PARAM_ACCESS, HW_PARAM_SUBFORMAT,
    HW_PARAM_SAMPLE_BITS, HW_PARAM_TICK_TIME. intros H. zbool.
  apply andb_false_iff. left. apply Z.leb_gt. lia.
Qed.

Lemma mask_var_range var : hw_is_mask var = true -> 0 <= var < 3.
Proof.
  unfold hw_is_mask. rewrite andb_true_iff, !Z.leb_le.
  change HW_PARAM_FIRST_MASK with 0. change HW_PARAM_LAST_MASK with 2. lia.
Qed.

Lemma interval_var_range var : hw_is_interval var = true -> 8 <= var < 20.
Proof.
  unfold hw_is_interval. rewrite andb_true_iff, !Z.leb_le.
  change HW_PARAM_FIRST_INTERVAL with 8. change HW_PARAM_LAST_INTERVAL with 19. lia.
Qed.

Lemma get_put_mask p var m :
  length (masks p) = 3%nat -> hw_is_mask var = true -> hw_param_mask (put_mask p var m) var = m.
Proof.
  intros Hl Hv%mask_var_range. destruct p. unfold hw_param_mask; simpl in *.
  change HW_PARAM_FIRST_MASK with 0. rewrite nthz_upd_eq by lia. done.
Qed.

Lemma get_put_mask_ne p var v m :
  hw_is_mask var = true -> v <> var -> hw_param_mask (put_mask p var m) v = hw_param_mask p v.
Proof.
  intros Hv%mask_var_range Hne. destruct p. unfold hw_param_mask; simpl in *.
  change HW_PARAM_FIRST_MASK with 0. rewrite nthz_upd_ne by lia. done.
Qed.

Lemma get_put_interval p var i :
  length (intervals p) = 12%nat -> hw_is_interval var = true ->
  hw_param_interval (put_interval p var i) var = i.
Proof.
  intros Hl Hv%interval_var_range. destruct p. unfold hw_param_interval; simpl in *.
  change HW_PARAM_FIRST_INTERVAL with 8. rewrite nthz_upd_eq by lia. done.
Qed.

Lemma get_put_interval_ne p var v i :
  hw_is_interval var = true -> v <> var ->
  hw_param_interval (put_interval p var i) v = hw_param_interval p v.
Proof.
  intros Hv%interval_var_range Hne. destruct p. unfold hw_param_interval; simpl in *.
  change HW_PARAM_FIRST_INTERVAL with 8. rewrite nthz_upd_ne by lia. done.
Qed.

Lemma mask_of_interval_put p var i v : hw_param_mask (put_interval p var i) v = hw_param_mask p v.
Proof. destruct p. done. Qed.

Lemma interval_of_mask_put p var m v :
  hw_param_interval (put_mask p var m) v = hw_param_interval p v.
Proof. destruct p. done. Qed.

Lemma marked_arrays p var :
  masks (mark_changed p var) = masks p /\ intervals (mark_changed p var) = intervals p.
Proof. destruct p. done. Qed.

Lemma nthz_Forall {A} (P : A -> Prop) d l i : Forall P l -> P d -> P (nthz d l i).
Proof.
  intros Hl Hd. unfold nthz. destruct (i <? 0); [done|]. rewrite nth_lookup.
  destruct (l !! Z.to_nat i) eqn:He; simpl; [|done]. eapply Forall_lookup_1; eauto.
Qed.

Lemma wf_mask p var : params_wf p -> mask_wf (hw_param_mask p var).
Proof. intros (_ & Hm & _). unfold hw_param_mask. apply nthz_Forall; [done|apply mask_none_wf]. Qed.

Lemma zero_interval_wf : interval_wf zero_interval.
Proof. by_decide. Qed.

Lemma wf_interval p var : params_wf p -> interval_wf (hw_param_interval p var).
Proof. intros (_ & _ & _ & Hi). unfold hw_param_interval. apply nthz_Forall; [done|apply zero_interval_wf]. Qed.

Lemma wf_put_mask p var m : params_wf p -> mask_wf m -> params_wf (put_mask p var m).
Proof.
  intros (Hl & Hm & Hl' & Hi) Hw. destruct p; simpl in *.
  split; [simpl; rewrite length_upd; done|]. split; [|done].
  apply Forall_alter; auto.
Qed.

Lemma wf_put_interval p var i : params_wf p -> interval_wf i -> params_wf (put_interval p var i).
Proof.
  intros (Hl & Hm & Hl' & Hi) Hw. destruct p; simpl in *. split; [done|]. split; [done|].
  split; [simpl; rewrite length_upd; done|]. apply Forall_alter; auto.
Qed.

Lemma wf_marked p var : params_wf p -> params_wf (mark_changed p var).
Proof. destruct p. done. Qed.

#[export] Hint Resolve wf_mask wf_interval wf_put_mask wf_put_interval wf_marked : salsa.

(** ** The order on configuration spaces *)

Lemma narrower_refl p : narrower p p.
Proof. intros var. split; [done|]. intros _. apply tighter_refl. Qed.

Lemma narrower_trans p q r : narrower p q -> narrower q r -> narrower p r.
Proof.
  intros H1 H2 var. destruct (H1 var) as [Hm Hi], (H2 var) as [Hm' Hi']. split; [auto|].
  intros Hv. eapply tighter_trans; eauto.
Qed.

#[export] Instance narrower_preorder : PreOrder narrower.
Proof. split; [exact narrower_refl|exact narrower_trans]. Qed.

Lemma narrower_marked p var : narrower p (mark_changed p var).
Proof.
  intros v. destruct (marked_arrays p var) as [Hm Hi].
  split; intros _; unfold hw_param_mask, hw_param_interval; rewrite ?Hm, ?Hi;
    [done|apply tighter_refl].
Qed.

Lemma narrower_put_mask p var m :
  hw_is_mask var = true -> length (masks p) = 3%nat ->
  (forall x, in_mask m x -> in_mask (hw_param_mask p var) x) -> narrower p (put_mask p var m).
Proof.
  intros Hv Hl Hsub v. split; intros Hmv.
  - destruct (decide (v = var)) as [->|Hne]; [rewrite get_put_mask by done; done|].
    rewrite get_put_mask_ne by done. done.
  - rewrite interval_of_mask_put. apply tighter_refl.
Qed.

Lemma narrower_put_interval p var i :
  hw_is_interval var = true -> length (intervals p) = 12%nat ->
  tighter (hw_param_interval p var) i -> narrower p (put_interval p var i).
Proof.
  intros Hv Hl Hsub v. split; intros Hmv.
  - rewrite mask_of_interval_put. done.
  - destruct (decide (v = var)) as [->|Hne]; [rewrite get_put_interval by done; done|].
    rewrite get_put_interval_ne by done. apply tighter_refl.
Qed.

(** ** Failure leaves the parameters alone *)

(** The operations that save the parameters before they try. *)
Inductive set_op :=
  | OpSetMin (val : Z) (dir : option Z)
  | OpSetMax (val : Z) (dir : option Z)
  | OpSetMinmax (min : Z) (mindir : option Z) (max : Z) (maxdir : option Z)
  | OpSet (val dir : Z)
  | OpTest (val : Z) (dir : option Z).

Definition run_set_op {K} `{!PcmKernel K} (op : set_op) (pcm : snd_pcm_t)
  (params : snd_pcm_hw_params_t) (var : Z) : io K (Z * snd_pcm_hw_params_t) :=
  match op with
  | OpSetMin val dir =>
      let* '(rc, p, _, _) := _snd_pcm_hw_param_set_min pcm params var val dir in ret (rc, p)
  | OpSetMax val dir =>
      let* '(rc, p, _, _) := _snd_pcm_hw_param_set_max pcm params var val dir in ret (rc, p)
  | OpSetMinmax min mindir max maxdir =>
      let* '(rc, p, _, _) := _snd_pcm_hw_param_set_minmax pcm params var min mindir max maxdir in
      ret (rc, p)
  | OpSet val dir => _snd_pcm_hw_param_set pcm params var val dir
  | OpTest val dir => _snd_pcm_hw_param_test pcm params var val dir
  end.

(** [hw_param_update_var] returns 0 or an error. *)
Lemma hw_refine_code {K} `{!PcmKernel K} pcm p (k : K) :
  let '(rc, _, _) := snd_pcm_hw_refine pcm p k in rc <= 0.
Proof.
  unfold snd_pcm_hw_refine, bind, ret. destruct (ioctl_hw_refine _ _ _) as [[rc p'] k'].
  destruct (Z.ltb_spec rc 0); lia.
Qed.

Lemma update_var_code {K} `{!PcmKernel K} pcm p var c (k : K) :
  let '(rc, _, _) := hw_param_update_var pcm p var c k in rc <= 0.
Proof.
  unfold hw_param_update_var, bind, ret. destruct (Z.ltb_spec c 0); [lia|].
  destruct (nz (rmask _)); [|lia].
  pose proof (hw_refine_code pcm (if nz c then mark_changed p var else p) k) as Hrc.
  destruct (snd_pcm_hw_refine _ _ _) as [[rc p'] k'].
  destruct (Z.ltb_spec rc 0); [lia|]. destruct (snd_pcm_hw_param_empty p' var); unfold ENOENT; simpl; lia.
Qed.

Lemma param_set_transactional {K} `{!PcmKernel K} pcm params var val dir (k : K) :
  let '(rc, params', _) := _snd_pcm_hw_param_set pcm params var val dir k in
  rc <= 0 /\ (rc <> 0 -> params' = params).
Proof.
  unfold _snd_pcm_hw_param_set. destruct (hw_param_set _ _ _ _) as [e p].
  unfold bind, ret. pose proof (update_var_code pcm p var e k) as Hc.
  destruct (hw_param_update_var pcm p var e k) as [[e1 p1] k1].
  destruct (Z.ltb_spec e1 0); split; auto; lia.
Qed.

Lemma get_min_code p var val dir : (_snd_pcm_hw_param_get_min p var val dir).1.1 = 0.
Proof. unfold _snd_pcm_hw_param_get_min. repeat case_goal; done. Qed.

Lemma get_max_code p var val dir : (_snd_pcm_hw_param_get_max p var val dir).1.1 = 0.
Proof. unfold _snd_pcm_hw_param_get_max. repeat case_goal; done. Qed.

(** C3. Setting a bound, a range or a value is a transaction: whatever the driver
    answers, an operation that does not return 0 leaves the parameters as they
    were, and a test leaves them in every case. *)
Theorem set_op_transactional {K} `{!PcmKernel K} (op : set_op) (pcm : snd_pcm_t)
  (params : snd_pcm_hw_params_t) (var : Z) (k : K) :
  let '(rc, params', _) := run_set_op op pcm params var k in
  rc <> 0 \/ (exists val dir, op = OpTest val dir) -> params' = params.
Proof.
  destruct op as [val dir|val dir|mn mnd mx mxd|val dir|val dir]; simpl; unfold bind, ret.
  - unfold _snd_pcm_hw_param_set_min. destruct (hw_param_set_min _ _ _ _) as [e p].
    unfold bind, ret. destruct (hw_param_update_var _ _ _ _ _) as [[e1 p1] k1].
    pose proof (get_min_code p1 var (Some val) dir).
    destruct (Z.eqb_spec e1 0) as [->|]; [|done].
    destruct (_snd_pcm_hw_param_get_min _ _ _ _) as [[e2 v2] d2].
    intros [?|(? & ? & [=])]. done.
  - unfold _snd_pcm_hw_param_set_max. destruct (hw_param_set_max _ _ _ _) as [e p].
    unfold bind, ret. destruct (hw_param_update_var _ _ _ _ _) as [[e1 p1] k1].
    pose proof (get_max_code p1 var (Some val) dir).
    destruct (Z.eqb_spec e1 0) as [->|]; [|done].
    destruct (_snd_pcm_hw_param_get_max _ _ _ _) as [[e2 v2] d2].
    intros [?|(? & ? & [=])]. done.
  - unfold _snd_pcm_hw_param_set_minmax. destruct (hw_param_set_minmax _ _ _ _ _ _) as [e p].
    unfold bind, ret. destruct (hw_param_update_var _ _ _ _ _) as [[e1 p1] k1].
    pose proof (get_min_code p1 var (Some mn) mnd). pose proof (get_max_code p1 var (Some mx) mxd).
    destruct (Z.eqb_spec e1 0) as [->|]; [|done].
    destruct (_snd_pcm_hw_param_get_min _ _ _ _) as [[e2 v2] d2].
    destruct (_snd_pcm_hw_param_get_max _ _ _ _) as [[e3 v3] d3]. simpl in *. subst.
    intros [?|(? & ? & [=])]. done.
  - pose proof (param_set_transactional pcm params var val dir k) as Hs.
    destruct (_snd_pcm_hw_param_set _ _ _ _ _ _) as [[e1 p1] k1].
    intros [?|(? & ? & [=])]. apply Hs. done.
  - unfold _snd_pcm_hw_param_test, bind, ret.
    destruct (_snd_pcm_hw_param_set _ _ _ _ _ _) as [[e1 p1] k1]. done.
Qed.

(** ** What a successful operation leaves *)

Lemma valid_var_range var : valid_var var -> 0 <= var < 20.
Proof. intros [H|H]; [apply mask_var_range in H|apply interval_var_range in H]; lia. Qed.

Lemma var_bit_nonzero var : valid_var var -> u32 (Z.shiftl 1 var) <> 0.
Proof.
  intros Hv%valid_var_range. rewrite Z.shiftl_1_l.
  assert (0 < 2 ^ var) by (apply Z.pow_pos_nonneg; lia).
  assert (2 ^ var < 2 ^ 32) by (apply Z.pow_lt_mono_r; lia).
  rewrite u32_id; unfold is_u32, UINT_MAX; lia.
Qed.

Lemma marked_rmask p var : valid_var var -> rmask (mark_changed p var) <> 0.
Proof.
  intros Hv Hz. destruct p; simpl in Hz. apply Z.lor_eq_0_iff in Hz as [_ Hz].
  revert Hz. apply var_bit_nonzero. done.
Qed.

(** The two ways a parameter is a single value. *)
Lemma single_mask_get p var v :
  hw_is_mask var = true -> params_wf p -> in_mask (hw_param_mask p var) v ->
  (forall x, in_mask (hw_param_mask p var) x -> x = v) ->
  forall val dir, _snd_pcm_hw_param_get p var val dir = (0, store val v, store dir 0).
Proof.
  intros Hv Hwf Hin Huniq val dir. pose proof (wf_mask p var Hwf) as Hm.
  unfold _snd_pcm_hw_param_get, hw_param_mask_c. rewrite Hv.
  rewrite (proj2 (mask_empty_false _ Hm)) by eauto.
  rewrite (proj2 (mask_single_spec _ Hm)).
  2:{ intros x y Hx%Huniq Hy%Huniq. congruence. }
  simpl. rewrite (Huniq (mask_get_min (hw_param_mask p var))); [done|].
  apply (mask_get_min_spec _ v Hm Hin).
Qed.

Lemma single_interval_get p var v :
  hw_is_interval var = true -> params_wf p -> iempty (hw_param_interval p var) = false ->
  v <= imin (hw_param_interval p var) -> imax (hw_param_interval p var) <= v ->
  forall val dir, _snd_pcm_hw_param_get p var val dir = (0, store val v, store dir 0).
Proof.
  intros Hv Hwf He Hlo Hhi val dir. destruct (wf_interval p var Hwf) as (_ & _ & Hb).
  specialize (Hb He). unfold bounds_ok in Hb.
  unfold _snd_pcm_hw_param_get, hw_param_interval_c, interval_is_empty, interval_is_single.
  destruct (hw_is_mask var) eqn:Hm; [rewrite mask_not_interval in Hv; done|].
  rewrite Hv, He. assert (imin (hw_param_interval p var) = v) as -> by lia.
  assert (imax (hw_param_interval p var) = v) as -> by lia.
  rewrite Z.eqb_refl. simpl. destruct Hb as [|(_ & -> & _)]; [lia|]. done.
Qed.

Lemma refine_min_bound i m o n rc i' :
  iempty i = false -> bound_ok (Lower m o) (integer i || n) ->
  interval_wf i -> snd_interval_refine_min i m o n = (rc, i') -> m <= imin i'.
Proof.
  intros He Hb Hwf. rewrite refine_min_eq by done.
  pose proof (meet_min_ok i m o (integer i || n)) as Hok.
  assert (Hge : m <= (meet_min (imin i) (openmin i) m o).1.1).
  { unfold meet_min. destruct (Z.ltb_spec (imin i) m); simpl; [lia|].
    destruct (_ && _ && _); simpl; lia. }
  destruct (meet_min _ _ _ _) as [[m1 o1] c]. destruct (Hok _ _ _ Hwf He Hb eq_refl) as [Hm1 Hov].
  pose proof (close_min_lex m1 o1 _ (proj1 Hm1) Hov) as Hl. simpl in Hge.
  destruct (close_min _ _ _) as [m2 o2]. unfold finish.
  destruct (emptied _); intros [= _ <-]; simpl; lia.
Qed.

Lemma refine_max_bound i m o n rc i' :
  iempty i = false -> bound_ok (Upper m o) (integer i || n) ->
  interval_wf i -> snd_interval_refine_max i m o n = (rc, i') ->
  imax i' <= m /\ imin i' = imin i.
Proof.
  intros He Hb Hwf. rewrite refine_max_eq by done.
  pose proof (meet_max_ok i m o (integer i || n)) as Hok.
  assert (Hge : (meet_max (imax i) (openmax i) m o).1.1 <= m).
  { unfold meet_max. destruct (Z.ltb_spec m (imax i)); simpl; [lia|].
    destruct (_ && _ && _); simpl; lia. }
  destruct (meet_max _ _ _ _) as [[m1 o1] c]. destruct (Hok _ _ _ Hwf He Hb eq_refl) as [Hm1 Hov].
  pose proof (close_max_lex m1 o1 _ (proj2 Hm1) Hov) as Hl. simpl in Hge.
  destruct (close_max _ _ _) as [m2 o2]. unfold finish.
  destruct (emptied _); intros [= _ <-]; simpl; lia.
Qed.

(** Setting an interval to a value pins both bounds. *)
Lemma refine_set_pins i val rc i' :
  interval_wf i -> is_u32 val -> snd_interval_refine_set i val = (rc, i') -> 0 <= rc ->
  interval_wf i' /\ tighter i i' /\ iempty i' = false /\ val <= imin i' /\ imax i' <= val.
Proof.
  intros Hwf Hval Hr Hrc. unfold is_u32 in Hval.
  pose proof (interval_refine_meets i (Interval val val false false true false) Hwf) as Hc.
  unfold snd_interval_refine_set in Hr. rewrite Hr in Hc.
  destruct Hc as (Hwf' & _ & Hcode & Ht); [|done|].
  { split; [done|]. split; [done|]. intros _. right. done. }
  destruct (code_nonneg _ _ _ Hcode) as [He He']; [apply Z.ltb_ge; done|]. simpl in *.
  split; [done|]. split; [done|]. split; [done|].
  unfold snd_interval_refine in Hr. simpl in Hr.
  assert (Hlo : bound_ok (Lower val false) (integer i || true)) by (split; [done|rewrite andb_false_r; done]).
  pose proof (refine_lower_correct i val false true Hwf Hlo) as (Hw1 & _ & Hc1 & _).
  destruct (snd_interval_refine_min i val false true) as [c1 i1] eqn:H1. simpl in *.
  destruct (c1 <? 0) eqn:Hn1; [injection Hr as <- <-; zbool; lia|].
  destruct (code_nonneg _ _ _ Hc1 Hn1) as [_ He1].
  pose proof (refine_min_bound _ _ _ _ _ _ He Hlo Hwf H1).
  assert (Hup : bound_ok (Upper val false) (integer i1 || true)) by (split; [done|rewrite andb_false_r; done]).
  destruct (snd_interval_refine_max i1 val false true) as [c2 i2] eqn:H2.
  destruct (refine_max_bound _ _ _ _ _ _ He1 Hup Hw1 H2).
  destruct (c2 <? 0); injection Hr as <- <-; [lia|]. case_goal; simpl; lia.
Qed.

Section Narrowing.
Context {K : Type} `{!PcmKernel K, !RefiningKernel K}.

Lemma update_var_spec pcm p var c (k : K) p' k' :
  params_wf p -> valid_var var -> hw_param_update_var pcm p var c k = (0, p', k') ->
  0 <= c /\ params_wf p' /\ narrower p p' /\ (inhabited p' \/ p' = p /\ c = 0).
Proof using All.
  intros Hwf Hvar. unfold hw_param_update_var, snd_pcm_hw_refine, bind, ret.
  destruct (Z.ltb_spec c 0); [intros [=]; lia|].
  set (p1 := if nz c then mark_changed p var else p).
  assert (Hwf1 : params_wf p1) by (unfold p1; destruct (nz c); auto with salsa).
  assert (Hn1 : narrower p p1)
    by (unfold p1; destruct (nz c); [apply narrower_marked|reflexivity]).
  destruct (nz (rmask p1)) eqn:Hr.
  - destruct (ioctl_hw_refine (fd pcm) p1 k) as [[rc p2] k2] eqn:Hk.
    destruct (Z.ltb_spec rc 0).
    + destruct (Z.ltb_spec rc 0); [|lia]. intros [=]. lia.
    + destruct (refine_narrows _ _ _ _ _ _ Hk ltac:(lia) Hwf1) as (Hw2 & Hn2 & Hin).
      simpl. destruct (snd_pcm_hw_param_empty p2 var) eqn:He; intros [= <- <-].
      split; [done|]. split; [done|]. split; [transitivity p1; done|auto].
  - intros [= <- <-]. split; [done|]. split; [done|]. split; [done|]. right.
    apply nz_false in Hr. unfold p1 in *. destruct (nz c) eqn:Hc.
    + exfalso. eapply marked_rmask; eauto.
    + apply nz_false in Hc. done.
Qed.

(** Narrowing keeps a single value. *)
Lemma narrower_get p q var v :
  valid_var var -> params_wf q -> snd_pcm_hw_param_empty q var = false -> narrower p q ->
  (hw_is_mask var = true -> forall x, in_mask (hw_param_mask p var) x -> x = v) ->
  (hw_is_interval var = true ->
     v <= imin (hw_param_interval p var) /\ imax (hw_param_interval p var) <= v) ->
  forall val dir, _snd_pcm_hw_param_get q var val dir = (0, store val v, store dir 0).
Proof using All.
  intros Hvar Hwf Hin Hn Hm Hi. destruct (Hn var) as [Hnm Hni].
  unfold snd_pcm_hw_param_empty, hw_param_mask_c, hw_param_interval_c, interval_is_empty in Hin.
  destruct Hvar as [Hv|Hv].
  - rewrite Hv in Hin. apply mask_empty_false in Hin as [x Hx]; [|auto with salsa].
    assert (x = v) as -> by auto. apply single_mask_get; auto.
  - destruct (hw_is_mask var) eqn:Hmv; [rewrite mask_not_interval in Hv; done|].
    destruct (Hni Hv) as (Hlo & Hhi & _), (Hi Hv). apply single_interval_get; auto; lia.
Qed.
(** A value [var] can take: a bit number of a mask, a 32-bit number. *)
Definition value_ok (var val : Z) : Prop :=
  if hw_is_mask var then 0 <= val < SND_MASK_MAX else is_u32 val.

(** The two forms of "[var] of [p] allows at most [v]". *)
Definition pinned (p : snd_pcm_hw_params_t) (var v : Z) : Prop :=
  (hw_is_mask var = true -> forall x, in_mask (hw_param_mask p var) x -> x = v) /\
  (hw_is_interval var = true ->
     v <= imin (hw_param_interval p var) /\ imax (hw_param_interval p var) <= v).

Lemma refined_code_nonneg m m' : 0 <= refine_code m m' -> _snd_mask_empty m' = false.
Proof.
  unfold refine_code, ENOENT, EINVAL. destruct (_snd_mask_empty m); [lia|].
  destruct (_snd_mask_empty m'); [lia|done].
Qed.

Lemma hw_param_set_spec p var val rc p1 :
  params_wf p -> valid_var var -> value_ok var val -> hw_param_set p var val 0 = (rc, p1) -> 0 <= rc ->
  params_wf p1 /\ narrower p p1 /\ pinned p1 var val /\ snd_pcm_hw_param_empty p1 var = false /\
  (forall v, v <> var -> snd_pcm_hw_param_empty p1 v = snd_pcm_hw_param_empty p v).
Proof.
  intros Hwf Hvar Hval. unfold hw_param_set, value_ok, pinned, snd_pcm_hw_param_empty,
    hw_param_mask_c, hw_param_interval_c in *.
  rewrite andb_false_r. change (0 <? 0) with false. change (0 =? 0) with true. cbv iota.
  destruct (hw_is_mask var) eqn:Hm.
  - unfold on_mask. pose proof (run_mask_op_refined (RefineSet val) (hw_param_mask p var)
      (wf_mask p var Hwf) Hval) as (Hw & Hin & Hrc). simpl in *.
    destruct (snd_mask_refine_set _ _) as [rc1 m]. simpl in *. intros [= <- <-] Hge.
    destruct Hwf as (Hl & Hwf'). rewrite get_put_mask by done. subst rc1.
    split; [apply wf_put_mask; done|].
    split; [apply narrower_put_mask; auto; intros x Hx; apply Hin; done|].
    split; [split; [intros _ x Hx; apply Hin; done|intros Hi; rewrite mask_not_interval in Hi; done]|].
    split; [apply refined_code_nonneg in Hge; done|].
    intros v Hne. rewrite get_put_mask_ne, interval_of_mask_put by done. done.
  - destruct Hvar as [Hvar|Hvar]; [congruence|]. unfold on_interval.
    destruct (snd_interval_refine_set _ _) as [rc1 i] eqn:Hr. intros [= <- <-] Hge.
    destruct (refine_set_pins _ _ _ _ (wf_interval p var Hwf) Hval Hr Hge) as (Hwi & Ht & He & Hlo & Hhi).
    destruct Hwf as (Hl & Hwm & Hli & Hwi'). rewrite get_put_interval by done.
    split; [apply wf_put_interval; done|]. split; [apply narrower_put_interval; done|].
    split; [split; [done|auto]|]. split; [done|].
    intros v Hne. rewrite get_put_interval_ne, mask_of_interval_put by done. done.
Qed.

(** C15. A value that was set is the value read back: where setting a parameter to
    a value succeeds, the parameters stay well formed and inside the space they
    were in, every parameter still allows something, and reading the parameter gives
    the value with direction 0, for every driver whose HW_REFINE narrows. *)
Theorem set_then_get (pcm : snd_pcm_t) (p p' : snd_pcm_hw_params_t) (var val : Z) (k k' : K) :
  params_wf p -> inhabited p -> valid_var var -> value_ok var val ->
  _snd_pcm_hw_param_set pcm p var val 0 k = (0, p', k') ->
  params_wf p' /\ narrower p p' /\ inhabited p' /\
  forall v d, _snd_pcm_hw_param_get p' var v d = (0, store v val, store d 0).
Proof using All.
  intros Hwf Hinh Hvar Hval. unfold _snd_pcm_hw_param_set, bind, ret.
  destruct (hw_param_set p var val 0) as [rc p1] eqn:Hs.
  destruct (hw_param_update_var pcm p1 var rc k) as [[e p2] k2] eqn:Hu.
  destruct (Z.ltb_spec e 0); intros [= -> <- <-]; [lia|].
  destruct (Z.ltb_spec rc 0) as [Hneg|Hge].
  { unfold hw_param_update_var in Hu. apply Z.ltb_lt in Hneg. rewrite Hneg in Hu.
    injection Hu as -> _ _. done. }
  destruct (hw_param_set_spec _ _ _ _ _ Hwf Hvar Hval Hs Hge) as (Hw1 & Hn1 & [Hpm Hpi] & He & Hother).
  destruct (update_var_spec _ _ _ _ _ _ _ Hw1 Hvar Hu) as (_ & Hw2 & Hn2 & Hlive).
  assert (Hinh2 : inhabited p2).
  { destruct Hlive as [?|[-> _]]; [done|]. intros v Hv.
    destruct (decide (v = var)) as [->|]; [done|]. rewrite Hother by done. auto. }
  split; [done|]. split; [transitivity p1; done|]. split; [done|].
  apply (narrower_get p1); auto.
Qed.
End Narrowing.

(** ** Choosing one configuration *)

Definition single_at (p : snd_pcm_hw_params_t) (var : Z) : Prop :=
  (hw_is_mask var = true -> forall x y,
     in_mask (hw_param_mask p var) x -> in_mask (hw_param_mask p var) y -> x = y) /\
  (hw_is_interval var = true -> interval_is_single (hw_param_interval p var) = true).

Lemma tighter_single i j :
  interval_wf i -> iempty i = false -> interval_wf j -> iempty j = false ->
  tighter i j -> interval_is_single i = true -> interval_is_single j = true.
Proof.
  intros (Hm & HM & Hbi) He (Hm' & HM' & Hb) He' (Hlo & Hhi & _).
  specialize (Hb He'). specialize (Hbi He).
  unfold interval_is_single, bounds_ok, is_u32, UINT_MAX in *.
  rewrite !orb_true_iff, !andb_true_iff, !Z.eqb_eq.
  intros [Heq|[Heq Ho]]; [left; lia|].
  unfold u32 in *. assert (imin i < 4294967295 \/ imin i = 4294967295) as [?|Hmax] by lia.
  - rewrite Z.mod_small in Heq by lia.
    destruct (Z.eq_dec (imin j) (imax j)) as [|Hne]; [auto|right].
    rewrite Z.mod_small by lia. split; [lia|]. destruct Hhi as [|[_ Hop]]; [lia|auto].
  - rewrite Hmax in Heq. change ((4294967295 + 1) mod 4294967296) with 0 in Heq. lia.
Qed.

Lemma narrower_single p q var :
  valid_var var -> params_wf p -> params_wf q -> snd_pcm_hw_param_empty p var = false ->
  snd_pcm_hw_param_empty q var = false -> narrower p q -> single_at p var -> single_at q var.
Proof.
  intros Hvar Hwp Hwq Hep Heq Hn [Hm Hi]. destruct (Hn var) as [Hnm Hni].
  split; intros Hv; [auto|].
  unfold snd_pcm_hw_param_empty, hw_param_interval_c, interval_is_empty in *.
  destruct (hw_is_mask var) eqn:Hmv; [rewrite mask_not_interval in Hv; done|].
  eapply (tighter_single (hw_param_interval p var)); eauto with salsa.
Qed.

Lemma single_get p var val dir :
  valid_var var -> params_wf p -> single_at p var -> snd_pcm_hw_param_empty p var = false ->
  (_snd_pcm_hw_param_get p var val dir).1.1 = 0.
Proof.
  intros Hvar Hwf [Hm Hi] He. unfold _snd_pcm_hw_param_get, snd_pcm_hw_param_empty in *.
  destruct (hw_is_mask var) eqn:Hmv.
  - rewrite He. unfold hw_param_mask_c. rewrite (proj2 (mask_single_spec _ (wf_mask p var Hwf))); auto.
  - destruct Hvar as [?|Hiv]; [congruence|]. rewrite Hiv, He.
    unfold hw_param_interval_c. rewrite Hi; done.
Qed.

Lemma end_tighter e i : interval_wf i -> tighter i (refine_end e i).2.
Proof.
  intros Hwf. destruct (iempty i) eqn:He.
  { destruct e; simpl; unfold snd_interval_refine_first, snd_interval_refine_last,
      interval_is_empty; rewrite He; apply tighter_refl. }
  destruct (interval_is_single i) eqn:Hs.
  { destruct e; simpl; unfold snd_interval_refine_first, snd_interval_refine_last,
      interval_is_empty; rewrite He, Hs; apply tighter_refl. }
  destruct (not_single_bounds i Hwf He Hs) as [Hlt Hop]. destruct Hwf as (Hm & HM & _).
  unfold is_u32 in *.
  destruct e; simpl; unfold snd_interval_refine_first, snd_interval_refine_last,
    interval_is_empty, tighter, set_max, set_openmax, set_min, set_openmin; rewrite He, Hs; simpl.
  - destruct (openmin i) eqn:Ho; simpl; rewrite ?u32_id by (unfold is_u32; lia);
      intuition (lia || congruence).
  - destruct (openmax i) eqn:Ho; simpl; rewrite ?u32_id by (unfold is_u32; lia).
    + destruct (Z.eq_dec (imin i + 1) (imax i)) as [Heq|]; [specialize (Hop Heq); congruence|].
      intuition lia.
    + intuition (lia || congruence).
Qed.

Lemma end_empty e i : iempty (refine_end e i).2 = iempty i.
Proof.
  destruct e; simpl; unfold snd_interval_refine_first, snd_interval_refine_last;
    repeat case_goal; done.
Qed.

Definition set_end (e : interval_end) (p : snd_pcm_hw_params_t) (var : Z) : Z * snd_pcm_hw_params_t :=
  match e with First => hw_param_set_first p var | Last => hw_param_set_last p var end.

Lemma set_end_spec e p var rc p1 :
  params_wf p -> valid_var var -> set_end e p var = (rc, p1) -> 0 <= rc ->
  params_wf p1 /\ narrower p p1 /\ single_at p1 var /\ snd_pcm_hw_param_empty p1 var = false /\
  (forall v, v <> var -> snd_pcm_hw_param_empty p1 v = snd_pcm_hw_param_empty p v).
Proof.
  intros Hwf Hvar Hs Hge. destruct (hw_is_mask var) eqn:Hm.
  - set (op := match e with First => RefineFirst | Last => RefineLast end).
    assert (Hrun : on_mask p var (run_mask_op op) = (rc, p1))
      by (rewrite <- Hs; destruct e; simpl; unfold hw_param_set_first, hw_param_set_last;
          rewrite Hm; done).
    pose proof (run_mask_op_refined op (hw_param_mask p var) (wf_mask p var Hwf)) as Hr.
    unfold on_mask in Hrun. destruct (run_mask_op op _) as [rc1 m].
    injection Hrun as <- <-. destruct Hr as (Hw & Hin & Hrc); [destruct e; done|]. simpl in *.
    unfold single_at, snd_pcm_hw_param_empty, hw_param_mask_c, hw_param_interval_c. rewrite Hm.
    destruct Hwf as (Hl & Hwf'). rewrite get_put_mask by done. subst rc1.
    split; [apply wf_put_mask; done|].
    split; [apply narrower_put_mask; auto; intros x Hx; apply Hin; done|].
    split; [split; [|intros Hi; rewrite mask_not_interval in Hi; done]|].
    + intros _ x y [Hx Hkx]%Hin [Hy Hky]%Hin. destruct e; simpl in Hkx, Hky;
        specialize (Hkx _ Hy); specialize (Hky _ Hx); lia.
    + split; [apply refined_code_nonneg in Hge; done|].
      intros v Hne. rewrite get_put_mask_ne, interval_of_mask_put by done. done.
  - assert (Hrun : on_interval p var (refine_end e) = (rc, p1))
      by (rewrite <- Hs; destruct e; simpl; unfold hw_param_set_first, hw_param_set_last;
          rewrite Hm; done).
    destruct Hvar as [Hvar|Hvar]; [congruence|].
    pose proof (interval_end_correct e (hw_param_interval p var) (wf_interval p var Hwf)) as Hr.
    pose proof (end_tighter e (hw_param_interval p var) (wf_interval p var Hwf)) as Ht.
    pose proof (end_empty e (hw_param_interval p var)) as Hem.
    unfold on_interval in Hrun. destruct (refine_end e _) as [rc1 i]. simpl in Ht, Hem.
    injection Hrun as <- <-. destruct Hr as (Hw & Hr).
    destruct (iempty (hw_param_interval p var)) eqn:He; [destruct Hr as [-> _]; unfold ENOENT in Hge; lia|].
    destruct Hr as [Hsg _]. destruct Hwf as (Hl & Hwm & Hli & Hwi).
    unfold single_at, snd_pcm_hw_param_empty, hw_param_mask_c, hw_param_interval_c. rewrite Hm.
    rewrite get_put_interval by done.
    split; [apply wf_put_interval; done|]. split; [apply narrower_put_interval; done|].
    split; [split; [congruence|auto]|]. split; [unfold interval_is_empty; congruence|].
    intros v Hne. rewrite get_put_interval_ne, mask_of_interval_put by done. done.
Qed.

Section Choosing.
Context {K : Type} `{!PcmKernel K, !RefiningKernel K}.

(** What [_snd_pcm_hw_param_set_first] and [_last] leave where they succeed. *)
Lemma param_set_end_spec e pcm p var (k : K) rc p' v d k' :
  params_wf p -> inhabited p -> valid_var var ->
  (match e with
   | First => _snd_pcm_hw_param_set_first pcm p var None None
   | Last => _snd_pcm_hw_param_set_last pcm p var None None
   end) k = (rc, p', v, d, k') -> 0 <= rc ->
  params_wf p' /\ narrower p p' /\ inhabited p' /\ single_at p' var.
Proof using All.
  intros Hwf Hinh Hvar Hrun Hge.
  assert (Hex : exists c p1, set_end e p var = (c, p1) /\ hw_param_update_var pcm p1 var c k = (0, p', k')).
  { destruct e; unfold _snd_pcm_hw_param_set_first, _snd_pcm_hw_param_set_last, bind, ret in Hrun; simpl.
    - destruct (hw_param_set_first p var) as [c p1]. exists c, p1. split; [done|].
      pose proof (update_var_code pcm p1 var c k) as Hc.
      destruct (hw_param_update_var pcm p1 var c k) as [[e1 p2] k2].
      destruct (Z.eqb_spec e1 0) as [->|]; [|simplify_eq; lia].
      destruct (_snd_pcm_hw_param_get _ _ _ _) as [[? ?] ?]. simplify_eq. done.
    - destruct (hw_param_set_last p var) as [c p1]. exists c, p1. split; [done|].
      pose proof (update_var_code pcm p1 var c k) as Hc.
      destruct (hw_param_update_var pcm p1 var c k) as [[e1 p2] k2].
      destruct (Z.eqb_spec e1 0) as [->|]; [|simplify_eq; lia].
      destruct (_snd_pcm_hw_param_get _ _ _ _) as [[? ?] ?]. simplify_eq. done. }
  destruct Hex as (c & p1 & Hs & Hu). destruct (Z.ltb_spec c 0) as [Hneg|Hpos].
  { unfold hw_param_update_var in Hu. apply Z.ltb_lt in Hneg as Hneg'. rewrite Hneg' in Hu.
    injection Hu as -> _ _. lia. }
  destruct (set_end_spec _ _ _ _ _ Hwf Hvar Hs Hpos) as (Hw1 & Hn1 & Hsg & He & Hother).
  destruct (update_var_spec _ _ _ _ _ _ _ Hw1 Hvar Hu) as (_ & Hw2 & Hn2 & Hlive).
  assert (Hinh2 : inhabited p').
  { destruct Hlive as [?|[-> _]]; [done|]. intros x Hx.
    destruct (decide (x = var)) as [->|]; [done|]. rewrite Hother by done. auto. }
  split; [done|]. split; [transitivity p1; done|]. split; [done|].
  apply (narrower_single p1 p'); auto.
Qed.

Lemma choose_loop_spec pcm vars p (k : K) p' k' :
  params_wf p -> inhabited p -> Forall (fun v => valid_var v.1) vars ->
  choose_loop pcm p vars k = (0, p', k') ->
  params_wf p' /\ narrower p p' /\ inhabited p' /\ Forall (fun v => single_at p' v.1) vars.
Proof using All.
  intros Hwf Hinh Hvars. revert p k Hwf Hinh.
  induction Hvars as [|[var last] vars Hv Hvars IH]; intros p k Hwf Hinh; simpl.
  - unfold ret. intros [= <- <-].
    split; [done|]. split; [reflexivity|]. split; [done|constructor].
  - unfold bind, ret.
    destruct ((if last then _snd_pcm_hw_param_set_last pcm p var None None
               else _snd_pcm_hw_param_set_first pcm p var None None) k)
      as [[[[rc p1] v] d] k1] eqn:He.
    destruct (Z.ltb_spec rc 0); [intros [=]; lia|]. intros Hrest.
    destruct (param_set_end_spec (if last then Last else First) pcm p var k rc p1 v d k1)
      as (Hw1 & Hn1 & Hi1 & Hs1); auto; [destruct last; done|].
    destruct (IH p1 k1 Hw1 Hi1 Hrest) as (Hw' & Hn' & Hi' & Hs').
    split; [done|]. split; [transitivity p1; done|]. split; [done|].
    constructor; [|done]. apply (narrower_single p1 p'); auto.
Qed.

(** C19. The choice of a configuration is complete: where [snd_pcm_hw_params_choose]
    succeeds, each of the nine parameters of its table has exactly one value left
    (reading it succeeds), and the choice lies inside the space it started from. *)
Theorem choose_single (pcm : snd_pcm_t) (p p' : snd_pcm_hw_params_t) (k k' : K) :
  params_wf p -> inhabited p ->
  snd_pcm_hw_params_choose pcm p k = (0, p', k') ->
  narrower p p' /\ inhabited p' /\
  forall var, var ∈ choose_vars.*1 ->
    forall val dir, (_snd_pcm_hw_param_get p' var val dir).1.1 = 0.
Proof using All.
  intros Hwf Hinh Hc.
  assert (Hall : Forall (fun v : Z * bool => valid_var v.1) choose_vars) by by_decide.
  destruct (choose_loop_spec _ _ _ _ _ _ Hwf Hinh Hall Hc) as (Hw & Hn & Hi & Hs).
  split; [done|]. split; [done|]. intros var Hin val dir.
  apply list_elem_of_fmap in Hin as (v & -> & Hv).
  rewrite Forall_forall in Hs, Hall. apply single_get; auto.
Qed.
End Choosing.

(** ** A permissive driver

    The driver that accepts every configuration space with something in each
    parameter, on which the theorems are applied. *)

Definition all_vars : list Z :=
  zseq HW_PARAM_FIRST_MASK 3 ++ zseq HW_PARAM_FIRST_INTERVAL 12.

Definition all_inhabited (p : snd_pcm_hw_params_t) : bool :=
  forallb (fun v => negb (snd_pcm_hw_param_empty p v)) all_vars.

Definition permissive_refine (p : snd_pcm_hw_params_t) : Z * snd_pcm_hw_params_t :=
  if all_inhabited p then (0, set_rmask 0 p) else (- EINVAL, p).

#[export] Instance permissive_driver : PcmKernel unit := {
  ioctl_cmd _ _ := ret 0;
  ioctl_move _ _ frames := ret (0, frames);
  ioctl_info_subdevice _ := ret (0, 0);
  ioctl_pversion _ := ret (0, 0);
  ioctl_user_pversion _ _ := ret 0;
  ioctl_hw_refine _ p := ret (permissive_refine p);
  ioctl_hw_params _ p := ret (permissive_refine p);
  ioctl_sw_params _ p := ret (0, p);
  ioctl_sync_ptr _ p := ret (0, p);
  ioctl_channel_info _ p := ret (0, p);
  ioctl_delay _ := ret (0, 0);
  ioctl_xfer _ _ _ n := ret (0, n);
  shared_status _ := ret zero_status;
  shared_control _ := ret (MmapControl 0 0);
  set_shared_control _ _ := ret tt
}.

Lemma all_vars_valid var : valid_var var <-> var ∈ all_vars.
Proof.
  unfold all_vars. rewrite elem_of_app, !list_elem_of_In, !zseq_In.
  change HW_PARAM_FIRST_MASK with 0. change HW_PARAM_FIRST_INTERVAL with 8. split.
  - intros [H|H]; [apply mask_var_range in H|apply interval_var_range in H]; lia.
  - intros H. unfold valid_var, hw_is_mask, hw_is_interval.
    rewrite !andb_true_iff, !Z.leb_le. change HW_PARAM_FIRST_MASK with 0.
    change HW_PARAM_LAST_MASK with 2. change HW_PARAM_FIRST_INTERVAL with 8.
    change HW_PARAM_LAST_INTERVAL with 19. lia.
Qed.

Lemma all_inhabited_spec p : all_inhabited p = true <-> inhabited p.
Proof.
  unfold all_inhabited, inhabited. rewrite forallb_Forall_eq, Forall_forall.
  setoid_rewrite negb_true_iff. setoid_rewrite all_vars_valid. done.
Qed.

#[export] Instance permissive_refining : RefiningKernel unit.
Proof.
  split. intros fd p [] rc p' [] Hr Hge Hwf. simpl in Hr. unfold ret, permissive_refine in Hr.
  destruct (all_inhabited p) eqn:Ha; injection Hr as <- <-; [|unfold EINVAL in Hge; lia].
  apply all_inhabited_spec in Ha. destruct p. split; [done|]. split; [|done].
  intros var. split; [done|intros _; apply tighter_refl].
Qed.

(** A handle on descriptor 3. *)
Definition idle_pcm : snd_pcm_t :=
  new_pcm 0 0 0 0 STREAM_PLAYBACK 0 3 0.

#[global] Instance mask_wf_dec m : Decision (mask_wf m).
Proof. unfold mask_wf. apply _. Defined.

#[global] Instance params_wf_dec p : Decision (params_wf p).
Proof. unfold params_wf. apply _. Defined.

Lemma params_any_inhabited : inhabited _snd_pcm_hw_params_any.
Proof. apply all_inhabited_spec. vm_compute. reflexivity. Qed.

Lemma params_any_wf : params_wf _snd_pcm_hw_params_any.
Proof. by_decide. Qed.

(** ** Witnesses *)

Lemma set_op_transactional_witness :
  let '(rc, p, _) := run_set_op (OpSetMin 5 None) idle_pcm
    (put_interval zero_hw_params HW_PARAM_RATE (Interval 0 3 false false false false))
    HW_PARAM_RATE tt in
  rc = - EINVAL /\
  p = put_interval zero_hw_params HW_PARAM_RATE (Interval 0 3 false false false false).
Proof.
  pose proof (set_op_transactional (OpSetMin 5 None) idle_pcm
    (put_interval zero_hw_params HW_PARAM_RATE (Interval 0 3 false false false false))
    HW_PARAM_RATE tt) as Ht.
  destruct (run_set_op _ _ _ _ _) as [[rc p] k] eqn:Hr.
  assert (Hrc : rc = - EINVAL) by (vm_compute in Hr; injection Hr as <- _ _; reflexivity).
  split; [exact Hrc|]. apply Ht. left. rewrite Hrc. discriminate.
Defined.

Lemma set_then_get_witness :
  exists p', _snd_pcm_hw_param_set idle_pcm _snd_pcm_hw_params_any HW_PARAM_RATE 48000 0 tt = (0, p', tt) /\
    forall v d, _snd_pcm_hw_param_get p' HW_PARAM_RATE v d = (0, store v 48000, store d 0).
Proof.
  destruct (_snd_pcm_hw_param_set idle_pcm _snd_pcm_hw_params_any HW_PARAM_RATE 48000 0 tt)
    as [[rc p'] []] eqn:Hs.
  assert (Hrc : rc = 0) by (vm_compute in Hs; injection Hs as <- _; reflexivity).
  subst rc. exists p'. split; [reflexivity|].
  refine (proj2 (proj2 (proj2 (set_then_get idle_pcm _ p' HW_PARAM_RATE 48000 tt tt
    params_any_wf params_any_inhabited _ _ Hs)))); by_decide.
Defined.

Lemma choose_single_witness :
  exists p', snd_pcm_hw_params_choose idle_pcm _snd_pcm_hw_params_any tt = (0, p', tt) /\
    (_snd_pcm_hw_param_get p' HW_PARAM_BUFFER_SIZE (Some 0) None).1.1 = 0.
Proof.
  destruct (snd_pcm_hw_params_choose idle_pcm _snd_pcm_hw_params_any tt) as [[rc p'] []] eqn:Hc.
  assert (Hrc : rc = 0) by (vm_compute in Hc; injection Hc as <- _; reflexivity).
  subst rc. exists p'. split; [reflexivity|].
  apply (choose_single idle_pcm _ p' tt tt params_any_wf params_any_inhabited Hc). by_decide.
Defined.
