(* ===== verification/PcmOpen.v ===== *)
(** * Opening, configuring and closing a PCM

    src/src/pcm.c 44-163 and 1063-1083, src/src/pcm_params.c 913-1027: the handle's
    life, from [snd_pcm_open] through any sequence of calls to [snd_pcm_close]. *)

From stdpp Require Import gmap pretty.
From S2P Require Import Prelude CInt Sys Cards Async Mask Interval Format PcmTypes PcmSw Pcm.
From S2P Require Import Toy PcmSpec PcmMmap HwParams HwAccessors.
#[local] Open Scope Z_scope.
#[local] Set Warnings "-clear-no-such-hyp".

Definition PCM_NONBLOCK : Z := 1.
Definition PCM_ASYNC : Z := 2.

(** [SNDRV_PROTOCOL_VERSION(2, 0, n)]. *)
Definition protocol_version (major minor sub : Z) : Z :=
  Z.lor (Z.lor (Z.shiftl major 16) (Z.shiftl minor 8)) sub.

(** With card and device below 32 the name fits in its 33 bytes. *)
Definition pcm_filename (card dev stream : Z) : string :=
  String.append SALSA_DEVPATH (String.append "/pcmC" (String.append (pretty card)
    (String.append "D" (String.append (pretty dev)
      (if stream =? STREAM_PLAYBACK then "p" else "c"))))).

(** ** The configuration *)

(** The getters that fill in the handle after the driver took [params]: a getter that
    fails leaves its field as it was, and the 64-bit ones store the indeterminate
    [junk]. *)
(* [pcm_params.c 927-936 _snd_pcm_hw_params] *)
Definition install (junk : Z) (params : snd_pcm_hw_params_t) (pcm : snd_pcm_t) : snd_pcm_t :=
  let got (r : Z * option Z * option Z) (old : Z) := default old r.1.2 in
  let got64 (r : Z * Z * option Z) := r.1.2 in
  let ac := got (snd_pcm_hw_params_get_access params (Some (_access pcm))) (_access pcm) in
  let fm := got (snd_pcm_hw_params_get_format params (Some (format pcm))) (format pcm) in
  let sf := got (snd_pcm_hw_params_get_subformat params (Some (subformat pcm))) (subformat pcm) in
  let ch := got (snd_pcm_hw_params_get_channels params (Some (channels pcm))) (channels pcm) in
  let rt := got (snd_pcm_hw_params_get_rate params (Some (rate pcm)) None) (rate pcm) in
  let pt := got (snd_pcm_hw_params_get_period_time params (Some (period_time pcm)) None)
              (period_time pcm) in
  let psz := got64 (snd_pcm_hw_params_get_period_size params junk None) in
  let bs := got64 (snd_pcm_hw_params_get_buffer_size params junk) in
  let sb := u32 (snd_pcm_format_physical_width fm) in
  let fb := u32 (sb * ch) in
  put_configuration ac fm sf ch rt pt psz bs sb fb pcm.

Definition is_mmap_access (a : Z) : bool :=
  (a =? ACCESS_MMAP_INTERLEAVED) || (a =? ACCESS_MMAP_NONINTERLEAVED) || (a =? ACCESS_MMAP_COMPLEX).

Section Open.
Context {K : Type} `{!Os K, !AsyncKernel K, !CardKernel K, !PcmKernel K}.

(* [pcm_params.c 993-1002 snd_pcm_hw_free] *)
Definition snd_pcm_hw_free : io (ps K) Z :=
  let* pcm := getp in
  if negb (setup pcm) then ret 0
  else
    let* _ := _snd_pcm_munmap in
    let* r := cmd CmdHwFree in
    if r <? 0 then ret r
    else let* _ := setp (put_setup false) in ret 0.

(** The driver gives the parameters back. *)
(* [pcm_params.c 1004-1013 snd_pcm_sw_params] *)
Definition snd_pcm_sw_params (params : snd_pcm_sw_params_t) : io (ps K) (Z * snd_pcm_sw_params_t) :=
  let* pcm := getp in
  if negb (setup pcm) then ret (- EBADFD, params)
  else
    let* '(r, params) := sysk (ioctl_sw_params (fd pcm) params) in
    if r <? 0 then ret (r, params)
    else
      let* _ := setp (put_sw_params params) in
      let* _ := set_avail_min (sw_avail_min params) in
      ret (0, params).

(** The last part of [_snd_pcm_hw_params]. *)
(* [pcm_params.c 943-955 _snd_pcm_hw_params] *)
Definition map_if_needed : io (ps K) Z :=
  let* pcm := getp in
  if is_mmap_access (_access pcm) then
    let* err := _snd_pcm_mmap in
    if err <? 0 then let* _ := _snd_pcm_munmap in ret err
    else let* _ := _snd_pcm_sync_ptr 0 in ret 0
  else let* _ := _snd_pcm_sync_ptr 0 in ret 0.

(** Returns the code and the parameters; [None] where the computation of the default
    boundary does not end. *)
(* [pcm_params.c 908-955 _snd_pcm_hw_params] *)
Definition _snd_pcm_hw_params (junk : Z) (params : snd_pcm_hw_params_t)
  : io (ps K) (option (Z * snd_pcm_hw_params_t)) :=
  let* pcm := getp in
  let* '(err, params) := sysk (snd_pcm_hw_refine pcm params) in
  if err <? 0 then ret (Some (err, params))
  else
    let* '(_, params) := sysk (snd_pcm_hw_params_choose pcm params) in
    let* _ := snd_pcm_hw_free in
    let* '(r, params) := sysk (ioctl_hw_params (fd pcm) params) in
    if r <? 0 then ret (Some (r, params))
    else
      let* _ := setp (fun p => install junk params (put_hw_params params (put_setup true p))) in
      let* pcm := getp in
      match snd_pcm_sw_params_default pcm zero_sw_params with
      | None => ret None
      | Some sw =>
          let* _ := snd_pcm_sw_params sw in
          let* err := map_if_needed in
          ret (Some (err, params))
      end.

(* [pcm_params.c 983-991 snd_pcm_hw_params] *)
Definition snd_pcm_hw_params (junk : Z) (params : snd_pcm_hw_params_t)
  : io (ps K) (option (Z * snd_pcm_hw_params_t)) :=
  let* r := _snd_pcm_hw_params junk params in
  match r with
  | None => ret None
  | Some (err, params) =>
      if err <? 0 then ret (Some (err, params))
      else let* err := snd_pcm_prepare in ret (Some (err, params))
  end.

(** ** Opening and closing *)

(* [pcm.c 44-51 get_pcm_subdev] *)
Definition get_pcm_subdev (fd : Z) : io (world K) Z :=
  let* '(r, sub) := lift (ioctl_info_subdevice fd) in
  ret (if r <? 0 then -1 else s32 sub).

(** Run an operation on a handle that is not published yet. *)
Definition with_handle {A} (pcm : snd_pcm_t) (m : io (ps K) A) : io (proc K) (A * snd_pcm_t) :=
  fun p => let '(a, s) := m (PS pcm p) in ((a, the_pcm s), prc s).

(** The descriptor and the subdevice, or an error. *)
(* [pcm.c 81-99 snd_pcm_open] *)
Definition open_pcm_fd (errno0 : Z) (filename : string) (fmode card subdev : Z)
  : io (world K) (Z * Z) :=
  if 0 <=? subdev then
    let* fd := _snd_open_subdev errno0 filename fmode card subdev PcmPreferSubdevice in
    if fd <? 0 then ret (fd, subdev)
    else
      let* got := get_pcm_subdev fd in
      if negb (got =? subdev) then
        let* _ := sys_close fd in ret (- EBUSY, subdev)
      else ret (fd, subdev)
  else
    let* fd := sys_open filename fmode in
    if fd <? 0 then ret (fd, subdev)
    else
      let* subdev := get_pcm_subdev fd in
      if subdev <? 0 then
        let* _ := sys_close fd in ret (- EBUSY, subdev)
      else ret (fd, subdev).

(** The two version ioctls: a code and the version. *)
(* [pcm.c 105-116 snd_pcm_open] *)
Definition exchange_versions (fd : Z) : io (world K) (Z * Z) :=
  let* '(r, ver) := lift (ioctl_pversion fd) in
  if r <? 0 then ret (r, ver)
  else if protocol_version 2 0 14 <=? ver then
    let* r := lift (ioctl_user_pversion fd (protocol_version 2 0 15)) in
    ret (if r <? 0 then r else 0, ver)
  else ret (0, ver).

(** From the descriptor to the handle; [calloc] clears the cell of [pcm->async] too. *)
(* [pcm.c 100-146 snd_pcm_open] *)
Definition open_handle (fmode card dev subdev stream mode fd : Z) : io (proc K) (Z * option snd_pcm_t) :=
  let* _ :=
    if nz (Z.land mode PCM_NONBLOCK) then ret 0
    else onsys (lift (os_setfl fd (Z.land fmode (Z.lnot O_NONBLOCK)))) in
  let* '(err, ver) := onsys (exchange_versions fd) in
  if err <? 0 then let* _ := onsys (sys_close fd) in ret (err, None)
  else
    let* block := onsys (sys_alloc sizeof_pcm) in
    match block with
    | None => let* _ := onsys (sys_close fd) in ret (- ENOMEM, None)
    | Some block =>
        let events := Z.lor (Z.lor (if stream =? STREAM_PLAYBACK then POLLOUT else POLLIN) POLLERR)
                        POLLNVAL in
        let pcm := new_pcm block card dev subdev stream ver fd events in
        let* _ := set_ptr (async_loc pcm) None in
        let* '(err, pcm) := with_handle pcm snd_pcm_hw_mmap_status in
        if err <? 0 then
          let* _ := onsys (sys_free block) in
          let* _ := onsys (sys_close fd) in
          ret (err, None)
        else ret (0, Some pcm)
    end.
(** The code and the new handle. *)
(* [pcm.c 57-146 snd_pcm_open] *)
Definition snd_pcm_open (errno0 : Z) (name : string) (stream mode : Z)
  : io (proc K) (Z * option snd_pcm_t) :=
  let* '(err, (card, dev, subdev)) := onsys (_snd_dev_get_device name true true) in
  if err <? 0 then ret (err, None)
  else
    let filename := pcm_filename card dev stream in
    let fmode := Z.lor O_RDWR O_NONBLOCK in
    let fmode := if nz (Z.land mode PCM_ASYNC) then Z.lor fmode O_ASYNC else fmode in
    let* '(fd, subdev) := onsys (open_pcm_fd errno0 filename fmode card subdev) in
    if fd <? 0 then ret (fd, None)
    else open_handle fmode card dev subdev stream mode fd.

Definition get_async : io (ps K) (option Z) :=
  fun s => (ptrs (prc s) !! async_loc (the_pcm s), s).

(** [if (pcm->async) snd_async_del_handler(pcm->async);] *)
Definition del_own : io (ps K) Z :=
  let* a := get_async in
  match a with Some a => onproc (snd_async_del_handler a) | None => ret 0 end.

(* [pcm.c 148-163 snd_pcm_close] *)
Definition snd_pcm_close : io (ps K) Z :=
  let* pcm := getp in
  let* _ :=
    if setup pcm then let* _ := snd_pcm_drop in snd_pcm_hw_free else ret 0 in
  let* _ := _snd_pcm_munmap in
  let* _ := snd_pcm_hw_munmap_status in
  let* _ := del_own in
  let* _ := onworld (sys_close (fd pcm)) in
  let* _ := onworld (sys_free (pcm_block pcm)) in
  ret 0.

(* [pcm.c 1067-1082 snd_async_add_pcm_handler] *)
Definition snd_async_add_pcm_handler (callback private_data : Z) : io (ps K) Z :=
  let* pcm := getp in
  onproc (add_owned_handler (pcm_block pcm) (async_loc pcm) (fd pcm) callback private_data).
End Open.

(** ** Alignment *)

(** [while (fb % 8) { fb *= 2; min_align *= 2; }] on unsigned ints. *)
Fixpoint align_loop (fuel : nat) (fb min_align : Z) : option Z :=
  if nz (fb `mod` 8) then
    match fuel with
    | O => None
    | S fuel => align_loop fuel (u32 (fb * 2)) (u32 (min_align * 2))
    end
  else Some min_align.

(** Three doublings make any number a multiple of 8. *)
(* [pcm_params.c 957-981 snd_pcm_hw_params_get_min_align] *)
Definition snd_pcm_hw_params_get_min_align (params : snd_pcm_hw_params_t) (val : option Z)
  : option (Z * option Z) :=
  let '(err, format, _) := _snd_pcm_hw_param_get params HW_PARAM_FORMAT (Some 0) None in
  if err <? 0 then Some (err, val)
  else
    let '(err, channels, _) := _snd_pcm_hw_param_get params HW_PARAM_CHANNELS (Some 0) None in
    if err <? 0 then Some (err, val)
    else
      let fb := u32 (snd_pcm_format_physical_width (default 0 format) * default 0 channels) in
      match align_loop 3 fb 1 with
      | Some m => Some (0, store val m)
      | None => None
      end.

(** ** The session of an open handle

    What an open handle holds, and what every call keeps. *)

Section Session.
Context {K : Type} `{!Os K, !AsyncKernel K, !CardKernel K, !PcmKernel K, !OsLaws K}.

Definition status_resources (pcm : snd_pcm_t) : list resource :=
  match sync_ptr pcm, mmap_status pcm, mmap_control pcm with
  | Some (a, _), _, _ => [RMem a]
  | None, PtrMap st, PtrMap ct =>
      [RMap st (page_align (K := K) sizeof_mmap_status);
       RMap ct (page_align (K := K) sizeof_mmap_control)]
  | _, _, _ => []
  end.

Definition async_resources (pcm : snd_pcm_t) (p : proc K) : list resource :=
  match ptrs p !! async_loc pcm with Some a => [RMem a] | None => [] end.

Definition handle_resources (pcm : snd_pcm_t) (p : proc K) : list resource :=
  RFd (fd pcm) :: RMem (pcm_block pcm) :: status_resources pcm ++
    channel_resources (K := K) pcm ++ async_resources pcm p.

(** The pointers to the records are set. *)
Definition shared_inv (pcm : snd_pcm_t) : Prop :=
  match sync_ptr pcm with
  | Some _ => mmap_status pcm = PtrSync /\ mmap_control pcm = PtrSync
  | None => exists st ct, mmap_status pcm = PtrMap st /\ mmap_control pcm = PtrMap ct
  end.

(** The handle's handler is in the process's list and points back. *)
Definition async_linked (pcm : snd_pcm_t) (p : proc K) : Prop :=
  forall a, ptrs p !! async_loc pcm = Some a ->
    exists before h after, split_handler a (async_list p) = Some (before, h, after) /\
      h_pointer h = async_loc pcm.

Record session (base : list resource) (s : ps K) : Prop := {
  ses_led : led s ≡ₚ handle_resources (the_pcm s) (prc s) ++ base;
  ses_map : map_inv (the_pcm s);
  ses_setup : mmap_channels (the_pcm s) <> None -> setup (the_pcm s) = true;
  ses_shared : shared_inv (the_pcm s);
  ses_async : async_linked (the_pcm s) (prc s);
  ses_boundary : boundary (the_pcm s) = 0;
  ses_block : 0 < pcm_block (the_pcm s)
}.

(** [m] keeps the session. *)
Definition keeps {A} (base : list resource) (m : io (ps K) A) : Prop :=
  forall s, session base s -> session base (m s).2.

Lemma keeps_quiet {A} base (m : io (ps K) A) : quiet m -> keeps base m.
Proof.
  intros Hq s [Hl Hm Hst Hsh Ha Hb Hk]. destruct (Hq s) as [(sp & sw & Hp & Hfst) (H1 & H2 & H3 & H4)].
  destruct (m s) as [r s']. simpl in *. constructor; rewrite ?Hp; try done.
  - unfold led. rewrite H1. unfold led in Hl. rewrite Hl. unfold handle_resources, async_resources.
    rewrite H4. simpl. unfold status_resources. simpl.
    destruct sp as [[]|], (sync_ptr (the_pcm s)) as [[]|]; simplify_eq/=; done.
  - unfold shared_inv in *. simpl.
    destruct sp as [[]|], (sync_ptr (the_pcm s)) as [[]|]; simplify_eq/=; done.
  - intros a. rewrite H4, H2. apply Ha.
Qed.

Lemma keeps_ret {A} base (a : A) : keeps base (ret a).
Proof. intros s. done. Qed.

Lemma keeps_bind {A B} base (m : io (ps K) A) (f : A -> io (ps K) B) :
  keeps base m -> (forall a, keeps base (f a)) -> keeps base (bind m f).
Proof.
  intros Hm Hf s Hs. unfold bind. specialize (Hm s Hs). destruct (m s) as [a s1].
  apply Hf. exact Hm.
Qed.

(** [l1] and [l2] exchanged around what is between. *)
Lemma session_channels base s :
  session base s ->
  led s ≡ₚ channel_resources (K := K) (the_pcm s) ++
    (RFd (fd (the_pcm s)) :: RMem (pcm_block (the_pcm s)) :: status_resources (the_pcm s) ++
       async_resources (the_pcm s) (prc s)) ++ base.
Proof. intros [Hl _ _ _ _ _ _]. rewrite Hl. unfold handle_resources. solve_Permutation. Qed.

(** A handle that changed only in its channels. *)
Lemma session_remap base (s s' : ps K) mc ra :
  session base s -> the_pcm s' = with_maps mc ra (the_pcm s) ->
  map_inv (the_pcm s') -> (mc <> None -> setup (the_pcm s) = true) ->
  led s' ≡ₚ channel_resources (K := K) (the_pcm s') ++
    (RFd (fd (the_pcm s)) :: RMem (pcm_block (the_pcm s)) :: status_resources (the_pcm s) ++
       async_resources (the_pcm s) (prc s)) ++ base ->
  same_lists (prc s) (prc s') -> session base s'.
Proof.
  intros [Hl Hm Hst Hsh Ha Hb Hk] Hp Hm' Hst' Hl' (H2 & H3 & H4). constructor.
  - rewrite Hl'. unfold handle_resources. rewrite Hp. unfold async_resources. rewrite H4. simpl.
    unfold status_resources. simpl. solve_Permutation.
  - done.
  - rewrite Hp. done.
  - rewrite Hp. exact Hsh.
  - intros a. rewrite Hp, H4, H2. apply Ha.
  - rewrite Hp. done.
  - rewrite Hp. done.
Qed.

Lemma keeps_munmap base : keeps base _snd_pcm_munmap.
Proof.
  intros s Hs. pose proof (handle_munmap_spec s _ (ses_map _ _ Hs) (session_channels _ _ Hs)) as H.
  destruct (_snd_pcm_munmap s) as [r s']. destruct H as (_ & Hp & Hl & Hsl). simpl.
  apply (session_remap base s s' None None); rewrite ?Hp; done.
Qed.

Lemma munmap_none base s :
  session base s -> mmap_channels (the_pcm (_snd_pcm_munmap s).2) = None.
Proof.
  intros Hs. pose proof (handle_munmap_spec s _ (ses_map _ _ Hs) (session_channels _ _ Hs)) as H.
  destruct (_snd_pcm_munmap s) as [r s']. destruct H as (_ & Hp & _). simpl. rewrite Hp. done.
Qed.

Lemma keeps_mmap base s :
  session base s -> setup (the_pcm s) = true -> session base (_snd_pcm_mmap s).2.
Proof.
  intros Hs Hset. pose proof (handle_mmap_spec s _ (ses_map _ _ Hs) (session_channels _ _ Hs)) as H.
  destruct (_snd_pcm_mmap s) as [r s']. destruct H as (mc & ra & Hp & _ & Hms & Hl & Hsl). simpl.
  apply (session_remap base s s' mc ra); try done. rewrite Hp. unfold map_inv, mapped_state in *.
  simpl. destruct mc as [[]|], ra as [[]|]; try done. destruct Hms as [? _]. done.
Qed.

(** The setup flag alone. *)
Lemma session_setup base s b :
  session base s -> (mmap_channels (the_pcm s) <> None -> b = true) ->
  session base (PS (put_setup b (the_pcm s)) (prc s)).
Proof. intros [Hl Hm Hst Hsh Ha Hb Hk] Hc. constructor; done. Qed.

(** The parts of the handle that name its descriptor and block never change. *)
Definition same_id (p p' : snd_pcm_t) : Prop := fd p' = fd p /\ pcm_block p' = pcm_block p.

Lemma quiet_same_id {A} (m : io (ps K) A) s : quiet m -> same_id (the_pcm s) (the_pcm (m s).2).
Proof. intros Hq. destruct (Hq s) as [(sp & sw & -> & _) _]. done. Qed.

Lemma munmap_same_id base s :
  session base s -> same_id (the_pcm s) (the_pcm (_snd_pcm_munmap s).2).
Proof.
  intros Hs. pose proof (handle_munmap_spec s _ (ses_map _ _ Hs) (session_channels _ _ Hs)) as H.
  destruct (_snd_pcm_munmap s) as [r s']. destruct H as (_ & Hp & _). simpl. rewrite Hp. done.
Qed.

Lemma hw_free_spec base s :
  session base s ->
  let '(_, s') := snd_pcm_hw_free s in
  session base s' /\ mmap_channels (the_pcm s') = None /\ same_id (the_pcm s) (the_pcm s').
Proof.
  intros Hs. unfold snd_pcm_hw_free, bind at 1, getp.
  destruct (setup (the_pcm s)) eqn:Hset; simpl.
  2:{ split; [done|]. split; [|done]. destruct (mmap_channels (the_pcm s)) eqn:Hmc; [|done].
      assert (setup (the_pcm s) = true) by (apply (ses_setup _ _ Hs); congruence). congruence. }
  unfold bind at 1. pose proof (keeps_munmap base s Hs) as H1. pose proof (munmap_none base s Hs) as H2.
  pose proof (munmap_same_id base s Hs) as [Hi1 Hi2].
  destruct (_snd_pcm_munmap s) as [r s1]. simpl in *.
  unfold bind. pose proof (keeps_quiet base (cmd CmdHwFree) (quiet_cmd _) s1 H1) as H3.
  pose proof (quiet_same_id _ s1 (quiet_cmd CmdHwFree)) as [Hi3 Hi4].
  destruct (quiet_cmd CmdHwFree s1) as [(sp & sw & Hq & _) _].
  destruct (cmd CmdHwFree s1) as [e s2]. simpl in *.
  assert (H4 : mmap_channels (the_pcm s2) = None) by (rewrite Hq; exact H2).
  assert (Hi : same_id (the_pcm s) (the_pcm s2)) by (split; congruence).
  destruct (e <? 0); simpl; [done|]. split; [|done]. apply session_setup; [done|]. congruence.
Qed.

Lemma keeps_hw_free base : keeps base snd_pcm_hw_free.
Proof.
  intros s Hs. pose proof (hw_free_spec base s Hs) as H. destruct (snd_pcm_hw_free s). apply H.
Qed.

Lemma quiet_sw_params params : quiet (snd_pcm_sw_params params).
Proof. unfold snd_pcm_sw_params. quiet_tac. Qed.

Lemma quiet_nonblock n : quiet (K := K) (snd_pcm_nonblock n).
Proof.
  unfold snd_pcm_nonblock. apply quiet_bind; [apply quiet_getp|]. intros pcm s.
  rewrite onworld_eq. unfold _snd_set_nonblock, bind, lift, ret.
  destruct (os_getfl _ _) as [fl k1]. destruct (fl <? 0); [done|].
  destruct (os_setfl _ _ _) as [r k2]. done.
Qed.

Lemma keeps_map_if_needed base s :
  session base s -> setup (the_pcm s) = true -> session base (map_if_needed s).2.
Proof.
  intros Hs Hset. unfold map_if_needed, bind at 1, getp.
  destruct (is_mmap_access _).
  - unfold bind at 1. pose proof (keeps_mmap base s Hs Hset) as H1.
    destruct (_snd_pcm_mmap s) as [err s1]. simpl in H1. destruct (err <? 0).
    + apply keeps_bind; [apply keeps_munmap|intros; apply keeps_ret|done].
    + apply keeps_quiet; [quiet_tac|done].
  - apply keeps_quiet; [quiet_tac|done].
Qed.

(** The configuration may change where nothing is mapped. *)
Lemma session_install base s junk params :
  session base s -> mmap_channels (the_pcm s) = None ->
  session base (PS (install junk params (put_hw_params params (put_setup true (the_pcm s)))) (prc s)).
Proof.
  intros [Hl Hm Hst Hsh Ha Hb Hk] Hc.
  assert (Hr : running_areas (the_pcm s) = None).
  { unfold map_inv in Hm. rewrite Hc in Hm. destruct (running_areas (the_pcm s)); done. }
  constructor; try done.
  - unfold led in *. rewrite Hl. unfold handle_resources, channel_resources. simpl.
    rewrite Hc, Hr. done.
  - unfold map_inv. simpl. rewrite Hc, Hr. done.
Qed.

Lemma hw_params_inner base junk params : keeps base (_snd_pcm_hw_params junk params).
Proof.
  unfold _snd_pcm_hw_params. apply keeps_bind; [apply keeps_quiet, quiet_getp|]. intros pcm.
  apply keeps_bind; [apply keeps_quiet, quiet_sysk|]. intros [err params1].
  destruct (err <? 0); [apply keeps_ret|].
  apply keeps_bind; [apply keeps_quiet, quiet_sysk|]. intros [err2 params2] s Hs.
  unfold bind at 1. pose proof (hw_free_spec base s Hs) as H1.
  destruct (snd_pcm_hw_free s) as [e s1]. destruct H1 as (H1 & H2 & _). unfold bind at 1.
  pose proof (keeps_quiet base _ (quiet_sysk (ioctl_hw_params (fd pcm) params2)) s1 H1) as H3.
  destruct (quiet_sysk (ioctl_hw_params (fd pcm) params2) s1) as [(sp & sw & Hq & _) _].
  destruct (sysk (ioctl_hw_params (fd pcm) params2) s1) as [[r params3] s2]. simpl in H3, Hq.
  destruct (r <? 0); [done|]. unfold bind at 1, setp. simpl. unfold bind at 1, getp.
  assert (Hmc : mmap_channels (the_pcm s2) = None) by (rewrite Hq; exact H2).
  pose proof (session_install base s2 junk params3 H3 Hmc) as H4. simpl.
  set (s3 := PS _ _) in *. assert (Hset : setup (the_pcm s3) = true) by done. clearbody s3.
  destruct (snd_pcm_sw_params_default _ _) as [sw'|]; [|done].
  unfold bind at 1. pose proof (keeps_quiet base _ (quiet_sw_params sw') s3 H4) as H5.
  destruct (quiet_sw_params sw' s3) as [(sp2 & sw2 & Hq2 & _) _].
  destruct (snd_pcm_sw_params sw' s3) as [e3 s4]. simpl in H5, Hq2.
  assert (Hset4 : setup (the_pcm s4) = true) by (rewrite Hq2; exact Hset).
  unfold bind. pose proof (keeps_map_if_needed base s4 H5 Hset4) as H6.
  destruct (map_if_needed s4) as [e5 s5]. done.
Qed.

Lemma keeps_hw_params base junk params : keeps base (snd_pcm_hw_params junk params).
Proof.
  unfold snd_pcm_hw_params. apply keeps_bind; [apply hw_params_inner|].
  intros [[err params1]|]; [|apply keeps_ret]. destruct (err <? 0); [apply keeps_ret|].
  apply keeps_quiet. quiet_tac.
Qed.

(** *** The handler of the handle *)

Lemma add_owned_spec rec loc fd cb priv (p : proc K) :
  let '(r, p') := add_owned_handler rec loc fd cb priv p in
  (held (wld p') = held (wld p) /\ async_list p' = async_list p /\ ptrs p' = ptrs p) \/
  (ptrs p !! loc = None /\ exists a rest, held (wld p') = RMem a :: held (wld p) /\
     ptrs p' = <[loc := a]> (ptrs p) /\ async_list p' = Handler a fd cb priv rec loc :: rest).
Proof.
  unfold add_owned_handler, bind at 1. destruct (ptrs p !! loc) eqn:Hp; [left; done|].
  unfold bind at 1. pose proof (add_handler_spec loc fd cb priv p) as H.
  destruct (snd_async_add_handler loc fd cb priv p) as [e p1]. destruct (e <? 0).
  { left. destruct H as (H1 & H2 & H3 & _). done. }
  destruct H as (a & k & _ & H1 & H2 & H3 & _). right. split; [done|].
  unfold bind, set_owner, ret. simpl. rewrite H2, lookup_insert_eq, H1. simpl.
  rewrite Z.eqb_refl. eauto.
Qed.

Lemma keeps_async_add base cb priv : keeps base (snd_async_add_pcm_handler cb priv).
Proof.
  intros s [Hl Hm Hst Hsh Ha Hb Hk]. unfold snd_async_add_pcm_handler, bind, getp, onproc.
  set (loc := async_loc (the_pcm s)).
  pose proof (add_owned_spec (pcm_block (the_pcm s)) loc (fd (the_pcm s)) cb priv (prc s)) as H.
  destruct (add_owned_handler _ _ _ _ _ _) as [r p'].
  destruct H as [(H1 & H2 & H3)|(Hn & a & rest & H1 & H2 & H3)]; constructor; try done; simpl.
  - unfold led in *. simpl. rewrite H1, Hl. unfold handle_resources, async_resources.
    rewrite H3. done.
  - intros b. simpl. rewrite H3, H2. apply Ha.
  - unfold led in *. simpl. rewrite H1, Hl. unfold handle_resources, async_resources. fold loc.
    rewrite H2, lookup_insert_eq, Hn. simpl. solve_Permutation.
  - intros b. fold loc. simpl. rewrite H2, lookup_insert_eq. intros [= <-].
    rewrite H3. simpl. rewrite Z.eqb_refl. eauto 6.
Qed.

(** [snd_async_del_handler] on the handle's handler. *)
Lemma del_own_spec s a :
  async_linked (the_pcm s) (prc s) -> 0 < pcm_block (the_pcm s) ->
  ptrs (prc s) !! async_loc (the_pcm s) = Some a ->
  let '(_, p') := snd_async_del_handler a (prc s) in
  held (wld p') = release (RMem a) (led s) /\
  ptrs p' = delete (async_loc (the_pcm s)) (ptrs (prc s)).
Proof.
  intros Ha Hk Hp. destruct (Ha a Hp) as (b & h & c & Hsp & Hptr).
  pose proof (del_handler_spec a (prc s)) as H. destruct (snd_async_del_handler a (prc s)) as [r p'].
  rewrite Hsp in H. destruct H as (_ & _ & H1 & H2 & _). split; [done|].
  rewrite H2, Hptr, (proj2 (nz_true _)); [done|]. unfold async_loc, sizeof_pcm. lia.
Qed.

Lemma del_own_led s h :
  async_linked (the_pcm s) (prc s) -> 0 < pcm_block (the_pcm s) ->
  led s ≡ₚ async_resources (the_pcm s) (prc s) ++ h ->
  let '(_, s') := del_own s in
  led s' ≡ₚ h /\ the_pcm s' = the_pcm s /\ ptrs (prc s') !! async_loc (the_pcm s) = None.
Proof.
  intros Ha Hk Hl. unfold del_own, bind, get_async, async_resources in *.
  destruct (ptrs (prc s) !! async_loc (the_pcm s)) as [a|] eqn:Hp; [|done].
  unfold onproc. pose proof (del_own_spec s a Ha Hk Hp) as H.
  destruct (snd_async_del_handler a (prc s)) as [r p']. destruct H as [H1 H2].
  simpl in Hl. unfold led at 1. simpl. rewrite H1, H2, Hl, release_head. split; [done|].
  split; [done|]. apply lookup_delete_eq.
Qed.

Lemma keeps_async_del base : keeps base del_own.
Proof.
  intros s [Hl Hm Hst Hsh Ha Hb Hk].
  set (rest := RFd (fd (the_pcm s)) :: RMem (pcm_block (the_pcm s)) ::
    status_resources (the_pcm s) ++ channel_resources (K := K) (the_pcm s) ++ base).
  pose proof (del_own_led s rest Ha Hk) as H. destruct (del_own s) as [r s'].
  destruct H as (H1 & H2 & H3).
  { rewrite Hl. unfold rest, handle_resources. solve_Permutation. }
  constructor; simpl; rewrite ?H2; try done.
  - rewrite H1. unfold rest, handle_resources, async_resources. rewrite H3. solve_Permutation.
  - intros b. simpl. rewrite ?H2, H3. done.
Qed.

(** *** Closing *)

Lemma munmap_status_spec s h :
  shared_inv (the_pcm s) -> led s ≡ₚ status_resources (the_pcm s) ++ h ->
  let '(_, s') := snd_pcm_hw_munmap_status s in
  led s' ≡ₚ h /\ the_pcm s' = put_shared PtrNull PtrNull None (the_pcm s) /\
  same_lists (prc s) (prc s').
Proof.
  unfold shared_inv, status_resources. intros Hinv Hl.
  unfold snd_pcm_hw_munmap_status, bind at 1, getp.
  destruct (sync_ptr (the_pcm s)) as [[a sp]|].
  - unfold bind. rewrite onworld_eq. simpl. split; [|done].
    unfold led. simpl. unfold led in Hl. rewrite Hl. simpl. rewrite decide_True by done. done.
  - destruct Hinv as (st & ct & Hst & Hct). rewrite Hst, Hct in *. unfold bind. rewrite onworld_eq.
    unfold led in Hl. simpl in Hl.
    pose proof (munmap_spec _ _ (wld (prc s)) _ Hl) as H1.
    destruct (sys_munmap st _ _) as [r w1]. destruct H1 as [_ H1].
    rewrite onworld_eq. simpl. pose proof (munmap_spec _ _ w1 _ H1) as H2.
    destruct (sys_munmap ct _ w1) as [r2 w2]. destruct H2 as [_ H2]. done.
Qed.

Lemma close_tail s base :
  led s ≡ₚ RFd (fd (the_pcm s)) :: RMem (pcm_block (the_pcm s)) :: base ->
  forall f b, f = fd (the_pcm s) -> b = pcm_block (the_pcm s) ->
  led ((let* _ := onworld (sys_close f) in let* _ := onworld (sys_free b) in ret 0) s).2 ≡ₚ base.
Proof.
  intros Hl f b -> ->. unfold bind. rewrite onworld_eq.
  pose proof (sys_close_spec (fd (the_pcm s)) (wld (prc s))) as Hc.
  destruct (sys_close _ _) as [c w1]. rewrite onworld_eq. unfold led in *. simpl.
  rewrite Hc, Hl, release_head, release_head. done.
Qed.

Lemma stop_spec base s :
  session base s ->
  let '(_, s') := (if setup (the_pcm s) then let* _ := snd_pcm_drop in snd_pcm_hw_free else ret 0) s in
  session base s' /\ same_id (the_pcm s) (the_pcm s').
Proof.
  intros Hs. destruct (setup (the_pcm s)); [|done]. unfold bind.
  assert (Hq : quiet (K := K) snd_pcm_drop) by (unfold snd_pcm_drop; quiet_tac).
  pose proof (keeps_quiet base _ Hq s Hs) as H1. pose proof (quiet_same_id _ s Hq) as [H2 H3].
  destruct (snd_pcm_drop s) as [r s1]. simpl in *.
  pose proof (hw_free_spec base s1 H1) as H4. destruct (snd_pcm_hw_free s1) as [r2 s2].
  destruct H4 as (H4 & _ & H5 & H6). split; [done|]. split; congruence.
Qed.

(** Closing gives back all a session holds. *)
Lemma close_spec base s :
  session base s -> let '(r, s') := snd_pcm_close s in r = 0 /\ led s' ≡ₚ base.
Proof.
  intros Hs. unfold snd_pcm_close, bind at 1, getp. unfold bind at 1.
  pose proof (stop_spec base s Hs) as H1.
  match type of H1 with match ?x with _ => _ end => destruct x as [r1 s1] end. destruct H1 as [H1 [Hf1 Hb1]].
  unfold bind at 1. pose proof (keeps_munmap base s1 H1) as H2. pose proof (munmap_none base s1 H1) as Hn.
  pose proof (munmap_same_id base s1 H1) as [Hf2 Hb2].
  destruct (_snd_pcm_munmap s1) as [r2 s2]. simpl in *. unfold bind at 1.
  pose proof (munmap_status_spec s2 (RFd (fd (the_pcm s2)) :: RMem (pcm_block (the_pcm s2)) ::
    async_resources (the_pcm s2) (prc s2) ++ base) (ses_shared _ _ H2)) as H3.
  destruct (snd_pcm_hw_munmap_status s2) as [r3 s3]. destruct H3 as (H3 & Hp3 & Hs3).
  { rewrite (ses_led _ _ H2). unfold handle_resources, channel_resources.
    pose proof (ses_map _ _ H2) as Hm. unfold map_inv in Hm. rewrite Hn in *.
    destruct (running_areas (the_pcm s2)); [done|]. simpl. solve_Permutation. }
  destruct Hs3 as (Hl3 & _ & Hptr3).
  unfold bind at 1.
  pose proof (del_own_led s3 (RFd (fd (the_pcm s2)) :: RMem (pcm_block (the_pcm s2)) :: base)) as H4.
  destruct (del_own s3) as [r4 s4]. rewrite Hp3 in H4. destruct H4 as (Hl4 & Hp4 & _).
  { intros a. unfold async_loc. simpl. rewrite Hl3, Hptr3. apply (ses_async _ _ H2). }
  { apply (ses_block _ _ H2). }
  { rewrite H3. unfold async_resources, async_loc. simpl. rewrite Hptr3. solve_Permutation. }
  pose proof (close_tail s4 base) as H5. rewrite Hp4 in H5. simpl in H5.
  specialize (H5 Hl4 (fd (the_pcm s)) (pcm_block (the_pcm s))).
  match goal with |- match ?x with _ => _ end => destruct x as [r5 s5] eqn:He end.
  assert (Hr : r5 = 0).
  { unfold bind, ret in He. destruct (onworld _ s4) as [? ?]. destruct (onworld _ p) as [? ?].
    congruence. }
  split; [done|]. apply H5; congruence.
Qed.

(** *** Opening *)

(** A handle before its status is mapped. *)
Definition fresh (base : list resource) (s : ps K) : Prop :=
  (exists block card dev sub str ver fd ev, 0 < block /\
     the_pcm s = new_pcm block card dev sub str ver fd ev) /\
  led s ≡ₚ RFd (fd (the_pcm s)) :: RMem (pcm_block (the_pcm s)) :: base /\
  ptrs (prc s) !! async_loc (the_pcm s) = None.

(** Once the records are in place the session has begun. *)
Lemma fresh_session base s (s' : ps K) st ct sp :
  fresh base s -> the_pcm s' = put_shared st ct sp (the_pcm s) -> shared_inv (the_pcm s') ->
  ptrs (prc s') = ptrs (prc s) -> led s' ≡ₚ status_resources (the_pcm s') ++ led s ->
  session base s'.
Proof.
  intros ((block & card & dev & sub & str & ver & fd & ev & Hb & Hp) & Hl & Hn) Hp' Hsh Hptr Hl'.
  rewrite Hp in *. constructor; rewrite ?Hp'; simpl; try done.
  - rewrite Hl', Hl, Hp'. unfold handle_resources, async_resources, channel_resources.
    rewrite Hptr. unfold async_loc in *. simpl in *. rewrite Hn. solve_Permutation.
  - rewrite <- Hp'. exact Hsh.
  - intros a. unfold async_loc in *. simpl in *. rewrite Hptr, Hn. done.
Qed.

Lemma sys_mmap_spec size f off (w : world K) :
  let '(p, w') := sys_mmap size f off w in
  held w' = if p <? 0 then held w else RMap p size :: held w.
Proof.
  unfold sys_mmap, bind, lift. destruct (os_mmap size f off (ker w)) as [p k].
  destruct (p <? 0) eqn:Hp; simpl; rewrite Hp; done.
Qed.

Lemma map_records_spec fd (w : world K) :
  let '(st, ct, w') := map_records fd w in
  if ct <? 0 then held w' ≡ₚ held w
  else held w' ≡ₚ RMap st (page_align (K := K) sizeof_mmap_status) ::
                   RMap ct (page_align (K := K) sizeof_mmap_control) :: held w.
Proof.
  unfold map_records, bind at 1.
  pose proof (sys_mmap_spec (page_align (K := K) sizeof_mmap_status) fd MMAP_OFFSET_STATUS w) as H1.
  destruct (sys_mmap _ fd MMAP_OFFSET_STATUS w) as [st w1]. unfold bind at 1.
  destruct (st <? 0); [simpl; rewrite H1; done|]. unfold bind at 1.
  pose proof (sys_mmap_spec (page_align (K := K) sizeof_mmap_control) fd MMAP_OFFSET_CONTROL w1) as H2.
  destruct (sys_mmap _ fd MMAP_OFFSET_CONTROL w1) as [ct w2]. destruct (ct <? 0) eqn:Hct; simpl.
  - unfold bind. pose proof (munmap_spec st (page_align (K := K) sizeof_mmap_status) w2 (held w)) as H3.
    destruct (sys_munmap st _ w2) as [r w3]. simpl. rewrite Hct. apply H3. rewrite H2, H1. done.
  - rewrite Hct, H2, H1. solve_Permutation.
Qed.

Lemma hw_mmap_status_spec base s :
  fresh base s ->
  let '(r, s') := snd_pcm_hw_mmap_status s in
  if r <? 0 then led s' ≡ₚ led s else r = 0 /\ session base s'.
Proof.
  intros Hf. assert (Hsync : sync_ptr (the_pcm s) = None).
  { destruct Hf as ((block & card & dev & sub & str & ver & fd & ev & _ & ->) & _). done. }
  unfold snd_pcm_hw_mmap_status, bind at 1, getp. rewrite Hsync.
  pose proof (map_records_spec (fd (the_pcm s)) (wld (prc s))) as Hm.
  unfold bind at 1. rewrite onworld_eq.
  destruct (map_records _ _) as [[st ct] w1]. destruct (ct <? 0).
  - unfold bind at 1, setp. unfold bind at 1. rewrite onworld_eq. simpl.
    pose proof (alloc_spec sizeof_sync_ptr w1) as Ha.
    destruct (sys_alloc sizeof_sync_ptr w1) as [[a|] w2]; [|simpl; unfold led; simpl; rewrite Ha; exact Hm].
    unfold bind at 1. simpl. set (s2 := PS _ _).
    assert (H2 : session base s2).
    { apply (fresh_session base s s2 PtrSync PtrSync (Some (a, zero_sync_ptr))); try done.
      unfold led, s2. simpl. rewrite Ha, Hm. done. }
    clearbody s2. unfold bind at 1.
    pose proof (keeps_quiet base _ (quiet_avail_min 1) s2 H2) as H3.
    destruct (set_avail_min 1 s2) as [r3 s3]. unfold bind at 1.
    pose proof (keeps_quiet base _ (quiet_sync_ptr 0) s3 H3) as H4.
    destruct (_snd_pcm_sync_ptr 0 s3) as [r4 s4]. done.
  - unfold bind at 1, setp. simpl. set (s2 := PS _ _).
    assert (H2 : session base s2).
    { apply (fresh_session base s s2 (PtrMap st) (PtrMap ct) None); try done.
      unfold shared_inv. simpl. eauto. }
    clearbody s2. unfold bind at 1.
    pose proof (keeps_quiet base _ (quiet_avail_min 1) s2 H2) as H3.
    destruct (set_avail_min 1 s2) as [r3 s3]. done.
Qed.

(** Opening the descriptor takes it, or nothing - or descriptor 0, where [errno] was 0. *)
Lemma open_pcm_fd_spec errno0 filename fmode card subdev (w : world K) :
  0 <= errno0 -> (errno0 = 0 -> RFd 0 ∈ held w) ->
  exists base, spared errno0 (held w) base /\
    let '(fd, sub, w') := open_pcm_fd errno0 filename fmode card subdev w in
    held w' ≡ₚ if fd <? 0 then base else RFd fd :: base.
Proof.
  intros He Hin. assert (Hb : forall fd, balanced (K := K) (get_pcm_subdev fd)).
  { intros fd. unfold get_pcm_subdev. balanced_tac. }
  assert (Hc : forall fd r (sub : Z) base (w1 w2 : world K), held w1 ≡ₚ RFd fd :: base ->
    r < 0 -> (let* _ := sys_close fd in ret (r, sub)) w1 = ((r, sub), w2) ->
    held w2 ≡ₚ base).
  { intros fd r sub base w1 w2 H1 _ H2. unfold bind, ret in H2.
    pose proof (sys_close_spec fd w1) as H3. destruct (sys_close fd w1) as [c w3].
    injection H2 as <-. rewrite H3, H1, release_head. done. }
  unfold open_pcm_fd. destruct (0 <=? subdev).
  - unfold bind at 1. pose proof (open_subdev_spares errno0 filename fmode card subdev PcmPreferSubdevice w He Hin) as Ho.
    destruct (_snd_open_subdev _ _ _ _ _ _ w) as [fd w1]. destruct Ho as (base & Hs & Ho). exists base.
    split; [exact Hs|]. destruct (fd <? 0) eqn:Hfd; [simpl; rewrite Hfd; done|].
    unfold bind at 1. pose proof (Hb fd w1) as H1. destruct (get_pcm_subdev fd w1) as [got w2]. simpl in H1.
    destruct (negb (got =? subdev)); [|simpl; rewrite Hfd, H1; done].
    specialize (Hc fd (- EBUSY) subdev base w2). unfold bind, ret in *.
    destruct (sys_close fd w2) as [c w3]. simpl. apply (Hc w3); [rewrite H1; done|done|done].
  - exists (held w). split; [left; done|].
    unfold bind at 1. pose proof (sys_open_spec filename fmode w) as Ho.
    destruct (sys_open filename fmode w) as [fd w1]. destruct (fd <? 0) eqn:Hfd; [simpl; rewrite Hfd, Ho; done|].
    unfold bind at 1. pose proof (Hb fd w1) as H1. destruct (get_pcm_subdev fd w1) as [got w2]. simpl in H1.
    destruct (got <? 0); [|simpl; rewrite Hfd, H1, Ho; done].
    specialize (Hc fd (- EBUSY) got (held w) w2). unfold bind, ret in *.
    destruct (sys_close fd w2) as [c w3]. simpl. apply (Hc w3); [rewrite H1, Ho; done|done|done].
Qed.

(** The descriptor is given back where opening fails after it. *)
Lemma onsys_close fd (p : proc K) h :
  held (wld p) ≡ₚ RFd fd :: h ->
  let '(_, p') := onsys (sys_close fd) p in held (wld p') ≡ₚ h.
Proof.
  intros Hh. rewrite onsys_eq. pose proof (sys_close_spec fd (wld p)) as H.
  destruct (sys_close fd (wld p)) as [c w]. simpl. rewrite H, Hh, release_head. done.
Qed.


Lemma open_handle_spec base fmode card dev subdev str mode fd (p : proc K) :
  held (wld p) ≡ₚ RFd fd :: base ->
  let '(r, h, p') := open_handle fmode card dev subdev str mode fd p in
  match h with
  | None => r < 0 /\ held (wld p') ≡ₚ base
  | Some pcm => r = 0 /\ session base (PS pcm p')
  end.
Proof.
  intros Hh. unfold open_handle, bind at 1.
  assert (H1 : exists r p1, (if nz (Z.land mode PCM_NONBLOCK) then ret 0
    else onsys (lift (os_setfl fd (Z.land fmode (Z.lnot O_NONBLOCK))))) p = (r, p1) /\
    held (wld p1) = held (wld p)).
  { destruct (nz _); [exists 0, p; done|]. rewrite onsys_eq. unfold lift.
    destruct (os_setfl _ _ _) as [r k]. eexists _, _. split; reflexivity. }
  destruct H1 as (r1 & p1 & -> & Hh1). unfold bind at 1. rewrite onsys_eq.
  assert (Hv : balanced (K := K) (exchange_versions fd)) by (unfold exchange_versions; balanced_tac).
  specialize (Hv (wld p1)). destruct (exchange_versions fd (wld p1)) as [[err ver] w2]. simpl in Hv.
  destruct (err <? 0) eqn:Herr; zbool.
  { unfold bind. set (p2 := Proc _ _ _ _). pose proof (onsys_close fd p2 base) as Hc.
    destruct (onsys (sys_close fd) p2) as [c p3]. simpl. split; [done|].
    apply Hc. unfold p2. simpl. rewrite Hv, Hh1. done. }
  unfold bind at 1. rewrite onsys_eq. simpl. pose proof (alloc_spec sizeof_pcm w2) as Ha.
  destruct (sys_alloc sizeof_pcm w2) as [[block|] w3] eqn:Hal.
  2:{ unfold bind. set (p3 := Proc _ _ _ _). pose proof (onsys_close fd p3 base) as Hc.
    destruct (onsys (sys_close fd) p3) as [c p4]. simpl. split; [unfold ENOMEM; lia|].
    apply Hc. unfold p3. simpl. rewrite Ha, Hv, Hh1. done. }
  assert (Hb : 0 < block).
  { unfold sys_alloc, bind, lift in Hal. destruct (os_alloc sizeof_pcm (held w2) (ker w2)) as [[a|] k] eqn:Hos.
    - simpl in Hal. injection Hal as -> _. apply (alloc_law _ _ _ _ _ Hos).
    - discriminate. }
  unfold bind at 1, set_ptr. simpl. unfold bind at 1, with_handle.
  set (s4 := PS _ _). assert (Hf : fresh base s4).
  { split; [repeat eexists; done|]. split; [|unfold s4; simpl; apply lookup_delete_eq].
    unfold led, s4. simpl. rewrite Ha, Hv, Hh1, Hh. apply Permutation_swap. }
  pose proof (hw_mmap_status_spec base s4 Hf) as Hs.
  assert (Hid : led s4 ≡ₚ RMem block :: RFd fd :: base).
  { unfold led, s4. simpl. rewrite Ha, Hv, Hh1, Hh. done. }
  destruct (snd_pcm_hw_mmap_status s4) as [e s5]. destruct (e <? 0) eqn:He; zbool.
  - unfold bind. rewrite onsys_eq. simpl. set (p6 := Proc _ _ _ _).
    pose proof (onsys_close fd p6 base) as Hc. destruct (onsys (sys_close fd) p6) as [c p7]. simpl.
    split; [done|]. apply Hc. unfold p6. simpl. unfold led in Hs, Hid.
    rewrite Hs, Hid, release_head. done.
  - simpl. destruct Hs as [_ Hs]. split; [done|]. destruct s5. exact Hs.
Qed.

(** What [snd_pcm_open] leaves, on every path and for every [errno]. *)
Lemma open_spares errno0 name str mode (p : proc K) :
  0 <= errno0 -> (errno0 = 0 -> RFd 0 ∈ held (wld p)) ->
  exists base, spared errno0 (held (wld p)) base /\
    let '(r, h, p') := snd_pcm_open errno0 name str mode p in
    match h with
    | None => r < 0 /\ held (wld p') ≡ₚ base
    | Some pcm => r = 0 /\ session base (PS pcm p')
    end.
Proof.
  intros He Hin. unfold snd_pcm_open, bind at 1. rewrite onsys_eq.
  pose proof (balanced_get_device name true true (wld p)) as Hd.
  destruct (_snd_dev_get_device name true true (wld p)) as [[err [[card dev] subdev]] w1]. simpl in Hd.
  destruct (err <? 0) eqn:Herr; zbool; [exists (held (wld p)); split; [left; done|]; simpl; rewrite Hd; done|].
  unfold bind. rewrite onsys_eq. simpl.
  match goal with |- context [open_pcm_fd errno0 ?f ?m ?c ?sd w1] =>
    destruct (open_pcm_fd_spec errno0 f m c sd w1 He) as (base & Hs & Ho);
    [rewrite Hd; exact Hin|];
    destruct (open_pcm_fd errno0 f m c sd w1) as [[fd sub] w2]; generalize m end.
  intros fmode. exists base. split; [unfold spared in *; rewrite <- Hd; exact Hs|].
  destruct (fd <? 0) eqn:Hfd; zbool; [simpl; rewrite Ho; done|].
  apply open_handle_spec. simpl. rewrite Ho. done.
Qed.

Lemma session_perm base base' s : base ≡ₚ base' -> session base s -> session base' s.
Proof. intros Hb [H1 H2 H3 H4 H5 H6 H7]. constructor; try done. rewrite <- Hb. exact H1. Qed.

Lemma open_spec errno0 name str mode (p : proc K) :
  0 < errno0 ->
  let '(r, h, p') := snd_pcm_open errno0 name str mode p in
  match h with
  | None => r < 0 /\ held (wld p') ≡ₚ held (wld p)
  | Some pcm => r = 0 /\ session (held (wld p)) (PS pcm p')
  end.
Proof.
  intros He. destruct (open_spares errno0 name str mode p) as (base & Hb & H); [lia..|].
  apply spared_positive in Hb; [|done].
  destruct (snd_pcm_open errno0 name str mode p) as [[r [pcm|]] p']; destruct H as [Hr H]; (split; [done|]).
  - exact (session_perm _ _ _ Hb H).
  - rewrite H. exact Hb.
Qed.

(** *** Calls between opening and closing *)

Inductive pcm_call :=
  | CallHwParams (junk : Z) (params : snd_pcm_hw_params_t)
  | CallHwFree
  | CallSwParams (params : snd_pcm_sw_params_t)
  | CallPrepare
  | CallStart
  | CallSimple (c : pcm_cmd)
  | CallMove (m : move) (frames : Z)
  | CallTransfer (x : xfer) (buffer size : Z)
  | CallState
  | CallHwsync
  | CallAvailUpdate
  | CallBegin (frames : Z)
  | CallCommit (offset frames : Z)
  | CallMmapWrite (buffer size : Z)
  | CallMmapRead (buffer size : Z)
  | CallWait (fuel : nat) (timeout : Z)
  | CallRecover (fuel : nat) (err : Z)
  | CallNonblock (nonblock : Z)
  | CallAddHandler (callback private_data : Z)
  | CallDelHandler.

(** The state after a call, whatever it returned. *)
Definition run_call (c : pcm_call) (s : ps K) : ps K :=
  match c with
  | CallHwParams junk params => (snd_pcm_hw_params junk params s).2
  | CallHwFree => (snd_pcm_hw_free s).2
  | CallSwParams params => (snd_pcm_sw_params params s).2
  | CallPrepare => (snd_pcm_prepare s).2
  | CallStart => (snd_pcm_start s).2
  | CallSimple c => (simple c s).2
  | CallMove m frames => (move_by m frames s).2
  | CallTransfer x buffer size => (transfer x buffer size s).2
  | CallState => (snd_pcm_state s).2
  | CallHwsync => (_snd_pcm_hwsync s).2
  | CallAvailUpdate => (snd_pcm_avail_update s).2
  | CallBegin frames => (snd_pcm_mmap_begin frames s).2
  | CallCommit offset frames => (snd_pcm_mmap_commit offset frames s).2
  | CallMmapWrite buffer size => (snd_pcm_mmap_writei buffer size s).2
  | CallMmapRead buffer size => (snd_pcm_mmap_readi buffer size s).2
  | CallWait fuel timeout => (snd_pcm_wait fuel timeout s).2
  | CallRecover fuel err => (snd_pcm_recover fuel err s).2
  | CallNonblock n => (snd_pcm_nonblock n s).2
  | CallAddHandler cb priv => (snd_async_add_pcm_handler cb priv s).2
  | CallDelHandler => (del_own s).2
  end.

Definition run_calls (calls : list pcm_call) (s : ps K) : ps K := fold_left (fun s c => run_call c s) calls s.

#[local] Hint Resolve quiet_nonblock quiet_sw_params : quiet.

Lemma run_call_session base c s : session base s -> session base (run_call c s).
Proof.
  destruct c; simpl;
    first [ apply keeps_hw_params | apply keeps_hw_free | apply keeps_async_add
          | apply keeps_async_del
          | apply keeps_quiet;
            unfold _snd_pcm_hwsync, snd_pcm_mmap_writei, snd_pcm_mmap_readi, snd_pcm_mmap_begin,
              snd_pcm_recover;
            solve [quiet_tac] ].
Qed.

Lemma run_calls_session base calls s : session base s -> session base (run_calls calls s).
Proof.
  revert s. induction calls as [|c calls IH]; intros s Hs; simpl; [done|].
  apply IH, run_call_session, Hs.
Qed.

(** C1. No leak over a session: a failed [snd_pcm_open] gives back everything it took,
    and after a successful one any sequence of calls on the handle, successful or
    not, followed by [snd_pcm_close], leaves the process with exactly the
    descriptors, mappings and blocks it had before - for every [errno] the process may have
    had when it called, with one exception where that [errno] is 0: there
    [_snd_open_subdev], whose test is inverted, can answer 0 without having opened anything,
    [snd_pcm_open] takes that for its descriptor, and the process may be left without its
    own descriptor 0 (the theorem supposes that it had one); everything else it keeps. *)
Theorem pcm_session_balanced (errno0 : Z) (name : string) (str mode : Z) (calls : list pcm_call)
  (p : proc K) :
  0 <= errno0 -> (errno0 = 0 -> RFd 0 ∈ held (wld p)) ->
  let left_with (rest : list resource) :=
    rest ≡ₚ held (wld p) \/ errno0 = 0 /\ RFd 0 :: rest ≡ₚ held (wld p) in
  let '(r, h, p') := snd_pcm_open errno0 name str mode p in
  match h with
  | None => r < 0 /\ left_with (held (wld p'))
  | Some pcm =>
      r = 0 /\
      let '(rc, s) := snd_pcm_close (run_calls calls (PS pcm p')) in
      rc = 0 /\ left_with (held (wld (prc s)))
  end.
Proof.
  intros He Hin left_with. destruct (open_spares errno0 name str mode p He Hin) as (base & Hb & H).
  destruct (snd_pcm_open errno0 name str mode p) as [[r h] p'].
  assert (Hleft : forall rest, rest ≡ₚ base -> left_with rest).
  { unfold left_with. intros rest Hr. rewrite Hr. exact Hb. }
  destruct h as [pcm|]; [|destruct H; auto]. destruct H as [Hr Hs]. split; [done|].
  pose proof (close_spec _ _ (run_calls_session _ calls _ Hs)) as Hc.
  destruct (snd_pcm_close _) as [rc s]. destruct Hc. auto.
Qed.

(** The handle's [boundary], which wraps the positions of a mapped stream, is
    never assigned: it is 0 after any sequence of calls on an open handle, while the
    pointers to the status and control records are always set. *)
Theorem boundary_never_set (errno0 : Z) (name : string) (str mode : Z) (calls : list pcm_call)
  (p : proc K) :
  0 < errno0 ->
  let '(_, h, p') := snd_pcm_open errno0 name str mode p in
  match h with
  | None => True
  | Some pcm =>
      let pcm' := the_pcm (run_calls calls (PS pcm p')) in
      boundary pcm' = 0 /\ mmap_status pcm' <> PtrNull /\ mmap_control pcm' <> PtrNull
  end.
Proof.
  intros He. pose proof (open_spec errno0 name str mode p He) as H.
  destruct (snd_pcm_open errno0 name str mode p) as [[r [pcm|]] p']; [|done].
  destruct H as [Hr Hs]. pose proof (run_calls_session _ calls _ Hs) as [_ _ _ Hsh _ Hb _].
  simpl. split; [done|]. unfold shared_inv in Hsh. destruct (sync_ptr _).
  - destruct Hsh as [-> ->]. done.
  - destruct Hsh as (st & ct & -> & ->). done.
Qed.

(** What [snd_pcm_mmap_avail] and [snd_pcm_mmap_commit] do on a handle whose boundary is 0. *)
Lemma mmap_avail_unwrapped (s : ps K) :
  boundary (the_pcm s) = 0 ->
  let bs := buffer_size (the_pcm s) in
  let '(st, s1) := get_status s in
  let '(ct, s2) := get_control s1 in
  0 < bs <= LONG_MAX -> 0 <= hw_ptr st <= LONG_MAX - bs -> 0 <= appl_ptr ct <= LONG_MAX ->
  snd_pcm_mmap_avail s =
    (let room := if stream (the_pcm s) =? STREAM_PLAYBACK then hw_ptr st + bs - appl_ptr ct
                 else hw_ptr st - appl_ptr ct in
     if 0 <=? room then room else room + (ULONG_MAX + 1), s2).
Proof.
  intros Hb bs. unfold snd_pcm_mmap_avail, snd_pcm_mmap_playback_avail, snd_pcm_mmap_capture_avail, with_ptrs,
    bind, getp, ret.
  destruct (get_status s) as [st s1] eqn:E1. destruct (get_control s1) as [ct s2] eqn:E2. intros H1 H2 H3.
  destruct (stream _ =? STREAM_PLAYBACK); cbv beta zeta; rewrite E1, E2, Hb; fold bs.
  - rewrite playback_avail_unwrapped by lia.
    destruct (Z.leb_spec (appl_ptr ct) (hw_ptr st + bs)), (Z.leb_spec 0 (hw_ptr st + bs - appl_ptr ct)); try lia; done.
  - rewrite capture_avail_unwrapped by lia.
    destruct (Z.leb_spec (appl_ptr ct) (hw_ptr st)), (Z.leb_spec 0 (hw_ptr st - appl_ptr ct)); try lia; done.
Qed.

(** C26. The available space of a real handle: after [snd_pcm_open] and any calls, for
    positions read from the records that are below LONG_MAX, [snd_pcm_mmap_avail] is the
    buffer less the frames queued for playback, and the frames captured and not yet read for
    capture, exactly as long as the application's position is at most that far ahead as a
    number; and [snd_pcm_mmap_commit] moves the application's position by the frames
    committed, without ever wrapping it.  Since nothing wraps, the answer is wrong once the
    kernel's own position has wrapped at the boundary the driver was given and the
    application's has not: the space then comes out as more than LONG_MAX frames. *)
Theorem avail_on_open_handle (errno0 : Z) (name : string) (str mode : Z) (calls : list pcm_call)
  (p : proc K) (offset frames : Z) :
  0 <= errno0 -> (errno0 = 0 -> RFd 0 ∈ held (wld p)) ->
  let '(_, h, p') := snd_pcm_open errno0 name str mode p in
  match h with
  | None => True
  | Some pcm =>
      let s := run_calls calls (PS pcm p') in
      let bs := buffer_size (the_pcm s) in
      let '(st, s1) := get_status s in
      let '(ct, s2) := get_control s1 in
      let ahead := if stream (the_pcm s) =? STREAM_PLAYBACK then appl_ptr ct - bs else appl_ptr ct in
      let avail := (snd_pcm_mmap_avail s).1 in
      0 < bs <= LONG_MAX -> 0 <= hw_ptr st <= LONG_MAX - bs -> 0 <= appl_ptr ct <= LONG_MAX ->
      (ahead <= hw_ptr st -> avail = hw_ptr st - ahead) /\
      (hw_ptr st < ahead -> LONG_MAX < avail) /\
      let '(ct', s3) := get_control s in
      (0 <= frames -> 0 <= appl_ptr ct' -> appl_ptr ct' + frames <= ULONG_MAX ->
       snd_pcm_mmap_commit offset frames s =
         (s64 frames, (_snd_pcm_sync_ptr 0 (set_appl_ptr (appl_ptr ct' + frames) s3).2).2))
  end.
Proof.
  intros He Hin. destruct (open_spares errno0 name str mode p He Hin) as (base & _ & H).
  destruct (snd_pcm_open errno0 name str mode p) as [[r [pcm|]] p']; [|done].
  destruct H as [_ Hs]. pose proof (run_calls_session _ calls _ Hs) as Hs2. cbv zeta.
  set (s := run_calls calls _) in *. pose proof (ses_boundary _ _ Hs2) as Hb.
  pose proof (mmap_avail_unwrapped s Hb) as Hav. cbv zeta in Hav.
  destruct (get_status s) as [st s1]. destruct (get_control s1) as [ct s2].
  intros H1 H2 H3. rewrite (Hav H1 H2 H3). unfold LONG_MAX, ULONG_MAX in *. cbn [fst].
  split; [|split].
  - intros Hle. destruct (stream _ =? STREAM_PLAYBACK);
      match goal with |- (if 0 <=? ?r then _ else _) = _ => destruct (Z.leb_spec 0 r) end; lia.
  - intros Hlt. destruct (stream _ =? STREAM_PLAYBACK);
      match goal with |- _ < (if 0 <=? ?r then _ else _) => destruct (Z.leb_spec 0 r) end; lia.
  - unfold snd_pcm_mmap_commit, bind, getp, ret. destruct (get_control s) as [ct' s3]. intros Hf Ha Hm.
    rewrite Hb, advance_unwrapped by (unfold ULONG_MAX; lia).
    destruct (set_appl_ptr _ s3) as [u s4]. simpl. destruct (_snd_pcm_sync_ptr 0 s4). done.
Qed.
End Session.

(** ** The configuration and the alignment *)

Section Configuration.
Context {K : Type} `{!Os K, !AsyncKernel K, !CardKernel K, !PcmKernel K, !OsLaws K}.

(** The fields a configuration sets. *)
Definition config_of (p : snd_pcm_t) :=
  (setup p, hw_params p, _access p, format p, subformat p, channels p, rate p, period_time p,
   (period_size p, buffer_size p, sample_bits p, frame_bits p)).

Lemma quiet_config {A} (m : io (ps K) A) s :
  quiet m -> config_of (the_pcm (m s).2) = config_of (the_pcm s).
Proof. intros Hq. destruct (Hq s) as [(sp & sw & -> & _) _]. done. Qed.

Lemma munmap_config base s :
  session base s -> config_of (the_pcm (_snd_pcm_munmap s).2) = config_of (the_pcm s).
Proof.
  intros Hs. pose proof (handle_munmap_spec s _ (ses_map _ _ Hs) (session_channels _ _ Hs)) as H.
  destruct (_snd_pcm_munmap s) as [r s']. destruct H as (_ & Hp & _). simpl. rewrite Hp. done.
Qed.

Lemma map_if_needed_config base s :
  session base s -> setup (the_pcm s) = true ->
  config_of (the_pcm (map_if_needed s).2) = config_of (the_pcm s).
Proof.
  intros Hs Hset. unfold map_if_needed, bind at 1, getp.
  destruct (is_mmap_access _); [|apply quiet_config; quiet_tac].
  unfold bind at 1. pose proof (keeps_mmap base s Hs Hset) as H1.
  pose proof (handle_mmap_spec s _ (ses_map _ _ Hs) (session_channels _ _ Hs)) as H.
  destruct (_snd_pcm_mmap s) as [err s1]. destruct H as (mc & ra & Hp & _). simpl in H1.
  assert (Hc : config_of (the_pcm s1) = config_of (the_pcm s)) by (rewrite Hp; done).
  destruct (err <? 0).
  - unfold bind. pose proof (munmap_config base s1 H1) as H2. destruct (_snd_pcm_munmap s1).
    simpl in *. congruence.
  - rewrite <- Hc. apply (quiet_config (let* _ := _snd_pcm_sync_ptr 0 in ret 0)). quiet_tac.
Qed.

Lemma map_if_needed_fd base s : session base s -> fd (the_pcm (map_if_needed s).2) = fd (the_pcm s).
Proof.
  intros Hs. unfold map_if_needed, bind at 1, getp.
  destruct (is_mmap_access _); [|apply (quiet_same_id (let* _ := _snd_pcm_sync_ptr 0 in ret 0)); quiet_tac].
  unfold bind at 1. pose proof (handle_mmap_spec s _ (ses_map _ _ Hs) (session_channels _ _ Hs)) as H.
  destruct (_snd_pcm_mmap s) as [err s1]. destruct H as (mc & ra & Hp & _ & Hms & Hl & _).
  assert (Hf : fd (the_pcm s1) = fd (the_pcm s)) by (rewrite Hp; done). destruct (err <? 0).
  - unfold bind. rewrite <- Hf.
    assert (Hm1 : map_inv (the_pcm s1)).
    { rewrite Hp. unfold map_inv, mapped_state in *. simpl. destruct mc as [[]|], ra as [[]|]; try done. apply Hms. }
    pose proof (handle_munmap_spec s1 _ Hm1 Hl) as H2. destruct (_snd_pcm_munmap s1) as [r s2]. destruct H2 as (_ & Hp2 & _). cbn [snd ret]. unfold ret. cbn [snd]. rewrite Hp2. done.
  - rewrite <- Hf. apply (quiet_same_id (let* _ := _snd_pcm_sync_ptr 0 in ret 0)). quiet_tac.
Qed.

(** A successful configuration ends in [map_if_needed], on a handle that has the fields. *)
Lemma hw_params_run base junk params params' s err s' :
  session base s -> _snd_pcm_hw_params junk params s = (Some (err, params'), s') -> 0 <= err ->
  exists p0 s6, session base s6 /\ setup (the_pcm s6) = true /\
    config_of (the_pcm s6) = config_of (install junk params' (put_hw_params params' (put_setup true p0))) /\
    map_if_needed s6 = (err, s').
Proof.
  intros Hs Hrun Herr. unfold _snd_pcm_hw_params, bind at 1, getp in Hrun. unfold bind at 1 in Hrun.
  pose proof (keeps_quiet base _ (quiet_sysk (snd_pcm_hw_refine (the_pcm s) params)) s Hs) as H1.
  destruct (sysk (snd_pcm_hw_refine (the_pcm s) params) s) as [[e1 params1] s1]. simpl in H1.
  destruct (e1 <? 0) eqn:He1; [injection Hrun as <- <- <-; zbool; lia|].
  unfold bind at 1 in Hrun.
  pose proof (keeps_quiet base _ (quiet_sysk (snd_pcm_hw_params_choose (the_pcm s) params1)) s1 H1) as H2.
  destruct (sysk (snd_pcm_hw_params_choose (the_pcm s) params1) s1) as [[e2 params2] s2]. simpl in H2.
  unfold bind at 1 in Hrun. pose proof (hw_free_spec base s2 H2) as H3.
  destruct (snd_pcm_hw_free s2) as [e3 s3]. destruct H3 as (H3 & Hmc & _). unfold bind at 1 in Hrun.
  pose proof (keeps_quiet base _ (quiet_sysk (ioctl_hw_params (fd (the_pcm s)) params2)) s3 H3) as H4.
  destruct (quiet_sysk (ioctl_hw_params (fd (the_pcm s)) params2) s3) as [(sp & sw & Hq & _) _].
  destruct (sysk (ioctl_hw_params (fd (the_pcm s)) params2) s3) as [[r params3] s4]. simpl in H4, Hq.
  destruct (r <? 0) eqn:Hr; [injection Hrun as <- <- <-; zbool; lia|].
  unfold bind at 1, setp in Hrun. simpl in Hrun. unfold bind at 1, getp in Hrun. simpl in Hrun.
  assert (Hmc4 : mmap_channels (the_pcm s4) = None) by (rewrite Hq; exact Hmc).
  pose proof (session_install base s4 junk params3 H4 Hmc4) as H5. set (s5 := PS _ _) in *.
  assert (Hc5 : config_of (the_pcm s5) =
    config_of (install junk params3 (put_hw_params params3 (put_setup true (the_pcm s4))))) by done.
  assert (Hset : setup (the_pcm s5) = true) by done. clearbody s5.
  destruct (snd_pcm_sw_params_default _ _) as [sw'|]; [|discriminate].
  unfold bind at 1 in Hrun. pose proof (keeps_quiet base _ (quiet_sw_params sw') s5 H5) as H6.
  pose proof (quiet_config _ s5 (quiet_sw_params sw')) as Hc6.
  destruct (snd_pcm_sw_params sw' s5) as [e6 s6]. simpl in H6, Hc6.
  assert (Hset6 : setup (the_pcm s6) = true) by (unfold config_of in Hc6; congruence).
  unfold bind in Hrun. destruct (map_if_needed s6) as [e7 s7] eqn:Hmap. injection Hrun as <- <- <-.
  exists (the_pcm s4), s6. split; [done|]. split; [done|]. split; [congruence|done].
Qed.

(** The handle after a successful configuration. *)
Lemma hw_params_config base junk params params' s err s' :
  session base s -> _snd_pcm_hw_params junk params s = (Some (err, params'), s') -> 0 <= err ->
  exists p0, config_of (the_pcm s') =
    config_of (install junk params' (put_hw_params params' (put_setup true p0))).
Proof.
  intros Hs Hrun Herr. destruct (hw_params_run base junk params params' s err s' Hs Hrun Herr) as (p0 & s6 & H6 & Hset & Hc & Hmap).
  exists p0. rewrite <- Hc. pose proof (map_if_needed_config base s6 H6 Hset) as H. rewrite Hmap in H. exact H.
Qed.

(** A single value is read whatever the variable held. *)
Lemma get_value params var v old :
  _snd_pcm_hw_param_get params var (Some 0) None = (0, Some v, None) ->
  _snd_pcm_hw_param_get params var (Some old) None = (0, Some v, None).
Proof.
  unfold _snd_pcm_hw_param_get. destruct (hw_is_mask var).
  - destruct (_ || _); simpl; [discriminate|congruence].
  - destruct (hw_is_interval var); [|discriminate].
    destruct (_ || _); simpl; [discriminate|congruence].
Qed.

(** C20. When [snd_pcm_hw_params] succeeds the handle is set up with what the driver
    gave: the recorded parameters are the ones returned; access, format, subformat,
    channels, rate, period time, period size and buffer size are each the value of their
    parameter where it is single; samples are as wide as the format, frames as the channels'
    samples; and [snd_pcm_get_params] and [snd_pcm_hw_params_current] report them. *)
Theorem hw_params_installs (base : list resource) (junk : Z) (params params' : snd_pcm_hw_params_t)
  (s s' : ps K) :
  session base s ->
  snd_pcm_hw_params junk params s = (Some (0, params'), s') ->
  let pcm := the_pcm s' in
  let value var := _snd_pcm_hw_param_get params' var (Some 0) None in
  setup pcm = true /\ hw_params pcm = params' /\
  (forall v, value HW_PARAM_ACCESS = (0, Some v, None) -> _access pcm = v) /\
  (forall v, value HW_PARAM_FORMAT = (0, Some v, None) ->
     format pcm = v /\ sample_bits pcm = u32 (snd_pcm_format_physical_width v)) /\
  (forall v, value HW_PARAM_SUBFORMAT = (0, Some v, None) -> subformat pcm = v) /\
  (forall v, value HW_PARAM_CHANNELS = (0, Some v, None) -> channels pcm = v) /\
  (forall v, value HW_PARAM_RATE = (0, Some v, None) -> rate pcm = v) /\
  (forall v, value HW_PARAM_PERIOD_TIME = (0, Some v, None) -> period_time pcm = v) /\
  (forall v, value HW_PARAM_PERIOD_SIZE = (0, Some v, None) -> period_size pcm = v) /\
  (forall v, value HW_PARAM_BUFFER_SIZE = (0, Some v, None) -> buffer_size pcm = v) /\
  frame_bits pcm = u32 (sample_bits pcm * channels pcm) /\
  (forall v, value HW_PARAM_BUFFER_SIZE = (0, Some v, None) ->
   forall w, value HW_PARAM_PERIOD_SIZE = (0, Some w, None) ->
     (snd_pcm_get_params 0 0 s').1 = (0, v, w)) /\
  (snd_pcm_hw_params_current zero_hw_params s').1 = (0, params').
Proof.
  intros Hs Hrun. unfold snd_pcm_hw_params, bind at 1 in Hrun.
  destruct (_snd_pcm_hw_params junk params s) as [[[err p1]|] s1] eqn:H1; [|discriminate].
  destruct (err <? 0) eqn:Herr; [injection Hrun as -> <- <-; discriminate|]. zbool.
  destruct (hw_params_config base junk params p1 s err s1 Hs H1 Herr) as [p0 Hc].
  unfold bind in Hrun. pose proof (quiet_config _ s1 quiet_prepare) as Hc2.
  destruct (snd_pcm_prepare s1) as [e2 s2]. simpl in Hc2. injection Hrun as -> <- <-.
  rewrite Hc in Hc2. unfold config_of, install in Hc2. simpl in Hc2.
  injection Hc2 as E1 E2 E3 E4 E5 E6 E7 E8 E9 E10 E11 E12. simpl.
  split; [done|]. split; [done|].
  unfold snd_pcm_hw_params_get_access, snd_pcm_hw_params_get_format, snd_pcm_hw_params_get_subformat,
    snd_pcm_hw_params_get_channels, snd_pcm_hw_params_get_rate, snd_pcm_hw_params_get_period_time,
    snd_pcm_hw_params_get_buffer_size,
    snd_pcm_hw_params_get_period_size, __snd_pcm_hw_param_get64, get64 in *.
  split; [intros v Hv; rewrite E3, (get_value _ _ _ _ Hv); done|].
  split; [intros v Hv; rewrite E4, E11, (get_value _ _ _ _ Hv); done|].
  split; [intros v Hv; rewrite E5, (get_value _ _ _ _ Hv); done|].
  split; [intros v Hv; rewrite E6, (get_value _ _ _ _ Hv); done|].
  split; [intros v Hv; rewrite E7, (get_value _ _ _ _ Hv); done|].
  split; [intros v Hv; rewrite E8, (get_value _ _ _ _ Hv); done|].
  split; [intros v Hv; rewrite E9, (get_value _ _ _ _ Hv); done|].
  split; [intros v Hv; rewrite E10, (get_value _ _ _ _ Hv); done|].
  split; [rewrite E12, E11, E6; done|]. split.
  - intros v Hv w Hw. unfold snd_pcm_get_params, bind, getp, ret. rewrite E1, E9, E10. simpl.
    rewrite (get_value _ _ _ _ Hv), (get_value _ _ _ _ Hw). done.
  - unfold snd_pcm_hw_params_current, bind, getp, ret. rewrite E1. simpl. rewrite E2. done.
Qed.
End Configuration.

(** *** Alignment *)

(** The loop depends on the last three bits only. *)
Lemma align_loop_spec fb :
  exists k, 0 <= k <= 3 /\ align_loop 3 (u32 fb) 1 = Some (2 ^ k) /\
    (fb * 2 ^ k) mod 8 = 0 /\ forall j, 0 <= j < k -> (fb * 2 ^ j) mod 8 <> 0.
Proof.
  assert (H8 : forall z, u32 z mod 8 = z mod 8).
  { intros z. unfold u32. apply Z.mod_mod_divide. exists 536870912. done. }
  assert (Hd : forall z, u32 (u32 z * 2) = u32 (z * 2)).
  { intros z. unfold u32. apply Zmult_mod_idemp_l. }
  assert (Hsm : forall k, fb * 2 ^ k mod 8 = 0 \/ fb * 2 ^ k mod 8 <> 0) by (intros; lia).
  unfold align_loop. rewrite !Hd, !H8.
  destruct (nz (fb mod 8)) eqn:H0.
  2:{ apply nz_false in H0. exists 0. split; [lia|]. split; [done|].
      split; [change (2 ^ 0) with 1; rewrite Z.mul_1_r; done|lia]. }
  destruct (nz (fb * 2 mod 8)) eqn:H1.
  2:{ apply nz_false in H1. apply nz_true in H0. exists 1. split; [lia|]. split; [done|].
      split; [done|]. intros j Hj. assert (j = 0) as -> by lia. change (2 ^ 0) with 1.
      rewrite Z.mul_1_r. done. }
  apply nz_true in H0, H1.
  destruct (nz (fb * 2 * 2 mod 8)) eqn:H2.
  2:{ apply nz_false in H2. exists 2. split; [lia|]. split; [done|].
      split; [rewrite <- Z.mul_assoc in H2; done|]. intros j Hj.
      assert (j = 0 \/ j = 1) as [->| ->] by lia; [change (2 ^ 0) with 1; rewrite Z.mul_1_r|]; done. }
  apply nz_true in H2. replace (fb * 2 * 2) with (fb * 4) in * by lia.
  assert (H3 : fb * 4 * 2 mod 8 = 0) by (rewrite <- Z.mul_assoc; apply Z_mod_mult).
  rewrite H3. exists 3. split; [lia|]. split; [done|].
  split; [rewrite <- Z.mul_assoc in H3; done|]. intros j Hj.
  assert (j = 0 \/ j = 1 \/ j = 2) as [->|[->| ->]] by lia;
    [change (2 ^ 0) with 1; rewrite Z.mul_1_r| |]; done.
Qed.

(** [snd_pcm_hw_params_get_min_align] always ends, and for a format and a number
    of channels that are set it gives the least power of two of frames that fills
    whole bytes. *)
Theorem min_align_least (params : snd_pcm_hw_params_t) (f c : Z) :
  _snd_pcm_hw_param_get params HW_PARAM_FORMAT (Some 0) None = (0, Some f, None) ->
  _snd_pcm_hw_param_get params HW_PARAM_CHANNELS (Some 0) None = (0, Some c, None) ->
  let fb := snd_pcm_format_physical_width f * c in
  exists k, 0 <= k <= 3 /\
    snd_pcm_hw_params_get_min_align params (Some 0) = Some (0, Some (2 ^ k)) /\
    (fb * 2 ^ k) mod 8 = 0 /\ forall j, 0 <= j < k -> (fb * 2 ^ j) mod 8 <> 0.
Proof.
  intros Hf Hc fb. unfold snd_pcm_hw_params_get_min_align. rewrite Hf, Hc. simpl default.
  change (0 <? 0) with false. cbv iota. fold fb.
  destruct (align_loop_spec fb) as (k & Hk & -> & H1 & H2). exists k. done.
Qed.

(** ** Witnesses *)

(** A device with an empty ledger, and stereo 16-bit parameters. *)
Definition empty_process : proc Z := Proc (World 0 []) [] false ∅.

Definition stereo : snd_pcm_hw_params_t :=
  let point v := Interval v v false false true false in
  HwParams 0 [_snd_mask_set _snd_mask_none ACCESS_MMAP_INTERLEAVED; _snd_mask_set _snd_mask_none FORMAT_S16_LE; _snd_mask_set _snd_mask_none 0]
    [point 16; point 32; point 2; point 48000; point 5333; point 256; point 1024; point 4;
     point 21333; point 1024; point 4096; point 0] 0 0 0 0 0 0 0.

Definition opened : ps Z :=
  match (snd_pcm_open 1 "hw:0,0" STREAM_PLAYBACK 0 empty_process) with
  | (_, Some pcm, p) => PS pcm p
  | (_, None, p) => PS (new_pcm 0 0 0 0 0 0 0 0) p
  end.

Definition session_calls : list pcm_call :=
  [CallHwParams 0 stereo; CallBegin 256; CallCommit 0 256; CallAddHandler 77 0; CallStart;
   CallAvailUpdate].

(** A name with a subdevice, where the control device takes the preference and [errno] is 0:
    the handle is descriptor 0. *)
Definition stdin_process : proc Z := Proc (World 5 [RFd 0]) [] false ∅.

Definition on_stdin : ps Z :=
  match (snd_pcm_open 0 "hw:0,0,0" STREAM_PLAYBACK 0 stdin_process) with
  | (_, Some pcm, p) => PS pcm p
  | (_, None, p) => PS (new_pcm 0 0 0 0 0 0 0 0) p
  end.

Lemma pcm_session_balanced_witness :
  (let '(rc, s) := snd_pcm_close (run_calls session_calls opened) in
   rc = 0 /\ held (wld (prc s)) ≡ₚ []) /\
  (fd (the_pcm on_stdin) = 0 /\
   let '(rc, s) := snd_pcm_close (run_calls session_calls on_stdin) in
   rc = 0 /\ RFd 0 :: held (wld (prc s)) ≡ₚ [RFd 0]).
Proof.
  split; [|split; [vm_compute; reflexivity|]].
  - pose proof (pcm_session_balanced 1 "hw:0,0" STREAM_PLAYBACK 0 session_calls empty_process) as H.
    specialize (H ltac:(lia) ltac:(lia)).
    assert (Ho : snd_pcm_open 1 "hw:0,0" STREAM_PLAYBACK 0 empty_process =
      (0, Some (the_pcm opened), prc opened)) by (vm_compute; reflexivity).
    rewrite Ho in H. destruct H as [_ H].
    replace (PS (the_pcm opened) (prc opened)) with opened in H by (vm_compute; reflexivity).
    destruct (snd_pcm_close _) as [rc s]. destruct H as [-> [H|[H _]]];
      [split; [reflexivity|exact H]|discriminate H].
  - pose proof (pcm_session_balanced 0 "hw:0,0,0" STREAM_PLAYBACK 0 session_calls stdin_process) as H.
    specialize (H ltac:(lia) ltac:(intros _; left)).
    assert (Ho : snd_pcm_open 0 "hw:0,0,0" STREAM_PLAYBACK 0 stdin_process =
      (0, Some (the_pcm on_stdin), prc on_stdin)) by (vm_compute; reflexivity).
    rewrite Ho in H. destruct H as [_ H].
    replace (PS (the_pcm on_stdin) (prc on_stdin)) with on_stdin in H by (vm_compute; reflexivity).
    assert (Hn : ~ (held (wld (prc (snd_pcm_close (run_calls session_calls on_stdin)).2)) ≡ₚ [RFd 0])).
    { replace (held (wld (prc (snd_pcm_close (run_calls session_calls on_stdin)).2))) with ([] : list resource)
        by (vm_compute; reflexivity). intros Hp. apply Permutation_nil in Hp. discriminate Hp. }
    destruct (snd_pcm_close _) as [rc s]. destruct H as [-> [H|[_ H]]];
      [destruct (Hn H)|split; [reflexivity|exact H]].
Defined.

Lemma boundary_never_set_witness :
  channels (the_pcm (run_calls session_calls opened)) = 2 /\
  boundary (the_pcm (run_calls session_calls opened)) = 0.
Proof.
  split; [vm_compute; reflexivity|].
  pose proof (boundary_never_set 1 "hw:0,0" STREAM_PLAYBACK 0 session_calls empty_process) as H.
  specialize (H ltac:(lia)).
  assert (Ho : snd_pcm_open 1 "hw:0,0" STREAM_PLAYBACK 0 empty_process =
    (0, Some (the_pcm opened), prc opened)) by (vm_compute; reflexivity).
  rewrite Ho in H.
  replace (PS (the_pcm opened) (prc opened)) with opened in H by (vm_compute; reflexivity).
  exact (proj1 H).
Defined.

(** A stereo playback with nothing queued: the whole buffer is free. *)
Lemma avail_on_open_handle_witness :
  (snd_pcm_mmap_avail (run_calls session_calls opened)).1 = 1024.
Proof.
  pose proof (avail_on_open_handle 1 "hw:0,0" STREAM_PLAYBACK 0 session_calls empty_process 0 0) as H.
  specialize (H ltac:(lia) ltac:(lia)).
  assert (Ho : snd_pcm_open 1 "hw:0,0" STREAM_PLAYBACK 0 empty_process =
    (0, Some (the_pcm opened), prc opened)) by (vm_compute; reflexivity).
  rewrite Ho in H.
  replace (PS (the_pcm opened) (prc opened)) with opened in H by (vm_compute; reflexivity).
  set (s := run_calls session_calls opened) in *.
  assert (Hst : get_status s = (zero_status, (get_status s).2)) by (vm_compute; reflexivity).
  assert (Hct : get_control (get_status s).2 = (MmapControl 0 1, (get_control (get_status s).2).2))
    by (vm_compute; reflexivity).
  assert (Hp : (buffer_size (the_pcm s), stream (the_pcm s)) = (1024, STREAM_PLAYBACK)) by (vm_compute; reflexivity).
  clearbody s. clear Ho. injection Hp as Hbs Hstr. cbv zeta in H. rewrite Hst, Hct, Hbs, Hstr in H.
  change (STREAM_PLAYBACK =? STREAM_PLAYBACK) with true in H. cbv iota in H.
  unfold LONG_MAX in H. cbn [hw_ptr appl_ptr zero_status] in H.
  destruct H as (H & _); [lia..|]. rewrite H by lia. reflexivity.
Defined.

Lemma opened_session : session [] opened.
Proof.
  pose proof (open_spec 1 "hw:0,0" STREAM_PLAYBACK 0 empty_process) as H.
  specialize (H ltac:(lia)).
  assert (Ho : snd_pcm_open 1 "hw:0,0" STREAM_PLAYBACK 0 empty_process =
    (0, Some (the_pcm opened), prc opened)) by (vm_compute; reflexivity).
  rewrite Ho in H.
  replace (PS (the_pcm opened) (prc opened)) with opened in H by (vm_compute; reflexivity).
  exact (proj2 H).
Qed.

Definition stereo_result : snd_pcm_hw_params_t :=
  match (snd_pcm_hw_params 0 stereo opened).1 with Some (_, p) => p | None => stereo end.

Lemma hw_params_installs_witness :
  (snd_pcm_get_params 0 0 (snd_pcm_hw_params 0 stereo opened).2).1 = (0, 1024, 256) /\
  period_time (the_pcm (snd_pcm_hw_params 0 stereo opened).2) = 5333 /\
  subformat (the_pcm (snd_pcm_hw_params 0 stereo opened).2) = 0.
Proof.
  assert (Hr : snd_pcm_hw_params 0 stereo opened =
    (Some (0, stereo_result), (snd_pcm_hw_params 0 stereo opened).2)) by (vm_compute; reflexivity).
  pose proof (hw_params_installs [] 0 stereo stereo_result opened _ opened_session Hr) as H.
  destruct H as (_ & _ & _ & _ & Hsub & _ & _ & Hpt & _ & _ & _ & H & _).
  split; [apply H; vm_compute; reflexivity|].
  split; [apply Hpt; vm_compute; reflexivity|apply Hsub; vm_compute; reflexivity].
Defined.

Lemma min_align_least_witness :
  exists k, snd_pcm_hw_params_get_min_align stereo (Some 0) = Some (0, Some (2 ^ k)).
Proof.
  destruct (min_align_least stereo FORMAT_S16_LE 2) as (k & _ & H & _);
    [vm_compute; reflexivity|vm_compute; reflexivity|]. exists k. exact H.
Defined.
