(* ===== verification/Tlv.v ===== *)
(** * TLV data and decibels

    src/src/control.c 394-760: finding the decibel information in TLV data, and
    converting between raw volumes and hundredths of a decibel, in the default build,
    without floating point (so without the linear type).

    TLV data is a list of 32-bit words; a pointer into it is the rest of the list.
    A read past its end is undefined in C: the result is then [None].  [None] is also
    the result where the fuel of a recursion is spent; the theorems show that neither
    happens on well-formed data. *)

From S2P Require Import Prelude CInt.
#[local] Open Scope Z_scope.

Definition TLVT_CONTAINER : Z := 0.
Definition TLVT_DB_SCALE : Z := 1.
Definition TLVT_DB_LINEAR : Z := 2.
Definition TLVT_DB_RANGE : Z := 3.
Definition TLVT_DB_MINMAX : Z := 4.
Definition TLVT_DB_MINMAX_MUTE : Z := 5.
Definition DB_GAIN_MUTE : Z := -9999999.

(* [control.c 391-391 int_index] *)
Definition int_index (size : Z) : Z := (size + 3) / 4.

Definition MAX_TLV_RANGE_SIZE : Z := 256.

(** [tlv[i]]. *)
Definition rd (tlv : list Z) (i : Z) : option Z := tlv !! Z.to_nat i.

(** ** Parsing *)

(** The loop over a container's elements, [p] parsing one. *)
Fixpoint container_loop (p : list Z -> Z -> option (Z * option (list Z))) (n : nat)
  (tlv : list Z) (size : Z) : option (Z * option (list Z)) :=
  match n with
  | O => None
  | S n =>
      if size =? 0 then Some (- EINVAL, None)
      else
        match p tlv size with
        | None => None
        | Some (err, db) =>
            if negb (err =? 0) then Some (err, db)
            else
              match rd tlv 1 with
              | None => None
              | Some w =>
                  let len := u32 (int_index w + 2) in
                  container_loop p n (drop (Z.to_nat len) tlv) (u32 (size - len * 4))
              end
        end
  end.

Definition is_db_type (type : Z) : bool :=
  (type =? TLVT_DB_SCALE) || (type =? TLVT_DB_MINMAX) || (type =? TLVT_DB_MINMAX_MUTE) ||
  (type =? TLVT_DB_RANGE).

Fixpoint parse_dB_info (fuel : nat) (tlv : list Z) (tlv_size : Z) : option (Z * option (list Z)) :=
  match fuel, rd tlv 0, rd tlv 1 with
  | S fuel, Some type, Some size =>
      if u32 (tlv_size - 8) <? size then Some (- EINVAL, None)
      else if type =? TLVT_CONTAINER then
        container_loop (parse_dB_info fuel) (S fuel) (drop 2 tlv) (u32 (int_index size * 4))
      else if is_db_type type then Some (s32 (size + 8), Some tlv)
      else Some (0, None)
  | _, _, _ => None
  end.

(** The code and the data found; every element takes two words, so the words bound
    the nesting and the elements. *)
(* [control.c 397-436 snd_tlv_parse_dB_info] *)
Definition snd_tlv_parse_dB_info (tlv : list Z) (tlv_size : Z) : option (Z * option (list Z)) :=
  parse_dB_info (S (length tlv)) tlv tlv_size.

(** ** Raw volume to gain

    The gain is stored through a pointer: [gain] is what it held. *)

(* [control.c 462-475 tlv_to_dB_scale] *)
Definition tlv_to_dB_scale (tlv : list Z) (rangemin rangemax volume : Z) : option (Z * Z) :=
  match rd tlv 2, rd tlv 3 with
  | Some t2, Some t3 =>
      let min := s32 t2 in
      let step := Z.land t3 65535 in
      let mute := Z.land (Z.shiftr t3 16) 1 in
      Some (0, if nz mute && (volume =? rangemin) then DB_GAIN_MUTE
               else s64 (s64 ((volume - rangemin) * step) + min))
  | _, _ => None
  end.

(* [control.c 477-495 tlv_to_dB_minmax] *)
Definition tlv_to_dB_minmax (tlv : list Z) (rangemin rangemax volume : Z) : option (Z * Z) :=
  match rd tlv 0, rd tlv 2, rd tlv 3 with
  | Some type, Some t2, Some t3 =>
      let mindb := s32 t2 in
      let maxdb := s32 t3 in
      Some (0,
        if (volume <=? rangemin) || (rangemax <=? rangemin) then
          (if type =? TLVT_DB_MINMAX_MUTE then DB_GAIN_MUTE else mindb)
        else if rangemax <=? volume then maxdb
        else Z.quot (s64 (s32 (maxdb - mindb) * (volume - rangemin))) (rangemax - rangemin) + mindb)
  | _, _, _ => None
  end.

(** [pos++; pos += int_index(tlv[pos]) + 1;] from the sub-range's own TLV. *)
Definition next_range (pos size : Z) : Z := u32 (pos + 3 + int_index size + 1).

(** The search for the volume's sub-range; each round passes four words or more. *)
(* [control.c 447-457 tlv_to_dB_range] *)
Fixpoint to_range_loop (conv : list Z -> Z -> Z -> Z -> Z -> option (Z * Z)) (n : nat)
  (tlv : list Z) (len pos volume gain : Z) : option (Z * Z) :=
  match n with
  | O => None
  | S n =>
      if pos + 4 <=? len then
        match rd tlv pos, rd tlv (pos + 1) with
        | Some lo, Some hi =>
            let rangemin := s32 lo in
            let rangemax := s32 hi in
            if (rangemin <=? volume) && (volume <=? rangemax)
            then conv (drop (Z.to_nat (pos + 2)) tlv) rangemin rangemax volume gain
            else
              match rd tlv (pos + 3) with
              | Some size => to_range_loop conv n tlv len (next_range pos size) volume gain
              | None => None
              end
        | _, _ => None
        end
      else Some (- EINVAL, gain)
  end.

Definition range_rounds : nat := 65.

(* [control.c 440-460 tlv_to_dB_range] *)
Definition tlv_to_dB_range (conv : list Z -> Z -> Z -> Z -> Z -> option (Z * Z)) (tlv : list Z)
  (volume gain : Z) : option (Z * Z) :=
  match rd tlv 1 with
  | None => None
  | Some size =>
      let len := u32 (int_index size) in
      if MAX_TLV_RANGE_SIZE <? len then Some (- EINVAL, gain)
      else to_range_loop conv range_rounds tlv len 2 volume gain
  end.

Fixpoint convert_to_dB (fuel : nat) (tlv : list Z) (rangemin rangemax volume gain : Z)
  : option (Z * Z) :=
  match fuel, rd tlv 0 with
  | S fuel, Some type =>
      if type =? TLVT_DB_RANGE then tlv_to_dB_range (convert_to_dB fuel) tlv volume gain
      else if type =? TLVT_DB_SCALE then tlv_to_dB_scale tlv rangemin rangemax volume
      else if (type =? TLVT_DB_MINMAX) || (type =? TLVT_DB_MINMAX_MUTE)
      then tlv_to_dB_minmax tlv rangemin rangemax volume
      else Some (- EINVAL, gain)
  | _, _ => None
  end.

(* [control.c 531-550 snd_tlv_convert_to_dB] *)
Definition snd_tlv_convert_to_dB (tlv : list Z) (rangemin rangemax volume gain : Z) : option (Z * Z) :=
  convert_to_dB (S (length tlv)) tlv rangemin rangemax volume gain.

(** ** The gains of a range

    [min] and [max] are what the caller's variables hold; the locals [rmin] and [rmax]
    are indeterminate, [junk], until the call on a sub-range sets them. *)

(* [control.c 592-603 tlv_range_dB_scale] *)
Definition tlv_range_dB_scale (tlv : list Z) (rangemin rangemax : Z) : option (Z * Z * Z) :=
  match rd tlv 2, rd tlv 3 with
  | Some t2, Some t3 =>
      let step := Z.land t3 65535 in
      Some (0, if nz (Z.land t3 65536) then DB_GAIN_MUTE else s32 t2,
            s64 (s32 t2 + s64 (step * (rangemax - rangemin))))
  | _, _ => None
  end.

(* [control.c 565-588 tlv_range_dB_range] *)
Fixpoint range_range_loop (get : list Z -> Z -> Z -> Z -> Z -> option (Z * Z * Z)) (n : nat)
  (tlv : list Z) (len pos rangemax junk min max : Z) : option (Z * Z * Z) :=
  match n with
  | O => None
  | S n =>
      if pos + 4 <=? len then
        match rd tlv pos, rd tlv (pos + 1) with
        | Some lo, Some hi =>
            let submin := s32 lo in
            let submax := if rangemax <? s32 hi then rangemax else s32 hi in
            match get (drop (Z.to_nat (pos + 2)) tlv) submin submax junk junk with
            | None => None
            | Some (err, rmin, rmax) =>
                if err <? 0 then Some (err, min, max)
                else
                  let first := negb (4 <? pos + 2) in
                  let min := if first then rmin else if rmin <? min then rmin else min in
                  let max := if first then rmax else if max <? rmax then rmax else max in
                  if rangemax =? submax then Some (0, min, max)
                  else
                    match rd tlv (pos + 3) with
                    | Some size =>
                        range_range_loop get n tlv len (next_range pos size) rangemax junk min max
                    | None => None
                    end
            end
        | _, _ => None
        end
      else Some (0, min, max)
  end.

(* [control.c 554-590 tlv_range_dB_range] *)
Definition tlv_range_dB_range (get : list Z -> Z -> Z -> Z -> Z -> option (Z * Z * Z)) (tlv : list Z)
  (rangemax junk min max : Z) : option (Z * Z * Z) :=
  match rd tlv 1 with
  | None => None
  | Some size =>
      let len := u32 (int_index size) in
      if MAX_TLV_RANGE_SIZE <? len then Some (- EINVAL, min, max)
      else range_range_loop get range_rounds tlv len 2 rangemax junk min max
  end.

Fixpoint get_dB_range (fuel : nat) (junk : Z) (tlv : list Z) (rangemin rangemax min max : Z)
  : option (Z * Z * Z) :=
  match fuel, rd tlv 0 with
  | S fuel, Some type =>
      if type =? TLVT_DB_RANGE then
        tlv_range_dB_range (get_dB_range fuel junk) tlv rangemax junk min max
      else if type =? TLVT_DB_SCALE then tlv_range_dB_scale tlv rangemin rangemax
      else if (type =? TLVT_DB_MINMAX) || (type =? TLVT_DB_LINEAR) then
        match rd tlv 2, rd tlv 3 with
        | Some t2, Some t3 => Some (0, s32 t2, s32 t3)
        | _, _ => None
        end
      else if type =? TLVT_DB_MINMAX_MUTE then
        match rd tlv 3 with
        | Some t3 => Some (0, DB_GAIN_MUTE, s32 t3)
        | None => None
        end
      else Some (- EINVAL, min, max)
  | _, _ => None
  end.

(** The code, the least and the greatest gain. *)
(* [control.c 605-624 snd_tlv_get_dB_range] *)
Definition snd_tlv_get_dB_range (junk : Z) (tlv : list Z) (rangemin rangemax min max : Z)
  : option (Z * Z * Z) :=
  get_dB_range (S (length tlv)) junk tlv rangemin rangemax min max.

(** ** Gain to raw volume *)

(* [control.c 664-682 _tlv_from_dB_minmax] *)
Definition _tlv_from_dB_minmax (rangemin rangemax db_gain xdir min max : Z) (have_mute : bool) : Z :=
  if db_gain <=? min then
    if (DB_GAIN_MUTE <? db_gain) && (0 <? xdir) && have_mute then rangemin + 1 else rangemin
  else if max <=? db_gain then rangemax
  else
    let v := s64 ((db_gain - min) * (rangemax - rangemin)) in
    let v := if 0 <? xdir then s64 (v + (s32 (max - min) - 1)) else v in
    Z.quot v (s32 (max - min)) + rangemin.

(* [control.c 684-696 tlv_from_dB_scale] *)
Definition tlv_from_dB_scale (tlv : list Z) (rangemin rangemax db_gain xdir : Z) : option (Z * Z) :=
  match rd tlv 2, rd tlv 3 with
  | Some t2, Some t3 =>
      let min := s32 t2 in
      let step := Z.land t3 65535 in
      let max := s32 (min + s32 (s64 (step * (rangemax - rangemin)))) in
      let have_mute := nz (Z.land t3 65536) in
      Some (0, _tlv_from_dB_minmax rangemin rangemax db_gain xdir min max have_mute)
  | _, _ => None
  end.

(* [control.c 698-709 tlv_from_dB_minmax] *)
Definition tlv_from_dB_minmax (tlv : list Z) (rangemin rangemax db_gain xdir : Z) : option (Z * Z) :=
  match rd tlv 0, rd tlv 2, rd tlv 3 with
  | Some type, Some t2, Some t3 =>
      Some (0, _tlv_from_dB_minmax rangemin rangemax db_gain xdir (s32 t2) (s32 t3)
                 (type =? TLVT_DB_MINMAX_MUTE))
  | _, _, _ => None
  end.

(** The two counters are stepped when the bounds are read, and the offsets that
    follow count from before that: they are two words too far. *)
(* [control.c 640-659 tlv_from_dB_range] *)
Fixpoint from_range_loop (get : list Z -> Z -> Z -> Z -> Z -> option (Z * Z * Z))
  (conv : list Z -> Z -> Z -> Z -> Z -> option (Z * Z)) (n : nat)
  (tlv : list Z) (len pos rangemax db_gain value xdir dbmin dbmax prev_submax : Z)
  : option (Z * Z) :=
  match n with
  | O => None
  | S n =>
      if pos + 4 <=? len then
        match rd tlv pos, rd tlv (pos + 1) with
        | Some lo, Some hi =>
            let pos := pos + 2 in
            let submin := s32 lo in
            let submax := if rangemax <? s32 hi then rangemax else s32 hi in
            match get (drop (Z.to_nat (pos + 2)) tlv) submin submax dbmin dbmax with
            | None => None
            | Some (err, dbmin, dbmax) =>
                if (err =? 0) && (dbmin <=? db_gain) && (db_gain <=? dbmax)
                then conv (drop (Z.to_nat (pos + 2)) tlv) submin submax db_gain value
                else if db_gain <? dbmin then
                  Some (0, if (0 <? xdir) || (pos =? 2) then submin else prev_submax)
                else if rangemax =? submax then Some (0, submax)
                else
                  match rd tlv (pos + 3) with
                  | Some size =>
                      from_range_loop get conv n tlv len (u32 (pos + int_index size + 4)) rangemax
                        db_gain value xdir dbmin dbmax submax
                  | None => None
                  end
            end
        | _, _ => None
        end
      else Some (0, prev_submax)
  end.

(* [control.c 629-662 tlv_from_dB_range] *)
Definition tlv_from_dB_range (get : list Z -> Z -> Z -> Z -> Z -> option (Z * Z * Z))
  (conv : list Z -> Z -> Z -> Z -> Z -> option (Z * Z)) (tlv : list Z)
  (rangemax junk db_gain value xdir : Z) : option (Z * Z) :=
  match rd tlv 1 with
  | None => None
  | Some size =>
      let len := u32 (int_index size) in
      if (len <? 6) || (MAX_TLV_RANGE_SIZE <? len) then Some (- EINVAL, value)
      else from_range_loop get conv range_rounds tlv len 2 rangemax db_gain value xdir junk junk 0
  end.

Fixpoint convert_from_dB (fuel : nat) (junk : Z) (tlv : list Z) (rangemin rangemax db_gain value xdir : Z)
  : option (Z * Z) :=
  match fuel, rd tlv 0 with
  | S fuel, Some type =>
      if type =? TLVT_DB_RANGE then
        tlv_from_dB_range (snd_tlv_get_dB_range junk)
          (fun t lo hi g v => convert_from_dB fuel junk t lo hi g v xdir)
          tlv rangemax junk db_gain value xdir
      else if type =? TLVT_DB_SCALE then tlv_from_dB_scale tlv rangemin rangemax db_gain xdir
      else if (type =? TLVT_DB_MINMAX) || (type =? TLVT_DB_MINMAX_MUTE)
      then tlv_from_dB_minmax tlv rangemin rangemax db_gain xdir
      else Some (- EINVAL, value)
  | _, _ => None
  end.

(** The code and the raw value; [value] is what the variable held. *)
(* [control.c 745-764 snd_tlv_convert_from_dB] *)
Definition snd_tlv_convert_from_dB (junk : Z) (tlv : list Z) (rangemin rangemax db_gain value xdir : Z)
  : option (Z * Z) :=
  convert_from_dB (S (length tlv)) junk tlv rangemin rangemax db_gain value xdir.
