(* ===== verification/TlvSpec.v ===== *)
(** * What TLV parsing and the decibel conversions compute

    TLV data as a tree, which [snd_tlv_parse_dB_info] searches in order; the scale
    type's conversions as inverse roundings of each other; and the range type, whose
    conversion from a gain looks in the wrong place. *)

From S2P Require Import Prelude CInt Tlv.
#[local] Open Scope Z_scope.
#[local] Set Warnings "-register-all".

(** ** Trees of TLV data *)

Inductive tlv_tree :=
  | Leaf (type size : Z) (payload : list Z)
  | Container (children : list tlv_tree).

Fixpoint enc (t : tlv_tree) : list Z :=
  match t with
  | Leaf type size payload => type :: size :: payload
  | Container l =>
      let body := concat (map enc l) in
      TLVT_CONTAINER :: 4 * Z.of_nat (length body) :: body
  end.

Definition enc_list (l : list tlv_tree) : list Z := concat (map enc l).

(** A leaf's size in bytes may leave its last word partly used. *)
Fixpoint tree_wf (t : tlv_tree) : Prop :=
  match t with
  | Leaf type size payload =>
      type <> TLVT_CONTAINER /\ is_u32 type /\ 0 <= size /\
      Z.of_nat (length payload) = int_index size
  | Container l => (fix all (l : list tlv_tree) : Prop :=
      match l with [] => True | t :: l => tree_wf t /\ all l end) l
  end.

Definition all_wf (l : list tlv_tree) : Prop := Forall tree_wf l.

(** The search: the size of the first decibel leaf and its words; an element with
    another leaf is passed over; a container without one is an error, which ends the
    search around it as well. *)
Fixpoint search (t : tlv_tree) : Z * option (list Z) :=
  match t with
  | Leaf type size payload =>
      if is_db_type type then (size + 8, Some (type :: size :: payload)) else (0, None)
  | Container l => (fix first (l : list tlv_tree) : Z * option (list Z) :=
      match l with
      | [] => (- EINVAL, None)
      | t :: l => let r := search t in if r.1 =? 0 then first l else r
      end) l
  end.

Fixpoint search_list (l : list tlv_tree) : Z * option (list Z) :=
  match l with
  | [] => (- EINVAL, None)
  | t :: l => if (search t).1 =? 0 then search_list l else search t
  end.

Lemma search_container l : search (Container l) = search_list l.
Proof. induction l as [|t l IH]; [done|]. simpl in *. rewrite IH. done. Qed.

Lemma wf_container l : tree_wf (Container l) <-> all_wf l.
Proof.
  unfold all_wf. induction l as [|t l IH]; simpl in *.
  - split; [constructor|done].
  - split.
    + intros [H1 H2]. constructor; [done|]. apply IH. done.
    + intros H. inversion H; subst. split; [done|]. apply IH. done.
Qed.

(** [r] is the answer [e], found in place. *)
Definition finds (e : Z * option (list Z)) (r : option (Z * option (list Z))) : Prop :=
  exists db, r = Some (e.1, db) /\
    match e.2 with None => db = None | Some w => exists rest, db = Some (w ++ rest) end.

Lemma int_index_bounds size : 0 <= size -> 0 <= int_index size /\ size <= 4 * int_index size < size + 4.
Proof.
  intros Hs. unfold int_index. pose proof (Z.div_mod (size + 3) 4). pose proof (Z.mod_pos_bound (size + 3) 4).
  assert (0 <= (size + 3) / 4) by (apply Z.div_pos; lia). lia.
Qed.

Lemma enc_length t : (2 <= length (enc t))%nat.
Proof. destruct t; simpl; lia. Qed.

(** The second word is the size of what follows. *)
Lemma enc_size t rest :
  tree_wf t -> exists s, rd (enc t ++ rest) 1 = Some s /\ 0 <= s /\
    int_index s + 2 = Z.of_nat (length (enc t)).
Proof.
  destruct t as [type size payload|l]; simpl; intros Hwf.
  - destruct Hwf as (_ & _ & H1 & H2). exists size. split; [done|]. split; [done|]. lia.
  - exists (4 * Z.of_nat (length (concat (map enc l)))). split; [done|]. split; [lia|].
    unfold int_index. rewrite (Z.mul_comm 4), Z.div_add_l by lia. change (3 / 4) with 0. lia.
Qed.

Lemma container_loop_spec fuel :
  (forall t rest tlv_size, tree_wf t -> (length (enc t) < fuel)%nat ->
     4 * Z.of_nat (length (enc t)) <= tlv_size <= INT_MAX ->
     finds (search t) (parse_dB_info fuel (enc t ++ rest) tlv_size)) ->
  forall l n rest, all_wf l -> (length (enc_list l) < fuel)%nat -> (length l < n)%nat ->
    4 * Z.of_nat (length (enc_list l)) <= INT_MAX ->
    finds (search_list l)
      (container_loop (parse_dB_info fuel) n (enc_list l ++ rest) (4 * Z.of_nat (length (enc_list l)))).
Proof.
  intros Hp. unfold INT_MAX. induction l as [|t l IH]; intros n rest Hwf Hf Hn Hs.
  - destruct n as [|n]; [simpl in Hn; lia|]. exists None. done.
  - destruct n as [|n]; [simpl in Hn; lia|]. inversion Hwf as [|? ? Ht Hl]; subst.
    unfold enc_list in *. cbn [map concat] in *. rewrite length_app in *. fold (enc_list l) in *.
    pose proof (enc_length t) as Hlen. cbn [length] in Hn. cbn [container_loop search_list].
    rewrite (proj2 (Z.eqb_neq (4 * _) 0)) by lia. rewrite <- app_assoc.
    destruct (Hp t (enc_list l ++ rest) (4 * Z.of_nat (length (enc t) + length (enc_list l))) Ht)
      as (db & Hr & Hdb); [lia|unfold INT_MAX; lia|]. rewrite Hr.
    destruct (Z.eqb_spec (search t).1 0) as [He|Hne]; simpl; [|exists db; done].
    destruct (enc_size t (enc_list l ++ rest) Ht) as (s & Hrd & Hs0 & Hsz). rewrite Hrd, Hsz.
    rewrite (u32_id (Z.of_nat _)) by (unfold is_u32, UINT_MAX; lia). rewrite Nat2Z.id, drop_app_length.
    replace (4 * Z.of_nat (length (enc t) + length (enc_list l)) - Z.of_nat (length (enc t)) * 4)
      with (4 * Z.of_nat (length (enc_list l))) by lia.
    rewrite u32_id by (unfold is_u32, UINT_MAX; lia). apply IH; [done|lia|lia|lia].
Qed.

Lemma parse_spec fuel t rest tlv_size :
  tree_wf t -> (length (enc t) < fuel)%nat -> 4 * Z.of_nat (length (enc t)) <= tlv_size <= INT_MAX ->
  finds (search t) (parse_dB_info fuel (enc t ++ rest) tlv_size).
Proof.
  revert t rest tlv_size. induction fuel as [|fuel IH]; intros t rest tlv_size Hwf Hf Hs; [lia|].
  unfold INT_MAX in Hs. pose proof (enc_length t) as Hlen.
  destruct t as [type size payload|l].
  - destruct Hwf as (Hc & Hu & H1 & H2). simpl in Hs, Hf. simpl.
    destruct (int_index_bounds size H1) as [H3 H4].
    rewrite (u32_id (tlv_size - 8)) by (unfold is_u32, UINT_MAX; lia).
    rewrite (proj2 (Z.ltb_ge _ _)) by lia. rewrite (proj2 (Z.eqb_neq _ _)) by done.
    destruct (is_db_type type); simpl.
    + eexists. rewrite s32_id by (unfold is_s32, INT_MIN, INT_MAX; lia). split; [reflexivity|].
      exists rest. done.
    + exists None. done.
  - apply wf_container in Hwf. rewrite search_container. change (concat (map enc l)) with (enc_list l) in *.
    simpl in Hs, Hf. fold (enc_list l) in Hs, Hf.
    change (parse_dB_info (S fuel) (enc (Container l) ++ rest) tlv_size) with
      (if u32 (tlv_size - 8) <? 4 * Z.of_nat (length (enc_list l)) then Some (- EINVAL, None)
       else container_loop (parse_dB_info fuel) (S fuel) (enc_list l ++ rest)
         (u32 (int_index (4 * Z.of_nat (length (enc_list l))) * 4))).
    rewrite (u32_id (tlv_size - 8)) by (unfold is_u32, UINT_MAX; lia).
    rewrite (proj2 (Z.ltb_ge _ _)) by lia.
    assert (Hii : int_index (4 * Z.of_nat (length (enc_list l))) * 4 = 4 * Z.of_nat (length (enc_list l))).
    { unfold int_index. rewrite (Z.mul_comm 4), Z.div_add_l by lia. change (3 / 4) with 0. lia. }
    rewrite Hii, u32_id by (unfold is_u32, UINT_MAX; lia).
    apply container_loop_spec; try done; unfold INT_MAX; try lia.
    assert (Hl : (length l <= length (enc_list l))%nat).
    { clear. induction l as [|t l IH]; simpl; [done|]. unfold enc_list in *. simpl. rewrite length_app.
      pose proof (enc_length t). lia. }
    lia.
Qed.

(** C27. [snd_tlv_parse_dB_info] on well-formed TLV data, however nested, never reads
    outside it, ends, and gives the first decibel element in order, with its size
    in bytes, as the search describes: other elements are passed over and a container
    without decibel data is -EINVAL. *)
Theorem parse_dB_info_finds (t : tlv_tree) (tlv_size : Z) :
  tree_wf t -> 4 * Z.of_nat (length (enc t)) <= tlv_size <= INT_MAX ->
  finds (search t) (snd_tlv_parse_dB_info (enc t) tlv_size).
Proof.
  intros Hwf Hs. unfold snd_tlv_parse_dB_info. rewrite <- (app_nil_r (enc t)) at 2.
  apply parse_spec; [done|lia|done].
Qed.

Lemma parse_dB_info_finds_witness :
  finds (8 + 8, Some [TLVT_DB_SCALE; 8; 4294966296; 100])
    (snd_tlv_parse_dB_info
       (enc (Container [Leaf 257 4 [3]; Leaf TLVT_DB_SCALE 8 [4294966296; 100]])) 4096).
Proof.
  apply (parse_dB_info_finds (Container [Leaf 257 4 [3]; Leaf TLVT_DB_SCALE 8 [4294966296; 100]]));
    [|unfold INT_MAX; simpl; lia].
  simpl. unfold is_u32, UINT_MAX, TLVT_CONTAINER, TLVT_DB_SCALE, int_index.
  repeat split; try lia; reflexivity.
Defined.

(** ** The scale type *)

(** A decibel scale: a least gain, a step and whether the least volume is mute. *)
Definition scale_tlv (min step : Z) (mute : bool) : list Z :=
  [TLVT_DB_SCALE; 8; u32 min; step + (if mute then 65536 else 0)].

(** Every gain of the range is an int, and above the one that stands for mute. *)
Definition scale_ok (min step lo hi : Z) : Prop :=
  0 < step <= 65535 /\ lo <= hi /\ - LONG_MAX <= lo /\ hi <= LONG_MAX - 1 /\
  DB_GAIN_MUTE < min /\ min + step * (hi - lo) <= INT_MAX /\ step * (hi - lo) <= INT_MAX /\
  INT_MIN <= min <= INT_MAX.

(** The gain of a raw volume. *)
Definition scale_gain (min step : Z) (mute : bool) (lo v : Z) : Z :=
  if mute && (v =? lo) then DB_GAIN_MUTE else min + (v - lo) * step.

Lemma step_field step mute :
  0 < step <= 65535 ->
  Z.land (step + (if mute : bool then 65536 else 0)) 65535 = step /\
  nz (Z.land (Z.shiftr (step + (if mute then 65536 else 0)) 16) 1) = mute /\
  nz (Z.land (step + (if mute then 65536 else 0)) 65536) = mute.
Proof.
  intros Hs. set (w := step + _). assert (Hd : w / 65536 = b2z mute).
  { unfold w. destruct mute; simpl.
    - replace (step + 65536) with (step + 1 * 65536) by lia. rewrite Z.div_add by lia.
      rewrite Z.div_small by lia. done.
    - rewrite Z.add_0_r. apply Z.div_small. lia. }
  split; [|split].
  - change 65535 with (Z.ones 16). rewrite Z.land_ones by lia. change (2 ^ 16) with 65536.
    unfold w. destruct mute.
    + replace (step + 65536) with (step + 1 * 65536) by lia. rewrite Z.mod_add by lia.
      apply Z.mod_small. lia.
    + rewrite Z.add_0_r. apply Z.mod_small. lia.
  - rewrite Z.shiftr_div_pow2 by lia. change (2 ^ 16) with 65536. rewrite Hd.
    destruct mute; done.
  - assert (Hb : Z.testbit w 16 = mute).
    { rewrite Z.testbit_odd, Z.shiftr_div_pow2 by lia. change (2 ^ 16) with 65536. rewrite Hd.
      destruct mute; done. }
    destruct (nz (Z.land w 65536)) eqn:Hn, mute; try done.
    + apply nz_true in Hn. exfalso. apply Hn. apply Z.bits_inj'. intros i Hi.
      rewrite Z.land_spec, Z.bits_0. change 65536 with (2 ^ 16).
      rewrite Z.pow2_bits_eqb by lia. destruct (Z.eqb_spec 16 i) as [<-|]; [rewrite Hb; done|].
      apply andb_false_r.
    + apply nz_false in Hn. assert (Hc : Z.testbit (Z.land w 65536) 16 = true).
      { rewrite Z.land_spec, Hb. done. }
      rewrite Hn in Hc. done.
Qed.

Lemma s32_u32 z : s32 (u32 z) = s32 z.
Proof. unfold s32. rewrite (u32_id (u32 z)); [done|apply u32_range]. Qed.

Lemma scale_range min step lo hi v :
  scale_ok min step lo hi -> lo <= v <= hi -> 0 <= (v - lo) * step <= INT_MAX /\
  (v - lo) * step <= step * (hi - lo) /\ hi - lo <= INT_MAX.
Proof.
  unfold scale_ok. intros (H1 & H2 & H3 & H4 & H5 & H6 & H7 & H8) Hv.
  assert (0 <= (v - lo) * step) by (apply Z.mul_nonneg_nonneg; lia).
  assert ((v - lo) * step <= step * (hi - lo)) by nia.
  assert (hi - lo <= step * (hi - lo)) by nia. lia.
Qed.

Lemma scale_to_dB min step mute lo hi v gain0 :
  scale_ok min step lo hi -> lo <= v <= hi ->
  snd_tlv_convert_to_dB (scale_tlv min step mute) lo hi v gain0 =
    Some (0, scale_gain min step mute lo v).
Proof.
  intros Hok Hv. pose proof (scale_range _ _ _ _ _ Hok Hv) as (Hr1 & Hr2 & Hr3).
  destruct Hok as (H1 & H2 & H3 & H4 & H5 & H6 & H7 & H8).
  destruct (step_field step mute H1) as (Hst & Hmu & _).
  change (tlv_to_dB_scale (scale_tlv min step mute) lo hi v =
    Some (0, scale_gain min step mute lo v)).
  unfold tlv_to_dB_scale, scale_tlv, rd. simpl. rewrite Hst, Hmu, s32_u32.
  unfold INT_MAX, INT_MIN, LONG_MAX in *.
  rewrite s32_id by (unfold is_s32, INT_MIN, INT_MAX; lia).
  rewrite (s64_id ((v - lo) * step)), s64_id by (unfold is_s64, LONG_MAX; lia).
  unfold scale_gain. destruct (mute && (v =? lo)); [done|]. do 2 f_equal. lia.
Qed.

(** [_tlv_from_dB_minmax] between the ends, rounding down and up. *)
Lemma minmax_middle lo hi g xdir min step have_mute :
  0 < step -> lo < hi -> INT_MIN <= min -> min + step * (hi - lo) <= INT_MAX ->
  step * (hi - lo) <= INT_MAX -> min < g < min + step * (hi - lo) ->
  let v := _tlv_from_dB_minmax lo hi g xdir min (min + step * (hi - lo)) have_mute in
  if 0 <? xdir then step * (v - 1 - lo) < g - min <= step * (v - lo)
  else step * (v - lo) <= g - min < step * (v + 1 - lo).
Proof.
  intros Hs Hlt Hm Hmax Hsm Hg v. unfold v, _tlv_from_dB_minmax. clear v. unfold INT_MAX, INT_MIN in *.
  rewrite (proj2 (Z.leb_gt g min)), (proj2 (Z.leb_gt _ g)) by lia.
  set (n := hi - lo) in *. set (d := g - min) in *.
  replace (min + step * n - min) with (step * n) by lia.
  assert (Hn : 0 < n) by lia. assert (Hnb : n <= 2147483647) by nia.
  assert (Hd : 0 < d < step * n) by lia. assert (Hdn : 0 <= d * n) by nia.
  assert (Hdb : d * n <= 2147483647 * 2147483647) by (apply Z.mul_le_mono_nonneg; lia).
  rewrite (s64_id (d * n)) by (unfold is_s64, LONG_MAX; lia).
  rewrite (s32_id (step * n)) by (unfold is_s32, INT_MAX, INT_MIN; lia).
  destruct (0 <? xdir).
  - rewrite s64_id by (unfold is_s64, LONG_MAX; lia). rewrite Z.quot_div_nonneg by lia.
    pose proof (Z.div_mod (d * n + (step * n - 1)) (step * n) ltac:(lia)) as Hdm.
    pose proof (Z.mod_pos_bound (d * n + (step * n - 1)) (step * n) ltac:(lia)) as Hmb.
    set (q := (d * n + (step * n - 1)) / (step * n)) in *.
    replace (q + lo - 1 - lo) with (q - 1) by lia. replace (q + lo - lo) with q by lia. nia.
  - rewrite Z.quot_div_nonneg by lia. rewrite Z.div_mul_cancel_r by lia.
    pose proof (Z.div_mod d step ltac:(lia)). pose proof (Z.mod_pos_bound d step ltac:(lia)).
    set (q := d / step) in *. replace (q + lo - lo) with q by lia.
    replace (q + lo + 1 - lo) with (q + 1) by lia. nia.
Qed.

Lemma scale_from_dB junk min step mute lo hi g value xdir :
  scale_ok min step lo hi ->
  snd_tlv_convert_from_dB junk (scale_tlv min step mute) lo hi g value xdir =
    Some (0, _tlv_from_dB_minmax lo hi g xdir min (min + step * (hi - lo)) mute).
Proof.
  intros Hok. pose proof (scale_range min step lo hi hi Hok) as Hr.
  destruct Hok as (H1 & H2 & H3 & H4 & H5 & H6 & H7 & H8).
  destruct Hr as (Hr1 & Hr2 & Hr3); [lia|].
  destruct (step_field step mute H1) as (Hst & _ & Hmu).
  change (tlv_from_dB_scale (scale_tlv min step mute) lo hi g xdir =
    Some (0, _tlv_from_dB_minmax lo hi g xdir min (min + step * (hi - lo)) mute)).
  unfold tlv_from_dB_scale, scale_tlv, rd. simpl. rewrite Hst, Hmu, s32_u32.
  unfold INT_MAX, INT_MIN, LONG_MAX in *.
  rewrite (s32_id min) by (unfold is_s32, INT_MIN, INT_MAX; lia).
  rewrite s64_id by (unfold is_s64, LONG_MAX; lia).
  rewrite (s32_id (step * _)) by (unfold is_s32, INT_MIN, INT_MAX; lia).
  rewrite s32_id by (unfold is_s32, INT_MIN, INT_MAX; lia). done.
Qed.

(** C28. On a decibel scale the conversions are inverse roundings: the gain of a raw
    volume converts back to it, whichever way is rounded, and a gain strictly
    between the ends converts to the volume whose gain is the nearest from below, or
    from above when rounding up is asked for. *)
Theorem db_scale_rounds (junk min step : Z) (mute : bool) (lo hi value xdir : Z) :
  scale_ok min step lo hi ->
  (forall v, lo <= v <= hi -> exists g,
     snd_tlv_convert_to_dB (scale_tlv min step mute) lo hi v 0 = Some (0, g) /\
     snd_tlv_convert_from_dB junk (scale_tlv min step mute) lo hi g value xdir = Some (0, v)) /\
  (forall g, min < g < min + step * (hi - lo) -> exists v,
     snd_tlv_convert_from_dB junk (scale_tlv min step mute) lo hi g value xdir = Some (0, v) /\
     if 0 <? xdir then min + (v - 1 - lo) * step < g <= min + (v - lo) * step
     else min + (v - lo) * step <= g < min + (v + 1 - lo) * step).
Proof.
  intros Hok. split.
  - intros v Hv. exists (scale_gain min step mute lo v).
    rewrite (scale_to_dB _ _ _ _ _ _ _ Hok Hv), (scale_from_dB _ _ _ _ _ _ _ _ _ Hok).
    split; [done|]. do 2 f_equal. pose proof (scale_range _ _ _ _ _ Hok Hv) as (Hr1 & Hr2 & Hr3).
    destruct Hok as (H1 & H2 & H3 & H4 & H5 & H6 & H7 & H8). unfold scale_gain.
    destruct (Z.eqb_spec v lo) as [->|Hne].
    + unfold _tlv_from_dB_minmax. destruct mute; simpl.
      * rewrite (proj2 (Z.leb_le _ _)) by lia. done.
      * replace (lo - lo) with 0 by lia. rewrite Z.mul_0_l, Z.add_0_r, Z.leb_refl, !andb_false_r. done.
    + rewrite andb_false_r. assert (Hpos : 0 < (v - lo) * step) by nia.
      destruct (Z.eq_dec v hi) as [->|Hhi].
      * unfold _tlv_from_dB_minmax. rewrite (proj2 (Z.leb_gt _ _)) by lia.
        rewrite (Z.mul_comm (hi - lo)), Z.leb_refl. done.
      * assert (Hlt : (v - lo) * step < step * (hi - lo)) by nia.
        pose proof (minmax_middle lo hi (min + (v - lo) * step) xdir min step mute) as Hm.
        simpl in Hm. unfold INT_MIN, INT_MAX in *.
        specialize (Hm ltac:(lia) ltac:(lia) ltac:(lia) ltac:(lia) ltac:(lia) ltac:(lia)).
        set (v' := _tlv_from_dB_minmax _ _ _ _ _ _ _) in *. destruct (0 <? xdir); nia.
  - intros g Hg. eexists. rewrite (scale_from_dB _ _ _ _ _ _ _ _ _ Hok). split; [reflexivity|].
    destruct Hok as (H1 & H2 & H3 & H4 & H5 & H6 & H7 & H8).
    assert (Hlt : lo < hi) by nia.
    pose proof (minmax_middle lo hi g xdir min step mute ltac:(lia) Hlt ltac:(lia) ltac:(lia) ltac:(lia) Hg) as Hm.
    simpl in Hm. set (v := _tlv_from_dB_minmax _ _ _ _ _ _ _) in *. destruct (0 <? xdir); lia.
Qed.

Lemma db_scale_rounds_witness :
  exists v, snd_tlv_convert_from_dB 0 (scale_tlv (-5100) 100 true) 0 51 (-1250) 0 1 = Some (0, v) /\
    -5100 + (v - 1 - 0) * 100 < -1250 <= -5100 + (v - 0) * 100.
Proof.
  apply (proj2 (db_scale_rounds 0 (-5100) 100 true 0 51 0 1
    ltac:(unfold scale_ok, LONG_MAX, INT_MAX, INT_MIN, DB_GAIN_MUTE; lia)) (-1250)). lia.
Defined.

(** ** The range type *)

(** A range of one scale. *)
Definition range_tlv (lo hi min step : Z) : list Z :=
  [TLVT_DB_RANGE; 24; u32 lo; u32 hi] ++ scale_tlv min step false.

(** The other direction finds the scale. *)
Example range_to_dB : snd_tlv_convert_to_dB (range_tlv 0 10 (-1000) 100) 0 10 5 0 = Some (0, -500).
Proof. reflexivity. Qed.

(** One round of the search over data whose sub-range fails to read. *)
Lemma from_range_round get conv n tlv len pos rangemax g value xdir dbmin dbmax prev lo hi :
  pos + 4 <= len -> rd tlv pos = Some lo -> rd tlv (pos + 1) = Some hi -> s32 hi = rangemax ->
  0 < pos ->
  get (drop (Z.to_nat (pos + 2 + 2)) tlv) (s32 lo) rangemax dbmin dbmax = Some (- EINVAL, dbmin, dbmax) ->
  from_range_loop get conv (S n) tlv len pos rangemax g value xdir dbmin dbmax prev =
    Some (0, if g <? dbmin then (if 0 <? xdir then s32 lo else prev) else rangemax).
Proof.
  intros Hlen Hlo Hhi Hmax Hpos Hget. cbn [from_range_loop]. rewrite (proj2 (Z.leb_le _ _)) by done.
  rewrite Hlo, Hhi, Hmax, Z.ltb_irrefl, Hget. change (- EINVAL =? 0) with false.
  rewrite !andb_false_l, (proj2 (Z.eqb_neq (pos + 2) 2)), orb_false_r, Z.eqb_refl by lia.
  destruct (g <? dbmin); [destruct (0 <? xdir)|]; done.
Qed.

(** Converting a gain back on a decibel range does not: it looks for the
    sub-range's data two words too far, so for a range of one scale the result does
    not depend on the gain at all but for a comparison with an indeterminate
    variable: it is one end of the range, or 0. *)
Theorem db_range_from_dB_misses (junk lo hi min step g value xdir : Z) :
  is_s32 lo -> is_s32 hi -> - 65536 < min < 0 -> 0 < step <= 65535 ->
  snd_tlv_convert_from_dB junk (range_tlv lo hi min step) lo hi g value xdir =
    Some (0, if g <? junk then (if 0 <? xdir then lo else 0) else hi).
Proof.
  intros Hlo Hhi Hmin Hst. unfold snd_tlv_convert_from_dB.
  change (convert_from_dB (S (length (range_tlv lo hi min step))) junk (range_tlv lo hi min step)
            lo hi g value xdir) with
    (from_range_loop (snd_tlv_get_dB_range junk)
       (fun t a b c v => convert_from_dB 8 junk t a b c v xdir) range_rounds
       (range_tlv lo hi min step) 6 2 hi g value xdir junk junk 0).
  rewrite (from_range_round _ _ 64 _ 6 2 _ _ _ _ _ _ _ (u32 lo) (u32 hi));
    rewrite ?s32_u32, ?(s32_id lo), ?(s32_id hi) by done; try done.
  change (drop (Z.to_nat (2 + 2 + 2)) (range_tlv lo hi min step)) with [u32 min; step + 0].
  assert (Hu : u32 min = min + 4294967296).
  { unfold u32. symmetry. apply Z.mod_unique_pos with (q := -1); lia. }
  rewrite Hu. unfold snd_tlv_get_dB_range. cbn [length get_dB_range].
  change (rd [min + 4294967296; step + 0] 0) with (Some (min + 4294967296)).
  unfold TLVT_DB_RANGE, TLVT_DB_SCALE, TLVT_DB_MINMAX, TLVT_DB_MINMAX_MUTE, TLVT_DB_LINEAR.
  rewrite !(proj2 (Z.eqb_neq (min + 4294967296) _)) by lia. done.
Qed.

Lemma db_range_from_dB_misses_witness :
  snd_tlv_convert_from_dB 0 (range_tlv 0 10 (-1000) 100) 0 10 (-500) 0 0 = Some (0, 0).
Proof.
  apply (db_range_from_dB_misses 0 0 10 (-1000) 100 (-500) 0 0);
    first [by_decide | unfold is_s32, INT_MIN, INT_MAX; lia].
Defined.
