(* ===== verification/CtlTypes.v ===== *)
(** * The data of the control interface

    The structures of src/src/asound.h lines 858-1043 that the control functions
    exchange with the kernel, the handle of src/src/ctl_macros.h, and the ioctls of a
    control device as the class [CtlKernel].

    The members of a union are kept apart: the code reads the member the kernel
    filled in.  [long] and [long long] are the same 64 bits, so they share a field.
    A name of 44 bytes is the string up to its NUL, and reserved fields are left out. *)

From Stdlib Require Import Ascii.
From S2P Require Import Prelude CInt Sys Cards.
#[local] Open Scope Z_scope.

(** ** Structures *)

(* [asound.h 910-917 snd_ctl_elem_id] *)
Record snd_ctl_elem_id_t := ElemId {
  numid : Z;
  iface : Z;
  id_device : Z;
  id_subdevice : Z;
  id_name : string;
  id_index : Z
}.

#[global] Instance elem_id_eq_dec : EqDecision snd_ctl_elem_id_t.
Proof. solve_decision. Defined.

Definition zero_id : snd_ctl_elem_id_t := ElemId 0 0 0 0 "" 0.

(** [pids] is the block, where there is one, with the entries it holds. *)
(* [asound.h 919-926 snd_ctl_elem_list] *)
Record snd_ctl_elem_list_t := ElemList {
  el_offset : Z;
  el_space : Z;
  el_used : Z;
  el_count : Z;
  el_pids : option (Z * list snd_ctl_elem_id_t)
}.

(* [asound.h 934-943 snd_ctl_elem_info] *)
Record info_integer := InfoInteger { i_min : Z; i_max : Z; i_step : Z }.

(** [names] stands for the bytes that [names_ptr] and [names_length] describe. *)
(* [asound.h 944-950 snd_ctl_elem_info] *)
Record info_enumerated := InfoEnumerated {
  items : Z;
  item : Z;
  item_name : string;
  names : list ascii
}.

(* [asound.h 928-959 snd_ctl_elem_info] *)
Record snd_ctl_elem_info_t := ElemInfo {
  info_id : snd_ctl_elem_id_t;
  info_type : Z;
  info_access : Z;
  info_count : Z;
  info_owner : Z;
  info_integer_value : info_integer;
  info_enumerated_value : info_enumerated;
  dimen : list Z                        (* four numbers *)
}.

Definition zero_info : snd_ctl_elem_info_t :=
  ElemInfo zero_id 0 0 0 0 (InfoInteger 0 0 0) (InfoEnumerated 0 0 "" []) [0; 0; 0; 0].

(** An S/PDIF status block: status, subcode and digital subframe. *)
Record snd_aes_iec958_t := Iec958 { ie_status : list Z; ie_subcode : list Z; ie_dig : list Z }.

Definition zero_iec958 : snd_aes_iec958_t :=
  Iec958 (replicate 24 0) (replicate 147 0) (replicate 4 0).

(* [asound.h 961-984 snd_ctl_elem_value] *)
Record snd_ctl_elem_value_t := ElemValue {
  val_id : snd_ctl_elem_id_t;
  val_integer : list Z;                 (* 128 longs, the first 64 also long longs *)
  val_enumerated : list Z;              (* 128 unsigned ints *)
  val_bytes : list Z;                   (* 512 bytes *)
  val_iec958 : snd_aes_iec958_t
}.

Definition zero_value : snd_ctl_elem_value_t :=
  ElemValue zero_id (replicate 128 0) (replicate 128 0) (replicate 512 0) zero_iec958.

(* [asound.h 1032-1043 snd_ctl_event] *)
Record snd_ctl_event_t := Event {
  ev_type : Z;
  ev_mask : Z;
  ev_id : snd_ctl_elem_id_t
}.

(** The handle.  [name], [type] and [nonblock] are never set; [async] is the cell
    [ctl_async_loc] of the process's pointers (file Async.v). *)
(* [ctl_macros.h 17-28 struct _snd_ctl] *)
Record snd_ctl_t := Ctl {
  ctl_block : Z;
  ctl_fd : Z;
  ctl_card : Z;
  ctl_protocol : Z;
  ctl_pollfd_events : Z
}.

Definition sizeof_ctl : Z := 48.

(** [&ctl->async]. *)
Definition ctl_async_loc (ctl : snd_ctl_t) : Z := ctl_block ctl + (sizeof_ctl - 8).

(** ** Constants *)

Definition TYPE_NONE : Z := 0.
Definition TYPE_BOOLEAN : Z := 1.
Definition TYPE_INTEGER : Z := 2.
Definition TYPE_ENUMERATED : Z := 3.
Definition TYPE_BYTES : Z := 4.
Definition TYPE_IEC958 : Z := 5.
Definition TYPE_INTEGER64 : Z := 6.

Definition IFACE_MIXER : Z := 2.
Definition IFACE_LAST : Z := 6.

Definition ACCESS_READ : Z := 1.
Definition ACCESS_WRITE : Z := 2.
Definition ACCESS_READWRITE : Z := 3.
Definition ACCESS_VOLATILE : Z := 4.
Definition ACCESS_TLV_READ : Z := 16.
Definition ACCESS_TLV_WRITE : Z := 32.
Definition ACCESS_TLV_READWRITE : Z := 48.
Definition ACCESS_TLV_COMMAND : Z := 64.
Definition ACCESS_INACTIVE : Z := 256.
Definition ACCESS_LOCK : Z := 512.
Definition ACCESS_OWNER : Z := 1024.
Definition ACCESS_USER : Z := 536870912.

Definition EVENT_ELEM : Z := 0.
Definition MASK_REMOVE : Z := UINT_MAX.
Definition MASK_VALUE : Z := 1.
Definition MASK_INFO : Z := 2.
Definition MASK_ADD : Z := 4.

(** [SNDRV_PROTOCOL_VERSION]. *)
Definition protocol_version (major minor subminor : Z) : Z :=
  Z.lor (Z.shiftl major 16) (Z.lor (Z.shiftl minor 8) subminor).

(** ** The kernel *)

Inductive id_ioctl := ElemRemove | ElemLock | ElemUnlock.
Inductive tlv_ioctl := TlvRead | TlvWrite | TlvCommand.
Inductive next_ioctl := HwdepNext | PcmNext | RawmidiNext.

#[global] Instance tlv_ioctl_eq_dec : EqDecision tlv_ioctl.
Proof. solve_decision. Defined.

(** The ioctls of a control device and the [read] of an event, whose answer is the
    length read, the errno and the event.  An ioctl gives back the structure it was
    given as the kernel left it; the TLV ioctls get the words and their length in
    bytes. *)
Class CtlKernel (K : Type) := {
  ioctl_ctl_pversion : Z -> io K (Z * Z);
  ioctl_elem_list : Z -> snd_ctl_elem_list_t -> io K (Z * snd_ctl_elem_list_t);
  ioctl_elem_info : Z -> snd_ctl_elem_info_t -> io K (Z * snd_ctl_elem_info_t);
  ioctl_elem_add : Z -> snd_ctl_elem_info_t -> io K (Z * snd_ctl_elem_info_t);
  ioctl_elem_read : Z -> snd_ctl_elem_value_t -> io K (Z * snd_ctl_elem_value_t);
  ioctl_elem_write : Z -> snd_ctl_elem_value_t -> io K (Z * snd_ctl_elem_value_t);
  ioctl_elem_id : id_ioctl -> Z -> snd_ctl_elem_id_t -> io K (Z * snd_ctl_elem_id_t);
  ioctl_tlv : tlv_ioctl -> Z -> Z -> Z -> list Z -> io K (Z * list Z);  (* fd, numid, length *)
  ioctl_subscribe : Z -> Z -> io K (Z * Z);
  ioctl_next_device : next_ioctl -> Z -> Z -> io K (Z * Z);
  read_event : Z -> io K (Z * Z * snd_ctl_event_t)
}.
