(* ===== verification/Control.v ===== *)
(** * The control interface

    src/src/control.c but for the decibel conversions (Tlv.v), and the operations of
    src/src/ctl_macros.h lines 45-265: opening and closing a control device, its
    ioctls, user-defined elements, TLV data, waiting, decibels of an element and the
    parser of element names.

    A local structure that the default build leaves unset ([memzero_valgrind] is empty,
    local.h 17) is an argument, [junk].  The handle is read only; [snd_ctl_close]
    ends it. *)

From stdpp Require Import gmap.
From Stdlib Require Import Ascii.
From S2P Require Import Prelude CInt Sys Cards Async CtlTypes Tlv.
#[local] Open Scope Z_scope.

Definition CTL_NONBLOCK : Z := 1.
Definition CTL_ASYNC : Z := 2.
Definition CTL_READONLY : Z := 4.
Definition EFAULT : Z := 14.

Section Control.
Context {K : Type} `{!Os K, !AsyncKernel K, !CardKernel K, !CtlKernel K}.

(** A call to the system. *)
Definition sysp {A} (m : io K A) : io (proc K) A := onsys (lift m).

(** The result of [if (ioctl(...) < 0) return -errno; return 0;]. *)
Definition rc {A} (r : Z * A) : Z * A := let '(r, a) := r in (if r <? 0 then r else 0, a).

(** ** Opening and closing *)

(** The flags of the device file. *)
Definition ctl_flags (mode : Z) : Z :=
  let fmode := if nz (Z.land mode CTL_READONLY) then O_RDONLY else O_RDWR in
  let fmode := if nz (Z.land mode CTL_NONBLOCK) then Z.lor fmode O_NONBLOCK else fmode in
  if nz (Z.land mode CTL_ASYNC) then Z.lor fmode O_ASYNC else fmode.

(* [control.c 45-94 snd_ctl_open] *)
Definition snd_ctl_open (name : string) (mode : Z) : io (proc K) (Z * option snd_ctl_t) :=
  let* '(err, (card, _, _)) := onsys (_snd_dev_get_device name false false) in
  if err <? 0 then ret (err, None)
  else
    let* fd := onsys (sys_open (control_name card) (ctl_flags mode)) in
    if fd <? 0 then ret (fd, None)
    else
      let* '(r, ver) := sysp (ioctl_ctl_pversion fd) in
      if r <? 0 then let* _ := onsys (sys_close fd) in ret (r, None)
      else
        let* p := onsys (sys_alloc sizeof_ctl) in
        match p with
        | None => let* _ := onsys (sys_close fd) in ret (- ENOMEM, None)
        | Some a =>
            let ctl := Ctl a fd card ver (Z.lor POLLIN (Z.lor POLLERR POLLNVAL)) in
            let* _ := set_ptr (ctl_async_loc ctl) None in
            ret (0, Some ctl)
        end.

(* [control.c 96-105 snd_ctl_close] *)
Definition snd_ctl_close (ctl : snd_ctl_t) : io (proc K) Z :=
  let* a := fun p => (ptrs p !! ctl_async_loc ctl, p) in
  let* _ := match a with Some h => snd_async_del_handler h | None => ret 0 end in
  let* _ := onsys (sys_close (ctl_fd ctl)) in
  let* _ := onsys (sys_free (ctl_block ctl)) in
  ret 0.

(* [ctl_macros.h 41-44 snd_ctl_nonblock] *)
Definition snd_ctl_nonblock (ctl : snd_ctl_t) (nonblock : Z) : io (proc K) Z :=
  onsys (_snd_set_nonblock (ctl_fd ctl) nonblock).

(* [control.c 369-384 snd_async_add_ctl_handler] *)
Definition snd_async_add_ctl_handler (ctl : snd_ctl_t) (callback private_data : Z) : io (proc K) Z :=
  add_owned_handler (ctl_block ctl) (ctl_async_loc ctl) (ctl_fd ctl) callback private_data.

(** ** The ioctls

    Each gives the code and the structure as the kernel left it. *)

(* [ctl_macros.h 81-86 snd_ctl_subscribe_events] *)
Definition snd_ctl_subscribe_events (ctl : snd_ctl_t) (subscribe : Z) : io (proc K) Z :=
  let* '(r, _) := sysp (ioctl_subscribe (ctl_fd ctl) subscribe) in
  ret (if r <? 0 then r else 0).

(* [ctl_macros.h 89-94 snd_ctl_card_info] *)
Definition snd_ctl_card_info (ctl : snd_ctl_t) : io (proc K) (Z * snd_ctl_card_info_t) :=
  let* r := sysp (ioctl_card_info (ctl_fd ctl)) in ret (rc r).

(* [ctl_macros.h 97-102 snd_ctl_elem_list] *)
Definition snd_ctl_elem_list (ctl : snd_ctl_t) (l : snd_ctl_elem_list_t)
  : io (proc K) (Z * snd_ctl_elem_list_t) :=
  let* r := sysp (ioctl_elem_list (ctl_fd ctl) l) in ret (rc r).

(* [ctl_macros.h 105-110 snd_ctl_elem_info] *)
Definition snd_ctl_elem_info (ctl : snd_ctl_t) (info : snd_ctl_elem_info_t)
  : io (proc K) (Z * snd_ctl_elem_info_t) :=
  let* r := sysp (ioctl_elem_info (ctl_fd ctl) info) in ret (rc r).

(* [ctl_macros.h 113-122 snd_ctl_elem_add] *)
Definition snd_ctl_elem_add (ctl : snd_ctl_t) (info : snd_ctl_elem_info_t)
  : io (proc K) (Z * snd_ctl_elem_info_t) :=
  let* r := sysp (ioctl_elem_add (ctl_fd ctl) info) in ret (rc r).

(* [ctl_macros.h 125-130 snd_ctl_elem_remove] *)
Definition snd_ctl_elem_remove (ctl : snd_ctl_t) (id : snd_ctl_elem_id_t)
  : io (proc K) (Z * snd_ctl_elem_id_t) :=
  let* r := sysp (ioctl_elem_id ElemRemove (ctl_fd ctl) id) in ret (rc r).

(* [ctl_macros.h 133-138 snd_ctl_elem_read] *)
Definition snd_ctl_elem_read (ctl : snd_ctl_t) (control : snd_ctl_elem_value_t)
  : io (proc K) (Z * snd_ctl_elem_value_t) :=
  let* r := sysp (ioctl_elem_read (ctl_fd ctl) control) in ret (rc r).

(* [ctl_macros.h 141-146 snd_ctl_elem_write] *)
Definition snd_ctl_elem_write (ctl : snd_ctl_t) (control : snd_ctl_elem_value_t)
  : io (proc K) (Z * snd_ctl_elem_value_t) :=
  let* r := sysp (ioctl_elem_write (ctl_fd ctl) control) in ret (rc r).

(* [ctl_macros.h 149-154 snd_ctl_elem_lock] *)
Definition snd_ctl_elem_lock (ctl : snd_ctl_t) (id : snd_ctl_elem_id_t)
  : io (proc K) (Z * snd_ctl_elem_id_t) :=
  let* r := sysp (ioctl_elem_id ElemLock (ctl_fd ctl) id) in ret (rc r).

(* [ctl_macros.h 157-162 snd_ctl_elem_unlock] *)
Definition snd_ctl_elem_unlock (ctl : snd_ctl_t) (id : snd_ctl_elem_id_t)
  : io (proc K) (Z * snd_ctl_elem_id_t) :=
  let* r := sysp (ioctl_elem_id ElemUnlock (ctl_fd ctl) id) in ret (rc r).

(* [ctl_macros.h 165-170 snd_ctl_hwdep_next_device] *)
Definition snd_ctl_hwdep_next_device (ctl : snd_ctl_t) (device : Z) : io (proc K) (Z * Z) :=
  let* r := sysp (ioctl_next_device HwdepNext (ctl_fd ctl) device) in ret (rc r).

(* [ctl_macros.h 181-186 snd_ctl_pcm_next_device] *)
Definition snd_ctl_pcm_next_device (ctl : snd_ctl_t) (device : Z) : io (proc K) (Z * Z) :=
  let* r := sysp (ioctl_next_device PcmNext (ctl_fd ctl) device) in ret (rc r).

(* [ctl_macros.h 205-210 snd_ctl_rawmidi_next_device] *)
Definition snd_ctl_rawmidi_next_device (ctl : snd_ctl_t) (device : Z) : io (proc K) (Z * Z) :=
  let* r := sysp (ioctl_next_device RawmidiNext (ctl_fd ctl) device) in ret (rc r).

(* [ctl_macros.h 197-202 snd_ctl_pcm_prefer_subdevice] *)
Definition snd_ctl_pcm_prefer_subdevice (ctl : snd_ctl_t) (subdev : Z) : io (proc K) Z :=
  let* r := sysp (ioctl_prefer PcmPreferSubdevice (ctl_fd ctl) subdev) in
  ret (if r <? 0 then r else 0).

(* [ctl_macros.h 221-226 snd_ctl_rawmidi_prefer_subdevice] *)
Definition snd_ctl_rawmidi_prefer_subdevice (ctl : snd_ctl_t) (subdev : Z) : io (proc K) Z :=
  let* r := sysp (ioctl_prefer RawmidiPreferSubdevice (ctl_fd ctl) subdev) in
  ret (if r <? 0 then r else 0).

(** Where [read] gives 0 the errno is an earlier one. *)
(* [ctl_macros.h 229-235 snd_ctl_read] *)
Definition snd_ctl_read (ctl : snd_ctl_t) : io (proc K) (Z * snd_ctl_event_t) :=
  let* '(res, errno, event) := sysp (read_event (ctl_fd ctl)) in
  ret (if res <=? 0 then - errno else 1, event).

(* [control.c 313-330 snd_ctl_wait] *)
Fixpoint snd_ctl_wait (fuel : nat) (ctl : snd_ctl_t) (timeout : Z) : io (proc K) (option Z) :=
  match fuel with
  | O => ret None
  | S fuel =>
      let* '(err, revents) := sysp (os_poll (ctl_fd ctl) (ctl_pollfd_events ctl) timeout) in
      if err <? 0 then ret (Some err)
      else if err =? 0 then ret (Some 0)
      else if nz (Z.land revents (Z.lor POLLERR POLLNVAL)) then ret (Some (- EIO))
      else if nz (Z.land revents (Z.lor POLLIN POLLOUT)) then ret (Some 1)
      else snd_ctl_wait fuel ctl timeout
  end.

(** ** The list of elements *)

Definition sizeof_elem_id : Z := 64.

(** [free(p)], nothing where [p] is NULL. *)
Definition free_opt {A} (p : option (Z * A)) : io (proc K) unit :=
  match p with Some (a, _) => onsys (sys_free a) | None => ret tt end.

(* [ctl_macros.h 247-258 snd_ctl_elem_list_alloc_space] *)
Definition snd_ctl_elem_list_alloc_space (obj : snd_ctl_elem_list_t) (entries : Z)
  : io (proc K) (Z * snd_ctl_elem_list_t) :=
  let* _ := free_opt (el_pids obj) in
  let* p := onsys (sys_alloc (entries * sizeof_elem_id)) in
  ret (match p with
       | None => (- ENOMEM, ElemList (el_offset obj) 0 (el_used obj) (el_count obj) None)
       | Some a => (0, ElemList (el_offset obj) entries (el_used obj) (el_count obj)
                         (Some (a, replicate (Z.to_nat entries) zero_id)))
       end).

(* [ctl_macros.h 261-266 snd_ctl_elem_list_free_space] *)
Definition snd_ctl_elem_list_free_space (obj : snd_ctl_elem_list_t) : io (proc K) snd_ctl_elem_list_t :=
  let* _ := free_opt (el_pids obj) in
  ret (ElemList (el_offset obj) 0 (el_used obj) (el_count obj) None).

(** ** User-defined elements *)

(** The structure with the fields the functions below assign. *)
Definition set_info (id : snd_ctl_elem_id_t) (type access count : Z) (v : info_integer)
  (e : info_enumerated) (info : snd_ctl_elem_info_t) : snd_ctl_elem_info_t :=
  ElemInfo id type access count (info_owner info) v e (dimen info).

(** [val.value.integer.value[i] = min] for each [i] below [count].  (An index above the
    array is undefined; the kernel refuses such a count, so it is not reached.) *)
Definition fill_values (count min : Z) (l : list Z) : list Z :=
  foldl (fun l i => upd i (fun _ => min) l) l (zseq 0 (Z.to_nat count)).

(* [control.c 112-139 snd_ctl_elem_add_integer] *)
Definition snd_ctl_elem_add_integer (junk : snd_ctl_elem_info_t) (junk_val : snd_ctl_elem_value_t)
  (ctl : snd_ctl_t) (id : snd_ctl_elem_id_t) (count min max step : Z) : io (proc K) Z :=
  let info := set_info id TYPE_INTEGER (Z.lor ACCESS_READWRITE ACCESS_TLV_READWRITE) count
    (InfoInteger min max step) (info_enumerated_value junk) junk in
  let* '(err, _) := snd_ctl_elem_add ctl info in
  if err <? 0 then ret err
  else
    let val := ElemValue id (fill_values count min (val_integer junk_val))
      (val_enumerated junk_val) (val_bytes junk_val) (val_iec958 junk_val) in
    let* '(err, _) := snd_ctl_elem_write ctl val in
    ret err.

(* [control.c 141-165 snd_ctl_elem_add_integer64] *)
Definition snd_ctl_elem_add_integer64 (junk : snd_ctl_elem_info_t) (junk_val : snd_ctl_elem_value_t)
  (ctl : snd_ctl_t) (id : snd_ctl_elem_id_t) (count min max step : Z) : io (proc K) Z :=
  let info := set_info id TYPE_INTEGER64 (info_access junk) count
    (InfoInteger min max step) (info_enumerated_value junk) junk in
  let* '(err, _) := snd_ctl_elem_add ctl info in
  if err <? 0 then ret err
  else
    let val := ElemValue id (fill_values count min (val_integer junk_val))
      (val_enumerated junk_val) (val_bytes junk_val) (val_iec958 junk_val) in
    let* '(err, _) := snd_ctl_elem_write ctl val in
    ret err.

(* [control.c 167-179 snd_ctl_elem_add_boolean] *)
Definition snd_ctl_elem_add_boolean (junk : snd_ctl_elem_info_t) (ctl : snd_ctl_t)
  (id : snd_ctl_elem_id_t) (count : Z) : io (proc K) Z :=
  let info := set_info id TYPE_BOOLEAN (info_access junk) count
    (InfoInteger 0 1 (i_step (info_integer_value junk))) (info_enumerated_value junk) junk in
  let* '(err, _) := snd_ctl_elem_add ctl info in
  ret err.

(* [control.c 181-190 snd_ctl_elem_add_iec958] *)
Definition snd_ctl_elem_add_iec958 (junk : snd_ctl_elem_info_t) (ctl : snd_ctl_t)
  (id : snd_ctl_elem_id_t) : io (proc K) Z :=
  let info := set_info id TYPE_IEC958 (info_access junk) 1
    (info_integer_value junk) (info_enumerated_value junk) junk in
  let* '(err, _) := snd_ctl_elem_add ctl info in
  ret err.

(** The names one after the other, each with its NUL, in the 256 bytes of [buf]; [None]
    where they do not fit.  [items] names are read. *)
Fixpoint flatten_names (items : nat) (names : list string) (buf : list ascii) : option (list ascii) :=
  match items, names with
  | O, _ => Some buf
  | S items, name :: names =>
      let l := Z.of_nat (String.length name) + 1 in
      if 256 <=? Z.of_nat (length buf) + l then None
      else flatten_names items names (buf ++ String.list_ascii_of_string name ++ [Ascii.zero])
  | S _, [] => Some buf
  end.

(* [control.c 192-221 snd_ctl_elem_add_enumerated] *)
Definition snd_ctl_elem_add_enumerated (junk : snd_ctl_elem_info_t) (ctl : snd_ctl_t)
  (id : snd_ctl_elem_id_t) (count items : Z) (names : list string) : io (proc K) Z :=
  if ctl_protocol ctl <? protocol_version 2 0 7 then ret (- ENXIO)
  else if items =? 0 then ret (- EINVAL)
  else
    match flatten_names (Z.to_nat items) names [] with
    | None => ret (- ENOMEM)
    | Some buf =>
        let e := info_enumerated_value junk in
        let info := set_info id TYPE_ENUMERATED (info_access junk) count
          (info_integer_value junk) (InfoEnumerated items (item e) (item_name e) buf) junk in
        let* '(err, _) := snd_ctl_elem_add ctl info in
        ret err
    end.

(** ** TLV data *)

(** [memcpy(dst, src, n)] on words: a part of a word is its low bytes. *)
Fixpoint copy_bytes (n : Z) (src dst : list Z) : list Z :=
  match src, dst with
  | x :: src, y :: dst =>
      if 4 <=? n then x :: copy_bytes (n - 4) src dst
      else if n <=? 0 then y :: dst
      else (x mod 2 ^ (8 * n) + (y - y mod 2 ^ (8 * n))) :: dst
  | _, _ => dst
  end.

Definition sizeof_ctl_tlv : Z := 8.

(** The code and the caller's words.  [heap] is what the new block holds. *)
(* [control.c 228-257 hw_elem_tlv] *)
Definition hw_elem_tlv (heap : list Z) (ctl : snd_ctl_t) (inum : tlv_ioctl) (numid : Z)
  (tlv : list Z) (tlv_size : Z) : io (proc K) (Z * list Z) :=
  if ctl_protocol ctl <? protocol_version 2 0 4 then ret (- ENXIO, tlv)
  else
    let* p := onsys (sys_alloc (sizeof_ctl_tlv + tlv_size)) in
    match p with
    | None => ret (- ENOMEM, tlv)
    | Some a =>
        let xtlv := copy_bytes tlv_size tlv (take (Z.to_nat (int_index tlv_size)) heap) in
        let* '(r, xtlv) := sysp (ioctl_tlv inum (ctl_fd ctl) numid tlv_size xtlv) in
        if r <? 0 then let* _ := onsys (sys_free a) in ret (r, tlv)
        else if bool_decide (inum = TlvRead) then
          let n := nthz 0 xtlv 1 + 8 in
          if tlv_size <? n then let* _ := onsys (sys_free a) in ret (- EFAULT, tlv)
          else let* _ := onsys (sys_free a) in ret (0, copy_bytes n xtlv tlv)
        else let* _ := onsys (sys_free a) in ret (0, tlv)
    end.

(* [control.c 259-276 snd_ctl_tlv_do] *)
Definition snd_ctl_tlv_do (junk : snd_ctl_elem_info_t) (heap : list Z) (ctl : snd_ctl_t)
  (cmd : tlv_ioctl) (id : snd_ctl_elem_id_t) (tlv : list Z) (tlv_size : Z)
  : io (proc K) (Z * list Z) :=
  if numid id =? 0 then
    let info := ElemInfo id (info_type junk) (info_access junk) (info_count junk)
      (info_owner junk) (info_integer_value junk) (info_enumerated_value junk) (dimen junk) in
    let* '(err, info) := snd_ctl_elem_info ctl info in
    if err <? 0 then ret (err, tlv)
    else if numid (info_id info) =? 0 then ret (- ENOENT, tlv)
    else hw_elem_tlv heap ctl cmd (numid (info_id info)) tlv tlv_size
  else hw_elem_tlv heap ctl cmd (numid id) tlv tlv_size.

(** [tlv] has at least two words. *)
(* [control.c 278-290 snd_ctl_elem_tlv_read] *)
Definition snd_ctl_elem_tlv_read (junk : snd_ctl_elem_info_t) (heap : list Z) (ctl : snd_ctl_t)
  (id : snd_ctl_elem_id_t) (tlv : list Z) (tlv_size : Z) : io (proc K) (Z * list Z) :=
  if tlv_size <? 8 then ret (- EINVAL, tlv)
  else
    let tlv := upd 1 (fun _ => 0) (upd 0 (fun _ => UINT_MAX) tlv) in
    let* '(err, tlv) := snd_ctl_tlv_do junk heap ctl TlvRead id tlv tlv_size in
    ret (if (0 <=? err) && (nthz 0 tlv 0 =? UINT_MAX) then - ENXIO else err, tlv).

(* [control.c 292-298 snd_ctl_elem_tlv_write] *)
Definition snd_ctl_elem_tlv_write (junk : snd_ctl_elem_info_t) (heap : list Z) (ctl : snd_ctl_t)
  (id : snd_ctl_elem_id_t) (tlv : list Z) : io (proc K) Z :=
  let* '(err, _) := snd_ctl_tlv_do junk heap ctl TlvWrite id tlv (u32 (nthz 0 tlv 1 + 8)) in
  ret err.

(* [control.c 300-306 snd_ctl_elem_tlv_command] *)
Definition snd_ctl_elem_tlv_command (junk : snd_ctl_elem_info_t) (heap : list Z) (ctl : snd_ctl_t)
  (id : snd_ctl_elem_id_t) (tlv : list Z) : io (proc K) Z :=
  let* '(err, _) := snd_ctl_tlv_do junk heap ctl TlvCommand id tlv (u32 (nthz 0 tlv 1 + 8)) in
  ret err.

(** ** Decibels of an element

    [get_tlv_info] parses its own buffer, which nothing fills: [stack] is what the
    local structure holds.  The outcome is [None] where the parser or the conversion
    reads outside the buffer, or the conversion is given the NULL that the parser gives
    for data that is not about decibels. *)

Definition sizeof_tlv_buf : Z := 16384.

(* [control.c 773-787 get_tlv_info] *)
Definition get_tlv_info (junk : snd_ctl_elem_info_t) (stack : list Z) (ctl : snd_ctl_t)
  (id : snd_ctl_elem_id_t) : io (proc K) (option (Z * (Z * Z * option (list Z)))) :=
  let info := ElemInfo id (info_type junk) (info_access junk) (info_count junk)
    (info_owner junk) (info_integer_value junk) (info_enumerated_value junk) (dimen junk) in
  let* '(err, info) := snd_ctl_elem_info ctl info in
  let minval := i_min (info_integer_value info) in
  let maxval := i_max (info_integer_value info) in
  if err <? 0 then ret (Some (err, (0, 0, None)))
  else
    ret (match snd_tlv_parse_dB_info stack sizeof_tlv_buf with
         | None => None
         | Some (err, tlv) => Some (err, (minval, maxval, tlv))
         end).

(** A conversion of the element's TLV data, where there is any. *)
Definition with_tlv_info {A} (junk : snd_ctl_elem_info_t) (stack : list Z) (ctl : snd_ctl_t)
  (id : snd_ctl_elem_id_t) (old : A) (f : list Z -> Z -> Z -> option (Z * A))
  : io (proc K) (option (Z * A)) :=
  let* r := get_tlv_info junk stack ctl id in
  ret (match r with
       | None => None
       | Some (err, (minval, maxval, tlv)) =>
           if err <? 0 then Some (err, old)
           else match tlv with None => None | Some tlv => f tlv minval maxval end
       end).

(** [min] and [max] are what the caller's variables hold. *)
(* [control.c 789-800 snd_ctl_get_dB_range] *)
Definition snd_ctl_get_dB_range (junk : snd_ctl_elem_info_t) (stack : list Z) (junk_range : Z)
  (ctl : snd_ctl_t) (id : snd_ctl_elem_id_t) (min max : Z)
  : io (proc K) (option (Z * (Z * Z))) :=
  with_tlv_info junk stack ctl id (min, max)
    (fun tlv rmin rmax =>
       match snd_tlv_get_dB_range junk_range tlv rmin rmax min max with
       | None => None
       | Some (err, min, max) => Some (err, (min, max))
       end).

(* [control.c 802-813 snd_ctl_convert_to_dB] *)
Definition snd_ctl_convert_to_dB (junk : snd_ctl_elem_info_t) (stack : list Z)
  (ctl : snd_ctl_t) (id : snd_ctl_elem_id_t) (volume gain : Z) : io (proc K) (option (Z * Z)) :=
  with_tlv_info junk stack ctl id gain
    (fun tlv rmin rmax => snd_tlv_convert_to_dB tlv rmin rmax volume gain).

(* [control.c 815-826 snd_ctl_convert_from_dB] *)
Definition snd_ctl_convert_from_dB (junk : snd_ctl_elem_info_t) (stack : list Z) (junk_range : Z)
  (ctl : snd_ctl_t) (id : snd_ctl_elem_id_t) (db_gain value xdir : Z)
  : io (proc K) (option (Z * Z)) :=
  with_tlv_info junk stack ctl id value
    (fun tlv rmin rmax => snd_tlv_convert_from_dB junk_range tlv rmin rmax db_gain value xdir).
End Control.
