(* ===== verification/ControlSpec.v ===== *)
(** * Control handles and TLV data

    The theorems about Control.v: what opening and closing take and give back, what a
    TLV read writes to the caller's buffer, and what the kernel is given for a new
    element. *)

From stdpp Require Import gmap.
From S2P Require Import Prelude CInt Sys Cards Async CtlTypes Tlv Control Toy.
#[local] Open Scope Z_scope.

Section ControlSpec.
Context {K : Type} `{!Os K, !OsLaws K, !AsyncKernel K, !CardKernel K, !CtlKernel K}.

(** ** Opening and closing *)

(** A call to the system that changes neither the ledger nor the handlers. *)
Lemma sysp_frame {A} (m : io K A) (p : proc K) :
  let '(_, p') := sysp m p in
  held (wld p') = held (wld p) /\ ptrs p' = ptrs p /\ async_list p' = async_list p.
Proof. unfold sysp. rewrite onsys_eq. unfold lift. destruct (m _). done. Qed.

Lemma close_fd_frame fd (p : proc K) :
  let '(_, p') := onsys (sys_close fd) p in
  held (wld p') = release (RFd fd) (held (wld p)) /\ ptrs p' = ptrs p.
Proof.
  rewrite onsys_eq. pose proof (sys_close_spec fd (wld p)) as H.
  destruct (sys_close fd (wld p)). done.
Qed.

(** A failed open gives back everything; a successful one takes a descriptor and a
    block, and the handle has no asynchronous handler. *)
Lemma ctl_open_spec name mode (p : proc K) :
  let '(r, h, p') := snd_ctl_open name mode p in
  match h with
  | None => r < 0 /\ held (wld p') = held (wld p)
  | Some ctl => r = 0 /\ held (wld p') = RMem (ctl_block ctl) :: RFd (ctl_fd ctl) :: held (wld p) /\
                ptrs p' !! ctl_async_loc ctl = None /\ 0 < ctl_block ctl
  end.
Proof.
  unfold snd_ctl_open, bind at 1. rewrite onsys_eq.
  pose proof (balanced_get_device name false false (wld p)) as Hd.
  destruct (_snd_dev_get_device _ _ _ _) as [[err [[card dev] sub]] w1]. simpl in Hd.
  destruct (err <? 0) eqn:He; zbool; [simpl; rewrite Hd; done|]. unfold bind at 1. rewrite onsys_eq.
  pose proof (sys_open_spec (control_name card) (ctl_flags mode) w1) as Ho. simpl.
  destruct (sys_open _ _ w1) as [fd w2]. destruct (fd <? 0) eqn:Hfd; zbool; simpl; [rewrite Ho, Hd; done|].
  unfold bind at 1. set (p2 := Proc w2 _ _ _). pose proof (sysp_frame (ioctl_ctl_pversion fd) p2) as Hv.
  destruct (sysp _ p2) as [[r ver] p3]. destruct Hv as (Hv & _).
  assert (H3 : held (wld p3) = RFd fd :: held (wld p)) by (rewrite Hv; simpl; rewrite Ho, Hd; done).
  destruct (r <? 0) eqn:Hr; zbool.
  { unfold bind. pose proof (close_fd_frame fd p3) as Hc. destruct (onsys _ p3) as [c p4].
    simpl. rewrite (proj1 Hc), H3, release_head. done. }
  unfold bind at 1, sys_alloc. rewrite onsys_eq. unfold bind at 1, lift.
  destruct (os_alloc _ _ _) as [[a|] k] eqn:Ha; simpl.
  - unfold bind, set_ptr, acquire. simpl. apply alloc_law in Ha as [Ha _].
    rewrite H3, lookup_delete_eq. done.
  - unfold bind. set (p4 := Proc _ _ _ _). pose proof (close_fd_frame fd p4) as Hc.
    destruct (onsys _ p4) as [c p5]. simpl. rewrite (proj1 Hc). unfold p4. simpl.
    rewrite H3, release_head. done.
Qed.

(** Closing a handle without an asynchronous handler. *)
Lemma ctl_close_spec ctl (p : proc K) :
  ptrs p !! ctl_async_loc ctl = None ->
  let '(r, p') := snd_ctl_close ctl p in
  r = 0 /\ held (wld p') = release (RMem (ctl_block ctl)) (release (RFd (ctl_fd ctl)) (held (wld p))).
Proof.
  intros Hp. unfold snd_ctl_close, bind at 1. rewrite Hp. unfold bind, ret at 1.
  pose proof (close_fd_frame (ctl_fd ctl) p) as Hc. destruct (onsys (sys_close _) p) as [c p1].
  rewrite onsys_eq. unfold sys_free, drop_resource. simpl. rewrite (proj1 Hc). done.
Qed.

(** ** TLV data *)

Lemma copy_bytes_length n src dst : length (copy_bytes n src dst) = length dst.
Proof.
  revert n dst. induction src as [|x src IH]; intros n [|y dst]; simpl; auto.
  destruct (4 <=? n); [simpl; auto|]. destruct (n <=? 0); done.
Qed.

(** Nothing is written past the [n]th byte. *)
Lemma copy_bytes_drop n src dst k :
  n <= 4 * Z.of_nat k -> drop k (copy_bytes n src dst) = drop k dst.
Proof.
  revert n dst k. induction src as [|x src IH]; intros n [|y dst] k Hn; simpl; auto.
  destruct k as [|k].
  - destruct (Z.leb_spec 4 n); [lia|]. destruct (Z.leb_spec n 0); [done|lia].
  - destruct (Z.leb_spec 4 n); simpl; [apply IH; lia|].
    destruct (Z.leb_spec n 0); [done|]. simpl. done.
Qed.

(** A whole word that is copied. *)
Lemma copy_bytes_nth n src dst i :
  (i < length src)%nat -> (i < length dst)%nat -> 4 * (Z.of_nat i + 1) <= n ->
  copy_bytes n src dst !! i = src !! i.
Proof.
  revert n dst i. induction src as [|x src IH]; intros n [|y dst] i Hs Hd Hn; simpl in *; try lia.
  destruct (Z.leb_spec 4 n); [|lia]. destruct i as [|i]; [done|]. simpl. apply IH; lia.
Qed.

(** The bytes of a list of words. *)
Definition byte_at (l : list Z) (j : Z) : Z := (nthz 0 l (j / 4) / 2 ^ (8 * (j mod 4))) mod 256.

Lemma byte_at_cons x l j :
  0 <= j -> byte_at (x :: l) j = if j <? 4 then (x / 2 ^ (8 * j)) mod 256 else byte_at l (j - 4).
Proof.
  intros Hj. unfold byte_at. destruct (Z.ltb_spec j 4).
  - rewrite (Z.div_small j 4), (Z.mod_small j 4) by lia. done.
  - assert (Hd : j / 4 = (j - 4) / 4 + 1) by (replace j with (j - 4 + 1 * 4) at 1 by lia; apply Z.div_add; lia).
    assert (Hm : j mod 4 = (j - 4) mod 4) by (replace j with (j - 4 + 1 * 4) at 1 by lia; apply Z.mod_add; lia).
    pose proof (Z.div_pos (j - 4) 4 ltac:(lia) ltac:(lia)). rewrite Hd, Hm. unfold nthz.
    destruct (Z.ltb_spec ((j - 4) / 4 + 1) 0), (Z.ltb_spec ((j - 4) / 4) 0); try lia.
    replace (Z.to_nat ((j - 4) / 4 + 1)) with (S (Z.to_nat ((j - 4) / 4))) by lia. done.
Qed.

(** The low bytes of one word put over another's. *)
Lemma part_word x y n j :
  0 < n < 4 -> 0 <= j < 4 ->
  ((x mod 2 ^ (8 * n) + (y - y mod 2 ^ (8 * n))) / 2 ^ (8 * j)) mod 256 =
    if j <? n then (x / 2 ^ (8 * j)) mod 256 else (y / 2 ^ (8 * j)) mod 256.
Proof.
  intros Hn Hj. change 256 with (2 ^ 8).
  assert (Hy : y - y mod 2 ^ (8 * n) = (y / 2 ^ (8 * n)) * 2 ^ (8 * n))
    by (pose proof (Z.div_mod y (2 ^ (8 * n)) ltac:(lia)); lia).
  rewrite Hy. set (P := 2 ^ (8 * n)). assert (HP : 0 < P) by (apply Z.pow_pos_nonneg; lia).
  pose proof (Z.mod_pos_bound x P HP) as Hx. destruct (Z.ltb_spec j n).
  - apply Z.bits_inj'. intros k Hk. destruct (Z.ltb_spec k 8).
    2:{ rewrite !Z.mod_pow2_bits_high by lia. done. }
    rewrite !Z.mod_pow2_bits_low, !Z.div_pow2_bits by lia.
    rewrite <- (Z.mod_pow2_bits_low (x mod P + _) (8 * n)), <- (Z.mod_pow2_bits_low x (8 * n)) by lia.
    fold P. rewrite Z.mod_add, Z.mod_mod by lia. done.
  - f_equal. replace (8 * j) with (8 * n + 8 * (j - n)) by lia. rewrite Z.pow_add_r by lia. fold P.
    rewrite <- !Z.div_div by (try lia; apply Z.pow_pos_nonneg; lia).
    rewrite Z.div_add, (Z.div_small (x mod P)) by lia. rewrite Z.add_0_l. done.
Qed.

(** What [memcpy] leaves, byte for byte. *)
Lemma copy_bytes_bytes n src dst j :
  n <= 4 * Z.of_nat (length src) -> n <= 4 * Z.of_nat (length dst) -> 0 <= j ->
  byte_at (copy_bytes n src dst) j = if j <? n then byte_at src j else byte_at dst j.
Proof.
  revert n dst j. induction src as [|x src IH]; intros n [|y dst] j Hs Hd Hj; simpl length in *;
    try (cbn [copy_bytes]; destruct (Z.ltb_spec j n); [lia|done]).
  cbn [copy_bytes]. destruct (Z.leb_spec 4 n).
  - rewrite !byte_at_cons by done. destruct (Z.ltb_spec j 4).
    + destruct (Z.ltb_spec j n); [done|lia].
    + rewrite IH by lia. destruct (Z.ltb_spec (j - 4) (n - 4)), (Z.ltb_spec j n); try lia; done.
  - destruct (Z.leb_spec n 0).
    + destruct (Z.ltb_spec j n); [lia|done].
    + rewrite !byte_at_cons by done. destruct (Z.ltb_spec j 4); [apply part_word; lia|].
      destruct (Z.ltb_spec j n); [lia|done].
Qed.

Lemma nthz_lookup {A} (d : A) l i : 0 <= i -> nthz d l i = default d (l !! Z.to_nat i).
Proof.
  intros Hi. unfold nthz. destruct (Z.ltb_spec i 0); [lia|]. rewrite nth_lookup. done.
Qed.

(** What the library relies on: the kernel answers with as many words as it was given. *)
Definition tlv_answers : Prop :=
  forall c fd numid len ws k,
    let '((r, ws'), _) := ioctl_tlv c fd numid len ws k in
    length ws' = length ws /\ (0 <= r -> Forall is_u32 ws').

(** Freeing the newest block. *)
Lemma free_newest a (p : proc K) rest :
  held (wld p) = RMem a :: rest ->
  let '(_, p') := onsys (sys_free a) p in held (wld p') = rest.
Proof. intros H. rewrite onsys_eq. simpl. rewrite H, release_head. done. Qed.

(** What a TLV call did to the caller's buffer [tlv] of [size] bytes. *)
Definition tlv_effect (size : Z) (tlv tlv' : list Z) : Prop :=
  length tlv' = length tlv /\
  drop (Z.to_nat (int_index size)) tlv' = drop (Z.to_nat (int_index size)) tlv.

(** The buffer holds a whole element of TLV data. *)
Definition whole_tlv (size : Z) (tlv : list Z) : Prop :=
  is_u32 (nthz 0 tlv 0) /\ 0 <= nthz 0 tlv 1 /\ nthz 0 tlv 1 + 8 <= size.

Lemma int_index_words size : 8 <= size -> 2 <= int_index size /\ size <= 4 * int_index size.
Proof. unfold int_index. pose proof (Z.div_mod (size + 3) 4). pose proof (Z.mod_pos_bound (size + 3) 4). lia. Qed.

(** Copying an answer back. *)
Lemma copy_answer size ws tlv :
  8 <= size <= 4 * Z.of_nat (length tlv) -> Z.of_nat (length ws) = int_index size ->
  Forall is_u32 ws -> nthz 0 ws 1 + 8 <= size ->
  let tlv' := copy_bytes (nthz 0 ws 1 + 8) ws tlv in
  tlv_effect size tlv tlv' /\ whole_tlv size tlv'.
Proof.
  intros Hsize Hlen Hu Hn. cbn zeta.
  destruct (int_index_words size) as [Hi1 Hi2]; [lia|].
  assert (Hw : forall i, (i < length ws)%nat -> is_u32 (nthz 0 ws (Z.of_nat i))).
  { intros i Hi. rewrite nthz_lookup, Nat2Z.id by lia. destruct (lookup_lt_is_Some_2 _ _ Hi) as [w Hw].
    rewrite Hw. simpl. rewrite Forall_lookup in Hu. eauto. }
  pose proof (Hw 1%nat ltac:(lia)) as [H1 _]. change (Z.of_nat 1) with 1 in H1.
  assert (Hc : forall i, (i < 2)%nat ->
    nthz 0 (copy_bytes (nthz 0 ws 1 + 8) ws tlv) (Z.of_nat i) = nthz 0 ws (Z.of_nat i)).
  { intros i Hi. generalize dependent (nthz 0 ws 1). intros n Hn H1.
    rewrite !nthz_lookup, Nat2Z.id, copy_bytes_nth by lia. done. }
  pose proof (Hc 0%nat ltac:(lia)) as Hc0. pose proof (Hc 1%nat ltac:(lia)) as Hc1.
  change (Z.of_nat 0) with 0 in Hc0. change (Z.of_nat 1) with 1 in Hc1. split.
  - split; [apply copy_bytes_length|]. apply copy_bytes_drop. lia.
  - unfold whole_tlv. rewrite Hc0, Hc1. split; [|lia].
    apply (Hw 0%nat). lia.
Qed.

(** [hw_elem_tlv] writes within the buffer and keeps no block. *)
Lemma hw_elem_tlv_spec heap ctl c numid tlv size (p : proc K) :
  tlv_answers -> 8 <= size <= 4 * Z.of_nat (length tlv) -> int_index size <= Z.of_nat (length heap) ->
  let '((r, tlv'), p') := hw_elem_tlv heap ctl c numid tlv size p in
  held (wld p') = held (wld p) /\ r <= 0 /\ tlv_effect size tlv tlv' /\
  (c = TlvRead -> r = 0 -> whole_tlv size tlv') /\ (r <> 0 -> tlv' = tlv).
Proof.
  intros Hlaw Hsize Hheap. unfold hw_elem_tlv. destruct (ctl_protocol ctl <? _).
  { unfold ret, ENXIO. repeat split; auto; try lia. }
  unfold bind at 1, sys_alloc. rewrite onsys_eq. unfold bind at 1, lift.
  destruct (os_alloc _ _ _) as [[a|] k1]; simpl.
  2: { unfold ENOMEM. repeat split; auto; try lia. }
  set (xtlv := copy_bytes size tlv _). unfold acquire. simpl.
  assert (Hx : Z.of_nat (length xtlv) = int_index size).
  { unfold xtlv. rewrite copy_bytes_length, length_take. destruct (int_index_words size); lia. }
  set (p1 := Proc _ _ _ _). unfold bind at 1, sysp. rewrite onsys_eq. unfold lift.
  pose proof (Hlaw c (ctl_fd ctl) numid size xtlv (ker (wld p1))) as Hans.
  destruct (ioctl_tlv _ _ _ _ _ _) as [[r ws] k2]. destruct Hans as [Hlen Hu].
  set (p2 := Proc _ _ _ _). assert (Hp2 : held (wld p2) = RMem a :: held (wld p)) by done.
  pose proof (free_newest a p2 _ Hp2) as Hf. unfold bind.
  destruct (onsys (sys_free a) p2) as [[] p3] eqn:Hfree.
  destruct (Z.ltb_spec r 0); [rewrite Hfree; unfold ret; repeat split; auto; lia|]. specialize (Hu ltac:(lia)).
  destruct (bool_decide (c = TlvRead)) eqn:Hc.
  - destruct (Z.ltb_spec size (nthz 0 ws 1 + 8)).
    { rewrite Hfree. unfold ret, EFAULT. repeat split; auto; lia. }
    destruct (copy_answer size ws tlv) as [He Hw]; [lia|lia|done|lia|].
    rewrite Hfree. unfold ret. split; [done|]. split; [lia|]. split; [done|]. split; [done|lia].
  - apply bool_decide_eq_false in Hc. rewrite Hfree. unfold ret.
    split; [done|]. split; [lia|]. split; [done|]. split; [done|lia].
Qed.

Lemma tlv_do_spec junk heap ctl c id tlv size (p : proc K) :
  tlv_answers -> 8 <= size <= 4 * Z.of_nat (length tlv) -> int_index size <= Z.of_nat (length heap) ->
  let '((r, tlv'), p') := snd_ctl_tlv_do junk heap ctl c id tlv size p in
  held (wld p') = held (wld p) /\ r <= 0 /\ tlv_effect size tlv tlv' /\
  (c = TlvRead -> r = 0 -> whole_tlv size tlv') /\ (r <> 0 -> tlv' = tlv).
Proof.
  intros Hlaw Hsize Hheap. unfold snd_ctl_tlv_do.
  destruct (numid id =? 0); [|apply hw_elem_tlv_spec; done].
  unfold bind at 1, snd_ctl_elem_info. set (info := ElemInfo _ _ _ _ _ _ _ _). unfold bind at 1.
  pose proof (sysp_frame (ioctl_elem_info (ctl_fd ctl) info) p) as Hf.
  destruct (sysp _ p) as [[r i] p1]. destruct Hf as (Hf & _). simpl.
  destruct (Z.ltb_spec r 0).
  - rewrite (proj2 (Z.ltb_lt r 0)) by done. unfold ret.
    split; [done|]. split; [lia|]. split; [done|]. split; [lia|done].
  - change (0 <? 0) with false. destruct (numid (info_id i) =? 0).
    + unfold ret, ENOENT. split; [done|]. split; [lia|]. split; [done|]. split; [lia|done].
    + pose proof (hw_elem_tlv_spec heap ctl c (numid (info_id i)) tlv size p1 Hlaw Hsize Hheap) as H1.
      destruct (hw_elem_tlv _ _ _ _ _ _ p1) as [[r1 tlv'] p2]. rewrite <- Hf. done.
Qed.

(** The element's number, and the process once it is known: the number given, or the one
    that ELEM_INFO answers for the name. *)
Definition element_number (junk : snd_ctl_elem_info_t) (ctl : snd_ctl_t) (id : snd_ctl_elem_id_t)
    (p : proc K) (n : Z) (p1 : proc K) : Prop :=
  if numid id =? 0 then
    exists i, n = numid (info_id i) /\ n <> 0 /\
      snd_ctl_elem_info ctl (ElemInfo id (info_type junk) (info_access junk) (info_count junk)
        (info_owner junk) (info_integer_value junk) (info_enumerated_value junk) (dimen junk)) p = ((0, i), p1)
  else n = numid id /\ p1 = p.

Lemma tlv_do_number junk heap ctl c id tlv size (p p1 : proc K) n :
  element_number junk ctl id p n p1 ->
  snd_ctl_tlv_do junk heap ctl c id tlv size p = hw_elem_tlv heap ctl c n tlv size p1.
Proof.
  unfold element_number, snd_ctl_tlv_do. destruct (numid id =? 0).
  - intros (i & Hn & Hnz & Hi). unfold bind at 1. rewrite Hi. change (0 <? 0) with false. cbv iota. rewrite <- Hn.
    destruct (Z.eqb_spec n 0); done.
  - intros [-> ->]. done.
Qed.

(** What a read leaves where the driver was asked. *)
Lemma hw_tlv_read_eq heap ctl n tlv size (p : proc K) a w e ws k :
  protocol_version 2 0 4 <= ctl_protocol ctl -> sys_alloc (sizeof_ctl_tlv + size) (wld p) = (Some a, w) ->
  ioctl_tlv TlvRead (ctl_fd ctl) n size (copy_bytes size tlv (take (Z.to_nat (int_index size)) heap)) (ker w) =
    ((e, ws), k) ->
  (hw_elem_tlv heap ctl TlvRead n tlv size p).1 =
    if e <? 0 then (e, tlv)
    else if size <? nthz 0 ws 1 + 8 then (- EFAULT, tlv)
    else (0, copy_bytes (nthz 0 ws 1 + 8) ws tlv).
Proof.
  intros Hp Ha Hi. unfold hw_elem_tlv. destruct (Z.ltb_spec (ctl_protocol ctl) (protocol_version 2 0 4)); [lia|].
  unfold bind at 1. rewrite onsys_eq, Ha. unfold bind at 1, sysp. rewrite onsys_eq. unfold lift. cbn [wld].
  rewrite Hi. change (bool_decide (TlvRead = TlvRead)) with true. cbv iota. unfold bind.
  destruct (e <? 0); [|destruct (size <? _)];
    match goal with |- context [onsys (sys_free a) ?q] => destruct (onsys (sys_free a) q) as [[] p3] end; done.
Qed.

(** The buffer with the two words that the function sets itself. *)
Definition preset (tlv : list Z) : list Z := upd 1 (fun _ => 0) (upd 0 (fun _ => UINT_MAX) tlv).

Lemma preset_drop tlv : drop 2 (preset tlv) = drop 2 tlv.
Proof. destruct tlv as [|? [|]]; done. Qed.

Lemma preset_length tlv : length (preset tlv) = length tlv.
Proof. unfold preset. rewrite !length_upd. done. Qed.

Lemma preset_effect size tlv : 8 <= size -> tlv_effect size tlv (preset tlv).
Proof.
  intros Hs. split; [apply preset_length|]. destruct (int_index_words size Hs) as [Hi _].
  replace (Z.to_nat (int_index size)) with (2 + (Z.to_nat (int_index size) - 2))%nat by lia.
  rewrite <- !drop_drop, preset_drop. done.
Qed.

(** Reading, whatever the driver answers. *)
Lemma tlv_read_spec junk heap ctl id tlv size (p : proc K) :
  tlv_answers -> size <= 4 * Z.of_nat (length tlv) -> int_index size <= Z.of_nat (length heap) ->
  let '((r, tlv'), p') := snd_ctl_elem_tlv_read junk heap ctl id tlv size p in
  r <= 0 /\ tlv_effect size tlv tlv' /\ held (wld p') = held (wld p) /\
  (r = 0 -> 8 <= size /\ whole_tlv size tlv' /\ nthz 0 tlv' 0 <> UINT_MAX) /\
  (r <> 0 -> r <> - ENXIO -> drop 2 tlv' = drop 2 tlv).
Proof.
  intros Hlaw Hsize Hheap. unfold snd_ctl_elem_tlv_read.
  destruct (Z.ltb_spec size 8).
  { unfold ret, EINVAL. split; [lia|]. split; [done|]. split; [done|]. split; [lia|]. done. }
  fold (preset tlv). destruct (preset_effect size tlv) as [E3 E4]; [done|].
  unfold bind. pose proof (tlv_do_spec junk heap ctl TlvRead id (preset tlv) size p Hlaw) as H1.
  rewrite preset_length in H1. specialize (H1 ltac:(lia) Hheap).
  destruct (snd_ctl_tlv_do _ _ _ _ _ _ _ p) as [[r tlv2] p1]. destruct H1 as (Hh & Hr & [E1 E2] & Hw & Hsame).
  unfold ret. assert (He2 : tlv_effect size tlv tlv2) by (rewrite preset_length in E1; split; congruence).
  destruct (Z.leb_spec 0 r); simpl.
  - assert (r = 0) as -> by lia. destruct (Z.eqb_spec (nthz 0 tlv2 0) UINT_MAX) as [Hux|Hux].
    + split; [unfold ENXIO; lia|]. split; [done|]. split; [done|]. split; [unfold ENXIO; lia|]. intros _ Hne. done.
    + split; [lia|]. split; [done|]. split; [done|]. split; [intros _; auto|]. done.
  - split; [lia|]. split; [done|]. split; [done|]. split; [lia|].
    intros Hne _. rewrite Hsame by done. apply preset_drop.
Qed.

(** An answer that fits, copied into the buffer. *)
Lemma fitting_answer size ws tlv :
  8 <= size -> (size <= 4 * Z.of_nat (length ws)) -> size <= 4 * Z.of_nat (length tlv) -> Forall is_u32 ws ->
  nthz 0 ws 1 + 8 <= size ->
  nthz 0 (copy_bytes (nthz 0 ws 1 + 8) ws tlv) 0 = nthz 0 ws 0 /\
  forall j, 0 <= j -> byte_at (copy_bytes (nthz 0 ws 1 + 8) ws tlv) j =
    if j <? nthz 0 ws 1 + 8 then byte_at ws j else byte_at tlv j.
Proof.
  intros Hs Hl Ht Hu Hn. assert (Hw1 : 0 <= nthz 0 ws 1).
  { rewrite nthz_lookup by lia. destruct (ws !! Z.to_nat 1) as [x|] eqn:Hx; [|simpl; lia].
    apply (Forall_lookup_1 _ _ _ _ Hu Hx). }
  split; [|intros j Hj; apply copy_bytes_bytes; lia].
  rewrite (nthz_lookup 0 (copy_bytes _ _ _) 0), (nthz_lookup 0 ws 0), copy_bytes_nth by (simpl; lia). done.
Qed.

(** Reading, from the driver's answer. *)
Lemma tlv_read_answer junk heap ctl id tlv size (p p1 : proc K) n a w e ws k :
  tlv_answers -> 8 <= size <= 4 * Z.of_nat (length tlv) -> int_index size <= Z.of_nat (length heap) ->
  element_number junk ctl id p n p1 -> protocol_version 2 0 4 <= ctl_protocol ctl ->
  sys_alloc (sizeof_ctl_tlv + size) (wld p1) = (Some a, w) ->
  ioctl_tlv TlvRead (ctl_fd ctl) n size (copy_bytes size (preset tlv) (take (Z.to_nat (int_index size)) heap)) (ker w) =
    ((e, ws), k) ->
  let '(r, tlv') := (snd_ctl_elem_tlv_read junk heap ctl id tlv size p).1 in
  let len := nthz 0 ws 1 + 8 in
  (e < 0 -> r = e /\ tlv' = preset tlv) /\
  (0 <= e -> size < len -> r = - EFAULT /\ tlv' = preset tlv) /\
  (0 <= e -> len <= size ->
     r = (if nthz 0 ws 0 =? UINT_MAX then - ENXIO else 0) /\
     forall j, 0 <= j -> byte_at tlv' j = if j <? len then byte_at ws j else byte_at (preset tlv) j).
Proof.
  intros Hlaw Hsize Hheap Hn Hp Ha Hi. destruct (int_index_words size) as [Hi1 Hi2]; [lia|].
  pose proof (hw_tlv_read_eq heap ctl n (preset tlv) size p1 a w e ws k Hp Ha Hi) as Hq.
  rewrite <- (tlv_do_number junk heap ctl TlvRead id (preset tlv) size p p1 n Hn) in Hq.
  pose proof (Hlaw TlvRead (ctl_fd ctl) n size
    (copy_bytes size (preset tlv) (take (Z.to_nat (int_index size)) heap)) (ker w)) as Hans.
  rewrite Hi, copy_bytes_length, length_take in Hans. destruct Hans as [Hlen Hu]. unfold snd_ctl_elem_tlv_read.
  destruct (Z.ltb_spec size 8); [lia|]. fold (preset tlv). unfold bind.
  destruct (snd_ctl_tlv_do _ _ _ _ _ _ _ p) as [[r tlv2] p2]. cbn [fst] in Hq.
  destruct (Z.ltb_spec e 0).
  { injection Hq as -> ->. destruct (Z.leb_spec 0 e); [lia|]. simpl. split; [done|]. split; lia. }
  specialize (Hu ltac:(lia)). destruct (Z.ltb_spec size (nthz 0 ws 1 + 8)); injection Hq as -> ->.
  - simpl. split; [lia|]. split; [done|lia].
  - destruct (fitting_answer size ws (preset tlv)) as [Hw0 Hb];
      [lia|lia|rewrite preset_length; lia|done|lia|].
    change (0 <=? 0) with true. rewrite Hw0. simpl. destruct (_ =? UINT_MAX); simpl;
      (split; [lia|]; split; [lia|]; intros _ _; split; [done|exact Hb]).
Qed.

(** C31. Reading an element's TLV data never writes past the [tlv_size] bytes of the
    caller's buffer and keeps no block.  If it returns 0 the buffer starts with a type
    that the kernel wrote and the data it announces fits in the buffer; if it fails (other
    than for data without a type, -ENXIO), only the two words the function sets itself have
    changed.  Once the driver has been asked, the outcome is exactly its answer's ([ws],
    announcing [len] bytes with the two words in front): its error; -EFAULT for an answer
    that does not fit, and nothing is copied; and for one that fits, byte for byte what the
    driver wrote in the first [len] bytes and what was there in the rest. *)
Theorem tlv_read_bounded (junk : snd_ctl_elem_info_t) (heap : list Z) (ctl : snd_ctl_t)
    (id : snd_ctl_elem_id_t) (tlv : list Z) (size : Z) (p : proc K) :
  tlv_answers -> size <= 4 * Z.of_nat (length tlv) -> int_index size <= Z.of_nat (length heap) ->
  let '((r, tlv'), p') := snd_ctl_elem_tlv_read junk heap ctl id tlv size p in
  r <= 0 /\ tlv_effect size tlv tlv' /\ held (wld p') = held (wld p) /\
  (r = 0 -> 8 <= size /\ whole_tlv size tlv' /\ nthz 0 tlv' 0 <> UINT_MAX) /\
  (r <> 0 -> r <> - ENXIO -> drop 2 tlv' = drop 2 tlv) /\
  (forall n p1 a w e ws k,
     8 <= size -> element_number junk ctl id p n p1 -> protocol_version 2 0 4 <= ctl_protocol ctl ->
     sys_alloc (sizeof_ctl_tlv + size) (wld p1) = (Some a, w) ->
     ioctl_tlv TlvRead (ctl_fd ctl) n size (copy_bytes size (preset tlv) (take (Z.to_nat (int_index size)) heap)) (ker w) =
       ((e, ws), k) ->
     let len := nthz 0 ws 1 + 8 in
     (e < 0 -> r = e /\ tlv' = preset tlv) /\
     (0 <= e -> size < len -> r = - EFAULT /\ tlv' = preset tlv) /\
     (0 <= e -> len <= size ->
        r = (if nthz 0 ws 0 =? UINT_MAX then - ENXIO else 0) /\
        forall j, 0 <= j -> byte_at tlv' j = if j <? len then byte_at ws j else byte_at (preset tlv) j)).
Proof.
  intros Hlaw Hsize Hheap. pose proof (tlv_read_spec junk heap ctl id tlv size p Hlaw Hsize Hheap) as H1.
  pose proof (fun n p1 a w e ws k => tlv_read_answer junk heap ctl id tlv size p p1 n a w e ws k Hlaw) as H2.
  destruct (snd_ctl_elem_tlv_read _ _ _ _ _ _ p) as [[r tlv'] p']. destruct H1 as (H3 & H4 & H5 & H6 & H7).
  repeat (split; [assumption|]). intros. eapply H2; eauto.
Qed.
End ControlSpec.

(** ** Witnesses *)

(** A card with two elements, the first with a decibel scale; its third element appears
    when the events are first read. *)
Definition master : snd_ctl_elem_id_t := ElemId 1 IFACE_MIXER 0 0 "Master Playback Volume" 0.
Definition mute : snd_ctl_elem_id_t := ElemId 2 IFACE_MIXER 0 0 "Master Playback Switch" 0.
Definition added : snd_ctl_elem_id_t := ElemId 3 IFACE_MIXER 0 0 "PCM Playback Volume" 0.

Definition card_ids : list snd_ctl_elem_id_t := [master; mute].

(** A volume has two channels from 0 to 87, a switch two. *)
Definition toy_info (i : snd_ctl_elem_info_t) : snd_ctl_elem_info_t :=
  let volume := negb (numid (info_id i) =? 2) in
  ElemInfo (info_id i) (if volume then TYPE_INTEGER else TYPE_BOOLEAN) ACCESS_TLV_READ 2 0
    (InfoInteger 0 (if volume then 87 else 1) 1) (info_enumerated_value i) (dimen i).

#[export] Instance toy_ctl : CtlKernel Z := {
  ioctl_ctl_pversion _ := ret (0, protocol_version 2 0 7);
  ioctl_elem_list _ q :=
    let used := Z.min (el_space q) 2 in
    ret (0, ElemList (el_offset q) (el_space q) used 2
      (match el_pids q with
       | Some (a, old) => Some (a, take (Z.to_nat used) card_ids ++ drop (Z.to_nat used) old)
       | None => None
       end));
  ioctl_elem_info _ i := ret (0, toy_info i);
  ioctl_elem_add _ i := ret (0, i);
  ioctl_elem_read _ v := ret (0, v);
  ioctl_elem_write _ v := ret (0, v);
  ioctl_elem_id _ _ id := ret (0, id);
  ioctl_tlv _ _ _ _ ws := ret (0, match ws with [_; _; _; _] => [1; 8; 4294967200; 100] | _ => map u32 ws end);
  ioctl_subscribe _ n := ret (0, n);
  ioctl_next_device _ _ _ := ret (0, -1);
  read_event _ := fun k =>
    if k <? 1000 then ((72, 0, Event EVENT_ELEM MASK_ADD added), k + 1000)
    else ((-1, EAGAIN, Event EVENT_ELEM 0 zero_id), k)
}.

Lemma toy_tlv_answers : tlv_answers (K := Z).
Proof.
  intros c fd n len ws k. simpl. split.
  - destruct ws as [|? [|? [|? [|? [|]]]]]; simpl; rewrite ?length_map; done.
  - intros _. assert (Hw : Forall is_u32 (map u32 ws)).
    { apply Forall_forall. intros x (y & -> & _)%list_elem_of_fmap. apply u32_range. }
    destruct ws as [|? [|? [|? [|? [|]]]]]; try exact Hw.
    repeat constructor; unfold is_u32, UINT_MAX; lia.
Qed.

Definition toy_handle : snd_ctl_t := Ctl 5000 3 0 (protocol_version 2 0 7) 41.
Definition toy_process : proc Z := Proc (World 0 []) [] false ∅.

Lemma tlv_read_bounded_witness :
  let '((r, tlv), p) := snd_ctl_elem_tlv_read zero_info [9; 9; 9; 9] toy_handle master [7; 7; 7; 7] 16 toy_process in
  r = 0 /\ whole_tlv 16 tlv /\ held (wld p) = [] /\
  forall j, 0 <= j ->
    byte_at tlv j = if j <? 16 then byte_at [1; 8; 4294967200; 100] j else byte_at [UINT_MAX; 0; 7; 7] j.
Proof.
  pose proof (tlv_read_bounded zero_info [9; 9; 9; 9] toy_handle master [7; 7; 7; 7] 16 toy_process
    toy_tlv_answers ltac:(simpl; lia) ltac:(vm_compute; congruence)) as H.
  destruct (snd_ctl_elem_tlv_read _ _ _ _ _ _ _) as [[r tlv] p] eqn:He.
  assert (Hr : r = 0) by (vm_compute in He; congruence).
  destruct H as (_ & _ & Hh & H & _ & X).
  destruct (H Hr) as (_ & Hw & _). split; [exact Hr|]. split; [exact Hw|]. split; [exact Hh|].
  destruct (X 1 toy_process _ _ 0 [1; 8; 4294967200; 100] _ ltac:(lia) (conj eq_refl eq_refl)
    ltac:(vm_compute; congruence) eq_refl eq_refl) as (_ & _ & X3).
  exact (proj2 (X3 ltac:(lia) ltac:(vm_compute; congruence))).
Defined.
