(* ===== verification/Hcontrol.v ===== *)
(** * The high-level control interface

    src/src/hcontrol.c and src/src/hctl_macros.h: a handle keeps a doubly linked list
    of the card's elements, fills it from the card ([snd_hctl_load]) and follows the
    card's events ([snd_hctl_handle_events]).

    The elements are blocks in a store, [elems], linked by their addresses, 0 being
    NULL; the list is changed pointer by pointer, as the code does.  Callbacks belong to
    the client of the handle (the mixer): the class [HctlClient] says what calling one
    does to the whole state, with [user] the client's own data. *)

From stdpp Require Import gmap.
From S2P Require Import Prelude CInt Sys Cards Async CtlTypes Control.
#[local] Open Scope Z_scope.

(* [hctl_macros.h 27-35 struct _snd_hctl_elem] *)
Record snd_hctl_elem_t := Elem {
  elem_id : snd_ctl_elem_id_t;
  elem_hctl : Z;
  elem_callback : Z;
  elem_callback_private : Z;
  elem_prev : Z;
  elem_next : Z
}.

(* [hctl_macros.h 18-25 struct _snd_hctl] *)
Record snd_hctl_t := Hctl {
  hctl_block : Z;
  hctl_ctl : snd_ctl_t;
  hctl_callback : Z;
  hctl_callback_private : Z;
  first_elem : Z;
  last_elem : Z;
  count : Z
}.

Definition sizeof_hctl : Z := 48.
Definition sizeof_elem : Z := 112.

(** The handle, its elements, the process and the client's data. *)
Record hs (K U : Type) := HS {
  the_hctl : snd_hctl_t;
  elems : gmap Z snd_hctl_elem_t;
  hprc : proc K;
  user : U
}.
Arguments HS {K U}.
Arguments the_hctl {K U}.
Arguments elems {K U}.
Arguments hprc {K U}.
Arguments user {K U}.

(** Calling the function at an address that is not NULL. *)
Class HctlClient (K U : Type) := {
  call_hctl : Z -> Z -> Z -> io (hs K U) Z;     (* the callback, mask, element *)
  call_elem : Z -> Z -> Z -> io (hs K U) Z      (* the callback, element, mask *)
}.

(** ** Assignments *)

Definition set_elem_next (v : Z) (e : snd_hctl_elem_t) : snd_hctl_elem_t :=
  Elem (elem_id e) (elem_hctl e) (elem_callback e) (elem_callback_private e) (elem_prev e) v.

Definition set_elem_prev (v : Z) (e : snd_hctl_elem_t) : snd_hctl_elem_t :=
  Elem (elem_id e) (elem_hctl e) (elem_callback e) (elem_callback_private e) v (elem_next e).

Definition set_first (v : Z) (h : snd_hctl_t) : snd_hctl_t :=
  Hctl (hctl_block h) (hctl_ctl h) (hctl_callback h) (hctl_callback_private h) v (last_elem h) (count h).

Definition set_last (v : Z) (h : snd_hctl_t) : snd_hctl_t :=
  Hctl (hctl_block h) (hctl_ctl h) (hctl_callback h) (hctl_callback_private h) (first_elem h) v (count h).

Definition set_count (v : Z) (h : snd_hctl_t) : snd_hctl_t :=
  Hctl (hctl_block h) (hctl_ctl h) (hctl_callback h) (hctl_callback_private h)
    (first_elem h) (last_elem h) v.

Section Hctl.
Context {K U : Type} `{!Os K, !AsyncKernel K, !CardKernel K, !CtlKernel K, !HctlClient K U}.

Definition geth : io (hs K U) snd_hctl_t := fun s => (the_hctl s, s).

Definition seth (f : snd_hctl_t -> snd_hctl_t) : io (hs K U) unit :=
  fun s => (tt, HS (f (the_hctl s)) (elems s) (hprc s) (user s)).

(** [*elem]; a pointer that is NULL or dangling gives zeroes. *)
Definition zero_elem : snd_hctl_elem_t := Elem zero_id 0 0 0 0 0.

Definition gete (a : Z) : io (hs K U) snd_hctl_elem_t := fun s => (default zero_elem (elems s !! a), s).

Definition sete (a : Z) (f : snd_hctl_elem_t -> snd_hctl_elem_t) : io (hs K U) unit :=
  fun s => (tt, HS (the_hctl s) (alter f a (elems s)) (hprc s) (user s)).

Definition onhp {A} (m : io (proc K) A) : io (hs K U) A :=
  fun s => let '(a, p) := m (hprc s) in (a, HS (the_hctl s) (elems s) p (user s)).

(** [calloc(1, sizeof(struct))] filled in, or 0. *)
Definition new_elem (e : snd_hctl_elem_t) : io (hs K U) Z :=
  let* p := onhp (onsys (sys_alloc sizeof_elem)) in
  match p with
  | None => ret 0
  | Some a => fun s => (a, HS (the_hctl s) (<[a := e]> (elems s)) (hprc s) (user s))
  end.

Definition free_elem (a : Z) : io (hs K U) unit :=
  let* _ := onhp (onsys (sys_free a)) in
  fun s => (tt, HS (the_hctl s) (delete a (elems s)) (hprc s) (user s)).

(** ** Callbacks *)

(* [hcontrol.c 81-88 snd_hctl_throw_event] *)
Definition snd_hctl_throw_event (mask elem : Z) : io (hs K U) Z :=
  let* h := geth in
  if nz (hctl_callback h) then call_hctl (hctl_callback h) mask elem else ret 0.

(* [hcontrol.c 90-97 snd_hctl_elem_throw_event] *)
Definition snd_hctl_elem_throw_event (elem mask : Z) : io (hs K U) Z :=
  let* e := gete elem in
  if nz (elem_callback e) then call_elem (elem_callback e) elem mask else ret 0.

(** ** The list *)

(* [hcontrol.c 103-113 add_elem_list] *)
Definition add_elem_list (elem : Z) : io (hs K U) unit :=
  let* _ := sete elem (set_elem_next 0) in
  let* h := geth in
  let* _ := sete elem (set_elem_prev (last_elem h)) in
  let* _ := if nz (last_elem h) then sete (last_elem h) (set_elem_next elem)
            else seth (set_first elem) in
  let* _ := seth (set_last elem) in
  seth (fun h => set_count (u32 (count h + 1)) h).

(* [hcontrol.c 115-126 del_elem_list] *)
Definition del_elem_list (elem : Z) : io (hs K U) unit :=
  let* _ := seth (fun h => set_count (u32 (count h - 1)) h) in
  let* e := gete elem in
  let* _ := if nz (elem_prev e) then sete (elem_prev e) (set_elem_next (elem_next e))
            else seth (set_first (elem_next e)) in
  if nz (elem_next e) then sete (elem_next e) (set_elem_prev (elem_prev e))
  else seth (set_last (elem_prev e)).

(** The test of [snd_hctl_find_elem]. *)
(* [hcontrol.c 161-172 snd_hctl_find_elem] *)
Definition same_elem (a b : snd_ctl_elem_id_t) : bool :=
  (iface a =? iface b) && (id_index a =? id_index b) && String.eqb (id_name a) (id_name b).

(** The walk from [elem]; the number of elements in the store is enough fuel. *)
Fixpoint find_from (fuel : nat) (elem : Z) (id : snd_ctl_elem_id_t) : io (hs K U) Z :=
  match fuel with
  | O => ret 0
  | S fuel =>
      if elem =? 0 then ret 0
      else
        let* e := gete elem in
        if same_elem (elem_id e) id then ret elem else find_from fuel (elem_next e) id
  end.

(** The number of elements, as fuel for walks. *)
Definition nelems : io (hs K U) nat := fun s => (S (size (elems s)), s).

(* [hcontrol.c 161-172 snd_hctl_find_elem] *)
Definition snd_hctl_find_elem (id : snd_ctl_elem_id_t) : io (hs K U) Z :=
  let* h := geth in
  let* fuel := nelems in
  find_from fuel (first_elem h) id.

(* [hcontrol.c 128-134 snd_hctl_elem_add] *)
Definition snd_hctl_elem_add (elem : Z) : io (hs K U) Z :=
  let* e := gete elem in
  let* found := snd_hctl_find_elem (elem_id e) in
  if nz found then ret (- EBUSY)
  else
    let* _ := add_elem_list elem in
    snd_hctl_throw_event MASK_ADD elem.

(* [hcontrol.c 136-142 snd_hctl_elem_remove] *)
Definition snd_hctl_elem_remove (elem : Z) : io (hs K U) unit :=
  let* _ := del_elem_list elem in
  let* _ := snd_hctl_elem_throw_event elem MASK_REMOVE in
  free_elem elem.

Fixpoint free_loop (fuel : nat) : io (hs K U) unit :=
  match fuel with
  | O => ret tt
  | S fuel =>
      let* h := geth in
      if nz (last_elem h) then
        let* _ := snd_hctl_elem_remove (last_elem h) in free_loop fuel
      else ret tt
  end.

(* [hcontrol.c 147-152 snd_hctl_free] *)
Definition snd_hctl_free : io (hs K U) Z :=
  let* fuel := nelems in
  let* _ := free_loop fuel in
  ret 0.

(** A placeholder. *)
(* [hcontrol.c 155-159 snd_hctl_compare_fast] *)
Definition snd_hctl_compare_fast (c1 c2 : snd_hctl_elem_t) : Z := 0.

(** ** Filling the list from the card *)

Definition zero_list : snd_ctl_elem_list_t := ElemList 0 0 0 0 None.

(** [while (list.count != list.used)]: it asks again with space for the number of
    elements the card reported, as long as that number keeps changing; only the card
    ends it, so the result is [None] where the fuel is spent. *)
Fixpoint list_loop (fuel : nat) (ctl : snd_ctl_t) (l : snd_ctl_elem_list_t)
  : io (hs K U) (option (Z * snd_ctl_elem_list_t)) :=
  if el_count l =? el_used l then ret (Some (0, l))
  else
    match fuel with
    | O => ret None
    | S fuel =>
        let* '(err, l) := onhp (snd_ctl_elem_list_alloc_space l (el_count l)) in
        if err <? 0 then ret (Some (err, l))
        else
          let* '(err, l) := onhp (snd_ctl_elem_list ctl l) in
          if err <? 0 then ret (Some (err, l)) else list_loop fuel ctl l
    end.

(** One element for each entry. *)
Fixpoint create_loop (ids : list snd_ctl_elem_id_t) : io (hs K U) Z :=
  match ids with
  | [] => ret 0
  | id :: ids =>
      let* h := geth in
      let* elem := new_elem (Elem id (hctl_block h) 0 0 0 0) in
      if elem =? 0 then ret (- ENOMEM)
      else let* _ := add_elem_list elem in create_loop ids
  end.

Fixpoint throw_loop (fuel : nat) (elem : Z) : io (hs K U) unit :=
  match fuel with
  | O => ret tt
  | S fuel =>
      if elem =? 0 then ret tt
      else
        let* _ := snd_hctl_throw_event MASK_ADD elem in
        let* e := gete elem in
        throw_loop fuel (elem_next e)
  end.

(** [_end:] *)
Definition load_end (l : snd_ctl_elem_list_t) (err : Z) : io (hs K U) Z :=
  let* _ := onhp (snd_ctl_elem_list_free_space l) in
  let* _ := if err <? 0 then snd_hctl_free else ret 0 in
  ret err.

(** The [count] first entries of [pids]; the kernel filled in [used] = [count]. *)
Definition entries (l : snd_ctl_elem_list_t) : list snd_ctl_elem_id_t :=
  match el_pids l with
  | Some (_, ids) => take (Z.to_nat (el_count l)) ids
  | None => []
  end.

(* [hcontrol.c 174-211 snd_hctl_load] *)
Definition snd_hctl_load (fuel : nat) : io (hs K U) (option Z) :=
  let* h := geth in
  let ctl := hctl_ctl h in
  let* '(err, l) := onhp (snd_ctl_elem_list ctl zero_list) in
  if err <? 0 then let* r := load_end l err in ret (Some r)
  else
    let* r := list_loop fuel ctl l in
    match r with
    | None => ret None
    | Some (err, l) =>
        if err <? 0 then let* r := load_end l err in ret (Some r)
        else
          let* err := create_loop (entries l) in
          if err <? 0 then let* r := load_end l err in ret (Some r)
          else
            let* h := geth in
            let* n := nelems in
            let* _ := throw_loop n (first_elem h) in
            let* err := onhp (snd_ctl_subscribe_events ctl 1) in
            let* r := load_end l err in ret (Some r)
    end.

(** ** Following the card's events *)

(** The parts of [snd_hctl_handle_event]: a new element, and a change of one. *)
(* [hcontrol.c 226-235 snd_hctl_handle_event] *)
Definition add_event (event : snd_ctl_event_t) : io (hs K U) Z :=
  if nz (Z.land (ev_mask event) MASK_ADD) then
    let* h := geth in
    let* elem := new_elem (Elem (ev_id event) (hctl_block h) 0 0 0 0) in
    if elem =? 0 then ret (- ENOMEM) else snd_hctl_elem_add elem
  else ret 0.

(* [hcontrol.c 236-247 snd_hctl_handle_event] *)
Definition change_event (event : snd_ctl_event_t) : io (hs K U) Z :=
  let mask := Z.land (ev_mask event) (Z.lor MASK_VALUE MASK_INFO) in
  if nz mask then
    let* elem := snd_hctl_find_elem (ev_id event) in
    if elem =? 0 then ret (- ENOENT)
    else
      let* err := snd_hctl_elem_throw_event elem mask in
      if err <? 0 then ret err else ret 0
  else ret 0.

(* [hcontrol.c 213-249 snd_hctl_handle_event] *)
Definition snd_hctl_handle_event (event : snd_ctl_event_t) : io (hs K U) Z :=
  if negb (ev_type event =? EVENT_ELEM) then ret 0
  else if ev_mask event =? MASK_REMOVE then
    let* elem := snd_hctl_find_elem (ev_id event) in
    if elem =? 0 then ret (- ENOENT)
    else let* _ := snd_hctl_elem_remove elem in ret 0
  else
    let* err := add_event event in
    if err <? 0 then ret err else change_event event.

(** [None] where the card still has events and the fuel is spent. *)
Fixpoint events_loop (fuel : nat) (count : Z) : io (hs K U) (option Z) :=
  match fuel with
  | O => ret None
  | S fuel =>
      let* h := geth in
      let* '(res, event) := onhp (snd_ctl_read (hctl_ctl h)) in
      if res =? 0 then ret (Some (s32 count))
      else if res =? - EAGAIN then ret (Some (s32 count))
      else if res <? 0 then ret (Some res)
      else
        let* res := snd_hctl_handle_event event in
        if res <? 0 then ret (Some res) else events_loop fuel (u32 (count + 1))
  end.

(* [hcontrol.c 251-268 snd_hctl_handle_events] *)
Definition snd_hctl_handle_events (fuel : nat) : io (hs K U) (option Z) := events_loop fuel 0.

(** [do { err = snd_ctl_wait(...); } while (err == -EINTR);] *)
(* [hctl_macros.h 48-55 snd_hctl_wait] *)
Fixpoint snd_hctl_wait (fuel : nat) (timeout : Z) : io (hs K U) (option Z) :=
  match fuel with
  | O => ret None
  | S n =>
      let* h := geth in
      let* err := onhp (snd_ctl_wait fuel (hctl_ctl h) timeout) in
      match err with
      | None => ret None
      | Some err => if err =? - EINTR then snd_hctl_wait n timeout else ret (Some err)
      end
  end.

(** ** Closing *)

(** The elements, the control handle, the handle itself. *)
(* [hcontrol.c 69-75 snd_hctl_close] *)
Definition snd_hctl_close : io (hs K U) Z :=
  let* _ := snd_hctl_free in
  let* h := geth in
  let* _ := onhp (snd_ctl_close (hctl_ctl h)) in
  let* _ := onhp (onsys (sys_free (hctl_block h))) in
  ret 0.

(** ** Elements and the handle's fields *)

(* [hctl_macros.h 94-97 snd_hctl_set_callback] *)
Definition snd_hctl_set_callback (callback : Z) : io (hs K U) unit :=
  seth (fun h => Hctl (hctl_block h) (hctl_ctl h) callback (hctl_callback_private h)
    (first_elem h) (last_elem h) (count h)).

(* [hctl_macros.h 100-103 snd_hctl_set_callback_private] *)
Definition snd_hctl_set_callback_private (callback_private : Z) : io (hs K U) unit :=
  seth (fun h => Hctl (hctl_block h) (hctl_ctl h) (hctl_callback h) callback_private
    (first_elem h) (last_elem h) (count h)).

(* [hctl_macros.h 106-109 snd_hctl_get_callback_private] *)
Definition snd_hctl_get_callback_private : io (hs K U) Z :=
  let* h := geth in ret (hctl_callback_private h).

(* [hctl_macros.h 112-115 snd_hctl_get_count] *)
Definition snd_hctl_get_count : io (hs K U) Z := let* h := geth in ret (count h).

(* [hctl_macros.h 253-256 snd_hctl_first_elem] *)
Definition snd_hctl_first_elem : io (hs K U) Z := let* h := geth in ret (first_elem h).

(* [hctl_macros.h 259-262 snd_hctl_last_elem] *)
Definition snd_hctl_last_elem : io (hs K U) Z := let* h := geth in ret (last_elem h).

(* [hctl_macros.h 265-268 snd_hctl_elem_next] *)
Definition snd_hctl_elem_next (elem : Z) : io (hs K U) Z :=
  let* e := gete elem in ret (elem_next e).

(* [hctl_macros.h 271-274 snd_hctl_elem_prev] *)
Definition snd_hctl_elem_prev (elem : Z) : io (hs K U) Z :=
  let* e := gete elem in ret (elem_prev e).

(* [hctl_macros.h 193-196 snd_hctl_elem_get_id] *)
Definition snd_hctl_elem_get_id (elem : Z) : io (hs K U) snd_ctl_elem_id_t :=
  let* e := gete elem in ret (elem_id e).

(* [hctl_macros.h 235-239 snd_hctl_elem_set_callback] *)
Definition snd_hctl_elem_set_callback (obj val : Z) : io (hs K U) unit :=
  sete obj (fun e => Elem (elem_id e) (elem_hctl e) val (elem_callback_private e)
    (elem_prev e) (elem_next e)).

(* [hctl_macros.h 242-245 snd_hctl_elem_set_callback_private] *)
Definition snd_hctl_elem_set_callback_private (obj val : Z) : io (hs K U) unit :=
  sete obj (fun e => Elem (elem_id e) (elem_hctl e) (elem_callback e) val
    (elem_prev e) (elem_next e)).

(* [hctl_macros.h 248-251 snd_hctl_elem_get_callback_private] *)
Definition snd_hctl_elem_get_callback_private (obj : Z) : io (hs K U) Z :=
  let* e := gete obj in ret (elem_callback_private e).

(** An element's handle is the one of the state ([hctl_ok] of HcontrolSpec.v). *)
Definition elem_ctl : io (hs K U) snd_ctl_t := let* h := geth in ret (hctl_ctl h).

(** The structure with the element's id. *)
Definition set_info_id (id : snd_ctl_elem_id_t) (i : snd_ctl_elem_info_t) : snd_ctl_elem_info_t :=
  ElemInfo id (info_type i) (info_access i) (info_count i) (info_owner i)
    (info_integer_value i) (info_enumerated_value i) (dimen i).

Definition set_value_id (id : snd_ctl_elem_id_t) (v : snd_ctl_elem_value_t) : snd_ctl_elem_value_t :=
  ElemValue id (val_integer v) (val_enumerated v) (val_bytes v) (val_iec958 v).

(* [hctl_macros.h 124-128 snd_hctl_elem_info] *)
Definition snd_hctl_elem_info (elem : Z) (info : snd_ctl_elem_info_t)
  : io (hs K U) (Z * snd_ctl_elem_info_t) :=
  let* e := gete elem in
  let* ctl := elem_ctl in
  onhp (snd_ctl_elem_info ctl (set_info_id (elem_id e) info)).

(* [hctl_macros.h 131-135 snd_hctl_elem_read] *)
Definition snd_hctl_elem_read (elem : Z) (value : snd_ctl_elem_value_t)
  : io (hs K U) (Z * snd_ctl_elem_value_t) :=
  let* e := gete elem in
  let* ctl := elem_ctl in
  onhp (snd_ctl_elem_read ctl (set_value_id (elem_id e) value)).

(* [hctl_macros.h 138-142 snd_hctl_elem_write] *)
Definition snd_hctl_elem_write (elem : Z) (value : snd_ctl_elem_value_t)
  : io (hs K U) (Z * snd_ctl_elem_value_t) :=
  let* e := gete elem in
  let* ctl := elem_ctl in
  onhp (snd_ctl_elem_write ctl (set_value_id (elem_id e) value)).

(* [hctl_macros.h 146-150 snd_hctl_elem_tlv_read] *)
Definition snd_hctl_elem_tlv_read (junk : snd_ctl_elem_info_t) (heap : list Z) (elem : Z)
  (tlv : list Z) (tlv_size : Z) : io (hs K U) (Z * list Z) :=
  let* e := gete elem in
  let* ctl := elem_ctl in
  onhp (snd_ctl_elem_tlv_read junk heap ctl (elem_id e) tlv tlv_size).

(* [hctl_macros.h 153-156 snd_hctl_elem_tlv_write] *)
Definition snd_hctl_elem_tlv_write (junk : snd_ctl_elem_info_t) (heap : list Z) (elem : Z)
  (tlv : list Z) : io (hs K U) Z :=
  let* e := gete elem in
  let* ctl := elem_ctl in
  onhp (snd_ctl_elem_tlv_write junk heap ctl (elem_id e) tlv).

(* [hctl_macros.h 159-162 snd_hctl_elem_tlv_command] *)
Definition snd_hctl_elem_tlv_command (junk : snd_ctl_elem_info_t) (heap : list Z) (elem : Z)
  (tlv : list Z) : io (hs K U) Z :=
  let* e := gete elem in
  let* ctl := elem_ctl in
  onhp (snd_ctl_elem_tlv_command junk heap ctl (elem_id e) tlv).

(* [hctl_macros.h 64-67 snd_hctl_nonblock] *)
Definition snd_hctl_nonblock (nonblock : Z) : io (hs K U) Z :=
  let* h := geth in onhp (snd_ctl_nonblock (hctl_ctl h) nonblock).
End Hctl.

(** ** Opening *)

Section HctlOpen.
Context {K : Type} `{!Os K, !AsyncKernel K, !CardKernel K, !CtlKernel K}.

(* [hcontrol.c 58-67 snd_hctl_open_ctl] *)
Definition snd_hctl_open_ctl (ctl : snd_ctl_t) : io (proc K) (Z * option snd_hctl_t) :=
  let* p := onsys (sys_alloc sizeof_hctl) in
  ret (match p with
       | None => (- ENOMEM, None)
       | Some a => (0, Some (Hctl a ctl 0 0 0 0 0))
       end).

(* [hcontrol.c 41-56 snd_hctl_open] *)
Definition snd_hctl_open (name : string) (mode : Z) : io (proc K) (Z * option snd_hctl_t) :=
  let* '(err, ctl) := snd_ctl_open name mode in
  match ctl with
  | None => ret (err, None)
  | Some ctl =>
      let* '(err, hctl) := snd_hctl_open_ctl ctl in
      if err <? 0 then let* _ := snd_ctl_close ctl in ret (err, hctl)
      else ret (err, hctl)
  end.
End HctlOpen.
