(* ===== verification/HcontrolSpec.v ===== *)
(** * The element list and the card's events

    The theorems about Hcontrol.v.  [hctl_ok s l] says that the pointers of the state
    [s] form the doubly linked list of the addresses [l], with the count and the blocks
    right; [ids s l] is what the client sees: the elements' names in order.  Loading,
    events and closing are shown to do to that list what [event_ids] says, whatever a
    client's callbacks do within their contract, the class [HctlClientLaws]. *)

From stdpp Require Import gmap.
From S2P Require Import Prelude CInt Sys Cards Async CtlTypes Control ControlSpec Hcontrol Toy.
#[local] Open Scope Z_scope.

(** ** Linked segments *)

Definition hdz (n : Z) (l : list Z) : Z := match l with [] => n | a :: _ => a end.

Fixpoint lastz (p : Z) (l : list Z) : Z := match l with [] => p | a :: l => lastz a l end.

(** The elements at [l] are linked, between [p] and [n]. *)
Fixpoint seg (m : gmap Z snd_hctl_elem_t) (p : Z) (l : list Z) (n : Z) : Prop :=
  match l with
  | [] => True
  | a :: l =>
      (exists e, m !! a = Some e /\ elem_prev e = p /\ elem_next e = hdz n l) /\ seg m a l n
  end.

Lemma seg_app m p l1 l2 n :
  seg m p (l1 ++ l2) n <-> seg m p l1 (hdz n l2) /\ seg m (lastz p l1) l2 n.
Proof.
  revert p. induction l1 as [|a l1 IH]; intros p; simpl; [tauto|].
  rewrite IH. assert (H : hdz n (l1 ++ l2) = hdz (hdz n l2) l1) by (destruct l1; done).
  rewrite H. tauto.
Qed.

Lemma lastz_app p l1 l2 : lastz p (l1 ++ l2) = lastz (lastz p l1) l2.
Proof. revert p. induction l1; simpl; auto. Qed.

Lemma lastz_in p l : l <> [] -> lastz p l ∈ l.
Proof.
  revert p. induction l as [|a l IH]; intros p H; [done|]. simpl.
  destruct l as [|b l]; [left|]. right. apply IH. done.
Qed.

(** What a walk reads of an element. *)
Definition link (e : snd_hctl_elem_t) : Z * Z := (elem_prev e, elem_next e).

Lemma seg_ext m m' p l n :
  (forall a, a ∈ l -> link <$> m' !! a = link <$> m !! a) -> seg m p l n -> seg m' p l n.
Proof.
  revert p. induction l as [|a l IH]; intros p Hm; simpl; [done|].
  intros [(e & He & Hp & Hn) Hs]. split.
  - specialize (Hm a ltac:(left)). rewrite He in Hm. simpl in Hm.
    destruct (m' !! a) as [e'|]; [|done]. exists e'. unfold link in Hm. simpl in Hm.
    injection Hm as H1 H2. rewrite H1, H2. done.
  - apply IH; [|done]. intros b Hb. apply Hm. right. done.
Qed.

Lemma seg_alter m f b p l n : b ∉ l -> seg m p l n -> seg (alter f b m) p l n.
Proof.
  intros Hb. apply seg_ext. intros a Ha. rewrite lookup_alter_ne; [done|]. congruence.
Qed.

Lemma seg_set_next m p l n n' :
  l <> [] -> NoDup l -> seg m p l n -> seg (alter (set_elem_next n') (lastz 0 l) m) p l n'.
Proof.
  generalize 0 at 1 as d. revert p. induction l as [|a l IH]; intros p d Hne Hnd Hs; [done|].
  apply NoDup_cons in Hnd as [Ha Hnd]. simpl in *. destruct Hs as [(e & He & Hp & Hn) Hs].
  destruct l as [|b l]; simpl.
  - split; [|done]. exists (set_elem_next n' e). rewrite lookup_alter_eq, He. done.
  - split.
    + exists e. rewrite lookup_alter_ne; [done|].
      intros Heq. apply Ha. rewrite <- Heq. apply (lastz_in 0 (b :: l)). done.
    + apply (IH a a); done.
Qed.

Lemma seg_set_prev m p p' b l n :
  b ∉ l -> seg m p (b :: l) n -> seg (alter (set_elem_prev p') b m) p' (b :: l) n.
Proof.
  intros Hb [(e & He & Hp & Hn) Hs]. split.
  - exists (set_elem_prev p' e). rewrite lookup_alter_eq, He. done.
  - apply seg_alter; done.
Qed.

Lemma seg_in m p l n a : seg m p l n -> a ∈ l -> is_Some (m !! a).
Proof.
  revert p. induction l as [|b l IH]; intros p Hs Ha; [inversion Ha|].
  destruct Hs as [(e & He & _) Hs]. apply elem_of_cons in Ha as [->|Ha]; eauto.
Qed.

(** ** The contract with the client *)

Definition ledger {K U} (s : hs K U) : list resource := held (wld (hprc s)).

(** What a callback may not change of an element. *)
Definition fixed (e : snd_hctl_elem_t) : snd_ctl_elem_id_t * Z * (Z * Z) :=
  (elem_id e, elem_hctl e, link e).

(** The step from [s] to [s'] leaves the handle, the list and other people's resources
    alone; [cheld] is what the client holds and [cok] what it relies on of its data. *)
Record client_keeps {K U} (cheld : U -> list resource) (cok : U -> Prop) (s s' : hs K U) : Prop := ClientKeeps {
  keep_hctl : the_hctl s' = the_hctl s;
  keep_elems : fixed <$> elems s' = fixed <$> elems s;
  keep_ptrs : ptrs (hprc s') = ptrs (hprc s);
  keep_list : async_list (hprc s') = async_list (hprc s);
  keep_held rest : cok (user s) -> ledger s ≡ₚ cheld (user s) ++ rest ->
    cok (user s') /\ ledger s' ≡ₚ cheld (user s') ++ rest
}.

Class HctlClientLaws (K U : Type) `{!HctlClient K U} := {
  client_held : U -> list resource;
  client_ok : U -> Prop;
  call_hctl_law cb mask elem s : client_keeps client_held client_ok s (call_hctl cb mask elem s).2;
  call_elem_law cb elem mask s : client_keeps client_held client_ok s (call_elem cb elem mask s).2
}.

#[export] Instance client_keeps_preorder {K U} (cheld : U -> list resource) (cok : U -> Prop) :
  PreOrder (@client_keeps K U cheld cok).
Proof.
  split.
  - intros s. constructor; auto.
  - intros a b c [A1 A2 A3 A4 A5] [B1 B2 B3 B4 B5]. constructor; try congruence.
    intros rest Hk Hl. destruct (A5 rest Hk Hl). auto.
Qed.

(** ** The invariant *)

Section Spec.
Context {K U : Type} `{!Os K, !OsLaws K, !AsyncKernel K, !CardKernel K, !CtlKernel K}.
Context `{!HctlClient K U, !HctlClientLaws K U}.

#[local] Abbreviation state := (hs K U).

(** What a handle is known by all its life: its block, its control handle, and the
    pointers of the process (to asynchronous handlers). *)
Definition identity (s : state) : Z * snd_ctl_t * gmap Z Z :=
  (hctl_block (the_hctl s), hctl_ctl (the_hctl s), ptrs (hprc s)).

Context (me : Z * snd_ctl_t * gmap Z Z).

Definition id_at (s : state) (a : Z) : snd_ctl_elem_id_t := elem_id (default zero_elem (elems s !! a)).

(** The names of the elements, in the order of the list. *)
Definition ids (s : state) (l : list Z) : list snd_ctl_elem_id_t := id_at s <$> l.

(** [frame] is everything the process holds besides the listed elements and what the
    client holds. *)
Record hctl_ok (s : state) (l : list Z) (frame : list resource) : Prop := HctlOk {
  ok_first : first_elem (the_hctl s) = hdz 0 l;
  ok_last : last_elem (the_hctl s) = lastz 0 l;
  ok_count : count (the_hctl s) = u32 (Z.of_nat (length l));
  ok_seg : seg (elems s) 0 l 0;
  ok_nodup : NoDup l;
  ok_pos a : a ∈ l -> 0 < a;
  ok_owner a e : a ∈ l -> elems s !! a = Some e -> elem_hctl e = hctl_block (the_hctl s);
  ok_held : ledger s ≡ₚ (RMem <$> l) ++ client_held (user s) ++ frame;
  ok_client : client_ok (user s);
  ok_me : identity s = me
}.

Lemma fixed_lookup (s s' : state) a :
  fixed <$> elems s' = fixed <$> elems s -> fixed <$> elems s' !! a = fixed <$> elems s !! a.
Proof. intros H. rewrite <- !lookup_fmap, H. done. Qed.

Lemma keeps_ids s s' l :
  fixed <$> elems s' = fixed <$> elems s -> ids s' l = ids s l.
Proof.
  intros H. apply list_fmap_ext. intros _ a _. unfold id_at.
  pose proof (fixed_lookup s s' a H) as Ha.
  destruct (elems s' !! a), (elems s !! a); try done. simpl in *. unfold fixed in Ha. congruence.
Qed.

(** A step within the contract keeps the invariant and the names. *)
Lemma keeps_ok s s' l frame :
  client_keeps client_held client_ok s s' -> hctl_ok s l frame -> hctl_ok s' l frame /\ ids s' l = ids s l.
Proof.
  intros [H1 H2 HP _ H5] [A1 A2 A3 A4 A5 A6 A7 A9 AC AM]. split; [|apply keeps_ids; done].
  assert (Hl : forall a, fixed <$> elems s' !! a = fixed <$> elems s !! a)
    by (intros; apply fixed_lookup; done).
  destruct (H5 ((RMem <$> l) ++ frame) AC) as [HC HL].
  { rewrite A9. apply Permutation_app_swap_app. }
  constructor; rewrite ?H1; auto.
  - apply (seg_ext (elems s)); [|done]. intros a Ha. specialize (Hl a).
    destruct (elems s' !! a), (elems s !! a); try done. simpl in *. unfold fixed in Hl. congruence.
  - intros a e Ha He. specialize (Hl a). rewrite He in Hl.
    destruct (elems s !! a) as [e0|] eqn:He0; [|done]. rewrite <- (A7 a e0 Ha He0).
    simpl in Hl. unfold fixed in Hl. congruence.
  - rewrite Permutation_app_swap_app. exact HL.
  - unfold identity in *. rewrite H1, HP. done.
Qed.

Lemma hctl_ok_frame s l frame frame' : hctl_ok s l frame -> frame ≡ₚ frame' -> hctl_ok s l frame'.
Proof.
  intros [A1 A2 A3 A4 A5 A6 A7 A9 AC AM] H. constructor; try done. rewrite A9, H. done.
Qed.

Lemma throw_keeps mask a s : client_keeps client_held client_ok s (snd_hctl_throw_event mask a s).2.
Proof.
  unfold snd_hctl_throw_event, bind, geth. destruct (nz _); [apply call_hctl_law|done].
Qed.

Lemma elem_throw_keeps mask a s : client_keeps client_held client_ok s (snd_hctl_elem_throw_event a mask s).2.
Proof.
  unfold snd_hctl_elem_throw_event, bind, gete. destruct (nz _); [apply call_elem_law|done].
Qed.

(** ** The list's primitives *)

(** The names of the elements are not changed by relinking. *)
Lemma relink_ids (s s' : state) l :
  (forall a, elem_id <$> elems s' !! a = elem_id <$> elems s !! a) -> ids s' l = ids s l.
Proof.
  intros H. apply list_fmap_ext. intros _ a _. unfold id_at. specialize (H a).
  destruct (elems s' !! a), (elems s !! a); simpl in *; congruence.
Qed.

(** Altering a field a projection [g] does not read. *)
Lemma alter_proj {A} (g : snd_hctl_elem_t -> A) f b (m : gmap Z snd_hctl_elem_t) a :
  (forall e, g (f e) = g e) -> g <$> alter f b m !! a = g <$> m !! a.
Proof.
  intros Hg. destruct (decide (a = b)) as [->|Hne].
  - rewrite lookup_alter_eq. destruct (m !! b); simpl; [rewrite Hg|]; done.
  - rewrite lookup_alter_ne by done. done.
Qed.

Lemma release_ne r x l : x <> r -> x ∈ l -> x ∈ release r l.
Proof.
  intros Hne. induction l as [|y l IH]; [done|]. simpl. intros [->|Hin]%elem_of_cons.
  - rewrite decide_False by congruence. left.
  - destruct (decide (y = r)); [done|]. right. auto.
Qed.

Definition add_store (a last : Z) (m : gmap Z snd_hctl_elem_t) : gmap Z snd_hctl_elem_t :=
  let m := alter (set_elem_prev last) a (alter (set_elem_next 0) a m) in
  if nz last then alter (set_elem_next a) last m else m.

Lemma add_elem_list_eq a (s : state) :
  add_elem_list a s =
  (tt, HS (let h := the_hctl s in
           Hctl (hctl_block h) (hctl_ctl h) (hctl_callback h) (hctl_callback_private h)
             (if nz (last_elem h) then first_elem h else a) a (u32 (count h + 1)))
          (add_store a (last_elem (the_hctl s)) (elems s)) (hprc s) (user s)).
Proof.
  unfold add_elem_list, add_store, bind, sete, seth, geth. simpl.
  destruct (nz (last_elem (the_hctl s))); done.
Qed.

Lemma add_store_proj {A} (g : snd_hctl_elem_t -> A) a last m b :
  (forall v e, g (set_elem_prev v e) = g e) -> (forall v e, g (set_elem_next v e) = g e) ->
  g <$> add_store a last m !! b = g <$> m !! b.
Proof.
  intros H1 H2. unfold add_store. destruct (nz last); rewrite ?alter_proj; auto.
Qed.

Lemma add_store_seg a l m :
  seg m 0 l 0 -> NoDup l -> (forall b, b ∈ l -> 0 < b) -> a ∉ l -> is_Some (m !! a) ->
  seg (add_store a (lastz 0 l) m) 0 (l ++ [a]) 0.
Proof.
  intros Hs Hnd Hpos Ha [e He]. unfold add_store.
  set (m1 := alter _ a (alter _ a m)).
  assert (H1 : seg m1 0 l 0) by (apply seg_alter; [done|apply seg_alter; done]).
  assert (H2 : exists e, m1 !! a = Some e /\ elem_prev e = lastz 0 l /\ elem_next e = 0).
  { unfold m1. rewrite !lookup_alter_eq, He. simpl. eauto. }
  apply seg_app. destruct l as [|b l]; [simpl; auto|].
  assert (Hin : lastz 0 (b :: l) ∈ b :: l) by (apply lastz_in; done).
  rewrite (proj2 (nz_true _)) by (specialize (Hpos _ Hin); lia). split.
  - apply (seg_set_next _ _ _ 0); done.
  - apply seg_alter; [|simpl; auto]. intros Heq%list_elem_of_singleton. congruence.
Qed.

(** A new element, not yet in the list. *)
Lemma add_elem_list_spec s l frame a e :
  hctl_ok s l (RMem a :: frame) -> elems s !! a = Some e -> a ∉ l -> 0 < a ->
  elem_hctl e = hctl_block (the_hctl s) ->
  let s' := (add_elem_list a s).2 in
  hctl_ok s' (l ++ [a]) frame /\ ids s' (l ++ [a]) = ids s l ++ [elem_id e].
Proof.
  intros [A1 A2 A3 A4 A5 A6 A7 A9 AC AM] He Ha Hpos Hown. rewrite add_elem_list_eq. cbn zeta.
  rewrite A2. split.
  - constructor; simpl.
    + rewrite A1. destruct l as [|b l]; [done|]. rewrite (proj2 (nz_true _)); [done|].
      assert (0 < lastz 0 (b :: l)) by (apply A6, lastz_in; done). lia.
    + rewrite lastz_app. done.
    + rewrite A3, length_app. simpl. unfold u32. rewrite Zplus_mod_idemp_l. f_equal. lia.
    + apply add_store_seg; eauto.
    + apply NoDup_app. split; [done|]. split; [|apply NoDup_singleton].
      intros b Hb Hb2%list_elem_of_singleton. congruence.
    + intros b [Hb| ->%list_elem_of_singleton]%elem_of_app; auto.
    + intros b e' Hb He'. pose proof (add_store_proj elem_hctl a (lastz 0 l) (elems s) b) as Hp.
      rewrite He' in Hp. simpl in Hp. specialize (Hp ltac:(done) ltac:(done)).
      destruct (elems s !! b) as [e0|] eqn:He0; [|done]. simpl in Hp. injection Hp as ->.
      apply elem_of_app in Hb as [Hb| ->%list_elem_of_singleton]; [eauto|congruence].
    + unfold ledger in *. simpl. rewrite A9, fmap_app. simpl. rewrite <- (assoc_L (++)). simpl.
      apply Permutation_app_head. symmetry. apply Permutation_middle.
    + done.
    + done.
  - unfold ids. rewrite fmap_app. simpl. f_equal.
    + apply relink_ids. intros b. simpl. apply add_store_proj; done.
    + unfold id_at. simpl. pose proof (add_store_proj elem_id a (lastz 0 l) (elems s) a) as Hp.
      rewrite He in Hp. specialize (Hp ltac:(done) ltac:(done)).
      destruct (add_store _ _ _ !! a); simpl in *; congruence.
Qed.

Definition del_store (e : snd_hctl_elem_t) (m : gmap Z snd_hctl_elem_t) : gmap Z snd_hctl_elem_t :=
  let m := if nz (elem_prev e) then alter (set_elem_next (elem_next e)) (elem_prev e) m else m in
  if nz (elem_next e) then alter (set_elem_prev (elem_prev e)) (elem_next e) m else m.

Lemma del_elem_list_eq a e (s : state) :
  elems s !! a = Some e ->
  del_elem_list a s =
  (tt, HS (let h := the_hctl s in
           Hctl (hctl_block h) (hctl_ctl h) (hctl_callback h) (hctl_callback_private h)
             (if nz (elem_prev e) then first_elem h else elem_next e)
             (if nz (elem_next e) then last_elem h else elem_prev e) (u32 (count h - 1)))
          (del_store e (elems s)) (hprc s) (user s)).
Proof.
  intros He. unfold del_elem_list, del_store, bind, sete, seth, gete. simpl. rewrite He. simpl.
  destruct (nz (elem_prev e)), (nz (elem_next e)); done.
Qed.

Lemma del_store_proj {A} (g : snd_hctl_elem_t -> A) e m b :
  (forall v e, g (set_elem_prev v e) = g e) -> (forall v e, g (set_elem_next v e) = g e) ->
  g <$> del_store e m !! b = g <$> m !! b.
Proof.
  intros H1 H2. unfold del_store.
  destruct (nz (elem_prev e)), (nz (elem_next e)); rewrite ?alter_proj; auto.
Qed.

Lemma nz_link l d : (forall b, b ∈ l -> 0 < b) -> d = lastz 0 l \/ d = hdz 0 l ->
  (nz d = false /\ l = [] /\ d = 0) \/ (nz d = true /\ l <> [] /\ d ∈ l).
Proof.
  intros Hpos Hd. destruct l as [|b l].
  - left. destruct Hd as [-> | ->]; done.
  - right. assert (Hin : d ∈ b :: l) by (destruct Hd as [-> | ->]; [apply lastz_in; done|left]).
    specialize (Hpos _ Hin). rewrite nz_true. repeat split; auto. lia.
Qed.

Lemma del_store_seg m l1 a l2 e :
  seg m 0 (l1 ++ a :: l2) 0 -> NoDup (l1 ++ a :: l2) -> (forall b, b ∈ l1 ++ a :: l2 -> 0 < b) ->
  m !! a = Some e -> seg (del_store e m) 0 (l1 ++ l2) 0.
Proof.
  intros Hs Hnd Hpos He. apply seg_app in Hs as [Hs1 [(e0 & He0 & Hp & Hn) Hs2]].
  rewrite He in He0. injection He0 as <-. unfold del_store.
  apply NoDup_app in Hnd as (Hnd1 & Hdis & Hnd2). apply NoDup_cons in Hnd2 as [Ha2 Hnd2].
  assert (Hp1 : forall b, b ∈ l1 -> 0 < b) by set_solver.
  assert (Hp2 : forall b, b ∈ l2 -> 0 < b) by set_solver.
  assert (Hd1 : forall b, b ∈ l1 -> b ∉ l2) by set_solver.
  set (m1 := if nz (elem_prev e) then _ else m).
  assert (H1 : seg m1 0 l1 (elem_next e) /\ seg m1 a l2 0).
  { unfold m1. destruct (nz_link l1 (elem_prev e) Hp1 (or_introl Hp)) as [(-> & -> & _)|(-> & Hne & Hin)].
    - split; done.
    - rewrite Hp. split; [apply (seg_set_next _ _ _ a); done|].
      apply seg_alter; [|done]. rewrite <- Hp. auto. }
  destruct H1 as [H1 H2]. apply seg_app. rewrite Hn in *.
  destruct (nz_link l2 (elem_next e) Hp2 (or_intror Hn)) as [(Hz & -> & H0)|(Hz & Hne & Hin)];
    rewrite Hn in Hz; rewrite Hz; [done|].
  destruct l2 as [|b l2]; [done|]. simpl hdz in *. apply NoDup_cons in Hnd2 as [Hb _]. split.
  - apply seg_alter; [|done]. intros Hb1. apply (Hd1 b Hb1). left.
  - rewrite <- Hp. apply (seg_set_prev _ a); done.
Qed.

(** An element taken out of the list; its block is still held. *)
Lemma del_elem_list_spec s l1 a l2 frame :
  hctl_ok s (l1 ++ a :: l2) frame ->
  let s' := (del_elem_list a s).2 in
  hctl_ok s' (l1 ++ l2) (RMem a :: frame) /\ ids s' (l1 ++ l2) = ids s (l1 ++ l2) /\
  elem_callback <$> elems s' !! a = elem_callback <$> elems s !! a /\ user s' = user s.
Proof.
  intros [A1 A2 A3 A4 A5 A6 A7 A9 AC AM].
  destruct (seg_in _ _ _ _ a A4) as [e He]; [set_solver|].
  assert (Hsub : forall b, b ∈ l1 ++ l2 -> b ∈ l1 ++ a :: l2).
  { intros b. rewrite !elem_of_app, elem_of_cons. tauto. }
  assert (Hseg : seg (del_store e (elems s)) 0 (l1 ++ l2) 0) by (apply (del_store_seg _ _ a); done).
  pose proof A4 as [_ [(e0 & He0 & Hp & Hn) _]]%seg_app.
  rewrite He in He0. injection He0 as <-.
  assert (Hnd : NoDup (l1 ++ l2)).
  { apply NoDup_app in A5 as (H1 & H2 & H3). apply NoDup_cons in H3 as [H3 H4].
    apply NoDup_app. split; [done|]. split; [|done]. intros b Hb Hb2. apply (H2 b Hb). right. done. }
  rewrite (del_elem_list_eq a e) by done. cbn zeta. split; [|split; [|split; [|done]]].
  - constructor; simpl; try done.
    + rewrite A1. destruct (nz_link l1 (elem_prev e)) as [(-> & -> & _)|(-> & Hne & _)];
        [intros; apply A6; set_solver|auto|done|]. destruct l1; done.
    + rewrite A2. destruct (nz_link l2 (elem_next e)) as [(-> & -> & _)|(-> & Hne & _)];
        [intros; apply A6; set_solver|auto|rewrite app_nil_r; done|].
      rewrite !lastz_app. destruct l2; done.
    + rewrite A3, !length_app. simpl. unfold u32. rewrite Zminus_mod_idemp_l. f_equal. lia.
    + intros b Hb. auto.
    + intros b e' Hb He'. pose proof (del_store_proj elem_hctl e (elems s) b) as Hq.
      rewrite He' in Hq. specialize (Hq ltac:(done) ltac:(done)).
      destruct (elems s !! b) as [e0|] eqn:He0; [|done]. simpl in Hq. injection Hq as ->.
      apply (A7 b e0); [auto|done].
    + unfold ledger in *. simpl. rewrite A9, !fmap_app, !(assoc_L (++)). simpl.
      rewrite <- !Permutation_middle. simpl. done.
  - apply relink_ids. intros b. simpl. apply del_store_proj; done.
  - simpl. apply del_store_proj; done.
Qed.

(** Giving back a block that is not in the list. *)
Lemma free_elem_spec s l a frame :
  hctl_ok s l (RMem a :: frame) -> a ∉ l ->
  let s' := (free_elem a s).2 in hctl_ok s' l frame /\ ids s' l = ids s l.
Proof.
  intros [A1 A2 A3 A4 A5 A6 A7 A9 AC AM] Ha. cbn zeta.
  assert (Hl : forall b, b ∈ l -> delete a (elems s) !! b = elems s !! b).
  { intros b Hb. apply lookup_delete_ne. congruence. }
  split.
  - constructor; simpl; try done.
    + apply (seg_ext (elems s)); [|done]. intros b Hb. rewrite Hl; done.
    + intros b e Hb. rewrite Hl by done. apply A7. done.
    + unfold ledger in *. simpl. rewrite A9, !(assoc_L (++)), <- Permutation_middle, release_head. done.
  - apply list_fmap_ext. intros i b Hi. unfold id_at. simpl. rewrite Hl; [done|].
    apply list_elem_of_lookup_2 in Hi. done.
Qed.

(** Removing an element: whatever its callback does, the others stay, in order. *)
Lemma elem_remove_spec s l1 a l2 frame :
  hctl_ok s (l1 ++ a :: l2) frame ->
  let s' := (snd_hctl_elem_remove a s).2 in
  hctl_ok s' (l1 ++ l2) frame /\ ids s' (l1 ++ l2) = ids s (l1 ++ l2).
Proof.
  intros Hok. assert (Ha : a ∉ l1 ++ l2).
  { destruct Hok. apply NoDup_app in ok_nodup0 as (_ & H2 & [H3 _]%NoDup_cons).
    intros [H|H]%elem_of_app; [|done]. apply (H2 a H). left. }
  destruct (del_elem_list_spec _ _ _ _ _ Hok) as (H1 & H2 & _).
  unfold snd_hctl_elem_remove, bind. destruct (del_elem_list a s) as [[] s1]. simpl in H1, H2.
  pose proof (elem_throw_keeps MASK_REMOVE a s1) as Hk.
  destruct (snd_hctl_elem_throw_event a MASK_REMOVE s1) as [r s2]. simpl in Hk.
  destruct (keeps_ok _ _ _ _ Hk H1) as [H3 H4].
  destruct (free_elem_spec _ _ _ _ H3 Ha) as [H5 H6]. split; [done|]. congruence.
Qed.

Lemma length_elems s l frame : hctl_ok s l frame -> (length l <= size (elems s))%nat.
Proof.
  intros [_ _ _ A4 A5 _ _ _ _]. rewrite <- (size_list_to_set (C := gset Z) l) by done.
  rewrite <- (size_dom (D := gset Z)). apply subseteq_size. intros a Ha%elem_of_list_to_set.
  apply elem_of_dom. eapply seg_in; done.
Qed.

(** Releasing all elements, the last one first: what every removal keeps holds of the
    empty list in the end. *)
Lemma hctl_free_rule (P : state -> list Z -> Prop) s l frame :
  (forall s l a, hctl_ok s (l ++ [a]) frame -> P s (l ++ [a]) -> P (snd_hctl_elem_remove a s).2 l) ->
  hctl_ok s l frame -> P s l ->
  hctl_ok (snd_hctl_free s).2 [] frame /\ P (snd_hctl_free s).2 [].
Proof.
  intros HP Hok H0. pose proof (length_elems _ _ _ Hok) as Hlen.
  unfold snd_hctl_free, nelems, bind. cbv beta iota.
  enough (forall n s, hctl_ok s l frame -> P s l -> (length l < n)%nat ->
    hctl_ok (free_loop n s).2 [] frame /\ P (free_loop n s).2 []) as H.
  { specialize (H (S (size (elems s))) s Hok H0). destruct (free_loop _ s) as [[] s1]. apply H. lia. }
  clear s Hok Hlen H0. induction l as [|a l IH] using rev_ind; intros n s Hok H0 Hn.
  - destruct n as [|n]; [simpl in Hn; lia|]. simpl. unfold bind, geth. simpl.
    rewrite (ok_last _ _ _ Hok). done.
  - rewrite length_app in Hn. simpl in Hn. destruct n as [|n]; [lia|]. simpl. unfold bind, geth.
    rewrite (ok_last _ _ _ Hok), lastz_app. simpl.
    assert (0 < a) by (apply (ok_pos _ _ _ Hok); apply elem_of_app; right; left).
    rewrite (proj2 (nz_true a)) by lia.
    destruct (elem_remove_spec s l a [] frame Hok) as [H1 _]. rewrite app_nil_r in H1.
    pose proof (HP s l a Hok H0) as H2. destruct (snd_hctl_elem_remove a s) as [[] s1].
    apply IH; [done|done|lia].
Qed.

Lemma hctl_free_spec s l frame : hctl_ok s l frame -> hctl_ok (snd_hctl_free s).2 [] frame.
Proof. intros Hok. apply (hctl_free_rule (fun _ _ => True) s l frame); auto. Qed.

(** ** Searching *)

Lemma find_split {A} (f : A -> bool) l a :
  List.find f l = Some a ->
  exists l1 l2, l = l1 ++ a :: l2 /\ f a = true /\ Forall (fun x => f x = false) l1.
Proof.
  induction l as [|x l IH]; simpl; [done|]. destruct (f x) eqn:Hx.
  - intros [= ->]. exists [], l. auto.
  - intros (l1 & l2 & -> & Ha & Hl)%IH. exists (x :: l1), l2. auto.
Qed.

Definition matches (s : state) (id : snd_ctl_elem_id_t) (a : Z) : bool := same_elem (id_at s a) id.

Lemma find_from_spec s p l id n :
  seg (elems s) p l 0 -> (forall a, a ∈ l -> 0 < a) -> (length l < n)%nat ->
  find_from n (hdz 0 l) id s = (default 0 (List.find (matches s id) l), s).
Proof.
  revert p n. induction l as [|a l IH]; intros p n Hs Hpos Hn; destruct n as [|n]; simpl in Hn; try lia.
  - done.
  - destruct Hs as [(e & He & _ & Hnext) Hs]. simpl.
    assert (0 < a) by (apply Hpos; left). destruct (Z.eqb_spec a 0); [lia|].
    unfold matches at 1, id_at, bind, gete. rewrite He. simpl.
    destruct (same_elem (elem_id e) id); [done|]. rewrite Hnext. apply (IH a); [done| |lia].
    intros b Hb. apply Hpos. right. done.
Qed.

Lemma find_elem_spec s l frame id :
  hctl_ok s l frame -> snd_hctl_find_elem id s = (default 0 (List.find (matches s id) l), s).
Proof.
  intros Hok. pose proof (length_elems _ _ _ Hok). unfold snd_hctl_find_elem, bind, geth, nelems.
  rewrite (ok_first _ _ _ Hok). apply (find_from_spec s 0); [apply Hok|apply Hok|lia].
Qed.

(** ** What the list should become *)

(** The first name that matches is taken out. *)
Fixpoint remove_first (id : snd_ctl_elem_id_t) (ns : list snd_ctl_elem_id_t) : list snd_ctl_elem_id_t :=
  match ns with
  | [] => []
  | x :: ns => if same_elem x id then ns else x :: remove_first id ns
  end.

Definition present (id : snd_ctl_elem_id_t) (ns : list snd_ctl_elem_id_t) : bool :=
  existsb (fun x => same_elem x id) ns.

Definition is_add (ev : snd_ctl_event_t) : bool := nz (Z.land (ev_mask ev) MASK_ADD).
Definition is_change (ev : snd_ctl_event_t) : bool :=
  nz (Z.land (ev_mask ev) (Z.lor MASK_VALUE MASK_INFO)).

(** The names after an event. *)
Definition event_ids (ns : list snd_ctl_elem_id_t) (ev : snd_ctl_event_t) : list snd_ctl_elem_id_t :=
  if negb (ev_type ev =? EVENT_ELEM) then ns
  else if ev_mask ev =? MASK_REMOVE then remove_first (ev_id ev) ns
  else if is_add ev && negb (present (ev_id ev) ns) then ns ++ [ev_id ev]
  else ns.

(** The code of an event that does not fit the names: a new element whose name is
    taken, or an unknown one. *)
Definition event_error (ns : list snd_ctl_elem_id_t) (ev : snd_ctl_event_t) : option Z :=
  if negb (ev_type ev =? EVENT_ELEM) then None
  else if ev_mask ev =? MASK_REMOVE then
    if present (ev_id ev) ns then None else Some (- ENOENT)
  else if is_add ev then
    if present (ev_id ev) ns then Some (- EBUSY) else None
  else if is_change ev && negb (present (ev_id ev) ns) then Some (- ENOENT)
  else None.

Lemma find_present s l id :
  present id (ids s l) = true <-> is_Some (List.find (matches s id) l).
Proof.
  unfold present, ids. induction l as [|a l IH]; simpl.
  - split; [done|]. intros [x Hx]. done.
  - unfold matches at 1. destruct (same_elem (id_at s a) id); simpl; [split; eauto|done].
Qed.

Lemma find_remove s l1 a l2 id :
  Forall (fun x => matches s id x = false) l1 -> matches s id a = true ->
  remove_first id (ids s (l1 ++ a :: l2)) = ids s (l1 ++ l2).
Proof.
  intros H Ha. unfold ids. induction H as [|x l1 Hx H IH]; simpl.
  - unfold matches in Ha. rewrite Ha. done.
  - unfold matches in Hx. rewrite Hx. f_equal. exact IH.
Qed.

(** ** Making and adding elements *)

Lemma onhp_keeps {A} (m : io (proc K) A) s :
  held (wld (m (hprc s)).2) = held (wld (hprc s)) ->
  ptrs (m (hprc s)).2 = ptrs (hprc s) -> async_list (m (hprc s)).2 = async_list (hprc s) ->
  client_keeps client_held client_ok s (onhp m s).2.
Proof.
  intros H1 H2 H3. unfold onhp. destruct (m (hprc s)) as [a p]. simpl in *.
  constructor; simpl; try done. unfold ledger. simpl. rewrite H1. auto.
Qed.

(** A call to the system. *)
Lemma sysp_keeps {A} (m : io K A) s : client_keeps client_held client_ok s (onhp (sysp m) s).2.
Proof.
  apply onhp_keeps; unfold sysp, onsys, lift; destruct (m (ker (wld (hprc s)))); done.
Qed.

Lemma new_elem_spec s l frame e :
  hctl_ok s l frame ->
  let '(a, s') := new_elem e s in
  user s' = user s /\ the_hctl s' = the_hctl s /\
  (if a =? 0 then hctl_ok s' l frame /\ ids s' l = ids s l
   else hctl_ok s' l (RMem a :: frame) /\ ids s' l = ids s l /\ (a ∉ l) /\ 0 < a /\
        elems s' !! a = Some e).
Proof.
  intros Hok. unfold new_elem, sys_alloc, bind, onhp, onsys, lift, acquire, ret.
  destruct (os_alloc _ _ _) as [[a|] k] eqn:Ha; simpl.
  2: { split; [done|]. split; [done|]. split; [|done].
       destruct Hok as [A1 A2 A3 A4 A5 A6 A7 A9 AC AM]. constructor; done. }
  apply alloc_law in Ha as [Hpos Hnew]. split; [done|]. split; [done|].
  destruct (Z.eqb_spec a 0); [lia|].
  destruct Hok as [A1 A2 A3 A4 A5 A6 A7 A9 AC AM].
  assert (Hnl : a ∉ l).
  { intros Hl. apply Hnew. unfold ledger in A9. rewrite A9. apply elem_of_app. left.
    apply list_elem_of_fmap. eauto. }
  assert (Hl : forall b, b ∈ l -> <[a := e]> (elems s) !! b = elems s !! b).
  { intros b Hb. apply lookup_insert_ne. congruence. }
  repeat split; simpl; auto.
  - apply (seg_ext (elems s)); [|done]. intros b Hb. rewrite Hl; done.
  - intros b e' Hb. rewrite Hl by done. apply A7. done.
  - unfold ledger in *. simpl. rewrite A9, !(assoc_L (++)). apply Permutation_middle.
  - apply list_fmap_ext. intros i b Hi. unfold id_at. simpl. rewrite Hl; [done|].
    apply list_elem_of_lookup_2 in Hi. done.
  - rewrite lookup_insert_eq. done.
Qed.

(** An element made for the name [id] and appended. *)
Lemma made_elem_spec s l frame a id :
  hctl_ok s l (RMem a :: frame) -> a ∉ l -> 0 < a ->
  elems s !! a = Some (Elem id (hctl_block (the_hctl s)) 0 0 0 0) ->
  let s' := (add_elem_list a s).2 in
  hctl_ok s' (l ++ [a]) frame /\ ids s' (l ++ [a]) = ids s l ++ [id].
Proof. intros Hok Ha Hpos He. apply (add_elem_list_spec _ _ _ _ _ Hok He Ha Hpos). done. Qed.

(** Adding an element, or refusing it. *)
Lemma elem_add_spec s l frame a id :
  hctl_ok s l (RMem a :: frame) -> a ∉ l -> 0 < a ->
  elems s !! a = Some (Elem id (hctl_block (the_hctl s)) 0 0 0 0) ->
  let '(r, s') := snd_hctl_elem_add a s in
  if present id (ids s l)
  then r = - EBUSY /\ s' = s
  else hctl_ok s' (l ++ [a]) frame /\ ids s' (l ++ [a]) = ids s l ++ [id].
Proof.
  intros Hok Ha Hpos He. unfold snd_hctl_elem_add, bind, gete. rewrite He. simpl.
  rewrite (find_elem_spec _ _ _ _ Hok). pose proof (find_present s l id) as Hp.
  destruct (List.find (matches s id) l) as [b|] eqn:Hf; simpl.
  - assert (Hb : 0 < b) by (apply find_some in Hf as [Hb _]; apply list_elem_of_In in Hb;
      apply (ok_pos _ _ _ Hok b Hb)).
    rewrite (proj2 (nz_true b)) by lia. destruct (present id (ids s l)); [done|].
    assert (false = true) by (apply Hp; eauto). done.
  - destruct (present id (ids s l)); [destruct Hp as [Hp _]; destruct (Hp eq_refl); done|].
    destruct (made_elem_spec s l frame a id Hok Ha Hpos He) as [H1 H2].
    destruct (add_elem_list a s) as [[] s1]. simpl in H1, H2.
    pose proof (throw_keeps MASK_ADD a s1) as Hk.
    destruct (snd_hctl_throw_event MASK_ADD a s1) as [r s2]. simpl in Hk.
    destruct (keeps_ok _ _ _ _ Hk H1) as [H3 H4]. split; [done|]. congruence.
Qed.

(** ** Events *)

Lemma add_event_spec s l frame ev :
  hctl_ok s l frame ->
  let ns := ids s l in
  let '(r, s') := add_event ev s in
  if is_add ev then
    (r = - ENOMEM /\ hctl_ok s' l frame /\ ids s' l = ns) \/
    if present (ev_id ev) ns
    then r = - EBUSY /\ exists a, hctl_ok s' l (RMem a :: frame) /\ ids s' l = ns
    else exists a, hctl_ok s' (l ++ [a]) frame /\ ids s' (l ++ [a]) = ns ++ [ev_id ev]
  else r = 0 /\ s' = s.
Proof.
  intros Hok. cbn zeta. unfold add_event, is_add, bind, geth.
  destruct (nz _); [|done].
  pose proof (new_elem_spec s l frame (Elem (ev_id ev) (hctl_block (the_hctl s)) 0 0 0 0) Hok) as Hn.
  destruct (new_elem _ s) as [a s1]. destruct Hn as (_ & Hh & Hn).
  destruct (a =? 0); [left; done|]. destruct Hn as (H1 & H2 & Ha & Hpos & He).
  rewrite <- Hh in He. pose proof (elem_add_spec s1 l frame a (ev_id ev) H1 Ha Hpos He) as H3.
  rewrite H2 in H3. destruct (snd_hctl_elem_add a s1) as [r s2]. right.
  destruct (present _ _); [|eauto]. destruct H3 as [-> ->]. eauto.
Qed.

Lemma change_event_spec s l frame ev :
  hctl_ok s l frame ->
  let '(r, s') := change_event ev s in
  hctl_ok s' l frame /\ ids s' l = ids s l /\
  (is_change ev && negb (present (ev_id ev) (ids s l)) = true -> r = - ENOENT).
Proof.
  intros Hok. unfold change_event, is_change, bind. destruct (nz _); [|done].
  rewrite (find_elem_spec _ _ _ _ Hok). pose proof (find_present s l (ev_id ev)) as Hp.
  destruct (List.find _ l) as [b|] eqn:Hf; simpl.
  - assert (0 < b) by (apply find_some in Hf as [Hb _]; apply list_elem_of_In in Hb;
      apply (ok_pos _ _ _ Hok b Hb)).
    destruct (Z.eqb_spec b 0); [lia|].
    pose proof (elem_throw_keeps (Z.land (ev_mask ev) 3) b s) as Hk. simpl in Hk.
    destruct (snd_hctl_elem_throw_event b _ s) as [r s2].
    destruct (keeps_ok _ _ _ _ Hk Hok) as [H3 H4].
    rewrite (proj2 Hp) by eauto. destruct (r <? 0); done.
  - done.
Qed.

(** What one event does: the names become [event_ids]; nothing is lost or leaked unless
    memory ran out or a new element's name is taken, in which case its block leaks. *)
Lemma handle_event_spec s l frame ev :
  hctl_ok s l frame ->
  let ns := ids s l in
  let '(r, s') := snd_hctl_handle_event ev s in
  (r = - ENOMEM /\ ev_mask ev <> MASK_REMOVE /\ hctl_ok s' l frame /\ ids s' l = ns) \/
  match event_error ns ev with
  | Some e => r = e /\ ids s' l = ns /\
      exists leak, hctl_ok s' l (leak ++ frame) /\
        if e =? - EBUSY then exists a, leak = [RMem a] else leak = []
  | None => exists l', hctl_ok s' l' frame /\ ids s' l' = event_ids ns ev
  end.
Proof.
  intros Hok. cbn zeta. unfold snd_hctl_handle_event, event_error, event_ids.
  destruct (negb _); [right; eauto|].
  destruct (Z.eqb_spec (ev_mask ev) MASK_REMOVE) as [Hm|Hm].
  - unfold bind. rewrite (find_elem_spec _ _ _ _ Hok).
    pose proof (find_present s l (ev_id ev)) as Hp.
    destruct (List.find _ l) as [b|] eqn:Hf; simpl.
    + pose proof (find_some _ _ Hf) as [Hb _]. apply list_elem_of_In, (ok_pos _ _ _ Hok) in Hb.
      destruct (Z.eqb_spec b 0); [lia|].
      destruct (find_split _ _ _ Hf) as (l1 & l2 & -> & Hmt & Hl1).
      destruct (elem_remove_spec s l1 b l2 frame Hok) as [H1 H2].
      destruct (snd_hctl_elem_remove b s) as [[] s1]. simpl in *.
      rewrite (proj2 Hp) by eauto. right. exists (l1 ++ l2).
      rewrite (find_remove s) by done. done.
    + destruct (present _ _); [destruct Hp as [Hp _]; destruct (Hp eq_refl); done|].
      right. split; [done|]. split; [done|]. exists []. done.
  - pose proof (add_event_spec s l frame ev Hok) as Ha. cbn zeta in Ha. unfold bind.
    destruct (add_event ev s) as [r s1]. destruct (is_add ev) eqn:Hadd.
    + destruct Ha as [(-> & H1 & H2)|Ha]; [left; done|].
      destruct (present (ev_id ev) (ids s l)) eqn:Hpr; simpl.
      * destruct Ha as (-> & a & H1 & H2). right. simpl. split; [done|]. split; [done|].
        exists [RMem a]. eauto.
      * destruct Ha as (a & H1 & H2). destruct (r <? 0); [right; eauto|].
        pose proof (change_event_spec s1 (l ++ [a]) frame ev H1) as Hc.
        destruct (change_event ev s1) as [r2 s2]. destruct Hc as (H3 & H4 & _).
        right. exists (l ++ [a]). split; [done|]. congruence.
    + destruct Ha as [-> ->]. simpl.
      pose proof (change_event_spec s l frame ev Hok) as Hc.
      destruct (change_event ev s) as [r2 s2]. destruct Hc as (H3 & H4 & H5). right.
      destruct (is_change ev && negb (present (ev_id ev) (ids s l))); [|eauto].
      split; [auto|]. split; [done|]. exists []. done.
Qed.

(** ** Sequences of events *)

(** Reading the card's next event. *)
Definition read_next (s : state) : Z * snd_ctl_event_t * state :=
  onhp (snd_ctl_read (hctl_ctl (the_hctl s))) s.

(** From one state to another, the events [evs] are read and each is handled without
    an error. *)
Inductive follows : state -> list snd_ctl_event_t -> state -> Prop :=
  | follows_nil s : follows s [] s
  | follows_cons s ev s1 r s2 evs s3 :
      read_next s = (1, ev, s1) -> snd_hctl_handle_event ev s1 = (r, s2) -> 0 <= r ->
      follows s2 evs s3 -> follows s (ev :: evs) s3.

Lemma read_next_keeps s : client_keeps client_held client_ok s (read_next s).2.
Proof.
  apply onhp_keeps; unfold snd_ctl_read, bind; 
    destruct (sysp (read_event _) (hprc s)) as [[[res e] ev] p] eqn:Hs;
    unfold sysp, onsys, lift in Hs; destruct (read_event _ _) as [x k]; injection Hs as _ <-; done.
Qed.

Lemma handled s l frame ev r s' :
  hctl_ok s l frame -> snd_hctl_handle_event ev s = (r, s') -> 0 <= r ->
  exists l', hctl_ok s' l' frame /\ ids s' l' = event_ids (ids s l) ev.
Proof.
  intros Hok Hev Hr. pose proof (handle_event_spec s l frame ev Hok) as H. cbn zeta in H.
  rewrite Hev in H. destruct H as [(-> & _)|H]; [done|].
  destruct (event_error _ _) as [e|] eqn:He; [|done]. destruct H as [-> _].
  unfold event_error in He. repeat case_match; simplify_eq; done.
Qed.

(** C6. The list follows the card: when the events waiting on the descriptor can be
    handled one by one without an error, [snd_hctl_handle_events] handles all of them
    and returns their number; the pointers of the handle then form the list whose names
    are the old ones with each event applied in turn, and no block was lost.  This
    holds whatever the client's callbacks do within their contract. *)
Theorem hctl_follows_events (s s1 s2 : state) (l : list Z) (frame : list resource)
    (evs : list snd_ctl_event_t) (last : snd_ctl_event_t) (fuel : nat) :
  hctl_ok s l frame -> follows s evs s1 -> read_next s1 = (- EAGAIN, last, s2) ->
  (length evs < fuel)%nat -> Z.of_nat (length evs) <= INT_MAX ->
  snd_hctl_handle_events fuel s = (Some (Z.of_nat (length evs)), s2) /\
  exists l', hctl_ok s2 l' frame /\ ids s2 l' = foldl event_ids (ids s l) evs.
Proof.
  intros Hok Hf Hlast Hfuel Hmax. unfold snd_hctl_handle_events.
  enough (forall c n, 0 <= c -> c + Z.of_nat (length evs) <= INT_MAX -> (length evs < n)%nat ->
    events_loop n c s = (Some (c + Z.of_nat (length evs)), s2) /\
    exists l', hctl_ok s2 l' frame /\ ids s2 l' = foldl event_ids (ids s l) evs) as H.
  { apply (H 0 fuel); lia. }
  clear fuel Hfuel Hmax. revert l Hok Hlast.
  induction Hf as [s|s ev t1 r t2 evs s3 Hread Hev Hr Hf IH];
    intros l Hok Hlast c n Hc Hmax Hn; (destruct n as [|n]; [simpl in Hn; lia|]);
    simpl events_loop; unfold bind, geth; unfold read_next in *.
  - rewrite Hlast. simpl. pose proof (read_next_keeps s) as Hk. unfold read_next in Hk.
    rewrite Hlast in Hk. destruct (keeps_ok _ _ _ _ Hk Hok) as [H1 H2].
    simpl in Hmax. unfold ret. rewrite s32_id, Z.add_0_r by (unfold is_s32, INT_MIN in *; lia).
    split; [done|]. exists l. auto.
  - rewrite Hread. simpl. rewrite Hev. destruct (Z.ltb_spec r 0); [lia|].
    pose proof (read_next_keeps s) as Hk. unfold read_next in Hk. rewrite Hread in Hk.
    destruct (keeps_ok _ _ _ _ Hk Hok) as [H1 H2].
    destruct (handled _ _ _ _ _ _ H1 Hev Hr) as (l' & H3 & H4). rewrite H2 in H4.
    simpl length in *. rewrite u32_id by (unfold is_u32, UINT_MAX, INT_MAX in *; lia).
    destruct (IH l' H3 Hlast (c + 1) n) as [H5 H6]; [lia|lia|lia|].
    rewrite H5. rewrite H4 in H6. split; [do 2 f_equal; lia|done].
Qed.

(** Elements are told apart by interface, index and name only.  A second element
    that differs from a listed one [x] by its device (or subdevice or number) is taken
    for it: the event that adds it fails with -EBUSY, leaking the block made for it
    (or with -ENOMEM), and the event that removes it removes the first such element,
    here [x], from the list. *)
Theorem hctl_devices_confused (s : state) (l : list Z) (frame : list resource)
    (x y : snd_ctl_elem_id_t) (before after : list snd_ctl_elem_id_t) (mask : Z) :
  hctl_ok s l frame -> ids s l = before ++ x :: after -> same_elem x y = true ->
  present y before = false -> mask <> MASK_REMOVE -> Z.testbit mask 2 = true ->
  let '(r, s1) := snd_hctl_handle_event (Event EVENT_ELEM mask y) s in
  let '(r', s2) := snd_hctl_handle_event (Event EVENT_ELEM MASK_REMOVE y) s in
  (r = - ENOMEM \/ r = - EBUSY /\ exists a, hctl_ok s1 l (RMem a :: frame) /\ ids s1 l = ids s l) /\
  exists l', hctl_ok s2 l' frame /\ ids s2 l' = before ++ after.
Proof.
  intros Hok Hids Hsame Hbefore Hmask Hbit.
  assert (Hpr : present y (before ++ x :: after) = true).
  { unfold present. rewrite existsb_app. simpl. rewrite Hsame. apply orb_true_r. }
  assert (Hrm : remove_first y (before ++ x :: after) = before ++ after).
  { clear Hids Hpr. induction before as [|z before IH]; simpl in *; [rewrite Hsame; done|].
    apply orb_false_iff in Hbefore as [-> Hb]. rewrite IH by done. done. }
  assert (Hadd : is_add (Event EVENT_ELEM mask y) = true).
  { unfold is_add. simpl. apply nz_true. intros H0. apply (f_equal (fun z => Z.testbit z 2)) in H0.
    rewrite Z.land_spec, Hbit in H0. done. }
  pose proof (handle_event_spec s l frame (Event EVENT_ELEM mask y) Hok) as H1.
  destruct (snd_hctl_handle_event (Event EVENT_ELEM mask y) s) as [r s1].
  pose proof (handle_event_spec s l frame (Event EVENT_ELEM MASK_REMOVE y) Hok) as H2.
  destruct (snd_hctl_handle_event (Event EVENT_ELEM MASK_REMOVE y) s) as [r' s2].
  unfold event_error, event_ids in H1, H2. rewrite Hadd in H1. cbn [ev_type ev_mask ev_id] in *.
  rewrite (proj2 (Z.eqb_neq mask MASK_REMOVE)) in H1 by done. rewrite Hids, Hpr in *.
  change (negb (EVENT_ELEM =? EVENT_ELEM)) with false in *.
  change (MASK_REMOVE =? MASK_REMOVE) with true in *. cbv iota in *. split.
  - destruct H1 as [(-> & _)|(-> & Hi & leak & H3 & a & ->)]; [left; done|right].
    split; [done|]. exists a. done.
  - rewrite Hrm in H2. destruct H2 as [(-> & Ha & _)|H2]; done.
Qed.

(** ** Loading *)

(** The elements of the card do not change while the list is read: every successful
    ELEM_LIST reports their number and fills in as many names as there is room for. *)
Definition lists_card (cs : list snd_ctl_elem_id_t) : Prop :=
  forall fd q k,
    let '((r, q'), k') := ioctl_elem_list fd q k in
    option_map fst (el_pids q') = option_map fst (el_pids q) /\
    (0 <= r -> el_count q' = Z.of_nat (length cs) /\
      el_used q' = Z.min (el_space q) (Z.of_nat (length cs)) /\
      forall a old, el_pids q = Some (a, old) ->
        el_pids q' = Some (a, take (Z.to_nat (el_used q')) cs ++ drop (Z.to_nat (el_used q')) old)).

(** What ELEM_LIST does to the caller's array in any case: the kernel copies names into
    it, no more than there is room for, and leaves its address as it was.  The elements may
    be others at every call. *)
Definition fills_list : Prop :=
  forall fd q k,
    let '((r, q'), _) := ioctl_elem_list fd q k in
    option_map fst (el_pids q') = option_map fst (el_pids q) /\ (0 <= r -> el_used q' <= el_space q).

Lemma lists_fills cs : lists_card cs -> fills_list.
Proof.
  intros H fd q k. specialize (H fd q k). destruct (ioctl_elem_list fd q k) as [[r q'] k'].
  destruct H as [H1 H2]. split; [done|]. intros Hr. destruct (H2 Hr) as (_ & -> & _). lia.
Qed.

(** The block of the names, as part of the frame. *)
Definition pids_block (q : snd_ctl_elem_list_t) : list resource :=
  match el_pids q with Some (a, _) => [RMem a] | None => [] end.

(** The state but for the kernel and the ledger. *)
Definition same_list (s s' : state) : Prop :=
  the_hctl s' = the_hctl s /\ elems s' = elems s /\ user s' = user s /\
  ptrs (hprc s') = ptrs (hprc s).

#[export] Instance same_list_preorder : PreOrder same_list.
Proof.
  split; [done|]. intros a b c (A1 & A2 & A3 & A4) (B1 & B2 & B3 & B4).
  split; [congruence|]. split; [congruence|]. split; congruence.
Qed.

Lemma same_list_ok s s' l frame frame' :
  same_list s s' -> hctl_ok s l frame ->
  (ledger s ≡ₚ (RMem <$> l) ++ client_held (user s) ++ frame ->
   ledger s' ≡ₚ (RMem <$> l) ++ client_held (user s) ++ frame') ->
  hctl_ok s' l frame' /\ ids s' l = ids s l.
Proof.
  intros (H1 & H2 & H3 & HP) [A1 A2 A3 A4 A5 A6 A7 A9 AC AM] H. split.
  - constructor; unfold identity; rewrite ?H1, ?H2, ?H3, ?HP; auto.
  - unfold ids, id_at. rewrite H2. done.
Qed.

Lemma free_block_spec s l frame a :
  hctl_ok s l (RMem a :: frame) ->
  let s' := (onhp (onsys (sys_free a)) s).2 in hctl_ok s' l frame /\ same_list s s'.
Proof.
  intros Hok. cbn zeta. assert (Hs : same_list s (onhp (onsys (sys_free a)) s).2) by done.
  split; [|done]. eapply same_list_ok; [done|done|].
  intros Hl. unfold ledger in *. simpl. rewrite Hl, !(assoc_L (++)), <- Permutation_middle, release_head.
  done.
Qed.

Lemma alloc_block_spec n s l frame :
  hctl_ok s l frame ->
  let '(p, s') := onhp (onsys (sys_alloc n)) s in
  same_list s s' /\
  hctl_ok s' l (match p with Some a => RMem a :: frame | None => frame end).
Proof.
  intros Hok. unfold onhp, onsys, sys_alloc, bind, lift, acquire, ret.
  destruct (os_alloc _ _ _) as [[a|] k]; split; try done.
  - apply (same_list_ok s _ l frame); [done|exact Hok|]. unfold ledger. simpl. intros ->.
    rewrite !(assoc_L (++)). apply Permutation_middle.
  - apply (same_list_ok s _ l frame); done.
Qed.

(** The entries appended, as far as memory goes. *)
Lemma create_loop_spec cs s l frame :
  hctl_ok s l frame ->
  let '(r, s') := create_loop cs s in
  exists l', hctl_ok s' (l ++ l') frame /\ user s' = user s /\
    hctl_callback (the_hctl s') = hctl_callback (the_hctl s) /\
    (r = - ENOMEM \/ r = 0 /\ ids s' (l ++ l') = ids s l ++ cs).
Proof.
  revert s l. induction cs as [|c cs IH]; intros s l Hok; simpl.
  - exists []. rewrite !app_nil_r. auto 6.
  - unfold bind, geth.
    pose proof (new_elem_spec s l frame (Elem c (hctl_block (the_hctl s)) 0 0 0 0) Hok) as Hn.
    destruct (new_elem _ s) as [a s1]. destruct Hn as (Hu & Hh & Hn).
    destruct (a =? 0).
    + exists []. rewrite app_nil_r, Hh. unfold ret. destruct Hn. auto.
    + destruct Hn as (H1 & H2 & Ha & Hpos & He). rewrite <- Hh in He.
      destruct (made_elem_spec s1 l frame a c H1 Ha Hpos He) as [H3 H4].
      assert (Hu2 : user (add_elem_list a s1).2 = user s1 /\
        hctl_callback (the_hctl (add_elem_list a s1).2) = hctl_callback (the_hctl s1))
        by (rewrite add_elem_list_eq; done).
      destruct (add_elem_list a s1) as [[] s2]. simpl in H3, H4, Hu2.
      specialize (IH s2 (l ++ [a]) H3). destruct (create_loop cs s2) as [r s3].
      destruct IH as (l' & H5 & H6 & H7 & H8). exists (a :: l').
      change (l ++ a :: l') with (l ++ [a] ++ l'). rewrite (assoc_L (++)).
      split; [done|]. split; [intuition congruence|]. split; [intuition congruence|].
      destruct H8 as [->|[-> H8]]; [auto|right]. split; [done|].
      rewrite H8, H4, H2, <- (assoc_L (++)). done.
Qed.

(** The callback called with ADD for each element, in order. *)
Definition throw_all (l : list Z) (s : state) : state :=
  foldl (fun s a => (snd_hctl_throw_event MASK_ADD a s).2) s l.

Lemma throw_loop_spec n s l0 l frame :
  hctl_ok s (l0 ++ l) frame -> (length l < n)%nat ->
  throw_loop n (hdz 0 l) s = (tt, throw_all l s) /\ client_keeps client_held client_ok s (throw_all l s).
Proof.
  revert n s l0. induction l as [|a l IH]; intros n s l0 Hok Hn; destruct n as [|n]; simpl in Hn; try lia.
  - split; [done|reflexivity].
  - simpl. assert (0 < a) by (apply (ok_pos _ _ _ Hok); apply elem_of_app; right; left).
    destruct (Z.eqb_spec a 0); [lia|]. unfold bind.
    pose proof (throw_keeps MASK_ADD a s) as Hk.
    destruct (snd_hctl_throw_event MASK_ADD a s) as [r s1]. simpl in *.
    destruct (keeps_ok _ _ _ _ Hk Hok) as [Hok1 _].
    assert (Hnext : elem_next (default zero_elem (elems s1 !! a)) = hdz 0 l).
    { pose proof (ok_seg _ _ _ Hok1) as Hs. apply seg_app in Hs as [_ [(e & He & _ & Hx) _]].
      rewrite He. done. }
    unfold gete. rewrite Hnext.
    change (l0 ++ a :: l) with (l0 ++ [a] ++ l) in Hok1. rewrite (assoc_L (++)) in Hok1.
    destruct (IH n s1 (l0 ++ [a]) Hok1) as [H1 H2]; [lia|]. split; [done|].
    etransitivity; done.
Qed.

(** Asking the card for its elements: the names' block stays what it was. *)
Lemma elem_list_keeps q s l frame :
  hctl_ok s l frame -> fills_list ->
  let '((r, q'), s') := onhp (snd_ctl_elem_list (hctl_ctl (the_hctl s)) q) s in
  same_list s s' /\ hctl_ok s' l frame /\ pids_block q' = pids_block q.
Proof.
  intros Hok Hfill. unfold snd_ctl_elem_list, onhp, sysp, onsys, lift, bind, ret.
  specialize (Hfill (ctl_fd (hctl_ctl (the_hctl s))) q (ker (wld (hprc s)))).
  destruct (ioctl_elem_list _ _ _) as [[r q'] k]. destruct Hfill as [H1 _]. simpl.
  assert (Hp : pids_block q' = pids_block q).
  { unfold pids_block. destruct (el_pids q') as [[]|], (el_pids q) as [[]|]; simpl in H1; congruence. }
  destruct (same_list_ok s (HS (the_hctl s) (elems s)
    (Proc (World k (held (wld (hprc s)))) (async_list (hprc s)) (sigio_ours (hprc s)) (ptrs (hprc s)))
    (user s)) l frame frame) as [H3 _]; [done|done|done|].
  split; [done|]. split; [done|]. done.
Qed.

(** ... and its number and names are the card's. *)
Lemma elem_list_spec cs q s l frame :
  hctl_ok s l frame -> lists_card cs ->
  let '((r, q'), s') := onhp (snd_ctl_elem_list (hctl_ctl (the_hctl s)) q) s in
  same_list s s' /\ hctl_ok s' l frame /\ pids_block q' = pids_block q /\
  (0 <= r -> el_count q' = Z.of_nat (length cs) /\
     el_used q' = Z.min (el_space q) (Z.of_nat (length cs)) /\
     forall a old, el_pids q = Some (a, old) ->
       el_pids q' = Some (a, take (Z.to_nat (el_used q')) cs ++ drop (Z.to_nat (el_used q')) old)).
Proof.
  intros Hok Hlist. unfold snd_ctl_elem_list, onhp, sysp, onsys, lift, bind, ret.
  specialize (Hlist (ctl_fd (hctl_ctl (the_hctl s))) q (ker (wld (hprc s)))).
  destruct (ioctl_elem_list _ _ _) as [[r q'] k]. destruct Hlist as [H1 H2]. simpl.
  assert (Hp : pids_block q' = pids_block q).
  { unfold pids_block. destruct (el_pids q') as [[]|], (el_pids q) as [[]|]; simpl in H1; congruence. }
  destruct (same_list_ok s (HS (the_hctl s) (elems s)
    (Proc (World k (held (wld (hprc s)))) (async_list (hprc s)) (sigio_ours (hprc s)) (ptrs (hprc s)))
    (user s)) l frame frame) as [H3 _]; [done|done|done|].
  split; [done|]. split; [done|]. split; [done|].
  destruct (Z.ltb_spec r 0); [lia|]. auto.
Qed.

Lemma free_space_spec q s l frame :
  hctl_ok s l (pids_block q ++ frame) ->
  let s' := (onhp (snd_ctl_elem_list_free_space q) s).2 in hctl_ok s' l frame /\ same_list s s'.
Proof.
  unfold pids_block, snd_ctl_elem_list_free_space, free_opt. destruct (el_pids q) as [[a old]|].
  - apply free_block_spec.
  - intros Hok. simpl. split; [|done]. destruct s as [? ? [] ?]. exact Hok.
Qed.

(** However often the card's list changes: at every round the loop holds one block. *)
Lemma list_loop_keeps n q s l frame :
  hctl_ok s l (pids_block q ++ frame) -> fills_list ->
  let '(res, s') := list_loop n (hctl_ctl (the_hctl s)) q s in
  same_list s s' /\ exists q', hctl_ok s' l (pids_block q' ++ frame) /\
    match res with Some (_, q2) => q2 = q' | None => True end.
Proof.
  intros Hok Hfill. revert q s Hok. induction n as [|n IH]; intros q s Hok; simpl.
  - destruct (_ =? _); (split; [done|]); exists q; done.
  - destruct (_ =? _); [split; [done|]; exists q; done|].
    unfold bind at 1. unfold snd_ctl_elem_list_alloc_space.
    destruct (free_space_spec q s l frame Hok) as [Hf Hs1].
    set (s1 := (onhp (snd_ctl_elem_list_free_space q) s).2) in *.
    assert (Hrun : forall A (f : unit -> io (proc K) A), onhp (bind (free_opt (el_pids q)) f) s = onhp (f tt) s1).
    { intros A f. unfold s1, onhp, snd_ctl_elem_list_free_space, bind, ret.
      destruct (free_opt (el_pids q) (hprc s)) as [[] p']. done. }
    rewrite Hrun. pose proof (alloc_block_spec (el_count q * sizeof_elem_id) s1 l frame Hf) as Ha.
    unfold onhp at 1, bind, ret at 1. unfold onhp at 1 in Ha.
    destruct (onsys (sys_alloc _) (hprc s1)) as [[a|] p2]; destruct Ha as [Hs2 Hok2]; cbn [fst snd Z.ltb].
    2:{ simpl. split; [etransitivity; done|]. eexists. split; [|reflexivity]. exact Hok2. }
    change (0 <? 0) with false. cbv iota. set (s2 := HS (the_hctl s1) (elems s1) p2 (user s1)) in *.
    set (q1 := ElemList _ _ _ _ _) in *.
    assert (Hc : the_hctl s2 = the_hctl s) by (transitivity (the_hctl s1); [apply Hs2|apply Hs1]).
    pose proof (elem_list_keeps q1 s2 l (RMem a :: frame) Hok2 Hfill) as He. rewrite Hc in He.
    destruct (onhp (snd_ctl_elem_list _ q1) s2) as [[r q2] s3] eqn:Hrun2. destruct He as (Hs3 & Hok3 & Hb).
    cbv iota beta. rewrite Hrun2.
    assert (Hall : same_list s s3) by (etransitivity; [exact Hs1|]; etransitivity; done).
    assert (Hok3' : hctl_ok s3 l (pids_block q2 ++ frame)) by (rewrite Hb; exact Hok3).
    destruct (r <? 0); [split; [done|]; exists q2; done|].
    specialize (IH q2 s3 Hok3'). assert (Hc3 : the_hctl s3 = the_hctl s) by apply Hall. rewrite Hc3 in IH.
    destruct (list_loop n _ q2 s3) as [res s4]. destruct IH as [Hs4 IH]. split; [etransitivity; done|exact IH].
Qed.

(** One more round is enough, and the entries are the card's. *)
Lemma list_loop_spec cs n q s l frame :
  hctl_ok s l frame -> lists_card cs -> el_pids q = None -> el_used q = 0 ->
  el_count q = Z.of_nat (length cs) ->
  let '(res, s') := list_loop (S n) (hctl_ctl (the_hctl s)) q s in
  exists r q', res = Some (r, q') /\ same_list s s' /\ hctl_ok s' l (pids_block q' ++ frame) /\
    (0 <= r -> entries q' = cs).
Proof.
  intros Hok Hlist Hp Hu Hc. simpl. rewrite Hu, Hc.
  destruct (Z.eqb_spec (Z.of_nat (length cs)) 0) as [H0|H0].
  - exists 0, q. unfold pids_block, entries. rewrite Hp.
    split; [done|]. split; [done|]. split; [done|]. destruct cs; [done|]. simpl in H0. lia.
  - unfold bind, snd_ctl_elem_list_alloc_space, free_opt. rewrite Hp.
    pose proof (alloc_block_spec (el_count q * sizeof_elem_id) s l frame Hok) as Ha. rewrite Hc in Ha.
    unfold onhp at 1, bind, ret at 1. unfold onhp in Ha.
    destruct (onsys (sys_alloc _) (hprc s)) as [[a|] p1]; destruct Ha as [Hs1 Hok1]; simpl.
    + set (s1 := HS (the_hctl s) (elems s) p1 (user s)) in *.
      set (q1 := ElemList _ _ _ _ _). 
      pose proof (elem_list_spec cs q1 s1 l (RMem a :: frame) Hok1 Hlist) as He.
      change (hctl_ctl (the_hctl s1)) with (hctl_ctl (the_hctl s)) in He.
      destruct (onhp (snd_ctl_elem_list _ q1) s1) as [[r q2] s2].
      destruct He as (Hs2 & Hok2 & Hb & Hq).
      assert (Hs : same_list s s2) by (unfold same_list in *; intuition congruence).
      destruct (Z.ltb_spec r 0) as [Hr|Hr].
      * exists r, q2. rewrite Hb. split; [done|]. split; [done|]. split; [done|]. lia.
      * destruct (Hq Hr) as (H1 & H2 & H3). specialize (H3 _ _ eq_refl).
        simpl in H2. rewrite Z.min_id in H2.
        assert (Hl : list_loop n (hctl_ctl (the_hctl s)) q2 s2 = (Some (0, q2), s2)).
        { destruct n; simpl; rewrite H1, H2, Z.eqb_refl; done. }
        rewrite Hl. exists 0, q2. rewrite Hb. split; [done|]. split; [done|]. split; [done|].
        intros _. unfold entries. rewrite H3, H1, H2, Nat2Z.id, firstn_all, take_app_length. done.
    + exists (- ENOMEM). eexists. split; [done|]. split; [done|]. split; [done|]. done.
Qed.

Lemma onhp_same {A} (m : io (proc K) A) s :
  client_keeps client_held client_ok s (onhp m s).2 -> same_list s (onhp m s).2.
Proof. intros [_ _ H _ _]. unfold onhp in *. destruct (m (hprc s)). done. Qed.

Lemma load_end_spec q err s l frame :
  hctl_ok s l (pids_block q ++ frame) ->
  let '(r, s') := load_end q err s in
  r = err /\ if err <? 0 then hctl_ok s' [] frame else hctl_ok s' l frame /\ same_list s s'.
Proof.
  intros Hok. destruct (free_space_spec q s l frame Hok) as [H1 H2]. unfold load_end, bind.
  destruct (onhp _ s) as [q' s1]. simpl in H1, H2. destruct (err <? 0); [|done].
  apply hctl_free_spec in H1. destruct (snd_hctl_free s1) as [r s2]. done.
Qed.

Lemma subscribe_keeps ctl n s : client_keeps client_held client_ok s (onhp (snd_ctl_subscribe_events ctl n) s).2.
Proof.
  apply onhp_keeps; unfold snd_ctl_subscribe_events, sysp, bind, onsys, lift;
    destruct (ioctl_subscribe _ _ _) as [[] ?]; done.
Qed.

(** The second half of [snd_hctl_load], once the names are there. *)
Lemma load_names cs q s l frame :
  hctl_ok s l (pids_block q ++ frame) ->
  let m :=
    let* err := create_loop cs in
    if err <? 0 then let* r := load_end q err in ret (Some r)
    else
      let* h := geth in
      let* n := nelems in
      let* _ := throw_loop n (first_elem h) in
      let* err := onhp (snd_ctl_subscribe_events (hctl_ctl (the_hctl s)) 1) in
      let* r := load_end q err in ret (Some r) in
  exists r s', m s = (Some r, s') /\
    (r < 0 -> hctl_ok s' [] frame) /\
    (0 <= r -> exists l' s1,
      hctl_ok s' (l ++ l') frame /\ ids s' (l ++ l') = ids s l ++ cs /\
      hctl_ok s1 (l ++ l') (pids_block q ++ frame) /\
      hctl_callback (the_hctl s1) = hctl_callback (the_hctl s) /\
      ids s1 (l ++ l') = ids s l ++ cs /\ user s1 = user s /\
      same_list (throw_all (l ++ l') s1) s').
Proof.
  intros Hok. cbn zeta. unfold bind at 1.
  pose proof (create_loop_spec cs s l _ Hok) as Hc. destruct (create_loop cs s) as [r1 s1].
  destruct Hc as (l' & Hok1 & Hu & Hcb & Hr1). destruct (Z.ltb_spec r1 0) as [Hneg|Hpos].
  - pose proof (load_end_spec q r1 s1 _ _ Hok1) as He. unfold bind.
    destruct (load_end q r1 s1) as [r s2]. destruct He as [-> He].
    rewrite (proj2 (Z.ltb_lt r1 0)) in He by lia.
    exists r1, s2. split; [done|]. split; [done|lia].
  - destruct Hr1 as [->|[-> Hids]]; [done|]. unfold bind at 1 2 3, geth, nelems.
    rewrite (ok_first _ _ _ Hok1).
    destruct (throw_loop_spec (S (size (elems s1))) s1 [] (l ++ l') _ Hok1) as [Ht Hk].
    { pose proof (length_elems _ _ _ Hok1). lia. }
    rewrite Ht. destruct (keeps_ok _ _ _ _ Hk Hok1) as [Hok2 Hids2].
    set (s2 := throw_all (l ++ l') s1) in *. unfold bind.
    pose proof (subscribe_keeps (hctl_ctl (the_hctl s)) 1 s2) as Hk3.
    pose proof (onhp_same (snd_ctl_subscribe_events (hctl_ctl (the_hctl s)) 1) s2 Hk3) as Hs3.
    destruct (onhp _ s2) as [r s3]. destruct (keeps_ok _ _ _ _ Hk3 Hok2) as [Hok3 Hids3].
    pose proof (load_end_spec q r s3 _ _ Hok3) as He. destruct (load_end q r s3) as [r' s4].
    destruct He as [-> He]. exists r, s4. split; [done|]. destruct (Z.ltb_spec r 0); [split; [done|lia]|].
    split; [lia|]. intros _. destruct He as [Hok4 Hs4]. exists l', s1.
    assert (H4 : ids s4 (l ++ l') = ids s3 (l ++ l')).
    { unfold ids, id_at. destruct Hs4 as (_ & -> & _). done. }
    simpl in Hs3, Hids3. split; [done|]. split; [congruence|]. split; [done|]. split; [done|].
    split; [done|]. split; [done|]. etransitivity; done.
Qed.

(** Loading, with a card whose elements do not change meanwhile. *)
Lemma load_spec cs fuel s l frame :
  hctl_ok s l frame -> lists_card cs -> (0 < fuel)%nat ->
  exists r s', snd_hctl_load fuel s = (Some r, s') /\
    (r < 0 -> hctl_ok s' [] frame) /\
    (0 <= r -> exists l' s1 q,
      hctl_ok s' (l ++ l') frame /\ ids s' (l ++ l') = ids s l ++ cs /\
      hctl_ok s1 (l ++ l') (pids_block q ++ frame) /\
      hctl_callback (the_hctl s1) = hctl_callback (the_hctl s) /\
      ids s1 (l ++ l') = ids s l ++ cs /\ user s1 = user s /\
      same_list (throw_all (l ++ l') s1) s').
Proof.
  intros Hok Hlist Hfuel. destruct fuel as [|n]; [lia|].
  unfold snd_hctl_load. unfold bind at 1 2, geth.
  pose proof (elem_list_spec cs zero_list s l frame Hok Hlist) as H1.
  destruct (onhp (snd_ctl_elem_list _ zero_list) s) as [[r q] s1].
  destruct H1 as (Hs1 & Hok1 & Hb & Hq).
  assert (Hp : el_pids q = None) by (unfold pids_block in Hb; destruct (el_pids q) as [[]|]; done).
  destruct (Z.ltb_spec r 0) as [Hr|Hr].
  - assert (Hok1' : hctl_ok s1 l (pids_block q ++ frame)) by (rewrite Hb; done).
    pose proof (load_end_spec q r s1 l frame Hok1') as He. unfold bind.
    destruct (load_end q r s1) as [r' s2]. destruct He as [-> He].
    rewrite (proj2 (Z.ltb_lt r 0)) in He by lia. exists r, s2. split; [done|]. split; [done|lia].
  - destruct (Hq Hr) as (H2 & H3 & _). simpl in H3. rewrite Z.min_l in H3 by lia.
    pose proof (list_loop_spec cs n q s1 l frame Hok1 Hlist Hp H3 H2) as Hloop.
    assert (Hctl : the_hctl s1 = the_hctl s) by apply Hs1. rewrite Hctl in Hloop.
    unfold bind at 1. destruct (list_loop (S n) _ q s1) as [res s2].
    destruct Hloop as (r2 & q2 & -> & Hs2 & Hok2 & Hent).
    assert (Hids : ids s2 l = ids s l /\ user s2 = user s /\ the_hctl s2 = the_hctl s).
    { unfold ids, id_at, same_list in *. destruct Hs2 as (? & -> & ?), Hs1 as (? & -> & ?).
      intuition congruence. }
    destruct Hids as (Hi & Hu & Hh). destruct (Z.ltb_spec r2 0) as [Hr2|Hr2].
    + pose proof (load_end_spec q2 r2 s2 l frame Hok2) as He. unfold bind.
      destruct (load_end q2 r2 s2) as [r' s3]. destruct He as [-> He].
      rewrite (proj2 (Z.ltb_lt r2 0)) in He by lia. exists r2, s3. split; [done|]. split; [done|lia].
    + rewrite (Hent Hr2), <- Hi, <- Hu, <- Hh.
      destruct (load_names cs q2 s2 l frame Hok2) as (r3 & s3 & Hl & Hneg & Hpos).
      exists r3, s3. split; [exact Hl|]. split; [exact Hneg|]. intros Hr3.
      destruct (Hpos Hr3) as (l' & s4 & H). exists l', s4, q2. exact H.
Qed.

(** Loading, whatever the card answers and however its elements change: a load that has
    ended has lost nothing, one that has not holds one block. *)
Lemma load_keeps fuel s l frame :
  hctl_ok s l frame -> fills_list ->
  let '(r, s') := snd_hctl_load fuel s in
  exists l' leak, hctl_ok s' l' (leak ++ frame) /\
    match r with Some _ => leak = [] | None => (length leak <= 1)%nat end.
Proof.
  intros Hok Hfill. unfold snd_hctl_load. unfold bind at 1 2, geth.
  pose proof (elem_list_keeps zero_list s l frame Hok Hfill) as H1.
  destruct (onhp (snd_ctl_elem_list _ zero_list) s) as [[r q] s1]. destruct H1 as (Hs1 & Hok1 & Hb).
  assert (Hok1' : hctl_ok s1 l (pids_block q ++ frame)) by (rewrite Hb; done).
  destruct (r <? 0) eqn:Hr.
  - pose proof (load_end_spec q r s1 l frame Hok1') as He. unfold bind.
    destruct (load_end q r s1) as [r' s2]. destruct He as [-> He]. rewrite Hr in He. exists [], []. done.
  - pose proof (list_loop_keeps fuel q s1 l frame Hok1' Hfill) as Hloop.
    assert (Hctl : the_hctl s1 = the_hctl s) by apply Hs1. rewrite Hctl in Hloop.
    unfold bind at 1. destruct (list_loop fuel _ q s1) as [[[r2 q2]|] s2]; destruct Hloop as (Hs2 & q' & Hok2 & Hq).
    2:{ exists l, (pids_block q'). split; [exact Hok2|]. unfold pids_block. destruct (el_pids q') as [[]|]; simpl; lia. }
    subst q'. destruct (r2 <? 0) eqn:Hr2.
    + pose proof (load_end_spec q2 r2 s2 l frame Hok2) as He. unfold bind.
      destruct (load_end q2 r2 s2) as [r' s3]. destruct He as [-> He]. rewrite Hr2 in He. exists [], []. done.
    + assert (Hh : the_hctl s2 = the_hctl s) by (transitivity (the_hctl s1); [apply Hs2|apply Hs1]).
      rewrite <- Hh. destruct (load_names (entries q2) q2 s2 l frame Hok2) as (r3 & s3 & Hl & Hneg & Hpos).
      match goal with |- let '(r, s') := ?m in _ => replace m with (Some r3, s3) by (symmetry; exact Hl) end.
      destruct (Z.lt_ge_cases r3 0) as [H|H]; [exists [], []; auto|].
      destruct (Hpos H) as (l' & _ & Hok3 & _). exists (l ++ l'), []. done.
Qed.

Lemma same_elem_refl x : same_elem x x = true.
Proof. unfold same_elem. rewrite !Z.eqb_refl, String.eqb_refl. done. Qed.

(** The client is told of the new element [a]: its callback, where it has set one. *)
Definition tell_add (t : state) (a : Z) : state :=
  if hctl_callback (the_hctl t) =? 0 then t
  else (call_hctl (hctl_callback (the_hctl t)) MASK_ADD a t).2.

Lemma throw_all_told l t : throw_all l t = foldl tell_add t l.
Proof.
  unfold throw_all. revert t. induction l as [|a l IH]; intros t; simpl; [done|]. rewrite IH. f_equal.
  unfold snd_hctl_throw_event, tell_add, bind, geth, ret. destruct (Z.eqb_spec (hctl_callback (the_hctl t)) 0) as [->|Hn].
  - done.
  - rewrite (proj2 (nz_true _)) by done. done.
Qed.

(** C16. Loading a new handle, with a card whose elements do not change meanwhile
    ([lists_card]): [snd_hctl_load] returns after at most two requests.  If it succeeds, the
    handle has exactly the card's elements, in the card's order, and can find each of them by
    its name; the client's callback, as it was set before, was called with ADD for each
    element, once and in order, starting from the state [s1] in which the list was already
    whole and nothing of the client's had changed; and the elements and the client's data are
    what these calls left.  If it fails, the list is empty.  Nothing is leaked in either
    case. *)
Theorem hctl_load_complete (s : state) (frame : list resource) (cs : list snd_ctl_elem_id_t)
    (fuel : nat) :
  hctl_ok s [] frame -> lists_card cs -> Z.of_nat (length cs) <= UINT_MAX -> (0 < fuel)%nat ->
  exists r s', snd_hctl_load fuel s = (Some r, s') /\
    (r < 0 -> hctl_ok s' [] frame) /\
    (0 <= r -> exists l s1 q,
      hctl_ok s' l frame /\ ids s' l = cs /\ (snd_hctl_get_count s').1 = Z.of_nat (length cs) /\
      hctl_ok s1 l (pids_block q ++ frame) /\ ids s1 l = cs /\
      hctl_callback (the_hctl s1) = hctl_callback (the_hctl s) /\ user s1 = user s /\
      (let told := foldl tell_add s1 l in
       the_hctl s' = the_hctl told /\ elems s' = elems told /\ user s' = user told) /\
      forall x, x ∈ cs -> exists a,
        snd_hctl_find_elem x s' = (a, s') /\ a ∈ l /\ same_elem (id_at s' a) x = true).
Proof.
  intros Hok Hlist Hmax Hfuel.
  destruct (load_spec cs fuel s [] frame Hok Hlist Hfuel) as (r & s' & Hl & Hneg & Hpos).
  exists r, s'. split; [done|]. split; [done|]. intros Hr.
  destruct (Hpos Hr) as (l & s1 & q & Hok' & Hids & Hok1 & Hcb & Hids1 & Hu1 & Hu). simpl in *.
  rewrite throw_all_told in Hu. destruct Hu as (T1 & T2 & T3 & _).
  exists l, s1, q. split; [done|]. split; [done|]. split; [|do 5 (split; [done|])].
  - simpl. rewrite (ok_count _ _ _ Hok'), <- Hids. unfold ids. rewrite length_fmap.
    apply u32_id. unfold is_u32. rewrite <- Hids in Hmax. unfold ids in Hmax.
    rewrite length_fmap in Hmax. lia.
  - intros x Hx. rewrite (find_elem_spec _ _ _ _ Hok').
    assert (Hp : present x (ids s' l) = true).
    { unfold present. rewrite Hids. apply existsb_exists. exists x.
      split; [apply list_elem_of_In; done|apply same_elem_refl]. }
    apply find_present in Hp as [a Ha]. rewrite Ha. exists a. split; [done|].
    apply find_some in Ha as [Hin Hm]. split; [apply list_elem_of_In; done|done].
Qed.

(** ** The life of a handle *)

(** Handling events, whatever happens: nothing is lost unless an event was refused. *)
Lemma events_loop_ok n c s l frame :
  hctl_ok s l frame ->
  let '(r, s') := events_loop n c s in
  exists l' leak, hctl_ok s' l' (leak ++ frame) /\ (r <> Some (- EBUSY) -> leak = []) /\ (length leak <= 1)%nat.
Proof.
  revert c s l. induction n as [|n IH]; intros c s l Hok; simpl.
  - exists l, []. simpl. auto with lia.
  - unfold bind, geth. pose proof (read_next_keeps s) as Hk. unfold read_next in Hk.
    destruct (onhp _ s) as [[res ev] s1]. destruct (keeps_ok _ _ _ _ Hk Hok) as [Hok1 _].
    assert (Hdone : forall r, exists l' leak, hctl_ok s1 l' (leak ++ frame) /\
      (r <> Some (- EBUSY) -> leak = []) /\ (length leak <= 1)%nat)
      by (intros; exists l, []; simpl; auto with lia).
    destruct (res =? 0); [apply Hdone|]. destruct (res =? - EAGAIN); [apply Hdone|].
    destruct (res <? 0); [apply Hdone|]. clear Hdone.
    pose proof (handle_event_spec s1 l frame ev Hok1) as He. cbn zeta in He.
    destruct (snd_hctl_handle_event ev s1) as [r s2].
    assert (Hs2 : exists l' leak, hctl_ok s2 l' (leak ++ frame) /\ (r <> - EBUSY -> leak = []) /\
                                  (0 <= r -> leak = []) /\ (length leak <= 1)%nat).
    { destruct He as [(-> & _ & H & _)|He]; [exists l, []; simpl; auto with lia|].
      destruct (event_error _ _) as [e|] eqn:Hee.
      - destruct He as (-> & _ & leak & H & Hl). exists l, leak. split; [done|].
        destruct (Z.eqb_spec e (- EBUSY)) as [->|]; [destruct Hl as [a ->]|subst leak];
          (split; [|split]); simpl; auto with lia; done.
      - destruct He as (l' & H & _). exists l', []. simpl. auto with lia. }
    destruct Hs2 as (l' & leak & Hok2 & Hleak & Hpos & Hlen). destruct (Z.ltb_spec r 0).
    + exists l', leak. split; [done|]. split; [|done]. intros Hne. apply Hleak. congruence.
    + rewrite (Hpos ltac:(lia)) in Hok2. apply (IH _ _ l'). done.
Qed.

Lemma set_callback_ok cb s l frame :
  hctl_ok s l frame -> hctl_ok (snd_hctl_set_callback cb s).2 l frame.
Proof. intros [A1 A2 A3 A4 A5 A6 A7 A9 AC AM]. constructor; done. Qed.
End Spec.

(** ** Witnesses

    A client that keeps the list of the events it was called with. *)

#[export] Instance toy_client : HctlClient Z (list (Z * Z)) := {
  call_hctl _ mask elem := fun s => (0, HS (the_hctl s) (elems s) (hprc s) (user s ++ [(mask, elem)]));
  call_elem _ elem mask := fun s => (0, HS (the_hctl s) (elems s) (hprc s) (user s ++ [(mask, elem)]))
}.

#[export] Program Instance toy_client_laws : HctlClientLaws Z (list (Z * Z)) := {
  client_held _ := [];
  client_ok _ := True
}.
Next Obligation. intros. constructor; done. Qed.
Next Obligation. intros. constructor; done. Qed.

Definition toy_hctl : hs Z (list (Z * Z)) :=
  HS (Hctl 6000 toy_handle 7 0 0 0 0) ∅ toy_process [].

Definition toy_me : Z * snd_ctl_t * gmap Z Z := (6000, toy_handle, ∅).

Lemma toy_hctl_ok : hctl_ok toy_me toy_hctl [] [].
Proof.
  constructor; try done; try apply NoDup_nil_2; intros a; intros; exfalso;
    eapply elem_of_nil; eassumption.
Qed.

Definition toy_event : snd_ctl_event_t := Event EVENT_ELEM MASK_ADD added.

Lemma hctl_follows_events_witness :
  (snd_hctl_handle_events 2 toy_hctl).1 = Some 1 /\
  exists l', ids (snd_hctl_handle_events 2 toy_hctl).2 l' = [added].
Proof.
  pose (s1 := (snd_hctl_handle_event toy_event (read_next toy_hctl).2).2).
  pose proof (hctl_follows_events toy_me toy_hctl s1 s1 [] [] [toy_event] (Event EVENT_ELEM 0 zero_id) 2
    toy_hctl_ok) as H.
  assert (Hf : follows toy_hctl [toy_event] s1).
  { apply (follows_cons toy_hctl toy_event (read_next toy_hctl).2 0 s1 [] s1);
      [vm_compute; reflexivity|vm_compute; reflexivity|lia|constructor]. }
  destruct (H Hf ltac:(vm_compute; reflexivity) ltac:(simpl; lia) ltac:(simpl; unfold INT_MAX; lia))
    as [H1 (l' & _ & H2)].
  rewrite H1. split; [reflexivity|]. exists l'. exact H2.
Defined.

Lemma toy_lists : lists_card (K := Z) card_ids.
Proof.
  intros fd q k. simpl. split; [destruct (el_pids q) as [[]|]; done|]. intros _.
  split; [done|]. split; [done|]. intros a old ->. done.
Qed.

(** The client is told of two elements, after one another. *)
Lemma hctl_load_complete_witness :
  exists s' a b, snd_hctl_load 1 toy_hctl = (Some 0, s') /\ (snd_hctl_get_count s').1 = 2 /\
    user s' = [(MASK_ADD, a); (MASK_ADD, b)] /\ ids s' [a; b] = card_ids.
Proof.
  destruct (hctl_load_complete toy_me toy_hctl [] card_ids 1 toy_hctl_ok toy_lists
    ltac:(unfold UINT_MAX; simpl; lia) ltac:(lia)) as (r & s' & H1 & _ & H2).
  assert (Hr : r = 0).
  { assert (He : (snd_hctl_load 1 toy_hctl).1 = Some 0) by (vm_compute; reflexivity).
    rewrite H1 in He. simpl in He. congruence. }
  subst r. destruct (H2 ltac:(lia)) as (l & s1 & q & _ & Hi & H3 & _ & _ & Hcb & Hu & (_ & _ & Ht) & _).
  assert (Hlen : length l = 2%nat).
  { apply (f_equal length) in Hi. unfold ids in Hi. rewrite length_fmap in Hi. exact Hi. }
  destruct l as [|a [|b [|]]]; try discriminate Hlen. exists s', a, b. split; [exact H1|]. split; [exact H3|].
  split; [|exact Hi]. rewrite Ht. simpl in Hcb. cbn [foldl]. unfold tell_add. rewrite Hcb. simpl. rewrite Hcb, Hu.
  reflexivity.
Defined.

(** The second handset of a card with two of them. *)
Definition second : snd_ctl_elem_id_t := ElemId 4 IFACE_MIXER 1 0 "PCM Playback Volume" 0.

Lemma hctl_devices_confused_witness :
  let s := (snd_hctl_handle_event toy_event toy_hctl).2 in
  exists l', ids (snd_hctl_handle_event (Event EVENT_ELEM MASK_REMOVE second) s).2 l' = [].
Proof.
  cbn zeta. set (s := (snd_hctl_handle_event toy_event toy_hctl).2).
  pose proof (handle_event_spec toy_me toy_hctl [] [] toy_event toy_hctl_ok) as Hs.
  cbn zeta in Hs. assert (He : snd_hctl_handle_event toy_event toy_hctl = (0, s)) by (vm_compute; reflexivity).
  rewrite He in Hs. destruct Hs as [(Hs & _)|(l & Hok & Hids)]; [done|].
  pose proof (hctl_devices_confused toy_me s l [] added second [] [] MASK_ADD Hok Hids
    eq_refl eq_refl ltac:(unfold MASK_ADD, MASK_REMOVE, UINT_MAX; lia) eq_refl) as H.
  destruct (snd_hctl_handle_event (Event EVENT_ELEM MASK_ADD second) s) as [r s1].
  destruct (snd_hctl_handle_event (Event EVENT_ELEM MASK_REMOVE second) s) as [r' s2].
  destruct H as [_ (l' & _ & H)]. exists l'. exact H.
Defined.
