(* ===== verification/HcontrolLife.v ===== *)
(** * The life of a control session

    From opening a handle to closing it (src/src/hcontrol.c 41-75): whatever a client
    does between the two, the descriptor, the control handle and every element are
    given back. *)

From stdpp Require Import gmap.
From S2P Require Import Prelude CInt Sys Cards Async CtlTypes Control ControlSpec Hcontrol.
From S2P Require Import HcontrolSpec Toy.
#[local] Open Scope Z_scope.

Lemma Permutation_rev3 {A} (x y z : A) l : x :: y :: z :: l ≡ₚ z :: y :: x :: l.
Proof.
  rewrite (Permutation_swap z y), (Permutation_swap z x), (Permutation_swap y x). done.
Qed.

Section Life.
Context {K U : Type} `{!Os K, !OsLaws K, !AsyncKernel K, !CardKernel K, !CtlKernel K}.
Context `{!HctlClient K U, !HctlClientLaws K U}.

(** What a client does with a handle between opening and closing. *)
Inductive hop :=
  | HLoad (fuel : nat)
  | HEvents (fuel : nat)
  | HFind (id : snd_ctl_elem_id_t)
  | HSetCallback (callback : Z)
  | HFree.

Definition run_op (o : hop) : io (hs K U) (option Z) :=
  match o with
  | HLoad fuel => snd_hctl_load (S fuel)
  | HEvents fuel => snd_hctl_handle_events fuel
  | HFind id => let* a := snd_hctl_find_elem id in ret (Some a)
  | HSetCallback cb => let* _ := snd_hctl_set_callback cb in ret (Some 0)
  | HFree => let* r := snd_hctl_free in ret (Some r)
  end.

Fixpoint run_ops (os : list hop) : io (hs K U) (list (option Z)) :=
  match os with
  | [] => ret []
  | o :: os => let* r := run_op o in let* rs := run_ops os in ret (r :: rs)
  end.

(** The calls that may lose a block, and their number in a session: an event was refused
    (a [snd_hctl_handle_events] that answers -EBUSY, as it does for an element whose name is
    taken), or a load has not come to its end. *)
Definition lossy (o : hop) (r : option Z) : bool :=
  match o, r with
  | HLoad _, None => true
  | HEvents _, Some e => e =? - EBUSY
  | _, _ => false
  end.

Fixpoint losses {A B} (f : A -> B -> bool) (os : list A) (rs : list B) : nat :=
  match os, rs with
  | o :: os, r :: rs => ((if f o r then 1 else 0) + losses f os rs)%nat
  | _, _ => 0
  end.

Context (me : Z * snd_ctl_t * gmap Z Z) (Hfill : fills_list (K := K)).

Lemma run_op_ok o s l frame :
  hctl_ok me s l frame ->
  let '(r, s') := run_op o s in
  exists l' leak, hctl_ok me s' l' (leak ++ frame) /\ (length leak <= if lossy o r then 1 else 0)%nat.
Proof using Hfill OsLaws0.
  intros Hok. destruct o as [fuel|fuel|id|cb|]; cbn [run_op].
  - pose proof (load_keeps me (S fuel) s l frame Hok Hfill) as H.
    destruct (snd_hctl_load (S fuel) s) as [r s']. destruct H as (l' & leak & Hok' & Hl).
    exists l', leak. split; [done|]. destruct r; [subst leak|]; done.
  - pose proof (events_loop_ok me fuel 0 s l frame Hok) as H. unfold snd_hctl_handle_events.
    destruct (events_loop fuel 0 s) as [r s']. destruct H as (l' & leak & Hok' & Hl & Hlen).
    exists l', leak. split; [done|]. destruct r as [e|]; simpl; [|rewrite Hl; done].
    destruct (Z.eqb_spec e (- EBUSY)); [done|]. rewrite Hl by congruence. done.
  - unfold bind. rewrite (find_elem_spec me _ _ _ _ Hok). exists l, []. done.
  - unfold bind. pose proof (set_callback_ok me cb s l frame Hok) as H.
    destruct (snd_hctl_set_callback cb s) as [[] s1]. exists l, []. done.
  - unfold bind. pose proof (hctl_free_spec me s l frame Hok) as H.
    destruct (snd_hctl_free s) as [r s1]. exists [], []. done.
Qed.

Lemma run_ops_ok os s l frame :
  hctl_ok me s l frame ->
  let '(rs, s') := run_ops os s in
  exists l' leak, hctl_ok me s' l' (leak ++ frame) /\ (length leak <= losses lossy os rs)%nat.
Proof using Hfill OsLaws0.
  revert s l frame. induction os as [|o os IH]; intros s l frame Hok; simpl.
  - exists l, []. done.
  - unfold bind. pose proof (run_op_ok o s l frame Hok) as H1. destruct (run_op o s) as [r s1].
    destruct H1 as (l1 & leak1 & Hok1 & Hl1). specialize (IH s1 l1 _ Hok1).
    destruct (run_ops os s1) as [rs s2]. destruct IH as (l2 & leak2 & Hok2 & Hl2).
    rewrite (assoc_L (++)) in Hok2. exists l2, (leak2 ++ leak1). split; [done|].
    rewrite length_app. cbn [losses ret fst snd]. lia.
Qed.

(** Closing gives back the handle, its control handle and its elements. *)
Lemma hctl_close_spec s l rest :
  ptrs (hprc s) !! ctl_async_loc (hctl_ctl (the_hctl s)) = None ->
  hctl_ok me s l (RMem (hctl_block (the_hctl s)) :: RMem (ctl_block (hctl_ctl (the_hctl s))) ::
                  RFd (ctl_fd (hctl_ctl (the_hctl s))) :: rest) ->
  let '(r, s') := snd_hctl_close s in
  r = 0 /\ ledger s' ≡ₚ client_held (user s') ++ rest /\ client_ok (user s').
Proof.
  intros Hptr Hok. unfold snd_hctl_close. unfold bind at 1.
  pose proof (hctl_free_spec me s l _ Hok) as H1. pose proof (ok_me _ _ _ _ Hok) as Hme.
  destruct (snd_hctl_free s) as [r0 s1]. simpl in H1.
  pose proof (ok_me _ _ _ _ H1) as Hme1. rewrite <- Hme in Hme1. unfold identity in Hme1.
  injection Hme1 as Hb Hc Hp. pose proof (ok_held _ _ _ _ H1) as Hh. simpl in Hh.
  unfold bind at 1, geth. unfold bind at 1, onhp at 1.
  pose proof (ctl_close_spec (hctl_ctl (the_hctl s1)) (hprc s1)) as Hcl.
  rewrite Hp, Hc in Hcl. specialize (Hcl Hptr). rewrite Hc.
  destruct (snd_ctl_close _ (hprc s1)) as [r1 p1]. destruct Hcl as [_ Hcl].
  unfold bind. unfold onhp. rewrite onsys_eq. unfold sys_free, drop_resource. simpl.
  split; [done|]. split; [|exact (ok_client _ _ _ _ H1)]. unfold ledger in *. simpl. rewrite Hb, Hcl, Hh.
  assert (Hperm : client_held (user s1) ++ RMem (hctl_block (the_hctl s)) ::
    RMem (ctl_block (hctl_ctl (the_hctl s))) :: RFd (ctl_fd (hctl_ctl (the_hctl s))) :: rest
    ≡ₚ RFd (ctl_fd (hctl_ctl (the_hctl s))) :: RMem (ctl_block (hctl_ctl (the_hctl s))) ::
       RMem (hctl_block (the_hctl s)) :: client_held (user s1) ++ rest).
  { rewrite <- !Permutation_middle. apply Permutation_rev3. }
  rewrite Hperm, !release_head. done.
Qed.

End Life.

Section Session.
Context {K U : Type} `{!Os K, !OsLaws K, !AsyncKernel K, !CardKernel K, !CtlKernel K}.
Context `{!HctlClient K U, !HctlClientLaws K U}.

(** What [snd_hctl_open] leaves, on every path. *)
Lemma hctl_open_spec name mode (p : proc K) :
  let '(r, h, p') := snd_hctl_open name mode p in
  match h with
  | None => r < 0 /\ held (wld p') ≡ₚ held (wld p)
  | Some h =>
      r = 0 /\ ptrs p' !! ctl_async_loc (hctl_ctl h) = None /\
      h = Hctl (hctl_block h) (hctl_ctl h) 0 0 0 0 0 /\
      held (wld p') ≡ₚ RMem (hctl_block h) :: RMem (ctl_block (hctl_ctl h)) ::
                       RFd (ctl_fd (hctl_ctl h)) :: held (wld p)
  end.
Proof.
  unfold snd_hctl_open, bind at 1. pose proof (ctl_open_spec name mode p) as H.
  destruct (snd_ctl_open name mode p) as [[r [ctl|]] p1]; [|simpl; destruct H as [? ->]; done].
  destruct H as (-> & Hh & Hp & _). unfold bind at 1, snd_hctl_open_ctl. unfold bind at 1.
  rewrite onsys_eq. unfold sys_alloc, bind at 1, lift.
  destruct (os_alloc _ _ _) as [[a|] k]; simpl.
  - rewrite Hh. done.
  - unfold bind. set (p2 := Proc _ _ _ _). pose proof (ctl_close_spec ctl p2 Hp) as Hc.
    destruct (snd_ctl_close ctl p2) as [c p3]. destruct Hc as [_ Hc]. simpl.
    split; [unfold ENOMEM; lia|]. unfold p2 in Hc. simpl in Hc. rewrite Hc, Hh.
    rewrite (Permutation_swap (RFd (ctl_fd ctl)) (RMem (ctl_block ctl))), !release_head. done.
Qed.

(** C7. No leak over a control session: a failed [snd_hctl_open] gives back everything
    it took; after a successful one, any sequence of loading, event handling, searching,
    callback setting and freeing, successful or not, followed by [snd_hctl_close],
    leaves the process with what it held before and what the client itself holds - and at
    most one block ([leak]) for each call of [snd_hctl_handle_events] that answered -EBUSY,
    as it does when an event was refused because its element's name was taken, and for each
    [snd_hctl_load] that has not come to its end; where there is no such call ([losses] is
    0) nothing is lost.  The card's elements may change at any time: of the driver it is
    supposed only that ELEM_LIST writes into the array it is given, within its room, and
    leaves its address alone ([fills_list]). *)
Theorem hctl_session_balanced (name : string) (mode : Z) (ops : list hop) (p : proc K) (u : U)
    (frame : list resource) :
  fills_list (K := K) -> client_ok u -> held (wld p) ≡ₚ client_held u ++ frame ->
  let '(r, h, p1) := snd_hctl_open name mode p in
  match h with
  | None => r < 0 /\ held (wld p1) ≡ₚ held (wld p)
  | Some h =>
      r = 0 /\
      let '(rs, s) := run_ops ops (HS h ∅ p1 u) in
      let '(rc, s') := snd_hctl_close s in
      rc = 0 /\ exists leak, (length leak <= losses lossy ops rs)%nat /\
        ledger s' ≡ₚ leak ++ client_held (user s') ++ frame
  end.
Proof.
  intros Hfill Hcu Hp. pose proof (hctl_open_spec name mode p) as H.
  destruct (snd_hctl_open name mode p) as [[r [h|]] p1]; [|exact H].
  destruct H as (-> & Hptr & Hnew & Hh). split; [done|].
  set (s0 := HS h ∅ p1 u). set (base := RMem (hctl_block h) :: RMem (ctl_block (hctl_ctl h)) ::
    RFd (ctl_fd (hctl_ctl h)) :: frame).
  assert (Hok : hctl_ok (identity s0) s0 [] base).
  { constructor; unfold s0; simpl; try (rewrite Hnew; done); try done; try apply NoDup_nil_2.
    - intros a []%elem_of_nil.
    - unfold ledger, base. simpl. rewrite Hh, Hp. rewrite <- !Permutation_middle. done. }
  pose proof (run_ops_ok (identity s0) Hfill ops s0 [] base Hok) as Hr.
  destruct (run_ops ops s0) as [rs s1]. destruct Hr as (l & leak & Hok1 & Hleak).
  pose proof (ok_me _ _ _ _ Hok1) as Hme. unfold identity, s0 in Hme. simpl in Hme.
  injection Hme as Hb Hc Hpt.
  pose proof (hctl_close_spec (identity s0) s1 l (leak ++ frame)) as Hcl. rewrite Hpt, Hc, Hb in Hcl.
  specialize (Hcl Hptr). destruct (snd_hctl_close s1) as [rc s2]. destruct Hcl as (-> & Hl & _).
  { apply (hctl_ok_frame _ _ _ _ _ Hok1). unfold base. rewrite <- !Permutation_middle. done. }
  split; [done|]. exists leak. split; [done|]. rewrite Hl. apply Permutation_app_swap_app.
Qed.
End Session.

(** ** Witness *)

Definition toy_ops : list hop := [HSetCallback 7; HLoad 0; HEvents 3; HFind master; HFree; HLoad 2].

Lemma hctl_session_balanced_witness :
  let '(r, h, p1) := snd_hctl_open "hw:0" 0 toy_process in
  match h with
  | None => False
  | Some h =>
      let '(rs, s) := run_ops toy_ops (HS h ∅ p1 ([] : list (Z * Z))) in
      rs = [Some 0; Some 0; Some 1; Some 1000004; Some 0; Some 0] /\
      ledger (snd_hctl_close s).2 ≡ₚ []
  end.
Proof.
  pose proof (hctl_session_balanced "hw:0" 0 toy_ops toy_process ([] : list (Z * Z)) []
    (lists_fills card_ids toy_lists) I (Permutation_refl _)) as H.
  assert (He : match snd_hctl_open "hw:0" 0 toy_process with
    | (_, Some h, p1) => (run_ops toy_ops (HS h ∅ p1 ([] : list (Z * Z)))).1 =
        [Some 0; Some 0; Some 1; Some 1000004; Some 0; Some 0]
    | _ => False
    end) by (vm_compute; reflexivity).
  destruct (snd_hctl_open "hw:0" 0 toy_process) as [[r [h|]] p1]; [|exact He].
  destruct (run_ops toy_ops _) as [rs s]. simpl in He. subst rs. split; [reflexivity|].
  destruct H as [_ H]. destruct (snd_hctl_close s) as [rc s']. destruct H as (_ & leak & Hlen & H).
  destruct leak; [exact H|]. exfalso. simpl in Hlen. lia.
Defined.
