(* ===== verification/CtlAscii.v ===== *)
(** * Element names and values as text

    src/src/control.c 826-950 (SALSA_CTL_ASCII_PARSER): printing and parsing an
    element's name, and parsing a value, with what they use of the C library's
    [sscanf], [strsep], [strtol] and [strncasecmp]. *)

From stdpp Require Import pretty gmap.
From Stdlib Require Import Ascii String.
From S2P Require Import Prelude CInt Sys Cards Async CtlTypes Control ControlSpec Toy.
#[local] Open Scope Z_scope.

(* [control.c 350-358 _snd_ctl_elem_iface_names] *)
Definition _snd_ctl_elem_iface_names : list string :=
  ["CARD"; "HWDEP"; "MIXER"; "PCM"; "RAWMIDI"; "TIMER"; "SEQUENCER"]%string.

(* [control.c 340-348 _snd_ctl_elem_type_names] *)
Definition _snd_ctl_elem_type_names : list string :=
  ["NONE"; "BOOLEAN"; "INTEGER"; "ENUMERATED"; "BYTES"; "IEC958"; "INTEGER64"]%string.

(* [control.c 360-362 _snd_ctl_event_type_names] *)
Definition _snd_ctl_event_type_names : list string := ["ELEM"]%string.

(** ** Printing *)

(** [snprintf(buf + len, sizeof(buf) - len, ...)] where [s] is what it prints: 255
    characters fit, the length counts all. *)
Definition print_at (len : Z) (buf s : string) : Z * string :=
  (len + Z.of_nat (String.length s),
   String.append buf (substring 0 (Z.to_nat (255 - len)) s)).

(** [if (len < sizeof(buf) && field > 0) len += snprintf(..., format, field);]: a field
    that is unsigned but printed with [%d]. *)
Definition print_field (name : string) (v : Z) (p : Z * string) : Z * string :=
  let '(len, buf) := p in
  if (len <? 256) && (0 <? v) then print_at len buf (String.append name (pretty (s32 v))) else p.

(** The text; [None] where the interface has no name. *)
(* [control.c 830-848 snd_ctl_ascii_elem_id_get] *)
Definition ascii_elem_id (id : snd_ctl_elem_id_t) : option string :=
  match nth_error _snd_ctl_elem_iface_names (Z.to_nat (iface id)) with
  | None => None
  | Some iface =>
      let p := print_at 0 ""
        (String.append "numid=" (String.append (pretty (numid id)) (String.append ",iface="
          (String.append iface (String.append ",name='" (String.append (id_name id) "'")))))) in
      let p := print_field ",index=" (id_index id) p in
      let p := print_field ",device=" (id_device id) p in
      let p := print_field ",subdevice=" (id_subdevice id) p in
      Some p.2
  end.

(** ** Parsing a name *)

(** [strsep(&s, ",")] until NULL. *)
Fixpoint strsep (s : string) : list string :=
  match s with
  | EmptyString => [EmptyString]
  | String c s =>
      if Ascii.eqb c "," then EmptyString :: strsep s
      else match strsep s with
           | t :: ts => String c t :: ts
           | [] => [String c EmptyString]
           end
  end.

(** The conversion [%n[^x]]: at most [n] characters up to an [x], and at least one. *)
Fixpoint scan_upto (n : nat) (x : ascii) (s : string) : string :=
  match n, s with
  | S n, String c s => if Ascii.eqb c x then EmptyString else String c (scan_upto n x s)
  | _, _ => EmptyString
  end.

Definition scan_set (prefix : string) (n : nat) (x : ascii) (s : string) : option string :=
  match after_prefix prefix s with
  | Some s => match scan_upto n x s with EmptyString => None | t => Some t end
  | None => None
  end.

(** [sscanf(p, "prefix%d", &field) == 1], the field being unsigned. *)
Definition scan_number (prefix s : string) : option Z :=
  match after_prefix prefix s with
  | Some s => option_map (fun '(v, _) => u32 v) (scan_d s)
  | None => None
  end.

Fixpoint index_of (i : Z) (s : string) (l : list string) : option Z :=
  match l with
  | [] => None
  | x :: l => if String.eqb s x then Some i else index_of (i + 1) s l
  end.

Definition set_numid v (d : snd_ctl_elem_id_t) := ElemId v (iface d) (id_device d) (id_subdevice d) (id_name d) (id_index d).
Definition set_iface v (d : snd_ctl_elem_id_t) := ElemId (numid d) v (id_device d) (id_subdevice d) (id_name d) (id_index d).
Definition set_device v (d : snd_ctl_elem_id_t) := ElemId (numid d) (iface d) v (id_subdevice d) (id_name d) (id_index d).
Definition set_subdevice v (d : snd_ctl_elem_id_t) := ElemId (numid d) (iface d) (id_device d) v (id_name d) (id_index d).
Definition set_name v (d : snd_ctl_elem_id_t) := ElemId (numid d) (iface d) (id_device d) (id_subdevice d) v (id_index d).
Definition set_index v (d : snd_ctl_elem_id_t) := ElemId (numid d) (iface d) (id_device d) (id_subdevice d) (id_name d) v.

(** What one token does to the name. *)
Inductive token :=
  | TokOk (dst : snd_ctl_elem_id_t)
  | TokBad                              (* -EINVAL *)
  | TokOverflow.                        (* 20 characters and a NUL into [iface[20]] *)

(* [control.c 856-880 snd_ctl_ascii_elem_id_parse] *)
Definition parse_token (p : string) (dst : snd_ctl_elem_id_t) : token :=
  match scan_set "iface=" 20 "," p with
  | Some name =>
      if (20 <=? String.length name)%nat then TokOverflow
      else match index_of 0 name _snd_ctl_elem_iface_names with
           | Some i => TokOk (set_iface i dst)
           | None => TokBad
           end
  | None =>
  match scan_set "name='" 42 "'" p with
  | Some name => TokOk (set_name name dst)
  | None =>
  match scan_number "numid=" p with
  | Some v => TokOk (set_numid v dst)
  | None =>
  match scan_number "index=" p with
  | Some v => TokOk (set_index v dst)
  | None =>
  match scan_number "device=" p with
  | Some v => TokOk (set_device v dst)
  | None =>
  match scan_number "subdevice=" p with
  | Some v => TokOk (set_subdevice v dst)
  | None => TokBad
  end end end end end end.

Fixpoint parse_tokens (ts : list string) (dst : snd_ctl_elem_id_t) : option (Z * snd_ctl_elem_id_t) :=
  match ts with
  | [] => Some (0, dst)
  | t :: ts =>
      match parse_token t dst with
      | TokOk dst => parse_tokens ts dst
      | TokBad => Some (- EINVAL, dst)
      | TokOverflow => None
      end
  end.

(** The code and the name; [None] where the code writes outside [iface].  The commas of
    the caller's string become NULs. *)
(* [control.c 850-882 snd_ctl_ascii_elem_id_parse] *)
Definition snd_ctl_ascii_elem_id_parse (dst : snd_ctl_elem_id_t) (str : string)
  : option (Z * snd_ctl_elem_id_t) :=
  parse_tokens (strsep str) dst.

(** ** Parsing a value *)

(** [strtol(s, NULL, 0)] and [strtoll]: 0 where there is no number. *)
Definition strtol (s : string) : Z :=
  let '(neg, s) := signed (skip_space s) in
  let '(base, s) :=
    match s with
    | String "0" (String ("x" | "X") s') =>
        match s' with
        | String c _ => match digit 16 c with Some _ => (16, s') | None => (8, s) end
        | EmptyString => (8, s)
        end
    | String "0" _ => (8, s)
    | _ => (10, s)
    end in
  match digits base s 0 false with
  | Some (v, _) =>
      let v := if neg then - v else v in
      if LONG_MAX <? v then LONG_MAX else if v <? - LONG_MAX - 1 then - LONG_MAX - 1 else v
  | None => 0
  end.

(** [tolower] in the C locale. *)
Definition tolower (c : ascii) : Z :=
  let n := Cards.code c in if (65 <=? n) && (n <=? 90) then n + 32 else n.

(** [strncasecmp(a, b, n)], 0 where the first [n] characters agree. *)
Fixpoint strncasecmp (a b : string) (n : nat) : Z :=
  match n with
  | O => 0
  | S n =>
      match a, b with
      | EmptyString, EmptyString => 0
      | EmptyString, String d _ => - tolower d
      | String c _, EmptyString => tolower c
      | String c a, String d b =>
          if tolower c =? tolower d then strncasecmp a b n else tolower c - tolower d
      end
  end.

(* [control.c 884-895 match_yes] *)
Definition match_yes (ptr : string) : bool :=
  existsb (fun p => nz (strncasecmp ptr p (String.length p))) ["on"; "up"; "yes"; "true"]%string.

(** The text from its first comma on. *)
(* [control.c 945-946 snd_ctl_ascii_value_parse] *)
Fixpoint skip_item (s : string) : string :=
  match s with
  | String c s' => if Ascii.eqb c "," then s else skip_item s'
  | EmptyString => s
  end.

Section Values.
Context {K : Type} `{!Os K, !AsyncKernel K, !CardKernel K, !CtlKernel K}.

Definition set_item (i : Z) (info : snd_ctl_elem_info_t) : snd_ctl_elem_info_t :=
  let e := info_enumerated_value info in
  ElemInfo (info_id info) (info_type info) (info_access info) (info_count info) (info_owner info)
    (info_integer_value info) (InfoEnumerated (items e) i (item_name e) (names e)) (dimen info).

(** The loop over the items; [n] items are left at most, the kernel's answers say how
    many there are. *)
Fixpoint enum_loop (n : nat) (i : Z) (handle : snd_ctl_t) (info : snd_ctl_elem_info_t) (ptr : string)
  : io (proc K) (Z * snd_ctl_elem_info_t) :=
  match n with
  | O => ret (-1, info)
  | S n =>
      if i <? items (info_enumerated_value info) then
        let* '(r, info) := snd_ctl_elem_info handle (set_item i info) in
        if r <? 0 then ret (-1, info)
        else
          let name := item_name (info_enumerated_value info) in
          if String.prefix name ptr then ret (i, info) else enum_loop n (i + 1) handle info ptr
      else ret (-1, info)
  end.

(** [fuel] is to be as many as there are items. *)
(* [control.c 897-911 get_enum_index] *)
Definition get_enum_index (fuel : nat) (handle : snd_ctl_t) (info : snd_ctl_elem_info_t) (ptr : string)
  : io (proc K) (Z * snd_ctl_elem_info_t) :=
  enum_loop fuel 0 handle info ptr.

Definition set_integer (i v : Z) (d : snd_ctl_elem_value_t) : snd_ctl_elem_value_t :=
  ElemValue (val_id d) (upd i (fun _ => v) (val_integer d)) (val_enumerated d) (val_bytes d) (val_iec958 d).

Definition set_enumerated (i v : Z) (d : snd_ctl_elem_value_t) : snd_ctl_elem_value_t :=
  ElemValue (val_id d) (val_integer d) (upd i (fun _ => v) (val_enumerated d)) (val_bytes d) (val_iec958 d).

Fixpoint value_loop (n fuel : nat) (idx : Z) (handle : snd_ctl_t) (dst : snd_ctl_elem_value_t)
  (info : snd_ctl_elem_info_t) (ptr : string)
  : io (proc K) (Z * snd_ctl_elem_value_t * snd_ctl_elem_info_t) :=
  match n with
  | O => ret (0, dst, info)
  | S n =>
      if (idx <? info_count info) && negb (String.eqb ptr "") then
        if info_type info =? TYPE_ENUMERATED then
          let* '(tmp, info) := get_enum_index fuel handle info ptr in
          if tmp <? 0 then ret (- EINVAL, dst, info)
          else value_loop n fuel (idx + 1) handle (set_enumerated idx tmp dst) info (skip_item ptr)
        else
          let dst :=
            if info_type info =? TYPE_BOOLEAN then
              let tmp :=
                if strncasecmp ptr "toggle" 6 =? 0 then b2z (nthz 0 (val_integer dst) idx =? 0)
                else if match_yes ptr || String.prefix "1" ptr then 1 else 0 in
              set_integer idx tmp dst
            else if (info_type info =? TYPE_INTEGER) || (info_type info =? TYPE_INTEGER64)
            then set_integer idx (strtol ptr) dst
            else dst in
          value_loop n fuel (idx + 1) handle dst info (skip_item ptr)
      else ret (0, dst, info)
  end.

(** At most 128 values. *)
(* [control.c 913-949 snd_ctl_ascii_value_parse] *)
Definition snd_ctl_ascii_value_parse (fuel : nat) (handle : snd_ctl_t) (dst : snd_ctl_elem_value_t)
  (info : snd_ctl_elem_info_t) (ptr : string)
  : io (proc K) (Z * snd_ctl_elem_value_t * snd_ctl_elem_info_t) :=
  value_loop 128 fuel 0 handle dst info ptr.
End Values.

(** ** Decimal numbers read back *)

Definition clean (x : ascii) (s : string) : Prop := scan_upto (String.length s) x s = s.

Lemma clean_cons x c s : clean x (String c s) <-> c <> x /\ clean x s.
Proof.
  unfold clean. simpl. destruct (Ascii.eqb_spec c x) as [->|Hne].
  - split; [done|]. intros [[] _]. done.
  - split; [intros [= H]; auto|]. intros [_ ->]. done.
Qed.

Lemma digit_char n : (n < 10)%N ->
  digit 10 (pretty_N_char n) = Some (Z.of_N n) /\ pretty_N_char n <> ","%char.
Proof.
  intros Hn. destruct n as [|p]; [split; done|].
  do 4 (destruct p as [p|p|]; try (split; done); try lia).
Qed.

(** The digits of a number, before [s]. *)
Lemma digits_go x s :
  (0 < x)%N -> exists k, forall acc seen,
    digits 10 (pretty_N_go x s) acc seen = digits 10 s (acc * k + Z.of_N x) true.
Proof.
  revert s. induction (N.lt_wf_0 x) as [x _ IH]. intros s Hx. rewrite pretty_N_go_step by done.
  destruct (digit_char (x mod 10)) as [Hd _]; [apply N.mod_upper_bound; done|].
  pose proof (N.div_mod x 10 ltac:(done)) as Hdm.
  destruct (decide (x / 10 = 0)%N) as [H0|H0].
  - exists 10. intros acc seen. rewrite H0, pretty_N_go_0. simpl. rewrite Hd. f_equal. lia.
  - assert (Hlt : (x / 10 < x)%N) by (apply N.div_lt; lia).
    assert (Hpos : (0 < x / 10)%N) by (apply N.neq_0_lt_0; done).
    destruct (IH _ Hlt (String (pretty_N_char (x mod 10)) s) Hpos) as [k Hk].
    exists (k * 10). intros acc seen. rewrite Hk. simpl. rewrite Hd. f_equal. lia.
Qed.

Lemma clean_go x s : (0 < x)%N -> clean "," s -> clean "," (pretty_N_go x s).
Proof.
  revert s. induction (N.lt_wf_0 x) as [x _ IH]. intros s Hx Hs. rewrite pretty_N_go_step by done.
  assert (Hs' : clean "," (String (pretty_N_char (x mod 10)) s)).
  { apply clean_cons. split; [|done]. apply digit_char, N.mod_upper_bound. done. }
  destruct (decide (x / 10 = 0)%N) as [H0|H0]; [rewrite H0, pretty_N_go_0; done|].
  apply IH; [apply N.div_lt; lia|apply N.neq_0_lt_0; done|done].
Qed.

(** A number starts with a digit. *)
Definition starts_digit (s : string) : Prop :=
  match s with String c _ => is_Some (digit 10 c) | EmptyString => False end.

Lemma starts_go x s : (0 < x)%N -> starts_digit (pretty_N_go x s).
Proof.
  revert s. induction (N.lt_wf_0 x) as [x _ IH]. intros s Hx. rewrite pretty_N_go_step by done.
  destruct (decide (x / 10 = 0)%N) as [H0|H0].
  - rewrite H0, pretty_N_go_0. simpl. destruct (digit_char (x mod 10)) as [-> _]; [|eauto].
    apply N.mod_upper_bound. done.
  - apply IH; [apply N.div_lt; lia|apply N.neq_0_lt_0; done].
Qed.

Lemma digit_plain c v : digit 10 c = Some v -> isspace c = false /\ c <> "-"%char /\ c <> "+"%char.
Proof. destruct c as [[] [] [] [] [] [] [] []]; try discriminate; intros _; split; done. Qed.

Lemma scan_digits s : starts_digit s -> skip_space s = s /\ signed s = (false, s).
Proof.
  destruct s as [|c s]; [done|]. intros [v Hv]. destruct (digit_plain c v Hv) as (H1 & H2 & H3).
  simpl. rewrite H1. split; [done|]. destruct c as [[] [] [] [] [] [] [] []]; done.
Qed.

Lemma pretty_pos (p : positive) :
  digits 10 (pretty (Npos p)) 0 false = Some (Z.pos p, EmptyString) /\
  starts_digit (pretty (Npos p)) /\ clean "," (pretty (Npos p)).
Proof.
  assert (He : pretty (Npos p) = pretty_N_go (Npos p) "") by done. rewrite He.
  split; [|split; [apply starts_go; lia|apply clean_go; [lia|done]]].
  destruct (digits_go (Npos p) "") as [k Hk]; [lia|]. rewrite Hk. done.
Qed.

(** What [%d] prints, [%d] reads. *)
Lemma scan_pretty z :
  is_s64 z -> scan_d (pretty z) = Some (s32 z, EmptyString) /\ clean "," (pretty z).
Proof.
  unfold is_s64. intros Hz. destruct z as [|p|p]; [done| |].
  - destruct (pretty_pos p) as (H1 & H2 & H3). assert (He : pretty (Z.pos p) = pretty (Npos p)) by done.
    rewrite He. split; [|done]. unfold scan_d. destruct (scan_digits _ H2) as [-> ->]. rewrite H1.
    unfold to_int. destruct (Z.ltb_spec LONG_MAX (Z.pos p)); [lia|].
    destruct (Z.ltb_spec (Z.pos p) (- LONG_MAX - 1)); [lia|done].
  - destruct (pretty_pos p) as (H1 & H2 & H3).
    assert (He : pretty (Z.neg p) = String "-" (pretty (Npos p))) by done.
    rewrite He. split; [|apply clean_cons; done]. unfold scan_d. simpl. rewrite H1. simpl.
    unfold to_int. change (- Z.pos p) with (Z.neg p).
    destruct (Z.ltb_spec LONG_MAX (Z.neg p)); [lia|].
    destruct (Z.ltb_spec (Z.neg p) (- LONG_MAX - 1)); [lia|done].
Qed.

Lemma u32_s32 z : u32 (s32 z) = u32 z.
Proof.
  unfold s32, u32. destruct (Z.ltb_spec (z mod 4294967296) 2147483648); [apply Z.mod_mod; done|].
  rewrite <- (Z.mod_add _ 1) by done. replace (z mod 4294967296 - 4294967296 + 1 * 4294967296)
    with (z mod 4294967296) by lia. apply Z.mod_mod. done.
Qed.

(** ** A printed name reads back *)

#[local] Arguments scan_d : simpl never.
#[local] Arguments digits : simpl never.

Lemma length_go x s (k : nat) :
  (Z.of_N x < 10 ^ Z.of_nat k) -> (String.length (pretty_N_go x s) <= k + String.length s)%nat.
Proof.
  revert x s. induction k as [|k IH]; intros x s Hx.
  - assert (x = 0)%N as -> by lia. rewrite pretty_N_go_0. lia.
  - destruct (decide (x = 0)%N) as [->|Hne]; [rewrite pretty_N_go_0; lia|].
    rewrite pretty_N_go_step by lia. etransitivity; [apply IH|simpl; lia].
    rewrite N2Z.inj_div. apply Z.div_lt_upper_bound; [done|].
    rewrite Nat2Z.inj_succ, Z.pow_succ_r in Hx by lia. exact Hx.
Qed.

Lemma length_pretty z : Z.abs z < 10 ^ 10 -> (String.length (pretty z) <= 11)%nat.
Proof.
  intros Hz. destruct z as [|p|p]; [simpl; lia| |].
  - assert (He : pretty (Z.pos p) = pretty_N_go (Npos p) "") by done. rewrite He.
    etransitivity; [apply (length_go _ _ 10); simpl in *; lia|simpl; lia].
  - assert (He : pretty (Z.neg p) = String "-" (pretty_N_go (Npos p) "")) by done. rewrite He. simpl.
    apply le_n_S. etransitivity; [apply (length_go _ _ 10); simpl in *; lia|simpl; lia].
Qed.

Lemma append_assoc a b c : String.append (String.append a b) c = String.append a (String.append b c).
Proof. induction a as [|x a IH]; [done|]. apply (f_equal (String x) IH). Qed.

Lemma substring_all n s : (String.length s <= n)%nat -> substring 0 n s = s.
Proof.
  revert n. induction s as [|c s IH]; intros [|n] Hn; simpl in *; try done; [lia|].
  rewrite IH by lia. done.
Qed.

Lemma length_append a b :
  String.length (String.append a b) = (String.length a + String.length b)%nat.
Proof. induction a as [|c a IH]; [done|]. apply (f_equal S IH). Qed.

Lemma length_append_Z a b :
  Z.of_nat (String.length (String.append a b)) = Z.of_nat (String.length a) + Z.of_nat (String.length b).
Proof. rewrite length_append. lia. Qed.

Lemma strsep_nonempty s : strsep s <> [].
Proof. destruct s as [|c s]; simpl; [done|]. destruct (Ascii.eqb c ","), (strsep s); done. Qed.

Lemma strsep_app a b : strsep (String.append a (String "," b)) = strsep a ++ strsep b.
Proof.
  induction a as [|c a IH]; [done|]. simpl. rewrite IH. destruct (Ascii.eqb c ","); [done|].
  pose proof (strsep_nonempty a). destruct (strsep a); done.
Qed.

Lemma strsep_clean s : clean "," s -> strsep s = [s].
Proof.
  induction s as [|c s IH]; [done|]. intros [Hc Hs]%clean_cons. simpl.
  destruct (Ascii.eqb_spec c ","); [done|]. rewrite IH; done.
Qed.

Lemma clean_app x a b : clean x a -> clean x b -> clean x (String.append a b).
Proof. induction a as [|c a IH]; [done|]. intros [Hc Ha]%clean_cons Hb. apply clean_cons. auto. Qed.

Lemma parse_tokens_app ts us dst d :
  parse_tokens ts dst = Some (0, d) -> parse_tokens (ts ++ us) dst = parse_tokens us d.
Proof.
  revert dst. induction ts as [|t ts IH]; intros dst; simpl; [congruence|].
  destruct (parse_token t dst); [apply IH|discriminate|discriminate].
Qed.

Lemma scan_upto_quote n x s r :
  clean x s -> (String.length s <= n)%nat -> scan_upto n x (String.append s (String x r)) = s.
Proof.
  revert n. induction s as [|c s IH]; intros n Hs Hn; simpl.
  - destruct n; simpl; [done|]. rewrite Ascii.eqb_refl. done.
  - apply clean_cons in Hs as [Hc Hs]. destruct n as [|n]; simpl in *; [lia|].
    destruct (Ascii.eqb_spec c x); [done|]. rewrite IH; [done|done|lia].
Qed.

(** What has been printed so far, and what it parses to. *)
Definition printed (p : Z * string) (dst d : snd_ctl_elem_id_t) (room : Z) : Prop :=
  p.1 = Z.of_nat (String.length p.2) /\ p.1 + room <= 255 /\
  parse_tokens (strsep p.2) dst = Some (0, d).

Lemma print_field_spec name v p dst d room (put : Z -> snd_ctl_elem_id_t -> snd_ctl_elem_id_t) :
  (forall d v, is_u32 v -> parse_token (String.append name (pretty (s32 v))) d = TokOk (put v d)) ->
  clean "," name -> (String.length name <= 10)%nat -> is_u32 v -> 22 <= room ->
  printed p dst d room ->
  printed (print_field (String "," name) v p) dst (if 0 <? v then put v d else d) (room - 22).
Proof.
  intros Hput Hname Hlen Hv Hroom (Hp & Hmax & Hparse). destruct p as [len buf]. simpl in *.
  unfold print_field. destruct (Z.ltb_spec len 256); [|lia]. simpl.
  destruct (Z.ltb_spec 0 v); [|repeat split; simpl; try done; lia].
  set (t := String.append name (pretty (s32 v))).
  assert (Hs : is_s32 (s32 v)) by apply s32_range. unfold is_s32, INT_MIN, INT_MAX in Hs.
  assert (Ht : (String.length t <= 21)%nat).
  { unfold t. rewrite length_append. pose proof (length_pretty (s32 v) ltac:(lia)). lia. }
  unfold print_at. change (String.append (String "," name) (pretty (s32 v))) with (String "," t).
  rewrite substring_all by (simpl; lia). repeat split; simpl.
  - rewrite length_append_Z. simpl. lia.
  - lia.
  - rewrite strsep_app, (strsep_clean t).
    + rewrite (parse_tokens_app _ _ _ _ Hparse). simpl. unfold t. rewrite Hput by done. done.
    + apply clean_app; [done|]. apply scan_pretty. unfold is_s64, LONG_MAX. lia.
Qed.

(** A name as the kernel's elements have them. *)
Definition plain_id (id : snd_ctl_elem_id_t) : Prop :=
  is_u32 (numid id) /\ 0 <= iface id <= IFACE_LAST /\ is_u32 (id_index id) /\
  is_u32 (id_device id) /\ is_u32 (id_subdevice id) /\
  (1 <= String.length (id_name id) <= 42)%nat /\ clean "," (id_name id) /\ clean "'" (id_name id).

Lemma scan_number_pretty v : is_u32 v -> option_map (fun '(v, _) => u32 v) (scan_d (pretty (s32 v))) = Some v.
Proof.
  intros Hv. pose proof (s32_range v) as Hs.
  destruct (scan_pretty (s32 v)) as [-> _]; [unfold is_s64, is_s32, INT_MIN, INT_MAX, LONG_MAX in *; lia|].
  simpl. rewrite !u32_s32, u32_id by done. done.
Qed.

(** The tokens of numbers. *)
Lemma parse_number (t : string) (v : Z) (d : snd_ctl_elem_id_t) :
  option_map (fun '(v, _) => u32 v) (scan_d t) = Some v ->
  parse_token (String.append "numid=" t) d = TokOk (set_numid v d) /\
  parse_token (String.append "index=" t) d = TokOk (set_index v d) /\
  parse_token (String.append "device=" t) d = TokOk (set_device v d) /\
  parse_token (String.append "subdevice=" t) d = TokOk (set_subdevice v d).
Proof.
  intros H. unfold parse_token, scan_number. simpl. change (String.append "" t) with t.
  destruct (scan_d t) as [[w r]|]; simpl in *; [|done]. injection H as ->. done.
Qed.

Lemma parse_name (d : snd_ctl_elem_id_t) (name : string) :
  (1 <= String.length name <= 42)%nat -> clean "'" name ->
  parse_token (String.append "name='" (String.append name "'")) d = TokOk (set_name name d).
Proof.
  intros Hl Hc. assert (Hs : scan_set "name='" 42 "'" (String.append "name='" (String.append name "'")) = Some name).
  { unfold scan_set. rewrite after_prefix_append, scan_upto_quote by (done || lia).
    destruct name; [simpl in Hl; lia|done]. }
  unfold parse_token. rewrite Hs. done.
Qed.

(** The first part of the text. *)
Lemma print_start dst id name :
  plain_id id -> nth_error _snd_ctl_elem_iface_names (Z.to_nat (iface id)) = Some name ->
  printed (print_at 0 "" (String.append "numid=" (String.append (pretty (numid id))
    (String.append ",iface=" (String.append name (String.append ",name='"
      (String.append (id_name id) "'"))))))) dst
    (set_name (id_name id) (set_iface (iface id) (set_numid (numid id) dst))) 150.
Proof.
  intros (Hn & Hi & _ & _ & _ & Hl & Hc & Hq) Hname.
  assert (Hname' : (String.length name <= 9)%nat /\ strsep (String.append "iface=" name) = [String.append "iface=" name] /\
    forall d, parse_token (String.append "iface=" name) d = TokOk (set_iface (iface id) d)).
  { revert Hname Hi. generalize (iface id). intros i Hname Hi.
    assert (Hin : In i (zseq 0 7)) by (apply zseq_In; unfold IFACE_LAST in Hi; lia).
    simpl in Hin. repeat (destruct Hin as [<-|Hin]; [injection Hname as <-;
      split; [simpl; lia|split; [reflexivity|intros d; reflexivity]]|]).
    destruct Hin. }
  destruct Hname' as (Hl2 & Hsep2 & Hp2).
  set (t1 := String.append "numid=" (pretty (numid id))).
  set (t2 := String.append "iface=" name) in *.
  set (t3 := String.append "name='" (String.append (id_name id) "'")).
  assert (Ht : String.append "numid=" (String.append (pretty (numid id)) (String.append ",iface="
    (String.append name (String.append ",name='" (String.append (id_name id) "'"))))) =
    String.append t1 (String "," (String.append t2 (String "," t3)))).
  { unfold t1, t2, t3. rewrite !append_assoc. reflexivity. }
  rewrite Ht. pose proof Hn as Hn'. unfold is_u32, UINT_MAX in Hn'.
  assert (Hs64 : is_s64 (numid id)) by (unfold is_s64, LONG_MAX; lia).
  destruct (scan_pretty _ Hs64) as [Hscan Hclean].
  assert (Hlen : (String.length (String.append t1 (String "," (String.append t2 (String "," t3)))) <= 100)%nat).
  { unfold t1, t2, t3. rewrite !length_append. simpl. rewrite !length_append. simpl.
    rewrite !length_append. simpl. pose proof (length_pretty (numid id) ltac:(lia)). lia. }
  unfold print_at. rewrite substring_all by (change (Z.to_nat (255 - 0)) with 255%nat; lia).
  unfold printed. cbn [fst snd].
  match goal with |- context [String.append "" ?x] => change (String.append "" x) with x end.
  split; [done|]. split; [lia|].
  rewrite strsep_app, strsep_app, Hsep2, (strsep_clean t1), (strsep_clean t3).
  - simpl. assert (Hp1 : parse_token t1 dst = TokOk (set_numid (numid id) dst)).
    { apply parse_number. rewrite Hscan. simpl. rewrite u32_s32, u32_id by done. done. }
    rewrite Hp1, Hp2. rewrite (parse_name _ (id_name id)) by (done || lia). done.
  - unfold t3. apply clean_app; [done|]. apply clean_app; [done|]. apply clean_cons. done.
  - unfold t1. apply clean_app; done.
Qed.

(** C35. An element's printed name reads back: for a name of 1 to 42 characters without
    commas and quotes and an interface that has a name, parsing the printed text into a
    structure whose index, device and subdevice are 0 gives the element's id, field by
    field, for every value of the 32-bit numbers. *)
Theorem ascii_id_roundtrip (id dst : snd_ctl_elem_id_t) :
  plain_id id -> id_index dst = 0 -> id_device dst = 0 -> id_subdevice dst = 0 ->
  exists text, ascii_elem_id id = Some text /\ snd_ctl_ascii_elem_id_parse dst text = Some (0, id).
Proof.
  intros Hid H1 H2 H3. pose proof Hid as (Hn & Hi & Hx & Hd & Hs & _).
  assert (Hname : exists name, nth_error _snd_ctl_elem_iface_names (Z.to_nat (iface id)) = Some name).
  { destruct (nth_error _ _) as [name|] eqn:He; [eauto|]. apply nth_error_None in He.
    unfold IFACE_LAST in Hi. simpl in He. lia. }
  destruct Hname as [name Hname]. unfold ascii_elem_id. rewrite Hname.
  pose proof (print_start dst id name Hid Hname) as Hp.
  apply (print_field_spec "index=" (id_index id) _ _ _ _ set_index) in Hp;
    [|intros d v Hv; apply parse_number, scan_number_pretty; done|done|simpl; lia|done|lia].
  apply (print_field_spec "device=" (id_device id) _ _ _ _ set_device) in Hp;
    [|intros d v Hv; apply parse_number, scan_number_pretty; done|done|simpl; lia|done|lia].
  apply (print_field_spec "subdevice=" (id_subdevice id) _ _ _ _ set_subdevice) in Hp;
    [|intros d v Hv; apply parse_number, scan_number_pretty; done|done|simpl; lia|done|lia].
  destruct Hp as (_ & _ & Hp). eexists. split; [reflexivity|].
  unfold snd_ctl_ascii_elem_id_parse. refine (eq_trans Hp _). do 2 f_equal.
  unfold is_u32 in *. destruct id as [n f d s m x], dst as [n0 f0 d0 s0 m0 x0]. simpl in *. subst.
  destruct (Z.ltb_spec 0 x), (Z.ltb_spec 0 d), (Z.ltb_spec 0 s); simpl;
    unfold set_index, set_device, set_subdevice, set_name, set_iface, set_numid; simpl; f_equal; lia.
Qed.

Lemma ascii_id_roundtrip_witness :
  exists text, ascii_elem_id (ElemId 7 IFACE_MIXER 1 0 "Master Playback Volume" 3000000000) = Some text /\
    snd_ctl_ascii_elem_id_parse zero_id text =
      Some (0, ElemId 7 IFACE_MIXER 1 0 "Master Playback Volume" 3000000000).
Proof.
  apply (ascii_id_roundtrip (ElemId 7 IFACE_MIXER 1 0 "Master Playback Volume" 3000000000) zero_id);
    try reflexivity.
  unfold plain_id, is_u32, UINT_MAX, IFACE_LAST, IFACE_MIXER, clean. simpl. repeat split; lia.
Defined.

(** ** Values *)

Section ValueTheorems.
Context {K : Type} `{!Os K, !AsyncKernel K, !CardKernel K, !CtlKernel K}.

(** The value the loop stores for one item of a type that is not ENUMERATED. *)
Definition item_value (info : snd_ctl_elem_info_t) (old : Z) (ptr : string) : Z :=
  if info_type info =? TYPE_BOOLEAN then
    if strncasecmp ptr "toggle" 6 =? 0 then b2z (old =? 0)
    else if match_yes ptr || String.prefix "1" ptr then 1 else 0
  else if (info_type info =? TYPE_INTEGER) || (info_type info =? TYPE_INTEGER64) then strtol ptr
  else old.

(** Without enumerations the kernel is not asked, and only values from [idx] on are
    written. *)
Lemma value_loop_spec n fuel idx handle dst info ptr (p : proc K) :
  info_type info <> TYPE_ENUMERATED -> 0 <= idx ->
  exists dst', value_loop n fuel idx handle dst info ptr p = ((0, dst', info), p) /\
    length (val_integer dst') = length (val_integer dst) /\
    (forall j, 0 <= j < idx -> nthz 0 (val_integer dst') j = nthz 0 (val_integer dst) j) /\
    ((0 < n)%nat -> idx < info_count info -> ptr <> EmptyString -> idx < Z.of_nat (length (val_integer dst)) ->
     nthz 0 (val_integer dst') idx = item_value info (nthz 0 (val_integer dst) idx) ptr /\
     exists d, value_loop (n - 1) fuel (idx + 1) handle d info (skip_item ptr) p = ((0, dst', info), p) /\
       length (val_integer d) = length (val_integer dst)).
Proof.
  intros Ht. revert idx dst ptr. induction n as [|n IH]; intros idx dst ptr Hidx; simpl.
  - exists dst. split; [done|]. split; [done|]. split; [done|]. lia.
  - destruct (Z.ltb_spec idx (info_count info)) as [Hc|Hc]; cbn [andb].
    2: { exists dst. split; [done|]. split; [done|]. split; [done|]. lia. }
    destruct (String.eqb_spec ptr "") as [->|Hp]; cbn [negb].
    { exists dst. split; [done|]. split; [done|]. split; done. }
    destruct (Z.eqb_spec (info_type info) TYPE_ENUMERATED); [done|].
    set (d1 := if info_type info =? TYPE_BOOLEAN then _ else _).
    assert (Hd1 : length (val_integer d1) = length (val_integer dst) /\
      (forall j, 0 <= j < idx -> nthz 0 (val_integer d1) j = nthz 0 (val_integer dst) j) /\
      (idx < Z.of_nat (length (val_integer dst)) ->
       nthz 0 (val_integer d1) idx = item_value info (nthz 0 (val_integer dst) idx) ptr)).
    { unfold d1, item_value. destruct (_ =? TYPE_BOOLEAN); [|destruct (_ || _)%bool]; simpl;
        rewrite ?length_upd; (split; [done|]); (split; [intros j Hj|intros Hl]); try done;
        rewrite ?nthz_upd_ne, ?nthz_upd_eq by lia; done. }
    destruct Hd1 as (Hlen & Hkeep & Hnew).
    destruct (IH (idx + 1) d1 (skip_item ptr) ltac:(lia)) as (dst' & He & Hl & Hk & _).
    exists dst'. split; [done|]. split; [congruence|]. split.
    + intros j Hj. rewrite Hk, Hkeep by lia. done.
    + intros _ _ _ Hl'. rewrite Hk by lia. split; [auto|]. exists d1.
      rewrite Nat.sub_0_r. done.
Qed.

(** No text begins with two of the words, so one of the comparisons always differs. *)
Lemma match_yes_always ptr : match_yes ptr = true.
Proof.
  unfold match_yes. cbn [existsb]. destruct ptr as [|c s]; [done|].
  change (String.length "on") with 2%nat. change (String.length "up") with 2%nat.
  destruct (nz (strncasecmp (String c s) "on" 2)) eqn:H1; [done|]. cbn [orb].
  apply orb_true_iff. left. apply nz_false in H1. apply nz_true. cbn [strncasecmp] in *.
  change (tolower "o") with 111 in *. change (tolower "u") with 117 in *.
  destruct (Z.eqb_spec (tolower c) 111), (Z.eqb_spec (tolower c) 117); lia.
Qed.

Lemma skip_item_comma s c t : skip_item s = String c t -> c = ","%char.
Proof.
  induction s as [|x s IH]; simpl; [done|]. destruct (Ascii.eqb_spec x ","); [congruence|auto].
Qed.

(** Parsing values does not do what it means to: whatever the text, "off" or "0"
    included, a boolean is switched on (unless the text begins with "toggle"), because
    the comparison with the words for "yes" is inverted; and a comma is never stepped
    over, so the second number of an integer element is read as 0. *)
Theorem ascii_value_parse_wrong (fuel : nat) (handle : snd_ctl_t) (dst : snd_ctl_elem_value_t)
    (info : snd_ctl_elem_info_t) (ptr : string) (p : proc K) :
  length (val_integer dst) = 128%nat -> ptr <> EmptyString ->
  (info_type info = TYPE_BOOLEAN -> 0 < info_count info -> strncasecmp ptr "toggle" 6 <> 0 ->
   exists dst', snd_ctl_ascii_value_parse fuel handle dst info ptr p = ((0, dst', info), p) /\
     nthz 0 (val_integer dst') 0 = 1) /\
  (info_type info = TYPE_INTEGER -> 1 < info_count info -> skip_item ptr <> EmptyString ->
   exists dst', snd_ctl_ascii_value_parse fuel handle dst info ptr p = ((0, dst', info), p) /\
     nthz 0 (val_integer dst') 0 = strtol ptr /\ nthz 0 (val_integer dst') 1 = 0).
Proof.
  intros Hlen Hptr. unfold snd_ctl_ascii_value_parse. split; intros Ht Hc Htext.
  - destruct (value_loop_spec 128 fuel 0 handle dst info ptr p) as (d & He & _ & _ & Hd);
      [rewrite Ht; done|lia|]. exists d. split; [done|].
    destruct Hd as [-> _]; [lia|lia|done|lia|]. unfold item_value. rewrite Ht, match_yes_always.
    change (TYPE_BOOLEAN =? TYPE_BOOLEAN) with true. cbv iota. cbn [orb].
    destruct (Z.eqb_spec (strncasecmp ptr "toggle" 6) 0); done.
  - destruct (value_loop_spec 128 fuel 0 handle dst info ptr p) as (d & He & _ & _ & Hd);
      [rewrite Ht; done|lia|]. exists d. split; [done|].
    destruct Hd as [H0 (d1 & He1 & Hl1)]; [lia|lia|done|lia|].
    unfold item_value in H0. rewrite Ht in H0. split; [exact H0|].
    destruct (value_loop_spec (128 - 1) fuel (0 + 1) handle d1 info (skip_item ptr) p)
      as (d2 & He2 & _ & _ & Hd2); [rewrite Ht; done|lia|].
    rewrite He1 in He2. injection He2 as <-. destruct Hd2 as [H1 _]; [lia|lia|done|lia|].
    change (0 + 1) with 1 in H1. rewrite H1. unfold item_value. rewrite Ht. simpl.
    destruct (skip_item ptr) as [|c t] eqn:Hs; [done|]. rewrite (skip_item_comma _ _ _ Hs). done.
Qed.
End ValueTheorems.

Definition two_integers : snd_ctl_elem_info_t :=
  ElemInfo master TYPE_INTEGER 3 2 0 (InfoInteger 0 100 1) (InfoEnumerated 0 0 "" []) [0; 0; 0; 0].

Lemma ascii_value_parse_wrong_witness :
  exists d, snd_ctl_ascii_value_parse 0 toy_handle zero_value two_integers "30,40" toy_process =
    ((0, d, two_integers), toy_process) /\ nthz 0 (val_integer d) 0 = 30 /\ nthz 0 (val_integer d) 1 = 0.
Proof.
  apply (proj2 (ascii_value_parse_wrong 0 toy_handle zero_value two_integers "30,40" toy_process
    eq_refl ltac:(discriminate))); [reflexivity|vm_compute; reflexivity|discriminate].
Defined.
