(* ===== verification/Mixer.v ===== *)
(** * The mixer and its simple elements

    src/src/mixer.c lines 34-760: the mixer turns the card's mixer elements, which it
    follows as the client of a high-level control handle (file Hcontrol.v), into simple
    elements: one for each name, with up to five items (playback and capture volume and
    switch, enumeration), each item a cache of one control element.

    The mixer, its elements, its items and their decibel data are the [user] part of the
    handle's state.  Elements and items are blocks in a store; a pointer that is NULL or
    dangling reads as zeroes.  The application's own callbacks, and [qsort] with its
    comparison, are the class [MixerApp]. *)

From stdpp Require Import gmap.
From S2P Require Import Prelude CInt Sys Cards Async CtlTypes Control Hcontrol.
#[local] Open Scope Z_scope.

(** ** Data *)

(** The items; what a block holds after its head says which of the three it is. *)
(* [mixer_macros.h 32-38 snd_selem_vol_item] *)
Record snd_selem_vol_item_t := VolItem {
  v_min : Z;
  v_max : Z;
  raw_min : Z;
  raw_max : Z;
  db_info : Z;
  vol : list Z                (* user and raw value of each channel in turn *)
}.

(* [mixer_macros.h 45-49 snd_selem_enum_item] *)
Record snd_selem_enum_item_t := EnumItem { e_items : Z; e_item : list Z }.

Inductive item_body :=
  | VolBody (v : snd_selem_vol_item_t)
  | SwBody (sw : Z)
  | EnumBody (e : snd_selem_enum_item_t).

(* [mixer_macros.h 26-30 snd_selem_item_head] *)
Record selem_item := Item {
  helem : Z;
  item_numid : Z;
  channels : Z;
  body : item_body
}.

(** The casts of a [void *] item. *)
Definition as_vol (i : selem_item) : snd_selem_vol_item_t :=
  match body i with VolBody v => v | _ => VolItem 0 0 0 0 0 [] end.
Definition as_sw (i : selem_item) : Z := match body i with SwBody sw => sw | _ => 0 end.
Definition as_enum (i : selem_item) : snd_selem_enum_item_t :=
  match body i with EnumBody e => e | _ => EnumItem 0 [] end.

(* [mixer_macros.h 52-59 SND_SELEM_ITEM_PVOLUME] *)
Definition ITEM_PVOLUME : Z := 0.
Definition ITEM_CVOLUME : Z := 1.
Definition ITEM_PSWITCH : Z := 2.
Definition ITEM_CSWITCH : Z := 3.
Definition ITEM_ENUM : Z := 4.
Definition item_types : list Z := [ITEM_PVOLUME; ITEM_CVOLUME; ITEM_PSWITCH; ITEM_CSWITCH; ITEM_ENUM].

(* [mixer_macros.h 62-72 SND_SM_CAP_PVOLUME] *)
Definition CAP_VOLUME_SHIFT : Z := 0.
Definition CAP_SWITCH_SHIFT : Z := 4.
Definition CAP_ENUM_SHIFT : Z := 8.
Definition CAP_GVOLUME : Z := 4.
Definition CAP_GSWITCH : Z := 64.
Definition CAP_PENUM : Z := 256.
Definition CAP_CENUM : Z := 512.

(** [items] has a pointer for each type; [chans] a number for each direction. *)
(* [mixer_macros.h 79-89 _snd_mixer_elem] *)
Record snd_mixer_elem_t := MElem {
  sid_name : string;
  sid_index : Z;
  e_mixer : Z;
  caps : Z;
  inactive : Z;
  chans : list Z;
  slots : list Z;
  m_index : Z;
  m_callback : Z;
  m_callback_private : Z
}.

(** [pelems] is the array, of [m_alloc] entries, and [pelems_block] its address; the
    entries from [m_count] on are stale. *)
(* [mixer_macros.h 15-24 _snd_mixer] *)
Record snd_mixer_t := Mixer {
  mixer_block : Z;
  m_count : Z;
  m_alloc : Z;
  pelems_block : Z;
  pelems : list Z;
  m_compare : Z;
  events : Z;
  mixer_callback : Z;
  mixer_callback_private : Z
}.

Definition sizeof_mixer : Z := 64.
Definition sizeof_melem : Z := 152.

(** The size of an item of each kind with [count] channels. *)
Definition sizeof_vol (count : Z) : Z := 56 + 16 * count.
Definition sizeof_sw : Z := 24.
Definition sizeof_enum (count : Z) : Z := 24 + 4 * count.

(** The mixer with everything it points to, and the application's data. *)
Record mx (W : Type) := MX {
  the_mixer : snd_mixer_t;
  melems : gmap Z snd_mixer_elem_t;
  mitems : gmap Z selem_item;
  dbs : gmap Z (list Z);
  app : W
}.
Arguments MX {W}.
Arguments the_mixer {W}.
Arguments melems {W}.
Arguments mitems {W}.
Arguments dbs {W}.
Arguments app {W}.

(** What the application does when it is called, by the address of its function.
    [app_qsort cmp base l] is the array [l] as [qsort] leaves it; the comparison gets
    the addresses of two entries of the array at [base], not those of two elements. *)
Class MixerApp (K W : Type) := {
  app_mixer_cb : Z -> Z -> Z -> io (hs K (mx W)) Z;     (* mask, element *)
  app_elem_cb : Z -> Z -> Z -> io (hs K (mx W)) Z;      (* element, mask *)
  app_hctl_cb : Z -> Z -> Z -> io (hs K (mx W)) Z;      (* callbacks on the handle *)
  app_helem_cb : Z -> Z -> Z -> io (hs K (mx W)) Z;     (* and on its elements *)
  app_qsort : Z -> Z -> list Z -> hs K (mx W) -> list Z
}.

(** The addresses of the mixer's two handlers. *)
Definition addr_hctl_event_handler : Z := 1.
Definition addr_elem_event_handler : Z := 2.

(** ** Assignments *)

Definition set_pelems (count alloc block : Z) (p : list Z) (m : snd_mixer_t) : snd_mixer_t :=
  Mixer (mixer_block m) count alloc block p (m_compare m) (events m) (mixer_callback m)
    (mixer_callback_private m).

Definition set_events (v : Z) (m : snd_mixer_t) : snd_mixer_t :=
  Mixer (mixer_block m) (m_count m) (m_alloc m) (pelems_block m) (pelems m) (m_compare m) v
    (mixer_callback m) (mixer_callback_private m).

Definition set_m_index (v : Z) (e : snd_mixer_elem_t) : snd_mixer_elem_t :=
  MElem (sid_name e) (sid_index e) (e_mixer e) (caps e) (inactive e) (chans e) (slots e) v
    (m_callback e) (m_callback_private e).

Definition set_slots (f : list Z -> list Z) (e : snd_mixer_elem_t) : snd_mixer_elem_t :=
  MElem (sid_name e) (sid_index e) (e_mixer e) (caps e) (inactive e) (chans e) (f (slots e))
    (m_index e) (m_callback e) (m_callback_private e).

Definition set_caps (v : Z) (e : snd_mixer_elem_t) : snd_mixer_elem_t :=
  MElem (sid_name e) (sid_index e) (e_mixer e) v (inactive e) (chans e) (slots e)
    (m_index e) (m_callback e) (m_callback_private e).

Definition set_chans (f : list Z -> list Z) (e : snd_mixer_elem_t) : snd_mixer_elem_t :=
  MElem (sid_name e) (sid_index e) (e_mixer e) (caps e) (inactive e) (f (chans e)) (slots e)
    (m_index e) (m_callback e) (m_callback_private e).

Definition set_body (b : item_body) (i : selem_item) : selem_item :=
  Item (helem i) (item_numid i) (channels i) b.

Definition zero_melem : snd_mixer_elem_t := MElem "" 0 0 0 0 [0; 0] [0; 0; 0; 0; 0] 0 0 0.
Definition zero_item : selem_item := Item 0 0 0 (SwBody 0).

(** ** Element names *)

(** The table of whole names that are not taken apart. *)
(* [mixer.c 444-456 name_alias] *)
Definition name_alias : list (string * string * Z) := [
  ("Tone Control - Switch", "Tone", 0);
  ("Tone Control - Bass", "Bass", 0);
  ("Tone Control - Treble", "Treble", 0);
  ("Synth Tone Control - Switch", "Synth Tone", 0);
  ("Synth Tone Control - Bass", "Synth Bass", 0);
  ("Synth Tone Control - Treble", "Synth Treble", 0)]%string.

(* [mixer.c 458-470 check_elem_alias] *)
Fixpoint find_alias (name : string) (l : list (string * string * Z)) : option (string * Z) :=
  match l with
  | [] => None
  | (long, short, dir) :: l => if String.eqb name long then Some (short, dir) else find_alias name l
  end.

Definition check_elem_alias (name : string) : option (string * Z) := find_alias name name_alias.

(** [strstr] finds the first occurrence; it has to be the end of the name. *)
(* [mixer.c 475-485 remove_suffix] *)
Definition remove_suffix (name sfx : string) : bool * string :=
  match String.index 0 sfx name with
  | None => (false, name)
  | Some k =>
      if String.eqb (String.substring k (String.length name) name) sfx
      then (true, String.substring 0 k name)
      else (false, name)
  end.

(** The simple element's name, the direction (1 is capture) and whether the element is
    for both. *)
(* [mixer.c 501-521 add_simple_element] *)
Definition split_name (raw : string) : string * Z * bool :=
  let name := String.substring 0 63 raw in
  match check_elem_alias name with
  | Some (name, dir) => (name, dir, false)
  | None =>
      let '(_, name) := remove_suffix name " Volume" in
      let '(_, name) := remove_suffix name " Switch" in
      let '(p, name) := remove_suffix name " Playback" in
      if p then (name, 0, false)
      else
        let '(c, name) := remove_suffix name " Capture" in
        if c then (name, 1, false)
        else if String.prefix "Capture" name then (name, 1, false)
        else if String.prefix "Input" name then (name, 1, false)
        else (name, 0, true)
  end.

(** The capabilities and the item type of an element of type [type]. *)
(* [mixer.c 528-548 add_simple_element] *)
Definition elem_caps (dir : Z) (gflag : bool) (type : Z) : option (Z * Z) :=
  let caps := if gflag then 7 else Z.shiftl 1 dir in
  if type =? TYPE_BOOLEAN then
    Some (Z.shiftl caps CAP_SWITCH_SHIFT, if nz dir then ITEM_CSWITCH else ITEM_PSWITCH)
  else if type =? TYPE_INTEGER then
    Some (Z.shiftl caps CAP_VOLUME_SHIFT, if nz dir then ITEM_CVOLUME else ITEM_PVOLUME)
  else if type =? TYPE_ENUMERATED then
    Some (Z.shiftl 1 (dir + CAP_ENUM_SHIFT), ITEM_ENUM)
  else None.

(** ** Volume scaling *)

(** C's division truncates; the differences and the product are [long]s. *)
(* [mixer.c 267-278 convert_from_user] *)
Definition convert_from_user (str : snd_selem_vol_item_t) (val : Z) : Z :=
  if (v_min str =? raw_min str) && (v_max str =? raw_max str) then val
  else if v_min str =? v_max str then raw_min str
  else
    let val := s64 (val - v_min str) in
    let val := s64 (val * s64 (raw_max str - raw_min str)) in
    let val := s64 (Z.quot val (s64 (v_max str - v_min str))) in
    s64 (val + raw_min str).

(* [mixer.c 280-291 convert_to_user] *)
Definition convert_to_user (str : snd_selem_vol_item_t) (val : Z) : Z :=
  if (v_min str =? raw_min str) && (v_max str =? raw_max str) then val
  else if raw_min str =? raw_max str then v_min str
  else
    let val := s64 (val - raw_min str) in
    let val := s64 (val * s64 (v_max str - v_min str)) in
    let val := s64 (Z.quot val (s64 (raw_max str - raw_min str))) in
    s64 (val + v_min str).

Section Mixer.
Context {K W : Type} `{!Os K, !AsyncKernel K, !CardKernel K, !CtlKernel K, !MixerApp K W}.

#[local] Abbreviation M := (io (hs K (mx W))).

(** ** The stores *)

Definition getu : M (mx W) := fun s => (user s, s).

Definition setu (f : mx W -> mx W) : M unit :=
  fun s => (tt, HS (the_hctl s) (elems s) (hprc s) (f (user s))).

Definition getm : M snd_mixer_t := let* u := getu in ret (the_mixer u).

Definition setm (f : snd_mixer_t -> snd_mixer_t) : M unit :=
  setu (fun u => MX (f (the_mixer u)) (melems u) (mitems u) (dbs u) (app u)).

Definition getx (e : Z) : M snd_mixer_elem_t :=
  let* u := getu in ret (default zero_melem (melems u !! e)).

Definition setx (e : Z) (f : snd_mixer_elem_t -> snd_mixer_elem_t) : M unit :=
  setu (fun u => MX (the_mixer u) (alter f e (melems u)) (mitems u) (dbs u) (app u)).

Definition geti (i : Z) : M selem_item :=
  let* u := getu in ret (default zero_item (mitems u !! i)).

Definition seti (i : Z) (f : selem_item -> selem_item) : M unit :=
  setu (fun u => MX (the_mixer u) (melems u) (alter f i (mitems u)) (dbs u) (app u)).

(** [elem->items[type]]. *)
Definition slot (type : Z) (e : snd_mixer_elem_t) : Z := nthz 0 (slots e) type.

Definition malloc (size : Z) : M (option Z) := onhp (onsys (sys_alloc size)).
Definition mfree (a : Z) : M unit := onhp (onsys (sys_free a)).

(** [malloc] of an item filled in, [calloc] of an element, and their [free]. *)
Definition new_item (size : Z) (i : selem_item) : M (option Z) :=
  let* p := malloc size in
  match p with
  | None => ret None
  | Some a =>
      let* _ := setu (fun u => MX (the_mixer u) (melems u) (<[a := i]> (mitems u)) (dbs u) (app u)) in
      ret (Some a)
  end.

Definition free_item (a : Z) : M unit :=
  let* _ := mfree a in
  setu (fun u => MX (the_mixer u) (melems u) (delete a (mitems u)) (dbs u) (app u)).

Definition free_melem (a : Z) : M unit :=
  let* _ := mfree a in
  setu (fun u => MX (the_mixer u) (delete a (melems u)) (mitems u) (dbs u) (app u)).

Definition free_db (a : Z) : M unit :=
  let* _ := mfree a in
  setu (fun u => MX (the_mixer u) (melems u) (mitems u) (delete a (dbs u)) (app u)).

(** ** Events *)

Definition count_event : M unit := setm (fun m => set_events (u32 (events m + 1)) m).

(* [mixer.c 135-142 snd_mixer_throw_event] *)
Definition snd_mixer_throw_event (mask elem : Z) : M Z :=
  let* _ := count_event in
  let* m := getm in
  if nz (mixer_callback m) then app_mixer_cb (mixer_callback m) mask elem else ret 0.

(* [mixer.c 144-150 _snd_mixer_elem_throw_event] *)
Definition _snd_mixer_elem_throw_event (elem mask : Z) : M Z :=
  let* _ := count_event in
  let* e := getx elem in
  if nz (m_callback e) then app_elem_cb (m_callback e) elem mask else ret 0.

(* [mixer_macros.h 222-225 snd_mixer_elem_info] *)
Definition snd_mixer_elem_info (elem : Z) : M Z := _snd_mixer_elem_throw_event elem MASK_INFO.

(* [mixer_macros.h 228-231 snd_mixer_elem_value] *)
Definition snd_mixer_elem_value (elem : Z) : M Z := _snd_mixer_elem_throw_event elem MASK_VALUE.

(** ** The array of elements *)

(** [pelems[i]]. *)
Definition pelem (i : Z) : M Z := let* m := getm in ret (nthz 0 (pelems m) i).

Definition set_pelem (i v : Z) : M unit :=
  setm (fun m => set_pelems (m_count m) (m_alloc m) (pelems_block m)
                   (upd i (fun _ => v) (pelems m)) m).

(** The array as [qsort] leaves it. *)
Definition qsort_pelems : M unit := fun s =>
  let m := the_mixer (user s) in
  let n := Z.to_nat (m_count m) in
  let sorted := app_qsort (m_compare m) (pelems_block m) (take n (pelems m)) s in
  setm (set_pelems (m_count m) (m_alloc m) (pelems_block m) (sorted ++ drop n (pelems m))) s.

Fixpoint index_loop (ns : list Z) : M unit :=
  match ns with
  | [] => ret tt
  | i :: ns => let* p := pelem i in let* _ := setx p (set_m_index i) in index_loop ns
  end.

(* [mixer.c 155-164 snd_mixer_sort] *)
Definition snd_mixer_sort : M Z :=
  let* m := getm in
  let* _ := if nz (m_compare m) then qsort_pelems else ret tt in
  let* _ := index_loop (zseq 0 (Z.to_nat (m_count m))) in
  ret 0.

(** [realloc]: the new block, which may be the old one, in place of the old one. *)
Definition realloc (old size : Z) : M (option Z) :=
  onhp (onsys (sys_realloc old size)).

(* [mixer.c 166-182 add_mixer_elem] *)
Definition add_mixer_elem (elem : Z) : M Z :=
  let* m := getm in
  let* ok :=
    if m_count m =? m_alloc m then
      let num := m_alloc m + 32 in
      let* p := realloc (pelems_block m) (8 * num) in
      match p with
      | None => ret false
      | Some b =>
          let* _ := setm (fun m => set_pelems (m_count m) num b (pelems m ++ replicate 32 0) m) in
          ret true
      end
    else ret true in
  if negb ok then ret (- ENOMEM)
  else
    let* _ := setm (fun m => set_pelems (m_count m + 1) (m_alloc m) (pelems_block m)
                               (upd (m_count m) (fun _ => elem) (pelems m)) m) in
    let* _ := snd_mixer_sort in
    snd_mixer_throw_event MASK_ADD elem.

Fixpoint shift_loop (ns : list Z) : M unit :=
  match ns with
  | [] => ret tt
  | i :: ns =>
      let* p := pelem (i + 1) in
      let* _ := set_pelem i p in
      let* p := pelem i in
      let* _ := setx p (set_m_index i) in
      shift_loop ns
  end.

(** The search, and what is done where the element is found. *)
Fixpoint remove_loop (elem : Z) (ns : list Z) : M unit :=
  match ns with
  | [] => ret tt
  | i :: ns =>
      let* p := pelem i in
      if p =? elem then
        let* _ := setm (fun m => set_pelems (m_count m - 1) (m_alloc m) (pelems_block m) (pelems m) m) in
        shift_loop (removelast (i :: ns))
      else remove_loop elem ns
  end.

(* [mixer.c 184-201 remove_mixer_elem] *)
Definition remove_mixer_elem (elem : Z) : M Z :=
  let* m := getm in
  let* _ := remove_loop elem (zseq 0 (Z.to_nat (m_count m))) in
  let* _ := free_melem elem in
  ret 0.

(** ** Making items *)

(* [mixer.c 296-317 add_cap] *)
Definition add_cap (elem caps' type item : Z) : M unit :=
  let* _ := setx elem (fun e => set_caps (Z.lor (caps e) caps') e) in
  let* _ := setx elem (set_slots (upd type (fun _ => item))) in
  let* i := geti item in
  let* _ := snd_hctl_elem_set_callback_private (helem i) elem in
  if type =? ITEM_ENUM then ret tt
  else
    let both := nz (Z.land caps' (Z.lor CAP_GVOLUME CAP_GSWITCH)) in
    let raise t := setx elem (set_chans (upd t (fun c => if c <? channels i then channels i else c))) in
    let* _ := if both then setx elem (set_slots (upd (type + 1) (fun _ => item))) else ret tt in
    let dir := Z.land type 1 in
    let* _ := raise dir in
    if both then raise (dir + 1) else ret tt.

(** [NULL] is [None]. *)
(* [mixer.c 319-331 new_mixer_elem] *)
Definition new_mixer_elem (name : string) (index : Z) : M (option Z) :=
  let* p := malloc sizeof_melem in
  match p with
  | None => ret None
  | Some a =>
      let* m := getm in
      let e := MElem (String.substring 0 59 name) (u32 index) (mixer_block m) 0 0 [0; 0]
        [0; 0; 0; 0; 0] 0 0 0 in
      let* _ := setu (fun u => MX (the_mixer u) (<[a := e]> (melems u)) (mitems u) (dbs u) (app u)) in
      ret (Some a)
  end.

(** The element values the items are filled from. *)
Definition integer_at (v : snd_ctl_elem_value_t) (i : Z) : Z := nthz 0 (val_integer v) i.
Definition enum_at (v : snd_ctl_elem_value_t) (i : Z) : Z := nthz 0 (val_enumerated v) i.

(* [mixer.c 345-364 new_selem_vol_item] *)
Definition new_selem_vol_item (info : snd_ctl_elem_info_t) (val : snd_ctl_elem_value_t) : item_body :=
  let lo := i_min (info_integer_value info) in
  let hi := i_max (info_integer_value info) in
  VolBody (VolItem lo hi lo hi 0
    (flat_map (fun i => [integer_at val i; integer_at val i]) (zseq 0 (Z.to_nat (info_count info))))).

(** The bits [1 << i] of the channels that are on; C leaves a shift by 32 or more
    undefined, and here it gives no bit. *)
Definition switch_bits (n : Z) (val : snd_ctl_elem_value_t) : Z :=
  fold_left (fun sw i => if nz (integer_at val i) then Z.lor sw (u32 (Z.shiftl 1 i)) else sw)
    (zseq 0 (Z.to_nat n)) 0.

(* [mixer.c 369-384 new_selem_sw_item] *)
Definition new_selem_sw_item (info : snd_ctl_elem_info_t) (val : snd_ctl_elem_value_t) : item_body :=
  SwBody (switch_bits (info_count info) val).

(* [mixer.c 389-402 new_selem_enum_item] *)
Definition new_selem_enum_item (info : snd_ctl_elem_info_t) (val : snd_ctl_elem_value_t) : item_body :=
  EnumBody (EnumItem (items (info_enumerated_value info))
    (map (enum_at val) (zseq 0 (Z.to_nat (info_count info))))).

(** The head is filled in after the item of the info's type is made; here both at once. *)
(* [mixer.c 407-438 new_selem_item] *)
Definition new_selem_item (hp : Z) (info : snd_ctl_elem_info_t) : M (option Z) :=
  let* '(err, val) := snd_hctl_elem_read hp (set_value_id (info_id info) zero_value) in
  if err <? 0 then ret None
  else
    let n := info_count info in
    let make size b := new_item size (Item hp (numid (info_id info)) n b) in
    if info_type info =? TYPE_INTEGER then make (sizeof_vol n) (new_selem_vol_item info val)
    else if info_type info =? TYPE_BOOLEAN then make sizeof_sw (new_selem_sw_item info val)
    else if info_type info =? TYPE_ENUMERATED then make (sizeof_enum n) (new_selem_enum_item info val)
    else ret None.

(** The first element of the name whose slot is free, and the index for a new one. *)
(* [mixer.c 555-567 add_simple_element] *)
Fixpoint match_loop (l : list Z) (name : string) (type index : Z) : M (option Z * Z) :=
  match l with
  | [] => ret (None, index)
  | a :: l =>
      let* e := getx a in
      if String.eqb (sid_name e) name then
        let index := if index <=? sid_index e then u32 (sid_index e + 1) else index in
        if nz (slot type e) then match_loop l name type index else ret (Some a, index)
      else match_loop l name type index
  end.

(* [mixer.c 491-576 add_simple_element] *)
Definition add_simple_element (hp : Z) : M Z :=
  let* h := gete hp in
  let '(name, dir, gflag) := split_name (id_name (elem_id h)) in
  let* '(err, info) := snd_hctl_elem_info hp zero_info in
  if err <? 0 then ret err
  else
    match elem_caps dir gflag (info_type info) with
    | None => ret 0
    | Some (caps', type) =>
        let* item := new_selem_item hp info in
        match item with
        | None => ret (- ENOMEM)
        | Some item =>
            let* m := getm in
            let* '(found, index) := match_loop (take (Z.to_nat (m_count m)) (pelems m)) name type 0 in
            match found with
            | Some elem => let* _ := add_cap elem caps' type item in ret 0
            | None =>
                let* elem := new_mixer_elem name (s32 index) in
                match elem with
                | None => let* _ := free_item item in ret (- ENOMEM)
                | Some elem =>
                    let* _ := add_cap elem caps' type item in
                    add_mixer_elem elem
                end
            end
        end
    end.

(** ** Removing items *)

Definition INVALID_DB_INFO : Z := ULONG_MAX.

(** [vol->db_info] given back where there is one. *)
Definition release_db (d : Z) : M unit :=
  if nz d && negb (d =? INVALID_DB_INFO) then free_db d else ret tt.

(** The slot [i] is emptied, and the other direction's where the item is for both. *)
(* [mixer.c 594-604 remove_simple_element] *)
Definition clear_slots (elem i : Z) : M unit :=
  let* e := getx elem in
  let* _ := setx elem (set_slots (upd i (fun _ => 0))) in
  if (i =? ITEM_PVOLUME) && nz (Z.land (caps e) CAP_GVOLUME)
  then setx elem (set_slots (upd ITEM_CVOLUME (fun _ => 0)))
  else if (i =? ITEM_PSWITCH) && nz (Z.land (caps e) CAP_GSWITCH)
  then setx elem (set_slots (upd ITEM_CSWITCH (fun _ => 0)))
  else ret tt.

(* [mixer.c 606-615 remove_simple_element] *)
Definition free_item_db (i head : Z) : M unit :=
  let* it := geti head in
  let* _ := if i <=? ITEM_CVOLUME then release_db (db_info (as_vol it)) else ret tt in
  free_item head.

(** The item in the slot [i], [head], leaves the element. *)
(* [mixer.c 594-626 remove_simple_element] *)
Definition drop_item (elem i head : Z) (remove_mixer : bool) : M Z :=
  let* _ := clear_slots elem i in
  let* _ := free_item_db i head in
  if negb remove_mixer then ret 0
  else
    let* e := getx elem in
    if existsb nz (slots e) then ret 0
    else let* _ := remove_mixer_elem elem in ret 0.

Fixpoint remove_item_loop (elem hp : Z) (ns : list Z) (remove_mixer : bool) : M Z :=
  match ns with
  | [] => ret (- ENOENT)
  | i :: ns =>
      let* e := getx elem in
      let head := slot i e in
      if head =? 0 then remove_item_loop elem hp ns remove_mixer
      else
        let* it := geti head in
        if negb (helem it =? hp) then remove_item_loop elem hp ns remove_mixer
        else drop_item elem i head remove_mixer
  end.

(* [mixer.c 583-629 remove_simple_element] *)
Definition remove_simple_element (hp : Z) (remove_mixer : bool) : M Z :=
  let* elem := snd_hctl_elem_get_callback_private hp in
  remove_item_loop elem hp item_types remove_mixer.

(** ** Following a change of value *)

(** One channel: the raw value read, and the user's value for it. *)
Definition update_channel (i v : Z) (s : snd_selem_vol_item_t) : bool * snd_selem_vol_item_t :=
  let put j x s := VolItem (v_min s) (v_max s) (raw_min s) (raw_max s) (db_info s)
                     (upd j (fun _ => x) (vol s)) in
  let raw := 2 * i + 1 in
  let usr := 2 * i in
  let c1 := negb (nthz 0 (vol s) raw =? v) in
  let s := put raw v s in
  let u := convert_to_user s v in
  let c2 := negb (nthz 0 (vol s) usr =? u) in
  (c1 || c2, put usr u s).

Fixpoint update_channels (ns : list Z) (obj : snd_ctl_elem_value_t) (s : snd_selem_vol_item_t)
  : bool * snd_selem_vol_item_t :=
  match ns with
  | [] => (false, s)
  | i :: ns =>
      let '(c, s) := update_channel i (integer_at obj i) s in
      let '(c', s) := update_channels ns obj s in
      (c || c', s)
  end.

(* [mixer.c 634-650 update_selem_vol_item] *)
Definition update_selem_vol_item (item : Z) (obj : snd_ctl_elem_value_t) : M Z :=
  let* it := geti item in
  let '(c, v) := update_channels (zseq 0 (Z.to_nat (channels it))) obj (as_vol it) in
  let* _ := seti item (set_body (VolBody v)) in
  ret (b2z c).

(* [mixer.c 655-669 update_selem_sw_item] *)
Definition update_selem_sw_item (item : Z) (val : snd_ctl_elem_value_t) : M Z :=
  let* it := geti item in
  let swbits := switch_bits (channels it) val in
  let changed := negb (as_sw it =? swbits) in
  let* _ := seti item (set_body (SwBody swbits)) in
  ret (b2z changed).

Fixpoint update_enums (ns : list Z) (val : snd_ctl_elem_value_t) (l : list Z) : bool * list Z :=
  match ns with
  | [] => (false, l)
  | i :: ns =>
      let x := enum_at val i in
      let c := negb (nthz 0 l i =? x) in
      let '(c', l) := update_enums ns val (upd i (fun _ => x) l) in
      (c || c', l)
  end.

(* [mixer.c 674-687 update_selem_enum_item] *)
Definition update_selem_enum_item (item : Z) (val : snd_ctl_elem_value_t) : M Z :=
  let* it := geti item in
  let '(c, l) := update_enums (zseq 0 (Z.to_nat (channels it))) val (e_item (as_enum it)) in
  let* _ := seti item (set_body (EnumBody (EnumItem (e_items (as_enum it)) l))) in
  ret (b2z c).

(** An id with nothing but the number. *)
Definition numid_only (n : Z) : snd_ctl_elem_id_t := ElemId n 0 0 0 "" 0.

(* [mixer.c 692-713 update_selem_item] *)
Definition update_selem_item (elem type : Z) : M Z :=
  let* e := getx elem in
  let head := slot type e in
  let* it := geti head in
  let* '(err, val) :=
    snd_hctl_elem_read (helem it) (set_value_id (numid_only (item_numid it)) zero_value) in
  if err <? 0 then ret 0
  else if (type =? ITEM_PVOLUME) || (type =? ITEM_CVOLUME) then update_selem_vol_item head val
  else if (type =? ITEM_PSWITCH) || (type =? ITEM_CSWITCH) then update_selem_sw_item head val
  else update_selem_enum_item head val.

Fixpoint update_loop (hp elem : Z) (ns : list Z) : M Z :=
  match ns with
  | [] => ret 0
  | i :: ns =>
      let* e := getx elem in
      let head := slot i e in
      if head =? 0 then update_loop hp elem ns
      else
        let* it := geti head in
        if negb (helem it =? hp) then update_loop hp elem ns
        else update_selem_item elem i
  end.

(* [mixer.c 718-731 update_simple_element] *)
Definition update_simple_element (hp elem : Z) : M Z := update_loop hp elem item_types.

(** ** The handlers *)

(** A change of the element's information: its item is made anew. *)
(* [mixer.c 230-237 hctl_elem_event_handler] *)
Definition reload_element (helem elem : Z) : M Z :=
  let* _ := remove_simple_element helem false in
  let* _ := add_simple_element helem in
  let* err := snd_mixer_elem_info elem in
  if err <? 0 then ret err else snd_mixer_sort.

(* [mixer.c 209-249 hctl_elem_event_handler] *)
Definition hctl_elem_event_handler (helem mask : Z) : M Z :=
  let* elem := snd_hctl_elem_get_callback_private helem in
  if elem =? 0 then ret 0
  else
    let* e := getx elem in
    if e_mixer e =? 0 then ret 0
    else if mask =? MASK_REMOVE then
      let* err := _snd_mixer_elem_throw_event elem mask in
      if err <? 0 then ret err
      else let* _ := remove_simple_element helem true in ret 0
    else
      let* err := if nz (Z.land mask MASK_INFO) then reload_element helem elem else ret 0 in
      if err <? 0 then ret err
      else if nz (Z.land mask MASK_VALUE) then
        let* err := update_simple_element helem elem in
        if err <? 0 then ret err
        else if nz err then
          let* err := snd_mixer_elem_value elem in
          if err <? 0 then ret err else ret 0
        else ret 0
      else ret 0.

(* [mixer.c 251-262 hctl_event_handler] *)
Definition hctl_event_handler (mask elem : Z) : M Z :=
  let* e := gete elem in
  if negb (iface (elem_id e) =? IFACE_MIXER) then ret 0
  else if nz (Z.land mask MASK_ADD) then
    let* _ := snd_hctl_elem_set_callback elem addr_elem_event_handler in
    add_simple_element elem
  else ret 0.

(** The mixer as the client of its handle. *)
#[global] Instance mixer_client : HctlClient K (mx W) := {
  call_hctl cb mask elem :=
    if cb =? addr_hctl_event_handler then hctl_event_handler mask elem else app_hctl_cb cb mask elem;
  call_elem cb elem mask :=
    if cb =? addr_elem_event_handler then hctl_elem_event_handler elem mask
    else app_helem_cb cb elem mask
}.

(** ** The mixer's life *)

(** The mixer with the handle it is attached to, if any, and the process. *)
Record ms := MS {
  ms_mixer : mx W;
  ms_hctl : option (snd_hctl_t * gmap Z snd_hctl_elem_t);
  ms_prc : proc K
}.

(** A computation on a handle [h] and its elements, and one on [mixer->hctl]. *)
Definition with_hctl {A} (h : snd_hctl_t * gmap Z snd_hctl_elem_t) (m : M A)
  : io ms (A * (snd_hctl_t * gmap Z snd_hctl_elem_t)) :=
  fun s => let '(a, t) := m (HS h.1 h.2 (ms_prc s) (ms_mixer s)) in
           ((a, (the_hctl t, elems t)), MS (user t) (ms_hctl s) (hprc t)).

Definition set_hctl (h : option (snd_hctl_t * gmap Z snd_hctl_elem_t)) : io ms unit :=
  fun s => (tt, MS (ms_mixer s) h (ms_prc s)).

Definition on_hctl {A} (none : A) (m : M A) : io ms A :=
  fun s => match ms_hctl s with
           | None => (none, s)
           | Some h => let '((a, h), s) := with_hctl h m s in (a, (set_hctl (Some h) s).2)
           end.

Definition onprc {A} (m : io (proc K) A) : io ms A :=
  fun s => let '(a, p) := m (ms_prc s) in (a, MS (ms_mixer s) (ms_hctl s) p).

(** [calloc] zeroes the structure. *)
(* [mixer.c 39-51 snd_mixer_open] *)
Definition snd_mixer_open (mode : Z) : io (proc K) (Z * option snd_mixer_t) :=
  let* p := onsys (sys_alloc sizeof_mixer) in
  ret (match p with
       | None => (- ENOMEM, None)
       | Some a => (0, Some (Mixer a 0 0 0 [] 0 0 0 0))
       end).

(* [mixer.c 64-82 snd_mixer_attach_hctl] *)
Definition snd_mixer_attach_hctl (hctl : snd_hctl_t * gmap Z snd_hctl_elem_t) : io ms Z :=
  let fail err hctl := let* _ := with_hctl hctl snd_hctl_close in ret err in
  let* busy := fun s => (bool_decide (is_Some (ms_hctl s)), s) in
  if (busy : bool) then fail (- EBUSY) hctl
  else
    let* '(err, hctl) := with_hctl hctl (snd_hctl_nonblock 1) in
    if err <? 0 then fail err hctl
    else
      let* m := fun s => (the_mixer (ms_mixer s), s) in
      let* '(_, hctl) := with_hctl hctl (snd_hctl_set_callback addr_hctl_event_handler) in
      let* '(_, hctl) := with_hctl hctl (snd_hctl_set_callback_private (mixer_block m)) in
      let* _ := set_hctl (Some hctl) in
      ret 0.

(* [mixer.c 53-62 snd_mixer_attach] *)
Definition snd_mixer_attach (name : string) : io ms Z :=
  let* '(err, hctl) := onprc (snd_hctl_open name 0) in
  match hctl with
  | None => ret err
  | Some h => if err <? 0 then ret err else snd_mixer_attach_hctl (h, ∅)
  end.

(** [hctl] is the handle's address.  Where the mixer has no handle and [hctl] is NULL,
    [snd_hctl_close] gets NULL: [None]. *)
(* [mixer.c 89-96 snd_mixer_detach_hctl] *)
Definition snd_mixer_detach_hctl (hctl : Z) : io ms (option Z) := fun s =>
  match ms_hctl s with
  | None => if hctl =? 0 then (None, s) else (Some (- ENOENT), s)
  | Some h =>
      if negb (hctl_block h.1 =? hctl) then (Some (- ENOENT), s)
      else
        let '(_, s) := with_hctl h snd_hctl_close s in
        (Some 0, (set_hctl None s).2)
  end.

(* [mixer.c 84-87 snd_mixer_detach] *)
Definition snd_mixer_detach (name : string) : io ms (option Z) := fun s =>
  snd_mixer_detach_hctl (match ms_hctl s with Some h => hctl_block h.1 | None => 0 end) s.

(* [mixer.c 98-103 snd_mixer_load] *)
Definition snd_mixer_load (fuel : nat) : io ms (option Z) := on_hctl (Some 0) (snd_hctl_load fuel).

(* [mixer.c 105-109 snd_mixer_free] *)
Definition snd_mixer_free : io ms unit := on_hctl tt (let* _ := snd_hctl_free in ret tt).

(** The mixer goes with its structure, so only the process is left. *)
(* [mixer.c 111-118 snd_mixer_close] *)
Definition snd_mixer_close : io ms Z := fun s =>
  let s := match ms_hctl s with
           | Some h => (set_hctl None (with_hctl h snd_hctl_close s).2).2
           | None => s
           end in
  let m := the_mixer (ms_mixer s) in
  let free a := onprc (onsys (sys_free a)) in
  (let* _ := if nz (pelems_block m) then free (pelems_block m) else ret tt in
   let* _ := free (mixer_block m) in
   ret 0) s.

(* [mixer.c 120-131 snd_mixer_handle_events] *)
Definition snd_mixer_handle_events (fuel : nat) : io ms (option Z) :=
  on_hctl (Some 0)
    (let* _ := setm (set_events 0) in
     let* err := snd_hctl_handle_events fuel in
     match err with
     | None => ret None
     | Some err =>
         if err <? 0 then ret (Some err)
         else let* m := getm in ret (Some (s32 (events m)))
     end).

(** [options] gives the abstraction, 0 being none, and the device, if any; [classp]
    says whether a class is asked for. *)
(* [mixer.c 736-751 snd_mixer_selem_register] *)
Definition snd_mixer_selem_register (options : option (Z * option string)) (classp : bool) : io ms Z :=
  if classp || match options with Some (abstract, _) => nz abstract | None => false end
  then ret (- EINVAL)
  else
    match options with
    | Some (_, Some device) => let* err := snd_mixer_attach device in if err <? 0 then ret err else ret 0
    | _ => ret 0
    end.

(** ** Looking elements up *)

(** The address, or 0. *)
(* [mixer.c 753-765 snd_mixer_find_selem] *)
Definition snd_mixer_find_selem (name : string) (index : Z) : M Z :=
  let* u := getu in
  let m := the_mixer u in
  ret (default 0 (List.find
    (fun a => let e := default zero_melem (melems u !! a) in
              (sid_index e =? index) && String.eqb (sid_name e) name)
    (take (Z.to_nat (m_count m)) (pelems m)))).

(* [mixer_macros.h 126-129 snd_mixer_first_elem] *)
Definition snd_mixer_first_elem : M Z := pelem 0.

(* [mixer_macros.h 132-135 snd_mixer_last_elem] *)
Definition snd_mixer_last_elem : M Z := let* m := getm in pelem (m_count m - 1).

(* [mixer_macros.h 138-143 snd_mixer_elem_next] *)
Definition snd_mixer_elem_next (elem : Z) : M Z :=
  let* e := getx elem in
  let* m := getm in
  if m_index e =? u32 (m_count m - 1) then ret 0 else pelem (u32 (m_index e + 1)).

(* [mixer_macros.h 146-151 snd_mixer_elem_prev] *)
Definition snd_mixer_elem_prev (elem : Z) : M Z :=
  let* e := getx elem in
  if m_index e =? 0 then ret 0 else pelem (m_index e - 1).

(* [mixer_macros.h 172-175 snd_mixer_get_count] *)
Definition snd_mixer_get_count : M Z := let* m := getm in ret (m_count m).
End Mixer.
Arguments MS {K W}.
Arguments ms_mixer {K W}.
Arguments ms_hctl {K W}.
Arguments ms_prc {K W}.
