(* ===== verification/MixerOk.v ===== *)
(** * The mixer's memory

    The invariant of the mixer's data (file Mixer.v), [mixer_ok]: every item pointer of
    an element leads to a live item of the type the code casts it to, no item is shared
    but by the two directions of a common one, the array holds live elements, each with
    its position as its index; and [mixer_held], the blocks the mixer answers for.  The
    lemmas say how single changes of the data act on them. *)

From stdpp Require Import gmap.
From S2P Require Import Prelude CInt Sys Cards Async CtlTypes Control Hcontrol Mixer.
#[local] Open Scope Z_scope.

(** ** The invariant *)

(** The type of an item's body, and of what a slot's pointer is cast to. *)
Definition body_kind (b : item_body) : Z :=
  match b with VolBody _ => 0 | SwBody _ => 1 | EnumBody _ => 2 end.

Definition slot_kind (type : Z) : Z := type / 2.

(** The bit of [caps] that says that both directions share one item. *)
Definition shared_bit (kind : Z) : Z := if kind =? 0 then CAP_GVOLUME else CAP_GSWITCH.

(** Two slots of an element that may have the same pointer. *)
Definition joined (e : snd_mixer_elem_t) (t t' : Z) : Prop :=
  t = t' \/ (slot_kind t = slot_kind t' /\ nz (Z.land (caps e) (shared_bit (slot_kind t))) = true).

(** A decibel block: not NULL and not the mark for none. *)
Definition real_db (d : Z) : Prop := d <> 0 /\ d <> INVALID_DB_INFO.

Section Ok.
Context {W : Type}.
Implicit Types u : mx W.

Record mem_ok u : Prop := MemOk {
  mo_slots e E : melems u !! e = Some E -> length (slots E) = 5%nat /\ length (chans E) = 2%nat;
  mo_live e E t : melems u !! e = Some E -> slot t E <> 0 ->
    exists it, mitems u !! slot t E = Some it /\ body_kind (body it) = slot_kind t;
  mo_shared e E e' E' t t' : melems u !! e = Some E -> melems u !! e' = Some E' ->
    slot t E <> 0 -> slot t E = slot t' E' -> e = e' /\ joined E t t';
  mo_db i it : mitems u !! i = Some it -> real_db (db_info (as_vol it)) ->
    is_Some (dbs u !! db_info (as_vol it));
  mo_db1 i it i' it' : mitems u !! i = Some it -> mitems u !! i' = Some it' ->
    real_db (db_info (as_vol it)) -> db_info (as_vol it) = db_info (as_vol it') -> i = i'
}.

(** The entries of the array that count. *)
Definition entries u : list Z := take (Z.to_nat (m_count (the_mixer u))) (pelems (the_mixer u)).

Record arr_ok u : Prop := ArrOk {
  ao_count : 0 <= m_count (the_mixer u) <= m_alloc (the_mixer u);
  ao_alloc : Z.of_nat (length (pelems (the_mixer u))) = m_alloc (the_mixer u);
  ao_nodup : NoDup (entries u);
  ao_live e : e ∈ entries u -> is_Some (melems u !! e)
}.

(** Every element knows its position. *)
Definition idx_ok u : Prop :=
  forall k e E, entries u !! k = Some e -> melems u !! e = Some E -> m_index E = Z.of_nat k.

Definition mixer_ok u : Prop := mem_ok u /\ arr_ok u /\ idx_ok u.

(** The data with other elements, items or decibel blocks. *)
Definition with_melems u (m : gmap Z snd_mixer_elem_t) : mx W :=
  MX (the_mixer u) m (mitems u) (dbs u) (app u).

Definition with_mitems u (m : gmap Z selem_item) : mx W :=
  MX (the_mixer u) (melems u) m (dbs u) (app u).

Definition with_dbs u (m : gmap Z (list Z)) : mx W :=
  MX (the_mixer u) (melems u) (mitems u) m (app u).

(** ** What the mixer holds *)

Definition keys {A} (m : gmap Z A) : list Z := (map_to_list m).*1.

Definition mixer_held (ah : W -> list resource) u : list resource :=
  RMem (mixer_block (the_mixer u)) ::
  (if nz (pelems_block (the_mixer u)) then [RMem (pelems_block (the_mixer u))] else []) ++
  (RMem <$> keys (melems u)) ++ (RMem <$> keys (mitems u)) ++ (RMem <$> keys (dbs u)) ++ ah (app u).

Lemma keys_insert {A} (m : gmap Z A) i x : m !! i = None -> keys (<[i := x]> m) ≡ₚ i :: keys m.
Proof. intros H. unfold keys. rewrite map_to_list_insert by done. done. Qed.

Lemma keys_delete {A} (m : gmap Z A) i : is_Some (m !! i) -> keys m ≡ₚ i :: keys (delete i m).
Proof.
  intros [x H]. rewrite <- (keys_insert (delete i m) i x) by apply lookup_delete_eq.
  rewrite insert_delete_id; done.
Qed.

Lemma keys_alter {A} (m : gmap Z A) f i : keys (alter f i m) ≡ₚ keys m.
Proof.
  destruct (m !! i) as [x|] eqn:Hi.
  - replace (alter f i m) with (<[i := f x]> (delete i m)).
    + rewrite keys_insert by apply lookup_delete_eq. symmetry. apply keys_delete. eauto.
    + rewrite insert_delete_eq. apply map_eq. intros j. destruct (decide (i = j)) as [->|Hne].
      * rewrite lookup_insert_eq, lookup_alter_eq, Hi. done.
      * rewrite lookup_insert_ne, lookup_alter_ne by done. done.
  - replace (alter f i m) with m; [done|]. apply map_eq. intros j.
    destruct (decide (i = j)) as [->|Hne]; [rewrite lookup_alter_eq, Hi|rewrite lookup_alter_ne]; done.
Qed.

Lemma keys_in {A} (m : gmap Z A) i : i ∈ keys m <-> is_Some (m !! i).
Proof.
  unfold keys. rewrite list_elem_of_fmap. split.
  - intros ([j x] & -> & H%elem_of_map_to_list). simpl. eauto.
  - intros [x H]. exists (i, x). rewrite elem_of_map_to_list. done.
Qed.

(** The blocks of each store. *)
Lemma held_insert_melem ah u a E :
  melems u !! a = None -> mixer_held ah (with_melems u (<[a := E]> (melems u))) ≡ₚ RMem a :: mixer_held ah u.
Proof.
  intros H. unfold mixer_held, with_melems. cbn [the_mixer melems mitems dbs app].
  rewrite (keys_insert _ a E H), fmap_cons. solve_Permutation.
Qed.

Lemma held_insert_item ah u a it :
  mitems u !! a = None -> mixer_held ah (with_mitems u (<[a := it]> (mitems u))) ≡ₚ RMem a :: mixer_held ah u.
Proof.
  intros H. unfold mixer_held, with_mitems. cbn [the_mixer melems mitems dbs app].
  rewrite (keys_insert _ a it H), fmap_cons. solve_Permutation.
Qed.

Lemma held_insert_db ah u a d :
  dbs u !! a = None -> mixer_held ah (with_dbs u (<[a := d]> (dbs u))) ≡ₚ RMem a :: mixer_held ah u.
Proof.
  intros H. unfold mixer_held, with_dbs. cbn [the_mixer melems mitems dbs app].
  rewrite (keys_insert _ a d H), fmap_cons. solve_Permutation.
Qed.

Lemma held_delete_melem ah u a :
  is_Some (melems u !! a) -> mixer_held ah u ≡ₚ RMem a :: mixer_held ah (with_melems u (delete a (melems u))).
Proof.
  intros H. unfold mixer_held, with_melems. cbn [the_mixer melems mitems dbs app].
  rewrite (keys_delete _ a H), fmap_cons. solve_Permutation.
Qed.

Lemma held_delete_item ah u a :
  is_Some (mitems u !! a) -> mixer_held ah u ≡ₚ RMem a :: mixer_held ah (with_mitems u (delete a (mitems u))).
Proof.
  intros H. unfold mixer_held, with_mitems. cbn [the_mixer melems mitems dbs app].
  rewrite (keys_delete _ a H), fmap_cons. solve_Permutation.
Qed.

Lemma held_delete_db ah u a :
  is_Some (dbs u !! a) -> mixer_held ah u ≡ₚ RMem a :: mixer_held ah (with_dbs u (delete a (dbs u))).
Proof.
  intros H. unfold mixer_held, with_dbs. cbn [the_mixer melems mitems dbs app].
  rewrite (keys_delete _ a H), fmap_cons. solve_Permutation.
Qed.

Lemma held_keys ah u u' :
  the_mixer u' = the_mixer u -> keys (melems u') ≡ₚ keys (melems u) -> keys (mitems u') ≡ₚ keys (mitems u) ->
  dbs u' = dbs u -> app u' = app u -> mixer_held ah u' ≡ₚ mixer_held ah u.
Proof. intros H1 H2 H3 H4 H5. unfold mixer_held. rewrite H1, H2, H3, H4, H5. done. Qed.

(** A block that is not held is none of the mixer's. *)
Lemma fresh_block ah u rest l a :
  l ≡ₚ mixer_held ah u ++ rest -> RMem a ∉ l ->
  melems u !! a = None /\ mitems u !! a = None /\ dbs u !! a = None.
Proof.
  intros Hl Ha. rewrite Hl in Ha. unfold mixer_held in Ha.
  assert (H : forall B (m : gmap Z B), (RMem a ∈ (RMem <$> keys m) -> False) -> m !! a = None).
  { intros B m Hn. apply eq_None_not_Some. intros Hs. apply Hn.
    apply list_elem_of_fmap. exists a. split; [done|]. apply keys_in. done. }
  repeat split; apply H; intros Hin; apply Ha; set_solver.
Qed.

(** ** Changes of one element *)

(** Changing fields the invariant of the memory does not read. *)
Definition inert (f : snd_mixer_elem_t -> snd_mixer_elem_t) : Prop := forall e,
  slots (f e) = slots e /\ length (chans (f e)) = length (chans e) /\
  (forall b, nz (Z.land (caps e) b) = true -> nz (Z.land (caps (f e)) b) = true).


Lemma lookup_alter_inv {A} (f : A -> A) i j (m : gmap Z A) y :
  alter f i m !! j = Some y -> exists x, m !! j = Some x /\ y = if decide (i = j) then f x else x.
Proof.
  destruct (decide (i = j)) as [->|Hne].
  - rewrite lookup_alter_eq. destruct (m !! j) as [x|]; [|done]. intros [= <-]. eauto.
  - rewrite lookup_alter_ne by done. eauto.
Qed.

Lemma mem_ok_inert u e f : inert f -> mem_ok u -> mem_ok (with_melems u (alter f e (melems u))).
Proof.
  intros Hf [H1 H2 H3 H4 H5].
  assert (Hl : forall a E, alter f e (melems u) !! a = Some E -> exists E0, melems u !! a = Some E0 /\
    slots E = slots E0 /\ length (chans E) = length (chans E0) /\
    forall b, nz (Z.land (caps E0) b) = true -> nz (Z.land (caps E) b) = true).
  { intros a E (E0 & H0 & ->)%lookup_alter_inv. exists E0. split; [done|].
    destruct (decide _); [apply Hf|auto]. }
  constructor; simpl; try done.
  - intros a E (E0 & Ha & -> & -> & _)%Hl. eauto.
  - intros a E t (E0 & Ha & Hs & _)%Hl. unfold slot. rewrite Hs. eauto.
  - intros a E a' E' t t' (E0 & Ha & Hs & _ & Hc)%Hl (E0' & Ha' & Hs' & _)%Hl.
    unfold slot. rewrite Hs, Hs'. intros Hnz Heq. destruct (H3 _ _ _ _ t t' Ha Ha' Hnz Heq) as [He Hj].
    split; [done|]. destruct Hj as [Hj|[Hk Hb]]; [left|right]; auto.
Qed.

Lemma mem_ok_inert_with u m e f :
  inert f -> mem_ok (with_melems u m) -> mem_ok (with_melems u (alter f e m)).
Proof. intros Hf H. exact (mem_ok_inert (with_melems u m) e f Hf H). Qed.

Lemma inert_index v : inert (set_m_index v).
Proof. intros e. auto. Qed.

Lemma inert_caps c : inert (fun e => set_caps (Z.lor (caps e) c) e).
Proof.
  intros e. split; [done|]. split; [done|]. intros b. simpl. rewrite !nz_true. intros H H0.
  apply H. apply Z.bits_inj'. intros n Hn. apply (f_equal (fun z => Z.testbit z n)) in H0.
  rewrite Z.land_spec, Z.lor_spec, Z.bits_0 in H0. rewrite Z.land_spec, Z.bits_0.
  destruct (Z.testbit (caps e) n); [exact H0|done].
Qed.

Lemma inert_chans f : (forall l, length (f l) = length l) -> inert (set_chans f).
Proof. intros Hf e. split; [done|]. split; [apply Hf|]. done. Qed.

(** ** Slots *)

Lemma slot_range t e : length (slots e) = 5%nat -> slot t e <> 0 -> 0 <= t < 5.
Proof.
  intros Hl H. unfold slot, nthz in H. destruct (Z.ltb_spec t 0); [done|].
  destruct (Z.lt_ge_cases t 5); [lia|]. rewrite nth_overflow in H by lia. done.
Qed.

Lemma slot_upd t t' v e : length (slots e) = 5%nat -> 0 <= t < 5 ->
  slot t' (set_slots (upd t (fun _ => v)) e) = if decide (t' = t) then v else slot t' e.
Proof.
  intros Hl Ht. unfold slot. simpl. destruct (decide (t' = t)) as [->|Hne].
  - apply nthz_upd_eq. lia.
  - apply nthz_upd_ne; lia.
Qed.

(** Emptying a slot. *)
Lemma mem_ok_clear u e t : 0 <= t < 5 -> mem_ok u ->
  mem_ok (with_melems u (alter (set_slots (upd t (fun _ => 0))) e (melems u))).
Proof.
  intros Ht [H1 H2 H3 H4 H5].
  assert (Hl : forall a E, alter (set_slots (upd t (fun _ => 0))) e (melems u) !! a = Some E ->
    exists E0, melems u !! a = Some E0 /\ caps E = caps E0 /\ chans E = chans E0 /\
      length (slots E) = length (slots E0) /\ forall t', slot t' E <> 0 -> slot t' E = slot t' E0).
  { intros a E (E0 & H0 & ->)%lookup_alter_inv. exists E0. split; [done|].
    destruct (decide _); [|auto]. do 2 (split; [done|]). split; [apply length_upd|].
    intros t'. rewrite slot_upd by (try lia; eapply H1; eauto). destruct (decide _); done. }
  constructor; simpl; try done.
  - intros a E (E0 & Ha & _ & -> & -> & _)%Hl. eauto.
  - intros a E t' (E0 & Ha & _ & _ & _ & Hs)%Hl Hnz. specialize (Hs _ Hnz). rewrite Hs in *. eauto.
  - intros a E a' E' t1 t2 (E0 & Ha & Hc & _ & _ & Hs)%Hl (E0' & Ha' & _ & _ & _ & Hs')%Hl Hnz Heq.
    pose proof (Hs _ Hnz) as Hs1. pose proof Hnz as Hnz'. rewrite Heq in Hnz'.
    pose proof (Hs' _ Hnz') as Hs2. rewrite Hs1 in *. rewrite Hs2 in *.
    unfold joined. rewrite Hc. eauto.
Qed.

(** The slots of [e] that lead to [i] are among [ok]. *)
Definition only_at u (e : Z) (ok : Z -> Prop) (i : Z) : Prop :=
  forall e' E' t', melems u !! e' = Some E' -> slot t' E' = i -> e' = e /\ ok t'.

(** Filling a slot with an item that is nowhere else, or in the other direction of the
    same element. *)
Lemma mem_ok_fill u e E t i it :
  0 <= t < 5 -> i <> 0 -> melems u !! e = Some E -> mitems u !! i = Some it ->
  body_kind (body it) = slot_kind t -> only_at u e (fun t' => joined E t t' /\ joined E t' t) i ->
  mem_ok u -> mem_ok (with_melems u (alter (set_slots (upd t (fun _ => i))) e (melems u))).
Proof.
  intros Ht Hi He Hit Hk Honly [H1 H2 H3 H4 H5].
  assert (Hl : forall a E', alter (set_slots (upd t (fun _ => i))) e (melems u) !! a = Some E' ->
    exists E0, melems u !! a = Some E0 /\ caps E' = caps E0 /\ chans E' = chans E0 /\
      length (slots E') = length (slots E0) /\
      forall t', slot t' E' = if decide (a = e /\ t' = t) then i else slot t' E0).
  { intros a E' (E0 & H0 & ->)%lookup_alter_inv. exists E0. split; [done|].
    destruct (decide (e = a)) as [->|Hne].
    - do 2 (split; [done|]). split; [apply length_upd|]. intros t'.
      rewrite slot_upd by (try lia; eapply H1; eauto).
      destruct (decide (t' = t)), (decide (a = a /\ t' = t)); naive_solver.
    - do 3 (split; [done|]). intros t'. rewrite decide_False by naive_solver. done. }
  constructor; simpl; try done.
  - intros a E' (E0 & Ha & _ & -> & -> & _)%Hl. eauto.
  - intros a E' t' (E0 & Ha & _ & _ & _ & Hs)%Hl Hnz. rewrite Hs in *.
    destruct (decide (a = e /\ t' = t)) as [[-> ->]|]; eauto.
  - intros a E1 a' E2 t1 t2 (E0 & Ha & Hc & _ & _ & Hs)%Hl (E0' & Ha' & _ & _ & _ & Hs')%Hl.
    rewrite Hs, Hs'. unfold joined. rewrite Hc.
    destruct (decide (a = e /\ t1 = t)) as [[-> ->]|Hn1], (decide (a' = e /\ t2 = t)) as [[-> ->]|Hn2];
      intros Hnz Heq.
    + auto.
    + rewrite He in Ha. injection Ha as <-. destruct (Honly _ _ _ Ha' (eq_sym Heq)) as [-> [Hj _]]. auto.
    + rewrite He in Ha'. injection Ha' as <-. destruct (Honly _ _ _ Ha Heq) as [-> [_ Hj]].
      rewrite He in Ha. injection Ha as <-. auto.
    + apply (H3 a E0 a' E0'); done.
Qed.

(** ** Items and elements come and go *)

Lemma mem_ok_new_item u a it :
  mitems u !! a = None -> ~ real_db (db_info (as_vol it)) -> mem_ok u ->
  mem_ok (MX (the_mixer u) (melems u) (<[a := it]> (mitems u)) (dbs u) (app u)).
Proof.
  intros Ha Hit [H1 H2 H3 H4 H5]. constructor; simpl; try done.
  - intros e E t He Hnz. destruct (H2 e E t He Hnz) as (it' & Hi & Hk). exists it'.
    split; [|done]. rewrite lookup_insert_ne; [done|]. congruence.
  - intros i it' [[<- <-]|[Hne Hi]]%lookup_insert_Some; [done|eauto].
  - intros i it1 i' it2 [[<- <-]|[Hne Hi]]%lookup_insert_Some [[<- <-]|[Hne' Hi']]%lookup_insert_Some
      Hr Heq; try done.
    + rewrite Heq in Hr. done.
    + eauto.
Qed.

(** Freeing an item that no slot leads to, with its decibel block. *)
Lemma mem_ok_free_item u i it (d : Z) (with_db : bool) :
  mitems u !! i = Some it -> (with_db = true -> d = db_info (as_vol it) /\ real_db d) ->
  (forall e E t, melems u !! e = Some E -> slot t E <> 0 -> slot t E <> i) -> mem_ok u ->
  mem_ok (MX (the_mixer u) (melems u) (delete i (mitems u))
            (if with_db then delete d (dbs u) else dbs u) (app u)).
Proof.
  intros Hi Hd Hno [H1 H2 H3 H4 H5]. constructor; simpl; try done.
  - intros e E t He Hnz. destruct (H2 e E t He Hnz) as (it' & Hi' & Hk). exists it'.
    split; [|done]. rewrite lookup_delete_ne; [done|]. intros Heq. apply (Hno e E t He Hnz). done.
  - intros j it' [Hne Hj]%lookup_delete_Some Hr. destruct with_db; [|eauto].
    destruct (Hd eq_refl) as [-> Hrd]. rewrite lookup_delete_ne; [eauto|].
    intros Heq. apply Hne. eapply H5; eauto.
  - intros j it1 j' it2 [_ Hj]%lookup_delete_Some [_ Hj']%lookup_delete_Some. eauto.
Qed.

Lemma mem_ok_new_elem u a E :
  length (slots E) = 5%nat -> length (chans E) = 2%nat -> (forall t, slot t E = 0) -> mem_ok u ->
  mem_ok (with_melems u (<[a := E]> (melems u))).
Proof.
  intros Hs Hc H0 [H1 H2 H3 H4 H5]. constructor; simpl; try done.
  - intros e E' [[<- <-]|[_ He]]%lookup_insert_Some; eauto.
  - intros e E' t [[<- <-]|[_ He]]%lookup_insert_Some; [rewrite H0; done|eauto].
  - intros e E1 e' E2 t t' [[<- <-]|[_ He]]%lookup_insert_Some; [rewrite H0; done|].
    intros [[<- <-]|[_ He']]%lookup_insert_Some; [rewrite H0; congruence|eauto].
Qed.

Lemma mem_ok_free_elem u a : mem_ok u -> mem_ok (with_melems u (delete a (melems u))).
Proof.
  intros [H1 H2 H3 H4 H5]. constructor; simpl; try done.
  - intros e E [_ He]%lookup_delete_Some. eauto.
  - intros e E t [_ He]%lookup_delete_Some. eauto.
  - intros e E e' E' t t' [_ He]%lookup_delete_Some [_ He']%lookup_delete_Some. eauto.
Qed.

(** An item's contents, its type and decibel block left alone. *)
Lemma mem_ok_body u i f :
  (forall it, mitems u !! i = Some it ->
     body_kind (body (f it)) = body_kind (body it) /\
     db_info (as_vol (f it)) = db_info (as_vol it)) -> mem_ok u ->
  mem_ok (MX (the_mixer u) (melems u) (alter f i (mitems u)) (dbs u) (app u)).
Proof.
  intros Hf [H1 H2 H3 H4 H5].
  assert (Hl : forall j it, alter f i (mitems u) !! j = Some it -> exists it0,
    mitems u !! j = Some it0 /\ body_kind (body it) = body_kind (body it0) /\
    db_info (as_vol it) = db_info (as_vol it0)).
  { intros j it (it0 & Hj & ->)%lookup_alter_inv. exists it0. split; [done|].
    destruct (decide (i = j)) as [->|]; auto. }
  constructor; simpl; try done.
  - intros e E t He Hnz. destruct (H2 e E t He Hnz) as (it & Hi & Hk).
    destruct (decide (i = slot t E)) as [->|Hne].
    + rewrite lookup_alter_eq, Hi. simpl. eexists. split; [done|]. destruct (Hf it Hi). congruence.
    + rewrite lookup_alter_ne by done. eauto.
  - intros j it (it0 & Hj & _ & ->)%Hl. eauto.
  - intros j it j' it' (it0 & Hj & _ & ->)%Hl (it0' & Hj' & _ & ->)%Hl. eauto.
Qed.

(** ** The array *)

Fixpoint reindex (k : Z) (l : list Z) (m : gmap Z snd_mixer_elem_t) : gmap Z snd_mixer_elem_t :=
  match l with
  | [] => m
  | a :: l => reindex (k + 1) l (alter (set_m_index k) a m)
  end.

Lemma reindex_mem k l u : mem_ok u -> mem_ok (with_melems u (reindex k l (melems u))).
Proof.
  revert k u. induction l as [|a l IH]; intros k u H; simpl; [destruct u; done|].
  pose proof (IH (k + 1) (with_melems u (alter (set_m_index k) a (melems u)))) as H1.
  apply H1, mem_ok_inert; [apply inert_index|done].
Qed.

Lemma reindex_keys k l m : keys (reindex k l m) ≡ₚ keys m.
Proof. revert k m. induction l as [|a l IH]; intros k m; simpl; [done|]. rewrite IH, keys_alter. done. Qed.

Lemma reindex_live k l m a : is_Some (reindex k l m !! a) <-> is_Some (m !! a).
Proof. rewrite <- !keys_in. rewrite reindex_keys. done. Qed.

Lemma reindex_other k l m a : a ∉ l -> reindex k l m !! a = m !! a.
Proof.
  revert k m. induction l as [|b l IH]; intros k m Ha; simpl; [done|].
  apply not_elem_of_cons in Ha as [Hne Ha]. rewrite IH by done. apply lookup_alter_ne. done.
Qed.

Lemma reindex_at k l m i a E :
  NoDup l -> l !! i = Some a -> reindex k l m !! a = Some E -> m_index E = k + Z.of_nat i.
Proof.
  revert k m i. induction l as [|b l IH]; intros k m i Hnd Hi HE; [done|].
  apply NoDup_cons in Hnd as [Hb Hnd]. destruct i as [|i]; simpl in *.
  - injection Hi as ->. rewrite reindex_other in HE by done. rewrite lookup_alter_eq in HE.
    destruct (m !! a); [|done]. injection HE as <-. simpl. lia.
  - rewrite (IH _ _ _ Hnd Hi HE). lia.
Qed.

(** A change of the elements that keeps which there are, and their indices. *)
Lemma arr_ok_melems u m :
  (forall a, is_Some (melems u !! a) -> is_Some (m !! a)) -> arr_ok u -> arr_ok (with_melems u m).
Proof. intros Hm [H1 H2 H3 H4]. constructor; simpl; auto. Qed.

Lemma alter_live {A} (f : A -> A) i j (m : gmap Z A) : is_Some (m !! j) -> is_Some (alter f i m !! j).
Proof.
  intros [x H]. destruct (decide (i = j)) as [->|Hne].
  - rewrite lookup_alter_eq, H. simpl. eauto.
  - rewrite lookup_alter_ne; eauto.
Qed.

Lemma idx_ok_alter u f e :
  (forall E, m_index (f E) = m_index E) -> idx_ok u -> idx_ok (with_melems u (alter f e (melems u))).
Proof.
  intros Hf H k a E Hk (E0 & HE & ->)%lookup_alter_inv. rewrite <- (H k a E0 Hk HE).
  destruct (decide _); auto.
Qed.

(** Sorting: after the indices are written they are right. *)
Lemma idx_ok_reindex u :
  arr_ok u -> idx_ok (with_melems u (reindex 0 (entries u) (melems u))).
Proof.
  intros [H1 H2 H3 H4] k a E Hk HE. rewrite (reindex_at 0 _ _ k a E H3 Hk HE). lia.
Qed.
End Ok.
#[global] Arguments mixer_held : simpl never.
