(* ===== verification/MixerSpec.v ===== *)
(** * The mixer keeps its memory in order

    The theorems about Mixer.v, first part: every operation of the mixer as the client
    of its handle keeps [mixer_ok] and accounts for every block ([good]), so that the
    mixer satisfies the contract of Hcontrol.v's clients and the theorems about the
    element list and its events hold with the mixer attached. *)

From stdpp Require Import gmap.
From S2P Require Import Prelude CInt Sys Cards Async CtlTypes Control Hcontrol.
From S2P Require Import HcontrolSpec Mixer MixerOk.
#[local] Open Scope Z_scope.

(** What is asked of the application's callbacks and of [qsort]. *)
Class MixerAppLaws (K W : Type) `{!MixerApp K W} := {
  app_held : W -> list resource;
  app_mixer_law cb mask e s :
    client_keeps (mixer_held app_held) mixer_ok s (app_mixer_cb cb mask e s).2;
  app_elem_law cb e mask s :
    client_keeps (mixer_held app_held) mixer_ok s (app_elem_cb cb e mask s).2;
  app_hctl_law cb mask e s :
    client_keeps (mixer_held app_held) mixer_ok s (app_hctl_cb cb mask e s).2;
  app_helem_law cb e mask s :
    client_keeps (mixer_held app_held) mixer_ok s (app_helem_cb cb e mask s).2;
  app_qsort_law cmp base l s : app_qsort cmp base l s ≡ₚ l
}.

Create HintDb framed.

(** Follow the shape of the computation. *)
Ltac framed_tac framed_bind :=
  repeat first
    [ solve [auto with framed]
    | apply framed_bind; [|intros ?]
    | match goal with |- context [match ?x with _ => _ end] => destruct x end ].

Section Spec.
Context {K W : Type} `{!Os K, !OsLaws K, !AsyncKernel K, !CardKernel K, !CtlKernel K}.
Context `{!MixerApp K W, !MixerAppLaws K W}.

#[local] Abbreviation state := (hs K (mx W)).
#[local] Abbreviation M := (io (hs K (mx W))).

Definition set_user (s : state) (u : mx W) : state := HS (the_hctl s) (elems s) (hprc s) u.

(** The ledger is the mixer's blocks and [rest]. *)
Definition accounts (rest : list resource) (s : state) : Prop :=
  ledger s ≡ₚ mixer_held app_held (user s) ++ rest.

Definition good (rest : list resource) (s : state) : Prop := mixer_ok (user s) /\ accounts rest s.

(** ** What the mixer leaves alone: the handle, the list, the other pointers *)

Definition same_frame (s s' : state) : Prop :=
  the_hctl s' = the_hctl s /\ fixed <$> elems s' = fixed <$> elems s /\
  ptrs (hprc s') = ptrs (hprc s) /\ async_list (hprc s') = async_list (hprc s).

Definition framed {A} (m : M A) : Prop := forall s, same_frame s (m s).2.

Lemma same_frame_trans s1 s2 s3 : same_frame s1 s2 -> same_frame s2 s3 -> same_frame s1 s3.
Proof. intros (A1 & A2 & A3 & A4) (B1 & B2 & B3 & B4). repeat split; congruence. Qed.

Lemma framed_ret {A} (a : A) : framed (ret a).
Proof. intros s. done. Qed.

Lemma framed_bind {A B} (m : M A) (f : A -> M B) : framed m -> (forall a, framed (f a)) -> framed (bind m f).
Proof.
  intros Hm Hf s. unfold bind. specialize (Hm s). destruct (m s) as [a s1]. simpl in *.
  apply (same_frame_trans s s1); [done|]. apply Hf.
Qed.

Lemma framed_keeps cheld cok s s' : client_keeps cheld cok s s' -> same_frame s s'.
Proof. intros []. done. Qed.

Lemma framed_getu : framed getu.
Proof. intros s. done. Qed.

Lemma framed_setu f : framed (setu f).
Proof. intros s. done. Qed.

Lemma framed_gete a : framed (gete a).
Proof. intros s. done. Qed.

Lemma framed_geth : framed geth.
Proof. intros s. done. Qed.

Lemma framed_sete a f : (forall e, fixed (f e) = fixed e) -> framed (sete a f).
Proof.
  intros Hf s. unfold sete, same_frame. simpl. repeat split; try done. apply map_eq. intros b.
  rewrite !lookup_fmap. destruct (decide (a = b)) as [->|Hne].
  - rewrite lookup_alter_eq. destruct (elems s !! b); simpl; [rewrite Hf|]; done.
  - rewrite lookup_alter_ne; done.
Qed.

Lemma framed_onsys {A} (m : io (world K) A) : framed (onhp (onsys m)).
Proof. intros s. unfold onhp, onsys. destruct (m _). done. Qed.

Lemma framed_sysp {A} (m : io K A) : framed (onhp (sysp m)).
Proof. apply framed_onsys. Qed.

Lemma framed_rc {A} (m : io (proc K) (Z * A)) :
  framed (onhp m) -> framed (onhp (let* r := m in ret (rc r))).
Proof. intros H s. specialize (H s). unfold onhp, bind, ret in *. destruct (m _). done. Qed.

Lemma framed_elem_info a i : framed (snd_hctl_elem_info a i).
Proof.
  unfold snd_hctl_elem_info, elem_ctl. apply framed_bind; [apply framed_gete|]. intros e.
  apply framed_bind; [|intros; apply framed_rc, framed_sysp].
  apply framed_bind; [apply framed_geth|]. intros. apply framed_ret.
Qed.

Lemma framed_elem_read a v : framed (snd_hctl_elem_read a v).
Proof.
  unfold snd_hctl_elem_read, elem_ctl. apply framed_bind; [apply framed_gete|]. intros e.
  apply framed_bind; [|intros; apply framed_rc, framed_sysp].
  apply framed_bind; [apply framed_geth|]. intros. apply framed_ret.
Qed.

Lemma framed_app_mixer cb mask e : framed (app_mixer_cb cb mask e).
Proof. intros s. eapply framed_keeps, app_mixer_law. Qed.

Lemma framed_app_elem cb e mask : framed (app_elem_cb cb e mask).
Proof. intros s. eapply framed_keeps, app_elem_law. Qed.

Lemma framed_qsort : framed qsort_pelems.
Proof. intros s. done. Qed.

#[local] Hint Resolve framed_ret framed_getu framed_setu framed_gete framed_geth framed_onsys
  framed_sysp framed_elem_info framed_elem_read framed_app_mixer framed_app_elem framed_qsort : framed.
#[local] Ltac frm := framed_tac @framed_bind.

Lemma framed_getm : framed getm.
Proof. unfold getm. frm. Qed.
Lemma framed_setm f : framed (setm f).
Proof. apply framed_setu. Qed.
Lemma framed_getx e : framed (getx e).
Proof. unfold getx. frm. Qed.
Lemma framed_setx e f : framed (setx e f).
Proof. apply framed_setu. Qed.
Lemma framed_geti i : framed (geti i).
Proof. unfold geti. frm. Qed.
Lemma framed_seti i f : framed (seti i f).
Proof. apply framed_setu. Qed.
Lemma framed_malloc n : framed (malloc n).
Proof. apply framed_onsys. Qed.
Lemma framed_mfree a : framed (mfree a).
Proof. apply framed_onsys. Qed.
Lemma framed_private a v : framed (snd_hctl_elem_set_callback_private a v).
Proof. apply framed_sete. done. Qed.
Lemma framed_callback a v : framed (snd_hctl_elem_set_callback a v).
Proof. apply framed_sete. done. Qed.
Lemma framed_get_private a : framed (snd_hctl_elem_get_callback_private a).
Proof. unfold snd_hctl_elem_get_callback_private. frm. Qed.
#[local] Hint Resolve framed_getm framed_setm framed_getx framed_setx framed_geti framed_seti
  framed_malloc framed_mfree framed_private framed_callback framed_get_private : framed.

Lemma framed_throw mask e : framed (snd_mixer_throw_event mask e).
Proof. unfold snd_mixer_throw_event, count_event. frm. Qed.
Lemma framed_elem_throw e mask : framed (_snd_mixer_elem_throw_event e mask).
Proof. unfold _snd_mixer_elem_throw_event, count_event. frm. Qed.
Lemma framed_pelem i : framed (pelem i).
Proof. unfold pelem. frm. Qed.
#[local] Hint Resolve framed_throw framed_elem_throw framed_pelem : framed.

Lemma framed_index_loop ns : framed (index_loop ns).
Proof. induction ns; simpl; frm. Qed.
Lemma framed_shift_loop ns : framed (shift_loop ns).
Proof. induction ns; simpl; unfold set_pelem; frm. Qed.
#[local] Hint Resolve framed_index_loop framed_shift_loop : framed.

Lemma framed_sort : framed snd_mixer_sort.
Proof. unfold snd_mixer_sort. frm. Qed.
Lemma framed_remove_loop e ns : framed (remove_loop e ns).
Proof. induction ns as [|n ns IH]; cbn [remove_loop]; frm. Qed.
Lemma framed_match_loop l name type index : framed (match_loop l name type index).
Proof. revert index. induction l; intros index; simpl; frm. Qed.
Lemma framed_update_vol i v : framed (update_selem_vol_item i v).
Proof. unfold update_selem_vol_item. apply framed_bind; [auto with framed|]. intros it. frm. Qed.
Lemma framed_update_sw i v : framed (update_selem_sw_item i v).
Proof. unfold update_selem_sw_item. frm. Qed.
Lemma framed_update_enum i v : framed (update_selem_enum_item i v).
Proof. unfold update_selem_enum_item. apply framed_bind; [auto with framed|]. intros it. frm. Qed.
#[local] Hint Resolve framed_sort framed_remove_loop framed_match_loop framed_update_vol
  framed_update_sw framed_update_enum : framed.

Lemma framed_update_loop hp e ns : framed (update_loop hp e ns).
Proof. induction ns; simpl; unfold update_selem_item; frm. Qed.
Lemma framed_add_cap e c t i : framed (add_cap e c t i).
Proof. unfold add_cap. frm. Qed.
Lemma framed_add_mixer_elem e : framed (add_mixer_elem e).
Proof. unfold add_mixer_elem, realloc. frm. Qed.
Lemma framed_new_item hp info : framed (new_selem_item hp info).
Proof. unfold new_selem_item, new_item. frm. Qed.
Lemma framed_new_mixer_elem name index : framed (new_mixer_elem name index).
Proof. unfold new_mixer_elem. frm. Qed.
#[local] Hint Resolve framed_update_loop framed_add_cap framed_add_mixer_elem framed_new_item
  framed_new_mixer_elem : framed.

Lemma framed_add_simple hp : framed (add_simple_element hp).
Proof.
  unfold add_simple_element, free_item. apply framed_bind; [auto with framed|]. intros h.
  destruct (split_name _) as [[name dir] g]. frm.
Qed.
Lemma framed_remove_simple hp b : framed (remove_simple_element hp b).
Proof.
  unfold remove_simple_element. apply framed_bind; [auto with framed|]. intros e.
  generalize item_types as ns. induction ns; simpl; [frm|].
  apply framed_bind; [auto with framed|]. intros x. destruct (_ =? 0); [done|].
  apply framed_bind; [auto with framed|]. intros it. destruct (negb _); [done|].
  unfold drop_item, clear_slots, free_item_db, release_db, free_db, free_item, remove_mixer_elem, free_melem. frm.
Qed.
#[local] Hint Resolve framed_add_simple framed_remove_simple : framed.

Lemma framed_elem_handler hp mask : framed (hctl_elem_event_handler hp mask).
Proof.
  unfold hctl_elem_event_handler, reload_element, snd_mixer_elem_info, snd_mixer_elem_value, update_simple_element. frm.
Qed.
Lemma framed_handler mask e : framed (hctl_event_handler mask e).
Proof. unfold hctl_event_handler. frm. Qed.

(** ** Running the primitives *)

Lemma run_bind {A B} (m : M A) (f : A -> M B) s a s1 : m s = (a, s1) -> bind m f s = f a s1.
Proof. intros H. unfold bind. rewrite H. done. Qed.

Lemma run_getm {A} (f : snd_mixer_t -> M A) s : bind getm f s = f (the_mixer (user s)) s.
Proof. done. Qed.

Lemma run_getx {A} e (f : snd_mixer_elem_t -> M A) s :
  bind (getx e) f s = f (default zero_melem (melems (user s) !! e)) s.
Proof. done. Qed.

Lemma run_geti {A} i (f : selem_item -> M A) s :
  bind (geti i) f s = f (default zero_item (mitems (user s) !! i)) s.
Proof. done. Qed.

Lemma run_setu {A} g (f : unit -> M A) s : bind (setu g) f s = f tt (set_user s (g (user s))).
Proof. done. Qed.

Lemma run_setm {A} g (f : unit -> M A) s : bind (setm g) f s = f tt (setm g s).2.
Proof. done. Qed.

Lemma run_pelem {A} i (f : Z -> M A) s :
  bind (pelem i) f s = f (nthz 0 (pelems (the_mixer (user s))) i) s.
Proof. done. Qed.

(** ** The memory: calls that do not touch it *)

Definition quiet {A} (m : M A) : Prop := forall s, user (m s).2 = user s /\ ledger (m s).2 = ledger s.

Lemma quiet_done {A} (a : A) : quiet (ret a).
Proof. intros s. done. Qed.

Lemma quiet_then {A B} (m : M A) (f : A -> M B) : quiet m -> (forall a, quiet (f a)) -> quiet (bind m f).
Proof.
  intros Hm Hf s. unfold bind. specialize (Hm s). destruct (m s) as [a s1]. simpl in *.
  destruct (Hf a s1) as [-> ->]. done.
Qed.

Lemma quiet_sysp_rc {A} (m : io K (Z * A)) : quiet (onhp (let* r := sysp m in ret (rc r))).
Proof. intros s. unfold onhp, bind, ret, sysp, onsys, lift. destruct (m _). done. Qed.

Lemma quiet_elem_info a i : quiet (snd_hctl_elem_info a i).
Proof. intros s. apply quiet_sysp_rc. Qed.

Lemma quiet_elem_read a v : quiet (snd_hctl_elem_read a v).
Proof. intros s. apply quiet_sysp_rc. Qed.

Lemma quiet_good {A} (m : M A) rest s : quiet m -> good rest s -> good rest (m s).2.
Proof. intros Hq [H1 H2]. destruct (Hq s) as [Hu Hl]. unfold good, accounts. rewrite Hu, Hl. done. Qed.

(** A state with other user data, which holds the same blocks. *)
Lemma good_set_user rest s u :
  good rest s -> mixer_ok u -> mixer_held app_held u ≡ₚ mixer_held app_held (user s) ->
  good rest (set_user s u).
Proof. intros [_ Ha] Hok Hh. split; [done|].
  unfold accounts in *. change (user (set_user s u)) with u. rewrite Hh. done. Qed.

Lemma app_good {A} (m : M A) rest s :
  client_keeps (mixer_held app_held) mixer_ok s (m s).2 -> good rest s -> good rest (m s).2.
Proof. intros Hk [H1 H2]. exact (keep_held _ _ _ _ Hk rest H1 H2). Qed.

(** ** Events *)

Lemma count_event_good rest s : good rest s -> good rest (count_event s).2.
Proof.
  intros Hg. apply good_set_user; [done| |done]. destruct Hg as [([] & [] & Hi) _].
  split; [constructor; done|]. split; [constructor; done|done].
Qed.

Lemma throw_good mask e rest s : good rest s -> good rest (snd_mixer_throw_event mask e s).2.
Proof.
  intros Hg. unfold snd_mixer_throw_event, bind at 1. pose proof (count_event_good rest s Hg) as H.
  destruct (count_event s) as [[] s1]. unfold bind, getm, getu, ret. simpl in *.
  destruct (nz _); [|done]. apply app_good; [apply app_mixer_law|done].
Qed.

Lemma elem_throw_good e mask rest s : good rest s -> good rest (_snd_mixer_elem_throw_event e mask s).2.
Proof.
  intros Hg. unfold _snd_mixer_elem_throw_event, bind at 1. pose proof (count_event_good rest s Hg) as H.
  destruct (count_event s) as [[] s1]. unfold bind, getx, getu, ret. simpl in *.
  destruct (nz _); [|done]. apply app_good; [apply app_elem_law|done].
Qed.

(** ** Blocks *)

Lemma malloc_spec n rest s :
  accounts rest s ->
  let '(r, s') := malloc n s in
  user s' = user s /\
  match r with
  | None => ledger s' = ledger s
  | Some a => ledger s' = RMem a :: ledger s /\ 0 < a /\
      melems (user s) !! a = None /\ mitems (user s) !! a = None /\ dbs (user s) !! a = None
  end.
Proof.
  intros Ha. unfold malloc, onhp, onsys, sys_alloc, bind, lift.
  destruct (os_alloc n (held (wld (hprc s))) (ker (wld (hprc s)))) as [[a|] k] eqn:He; simpl; [|done].
  destruct (alloc_law _ _ _ _ _ He) as [Hpos Hfresh].
  do 2 (split; [done|]). split; [done|]. apply (fresh_block app_held (user s) rest (ledger s)); done.
Qed.

(** ** Making items *)

(** No slot leads to [i]. *)
Definition unref (u : mx W) (i : Z) : Prop :=
  forall e E t, melems u !! e = Some E -> slot t E <> i.

Lemma not_real_db0 : ~ real_db 0.
Proof. intros [H _]. done. Qed.

Lemma unref_fresh u a : mem_ok u -> mitems u !! a = None -> 0 < a -> unref u a.
Proof.
  intros Hm Ha Hpos e E t He Heq. destruct (mo_live _ Hm e E t He) as (it & Hit & _); [lia|].
  rewrite Heq in Hit. congruence.
Qed.

Lemma new_item_good size it rest s :
  good rest s -> ~ real_db (db_info (as_vol it)) ->
  let '(r, s') := new_item size it s in
  good rest s' /\
  match r with
  | None => True
  | Some a => 0 < a /\ unref (user s') a /\ mitems (user s') !! a = Some it
  end.
Proof.
  intros [(Hm & Har & Hi) Ha] Hdb. unfold new_item, bind. pose proof (malloc_spec size rest s Ha) as H.
  destruct (malloc size s) as [[a|] s1]; destruct H as [Hu H].
  - destruct H as (Hl & Hpos & _ & Hfr & _). unfold setu, ret. simpl. rewrite Hu. split.
    + split.
      * split; [apply mem_ok_new_item; done|]. destruct Har. split; [constructor; done|done].
      * unfold accounts, ledger in *. cbn [hprc user]. rewrite Hl, Ha.
        rewrite (held_insert_item app_held (user s) a it Hfr). done.
    + split; [done|]. split; [|apply lookup_insert_eq]. intros e E t He.
      apply (unref_fresh (user s) a Hm Hfr Hpos e E t He).
  - unfold ret. split; [|done]. split; [rewrite Hu; done|]. unfold accounts. rewrite Hu, H. done.
Qed.

(** The type of the slot an element goes to is the type of the item made for it. *)
Lemma elem_caps_spec dir g type c t :
  elem_caps dir g type = Some (c, t) -> (dir = 0 \/ dir = 1) -> (g = true -> dir = 0) ->
  0 <= t < 5 /\
  slot_kind t = (if type =? TYPE_INTEGER then 0 else if type =? TYPE_BOOLEAN then 1 else 2) /\
  (type =? TYPE_INTEGER) || (type =? TYPE_BOOLEAN) || (type =? TYPE_ENUMERATED) = true /\
  (t <> ITEM_ENUM -> nz (Z.land c (Z.lor CAP_GVOLUME CAP_GSWITCH)) = true ->
     (t = ITEM_PVOLUME \/ t = ITEM_PSWITCH) /\ nz (Z.land c (shared_bit (slot_kind t))) = true).
Proof.
  intros H Hd Hg. unfold elem_caps in H.
  destruct (Z.eqb_spec type TYPE_BOOLEAN) as [->|H1]; [|destruct (Z.eqb_spec type TYPE_INTEGER) as [->|H2];
    [|destruct (Z.eqb_spec type TYPE_ENUMERATED) as [->|H3]; [|done]]];
    injection H as <- <-; destruct Hd as [-> | ->], g; try discriminate (Hg eq_refl);
    cbv; repeat split; intros; try done; auto; try lia.
Qed.

Lemma new_selem_item_good hp info rest s :
  good rest s ->
  let '(r, s') := new_selem_item hp info s in
  good rest s' /\
  match r with
  | None => True
  | Some a => 0 < a /\ unref (user s') a /\ exists it, mitems (user s') !! a = Some it /\
      body_kind (body it) =
      (if info_type info =? TYPE_INTEGER then 0 else if info_type info =? TYPE_BOOLEAN then 1 else 2)
  end.
Proof.
  intros Hg. unfold new_selem_item. unfold bind at 1.
  pose proof (quiet_good _ rest s (quiet_elem_read hp (set_value_id (info_id info) zero_value)) Hg) as H.
  destruct (snd_hctl_elem_read _ _ s) as [[err val] s1]. simpl in H.
  destruct (err <? 0); [done|].
  assert (Hn : forall size b, ~ real_db (db_info (as_vol (Item hp (numid (info_id info)) (info_count info) b))) ->
    body_kind b = (if info_type info =? TYPE_INTEGER then 0
                   else if info_type info =? TYPE_BOOLEAN then 1 else 2) ->
    let '(r, s') := new_item size (Item hp (numid (info_id info)) (info_count info) b) s1 in
    good rest s' /\
    match r with
    | None => True
    | Some a => 0 < a /\ unref (user s') a /\ exists it, mitems (user s') !! a = Some it /\
        body_kind (body it) = (if info_type info =? TYPE_INTEGER then 0
                               else if info_type info =? TYPE_BOOLEAN then 1 else 2)
    end).
  { intros size b Hb Hk. pose proof (new_item_good size _ rest s1 H Hb) as Hnew.
    destruct (new_item _ _ s1) as [[a|] s2]; [|done]. destruct Hnew as (Hg2 & Hpos & Hun & Hit).
    split; [done|]. split; [done|]. split; [done|]. eexists. split; [exact Hit|]. exact Hk. }
  destruct (info_type info =? TYPE_INTEGER); [apply Hn; [apply not_real_db0|done]|].
  destruct (info_type info =? TYPE_BOOLEAN); [apply Hn; [apply not_real_db0|done]|].
  destruct (info_type info =? TYPE_ENUMERATED); [apply Hn; [apply not_real_db0|done]|]. done.
Qed.

(** ** Attaching an item to an element *)

Definition raise (i : selem_item) (t : Z) : snd_mixer_elem_t -> snd_mixer_elem_t :=
  set_chans (upd t (fun c => if c <? channels i then channels i else c)).

Definition both_caps (c : Z) : bool := nz (Z.land c (Z.lor CAP_GVOLUME CAP_GSWITCH)).

(** What [add_cap] does to the elements. *)
Definition cap_store (e c t item : Z) (i : selem_item) (m : gmap Z snd_mixer_elem_t)
  : gmap Z snd_mixer_elem_t :=
  let m := alter (fun e => set_caps (Z.lor (caps e) c) e) e m in
  let m := alter (set_slots (upd t (fun _ => item))) e m in
  if t =? ITEM_ENUM then m
  else
    let m := if both_caps c then alter (set_slots (upd (t + 1) (fun _ => item))) e m else m in
    let m := alter (raise i (Z.land t 1)) e m in
    if both_caps c then alter (raise i (Z.land t 1 + 1)) e m else m.

Definition set_private (a v : Z) (s : state) : gmap Z snd_hctl_elem_t :=
  (snd_hctl_elem_set_callback_private a v s).2.(elems).

Lemma add_cap_eq e c t item s :
  let i := default zero_item (mitems (user s) !! item) in
  add_cap e c t item s =
  (tt, HS (the_hctl s) (set_private (helem i) e s) (hprc s)
         (with_melems (user s) (cap_store e c t item i (melems (user s))))).
Proof.
  cbn zeta. unfold add_cap, cap_store, both_caps, raise, with_melems, set_private.
  unfold setx, geti, getu, setu, bind, ret, snd_hctl_elem_set_callback_private, sete. simpl.
  destruct (t =? ITEM_ENUM); [done|]. destruct (nz _); done.
Qed.

(** A chain of changes of one element. *)
Lemma with_melems_twice (u : mx W) m m' : with_melems (with_melems u m) m' = with_melems u m'.
Proof. done. Qed.

Lemma cap_store_live e c t item i m a : is_Some (m !! a) -> is_Some (cap_store e c t item i m !! a).
Proof.
  intros H. unfold cap_store. destruct (t =? ITEM_ENUM); [auto using alter_live|].
  destruct (both_caps c); auto 6 using alter_live.
Qed.

Lemma cap_store_keys e c t item i m : keys (cap_store e c t item i m) ≡ₚ keys m.
Proof.
  unfold cap_store. destruct (t =? ITEM_ENUM); [rewrite !keys_alter; done|].
  destruct (both_caps c); rewrite !keys_alter; done.
Qed.

Definition same_index (m m' : gmap Z snd_mixer_elem_t) : Prop :=
  forall a E, m' !! a = Some E -> exists E0, m !! a = Some E0 /\ m_index E = m_index E0.

Lemma same_index_alter m m' f e :
  (forall E, m_index (f E) = m_index E) -> same_index m m' -> same_index m (alter f e m').
Proof.
  intros Hf H a E (E0 & H0 & ->)%lookup_alter_inv. destruct (H a E0 H0) as (E1 & H1 & H2).
  exists E1. split; [done|]. rewrite <- H2. destruct (decide _); auto.
Qed.

Lemma cap_store_index e c t item i m : same_index m (cap_store e c t item i m).
Proof.
  assert (H0 : same_index m m) by (intros a E H; eauto). unfold cap_store.
  destruct (t =? ITEM_ENUM); [repeat (apply same_index_alter; [done|]); done|].
  destruct (both_caps c); repeat (apply same_index_alter; [done|]); done.
Qed.

Lemma cap_store_idx e c t item i (u : mx W) :
  idx_ok u -> idx_ok (with_melems u (cap_store e c t item i (melems u))).
Proof.
  intros H k a E Hk HE. destruct (cap_store_index e c t item i (melems u) a E HE) as (E0 & H0 & ->).
  exact (H k a E0 Hk H0).
Qed.

Lemma raise_inert i t : inert (raise i t).
Proof. apply inert_chans. intros l. apply length_upd. Qed.

Lemma lor_bit a c b : nz (Z.land c b) = true -> nz (Z.land (Z.lor a c) b) = true.
Proof. intros H. rewrite Z.lor_comm. apply (inert_caps a (MElem "" 0 0 c 0 [] [] 0 0 0)). exact H. Qed.

(** The element with a fresh item in its slot, or in both slots of a common item. *)
Lemma cap_store_ok (u : mx W) e E c t item it :
  mem_ok u -> melems u !! e = Some E -> mitems u !! item = Some it -> 0 < item -> unref u item ->
  0 <= t < 5 -> body_kind (body it) = slot_kind t ->
  (t <> ITEM_ENUM -> both_caps c = true ->
     (t = ITEM_PVOLUME \/ t = ITEM_PSWITCH) /\ nz (Z.land c (shared_bit (slot_kind t))) = true) ->
  mem_ok (with_melems u (cap_store e c t item it (melems u))).
Proof.
  intros Hm He Hit Hpos Hun Ht Hk Hc. unfold cap_store.
  set (m1 := alter _ e (melems u)). set (m2 := alter _ e m1).
  set (E1 := set_caps (Z.lor (caps E) c) E).
  assert (H1 : m1 !! e = Some E1) by (unfold m1; rewrite lookup_alter_eq, He; done).
  assert (Hm1 : mem_ok (with_melems u m1)) by (apply mem_ok_inert; [apply inert_caps|done]).
  assert (Hun1 : unref (with_melems u m1) item).
  { intros a E' t' (E0 & H0 & ->)%lookup_alter_inv. destruct (decide _); apply (Hun a E0 t' H0). }
  assert (Hm2 : mem_ok (with_melems u m2)).
  { apply (mem_ok_fill (with_melems u m1) e E1 t item it); try done; [lia|].
    intros e' E' t' HE' Hs. destruct (Hun1 e' E' t' HE' Hs). }
  destruct (Z.eqb_spec t ITEM_ENUM) as [|Hne]; [done|].
  destruct (both_caps c) eqn:Hb.
  - destruct (Hc Hne eq_refl) as [Ht2 Hbit].
    set (m3 := alter _ e m2). assert (Hm3 : mem_ok (with_melems u m3)).
    { set (E2 := set_slots (upd t (fun _ => item)) E1).
      apply (mem_ok_fill (with_melems u m2) e E2 (t + 1) item it); try done.
      - destruct Ht2 as [-> | ->]; done.
      - lia.
      - change (m2 !! e = Some E2). unfold m2. rewrite lookup_alter_eq, H1. done.
      - rewrite Hk. destruct Ht2 as [-> | ->]; done.
      - intros e' E' t' (E0 & H0 & ->)%lookup_alter_inv Hs.
        destruct (decide (e = e')) as [<-|Hne']; [|destruct (Hun1 e' E0 t' H0 Hs)].
        split; [done|]. rewrite H1 in H0. injection H0 as <-.
        rewrite slot_upd in Hs by (try done; apply (mo_slots _ Hm e E He)).
        destruct (decide (t' = t)) as [->|Hnt]; [|destruct (Hun1 e E1 t' H1 Hs)].
        assert (Hj : slot_kind t = slot_kind (t + 1)) by (destruct Ht2 as [-> | ->]; done).
        split; right; (split; [done|]); rewrite <- ?Hj; simpl; apply lor_bit; done. }
    do 2 (apply mem_ok_inert_with; [apply raise_inert|]). done.
  - apply mem_ok_inert_with; [apply raise_inert|done].
Qed.

Lemma add_cap_good e c t item rest s :
  good rest s -> is_Some (melems (user s) !! e) -> 0 < item -> unref (user s) item -> 0 <= t < 5 ->
  (exists it, mitems (user s) !! item = Some it /\ body_kind (body it) = slot_kind t) ->
  (t <> ITEM_ENUM -> both_caps c = true ->
     (t = ITEM_PVOLUME \/ t = ITEM_PSWITCH) /\ nz (Z.land c (shared_bit (slot_kind t))) = true) ->
  good rest (add_cap e c t item s).2 /\
  the_mixer (user (add_cap e c t item s).2) = the_mixer (user s) /\
  (forall a, is_Some (melems (user s) !! a) -> is_Some (melems (user (add_cap e c t item s).2) !! a)).
Proof.
  intros [(Hm & Har & Hi) Ha] [E He] Hpos Hun Ht (it & Hit & Hk) Hc.
  rewrite add_cap_eq, Hit. cbn [fst snd user the_mixer with_melems melems default].
  split; [|split; [done|apply cap_store_live]]. split.
  - split; [apply (cap_store_ok _ e E); done|].
    split; [apply arr_ok_melems; [intros a; apply cap_store_live|done]|apply cap_store_idx; done].
  - unfold accounts, ledger in *. cbn [hprc user]. rewrite Ha.
    apply Permutation_app_tail. symmetry. apply held_keys; try done. apply cap_store_keys.
Qed.

(** ** The array: sorting *)

(** All of [good] but the indices. *)
Definition semi (rest : list resource) (s : state) : Prop :=
  mem_ok (user s) /\ arr_ok (user s) /\ accounts rest s.

Lemma drop_nthz (p : list Z) k :
  0 <= k < Z.of_nat (length p) -> drop (Z.to_nat k) p = nthz 0 p k :: drop (Z.to_nat (k + 1)) p.
Proof.
  intros Hk. destruct (lookup_lt_is_Some_2 p (Z.to_nat k)) as [x Hx]; [lia|].
  rewrite (drop_S p x (Z.to_nat k) Hx). unfold nthz. destruct (Z.ltb_spec k 0); [lia|].
  rewrite (nth_lookup_Some _ _ 0 x Hx). do 2 f_equal. lia.
Qed.

Lemma index_loop_eq k j (s : state) :
  0 <= k -> k + Z.of_nat j <= Z.of_nat (length (pelems (the_mixer (user s)))) ->
  index_loop (zseq k j) s =
  (tt, set_user s (with_melems (user s)
         (reindex k (take j (drop (Z.to_nat k) (pelems (the_mixer (user s))))) (melems (user s))))).
Proof.
  revert k s. induction j as [|j IH]; intros k s Hk Hj; cbn [zseq index_loop].
  { destruct s as [h el p []]. done. }
  rewrite (drop_nthz _ k) by lia. cbn [take reindex].
  unfold bind, pelem, getm, getu, ret, setx, setu, bind. cbn [user the_mixer].
  rewrite IH; cbn [user the_mixer melems]; [done|lia|lia].
Qed.

Lemma sort_good rest s : semi rest s -> good rest (snd_mixer_sort s).2.
Proof.
  intros (Hm & Har & Ha). unfold snd_mixer_sort. rewrite run_getm. unfold bind, ret.
  assert (H : forall s1, semi rest s1 -> m_count (the_mixer (user s1)) = m_count (the_mixer (user s)) ->
    good rest (index_loop (zseq 0 (Z.to_nat (m_count (the_mixer (user s))))) s1).2).
  { intros s1 (Hm1 & Har1 & Ha1) Hc. rewrite index_loop_eq; [|lia|destruct Har1; lia].
    replace (Z.to_nat 0) with 0%nat by lia. rewrite drop_0. rewrite <- Hc.
    fold (entries (user s1)). cbn [snd]. split; [split|].
    - apply reindex_mem. done.
    - split; [|apply idx_ok_reindex; done]. apply arr_ok_melems; [|done].
      intros a. apply reindex_live.
    - unfold accounts in *. change (ledger _) with (ledger s1). rewrite Ha1.
      apply Permutation_app_tail. symmetry. apply held_keys; try done. apply reindex_keys. }
  destruct (nz (m_compare (the_mixer (user s)))).
  - set (s1 := (qsort_pelems s).2).
    change (qsort_pelems s) with (tt, s1).
    assert (Hs1 : semi rest s1 /\ m_count (the_mixer (user s1)) = m_count (the_mixer (user s))).
    { split; [|done]. pose proof (app_qsort_law (m_compare (the_mixer (user s))) (pelems_block (the_mixer (user s))) (entries (user s)) s) as Hp.
      pose proof (Permutation_length Hp) as Hlen.
      set (q := app_qsort _ _ _ s) in *.
      assert (He : entries (user s1) = q).
      { unfold entries, s1. simpl. unfold entries in q, Hlen. fold q.
        rewrite length_take in Hlen. rewrite take_app_le by (destruct Har; lia).
        apply take_ge. destruct Har.  lia. }
      split; [destruct Hm; constructor; done|]. split; [|exact Ha].
      destruct Har as [C1 C2 C3 C4]. constructor; try done.
      - unfold s1. simpl. unfold entries in q, Hlen. fold q.
        rewrite length_app, Hlen, length_take, length_drop.  lia.
      - rewrite He. rewrite Hp. done.
      - intros e. rewrite He, Hp. apply C4. }
    destruct Hs1 as [H1 H2]. specialize (H s1 H1 H2).
    destruct (index_loop _ s1) as [[] s2]. exact H.
  - specialize (H s (conj Hm (conj Har Ha)) eq_refl). destruct (index_loop _ s) as [[] s2]. exact H.
Qed.

(** ** The array: adding *)

Lemma mem_ok_array (u : mx W) f : mem_ok u -> mem_ok (MX (f (the_mixer u)) (melems u) (mitems u) (dbs u) (app u)).
Proof. intros []. constructor; done. Qed.

(** Growing the array, for as many entries as it had and 32 more. *)
Lemma grow_good rest s n r s1 :
  good rest s -> realloc (pelems_block (the_mixer (user s))) n s = (r, s1) ->
  match r with
  | None => good rest s1 /\ user s1 = user s
  | Some b =>
      let f m := set_pelems (m_count m) (m_alloc (the_mixer (user s)) + 32) b (pelems m ++ replicate 32 0) m in
      let s2 := (setm f s1).2 in
      good rest s2 /\ entries (user s2) = entries (user s) /\ melems (user s2) = melems (user s) /\
      the_mixer (user s2) = f (the_mixer (user s))
  end.
Proof.
  intros [(Hm & Har & Hi) Ha] Hr. unfold realloc, onhp, onsys, sys_realloc in Hr.
  set (rest1 := if nz _ then _ else _) in Hr.
  destruct (os_alloc n rest1 (ker (wld (hprc s)))) as [[b|] k] eqn:He; injection Hr as <- <-.
  - destruct (alloc_law _ _ _ _ _ He) as [Hb _]. cbn zeta.
    assert (Hent : entries (user (setm (fun m => set_pelems (m_count m) (m_alloc (the_mixer (user s)) + 32) b
      (pelems m ++ replicate 32 0) m) (HS (the_hctl s) (elems s)
      (Proc (World k (RMem b :: rest1)) (async_list (hprc s)) (sigio_ours (hprc s)) (ptrs (hprc s)))
      (user s))).2) = entries (user s)).
    { unfold entries. simpl. rewrite take_app_le; [done|]. destruct Har. lia. }
    split; [|split; [exact Hent|done]]. split; [split; [|split]|].
    + apply mem_ok_array. done.
    + destruct Har as [C1 C2 C3 C4]. constructor; rewrite ?Hent; try done; [simpl; lia|].
      change (Z.of_nat (length (pelems (the_mixer (user s)) ++ replicate 32 0)) =
              m_alloc (the_mixer (user s)) + 32).
      rewrite length_app, length_replicate. lia.
    + intros j e E. rewrite Hent. apply Hi.
    + unfold accounts, ledger in *. simpl. unfold mixer_held in *. simpl.
      rewrite (proj2 (nz_true b)) by lia. subst rest1. destruct (nz (pelems_block _)); rewrite Ha; cbn [Datatypes.app].
      * rewrite (Permutation_swap (RMem (pelems_block _))), release_head. apply Permutation_swap.
      * apply Permutation_swap.
  - split; [|done]. split; [done|]. exact Ha.
Qed.

Lemma push_semi rest s e :
  good rest s -> m_count (the_mixer (user s)) < m_alloc (the_mixer (user s)) ->
  is_Some (melems (user s) !! e) -> e ∉ entries (user s) ->
  semi rest (setm (fun m => set_pelems (m_count m + 1) (m_alloc m) (pelems_block m)
                              (upd (m_count m) (fun _ => e) (pelems m)) m) s).2.
Proof.
  intros [(Hm & [C1 C2 C3 C4] & Hi) Ha] Hc He Hne. split; [apply mem_ok_array; done|].
  split; [|exact Ha].
  assert (Hent : entries (user (setm (fun m => set_pelems (m_count m + 1) (m_alloc m) (pelems_block m)
    (upd (m_count m) (fun _ => e) (pelems m)) m) s).2) = entries (user s) ++ [e]).
  { unfold entries. simpl. set (p := pelems _) in *. set (c := m_count _) in *.
    replace (Z.to_nat (c + 1)) with (S (Z.to_nat c)) by lia. unfold upd.
    assert (Hl : alter (fun _ => e) (Z.to_nat c) p !! Z.to_nat c = Some e).
    { rewrite list_lookup_alter_eq. destruct (lookup_lt_is_Some_2 p (Z.to_nat c)) as [x ->]; [lia|done]. }
    rewrite (take_S_r _ _ e Hl). f_equal. rewrite take_alter, decide_False by lia. done. }
  constructor; rewrite ?Hent; simpl.
  - lia.
  - rewrite length_upd. done.
  - apply NoDup_app. split; [done|]. split; [|apply NoDup_singleton].
    intros x Hx ->%list_elem_of_singleton. done.
  - intros x [Hx| ->%list_elem_of_singleton]%elem_of_app; auto.
Qed.

Lemma add_mixer_elem_good e rest s :
  good rest s -> is_Some (melems (user s) !! e) -> e ∉ entries (user s) ->
  good rest (add_mixer_elem e s).2.
Proof.
  intros Hg He Hne. unfold add_mixer_elem. rewrite run_getm.
  assert (Hpush : forall s1, good rest s1 -> m_count (the_mixer (user s1)) < m_alloc (the_mixer (user s1)) ->
    is_Some (melems (user s1) !! e) -> e ∉ entries (user s1) ->
    good rest ((let* _ := setm (fun m => set_pelems (m_count m + 1) (m_alloc m) (pelems_block m)
                              (upd (m_count m) (fun _ => e) (pelems m)) m) in
                let* _ := snd_mixer_sort in snd_mixer_throw_event MASK_ADD e) s1).2).
  { intros s1 H1 H2 H3 H4. pose proof (push_semi rest s1 e H1 H2 H3 H4) as Hp. unfold bind at 1.
    destruct (setm _ s1) as [[] s2]. pose proof (sort_good rest s2 Hp) as Hs. unfold bind.
    destruct (snd_mixer_sort s2) as [r s3]. apply throw_good. exact Hs. }
  destruct (Z.eqb_spec (m_count (the_mixer (user s))) (m_alloc (the_mixer (user s)))) as [Heq|Hlt].
  - unfold bind at 1. unfold bind at 1. destruct (realloc _ _ s) as [r s1] eqn:Hr.
    pose proof (grow_good rest s _ r s1 Hg Hr) as H. destruct r as [b|].
    + destruct H as (H1 & H2 & H3 & H4). rewrite run_setm.
      cbn [negb ret]. apply Hpush; [exact H1| | |].
      * rewrite H4. simpl. lia.
      * rewrite H3. done.
      * rewrite H2. done.
    + cbn [ret negb]. apply H.
  - unfold bind at 1. cbn [ret negb]. apply Hpush; try done.
    destruct Hg as [(_ & [C1 _ _ _] & _) _]. lia.
Qed.

(** ** Adding a control element *)

Lemma split_name_dir raw name dir g :
  split_name raw = (name, dir, g) -> (dir = 0 \/ dir = 1) /\ (g = true -> dir = 0).
Proof.
  unfold split_name. destruct (check_elem_alias _) as [[n d]|] eqn:Ha.
  - unfold check_elem_alias, name_alias in Ha. simpl in Ha.
    intros H. injection H as _ <- <-.
    repeat (destruct (String.eqb _ _); [injection Ha as _ <-; split; [lia|done]|]). done.
  - destruct (remove_suffix _ " Volume") as [? n1], (remove_suffix n1 " Switch") as [? n2].
    destruct (remove_suffix n2 " Playback") as [p n3], (remove_suffix n3 " Capture") as [c n4].
    destruct p; [intros H; injection H as _ <- <-; split; [lia|done]|].
    destruct c; [intros H; injection H as _ <- <-; split; [lia|done]|].
    destruct (String.prefix "Capture" n4); [intros H; injection H as _ <- <-; split; [lia|done]|].
    destruct (String.prefix "Input" n4);
      (intros H; injection H as _ <- <-; split; [lia|done]).
Qed.

Lemma match_loop_run l name type index (s : state) :
  (match_loop l name type index s).2 = s /\
  (forall a, (match_loop l name type index s).1.1 = Some a -> a ∈ l).
Proof.
  revert index. induction l as [|a l IH]; intros index; cbn [match_loop]; [done|].
  rewrite run_getx. destruct (String.eqb _ _); [destruct (nz _)|].
  - edestruct IH as [H1 H2]. rewrite H1. split; [done|]. intros b Hb. right. eauto.
  - split; [done|]. intros b [= ->]. left.
  - edestruct IH as [H1 H2]. rewrite H1. split; [done|]. intros b Hb. right. eauto.
Qed.

Lemma new_mixer_elem_good name index rest s :
  good rest s ->
  let '(r, s') := new_mixer_elem name index s in
  good rest s' /\ mitems (user s') = mitems (user s) /\
  (forall i, 0 < i -> unref (user s) i -> unref (user s') i) /\
  match r with
  | None => True
  | Some a => is_Some (melems (user s') !! a) /\ a ∉ entries (user s')
  end.
Proof.
  intros [(Hm & Har & Hi) Ha]. unfold new_mixer_elem. unfold bind at 1.
  pose proof (malloc_spec sizeof_melem rest s Ha) as H.
  destruct (malloc sizeof_melem s) as [[a|] s1]; destruct H as [Hu H].
  - destruct H as (Hl & Hpos & Hfr & _). rewrite run_getm, run_setu. rewrite Hu.
    set (E := MElem _ _ _ _ _ _ _ _ _ _).
    assert (HE : forall t, slot t E = 0).
    { intros t. unfold slot, nthz, E. simpl. destruct (t <? 0); [done|].
      destruct (Z.to_nat t) as [|[|[|[|[|[]]]]]]; done. }
    cbn [ret user set_user]. change (MX _ _ _ _ _) with (with_melems (user s) (<[a:=E]> (melems (user s)))).
    split; [split; [split; [|split]|]|].
    + apply mem_ok_new_elem; done.
    + apply arr_ok_melems; [|done]. intros b Hb. rewrite lookup_insert_is_Some'. auto.
    + intros k e E' Hk. change (entries _) with (entries (user s)) in Hk. simpl.
      rewrite lookup_insert_ne; [eauto|]. intros <-.
      destruct (ao_live _ Har a (list_elem_of_lookup_2 _ _ _ Hk)). congruence.
    + unfold accounts. cbn [user set_user]. rewrite (held_insert_melem app_held _ a E Hfr).
      change (ledger _) with (ledger s1). rewrite Hl. unfold accounts in Ha. rewrite Ha. done.
    + split; [done|]. split; [|split; [simpl; rewrite lookup_insert_eq; eauto|]].
      * intros i Hi0 Hun e E' t He'. cbn [with_melems melems] in He'.
        apply lookup_insert_Some in He' as [[<- <-]|[_ He]]; [rewrite HE; lia|eapply Hun; eauto].
      * change (entries _) with (entries (user s)). intros Hin.
        destruct (ao_live _ Har a Hin). congruence.
  - unfold ret. rewrite Hu. split; [|done]. split; [rewrite Hu; done|]. unfold accounts. rewrite Hu, H. done.
Qed.

(** An item that was made for nothing. *)
Lemma free_item_good i rest s it :
  good rest s -> mitems (user s) !! i = Some it -> unref (user s) i ->
  good rest (free_item i s).2.
Proof.
  intros [(Hm & Har & Hi) Ha] Hit Hun. split; [split; [|split]|].
  - apply (mem_ok_free_item (user s) i it 0 false); try done. intros e E t He _. eapply Hun. done.
  - destruct Har. constructor; done.
  - exact Hi.
  - unfold accounts, ledger in *. simpl. rewrite Ha.
    rewrite (held_delete_item app_held (user s) i) by eauto. rewrite <- app_comm_cons, release_head. done.
Qed.

Lemma add_simple_element_good hp rest s : good rest s -> good rest (add_simple_element hp s).2.
Proof.
  intros Hg. unfold add_simple_element. unfold bind at 1, gete at 1.
  destruct (split_name _) as [[name dir] g] eqn:Hn. destruct (split_name_dir _ _ _ _ Hn) as [Hd Hgd].
  unfold bind at 1. pose proof (quiet_good _ rest s (quiet_elem_info hp zero_info) Hg) as H1.
  destruct (snd_hctl_elem_info hp zero_info s) as [[err info] s1]. cbn [snd] in H1.
  destruct (err <? 0); [exact H1|].
  destruct (elem_caps dir g (info_type info)) as [[c t]|] eqn:Hc; [|exact H1].
  destruct (elem_caps_spec _ _ _ _ _ Hc Hd Hgd) as (Ht & Hk & _ & Hb).
  unfold bind at 1. pose proof (new_selem_item_good hp info rest s1 H1) as H2.
  destruct (new_selem_item hp info s1) as [[item|] s2]; destruct H2 as [H2 H3]; [|exact H2].
  destruct H3 as (Hpos & Hun & it & Hit & Hbk). rewrite run_getm. unfold bind at 1.
  fold (entries (user s2)).
  destruct (match_loop_run (entries (user s2)) name t 0 s2) as [Hs2 Hin].
  destruct (match_loop _ name t 0 s2) as [[found index] s3]. cbn [fst snd] in Hs2, Hin. subst s3.
  assert (Hex : exists it, mitems (user s2) !! item = Some it /\ body_kind (body it) = slot_kind t).
  { exists it. split; [done|]. congruence. }
  destruct found as [e|].
  - assert (He : is_Some (melems (user s2) !! e)) by (apply H2, Hin; done).
    destruct (add_cap_good e c t item rest s2 H2 He Hpos Hun Ht Hex Hb) as [H4 _].
    unfold bind. destruct (add_cap e c t item s2) as [[] s4]. exact H4.
  - unfold bind at 1. pose proof (new_mixer_elem_good name (s32 index) rest s2 H2) as H4.
    destruct (new_mixer_elem name (s32 index) s2) as [[e|] s4]; destruct H4 as (H4 & Hi4 & Hu4 & H5).
    + destruct H5 as [He Hne]. rewrite <- Hi4 in Hex.
      destruct (add_cap_good e c t item rest s4 H4 He Hpos (Hu4 _ Hpos Hun) Ht Hex Hb) as (H6 & Hm & Hlive).
      assert (Hent : entries (user (add_cap e c t item s4).2) = entries (user s4))
        by (unfold entries; rewrite Hm; done).
      unfold bind. destruct (add_cap e c t item s4) as [[] s5]. cbn [snd] in *.
      apply add_mixer_elem_good; [done|auto|rewrite Hent; done].
    + unfold bind. pose proof (free_item_good item rest s4 it H4) as H6.
      rewrite Hi4 in H6. specialize (H6 Hit (Hu4 _ Hpos Hun)).
      destruct (free_item item s4) as [[] s5]. exact H6.
Qed.

(** ** The array: removing *)

Definition with_array (u : mx W) (count : Z) (p : list Z) (m : gmap Z snd_mixer_elem_t) : mx W :=
  MX (set_pelems count (m_alloc (the_mixer u)) (pelems_block (the_mixer u)) p (the_mixer u))
     m (mitems u) (dbs u) (app u).

Lemma upd_split (k : Z) v (p : list Z) :
  0 <= k < Z.of_nat (length p) ->
  upd k (fun _ => v) p = take (Z.to_nat k) p ++ v :: drop (Z.to_nat (k + 1)) p.
Proof.
  intros Hk. unfold upd. apply list_eq. intros i. destruct (decide (i = Z.to_nat k)) as [->|Hne].
  - rewrite list_lookup_alter_eq. rewrite lookup_app_r by (rewrite length_take; lia).
    rewrite length_take, Nat.min_l, Nat.sub_diag by lia. simpl.
    destruct (lookup_lt_is_Some_2 p (Z.to_nat k)) as [x ->]; [lia|done].
  - rewrite list_lookup_alter_ne by done. destruct (Nat.lt_ge_cases i (Z.to_nat k)) as [Hi|Hi].
    + rewrite lookup_app_l by (rewrite length_take; lia). rewrite lookup_take_lt by done. done.
    + rewrite lookup_app_r by (rewrite length_take; lia). rewrite length_take, Nat.min_l by lia.
      replace (i - Z.to_nat k)%nat with (S (i - Z.to_nat (k + 1))) by lia. simpl.
      rewrite lookup_drop. f_equal. lia.
Qed.

Lemma shift_step k ns (s : state) :
  let p := pelems (the_mixer (user s)) in
  let p1 := upd k (fun _ => nthz 0 p (k + 1)) p in
  shift_loop (k :: ns) s =
  shift_loop ns (set_user s (with_array (user s) (m_count (the_mixer (user s))) p1
                   (alter (set_m_index k) (nthz 0 p1 k) (melems (user s))))).
Proof. done. Qed.

Lemma shift_loop_eq k j (s : state) :
  let p := pelems (the_mixer (user s)) in
  0 <= k -> k + Z.of_nat j + 1 <= Z.of_nat (length p) ->
  shift_loop (zseq k j) s =
  (tt, set_user s (with_array (user s) (m_count (the_mixer (user s)))
         (take (Z.to_nat k) p ++ take j (drop (Z.to_nat (k + 1)) p) ++ drop (Z.to_nat k + j) p)
         (reindex k (take j (drop (Z.to_nat (k + 1)) p)) (melems (user s))))).
Proof.
  cbn zeta. revert k s. induction j as [|j IH]; intros k s Hk Hj; cbn [zseq].
  { simpl. rewrite Nat.add_0_r, take_drop. destruct s as [h el pr [[] ? ? ? ?]]. done. }
  rewrite shift_step. cbn zeta.
  set (p := pelems (the_mixer (user s))) in *. set (v := nthz 0 p (k + 1)).
  set (p1 := upd k (fun _ => v) p).
  assert (Hv : nthz 0 p1 k = v) by (unfold p1; rewrite nthz_upd_eq by lia; done).
  assert (Hp1 : p1 = take (Z.to_nat k) p ++ v :: drop (Z.to_nat (k + 1)) p) by (apply upd_split; lia).
  assert (Hlen : length p1 = length p) by apply length_upd. rewrite Hv.
  rewrite IH; cbn [user set_user with_array the_mixer set_pelems pelems m_count melems]; [|lia|lia].
  assert (Hd : forall n, (Z.to_nat (k + 1) <= n)%nat -> drop n p1 = drop n p).
  { intros n Hn. rewrite Hp1, drop_app_ge by (rewrite length_take; lia).
    rewrite length_take, Nat.min_l by lia.
    replace (n - Z.to_nat k)%nat with (S (n - Z.to_nat (k + 1))) by lia. simpl.
    rewrite drop_drop. f_equal. lia. }
  rewrite (Hd (Z.to_nat (k + 1 + 1))), (Hd (Z.to_nat (k + 1) + j)%nat) by lia.
  assert (Ht : take (Z.to_nat (k + 1)) p1 = take (Z.to_nat k) p ++ [v]).
  { rewrite Hp1. replace (Z.to_nat (k + 1)) with (length (take (Z.to_nat k) p) + 1)%nat
      by (rewrite length_take; lia).
    rewrite take_app_add. done. }
  rewrite Ht. rewrite (drop_nthz p (k + 1)) by lia. fold v. cbn [take reindex].
  replace (Z.to_nat (k + 1) + j)%nat with (Z.to_nat k + S j)%nat by lia.
  rewrite <- (assoc_L (++)). done.
Qed.

Lemma zseq_removelast k j : removelast (zseq k (S j)) = zseq k j.
Proof. rewrite zseq_snoc. apply removelast_last. Qed.

(** The data once the element at position [k] of the array has left it. *)
Lemma array_delete (u : mx W) k j e :
  mixer_ok u -> k + Z.of_nat j + 1 = m_count (the_mixer u) -> 0 <= k ->
  entries u !! Z.to_nat k = Some e ->
  let p := pelems (the_mixer u) in
  let tl := take j (drop (Z.to_nat (k + 1)) p) in
  let u' := with_array u (m_count (the_mixer u) - 1)
              (take (Z.to_nat k) p ++ tl ++ drop (Z.to_nat k + j) p) (reindex k tl (melems u)) in
  entries u = take (Z.to_nat k) p ++ e :: tl /\ entries u' = take (Z.to_nat k) p ++ tl /\
  mixer_ok u'.
Proof.
  intros (Hm & Har & Hi) Hc Hk He. cbn zeta. pose proof Har as [C1 C2 C3 C4].
  set (p := pelems (the_mixer u)) in *. set (tl := take j (drop (Z.to_nat (k + 1)) p)).
  assert (Hent : entries u = take (Z.to_nat k) p ++ e :: tl).
  { unfold entries in *. fold p. fold p in He. rewrite <- Hc in *.
    replace (Z.to_nat (k + Z.of_nat j + 1)) with (Z.to_nat k + S j)%nat in * by lia.
    rewrite lookup_take_lt in He by lia. rewrite <- take_take_drop. f_equal.
    rewrite (drop_S p e (Z.to_nat k) He). unfold tl. simpl. do 3 f_equal. lia. }
  assert (Hlt : length tl = j) by (unfold tl; rewrite length_take, length_drop; lia).
  assert (Hlk : length (take (Z.to_nat k) p) = Z.to_nat k) by (rewrite length_take; lia).
  set (u' := with_array _ _ _ _).
  assert (Hent' : entries u' = take (Z.to_nat k) p ++ tl).
  { unfold entries, u'. simpl. rewrite <- Hc.
    replace (Z.to_nat (k + Z.of_nat j + 1 - 1)) with (length (take (Z.to_nat k) p ++ tl))
      by (rewrite length_app; lia).
    rewrite (assoc_L (++)). apply take_app_length. }
  rewrite Hent in C3. apply NoDup_app in C3 as (N1 & N2 & [N3 N4]%NoDup_cons).
  assert (Hnd : NoDup (entries u')).
  { rewrite Hent'. apply NoDup_app. split; [done|]. split; [|done]. intros x Hx Hx2.
    apply (N2 x Hx). right. done. }
  split; [done|]. split; [done|]. split; [|split].
  - unfold u', with_array. apply (mem_ok_array (with_melems u (reindex k tl (melems u))) (fun m =>
      set_pelems _ _ _ _ m)), reindex_mem. done.
  - constructor; [simpl; lia| |done|].
    + simpl. rewrite !length_app, length_drop, Hlt, Hlk. lia.
    + intros x Hx. simpl. apply reindex_live, C4. rewrite Hent. rewrite Hent' in Hx. set_solver.
  - intros i a E Ha HE. rewrite Hent' in Ha. simpl in HE.
    apply lookup_app_Some in Ha as [Ha|[Hle Ha]].
    + assert (Hat : a ∉ tl).
      { intros Hin. apply (N2 a); [eapply list_elem_of_lookup_2; done|]. right. done. }
      rewrite reindex_other in HE by done. apply (Hi i a E); [|done]. rewrite Hent.
      rewrite lookup_app_l; [done|]. apply lookup_lt_Some in Ha. done.
    + rewrite (reindex_at k tl _ _ a E N4 Ha HE). lia.
Qed.

Lemma remove_loop_good e j k rest (s : state) :
  good rest s -> 0 <= k -> k + Z.of_nat j = m_count (the_mixer (user s)) ->
  e ∉ take (Z.to_nat k) (entries (user s)) ->
  let s' := (remove_loop e (zseq k j) s).2 in
  good rest s' /\ e ∉ entries (user s') /\
  exists l n, melems (user s') = reindex n l (melems (user s)) /\ mitems (user s') = mitems (user s) /\
    dbs (user s') = dbs (user s).
Proof.
  cbn zeta. revert k. induction j as [|j IH]; intros k Hg Hk Hj He; cbn [zseq remove_loop].
  - split; [done|]. split; [|exists [], 0; done]. cbn [ret snd]. intros Hin. apply He.
    rewrite take_ge; [done|]. unfold entries. rewrite length_take. lia.
  - pose proof Hg as [(Hm & Har & Hi) Ha]. pose proof (ao_count _ Har). pose proof (ao_alloc _ Har).
    set (p := pelems (the_mixer (user s))) in *.
    assert (Hen : entries (user s) !! Z.to_nat k = Some (nthz 0 p k)).
    { unfold entries. rewrite lookup_take_lt by lia. fold p.
      destruct (lookup_lt_is_Some_2 p (Z.to_nat k)) as [x Hx]; [lia|].
      unfold nthz. destruct (Z.ltb_spec k 0); [lia|]. rewrite (nth_lookup_Some _ _ 0 x Hx). done. }
    rewrite run_pelem. fold p. destruct (Z.eqb_spec (nthz 0 p k) e) as [Heq|Hne].
    + rewrite Heq in Hen. rewrite run_setm. change (k :: zseq (k + 1) j) with (zseq k (S j)). rewrite zseq_removelast.
      destruct (array_delete (user s) k j e (conj Hm (conj Har Hi))) as (E1 & E2 & Hok); [lia|done|done|].
      rewrite shift_loop_eq; [|done|].
      2: { change (k + Z.of_nat j + 1 <= Z.of_nat (length p)). lia. }
      cbn [snd]. set (u' := with_array (user s) _ _ _) in E2, Hok.
      change (user (set_user _ _)) with u'.
      split; [|split; [|exists (take j (drop (Z.to_nat (k + 1)) p)), k; done]].
      * split; [exact Hok|]. unfold accounts in *. change (user (set_user _ _)) with u'.
        change (ledger (set_user _ _)) with (ledger s). rewrite Ha.
        apply Permutation_app_tail. unfold mixer_held, u'. simpl. rewrite reindex_keys. done.
      * pose proof (ao_nodup _ Har) as Hnd. rewrite E1 in Hnd. rewrite E2.
        apply NoDup_app in Hnd as (_ & N2 & [N3 _]%NoDup_cons). intros [Hin|Hin]%elem_of_app; [|done].
        apply (N2 e Hin). left.
    + apply IH; try done; [lia|lia|].
      replace (Z.to_nat (k + 1)) with (S (Z.to_nat k)) by lia.
      rewrite (take_S_r _ _ _ Hen). intros [Hin|Hin%list_elem_of_singleton]%elem_of_app; [done|congruence].
Qed.

Lemma remove_mixer_elem_good e rest s :
  good rest s -> is_Some (melems (user s) !! e) -> good rest (remove_mixer_elem e s).2.
Proof.
  intros Hg He. unfold remove_mixer_elem. rewrite run_getm. unfold bind at 1.
  destruct (remove_loop_good e (Z.to_nat (m_count (the_mixer (user s)))) 0 rest s Hg) as (H1 & H2 & l & n & H3 & _).
  { lia. }
  { destruct Hg as [(_ & [C1 _ _ _] & _) _]. lia. }
  { change (Z.to_nat 0) with 0%nat. rewrite take_0. apply not_elem_of_nil. }
  destruct (remove_loop e _ s) as [[] s1]. cbn [snd] in *.
  assert (He1 : is_Some (melems (user s1) !! e)) by (rewrite H3; apply reindex_live; done).
  destruct H1 as [(Hm & Har & Hi) Ha]. unfold bind, ret. simpl. split; [split; [|split]|].
  - apply mem_ok_free_elem. done.
  - destruct Har as [C1 C2 C3 C4]. constructor; try done. intros x Hx. simpl.
    rewrite lookup_delete_ne; [apply C4, Hx|]. intros <-. done.
  - intros k a E Hk HE. simpl in HE. apply lookup_delete_Some in HE as [_ HE]. eapply Hi; done.
  - unfold accounts, ledger in *. simpl. rewrite Ha.
    rewrite (held_delete_melem app_held (user s1) e He1), <- app_comm_cons, release_head. done.
Qed.

(** ** Removing a control element *)

(** A change of one element that keeps its index, where memory stays in order. *)
Lemma setx_good e f rest s :
  (forall E, m_index (f E) = m_index E) -> good rest s ->
  mem_ok (with_melems (user s) (alter f e (melems (user s)))) -> good rest (setx e f s).2.
Proof.
  intros Hf [(Hm & Har & Hi) Ha] Hok. split; [split; [|split]|].
  - exact Hok.
  - apply arr_ok_melems; [|done]. intros a. apply alter_live.
  - apply idx_ok_alter; done.
  - unfold accounts in *. change (ledger _) with (ledger s). rewrite Ha.
    apply Permutation_app_tail. symmetry. apply held_keys; try done. apply keys_alter.
Qed.

Lemma clear_good e t rest s : 0 <= t < 5 -> good rest s ->
  good rest (setx e (set_slots (upd t (fun _ => 0))) s).2.
Proof. intros Ht Hg. apply setx_good; try done. apply mem_ok_clear; [done|]. apply Hg. Qed.

(** An item no slot leads to is freed with its decibel block. *)
Lemma free_item_db_good t i rest s it :
  good rest s -> mitems (user s) !! i = Some it -> unref (user s) i ->
  (ITEM_CVOLUME < t -> ~ real_db (db_info (as_vol it))) ->
  good rest (free_item_db t i s).2 /\ melems (user (free_item_db t i s).2) = melems (user s).
Proof.
  intros Hg Hit Hun Hvol. unfold free_item_db. rewrite run_geti, Hit. cbn [default id].
  set (d := db_info (as_vol it)) in *.
  assert (Hcase : real_db d /\ (t <=? ITEM_CVOLUME) = true \/
    (if t <=? ITEM_CVOLUME then release_db d else ret tt : M unit) = ret tt).
  { destruct (Z.leb_spec t ITEM_CVOLUME); [|auto]. unfold release_db, real_db in *.
    destruct (nz d) eqn:Hz; [|auto].
    destruct (Z.eqb_spec d INVALID_DB_INFO) as [|Hne]; [auto|]. left. apply nz_true in Hz. done. }
  destruct Hcase as [[[Hr1 Hr2] ->]| ->].
  - unfold release_db. rewrite (proj2 (nz_true d) Hr1).
    destruct (Z.eqb_spec d INVALID_DB_INFO) as [|_]; [done|]. cbn [andb negb].
    destruct Hg as [(Hm & Har & Hi) Ha].
    assert (Hd : is_Some (dbs (user s) !! d)) by (apply (mo_db _ Hm i it Hit); done).
    split; [|done]. split; [split; [|split]|].
    + apply (mem_ok_free_item (user s) i it d true); try done. intros e E t' He _. eapply Hun. done.
    + destruct Har. constructor; done.
    + exact Hi.
    + unfold accounts, ledger in *. simpl. rewrite Ha.
      rewrite (held_delete_db app_held (user s) d) by done.
      rewrite <- app_comm_cons, release_head.
      rewrite (held_delete_item app_held (with_dbs (user s) (delete d (dbs (user s)))) i) by (simpl; eauto).
      rewrite <- app_comm_cons, release_head. done.
  - split; [|done]. apply (free_item_good i rest s it); done.
Qed.

(** Two slots of one kind are a playback slot and the capture slot after it. *)
Lemma joined_pair i t : 0 <= i < t /\ t < 5 -> slot_kind i = slot_kind t -> (i = 0 /\ t = 1) \/ (i = 2 /\ t = 3).
Proof.
  intros Hi Hk. unfold slot_kind in Hk.
  assert (i = 0 \/ i = 1 \/ i = 2 \/ i = 3) as [->|[->|[->| ->]]] by lia;
    assert (t = 1 \/ t = 2 \/ t = 3 \/ t = 4) as [->|[->|[->| ->]]] by lia; cbv in Hk; try lia; auto.
Qed.

(** The slots of the element that led to [head] are cleared. *)
Lemma clear_unref (u : mx W) e E i head :
  mem_ok u -> melems u !! e = Some E -> slot i E = head -> head <> 0 -> 0 <= i < 5 ->
  (forall t, 0 <= t < i -> slot t E <> head) ->
  let clear t := set_slots (upd t (fun _ => 0)) in
  let m1 := alter (clear i) e (melems u) in
  let m2 := if (i =? ITEM_PVOLUME) && nz (Z.land (caps E) CAP_GVOLUME) then alter (clear ITEM_CVOLUME) e m1
            else if (i =? ITEM_PSWITCH) && nz (Z.land (caps E) CAP_GSWITCH) then alter (clear ITEM_CSWITCH) e m1
            else m1 in
  unref (with_melems u m2) head.
Proof.
  intros Hm He Hs Hnz Hi Hfirst. cbn zeta.
  assert (Hl : forall a E0 t, melems u !! a = Some E0 -> slot t E0 = head -> a = e /\ joined E i t).
  { intros a E0 t Ha Ht. destruct (mo_shared _ Hm e E a E0 i t He Ha) as [-> Hj]; [congruence|congruence|].
    done. }
  set (m1 := alter _ e (melems u)).
  assert (H5 : length (slots E) = 5%nat) by apply (mo_slots _ Hm e E He).
  assert (H1 : m1 !! e = Some (set_slots (upd i (fun _ => 0)) E)).
  { unfold m1. rewrite lookup_alter_eq, He. done. }
  assert (Hone : forall t, slot t (set_slots (upd i (fun _ => 0)) E) = head -> t <> i /\ slot t E = head).
  { intros t. rewrite slot_upd by done. destruct (decide (t = i)) as [->|]; [congruence|auto]. }
  (* the other slot, where there is one, is the one that is cleared *)
  assert (Hsecond : forall t, t <> i -> slot t E = head ->
    (i = ITEM_PVOLUME /\ t = ITEM_CVOLUME /\ nz (Z.land (caps E) CAP_GVOLUME) = true) \/
    (i = ITEM_PSWITCH /\ t = ITEM_CSWITCH /\ nz (Z.land (caps E) CAP_GSWITCH) = true)).
  { intros t Hti Ht. destruct (Hl e E t He Ht) as [_ [Hj|[Hk Hb]]]; [congruence|].
    assert (Hr : 0 <= t < 5) by (apply (slot_range t E); [done|congruence]).
    assert (Hgt : i < t).
    { destruct (Z.lt_ge_cases t i); [|lia]. destruct (Hfirst t); [lia|done]. }
    destruct (joined_pair i t ltac:(lia) Hk) as [[-> ->]|[-> ->]]; [left|right]; done. }
  assert (Hstep : forall t0 a E', 0 <= t0 < 5 ->
    alter (set_slots (upd t0 (fun _ => 0))) e m1 !! a = Some E' -> forall t, slot t E' = head ->
    a = e /\ t <> i /\ t <> t0 /\ slot t E = head).
  { intros t0 a E' Ht0 (E0 & H0 & ->)%lookup_alter_inv t Ht. destruct (decide (e = a)) as [<-|Hne].
    - rewrite H1 in H0. injection H0 as <-. rewrite slot_upd in Ht by (done || (simpl; rewrite length_upd; done)).
      destruct (decide (t = t0)); [congruence|]. destruct (Hone t Ht). done.
    - unfold m1 in H0. rewrite lookup_alter_ne in H0 by done. destruct (Hl a E0 t H0 Ht). congruence. }
  intros a E' t Ha Ht. simpl in Ha.
  destruct ((i =? ITEM_PVOLUME) && nz (Z.land (caps E) CAP_GVOLUME)) eqn:Hc1;
    [|destruct ((i =? ITEM_PSWITCH) && nz (Z.land (caps E) CAP_GSWITCH)) eqn:Hc2].
  - destruct (Hstep ITEM_CVOLUME a E' ltac:(unfold ITEM_CVOLUME; lia) Ha t Ht) as (-> & Hti & Hto & Hte).
    apply andb_true_iff in Hc1 as [Hx1 _]. apply Z.eqb_eq in Hx1.
    destruct (Hsecond t Hti Hte) as [(_ & -> & _)|(Hx & _)]; [done|].
    rewrite Hx in Hx1. discriminate.
  - destruct (Hstep ITEM_CSWITCH a E' ltac:(unfold ITEM_CSWITCH; lia) Ha t Ht) as (-> & Hti & Hto & Hte).
    apply andb_true_iff in Hc2 as [Hx2 _]. apply Z.eqb_eq in Hx2.
    destruct (Hsecond t Hti Hte) as [(Hx & _)|(_ & -> & _)]; [|done].
    rewrite Hx in Hx2. discriminate.
  - destruct (decide (a = e)) as [->|Hne].
    + rewrite H1 in Ha. injection Ha as <-. destruct (Hone t Ht) as [Hti Hte].
      destruct (Hsecond t Hti Hte) as [(-> & _ & Hb)|(-> & _ & Hb)]; rewrite Hb in *; done.
    + unfold m1 in Ha. rewrite lookup_alter_ne in Ha by done. destruct (Hl a E' t Ha Ht). congruence.
Qed.

Lemma clear_slots_good e i E head rest s :
  good rest s -> melems (user s) !! e = Some E -> slot i E = head -> head <> 0 -> 0 <= i < 5 ->
  (forall t, 0 <= t < i -> slot t E <> head) ->
  let s' := (clear_slots e i s).2 in
  good rest s' /\ unref (user s') head /\ mitems (user s') = mitems (user s) /\
  is_Some (melems (user s') !! e).
Proof.
  intros Hg He Hs Hnz Hi Hfirst. cbn zeta.
  pose proof (clear_unref (user s) e E i head (proj1 (proj1 Hg)) He Hs Hnz Hi Hfirst) as Hun. cbn zeta in Hun.
  assert (Hl : forall m : gmap Z snd_mixer_elem_t, is_Some (m !! e) -> forall f, is_Some (alter f e m !! e))
    by (intros; apply alter_live; done).
  unfold clear_slots. rewrite run_getx, He. cbn [default id]. unfold bind.
  pose proof (clear_good e i rest s Hi Hg) as H1.
  set (s1 := (setx e (set_slots (upd i (fun _ => 0))) s).2) in *.
  change (setx e (set_slots (upd i (fun _ => 0))) s) with (tt, s1). cbv beta iota.
  destruct ((i =? ITEM_PVOLUME) && _); [|destruct ((i =? ITEM_PSWITCH) && _)].
  - split; [apply clear_good; [unfold ITEM_CVOLUME; lia|done]|]. split; [exact Hun|]. split; [done|].
    apply Hl, Hl. eauto.
  - split; [apply clear_good; [unfold ITEM_CSWITCH; lia|done]|]. split; [exact Hun|]. split; [done|].
    apply Hl, Hl. eauto.
  - split; [exact H1|]. split; [exact Hun|]. split; [done|]. apply Hl. eauto.
Qed.

Lemma drop_item_good e i E head it b rest s :
  good rest s -> melems (user s) !! e = Some E -> slot i E = head -> head <> 0 -> 0 <= i < 5 ->
  (forall t, 0 <= t < i -> slot t E <> head) -> mitems (user s) !! head = Some it ->
  good rest (drop_item e i head b s).2.
Proof.
  intros Hg He Hs Hnz Hi Hfirst Hit. unfold drop_item, bind at 1.
  destruct (clear_slots_good e i E head rest s Hg He Hs Hnz Hi Hfirst) as (H1 & Hun & Hmi & Hlive).
  destruct (clear_slots e i s) as [[] s1]. cbn [snd] in *.
  assert (Hkind : ITEM_CVOLUME < i -> ~ real_db (db_info (as_vol it))).
  { intros Hle. destruct (mo_live _ (proj1 (proj1 Hg)) e E i He) as (it' & Hit' & Hk);
      [congruence|]. rewrite Hs, Hit in Hit'. injection Hit' as <-.
    unfold slot_kind, ITEM_CVOLUME in *. unfold as_vol. destruct (body it); try apply not_real_db0.
    simpl in Hk. assert (2 / 2 <= i / 2) by (apply Z.div_le_mono; lia). change (2 / 2) with 1 in *. lia. }
  rewrite <- Hmi in Hit. unfold bind at 1.
  destruct (free_item_db_good i head rest s1 it H1 Hit Hun Hkind) as [H3 Hkeep].
  destruct (free_item_db i head s1) as [[] s3]. cbn [snd] in *.
  destruct b; [|exact H3]. cbn [negb]. rewrite run_getx. destruct (existsb nz _); [exact H3|].
  unfold bind. pose proof (remove_mixer_elem_good e rest s3 H3) as H4. rewrite Hkeep in H4.
  specialize (H4 Hlive). destruct (remove_mixer_elem e s3) as [r s4]. exact H4.
Qed.

(** The walk over the slots of an element, which may be gone: then all are empty. *)
Lemma slot_zero t : slot t zero_melem = 0.
Proof.
  unfold slot, nthz. simpl. destruct (t <? 0); [done|].
  destruct (Z.to_nat t) as [|[|[|[|[|[]]]]]]; done.
Qed.

Lemma slot_live (u : mx W) e t :
  mem_ok u -> slot t (default zero_melem (melems u !! e)) <> 0 ->
  exists E it, melems u !! e = Some E /\ mitems u !! slot t E = Some it /\ slot t E <> 0 /\
    0 <= t < 5 /\ body_kind (body it) = slot_kind t.
Proof.
  intros Hm. destruct (melems u !! e) as [E|] eqn:He; cbn [default id]; [|rewrite slot_zero; done].
  intros Hnz. destruct (mo_live _ Hm e E t He Hnz) as (it & Hit & Hk). exists E, it.
  repeat (split; [done|]). split; [|done]. apply (slot_range t E); [|done]. apply (mo_slots _ Hm e E He).
Qed.

Lemma remove_item_loop_good e hp n i b rest s :
  good rest s -> 0 <= i -> i + Z.of_nat n = 5 ->
  (forall t E it, 0 <= t < i -> melems (user s) !! e = Some E -> mitems (user s) !! slot t E = Some it ->
     slot t E <> 0 -> helem it <> hp) ->
  good rest (remove_item_loop e hp (zseq i n) b s).2.
Proof.
  intros Hg. revert i. induction n as [|n IH]; intros i Hi Hn Hpre; cbn [zseq remove_item_loop]; [done|].
  rewrite run_getx. set (E0 := default zero_melem (melems (user s) !! e)).
  destruct (Z.eqb_spec (slot i E0) 0) as [Hz|Hnz].
  - apply IH; [lia|lia|]. intros t E it Ht He Hit Hnz. unfold E0 in Hz. rewrite He in Hz.
    apply (Hpre t E it); try done. assert (t <> i) by (intros ->; done). lia.
  - destruct (slot_live (user s) e i (proj1 (proj1 Hg)) Hnz) as (E & it & He & Hit & Hnz' & Hr & Hk).
    unfold E0. rewrite He. cbn [default id]. rewrite run_geti, Hit. cbn [default id].
    destruct (Z.eqb_spec (helem it) hp) as [Hh|Hh]; cbn [negb].
    + apply (drop_item_good e i E (slot i E) it); try done. intros t Ht Heq.
      apply (Hpre t E it Ht He); rewrite ?Heq; done.
    + apply IH; [lia|lia|]. intros t E' it' Ht He' Hit' Hnz2. rewrite He in He'. injection He' as <-.
      destruct (decide (t = i)) as [->|Hti]; [congruence|]. apply (Hpre t E it'); try done. lia.
Qed.

Lemma remove_simple_element_good hp b rest s : good rest s -> good rest (remove_simple_element hp b s).2.
Proof.
  intros Hg. unfold remove_simple_element, snd_hctl_elem_get_callback_private.
  unfold bind, gete, ret. change item_types with (zseq 0 5).
  apply remove_item_loop_good; try done. intros t E it Ht. lia.
Qed.

(** ** Following a change of value *)

Lemma seti_good i b rest s :
  good rest s ->
  (forall it, mitems (user s) !! i = Some it ->
     body_kind b = body_kind (body it) /\ db_info (as_vol (set_body b it)) = db_info (as_vol it)) ->
  good rest (seti i (set_body b) s).2.
Proof.
  intros [(Hm & Har & Hi) Ha] Hb. split; [split; [|split]|].
  - apply mem_ok_body; [|done]. intros it Hit. apply Hb. done.
  - destruct Har. constructor; done.
  - exact Hi.
  - unfold accounts in *. change (ledger _) with (ledger s). rewrite Ha.
    apply Permutation_app_tail. symmetry. apply held_keys; try done. apply keys_alter.
Qed.

Lemma update_channels_db ns obj v : db_info (update_channels ns obj v).2 = db_info v.
Proof.
  revert v. induction ns as [|n ns IH]; intros v; cbn [update_channels]; [done|].
  assert (Hv : db_info (update_channel n (integer_at obj n) v).2 = db_info v) by done.
  destruct (update_channel _ _ v) as [c v']. cbn [snd] in Hv. rewrite <- Hv, <- (IH v').
  destruct (update_channels ns obj v') as [c' v'']. done.
Qed.

Lemma update_item_good e t rest s :
  good rest s -> slot t (default zero_melem (melems (user s) !! e)) <> 0 ->
  good rest (update_selem_item e t s).2.
Proof.
  intros Hg Hnz. unfold update_selem_item. rewrite run_getx.
  destruct (slot_live (user s) e t (proj1 (proj1 Hg)) Hnz) as (E & it & He & Hit & _ & Hr & Hk).
  rewrite He. cbn [default id]. rewrite run_geti, Hit. cbn [default id]. unfold bind at 1.
  set (v0 := set_value_id _ _). pose proof (quiet_good _ rest s (quiet_elem_read (helem it) v0) Hg) as H1.
  destruct (quiet_elem_read (helem it) v0 s) as [Hu _].
  destruct (snd_hctl_elem_read (helem it) v0 s) as [[err val] s1]. cbn [snd] in *.
  rewrite <- Hu in Hit. destruct (err <? 0); [exact H1|].
  assert (Hset : forall b, body_kind b = slot_kind t ->
    db_info (as_vol (set_body b it)) = db_info (as_vol it) -> good rest (seti (slot t E) (set_body b) s1).2).
  { intros b Hb1 Hb2. apply seti_good; [done|]. intros it' Hit'. rewrite Hit in Hit'. injection Hit' as <-.
    split; [congruence|done]. }
  assert (Ht : t = 0 \/ t = 1 \/ t = 2 \/ t = 3 \/ t = 4) by lia.
  assert (Hb0 : body_kind (body it) <> 0 -> db_info (as_vol it) = 0).
  { unfold as_vol. destruct (body it); done. }
  destruct ((t =? ITEM_PVOLUME) || (t =? ITEM_CVOLUME)) eqn:H01;
    [|destruct ((t =? ITEM_PSWITCH) || (t =? ITEM_CSWITCH)) eqn:H23].
  - unfold update_selem_vol_item. rewrite run_geti, Hit. cbn [default id].
    pose proof (update_channels_db (zseq 0 (Z.to_nat (channels it))) val (as_vol it)) as Hdb.
    destruct (update_channels _ val (as_vol it)) as [c v]. cbn [snd] in Hdb.
    unfold bind. specialize (Hset (VolBody v)). destruct (seti _ _ s1) as [[] s2]. apply Hset; [|done].
    simpl. destruct Ht as [->|[->|[->|[->| ->]]]]; done.
  - unfold update_selem_sw_item. rewrite run_geti. unfold bind.
    specialize (Hset (SwBody (switch_bits (channels (default zero_item (mitems (user s1) !! slot t E))) val))).
    destruct (seti _ _ s1) as [[] s2]. apply Hset.
    + simpl. destruct Ht as [->|[->|[->|[->| ->]]]]; done.
    + symmetry. apply Hb0. rewrite Hk. destruct Ht as [->|[->|[->|[->| ->]]]]; done.
  - unfold update_selem_enum_item. rewrite run_geti, Hit. cbn [default id].
    destruct (update_enums _ val _) as [c l]. unfold bind.
    specialize (Hset (EnumBody (EnumItem (e_items (as_enum it)) l))).
    destruct (seti _ _ s1) as [[] s2]. apply Hset.
    + simpl. destruct Ht as [->|[->|[->|[->| ->]]]]; done.
    + symmetry. apply Hb0. rewrite Hk. destruct Ht as [->|[->|[->|[->| ->]]]]; done.
Qed.

Lemma update_loop_good hp e ns rest s : good rest s -> good rest (update_loop hp e ns s).2.
Proof.
  intros Hg. induction ns as [|i ns IH]; cbn [update_loop]; [done|]. rewrite run_getx.
  destruct (Z.eqb_spec (slot i (default zero_melem (melems (user s) !! e))) 0) as [|Hnz]; [exact IH|].
  rewrite run_geti. destruct (negb _); [exact IH|]. apply update_item_good; done.
Qed.

(** ** The handlers *)

Lemma semi_good rest s : good rest s -> semi rest s.
Proof. intros [(H1 & H2 & H3) H4]. done. Qed.

Lemma reload_good hp e rest s : good rest s -> good rest (reload_element hp e s).2.
Proof.
  intros Hg. unfold reload_element, bind at 1. pose proof (remove_simple_element_good hp false rest s Hg) as H1.
  destruct (remove_simple_element hp false s) as [r s1]. unfold bind at 1.
  pose proof (add_simple_element_good hp rest s1 H1) as H2.
  destruct (add_simple_element hp s1) as [r2 s2]. unfold bind, snd_mixer_elem_info.
  pose proof (elem_throw_good e MASK_INFO rest s2 H2) as H3.
  destruct (_snd_mixer_elem_throw_event e MASK_INFO s2) as [err s3].
  destruct (err <? 0); [exact H3|]. apply sort_good, semi_good. exact H3.
Qed.

Lemma elem_handler_good hp mask rest s : good rest s -> good rest (hctl_elem_event_handler hp mask s).2.
Proof.
  intros Hg. unfold hctl_elem_event_handler. unfold bind at 1.
  unfold snd_hctl_elem_get_callback_private, bind at 1, gete, ret at 1. set (e := elem_callback_private _).
  destruct (e =? 0); [exact Hg|]. rewrite run_getx. destruct (e_mixer _ =? 0); [exact Hg|].
  destruct (mask =? MASK_REMOVE).
  - unfold bind at 1. pose proof (elem_throw_good e mask rest s Hg) as H1.
    destruct (_snd_mixer_elem_throw_event e mask s) as [err s1]. destruct (err <? 0); [exact H1|].
    unfold bind. pose proof (remove_simple_element_good hp true rest s1 H1) as H2.
    destruct (remove_simple_element hp true s1) as [r s2]. exact H2.
  - unfold bind at 1.
    assert (H1 : good rest ((if nz (Z.land mask MASK_INFO) then reload_element hp e else ret 0) s).2).
    { destruct (nz _); [apply reload_good|]; exact Hg. }
    destruct ((if nz (Z.land mask MASK_INFO) then reload_element hp e else ret 0) s) as [err s1].
    cbn [snd] in H1. destruct (err <? 0); [exact H1|]. destruct (nz _); [|exact H1].
    unfold bind at 1. pose proof (update_loop_good hp e item_types rest s1 H1) as H2.
    unfold update_simple_element. destruct (update_loop hp e item_types s1) as [r2 s2].
    destruct (r2 <? 0); [exact H2|]. destruct (nz r2); [|exact H2]. unfold bind, snd_mixer_elem_value.
    pose proof (elem_throw_good e MASK_VALUE rest s2 H2) as H3.
    destruct (_snd_mixer_elem_throw_event e MASK_VALUE s2) as [r3 s3]. destruct (r3 <? 0); exact H3.
Qed.

Lemma handler_good mask e rest s : good rest s -> good rest (hctl_event_handler mask e s).2.
Proof.
  intros Hg. unfold hctl_event_handler, bind at 1, gete. destruct (negb _); [exact Hg|].
  destruct (nz _); [|exact Hg]. unfold bind, snd_hctl_elem_set_callback, sete.
  apply add_simple_element_good. exact Hg.
Qed.

Lemma good_keeps {A} (m : M A) s :
  framed m -> (forall rest, good rest s -> good rest (m s).2) ->
  client_keeps (mixer_held app_held) mixer_ok s (m s).2.
Proof.
  intros Hf Hg. destruct (Hf s) as (H1 & H2 & H3 & H4). constructor; try done.
  intros rest Hok Ha. exact (Hg rest (conj Hok Ha)).
Qed.

(** The mixer is a client of its handle. *)
#[export] Program Instance mixer_laws : HctlClientLaws K (mx W) := {
  client_held := mixer_held app_held;
  client_ok := mixer_ok
}.
Next Obligation.
  intros cb mask e s. simpl. destruct (cb =? _); [|apply app_hctl_law].
  apply good_keeps; [apply framed_handler|]. intros rest. apply handler_good.
Qed.
Next Obligation.
  intros cb e mask s. simpl. destruct (cb =? _); [|apply app_helem_law].
  apply good_keeps; [apply framed_elem_handler|]. intros rest. apply elem_handler_good.
Qed.
End Spec.
