(* ===== verification/MixerSelem.v ===== *)
(** * Simple elements

    src/src/mixer.c lines 767-1100 and the accessors of src/src/mixer_macros.h: reading
    the cached values of a simple element, and setting its volumes, switches and
    enumerations, in the cache and on the card, also by decibels.

    An element argument is its address.  A pointer an accessor stores through is a
    result; where the function fails before it stores, the result is [None]. *)

From stdpp Require Import gmap.
From S2P Require Import Prelude CInt Sys Cards Async Tlv CtlTypes Control CtlAscii Hcontrol Mixer.
#[local] Open Scope Z_scope.

Section Selem.
Context {K W : Type} `{!Os K, !AsyncKernel K, !CardKernel K, !CtlKernel K, !MixerApp K W}.

#[local] Abbreviation M := (io (hs K (mx W))).

(** ** Volumes *)

Definition USR_IDX (i : Z) : Z := 2 * i.
Definition RAW_IDX (i : Z) : Z := 2 * i + 1.

Definition set_vol (j x : Z) (v : snd_selem_vol_item_t) : snd_selem_vol_item_t :=
  VolItem (v_min v) (v_max v) (raw_min v) (raw_max v) (db_info v) (upd j (fun _ => x) (vol v)).

Definition put_vol (str : Z) (f : snd_selem_vol_item_t -> snd_selem_vol_item_t) : M unit :=
  seti str (fun i => set_body (VolBody (f (as_vol i))) i).

(** Read the element's values, change one, write them back. *)
Definition change_value (it : selem_item) (f : snd_ctl_elem_value_t -> snd_ctl_elem_value_t) : M Z :=
  let* '(err, ctl) :=
    snd_hctl_elem_read (helem it) (set_value_id (numid_only (item_numid it)) zero_value) in
  if err <? 0 then ret err
  else
    let* '(err, _) := snd_hctl_elem_write (helem it) (f ctl) in ret err.

(** [str] is the item, or 0; [channel] is in the range of the array. *)
(* [mixer.c 781-804 _snd_selem_update_volume] *)
Definition _snd_selem_update_volume (str channel value : Z) : M Z :=
  if str =? 0 then ret (- EINVAL)
  else
    let* it := geti str in
    let v := as_vol it in
    if (value <? v_min v) || (v_max v <? value) then ret 0
    else if value =? nthz 0 (vol v) (USR_IDX channel) then ret 0
    else
      let* _ := put_vol str (set_vol (USR_IDX channel) value) in
      let raw := convert_from_user v value in
      if raw =? nthz 0 (vol v) (RAW_IDX channel) then ret 0
      else
        let* _ := put_vol str (set_vol (RAW_IDX channel) raw) in
        change_value it (set_integer channel raw).

Fixpoint update_volume_loop (str value : Z) (ns : list Z) : M Z :=
  match ns with
  | [] => ret 0
  | i :: ns =>
      let* err := _snd_selem_update_volume str i value in
      if err <? 0 then ret err else update_volume_loop str value ns
  end.

(** The number of channels does not change on the way. *)
(* [mixer.c 806-818 _snd_selem_update_volume_all] *)
Definition _snd_selem_update_volume_all (str value : Z) : M Z :=
  if str =? 0 then ret (- EINVAL)
  else
    let* it := geti str in
    update_volume_loop str value (zseq 0 (Z.to_nat (channels it))).

(** [elem->items[type]]. *)
Definition get_slot (elem type : Z) : M Z := let* e := getx elem in ret (slot type e).

(** The user's values for the raw ones. *)
Fixpoint rescale (ns : list Z) (v : snd_selem_vol_item_t) : snd_selem_vol_item_t :=
  match ns with
  | [] => v
  | i :: ns => rescale ns (set_vol (USR_IDX i) (convert_to_user v (nthz 0 (vol v) (RAW_IDX i))) v)
  end.

(* [mixer.c 820-834 set_volume_range] *)
Definition set_volume_range (elem type min max : Z) : M Z :=
  let* str := get_slot elem type in
  if str =? 0 then ret (- EINVAL)
  else
    let* it := geti str in
    let* _ := put_vol str (fun v => rescale (zseq 0 (Z.to_nat (channels it)))
                (VolItem min max (raw_min v) (raw_max v) (db_info v) (vol v))) in
    ret 0.

(* [mixer.c 836-840 snd_mixer_selem_set_playback_volume_range] *)
Definition snd_mixer_selem_set_playback_volume_range (elem min max : Z) : M Z :=
  set_volume_range elem ITEM_PVOLUME min max.

(** [type] is the playback one where one item serves both directions. *)
Definition capture_type (elem bit p c : Z) : M Z :=
  let* e := getx elem in ret (if nz (Z.land (caps e) bit) then p else c).

(* [mixer.c 842-851 snd_mixer_selem_set_capture_volume_range] *)
Definition snd_mixer_selem_set_capture_volume_range (elem min max : Z) : M Z :=
  let* type := capture_type elem CAP_GVOLUME ITEM_PVOLUME ITEM_CVOLUME in
  set_volume_range elem type min max.

(** ** Switches *)

(** [1 << channel], an [int]. *)
Definition sw_bit (channel : Z) : Z := u32 (Z.shiftl 1 channel).

(* [mixer.c 855-880 update_switch] *)
Definition update_switch (elem type channel value : Z) : M Z :=
  let* str := get_slot elem type in
  if str =? 0 then ret (- EINVAL)
  else
    let* it := geti str in
    let sw := if nz value then Z.lor (as_sw it) (sw_bit channel)
              else Z.land (as_sw it) (u32 (Z.lnot (sw_bit channel))) in
    if as_sw it =? sw then ret 0
    else
      let* _ := seti str (set_body (SwBody sw)) in
      change_value it (set_integer channel (b2z (nz value))).

(* [mixer.c 882-887 snd_mixer_selem_set_playback_switch] *)
Definition snd_mixer_selem_set_playback_switch (elem channel value : Z) : M Z :=
  update_switch elem ITEM_PSWITCH channel value.

Fixpoint update_switch_loop (elem type value : Z) (ns : list Z) : M Z :=
  match ns with
  | [] => ret 0
  | i :: ns =>
      let* err := update_switch elem type i value in
      if err <? 0 then ret err else update_switch_loop elem type value ns
  end.

(* [mixer.c 889-902 update_switch_all] *)
Definition update_switch_all (elem type value : Z) : M Z :=
  let* str := get_slot elem type in
  if str =? 0 then ret (- EINVAL)
  else
    let* it := geti str in
    update_switch_loop elem type value (zseq 0 (Z.to_nat (channels it))).

(* [mixer.c 904-907 snd_mixer_selem_set_playback_switch_all] *)
Definition snd_mixer_selem_set_playback_switch_all (elem value : Z) : M Z :=
  update_switch_all elem ITEM_PSWITCH value.

(* [mixer.c 909-919 snd_mixer_selem_set_capture_switch] *)
Definition snd_mixer_selem_set_capture_switch (elem channel value : Z) : M Z :=
  let* type := capture_type elem CAP_GSWITCH ITEM_PSWITCH ITEM_CSWITCH in
  update_switch elem type channel value.

(* [mixer.c 921-929 snd_mixer_selem_set_capture_switch_all] *)
Definition snd_mixer_selem_set_capture_switch_all (elem value : Z) : M Z :=
  let* type := capture_type elem CAP_GSWITCH ITEM_PSWITCH ITEM_CSWITCH in
  update_switch_all elem type value.

(** ** Enumerations *)

(** The name, cut to [maxlen - 1] bytes. *)
(* [mixer.c 933-957 snd_mixer_selem_get_enum_item_name] *)
Definition snd_mixer_selem_get_enum_item_name (elem item' maxlen : Z) : M (Z * option string) :=
  let* eitem := get_slot elem ITEM_ENUM in
  if eitem =? 0 then ret (- EINVAL, None)
  else
    let* it := geti eitem in
    if e_items (as_enum it) <=? item' then ret (- EINVAL, None)
    else
      let info := set_info_id (numid_only (item_numid it)) (set_item item' zero_info) in
      let* '(err, info) := snd_hctl_elem_info (helem it) info in
      if err <? 0 then ret (err, None)
      else ret (0, Some (String.substring 0 (Z.to_nat (maxlen - 1)) (item_name (info_enumerated_value info)))).

(* [mixer.c 959-981 snd_mixer_selem_set_enum_item] *)
Definition snd_mixer_selem_set_enum_item (elem channel item' : Z) : M Z :=
  let* eitem := get_slot elem ITEM_ENUM in
  if eitem =? 0 then ret (- EINVAL)
  else
    let* it := geti eitem in
    let e := as_enum it in
    if nthz 0 (e_item e) channel =? item' then ret 0
    else
      let* _ := seti eitem (set_body (EnumBody (EnumItem (e_items e)
                  (upd channel (fun _ => item') (e_item e))))) in
      change_value it (set_enumerated channel item').

(** ** Decibels *)

Definition tlv_size : Z := 4096.

Definition set_db_info (d : Z) (v : snd_selem_vol_item_t) : snd_selem_vol_item_t :=
  VolItem (v_min v) (v_max v) (raw_min v) (raw_max v) d (vol v).

(** [error:]  Freeing what is not the address of a block gives no block back here; in C
    it is undefined. *)
Definition db_error (item' tlv : Z) : M Z :=
  let* _ := if nz tlv then mfree tlv else ret tt in
  let* _ := put_vol item' (set_db_info INVALID_DB_INFO) in
  ret (- EINVAL).

(** [snd_tlv_parse_dB_info] stores into [tlv] where the data it found is: [off] bytes
    into the block, or NULL; from then on [tlv] is not the block's address. *)
Definition parsed_tlv (block : Z) (words : list Z) (db : option (list Z)) : Z :=
  match db with
  | None => 0
  | Some l => block + 4 * (Z.of_nat (length words) - Z.of_nat (length l))
  end.

(** The block of [size] bytes with what was found. *)
Definition store_db (item' tlv size : Z) (l : list Z) : M Z :=
  let* d := malloc size in
  match d with
  | None => let* _ := put_vol item' (set_db_info 0) in db_error item' tlv
  | Some d =>
      let* _ := put_vol item' (set_db_info d) in
      let* _ := setu (fun u => MX (the_mixer u) (melems u) (mitems u)
                  (<[d := take (Z.to_nat (int_index size)) l]> (dbs u)) (app u)) in
      let* _ := if nz tlv then mfree tlv else ret tt in
      ret 0
  end.

(** [None] where the parser reads past the block.  [junk] and [heap] are what the
    locals of the called functions and new blocks hold. *)
(* [mixer.c 991-1027 init_db_info] *)
Definition init_db_info (junk : snd_ctl_elem_info_t) (heap : list Z) (item' : Z) : M (option Z) :=
  if item' =? 0 then ret (Some (- EINVAL))
  else
    let* it := geti item' in
    let d := db_info (as_vol it) in
    if nz d then ret (Some (if d =? INVALID_DB_INFO then - EINVAL else 0))
    else
      let fail tlv := let* r := db_error item' tlv in ret (Some r) in
      let* '(err, info) := snd_hctl_elem_info (helem it) zero_info in
      if err <? 0 then fail 0
      else if negb (nz (Z.land (info_access info) ACCESS_TLV_READ)) then fail 0
      else
        let* tlv := malloc tlv_size in
        match tlv with
        | None => fail 0
        | Some tlv =>
            let* '(err, words) :=
              snd_hctl_elem_tlv_read junk heap (helem it) (take 1024 heap) tlv_size in
            if err <? 0 then fail tlv
            else
              match snd_tlv_parse_dB_info words tlv_size with
              | None => ret None
              | Some (size, db) =>
                  if size <=? 0 then fail (parsed_tlv tlv words db)
                  else
                    let* r := store_db item' (parsed_tlv tlv words db) size (default [] db) in
                    ret (Some r)
              end
        end.

(** The item's decibel data once it is there. *)
Definition with_db {A} (junk : snd_ctl_elem_info_t) (heap : list Z) (item' : Z) (fail : Z -> A)
  (f : selem_item -> list Z -> M (option A)) : M (option A) :=
  let* r := init_db_info junk heap item' in
  match r with
  | None => ret None
  | Some r =>
      if r <? 0 then ret (Some (fail (- EINVAL)))
      else
        let* it := geti item' in
        let* u := getu in
        f it (default [] (dbs u !! db_info (as_vol it)))
  end.

(** Out of range, the first channel answers; [channel] is compared as unsigned. *)
Definition db_channel (it : selem_item) (channel : Z) : Z :=
  if channels it <=? u32 channel then 0 else channel.

(* [mixer.c 1029-1039 _snd_selem_vol_get_dB] *)
Definition _snd_selem_vol_get_dB (junk : snd_ctl_elem_info_t) (heap : list Z) (item' channel value : Z)
  : M (option (Z * Z)) :=
  with_db junk heap item' (fun e => (e, value))
    (fun it tlv =>
       let v := as_vol it in
       ret (snd_tlv_convert_to_dB tlv (raw_min v) (raw_max v)
              (nthz 0 (vol v) (RAW_IDX (db_channel it channel))) value)).

(* [mixer.c 1041-1048 _snd_selem_ask_vol_dB] *)
Definition _snd_selem_ask_vol_dB (junk : snd_ctl_elem_info_t) (heap : list Z) (item' value dBvalue : Z)
  : M (option (Z * Z)) :=
  with_db junk heap item' (fun e => (e, dBvalue))
    (fun it tlv =>
       let v := as_vol it in
       ret (snd_tlv_convert_to_dB tlv (raw_min v) (raw_max v) value dBvalue)).

(* [mixer.c 1050-1058 _snd_selem_ask_dB_vol] *)
Definition _snd_selem_ask_dB_vol (junk : snd_ctl_elem_info_t) (heap : list Z) (junk_range item' dBvalue
    value xdir : Z) : M (option (Z * Z)) :=
  with_db junk heap item' (fun e => (e, value))
    (fun it tlv =>
       let v := as_vol it in
       ret (snd_tlv_convert_from_dB junk_range tlv (raw_min v) (raw_max v) dBvalue value xdir)).

(* [mixer.c 1060-1067 _snd_selem_vol_get_dB_range] *)
Definition _snd_selem_vol_get_dB_range (junk : snd_ctl_elem_info_t) (heap : list Z)
  (junk_range item' min max : Z) : M (option (Z * Z * Z)) :=
  with_db junk heap item' (fun e => (e, min, max))
    (fun it tlv =>
       let v := as_vol it in
       ret (snd_tlv_get_dB_range junk_range tlv (raw_min v) (raw_max v) min max)).

(** [junk_range] is also what the local [value] holds. *)
(* [mixer.c 1069-1086 _snd_selem_vol_set_dB] *)
Definition _snd_selem_vol_set_dB (junk : snd_ctl_elem_info_t) (heap : list Z)
  (junk_range item' channel db_gain xdir : Z) : M (option Z) :=
  with_db junk heap item' (fun e => e)
    (fun it tlv =>
       let v := as_vol it in
       match snd_tlv_convert_from_dB junk_range tlv (raw_min v) (raw_max v) db_gain junk_range xdir with
       | None => ret None
       | Some (err, value) =>
           if err <? 0 then ret (Some err)
           else
             let* r := _snd_selem_update_volume item' (db_channel it channel) (convert_to_user v value) in
             ret (Some r)
       end).

Fixpoint set_dB_loop (junk : snd_ctl_elem_info_t) (heap : list Z) (junk_range vol' db_gain xdir : Z)
  (ns : list Z) : M (option Z) :=
  match ns with
  | [] => ret (Some 0)
  | i :: ns =>
      let* err := _snd_selem_vol_set_dB junk heap junk_range vol' i db_gain xdir in
      match err with
      | None => ret None
      | Some err => if err <? 0 then ret (Some err) else set_dB_loop junk heap junk_range vol' db_gain xdir ns
      end
  end.

(* [mixer.c 1088-1101 _snd_selem_vol_set_dB_all] *)
Definition _snd_selem_vol_set_dB_all (junk : snd_ctl_elem_info_t) (heap : list Z)
  (junk_range vol' db_gain xdir : Z) : M (option Z) :=
  if vol' =? 0 then ret (Some (- EINVAL))
  else
    let* it := geti vol' in
    set_dB_loop junk heap junk_range vol' db_gain xdir (zseq 0 (Z.to_nat (channels it))).

(** ** The accessors *)

(* [mixer_macros.h 304-313 _snd_mixer_selem_get_volume_range] *)
Definition _snd_mixer_selem_get_volume_range (elem type : Z) : M (Z * option (Z * Z)) :=
  let* vol' := get_slot elem type in
  if vol' =? 0 then ret (- EINVAL, None)
  else let* it := geti vol' in ret (0, Some (v_min (as_vol it), v_max (as_vol it))).

(* [mixer_macros.h 316-321 snd_mixer_selem_get_playback_volume_range] *)
Definition snd_mixer_selem_get_playback_volume_range (elem : Z) : M (Z * option (Z * Z)) :=
  _snd_mixer_selem_get_volume_range elem ITEM_PVOLUME.

(* [mixer_macros.h 370-375 snd_mixer_selem_get_capture_volume_range] *)
Definition snd_mixer_selem_get_capture_volume_range (elem : Z) : M (Z * option (Z * Z)) :=
  _snd_mixer_selem_get_volume_range elem ITEM_CVOLUME.

(* [mixer_macros.h 263-266 snd_mixer_selem_has_common_volume] *)
Definition snd_mixer_selem_has_common_volume (elem : Z) : M bool :=
  let* e := getx elem in ret (nz (Z.land (caps e) CAP_GVOLUME)).

(* [mixer_macros.h 269-272 snd_mixer_selem_has_common_switch] *)
Definition snd_mixer_selem_has_common_switch (elem : Z) : M bool :=
  let* e := getx elem in ret (nz (Z.land (caps e) CAP_GSWITCH)).

(* [mixer_macros.h 330-334 _snd_mixer_selem_has_joined] *)
Definition _snd_mixer_selem_has_joined (elem type str : Z) : M bool :=
  let* head := get_slot elem type in
  if head =? 0 then ret false
  else
    let* it := geti head in
    let* e := getx elem in
    ret (channels it <? nthz 0 (chans e) str).

(* [mixer_macros.h 291-294 snd_mixer_selem_is_playback_mono] *)
Definition snd_mixer_selem_is_playback_mono (elem : Z) : M bool :=
  let* e := getx elem in ret (nthz 0 (chans e) 0 =? 1).

(* [mixer_macros.h 297-301 snd_mixer_selem_has_playback_channel] *)
Definition snd_mixer_selem_has_playback_channel (elem channel : Z) : M bool :=
  let* e := getx elem in ret (u32 channel <? nthz 0 (chans e) 0).

(* [mixer_macros.h 324-327 snd_mixer_selem_has_playback_volume] *)
Definition snd_mixer_selem_has_playback_volume (elem : Z) : M bool :=
  let* p := get_slot elem ITEM_PVOLUME in ret (nz p).

(* [mixer_macros.h 337-341 snd_mixer_selem_has_playback_volume_joined] *)
Definition snd_mixer_selem_has_playback_volume_joined (elem : Z) : M bool :=
  _snd_mixer_selem_has_joined elem ITEM_PVOLUME 0.

(* [mixer_macros.h 344-347 snd_mixer_selem_has_playback_switch] *)
Definition snd_mixer_selem_has_playback_switch (elem : Z) : M bool :=
  let* p := get_slot elem ITEM_PSWITCH in ret (nz p).

(* [mixer_macros.h 350-354 snd_mixer_selem_has_playback_switch_joined] *)
Definition snd_mixer_selem_has_playback_switch_joined (elem : Z) : M bool :=
  _snd_mixer_selem_has_joined elem ITEM_PSWITCH 0.

(* [mixer_macros.h 357-360 snd_mixer_selem_is_capture_mono] *)
Definition snd_mixer_selem_is_capture_mono (elem : Z) : M bool :=
  let* e := getx elem in ret (nthz 0 (chans e) 1 =? 1).

(* [mixer_macros.h 363-367 snd_mixer_selem_has_capture_channel] *)
Definition snd_mixer_selem_has_capture_channel (elem channel : Z) : M bool :=
  let* e := getx elem in ret (u32 channel <? nthz 0 (chans e) 1).

(* [mixer_macros.h 378-381 snd_mixer_selem_has_capture_volume] *)
Definition snd_mixer_selem_has_capture_volume (elem : Z) : M bool :=
  let* p := get_slot elem ITEM_CVOLUME in ret (nz p).

(* [mixer_macros.h 384-388 snd_mixer_selem_has_capture_volume_joined] *)
Definition snd_mixer_selem_has_capture_volume_joined (elem : Z) : M bool :=
  _snd_mixer_selem_has_joined elem ITEM_CVOLUME 1.

(* [mixer_macros.h 391-394 snd_mixer_selem_has_capture_switch] *)
Definition snd_mixer_selem_has_capture_switch (elem : Z) : M bool :=
  let* p := get_slot elem ITEM_CSWITCH in ret (nz p).

(* [mixer_macros.h 397-401 snd_mixer_selem_has_capture_switch_joined] *)
Definition snd_mixer_selem_has_capture_switch_joined (elem : Z) : M bool :=
  _snd_mixer_selem_has_joined elem ITEM_CSWITCH 1.

(* [mixer_macros.h 416-428 _snd_mixer_selem_get_volume] *)
Definition _snd_mixer_selem_get_volume (elem type channel : Z) : M (Z * option Z) :=
  let* vol' := get_slot elem type in
  if vol' =? 0 then ret (- EINVAL, None)
  else let* it := geti vol' in ret (0, Some (nthz 0 (vol (as_vol it)) (USR_IDX (db_channel it channel)))).

(* [mixer_macros.h 440-452 _snd_mixer_selem_get_switch] *)
Definition _snd_mixer_selem_get_switch (elem type channel : Z) : M (Z * option Z) :=
  let* sw := get_slot elem type in
  if sw =? 0 then ret (- EINVAL, None)
  else
    let* it := geti sw in
    ret (0, Some (b2z (nz (Z.land (as_sw it) (sw_bit (db_channel it channel)))))).

(* [mixer_macros.h 431-437 snd_mixer_selem_get_playback_volume] *)
Definition snd_mixer_selem_get_playback_volume (elem channel : Z) : M (Z * option Z) :=
  _snd_mixer_selem_get_volume elem ITEM_PVOLUME channel.

(* [mixer_macros.h 455-461 snd_mixer_selem_get_playback_switch] *)
Definition snd_mixer_selem_get_playback_switch (elem channel : Z) : M (Z * option Z) :=
  _snd_mixer_selem_get_switch elem ITEM_PSWITCH channel.

(* [mixer_macros.h 486-491 snd_mixer_selem_set_playback_volume] *)
Definition snd_mixer_selem_set_playback_volume (elem channel value : Z) : M Z :=
  let* str := get_slot elem ITEM_PVOLUME in _snd_selem_update_volume str channel value.

(* [mixer_macros.h 502-505 snd_mixer_selem_set_playback_volume_all] *)
Definition snd_mixer_selem_set_playback_volume_all (elem value : Z) : M Z :=
  let* str := get_slot elem ITEM_PVOLUME in _snd_selem_update_volume_all str value.

(* [mixer_macros.h 464-470 snd_mixer_selem_get_capture_volume] *)
Definition snd_mixer_selem_get_capture_volume (elem channel : Z) : M (Z * option Z) :=
  _snd_mixer_selem_get_volume elem ITEM_CVOLUME channel.

(* [mixer_macros.h 473-479 snd_mixer_selem_get_capture_switch] *)
Definition snd_mixer_selem_get_capture_switch (elem channel : Z) : M (Z * option Z) :=
  _snd_mixer_selem_get_switch elem ITEM_CSWITCH channel.

(* [mixer_macros.h 494-499 snd_mixer_selem_set_capture_volume] *)
Definition snd_mixer_selem_set_capture_volume (elem channel value : Z) : M Z :=
  let* str := get_slot elem ITEM_CVOLUME in _snd_selem_update_volume str channel value.

(* [mixer_macros.h 508-511 snd_mixer_selem_set_capture_volume_all] *)
Definition snd_mixer_selem_set_capture_volume_all (elem value : Z) : M Z :=
  let* str := get_slot elem ITEM_CVOLUME in _snd_selem_update_volume_all str value.

(* [mixer_macros.h 514-517 snd_mixer_selem_is_enumerated] *)
Definition snd_mixer_selem_is_enumerated (elem : Z) : M bool :=
  let* p := get_slot elem ITEM_ENUM in ret (nz p).

(* [mixer_macros.h 520-523 snd_mixer_selem_is_enum_playback] *)
Definition snd_mixer_selem_is_enum_playback (elem : Z) : M bool :=
  let* e := getx elem in ret (nz (Z.land (caps e) CAP_PENUM)).

(* [mixer_macros.h 526-529 snd_mixer_selem_is_enum_capture] *)
Definition snd_mixer_selem_is_enum_capture (elem : Z) : M bool :=
  let* e := getx elem in ret (nz (Z.land (caps e) CAP_CENUM)).

(** An [unsigned] as an [int]. *)
(* [mixer_macros.h 532-538 snd_mixer_selem_get_enum_items] *)
Definition snd_mixer_selem_get_enum_items (elem : Z) : M Z :=
  let* eitem := get_slot elem ITEM_ENUM in
  if eitem =? 0 then ret (- EINVAL) else let* it := geti eitem in ret (s32 (e_items (as_enum it))).

(* [mixer_macros.h 541-550 snd_mixer_selem_get_enum_item] *)
Definition snd_mixer_selem_get_enum_item (elem channel : Z) : M (Z * option Z) :=
  let* eitem := get_slot elem ITEM_ENUM in
  let* it := geti eitem in
  if (eitem =? 0) || (channels it <=? u32 channel) then ret (- EINVAL, None)
  else ret (0, Some (nthz 0 (e_item (as_enum it)) channel)).

(* [mixer_macros.h 602-607 snd_mixer_selem_get_playback_dB_range] *)
Definition snd_mixer_selem_get_playback_dB_range (junk : snd_ctl_elem_info_t) (heap : list Z)
  (junk_range elem min max : Z) : M (option (Z * Z * Z)) :=
  let* item' := get_slot elem ITEM_PVOLUME in _snd_selem_vol_get_dB_range junk heap junk_range item' min max.

(* [mixer_macros.h 610-616 snd_mixer_selem_get_playback_dB] *)
Definition snd_mixer_selem_get_playback_dB (junk : snd_ctl_elem_info_t) (heap : list Z)
  (elem channel value : Z) : M (option (Z * Z)) :=
  let* item' := get_slot elem ITEM_PVOLUME in _snd_selem_vol_get_dB junk heap item' channel value.

(* [mixer_macros.h 619-624 snd_mixer_selem_ask_playback_vol_dB] *)
Definition snd_mixer_selem_ask_playback_vol_dB (junk : snd_ctl_elem_info_t) (heap : list Z)
  (elem value dBvalue : Z) : M (option (Z * Z)) :=
  let* item' := get_slot elem ITEM_PVOLUME in _snd_selem_ask_vol_dB junk heap item' value dBvalue.

(* [mixer_macros.h 627-632 snd_mixer_selem_ask_playback_dB_vol] *)
Definition snd_mixer_selem_ask_playback_dB_vol (junk : snd_ctl_elem_info_t) (heap : list Z)
  (junk_range elem dBvalue dir value : Z) : M (option (Z * Z)) :=
  let* item' := get_slot elem ITEM_PVOLUME in 
  _snd_selem_ask_dB_vol junk heap junk_range item' dBvalue value dir.

(* [mixer_macros.h 635-641 snd_mixer_selem_set_playback_dB] *)
Definition snd_mixer_selem_set_playback_dB (junk : snd_ctl_elem_info_t) (heap : list Z)
  (junk_range elem channel value dir : Z) : M (option Z) :=
  let* item' := get_slot elem ITEM_PVOLUME in 
  _snd_selem_vol_set_dB junk heap junk_range item' channel value dir.

(* [mixer_macros.h 644-648 snd_mixer_selem_set_playback_dB_all] *)
Definition snd_mixer_selem_set_playback_dB_all (junk : snd_ctl_elem_info_t) (heap : list Z)
  (junk_range elem value dir : Z) : M (option Z) :=
  let* item' := get_slot elem ITEM_PVOLUME in 
  _snd_selem_vol_set_dB_all junk heap junk_range item' value dir.

(* [mixer_macros.h 651-656 snd_mixer_selem_get_capture_dB_range] *)
Definition snd_mixer_selem_get_capture_dB_range (junk : snd_ctl_elem_info_t) (heap : list Z)
  (junk_range elem min max : Z) : M (option (Z * Z * Z)) :=
  let* item' := get_slot elem ITEM_CVOLUME in _snd_selem_vol_get_dB_range junk heap junk_range item' min max.

(* [mixer_macros.h 659-665 snd_mixer_selem_get_capture_dB] *)
Definition snd_mixer_selem_get_capture_dB (junk : snd_ctl_elem_info_t) (heap : list Z)
  (elem channel value : Z) : M (option (Z * Z)) :=
  let* item' := get_slot elem ITEM_CVOLUME in _snd_selem_vol_get_dB junk heap item' channel value.

(* [mixer_macros.h 668-673 snd_mixer_selem_ask_capture_vol_dB] *)
Definition snd_mixer_selem_ask_capture_vol_dB (junk : snd_ctl_elem_info_t) (heap : list Z)
  (elem value dBvalue : Z) : M (option (Z * Z)) :=
  let* item' := get_slot elem ITEM_CVOLUME in _snd_selem_ask_vol_dB junk heap item' value dBvalue.

(* [mixer_macros.h 676-681 snd_mixer_selem_ask_capture_dB_vol] *)
Definition snd_mixer_selem_ask_capture_dB_vol (junk : snd_ctl_elem_info_t) (heap : list Z)
  (junk_range elem dBvalue dir value : Z) : M (option (Z * Z)) :=
  let* item' := get_slot elem ITEM_CVOLUME in 
  _snd_selem_ask_dB_vol junk heap junk_range item' dBvalue value dir.

(* [mixer_macros.h 684-690 snd_mixer_selem_set_capture_dB] *)
Definition snd_mixer_selem_set_capture_dB (junk : snd_ctl_elem_info_t) (heap : list Z)
  (junk_range elem channel value dir : Z) : M (option Z) :=
  let* item' := get_slot elem ITEM_CVOLUME in 
  _snd_selem_vol_set_dB junk heap junk_range item' channel value dir.

(* [mixer_macros.h 693-697 snd_mixer_selem_set_capture_dB_all] *)
Definition snd_mixer_selem_set_capture_dB_all (junk : snd_ctl_elem_info_t) (heap : list Z)
  (junk_range elem value dir : Z) : M (option Z) :=
  let* item' := get_slot elem ITEM_CVOLUME in 
  _snd_selem_vol_set_dB_all junk heap junk_range item' value dir.

(* [mixer_macros.h 244-248 snd_mixer_selem_get_id] *)
Definition snd_mixer_selem_get_id (elem : Z) : M (string * Z) :=
  let* e := getx elem in ret (sid_name e, sid_index e).

(* [mixer_macros.h 285-288 snd_mixer_selem_is_active] *)
Definition snd_mixer_selem_is_active (elem : Z) : M bool :=
  let* e := getx elem in ret (negb (nz (inactive e))).

(* [mixer_macros.h 404-407 snd_mixer_selem_has_capture_switch_exclusive] *)
Definition snd_mixer_selem_has_capture_switch_exclusive (elem : Z) : M Z :=
  ret 0.

(* [mixer_macros.h 410-413 snd_mixer_selem_get_capture_group] *)
Definition snd_mixer_selem_get_capture_group (elem : Z) : M Z :=
  ret (- EINVAL).

(** Callbacks. *)
(* [mixer_macros.h 178-182 snd_mixer_elem_set_callback] *)
Definition snd_mixer_elem_set_callback (elem val : Z) : M unit :=
  setx elem (fun e => MElem (sid_name e) (sid_index e) (e_mixer e) (caps e) (inactive e) (chans e)
    (slots e) (m_index e) val (m_callback_private e)).

(* [mixer_macros.h 185-188 snd_mixer_elem_set_callback_private] *)
Definition snd_mixer_elem_set_callback_private (elem val : Z) : M unit :=
  setx elem (fun e => MElem (sid_name e) (sid_index e) (e_mixer e) (caps e) (inactive e) (chans e)
    (slots e) (m_index e) (m_callback e) val).

(* [mixer_macros.h 154-157 snd_mixer_set_callback] *)
Definition snd_mixer_set_callback (val : Z) : M unit :=
  setm (fun m => Mixer (mixer_block m) (m_count m) (m_alloc m) (pelems_block m) (pelems m)
    (m_compare m) (events m) val (mixer_callback_private m)).

(* [mixer_macros.h 160-163 snd_mixer_set_callback_private] *)
Definition snd_mixer_set_callback_private (val : Z) : M unit :=
  setm (fun m => Mixer (mixer_block m) (m_count m) (m_alloc m) (pelems_block m) (pelems m)
    (m_compare m) (events m) (mixer_callback m) val).

(* [mixer_macros.h 203-207 snd_mixer_set_compare] *)
Definition snd_mixer_set_compare (val : Z) : M Z :=
  let* _ := setm (fun m => Mixer (mixer_block m) (m_count m) (m_alloc m) (pelems_block m) (pelems m)
    val (events m) (mixer_callback m) (mixer_callback_private m)) in
  ret 0.

End Selem.

(** ** Names of the channels *)

(* [mixer.c 767-777 _snd_mixer_selem_channels] *)
Definition _snd_mixer_selem_channels : list string :=
  ["Front Left"; "Front Right"; "Rear Left"; "Rear Right"; "Front Center"; "Woofer";
   "Side Left"; "Side Right"; "Rear Center"]%string.

(** [channel] is from 0 to 31; the rest of the table is NULL. *)
(* [mixer_macros.h 277-282 snd_mixer_selem_channel_name] *)
Definition snd_mixer_selem_channel_name (channel : Z) : string :=
  default "?"%string (_snd_mixer_selem_channels !! Z.to_nat channel).
