(* ===== verification/MixerLife.v ===== *)
(** * The life of a mixer

    From [snd_mixer_open] to [snd_mixer_close] (files Mixer.v and MixerSelem.v): whatever
    the application does in between, the mixer's memory stays in order, and closing
    gives back the handle, the control device, the array and the mixer. *)

From stdpp Require Import gmap.
From S2P Require Import Prelude CInt Sys Cards Async CtlTypes Control ControlSpec Hcontrol.
From S2P Require Import HcontrolSpec HcontrolLife CtlAscii Mixer MixerOk MixerSpec MixerSelem Toy.
#[local] Open Scope Z_scope.

Section Life.
Context {K W : Type} `{!Os K, !OsLaws K, !AsyncKernel K, !CardKernel K, !CtlKernel K}.
Context `{!MixerApp K W, !MixerAppLaws K W}.

#[local] Abbreviation state := (hs K (mx W)).
#[local] Abbreviation M := (io (hs K (mx W))).

(** ** Setting values keeps the memory in order *)

Lemma quiet_elem_write a v : quiet (snd_hctl_elem_write a v : M _).
Proof. intros s. apply quiet_sysp_rc. Qed.

Lemma framed_elem_write a v : framed (snd_hctl_elem_write a v : M _).
Proof. intros s. unfold snd_hctl_elem_write, elem_ctl, bind, gete, geth, ret. apply framed_rc, framed_sysp. Qed.

Lemma change_value_quiet it f : quiet (change_value it f : M Z).
Proof.
  unfold change_value. apply quiet_then; [apply quiet_elem_read|]. intros [err ctl].
  destruct (err <? 0); [apply quiet_done|]. apply quiet_then; [apply quiet_elem_write|].
  intros [r v]. apply quiet_done.
Qed.

Lemma change_value_framed it f : framed (change_value it f : M Z).
Proof.
  unfold change_value. apply framed_bind; [apply framed_elem_read|]. intros [err ctl].
  destruct (err <? 0); [apply framed_ret|]. apply framed_bind; [apply framed_elem_write|].
  intros [r v]. apply framed_ret.
Qed.

(** Running in both senses: nothing of others is touched, nothing of ours breaks. *)
Definition safe {A} (m : M A) (s : state) : Prop :=
  same_frame s (m s).2 /\ forall rest, good rest s -> good rest (m s).2.

Lemma safe_ret {A} (a : A) s : safe (ret a) s.
Proof. split; [apply framed_ret|done]. Qed.

Lemma safe_quiet {A} (m : M A) s : quiet m -> framed m -> safe m s.
Proof. intros Hq Hf. split; [apply Hf|]. intros rest. apply quiet_good. done. Qed.

Lemma safe_bind {A B} (m : M A) (f : A -> M B) s :
  safe m s -> (let '(a, s1) := m s in safe (f a) s1) -> safe (bind m f) s.
Proof.
  intros [H1 H2] H. unfold safe, bind. destruct (m s) as [a s1]. destruct H as [H3 H4]. split.
  - apply (same_frame_trans s s1); done.
  - auto.
Qed.

(** The item at [a], if there is one, is a volume (0), a switch (1) or an enumeration. *)
Definition is_kind (k a : Z) (s : state) : Prop :=
  forall it, mitems (user s) !! a = Some it -> body_kind (body it) = k.

Lemma slot_is_kind e t s rest : good rest s -> slot_kind t <= 2 ->
  slot t (default zero_melem (melems (user s) !! e)) <> 0 ->
  is_kind (slot_kind t) (slot t (default zero_melem (melems (user s) !! e))) s.
Proof.
  intros [(Hm & _) _] Ht Hnz it Hit.
  destruct (slot_live (user s) e t Hm Hnz) as (E & it' & He & Hit' & _ & _ & Hk).
  rewrite He in Hit. cbn [default id] in Hit. congruence.
Qed.

(** Changing an item's body to one of its kind with its decibel block. *)
Lemma seti_body_good a (f : selem_item -> item_body) rest s :
  good rest s ->
  (forall it, mitems (user s) !! a = Some it -> body_kind (f it) = body_kind (body it) /\
     db_info (as_vol (set_body (f it) it)) = db_info (as_vol it)) ->
  good rest (seti a (fun i => set_body (f i) i) s).2.
Proof.
  intros [(Hm & Har & Hi) Ha] Hf. split; [split; [|split]|].
  - apply (mem_ok_body (user s) a (fun i => set_body (f i) i)); done.
  - destruct Har. constructor; done.
  - exact Hi.
  - unfold accounts in *. change (ledger _) with (ledger s). rewrite Ha.
    apply Permutation_app_tail. symmetry. apply held_keys; try done. apply keys_alter.
Qed.

Lemma put_vol_good a f rest s :
  good rest s -> is_kind 0 a s -> (forall v, db_info (f v) = db_info v) -> good rest (put_vol a f s).2.
Proof.
  intros Hg Hk Hf. apply seti_body_good; [done|]. intros it Hit. split; [rewrite (Hk it Hit); done|].
  apply Hf.
Qed.

Lemma put_vol_kind k a b f s : is_kind k b s -> k = 0 -> is_kind k b (put_vol a f s).2.
Proof.
  intros Hk -> it (it0 & H0 & ->)%lookup_alter_inv. destruct (decide _); [done|]. apply Hk. done.
Qed.

Lemma change_value_user it f s : user (change_value it f s : Z * state).2 = user s.
Proof. apply change_value_quiet. Qed.

Lemma update_volume_safe str channel value rest s :
  good rest s -> is_kind 0 str s ->
  let s' := (_snd_selem_update_volume str channel value s).2 in
  same_frame s s' /\ good rest s' /\ is_kind 0 str s'.
Proof.
  intros Hg Hk. cbn zeta. unfold _snd_selem_update_volume. destruct (str =? 0); [done|].
  rewrite run_geti. set (it := default _ _). destruct (_ || _); [done|]. destruct (value =? _); [done|].
  unfold bind at 1. set (s1 := (put_vol str (set_vol (USR_IDX channel) value) s).2).
  change (put_vol str (set_vol (USR_IDX channel) value) s) with (tt, s1).
  assert (Hf1 : same_frame s s1) by (apply (framed_setu (K := K))).
  assert (Hg1 : good rest s1) by (apply put_vol_good; done).
  assert (Hk1 : is_kind 0 str s1) by (apply put_vol_kind; done).
  destruct (_ =? _); [done|]. unfold bind at 1. set (raw := convert_from_user _ _).
  set (s2 := (put_vol str (set_vol (RAW_IDX channel) raw) s1).2).
  change (put_vol str (set_vol (RAW_IDX channel) raw) s1) with (tt, s2).
  assert (Hf2 : same_frame s1 s2) by (apply (framed_setu (K := K))).
  assert (Hg2 : good rest s2) by (apply put_vol_good; done).
  assert (Hk2 : is_kind 0 str s2) by (apply put_vol_kind; done).
  split; [|split].
  - apply (same_frame_trans s s1); [done|]. apply (same_frame_trans s1 s2); [done|].
    apply (change_value_framed it (set_integer channel raw) s2).
  - apply (quiet_good (change_value it (set_integer channel raw)) rest s2); [apply change_value_quiet|done].
  - intros i Hi. apply Hk2. rewrite <- (change_value_user it (set_integer channel raw) s2). exact Hi.
Qed.

Lemma update_volume_loop_safe str value ns rest s :
  good rest s -> is_kind 0 str s ->
  same_frame s (update_volume_loop str value ns s).2 /\ good rest (update_volume_loop str value ns s).2.
Proof.
  revert s. induction ns as [|n ns IH]; intros s Hg Hk; cbn [update_volume_loop]; [done|].
  unfold bind. destruct (update_volume_safe str n value rest s Hg Hk) as (H1 & H2 & H3).
  destruct (_snd_selem_update_volume str n value s) as [r s1]. cbn [snd] in *.
  destruct (r <? 0); [done|]. destruct (IH s1 H2 H3) as [H4 H5]. split; [|done].
  apply (same_frame_trans s s1); done.
Qed.

(** An operation on a slot of an element that fails where the slot is empty. *)
Lemma slot_op_safe {A} e t (f : Z -> M A) rest s :
  good rest s -> slot_kind t <= 2 -> (same_frame s (f 0 s).2 /\ good rest (f 0 s).2) ->
  (forall a, a <> 0 -> is_kind (slot_kind t) a s -> same_frame s (f a s).2 /\ good rest (f a s).2) ->
  let s' := (bind (get_slot e t) f s).2 in same_frame s s' /\ good rest s'.
Proof.
  intros Hg Ht H0 Hf. cbn zeta. unfold get_slot, bind, getx, getu, ret.
  destruct (Z.eqb_spec (slot t (default zero_melem (melems (user s) !! e))) 0) as [Hz|Hnz].
  - unfold bind. rewrite Hz. exact H0.
  - unfold bind. apply Hf; [done|]. apply (slot_is_kind e t s rest); done.
Qed.

Definition volume_slot (capture : bool) : Z := if capture then ITEM_CVOLUME else ITEM_PVOLUME.
Definition switch_slot (capture : bool) : Z := if capture then ITEM_CSWITCH else ITEM_PSWITCH.

Lemma set_volume_safe e c channel value rest s :
  good rest s ->
  let s' := ((let* str := get_slot e (volume_slot c) in _snd_selem_update_volume str channel value) s).2 in
  same_frame s s' /\ good rest s'.
Proof.
  intros Hg. apply slot_op_safe; [done|destruct c; cbv; done|done|]. intros a Ha Hk.
  replace (slot_kind (volume_slot c)) with 0 in Hk by (destruct c; done).
  destruct (update_volume_safe a channel value rest s Hg Hk) as (H1 & H2 & _). done.
Qed.

Lemma set_volume_all_safe e c value rest s :
  good rest s ->
  let s' := ((let* str := get_slot e (volume_slot c) in _snd_selem_update_volume_all str value) s).2 in
  same_frame s s' /\ good rest s'.
Proof.
  intros Hg. apply slot_op_safe; [done|destruct c; cbv; done|done|]. intros a Ha Hk.
  replace (slot_kind (volume_slot c)) with 0 in Hk by (destruct c; done).
  unfold _snd_selem_update_volume_all. destruct (Z.eqb_spec a 0); [done|]. rewrite run_geti.
  apply update_volume_loop_safe; done.
Qed.

Lemma rescale_db ns v : db_info (rescale ns v) = db_info v.
Proof. revert v. induction ns as [|n ns IH]; intros v; simpl; [done|]. rewrite IH. done. Qed.

Lemma set_range_safe e c lo hi rest s :
  good rest s ->
  let s' := (set_volume_range e (volume_slot c) lo hi s).2 in same_frame s s' /\ good rest s'.
Proof.
  intros Hg. apply (slot_op_safe e (volume_slot c) (fun str => if str =? 0 then _ else _));
    [done|destruct c; cbv; done|done|]. intros a Ha Hk.
  replace (slot_kind (volume_slot c)) with 0 in Hk by (destruct c; done).
  destruct (Z.eqb_spec a 0); [done|]. rewrite run_geti. unfold bind, ret.
  set (f := fun v => rescale _ _).
  split; [apply (framed_setu (K := K))|]. apply (put_vol_good a f rest s); [done|done|].
  intros v. unfold f. rewrite rescale_db. done.
Qed.

Lemma update_switch_safe e c channel value rest s :
  good rest s ->
  let s' := (update_switch e (switch_slot c) channel value s).2 in same_frame s s' /\ good rest s'.
Proof.
  intros Hg. apply (slot_op_safe e (switch_slot c) (fun str => if str =? 0 then _ else _));
    [done|destruct c; cbv; done|done|]. intros a Ha Hk.
  replace (slot_kind (switch_slot c)) with 1 in Hk by (destruct c; done).
  destruct (Z.eqb_spec a 0); [done|]. rewrite run_geti. set (it := default _ _). cbv zeta.
  set (sw := if nz value then _ else _). destruct (as_sw it =? sw); [done|]. unfold bind at 1.
  set (s1 := (seti a (set_body (SwBody sw)) s).2). change (seti a (set_body (SwBody sw)) s) with (tt, s1).
  assert (Hg1 : good rest s1).
  { apply (seti_body_good a (fun _ => SwBody sw)); [done|]. intros it' Hit. pose proof (Hk it' Hit) as Hb.
    split; [done|]. unfold as_vol. destruct (body it'); done. }
  split.
  - apply (same_frame_trans s s1); [apply (framed_setu (K := K))|].
    apply (change_value_framed it (set_integer channel (b2z (nz value))) s1).
  - apply (quiet_good (change_value it (set_integer channel (b2z (nz value)))) rest s1);
      [apply change_value_quiet|done].
Qed.

Lemma update_switch_loop_safe e c value ns rest s :
  good rest s ->
  let s' := (update_switch_loop e (switch_slot c) value ns s).2 in same_frame s s' /\ good rest s'.
Proof.
  cbn zeta. revert s. induction ns as [|n ns IH]; intros s Hg; cbn [update_switch_loop]; [done|].
  unfold bind. destruct (update_switch_safe e c n value rest s Hg) as [H1 H2].
  destruct (update_switch e (switch_slot c) n value s) as [r s1]. cbn [snd] in *.
  destruct (r <? 0); [done|]. destruct (IH s1 H2) as [H4 H5]. split; [|done].
  apply (same_frame_trans s s1); done.
Qed.

Lemma update_switch_all_safe e c value rest s :
  good rest s ->
  let s' := (update_switch_all e (switch_slot c) value s).2 in same_frame s s' /\ good rest s'.
Proof.
  intros Hg. apply (slot_op_safe e (switch_slot c) (fun str => if str =? 0 then _ else _));
    [done|destruct c; cbv; done|done|]. intros a Ha Hk.
  destruct (Z.eqb_spec a 0); [done|]. rewrite run_geti. apply update_switch_loop_safe. done.
Qed.

Lemma set_enum_safe e channel item' rest s :
  good rest s ->
  let s' := (snd_mixer_selem_set_enum_item e channel item' s).2 in same_frame s s' /\ good rest s'.
Proof.
  intros Hg. apply (slot_op_safe e ITEM_ENUM (fun str => if str =? 0 then _ else _)); [done|cbv; done|done|].
  intros a Ha Hk. change (slot_kind ITEM_ENUM) with 2 in Hk.
  destruct (Z.eqb_spec a 0); [done|]. rewrite run_geti. set (it := default _ _). cbv zeta.
  destruct (_ =? item'); [done|]. unfold bind at 1. set (b := EnumBody _).
  set (s1 := (seti a (set_body b) s).2). change (seti a (set_body b) s) with (tt, s1).
  assert (Hg1 : good rest s1).
  { apply (seti_body_good a (fun _ => b)); [done|]. intros it' Hit. pose proof (Hk it' Hit) as Hb.
    split; [done|]. unfold as_vol. destruct (body it'); done. }
  split.
  - apply (same_frame_trans s s1); [apply (framed_setu (K := K))|].
    apply (change_value_framed it (set_enumerated channel item') s1).
  - apply (quiet_good (change_value it (set_enumerated channel item')) rest s1);
      [apply change_value_quiet|done].
Qed.

(** ** Sessions *)

(** What an application does with an attached mixer; [capture] picks the direction. *)
Inductive mop :=
  | MLoad (fuel : nat)
  | MEvents (fuel : nat)
  | MFree
  | MVolume (elem : Z) (capture : bool) (channel value : Z)
  | MVolumeAll (elem : Z) (capture : bool) (value : Z)
  | MRange (elem : Z) (capture : bool) (min max : Z)
  | MSwitch (elem : Z) (capture : bool) (channel value : Z)
  | MSwitchAll (elem : Z) (capture : bool) (value : Z)
  | MEnum (elem channel item : Z).

(** The call on a simple element. *)
Definition selem_op (o : mop) : M Z :=
  match o with
  | MVolume e false ch v => snd_mixer_selem_set_playback_volume e ch v
  | MVolume e true ch v => snd_mixer_selem_set_capture_volume e ch v
  | MVolumeAll e false v => snd_mixer_selem_set_playback_volume_all e v
  | MVolumeAll e true v => snd_mixer_selem_set_capture_volume_all e v
  | MRange e false lo hi => snd_mixer_selem_set_playback_volume_range e lo hi
  | MRange e true lo hi => snd_mixer_selem_set_capture_volume_range e lo hi
  | MSwitch e false ch v => snd_mixer_selem_set_playback_switch e ch v
  | MSwitch e true ch v => snd_mixer_selem_set_capture_switch e ch v
  | MSwitchAll e false v => snd_mixer_selem_set_playback_switch_all e v
  | MSwitchAll e true v => snd_mixer_selem_set_capture_switch_all e v
  | MEnum e ch i => snd_mixer_selem_set_enum_item e ch i
  | _ => ret 0
  end.

Definition run_mop (o : mop) : io (ms (K := K) (W := W)) (option Z) :=
  match o with
  | MLoad fuel => snd_mixer_load (S fuel)
  | MEvents fuel => snd_mixer_handle_events fuel
  | MFree => let* _ := snd_mixer_free in ret (Some 0)
  | o => on_hctl (Some 0) (let* r := selem_op o in ret (Some r))
  end.

Fixpoint run_mops (os : list mop) : io (ms (K := K) (W := W)) (list (option Z)) :=
  match os with
  | [] => ret []
  | o :: os => let* r := run_mop o in let* rs := run_mops os in ret (r :: rs)
  end.

Lemma bind_ret_state {A B} (m : M A) (g : A -> B) s : (bind m (fun a => ret (g a)) s).2 = (m s).2.
Proof. unfold bind, ret. destruct (m s). done. Qed.

Lemma run_capture {A} e bit p c (f : Z -> M A) s :
  bind (capture_type e bit p c) f s =
  f (if nz (Z.land (caps (default zero_melem (melems (user s) !! e))) bit) then p else c) s.
Proof. done. Qed.

Lemma selem_op_safe o rest s :
  good rest s -> same_frame s (selem_op o s).2 /\ good rest (selem_op o s).2.
Proof.
  intros Hg. assert (Hself : same_frame s s /\ good rest s) by done.
  destruct o as [?|?| |e [] ch v|e [] v|e [] lo hi|e [] ch v|e [] v|e ch i]; try exact Hself.
  - exact (set_volume_safe e true ch v rest s Hg).
  - exact (set_volume_safe e false ch v rest s Hg).
  - exact (set_volume_all_safe e true v rest s Hg).
  - exact (set_volume_all_safe e false v rest s Hg).
  - cbn [selem_op]. unfold snd_mixer_selem_set_capture_volume_range. rewrite run_capture.
    destruct (nz _); [exact (set_range_safe e false lo hi rest s Hg)|exact (set_range_safe e true lo hi rest s Hg)].
  - exact (set_range_safe e false lo hi rest s Hg).
  - cbn [selem_op]. unfold snd_mixer_selem_set_capture_switch. rewrite run_capture.
    destruct (nz _); [exact (update_switch_safe e false ch v rest s Hg)|exact (update_switch_safe e true ch v rest s Hg)].
  - exact (update_switch_safe e false ch v rest s Hg).
  - cbn [selem_op]. unfold snd_mixer_selem_set_capture_switch_all. rewrite run_capture.
    destruct (nz _); [exact (update_switch_all_safe e false v rest s Hg)|exact (update_switch_all_safe e true v rest s Hg)].
  - exact (update_switch_all_safe e false v rest s Hg).
  - exact (set_enum_safe e ch i rest s Hg).
Qed.

(** What the process holds for a handle besides its elements. *)
Definition base (h : snd_hctl_t) : list resource :=
  [RMem (hctl_block h); RMem (ctl_block (hctl_ctl h)); RFd (ctl_fd (hctl_ctl h))].

Context (me : Z * snd_ctl_t * gmap Z Z).

(** The mixer is attached to a handle in order. *)
Definition attached (frame : list resource) (s : ms (K := K) (W := W)) : Prop :=
  exists h l, ms_hctl s = Some h /\
    ptrs (ms_prc s) !! ctl_async_loc (hctl_ctl h.1) = None /\
    hctl_ok me (HS h.1 h.2 (ms_prc s) (ms_mixer s)) l (base h.1 ++ frame).

Lemma hctl_ok_base (t t' : state) l' frame :
  hctl_ok me t' l' (base (the_hctl t) ++ frame) -> identity t = me ->
  ptrs (hprc t) !! ctl_async_loc (hctl_ctl (the_hctl t)) = None ->
  attached frame (MS (user t') (Some (the_hctl t', elems t')) (hprc t')).
Proof.
  intros Hok Hme Hp. pose proof (ok_me _ _ _ _ Hok) as Hme'. rewrite <- Hme in Hme'.
  unfold identity in Hme'. injection Hme' as H1 H2 H3.
  exists (the_hctl t', elems t'), l'. simpl. split; [done|]. split; [rewrite H3, H2; done|].
  assert (Hb : base (the_hctl t) = base (the_hctl t')) by (unfold base; congruence).
  rewrite Hb in Hok. destruct t'. exact Hok.
Qed.

(** Running on the handle. *)
Lemma on_hctl_ok {A} (none : A) (m : M A) frame (s : ms (K := K) (W := W)) (Q : A -> list resource -> Prop) :
  attached frame s ->
  (forall t l fr, hctl_ok me t l fr -> ptrs (hprc t) !! ctl_async_loc (hctl_ctl (the_hctl t)) = None ->
     let '(a, t') := m t in exists l' leak, hctl_ok me t' l' (leak ++ fr) /\ Q a leak) ->
  let '(a, s') := on_hctl none m s in exists leak, attached (leak ++ frame) s' /\ Q a leak.
Proof.
  intros (h & l & Hh & Hp & Hok) Hm. unfold on_hctl, with_hctl. rewrite Hh.
  specialize (Hm _ _ _ Hok Hp). pose proof (ok_me _ _ _ _ Hok) as Hme.
  destruct (m _) as [a t']. destruct Hm as (l' & leak & Hok' & HQ). exists leak. split; [|done].
  unfold set_hctl. cbn [snd ms_mixer ms_prc ms_hctl]. eapply hctl_ok_base; [|exact Hme|exact Hp].
  simpl. destruct Hok' as [A1 A2 A3 A4 A5 A6 A7 A9 AC AM]. constructor; try done. rewrite A9.
  apply Permutation_app_head, Permutation_app_head. unfold base. simpl.
  rewrite <- !Permutation_middle. done.
Qed.

Context (Hfill : fills_list (K := K)).

(** A computation of the mixer that is safe keeps the handle in order. *)
Lemma safe_hctl_ok {A} (m : M A) t l fr :
  hctl_ok me t l fr -> (forall rest, good rest t -> same_frame t (m t).2 /\ good rest (m t).2) ->
  hctl_ok me (m t).2 l fr.
Proof.
  intros Hok Hm. apply (keeps_ok me t (m t).2 l fr); [|exact Hok].
  assert (Ha : good ((RMem <$> l) ++ fr) t).
  { split; [exact (ok_client _ _ _ _ Hok)|]. unfold accounts. rewrite (ok_held _ _ _ _ Hok).
    apply Permutation_app_swap_app. }
  destruct (Hm _ Ha) as [(H1 & H2 & H3 & H4) _]. constructor; try done.
  intros rest Hc Hl. apply Hm. split; done.
Qed.

(** The calls that may lose a block: an event refused, a load that has not ended. *)
Definition mlossy (o : mop) (r : option Z) : bool :=
  match o, r with
  | MLoad _, None => true
  | MEvents _, Some e => e =? - EBUSY
  | _, _ => false
  end.

Definition lost (o : mop) (r : option Z) (leak : list resource) : Prop :=
  (length leak <= if mlossy o r then 1 else 0)%nat.

Lemma run_mop_ok o frame s :
  attached frame s ->
  let '(r, s') := run_mop o s in exists leak, attached (leak ++ frame) s' /\ lost o r leak.
Proof using Hfill OsLaws0.
  intros Hat.
  assert (Hselem : let '(r, s') := on_hctl (Some 0) (let* r := selem_op o in ret (Some r)) s in
    exists leak, attached (leak ++ frame) s' /\ lost o r leak).
  { apply (on_hctl_ok (Some 0) _ frame s (lost o) Hat). intros t l fr Hok _.
    assert (Hs : hctl_ok me (selem_op o t).2 l fr)
      by (apply safe_hctl_ok; [done|]; intros rest; apply selem_op_safe).
    unfold bind, ret. destruct (selem_op o t) as [r t']. exists l, []. split; [done|]. unfold lost. simpl. lia. }
  destruct o as [fuel|fuel| | | | | | | ]; try exact Hselem; clear Hselem; cbn [run_mop].
  - apply (on_hctl_ok (Some 0) _ frame s (lost (MLoad fuel)) Hat). intros t l fr Hok _.
    pose proof (load_keeps me (S fuel) t l fr Hok Hfill) as H. destruct (snd_hctl_load (S fuel) t) as [r t'].
    destruct H as (l' & leak & Hok' & Hl). exists l', leak. split; [done|].
    unfold lost. destruct r; [subst leak|]; done.
  - apply (on_hctl_ok (Some 0) _ frame s (lost (MEvents fuel)) Hat). intros t l fr Hok _. unfold bind at 1.
    assert (H1 : hctl_ok me (setm (set_events 0) t).2 l fr).
    { apply safe_hctl_ok; [done|]. intros rest Hg. split; [apply (framed_setu (K := K))|].
      apply good_set_user; [done| |done]. destruct Hg as [([] & [] & Hi) _].
      split; [constructor; done|]. split; [constructor; done|done]. }
    destruct (setm (set_events 0) t) as [[] t1]. unfold bind, snd_hctl_handle_events.
    pose proof (events_loop_ok me fuel 0 t1 l fr H1) as H2.
    destruct (events_loop fuel 0 t1) as [[err|] t2]; destruct H2 as (l' & leak & H2 & H3 & H4).
    + destruct (Z.ltb_spec err 0) as [Hn|Hn].
      * exists l', leak. split; [done|]. unfold lost. simpl.
        destruct (Z.eqb_spec err (- EBUSY)); [done|]. rewrite H3 by congruence. done.
      * unfold getm, getu, bind, ret. exists l', leak. split; [done|].
        unfold lost. rewrite H3 by (unfold EBUSY; intros [= ->]; lia). simpl. lia.
    + exists l', leak. split; [done|]. unfold lost. rewrite H3 by done. done.
  - unfold bind, snd_mixer_free.
    pose proof (on_hctl_ok tt (let* _ := snd_hctl_free in ret tt) frame s (fun _ leak => leak = []) Hat) as H.
    destruct (on_hctl tt _ s) as [[] s'].
    destruct H as (leak & H & ->); [|exists []; split; [exact H|unfold lost; simpl; lia]]. intros t l fr Hok _.
    pose proof (hctl_free_spec me t l fr Hok) as Hf. unfold bind, ret.
    destruct (snd_hctl_free t) as [r t']. exists [], []. done.
Qed.

Lemma run_mops_ok os frame s :
  attached frame s ->
  let '(rs, s') := run_mops os s in exists leak, attached (leak ++ frame) s' /\
    (length leak <= losses mlossy os rs)%nat.
Proof using Hfill OsLaws0.
  revert frame s. induction os as [|o os IH]; intros frame s Hat; cbn [run_mops]; [exists []; done|].
  unfold bind at 1. pose proof (run_mop_ok o frame s Hat) as H1. destruct (run_mop o s) as [r s1].
  destruct H1 as (leak1 & H1 & Hr1). unfold bind, ret. specialize (IH _ _ H1).
  destruct (run_mops os s1) as [rs s2]. destruct IH as (leak2 & H2 & Hr2).
  exists (leak2 ++ leak1). rewrite <- (assoc_L (++)). split; [done|].
  rewrite length_app. unfold lost in Hr1. cbn [losses]. lia.
Qed.
End Life.

Section Session.
Context {K W : Type} `{!Os K, !OsLaws K, !AsyncKernel K, !CardKernel K, !CtlKernel K}.
Context `{!MixerApp K W, !MixerAppLaws K W}.

(** A mixer without a handle, in order. *)
Definition detached (frame : list resource) (s : ms (K := K) (W := W)) : Prop :=
  ms_hctl s = None /\ mixer_ok (ms_mixer s) /\
  held (wld (ms_prc s)) ≡ₚ mixer_held app_held (ms_mixer s) ++ frame.

Definition identity_ms (s : ms (K := K) (W := W)) : Z * snd_ctl_t * gmap Z Z :=
  match ms_hctl s with
  | Some h => (hctl_block h.1, hctl_ctl h.1, ptrs (ms_prc s))
  | None => (0, Ctl 0 0 0 0 0, ∅)
  end.

(** Closing a handle that has just been opened. *)
Lemma close_new_spec frame (s : ms (K := K) (W := W)) h :
  ms_hctl s = None -> ptrs (ms_prc s) !! ctl_async_loc (hctl_ctl h) = None ->
  hctl_ok (hctl_block h, hctl_ctl h, ptrs (ms_prc s)) (HS h ∅ (ms_prc s) (ms_mixer s)) [] (base h ++ frame) ->
  let '(_, s') := with_hctl (h, ∅) snd_hctl_close s in detached frame s'.
Proof.
  intros Hn Hp Hok. unfold with_hctl. cbn [fst snd].
  pose proof (hctl_close_spec _ (HS h ∅ (ms_prc s) (ms_mixer s)) [] frame Hp Hok) as H.
  destruct (snd_hctl_close _) as [r t]. destruct H as (_ & Hl & Hc).
  split; [exact Hn|]. split; [exact Hc|exact Hl].
Qed.

(** A step that changes neither the elements nor the ledger nor what identifies the handle. *)
Lemma hctl_ok_step me (t t' : hs K (mx W)) l fr :
  hctl_ok me t l fr -> elems t' = elems t -> user t' = user t -> ledger t' = ledger t ->
  identity t' = identity t -> first_elem (the_hctl t') = first_elem (the_hctl t) ->
  last_elem (the_hctl t') = last_elem (the_hctl t) -> count (the_hctl t') = count (the_hctl t) ->
  hctl_ok me t' l fr.
Proof.
  intros [A1 A2 A3 A4 A5 A6 A7 A9 AC AM] H1 H2 H3 H4 H5 H6 H7.
  assert (Hb : hctl_block (the_hctl t') = hctl_block (the_hctl t)) by (unfold identity in H4; congruence).
  constructor; rewrite ?H1, ?H2, ?H3, ?H4, ?H5, ?H6, ?H7, ?Hb; done.
Qed.

Lemma nonblock_frame (h : snd_hctl_t) (p : proc K) (u : mx W) m n :
  let '(_, t) := snd_hctl_nonblock n (HS h m p u) in
  the_hctl t = h /\ elems t = m /\ user t = u /\ held (wld (hprc t)) = held (wld p) /\ ptrs (hprc t) = ptrs p.
Proof.
  unfold snd_hctl_nonblock, snd_ctl_nonblock, bind, geth, onhp. cbn [the_hctl hprc].
  rewrite onsys_eq. unfold _snd_set_nonblock, bind, lift, ret.
  destruct (os_getfl _ _) as [fl k]. destruct (fl <? 0); [done|]. cbn [ker].
  destruct (os_setfl _ _ _) as [r k']. done.
Qed.

Lemma attach_spec name frame (s : ms (K := K) (W := W)) :
  detached frame s ->
  let '(r, s') := snd_mixer_attach name s in
  r < 0 /\ detached frame s' \/ r = 0 /\ attached (identity_ms s') frame s'.
Proof.
  intros (Hn & Hok & Hh). unfold snd_mixer_attach, bind at 1, onprc.
  pose proof (hctl_open_spec name 0 (ms_prc s)) as Ho.
  destruct (snd_hctl_open name 0 (ms_prc s)) as [[r [h|]] p1].
  2: { destruct Ho as [Hr Hl]. left. split; [done|]. split; [done|]. split; [done|]. simpl. rewrite Hl. done. }
  destruct Ho as (-> & Hptr & Hnew & Hl). change (0 <? 0) with false. cbv iota.
  set (s1 := MS (ms_mixer s) (ms_hctl s) p1). set (me := (hctl_block h, hctl_ctl h, ptrs p1)).
  assert (Hnew_ok : hctl_ok me (HS h ∅ p1 (ms_mixer s)) [] (base h ++ frame)).
  { constructor; simpl; try (rewrite Hnew; done); try done; try apply NoDup_nil_2.
    - intros a []%elem_of_nil.
    - change (held (wld p1) ≡ₚ mixer_held app_held (ms_mixer s) ++ base h ++ frame).
      rewrite Hl, Hh. unfold base. solve_Permutation. }
  unfold snd_mixer_attach_hctl. unfold bind at 1. cbn [ms_hctl s1]. rewrite Hn.
  rewrite bool_decide_eq_false_2 by (intros [? [=]]). unfold bind at 1, with_hctl at 1.
  cbn [fst snd ms_prc ms_mixer s1]. pose proof (nonblock_frame h p1 (ms_mixer s) ∅ 1) as Hnb.
  destruct (snd_hctl_nonblock 1 _) as [err t]. destruct Hnb as (T1 & T2 & T3 & T4 & T5).
  rewrite T1, T2, T3. cbn [ms_hctl s1].
  set (s2 := MS (ms_mixer s) (ms_hctl s) (hprc t)).
  assert (Hok2 : hctl_ok me (HS h ∅ (hprc t) (ms_mixer s)) [] (base h ++ frame)).
  { apply (hctl_ok_step me _ _ _ _ Hnew_ok); try done. unfold identity. simpl. rewrite T5. done. }
  destruct (Z.ltb_spec err 0) as [He|He].
  - unfold bind. pose proof (close_new_spec frame s2 h Hn) as Hc. unfold s2 at 1 2 3 4 in Hc.
    cbn [ms_prc ms_mixer] in Hc. rewrite T5 in Hc. specialize (Hc Hptr Hok2).
    destruct (with_hctl (h, ∅) snd_hctl_close s2) as [x s3]. left. done.
  - right. split; [done|]. unfold set_hctl, with_hctl, snd_hctl_set_callback, snd_hctl_set_callback_private, seth, bind, ret.
    unfold attached, identity_ms. simpl. eexists _, []. split; [done|]. simpl. split; [rewrite T5; done|].
    apply (hctl_ok_step _ (HS h ∅ (hprc t) (ms_mixer s)) _ _ (base h ++ frame)); try done.
    unfold me in Hok2. rewrite T5. done.
Qed.

(** What the mixer still holds once it is gone. *)
Definition leftover (u : mx W) : list resource :=
  (RMem <$> keys (melems u)) ++ (RMem <$> keys (mitems u)) ++ (RMem <$> keys (dbs u)).

(** Freeing the array and the mixer. *)
Lemma free_mixer_spec frame (s : ms (K := K) (W := W)) :
  ms_hctl s = None -> held (wld (ms_prc s)) ≡ₚ mixer_held app_held (ms_mixer s) ++ frame ->
  let '(r, s') := snd_mixer_close s in
  r = 0 /\ held (wld (ms_prc s')) ≡ₚ leftover (ms_mixer s') ++ app_held (app (ms_mixer s')) ++ frame.
Proof.
  intros Hn Hh. destruct s as [u h [w al so pt]]. cbn [ms_hctl ms_prc ms_mixer wld] in *. subst h.
  set (l := if nz (pelems_block (the_mixer u)) then release (RMem (pelems_block (the_mixer u))) (held w)
            else held w).
  assert (He : snd_mixer_close (MS u None (Proc w al so pt)) =
    (0, MS u None (Proc (World (ker w) (release (RMem (mixer_block (the_mixer u))) l)) al so pt))).
  { unfold snd_mixer_close, l. destruct (nz _); done. }
  rewrite He. cbn [ms_prc ms_mixer wld held]. split; [done|].
  assert (Hl : l ≡ₚ RMem (mixer_block (the_mixer u)) :: leftover u ++ app_held (app u) ++ frame).
  { unfold l. destruct (nz (pelems_block (the_mixer u))) eqn:Hb; rewrite Hh; unfold mixer_held, leftover;
      rewrite Hb; cbn [Datatypes.app].
    - rewrite (Permutation_swap (RMem (pelems_block (the_mixer u)))), release_head. solve_Permutation.
    - solve_Permutation. }
  rewrite Hl, release_head. done.
Qed.

Lemma mixer_close_spec me frame (s : ms (K := K) (W := W)) :
  detached frame s \/ attached me frame s ->
  let '(r, s') := snd_mixer_close s in
  r = 0 /\ held (wld (ms_prc s')) ≡ₚ leftover (ms_mixer s') ++ app_held (app (ms_mixer s')) ++ frame.
Proof.
  intros [(Hn & _ & Hh)|(h & l & Hs & Hp & Hok)]; [apply free_mixer_spec; done|].
  pose proof (hctl_close_spec me (HS h.1 h.2 (ms_prc s) (ms_mixer s)) l frame Hp Hok) as Hc.
  pose proof (free_mixer_spec frame) as Hf. unfold snd_mixer_close in *. rewrite Hs. unfold with_hctl.
  destruct (snd_hctl_close _) as [r t]. destruct Hc as (_ & Hl & _). cbn [snd].
  specialize (Hf (MS (user t) None (hprc t)) eq_refl Hl). exact Hf.
Qed.

(** Without a handle nothing is done. *)
Lemma run_mops_detached os frame (s : ms (K := K) (W := W)) :
  detached frame s -> (run_mops os s).2 = s.
Proof.
  intros (Hn & _). induction os as [|o os IH]; [done|]. cbn [run_mops]. unfold bind at 1.
  assert (Ho : (run_mop o s).2 = s).
  { destruct o; cbn [run_mop]; unfold snd_mixer_load, snd_mixer_handle_events, snd_mixer_free, bind, on_hctl;
      rewrite Hn; done. }
  destruct (run_mop o s) as [r s1]. cbn [snd] in Ho. subst s1. unfold bind, ret.
  destruct (run_mops os s). exact IH.
Qed.

(** Attaching a mixer and using it. *)
Lemma session_reaches name ops frame (s : ms (K := K) (W := W)) :
  fills_list (K := K) -> detached frame s ->
  let '(_, s1) := snd_mixer_attach name s in
  let '(rs, s2) := run_mops ops s1 in
  mixer_ok (ms_mixer s2) /\
  exists leak, (length leak <= losses mlossy ops rs)%nat /\
    (detached (leak ++ frame) s2 \/ attached (identity_ms s1) (leak ++ frame) s2).
Proof.
  intros Hfill H0. pose proof (attach_spec name frame s H0) as Ha. destruct (snd_mixer_attach name s) as [ra s1].
  destruct Ha as [[_ Ha]|[_ Ha]].
  - pose proof (run_mops_detached ops frame s1 Ha) as Hr. destruct (run_mops ops s1) as [rs s2].
    cbn [snd] in Hr. subst s2. split; [apply Ha|]. exists []. split; [simpl; lia|]. auto.
  - pose proof (run_mops_ok (identity_ms s1) Hfill ops frame s1 Ha) as Hr.
    destruct (run_mops ops s1) as [rs s2]. destruct Hr as (leak & Hat & Hl). split.
    + destruct Hat as (h & l & _ & _ & Hok). exact (ok_client _ _ _ _ Hok).
    + exists leak. auto.
Qed.

(** A mixer just opened. *)
Lemma opened_detached mode (w : W) (p : proc K) frame :
  held (wld p) ≡ₚ app_held w ++ frame ->
  let '(r, m, p1) := snd_mixer_open mode p in
  match m with
  | None => r < 0 /\ held (wld p1) = held (wld p)
  | Some m => r = 0 /\ detached frame (MS (MX m ∅ ∅ ∅ w) None p1)
  end.
Proof.
  intros Hp. unfold snd_mixer_open. unfold bind at 1. rewrite onsys_eq. unfold sys_alloc, bind, lift.
  destruct (os_alloc _ _ _) as [[a|] k]; simpl; [|done]. split; [done|].
  split; [done|]. split; [|unfold mixer_held, keys; simpl; rewrite Hp; done].
  split; [constructor; simpl; intros; simplify_map_eq|]. split; [|intros k0 e E H; done].
  constructor; simpl; try lia; try apply NoDup_nil_2. intros e []%elem_of_nil.
Qed.

End Session.

(** ** Witness

    An application that keeps a list of its events, and whose comparison leaves the
    array as it is. *)

Definition log_event (a b : Z) : io (hs Z (mx (list (Z * Z)))) Z := fun s =>
  (0, set_user s (MX (the_mixer (user s)) (melems (user s)) (mitems (user s)) (dbs (user s))
                    (app (user s) ++ [(a, b)]))).

#[export] Instance toy_app : MixerApp Z (list (Z * Z)) := {
  app_mixer_cb _ mask e := log_event mask e;
  app_elem_cb _ e mask := log_event mask e;
  app_hctl_cb _ mask e := log_event mask e;
  app_helem_cb _ e mask := log_event mask e;
  app_qsort _ _ l _ := l
}.

Lemma log_event_keeps a b s :
  client_keeps (mixer_held (fun _ : list (Z * Z) => [])) mixer_ok s (log_event a b s).2.
Proof.
  constructor; try done. intros rest ([] & [] & Hi) H. split; [|exact H].
  split; [constructor; done|]. split; [constructor; done|exact Hi].
Qed.

#[export] Program Instance toy_app_laws : MixerAppLaws Z (list (Z * Z)) := {
  app_held _ := []
}.
Next Obligation. intros. apply log_event_keeps. Qed.
Next Obligation. intros. apply log_event_keeps. Qed.
Next Obligation. intros. apply log_event_keeps. Qed.
Next Obligation. intros. apply log_event_keeps. Qed.
Next Obligation. intros. done. Qed.

Definition toy_mops : list mop :=
  [MLoad 0; MVolume 1000008 false 0 40; MEvents 3; MSwitch 1000008 false 1 1; MFree; MLoad 0].

