(* ===== verification/MixerTidy.v ===== *)
(** * A mixer that gives everything back

    [tidy]: every item is reached from its control element, whose callback is the
    mixer's, and every simple element has an item.  Removing a control element keeps a
    mixer tidy, so that closing a tidy mixer leaves nothing of it (against the
    [leftover] of MixerLife.v).  One item over another breaks it: where a global item
    takes the slot of a capture item, the capture item is lost. *)

From stdpp Require Import gmap.
From S2P Require Import Prelude CInt Sys Cards Async CtlTypes Control ControlSpec Hcontrol.
From S2P Require Import HcontrolSpec HcontrolLife CtlAscii Mixer MixerOk MixerSpec MixerSelem MixerLife Toy.
#[local] Open Scope Z_scope.

Section Tidy.
Context {K W : Type} `{!Os K, !OsLaws K, !AsyncKernel K, !CardKernel K, !CtlKernel K}.
Context `{!MixerApp K W, !MixerAppLaws K W}.

#[local] Abbreviation state := (hs K (mx W)).
#[local] Abbreviation M := (io (hs K (mx W))).

Definition helem_at (m : gmap Z snd_hctl_elem_t) (h : Z) : snd_hctl_elem_t := default zero_elem (m !! h).

(** An item at [i], made for [h], is in a slot of the simple element [h] knows. *)
Definition reached (m : gmap Z snd_hctl_elem_t) (l : list Z) (u : mx W) (i : Z) (it : selem_item) : Prop :=
  i <> 0 /\ helem it ∈ l /\ elem_callback (helem_at m (helem it)) = addr_elem_event_handler /\
  elem_callback_private (helem_at m (helem it)) <> 0 /\
  match melems u !! elem_callback_private (helem_at m (helem it)) with
  | Some e => i ∈ slots e
  | None => False
  end.

(** Where an element's capabilities say that one item serves both directions, it does. *)
Definition both_one (e : snd_mixer_elem_t) (k : Z) : Prop :=
  nz (Z.land (caps e) (shared_bit k)) = true -> slot (2 * k) e <> 0 -> slot (2 * k + 1) e <> 0 ->
  slot (2 * k + 1) e = slot (2 * k) e.

Definition whole_elem (e : snd_mixer_elem_t) : Prop :=
  e_mixer e <> 0 /\ existsb nz (slots e) = true /\ both_one e 0 /\ both_one e 1.

Definition tidy_data (m : gmap Z snd_hctl_elem_t) (l : list Z) (u : mx W) : Prop :=
  map_Forall (reached m l u) (mitems u) /\
  map_Forall (fun i it => map_Forall (fun i' it' => helem it = helem it' -> i = i') (mitems u)) (mitems u) /\
  map_Forall (fun _ e => whole_elem e) (melems u) /\
  map_Forall (fun d _ => real_db d /\
    Exists (fun i => db_info (as_vol (default zero_item (mitems u !! i))) = d) (keys (mitems u))) (dbs u).

Definition tidy (s : state) (l : list Z) : Prop := tidy_data (elems s) l (user s).

(** Nothing is left of an empty list. *)
Lemma tidy_empty s : mixer_ok (user s) -> tidy s [] -> leftover (user s) = [].
Proof.
  intros (Hm & _) (H1 & _ & H3 & H4).
  assert (Hi : mitems (user s) = ∅).
  { apply map_empty. intros i. apply eq_None_not_Some. intros [it Hit].
    destruct (H1 i it Hit) as (_ & Hin & _). inversion Hin. }
  assert (He : melems (user s) = ∅).
  { apply map_empty. intros e. apply eq_None_not_Some. intros [E HE].
    destruct (H3 e E HE) as (_ & Hs & _). apply existsb_exists in Hs as (x & Hx & Hnz%nz_true).
    apply list_elem_of_In, list_elem_of_lookup in Hx as [t Ht].
    assert (Hslot : slot (Z.of_nat t) E = x).
    { unfold slot, nthz. destruct (Z.ltb_spec (Z.of_nat t) 0); [lia|]. rewrite Nat2Z.id.
      apply nth_lookup_Some. done. }
    destruct (mo_live _ Hm e E (Z.of_nat t) HE) as (it & Hit & _); [congruence|].
    rewrite Hi in Hit. done. }
  assert (Hd : dbs (user s) = ∅).
  { apply map_empty. intros d. apply eq_None_not_Some. intros [x Hx].
    destruct (H4 d x Hx) as (_ & (i & Hin & _)%Exists_exists). rewrite Hi in Hin. unfold keys in Hin.
    rewrite map_to_list_empty in Hin. inversion Hin. }
  unfold leftover, keys. rewrite Hi, He, Hd, !map_to_list_empty. done.
Qed.

(** ** Dropping an item *)

(** What tidiness reads of an element. *)
Definition core (e : snd_mixer_elem_t) : list Z * Z * Z := (slots e, caps e, e_mixer e).

Definition same_core (m m' : gmap Z snd_mixer_elem_t) : Prop := forall a, core <$> m' !! a = core <$> m !! a.

Lemma same_core_alter f a m : (forall e, core (f e) = core e) -> same_core m (alter f a m).
Proof.
  intros Hf b. destruct (decide (a = b)) as [->|Hne].
  - rewrite lookup_alter_eq. destruct (m !! b); simpl; [rewrite Hf|]; done.
  - rewrite lookup_alter_ne; done.
Qed.

Lemma same_core_trans m1 m2 m3 : same_core m1 m2 -> same_core m2 m3 -> same_core m1 m3.
Proof. intros H1 H2 a. rewrite H2, H1. done. Qed.

Lemma same_core_reindex k l m : same_core m (reindex k l m).
Proof.
  revert k m. induction l as [|a l IH]; intros k m; simpl; [done|].
  eapply same_core_trans; [|apply IH]. apply same_core_alter. done.
Qed.

Lemma same_core_delete a m m' : same_core m m' -> same_core (delete a m) (delete a m').
Proof.
  intros H b. destruct (decide (a = b)) as [->|Hne]; [rewrite !lookup_delete_eq; done|].
  rewrite !lookup_delete_ne by done. apply H.
Qed.

Lemma whole_core e e' : core e' = core e -> whole_elem e -> whole_elem e'.
Proof.
  unfold core, whole_elem, both_one, slot. intros [= -> -> ->]. done.
Qed.

(** Tidiness over other elements of the same core, items and the handle's elements alike. *)
Lemma tidy_data_core m m' l (u u' : mx W) :
  same_core (melems u) (melems u') -> mitems u' = mitems u -> dbs u' = dbs u ->
  (forall h, h ∈ l -> helem_at m' h = helem_at m h \/
     (elem_callback (helem_at m' h) = elem_callback (helem_at m h) /\
      elem_callback_private (helem_at m' h) = elem_callback_private (helem_at m h))) ->
  tidy_data m l u -> tidy_data m' l u'.
Proof.
  intros Hc Hi Hd Hm (H1 & H2 & H3 & H4). unfold tidy_data. rewrite Hi, Hd. split; [|split; [done|split; [|done]]].
  - intros i it Hit. destruct (H1 i it Hit) as (A1 & A2 & A3 & A4 & A5).
    assert (Hcp : elem_callback (helem_at m' (helem it)) = elem_callback (helem_at m (helem it)) /\
      elem_callback_private (helem_at m' (helem it)) = elem_callback_private (helem_at m (helem it))).
    { destruct (Hm _ A2) as [->|]; done. }
    destruct Hcp as [Hcb Hpr]. unfold reached. rewrite Hcb, Hpr. repeat (split; [done|]).
    specialize (Hc (elem_callback_private (helem_at m (helem it)))).
    destruct (melems u !! _) as [E|], (melems u' !! _) as [E'|]; try done.
    simpl in Hc. injection Hc as Hs _ _. rewrite Hs. exact A5.
  - intros a E HE. specialize (Hc a). rewrite HE in Hc. destruct (melems u !! a) as [E0|] eqn:H0; [|done].
    simpl in Hc. injection Hc as Hs Hcap Hmx. apply (whole_core E0); [|exact (H3 a E0 H0)].
    unfold core. congruence.
Qed.

(** The slots without [i]. *)
Definition wipe (i : Z) : snd_mixer_elem_t -> snd_mixer_elem_t :=
  set_slots (map (fun x => if x =? i then 0 else x)).

Lemma slot_wipe i t e : i <> 0 -> slot t (wipe i e) = if slot t e =? i then 0 else slot t e.
Proof.
  intros Hi. unfold slot, nthz, wipe. simpl. destruct (t <? 0).
  - destruct (Z.eqb_spec 0 i); [lia|done].
  - rewrite <- (map_nth (fun x => if x =? i then 0 else x)). destruct (Z.eqb_spec 0 i); [lia|done].
Qed.

Lemma wiped_in i x e : x <> i -> x ∈ slots e -> x ∈ slots (wipe i e).
Proof.
  intros Hx Hin. simpl. apply list_elem_of_fmap. exists x. split; [|done].
  destruct (Z.eqb_spec x i); done.
Qed.

Lemma existsb_in l x : x <> 0 -> x ∈ l -> existsb nz l = true.
Proof. intros Hx Hin. apply existsb_exists. exists x. split; [apply list_elem_of_In; done|apply nz_true; done]. Qed.

Lemma both_one_wipe i e k : i <> 0 -> both_one e k -> both_one (wipe i e) k.
Proof.
  intros Hi H. unfold both_one in *. rewrite !slot_wipe by done. change (caps (wipe i e)) with (caps e).
  intros Hb. specialize (H Hb). destruct (Z.eqb_spec (slot (2 * k) e) i) as [|Hne]; [done|].
  destruct (Z.eqb_spec (slot (2 * k + 1) e) i) as [|Hne']; [done|]. auto.
Qed.

(** The data without the item [i], and without its element where nothing is left of it. *)
Definition drop_melems (i e : Z) (E : snd_mixer_elem_t) (m : gmap Z snd_mixer_elem_t) : gmap Z snd_mixer_elem_t :=
  let m1 := alter (wipe i) e m in
  if existsb nz (slots (wipe i E)) then m1 else delete e m1.

Definition drop_dbs (d : Z) (m : gmap Z (list Z)) : gmap Z (list Z) :=
  if nz d && negb (d =? INVALID_DB_INFO) then delete d m else m.

Lemma tidy_drop m l (u u' : mx W) i it e E :
  tidy_data m l u -> mem_ok u -> mitems u !! i = Some it ->
  e = elem_callback_private (helem_at m (helem it)) -> melems u !! e = Some E ->
  same_core (drop_melems i e E (melems u)) (melems u') -> mitems u' = delete i (mitems u) ->
  dbs u' = drop_dbs (db_info (as_vol it)) (dbs u) ->
  tidy_data m l u' /\ forall j jt, mitems u' !! j = Some jt -> helem jt <> helem it.
Proof.
  intros (H1 & H2 & H3 & H4) Hmem Hit -> HE Hcore Hi Hd.
  set (e := elem_callback_private _) in *. assert (Hi0 : i <> 0) by apply (H1 i it Hit).
  assert (Hother : forall j jt, mitems u' !! j = Some jt -> j <> i /\ mitems u !! j = Some jt /\ helem jt <> helem it).
  { rewrite Hi. intros j jt [Hne Hj]%lookup_delete_Some. split; [done|]. split; [done|].
    intros Heq. apply Hne. symmetry. apply (H2 j jt Hj i it Hit Heq). }
  split; [|intros j jt Hj; apply (Hother j jt Hj)].
  set (u1 := MX (the_mixer u) (drop_melems i e E (melems u)) (mitems u') (dbs u') (app u)).
  apply (tidy_data_core m m l u1 u'); try done; [intros h _; left; done|].
  split; [|split; [|split]]; unfold u1; cbn [melems mitems dbs].
  - intros j jt Hj. destruct (Hother j jt Hj) as (Hne & Hj0 & Hh).
    destruct (H1 j jt Hj0) as (A1 & A2 & A3 & A4 & A5). repeat (split; [done|]).
    destruct (melems u !! elem_callback_private (helem_at m (helem jt))) as [E'|] eqn:HE'; [|done].
    cbn [melems]. unfold drop_melems.
    destruct (decide (elem_callback_private (helem_at m (helem jt)) = e)) as [He|He].
    + rewrite He in *. rewrite HE in HE'. injection HE' as <-.
      assert (Hin : j ∈ slots (wipe i E)) by (apply wiped_in; done).
      rewrite (existsb_in _ j A1 Hin), lookup_alter_eq, HE. exact Hin.
    + destruct (existsb _ _); rewrite ?lookup_delete_ne by congruence;
        rewrite lookup_alter_ne by congruence; rewrite HE'; exact A5.
  - intros j jt Hj j' jt' Hj' Heq. destruct (Hother j jt Hj) as (_ & Hj0 & _).
    destruct (Hother j' jt' Hj') as (_ & Hj0' & _). exact (H2 j jt Hj0 j' jt' Hj0' Heq).
  - assert (Hw : forall a E', a <> e -> melems u !! a = Some E' -> whole_elem E') by (intros; eapply H3; done).
    intros a E' HE'. unfold drop_melems in HE'. destruct (existsb nz (slots (wipe i E))) eqn:Hex.
    + apply lookup_alter_inv in HE' as (E0 & H0 & ->). destruct (decide (e = a)) as [<-|]; [|eauto].
      rewrite HE in H0. injection H0 as <-. destruct (H3 e E HE) as (B1 & _ & B3 & B4).
      split; [done|]. split; [done|]. split; apply both_one_wipe; done.
    + apply lookup_delete_Some in HE' as [Hne HE']. rewrite lookup_alter_ne in HE' by done. eauto.
  - intros d x. rewrite Hd. intros Hx.
    assert (Hx0 : dbs u !! d = Some x /\ (real_db (db_info (as_vol it)) -> d <> db_info (as_vol it))).
    { unfold drop_dbs in Hx. destruct (nz _ && _) eqn:Hreal.
      - apply lookup_delete_Some in Hx as [Hne Hx]. split; [done|]. congruence.
      - split; [done|]. intros [Hr1 Hr2]. rewrite (proj2 (nz_true _) Hr1) in Hreal.
        destruct (Z.eqb_spec (db_info (as_vol it)) INVALID_DB_INFO); done. }
    destruct Hx0 as [Hx0 Hnd]. 
    destruct (H4 d x Hx0) as (Hrd & (j & Hj & Hdj)%Exists_exists). split; [done|].
    apply Exists_exists. exists j. rewrite Hi. apply keys_in in Hj as [jt Hj]. rewrite Hj in Hdj. cbn [default id] in Hdj.
    assert (Hji : j <> i).
    { intros ->. rewrite Hit in Hj. injection Hj as <-. apply Hnd; [rewrite Hdj|]; done. }
    split; [apply keys_in; rewrite lookup_delete_ne by done; eauto|].
    rewrite lookup_delete_ne, Hj by done. exact Hdj.
Qed.

(** ** Removing a control element *)

Lemma slots_ext a b :
  length (slots a) = 5%nat -> length (slots b) = 5%nat ->
  (forall t, 0 <= t < 5 -> slot t a = slot t b) -> slots a = slots b.
Proof.
  intros Ha Hb H. apply list_eq. intros i. destruct (Nat.lt_ge_cases i 5) as [Hi|Hi].
  - destruct (lookup_lt_is_Some_2 (slots a) i) as [x Hx]; [lia|].
    destruct (lookup_lt_is_Some_2 (slots b) i) as [y Hy]; [lia|].
    specialize (H (Z.of_nat i) ltac:(lia)). unfold slot, nthz in H.
    destruct (Z.ltb_spec (Z.of_nat i) 0); [lia|]. rewrite Nat2Z.id in H.
    rewrite (nth_lookup_Some _ _ 0 x Hx), (nth_lookup_Some _ _ 0 y Hy) in H. congruence.
  - rewrite !lookup_ge_None_2 by lia. done.
Qed.

(** The element whose slot [t] and, for a common item, other direction's slot are empty. *)
Definition empty_slot (t : Z) : snd_mixer_elem_t -> snd_mixer_elem_t := set_slots (upd t (fun _ => 0)).

Definition cleared (t : Z) (E : snd_mixer_elem_t) : snd_mixer_elem_t :=
  if (t =? ITEM_PVOLUME) && nz (Z.land (caps E) CAP_GVOLUME) then empty_slot ITEM_CVOLUME (empty_slot t E)
  else if (t =? ITEM_PSWITCH) && nz (Z.land (caps E) CAP_GSWITCH) then empty_slot ITEM_CSWITCH (empty_slot t E)
  else empty_slot t E.

(** A slot of it is as it was, or empty, and it was empty or led to the item. *)
Lemma cleared_slot t E i t' :
  length (slots E) = 5%nat -> slot t E = i -> i <> 0 -> 0 <= t < 5 -> both_one E 0 -> both_one E 1 ->
  slot t' (cleared t E) = slot t' E \/
  slot t' (cleared t E) = 0 /\ (slot t' E = 0 \/ slot t' E = i).
Proof.
  intros Hlen Hs Hnz Ht Hb0 Hb1.
  assert (Hcl : forall t0 x, 0 <= t0 < 5 -> length (slots x) = 5%nat -> forall t',
    slot t' (empty_slot t0 x) = if decide (t' = t0) then 0 else slot t' x) by (intros; apply slot_upd; done).
  assert (Hl1 : length (slots (empty_slot t E)) = 5%nat) by (simpl; rewrite length_upd; done).
  unfold cleared. destruct ((t =? ITEM_PVOLUME) && _) eqn:Hc1; [|destruct ((t =? ITEM_PSWITCH) && _) eqn:Hc2].
  - apply andb_true_iff in Hc1 as [->%Z.eqb_eq Hcap]. rewrite Hcl by (try done; unfold ITEM_CVOLUME; lia).
    destruct (decide (t' = ITEM_CVOLUME)) as [->|]; [right; split; [done|]|].
    + destruct (Z.eq_dec (slot ITEM_CVOLUME E) 0); [auto|]. right. rewrite <- Hs. apply (Hb0 Hcap); [|done].
      change (2 * 0) with ITEM_PVOLUME. congruence.
    + rewrite Hcl by done. destruct (decide (t' = ITEM_PVOLUME)) as [->|]; auto.
  - apply andb_true_iff in Hc2 as [->%Z.eqb_eq Hcap]. rewrite Hcl by (try done; unfold ITEM_CSWITCH; lia).
    destruct (decide (t' = ITEM_CSWITCH)) as [->|]; [right; split; [done|]|].
    + destruct (Z.eq_dec (slot ITEM_CSWITCH E) 0); [auto|]. right. rewrite <- Hs. apply (Hb1 Hcap); [|done].
      change (2 * 1) with ITEM_PSWITCH. congruence.
    + rewrite Hcl by done. destruct (decide (t' = ITEM_PSWITCH)) as [->|]; auto.
  - rewrite Hcl by done. destruct (decide (t' = t)) as [->|]; auto.
Qed.

Lemma clear_slots_run e t E (s : state) :
  melems (user s) !! e = Some E ->
  melems (user (clear_slots e t s).2) !! e = Some (cleared t E) /\
  (forall a, a <> e -> melems (user (clear_slots e t s).2) !! a = melems (user s) !! a) /\
  dbs (user (clear_slots e t s).2) = dbs (user s).
Proof.
  intros He. unfold cleared, clear_slots. rewrite run_getx, He. cbn [default id]. unfold bind.
  destruct (_ && _); [|destruct (_ && _)]; simpl; rewrite ?lookup_alter_eq, He;
    (split; [done|split; [|done]]); intros a Ha; rewrite ?lookup_alter_ne by done; done.
Qed.

(** Clearing the slots of an item, in the slot [t] and perhaps in the other direction's,
    takes it out of all the slots and takes nothing else out. *)
Lemma clear_slots_exact e t E i rest (s : state) :
  good rest s -> melems (user s) !! e = Some E -> slot t E = i -> i <> 0 -> 0 <= t < 5 ->
  (forall t', 0 <= t' < t -> slot t' E <> i) -> both_one E 0 -> both_one E 1 ->
  exists E1, melems (user (clear_slots e t s).2) !! e = Some E1 /\ core E1 = core (wipe i E) /\
    (forall a, a <> e -> melems (user (clear_slots e t s).2) !! a = melems (user s) !! a) /\
    mitems (user (clear_slots e t s).2) = mitems (user s) /\ dbs (user (clear_slots e t s).2) = dbs (user s).
Proof.
  intros Hg He Hs Hnz Ht Hfirst Hb0 Hb1.
  destruct (clear_slots_good e t E i rest s Hg He Hs Hnz Ht Hfirst) as (_ & Hun & Hmi & _).
  assert (Hlen : length (slots E) = 5%nat) by apply (mo_slots _ (proj1 (proj1 Hg)) e E He).
  destruct (clear_slots_run e t E s He) as (Hm1 & Hm2 & Hm3).
  exists (cleared t E). split; [exact Hm1|]. split; [|done].
  assert (Hslots : forall t', 0 <= t' < 5 -> slot t' (cleared t E) = slot t' (wipe i E)).
  { intros t' Ht'. rewrite slot_wipe by done.
    assert (Hne : slot t' (cleared t E) <> i) by (apply (Hun e _ t'); exact Hm1).
    pose proof (cleared_slot t E i t' Hlen Hs Hnz Ht Hb0 Hb1) as Hcase.
    destruct (Z.eqb_spec (slot t' E) i) as [Heq|Hni]; [|destruct Hcase as [->|[-> [->|Hx]]]; done].
    destruct Hcase as [Hx|[Hx _]]; [congruence|done]. }
  unfold core. f_equal; [f_equal|].
  - apply slots_ext; [|simpl; rewrite length_map; done|done].
    unfold cleared. destruct (_ && _); [|destruct (_ && _)]; simpl; rewrite !length_upd; done.
  - unfold cleared. destruct (_ && _); [|destruct (_ && _)]; done.
  - unfold cleared. destruct (_ && _); [|destruct (_ && _)]; done.
Qed.

(** Only volumes own decibel data. *)
Lemma no_db_above e t E i it (u : mx W) :
  mem_ok u -> melems u !! e = Some E -> slot t E = i -> i <> 0 -> mitems u !! i = Some it ->
  ITEM_CVOLUME < t -> ~ real_db (db_info (as_vol it)).
Proof.
  intros Hm He Hs Hnz Hit Hle. destruct (mo_live _ Hm e E t He) as (it' & Hit' & Hk); [congruence|].
  rewrite Hs, Hit in Hit'. injection Hit' as <-.
  unfold slot_kind, ITEM_CVOLUME in *. unfold as_vol. destruct (body it); try apply not_real_db0.
  simpl in Hk. assert (2 / 2 <= t / 2) by (apply Z.div_le_mono; lia). change (2 / 2) with 1 in *. lia.
Qed.

Lemma free_item_db_exact t i it (s : state) :
  mitems (user s) !! i = Some it -> (ITEM_CVOLUME < t -> ~ real_db (db_info (as_vol it))) ->
  user (free_item_db t i s).2 =
    MX (the_mixer (user s)) (melems (user s)) (delete i (mitems (user s)))
       (drop_dbs (db_info (as_vol it)) (dbs (user s))) (app (user s)) /\
  elems (free_item_db t i s).2 = elems s.
Proof.
  intros Hit Hkind. unfold free_item_db. rewrite run_geti, Hit. cbn [default id].
  unfold drop_dbs, release_db. destruct (Z.leb_spec t ITEM_CVOLUME) as [Hle|Hgt].
  - destruct (_ && _); done.
  - destruct (nz _ && _) eqn:Hr; [|done]. exfalso. apply (Hkind Hgt).
    apply andb_true_iff in Hr as [Hr1%nz_true Hr2]. split; [done|].
    destruct (Z.eqb_spec (db_info (as_vol it)) INVALID_DB_INFO); done.
Qed.

(** Neither clearing slots nor taking an element out of the array touches hcontrol's list. *)
Lemma clear_slots_elems e t (s : state) : elems (clear_slots e t s).2 = elems s.
Proof. unfold clear_slots. rewrite run_getx. unfold bind. destruct (_ && _); [|destruct (_ && _)]; done. Qed.

Lemma shift_loop_elems js (s : state) : elems (shift_loop js s).2 = elems s.
Proof. revert s. induction js as [|j js IH]; intros s; [done|]. rewrite shift_step, IH. done. Qed.

Lemma remove_loop_elems e ns (s : state) : elems (remove_loop e ns s).2 = elems s.
Proof.
  revert s. induction ns as [|k ns IH]; intros s; [done|]. cbn [remove_loop].
  rewrite run_pelem. destruct (_ =? e); [|apply IH]. rewrite run_setm. rewrite shift_loop_elems. done.
Qed.

(** What is left when an item and, where it was its last, its element are gone. *)
Lemma drop_item_exact e t E i it rest (s : state) :
  good rest s -> melems (user s) !! e = Some E -> slot t E = i -> i <> 0 -> 0 <= t < 5 ->
  (forall t', 0 <= t' < t -> slot t' E <> i) -> both_one E 0 -> both_one E 1 ->
  mitems (user s) !! i = Some it ->
  let s' := (drop_item e t i true s).2 in
  same_core (drop_melems i e E (melems (user s))) (melems (user s')) /\
  mitems (user s') = delete i (mitems (user s)) /\
  dbs (user s') = drop_dbs (db_info (as_vol it)) (dbs (user s)) /\ elems s' = elems s.
Proof.
  intros Hg He Hs Hnz Ht Hfirst Hb0 Hb1 Hit. cbn zeta.
  destruct (drop_item e t i true s) as [r s'] eqn:Hrun. cbn [snd]. unfold drop_item, bind at 1 in Hrun.
  destruct (clear_slots_exact e t E i rest s Hg He Hs Hnz Ht Hfirst Hb0 Hb1) as (E1 & HE1 & Hcore & Hoth & Hmi & Hdb).
  destruct (clear_slots_good e t E i rest s Hg He Hs Hnz Ht Hfirst) as (Hg1 & Hun & _ & _).
  pose proof (clear_slots_elems e t s) as Hel.
  destruct (clear_slots e t s) as [[] s1]. cbn [snd] in *. unfold bind at 1 in Hrun.
  pose proof (no_db_above e t E i it (user s) (proj1 (proj1 Hg)) He Hs Hnz Hit) as Hkind.
  assert (Hfree : user (free_item_db t i s1).2 =
    MX (the_mixer (user s1)) (melems (user s1)) (delete i (mitems (user s1)))
       (drop_dbs (db_info (as_vol it)) (dbs (user s1))) (app (user s1)) /\
    elems (free_item_db t i s1).2 = elems s1) by (apply free_item_db_exact; [rewrite Hmi|]; done).
  rewrite <- Hmi in Hit. destruct (free_item_db_good t i rest s1 it Hg1 Hit Hun Hkind) as [Hg2 _].
  destruct (free_item_db t i s1) as [[] s2]. destruct Hfree as [Hu2 He2]. cbn [snd negb] in *.
  rewrite run_getx, Hu2 in Hrun. cbn [melems] in Hrun. rewrite HE1 in Hrun. cbn [default id] in Hrun.
  assert (Hsl : slots E1 = slots (wipe i E)) by (unfold core in Hcore; congruence). rewrite Hsl in Hrun.
  assert (Hc1 : same_core (alter (wipe i) e (melems (user s))) (melems (user s1))).
  { intros a. destruct (decide (a = e)) as [->|Hne].
    - rewrite HE1, lookup_alter_eq, He. simpl. rewrite Hcore. done.
    - rewrite Hoth, lookup_alter_ne; done. }
  unfold drop_melems. destruct (existsb nz (slots (wipe i E))).
  - injection Hrun as _ <-. rewrite Hu2. cbn [melems mitems dbs]. rewrite Hmi, Hdb, He2. done.
  - unfold bind at 1, remove_mixer_elem in Hrun. rewrite run_getm in Hrun. unfold bind at 1 in Hrun.
    destruct (remove_loop_good e (Z.to_nat (m_count (the_mixer (user s2)))) 0 rest s2 Hg2)
      as (_ & _ & l & n & H3 & H4 & H5).
    { lia. }
    { destruct Hg2 as [(_ & [C1 _ _ _] & _) _]. lia. }
    { change (Z.to_nat 0) with 0%nat. rewrite take_0. apply not_elem_of_nil. }
    pose proof (remove_loop_elems e (zseq 0 (Z.to_nat (m_count (the_mixer (user s2))))) s2) as He3.
    destruct (remove_loop e _ s2) as [[] s3]. cbn [snd] in *. injection Hrun as _ <-. simpl.
    rewrite H3, H4, H5, He3, Hu2. cbn [melems mitems dbs]. rewrite Hmi, Hdb, He2. split; [|done].
    apply same_core_delete. eapply same_core_trans; [exact Hc1|]. apply same_core_reindex.
Qed.

(** The walk finds the first slot whose item is the control element's, if there is one. *)
Lemma remove_item_loop_case e hp n i b (s : state) :
  mem_ok (user s) -> 0 <= i -> i + Z.of_nat n = 5 ->
  (forall t E it, 0 <= t < i -> melems (user s) !! e = Some E -> mitems (user s) !! slot t E = Some it ->
     slot t E <> 0 -> helem it <> hp) ->
  (exists t E it, melems (user s) !! e = Some E /\ slot t E <> 0 /\ 0 <= t < 5 /\
     (forall t', 0 <= t' < t -> slot t' E <> slot t E) /\ mitems (user s) !! slot t E = Some it /\
     helem it = hp /\ remove_item_loop e hp (zseq i n) b s = drop_item e t (slot t E) b s) \/
  ((remove_item_loop e hp (zseq i n) b s).2 = s /\
   forall t E it, 0 <= t < 5 -> melems (user s) !! e = Some E -> mitems (user s) !! slot t E = Some it ->
     slot t E <> 0 -> helem it <> hp).
Proof.
  intros Hm. revert i. induction n as [|n IH]; intros i Hi Hn Hpre; cbn [zseq remove_item_loop].
  { right. split; [done|]. intros t E it Ht. apply Hpre. lia. }
  rewrite run_getx. set (E0 := default zero_melem (melems (user s) !! e)).
  destruct (Z.eqb_spec (slot i E0) 0) as [Hz|Hnz].
  - apply IH; [lia|lia|]. intros t E it Ht He Hit Hnz. unfold E0 in Hz. rewrite He in Hz.
    apply (Hpre t E it); try done. assert (t <> i) by (intros ->; done). lia.
  - destruct (slot_live (user s) e i Hm Hnz) as (E & it & He & Hit & Hnz' & Hr & Hk).
    assert (HE0 : E0 = E) by (unfold E0; rewrite He; done). clearbody E0. subst E0.
    rewrite run_geti, Hit. cbn [default id].
    destruct (Z.eqb_spec (helem it) hp) as [Hh|Hh]; cbn [negb].
    + left. exists i, E, it. repeat (split; [done|]). split; [|done]. intros t Ht Heq.
      apply (Hpre t E it Ht He); rewrite ?Heq; done.
    + apply IH; [lia|lia|]. intros t E' it' Ht He' Hit' Hnz2. rewrite He in He'. injection He' as <-.
      destruct (decide (t = i)) as [->|Hti]; [congruence|]. apply (Hpre t E it'); try done. lia.
Qed.

Lemma in_slot (E : snd_mixer_elem_t) x :
  length (slots E) = 5%nat -> x ∈ slots E -> exists t, 0 <= t < 5 /\ slot t E = x.
Proof.
  intros Hl [t Ht]%list_elem_of_lookup. exists (Z.of_nat t). pose proof (lookup_lt_Some _ _ _ Ht).
  split; [lia|]. unfold slot, nthz. destruct (Z.ltb_spec (Z.of_nat t) 0); [lia|]. rewrite Nat2Z.id.
  apply nth_lookup_Some. done.
Qed.

(** Removing a control element's item keeps the mixer tidy and leaves no item of it. *)
Lemma remove_simple_tidy hp l rest (s : state) :
  good rest s -> tidy s l ->
  let s' := (remove_simple_element hp true s).2 in
  tidy s' l /\ elems s' = elems s /\
  (forall i it, mitems (user s') !! i = Some it -> helem it <> hp).
Proof.
  intros Hg Htidy. cbn zeta. unfold remove_simple_element, snd_hctl_elem_get_callback_private.
  unfold bind, gete, ret. change item_types with (zseq 0 5).
  set (e := elem_callback_private _). pose proof Htidy as (T1 & T2 & T3 & T4).
  assert (Hmem : mem_ok (user s)) by apply Hg.
  destruct (remove_item_loop_case e hp 5 0 true s Hmem) as [H|[Hs Hno]]; [lia|done|intros t E it Ht; lia|..].
  - destruct H as (t & E & it & He & Hnz & Ht & Hfirst & Hit & Hh & ->).
    destruct (T3 e E He) as (_ & _ & Hb0 & Hb1).
    destruct (drop_item_exact e t E (slot t E) it rest s Hg He eq_refl Hnz Ht Hfirst Hb0 Hb1 Hit)
      as (D1 & D2 & D3 & D4).
    destruct (tidy_drop (elems s) l (user s) (user (drop_item e t (slot t E) true s).2) (slot t E) it e E)
      as [HT Hno]; try done; [rewrite Hh; done|]. unfold tidy. rewrite D4, <- Hh. done.
  - rewrite Hs. split; [done|]. split; [done|]. intros i it Hit Hh.
    destruct (T1 i it Hit) as (A1 & _ & _ & _ & A5). rewrite Hh in A5.
    change (elem_callback_private (helem_at (elems s) hp)) with e in A5.
    destruct (melems (user s) !! e) as [E|] eqn:He; [|done].
    destruct (in_slot E i (proj1 (mo_slots _ Hmem e E He)) A5) as (t & Ht & Hs').
    apply (Hno t E it Ht eq_refl); congruence.
Qed.

(** ** Closing *)

(** The application's callbacks leave the mixer's data and the handle's elements alone
    and report no error. *)
Definition keeps_data (s s' : state) : Prop :=
  elems s' = elems s /\ melems (user s') = melems (user s) /\ mitems (user s') = mitems (user s) /\
  dbs (user s') = dbs (user s).

Definition app_quiet : Prop := forall (s : state) cb e mask,
  0 <= (app_elem_cb cb e mask s).1 /\ keeps_data s (app_elem_cb cb e mask s).2 /\
  keeps_data s (app_helem_cb cb e mask s).2.

Lemma tidy_same s s' l : keeps_data s s' -> tidy s l -> tidy s' l.
Proof.
  intros (H1 & H2 & H3 & H4) Ht. unfold tidy. rewrite H1.
  apply (tidy_data_core (elems s) (elems s) l (user s)); try done; [intros a; rewrite H2; done|].
  intros h _. left. done.
Qed.

Context (Happ : app_quiet).

(** The element that a control element knows. *)
Definition simple_of (s : state) (hp : Z) : Z := elem_callback_private (helem_at (elems s) hp).

Lemma remove_event_eq hp (s : state) :
  hctl_elem_event_handler hp MASK_REMOVE s =
  let e := simple_of s hp in
  if e =? 0 then (0, s)
  else if e_mixer (default zero_melem (melems (user s) !! e)) =? 0 then (0, s)
  else let '(err, s1) := _snd_mixer_elem_throw_event e MASK_REMOVE s in
       if err <? 0 then (err, s1) else (0, (remove_simple_element hp true s1).2).
Proof.
  unfold hctl_elem_event_handler, simple_of, helem_at, snd_hctl_elem_get_callback_private.
  unfold bind at 1 2. unfold gete, ret at 1. cbv zeta beta iota.
  destruct (_ =? 0); [done|]. rewrite run_getx. destruct (e_mixer _ =? 0); [done|].
  change (MASK_REMOVE =? MASK_REMOVE) with true. cbv iota. unfold bind at 1.
  destruct (_snd_mixer_elem_throw_event _ _ s) as [err s1]. destruct (err <? 0); [done|].
  unfold bind, ret. destruct (remove_simple_element hp true s1). done.
Qed.

Lemma elem_throw_keeps_data e mask (s : state) :
  0 <= (_snd_mixer_elem_throw_event e mask s).1 /\ keeps_data s (_snd_mixer_elem_throw_event e mask s).2.
Proof using Happ.
  destruct (_snd_mixer_elem_throw_event e mask s) as [r s'] eqn:Hrun. cbn [fst snd].
  unfold _snd_mixer_elem_throw_event in Hrun. unfold bind at 1 in Hrun. unfold count_event, setm, setu in Hrun.
  set (s1 := HS _ _ _ _) in Hrun. assert (H1 : keeps_data s s1) by done. clearbody s1.
  rewrite run_getx in Hrun. destruct (nz _); [|injection Hrun as <- <-; done].
  destruct (Happ s1 (m_callback (default zero_melem (melems (user s1) !! e))) e mask) as (H2 & H3 & _).
  rewrite Hrun in H2, H3. cbn [fst snd] in *. split; [done|].
  destruct H1 as (A1 & A2 & A3 & A4), H3 as (B1 & B2 & B3 & B4). unfold keeps_data. repeat split; congruence.
Qed.

(** No item of an element is left whose callback leads to nothing. *)
Lemma reached_simple s l hp :
  tidy s l -> simple_of s hp = 0 \/ melems (user s) !! simple_of s hp = None ->
  forall i it, mitems (user s) !! i = Some it -> helem it <> hp.
Proof.
  intros (T1 & _) Hor i it Hit Hh. destruct (T1 i it Hit) as (_ & _ & _ & A4 & A5). rewrite Hh in A4, A5.
  fold (simple_of s hp) in A4, A5. destruct Hor as [Hn|Hn]; [|rewrite Hn in A5]; done.
Qed.

Lemma remove_event_tidy hp l rest (s : state) :
  good rest s -> tidy s l ->
  let s' := (hctl_elem_event_handler hp MASK_REMOVE s).2 in
  tidy s' l /\ elems s' = elems s /\
  forall i it, mitems (user s') !! i = Some it -> helem it <> hp.
Proof using Happ OsLaws0.
  intros Hg Htidy. cbn zeta. rewrite remove_event_eq. cbv zeta. pose proof Htidy as (T1 & T2 & T3 & T4).
  destruct (Z.eqb_spec (simple_of s hp) 0) as [He0|He0].
  { split; [done|]. split; [done|]. apply (reached_simple s l); auto. }
  destruct (melems (user s) !! simple_of s hp) as [E|] eqn:HE.
  2: { simpl. split; [done|]. split; [done|]. apply (reached_simple s l); auto. }
  cbn [default id]. destruct (Z.eqb_spec (e_mixer E) 0) as [Hm|Hm]; [destruct (T3 _ E HE); done|].
  destruct (elem_throw_keeps_data (simple_of s hp) MASK_REMOVE s) as [H1 H2].
  pose proof (elem_throw_good (simple_of s hp) MASK_REMOVE rest s Hg) as H3.
  destruct (_snd_mixer_elem_throw_event _ _ s) as [err s1]. cbn [fst snd] in *.
  destruct (Z.ltb_spec err 0); [lia|]. cbn [snd].
  destruct (remove_simple_tidy hp l rest s1 H3 (tidy_same s s1 l H2 Htidy)) as (R1 & R2 & R3).
  split; [done|]. split; [|done]. rewrite R2. apply H2.
Qed.

(** The element goes once nothing is left of it. *)
Lemma tidy_shrink s l a m h p :
  tidy s (l ++ [a]) -> (forall i it, mitems (user s) !! i = Some it -> helem it <> a) ->
  m = delete a (elems s) -> tidy (HS h m p (user s)) l.
Proof.
  intros (T1 & T2 & T3 & T4) Hno ->. split; [|done]. intros i it Hit. cbn [elems user] in *.
  destruct (T1 i it Hit) as (A1 & A2 & A3). pose proof (Hno i it Hit) as Hne.
  apply elem_of_app in A2 as [A2|A2%list_elem_of_singleton]; [|done].
  unfold reached, helem_at in *. rewrite lookup_delete_ne by done. done.
Qed.

(** What a removal does not change of the elements' callbacks. *)
Lemma del_list_tidy me s l a frame :
  hctl_ok me s (l ++ [a]) frame -> tidy s (l ++ [a]) ->
  tidy (del_elem_list a s).2 (l ++ [a]) /\ user (del_elem_list a s).2 = user s.
Proof.
  intros Hok Ht. destruct (seg_in _ _ _ _ a (ok_seg _ _ _ _ Hok)) as [e He]; [set_solver|].
  rewrite (del_elem_list_eq a e s He). split; [|done]. unfold tidy. cbn [snd elems user].
  apply (tidy_data_core (elems s) _ _ (user s)); try done. intros h _. right.
  assert (H : forall {A} (g : snd_hctl_elem_t -> A), (forall v e, g (set_elem_prev v e) = g e) ->
    (forall v e, g (set_elem_next v e) = g e) ->
    g (helem_at (del_store e (elems s)) h) = g (helem_at (elems s) h)).
  { intros A g H1 H2. pose proof (del_store_proj g e (elems s) h H1 H2) as H. unfold helem_at.
    destruct (del_store e (elems s) !! h), (elems s !! h); simpl in *; congruence. }
  split; apply H; done.
Qed.

(** Removing the handle's last element keeps the mixer tidy. *)
Lemma elem_remove_tidy me s l a frame :
  hctl_ok me s (l ++ [a]) frame -> tidy s (l ++ [a]) -> tidy (snd_hctl_elem_remove a s).2 l.
Proof using Happ OsLaws0.
  intros Hok Ht. destruct (del_elem_list_spec me s l a [] frame Hok) as (H1 & _ & _ & _).
  destruct (del_list_tidy me s l a frame Hok Ht) as [H2 _].
  unfold snd_hctl_elem_remove, bind at 1. destruct (del_elem_list a s) as [[] s1]. cbn [snd] in *.
  rewrite app_nil_r in H1. unfold bind at 1, snd_hctl_elem_throw_event, bind at 1, gete.
  assert (Hg : good ((RMem <$> l) ++ RMem a :: frame) s1).
  { split; [exact (ok_client _ _ _ _ H1)|]. unfold accounts. rewrite (ok_held _ _ _ _ H1).
    apply Permutation_app_swap_app. }
  set (cb := elem_callback (default zero_elem (elems s1 !! a))).
  assert (Hcb : cb <> addr_elem_event_handler ->
    forall i it, mitems (user s1) !! i = Some it -> helem it <> a).
  { intros Hne i it Hit Hh. destruct H2 as (T1 & _). destruct (T1 i it Hit) as (_ & _ & A3 & _).
    rewrite Hh in A3. done. }
  assert (H : let s2 := ((if nz cb then call_elem cb a MASK_REMOVE else ret 0) s1).2 in
    tidy s2 (l ++ [a]) /\ forall i it, mitems (user s2) !! i = Some it -> helem it <> a).
  { cbn zeta. destruct (Z.eqb_spec cb addr_elem_event_handler) as [Heq|Hne].
    - rewrite Heq. change (nz addr_elem_event_handler) with true. cbv iota.
      destruct (remove_event_tidy a (l ++ [a]) _ s1 Hg H2) as (R1 & _ & R3). done.
    - specialize (Hcb Hne). destruct (nz cb); [|done]. cbn [call_elem mixer_client].
      destruct (Z.eqb_spec cb addr_elem_event_handler); [done|].
      destruct (Happ s1 cb a MASK_REMOVE) as (_ & _ & Hk).
      split; [apply (tidy_same s1); done|]. destruct Hk as (_ & _ & -> & _). done. }
  fold cb. cbn zeta in H.
  destruct ((if nz cb then call_elem cb a MASK_REMOVE else ret 0) s1) as [r s2]. destruct H as [H3 H4]. cbn [snd] in *.
  apply (tidy_shrink s2 l a _ _ _ H3 H4). done.
Qed.

(** Closing the handle of a tidy mixer takes all its items and elements with it. *)
Lemma hctl_close_tidy me s l rest :
  hctl_ok me s l rest -> tidy s l -> leftover (user (snd_hctl_close s).2) = [].
Proof using Happ OsLaws0.
  intros Hok Ht.
  destruct (hctl_free_rule me tidy s l rest) as [H1 H2]; try done.
  { intros t l' a. apply elem_remove_tidy. }
  pose proof (tidy_empty _ (ok_client _ _ _ _ H1) H2) as H3. rewrite <- H3. f_equal.
  unfold snd_hctl_close, bind. destruct (snd_hctl_free s) as [r t]. unfold geth, onhp.
  destruct (snd_ctl_close _ _) as [r1 p1]. rewrite onsys_eq. done.
Qed.

(** The handle's list, walked from [a]. *)
Fixpoint listed (n : nat) (m : gmap Z snd_hctl_elem_t) (a : Z) : list Z :=
  match n with
  | O => []
  | S n => if a =? 0 then [] else a :: listed n m (elem_next (helem_at m a))
  end.

Lemma listed_seg m p l n :
  seg m p l 0 -> (forall a, a ∈ l -> 0 < a) -> (length l <= n)%nat -> listed n m (hdz 0 l) = l.
Proof.
  revert p n. induction l as [|a l IH]; intros p n Hs Hpos Hn; destruct n as [|n]; simpl in Hn; try lia; [done..|].
  destruct Hs as [(e & He & _ & Hnext) Hs]. simpl. assert (0 < a) by (apply Hpos; left).
  destruct (Z.eqb_spec a 0); [lia|]. unfold helem_at. rewrite He. simpl. rewrite Hnext. f_equal.
  apply (IH a); [done| |lia]. intros b Hb. apply Hpos. right. done.
Qed.

(** A mixer with or without a handle. *)
Definition tidy_ms (s : ms (K := K) (W := W)) : Prop :=
  match ms_hctl s with
  | None => leftover (ms_mixer s) = []
  | Some (h, m) => tidy_data m (listed (size m) m (first_elem h)) (ms_mixer s)
  end.

Lemma close_tidy me frame (s : ms (K := K) (W := W)) :
  detached frame s \/ attached me frame s -> tidy_ms s -> leftover (ms_mixer (snd_mixer_close s).2) = [].
Proof using Happ OsLaws0.
  unfold tidy_ms. intros [(Hn & _ & _)|([h m] & l & Hs & Hp & Hok)].
  - rewrite Hn. unfold snd_mixer_close. rewrite Hn. destruct (nz _); done.
  - rewrite Hs. pose proof (length_elems _ _ _ _ Hok) as Hlen. pose proof (ok_first _ _ _ _ Hok) as Hf.
    cbn [the_hctl elems fst snd] in *. rewrite Hf, (listed_seg m 0 l) by (try done; apply Hok).
    intros Ht. pose proof (hctl_close_tidy me _ l _ Hok Ht) as Hc.
    unfold snd_mixer_close. rewrite Hs. unfold with_hctl. cbn [fst snd].
    destruct (snd_hctl_close _) as [r t]. cbn [snd] in *. destruct (nz _); done.
Qed.


(** ** One item over another *)

(** The walk over slots none of which has an item of [hp]. *)
Lemma remove_item_loop_none e hp ns b (s : state) :
  (forall t, t ∈ ns -> let E := default zero_melem (melems (user s) !! e) in
     slot t E <> 0 -> helem (default zero_item (mitems (user s) !! slot t E)) <> hp) ->
  remove_item_loop e hp ns b s = (- ENOENT, s).
Proof.
  induction ns as [|t ns IH]; intros H; cbn [remove_item_loop]; [done|]. rewrite run_getx.
  assert (Hns : remove_item_loop e hp ns b s = (- ENOENT, s)).
  { apply IH. intros t' Ht'. apply H. right. done. }
  destruct (Z.eqb_spec (slot t (default zero_melem (melems (user s) !! e))) 0) as [|Hnz]; [exact Hns|].
  rewrite run_geti. specialize (H t ltac:(left) Hnz).
  destruct (Z.eqb_spec (helem (default zero_item (mitems (user s) !! slot t (default zero_melem (melems (user s) !! e))))) hp);
    [done|exact Hns].
Qed.

(** The slots of an element that a common item is added to. *)
Lemma cap_store_slot e c k item i m E t :
  m !! e = Some E -> length (slots E) = 5%nat -> both_caps c = true -> 0 <= k < 2 ->
  exists E', cap_store e c (2 * k) item i m !! e = Some E' /\
    slot t E' = if decide (t / 2 = k) then item else slot t E.
Proof.
  intros HE Hl Hc Hk. unfold cap_store. rewrite Hc.
  destruct (Z.eqb_spec (2 * k) ITEM_ENUM) as [H4|_]; [unfold ITEM_ENUM in H4; lia|].
  rewrite !lookup_alter_eq, HE. eexists. split; [simpl; reflexivity|].
  change (slot t (raise i ?d (raise i ?d' ?x))) with (slot t x).
  rewrite slot_upd by (try lia; simpl; rewrite length_upd; exact Hl).
  destruct (decide (t = 2 * k + 1)) as [->|H1].
  - rewrite decide_True; [done|]. symmetry. apply (Z.div_unique _ 2 k 1); lia.
  - rewrite slot_upd by (try lia; simpl; exact Hl). destruct (decide (t = 2 * k)) as [->|H2].
    + rewrite decide_True; [done|]. rewrite Z.mul_comm, Z.div_mul by lia. done.
    + rewrite decide_False; [done|]. intros H3. pose proof (Z.div_mod t 2). pose proof (Z.mod_pos_bound t 2). lia.
Qed.

(** An item is lost where a common one is added over it: where the element [e]
    already has an item in its capture slot, [add_cap] with a common item (of a control
    element without a direction in its name) puts the new item over it; the old item
    stays allocated, and removing its control element finds nothing to give back and
    leaves it. *)
Theorem global_over_capture_lost (k e c : Z) (E : snd_mixer_elem_t) (it jt : selem_item) (item : Z)
    (b : bool) (s : state) :
  mem_ok (user s) ->
  map_Forall (fun i it => map_Forall (fun i' it' => helem it = helem it' -> i = i') (mitems (user s)))
    (mitems (user s)) ->
  melems (user s) !! e = Some E -> 0 <= k < 2 -> slot (2 * k + 1) E <> 0 ->
  mitems (user s) !! slot (2 * k + 1) E = Some it -> simple_of s (helem it) = e ->
  mitems (user s) !! item = Some jt -> item <> slot (2 * k + 1) E -> both_caps c = true ->
  let s' := (add_cap e c (2 * k) item s).2 in
  mitems (user s') = mitems (user s) /\ remove_simple_element (helem it) b s' = (- ENOENT, s').
Proof.
  intros Hm Huniq HE Hk Hnz Hit Hpriv Hjt Hne Hc. cbn zeta. rewrite add_cap_eq. cbn [snd].
  set (s' := HS _ _ _ _). split; [done|].
  assert (He : simple_of s' (helem it) = e).
  { unfold simple_of, helem_at, s'. cbn [elems]. unfold set_private, snd_hctl_elem_set_callback_private, sete.
    cbn [snd elems]. rewrite Hjt. cbn [default id]. destruct (decide (helem jt = helem it)) as [Heq|Hd].
    - rewrite Heq, lookup_alter_eq. unfold simple_of, helem_at in Hpriv.
      destruct (elems s !! helem it); done.
    - rewrite lookup_alter_ne by done. exact Hpriv. }
  unfold remove_simple_element, snd_hctl_elem_get_callback_private, bind, gete, ret.
  fold (helem_at (elems s') (helem it)). fold (simple_of s' (helem it)). rewrite He.
  apply remove_item_loop_none. intros t Ht. cbn zeta.
  destruct (mo_slots _ Hm e E HE) as [Hlen _].
  destruct (cap_store_slot e c k item (default zero_item (mitems (user s) !! item)) (melems (user s)) E t
    HE Hlen Hc Hk) as (E' & HE' & Hs').
  unfold s' at 1 2 3. cbn [user with_melems melems mitems]. rewrite HE'. cbn [default id]. rewrite Hs'.
  intros Hnz'. destruct (decide (t / 2 = k)) as [Htk|Htk].
  - rewrite Hjt. cbn [default id]. intros Heq. apply Hne. exact (Huniq item jt Hjt _ it Hit Heq).
  - destruct (mo_live _ Hm e E t HE Hnz') as (x & Hx & _). rewrite Hx. cbn [default id]. intros Heq.
    pose proof (Huniq _ x Hx _ it Hit Heq) as Hsame.
    destruct (mo_shared _ Hm e E e E t (2 * k + 1) HE HE Hnz' Hsame) as (_ & [->|[Hkk _]]).
    + apply Htk. symmetry. apply (Z.div_unique _ 2 k 1); lia.
    + apply Htk. unfold slot_kind in Hkk. rewrite Hkk. symmetry. apply (Z.div_unique _ 2 k 1); lia.
Qed.
End Tidy.

(** ** Witness *)

#[export] Instance real_db_dec d : Decision (real_db d).
Proof. unfold real_db. apply _. Defined.

#[export] Instance reached_dec {W} m l (u : mx W) i it : Decision (reached m l u i it).
Proof. unfold reached. destruct (melems u !! _); apply _. Defined.

#[export] Instance whole_elem_dec e : Decision (whole_elem e).
Proof. unfold whole_elem, both_one. apply _. Defined.

#[export] Instance tidy_data_dec {W} m l (u : mx W) : Decision (tidy_data m l u).
Proof. unfold tidy_data. apply _. Defined.

Lemma toy_app_quiet : app_quiet (K := Z) (W := list (Z * Z)).
Proof. intros s cb e mask. done. Qed.


(** "Mic Capture Volume" (item 20 of control element 10) is there when "Mic Volume" (item 21
    of control element 11) comes. *)
Definition mic : hs Z (mx (list (Z * Z))) :=
  let vol := VolBody (VolItem 0 87 0 87 0 [0; 0]) in
  let u := MX (Mixer 1 1 32 2 [5] 0 0 0 0) {[5 := MElem "Mic" 0 1 2 0 [0; 1] [0; 20; 0; 0; 0] 0 0 0]}
             {[20 := Item 10 1 1 vol; 21 := Item 11 2 1 vol]} ∅ [] in
  let h n p := Elem (ElemId n 2 0 0 "" 0) 7 1 p 0 0 in
  HS (Hctl 7 (Ctl 8 0 0 0 0) 0 0 10 11 2) {[10 := h 1 5; 11 := h 2 0]} toy_process u.

Lemma mic_mem_ok : mem_ok (user mic).
Proof.
  assert (H1 : forall e E, melems (user mic) !! e = Some E ->
    e = 5 /\ E = MElem "Mic" 0 1 2 0 [0; 1] [0; 20; 0; 0; 0] 0 0 0).
  { intros e E H. unfold mic in H. cbn [user melems] in H. apply lookup_singleton_Some in H as [<- <-]. done. }
  assert (H2 : forall t, slot t (MElem "Mic" 0 1 2 0 [0; 1] [0; 20; 0; 0; 0] 0 0 0) <> 0 -> t = 1).
  { intros t Ht. assert (0 <= t < 5) by (eapply slot_range; [|exact Ht]; done).
    assert (t = 0 \/ t = 1 \/ t = 2 \/ t = 3 \/ t = 4) as [->|[->|[->|[->| ->]]]] by lia; done. }
  assert (H3 : forall i it, mitems (user mic) !! i = Some it -> db_info (as_vol it) = 0).
  { intros i it H. unfold mic in H. cbn [user mitems] in H. apply lookup_insert_Some in H as [[_ <-]|[_ H]]; [done|].
    apply lookup_singleton_Some in H as [_ <-]. done. }
  constructor.
  - intros e E [-> ->]%H1. done.
  - intros e E t [-> ->]%H1 ->%H2. eexists. split; reflexivity.
  - intros e E e' E' t t' [-> ->]%H1 [-> ->]%H1 Hnz Heq. split; [done|]. left.
    rewrite (H2 t Hnz), (H2 t'); [done|]. congruence.
  - intros i it ->%H3 [H _]. done.
  - intros i it i' it' ->%H3 _ [H _]. done.
Qed.

Lemma global_over_capture_lost_witness :
  let s' := (add_cap 5 CAP_GVOLUME 0 21 mic).2 in
  is_Some (mitems (user s') !! 20) /\ remove_simple_element 10 true s' = (- ENOENT, s').
Proof.
  destruct (global_over_capture_lost 0 5 CAP_GVOLUME
    (MElem "Mic" 0 1 2 0 [0; 1] [0; 20; 0; 0; 0] 0 0 0) (Item 10 1 1 (VolBody (VolItem 0 87 0 87 0 [0; 0])))
    (Item 11 2 1 (VolBody (VolItem 0 87 0 87 0 [0; 0]))) 21 true mic mic_mem_ok) as [H1 H2];
    [|reflexivity|split; [vm_compute; discriminate|reflexivity]|discriminate|reflexivity|reflexivity|reflexivity
     |discriminate|reflexivity|].
  - apply (bool_decide_eq_true_1 _). vm_compute. reflexivity.
  - split; [|exact H2]. change (2 * 0) with 0 in H1. rewrite H1. eexists. reflexivity.
Defined.
