(* ===== verification/Area.v ===== *)
(** * Silencing and copying channel areas

    src/src/pcm.c 576-766: [snd_pcm_area_silence], [snd_pcm_area_copy] and their versions
    over arrays of areas, over the bytes of the memory they work on.  The memory is one
    map from addresses to bytes, so that source and destination may be the same buffer;
    a byte that is not in the map reads as 0. *)

From stdpp Require Import gmap.
From S2P Require Import Prelude CInt Sys Cards Async Format PcmTypes Pcm.
#[local] Open Scope Z_scope.

Abbreviation mem := (gmap Z Z).

Definition rd (m : mem) (a : Z) : Z := default 0 (m !! a).

(** Store the bytes [l] from [a] on. *)
Fixpoint write_bytes (m : mem) (a : Z) (l : list Z) : mem :=
  match l with
  | [] => m
  | b :: l => write_bytes (<[a := b]> m) (a + 1) l
  end.

(** C's [memcpy]; the caller keeps the two ranges apart. *)
Definition memcpy (m : mem) (dst src n : Z) : mem :=
  write_bytes m dst (map (rd m) (zseq src (Z.to_nat n))).

(** ** Silence *)

(** [snd_pcm_format_set_silence] on memory: it reads nothing, so what it writes is what
    it makes of no data. *)
Definition set_silence_at (m : mem) (format dst samples : Z) : mem :=
  write_bytes m dst (snd_pcm_format_set_silence format [] samples).2.

Fixpoint silence_4bit_loop (n : nat) (m : mem) (dst dst_step dstbit dstbit_step : Z) : mem :=
  match n with
  | O => m
  | S n =>
      let m := <[dst := Z.land (rd m dst) (if nz dstbit then 240 else 15)]> m in
      let dst := dst + dst_step in
      let dstbit := dstbit + dstbit_step in
      if dstbit =? 8 then silence_4bit_loop n m (dst + 1) dst_step 0 dstbit_step
      else silence_4bit_loop n m dst dst_step dstbit dstbit_step
  end.

(** [fourbit] says whether SALSA_SUPPORT_4BIT_PCM is configured. *)
(* [pcm.c 580-610 area_silence_4bit] *)
Definition area_silence_4bit (fourbit : bool) (m : mem) (dst_area : snd_pcm_channel_area_t)
  (dst_offset samples format : Z) : Z * mem :=
  if negb fourbit then (- EINVAL, m)
  else
    (0, silence_4bit_loop (Z.to_nat samples) m (snd_pcm_channel_area_addr dst_area dst_offset)
          (area_step dst_area / 8) (area_first dst_area mod 8) (area_step dst_area mod 8)).

Fixpoint silence_samples (n : nat) (m : mem) (format dst dst_step : Z) : mem :=
  match n with
  | O => m
  | S n => silence_samples n (set_silence_at m format dst 1) format (dst + dst_step) dst_step
  end.

(* [pcm.c 612-636 snd_pcm_area_silence] *)
Definition snd_pcm_area_silence (fourbit : bool) (m : mem) (dst_area : snd_pcm_channel_area_t)
  (dst_offset samples format : Z) : Z * mem :=
  if area_addr dst_area =? 0 then (0, m)
  else
    let width := snd_pcm_format_physical_width format in
    if width <? 8 then area_silence_4bit fourbit m dst_area dst_offset samples format
    else
      let dst := snd_pcm_channel_area_addr dst_area dst_offset in
      if area_step dst_area =? u32 width then (0, set_silence_at m format dst samples)
      else (0, silence_samples (Z.to_nat samples) m format dst (area_step dst_area / 8)).

(** An array of areas as the list of its entries, one for each channel. *)
(* [pcm.c 638-649 snd_pcm_areas_silence] *)
Fixpoint areas_silence_loop (fourbit : bool) (m : mem) (dst_areas : list snd_pcm_channel_area_t)
  (dst_offset samples format : Z) : mem :=
  match dst_areas with
  | [] => m
  | a :: dst_areas =>
      areas_silence_loop fourbit (snd_pcm_area_silence fourbit m a dst_offset samples format).2
        dst_areas dst_offset samples format
  end.

(** [frames] is passed on as an unsigned int. *)
(* [pcm.c 638-649 snd_pcm_areas_silence] *)
Definition snd_pcm_areas_silence (fourbit : bool) (m : mem) (dst_areas : list snd_pcm_channel_area_t)
  (dst_offset channels frames format : Z) : Z * mem :=
  (0, areas_silence_loop fourbit m (take (Z.to_nat channels) dst_areas) dst_offset (u32 frames) format).

(** ** Copying *)

Record cursor := Cursor { at_byte : Z; at_bit : Z }.

(** A cursor moved on by one sample. *)
Definition next_sample (step : Z) (c : cursor) : cursor :=
  let bit := at_bit c + step mod 8 in
  if bit =? 8 then Cursor (at_byte c + step / 8 + 1) 0 else Cursor (at_byte c + step / 8) bit.

(* [pcm.c 658-691 area_copy_4bit] *)
Fixpoint copy_4bit_loop (n : nat) (m : mem) (src dst : cursor) (src_step dst_step : Z) : mem :=
  match n with
  | O => m
  | S n =>
      let srcval := Z.land (rd m (at_byte src)) (if nz (at_bit src) then 15 else 240) in
      let m := <[at_byte dst := Z.land (rd m (at_byte dst)) (if nz (at_bit dst) then 240 else 15)]> m in
      let m := <[at_byte dst := Z.lor (rd m (at_byte dst)) srcval]> m in
      copy_4bit_loop n m (next_sample src_step src) (next_sample dst_step dst) src_step dst_step
  end.

(* [pcm.c 651-703 area_copy_4bit] *)
Definition area_copy_4bit (fourbit : bool) (m : mem) (dst_area : snd_pcm_channel_area_t) (dst_offset : Z)
  (src_area : snd_pcm_channel_area_t) (src_offset samples format : Z) : Z * mem :=
  if negb fourbit then (- EINVAL, m)
  else
    (0, copy_4bit_loop (Z.to_nat samples) m
          (Cursor (snd_pcm_channel_area_addr src_area src_offset) (area_first src_area mod 8))
          (Cursor (snd_pcm_channel_area_addr dst_area dst_offset) (area_first dst_area mod 8))
          (area_step src_area) (area_step dst_area)).

Fixpoint copy_loop (n : nat) (m : mem) (dst src dst_step src_step width : Z) : mem :=
  match n with
  | O => m
  | S n => copy_loop n (memcpy m dst src width) (dst + dst_step) (src + src_step) dst_step src_step width
  end.

(** [same] says whether the two pointers to areas are equal. *)
(* [pcm.c 705-744 snd_pcm_area_copy] *)
Definition snd_pcm_area_copy (fourbit same : bool) (m : mem) (dst_area : snd_pcm_channel_area_t)
  (dst_offset : Z) (src_area : snd_pcm_channel_area_t) (src_offset samples format : Z) : Z * mem :=
  if area_addr dst_area =? 0 then (0, m)
  else if same && (dst_offset =? src_offset) then (0, m)
  else if area_addr src_area =? 0 then snd_pcm_area_silence fourbit m dst_area dst_offset samples format
  else
    let width := snd_pcm_format_physical_width format in
    if width <? 8 then area_copy_4bit fourbit m dst_area dst_offset src_area src_offset samples format
    else
      let src := snd_pcm_channel_area_addr src_area src_offset in
      let dst := snd_pcm_channel_area_addr dst_area dst_offset in
      if (area_step src_area =? u32 width) && (area_step dst_area =? u32 width)
      then (0, memcpy m dst src (u32 (samples * width) / 8))
      else (0, copy_loop (Z.to_nat samples) m dst src (area_step dst_area / 8) (area_step src_area / 8)
                 (width / 8)).

(* [pcm.c 746-766 snd_pcm_areas_copy] *)
Fixpoint areas_copy_loop (fourbit same : bool) (m : mem) (dst_areas : list snd_pcm_channel_area_t)
  (dst_offset : Z) (src_areas : list snd_pcm_channel_area_t) (src_offset samples format : Z) : mem :=
  match dst_areas, src_areas with
  | d :: dst_areas, s :: src_areas =>
      areas_copy_loop fourbit same
        (snd_pcm_area_copy fourbit same m d dst_offset s src_offset samples format).2
        dst_areas dst_offset src_areas src_offset samples format
  | _, _ => m
  end.

(** Both arrays have an entry for each channel. *)
(* [pcm.c 746-766 snd_pcm_areas_copy] *)
Definition snd_pcm_areas_copy (fourbit same : bool) (m : mem) (dst_areas : list snd_pcm_channel_area_t)
  (dst_offset : Z) (src_areas : list snd_pcm_channel_area_t) (src_offset channels frames format : Z)
  : Z * mem :=
  if channels =? 0 then (- EINVAL, m)
  else if frames =? 0 then (- EINVAL, m)
  else (0, areas_copy_loop fourbit same m (take (Z.to_nat channels) dst_areas) dst_offset
             (take (Z.to_nat channels) src_areas) src_offset (u32 frames) format).

(** ** What is written *)

(** [m'] is [m] with, for each [i < n], the [w] bytes at [addr i] set to [v i 0], [v i 1]
    and so on, and nothing else. *)
Definition fills (m m' : mem) (addr : Z -> Z) (n w : Z) (v : Z -> Z -> Z) : Prop :=
  (forall i k, 0 <= i < n -> 0 <= k < w -> rd m' (addr i + k) = v i k) /\
  (forall x, (forall i k, 0 <= i < n -> 0 <= k < w -> x <> addr i + k) -> rd m' x = rd m x).

Lemma write_bytes_rd m a l x :
  rd (write_bytes m a l) x =
  if decide (a <= x < a + Z.of_nat (length l)) then nthz 0 l (x - a) else rd m x.
Proof.
  revert m a. induction l as [|b l IH]; intros m a; cbn [write_bytes length].
  - rewrite decide_False by lia. done.
  - rewrite IH. unfold nthz. destruct (Z.eq_dec x a) as [->|Hne].
    + rewrite decide_False, decide_True by lia. rewrite Z.sub_diag. unfold rd. rewrite lookup_insert_eq. done.
    + destruct (decide (a + 1 <= x < a + 1 + Z.of_nat (length l))) as [H|H].
      * rewrite decide_True by lia. destruct (Z.ltb_spec (x - (a + 1)) 0), (Z.ltb_spec (x - a) 0); try lia.
        replace (Z.to_nat (x - a)) with (S (Z.to_nat (x - (a + 1)))) by lia. done.
      * rewrite decide_False by lia. unfold rd. rewrite lookup_insert_ne by done. done.
Qed.

Lemma nthz_zseq_map {A} (f : Z -> A) (d : A) a n k :
  0 <= k < Z.of_nat n -> nthz d (map f (zseq a n)) k = f (a + k).
Proof.
  intros Hk. unfold nthz. destruct (Z.ltb_spec k 0); [lia|]. apply nth_lookup_Some.
  revert a k Hk H. induction n as [|n IH]; intros a k Hk H; [lia|]. cbn [zseq map].
  destruct (Z.eq_dec k 0) as [->|Hne].
  - simpl. do 2 f_equal. lia.
  - replace (Z.to_nat k) with (S (Z.to_nat (k - 1))) by lia. simpl. rewrite IH by lia. do 2 f_equal. lia.
Qed.

Lemma memcpy_rd m dst src n x :
  0 <= n -> rd (memcpy m dst src n) x = if decide (dst <= x < dst + n) then rd m (src + (x - dst)) else rd m x.
Proof.
  intros Hn. unfold memcpy. rewrite write_bytes_rd, length_map, zseq_length, Z2Nat.id by done.
  destruct (decide (dst <= x < dst + n)) as [H|H]; [|done]. apply nthz_zseq_map. lia.
Qed.

(** One more sample in front. *)
Lemma fills_cons m m1 m2 dst step n w v :
  0 <= n -> w <= step ->
  fills m m1 (fun _ => dst) 1 w (fun _ => v 0) ->
  fills m1 m2 (fun i => dst + step + i * step) n w (fun i => v (i + 1)) ->
  fills m m2 (fun i => dst + i * step) (n + 1) w v.
Proof.
  intros Hn Hw [A1 A2] [B1 B2]. split.
  - intros i k Hi Hk. destruct (Z.eq_dec i 0) as [->|Hne].
    + rewrite B2; [rewrite <- (A1 0 k) by lia; f_equal; lia|]. intros i k' Hi' Hk'. nia.
    + replace (dst + i * step + k) with (dst + step + (i - 1) * step + k) by lia.
      rewrite B1 by lia. f_equal. lia.
  - intros x Hx. rewrite B2, A2; [done| |].
    + intros i k Hi Hk. specialize (Hx 0 k). lia.
    + intros i k Hi Hk. specialize (Hx (i + 1) k). lia.
Qed.

Lemma fills_ext m m' addr addr' n w v v' :
  (forall i, 0 <= i < n -> addr i = addr' i) -> (forall i k, 0 <= i < n -> 0 <= k < w -> v i k = v' i k) ->
  fills m m' addr n w v -> fills m m' addr' n w v'.
Proof.
  intros Ha Hv [H1 H2]. split.
  - intros i k Hi Hk. rewrite <- Ha, <- Hv by done. auto.
  - intros x Hx. apply H2. intros i k Hi Hk. rewrite Ha by done. auto.
Qed.

(** ** Whole-byte formats *)

(** A format whose samples are whole bytes. *)
Definition byte_format (f : Z) : Prop :=
  0 <= f <= FORMAT_LAST /\ 8 <= snd_pcm_format_physical_width f /\ snd_pcm_format_physical_width f mod 8 = 0.

Definition sample_bytes (f : Z) : Z := snd_pcm_format_physical_width f / 8.

#[export] Instance byte_format_dec f : Decision (byte_format f).
Proof. unfold byte_format. apply _. Defined.

Lemma byte_format_facts f :
  byte_format f ->
  snd_pcm_format_physical_width f = 8 * sample_bytes f /\ 1 <= sample_bytes f <= 8 /\
  Z.of_nat (length (silence_bytes f)) = sample_bytes f.
Proof.
  intros (Hf & Hw & Hm).
  assert (H : forallb (fun f => (snd_pcm_format_physical_width f <? 8) ||
    negb (snd_pcm_format_physical_width f mod 8 =? 0) ||
    (snd_pcm_format_physical_width f =? 8 * sample_bytes f) && (1 <=? sample_bytes f) && (sample_bytes f <=? 8) &&
    (Z.of_nat (length (silence_bytes f)) =? sample_bytes f)) (zseq 0 (Z.to_nat (FORMAT_LAST + 1))) = true)
    by (vm_compute; reflexivity).
  rewrite List.forallb_forall in H. specialize (H f ltac:(apply zseq_In; unfold FORMAT_LAST in *; lia)).
  rewrite Hm in H. apply orb_prop in H as [[H|H]%orb_prop|H]; zbool; [lia|done|]. lia.
Qed.

(** A byte of a run of equal patterns. *)
Lemma nthz_mjoin (pat : list Z) n w i k :
  Z.of_nat (length pat) = w -> 0 <= i < Z.of_nat n -> 0 <= k < w ->
  nthz 0 (mjoin (replicate n pat)) (i * w + k) = nthz 0 pat k.
Proof.
  intros Hl. revert i. induction n as [|n IH]; intros i Hi Hk; [lia|]. cbn [replicate mjoin list_join].
  unfold nthz in *. destruct (Z.ltb_spec k 0); [lia|]. destruct (Z.ltb_spec (i * w + k) 0); [nia|].
  destruct (Z.eq_dec i 0) as [->|Hne].
  - rewrite app_nth1 by lia. done.
  - rewrite app_nth2 by nia. specialize (IH (i - 1)). destruct (Z.ltb_spec ((i - 1) * w + k) 0); [nia|].
    rewrite <- IH by lia. f_equal. nia.
Qed.

Lemma length_mjoin_replicate (pat : list Z) n : length (mjoin (replicate n pat)) = (n * length pat)%nat.
Proof.
  induction n as [|n IH]; [done|]. change (mjoin (replicate (S n) pat)) with (pat ++ mjoin (replicate n pat)).
  rewrite length_app, IH. done.
Qed.

(** ** One area *)

(** The area has [n] samples from [off] on, in the 2^32 bits that an address can span. *)
Definition whole_area (f off n : Z) (a : snd_pcm_channel_area_t) : Prop :=
  area_addr a <> 0 /\ 0 <= area_first a /\ area_step a mod 8 = 0 /\
  snd_pcm_format_physical_width f <= area_step a /\ 0 <= off /\ area_first a + area_step a * (off + n) <= UINT_MAX.

#[export] Instance whole_area_dec f off n a : Decision (whole_area f off n a).
Proof. unfold whole_area. apply _. Defined.

Lemma area_addr_step f off n a i :
  byte_format f -> whole_area f off n a -> 0 <= i <= n ->
  snd_pcm_channel_area_addr a off + i * (area_step a / 8) = snd_pcm_channel_area_addr a (off + i).
Proof.
  intros (_ & Hw & _) (_ & Hf & Hm & Hs & Ho & Hb) Hi. unfold snd_pcm_channel_area_addr.
  assert (0 <= area_step a * off <= area_step a * (off + i) /\ area_step a * (off + i) <= area_step a * (off + n)) by nia.
  rewrite !u32_id by (unfold is_u32; lia).
  assert (Hst : area_step a = 8 * (area_step a / 8)) by (apply Z_div_exact_full_2; lia).
  replace (area_first a + area_step a * (off + i)) with (area_first a + area_step a * off + i * (area_step a / 8) * 8) by nia.
  rewrite Z.div_add by lia. lia.
Qed.

(** The sample's bytes, written once. *)
Lemma set_silence_fills m f dst n step :
  byte_format f -> 0 <= n -> n * snd_pcm_format_physical_width f <= UINT_MAX -> step = sample_bytes f \/ n = 1 ->
  fills m (set_silence_at m f dst n) (fun i => dst + i * step) n (sample_bytes f)
    (fun _ k => nthz 0 (silence_bytes f) k).
Proof.
  intros Hf Hn Hb Hstep. destruct (byte_format_facts f Hf) as (Hw & Hw1 & Hl). destruct Hf as (Hf & Hw8 & Hm).
  unfold set_silence_at. rewrite set_silence_correct by (try done; lia). cbn [snd]. rewrite drop_nil, app_nil_r.
  assert (Hlen : Z.of_nat (length (mjoin (replicate (Z.to_nat n) (silence_bytes f)))) = n * sample_bytes f).
  { rewrite length_mjoin_replicate. lia. }
  split.
  - intros i k Hi Hk. rewrite write_bytes_rd, Hlen.
    assert (Hx : i * step = i * sample_bytes f) by (destruct Hstep as [->|Hn1]; [done|replace i with 0 by lia; done]).
    rewrite decide_True by nia. rewrite <- (nthz_mjoin (silence_bytes f) (Z.to_nat n) (sample_bytes f) i k) by lia.
    f_equal. lia.
  - intros x Hx. rewrite write_bytes_rd, Hlen, decide_False; [done|]. intros Hin.
    pose proof (Z.div_mod (x - dst) (sample_bytes f)). pose proof (Z.mod_pos_bound (x - dst) (sample_bytes f)).
    assert (0 <= (x - dst) / sample_bytes f < n).
    { split; [apply Z.div_pos; lia|apply Z.div_lt_upper_bound; lia]. }
    apply (Hx ((x - dst) / sample_bytes f) ((x - dst) mod sample_bytes f)); [done|lia|].
    destruct Hstep as [->|Hn1]; [lia|]. replace ((x - dst) / sample_bytes f) with 0 in * by lia. lia.
Qed.

Lemma silence_samples_fills n m f dst step :
  byte_format f -> sample_bytes f <= step ->
  fills m (silence_samples n m f dst step) (fun i => dst + i * step) (Z.of_nat n) (sample_bytes f)
    (fun _ k => nthz 0 (silence_bytes f) k).
Proof.
  intros Hf Hs. revert m dst. induction n as [|n IH]; intros m dst; cbn [silence_samples].
  - split; [lia|done].
  - replace (Z.of_nat (S n)) with (Z.of_nat n + 1) by lia.
    apply (fills_cons m (set_silence_at m f dst 1)); [lia|done| |apply IH].
    pose proof (set_silence_fills m f dst 1 step Hf) as H. destruct (byte_format_facts f Hf) as (Hw & Hw1 & _).
    eapply fills_ext; [| |apply H; [lia|unfold UINT_MAX; lia|auto]]; [|done]. intros i Hi. simpl. nia.
Qed.

Lemma area_silence_fills fb m a off n f :
  byte_format f -> whole_area f off n a -> 0 <= n -> n * snd_pcm_format_physical_width f <= UINT_MAX ->
  let '(r, m') := snd_pcm_area_silence fb m a off n f in
  r = 0 /\ fills m m' (fun i => snd_pcm_channel_area_addr a (off + i)) n (sample_bytes f)
    (fun _ k => nthz 0 (silence_bytes f) k).
Proof.
  intros Hf Ha Hn Hb. pose proof Hf as (_ & Hw8 & _). destruct (byte_format_facts f Hf) as (Hw & Hw1 & _).
  pose proof Ha as (H0 & H1 & H2 & H3 & H4 & H5). unfold snd_pcm_area_silence.
  destruct (Z.eqb_spec (area_addr a) 0); [done|]. destruct (Z.ltb_spec (snd_pcm_format_physical_width f) 8); [lia|].
  assert (Hst : area_step a = 8 * (area_step a / 8)) by (apply Z_div_exact_full_2; lia).
  set (base := snd_pcm_channel_area_addr a off). rewrite u32_id by (unfold is_u32, UINT_MAX; lia).
  assert (Hext : forall m', fills m m' (fun i => base + i * (area_step a / 8)) n (sample_bytes f)
      (fun _ k => nthz 0 (silence_bytes f) k) ->
    fills m m' (fun i => snd_pcm_channel_area_addr a (off + i)) n (sample_bytes f)
      (fun _ k => nthz 0 (silence_bytes f) k)).
  { intros m'. apply fills_ext; [|done]. intros i Hi. apply (area_addr_step f off n); [done..|lia]. }
  destruct (Z.eqb_spec (area_step a) (snd_pcm_format_physical_width f)) as [He|He]; (split; [done|]); apply Hext.
  - apply set_silence_fills; try done. left. rewrite He. done.
  - rewrite <- (Z2Nat.id n) at 2 by done. apply silence_samples_fills; [done|].
    unfold sample_bytes. apply Z.div_le_mono; lia.
Qed.

(** The byte [x] belongs to one of the [n] samples of the area from [off] on. *)
Definition sample_in (f off n : Z) (a : snd_pcm_channel_area_t) (x : Z) : Prop :=
  exists i k, 0 <= i < n /\ 0 <= k < sample_bytes f /\ x = snd_pcm_channel_area_addr a (off + i) + k.

Lemma memcpy_fills m dst src n w :
  0 <= n -> 0 < w ->
  fills m (memcpy m dst src (n * w)) (fun i => dst + i * w) n w (fun i k => rd m (src + i * w + k)).
Proof.
  intros Hn Hw. split.
  - intros i k Hi Hk. rewrite memcpy_rd, decide_True by nia. f_equal. lia.
  - intros x Hx. rewrite memcpy_rd by nia. rewrite decide_False; [done|]. intros Hin.
    pose proof (Z.div_mod (x - dst) w). pose proof (Z.mod_pos_bound (x - dst) w).
    apply (Hx ((x - dst) / w) ((x - dst) mod w)); [|lia|lia].
    split; [apply Z.div_pos; lia|apply Z.div_lt_upper_bound; lia].
Qed.

Lemma copy_loop_fills n m dst src dstep sstep w :
  0 < w -> w <= dstep ->
  (forall i j k l, 0 <= i < Z.of_nat n -> 0 <= j < Z.of_nat n -> 0 <= k < w -> 0 <= l < w ->
     dst + i * dstep + k <> src + j * sstep + l) ->
  fills m (copy_loop n m dst src dstep sstep w) (fun i => dst + i * dstep) (Z.of_nat n) w
    (fun i k => rd m (src + i * sstep + k)).
Proof.
  intros Hw Hd. revert m dst src. induction n as [|n IH]; intros m dst src Hap; cbn [copy_loop].
  - split; [lia|done].
  - replace (Z.of_nat (S n)) with (Z.of_nat n + 1) by lia.
    apply (fills_cons m (memcpy m dst src w)); [lia|done| |].
    + split.
      * intros i k Hi Hk. rewrite memcpy_rd, decide_True by lia. f_equal. lia.
      * intros x Hx. rewrite memcpy_rd by lia. rewrite decide_False; [done|]. intros Hin.
        apply (Hx 0 (x - dst)); lia.
    + eapply fills_ext; [intros; reflexivity| |apply IH].
      * intros i k Hi Hk. cbv beta. rewrite memcpy_rd by lia. rewrite decide_False.
        { f_equal. lia. }
        intros Hin. apply (Hap 0 (i + 1) (src + sstep + i * sstep + k - dst) k); lia.
      * intros i j k l Hi Hj Hk Hl. specialize (Hap (i + 1) (j + 1) k l). lia.
Qed.

Lemma area_copy_fills fb same m d doff s soff n f :
  byte_format f -> whole_area f doff n d -> whole_area f soff n s -> 0 <= n ->
  n * snd_pcm_format_physical_width f <= UINT_MAX -> (same && (doff =? soff)) = false ->
  (forall x, sample_in f doff n d x -> sample_in f soff n s x -> False) ->
  let '(r, m') := snd_pcm_area_copy fb same m d doff s soff n f in
  r = 0 /\ fills m m' (fun i => snd_pcm_channel_area_addr d (doff + i)) n (sample_bytes f)
    (fun i k => rd m (snd_pcm_channel_area_addr s (soff + i) + k)).
Proof.
  intros Hf Hd Hs Hn Hb Hsame Hap. pose proof Hf as (_ & Hw8 & _). destruct (byte_format_facts f Hf) as (Hw & Hw1 & _).
  pose proof Hd as (Hdnull & _ & Hdmod & Hdstep & _). pose proof Hs as (Hsnull & _ & Hsmod & Hsstep & _).
  unfold snd_pcm_area_copy. rewrite Hsame. destruct (Z.eqb_spec (area_addr d) 0); [done|].
  destruct (Z.eqb_spec (area_addr s) 0); [done|].
  destruct (Z.ltb_spec (snd_pcm_format_physical_width f) 8); [lia|].
  assert (Hdm : forall i, 0 <= i < n -> snd_pcm_channel_area_addr d doff + i * (area_step d / 8) =
    snd_pcm_channel_area_addr d (doff + i)) by (intros; apply (area_addr_step f doff n); [done..|lia]).
  assert (Hsm : forall i, 0 <= i < n -> snd_pcm_channel_area_addr s soff + i * (area_step s / 8) =
    snd_pcm_channel_area_addr s (soff + i)) by (intros; apply (area_addr_step f soff n); [done..|lia]).
  set (dbase := snd_pcm_channel_area_addr d doff) in *. set (sbase := snd_pcm_channel_area_addr s soff) in *.
  rewrite !(u32_id (snd_pcm_format_physical_width f)) by (unfold is_u32, UINT_MAX; lia).
  assert (Hext : forall m', fills m m' (fun i => dbase + i * (area_step d / 8)) n (sample_bytes f)
      (fun i k => rd m (sbase + i * (area_step s / 8) + k)) ->
    fills m m' (fun i => snd_pcm_channel_area_addr d (doff + i)) n (sample_bytes f)
      (fun i k => rd m (snd_pcm_channel_area_addr s (soff + i) + k))).
  { intros m'. apply fills_ext; [done|]. intros i k Hi Hk. rewrite Hsm by done. done. }
  destruct ((area_step s =? snd_pcm_format_physical_width f) && (area_step d =? snd_pcm_format_physical_width f)) eqn:Hc;
    (split; [done|]; apply Hext).
  - apply andb_true_iff in Hc as [->%Z.eqb_eq ->%Z.eqb_eq]. fold (sample_bytes f).
    rewrite u32_id by (unfold is_u32; nia). rewrite Hw.
    replace (n * (8 * sample_bytes f) / 8) with (n * sample_bytes f); [apply memcpy_fills; lia|].
    symmetry. rewrite Z.mul_assoc, (Z.mul_comm n 8), <- Z.mul_assoc, Z.mul_comm, Z.div_mul by lia. done.
  - rewrite <- (Z2Nat.id n) at 2 by done. apply copy_loop_fills; [lia|apply Z.div_le_mono; lia|].
    rewrite Z2Nat.id by done. intros i j k l Hi Hj Hk Hl Heq.
    apply (Hap (dbase + i * (area_step d / 8) + k)).
    + exists i, k. rewrite Hdm by done. done.
    + exists j, l. rewrite Heq, Hsm by done. done.
Qed.

(** ** All channels *)

(** The areas' samples are in place, and no two channels share a byte. *)
Definition whole_areas (f off n : Z) (l : list snd_pcm_channel_area_t) : Prop :=
  Forall (whole_area f off n) l /\
  forall c c' a a' x, l !! c = Some a -> l !! c' = Some a' -> c <> c' ->
    sample_in f off n a x -> sample_in f off n a' x -> False.

Lemma whole_areas_cons f off n a l :
  whole_areas f off n (a :: l) ->
  whole_area f off n a /\ whole_areas f off n l /\
  forall c a' x, l !! c = Some a' -> sample_in f off n a x -> sample_in f off n a' x -> False.
Proof.
  intros [H1 H2]. apply Forall_cons in H1 as [H0 H1]. split; [done|]. split; [split; [done|]|].
  - intros c c' b b' x Hb Hb' Hne. apply (H2 (S c) (S c')); [done..|congruence].
  - intros c a' x Hc. apply (H2 0%nat (S c)); done.
Qed.

Lemma areas_silence_fills fb dsts m off n f :
  byte_format f -> whole_areas f off n dsts -> 0 <= n -> n * snd_pcm_format_physical_width f <= UINT_MAX ->
  let m' := areas_silence_loop fb m dsts off n f in
  (forall c d i k, dsts !! c = Some d -> 0 <= i < n -> 0 <= k < sample_bytes f ->
     rd m' (snd_pcm_channel_area_addr d (off + i) + k) = nthz 0 (silence_bytes f) k) /\
  (forall x, (forall c d, dsts !! c = Some d -> ~ sample_in f off n d x) -> rd m' x = rd m x).
Proof.
  intros Hf Hd Hn Hb. cbn zeta. revert m. induction dsts as [|d dsts IH]; intros m; cbn [areas_silence_loop]; [done|].
  apply whole_areas_cons in Hd as (Hd & Hds & Hap). specialize (IH Hds).
  pose proof (area_silence_fills fb m d off n f Hf Hd Hn Hb) as H.
  destruct (snd_pcm_area_silence fb m d off n f) as [r m1]. destruct H as (_ & F1 & F2). cbn [snd].
  destruct (IH m1) as [I1 I2]. split.
  - intros [|c] d' i k Hc Hi Hk; [|apply (I1 c); done]. injection Hc as <-. rewrite I2; [apply F1; done|].
    intros c d' Hc Hin. refine (Hap c d' _ Hc _ Hin). exists i, k. done.
  - intros x Hx. rewrite I2, F2; [done| |].
    + intros i k Hi Hk ->. apply (Hx 0%nat d eq_refl). exists i, k. done.
    + intros c d' Hc. apply (Hx (S c) d' Hc).
Qed.

Lemma areas_copy_fills fb same dsts srcs m doff soff n f :
  byte_format f -> whole_areas f doff n dsts -> Forall (whole_area f soff n) srcs -> length dsts = length srcs ->
  0 <= n -> n * snd_pcm_format_physical_width f <= UINT_MAX -> (same && (doff =? soff)) = false ->
  (forall c c' d s x, dsts !! c = Some d -> srcs !! c' = Some s -> sample_in f doff n d x ->
     sample_in f soff n s x -> False) ->
  let m' := areas_copy_loop fb same m dsts doff srcs soff n f in
  (forall c d s i k, dsts !! c = Some d -> srcs !! c = Some s -> 0 <= i < n -> 0 <= k < sample_bytes f ->
     rd m' (snd_pcm_channel_area_addr d (doff + i) + k) = rd m (snd_pcm_channel_area_addr s (soff + i) + k)) /\
  (forall x, (forall c d, dsts !! c = Some d -> ~ sample_in f doff n d x) -> rd m' x = rd m x).
Proof.
  intros Hf Hd Hs Hlen Hn Hb Hsame Hap. cbn zeta. revert m srcs Hs Hlen Hap.
  induction dsts as [|d dsts IH]; intros m [|s srcs] Hs Hlen Hap; try done; cbn [areas_copy_loop].
  apply whole_areas_cons in Hd as (Hd & Hds & Hdd). apply Forall_cons in Hs as [Hs Hss].
  pose proof (area_copy_fills fb same m d doff s soff n f Hf Hd Hs Hn Hb Hsame) as H.
  specialize (H (fun x => Hap 0%nat 0%nat d s x eq_refl eq_refl)).
  destruct (snd_pcm_area_copy fb same m d doff s soff n f) as [r m1]. destruct H as (_ & F1 & F2). cbn [snd].
  destruct (IH Hds m1 srcs Hss) as [I1 I2]; [simpl in Hlen; lia|intros c c'; apply (Hap (S c) (S c'))|]. split.
  - intros [|c] d' s' i k Hc Hc' Hi Hk.
    + injection Hc as <-. injection Hc' as <-. rewrite I2; [apply F1; done|].
      intros c d' Hc Hin. refine (Hdd c d' _ Hc _ Hin). exists i, k. done.
    + rewrite (I1 c d' s' i k) by done. apply F2. intros i' k' Hi' Hk' Heq.
      apply (Hap 0%nat (S c) d s' (snd_pcm_channel_area_addr s' (soff + i) + k) eq_refl Hc').
      * exists i', k'. done.
      * exists i, k. done.
  - intros x Hx. rewrite I2, F2; [done| |].
    + intros i k Hi Hk ->. apply (Hx 0%nat d eq_refl). exists i, k. done.
    + intros c d' Hc. apply (Hx (S c) d' Hc).
Qed.

(** ** The theorems *)

(** C23. Copying between arrays of areas moves every sample and nothing else: for every
    whole-byte format, with areas whose samples are in place (each in its first 2^32
    bits) and no destination sample over a source sample or over another channel's,
    [snd_pcm_areas_copy] makes each byte of sample [i] of channel [c] the byte the source
    had there, at whatever steps the two sides have and by [memcpy] at once or sample by
    sample, and leaves every other byte as it was. *)
Theorem areas_copy_correct (fourbit same : bool) (m : mem) (dsts srcs : list snd_pcm_channel_area_t)
    (doff soff frames f : Z) :
  byte_format f -> whole_areas f doff frames dsts -> Forall (whole_area f soff frames) srcs ->
  length dsts = length srcs -> dsts <> [] -> 0 < frames ->
  frames * snd_pcm_format_physical_width f <= UINT_MAX -> (same && (doff =? soff)) = false ->
  (forall c c' d s x, dsts !! c = Some d -> srcs !! c' = Some s -> sample_in f doff frames d x ->
     sample_in f soff frames s x -> False) ->
  let '(r, m') := snd_pcm_areas_copy fourbit same m dsts doff srcs soff (Z.of_nat (length dsts)) frames f in
  r = 0 /\
  (forall c d s i k, dsts !! c = Some d -> srcs !! c = Some s -> 0 <= i < frames -> 0 <= k < sample_bytes f ->
     rd m' (snd_pcm_channel_area_addr d (doff + i) + k) = rd m (snd_pcm_channel_area_addr s (soff + i) + k)) /\
  (forall x, (forall c d, dsts !! c = Some d -> ~ sample_in f doff frames d x) -> rd m' x = rd m x).
Proof.
  intros Hf Hd Hs Hlen Hne Hn Hb Hsame Hap. pose proof Hf as (_ & Hw8 & _). unfold snd_pcm_areas_copy.
  destruct dsts as [|d0 dsts0] eqn:Hds; [done|]. rewrite <- Hds in *.
  destruct (Z.eqb_spec (Z.of_nat (length dsts)) 0) as [Hz|_]; [rewrite Hds in Hz; simpl in Hz; lia|].
  destruct (Z.eqb_spec frames 0); [lia|]. split; [done|]. rewrite u32_id by (unfold is_u32; nia).
  rewrite Nat2Z.id, firstn_all, Hlen, firstn_all.
  apply areas_copy_fills; try done. lia.
Qed.

(** Silencing an array of areas makes every sample the format's silence and changes
    no other byte, at whatever step, in one run or sample by sample. *)
Theorem areas_silence_correct (fourbit : bool) (m : mem) (dsts : list snd_pcm_channel_area_t) (off frames f : Z) :
  byte_format f -> whole_areas f off frames dsts -> 0 <= frames ->
  frames * snd_pcm_format_physical_width f <= UINT_MAX ->
  let '(r, m') := snd_pcm_areas_silence fourbit m dsts off (Z.of_nat (length dsts)) frames f in
  r = 0 /\
  (forall c d i k, dsts !! c = Some d -> 0 <= i < frames -> 0 <= k < sample_bytes f ->
     rd m' (snd_pcm_channel_area_addr d (off + i) + k) = nthz 0 (silence_bytes f) k) /\
  (forall x, (forall c d, dsts !! c = Some d -> ~ sample_in f off frames d x) -> rd m' x = rd m x).
Proof.
  intros Hf Hd Hn Hb. pose proof Hf as (_ & Hw8 & _). unfold snd_pcm_areas_silence. split; [done|].
  rewrite u32_id by (unfold is_u32; nia). rewrite Nat2Z.id, firstn_all. apply areas_silence_fills; done.
Qed.

(** Copying there and back leaves the source's samples as they were. *)
Lemma areas_copy_back fb m dsts srcs doff soff n f :
  byte_format f -> whole_areas f doff n dsts -> whole_areas f soff n srcs -> length dsts = length srcs ->
  0 <= n -> n * snd_pcm_format_physical_width f <= UINT_MAX ->
  (forall c c' d s x, dsts !! c = Some d -> srcs !! c' = Some s -> sample_in f doff n d x ->
     sample_in f soff n s x -> False) ->
  let m1 := areas_copy_loop fb false m dsts doff srcs soff n f in
  let m2 := areas_copy_loop fb false m1 srcs soff dsts doff n f in
  forall x, (forall c d, dsts !! c = Some d -> ~ sample_in f doff n d x) -> rd m2 x = rd m x.
Proof.
  intros Hf Hd Hs Hlen Hn Hb Hap m1 m2 x Hx.
  destruct (areas_copy_fills fb false dsts srcs m doff soff n f Hf Hd (proj1 Hs) Hlen Hn Hb eq_refl Hap) as [A1 A2].
  destruct (areas_copy_fills fb false srcs dsts m1 soff doff n f Hf Hs (proj1 Hd) (eq_sym Hlen) Hn Hb eq_refl) as [B1 B2].
  { intros c c' d s y Hc Hc' H1 H2. exact (Hap c' c s d y Hc' Hc H2 H1). }
  fold m1 in A1, A2. fold m2 in B1, B2.
  destruct (decide (Exists (fun cs => Exists (fun i => Exists (fun k =>
    x = snd_pcm_channel_area_addr cs (soff + i) + k) (zseq 0 (Z.to_nat (sample_bytes f))))
    (zseq 0 (Z.to_nat n))) srcs)) as [H|H].
  - apply Exists_exists in H as (s & Hs1 & H). apply Exists_exists in H as (i & Hi & H).
    apply Exists_exists in H as (k & Hk & ->). apply list_elem_of_In, zseq_In in Hi, Hk.
    apply list_elem_of_lookup in Hs1 as [c Hc].
    destruct (lookup_lt_is_Some_2 dsts c) as [d Hdc]; [rewrite Hlen; eapply lookup_lt_Some; done|].
    rewrite (B1 c s d i k Hc Hdc) by lia. apply (A1 c d s i k); try done; lia.
  - rewrite B2, A2; [done|done|]. intros c s Hc (i & k & Hi & Hk & ->). apply H.
    apply Exists_exists. exists s. split; [eapply list_elem_of_lookup_2; done|].
    apply Exists_exists. exists i. split; [apply list_elem_of_In, zseq_In; lia|].
    apply Exists_exists. exists k. split; [apply list_elem_of_In, zseq_In; lia|done].
Qed.

(** An interleaved buffer of [n] channels at [base]. *)
Definition interleaved (f base n : Z) : list snd_pcm_channel_area_t :=
  (fun c => Area base (c * snd_pcm_format_physical_width f) (n * snd_pcm_format_physical_width f)) <$> zseq 0 (Z.to_nat n).

(** The samples of an interleaved buffer are in place, whatever the format. *)
Lemma interleaved_whole f base n off frames :
  byte_format f -> base <> 0 -> 0 < n -> 0 <= off -> 0 <= frames ->
  n * (off + frames + 1) * snd_pcm_format_physical_width f <= UINT_MAX ->
  whole_areas f off frames (interleaved f base n).
Proof.
  intros Hf Hbase Hn Ho Hfr Hb. destruct (byte_format_facts f Hf) as (Hw & Hw1 & _). unfold UINT_MAX in Hb.
  assert (Hat : forall c a, interleaved f base n !! c = Some a ->
    a = Area base (Z.of_nat c * (8 * sample_bytes f)) (n * (8 * sample_bytes f)) /\ Z.of_nat c < n).
  { unfold interleaved. rewrite Hw. intros c a H. rewrite list_lookup_fmap in H.
    destruct (decide (c < Z.to_nat n)%nat) as [Hc|Hc].
    - rewrite zseq_lookup in H by done. injection H as <-. split; [done|lia].
    - rewrite lookup_ge_None_2 in H by (rewrite zseq_length; lia). done. }
  assert (Haddr : forall c i, 0 <= c < n -> 0 <= i < frames ->
    snd_pcm_channel_area_addr (Area base (c * (8 * sample_bytes f)) (n * (8 * sample_bytes f))) (off + i) =
    base + (c + n * (off + i)) * sample_bytes f).
  { intros c i Hc Hi. unfold snd_pcm_channel_area_addr. simpl.
    replace (c * (8 * sample_bytes f) + n * (8 * sample_bytes f) * (off + i))
      with ((c + n * (off + i)) * sample_bytes f * 8) by lia.
    assert (0 <= n * (off + i) <= n * (off + frames)) by nia.
    rewrite u32_id by (unfold is_u32, UINT_MAX; nia). rewrite Z.div_mul by lia. done. }
  split.
  - apply Forall_lookup. intros c a Ha. destruct (Hat c a Ha) as [-> Hc]. unfold whole_area, UINT_MAX. simpl.
    rewrite Hw. repeat split; try done; try nia.
    replace (n * (8 * sample_bytes f)) with (n * sample_bytes f * 8) by lia. apply Z.mod_mul. lia.
  - intros c c' a a' x Ha Ha' Hne (i & k & Hi & Hk & Hx) (i' & k' & Hi' & Hk' & Hx').
    destruct (Hat c a Ha) as [-> Hc], (Hat c' a' Ha') as [-> Hc']. rewrite Haddr in Hx, Hx' by lia.
    destruct (Z.div_mod_unique (sample_bytes f) (Z.of_nat c + n * (off + i)) (Z.of_nat c' + n * (off + i')) k k')
      as [Hq _]; [lia..|].
    destruct (Z.div_mod_unique n (off + i) (off + i') (Z.of_nat c) (Z.of_nat c')) as [_ Hr]; lia.
Qed.

(** ** Witnesses *)

(** Evaluate closed sample addresses. *)
Ltac eval_addr :=
  repeat match goal with
  | |- context [snd_pcm_channel_area_addr ?a ?i] =>
      let v := eval vm_compute in (snd_pcm_channel_area_addr a i) in
      change (snd_pcm_channel_area_addr a i) with v
  end.

(** A stereo buffer of 16-bit samples at 1000, with three frames. *)
Definition stereo : mem := write_bytes ∅ 1000 [1; 2; 3; 4; 5; 6; 7; 8; 9; 10; 11; 12].

(** Buffers of their own for the two channels. *)
Definition planar : list snd_pcm_channel_area_t := [Area 2000 0 16; Area 3000 0 16].

Lemma s16_format : byte_format FORMAT_S16_LE.
Proof. by_decide. Qed.

(** The channels from the second frame on. *)
Lemma planar_at c d x :
  planar !! c = Some d -> sample_in FORMAT_S16_LE 0 2 d x ->
  (c = 0%nat /\ 2000 <= x < 2004) \/ (c = 1%nat /\ 3000 <= x < 3004).
Proof.
  intros Hc (i & k & Hi & Hk & ->). change (sample_bytes FORMAT_S16_LE) with 2 in Hk.
  assert (i = 0 \/ i = 1) as [->| ->] by lia; destruct c as [|[|c]]; try done; injection Hc as <-;
    [left|right|left|right]; (split; [done|]); eval_addr; lia.
Qed.

Lemma stereo_at c s x :
  interleaved FORMAT_S16_LE 1000 2 !! c = Some s -> sample_in FORMAT_S16_LE 1 2 s x -> 1000 <= x < 1012.
Proof.
  intros Hc (i & k & Hi & Hk & ->). change (sample_bytes FORMAT_S16_LE) with 2 in Hk.
  change (interleaved FORMAT_S16_LE 1000 2) with [Area 1000 0 32; Area 1000 16 32] in Hc.
  assert (i = 0 \/ i = 1) as [->| ->] by lia; destruct c as [|[|c]]; try done; injection Hc as <-;
    eval_addr; lia.
Qed.

Lemma planar_whole : whole_areas FORMAT_S16_LE 0 2 planar.
Proof.
  split; [by_decide|]. intros c c' a a' x Ha Ha' Hne H1 H2.
  pose proof (planar_at c a x Ha H1). pose proof (planar_at c' a' x Ha' H2). lia.
Qed.

Lemma areas_copy_correct_witness :
  let '(r, m') := snd_pcm_areas_copy false false stereo planar 0 (interleaved FORMAT_S16_LE 1000 2) 1 2 2 FORMAT_S16_LE in
  r = 0 /\ rd m' 3002 = 11 /\ rd m' 1000 = 1.
Proof.
  pose proof (areas_copy_correct false false stereo planar (interleaved FORMAT_S16_LE 1000 2) 0 1 2 FORMAT_S16_LE
    s16_format planar_whole) as H.
  specialize (H (proj1 (interleaved_whole FORMAT_S16_LE 1000 2 1 2 s16_format ltac:(lia) ltac:(lia) ltac:(lia)
    ltac:(lia) ltac:(vm_compute; discriminate))) eq_refl ltac:(discriminate) ltac:(lia)
    ltac:(vm_compute; discriminate) eq_refl).
  assert (Hap : forall c c' d s x, planar !! c = Some d -> interleaved FORMAT_S16_LE 1000 2 !! c' = Some s ->
    sample_in FORMAT_S16_LE 0 2 d x -> sample_in FORMAT_S16_LE 1 2 s x -> False).
  { intros c c' d s x Hc Hc' H1 H2. pose proof (planar_at c d x Hc H1). pose proof (stereo_at c' s x Hc' H2). lia. }
  specialize (H Hap). change (Z.of_nat (length planar)) with 2 in H.
  destruct (snd_pcm_areas_copy _ _ _ _ _ _ _ _ _ _) as [r m']. destruct H as (Hr & H1 & H2).
  split; [exact Hr|]. split.
  - specialize (H1 1%nat (Area 3000 0 16) (Area 1000 16 32) 1 0 eq_refl eq_refl ltac:(lia)
      ltac:(vm_compute; split; [discriminate|reflexivity])). exact H1.
  - rewrite H2; [reflexivity|]. intros c d Hc Hin. pose proof (planar_at c d 1000 Hc Hin). lia.
Defined.

Lemma areas_silence_correct_witness :
  let '(r, m') := snd_pcm_areas_silence false stereo (interleaved FORMAT_U16_LE 1000 2) 1 2 1 FORMAT_U16_LE in
  r = 0 /\ rd m' 1007 = 128.
Proof.
  pose proof (areas_silence_correct false stereo (interleaved FORMAT_U16_LE 1000 2) 1 1 FORMAT_U16_LE
    ltac:(by_decide)
    (interleaved_whole FORMAT_U16_LE 1000 2 1 1 ltac:(by_decide) ltac:(lia) ltac:(lia) ltac:(lia) ltac:(lia)
      ltac:(vm_compute; discriminate)) ltac:(lia) ltac:(vm_compute; discriminate)) as H.
  change (Z.of_nat (length (interleaved FORMAT_U16_LE 1000 2))) with 2 in H.
  destruct (snd_pcm_areas_silence _ _ _ _ _ _ _) as [r m']. destruct H as (Hr & H1 & _). split; [exact Hr|].
  exact (H1 1%nat (Area 1000 16 32) 0 1 eq_refl ltac:(lia) ltac:(vm_compute; split; [discriminate|reflexivity])).
Defined.

(** ** Four-bit samples *)

(** Copying a 4-bit sample from the low half of a byte to the high half of another
    loses it: [area_copy_4bit] does not shift it, so the destination's half becomes 0
    and the sample goes into its neighbour, the low half. *)
Theorem copy_4bit_misplaced (m : mem) (d s : snd_pcm_channel_area_t) (doff soff f : Z) :
  area_first s mod 8 = 4 -> area_first d mod 8 = 0 ->
  let src := snd_pcm_channel_area_addr s soff in
  let dst := snd_pcm_channel_area_addr d doff in
  let '(r, m') := area_copy_4bit true m d doff s soff 1 f in
  r = 0 /\ Z.land (rd m' dst) 240 = 0 /\
  Z.land (rd m' dst) 15 = Z.lor (Z.land (rd m dst) 15) (Z.land (rd m src) 15).
Proof.
  intros Hs Hd. unfold area_copy_4bit. cbn [negb]. change (Z.to_nat 1) with 1%nat. cbn [copy_4bit_loop at_bit at_byte].
  rewrite Hs, Hd. cbn [nz negb]. change (nz 4) with true. change (nz 0) with false. cbv iota. split; [done|].
  unfold rd. rewrite !lookup_insert_eq. cbn [default id].
  rewrite !Z.land_lor_distr_l, <- !Z.land_assoc. change (Z.land 15 240) with 0. change (Z.land 15 15) with 15.
  rewrite !Z.land_0_r. done.
Qed.

Lemma copy_4bit_misplaced_witness :
  let '(_, m') := area_copy_4bit true {[10 := 0; 20 := 7]} (Area 10 0 4) 0 (Area 20 4 4) 0 1 0 in
  Z.land (rd m' 10) 240 = 0 /\ Z.land (rd m' 10) 15 = 7.
Proof.
  pose proof (copy_4bit_misplaced {[10 := 0; 20 := 7]} (Area 10 0 4) (Area 20 4 4) 0 0 0 eq_refl eq_refl) as H.
  destruct (area_copy_4bit _ _ _ _ _ _ _ _) as [r m']. destruct H as (_ & H1 & H2). split; [exact H1|exact H2].
Defined.
