(* ===== verification/Chmap.v ===== *)
(** * Channel maps

    src/src/pcm.c 1136-1481 and pcm_macros.h 2383-2411: asking a card for the channel
    maps of a PCM, reading and setting the current one, and channel maps as text. *)

From stdpp Require Import gmap pretty.
From Stdlib Require Import Ascii String.
From S2P Require Import Prelude CInt Sys Cards Async CtlTypes Control CtlAscii PcmTypes.
#[local] Open Scope Z_scope.

Definition EPERM : Z := 1.
Definition IFACE_PCM : Z := 3.

(* [asound.h 585-591 snd_pcm_chmap_type] *)
Definition CHMAP_TYPE_LAST : Z := 3.

(* [asound.h 593-632 snd_pcm_chmap_position] *)
Definition CHMAP_LAST : Z := 36.

(* [asound.h 634-637 SND_CHMAP_POSITION_MASK] *)
Definition CHMAP_POSITION_MASK : Z := 65535.
Definition CHMAP_PHASE_INVERSE : Z := 65536.
Definition CHMAP_DRIVER_SPEC : Z := 131072.

(** The block, and a position for each channel. *)
(* [asound.h 639-642 snd_pcm_chmap] *)
Record snd_pcm_chmap_t := Chmap { cm_block : Z; pos : list Z }.

(* [asound.h 644-647 snd_pcm_chmap_query] *)
Record snd_pcm_chmap_query_t := ChmapQuery { q_type : Z; q_map : snd_pcm_chmap_t }.

Definition cm_channels (map : snd_pcm_chmap_t) : Z := Z.of_nat (List.length (pos map)).

(** ** Names *)

(* [pcm.c 1297-1301 _snd_chmap_type_names] *)
Definition _snd_chmap_type_names : list string := ["NONE"; "FIXED"; "VAR"; "PAIRED"]%string.

(* [pcm.c 1303-1319 _snd_chmap_names] *)
Definition _snd_chmap_names : list string :=
  ["UNKNOWN"; "NA"; "MONO"; "FL"; "FR"; "RL"; "RR"; "FC"; "LFE"; "SL"; "SR"; "RC"; "FLC"; "FRC"; "RLC";
   "RRC"; "FLW"; "FRW"; "FLH"; "FCH"; "FRH"; "TC"; "TFL"; "TFR"; "TFC"; "TRL"; "TRR"; "TRC"; "TFLC"; "TFRC";
   "TSL"; "TSR"; "LLFE"; "RLFE"; "BC"; "BLC"; "BRC"]%string.

(* [pcm.c 1321-1359 _snd_chmap_long_names] *)
Definition _snd_chmap_long_names : list string :=
  ["Unknown"; "Unused"; "Mono"; "Front Left"; "Front Right"; "Rear Left"; "Rear Right"; "Front Center"; "LFE";
   "Side Left"; "Side Right"; "Rear Center"; "Front Left Center"; "Front Right Center"; "Rear Left Center";
   "Rear Right Center"; "Front Left Wide"; "Front Right Wide"; "Front Left High"; "Front Center High";
   "Front Right High"; "Top Center"; "Top Front Left"; "Top Front Right"; "Top Front Center"; "Top Rear Left";
   "Top Rear Right"; "Top Rear Center"; "Top Front Left Center"; "Top Front Right Center"; "Top Side Left";
   "Top Side Right"; "Left LFE"; "Right LFE"; "Bottom Center"; "Bottom Left Center"; "Bottom Right Center"]%string.

(** [None] outside the table. *)
Definition name_in (l : list string) (i : Z) : option string := l !! Z.to_nat i.

(* [pcm_macros.h 2394-2398 snd_pcm_chmap_type_name] *)
Definition snd_pcm_chmap_type_name (val : Z) : option string := name_in _snd_chmap_type_names val.

(* [pcm_macros.h 2400-2404 snd_pcm_chmap_name] *)
Definition snd_pcm_chmap_name (val : Z) : option string := name_in _snd_chmap_names val.

(* [pcm_macros.h 2406-2410 snd_pcm_chmap_long_name] *)
Definition snd_pcm_chmap_long_name (val : Z) : option string := name_in _snd_chmap_long_names val.

(** ** Printing *)

(** [len += snprintf(buf + len, maxlen - len, ...)] where [s] is what it prints: the
    text in the buffer, without its end, and the length. *)
Definition snprintf_at (maxlen : Z) (p : Z * string) (s : string) : Z * string :=
  (u32 (fst p + Z.of_nat (String.length s)),
   String.append (snd p) (substring 0 (Z.to_nat (maxlen - fst p - 1)) s)).

(** One position; every entry of the table has a name, so that "Ch%d" is not reached;
    [None] where the table is read past its end, [inl] on return. *)
(* [pcm.c 1366-1389 snd_pcm_chmap_print] *)
Definition print_position (maxlen : Z) (v : Z) (p : Z * string) : option (string + Z * string) :=
  let n := Z.land v CHMAP_POSITION_MASK in
  match (if nz (Z.land v CHMAP_DRIVER_SPEC) then Some (pretty n) else name_in _snd_chmap_names n) with
  | None => None
  | Some name =>
      let p := snprintf_at maxlen p name in
      if maxlen <=? fst p then Some (inl (snd p))
      else if nz (Z.land v CHMAP_PHASE_INVERSE) then
        let p := snprintf_at maxlen p "[INV]" in
        if maxlen <=? fst p then Some (inl (snd p)) else Some (inr p)
      else Some (inr p)
  end.

Fixpoint print_loop (maxlen : Z) (first : bool) (l : list Z) (p : Z * string) : option (Z * string) :=
  match l with
  | [] => Some (s32 (fst p), snd p)
  | v :: l =>
      let p := if first then p else snprintf_at maxlen p " " in
      if negb first && (maxlen <=? fst p) then Some (- ENOMEM, snd p)
      else
        match print_position maxlen v p with
        | None => None
        | Some (inl buf) => Some (- ENOMEM, buf)
        | Some (inr p) => print_loop maxlen false l p
        end
  end.

(* [pcm.c 1361-1392 snd_pcm_chmap_print] *)
Definition snd_pcm_chmap_print (map : snd_pcm_chmap_t) (maxlen : Z) : option (Z * string) :=
  print_loop maxlen true (pos map) (0, ""%string).

(** ** Parsing *)

Definition isdigit (c : ascii) : bool := (48 <=? Cards.code c) && (Cards.code c <=? 57).
Definition isalpha (c : ascii) : bool :=
  let n := Cards.code c in ((65 <=? n) && (n <=? 90)) || ((97 <=? n) && (n <=? 122)).
Definition isalnum (c : ascii) : bool := isdigit c || isalpha c.

(** [strtoul(s, &p, 0)]: the number and what follows; the whole string where there is no
    number. *)
Definition strtoul (s0 : string) : Z * string :=
  let '(neg, s) := signed (skip_space s0) in
  let '(base, s) :=
    match s with
    | String "0" (String ("x" | "X") s') =>
        match s' with
        | String c _ => match digit 16 c with Some _ => (16, s') | None => (8, s) end
        | EmptyString => (8, s)
        end
    | String "0" _ => (8, s)
    | _ => (10, s)
    end in
  match digits base s 0 false with
  | Some (v, rest) => (if ULONG_MAX <? v then ULONG_MAX else if neg then u64 (- v) else v, rest)
  | None => (0, s0)
  end.

(** The rest of a string from its [n]th character on. *)
Definition skip (n : nat) (s : string) : string := substring n (String.length s - n) s.

(** [isalpha(str[n])]; the end of the string is no letter. *)
Definition alpha_at (n : nat) (s : string) : bool :=
  match String.get n s with Some c => isalpha c | None => false end.

(** The search of the names from [val] on. *)
(* [pcm.c 1414-1424 str_to_chmap] *)
Fixpoint find_name (str : string) (len : Z) (val : Z) (names : list string) : option (Z * string) :=
  match names with
  | [] => None
  | name :: names =>
      let slen := String.length name in
      if len <? Z.of_nat slen then find_name str len (val + 1) names
      else if (strncasecmp str name slen =? 0) && negb (alpha_at slen str) then Some (val, skip slen str)
      else find_name str len (val + 1) names
  end.

(* [pcm.c 1394-1431 str_to_chmap] *)
Definition str_to_chmap (str : string) (len : Z) : Z :=
  let finish val str :=
    if strncasecmp str "[INV]" 5 =? 0 then Z.lor val CHMAP_PHASE_INVERSE else val in
  if match str with String c _ => isdigit c | EmptyString => false end then
    let '(v, p) := strtoul str in
    if v =? ULONG_MAX then -1 else finish (Z.lor (s32 v) CHMAP_DRIVER_SPEC) p
  else if strncasecmp str "ch" 2 =? 0 then
    let '(v, p) := strtoul (skip 2 str) in
    if v =? ULONG_MAX then -1 else finish (s32 v) p
  else
    match find_name str len 0 _snd_chmap_names with
    | None => -1
    | Some (val, str) => finish val str
    end.

(* [pcm.c 1433-1436 snd_pcm_chmap_from_string] *)
Definition snd_pcm_chmap_from_string (str : string) : Z :=
  u32 (str_to_chmap str (Z.of_nat (String.length str))).

(** The length of the run of letters and digits. *)
Fixpoint run_alnum (s : string) : nat :=
  match s with
  | String c s => if isalnum c then S (run_alnum s) else O
  | EmptyString => O
  end.

Fixpoint skip_nonalnum (s : string) : string :=
  match s with
  | String c s' => if isalnum c then s else skip_nonalnum s'
  | EmptyString => s
  end.

(** [room] is what is left of [tmp_map]. *)
(* [pcm.c 1444-1471 snd_pcm_chmap_parse_string] *)
Fixpoint parse_positions (room : nat) (str : string) : option (list Z) :=
  match room with
  | O => None
  | S room =>
      let len := run_alnum str in
      if (len =? 0)%nat then None
      else
        let val := str_to_chmap str (Z.of_nat len) in
        if val <? 0 then None
        else
          let str := skip len str in
          let '(val, str) :=
            match after_prefix "[INV]" str with
            | Some str => (Z.lor val CHMAP_PHASE_INVERSE, str)
            | None => (val, str)
            end in
          let str := skip_nonalnum str in
          if String.eqb str "" then Some [val]
          else match parse_positions room str with Some l => Some (val :: l) | None => None end
  end.

Section Chmap.
Context {K : Type} `{!Os K, !AsyncKernel K, !CardKernel K, !CtlKernel K}.

(* [pcm.c 1438-1479 snd_pcm_chmap_parse_string] *)
Definition snd_pcm_chmap_parse_string (str : string) : io (world K) (option snd_pcm_chmap_t) :=
  match parse_positions 64 str with
  | None => ret None
  | Some l =>
      let* p := sys_alloc (4 + 4 * Z.of_nat (List.length l)) in
      ret (match p with Some a => Some (Chmap a l) | None => None end)
  end.

(** ** The card's channel maps *)

(** The id of the control element with the map. *)
Definition chmap_id (dev subdev stream : Z) : snd_ctl_elem_id_t :=
  ElemId 0 IFACE_PCM (u32 dev) 0
    (if stream =? STREAM_PLAYBACK then "Playback Channel Map" else "Capture Channel Map") (u32 subdev).

(** [none] is what [arg] holds where [func] is not reached. *)
(* [pcm.c 1141-1168 do_ctl_chmap] *)
Definition do_ctl_chmap {A} (card dev subdev stream : Z)
  (func : snd_ctl_t -> snd_ctl_elem_id_t -> io (proc K) (Z * A)) (none : A) : io (proc K) (Z * A) :=
  let* '(r, ctl) := snd_ctl_open (String.append "hw:" (pretty card)) 0 in
  match ctl with
  | None => ret (r, none)
  | Some ctl =>
      let* '(r, a) := func ctl (chmap_id dev subdev stream) in
      let* _ := snd_ctl_close ctl in
      ret (if r <? 0 then r else 0, a)
  end.

Definition TLV_SIZE : Z := 256.

(* [pcm.c 1172-1175 do_read_tlv] *)
Definition do_read_tlv (junk : snd_ctl_elem_info_t) (heap stack : list Z) (ctl : snd_ctl_t)
  (id : snd_ctl_elem_id_t) : io (proc K) (Z * list Z) :=
  snd_ctl_elem_tlv_read junk heap ctl id stack (TLV_SIZE * 4).

(* [pcm.c 1177-1181 is_chmap_type] *)
Definition is_chmap_type (type : Z) : bool := (257 <=? type) && (type <=? 259).

(** The number of maps in a container: [Some (inr n)]; [Some (inl tt)] for another
    element among them, [None] for a read past the array.  The walk moves on by two
    words at least, so 129 rounds leave the array. *)
(* [pcm.c 1205-1211 snd_pcm_query_chmaps_from_hw] *)
Fixpoint count_chmaps (fuel : nat) (tlv : list Z) (p size nums : Z) : option (unit + Z) :=
  match fuel with
  | O => None
  | S fuel =>
      if size <=? 0 then Some (inr nums)
      else
        match tlv !! Z.to_nat p, tlv !! Z.to_nat (p + 1) with
        | Some t, Some n =>
            if negb (is_chmap_type t) then Some (inl tt)
            else count_chmaps fuel tlv (p + n / 4 + 2) (s32 (u32 size - (n + 8))) (nums + 1)
        | Some t, None => if negb (is_chmap_type t) then Some (inl tt) else None
        | None, _ => None
        end
  end.

(* [pcm.c 1232-1237 snd_pcm_free_chmaps] *)
Fixpoint free_chmap_blocks (l : list snd_pcm_chmap_query_t) : io (world K) unit :=
  match l with
  | [] => ret tt
  | q :: l => let* _ := sys_free (cm_block (q_map q)) in free_chmap_blocks l
  end.

(** The array's block and the entries before its NULL. *)
(* [pcm.c 1230-1238 snd_pcm_free_chmaps] *)
Definition snd_pcm_free_chmaps (maps : option (Z * list snd_pcm_chmap_query_t)) : io (world K) unit :=
  match maps with
  | None => ret tt
  | Some (a, l) => let* _ := free_chmap_blocks l in sys_free a
  end.

(** [done] are the entries made so far, and [block] is the array.  [None] where the
    data is read past its end, [Some None] is NULL. *)
(* [pcm.c 1216-1227 snd_pcm_query_chmaps_from_hw] *)
Fixpoint make_chmaps (n : nat) (tlv : list Z) (start block : Z) (done : list snd_pcm_chmap_query_t)
  : io (world K) (option (option (Z * list snd_pcm_chmap_query_t))) :=
  match n with
  | O => ret (Some (Some (block, done)))
  | S n =>
      match tlv !! Z.to_nat start, tlv !! Z.to_nat (start + 1) with
      | Some type, Some bytes =>
          let* p := sys_alloc (u32 (bytes + 8)) in
          match p with
          | None => let* _ := snd_pcm_free_chmaps (Some (block, done)) in ret (Some None)
          | Some a =>
              if Z.of_nat (List.length tlv) * 4 <? (start + 2) * 4 + bytes then ret None
              else
                let pos := take (Z.to_nat (bytes / 4)) (drop (Z.to_nat (start + 2)) tlv) in
                make_chmaps n tlv (start + bytes / 4 + 2) block
                  (done ++ [ChmapQuery (type - 256) (Chmap a pos)])
          end
      | _, _ => ret None
      end
  end.

(** What is made of the TLV data. *)
(* [pcm.c 1194-1227 snd_pcm_query_chmaps_from_hw] *)
Definition query_tlv (tlv : list Z) : io (world K) (option (option (Z * list snd_pcm_chmap_query_t))) :=
  let found :=
    if negb (nthz 0 tlv 0 =? 0) then
      if is_chmap_type (nthz 0 tlv 0) then Some (inr (0, 1)) else Some (inl tt)
    else
      match count_chmaps 130 tlv 2 (s32 (nthz 0 tlv 1)) 0 with
      | Some (inr nums) => Some (inr (2, nums))
      | Some (inl _) => Some (inl tt)
      | None => None
      end in
  match found with
  | None => ret None
  | Some (inl _) => ret (Some None)
  | Some (inr (start, nums)) =>
      let* map := sys_alloc (8 * (nums + 1)) in
      match map with
      | None => ret (Some None)
      | Some a => make_chmaps (Z.to_nat nums) tlv start a []
      end
  end.

(** [stack] is the array before it is filled: 256 words. *)
(* [pcm.c 1183-1228 snd_pcm_query_chmaps_from_hw] *)
Definition snd_pcm_query_chmaps_from_hw (junk : snd_ctl_elem_info_t) (heap stack : list Z)
  (card dev subdev stream : Z) : io (proc K) (option (option (Z * list snd_pcm_chmap_query_t))) :=
  let* '(r, tlv) := do_ctl_chmap card dev subdev stream (do_read_tlv junk heap stack) stack in
  if r <? 0 then ret (Some None) else onsys (query_tlv tlv).

(* [pcm_macros.h 2383-2388 snd_pcm_query_chmaps] *)
Definition snd_pcm_query_chmaps (junk : snd_ctl_elem_info_t) (heap stack : list Z) (pcm : snd_pcm_t)
  : io (proc K) (option (option (Z * list snd_pcm_chmap_query_t))) :=
  snd_pcm_query_chmaps_from_hw junk heap stack (card pcm) (device pcm) (subdevice pcm) (stream pcm).

(** ** The current map *)

(** The value of the element [id]; the rest of the structure is zero. *)
Definition value_of (id : snd_ctl_elem_id_t) : snd_ctl_elem_value_t :=
  let v := zero_value in ElemValue id (val_integer v) (val_enumerated v) (val_bytes v) (val_iec958 v).

(* [pcm.c 1240-1253 do_get_chmap] *)
Definition do_get_chmap (n : nat) (ctl : snd_ctl_t) (id : snd_ctl_elem_id_t) : io (proc K) (Z * list Z) :=
  let* '(ret_, val) := snd_ctl_elem_read ctl (value_of id) in
  if ret_ <? 0 then ret (ret_, [])
  else ret (0, map (fun i => u32 (nthz 0 (val_integer val) i)) (zseq 0 n)).

(** [NULL] is [None]. *)
(* [pcm.c 1255-1270 snd_pcm_get_chmap] *)
Definition snd_pcm_get_chmap (pcm : snd_pcm_t) : io (proc K) (option snd_pcm_chmap_t) :=
  let* p := onsys (sys_alloc (channels pcm * 4 + 4)) in
  match p with
  | None => ret None
  | Some a =>
      let* '(r, l) := do_ctl_chmap (card pcm) (device pcm) (subdevice pcm) (stream pcm)
                        (do_get_chmap (Z.to_nat (channels pcm))) [] in
      if r <? 0 then let* _ := onsys (sys_free a) in ret None
      else ret (Some (Chmap a l))
  end.

Fixpoint put_positions (i : Z) (l : list Z) (v : snd_ctl_elem_value_t) : snd_ctl_elem_value_t :=
  match l with
  | [] => v
  | x :: l => put_positions (i + 1) l (set_integer i x v)
  end.

(* [pcm.c 1272-1281 do_set_chmap] *)
Definition do_set_chmap (l : list Z) (ctl : snd_ctl_t) (id : snd_ctl_elem_id_t) : io (proc K) (Z * unit) :=
  let* '(r, _) := snd_ctl_elem_write ctl (put_positions 0 l (value_of id)) in
  ret (r, tt).

(* [pcm.c 1283-1295 snd_pcm_set_chmap] *)
Definition snd_pcm_set_chmap (pcm : snd_pcm_t) (map : snd_pcm_chmap_t) : io (proc K) Z :=
  if 128 <? cm_channels map then ret (- EINVAL)
  else
    let* '(r, _) := do_ctl_chmap (card pcm) (device pcm) (subdevice pcm) (stream pcm) (do_set_chmap (pos map)) tt in
    ret (if (r =? - ENOENT) || (r =? - EPERM) then - ENXIO else r).
End Chmap.
