(* ===== verification/ChmapSpec.v ===== *)
(** * Channel maps: printing, parsing, asking

    The theorems about Chmap.v: a map's text is printed exactly, as far as the buffer
    goes, and parses back to the map; the TLV data of a driver is taken apart into the
    maps it was put together from; and asking for maps leaves nothing behind but them. *)

From stdpp Require Import gmap pretty.
From Stdlib Require Import Ascii String.
From S2P Require Import Prelude CInt Sys Cards Async CtlTypes Tlv Control ControlSpec CtlAscii PcmTypes Chmap Toy.
#[local] Open Scope Z_scope.

(** ** Strings *)

Lemma append_cons c a b : String.append (String c a) b = String c (String.append a b).
Proof. done. Qed.

Lemma append_nil s : String.append s "" = s.
Proof. induction s as [|c s IH]; [done|]. rewrite ?append_cons, IH. done. Qed.

(** The part of [s] that still fits behind [t]. *)
Lemma substring_append n t s :
  (String.length t <= n)%nat ->
  substring 0 n (String.append t s) = String.append t (substring 0 (n - String.length t) s).
Proof.
  revert n. induction t as [|c t IH]; intros n H; [simpl; rewrite Nat.sub_0_r; done|].
  simpl in H. destruct n as [|n]; [lia|]. rewrite !append_cons. simpl. rewrite IH by lia. done.
Qed.

Lemma substring_prefix n t s :
  (n <= String.length t)%nat -> substring 0 n (String.append t s) = substring 0 n t.
Proof.
  revert n. induction t as [|c t IH]; intros [|n] H; simpl in H; try lia; try done.
  - destruct s; done.
  - rewrite append_cons. simpl. rewrite IH by lia. done.
Qed.

Lemma skip_append a b : skip (String.length a) (String.append a b) = b.
Proof.
  unfold skip. rewrite length_append.
  replace (String.length a + String.length b - String.length a)%nat with (String.length b) by lia.
  induction a as [|c a IH]; [apply substring_all; lia|exact IH].
Qed.

(** ** Printing *)

(** The name of a position, and its text. *)
Definition pos_name (v : Z) : string :=
  let n := Z.land v CHMAP_POSITION_MASK in
  if nz (Z.land v CHMAP_DRIVER_SPEC) then pretty n else default "" (name_in _snd_chmap_names n).

Definition inv_text (v : Z) : string := if nz (Z.land v CHMAP_PHASE_INVERSE) then "[INV]" else "".

(** The text of a map: the positions, a blank between two. *)
Fixpoint map_text (l : list Z) : string :=
  match l with
  | [] => ""
  | v :: l =>
      let s := String.append (pos_name v) (inv_text v) in
      match l with [] => s | _ => String.append s (String.append " " (map_text l)) end
  end.

(** A position the interface knows: a number of its own for the driver's, or a name. *)
Definition valid_pos (v : Z) : Prop :=
  0 <= v < 262144 /\ (Z.land v CHMAP_DRIVER_SPEC <> 0 \/ Z.land v CHMAP_POSITION_MASK <= CHMAP_LAST).

#[export] Instance valid_pos_dec v : Decision (valid_pos v).
Proof. unfold valid_pos. apply _. Defined.

(** What is in the buffer once [t] has been printed. *)
Definition in_buffer (maxlen : Z) (t : string) : Z * string :=
  (Z.of_nat (String.length t), substring 0 (Z.to_nat (maxlen - 1)) t).

Lemma snprintf_at_spec maxlen t s :
  0 < maxlen <= INT_MAX -> Z.of_nat (String.length t) < maxlen -> (String.length s <= 16)%nat ->
  snprintf_at maxlen (in_buffer maxlen t) s = in_buffer maxlen (String.append t s).
Proof.
  unfold INT_MAX. intros Hm Ht Hs. unfold snprintf_at, in_buffer. cbn [fst snd].
  rewrite length_append, u32_id by (unfold is_u32, UINT_MAX; lia). f_equal; [lia|].
  rewrite substring_append by lia. rewrite substring_all by lia. do 2 f_equal. lia.
Qed.

(** What is in the buffer is a part of the whole once it is full. *)
Lemma full_buffer maxlen t s :
  maxlen <= Z.of_nat (String.length t) -> (in_buffer maxlen t).2 = (in_buffer maxlen (String.append t s)).2.
Proof. intros H. unfold in_buffer. simpl. symmetry. apply substring_prefix. lia. Qed.

(** The result of printing the text [s]. *)
Definition print_result (maxlen : Z) (s : string) : Z * string :=
  (if Z.of_nat (String.length s) <? maxlen then Z.of_nat (String.length s) else - ENOMEM,
   substring 0 (Z.to_nat (maxlen - 1)) s).

(** The number of a position. *)
Lemma pos_number v : 0 <= Z.land v CHMAP_POSITION_MASK < 65536 /\ Z.land v CHMAP_POSITION_MASK = v mod 65536.
Proof.
  assert (H : Z.land v CHMAP_POSITION_MASK = v mod 65536).
  { change CHMAP_POSITION_MASK with (Z.ones 16). rewrite Z.land_ones by lia. done. }
  split; [|done]. rewrite H. apply Z.mod_pos_bound. lia.
Qed.

Lemma short_number n : 0 <= n < 65536 -> (String.length (pretty n) <= 16)%nat.
Proof.
  intros Hn. destruct n as [|q|q]; [vm_compute; lia| |lia].
  assert (He : pretty (Z.pos q) = pretty_N_go (Npos q) "") by done. rewrite He.
  etransitivity; [apply (length_go _ _ 5)|simpl; lia]. change (10 ^ Z.of_nat 5) with 100000. lia.
Qed.

Lemma short_name v : valid_pos v -> (String.length (pos_name v) <= 16)%nat /\
  (if nz (Z.land v CHMAP_DRIVER_SPEC) then Some (pretty (Z.land v CHMAP_POSITION_MASK))
   else name_in _snd_chmap_names (Z.land v CHMAP_POSITION_MASK)) = Some (pos_name v).
Proof.
  intros [_ Hn]. unfold pos_name. destruct (pos_number v) as [Hr _]. set (n := Z.land v CHMAP_POSITION_MASK) in *.
  destruct (nz (Z.land v CHMAP_DRIVER_SPEC)) eqn:Hd; [split; [apply short_number|]; done|].
  apply nz_false in Hd. destruct Hn as [Hn|Hn]; [done|]. unfold CHMAP_LAST in Hn.
  assert (H : forallb (fun n => match name_in _snd_chmap_names n with
    | Some name => (String.length name <=? 16)%nat | None => false end) (zseq 0 37) = true) by (vm_compute; reflexivity).
  rewrite List.forallb_forall in H. specialize (H n ltac:(apply zseq_In; lia)).
  destruct (name_in _snd_chmap_names n) as [name|]; [|done]. simpl. apply Nat.leb_le in H. done.
Qed.

(** One position behind [t]. *)
Lemma print_position_spec maxlen t v :
  0 < maxlen <= INT_MAX -> Z.of_nat (String.length t) < maxlen -> valid_pos v ->
  let s := String.append t (String.append (pos_name v) (inv_text v)) in
  print_position maxlen v (in_buffer maxlen t) =
  Some (if Z.of_nat (String.length s) <? maxlen then inr (in_buffer maxlen s) else inl (in_buffer maxlen s).2).
Proof.
  intros Hm Ht Hv s. destruct (short_name v Hv) as [Hlen Hname]. unfold print_position. rewrite Hname.
  rewrite snprintf_at_spec by done. unfold s, inv_text. clear s. set (t1 := String.append t (pos_name v)).
  change (fst (in_buffer maxlen t1)) with (Z.of_nat (String.length t1)). destruct (nz (Z.land v CHMAP_PHASE_INVERSE)).
  - rewrite <- append_assoc. fold t1. rewrite length_append. change (String.length "[INV]") with 5%nat.
    destruct (Z.leb_spec maxlen (Z.of_nat (String.length t1))) as [Hf|Hf].
    + destruct (Z.ltb_spec (Z.of_nat (String.length t1 + 5)) maxlen); [lia|]. rewrite (full_buffer maxlen t1 "[INV]") by done. done.
    + rewrite snprintf_at_spec by (try done; simpl; lia). unfold in_buffer at 1. cbn [fst]. rewrite length_append.
      change (String.length "[INV]") with 5%nat.
      destruct (Z.leb_spec maxlen (Z.of_nat (String.length t1 + 5))), (Z.ltb_spec (Z.of_nat (String.length t1 + 5)) maxlen);
        try lia; done.
  - rewrite append_nil. fold t1.
    destruct (Z.leb_spec maxlen (Z.of_nat (String.length t1))), (Z.ltb_spec (Z.of_nat (String.length t1)) maxlen);
      try lia; done.
Qed.

(** What is still to be printed behind [t]. *)
Definition tail_text (first : bool) (l : list Z) : string :=
  if first then map_text l else match l with [] => "" | _ => String.append " " (map_text l) end.

Lemma map_text_cons v l :
  map_text (v :: l) = String.append (String.append (pos_name v) (inv_text v)) (tail_text false l).
Proof. simpl. destruct l; [rewrite append_nil|]; done. Qed.

Lemma print_loop_spec maxlen first l t :
  0 < maxlen <= INT_MAX -> Z.of_nat (String.length t) < maxlen -> Forall valid_pos l ->
  print_loop maxlen first l (in_buffer maxlen t) = Some (print_result maxlen (String.append t (tail_text first l))).
Proof.
  intros Hm. revert first t. induction l as [|v l IH]; intros first t Ht Hl; cbn [print_loop].
  - replace (String.append t (tail_text first [])) with t by (destruct first; simpl; rewrite append_nil; done).
    unfold print_result, in_buffer. cbn [fst snd]. destruct (Z.ltb_spec (Z.of_nat (String.length t)) maxlen); [|lia].
    rewrite s32_id by (unfold is_s32, INT_MIN, INT_MAX in *; lia). done.
  - apply Forall_cons in Hl as [Hv Hl].
    assert (Hone : forall t, Z.of_nat (String.length t) < maxlen ->
      match print_position maxlen v (in_buffer maxlen t) with
      | None => None
      | Some (inl buf) => Some (- ENOMEM, buf)
      | Some (inr p) => print_loop maxlen false l p
      end = Some (print_result maxlen (String.append t (map_text (v :: l))))).
    { clear t Ht. intros t Ht. rewrite print_position_spec by done. cbv zeta. rewrite map_text_cons.
      set (s := String.append t (String.append (pos_name v) (inv_text v))).
      rewrite <- (append_assoc t). fold s. destruct (Z.ltb_spec (Z.of_nat (String.length s)) maxlen) as [Hf|Hf]; [apply IH; done|].
      rewrite (full_buffer maxlen s (tail_text false l)) by done. unfold print_result. rewrite length_append.
      destruct (Z.ltb_spec (Z.of_nat (String.length s + String.length (tail_text false l))) maxlen); [lia|]. done. }
    destruct first; [apply Hone; done|]. cbn [negb andb tail_text].
    rewrite snprintf_at_spec by (try done; simpl; lia). rewrite <- (append_assoc t " ").
    set (t1 := String.append t " "). change (fst (in_buffer maxlen t1)) with (Z.of_nat (String.length t1)).
    destruct (Z.leb_spec maxlen (Z.of_nat (String.length t1))) as [Hf|Hf]; [|apply Hone; done].
    rewrite (full_buffer maxlen t1 (map_text (v :: l))) by done. unfold print_result. rewrite length_append.
    destruct (Z.ltb_spec (Z.of_nat (String.length t1 + String.length (map_text (v :: l)))) maxlen); [lia|]. done.
Qed.

(** [snd_pcm_chmap_print] prints the positions' names, a blank between two and
    "[INV]" behind an inverted one: the buffer holds this text as far as it fits with its
    end, never more than the buffer's [maxlen] bytes, and the result is the text's length,
    or -ENOMEM where it does not fit. *)
Theorem chmap_print_exact (map : snd_pcm_chmap_t) (maxlen : Z) :
  0 < maxlen <= INT_MAX -> Forall valid_pos (pos map) ->
  snd_pcm_chmap_print map maxlen = Some (print_result maxlen (map_text (pos map))).
Proof.
  intros Hm Hp. unfold snd_pcm_chmap_print. assert (H0 : (0, ""%string) = in_buffer maxlen "").
  { unfold in_buffer. destruct (Z.to_nat (maxlen - 1)); done. }
  rewrite H0, print_loop_spec; try done. simpl. lia.
Qed.

Lemma chmap_print_exact_witness :
  snd_pcm_chmap_print (Chmap 0 [3; 65540; 131077]) 20 = Some (12, "FL FR[INV] 5"%string) /\
  snd_pcm_chmap_print (Chmap 0 [3; 65540; 131077]) 6 = Some (- ENOMEM, "FL FR"%string).
Proof.
  rewrite !chmap_print_exact by (solve [unfold INT_MAX; lia | by_decide]). split; vm_compute; reflexivity.
Defined.

(** ** Bits of a position *)

Lemma land_pow2 v k : 0 <= k -> Z.land v (2 ^ k) = if Z.testbit v k then 2 ^ k else 0.
Proof.
  intros Hk. apply Z.bits_inj'. intros n Hn. rewrite Z.land_spec, Z.pow2_bits_eqb by done.
  destruct (Z.eqb_spec k n) as [<-|Hne].
  - rewrite andb_true_r. destruct (Z.testbit v k); [rewrite Z.pow2_bits_true|rewrite Z.bits_0]; done.
  - rewrite andb_false_r. destruct (Z.testbit v k); [rewrite Z.pow2_bits_false|rewrite Z.bits_0]; done.
Qed.

Lemma nz_bit v k : 0 <= k -> nz (Z.land v (2 ^ k)) = Z.testbit v k.
Proof.
  intros Hk. rewrite land_pow2 by done. destruct (Z.testbit v k); [|done]. apply nz_true.
  pose proof (Z.pow_pos_nonneg 2 k). lia.
Qed.

Lemma lor_pow2 v k : 0 <= k -> Z.lor v (2 ^ k) = if Z.testbit v k then v else v + 2 ^ k.
Proof.
  intros Hk. pose proof (Z.add_lor_land v (2 ^ k)) as H. rewrite land_pow2 in H by done.
  destruct (Z.testbit v k); lia.
Qed.

(** A valid position in its parts. *)
Lemma pos_parts v :
  0 <= v < 262144 ->
  v = Z.land v CHMAP_POSITION_MASK + (if nz (Z.land v CHMAP_PHASE_INVERSE) then 65536 else 0) +
      (if nz (Z.land v CHMAP_DRIVER_SPEC) then 131072 else 0).
Proof.
  intros Hv. destruct (pos_number v) as [_ ->]. change CHMAP_PHASE_INVERSE with (2 ^ 16).
  change CHMAP_DRIVER_SPEC with (2 ^ 17). rewrite !nz_bit by lia.
  pose proof (Z.testbit_spec' v 16 ltac:(lia)) as H16. pose proof (Z.testbit_spec' v 17 ltac:(lia)) as H17.
  change (2 ^ 16) with 65536 in *. change (2 ^ 17) with 131072 in *.
  destruct (Z.testbit v 16), (Z.testbit v 17); simpl in H16, H17; Z.to_euclidean_division_equations; lia.
Qed.

(** ** Tokens *)

(** What may follow a name: nothing, a blank, or the mark of an inverted phase. *)
Definition stops (r : string) : Prop :=
  match r with EmptyString => True | String c _ => c = " "%char \/ c = "["%char end.

Definition starts_alnum (s : string) : Prop := match s with String c _ => isalnum c = true | EmptyString => False end.

Lemma run_stops r : stops r -> run_alnum r = 0%nat.
Proof. destruct r as [|c r]; [done|]. intros [->| ->]; done. Qed.

Lemma run_append s r : stops r -> run_alnum s = String.length s -> run_alnum (String.append s r) = String.length s.
Proof.
  intros Hr. induction s as [|c s IH]; intros Hs; [apply run_stops; done|].
  rewrite append_cons. simpl in *. destruct (isalnum c); [|done]. rewrite IH; lia.
Qed.

Lemma go_append x s r : pretty_N_go x (String.append s r) = String.append (pretty_N_go x s) r.
Proof.
  revert s. induction (N.lt_wf_0 x) as [x _ IH]. intros s.
  destruct (decide (x = 0)%N) as [->|Hnz]; [rewrite !pretty_N_go_0; done|].
  rewrite (pretty_N_go_step x s), (pretty_N_go_step x (String.append s r)) by lia.
  rewrite <- (IH (x / 10)%N) by (apply N.div_lt; lia). done.
Qed.

Lemma digit_alnum n : (n < 10)%N -> isalnum (pretty_N_char n) = true.
Proof.
  intros Hn. destruct n as [|p]; [done|]. do 4 (destruct p as [p|p|]; try done; try lia).
Qed.

Lemma go_alnum x s : run_alnum s = String.length s -> run_alnum (pretty_N_go x s) = String.length (pretty_N_go x s).
Proof.
  revert s. induction (N.lt_wf_0 x) as [x _ IH]. intros s Hs.
  destruct (decide (x = 0)%N) as [->|Hnz]; [rewrite !pretty_N_go_0; done|].
  rewrite !pretty_N_go_step by lia. apply IH; [apply N.div_lt; lia|]. simpl.
  rewrite digit_alnum by (apply N.mod_upper_bound; lia). rewrite Hs. done.
Qed.

(** A number's first digit is not 0. *)
Lemma go_nonzero x s : (0 < x)%N ->
  match pretty_N_go x s with String c _ => exists d, digit 10 c = Some d /\ d <> 0 | EmptyString => False end.
Proof.
  revert s. induction (N.lt_wf_0 x) as [x _ IH]. intros s Hx. rewrite pretty_N_go_step by done.
  pose proof (N.div_mod x 10 ltac:(done)) as Hdm.
  destruct (decide (x / 10 = 0)%N) as [H0|H0].
  - rewrite H0, pretty_N_go_0. destruct (digit_char (x mod 10)) as [Hd _]; [apply N.mod_upper_bound; done|].
    exists (Z.of_N (x mod 10)). split; [done|lia].
  - apply IH; [apply N.div_lt; lia|apply N.neq_0_lt_0; done].
Qed.

Lemma digits_stops r acc : stops r -> digits 10 r acc true = Some (acc, r).
Proof. destruct r as [|c r]; [done|]. intros [->| ->]; done. Qed.

(** Base 10 is chosen where the first digit is not 0. *)
Lemma strtoul_number s v r :
  match s with String c _ => exists d, digit 10 c = Some d /\ d <> 0 | EmptyString => False end ->
  digits 10 s 0 false = Some (v, r) -> v <= ULONG_MAX -> strtoul s = (v, r).
Proof.
  destruct s as [|c s]; [done|]. intros (d & Hd & Hnz) Hv Hmax. unfold strtoul.
  destruct (scan_digits (String c s)) as [-> ->]; [simpl; eauto|].
  assert (Hlt : (ULONG_MAX <? v) = false) by (apply Z.ltb_ge; done).
  destruct c as [[] [] [] [] [] [] [] []]; try discriminate Hd;
    try (cbv beta iota; rewrite Hv, Hlt; reflexivity). injection Hd as <-. done.
Qed.

Lemma pretty_number n r :
  0 <= n < 65536 -> stops r ->
  strtoul (String.append (pretty n) r) = (n, r) /\ run_alnum (pretty n) = String.length (pretty n) /\
  match pretty n with String c _ => isdigit c = true | EmptyString => False end.
Proof.
  intros Hn Hr. destruct n as [|q|q]; [| |lia].
  - split; [|done]. destruct r as [|c r]; [done|]. destruct Hr as [->| ->]; done.
  - assert (He : pretty (Z.pos q) = pretty_N_go (Npos q) "") by done. rewrite He. split; [|split].
    + rewrite <- go_append. change (String.append "" r) with r.
      destruct (digits_go (Npos q) r) as [k Hk]; [lia|].
      apply strtoul_number; [apply go_nonzero; lia| |unfold ULONG_MAX; lia].
      rewrite Hk, digits_stops by done. do 2 f_equal.
    + apply go_alnum. done.
    + pose proof (starts_go (Npos q) "" ltac:(lia)) as Hs. destruct (pretty_N_go (N.pos q) "") as [|c s]; [done|].
      destruct Hs as [d Hd]. destruct c as [[] [] [] [] [] [] [] []]; try discriminate Hd; done.
Qed.

(** Each name read, in front of anything that may follow it; the length given may be the
    name's or include the mark behind it. *)
Lemma name_tokens r k :
  (r = "" \/ exists r', r = String " " r')%string -> k = 0%nat \/ k = 5%nat ->
  Forall2 (fun n name =>
    str_to_chmap (String.append name r) (Z.of_nat (String.length name + k)) = n /\
    str_to_chmap (String.append name (String.append "[INV]" r)) (Z.of_nat (String.length name + k)) = n + 65536 /\
    run_alnum name = String.length name /\ starts_alnum name) (zseq 0 37) _snd_chmap_names.
Proof. intros [->|[r' ->]] [->| ->]; repeat constructor. Qed.

(** What a token's name and mark are read as. *)
Lemma token_value v r k :
  valid_pos v -> (r = "" \/ exists r', r = String " " r')%string -> k = 0%nat \/ k = 5%nat ->
  str_to_chmap (String.append (pos_name v) (String.append (inv_text v) r))
    (Z.of_nat (String.length (pos_name v) + k)) = v /\
  run_alnum (pos_name v) = String.length (pos_name v) /\ starts_alnum (pos_name v).
Proof.
  intros [Hv Hn] Hr Hk. pose proof (pos_parts v Hv) as Hparts. destruct (pos_number v) as [Hrange _].
  unfold pos_name, inv_text. set (n := Z.land v CHMAP_POSITION_MASK) in *.
  destruct (nz (Z.land v CHMAP_DRIVER_SPEC)) eqn:Hd.
  - set (r2 := String.append (if nz (Z.land v CHMAP_PHASE_INVERSE) then "[INV]" else "") r).
    assert (Hstop : stops r2).
    { unfold r2. destruct (nz (Z.land v CHMAP_PHASE_INVERSE)); [exact (or_intror eq_refl)|].
      destruct Hr as [->|[r' ->]]; [exact I|exact (or_introl eq_refl)]. }
    destruct (pretty_number n r2 Hrange Hstop) as (H1 & H2 & H3).
    destruct (pretty n) as [|c s] eqn:Hp; [done|]. split; [|split; [done|]].
    2: { simpl. unfold isalnum. rewrite H3. done. }
    unfold str_to_chmap. rewrite append_cons, H3, <- append_cons, H1.
    destruct (Z.eqb_spec n ULONG_MAX) as [He|_]; [unfold ULONG_MAX in He; lia|].
    rewrite s32_id by (unfold is_s32, INT_MIN, INT_MAX; lia).
    change CHMAP_DRIVER_SPEC with (2 ^ 17). change CHMAP_PHASE_INVERSE with (2 ^ 16) in *.
    assert (Hb : forall k, 16 <= k -> Z.testbit n k = false).
    { intros j Hj. destruct (Z.eq_dec n 0) as [->|]; [apply Z.bits_0|]. apply Z.bits_above_log2; [lia|].
      apply Z.log2_lt_pow2; [lia|]. pose proof (Z.pow_le_mono_r 2 16 j). change (2 ^ 16) with 65536 in *. lia. }
    rewrite (lor_pow2 n 17), (Hb 17) by lia.
    assert (Hcmp : (strncasecmp r2 "[INV]" 5 =? 0) = nz (Z.land v (2 ^ 16))).
    { unfold r2. destruct (nz (Z.land v (2 ^ 16))), Hr as [->|[r' ->]]; done. }
    rewrite Hcmp. destruct (nz (Z.land v (2 ^ 16))) eqn:Hi; [|change (2 ^ 17) with 131072; lia].
    rewrite lor_pow2 by lia. replace (Z.testbit (n + 2 ^ 17) 16) with false.
    + change (2 ^ 17) with 131072. change (2 ^ 16) with 65536. lia.
    + symmetry. rewrite <- (Z.mod_pow2_bits_low _ 17 16) by lia.
      replace ((n + 2 ^ 17) mod 2 ^ 17) with n; [apply Hb; lia|].
      rewrite <- (Z.mul_1_l (2 ^ 17)) at 1. rewrite Z.mod_add by lia. symmetry. apply Z.mod_small.
      change (2 ^ 17) with 131072. lia.
  - apply nz_false in Hd. destruct Hn as [Hn|Hn]; [done|]. unfold CHMAP_LAST in Hn.
    destruct (name_in _snd_chmap_names n) as [name|] eqn:Hname.
    2: { apply lookup_ge_None in Hname. simpl in Hname. lia. }
    simpl. assert (Hz : zseq 0 37 !! Z.to_nat n = Some n) by (rewrite zseq_lookup by lia; f_equal; lia).
    destruct (Forall2_lookup_lr _ _ _ _ _ _ (name_tokens r k Hr Hk) Hz Hname) as (H1 & H2 & H3 & H4).
    split; [|done]. destruct (nz (Z.land v CHMAP_PHASE_INVERSE)); [rewrite H2|change (String.append "" r) with r; rewrite H1]; lia.
Qed.

Lemma starts_append s r : starts_alnum s -> starts_alnum (String.append s r).
Proof. destruct s; done. Qed.

Lemma skip_to_alnum s : starts_alnum s -> skip_nonalnum (String.append " " s) = s.
Proof. destruct s as [|c s]; [done|]. intros H. simpl in H. simpl. rewrite H. done. Qed.

Lemma starts_nonempty s : starts_alnum s -> String.eqb s "" = false /\ String.length s <> 0%nat.
Proof. destruct s; done. Qed.

Lemma tail_shape l : (tail_text false l = "" \/ exists r', tail_text false l = String " " r')%string.
Proof. destruct l as [|v l]; [left; done|right]. eexists. done. Qed.

Lemma text_starts v l : valid_pos v -> starts_alnum (map_text (v :: l)).
Proof.
  intros Hv. rewrite map_text_cons. destruct (token_value v "" 0 Hv (or_introl eq_refl) (or_introl eq_refl)) as (_ & _ & H).
  apply starts_append, starts_append. done.
Qed.

(** What is left of the text after a token. *)
Lemma after_token v r :
  valid_pos v -> (r = "" \/ exists r', r = String " " r')%string ->
  match after_prefix "[INV]" (String.append (inv_text v) r) with
  | Some s => (Z.lor v CHMAP_PHASE_INVERSE, s)
  | None => (v, String.append (inv_text v) r)
  end = (v, r).
Proof.
  intros [Hv _] Hr. unfold inv_text. change CHMAP_PHASE_INVERSE with (2 ^ 16). rewrite nz_bit by lia.
  destruct (Z.testbit v 16) eqn:Hb.
  - rewrite lor_pow2, Hb by lia. destruct Hr as [->|[r' ->]]; done.
  - destruct Hr as [->|[r' ->]]; done.
Qed.

Lemma parse_text room l :
  l <> [] -> (List.length l <= room)%nat -> Forall valid_pos l -> parse_positions room (map_text l) = Some l.
Proof.
  revert room. induction l as [|v l IH]; intros room Hne Hroom Hl; [done|].
  destruct room as [|room]; simpl in Hroom; [lia|]. apply Forall_cons in Hl as [Hv Hl].
  pose proof (tail_shape l) as Hr. set (r := tail_text false l) in *.
  destruct (token_value v r 0 Hv Hr (or_introl eq_refl)) as (H1 & H2 & H3). rewrite Nat.add_0_r in H1. pose proof (starts_nonempty _ H3) as [_ Hlen].
  cbn [parse_positions]. rewrite map_text_cons, append_assoc. fold r.
  assert (Hstop : stops (String.append (inv_text v) r)).
  { unfold inv_text. destruct (nz (Z.land v CHMAP_PHASE_INVERSE)); [exact (or_intror eq_refl)|].
    destruct Hr as [->|[r' ->]]; [exact I|exact (or_introl eq_refl)]. }
  rewrite (run_append _ _ Hstop H2). destruct (Nat.eqb_spec (String.length (pos_name v)) 0); [done|].
  rewrite H1, skip_append. destruct (Z.ltb_spec v 0); [destruct Hv; lia|].
  rewrite (after_token v r Hv Hr). destruct l as [|w l]; [done|].
  assert (Hw : valid_pos w) by (apply Forall_cons in Hl; apply Hl).
  pose proof (text_starts w l Hw) as Hs. unfold r. cbn [tail_text]. rewrite skip_to_alnum by done.
  destruct (starts_nonempty _ Hs) as [-> _]. rewrite IH; [done|done|lia|done].
Qed.

(** C25. Channel maps survive as text: a map of 1 to 64 channels, with positions the
    interface knows (named ones, and numbers of the driver's own, each perhaps with an
    inverted phase), is read back from what [snd_pcm_chmap_print] prints of it; and each
    position alone is read back by [snd_pcm_chmap_from_string]. *)
Theorem chmap_text_roundtrip {K} `{!Os K} (map : snd_pcm_chmap_t) (maxlen : Z) (w : world K) :
  pos map <> [] -> (List.length (pos map) <= 64)%nat -> Forall valid_pos (pos map) ->
  Z.of_nat (String.length (map_text (pos map))) < maxlen <= INT_MAX ->
  exists text, snd_pcm_chmap_print map maxlen = Some (Z.of_nat (String.length text), text) /\
    pos <$> (snd_pcm_chmap_parse_string text w).1 =
      (if bool_decide (is_Some (sys_alloc (4 + 4 * cm_channels map) w).1) then Some (pos map) else None) /\
    Forall (fun v => snd_pcm_chmap_from_string (map_text [v]) = v) (pos map).
Proof.
  intros Hne Hlen Hp Hm. exists (map_text (pos map)). split; [|split].
  - rewrite chmap_print_exact by (try done; lia). unfold print_result.
    destruct (Z.ltb_spec (Z.of_nat (String.length (map_text (pos map)))) maxlen); [|lia].
    rewrite substring_all by lia. done.
  - unfold snd_pcm_chmap_parse_string. rewrite parse_text by done. unfold bind, ret, cm_channels.
    destruct (sys_alloc _ w) as [[a|] w']; done.
  - apply (Forall_impl _ _ _ Hp). intros v Hv. unfold snd_pcm_chmap_from_string. simpl map_text.
    pose proof Hv as [Hr _]. unfold inv_text.
    set (k := if nz (Z.land v CHMAP_PHASE_INVERSE) then 5%nat else 0%nat).
    assert (Hk : k = 0%nat \/ k = 5%nat) by (unfold k; destruct (nz (Z.land v CHMAP_PHASE_INVERSE)); auto).
    destruct (token_value v "" k Hv (or_introl eq_refl) Hk) as (H1 & _ & _). rewrite append_nil in H1.
    fold (inv_text v). rewrite length_append.
    replace (String.length (inv_text v)) with k by (unfold k, inv_text; destruct (nz (Z.land v CHMAP_PHASE_INVERSE)); done).
    rewrite H1. apply u32_id. unfold is_u32, UINT_MAX. lia.
Qed.

Lemma chmap_text_roundtrip_witness :
  exists text, snd_pcm_chmap_print (Chmap 0 [3; 65540; 131077]) 80 = Some (12, text) /\
    pos <$> (snd_pcm_chmap_parse_string text (wld toy_process)).1 = Some [3; 65540; 131077].
Proof.
  destruct (chmap_text_roundtrip (Chmap 0 [3; 65540; 131077]) 80 (wld toy_process)) as (text & H1 & H2 & _);
    [discriminate|simpl; lia|by_decide|unfold INT_MAX; vm_compute; split; [reflexivity|discriminate]|].
  exists text. assert (Ht : text = "FL FR[INV] 5"%string) by (vm_compute in H1; congruence).
  split; [rewrite H1, Ht; reflexivity|]. rewrite H2. reflexivity.
Defined.

(** ** Taking the card's data apart *)

(** The words of one map, of type [type] (1 to 3), and of several. *)
Definition map_words (m : Z * list Z) : list Z :=
  (fst m + 256) :: 4 * Z.of_nat (List.length (snd m)) :: snd m.

Definition maps_words (l : list (Z * list Z)) : list Z := List.concat (map map_words l).

Definition map_type (m : Z * list Z) : Prop := 1 <= fst m <= CHMAP_TYPE_LAST.

(** The data of a map, or of the maps in a container. *)
Inductive chmap_tlv : list (Z * list Z) -> list Z -> Prop :=
  | TlvOne m rest : chmap_tlv [m] (map_words m ++ rest)
  | TlvContainer l rest :
      chmap_tlv l (0 :: 4 * Z.of_nat (List.length (maps_words l)) :: maps_words l ++ rest).

(** What a query gives, without the blocks. *)
Definition plain (q : snd_pcm_chmap_query_t) : Z * list Z := (q_type q, pos (q_map q)).

(** The blocks of a result. *)
Definition query_blocks (r : Z * list snd_pcm_chmap_query_t) : list resource :=
  RMem (fst r) :: ((fun q => RMem (cm_block (q_map q))) <$> snd r).

Section Query.
Context {K : Type} `{!Os K}.

Lemma free_blocks_spec l (w : world K) h :
  held w ≡ₚ ((fun q => RMem (cm_block (q_map q))) <$> l) ++ h -> held (free_chmap_blocks l w).2 ≡ₚ h.
Proof.
  revert w. induction l as [|q l IH]; intros w Hw; cbn [free_chmap_blocks]; [exact Hw|].
  unfold bind, sys_free, drop_resource. apply IH. cbn [held]. rewrite Hw. cbn [fmap list_fmap Datatypes.app].
  rewrite release_head. done.
Qed.

(** [snd_pcm_free_chmaps] gives back exactly the maps. *)
Lemma free_chmaps_spec r (w : world K) h :
  held w ≡ₚ query_blocks r ++ h -> held (snd_pcm_free_chmaps (Some r) w).2 ≡ₚ h.
Proof.
  destruct r as [a l]. unfold query_blocks. cbn [fst snd]. intros Hw. unfold snd_pcm_free_chmaps, bind.
  pose proof (free_blocks_spec l w (RMem a :: h)) as H. destruct (free_chmap_blocks l w) as [[] w1].
  cbn [snd] in H. unfold sys_free, drop_resource. cbn [snd held]. rewrite H, release_head; [done|].
  rewrite Hw. cbn [Datatypes.app]. rewrite Permutation_middle. done.
Qed.

Lemma query_blocks_mem r : query_blocks r = RMem <$> (fst r :: ((fun q => cm_block (q_map q)) <$> snd r)).
Proof. unfold query_blocks. cbn. rewrite <- list_fmap_compose. done. Qed.

(** Whatever the data: nothing is kept but the result, or, where the data is read past
    its end, blocks made on the way. *)
Lemma make_chmaps_held n tlv start block l (w : world K) h :
  held w ≡ₚ query_blocks (block, l) ++ h ->
  match make_chmaps n tlv start block l w with
  | (None, w') => exists blocks, held w' ≡ₚ (RMem <$> blocks) ++ h
  | (Some None, w') => held w' ≡ₚ h
  | (Some (Some r), w') => held w' ≡ₚ query_blocks r ++ h
  end.
Proof.
  revert start l w. induction n as [|n IH]; intros start l w Hw; cbn [make_chmaps]; [exact Hw|].
  pose proof Hw as Hb. rewrite query_blocks_mem in Hb.
  destruct (tlv !! Z.to_nat start) as [type|]; [|eexists; exact Hb].
  destruct (tlv !! Z.to_nat (start + 1)) as [bytes|]; [|eexists; exact Hb].
  unfold bind at 1. pose proof (alloc_spec (u32 (bytes + 8)) w) as Ha.
  destruct (sys_alloc _ w) as [[a|] w1].
  - destruct (_ <? _); [eexists (a :: _ :: _); rewrite Ha, Hb; cbn; reflexivity|]. apply IH. rewrite Ha, Hw. unfold query_blocks. cbn [fst snd].
    rewrite fmap_app. cbn. rewrite <- (assoc_L (++)). cbn. solve_Permutation.
  - unfold bind at 1. rewrite <- Ha in Hw. pose proof (free_chmaps_spec (block, l) w1 h Hw) as Hf.
    destruct (snd_pcm_free_chmaps _ w1) as [[] w2]. exact Hf.
Qed.

Lemma query_tlv_held tlv (w : world K) :
  match query_tlv tlv w with
  | (None, w') => exists blocks, held w' ≡ₚ (RMem <$> blocks) ++ held w
  | (Some None, w') => held w' ≡ₚ held w
  | (Some (Some r), w') => held w' ≡ₚ query_blocks r ++ held w
  end.
Proof.
  unfold query_tlv. destruct (if negb _ then _ else _) as [[[]|[start nums]]|]; [cbn; reflexivity| |exists []; done].
  unfold bind at 1. pose proof (alloc_spec (8 * (nums + 1)) w) as Ha. destruct (sys_alloc _ w) as [[a|] w1].
  - apply make_chmaps_held. rewrite Ha. done.
  - simpl. rewrite Ha. done.
Qed.

(** The walk over well-formed maps. *)
Lemma lookup_skip {A} (l : list A) p k : drop p l !! k = l !! (p + k)%nat.
Proof. apply lookup_drop. Qed.

Lemma words_head (tlv : list Z) p m rest :
  0 <= p -> drop (Z.to_nat p) tlv = map_words m ++ rest ->
  tlv !! Z.to_nat p = Some (fst m + 256) /\
  tlv !! Z.to_nat (p + 1) = Some (4 * Z.of_nat (List.length (snd m))) /\
  drop (Z.to_nat (p + 2)) tlv = snd m ++ rest /\
  drop (Z.to_nat (p + 4 * Z.of_nat (List.length (snd m)) / 4 + 2)) tlv = rest.
Proof.
  intros Hp Hd. assert (Hk : forall k, tlv !! (Z.to_nat p + k)%nat = (map_words m ++ rest) !! k).
  { intros k. rewrite <- Hd, lookup_drop. done. }
  rewrite Z.mul_comm, Z.div_mul by lia. split; [|split; [|split]].
  - rewrite <- (Nat.add_0_r (Z.to_nat p)), Hk. done.
  - replace (Z.to_nat (p + 1)) with (Z.to_nat p + 1)%nat by lia. rewrite Hk. simpl. f_equal. lia.
  - replace (Z.to_nat (p + 2)) with (Z.to_nat p + 2)%nat by lia. rewrite <- drop_drop, Hd. done.
  - replace (Z.to_nat (p + Z.of_nat (List.length (snd m)) + 2)) with (Z.to_nat p + (2 + List.length (snd m)))%nat by lia.
    rewrite <- drop_drop, Hd. simpl. apply drop_app_length.
Qed.

Lemma maps_words_cons m l : maps_words (m :: l) = map_words m ++ maps_words l.
Proof. done. Qed.

Lemma count_chmaps_spec fuel (tlv : list Z) p l rest nums :
  0 <= p -> Forall map_type l -> drop (Z.to_nat p) tlv = maps_words l ++ rest ->
  (List.length l < fuel)%nat -> 4 * Z.of_nat (List.length (maps_words l)) <= INT_MAX ->
  count_chmaps fuel tlv p (4 * Z.of_nat (List.length (maps_words l))) nums =
  Some (inr (nums + Z.of_nat (List.length l))).
Proof.
  revert p l nums. induction fuel as [|fuel IH]; intros p l nums Hp Hl Hd Hf Hb; [lia|]. cbn [count_chmaps].
  destruct l as [|m l].
  - simpl. do 2 f_equal. lia.
  - apply Forall_cons in Hl as [Hm Hl]. rewrite maps_words_cons in *. rewrite <- (assoc_L (++)) in Hd.
    destruct (words_head tlv p m (maps_words l ++ rest) Hp Hd) as (H1 & H2 & _ & H4).
    rewrite length_app in *. unfold map_words in * at 1 2. simpl List.length in *. rewrite H1, H2.
    set (n := Z.of_nat (List.length (snd m))) in *. unfold map_type, CHMAP_TYPE_LAST in Hm.
    destruct (Z.leb_spec (4 * Z.of_nat (S (S (List.length (snd m))) + List.length (maps_words l))) 0); [lia|].
    assert (Ht : is_chmap_type (fst m + 256) = true).
    { unfold is_chmap_type. apply andb_true_intro. split; apply Z.leb_le; lia. }
    rewrite Ht. cbn [negb]. unfold INT_MAX in Hb.
    replace (s32 (u32 (4 * Z.of_nat (S (S (List.length (snd m))) + List.length (maps_words l))) - (4 * n + 8)))
      with (4 * Z.of_nat (List.length (maps_words l))).
    + rewrite IH; [do 2 f_equal; lia|unfold n; Z.to_euclidean_division_equations; lia|done|done|simpl in Hf; lia|unfold INT_MAX; lia].
    + rewrite u32_id by (unfold is_u32, UINT_MAX; lia). rewrite s32_id; [lia|unfold is_s32, INT_MIN, INT_MAX; lia].
Qed.

Lemma make_chmaps_decode l n tlv start block dl (w : world K) rest :
  n = List.length l -> 0 <= start -> drop (Z.to_nat start) tlv = maps_words l ++ rest ->
  match make_chmaps n tlv start block dl w with
  | (None, _) => False
  | (Some None, _) => True
  | (Some (Some (b, ql)), _) => b = block /\ plain <$> ql = (plain <$> dl) ++ l
  end.
Proof.
  intros ->. revert start dl w. induction l as [|m l IH]; intros start dl w Hs Hd; cbn [make_chmaps List.length].
  - simpl. rewrite app_nil_r. done.
  - rewrite maps_words_cons, <- (assoc_L (++)) in Hd.
    destruct (words_head tlv start m (maps_words l ++ rest) Hs Hd) as (-> & -> & H3 & H4).
    unfold bind at 1. destruct (sys_alloc _ w) as [[a|] w1].
    + destruct (Z.ltb_spec (Z.of_nat (List.length tlv) * 4) ((start + 2) * 4 + 4 * Z.of_nat (List.length (snd m)))) as [Hlt|_].
      { pose proof (f_equal (@List.length Z) Hd) as Hlen. rewrite length_drop, !length_app in Hlen.
        unfold map_words in Hlen. simpl in Hlen. lia. }
      specialize (IH (start + 4 * Z.of_nat (List.length (snd m)) / 4 + 2)
        (dl ++ [ChmapQuery (fst m + 256 - 256)
                (Chmap a (take (Z.to_nat (4 * Z.of_nat (List.length (snd m)) / 4)) (drop (Z.to_nat (start + 2)) tlv)))])
        w1 ltac:(Z.to_euclidean_division_equations; lia) H4).
      destruct (make_chmaps _ _ _ _ _ w1) as [[[[b ql]|]|] w2]; try done. destruct IH as [-> IH]. split; [done|].
      rewrite IH, fmap_app, <- (assoc_L (++)). f_equal. simpl. f_equal. unfold plain. simpl.
      rewrite H3, (Z.mul_comm 4), Z.div_mul, Nat2Z.id, take_app_length by lia.
      replace (fst m + 256 - 256) with (fst m) by lia. destruct m; done.
    + unfold bind at 1. destruct (snd_pcm_free_chmaps _ w1) as [[] w2]. done.
Qed.
End Query.

(** ** Containers whose maps stay inside them

    The words that are left and the bytes that the container still announces: the walk
    ends, meets something else than a map, or goes over a map that is there as a whole. *)
Inductive maps_inside : list Z -> Z -> Prop :=
  | InsideEnd ws size : size <= 0 -> maps_inside ws size
  | InsideOther t ws size : is_chmap_type t = false -> maps_inside (t :: ws) size
  | InsideMap t n ws size :
      0 <= n <= 4 * Z.of_nat (List.length ws) -> maps_inside (drop (Z.to_nat (n / 4)) ws) (size - (n + 8)) ->
      maps_inside (t :: n :: ws) size.

(** The first [n] maps are there as a whole. *)
Fixpoint maps_fit (n : nat) (ws : list Z) : Prop :=
  match n with
  | O => True
  | S n =>
      match ws with
      | _ :: b :: ws => 0 <= b <= 4 * Z.of_nat (List.length ws) /\ maps_fit n (drop (Z.to_nat (b / 4)) ws)
      | _ => False
      end
  end.

Lemma drop_cons_lookup {A} (l : list A) p x ws :
  0 <= p -> drop (Z.to_nat p) l = x :: ws -> l !! Z.to_nat p = Some x /\ drop (Z.to_nat (p + 1)) l = ws.
Proof.
  intros Hp Hd. split.
  - rewrite <- (Nat.add_0_r (Z.to_nat p)), <- lookup_drop, Hd. done.
  - replace (Z.to_nat (p + 1)) with (Z.to_nat p + 1)%nat by lia. rewrite <- drop_drop, Hd. done.
Qed.

(** The map at [p], and what follows it. *)
Lemma drop_map (l : list Z) p t n ws :
  0 <= p -> 0 <= n -> drop (Z.to_nat p) l = t :: n :: ws ->
  l !! Z.to_nat p = Some t /\ l !! Z.to_nat (p + 1) = Some n /\
  drop (Z.to_nat (p + n / 4 + 2)) l = drop (Z.to_nat (n / 4)) ws /\
  Z.of_nat (List.length l) = p + 2 + Z.of_nat (List.length ws).
Proof.
  intros Hp Hn Hd. destruct (drop_cons_lookup l p _ _ Hp Hd) as [H1 H2].
  destruct (drop_cons_lookup l (p + 1) _ _ ltac:(lia) H2) as [H3 H4]. split; [done|]. split; [done|].
  assert (0 <= n / 4) by (apply Z.div_pos; lia). split.
  - rewrite <- H4, drop_drop. f_equal. lia.
  - apply (f_equal (@List.length Z)) in Hd. rewrite length_drop in Hd. simpl in Hd. lia.
Qed.

Lemma count_inside ws size :
  maps_inside ws size ->
  forall fuel tlv p nums, drop (Z.to_nat p) tlv = ws -> 0 <= p -> size <= INT_MAX ->
    (List.length ws < 2 * fuel)%nat -> (List.length tlv <= 256)%nat ->
    match count_chmaps fuel tlv p size nums with
    | None => False
    | Some (inl _) => True
    | Some (inr k) => nums <= k /\ maps_fit (Z.to_nat (k - nums)) ws
    end.
Proof.
  induction 1 as [ws size Hs|t ws size Ht|t n ws size Hn Hin IH]; intros [|fuel] tlv p nums Hd Hp Hi Hf Hl;
    try lia; cbn [count_chmaps]; destruct (Z.leb_spec size 0); try lia;
    try (rewrite Z.sub_diag; split; [lia|exact I]).
  - destruct (drop_cons_lookup tlv p _ _ Hp Hd) as [-> _]. rewrite Ht. destruct (tlv !! _); exact I.
  - destruct (drop_map tlv p _ _ _ Hp (proj1 Hn) Hd) as (-> & -> & H1 & H2).
    destruct (is_chmap_type t); [cbn [negb]|exact I].
    unfold INT_MAX in Hi. rewrite u32_id, s32_id by (unfold is_u32, is_s32, UINT_MAX, INT_MIN, INT_MAX; lia).
    assert (0 <= n / 4) by (apply Z.div_pos; lia).
    pose proof (IH fuel tlv (p + n / 4 + 2) (nums + 1) H1 ltac:(lia) ltac:(unfold INT_MAX; lia)
      ltac:(rewrite length_drop; simpl in Hf; lia) Hl) as Hc.
    destruct (count_chmaps _ _ _ _ _) as [[[]|k]|]; [done| |done]. destruct Hc as [Hk Hc]. split; [lia|].
    replace (Z.to_nat (k - nums)) with (S (Z.to_nat (k - (nums + 1)))) by lia. done.
Qed.

Lemma make_fit {K} `{!Os K} n : forall tlv start block l (w : world K),
  0 <= start -> maps_fit n (drop (Z.to_nat start) tlv) -> (make_chmaps n tlv start block l w).1 <> None.
Proof.
  induction n as [|n IH]; intros tlv start block l w Hs Hf; [done|]. cbn [make_chmaps maps_fit] in *.
  destruct (drop (Z.to_nat start) tlv) as [|t [|b ws]] eqn:Hd; try done. destruct Hf as [Hb Hf].
  destruct (drop_map tlv start _ _ _ Hs (proj1 Hb) Hd) as (-> & -> & H1 & H2). unfold bind at 1.
  destruct (sys_alloc _ w) as [[a|] w1].
  - destruct (Z.ltb_spec (Z.of_nat (List.length tlv) * 4) ((start + 2) * 4 + b)); [lia|].
    assert (0 <= b / 4) by (apply Z.div_pos; lia). apply IH; [lia|]. rewrite H1. done.
  - unfold bind. destruct (snd_pcm_free_chmaps _ w1). done.
Qed.

(** Data that announces no more than there is is never read past its end. *)
Lemma query_inside {K} `{!Os K} tlv (w : world K) :
  List.length tlv = 256%nat -> whole_tlv 1024 tlv -> (nthz 0 tlv 0 = 0 -> maps_inside (drop 2 tlv) (nthz 0 tlv 1)) ->
  (query_tlv tlv w).1 <> None.
Proof.
  intros Hl (_ & Hlo & Hhi) Hin. unfold query_tlv. destruct (Z.eqb_spec (nthz 0 tlv 0) 0) as [H0|H0]; cbn [negb].
  - rewrite s32_id by (unfold is_s32, INT_MIN, INT_MAX; lia).
    pose proof (count_inside _ _ (Hin H0) 130 tlv 2 0 eq_refl ltac:(lia) ltac:(unfold INT_MAX; lia)
      ltac:(rewrite length_drop; lia) ltac:(lia)) as Hc.
    destruct (count_chmaps _ _ _ _ _) as [[[]|k]|]; [done| |done]. destruct Hc as [Hk Hc]. rewrite Z.sub_0_r in Hc.
    unfold bind. destruct (sys_alloc _ w) as [[a|] w1]; [|done]. apply make_fit; [lia|exact Hc].
  - destruct (is_chmap_type _); [|done]. unfold bind. destruct (sys_alloc _ w) as [[a|] w1]; [|done].
    apply make_fit; [lia|]. destruct tlv as [|t [|n ws]]; try done.
    change (nthz 0 (t :: n :: ws) 1) with n in Hlo, Hhi. simpl in Hl. simpl. lia.
Qed.

(** Every map takes two words at least. *)
Lemma maps_words_length l : (2 * List.length l <= List.length (maps_words l))%nat.
Proof. induction l as [|m l IH]; [done|]. rewrite maps_words_cons, length_app. unfold map_words. simpl. lia. Qed.

(** C24. The maps of a driver come back as they were put in: from the data of one map, or
    of a container with any number of maps, within the 256 words that are read,
    [snd_pcm_query_chmaps_from_hw] makes a map of each, in order, with its type and its
    positions, reading nothing outside the data, or NULL where memory runs out; what it
    holds is the blocks of its result and nothing else, and [snd_pcm_free_chmaps] gives
    them back. *)
Theorem chmap_query_decodes {K} `{!Os K} (l : list (Z * list Z)) (tlv : list Z) (w : world K) :
  chmap_tlv l tlv -> Forall map_type l -> (List.length tlv <= 256)%nat ->
  match query_tlv tlv w with
  | (None, _) => False
  | (Some None, w') => held w' ≡ₚ held w
  | (Some (Some r), w') =>
      plain <$> snd r = l /\ held w' ≡ₚ query_blocks r ++ held w /\
      held (snd_pcm_free_chmaps (Some r) w').2 ≡ₚ held w
  end.
Proof.
  intros Htlv Hl Hlen. pose proof (query_tlv_held tlv w) as Hheld.
  assert (H : match query_tlv tlv w with
    | (None, _) => False | (Some None, _) => True | (Some (Some r), _) => plain <$> snd r = l end).
  { clear Hheld. destruct Htlv as [m rest|l rest]; unfold query_tlv.
    - apply Forall_cons in Hl as [Hm _]. unfold map_type, CHMAP_TYPE_LAST in Hm.
      change (nthz 0 (map_words m ++ rest) 0) with (fst m + 256). destruct (Z.eqb_spec (fst m + 256) 0); [lia|].
      cbn [negb]. assert (Ht : is_chmap_type (fst m + 256) = true).
      { unfold is_chmap_type. apply andb_true_intro. split; apply Z.leb_le; lia. }
      rewrite Ht. unfold bind. destruct (sys_alloc _ w) as [[a|] w1]; [|done].
      pose proof (make_chmaps_decode [m] (Z.to_nat 1) (map_words m ++ rest) 0 a [] w1 rest eq_refl) as H.
      unfold maps_words in H. simpl concat in H. rewrite app_nil_r in H. specialize (H ltac:(lia) eq_refl).
      destruct (make_chmaps _ _ _ _ _ w1) as [[[[b ql]|]|] w2]; [apply H|done..].
    - simpl in Hlen. rewrite length_app in Hlen. pose proof (maps_words_length l) as Hw.
      set (tlv := 0 :: _). change (nthz 0 tlv 0) with 0.
      change (nthz 0 tlv 1) with (4 * Z.of_nat (List.length (maps_words l))). cbn [negb Z.eqb].
      rewrite s32_id by (unfold is_s32, INT_MIN, INT_MAX; lia).
      rewrite (count_chmaps_spec 130 tlv 2 l rest 0) by (try done; unfold INT_MAX; lia).
      unfold bind. destruct (sys_alloc _ w) as [[a|] w1]; [|done].
      pose proof (make_chmaps_decode l (Z.to_nat (0 + Z.of_nat (List.length l))) tlv 2 a [] w1 rest ltac:(lia)
        ltac:(lia) eq_refl) as H.
      destruct (make_chmaps _ _ _ _ _ w1) as [[[[b ql]|]|] w2]; [apply H|done..]. }
  destruct (query_tlv tlv w) as [[[r|]|] w']; try done. split; [done|]. split; [done|].
  apply free_chmaps_spec. done.
Qed.

Lemma chmap_query_decodes_witness :
  match query_tlv ([0; 28; 257; 8; 3; 4; 259; 4; 2] ++ replicate 247 7) (wld toy_process) with
  | (Some (Some r), w') => plain <$> snd r = [(1, [3; 4]); (3, [2])] /\ List.length (held w') = 3%nat
  | _ => False
  end.
Proof.
  pose proof (chmap_query_decodes [(1, [3; 4]); (3, [2])] ([0; 28; 257; 8; 3; 4; 259; 4; 2] ++ replicate 247 7)
    (wld toy_process)) as H.
  assert (Ht : chmap_tlv [(1, [3; 4]); (3, [2])] ([0; 28; 257; 8; 3; 4; 259; 4; 2] ++ replicate 247 7))
    by exact (TlvContainer [(1, [3; 4]); (3, [2])] (replicate 247 7)).
  specialize (H Ht ltac:(repeat constructor; simpl; discriminate) ltac:(vm_compute; lia)).
  destruct (query_tlv _ (wld toy_process)) as [[[r|]|] w'] eqn:Hq; [|vm_compute in Hq; discriminate Hq|exact H].
  destruct H as (H1 & H2 & _). split; [exact H1|]. rewrite H2.
  destruct r as [a [|q1 [|q2 [|]]]]; try discriminate H1. reflexivity.
Defined.

(** ** Sessions *)

Section Balance.
Context {K : Type} `{!Os K, !OsLaws K, !AsyncKernel K, !CardKernel K, !CtlKernel K}.

(** The pointers to asynchronous handlers are left alone. *)
Definition ptr_frame {A} (m : io (proc K) A) : Prop := forall p, ptrs (m p).2 = ptrs p.

Lemma ptr_frame_ret {A} (a : A) : ptr_frame (ret a).
Proof. intros p. done. Qed.

Lemma ptr_frame_onsys {A} (m : io (world K) A) : ptr_frame (onsys m).
Proof. intros p. unfold onsys. destruct (m _). done. Qed.

Lemma ptr_frame_bind {A B} (m : io (proc K) A) (f : A -> io (proc K) B) :
  ptr_frame m -> (forall a, ptr_frame (f a)) -> ptr_frame (bind m f).
Proof.
  intros Hm Hf p. unfold bind. specialize (Hm p). destruct (m p) as [a p1]. cbn [snd] in Hm.
  rewrite Hf. exact Hm.
Qed.

Lemma ptr_frame_rc {A} (m : io K (Z * A)) : ptr_frame (let* r := sysp m in ret (rc r)).
Proof. apply ptr_frame_bind; [apply ptr_frame_onsys|]. intros. apply ptr_frame_ret. Qed.

Lemma tlv_read_ptrs junk heap ctl id tlv size : ptr_frame (snd_ctl_elem_tlv_read junk heap ctl id tlv size).
Proof.
  unfold snd_ctl_elem_tlv_read, snd_ctl_tlv_do, hw_elem_tlv, snd_ctl_elem_info, sysp.
  repeat first [apply ptr_frame_ret | apply ptr_frame_onsys | apply ptr_frame_bind; [|intros ?]
    | match goal with |- ptr_frame (match ?x with _ => _ end) => destruct x end].
Qed.

(** What is done with the control handle in between keeps everything. *)
Lemma do_ctl_chmap_held {A} card dev subdev stream (func : snd_ctl_t -> snd_ctl_elem_id_t -> io (proc K) (Z * A))
    none (p : proc K) :
  (forall ctl id p, held (wld (func ctl id p).2) = held (wld p) /\ ptrs (func ctl id p).2 = ptrs p) ->
  held (wld (do_ctl_chmap card dev subdev stream func none p).2) = held (wld p).
Proof.
  intros Hf. unfold do_ctl_chmap, bind.
  pose proof (ctl_open_spec (String.append "hw:" (pretty card)) 0 p) as Ho.
  destruct (snd_ctl_open _ 0 p) as [[r [ctl|]] p1]; [|apply Ho]. destruct Ho as (_ & Hh & Hp & _).
  destruct (Hf ctl (chmap_id dev subdev stream) p1) as [H1 H2].
  destruct (func ctl _ p1) as [[r1 a] p2]. cbn [snd] in H1, H2. rewrite <- H2 in Hp.
  pose proof (ctl_close_spec ctl p2 Hp) as Hc. destruct (snd_ctl_close ctl p2) as [c p3].
  unfold ret. cbn [snd]. rewrite (proj2 Hc), H1, Hh, (release_next (RFd _)) by done.
  rewrite !release_head. done.
Qed.

Lemma elem_read_held ctl v (p : proc K) :
  held (wld (snd_ctl_elem_read ctl v p).2) = held (wld p) /\ ptrs (snd_ctl_elem_read ctl v p).2 = ptrs p.
Proof.
  unfold snd_ctl_elem_read, bind, ret. pose proof (sysp_frame (ioctl_elem_read (ctl_fd ctl) v) p) as H.
  destruct (sysp _ p) as [r p1]. split; apply H.
Qed.

Lemma elem_write_held ctl v (p : proc K) :
  held (wld (snd_ctl_elem_write ctl v p).2) = held (wld p) /\ ptrs (snd_ctl_elem_write ctl v p).2 = ptrs p.
Proof.
  unfold snd_ctl_elem_write, bind, ret. pose proof (sysp_frame (ioctl_elem_write (ctl_fd ctl) v) p) as H.
  destruct (sysp _ p) as [r p1]. split; apply H.
Qed.

(** Reading the card's data: the whole array, and nothing is kept. *)
Lemma read_chmap_spec junk heap stack card dev subdev stream (p : proc K) :
  tlv_answers (K := K) -> List.length stack = 256%nat -> (256 <= List.length heap)%nat ->
  let '((r, tlv), p') := do_ctl_chmap card dev subdev stream (do_read_tlv junk heap stack) stack p in
  held (wld p') = held (wld p) /\ (0 <= r -> r = 0 /\ List.length tlv = 256%nat /\ whole_tlv 1024 tlv).
Proof.
  intros Hlaw Hstack Hheap.
  assert (Hread : forall ctl id p2,
    let '((r, tlv), p3) := do_read_tlv junk heap stack ctl id p2 in
    held (wld p3) = held (wld p2) /\ r <= 0 /\ (r = 0 -> List.length tlv = 256%nat /\ whole_tlv 1024 tlv)).
  { intros ctl id p2. unfold do_read_tlv.
    pose proof (tlv_read_spec junk heap ctl id stack (TLV_SIZE * 4) p2 Hlaw
      ltac:(unfold TLV_SIZE; lia) ltac:(change (int_index _) with 256; lia)) as H3.
    destruct (snd_ctl_elem_tlv_read _ _ _ _ _ _ p2) as [[x y] p3]. destruct H3 as (H1 & [H2 _] & H3 & H4 & _).
    split; [done|]. split; [done|]. intros Hx. split; [congruence|]. apply H4. done. }
  pose proof (do_ctl_chmap_held card dev subdev stream (do_read_tlv junk heap stack) stack p) as H1.
  unfold do_ctl_chmap, bind in *. pose proof (ctl_open_spec (String.append "hw:" (pretty card)) 0 p) as Ho.
  destruct (snd_ctl_open _ 0 p) as [[r [ctl|]] p1]; [|split; [apply Ho|intros; lia]].
  assert (Hf : forall ctl id q, held (wld (do_read_tlv junk heap stack ctl id q).2) = held (wld q) /\
    ptrs (do_read_tlv junk heap stack ctl id q).2 = ptrs q).
  { intros c id q. split; [|apply tlv_read_ptrs]. specialize (Hread c id q).
    destruct (do_read_tlv _ _ _ c id q) as [[? ?] q1]. apply Hread. }
  specialize (H1 Hf). specialize (Hread ctl (chmap_id dev subdev stream) p1).
  destruct (do_read_tlv _ _ _ ctl _ p1) as [[r1 tlv] p2]. destruct Hread as (_ & Hr1 & Htlv).
  destruct (snd_ctl_close ctl p2) as [c p3]. cbn [snd ret] in *. unfold ret in *. split; [exact H1|].
  destruct (Z.ltb_spec r1 0); [lia|]. intros _. split; [done|]. apply Htlv. lia.
Qed.

(** C38. Asking for channel maps leaves nothing behind: [snd_pcm_query_chmaps_from_hw] and
    [snd_pcm_get_chmap] keep only the blocks of the maps they return, and nothing where they
    return NULL, [snd_pcm_set_chmap] keeps nothing, and the control device that each opens
    is closed again.  One answer of the card is left out: the code trusts the sizes in a
    container, and where a map in it announces more than is there it reads past its array,
    which is undefined (the outcome [None]).  That happens for no other data: only where the
    read succeeded with a container whose maps do not stay inside it, and what has been
    taken by then is blocks only. *)
Theorem chmap_calls_balanced (junk : snd_ctl_elem_info_t) (heap stack : list Z) (pcm : snd_pcm_t)
    (map : snd_pcm_chmap_t) (p : proc K) :
  tlv_answers (K := K) -> List.length stack = 256%nat -> (256 <= List.length heap)%nat ->
  (let '(r, p') := snd_pcm_query_chmaps junk heap stack pcm p in
   match r with
   | None =>
       (exists blocks, held (wld p') ≡ₚ (RMem <$> blocks) ++ held (wld p)) /\
       let '(r, tlv) := (do_ctl_chmap (card pcm) (device pcm) (subdevice pcm) (stream pcm)
         (do_read_tlv junk heap stack) stack p).1 in
       r = 0 /\ nthz 0 tlv 0 = 0 /\ ~ maps_inside (drop 2 tlv) (nthz 0 tlv 1)
   | Some None => held (wld p') ≡ₚ held (wld p)
   | Some (Some r) => held (wld p') ≡ₚ query_blocks r ++ held (wld p) /\
                      held (snd_pcm_free_chmaps (Some r) (wld p')).2 ≡ₚ held (wld p)
   end) /\
  (let '(r, p') := snd_pcm_get_chmap pcm p in
   held (wld p') = match r with Some m => [RMem (cm_block m)] | None => [] end ++ held (wld p)) /\
  held (wld (snd_pcm_set_chmap pcm map p).2) = held (wld p).
Proof.
  intros Hlaw Hstack Hheap. split; [|split].
  - unfold snd_pcm_query_chmaps, snd_pcm_query_chmaps_from_hw, bind.
    pose proof (read_chmap_spec junk heap stack (card pcm) (device pcm) (subdevice pcm) (stream pcm) p
      Hlaw Hstack Hheap) as H1.
    destruct (do_ctl_chmap _ _ _ _ _ stack p) as [[r tlv] p1]. destruct H1 as [<- Htlv].
    destruct (Z.ltb_spec r 0); [cbn; reflexivity|]. rewrite onsys_eq. destruct (Htlv ltac:(lia)) as (-> & Hl & Hw).
    pose proof (query_tlv_held tlv (wld p1)) as H2. pose proof (query_inside tlv (wld p1) Hl Hw) as H3.
    destruct (query_tlv tlv (wld p1)) as [[[q|]|] w']; [split; [done|]; apply free_chmaps_spec; done|done|].
    split; [exact H2|]. cbn [fst]. split; [done|]. destruct (Z.eq_dec (nthz 0 tlv 0) 0) as [H0|H0].
    + split; [done|]. intros Hin. apply H3; [auto|done].
    + exfalso. apply H3; [congruence|done].
  - unfold snd_pcm_get_chmap, bind at 1. rewrite onsys_eq.
    pose proof (alloc_spec (channels pcm * 4 + 4) (wld p)) as Ha. destruct (sys_alloc _ (wld p)) as [[a|] w1]; [|exact Ha].
    set (p1 := Proc w1 _ _ _). unfold bind at 1.
    pose proof (do_ctl_chmap_held (card pcm) (device pcm) (subdevice pcm) (stream pcm)
      (do_get_chmap (Z.to_nat (channels pcm))) [] p1) as H1.
    destruct (do_ctl_chmap _ _ _ _ _ [] p1) as [[r l] p2]. cbn [snd] in H1.
    assert (H2 : held (wld p2) = RMem a :: held (wld p)).
    { rewrite H1; [exact Ha|]. intros ctl id p3. unfold do_get_chmap, bind.
      pose proof (elem_read_held ctl (value_of id) p3) as H3.
      destruct (snd_ctl_elem_read ctl _ p3) as [[x v] p4]. destruct (x <? 0); exact H3. }
    destruct (r <? 0); [|exact H2]. unfold bind, sys_free, drop_resource, ret. rewrite onsys_eq. cbn [snd wld held].
    rewrite H2, release_head. done.
  - unfold snd_pcm_set_chmap. destruct (128 <? cm_channels map); [done|]. unfold bind at 1.
    pose proof (do_ctl_chmap_held (card pcm) (device pcm) (subdevice pcm) (stream pcm)
      (do_set_chmap (pos map)) tt p) as H1.
    destruct (do_ctl_chmap _ _ _ _ _ tt p) as [[r []] p1]. apply H1. intros ctl id p2.
    unfold do_set_chmap, bind. pose proof (elem_write_held ctl (put_positions 0 (pos map) (value_of id)) p2) as H3.
    destruct (snd_ctl_elem_write ctl _ p2) as [[x v] p4]. exact H3.
Qed.
End Balance.

(** A card that answers a query for TLV data with the words [data]. *)
Definition chmap_card (data : list Z) : CtlKernel Z := {|
  ioctl_ctl_pversion := ioctl_ctl_pversion (CtlKernel := toy_ctl);
  ioctl_elem_list := ioctl_elem_list (CtlKernel := toy_ctl);
  ioctl_elem_info _ i := ret (0, toy_info (ElemInfo (set_numid 7 (info_id i)) 0 0 0 0 (info_integer_value i)
    (info_enumerated_value i) (dimen i)));
  ioctl_elem_add := ioctl_elem_add (CtlKernel := toy_ctl);
  ioctl_elem_read := ioctl_elem_read (CtlKernel := toy_ctl);
  ioctl_elem_write := ioctl_elem_write (CtlKernel := toy_ctl);
  ioctl_elem_id := ioctl_elem_id (CtlKernel := toy_ctl);
  ioctl_tlv _ _ _ _ ws := ret (0, take (List.length ws) (map u32 data) ++ drop (List.length data) (map u32 ws));
  ioctl_subscribe := ioctl_subscribe (CtlKernel := toy_ctl);
  ioctl_next_device := ioctl_next_device (CtlKernel := toy_ctl);
  read_event := read_event (CtlKernel := toy_ctl)
|}.

Lemma chmap_card_answers data : @tlv_answers Z (chmap_card data).
Proof.
  intros c fd n len ws k. simpl. rewrite length_app, length_take, length_drop, !length_map. split; [lia|].
  assert (Hu : forall l, Forall is_u32 (map u32 l)).
  { intros l. apply Forall_forall. intros x (y & -> & _)%list_elem_of_fmap. apply u32_range. }
  intros _. apply Forall_app_2; [apply Forall_take|apply Forall_drop]; apply Hu.
Qed.

(** One stereo map; and a container of 16 bytes with a map of 2000. *)
Definition query_card (data : list Z) : option (option (Z * list snd_pcm_chmap_query_t)) * proc Z :=
  @snd_pcm_query_chmaps Z _ _ _ (chmap_card data) zero_info (replicate 256 9) (replicate 256 5)
    (new_pcm 1 0 0 0 STREAM_PLAYBACK 0 3 4) toy_process.

Lemma chmap_calls_balanced_witness :
  match query_card [257; 8; 3; 4] with
  | (Some (Some r), p') => plain <$> snd r = [(1, [3; 4])] /\ held (snd_pcm_free_chmaps (Some r) (wld p')).2 ≡ₚ []
  | _ => False
  end /\
  match query_card [0; 16; 257; 2000; 3] with
  | (None, p') => exists blocks, held (wld p') ≡ₚ (RMem <$> blocks) ++ []
  | _ => False
  end.
Proof.
  split.
  - destruct (@chmap_calls_balanced Z _ _ _ _ (chmap_card [257; 8; 3; 4]) zero_info (replicate 256 9) (replicate 256 5)
      (new_pcm 1 0 0 0 STREAM_PLAYBACK 0 3 4) (Chmap 0 []) toy_process (chmap_card_answers _) eq_refl
      ltac:(vm_compute; lia)) as [H _].
    assert (Hr : match (query_card [257; 8; 3; 4]).1 with
      | Some (Some r) => plain <$> snd r = [(1, [3; 4])] | _ => False end) by (vm_compute; reflexivity).
    unfold query_card in *. destruct (snd_pcm_query_chmaps _ _ _ _ toy_process) as [[[r|]|] p']; [|destruct Hr..].
    destruct H as [_ H]. split; [exact Hr|exact H].
  - destruct (@chmap_calls_balanced Z _ _ _ _ (chmap_card [0; 16; 257; 2000; 3]) zero_info (replicate 256 9)
      (replicate 256 5) (new_pcm 1 0 0 0 STREAM_PLAYBACK 0 3 4) (Chmap 0 []) toy_process (chmap_card_answers _) eq_refl
      ltac:(vm_compute; lia)) as [H _].
    assert (Hr : (query_card [0; 16; 257; 2000; 3]).1 = None) by (vm_compute; reflexivity).
    unfold query_card in *. destruct (snd_pcm_query_chmaps _ _ _ _ toy_process) as [[r|] p']; [discriminate Hr|].
    destruct H as [H _]. exact H.
Defined.
