(* ===== verification/IoDev.v ===== *)
(** * What the small device interfaces share

    The rawmidi, timer and hwdep interfaces are thin layers over one descriptor: the
    structures of [poll], the two calls [read] and [write], the events asked for by an
    access mode, and the allocation helpers that src/src/global.h generates for every
    structure the kernel shares with the library. *)

From S2P Require Import Prelude CInt Sys Cards.
#[local] Open Scope Z_scope.

Record pollfd := Pollfd { pfd_fd : Z; pfd_events : Z; pfd_revents : Z }.

(** The plain [read] and [write] of a device file: the result, and the bytes read. *)
Class DevKernel (K : Type) := {
  os_read : Z -> Z -> io K (Z * list Z);
  os_write : Z -> list Z -> io K Z
}.

(* [asound.h 40-44 struct __snd_timespec64] *)
Record snd_timespec := Timespec { tv_sec : Z; tv_nsec : Z }.

(** The switch both openers share; where no case applies the events stay 0. *)
(* [hwdep.c 66-76 snd_hwdep_open] *)
Definition access_events (mode : Z) : Z :=
  let acc := Z.land mode O_ACCMODE in
  if acc =? O_WRONLY then Z.lor POLLOUT (Z.lor POLLERR POLLNVAL)
  else if acc =? O_RDONLY then Z.lor POLLIN (Z.lor POLLERR POLLNVAL)
  else if acc =? O_RDWR then Z.lor POLLOUT (Z.lor POLLIN (Z.lor POLLERR POLLNVAL))
  else 0.

Section IoDev.
Context {K : Type} `{!Os K}.

(** [calloc] of a structure: the block with the structure zeroed, or NULL. *)
(* [global.h 113-120 __snd_malloc] *)
Definition snd_type_malloc {T} (size : Z) (zero : T) : io (world K) (Z * option (Z * T)) :=
  let* p := sys_alloc size in
  ret (match p with None => (- ENOMEM, None) | Some a => (0, Some (a, zero)) end).

(* [global.h 122-126 __snd_free] *)
Definition snd_type_free (obj : option Z) : io (world K) unit :=
  match obj with Some a => sys_free a | None => ret tt end.

(* [global.h 128-132 __snd_clear] *)
Definition snd_type_clear {T} (zero : T) (obj : T) : T := zero.

(* [global.h 134-138 __snd_copy] *)
Definition snd_type_copy {T} (dst src : T) : T := src.

(** [strdup] of a name: the copy and its block; NULL where there is no memory. *)
Definition sys_strdup (s : string) : io (world K) (option (Z * string)) :=
  let* p := sys_alloc (Z.of_nat (String.length s) + 1) in
  ret (option_map (fun a => (a, s)) p).

(** [free(name)]. *)
Definition free_name (n : option (Z * string)) : io (world K) unit :=
  match n with Some (a, _) => sys_free a | None => ret tt end.

(** The block of a copied name. *)
Definition name_block (n : option (Z * string)) : list resource :=
  match n with Some (a, _) => [RMem a] | None => [] end.

(** [if (ioctl(...) < 0) return -errno; return 0;]: the code, and the structure as the
    kernel left it. *)
Definition answer {A} (m : io K (Z * A)) : io (world K) (Z * A) :=
  let* '(r, a) := lift m in ret (if r <? 0 then r else 0, a).

Definition answer0 (m : io K Z) : io (world K) Z :=
  let* r := lift m in ret (if r <? 0 then r else 0).

(** ** Lemmas *)

Lemma strdup_spec s (w : world K) :
  let '(n, w') := sys_strdup s w in
  held w' = name_block n ++ held w /\ (forall a t, n = Some (a, t) -> t = s).
Proof.
  unfold sys_strdup, bind. pose proof (alloc_spec (Z.of_nat (String.length s) + 1) w) as Ha.
  destruct (sys_alloc _ w) as [[a|] w']; simpl; rewrite Ha; split; try done. intros ?? [= _ <-]. done.
Qed.

Lemma free_name_spec n (w : world K) rest :
  held w ≡ₚ name_block n ++ rest -> held (free_name n w).2 ≡ₚ rest.
Proof.
  intros H. destruct n as [[a t]|]; simpl in *; [|done]. unfold sys_free, drop_resource. simpl.
  rewrite H, release_head. done.
Qed.

(** An opener's error exit. *)
Lemma fail_close_spec {A} fd (x : A) (w : world K) rest :
  held w ≡ₚ RFd fd :: rest ->
  let '(y, w') := (let* _ := sys_close fd in ret x) w in y = x /\ held w' ≡ₚ rest.
Proof.
  intros Hw. unfold bind, ret. pose proof (sys_close_spec fd w) as Hc. destruct (sys_close fd w) as [c w'].
  split; [done|]. rewrite Hc, Hw, release_head. done.
Qed.

(** The close of a handle that is a descriptor and a block. *)
Lemma close_free_spec fd a (w : world K) rest :
  held w ≡ₚ RMem a :: RFd fd :: rest ->
  held ((let* _ := sys_close fd in let* _ := sys_free a in ret 0) w).2 ≡ₚ rest.
Proof.
  intros Hw. unfold bind, ret. pose proof (sys_close_spec fd w) as Hc. destruct (sys_close fd w) as [c w'].
  unfold sys_free, drop_resource. simpl. rewrite Hc, Hw.
  rewrite (Permutation_swap (RFd fd) (RMem a)), !release_head. done.
Qed.

Lemma balanced_answer {A} (m : io K (Z * A)) : balanced (answer m).
Proof. unfold answer. balanced_tac. Qed.

Lemma balanced_answer0 (m : io K Z) : balanced (answer0 m).
Proof. unfold answer0. balanced_tac. Qed.

Lemma answer_code {A} (m : io K (Z * A)) (w : world K) : (answer m w).1.1 <= 0.
Proof.
  unfold answer, bind, lift, ret. destruct (m (ker w)) as [[r a] k]. simpl.
  destruct (Z.ltb_spec r 0); lia.
Qed.
End IoDev.

#[export] Hint Resolve balanced_answer balanced_answer0 : balanced.
