(* ===== verification/Rawmidi.v ===== *)
(** * Raw MIDI

    src/src/rawmidi.c and src/src/rawmidi_macros.h.  One open device is a block
    [snd_rawmidi_hw_t] with the descriptor and a count of the handles, one for input
    and one for output, that share it.  The blocks are in stores, [hws] and [rmidis], by
    address, 0 being NULL, so that the sharing is the code's. *)

From stdpp Require Import gmap pretty.
From Stdlib Require Import Ascii String.
From S2P Require Import Prelude CInt Sys Cards IoDev.
#[local] Open Scope Z_scope.

(* [rawmidi_func.h 8-8 SND_RAWMIDI_APPEND] *)
Definition SND_RAWMIDI_APPEND : Z := 1.
(* [rawmidi_func.h 9-9 SND_RAWMIDI_NONBLOCK] *)
Definition SND_RAWMIDI_NONBLOCK : Z := 2.
(* [rawmidi_func.h 10-10 SND_RAWMIDI_SYNC] *)
Definition SND_RAWMIDI_SYNC : Z := 4.

(* [asound.h 654-658 snd_rawmidi_stream_t] *)
Definition STREAM_OUTPUT : Z := 0.
Definition STREAM_INPUT : Z := 1.

Definition SND_RAWMIDI_TYPE_HW : Z := 0.

(* [asound.h 664-676 struct snd_rawmidi_info] *)
Record snd_rawmidi_info_t := RmInfo {
  ri_device : Z;
  ri_subdevice : Z;
  ri_stream : Z;
  ri_card : Z;
  ri_flags : Z;
  ri_id : string;
  ri_name : string;
  ri_subname : string;
  ri_subdevices_count : Z;
  ri_subdevices_avail : Z
}.

(* [asound.h 678-684 struct snd_rawmidi_params] *)
Record snd_rawmidi_params_t := RmParams {
  rp_stream : Z;
  rp_buffer_size : Z;
  rp_avail_min : Z;
  rp_no_active_sensing : Z   (* one bit *)
}.

(* [asound.h 686-692 struct snd_rawmidi_status] *)
Record snd_rawmidi_status_t := RmStatus {
  rst_stream : Z;
  rst_tstamp : snd_timespec;
  rst_avail : Z;
  rst_xruns : Z
}.

(* [rawmidi_macros.h 18-23 struct _snd_rawmidi_hw] *)
Record snd_rawmidi_hw_t := RmHw {
  hw_name : option (Z * string);
  hw_fd : Z;
  hw_type : Z;
  opened : Z
}.

(* [rawmidi_macros.h 25-32 struct _snd_rawmidi] *)
Record snd_rawmidi_t := Rmidi {
  rm_fd : Z;
  rm_stream : Z;
  rm_mode : Z;
  rm_pollfd : pollfd;
  rm_params : snd_rawmidi_params_t;
  rm_hw : Z
}.

Definition sizeof_rmidi : Z := 88.
Definition sizeof_rmidi_hw : Z := 24.
Definition zero_hw : snd_rawmidi_hw_t := RmHw None 0 0 0.
Definition zero_rm_params : snd_rawmidi_params_t := RmParams 0 0 0 0.
Definition zero_rmidi : snd_rawmidi_t := Rmidi 0 0 0 (Pollfd 0 0 0) zero_rm_params 0.

Class RawmidiKernel (K : Type) := {
  ioctl_rm_pversion : Z -> io K Z;
  ioctl_rm_info : Z -> snd_rawmidi_info_t -> io K (Z * snd_rawmidi_info_t);
  ioctl_rm_params : Z -> snd_rawmidi_params_t -> io K (Z * snd_rawmidi_params_t);
  ioctl_rm_status : Z -> snd_rawmidi_status_t -> io K (Z * snd_rawmidi_status_t);
  ioctl_rm_drain : Z -> Z -> io K Z;
  ioctl_rm_drop : Z -> Z -> io K Z
}.

(** The two stores and the system. *)
Record rs (K : Type) := RS {
  hws : gmap Z snd_rawmidi_hw_t;
  rmidis : gmap Z snd_rawmidi_t;
  rwld : world K
}.
Arguments RS {K}.
Arguments hws {K}.
Arguments rmidis {K}.
Arguments rwld {K}.

Definition set_opened (n : Z) (h : snd_rawmidi_hw_t) : snd_rawmidi_hw_t :=
  RmHw (hw_name h) (hw_fd h) (hw_type h) n.

Definition set_rm_params (p : snd_rawmidi_params_t) (r : snd_rawmidi_t) : snd_rawmidi_t :=
  Rmidi (rm_fd r) (rm_stream r) (rm_mode r) (rm_pollfd r) p (rm_hw r).

Definition set_rp_stream (v : Z) (p : snd_rawmidi_params_t) : snd_rawmidi_params_t :=
  RmParams v (rp_buffer_size p) (rp_avail_min p) (rp_no_active_sensing p).

(** ** The fields of the structures *)

(* [rawmidi_macros.h 88-92 snd_rawmidi_info_get_device] *)
Definition snd_rawmidi_info_get_device := ri_device.
(* [rawmidi_macros.h 94-98 snd_rawmidi_info_get_subdevice] *)
Definition snd_rawmidi_info_get_subdevice := ri_subdevice.
(* [rawmidi_macros.h 100-104 snd_rawmidi_info_get_stream] *)
Definition snd_rawmidi_info_get_stream (obj : snd_rawmidi_info_t) : Z := u32 (ri_stream obj).
(* [rawmidi_macros.h 106-110 snd_rawmidi_info_get_card] *)
Definition snd_rawmidi_info_get_card := ri_card.
(* [rawmidi_macros.h 112-116 snd_rawmidi_info_get_flags] *)
Definition snd_rawmidi_info_get_flags := ri_flags.
(* [rawmidi_macros.h 118-122 snd_rawmidi_info_get_id] *)
Definition snd_rawmidi_info_get_id := ri_id.
(* [rawmidi_macros.h 124-128 snd_rawmidi_info_get_name] *)
Definition snd_rawmidi_info_get_name := ri_name.
(* [rawmidi_macros.h 130-134 snd_rawmidi_info_get_subdevice_name] *)
Definition snd_rawmidi_info_get_subdevice_name := ri_subname.
(* [rawmidi_macros.h 136-140 snd_rawmidi_info_get_subdevices_count] *)
Definition snd_rawmidi_info_get_subdevices_count := ri_subdevices_count.
(* [rawmidi_macros.h 142-146 snd_rawmidi_info_get_subdevices_avail] *)
Definition snd_rawmidi_info_get_subdevices_avail := ri_subdevices_avail.

(* [rawmidi_macros.h 148-152 snd_rawmidi_info_set_device] *)
Definition snd_rawmidi_info_set_device (i : snd_rawmidi_info_t) (v : Z) : snd_rawmidi_info_t :=
  RmInfo v (ri_subdevice i) (ri_stream i) (ri_card i) (ri_flags i) (ri_id i) (ri_name i)
    (ri_subname i) (ri_subdevices_count i) (ri_subdevices_avail i).

(* [rawmidi_macros.h 154-158 snd_rawmidi_info_set_subdevice] *)
Definition snd_rawmidi_info_set_subdevice (i : snd_rawmidi_info_t) (v : Z) : snd_rawmidi_info_t :=
  RmInfo (ri_device i) v (ri_stream i) (ri_card i) (ri_flags i) (ri_id i) (ri_name i)
    (ri_subname i) (ri_subdevices_count i) (ri_subdevices_avail i).

(** The enumeration is unsigned, the field an [int]. *)
(* [rawmidi_macros.h 160-165 snd_rawmidi_info_set_stream] *)
Definition snd_rawmidi_info_set_stream (i : snd_rawmidi_info_t) (v : Z) : snd_rawmidi_info_t :=
  RmInfo (ri_device i) (ri_subdevice i) (s32 v) (ri_card i) (ri_flags i) (ri_id i) (ri_name i)
    (ri_subname i) (ri_subdevices_count i) (ri_subdevices_avail i).

(* [rawmidi_macros.h 178-185 snd_rawmidi_params_set_buffer_size] *)
Definition snd_rawmidi_params_set_buffer_size (p : snd_rawmidi_params_t) (v : Z) : Z * snd_rawmidi_params_t :=
  (0, RmParams (rp_stream p) v (rp_avail_min p) (rp_no_active_sensing p)).

(* [rawmidi_macros.h 187-191 snd_rawmidi_params_get_buffer_size] *)
Definition snd_rawmidi_params_get_buffer_size := rp_buffer_size.

(* [rawmidi_macros.h 193-199 snd_rawmidi_params_set_avail_min] *)
Definition snd_rawmidi_params_set_avail_min (p : snd_rawmidi_params_t) (v : Z) : Z * snd_rawmidi_params_t :=
  (0, RmParams (rp_stream p) (rp_buffer_size p) v (rp_no_active_sensing p)).

(* [rawmidi_macros.h 201-205 snd_rawmidi_params_get_avail_min] *)
Definition snd_rawmidi_params_get_avail_min := rp_avail_min.

(** An [int] stored in a one-bit field: its lowest bit. *)
(* [rawmidi_macros.h 207-214 snd_rawmidi_params_set_no_active_sensing] *)
Definition snd_rawmidi_params_set_no_active_sensing (p : snd_rawmidi_params_t) (v : Z)
  : Z * snd_rawmidi_params_t :=
  (0, RmParams (rp_stream p) (rp_buffer_size p) (rp_avail_min p) (v mod 2)).

(* [rawmidi_macros.h 216-220 snd_rawmidi_params_get_no_active_sensing] *)
Definition snd_rawmidi_params_get_no_active_sensing := rp_no_active_sensing.

(* [rawmidi_macros.h 242-247 snd_rawmidi_status_get_tstamp] *)
Definition snd_rawmidi_status_get_tstamp := rst_tstamp.
(* [rawmidi_macros.h 249-253 snd_rawmidi_status_get_avail] *)
Definition snd_rawmidi_status_get_avail := rst_avail.
(* [rawmidi_macros.h 255-259 snd_rawmidi_status_get_xruns] *)
Definition snd_rawmidi_status_get_xruns := rst_xruns.

(** ** Operations *)

(** The device file's name and flags. *)
(* [rawmidi.c 92-93 snd_rawmidi_open] *)
Definition rawmidi_filename (card dev : Z) : string :=
  String.append SALSA_DEVPATH (String.append "/midiC" (String.append (pretty card)
    (String.append "D" (pretty dev)))).

(* [rawmidi.c 95-106 snd_rawmidi_open] *)
Definition rawmidi_flags (want_in want_out : bool) (mode : Z) : Z :=
  let fmode := if negb want_in then O_WRONLY else if negb want_out then O_RDONLY else O_RDWR in
  let fmode := if nz (Z.land mode SND_RAWMIDI_APPEND) then Z.lor fmode O_APPEND else fmode in
  let fmode := if nz (Z.land mode SND_RAWMIDI_NONBLOCK) then Z.lor fmode O_NONBLOCK else fmode in
  if nz (Z.land mode SND_RAWMIDI_SYNC) then Z.lor fmode O_SYNC else fmode.

Definition stream_events (stream : Z) : Z :=
  if stream =? STREAM_OUTPUT then Z.lor POLLOUT (Z.lor POLLERR POLLNVAL)
  else Z.lor POLLIN (Z.lor POLLERR POLLNVAL).

Section Rawmidi.
Context {K : Type} `{!Os K, !CardKernel K, !RawmidiKernel K, !DevKernel K}.

Definition onw {A} (m : io (world K) A) : io (rs K) A :=
  fun s => let '(a, w) := m (rwld s) in (a, RS (hws s) (rmidis s) w).

(** [*p]; a pointer that is NULL or dangling gives zeroes. *)
Definition gethw (a : Z) : io (rs K) snd_rawmidi_hw_t := fun s => (default zero_hw (hws s !! a), s).
Definition getrm (a : Z) : io (rs K) snd_rawmidi_t := fun s => (default zero_rmidi (rmidis s !! a), s).

Definition puthw (a : Z) (h : snd_rawmidi_hw_t) : io (rs K) unit :=
  fun s => (tt, RS (<[a := h]> (hws s)) (rmidis s) (rwld s)).
Definition putrm (a : Z) (r : snd_rawmidi_t) : io (rs K) unit :=
  fun s => (tt, RS (hws s) (<[a := r]> (rmidis s)) (rwld s)).
Definition delhw (a : Z) : io (rs K) unit := fun s => (tt, RS (delete a (hws s)) (rmidis s) (rwld s)).
Definition delrm (a : Z) : io (rs K) unit := fun s => (tt, RS (hws s) (delete a (rmidis s)) (rwld s)).

(** The local structure is unset ([memzero_valgrind] is empty): [junk]. *)
(* [rawmidi.c 34-43 get_rawmidi_subdev] *)
Definition get_rawmidi_subdev (junk : snd_rawmidi_info_t) (fd fmode : Z) : io (world K) Z :=
  let info := snd_rawmidi_info_set_stream junk
    (if negb (Z.land fmode O_ACCMODE =? O_RDONLY) then STREAM_OUTPUT else STREAM_INPUT) in
  let* '(r, info) := lift (ioctl_rm_info fd info) in
  ret (if r <? 0 then -1 else s32 (ri_subdevice info)).

(** The parameters are given back as the kernel left them. *)
(* [rawmidi_macros.h 222-230 snd_rawmidi_params] *)
Definition snd_rawmidi_params (rmidi : Z) (params : snd_rawmidi_params_t)
  : io (rs K) (Z * snd_rawmidi_params_t) :=
  let* r := getrm rmidi in
  let params := set_rp_stream (rm_stream r) params in
  let* '(err, params) := onw (lift (ioctl_rm_params (rm_fd r) params)) in
  if err <? 0 then ret (err, params)
  else let* _ := putrm rmidi (set_rm_params params r) in ret (0, params).

(** The last call is on the handle's own parameters: whatever its result, they are what
    the kernel left. *)
(* [rawmidi.c 45-67 new_rmidi] *)
Definition new_rmidi (hw stream mode : Z) : io (rs K) Z :=
  let* p := onw (sys_alloc sizeof_rmidi) in
  match p with
  | None => ret 0
  | Some a =>
      let* h := gethw hw in
      let params := RmParams 0 4096 1 1 in
      let rmidi := Rmidi (hw_fd h) stream mode (Pollfd (hw_fd h) (stream_events stream) 0) params hw in
      let* _ := putrm a rmidi in
      let* _ := puthw hw (set_opened (opened h + 1) h) in
      let* '(_, params) := snd_rawmidi_params a params in
      let* _ := putrm a (set_rm_params params rmidi) in
      ret a
  end.

(* [rawmidi.c 161-175 snd_rawmidi_close] *)
Definition snd_rawmidi_close (rmidi : Z) : io (rs K) Z :=
  let* r := getrm rmidi in
  let* _ :=
    if nz (rm_hw r) then
      let* h := gethw (rm_hw r) in
      let h := set_opened (opened h - 1) h in
      let* _ := puthw (rm_hw r) h in
      if negb (nz (opened h)) then
        let* _ := onw (sys_close (hw_fd h)) in
        let* _ := onw (free_name (hw_name h)) in
        let* _ := onw (sys_free (rm_hw r)) in
        delhw (rm_hw r)
      else ret tt
    else ret tt in
  let* _ := onw (sys_free rmidi) in
  let* _ := delrm rmidi in
  ret 0.

(** The descriptor. *)
(* [rawmidi.c 108-121 snd_rawmidi_open] *)
Definition open_rawmidi_fd (errno0 : Z) (junk : snd_rawmidi_info_t) (filename : string)
  (fmode card subdev : Z) : io (world K) Z :=
  if 0 <=? subdev then
    let* fd := _snd_open_subdev errno0 filename fmode card subdev RawmidiPreferSubdevice in
    if fd <? 0 then ret fd
    else
      let* sub := get_rawmidi_subdev junk fd fmode in
      if negb (sub =? subdev) then let* _ := sys_close fd in ret (- EBUSY) else ret fd
  else sys_open filename fmode.

(** The error exit. *)
(* [rawmidi.c 152-158 snd_rawmidi_open] *)
Definition open_error (fd in_rmidi err : Z) : io (rs K) (Z * (Z * Z)) :=
  let* _ := if nz in_rmidi then let* _ := snd_rawmidi_close in_rmidi in ret tt else ret tt in
  let* _ := onw (sys_close fd) in
  ret (err, (0, 0)).

(** One handle, where its pointer is given. *)
Definition open_stream (want : bool) (hw stream mode : Z) : io (rs K) (bool * Z) :=
  if want then let* a := new_rmidi hw stream mode in ret (nz a, a) else ret (true, 0).

(** What follows the opening of the descriptor. *)
(* [rawmidi.c 122-150 snd_rawmidi_open] *)
Definition open_handles (want_in want_out : bool) (name : string) (mode fd : Z)
  : io (rs K) (Z * (Z * Z)) :=
  let* ver := onw (lift (ioctl_rm_pversion fd)) in
  if ver <? 0 then open_error fd 0 ver
  else
    let* p := onw (sys_alloc sizeof_rmidi_hw) in
    match p with
    | None => open_error fd 0 (- ENOMEM)
    | Some hw =>
        let* n := onw (sys_strdup name) in
        let* _ := puthw hw (RmHw n fd SND_RAWMIDI_TYPE_HW 0) in
        let* '(ok, inp) := open_stream want_in hw STREAM_INPUT mode in
        if negb ok then open_error fd 0 (- ENOMEM)
        else
          let* '(ok, out) := open_stream want_out hw STREAM_OUTPUT mode in
          if negb ok then open_error fd inp (- ENOMEM)
          else ret (0, (inp, out))
    end.

(** [want_in] and [want_out] tell which pointers are given; the results are what is
    stored through them, 0 being NULL. *)
(* [rawmidi.c 69-121 snd_rawmidi_open] *)
Definition snd_rawmidi_open (errno0 : Z) (junk : snd_rawmidi_info_t) (want_in want_out : bool)
  (name : string) (mode : Z) : io (rs K) (Z * (Z * Z)) :=
  let* '(err, (card, dev, subdev)) := onw (_snd_dev_get_device name true true) in
  if err <? 0 then ret (err, (0, 0))
  else
    let* fd := onw (open_rawmidi_fd errno0 junk (rawmidi_filename card dev)
                      (rawmidi_flags want_in want_out mode) card subdev) in
    if fd <? 0 then ret (fd, (0, 0))
    else open_handles want_in want_out name mode fd.

(* [rawmidi_macros.h 56-60 snd_rawmidi_nonblock] *)
Definition snd_rawmidi_nonblock (rmidi nonblock : Z) : io (rs K) Z :=
  let* r := getrm rmidi in onw (_snd_set_nonblock (rm_fd r) nonblock).

(* [rawmidi_macros.h 62-66 snd_rawmidi_poll_descriptors_count] *)
Definition snd_rawmidi_poll_descriptors_count (rmidi : Z) : Z := 1.

(* [rawmidi_macros.h 68-74 snd_rawmidi_poll_descriptors] *)
Definition snd_rawmidi_poll_descriptors (rmidi space : Z) : io (rs K) (Z * pollfd) :=
  let* r := getrm rmidi in ret (1, rm_pollfd r).

(* [rawmidi_macros.h 76-84 snd_rawmidi_poll_descriptors_revents] *)
Definition snd_rawmidi_poll_descriptors_revents (rmidi : Z) (pfds : pollfd) (nfds : Z) : Z * Z :=
  (0, pfd_events pfds).

(* [rawmidi_macros.h 167-174 snd_rawmidi_info] *)
Definition snd_rawmidi_info (rmidi : Z) (info : snd_rawmidi_info_t) : io (rs K) (Z * snd_rawmidi_info_t) :=
  let* r := getrm rmidi in
  onw (answer (ioctl_rm_info (rm_fd r) (snd_rawmidi_info_set_stream info (rm_stream r)))).

(* [rawmidi_macros.h 232-238 snd_rawmidi_params_current] *)
Definition snd_rawmidi_params_current (rmidi : Z) : io (rs K) (Z * snd_rawmidi_params_t) :=
  let* r := getrm rmidi in ret (0, rm_params r).

(* [rawmidi_macros.h 261-268 snd_rawmidi_status] *)
Definition snd_rawmidi_status (rmidi : Z) (st : snd_rawmidi_status_t) : io (rs K) (Z * snd_rawmidi_status_t) :=
  let* r := getrm rmidi in
  onw (answer (ioctl_rm_status (rm_fd r) (RmStatus (rm_stream r) (rst_tstamp st) (rst_avail st) (rst_xruns st)))).

(* [rawmidi_macros.h 270-277 snd_rawmidi_drain] *)
Definition snd_rawmidi_drain (rmidi : Z) : io (rs K) Z :=
  let* r := getrm rmidi in onw (answer0 (ioctl_rm_drain (rm_fd r) (rm_stream r))).

(* [rawmidi_macros.h 279-286 snd_rawmidi_drop] *)
Definition snd_rawmidi_drop (rmidi : Z) : io (rs K) Z :=
  let* r := getrm rmidi in onw (answer0 (ioctl_rm_drop (rm_fd r) (rm_stream r))).

(* [rawmidi_macros.h 288-297 snd_rawmidi_write] *)
Definition snd_rawmidi_write (rmidi : Z) (buffer : list Z) (size : Z) : io (rs K) Z :=
  let* r := getrm rmidi in
  onw (lift (os_write (rm_fd r) (take (Z.to_nat size) buffer))).

(* [rawmidi_macros.h 299-307 snd_rawmidi_read] *)
Definition snd_rawmidi_read (rmidi size : Z) : io (rs K) (Z * list Z) :=
  let* r := getrm rmidi in onw (lift (os_read (rm_fd r) size)).

(* [rawmidi_macros.h 309-313 snd_rawmidi_name] *)
Definition snd_rawmidi_name (rmidi : Z) : io (rs K) (option (Z * string)) :=
  let* r := getrm rmidi in let* h := gethw (rm_hw r) in ret (hw_name h).

(* [rawmidi_macros.h 315-319 snd_rawmidi_type] *)
Definition snd_rawmidi_type (rmidi : Z) : io (rs K) Z :=
  let* r := getrm rmidi in let* h := gethw (rm_hw r) in ret (hw_type h).

(* [rawmidi_macros.h 321-325 snd_rawmidi_stream] *)
Definition snd_rawmidi_stream (rmidi : Z) : io (rs K) Z :=
  let* r := getrm rmidi in ret (rm_stream r).
End Rawmidi.

(* [rawmidi_macros.h 49-54 snd_rawmidi_open_lconf] *)
Definition snd_rawmidi_open_lconf : Z := - ENXIO.
