(* ===== verification/RawmidiSpec.v ===== *)
(** * Raw MIDI: the shared descriptor

    The theorems about Rawmidi.v.  [rm_inv] is the invariant of the two stores: the
    ledger holds exactly what the blocks own, a handle's device block is there, and the
    block's count is the number of its handles.  Every call keeps it, but for the two
    exits of [snd_rawmidi_open] that lose memory or close twice. *)

From stdpp Require Import gmap.
From Stdlib Require Import Ascii String.
From S2P Require Import Prelude CInt Sys Cards Async PcmTypes Toy IoDev Rawmidi.
#[local] Open Scope Z_scope.

(** ** What the stores own *)

Definition hw_res (p : Z * snd_rawmidi_hw_t) : list resource :=
  RFd (hw_fd p.2) :: RMem p.1 :: name_block (hw_name p.2).

Definition rm_res (p : Z * snd_rawmidi_t) : list resource := [RMem p.1].

Definition owned {K} (s : rs K) : list resource :=
  (map_to_list (hws s) ≫= hw_res) ++ (map_to_list (rmidis s) ≫= rm_res).

(** The number of handles on a device block. *)
Definition users (m : gmap Z snd_rawmidi_t) (a : Z) : Z :=
  Z.of_nat (size (filter (fun p : Z * snd_rawmidi_t => rm_hw p.2 = a) m)).

Record rm_inv {K} (base : list resource) (s : rs K) : Prop := {
  inv_held : held (rwld s) ≡ₚ owned s ++ base;
  inv_hw a r : rmidis s !! a = Some r ->
    0 < a /\ exists h, hws s !! rm_hw r = Some h /\ rm_fd r = hw_fd h;
  inv_count a h : hws s !! a = Some h -> 0 < a /\ opened h = users (rmidis s) a
}.

(** Between calls every device block is in use. *)
Definition rm_ok {K} (base : list resource) (s : rs K) : Prop :=
  rm_inv base s /\ forall a h, hws s !! a = Some h -> 0 < opened h.

(** ** Lemmas on the stores *)

Lemma users_insert m a r b :
  m !! a = None -> users (<[a := r]> m) b = users m b + (if decide (rm_hw r = b) then 1 else 0).
Proof.
  intros Ha. unfold users. destruct (decide (rm_hw r = b)) as [He|He].
  - rewrite map_filter_insert_True by done. rewrite map_size_insert_None; [lia|].
    apply map_lookup_filter_None. left. done.
  - rewrite map_filter_insert_False by done. rewrite delete_id by done. lia.
Qed.

Lemma users_update m a r r' b :
  m !! a = Some r -> rm_hw r' = rm_hw r -> users (<[a := r']> m) b = users m b.
Proof.
  intros Ha He. rewrite <- (insert_delete_id m a r) at 2 by done.
  rewrite <- (insert_delete_eq m a r'), !users_insert, He; done || apply lookup_delete_eq.
Qed.

Lemma users_delete m a r b :
  m !! a = Some r -> users (delete a m) b = users m b - (if decide (rm_hw r = b) then 1 else 0).
Proof.
  intros Ha. rewrite <- (insert_delete_id m a r) at 2 by done.
  rewrite users_insert by apply lookup_delete_eq. lia.
Qed.

Lemma bind_map_insert {A} (f : Z * A -> list resource) (m : gmap Z A) a x :
  m !! a = None -> (map_to_list (<[a := x]> m) ≫= f) ≡ₚ f (a, x) ++ (map_to_list m ≫= f).
Proof. intros Ha. rewrite (map_to_list_insert m a x Ha). done. Qed.

Lemma bind_map_delete {A} (f : Z * A -> list resource) (m : gmap Z A) a x :
  m !! a = Some x -> (map_to_list m ≫= f) ≡ₚ f (a, x) ++ (map_to_list (delete a m) ≫= f).
Proof. intros Ha. rewrite <- (map_to_list_delete m a x Ha). done. Qed.

Lemma bind_map_update {A} (f : Z * A -> list resource) (m : gmap Z A) a x y :
  m !! a = Some x -> f (a, y) = f (a, x) -> (map_to_list (<[a := y]> m) ≫= f) ≡ₚ (map_to_list m ≫= f).
Proof.
  intros Ha He. rewrite <- (insert_delete_eq m a y), bind_map_insert by apply lookup_delete_eq.
  rewrite He, <- bind_map_delete by done. done.
Qed.

Lemma owned_hw {K} (s : rs K) a h : hws s !! a = Some h -> RMem a ∈ owned s /\ RFd (hw_fd h) ∈ owned s.
Proof.
  intros Ha. unfold owned. rewrite (bind_map_delete hw_res _ a h Ha). set_solver.
Qed.

Lemma owned_rm {K} (s : rs K) a r : rmidis s !! a = Some r -> RMem a ∈ owned s.
Proof. intros Ha. unfold owned. rewrite (bind_map_delete rm_res _ a r Ha). set_solver. Qed.

Section Spec.
Context {K : Type} `{!Os K, !OsLaws K, !CardKernel K, !RawmidiKernel K, !DevKernel K}.
Implicit Types (s : rs K) (w : world K) (base : list resource).

Lemma sys_alloc_fresh n (w : world K) a w' :
  sys_alloc n w = (Some a, w') -> 0 < a /\ (RMem a ∉ held w) /\ held w' = RMem a :: held w.
Proof using OsLaws0.
  unfold sys_alloc, bind, lift, acquire, ret. destruct (os_alloc n (held w) (ker w)) as [[b|] k] eqn:Ha.
  - intros [= -> <-]. destruct (alloc_law _ _ _ _ _ Ha). done.
  - discriminate.
Qed.

Lemma fresh_stores base s a :
  rm_inv base s -> RMem a ∉ held (rwld s) -> hws s !! a = None /\ rmidis s !! a = None.
Proof.
  intros Hi Ha. rewrite (inv_held _ _ Hi) in Ha. split.
  - destruct (hws s !! a) as [h|] eqn:He; [|done]. destruct Ha. apply elem_of_app. left.
    apply (owned_hw s a h He).
  - destruct (rmidis s !! a) as [r|] eqn:He; [|done]. destruct Ha. apply elem_of_app. left.
    apply (owned_rm s a r He).
Qed.

(** A computation of the system that gives back what it takes. *)
Lemma inv_onw {A} base s (m : io (world K) A) :
  rm_inv base s -> held (m (rwld s)).2 ≡ₚ held (rwld s) ->
  rm_inv base (onw m s).2 /\ hws (onw m s).2 = hws s /\ rmidis (onw m s).2 = rmidis s.
Proof.
  intros Hi Hm. unfold onw. destruct (m (rwld s)) as [a w]. simpl in *. split; [|done].
  destruct Hi as [H1 H2 H3]. split; simpl; [rewrite Hm; exact H1|done|done].
Qed.

(** ** The stores' changes *)

Lemma inv_update base s a r r' :
  rm_inv base s -> rmidis s !! a = Some r -> rm_hw r' = rm_hw r -> rm_fd r' = rm_fd r ->
  rm_inv base (RS (hws s) (<[a := r']> (rmidis s)) (rwld s)).
Proof.
  intros [H1 H2 H3] Ha Hh Hf. split; simpl.
  - rewrite H1. unfold owned. simpl. rewrite (bind_map_update rm_res _ a r r' Ha); done.
  - intros b x. rewrite lookup_insert_Some. intros [[<- <-]|[Hne Hx]]; [|apply H2; done].
    destruct (H2 a r Ha) as (Hp & h & Hh' & Hfd). rewrite Hh, Hf. eauto.
  - intros b h Hb. rewrite (users_update _ a r r') by done. apply H3. done.
Qed.

Lemma inv_add base s a r h w :
  rm_inv base s -> rmidis s !! a = None -> 0 < a -> hws s !! rm_hw r = Some h ->
  rm_fd r = hw_fd h -> held w ≡ₚ RMem a :: held (rwld s) ->
  rm_inv base (RS (<[rm_hw r := set_opened (opened h + 1) h]> (hws s)) (<[a := r]> (rmidis s)) w).
Proof.
  intros [H1 H2 H3] Ha Hp Hh Hf Hw. split; simpl.
  - rewrite Hw, H1. unfold owned. simpl. rewrite (bind_map_update hw_res _ _ _ _ Hh) by done.
    rewrite (bind_map_insert rm_res _ a r Ha). simpl. solve_Permutation.
  - intros b x. rewrite lookup_insert_Some. intros [[<- <-]|[Hne Hx]].
    + split; [done|]. rewrite lookup_insert_eq. eauto.
    + destruct (H2 b x Hx) as (Hb & h' & Hh' & Hf'). split; [done|].
      destruct (decide (rm_hw r = rm_hw x)) as [He|He].
      * rewrite <- He, lookup_insert_eq in *. simplify_eq. eauto.
      * rewrite lookup_insert_ne by done. eauto.
  - intros b x. rewrite lookup_insert_Some, users_insert by done. intros [[<- <-]|[Hne Hx]].
    + rewrite decide_True by done. destruct (H3 _ _ Hh) as [? ->]. done.
    + rewrite decide_False by done. destruct (H3 _ _ Hx) as [? ->]. split; [done|lia].
Qed.

Lemma inv_drop base s a r h w :
  rm_inv base s -> rmidis s !! a = Some r -> hws s !! rm_hw r = Some h ->
  held (rwld s) ≡ₚ RMem a :: held w ->
  rm_inv base (RS (<[rm_hw r := set_opened (opened h - 1) h]> (hws s)) (delete a (rmidis s)) w).
Proof.
  intros [H1 H2 H3] Ha Hh Hw. split; simpl.
  - apply (Permutation.Permutation_cons_inv (a := RMem a)). rewrite <- Hw, H1. unfold owned. simpl.
    rewrite (bind_map_update hw_res _ _ _ _ Hh) by done.
    rewrite (bind_map_delete rm_res _ a r Ha). simpl. solve_Permutation.
  - intros b x [Hne Hx]%lookup_delete_Some. destruct (H2 b x Hx) as (Hb & h' & Hh' & Hf').
    split; [done|]. destruct (decide (rm_hw r = rm_hw x)) as [He|He].
    + rewrite <- He, lookup_insert_eq in *. simplify_eq. eauto.
    + rewrite lookup_insert_ne by done. eauto.
  - intros b x. rewrite lookup_insert_Some, (users_delete _ _ _ _ Ha). intros [[<- <-]|[Hne Hx]].
    + rewrite decide_True by done. destruct (H3 _ _ Hh) as [? ->]. done.
    + rewrite decide_False by done. destruct (H3 _ _ Hx) as [? ->]. split; [done|lia].
Qed.

(** A block without handles can go. *)
Lemma inv_retire base s a h w :
  rm_inv base s -> hws s !! a = Some h -> opened h = 0 ->
  held (rwld s) ≡ₚ hw_res (a, h) ++ held w ->
  rm_inv base (RS (delete a (hws s)) (rmidis s) w).
Proof.
  intros [H1 H2 H3] Ha Ho Hw. split; simpl.
  - apply (Permutation_app_inv_l (hw_res (a, h))). rewrite <- Hw, H1. unfold owned. simpl.
    rewrite (bind_map_delete hw_res _ a h Ha). simpl. rewrite <- !app_assoc. done.
  - intros b x Hx. destruct (H2 b x Hx) as (Hb & h' & Hh' & Hf'). split; [done|].
    destruct (decide (a = rm_hw x)) as [->|He]; [|rewrite lookup_delete_ne by done; eauto].
    destruct (H3 _ _ Ha) as [_ Hc]. rewrite Ho in Hc. unfold users in Hc.
    assert (Hz : size (filter (fun p : Z * snd_rawmidi_t => rm_hw p.2 = rm_hw x) (rmidis s)) = 0%nat) by lia.
    apply map_size_empty_inv in Hz. exfalso.
    assert (Hf : filter (fun p : Z * snd_rawmidi_t => rm_hw p.2 = rm_hw x) (rmidis s) !! b = Some x)
      by (apply map_lookup_filter_Some; done).
    rewrite Hz in Hf. done.
  - intros b x [Hne Hx]%lookup_delete_Some. apply H3. done.
Qed.

(** ** The calls *)

(** Only the handle's parameters change. *)
Lemma params_spec base s a r p :
  rm_inv base s -> rmidis s !! a = Some r ->
  let '(_, s') := snd_rawmidi_params a p s in
  rm_inv base s' /\ hws s' = hws s /\ held (rwld s') = held (rwld s) /\
  exists p', rmidis s' = <[a := set_rm_params p' r]> (rmidis s).
Proof.
  intros Hi Ha. unfold snd_rawmidi_params, bind, getrm. rewrite Ha. simpl. unfold onw.
  pose proof (balanced_lift (ioctl_rm_params (rm_fd r) (set_rp_stream (rm_stream r) p)) (rwld s)) as Hb.
  destruct (inv_onw base s (lift (ioctl_rm_params (rm_fd r) (set_rp_stream (rm_stream r) p))) Hi)
    as (Hn & _); [rewrite Hb; done|].
  unfold onw in Hn. destruct (lift _ (rwld s)) as [[err p'] w]. simpl in *.
  destruct (err <? 0); simpl.
  - split; [done|]. split; [done|]. split; [done|]. exists (rm_params r).
    rewrite insert_id; [done|]. rewrite Ha. destruct r. done.
  - split; [|split; [done|split; [done|eauto]]].
    apply (inv_update base (RS (hws s) (rmidis s) w) a r); done.
Qed.

(** A new handle, or NULL and nothing changed. *)
Lemma new_rmidi_spec base s hw h stream mode :
  rm_inv base s -> hws s !! hw = Some h ->
  let '(a, s') := new_rmidi hw stream mode s in
  rm_inv base s' /\
  if nz a then 0 < a /\ rmidis s !! a = None /\ hws s' = <[hw := set_opened (opened h + 1) h]> (hws s) /\
    held (rwld s') = RMem a :: held (rwld s) /\
    exists r, rmidis s' = <[a := r]> (rmidis s) /\ rm_hw r = hw /\ rm_stream r = stream /\ rm_fd r = hw_fd h
  else hws s' = hws s /\ rmidis s' = rmidis s /\ held (rwld s') = held (rwld s).
Proof using OsLaws0.
  intros Hi Hh. unfold new_rmidi, bind at 1. unfold onw.
  pose proof (alloc_spec sizeof_rmidi (rwld s)) as Hal.
  destruct (sys_alloc sizeof_rmidi (rwld s)) as [[a|] w] eqn:Ha.
  2:{ cbn. split; [|done]. destruct Hi as [H1 H2 H3]. split; [simpl; rewrite Hal|..]; done. }
  destruct (sys_alloc_fresh _ _ _ _ Ha) as (Hp & Hfr & Hheld).
  destruct (fresh_stores base s a Hi Hfr) as [_ Hn].
  unfold bind, gethw, putrm, puthw, ret. cbn [hws rmidis rwld]. rewrite Hh. cbn [default from_option id].
  set (r := Rmidi _ _ _ _ _ _). 
  set (s1 := RS (<[hw := set_opened (opened h + 1) h]> (hws s)) (<[a := r]> (rmidis s)) w).
  assert (Hi1 : rm_inv base s1) by (apply (inv_add base s a r h w); try done; rewrite Hheld; done).
  assert (Hr1 : rmidis s1 !! a = Some r) by apply lookup_insert_eq.
  pose proof (params_spec base s1 a r (RmParams 0 4096 1 1) Hi1 Hr1) as Hps.
  fold s1. cbn zeta. destruct (snd_rawmidi_params a _ s1) as [[e p'] s2].
  destruct Hps as (Hi2 & Hh2 & Hheld2 & p2 & Hr2). rewrite (proj2 (nz_true a)) by lia. split.
  - apply (inv_update base s2 a (set_rm_params p2 r)); [done|rewrite Hr2; apply lookup_insert_eq|done..].
  - simpl. rewrite Hh2, Hheld2, Hr2. split; [done|]. split; [done|]. split; [done|]. split; [done|].
    exists (set_rm_params p' r). split; [|done]. unfold s1. simpl.
    rewrite !insert_insert_eq. done.
Qed.

(** What a handle and its device block own is held. *)
Lemma held_split base s a r h :
  rm_inv base s -> rmidis s !! a = Some r -> hws s !! rm_hw r = Some h ->
  exists rest, held (rwld s) ≡ₚ hw_res (rm_hw r, h) ++ RMem a :: rest.
Proof.
  intros [H1 _ _] Ha Hh. unfold owned in H1.
  rewrite (bind_map_delete hw_res _ _ h Hh), (bind_map_delete rm_res _ a r Ha) in H1.
  eexists. rewrite H1, <- !app_assoc. apply Permutation_app_head. simpl.
  rewrite <- Permutation_middle. done.
Qed.

(** Giving back a device block. *)
Lemma retire_spec (w : world K) fd a n rest :
  held w ≡ₚ RFd fd :: RMem a :: name_block n ++ rest ->
  let '(_, w1) := sys_close fd w in
  let '(_, w2) := free_name n w1 in
  let '(_, w3) := sys_free a w2 in held w3 ≡ₚ rest.
Proof.
  intros Hw. pose proof (sys_close_spec fd w) as Hc. destruct (sys_close fd w) as [c w1].
  assert (Hc' : held w1 ≡ₚ RMem a :: name_block n ++ rest) by (rewrite Hc, Hw, release_head; done).
  pose proof (free_name_spec n w1 (RMem a :: rest)) as Hn. destruct (free_name n w1) as [u w2]. simpl in Hn.
  simpl. rewrite Hn, release_head by (rewrite Hc'; solve_Permutation). done.
Qed.

(** The last handle takes the device block along. *)
Lemma rm_close_spec base s a r h :
  rm_inv base s -> rmidis s !! a = Some r -> hws s !! rm_hw r = Some h ->
  let '(c, s') := snd_rawmidi_close a s in
  c = 0 /\ rm_inv base s' /\ rmidis s' = delete a (rmidis s) /\
  if opened h =? 1
  then hws s' = delete (rm_hw r) (hws s) /\ held (rwld s) ≡ₚ hw_res (rm_hw r, h) ++ RMem a :: held (rwld s')
  else hws s' = <[rm_hw r := set_opened (opened h - 1) h]> (hws s) /\
    held (rwld s) ≡ₚ RMem a :: held (rwld s').
Proof.
  intros Hi Ha Hh. destruct (held_split base s a r h Hi Ha Hh) as [rest Hrest].
  destruct (inv_count _ _ Hi _ _ Hh) as [Hpos _].
  unfold snd_rawmidi_close, bind, getrm, gethw, puthw, delhw, delrm, ret, onw. rewrite Ha. cbn [from_option id].
  rewrite (proj2 (nz_true (rm_hw r))) by lia.
  rewrite Hh. cbn [from_option id hws rmidis rwld opened set_opened hw_fd hw_name].
  unfold nz. rewrite negb_involutive.
  destruct (Z.eqb_spec (opened h - 1) 0) as [He|He]; destruct (Z.eqb_spec (opened h) 1) as [He'|He']; try lia;
    cbn [hws rmidis rwld].
  - pose proof (retire_spec (rwld s) (hw_fd h) (rm_hw r) (hw_name h) (RMem a :: rest) Hrest) as Hr.
    destruct (sys_close _ (rwld s)) as [c w1]. cbn [hws rmidis rwld]. destruct (free_name _ w1) as [u w2].
    cbn [hws rmidis rwld]. unfold sys_free, drop_resource in *. cbn [hws rmidis rwld held ker] in *.
    assert (Hrel : release (RMem a) (release (RMem (rm_hw r)) (held w2)) ≡ₚ rest)
      by (rewrite Hr, release_head; done).
    set (w3 := World (ker w2) (release (RMem a) (release (RMem (rm_hw r)) (held w2)))).
    rewrite delete_insert_eq. split; [done|]. split; [|split; [done|split; [done|simpl; rewrite Hrel; done]]].
    set (w4 := World (ker (rwld s)) (hw_res (rm_hw r, h) ++ rest)).
    enough (Hin : rm_inv base (RS (delete (rm_hw r) (<[rm_hw r := set_opened (opened h - 1) h]> (hws s)))
      (delete a (rmidis s)) w3)) by (rewrite delete_insert_eq in Hin; exact Hin).
    pose proof (inv_retire base (RS (<[rm_hw r := set_opened (opened h - 1) h]> (hws s)) (delete a (rmidis s)) w4)
      (rm_hw r) (set_opened (opened h - 1) h) w3) as Hret. cbn [hws rmidis rwld] in Hret.
    apply Hret; [|apply lookup_insert_eq|done|].
    + apply (inv_drop base s a r h w4); try done. rewrite Hrest. symmetry. apply Permutation_middle.
    + simpl. rewrite Hrel. done.
  - cbn [hws rmidis rwld]. unfold sys_free, drop_resource. cbn [hws rmidis rwld held].
    assert (Hheld : held (rwld s) ≡ₚ RMem a :: release (RMem a) (held (rwld s))).
    { symmetry. apply release_permutation. rewrite Hrest. set_solver. }
    split; [done|]. split; [|split; [done|split; [done|exact Hheld]]].
    apply (inv_drop base s a r h _ Hi Ha Hh). exact Hheld.
Qed.

(** ** Opening *)

Lemma open_fd_spec errno0 junk filename fmode card subdev (w : world K) :
  0 < errno0 ->
  let '(fd, w') := open_rawmidi_fd errno0 junk filename fmode card subdev w in
  held w' ≡ₚ if fd <? 0 then held w else RFd fd :: held w.
Proof.
  intros He. unfold open_rawmidi_fd. destruct (0 <=? subdev).
  - unfold bind at 1. pose proof (open_subdev_spec errno0 filename fmode card subdev RawmidiPreferSubdevice w He) as Ho.
    destruct (_snd_open_subdev _ _ _ _ _ _ w) as [fd w1]. destruct (fd <? 0) eqn:Hfd; [cbn; rewrite Hfd; done|].
    unfold bind at 1. assert (Hb : balanced (get_rawmidi_subdev junk fd fmode)) by (unfold get_rawmidi_subdev; balanced_tac).
    specialize (Hb w1). destruct (get_rawmidi_subdev junk fd fmode w1) as [sub w2]. simpl in Hb.
    destruct (negb (sub =? subdev)); [|cbn; rewrite Hfd, Hb; done].
    unfold bind. pose proof (sys_close_spec fd w2) as Hc. destruct (sys_close fd w2) as [c w3].
    cbn. rewrite Hc, Hb, Ho, release_head. done.
  - pose proof (sys_open_spec filename fmode w) as Ho. destruct (sys_open filename fmode w) as [fd w'].
    rewrite Ho. done.
Qed.

Lemma users_none base s a : rm_inv base s -> hws s !! a = None -> users (rmidis s) a = 0.
Proof.
  intros [_ H2 _] Ha. unfold users.
  assert (He : filter (fun p : Z * snd_rawmidi_t => rm_hw p.2 = a) (rmidis s) = ∅).
  { apply map_empty. intros b. apply map_lookup_filter_None. right. intros r Hr Hb. simpl in Hb.
    destruct (H2 _ _ Hr) as (_ & h & Hh & _). congruence. }
  rewrite He. done.
Qed.

(** A new device block, still without handles, takes over the descriptor. *)
Lemma inv_new_hw base s a n fd t w :
  rm_inv (RFd fd :: base) s -> hws s !! a = None -> 0 < a ->
  held w ≡ₚ RMem a :: name_block n ++ held (rwld s) ->
  rm_inv base (RS (<[a := RmHw n fd t 0]> (hws s)) (rmidis s) w).
Proof.
  intros Hi Ha Hp Hw. pose proof (users_none _ _ _ Hi Ha) as Hu. destruct Hi as [H1 H2 H3]. split; simpl.
  - rewrite Hw, H1. unfold owned. simpl. rewrite (bind_map_insert hw_res _ _ _ Ha). simpl.
    rewrite <- !app_assoc, <- Permutation_middle. solve_Permutation.
  - intros b x Hx. destruct (H2 b x Hx) as (Hb & h' & Hh' & Hf'). split; [done|].
    rewrite lookup_insert_ne by congruence. eauto.
  - intros b x. rewrite lookup_insert_Some. intros [[<- <-]|[Hne Hx]]; [done|]. apply H3. done.
Qed.

(** The error exit before any handle: the descriptor is closed, nothing else. *)
Lemma open_error_early base s fd err :
  rm_inv (RFd fd :: base) s ->
  let '(r, s') := open_error fd 0 err s in
  r = (err, (0, 0)) /\ rm_inv base s' /\ hws s' = hws s /\ rmidis s' = rmidis s.
Proof.
  intros [H1 H2 H3]. unfold open_error, bind, ret, onw. cbn [nz Z.eqb negb].
  pose proof (sys_close_spec fd (rwld s)) as Hc. destruct (sys_close fd (rwld s)) as [c w]. simpl.
  split; [done|]. split; [|done]. split; simpl; [|done..].
  rewrite Hc, H1, <- Permutation_middle, release_head. done.
Qed.

(** The error exit gives the code it is given. *)
Lemma open_error_code (P : rs K -> Prop) fd inp err s :
  err = - ENOMEM -> let '((e, _), s') := open_error fd inp err s in e <> - ENOMEM -> P s'.
Proof.
  intros ->. unfold open_error, bind, ret, onw. destruct (if nz inp then _ else _) as [u s1].
  destruct (sys_close fd (rwld s1)). done.
Qed.

(** One stream: the handle is entered and counted, or the call failed. *)
Lemma open_stream_spec base s want hw h stream mode :
  rm_inv base s -> hws s !! hw = Some h ->
  let '((ok, a), s') := open_stream want hw stream mode s in
  ok = true -> rm_inv base s' /\
  exists h', hws s' = <[hw := h']> (hws s) /\ opened h' = opened h + (if want then 1 else 0).
Proof using OsLaws0.
  intros Hi Hh. unfold open_stream. destruct want.
  - unfold bind, ret. pose proof (new_rmidi_spec base s hw h stream mode Hi Hh) as Hn.
    destruct (new_rmidi hw stream mode s) as [a s']. intros Hok. rewrite Hok in Hn.
    destruct Hn as (Hi' & _ & _ & Hh' & _). split; [done|]. eexists. split; [exact Hh'|done].
  - intros _. split; [done|]. exists h. rewrite insert_id by done. split; [done|lia].
Qed.

(** A code below 0 other than [-ENOMEM] means that nothing is left of the call. *)
Lemma open_handles_spec base s wi wo name mode fd :
  rm_inv (RFd fd :: base) s -> (forall a h, hws s !! a = Some h -> 0 < opened h) -> wi || wo = true ->
  let '((e, _), s') := open_handles wi wo name mode fd s in e <> - ENOMEM -> rm_ok base s'.
Proof using OsLaws0.
  intros Hi Hpos Hw. unfold open_handles, bind at 1.
  destruct (inv_onw (RFd fd :: base) s (lift (ioctl_rm_pversion fd)) Hi) as (Hi1 & Hh1 & Hr1);
    [rewrite balanced_lift; done|].
  destruct (onw (lift (ioctl_rm_pversion fd)) s) as [ver s1]. simpl in Hi1, Hh1, Hr1.
  destruct (ver <? 0).
  { pose proof (open_error_early base s1 fd ver Hi1) as He. destruct (open_error fd 0 ver s1) as [r s2].
    destruct He as (-> & Hi2 & Hh2 & _). intros _. split; [done|]. rewrite Hh2, Hh1. done. }
  unfold bind at 1, onw at 1. destruct (sys_alloc sizeof_rmidi_hw (rwld s1)) as [[hw|] w2] eqn:Ha.
  2:{ apply open_error_code. done. }
  destruct (sys_alloc_fresh _ _ _ _ Ha) as (Hp & Hfr & Hheld).
  destruct (fresh_stores _ s1 hw Hi1 Hfr) as [Hn _].
  unfold bind at 1, onw at 1. cbn [rwld hws rmidis]. pose proof (strdup_spec name w2) as Hsd.
  destruct (sys_strdup name w2) as [n w3]. destruct Hsd as [Hsd _].
  unfold bind at 1, puthw at 1. cbn [rwld hws rmidis].
  pose proof (inv_new_hw base s1 hw n fd SND_RAWMIDI_TYPE_HW w3 Hi1 Hn Hp
    ltac:(rewrite Hsd, Hheld; symmetry; apply Permutation_middle)) as Hi4.
  set (s4 := RS _ _ w3) in *. set (h0 := RmHw n fd SND_RAWMIDI_TYPE_HW 0) in *.
  unfold bind at 1. pose proof (open_stream_spec base s4 wi hw h0 STREAM_INPUT mode Hi4 ltac:(apply lookup_insert_eq)) as H5.
  destruct (open_stream wi hw STREAM_INPUT mode s4) as [[[] inp] s5]; cbn [negb].
  2:{ apply open_error_code. done. }
  destruct H5 as (Hi5 & h5 & Hh5 & Ho5); [done|].
  unfold bind at 1. pose proof (open_stream_spec base s5 wo hw h5 STREAM_OUTPUT mode Hi5
    ltac:(rewrite Hh5; apply lookup_insert_eq)) as H6.
  destruct (open_stream wo hw STREAM_OUTPUT mode s5) as [[[] out] s6]; cbn [negb].
  2:{ apply open_error_code. done. }
  destruct H6 as (Hi6 & h6 & Hh6 & Ho6); [done|]. intros _. split; [exact Hi6|].
  intros a h. rewrite Hh6, Hh5. unfold s4. cbn [hws]. rewrite !lookup_insert_Some. simpl in Ho5.
  intros [[_ <-]|[Hne [[? _]|[_ [[? _]|[_ Hx]]]]]]; [|done|done|rewrite Hh1 in Hx; eauto].
  destruct wi, wo; simpl in *; try lia; done.
Qed.

Lemma rm_open_spec base errno0 junk wi wo name mode s :
  0 < errno0 -> wi || wo = true -> rm_ok base s ->
  let '((e, _), s') := snd_rawmidi_open errno0 junk wi wo name mode s in e <> - ENOMEM -> rm_ok base s'.
Proof using OsLaws0.
  intros He Hw [Hi Hpos]. unfold snd_rawmidi_open, bind at 1.
  destruct (inv_onw base s (_snd_dev_get_device name true true) Hi) as (Hi1 & Hh1 & Hr1);
    [rewrite balanced_get_device; done|].
  destruct (onw (_snd_dev_get_device name true true) s) as [[err [[card dev] subdev]] s1].
  simpl in Hi1, Hh1, Hr1. destruct (err <? 0).
  { intros _. split; [done|]. rewrite Hh1. done. }
  unfold bind at 1, onw at 1.
  pose proof (open_fd_spec errno0 junk (rawmidi_filename card dev) (rawmidi_flags wi wo mode) card subdev (rwld s1) He) as Hf.
  destruct (open_rawmidi_fd _ _ _ _ _ _ (rwld s1)) as [fd w2]. destruct (fd <? 0).
  - intros _. split; [|simpl; rewrite Hh1; done].
    destruct Hi1 as [H1 H2 H3]. split; simpl; [rewrite Hf|..]; done.
  - apply open_handles_spec; [|simpl; rewrite Hh1; done|done].
    destruct Hi1 as [H1 H2 H3]. split; simpl; [|done..]. rewrite Hf, H1. apply Permutation_middle.
Qed.

(** ** Sessions *)

(** The calls on an open handle. *)
Inductive rm_op :=
  | OpNonblock (v : Z)
  | OpInfo (i : snd_rawmidi_info_t)
  | OpParams (p : snd_rawmidi_params_t)
  | OpStatus (st : snd_rawmidi_status_t)
  | OpDrain
  | OpDrop
  | OpWrite (buffer : list Z) (size : Z)
  | OpRead (size : Z).

Definition run_op (op : rm_op) (a : Z) : io (rs K) unit :=
  match op with
  | OpNonblock v => let* _ := snd_rawmidi_nonblock a v in ret tt
  | OpInfo i => let* _ := snd_rawmidi_info a i in ret tt
  | OpParams p => let* _ := snd_rawmidi_params a p in ret tt
  | OpStatus st => let* _ := snd_rawmidi_status a st in ret tt
  | OpDrain => let* _ := snd_rawmidi_drain a in ret tt
  | OpDrop => let* _ := snd_rawmidi_drop a in ret tt
  | OpWrite b n => let* _ := snd_rawmidi_write a b n in ret tt
  | OpRead n => let* _ := snd_rawmidi_read a n in ret tt
  end.

(** What a client may do: open, with one pointer at least; use and close a handle it has.
    Left out are an open that answers -ENOMEM and one made while [errno] is 0. *)
Inductive rm_step : rs K -> rs K -> Prop :=
  | StepOpen errno0 junk wi wo name mode e h s s' :
      0 < errno0 -> wi || wo = true ->
      snd_rawmidi_open errno0 junk wi wo name mode s = ((e, h), s') -> e <> - ENOMEM -> rm_step s s'
  | StepUse op a s : is_Some (rmidis s !! a) -> rm_step s (run_op op a s).2
  | StepClose a s : is_Some (rmidis s !! a) -> rm_step s (snd_rawmidi_close a s).2.

Lemma plain_op_spec {A} base s a (m : snd_rawmidi_t -> io (world K) A) :
  (forall r, balanced (m r)) -> rm_ok base s ->
  rm_ok base (bind (let* r := getrm a in onw (m r)) (fun _ => ret tt) s).2.
Proof.
  intros Hm [Hi Hp]. unfold bind, getrm, ret.
  destruct (inv_onw base s (m (default zero_rmidi (rmidis s !! a))) Hi) as (Hi1 & Hh1 & _);
    [rewrite (Hm _ (rwld s)); done|].
  destruct (onw _ s) as [x s1]. simpl in *. split; [done|]. rewrite Hh1. done.
Qed.

Lemma op_spec base s op a :
  rm_ok base s -> is_Some (rmidis s !! a) -> rm_ok base (run_op op a s).2.
Proof.
  intros Hok [r Ha]. destruct op; try (apply plain_op_spec; [|done]; intros ?; unfold _snd_set_nonblock; balanced_tac).
  destruct Hok as [Hi Hp]. cbn. unfold bind, ret. pose proof (params_spec base s a r p Hi Ha) as Hs.
  destruct (snd_rawmidi_params a p s) as [x s1]. destruct Hs as (Hi1 & Hh1 & _).
  split; [done|]. simpl. rewrite Hh1. done.
Qed.

Lemma close_ok base s a : rm_ok base s -> is_Some (rmidis s !! a) -> rm_ok base (snd_rawmidi_close a s).2.
Proof.
  intros [Hi Hp] [r Ha]. destruct (inv_hw _ _ Hi _ _ Ha) as (_ & h & Hh & _).
  pose proof (rm_close_spec base s a r h Hi Ha Hh) as Hc. destruct (snd_rawmidi_close a s) as [c s'].
  destruct Hc as (_ & Hi' & _ & Hc). split; [done|]. simpl. intros b x. pose proof (Hp _ _ Hh).
  destruct (Z.eqb_spec (opened h) 1); destruct Hc as [-> _].
  - rewrite lookup_delete_Some. intros [_ Hx]. eauto.
  - rewrite lookup_insert_Some. intros [[<- <-]|[_ Hx]]; simpl; [lia|eauto].
Qed.
End Spec.

Section Sessions.
Context {K : Type} `{!Os K, !OsLaws K, !CardKernel K, !RawmidiKernel K, !DevKernel K}.

Lemma session_ok base (s s' : rs K) : rtc rm_step s s' -> rm_ok base s -> rm_ok base s'.
Proof using OsLaws0.
  induction 1 as [|s s1 s2 Hstep _ IH]; [done|]. intros Hok. apply IH.
  destruct Hstep as [errno0 junk wi wo name mode e h s s' He Hw Ho Hne|op a s Ha|a s Ha].
  - pose proof (rm_open_spec base errno0 junk wi wo name mode s He Hw Hok) as Hs. rewrite Ho in Hs. auto.
  - apply op_spec; done.
  - apply close_ok; done.
Qed.

Lemma ok_start (w : world K) : rm_ok (held w) (RS ∅ ∅ w).
Proof. split; [split|]; simpl; done. Qed.

(** C10. A session over any number of rawmidi devices, each open for input, output or both,
    with every call on the handles, in any order, in which every open finds the memory it
    needs and a non-zero [errno] ([rm_step]): a handle's device block is there with the
    handle's descriptor, which the process holds, and counts exactly the handles on it; when
    the last handle is closed the process holds what it held before.  The opens left out are
    those the code does not handle: one that runs out of memory for a handle leaks the device
    block or closes the descriptor twice ([rawmidi_open_double_close]), and one that finds
    [errno] 0 may take descriptor 0 for its own, as [snd_pcm_open] does.  Every other failure
    of an open is included. *)
Theorem rawmidi_session_balanced (w : world K) (s : rs K) :
  rtc rm_step (RS ∅ ∅ w) s ->
  (forall a r, rmidis s !! a = Some r -> RMem a ∈ held (rwld s) /\
    exists h, hws s !! rm_hw r = Some h /\ rm_fd r = hw_fd h /\ opened h = users (rmidis s) (rm_hw r) /\
      RFd (rm_fd r) ∈ held (rwld s)) /\
  (rmidis s = ∅ -> held (rwld s) ≡ₚ held w).
Proof using OsLaws0.
  intros Hs. destruct (session_ok _ _ _ Hs (ok_start w)) as [[H1 H2 H3] Hpos]. split.
  - intros a r Ha. rewrite H1. split; [apply elem_of_app; left; eapply owned_rm; done|].
    destruct (H2 a r Ha) as (_ & h & Hh & Hf). destruct (H3 _ _ Hh) as [_ Hc].
    exists h. rewrite Hf. do 3 (split; [done|]). rewrite H1. apply elem_of_app. left. eapply owned_hw; done.
  - intros He. rewrite H1. unfold owned. rewrite He.
    assert (Hn : hws s = ∅).
    { apply map_empty. intros a. destruct (hws s !! a) as [h|] eqn:Ha; [|done].
      destruct (H3 a h Ha) as [_ Hc]. specialize (Hpos a h Ha). rewrite He in Hc. unfold users in Hc.
      rewrite map_filter_empty, map_size_empty in Hc. lia. }
    rewrite Hn, !map_to_list_empty. done.
Qed.

(** The error exit after the input handle is there: its close has taken the descriptor
    along, and the exit closes the number again. *)
Lemma open_handles_double_close base (s s1 s5 s6 : rs K) name mode fd ver hw w2 n w3 inp :
  rm_inv (RFd fd :: base) s -> NoDup (held (rwld s6)) ->
  onw (lift (ioctl_rm_pversion fd)) s = (ver, s1) -> 0 <= ver ->
  sys_alloc sizeof_rmidi_hw (rwld s1) = (Some hw, w2) -> sys_strdup name w2 = (n, w3) ->
  new_rmidi hw STREAM_INPUT mode (RS (<[hw := RmHw n fd SND_RAWMIDI_TYPE_HW 0]> (hws s1)) (rmidis s1) w3) = (inp, s5) ->
  inp <> 0 -> new_rmidi hw STREAM_OUTPUT mode s5 = (0, s6) ->
  exists s7, snd_rawmidi_close inp s6 = (0, s7) /\ RFd fd ∈ held (rwld s6) /\ RFd fd ∉ held (rwld s7) /\
    hws s7 = hws s /\ rmidis s7 = rmidis s /\
    open_handles true true name mode fd s = ((- ENOMEM, (0, 0)), (onw (sys_close fd) s7).2).
Proof using OsLaws0.
  intros Hi Hnd Hver Hpos Ha Hdup H1 Hinp H2.
  destruct (inv_onw (RFd fd :: base) s (lift (ioctl_rm_pversion fd)) Hi) as (Hi1 & Hh1 & Hr1);
    [rewrite balanced_lift; done|].
  rewrite Hver in Hi1, Hh1, Hr1. cbn [snd] in Hi1, Hh1, Hr1.
  destruct (sys_alloc_fresh _ _ _ _ Ha) as (Hp & Hfr & Hheld).
  destruct (fresh_stores _ s1 hw Hi1 Hfr) as [Hn _].
  pose proof (strdup_spec name w2) as Hsd. rewrite Hdup in Hsd. destruct Hsd as [Hsd _].
  pose proof (inv_new_hw base s1 hw n fd SND_RAWMIDI_TYPE_HW w3 Hi1 Hn Hp
    ltac:(rewrite Hsd, Hheld; symmetry; apply Permutation_middle)) as Hi4.
  set (s4 := RS _ _ w3) in *. set (h0 := RmHw n fd SND_RAWMIDI_TYPE_HW 0) in *.
  pose proof (new_rmidi_spec base s4 hw h0 STREAM_INPUT mode Hi4 ltac:(apply lookup_insert_eq)) as Hs.
  rewrite H1, (proj2 (nz_true inp)) in Hs by done.
  destruct Hs as (Hi5 & _ & Hfr5 & Hh5 & _ & r & Hr5 & Hrhw & _).
  pose proof (new_rmidi_spec base s5 hw (set_opened 1 h0) STREAM_OUTPUT mode Hi5
    ltac:(rewrite Hh5; apply lookup_insert_eq)) as Hs.
  rewrite H2 in Hs. change (nz 0) with false in Hs. destruct Hs as (Hi6 & Hh6 & Hr6 & _).
  assert (Hin : rmidis s6 !! inp = Some r) by (rewrite Hr6, Hr5; apply lookup_insert_eq).
  assert (Hhw : hws s6 !! rm_hw r = Some (set_opened 1 h0)) by (rewrite Hh6, Hh5, Hrhw; apply lookup_insert_eq).
  pose proof (rm_close_spec base s6 inp r _ Hi6 Hin Hhw) as Hc.
  destruct (snd_rawmidi_close inp s6) as [c s7] eqn:Hcl. destruct Hc as (-> & _ & Hr7 & Hh7 & Hheld7).
  rewrite Hheld7 in Hnd. simpl in Hnd. apply NoDup_cons in Hnd as [Hnd _].
  exists s7. split; [done|]. split; [rewrite Hheld7; left|]. split; [set_solver|]. split; [|split].
  - rewrite Hh7, Hh6, Hh5, Hrhw, delete_insert_eq, <- Hh1. apply delete_insert_id. done.
  - rewrite Hr7, Hr6, Hr5, <- Hr1. apply delete_insert_id. done.
  - unfold open_handles, bind at 1. rewrite Hver. destruct (Z.ltb_spec ver 0); [lia|].
    unfold bind at 1, onw at 1. rewrite Ha. unfold bind at 1, onw at 1. cbn [rwld hws rmidis]. rewrite Hdup.
    unfold bind at 1, puthw at 1. cbn [rwld hws rmidis]. fold h0 s4.
    unfold bind at 1, open_stream at 1, bind at 1. rewrite H1. unfold ret at 1. rewrite (proj2 (nz_true inp)) by done.
    cbn [negb]. unfold bind at 1, open_stream at 1, bind at 1. rewrite H2. unfold ret at 1.
    change (negb (nz 0)) with true. cbv iota. unfold open_error, bind, ret. rewrite (proj2 (nz_true inp)) by done.
    rewrite Hcl. destruct (onw (sys_close fd) s7). done.
Qed.

(** C40. [snd_rawmidi_open] for input and output, where the descriptor was opened and the
    memory for the device block and the first handle was there but that for the second is
    missing: the error exit closes the first handle, which gives back the descriptor and the
    device block with it, and then closes the descriptor's number again, when the process
    (which held nothing twice) does not have it any more and it may be another file's.  The
    call answers -ENOMEM. *)
Theorem rawmidi_open_double_close base errno0 junk name mode (s0 s00 s s1 s5 s6 : rs K)
    card dev subdev fd ver hw w2 n w3 inp :
  rm_inv base s0 -> 0 < errno0 ->
  onw (_snd_dev_get_device name true true) s0 = ((0, (card, dev, subdev)), s00) ->
  onw (open_rawmidi_fd errno0 junk (rawmidi_filename card dev) (rawmidi_flags true true mode) card subdev) s00 =
    (fd, s) -> 0 <= fd ->
  onw (lift (ioctl_rm_pversion fd)) s = (ver, s1) -> 0 <= ver ->
  sys_alloc sizeof_rmidi_hw (rwld s1) = (Some hw, w2) -> sys_strdup name w2 = (n, w3) ->
  new_rmidi hw STREAM_INPUT mode (RS (<[hw := RmHw n fd SND_RAWMIDI_TYPE_HW 0]> (hws s1)) (rmidis s1) w3) = (inp, s5) ->
  inp <> 0 -> new_rmidi hw STREAM_OUTPUT mode s5 = (0, s6) -> NoDup (held (rwld s6)) ->
  exists s7, snd_rawmidi_close inp s6 = (0, s7) /\ RFd fd ∈ held (rwld s6) /\ RFd fd ∉ held (rwld s7) /\
    hws s7 = hws s0 /\ rmidis s7 = rmidis s0 /\
    snd_rawmidi_open errno0 junk true true name mode s0 = ((- ENOMEM, (0, 0)), (onw (sys_close fd) s7).2).
Proof using OsLaws0.
  intros Hi He Hd Hf Hfd Hver Hpos Ha Hdup H1 Hinp H2 Hnd.
  destruct (inv_onw base s0 (_snd_dev_get_device name true true) Hi) as (Hi0 & Hh0 & Hr0);
    [rewrite balanced_get_device; done|].
  rewrite Hd in Hi0, Hh0, Hr0. cbn [snd] in Hi0, Hh0, Hr0.
  assert (Hs : rm_inv (RFd fd :: base) s /\ hws s = hws s0 /\ rmidis s = rmidis s0).
  { pose proof (open_fd_spec errno0 junk (rawmidi_filename card dev) (rawmidi_flags true true mode) card subdev
      (rwld s00) He) as Ho. unfold onw in Hf. destruct (open_rawmidi_fd _ _ _ _ _ _ (rwld s00)) as [fd' w].
    injection Hf as -> <-. destruct (Z.ltb_spec fd 0); [lia|]. cbn [hws rmidis]. split; [|done].
    destruct Hi0 as [G1 G2 G3]. split; cbn [hws rmidis rwld]; [|done..]. rewrite Ho, G1. apply Permutation_middle. }
  destruct Hs as (Hi' & Hhs & Hrs).
  destruct (open_handles_double_close base s s1 s5 s6 name mode fd ver hw w2 n w3 inp Hi' Hnd Hver Hpos Ha Hdup
    H1 Hinp H2) as (s7 & G1 & G2 & G3 & G4 & G5 & G6).
  exists s7. split; [done|]. split; [done|]. split; [done|]. split; [congruence|]. split; [congruence|].
  unfold snd_rawmidi_open, bind at 1. rewrite Hd. change (0 <? 0) with false. cbv iota. unfold bind at 1. rewrite Hf.
  destruct (Z.ltb_spec fd 0); [lia|exact G6].
Qed.
End Sessions.

(** ** Witnesses *)

#[local] Instance toy_rawmidi : RawmidiKernel Z := {
  ioctl_rm_pversion _ := ret 131072;
  ioctl_rm_info _ i := ret (0, i);
  ioctl_rm_params _ p := ret (0, p);
  ioctl_rm_status _ st := ret (0, st);
  ioctl_rm_drain _ _ := ret 0;
  ioctl_rm_drop _ _ := ret 0
}.

#[local] Instance toy_dev : DevKernel Z := {
  os_read _ n := ret (n, replicate (Z.to_nat n) 144);
  os_write _ b := ret (Z.of_nat (length b))
}.

Definition no_rm_info : snd_rawmidi_info_t := RmInfo 0 0 0 0 0 "" "" "" 0 0.

(** A device opened both ways, played on, and closed input first. *)
Definition rm_opened : rs Z := (snd_rawmidi_open 1 no_rm_info true true "hw:0" 0 (RS ∅ ∅ (World 0 [RFd 0]))).2.
Definition rm_played : rs Z := (run_op (OpWrite [144; 60; 127] 3) 1000003 rm_opened).2.
Definition rm_half : rs Z := (snd_rawmidi_close 1000003 rm_played).2.
Definition rm_closed : rs Z := (snd_rawmidi_close 1000004 rm_half).2.

Lemma rawmidi_session_balanced_witness : map_to_list (rmidis rm_closed) = [] /\ held (rwld rm_closed) ≡ₚ [RFd 0].
Proof.
  split; [vm_compute; reflexivity|].
  refine (proj2 (rawmidi_session_balanced (World 0 [RFd 0]) rm_closed _) _).
  - eapply rtc_l; [eapply (StepOpen 1 no_rm_info true true "hw:0" 0 0 (1000003, 1000004) _ rm_opened);
      [lia|reflexivity|vm_compute; reflexivity|discriminate]|].
    eapply rtc_l; [apply (StepUse (OpWrite [144; 60; 127] 3) 1000003); vm_compute; eauto|].
    eapply rtc_l; [apply (StepClose 1000003 rm_played); vm_compute; eauto|].
    eapply rtc_l; [apply (StepClose 1000004 rm_half); vm_compute; eauto|apply rtc_refl].
  - apply map_to_list_empty_iff. vm_compute. reflexivity.
Defined.

(** A system with so many blocks of memory left. *)
#[local] Instance frugal_os : Os nat := {
  os_open _ _ := ret 3;
  os_close _ := ret 0;
  os_setfl _ _ := ret 0;
  os_getfl _ := ret 0;
  os_access_ok _ := ret true;
  os_mmap _ _ _ := ret (- ENOMEM);
  os_munmap _ _ := ret 0;
  os_alloc _ l := fun k => match k with O => (None, O) | S k => (Some (above 1000 l), k) end;
  os_poll _ _ _ := ret (0, 0);
  os_sleep _ := ret tt;
  os_page_size := 4096
}.

#[local] Program Instance frugal_laws : OsLaws nat := { taken k a := False }.
Next Obligation. unfold INT_MAX. simpl. lia. Qed.
Next Obligation. intros size fd offset k p k' H. injection H as <- <-. split; [done|unfold ENOMEM; lia]. Qed.
Next Obligation. intros. simpl. lia. Qed.
Next Obligation.
  intros size l k a k' H. simpl in H. destruct k as [|k]; [done|]. injection H as <- <-. apply above_spec. lia.
Qed.

#[local] Instance frugal_cards : CardKernel nat := {
  ioctl_card_info _ := ret (0, no_card_info);
  ioctl_prefer _ _ _ := ret 0
}.

#[local] Instance frugal_rawmidi : RawmidiKernel nat := {
  ioctl_rm_pversion _ := ret 131072;
  ioctl_rm_info _ i := ret (0, i);
  ioctl_rm_params _ p := ret (0, p);
  ioctl_rm_status _ st := ret (0, st);
  ioctl_rm_drain _ _ := ret 0;
  ioctl_rm_drop _ _ := ret 0
}.

(** Memory for the device block, its name and one handle: the descriptor is 3. *)
Definition frugal_start : rs nat := RS ∅ ∅ (World 3%nat []).

Lemma rawmidi_open_double_close_witness :
  exists s6 s7, snd_rawmidi_close 1002 s6 = (0, s7) /\ RFd 3 ∈ held (rwld s6) /\ RFd 3 ∉ held (rwld s7) /\
    snd_rawmidi_open 1 no_rm_info true true "hw:0" 0 frugal_start = ((- ENOMEM, (0, 0)), (onw (sys_close 3) s7).2).
Proof.
  set (s := RS ∅ ∅ (World 3%nat [RFd 3])).
  set (s4 := RS {[1000 := RmHw (Some (1001, "hw:0"%string)) 3 0 0]} ∅ (World 1%nat [RMem 1001; RMem 1000; RFd 3])).
  destruct (rawmidi_open_double_close [] 1 no_rm_info "hw:0" 0 frugal_start frugal_start s s
    (new_rmidi 1000 STREAM_INPUT 0 s4).2 (new_rmidi 1000 STREAM_INPUT 0 s4).2 0 0 (-1) 3 131072 1000
    (World 2%nat [RMem 1000; RFd 3]) (Some (1001, "hw:0"%string)) (World 1%nat [RMem 1001; RMem 1000; RFd 3]) 1002)
    as (s7 & H1 & H2 & H3 & _ & _ & H4); try (vm_compute; reflexivity); try lia.
  - split; [vm_compute; reflexivity|done|done].
  - by_decide.
  - eauto 6.
Defined.
