(* ===== verification/Timer.v ===== *)
(** * Timers

    src/src/timer.c and src/src/timer_macros.h: a timer is selected by a name of five
    numbers on the one timer device.  A handle is returned by [snd_timer_open] with its
    block and read only but for its mode; [snd_timer_close] ends it. *)

From stdpp Require Import pretty strings.
From Stdlib Require Import Ascii String.
From S2P Require Import Prelude CInt Sys Cards Async PcmTypes Toy CtlTypes Control CtlAscii Chmap ChmapSpec IoDev.
#[local] Open Scope Z_scope.

(* [timer_func.h 9-9 SND_TIMER_OPEN_NONBLOCK] *)
Definition SND_TIMER_OPEN_NONBLOCK : Z := 1.
(* [timer_func.h 10-10 SND_TIMER_OPEN_TREAD] *)
Definition SND_TIMER_OPEN_TREAD : Z := 2.

(* [asound.h 707-714 snd_timer_class_t] *)
Definition SND_TIMER_CLASS_GLOBAL : Z := 1.
(* [asound.h 716-722 snd_timer_slave_class_t] *)
Definition SND_TIMER_SCLASS_NONE : Z := 0.
(* [timer_func.h 12-16 snd_timer_type_t] *)
Definition SND_TIMER_TYPE_HW : Z := 0.

(* [asound.h 731-731 SNDRV_TIMER_FLG_SLAVE] *)
Definition SNDRV_TIMER_FLG_SLAVE : Z := 1.
(* [asound.h 785-785 SNDRV_TIMER_PSFLG_AUTO] *)
Definition SNDRV_TIMER_PSFLG_AUTO : Z := 1.
(* [asound.h 786-786 SNDRV_TIMER_PSFLG_EXCLUSIVE] *)
Definition SNDRV_TIMER_PSFLG_EXCLUSIVE : Z := 2.
(* [asound.h 787-787 SNDRV_TIMER_PSFLG_EARLY_EVENT] *)
Definition SNDRV_TIMER_PSFLG_EARLY_EVENT : Z := 4.

(* [asound.h 733-739 struct snd_timer_id] *)
Record snd_timer_id_t := TimerId {
  dev_class : Z;
  dev_sclass : Z;
  tid_card : Z;
  tid_device : Z;
  tid_subdevice : Z
}.

#[global] Instance timer_id_eq_dec : EqDecision snd_timer_id_t.
Proof. solve_decision. Defined.

(* [asound.h 741-753 struct snd_timer_ginfo] *)
Record snd_timer_ginfo_t := TimerGinfo {
  tg_tid : snd_timer_id_t;
  tg_flags : Z;
  tg_card : Z;
  tg_id : string;
  tg_name : string;
  tg_resolution : Z;
  tg_resolution_min : Z;
  tg_resolution_max : Z;
  tg_clients : Z
}.

(* [asound.h 775-783 struct snd_timer_info] *)
Record snd_timer_info_t := TimerInfo {
  ti_flags : Z;
  ti_card : Z;
  ti_id : string;
  ti_name : string;
  ti_resolution : Z       (* unsigned long *)
}.

(* [asound.h 789-796 struct snd_timer_params] *)
Record snd_timer_params_t := TimerParams {
  tp_flags : Z;
  tp_ticks : Z;
  tp_queue_size : Z;
  tp_filter : Z
}.

(* [asound.h 798-805 struct snd_timer_status] *)
Record snd_timer_status_t := TimerStatus {
  tst_tstamp : snd_timespec;
  tst_resolution : Z;
  tst_lost : Z;
  tst_overrun : Z;
  tst_queue : Z
}.

(* [timer_macros.h 16-23 struct _snd_timer] *)
Record snd_timer_t := Timer {
  timer_block : Z;
  timer_name : option (Z * string);
  timer_type : Z;
  timer_version : Z;
  timer_mode : Z;
  timer_fd : Z;
  timer_pollfd : pollfd
}.

Definition sizeof_timer : Z := 32.

Inductive timer_cmd := TimerStart | TimerStop | TimerContinue.

Class TimerKernel (K : Type) := {
  ioctl_timer_pversion : Z -> io K (Z * Z);
  ioctl_timer_tread : Z -> Z -> io K Z;
  ioctl_timer_select : Z -> snd_timer_id_t -> io K Z;
  ioctl_timer_info : Z -> snd_timer_info_t -> io K (Z * snd_timer_info_t);
  ioctl_timer_params : Z -> snd_timer_params_t -> io K (Z * snd_timer_params_t);
  ioctl_timer_status : Z -> snd_timer_status_t -> io K (Z * snd_timer_status_t);
  ioctl_timer_cmd : Z -> timer_cmd -> io K Z
}.

(** ** The name *)

(** [sscanf] of literals, each followed by [%i]: the numbers assigned. *)
Fixpoint scan_fields (literals : list string) (s : string) : list Z :=
  match literals with
  | [] => []
  | p :: literals =>
      match after_prefix p s with
      | None => []
      | Some s =>
          match scan_i s with
          | None => []
          | Some (v, s) => v :: scan_fields literals s
          end
      end
  end.

(* [timer.c 45-45 snd_timer_open] *)
Definition timer_format : list string :=
  ["hw:CLASS="; ",SCLASS="; ",CARD="; ",DEV="; ",SUBDEV="]%string.

(** The timer a name selects; a number that is not there keeps its default. *)
(* [timer.c 38-47 snd_timer_open] *)
Definition timer_parse_name (name : string) : option snd_timer_id_t :=
  let default_id l :=
    TimerId (nthz SND_TIMER_CLASS_GLOBAL l 0) (nthz SND_TIMER_SCLASS_NONE l 1) (nthz 0 l 2) (nthz 0 l 3)
      (nthz 0 l 4) in
  if String.eqb name "hw" then Some (default_id [])
  else match scan_fields timer_format name with
       | [] => None
       | l => Some (default_id l)
       end.

Definition timer_path : string := String.append SALSA_DEVPATH "/timer".

Section Timer.
Context {K : Type} `{!Os K, !TimerKernel K, !DevKernel K}.

(** The ioctls between the opening of the file and the handle; the version, or the
    negative code with which the file is closed again. *)
(* [timer.c 55-78 snd_timer_open] *)
Definition timer_setup (fd mode : Z) (id : snd_timer_id_t) : io (world K) (Z * Z) :=
  let* '(r, ver) := lift (ioctl_timer_pversion fd) in
  if r <? 0 then let* _ := sys_close fd in ret (r, ver)
  else
    let* r := if nz (Z.land mode SND_TIMER_OPEN_TREAD) then lift (ioctl_timer_tread fd 1) else ret 0 in
    if r <? 0 then let* _ := sys_close fd in ret (r, ver)
    else
      let* r := lift (ioctl_timer_select fd id) in
      if r <? 0 then let* _ := sys_close fd in ret (r, ver) else ret (0, ver).

(* [timer.c 33-105 snd_timer_open] *)
Definition snd_timer_open (name : string) (mode : Z) : io (world K) (Z * option snd_timer_t) :=
  match timer_parse_name name with
  | None => ret (- ENODEV, None)
  | Some id =>
      let tmode := if nz (Z.land mode SND_TIMER_OPEN_NONBLOCK) then Z.lor O_RDONLY O_NONBLOCK else O_RDONLY in
      let* fd := sys_open timer_path tmode in
      if fd <? 0 then ret (fd, None)
      else
        let* '(err, ver) := timer_setup fd mode id in
        if err <? 0 then ret (err, None)
        else
          let* p := sys_alloc sizeof_timer in
          match p with
          | None => let* _ := sys_close fd in ret (- ENOMEM, None)
          | Some a =>
              let* n := sys_strdup name in
              ret (0, Some (Timer a n SND_TIMER_TYPE_HW ver tmode fd (Pollfd fd (access_events mode) 0)))
          end
  end.

(* [timer.c 107-112 snd_timer_close] *)
Definition snd_timer_close (handle : snd_timer_t) : io (world K) Z :=
  let* _ := sys_close (timer_fd handle) in
  let* _ := sys_free (timer_block handle) in
  ret 0.

Definition set_timer_mode (t : snd_timer_t) (m : Z) : snd_timer_t :=
  Timer (timer_block t) (timer_name t) (timer_type t) (timer_version t) m (timer_fd t) (timer_pollfd t).

(* [timer_macros.h 28-39 snd_timer_nonblock] *)
Definition snd_timer_nonblock (timer : snd_timer_t) (nonblock : Z) : io (world K) (Z * snd_timer_t) :=
  let* err := _snd_set_nonblock (timer_fd timer) nonblock in
  if err <? 0 then ret (err, timer)
  else ret (0, set_timer_mode timer
         (if nz nonblock then Z.lor (timer_mode timer) SND_TIMER_OPEN_NONBLOCK
          else Z.land (timer_mode timer) (Z.lnot SND_TIMER_OPEN_NONBLOCK))).

(* [timer_macros.h 41-45 snd_timer_poll_descriptors_count] *)
Definition snd_timer_poll_descriptors_count (handle : snd_timer_t) : Z := 1.

(* [timer_macros.h 47-52 snd_timer_poll_descriptors] *)
Definition snd_timer_poll_descriptors (handle : snd_timer_t) (space : Z) : Z * pollfd :=
  (1, timer_pollfd handle).

(* [timer_macros.h 54-59 snd_timer_poll_descriptors_revents] *)
Definition snd_timer_poll_descriptors_revents (timer : snd_timer_t) (pfds : pollfd) (nfds : Z) : Z * Z :=
  (0, pfd_events pfds).

(* [timer_macros.h 61-67 snd_timer_info] *)
Definition snd_timer_info (handle : snd_timer_t) (info : snd_timer_info_t) : io (world K) (Z * snd_timer_info_t) :=
  answer (ioctl_timer_info (timer_fd handle) info).

(* [timer_macros.h 69-75 snd_timer_params] *)
Definition snd_timer_params (handle : snd_timer_t) (params : snd_timer_params_t)
  : io (world K) (Z * snd_timer_params_t) := answer (ioctl_timer_params (timer_fd handle) params).

(* [timer_macros.h 77-83 snd_timer_status] *)
Definition snd_timer_status (handle : snd_timer_t) (status : snd_timer_status_t)
  : io (world K) (Z * snd_timer_status_t) := answer (ioctl_timer_status (timer_fd handle) status).

(* [timer_macros.h 85-91 snd_timer_start] *)
Definition snd_timer_start (handle : snd_timer_t) : io (world K) Z :=
  answer0 (ioctl_timer_cmd (timer_fd handle) TimerStart).

(* [timer_macros.h 93-99 snd_timer_stop] *)
Definition snd_timer_stop (handle : snd_timer_t) : io (world K) Z :=
  answer0 (ioctl_timer_cmd (timer_fd handle) TimerStop).

(* [timer_macros.h 101-107 snd_timer_continue] *)
Definition snd_timer_continue (handle : snd_timer_t) : io (world K) Z :=
  answer0 (ioctl_timer_cmd (timer_fd handle) TimerContinue).

(* [timer_macros.h 109-117 snd_timer_read] *)
Definition snd_timer_read (handle : snd_timer_t) (size : Z) : io (world K) (Z * list Z) :=
  lift (os_read (timer_fd handle) size).
End Timer.

(** ** The fields of the structures *)

(* [timer_macros.h 121-125 snd_timer_id_set_class] *)
Definition snd_timer_id_set_class (id : snd_timer_id_t) (v : Z) : snd_timer_id_t :=
  TimerId v (dev_sclass id) (tid_card id) (tid_device id) (tid_subdevice id).
(* [timer_macros.h 127-131 snd_timer_id_get_class] *)
Definition snd_timer_id_get_class := dev_class.
(* [timer_macros.h 133-137 snd_timer_id_set_sclass] *)
Definition snd_timer_id_set_sclass (id : snd_timer_id_t) (v : Z) : snd_timer_id_t :=
  TimerId (dev_class id) v (tid_card id) (tid_device id) (tid_subdevice id).
(* [timer_macros.h 139-143 snd_timer_id_get_sclass] *)
Definition snd_timer_id_get_sclass := dev_sclass.
(* [timer_macros.h 145-149 snd_timer_id_set_card] *)
Definition snd_timer_id_set_card (id : snd_timer_id_t) (v : Z) : snd_timer_id_t :=
  TimerId (dev_class id) (dev_sclass id) v (tid_device id) (tid_subdevice id).
(* [timer_macros.h 151-155 snd_timer_id_get_card] *)
Definition snd_timer_id_get_card := tid_card.
(* [timer_macros.h 157-161 snd_timer_id_set_device] *)
Definition snd_timer_id_set_device (id : snd_timer_id_t) (v : Z) : snd_timer_id_t :=
  TimerId (dev_class id) (dev_sclass id) (tid_card id) v (tid_subdevice id).
(* [timer_macros.h 163-167 snd_timer_id_get_device] *)
Definition snd_timer_id_get_device := tid_device.
(* [timer_macros.h 169-173 snd_timer_id_set_subdevice] *)
Definition snd_timer_id_set_subdevice (id : snd_timer_id_t) (v : Z) : snd_timer_id_t :=
  TimerId (dev_class id) (dev_sclass id) (tid_card id) (tid_device id) v.
(* [timer_macros.h 175-179 snd_timer_id_get_subdevice] *)
Definition snd_timer_id_get_subdevice := tid_subdevice.

(* [timer_macros.h 183-188 snd_timer_ginfo_set_tid] *)
Definition snd_timer_ginfo_set_tid (g : snd_timer_ginfo_t) (tid : snd_timer_id_t) : Z * snd_timer_ginfo_t :=
  (0, TimerGinfo tid (tg_flags g) (tg_card g) (tg_id g) (tg_name g) (tg_resolution g)
        (tg_resolution_min g) (tg_resolution_max g) (tg_clients g)).
(* [timer_macros.h 190-194 snd_timer_ginfo_get_tid] *)
Definition snd_timer_ginfo_get_tid := tg_tid.
(* [timer_macros.h 196-200 snd_timer_ginfo_get_flags] *)
Definition snd_timer_ginfo_get_flags := tg_flags.
(* [timer_macros.h 202-206 snd_timer_ginfo_get_card] *)
Definition snd_timer_ginfo_get_card := tg_card.
(* [timer_macros.h 208-212 snd_timer_ginfo_get_id] *)
Definition snd_timer_ginfo_get_id := tg_id.
(* [timer_macros.h 214-218 snd_timer_ginfo_get_name] *)
Definition snd_timer_ginfo_get_name := tg_name.
(* [timer_macros.h 220-224 snd_timer_ginfo_get_resolution] *)
Definition snd_timer_ginfo_get_resolution := tg_resolution.
(* [timer_macros.h 226-230 snd_timer_ginfo_get_resolution_min] *)
Definition snd_timer_ginfo_get_resolution_min := tg_resolution_min.
(* [timer_macros.h 232-236 snd_timer_ginfo_get_resolution_max] *)
Definition snd_timer_ginfo_get_resolution_max := tg_resolution_max.
(* [timer_macros.h 238-242 snd_timer_ginfo_get_clients] *)
Definition snd_timer_ginfo_get_clients := tg_clients.

(* [timer_macros.h 246-250 snd_timer_info_is_slave] *)
Definition snd_timer_info_is_slave (i : snd_timer_info_t) : Z :=
  b2z (nz (Z.land (ti_flags i) SNDRV_TIMER_FLG_SLAVE)).
(* [timer_macros.h 252-256 snd_timer_info_get_card] *)
Definition snd_timer_info_get_card := ti_card.
(* [timer_macros.h 258-262 snd_timer_info_get_id] *)
Definition snd_timer_info_get_id := ti_id.
(* [timer_macros.h 264-268 snd_timer_info_get_name] *)
Definition snd_timer_info_get_name := ti_name.
(** An [unsigned long] given as a [long]. *)
(* [timer_macros.h 270-274 snd_timer_info_get_resolution] *)
Definition snd_timer_info_get_resolution (i : snd_timer_info_t) : Z := s64 (ti_resolution i).

Definition put_tp_flags (v : Z) (p : snd_timer_params_t) : snd_timer_params_t :=
  TimerParams v (tp_ticks p) (tp_queue_size p) (tp_filter p).

(** [if (on) flags |= bit; else flags &= ~bit; return 0;] on an [unsigned int]. *)
Definition set_psflag (bit on : Z) (p : snd_timer_params_t) : Z * snd_timer_params_t :=
  (0, put_tp_flags (u32 (if nz on then Z.lor (tp_flags p) bit else Z.land (tp_flags p) (Z.lnot bit))) p).

Definition get_psflag (bit : Z) (p : snd_timer_params_t) : Z := b2z (nz (Z.land (tp_flags p) bit)).

(* [timer_macros.h 278-287 snd_timer_params_set_auto_start] *)
Definition snd_timer_params_set_auto_start (p : snd_timer_params_t) (auto_start : Z) :=
  set_psflag SNDRV_TIMER_PSFLG_AUTO auto_start p.
(* [timer_macros.h 289-293 snd_timer_params_get_auto_start] *)
Definition snd_timer_params_get_auto_start := get_psflag SNDRV_TIMER_PSFLG_AUTO.
(* [timer_macros.h 295-303 snd_timer_params_set_exclusive] *)
Definition snd_timer_params_set_exclusive (p : snd_timer_params_t) (exclusive : Z) :=
  set_psflag SNDRV_TIMER_PSFLG_EXCLUSIVE exclusive p.
(* [timer_macros.h 305-309 snd_timer_params_get_exclusive] *)
Definition snd_timer_params_get_exclusive := get_psflag SNDRV_TIMER_PSFLG_EXCLUSIVE.
(* [timer_macros.h 311-320 snd_timer_params_set_early_event] *)
Definition snd_timer_params_set_early_event (p : snd_timer_params_t) (early_event : Z) :=
  set_psflag SNDRV_TIMER_PSFLG_EARLY_EVENT early_event p.
(* [timer_macros.h 322-326 snd_timer_params_get_early_event] *)
Definition snd_timer_params_get_early_event := get_psflag SNDRV_TIMER_PSFLG_EARLY_EVENT.

(** A [long] stored in an [unsigned int]. *)
(* [timer_macros.h 328-332 snd_timer_params_set_ticks] *)
Definition snd_timer_params_set_ticks (p : snd_timer_params_t) (ticks : Z) : snd_timer_params_t :=
  TimerParams (tp_flags p) (u32 ticks) (tp_queue_size p) (tp_filter p).
(* [timer_macros.h 334-338 snd_timer_params_get_ticks] *)
Definition snd_timer_params_get_ticks := tp_ticks.
(* [timer_macros.h 340-345 snd_timer_params_set_queue_size] *)
Definition snd_timer_params_set_queue_size (p : snd_timer_params_t) (queue_size : Z) : snd_timer_params_t :=
  TimerParams (tp_flags p) (tp_ticks p) (u32 queue_size) (tp_filter p).
(* [timer_macros.h 347-351 snd_timer_params_get_queue_size] *)
Definition snd_timer_params_get_queue_size := tp_queue_size.
(* [timer_macros.h 353-358 snd_timer_params_set_filter] *)
Definition snd_timer_params_set_filter (p : snd_timer_params_t) (filter : Z) : snd_timer_params_t :=
  TimerParams (tp_flags p) (tp_ticks p) (tp_queue_size p) filter.
(* [timer_macros.h 360-364 snd_timer_params_get_filter] *)
Definition snd_timer_params_get_filter := tp_filter.

(* [timer_macros.h 368-372 snd_timer_status_get_timestamp] *)
Definition snd_timer_status_get_timestamp := tst_tstamp.
(* [timer_macros.h 374-378 snd_timer_status_get_resolution] *)
Definition snd_timer_status_get_resolution := tst_resolution.
(* [timer_macros.h 380-384 snd_timer_status_get_lost] *)
Definition snd_timer_status_get_lost := tst_lost.
(* [timer_macros.h 386-390 snd_timer_status_get_overrun] *)
Definition snd_timer_status_get_overrun := tst_overrun.
(* [timer_macros.h 392-396 snd_timer_status_get_queue] *)
Definition snd_timer_status_get_queue := tst_queue.

(** Not implemented by the library. *)
(* [timer_macros.h 401-405 snd_timer_query_open] *)
Definition snd_timer_query_open : Z := - ENXIO.
(* [timer_macros.h 407-412 snd_timer_query_open_lconf] *)
Definition snd_timer_query_open_lconf : Z := - ENXIO.
(* [timer_macros.h 414-418 snd_timer_query_close] *)
Definition snd_timer_query_close : Z := 0.
(* [timer_macros.h 420-424 snd_timer_query_next_device] *)
Definition snd_timer_query_next_device : Z := - ENXIO.
(* [timer_macros.h 426-430 snd_timer_query_info] *)
Definition snd_timer_query_info : Z := - ENXIO.
(* [timer_macros.h 432-437 snd_timer_query_params] *)
Definition snd_timer_query_params : Z := - ENXIO.
(* [timer_macros.h 439-444 snd_timer_query_status] *)
Definition snd_timer_query_status : Z := - ENXIO.
(* [timer_macros.h 446-451 snd_timer_open_lconf] *)
Definition snd_timer_open_lconf : Z := - ENXIO.
(* [timer_macros.h 453-460 snd_async_add_timer_handler] *)
Definition snd_async_add_timer_handler : Z := - ENXIO.
(* [timer_macros.h 462-466 snd_async_handler_get_timer] *)
Definition snd_async_handler_get_timer : Z := 0.

(** ** Names *)

(** The name alsa-lib's configuration gives a timer. *)
Definition print_timer_name (id : snd_timer_id_t) : string :=
  String.append "hw:CLASS=" (String.append (pretty (dev_class id))
  (String.append ",SCLASS=" (String.append (pretty (dev_sclass id))
  (String.append ",CARD=" (String.append (pretty (tid_card id))
  (String.append ",DEV=" (String.append (pretty (tid_device id))
  (String.append ",SUBDEV=" (pretty (tid_subdevice id)))))))))).

(** What may follow a number. *)
Definition ends_number (r : string) : Prop :=
  match r with EmptyString => True | String c _ => c = ","%char end.

Lemma digits_ends r acc : ends_number r -> digits 10 r acc true = Some (acc, r).
Proof. destruct r as [|c r]; [done|]. intros ->. done. Qed.

(** [%i] behind the sign. *)
Definition scan_unsigned (neg : bool) (s : string) : option (Z * string) :=
  let '(base, s) :=
    match s with
    | String "0" (String "x" s') => (16, s')
    | String "0" (String "X" s') => (16, s')
    | String "0" _ => (8, s)
    | _ => (10, s)
    end in
  match digits base s 0 false with
  | Some (v, rest) => Some (to_int neg v, rest)
  | None => None
  end.

Lemma scan_i_unsigned s : scan_i s = let '(neg, s) := signed (skip_space s) in scan_unsigned neg s.
Proof. unfold scan_i, scan_unsigned. destruct (signed (skip_space s)). done. Qed.

(** [%i] reads the digits of a positive number in base 10. *)
Lemma scan_unsigned_digits (p : positive) r neg :
  ends_number r ->
  let s := pretty_N_go (Npos p) r in
  scan_unsigned neg s = Some (to_int neg (Z.pos p), r) /\ skip_space s = s /\ signed s = (false, s).
Proof.
  intros Hr s. destruct (digits_go (Npos p) r) as [k Hk]; [lia|].
  pose proof (go_nonzero (Npos p) r ltac:(lia)) as Hz. pose proof (starts_go (Npos p) r ltac:(lia)) as Hs.
  specialize (Hk 0 false). rewrite digits_ends in Hk by done. fold s in Hk, Hz, Hs.
  split; [|apply scan_digits; done]. unfold scan_unsigned. destruct s as [|c s0]; [done|]. destruct Hz as (d & Hd & Hnz).
  destruct c as [[] [] [] [] [] [] [] []]; try discriminate Hd; cbv beta iota;
    try (rewrite Hk; reflexivity). injection Hd as <-. done.
Qed.

Lemma to_int_id (neg : bool) v : is_s32 (if neg then - v else v) -> to_int neg v = if neg then - v else v.
Proof.
  unfold is_s32, INT_MIN, INT_MAX, to_int. set (x := if neg then - v else v). intros Hx.
  unfold LONG_MAX. destruct (Z.ltb_spec 9223372036854775807 x); [lia|].
  rewrite (proj2 (Z.ltb_ge x (- (9223372036854775807) - 1))) by lia. apply s32_id. done.
Qed.

(** A number printed with [%d] and read with [%i]. *)
Lemma scan_i_pretty z r : is_s32 z -> ends_number r -> scan_i (String.append (pretty z) r) = Some (z, r).
Proof.
  intros Hz Hr. rewrite scan_i_unsigned. destruct z as [|p|p].
  - destruct r as [|c r]; [done|]. simpl in Hr. subst c. done.
  - assert (He : String.append (pretty (Z.pos p)) r = pretty_N_go (Npos p) r).
    { change (pretty (Z.pos p)) with (pretty_N_go (Npos p) ""). rewrite <- go_append. done. }
    rewrite He. destruct (scan_unsigned_digits p r false Hr) as (H1 & H2 & H3). rewrite H2, H3, H1.
    rewrite to_int_id by done. done.
  - assert (He : String.append (pretty (Z.neg p)) r = String "-" (pretty_N_go (Npos p) r)).
    { change (pretty (Z.neg p)) with (String "-" (pretty_N_go (Npos p) "")). rewrite append_cons, <- go_append. done. }
    rewrite He. destruct (scan_unsigned_digits p r true Hr) as (H1 & _). simpl. rewrite H1.
    rewrite to_int_id by done. done.
Qed.

Lemma scan_fields_cons lit lits z r :
  is_s32 z -> ends_number r ->
  scan_fields (lit :: lits) (String.append lit (String.append (pretty z) r)) = z :: scan_fields lits r.
Proof. intros Hz Hr. simpl. rewrite after_prefix_append, scan_i_pretty by done. done. Qed.

(** A timer's name reads back: the name printed for any five numbers of the C type
    [int] selects the timer with those numbers. *)
Theorem timer_name_roundtrip (id : snd_timer_id_t) :
  is_s32 (dev_class id) -> is_s32 (dev_sclass id) -> is_s32 (tid_card id) -> is_s32 (tid_device id) ->
  is_s32 (tid_subdevice id) -> timer_parse_name (print_timer_name id) = Some id.
Proof.
  intros H1 H2 H3 H4 H5. unfold timer_parse_name.
  assert (Hs : scan_fields timer_format (print_timer_name id) =
    [dev_class id; dev_sclass id; tid_card id; tid_device id; tid_subdevice id]).
  { unfold print_timer_name, timer_format. do 4 (rewrite scan_fields_cons by done; f_equal).
    rewrite <- (append_nil (pretty (tid_subdevice id))). rewrite scan_fields_cons by done. done. }
  assert (Hn : String.eqb (print_timer_name id) "hw" = false) by done.
  rewrite Hn, Hs. destruct id. done.
Qed.

Lemma timer_name_roundtrip_witness :
  timer_parse_name (print_timer_name (TimerId 3 0 1 (-1) 8)) = Some (TimerId 3 0 1 (-1) 8).
Proof. apply timer_name_roundtrip; by_decide. Defined.

(** ** Opening and closing *)

Section TimerLife.
Context {K : Type} `{!Os K, !TimerKernel K, !DevKernel K}.

Lemma balanced_if_tread (w : world K) fd mode :
  held ((if nz (Z.land mode SND_TIMER_OPEN_TREAD) then lift (ioctl_timer_tread fd 1) else ret 0) w).2 = held w.
Proof. destruct (nz _); [apply balanced_lift|done]. Qed.

(** A setup that fails has closed the file. *)
Lemma timer_setup_spec fd mode id (w : world K) base :
  held w ≡ₚ RFd fd :: base ->
  let '((e, _), w') := timer_setup fd mode id w in
  held w' ≡ₚ if e <? 0 then base else RFd fd :: base.
Proof.
  intros Hw. assert (Hclose : forall (r ver : Z) (w1 : world K), r <? 0 = true -> held w1 = held w ->
    let '((e, _), w') := (let* _ := sys_close fd in ret (r, ver)) w1 in
    held w' ≡ₚ if e <? 0 then base else RFd fd :: base).
  { intros r ver w1 Hr H1. pose proof (fail_close_spec fd (r, ver) w1 base ltac:(rewrite H1; done)) as Hf.
    destruct (bind _ _ w1) as [[e v] w2]. destruct Hf as [[= -> ->] Hf]. rewrite Hr. done. }
  unfold timer_setup, bind at 1. pose proof (balanced_lift (ioctl_timer_pversion fd) w) as H1.
  destruct (lift _ w) as [[r ver] w1]. simpl in H1.
  destruct (r <? 0) eqn:Hr; [apply Hclose; done|]. unfold bind at 1.
  pose proof (balanced_if_tread w1 fd mode) as H2. 
  destruct ((if nz (Z.land mode SND_TIMER_OPEN_TREAD) then lift (ioctl_timer_tread fd 1) else ret 0) w1) as [r2 w2].
  simpl in H2.
  destruct (r2 <? 0) eqn:Hr2; [apply Hclose; congruence|]. unfold bind at 1.
  pose proof (balanced_lift (ioctl_timer_select fd id) w2) as H3. destruct (lift _ w2) as [r3 w3]. simpl in H3.
  destruct (r3 <? 0) eqn:Hr3; [apply Hclose; congruence|]. simpl. rewrite H3, H2, H1. done.
Qed.

(** Opening a timer is all or nothing, but closing it is not its undoing: a call that
    gives no handle fails and leaves nothing; one that gives a handle holds its descriptor,
    its block and the copy of the name, and [snd_timer_close] gives back the first two
    only, so that each timer opened and closed leaves the copy of its name behind. *)
Theorem timer_close_leaks_name (name : string) (mode : Z) (w : world K) :
  let '((err, h), w') := snd_timer_open name mode w in
  match h with
  | None => err < 0 /\ held w' ≡ₚ held w
  | Some t =>
      err = 0 /\ (forall a s, timer_name t = Some (a, s) -> s = name) /\
      held w' ≡ₚ [RMem (timer_block t); RFd (timer_fd t)] ++ name_block (timer_name t) ++ held w /\
      held (snd_timer_close t w').2 ≡ₚ name_block (timer_name t) ++ held w
  end.
Proof.
  unfold snd_timer_open. destruct (timer_parse_name name) as [id|]; [|done].
  unfold bind at 1. set (flags := if nz _ then _ else _).
  pose proof (sys_open_spec timer_path flags w) as Ho. destruct (sys_open timer_path flags w) as [fd w1].
  destruct (fd <? 0) eqn:Hfd; [simpl; rewrite Ho; split; [zbool; lia|done]|].
  unfold bind at 1. pose proof (timer_setup_spec fd mode id w1 (held w) ltac:(rewrite Ho; done)) as Hs.
  destruct (timer_setup fd mode id w1) as [[e ver] w2].
  destruct (e <? 0) eqn:He; [simpl; split; [zbool; lia|done]|].
  unfold bind at 1. pose proof (alloc_spec sizeof_timer w2) as Ha.
  destruct (sys_alloc sizeof_timer w2) as [[a|] w3].
  - unfold bind at 1. pose proof (strdup_spec name w3) as Hn. destruct (sys_strdup name w3) as [n w4]. destruct Hn as [Hn Hname].
    assert (Hheld : held w4 ≡ₚ [RMem a; RFd fd] ++ name_block n ++ held w).
    { rewrite Hn, Ha, Hs. simpl. rewrite <- !Permutation_middle. done. }
    unfold ret. split; [done|]. split; [done|]. split; [done|].
    apply close_free_spec. done.
  - pose proof (fail_close_spec fd (- ENOMEM, @None snd_timer_t) w3 (held w) ltac:(rewrite Ha, Hs; done)) as Hf.
    destruct (bind _ _ w3) as [r w4]. destruct Hf as [-> Hf]. split; [unfold ENOMEM; lia|done].
Qed.

(** The events of a timer's descriptor are taken from the library's mode flags as if they
    were the access mode of [open]: a timer, which can only be read, asks [poll] for input
    exactly where it is not opened non-blocking. *)
Theorem timer_poll_events (name : string) (mode : Z) (w w' : world K) (t : snd_timer_t) :
  snd_timer_open name mode w = ((0, Some t), w') ->
  nz (Z.land (pfd_events (snd_timer_poll_descriptors t 1).2) POLLIN) =
  negb (nz (Z.land mode SND_TIMER_OPEN_NONBLOCK)).
Proof.
  intros Ho. assert (He : pfd_events (timer_pollfd t) = access_events mode).
  { revert Ho. unfold snd_timer_open, bind, ret. destruct (timer_parse_name name); [|done].
    destruct (sys_open _ _ w) as [fd w1]. destruct (fd <? 0); [done|].
    destruct (timer_setup _ _ _ w1) as [[e ver] w2]. destruct (e <? 0); [done|].
    destruct (sys_alloc _ w2) as [[a|] w3]; [|destruct (sys_close fd w3); done].
    destruct (sys_strdup name w3) as [n w4]. intros [= <- _]. done. }
  simpl. rewrite He. unfold access_events, SND_TIMER_OPEN_NONBLOCK, O_ACCMODE.
  replace (Z.land mode 3) with (mode mod 4) by (symmetry; apply (Z.land_ones mode 2); lia).
  replace (Z.land mode 1) with (mode mod 2) by (symmetry; apply (Z.land_ones mode 1); lia).
  assert (Hm : mode mod 4 = 0 \/ mode mod 4 = 1 \/ mode mod 4 = 2 \/ mode mod 4 = 3)
    by (pose proof (Z.mod_pos_bound mode 4); lia).
  assert (H2 : mode mod 2 = (mode mod 4) mod 2) by (rewrite <- (Znumtheory.Zmod_div_mod 2 4 mode); try lia; exists 2; done).
  rewrite H2. destruct Hm as [->|[->|[->| ->]]]; done.
Qed.
End TimerLife.

(** ** Witnesses *)

#[local] Instance toy_timer : TimerKernel Z := {
  ioctl_timer_pversion _ := ret (0, 131077);
  ioctl_timer_tread _ _ := ret 0;
  ioctl_timer_select _ _ := ret 0;
  ioctl_timer_info _ i := ret (0, i);
  ioctl_timer_params _ p := ret (0, p);
  ioctl_timer_status _ s := ret (0, s);
  ioctl_timer_cmd _ _ := ret 0
}.

Definition toy_timer_handle : snd_timer_t :=
  Timer 1000001 (Some (1000002, "hw"%string)) 0 131077 O_NONBLOCK 3 (Pollfd 3 44 0).

(** A non-blocking timer waits for POLLOUT. *)
Lemma timer_poll_events_witness :
  nz (Z.land (pfd_events (snd_timer_poll_descriptors toy_timer_handle 1).2) POLLIN) = false.
Proof.
  apply (timer_poll_events "hw" SND_TIMER_OPEN_NONBLOCK (World 0 [])
    (World 3 [RMem 1000002; RMem 1000001; RFd 3]) toy_timer_handle). vm_compute. reflexivity.
Defined.
