(* ===== verification/Hwdep.v ===== *)
(** * Hardware-dependent devices

    src/src/hwdep.c and src/src/hwdep_macros.h.  A handle is returned by
    [snd_hwdep_open] with its block; nothing changes it until [snd_hwdep_close]. *)

From stdpp Require Import pretty strings.
From Stdlib Require Import Ascii String.
From S2P Require Import Prelude CInt Sys Cards IoDev.
#[local] Open Scope Z_scope.

(* [asound.h 80-98 snd_hwdep_iface_t] *)
Definition SND_HWDEP_IFACE_LAST : Z := 15.
Definition SND_HWDEP_TYPE_HW : Z := 0.

(* [asound.h 100-107 struct snd_hwdep_info] *)
Record snd_hwdep_info_t := HwdepInfo {
  hi_device : Z;
  hi_card : Z;
  hi_id : string;
  hi_name : string;
  hi_iface : Z
}.

(* [asound.h 109-116 struct snd_hwdep_dsp_status] *)
Record snd_hwdep_dsp_status_t := DspStatus {
  ds_version : Z;
  ds_id : string;
  ds_num_dsps : Z;
  ds_dsp_loaded : Z;
  ds_chip_ready : Z
}.

(** [image] is an address. *)
(* [asound.h 118-124 struct snd_hwdep_dsp_image] *)
Record snd_hwdep_dsp_image_t := DspImage {
  di_index : Z;
  di_name : string;       (* 64 bytes with the terminating 0 *)
  di_image : Z;
  di_length : Z;
  di_driver_data : Z
}.

(* [hwdep_macros.h 16-22 struct _snd_hwdep] *)
Record snd_hwdep_t := Hwdep {
  hwdep_block : Z;
  hwdep_name : option (Z * string);
  hwdep_type : Z;
  hwdep_mode : Z;
  hwdep_fd : Z;
  hwdep_pollfd : pollfd
}.

Definition sizeof_hwdep : Z := 32.

Class HwdepKernel (K : Type) := {
  ioctl_hwdep_pversion : Z -> io K Z;
  ioctl_hwdep_info : Z -> snd_hwdep_info_t -> io K (Z * snd_hwdep_info_t);
  ioctl_hwdep_dsp_status : Z -> snd_hwdep_dsp_status_t -> io K (Z * snd_hwdep_dsp_status_t);
  ioctl_hwdep_dsp_load : Z -> snd_hwdep_dsp_image_t -> io K (Z * snd_hwdep_dsp_image_t)
}.

(* [hwdep.c 44-45 snd_hwdep_open] *)
Definition hwdep_filename (card device : Z) : string :=
  String.append SALSA_DEVPATH (String.append "/hwC" (String.append (pretty card)
    (String.append "D" (pretty device)))).

Section Hwdep.
Context {K : Type} `{!Os K, !CardKernel K, !HwdepKernel K, !DevKernel K}.

(** What follows the parsing of the name. *)
(* [hwdep.c 44-80 snd_hwdep_open] *)
Definition hwdep_open_file (card device : Z) (name : string) (mode : Z)
  : io (world K) (Z * option snd_hwdep_t) :=
  let* fd := sys_open (hwdep_filename card device) mode in
  if fd <? 0 then ret (fd, None)
  else
    let* r := lift (ioctl_hwdep_pversion fd) in
    if r <? 0 then let* _ := sys_close fd in ret (r, None)
    else
      let* p := sys_alloc sizeof_hwdep in
      match p with
      | None => let* _ := sys_close fd in ret (- ENOMEM, None)
      | Some a =>
          let* n := sys_strdup name in
          ret (0, Some (Hwdep a n SND_HWDEP_TYPE_HW mode fd (Pollfd fd (access_events mode) 0)))
      end.

(** The name is parsed without a pointer for the subdevice. *)
(* [hwdep.c 33-80 snd_hwdep_open] *)
Definition snd_hwdep_open (name : string) (mode : Z) : io (world K) (Z * option snd_hwdep_t) :=
  let* '(err, (card, device, _)) := _snd_dev_get_device name true false in
  if err <? 0 then ret (err, None) else hwdep_open_file card device name mode.

(* [hwdep.c 82-87 snd_hwdep_close] *)
Definition snd_hwdep_close (hwdep : snd_hwdep_t) : io (world K) Z :=
  let* _ := sys_close (hwdep_fd hwdep) in
  let* _ := sys_free (hwdep_block hwdep) in
  ret 0.

(* [hwdep_macros.h 25-29 snd_hwdep_nonblock] *)
Definition snd_hwdep_nonblock (hwdep : snd_hwdep_t) (nonblock : Z) : io (world K) Z :=
  _snd_set_nonblock (hwdep_fd hwdep) nonblock.

(* [hwdep_macros.h 31-35 snd_hwdep_poll_descriptors_count] *)
Definition snd_hwdep_poll_descriptors_count (hwdep : snd_hwdep_t) : Z := 1.

(* [hwdep_macros.h 37-43 snd_hwdep_poll_descriptors] *)
Definition snd_hwdep_poll_descriptors (hwdep : snd_hwdep_t) (space : Z) : Z * pollfd := (1, hwdep_pollfd hwdep).

(* [hwdep_macros.h 45-52 snd_hwdep_poll_descriptors_revents] *)
Definition snd_hwdep_poll_descriptors_revents (hwdep : snd_hwdep_t) (pfds : pollfd) (nfds : Z) : Z * Z :=
  (0, pfd_events pfds).

(** A request is what the ioctl does with its argument. *)
(* [hwdep_macros.h 62-68 snd_hwdep_ioctl] *)
Definition snd_hwdep_ioctl {A} (hwdep : snd_hwdep_t) (request : Z -> A -> io K (Z * A)) (arg : A)
  : io (world K) (Z * A) := answer (request (hwdep_fd hwdep) arg).

(* [hwdep_macros.h 54-60 snd_hwdep_info] *)
Definition snd_hwdep_info (hwdep : snd_hwdep_t) (info : snd_hwdep_info_t) : io (world K) (Z * snd_hwdep_info_t) :=
  answer (ioctl_hwdep_info (hwdep_fd hwdep) info).

(* [hwdep_macros.h 70-74 snd_hwdep_dsp_status] *)
Definition snd_hwdep_dsp_status (hwdep : snd_hwdep_t) (status : snd_hwdep_dsp_status_t)
  : io (world K) (Z * snd_hwdep_dsp_status_t) := snd_hwdep_ioctl hwdep ioctl_hwdep_dsp_status status.

(* [hwdep_macros.h 76-80 snd_hwdep_dsp_load] *)
Definition snd_hwdep_dsp_load (hwdep : snd_hwdep_t) (block : snd_hwdep_dsp_image_t)
  : io (world K) (Z * snd_hwdep_dsp_image_t) := snd_hwdep_ioctl hwdep ioctl_hwdep_dsp_load block.

(* [hwdep_macros.h 82-90 snd_hwdep_write] *)
Definition snd_hwdep_write (hwdep : snd_hwdep_t) (buffer : list Z) (size : Z) : io (world K) Z :=
  lift (os_write (hwdep_fd hwdep) (take (Z.to_nat size) buffer)).

(* [hwdep_macros.h 92-100 snd_hwdep_read] *)
Definition snd_hwdep_read (hwdep : snd_hwdep_t) (size : Z) : io (world K) (Z * list Z) :=
  lift (os_read (hwdep_fd hwdep) size).
End Hwdep.

(** ** The fields of the structures *)

(* [hwdep_macros.h 104-108 snd_hwdep_info_get_device] *)
Definition snd_hwdep_info_get_device := hi_device.
(* [hwdep_macros.h 110-114 snd_hwdep_info_get_card] *)
Definition snd_hwdep_info_get_card := hi_card.
(* [hwdep_macros.h 116-120 snd_hwdep_info_get_id] *)
Definition snd_hwdep_info_get_id := hi_id.
(* [hwdep_macros.h 122-126 snd_hwdep_info_get_name] *)
Definition snd_hwdep_info_get_name := hi_name.
(* [hwdep_macros.h 128-132 snd_hwdep_info_get_iface] *)
Definition snd_hwdep_info_get_iface (i : snd_hwdep_info_t) : Z := u32 (hi_iface i).
(* [hwdep_macros.h 134-138 snd_hwdep_info_set_device] *)
Definition snd_hwdep_info_set_device (i : snd_hwdep_info_t) (v : Z) : snd_hwdep_info_t :=
  HwdepInfo v (hi_card i) (hi_id i) (hi_name i) (hi_iface i).

(* [hwdep_macros.h 142-146 snd_hwdep_dsp_status_get_version] *)
Definition snd_hwdep_dsp_status_get_version := ds_version.
(* [hwdep_macros.h 148-152 snd_hwdep_dsp_status_get_id] *)
Definition snd_hwdep_dsp_status_get_id := ds_id.
(* [hwdep_macros.h 154-158 snd_hwdep_dsp_status_get_num_dsps] *)
Definition snd_hwdep_dsp_status_get_num_dsps := ds_num_dsps.
(* [hwdep_macros.h 160-164 snd_hwdep_dsp_status_get_dsp_loaded] *)
Definition snd_hwdep_dsp_status_get_dsp_loaded := ds_dsp_loaded.
(* [hwdep_macros.h 166-170 snd_hwdep_dsp_status_get_chip_ready] *)
Definition snd_hwdep_dsp_status_get_chip_ready := ds_chip_ready.

(* [hwdep_macros.h 174-178 snd_hwdep_dsp_image_get_index] *)
Definition snd_hwdep_dsp_image_get_index := di_index.
(* [hwdep_macros.h 180-184 snd_hwdep_dsp_image_get_name] *)
Definition snd_hwdep_dsp_image_get_name := di_name.
(* [hwdep_macros.h 186-190 snd_hwdep_dsp_image_get_image] *)
Definition snd_hwdep_dsp_image_get_image := di_image.
(* [hwdep_macros.h 192-196 snd_hwdep_dsp_image_get_length] *)
Definition snd_hwdep_dsp_image_get_length := di_length.
(* [hwdep_macros.h 198-202 snd_hwdep_dsp_image_set_index] *)
Definition snd_hwdep_dsp_image_set_index (i : snd_hwdep_dsp_image_t) (v : Z) : snd_hwdep_dsp_image_t :=
  DspImage v (di_name i) (di_image i) (di_length i) (di_driver_data i).
(** [strncpy] over the 64 bytes, the last of them made 0: the first 63 characters. *)
(* [hwdep_macros.h 204-209 snd_hwdep_dsp_image_set_name] *)
Definition snd_hwdep_dsp_image_set_name (i : snd_hwdep_dsp_image_t) (name : string) : snd_hwdep_dsp_image_t :=
  DspImage (di_index i) (String.substring 0 63 name) (di_image i) (di_length i) (di_driver_data i).
(* [hwdep_macros.h 211-215 snd_hwdep_dsp_image_set_image] *)
Definition snd_hwdep_dsp_image_set_image (i : snd_hwdep_dsp_image_t) (buffer : Z) : snd_hwdep_dsp_image_t :=
  DspImage (di_index i) (di_name i) buffer (di_length i) (di_driver_data i).
(* [hwdep_macros.h 217-221 snd_hwdep_dsp_image_set_length] *)
Definition snd_hwdep_dsp_image_set_length (i : snd_hwdep_dsp_image_t) (length : Z) : snd_hwdep_dsp_image_t :=
  DspImage (di_index i) (di_name i) (di_image i) length (di_driver_data i).

(** ** Theorems *)

Section HwdepLife.
Context {K : Type} `{!Os K, !CardKernel K, !HwdepKernel K, !DevKernel K}.

(** A name without a pointer for the subdevice gives device 0. *)
Lemma get_device_zero name (w : world K) :
  let '((_, (_, dev, _)), w') := _snd_dev_get_device name true false w in dev = 0 /\ held w' = held w.
Proof.
  pose proof (balanced_get_device name true false w) as Hb. revert Hb.
  unfold _snd_dev_get_device, bind, ret. destruct (_ || _); [done|].
  destruct (strip_device_prefix name) as [s|]; [|done].
  destruct (snd_card_get_index (Some s) w) as [card w']. destruct (card <? 0); done.
Qed.

(** The device number of a hwdep name is ignored: whatever the name says behind the
    comma, an open that succeeds in parsing the name opens device 0 of the card. *)
Theorem hwdep_opens_device_zero (name : string) (mode : Z) (w : world K) :
  let '((err, (card, _, _)), w1) := _snd_dev_get_device name true false w in
  snd_hwdep_open name mode w =
    if err <? 0 then ((err, None), w1) else hwdep_open_file card 0 name mode w1.
Proof.
  pose proof (get_device_zero name w) as H. unfold snd_hwdep_open, bind, ret.
  destruct (_snd_dev_get_device name true false w) as [[err [[card dev] sub]] w1].
  destruct H as [-> _]. destruct (err <? 0); done.
Qed.

(** A hwdep open leaves nothing where it fails, and what [snd_hwdep_close] gives back is
    all but the copy of the name. *)
Theorem hwdep_close_leaks_name (name : string) (mode : Z) (w : world K) :
  let '((err, h), w') := snd_hwdep_open name mode w in
  match h with
  | None => err < 0 /\ held w' ≡ₚ held w
  | Some d =>
      err = 0 /\ (forall a s, hwdep_name d = Some (a, s) -> s = name) /\
      held w' ≡ₚ [RMem (hwdep_block d); RFd (hwdep_fd d)] ++ name_block (hwdep_name d) ++ held w /\
      held (snd_hwdep_close d w').2 ≡ₚ name_block (hwdep_name d) ++ held w
  end.
Proof.
  unfold snd_hwdep_open, bind at 1. pose proof (get_device_zero name w) as Hg.
  destruct (_snd_dev_get_device name true false w) as [[err [[card dev] sub]] w0]. destruct Hg as [_ Hg].
  destruct (err <? 0) eqn:He; [simpl; rewrite Hg; split; [zbool; lia|done]|].
  unfold hwdep_open_file, bind at 1. pose proof (sys_open_spec (hwdep_filename card dev) mode w0) as Ho.
  destruct (sys_open _ mode w0) as [fd w1].
  destruct (fd <? 0) eqn:Hfd; [simpl; rewrite Ho, Hg; split; [zbool; lia|done]|].
  unfold bind at 1. pose proof (balanced_lift (ioctl_hwdep_pversion fd) w1) as Hv.
  destruct (lift _ w1) as [r w2]. simpl in Hv.
  destruct (r <? 0) eqn:Hr.
  { pose proof (fail_close_spec fd (r, @None snd_hwdep_t) w2 (held w) ltac:(rewrite Hv, Ho, Hg; done)) as Hf.
    destruct (bind _ _ w2) as [x w3]. destruct Hf as [-> Hf]. split; [zbool; lia|done]. }
  unfold bind at 1. pose proof (alloc_spec sizeof_hwdep w2) as Ha.
  destruct (sys_alloc sizeof_hwdep w2) as [[a|] w3].
  - unfold bind at 1. pose proof (strdup_spec name w3) as Hn. destruct (sys_strdup name w3) as [n w4]. destruct Hn as [Hn Hname].
    assert (Hheld : held w4 ≡ₚ [RMem a; RFd fd] ++ name_block n ++ held w).
    { rewrite Hn, Ha, Hv, Ho, Hg. simpl. rewrite <- !Permutation_middle. done. }
    unfold ret. split; [done|]. split; [done|]. split; [done|].
    apply close_free_spec. done.
  - pose proof (fail_close_spec fd (- ENOMEM, @None snd_hwdep_t) w3 (held w) ltac:(rewrite Ha, Hv, Ho, Hg; done)) as Hf.
    destruct (bind _ _ w3) as [x w4]. destruct Hf as [-> Hf]. split; [unfold ENOMEM; lia|done].
Qed.
End HwdepLife.
