(* ===== verification/Output.v ===== *)
(** * Text output

    src/src/output.c, the output objects of the build with buffered output: a stdio
    stream, or a buffer in memory that grows.  (OutputPlain.v has the simplified version of
    the other builds.)

    The bytes of the buffer are kept, [None] where the block has never been written.  A
    write that does not lie in the block is the answer [None] of [store] and of the
    function; so is the second [vsnprintf] of [snd_output_printf], whose argument list the
    first one has used up and whose text the C standard leaves undefined.  The text a format
    makes is an argument, with the mark whether the format reads arguments at all. *)

From stdpp Require Import strings.
From Stdlib Require Import Ascii String.
From S2P Require Import Prelude CInt Sys Cards Async PcmTypes Toy.
#[local] Open Scope Z_scope.

(* [output.h 29-32 snd_output_type_t] *)
Definition SND_OUTPUT_STDIO : Z := 0.
Definition SND_OUTPUT_BUFFER : Z := 1.

(* [output.c 19-19 CHUNK] *)
Definition CHUNK : Z := 4000.

(** The streams of the C library; [file_open] gives a new stream or a negative errno. *)
Class Stdio (K : Type) := {
  file_open : string -> string -> io K Z;
  file_close : Z -> io K Z;
  file_write : Z -> string -> io K Z;     (* vfprintf of the formatted text *)
  file_puts : Z -> string -> io K Z;
  file_putc : Z -> Z -> io K Z;
  file_flush : Z -> io K Z;
  file_stdout : Z;
  file_stderr : Z
}.

(** [ptr] is the stream or the buffer's block; [mem] the bytes of the block. *)
(* [output.c 21-26 struct snd_output] *)
Record snd_output_t := Output {
  out_block : Z;
  out_mode : Z;
  out_ptr : Z;
  out_len : Z;
  out_size : Z;
  out_mem : list (option Z)
}.

Definition sizeof_output : Z := 24.

Definition set_buffer (o : snd_output_t) (ptr size : Z) (m : list (option Z)) : snd_output_t :=
  Output (out_block o) (out_mode o) ptr (out_len o) size m.

Definition set_mem (o : snd_output_t) (m : list (option Z)) : snd_output_t :=
  Output (out_block o) (out_mode o) (out_ptr o) (out_len o) (out_size o) m.

Definition set_len (o : snd_output_t) (n : Z) : snd_output_t :=
  Output (out_block o) (out_mode o) (out_ptr o) n (out_size o) (out_mem o).

(** The characters of a C string. *)
Definition chars (s : string) : list Z := map code (String.list_ascii_of_string s).

(** Bytes stored at an offset; [None] where they do not lie in the block. *)
Definition store (m : list (option Z)) (off : Z) (bytes : list Z) : option (list (option Z)) :=
  if (0 <=? off) && (off + Z.of_nat (length bytes) <=? Z.of_nat (length m))
  then Some (take (Z.to_nat off) m ++ map Some bytes ++ drop (Z.to_nat off + length bytes) m)
  else None.

(** [vsnprintf(buf, n, ...)]: at most [n - 1] characters and a 0; nothing for [n = 0]. *)
Definition store_text (m : list (option Z)) (off n : Z) (text : string) : option (list (option Z)) :=
  if n <=? 0 then Some m
  else store m off (take (Z.to_nat (n - 1)) (chars text) ++ [0]).

Definition strlen (s : string) : Z := Z.of_nat (String.length s).

Section Output.
Context {K : Type} `{!Os K, !Stdio K}.

(* [output.c 28-39 snd_output_stdio_attach] *)
Definition snd_output_stdio_attach (fp close : Z) : io (world K) (Z * option snd_output_t) :=
  let* p := sys_alloc sizeof_output in
  ret (match p with
       | None => (- ENOMEM, None)
       | Some a => (0, Some (Output a SND_OUTPUT_STDIO fp close 0 []))
       end).

(* [output.c 41-47 snd_output_stdio_open] *)
Definition snd_output_stdio_open (file mode : string) : io (world K) (Z * option snd_output_t) :=
  let* fp := lift (file_open file mode) in
  if fp <? 0 then ret (fp, None)
  else
    let* _ := acquire (RMem fp) in
    snd_output_stdio_attach fp 1.

(** [fclose]: the stream is gone whatever the result. *)
Definition sys_fclose (fp : Z) : io (world K) Z :=
  let* _ := drop_resource (RMem fp) in lift (file_close fp).

(* [output.c 49-58 snd_output_close] *)
Definition snd_output_close (out : snd_output_t) : io (world K) Z :=
  if (out_mode out =? SND_OUTPUT_STDIO) && nz (out_len out) then sys_fclose (out_ptr out)
  else
    let* _ := if out_mode out =? SND_OUTPUT_STDIO then ret tt
              else if nz (out_ptr out) then sys_free (out_ptr out) else ret tt in
    let* _ := sys_free (out_block out) in
    ret 0.

(** The block keeps its bytes up to the smaller size. *)
(* [output.c 60-69 resize] *)
Definition resize (out : snd_output_t) (new : Z) : io (world K) (Z * snd_output_t) :=
  let size := s32 (out_len out + new + CHUNK) in
  let* buf := sys_realloc (out_ptr out) (u64 size) in
  ret (match buf with
       | None => (- ENOMEM, out)
       | Some a => (0, set_buffer out a size
                         (take (Z.to_nat size) (out_mem out ++ replicate (Z.to_nat size) None)))
       end).

(** [conv]: the format has a conversion, so that [vsnprintf] reads the argument list [ap].
    The second call after a growth is given the same [ap], whose value is indeterminate once
    the first has read from it: the behaviour is undefined, [None].  Without a conversion
    the second call writes the same text.  The length is not advanced. *)
(* [output.c 71-91 snd_output_printf] *)
Definition snd_output_printf (out : snd_output_t) (conv : bool) (text : string)
  : io (world K) (option (Z * snd_output_t)) :=
  if out_mode out =? SND_OUTPUT_STDIO then
    let* r := lift (file_write (out_ptr out) text) in ret (Some (r, out))
  else
    let r := strlen text in
    match store_text (out_mem out) (out_len out) (out_size out - out_len out) text with
    | None => ret None
    | Some m =>
        let out := set_mem out m in
        if out_size out - out_len out <=? r then
          let* '(err, out) := resize out r in
          if err <? 0 then ret (Some (- ENOMEM, out))
          else if conv then ret None
          else
            ret (match store_text (out_mem out) (out_len out) (out_size out - out_len out) text with
                 | None => None
                 | Some m => Some (r, set_mem out m)
                 end)
        else ret (Some (r, out))
    end.

(** The string is stored at an offset that is its own length. *)
(* [output.c 93-104 snd_output_puts] *)
Definition snd_output_puts (out : snd_output_t) (str : string) : io (world K) (option (Z * snd_output_t)) :=
  if out_mode out =? SND_OUTPUT_STDIO then
    let* r := lift (file_puts (out_ptr out) str) in ret (Some (r, out))
  else
    let len := strlen str in
    let* '(err, out) := if out_size out - out_len out <=? len then resize out len else ret (0, out) in
    if err <? 0 then ret (Some (- ENOMEM, out))
    else
      ret (match store (out_mem out) len (chars str ++ [0]) with
           | None => None
           | Some m => Some (len, set_mem out m)
           end).

(* [output.c 106-114 snd_output_putc] *)
Definition snd_output_putc (out : snd_output_t) (c : Z) : io (world K) (option (Z * snd_output_t)) :=
  if out_mode out =? SND_OUTPUT_STDIO then
    let* r := lift (file_putc (out_ptr out) c) in ret (Some (r, out))
  else
    let* '(err, out) := if out_size out <=? out_len out + 1 then resize out 1 else ret (0, out) in
    if err <? 0 then ret (Some (- ENOMEM, out))
    else
      ret (match store (out_mem out) (out_len out) [u8 c] with
           | None => None
           | Some m => Some (0, set_len (set_mem out m) (out_len out + 1))
           end).

(* [output.c 116-123 snd_output_flush] *)
Definition snd_output_flush (out : snd_output_t) : io (world K) (Z * snd_output_t) :=
  if out_mode out =? SND_OUTPUT_STDIO then
    let* r := lift (file_flush (out_ptr out)) in ret (r, out)
  else ret (0, set_len out 0).

(** The object is given back where the first block cannot be had, too. *)
(* [output.c 125-133 snd_output_buffer_open] *)
Definition snd_output_buffer_open : io (world K) (Z * option snd_output_t) :=
  let* p := sys_alloc sizeof_output in
  match p with
  | None => ret (- ENOMEM, None)
  | Some a =>
      let* '(err, out) := resize (Output a SND_OUTPUT_BUFFER 0 0 0 []) 0 in
      ret (err, Some out)
  end.

(** The buffer's bytes, and their number as the object has it. *)
(* [output.c 135-139 snd_output_buffer_string] *)
Definition snd_output_buffer_string (out : snd_output_t) : Z * list (option Z) := (out_len out, out_mem out).
End Output.

(** ** Theorems *)

(** A buffer object: its bytes fill its size, and the length lies inside. *)
Definition buf_ok (o : snd_output_t) : Prop :=
  out_mode o = SND_OUTPUT_BUFFER /\ Z.of_nat (length (out_mem o)) = out_size o /\
  0 <= out_len o < out_size o /\ out_size o <= INT_MAX.

(** What has been put in so far. *)
Definition contents (o : snd_output_t) : list (option Z) := take (Z.to_nat (out_len o)) (out_mem o).

Lemma store_spec m off bytes :
  0 <= off -> off + Z.of_nat (length bytes) <= Z.of_nat (length m) ->
  exists m', store m off bytes = Some m' /\ length m' = length m /\
    take (Z.to_nat off + length bytes) m' = take (Z.to_nat off) m ++ map Some bytes.
Proof.
  intros H1 H2. unfold store. destruct (Z.leb_spec 0 off); [|lia].
  destruct (Z.leb_spec (off + Z.of_nat (length bytes)) (Z.of_nat (length m))); [|lia].
  eexists. split; [done|]. split.
  - rewrite !length_app, length_take, length_map, length_drop. lia.
  - rewrite app_assoc, take_app_length'; [done|]. rewrite length_app, length_take, length_map. lia.
Qed.

Lemma store_text_ok m off n text :
  0 <= off -> off + n = Z.of_nat (length m) ->
  exists m', store_text m off n text = Some m' /\ length m' = length m /\
    take (Z.to_nat off) m' = take (Z.to_nat off) m.
Proof.
  intros H1 H2. unfold store_text. destruct (Z.leb_spec n 0); [eauto|].
  destruct (store_spec m off (take (Z.to_nat (n - 1)) (chars text) ++ [0])) as (m' & H3 & H4 & H5).
  - done.
  - rewrite length_app, length_take. simpl. lia.
  - exists m'. split; [done|]. split; [done|].
    apply (f_equal (take (Z.to_nat off))) in H5. rewrite take_take, Nat.min_l in H5 by lia.
    rewrite H5, take_app_length'; [done|]. rewrite length_take. lia.
Qed.

Section Theorems.
Context {K : Type} `{!Os K, !OsLaws K, !Stdio K}.

Lemma realloc_positive old size (w w' : world K) a : sys_realloc old size w = (Some a, w') -> 0 < a.
Proof using OsLaws0.
  unfold sys_realloc. destruct (os_alloc _ _ _) as [[b|] k] eqn:Ha; [|done]. intros [= <- _].
  apply (alloc_law _ _ _ _ _ Ha).
Qed.

(** The old block is exchanged for the new, or stays. *)
Lemma realloc_spec old size (w : world K) rest :
  held w ≡ₚ (if nz old then [RMem old] else []) ++ rest ->
  let '(r, w') := sys_realloc old size w in
  match r with
  | Some a => held w' ≡ₚ RMem a :: rest
  | None => held w' = held w
  end.
Proof.
  intros Hw. unfold sys_realloc. destruct (nz old); simpl in Hw;
    destruct (os_alloc _ _ _) as [[a|] k]; simpl; rewrite ?Hw, ?release_head; done.
Qed.

(** The object owns its block and the buffer. *)
Definition out_inv (base : list resource) (o : snd_output_t) (w : world K) : Prop :=
  buf_ok o /\ 0 < out_ptr o /\ held w ≡ₚ RMem (out_ptr o) :: RMem (out_block o) :: base.

(** A growing buffer keeps its contents; a failure changes nothing. *)
Lemma resize_spec base o new (w : world K) :
  out_inv base o w -> 0 < new -> out_len o + new + CHUNK <= INT_MAX ->
  out_size o - out_len o <= new + 1 ->
  let '((e, o'), w') := resize o new w in
  (e = - ENOMEM \/ e = 0 /\ out_size o' = out_len o + new + CHUNK) /\
  out_inv base o' w' /\ out_len o' = out_len o /\ contents o' = contents o.
Proof using OsLaws0.
  intros ((H1 & H2 & H3 & H4) & Hp & Hw) Hn Hmax Hs. unfold resize, bind, ret, CHUNK in *.
  rewrite s32_id by (unfold is_s32, INT_MIN; lia). set (size := out_len o + new + 4000) in *.
  pose proof (realloc_spec (out_ptr o) (u64 size) w (RMem (out_block o) :: base)) as Hr.
  pose proof (realloc_positive (out_ptr o) (u64 size) w) as Hpos.
  rewrite (proj2 (nz_true (out_ptr o))) in Hr by lia. specialize (Hr Hw).
  destruct (sys_realloc _ _ w) as [[a|] w'].
  - split; [right; done|]. split; [|split; [done|]].
    + split; [|split; [eapply Hpos; done|exact Hr]]. split; [done|]. simpl.
      rewrite length_take, length_app, length_replicate. split; lia.
    + unfold contents. simpl. rewrite take_take, take_app_le by lia. rewrite Nat.min_l by lia. done.
  - split; [left; done|]. split; [|done]. split; [done|]. rewrite Hr. done.
Qed.

(** ** The calls on a buffer *)

Inductive out_op := Printf (conv : bool) (text : string) | Putc (c : Z) | Flush.

Definition run_out (op : out_op) (o : snd_output_t) : io (world K) (option (Z * snd_output_t)) :=
  match op with
  | Printf conv text => snd_output_printf o conv text
  | Putc c => snd_output_putc o c
  | Flush => let* r := snd_output_flush o in ret (Some r)
  end.

(** How much a call may lengthen the buffer. *)
Definition out_weight (op : out_op) : Z :=
  match op with Printf _ text => strlen text | Putc _ => 1 | Flush => 0 end.

(** The call of the library that has no defined meaning: a format with conversions whose
    text does not fit in the room left. *)
Definition retries (op : out_op) (o : snd_output_t) : bool :=
  match op with
  | Printf true text => out_size o - out_len o <=? strlen text
  | _ => false
  end.

Lemma strlen_chars s : Z.of_nat (length (chars s)) = strlen s.
Proof.
  unfold chars, strlen. rewrite length_map. f_equal. induction s as [|c s IH]; simpl; [done|]. rewrite IH. done.
Qed.

(** Text over the end of the contents: it is in the block, and the contents are what they were. *)
Lemma printf_stores base o text (w : world K) :
  out_inv base o w ->
  exists m, store_text (out_mem o) (out_len o) (out_size o - out_len o) text = Some m /\
    out_inv base (set_mem o m) w /\ contents (set_mem o m) = contents o.
Proof.
  intros ((H1 & H2 & H3 & H4) & Hp & Hw).
  destruct (store_text_ok (out_mem o) (out_len o) (out_size o - out_len o) text) as (m & Hm & Hl & Ht); [lia..|].
  exists m. split; [done|]. split; [|done]. split; [|done]. split; [done|]. simpl. rewrite Hl. done.
Qed.

Lemma buffer_mode base o (w : world K) : out_inv base o w -> (out_mode o =? SND_OUTPUT_STDIO) = false.
Proof. intros ((H & _) & _). rewrite H. done. Qed.

Lemma printf_spec base o conv text (w : world K) :
  out_inv base o w -> out_len o + strlen text + CHUNK <= INT_MAX ->
  let '(res, w') := snd_output_printf o conv text w in
  match res with
  | Some (r, o') => out_inv base o' w' /\ (r = strlen text \/ r = - ENOMEM) /\
      out_len o' = out_len o /\ contents o' = contents o /\
      (retries (Printf conv text) o = true -> r = - ENOMEM)
  | None => retries (Printf conv text) o = true
  end.
Proof using OsLaws0.
  intros Hi Hmax. pose proof Hi as ((H1 & H2 & H3 & H4) & Hp & Hw).
  unfold snd_output_printf. rewrite (buffer_mode base o w Hi).
  destruct (printf_stores base o text w Hi) as (m & -> & Hi1 & Hc1). unfold retries.
  cbn [out_size out_len set_mem]. destruct (Z.leb_spec (out_size o - out_len o) (strlen text)) as [Hle|Hle].
  2:{ unfold ret. split_and!; [done|auto|done|done|destruct conv; done]. }
  unfold bind. pose proof (resize_spec base (set_mem o m) (strlen text) w Hi1) as Hr.
  destruct (resize (set_mem o m) (strlen text) w) as [[e o2] w2].
  simpl in Hr. destruct Hr as (He & Hi2 & Hl2 & Hc2); [lia..|].
  rewrite Hc1 in Hc2. destruct He as [->|[-> Hsz]]; simpl.
  - split_and!; [done|auto|done|done|done].
  - destruct conv; simpl; [done|]. destruct (printf_stores base o2 text w2 Hi2) as (m2 & -> & Hi3 & Hc3).
    cbn. split_and!; [done|auto|done|congruence|done].
Qed.

(** Room for one more character, or [-ENOMEM]. *)
Lemma putc_room base o (w : world K) :
  out_inv base o w -> out_len o + 1 + CHUNK <= INT_MAX ->
  let '((e, o2), w2) := (if out_size o <=? out_len o + 1 then resize o 1 else ret (0, o)) w in
  (e = - ENOMEM \/ e = 0 /\ out_len o + 1 < out_size o2) /\ out_inv base o2 w2 /\
  out_len o2 = out_len o /\ contents o2 = contents o.
Proof using OsLaws0.
  intros Hi Hmax. pose proof Hi as ((H1 & H2 & H3 & H4) & Hp & Hw).
  destruct (Z.leb_spec (out_size o) (out_len o + 1)).
  - pose proof (resize_spec base o 1 w Hi) as Hr. destruct (resize o 1 w) as [[e o2] w2].
    destruct Hr as (He & Hr); [lia..|]. unfold CHUNK in He. split; [|done].
    destruct He as [He|[He ?]]; [auto|right; lia].
  - split; [right; lia|done].
Qed.

Lemma putc_spec base o c (w : world K) :
  out_inv base o w -> out_len o + 1 + CHUNK <= INT_MAX ->
  exists r o' w', snd_output_putc o c w = (Some (r, o'), w') /\ out_inv base o' w' /\
    (r = 0 /\ out_len o' = out_len o + 1 /\ contents o' = contents o ++ [Some (u8 c)] \/
     r = - ENOMEM /\ out_len o' = out_len o /\ contents o' = contents o).
Proof using OsLaws0.
  intros Hi Hmax. unfold snd_output_putc. rewrite (buffer_mode base o w Hi). unfold bind at 1.
  pose proof (putc_room base o w Hi Hmax) as Hr.
  destruct ((if out_size o <=? out_len o + 1 then resize o 1 else ret (0, o)) w) as [[e o2] w2].
  destruct Hr as (He & Hi2 & Hl2 & Hc2). destruct He as [->|[-> Hroom]]; 
    [exists (- ENOMEM), o2, w2; split; [done|]; split; [done|]; right; done|].
  change (0 <? 0) with false. cbv iota. unfold ret. destruct Hi2 as ((G1 & G2 & G3 & G4) & Gp & Gw).
  destruct (store_spec (out_mem o2) (out_len o2) [u8 c]) as (m & Hm & Hl & Ht); [lia|simpl; lia|].
  rewrite Hm. exists 0, (set_len (set_mem o2 m) (out_len o2 + 1)), w2. split; [done|].
  split; [split; [split; [done|simpl; rewrite Hl; lia]|done]|]. left. split; [done|]. split; [simpl; lia|].
  unfold contents at 1. simpl. replace (Z.to_nat (out_len o2 + 1)) with (Z.to_nat (out_len o2) + length [u8 c])%nat
    by (simpl; lia). rewrite Ht. unfold contents in Hc2. rewrite Hc2. done.
Qed.

(** Every call on a buffer writes inside the block and keeps the object in order, up to the
    undefined retry. *)
Lemma run_out_spec base op o (w : world K) :
  out_inv base o w -> out_len o + out_weight op + CHUNK <= INT_MAX ->
  let '(res, w') := run_out op o w in
  match res with
  | Some (r, o') => out_inv base o' w' /\ out_len o' <= out_len o + out_weight op /\
      (retries op o = true -> r = - ENOMEM)
  | None => retries op o = true
  end.
Proof using OsLaws0.
  intros Hi Hmax. pose proof Hi as ((H1 & H2 & H3 & H4) & Hp & Hw). destruct op as [conv text|c|].
  - cbn [run_out out_weight] in *. pose proof (printf_spec base o conv text w Hi Hmax) as H.
    destruct (snd_output_printf o conv text w) as [[[r o']|] w']; [|done].
    destruct H as (Hi' & _ & Hl & _ & Hr). pose proof (strlen_chars text). split; [done|]. split; [lia|done].
  - cbn [run_out out_weight] in *. destruct (putc_spec base o c w Hi Hmax) as (r & o' & w' & -> & Hi' & Hl).
    split; [done|]. split; [lia|done].
  - unfold run_out, bind, snd_output_flush. rewrite (buffer_mode base o w Hi). cbn.
    split; [|split; [simpl; lia|done]]. split; [split; [done|simpl; lia]|done].
Qed.

Fixpoint run_outs (ops : list out_op) (o : snd_output_t) : io (world K) (option snd_output_t) :=
  match ops with
  | [] => ret (Some o)
  | op :: ops =>
      let* r := run_out op o in
      match r with Some (_, o) => run_outs ops o | None => ret None end
  end.

Lemma weights_nonneg ops : 0 <= foldr Z.add 0 (map out_weight ops).
Proof. induction ops as [|[conv text|c|] ops IH]; simpl; unfold strlen; lia. Qed.

(** A run in order: it ends with the object in order, or at the first retry of a format
    with conversions. *)
Lemma run_outs_spec base ops o (w : world K) :
  out_inv base o w -> out_len o + foldr Z.add 0 (map out_weight ops) + CHUNK <= INT_MAX ->
  let '(res, w') := run_outs ops o w in
  match res with
  | Some o' => out_inv base o' w'
  | None => exists before op after o1 w1, ops = before ++ op :: after /\
      run_outs before o w = (Some o1, w1) /\ out_inv base o1 w1 /\ retries op o1 = true
  end.
Proof using OsLaws0.
  revert o w. induction ops as [|op ops IH]; intros o w Hi Hmax; simpl in Hmax; [done|].
  pose proof (weights_nonneg ops) as Hsum.
  pose proof (run_out_spec base op o w Hi) as Hr. cbn [run_outs]. unfold bind at 1.
  destruct (run_out op o w) as [[[r o1]|] w1] eqn:Hro.
  - destruct Hr as (Hi1 & Hl1 & _); [lia|]. specialize (IH o1 w1 Hi1 ltac:(lia)).
    destruct (run_outs ops o1 w1) as [[o'|] w']; [done|].
    destruct IH as (before & op' & after & o2 & w2 & -> & Hb & H2).
    exists (op :: before), op', after, o2, w2. split; [done|]. split; [|done].
    cbn [run_outs]. unfold bind. rewrite Hro. exact Hb.
  - exists [], op, ops, o, w. split; [done|]. split; [done|]. split; [done|]. apply Hr. lia.
Qed.

Lemma close_buffer_spec base o (w : world K) :
  out_inv base o w -> (snd_output_close o w).1 = 0 /\ held (snd_output_close o w).2 ≡ₚ base.
Proof.
  intros Hi. unfold snd_output_close. pose proof (buffer_mode base o w Hi) as Hm. rewrite Hm.
  destruct Hi as (_ & Hp & Hw). rewrite (proj2 (nz_true (out_ptr o))) by lia.
  unfold bind, ret, sys_free, drop_resource. cbn [andb fst snd held]. rewrite Hw, !release_head. done.
Qed.

(** A new buffer; where its block cannot be had the object is not given back. *)
Lemma buffer_open_spec (w : world K) :
  let '((e, h), w') := snd_output_buffer_open w in
  match h with
  | Some o => if e =? 0 then out_inv (held w) o w' /\ out_len o = 0
              else e = - ENOMEM /\ held w' = RMem (out_block o) :: held w
  | None => e = - ENOMEM /\ held w' = held w
  end.
Proof using OsLaws0.
  unfold snd_output_buffer_open, bind at 1. pose proof (alloc_spec sizeof_output w) as Ha.
  destruct (sys_alloc sizeof_output w) as [[a|] w1]; [|done].
  unfold bind, resize, bind, ret. simpl out_len. simpl out_ptr. change (s32 (0 + 0 + CHUNK)) with 4000.
  pose proof (realloc_positive 0 (u64 4000) w1) as Hpos.
  pose proof (realloc_spec 0 (u64 4000) w1 (held w1) ltac:(done)) as Hr.
  destruct (sys_realloc 0 (u64 4000) w1) as [[b|] w2]; simpl.
  - split; [|done]. split; [split; [done|]|split; [eapply Hpos; done|]].
    + simpl. unfold INT_MAX. lia.
    + simpl. rewrite Hr, Ha. done.
  - rewrite Hr, Ha. done.
Qed.

(** C32. A session on a buffer, any sequence of [snd_output_printf], [snd_output_putc] and
    [snd_output_flush] between open and close, whatever memory is refused, with texts short
    enough that the sizes stay in an int: either every call writes inside the block, and the
    close gives back all that the session took; or the session ran in this way up to a call
    of [snd_output_printf] that has conversions and whose text is not shorter than the room
    left - the case where the second [vsnprintf] reads the used-up argument list and nothing
    is claimed.  In particular a session whose texts with conversions all have room runs to
    its end. *)
Theorem output_session_bounded (ops : list out_op) (w : world K) :
  foldr Z.add 0 (map out_weight ops) + CHUNK <= INT_MAX ->
  let '((e, h), w1) := snd_output_buffer_open w in
  e = 0 -> exists o, h = Some o /\
    let '(res, w2) := run_outs ops o w1 in
    match res with
    | Some o' =>
        out_len o' < Z.of_nat (length (out_mem o')) /\
        (snd_output_close o' w2).1 = 0 /\ held (snd_output_close o' w2).2 ≡ₚ held w
    | None =>
        exists before text after o1 w', ops = before ++ Printf true text :: after /\
          run_outs before o w1 = (Some o1, w') /\ out_size o1 - out_len o1 <= strlen text /\
          out_len o1 < Z.of_nat (length (out_mem o1)) /\
          held (snd_output_close o1 w').2 ≡ₚ held w
    end.
Proof using OsLaws0.
  intros Hmax. pose proof (weights_nonneg ops) as Hsum. pose proof (buffer_open_spec w) as Ho.
  destruct (snd_output_buffer_open w) as [[e [o|]] w1]; [|intros ->; destruct Ho; done].
  intros ->. destruct Ho as [Hi Hl]. exists o. split; [done|].
  pose proof (run_outs_spec (held w) ops o w1 Hi) as Hr.
  destruct (run_outs ops o w1) as [[o'|] w2].
  - specialize (Hr ltac:(lia)). split; [destruct Hr as ((_ & H & H2 & _) & _); lia|]. apply close_buffer_spec. done.
  - destruct Hr as (before & op & after & o1 & w' & -> & Hb & Hi1 & Hret); [lia|].
    destruct op as [[] text|c|]; try done. exists before, text, after, o1, w'.
    split; [done|]. split; [done|]. split; [apply Z.leb_le; exact Hret|].
    split; [destruct Hi1 as ((_ & H & H2 & _) & _); lia|]. apply close_buffer_spec. done.
Qed.

(** The growth of the buffer for a text with conversions: where the memory for the larger
    block is there, the text is written a second time from an argument list that the first
    [vsnprintf] has used up, so that the call has no defined result. *)
Theorem output_printf_retry_undefined base o text (w : world K) :
  out_inv base o w -> out_len o + strlen text + CHUNK <= INT_MAX ->
  out_size o - out_len o <= strlen text ->
  if (resize o (strlen text) w).1.1 =? 0
  then (snd_output_printf o true text w).1 = None
  else exists o', (snd_output_printf o true text w).1 = Some (- ENOMEM, o').
Proof using OsLaws0.
  intros Hi Hmax Hroom. unfold snd_output_printf. rewrite (buffer_mode base o w Hi).
  destruct (printf_stores base o text w Hi) as (m & -> & Hi1 & _).
  cbn [out_size out_len set_mem]. rewrite (proj2 (Z.leb_le _ _)) by lia.
  unfold bind, resize, bind, ret. cbn [out_len out_ptr set_mem].
  destruct (sys_realloc _ _ w) as [[a|] w']; [done|]. eexists. reflexivity.
Qed.

(** One character after the other. *)
Fixpoint put_all (cs : list Z) (o : snd_output_t) : io (world K) (option (list Z * snd_output_t)) :=
  match cs with
  | [] => ret (Some ([], o))
  | c :: cs =>
      let* r := snd_output_putc o c in
      match r with
      | None => ret None
      | Some (e, o) =>
          let* rest := put_all cs o in
          ret (match rest with Some (es, o) => Some (e :: es, o) | None => None end)
      end
  end.

(** The characters whose call returned 0. *)
Definition accepted (cs es : list Z) : list Z :=
  omap (fun p : Z * Z => if p.2 =? 0 then Some (u8 p.1) else None) (zip cs es).

Lemma accepted_cons c cs e es :
  accepted (c :: cs) (e :: es) = if e =? 0 then u8 c :: accepted cs es else accepted cs es.
Proof. unfold accepted. simpl. destruct (e =? 0); done. Qed.

(** Characters put into a buffer one by one are its string: behind what was there, in
    order and as bytes, every character whose call returned 0; the others returned
    [-ENOMEM] and left no trace. *)
Theorem output_putc_appends base (cs : list Z) (o : snd_output_t) (w : world K) :
  out_inv base o w -> out_len o + Z.of_nat (length cs) + CHUNK <= INT_MAX ->
  exists es o' w', put_all cs o w = (Some (es, o'), w') /\ length es = length cs /\
    Forall (fun e => e = 0 \/ e = - ENOMEM) es /\
    contents o' = contents o ++ map Some (accepted cs es) /\
    snd_output_buffer_string o' = (out_len o + Z.of_nat (length (accepted cs es)), out_mem o').
Proof using OsLaws0.
  revert o w. induction cs as [|c cs IH]; intros o w Hi Hmax; simpl length in Hmax.
  - exists [], o, w. simpl. rewrite app_nil_r. unfold snd_output_buffer_string. rewrite Z.add_0_r. auto.
  - destruct (putc_spec base o c w Hi) as (e & o1 & w1 & Hr & Hi1 & Hc); [lia|].
    assert (Hl1 : out_len o1 <= out_len o + 1) by (destruct Hc; lia).
    destruct (IH o1 w1 Hi1) as (es & o' & w' & Hp & Hlen & Hall & Hcont & Hstr); [lia|].
    exists (e :: es), o', w'. cbn [put_all]. unfold bind, ret. rewrite Hr, Hp. split; [done|]. split; [simpl; lia|].
    rewrite accepted_cons. destruct Hc as [(-> & Hl & Hc)|(-> & Hl & Hc)].
    + split; [auto|]. change (0 =? 0) with true. cbv iota. rewrite Hcont, Hc, <- app_assoc. split; [done|].
      rewrite Hstr, Hl. apply f_equal2; [cbn [length]; lia|done].
    + split; [auto|]. change (- ENOMEM =? 0) with false. cbv iota. rewrite Hcont, Hc, Hstr, Hl. done.
Qed.

(** [snd_output_puts] mixes up the string's length with the buffer's: where the buffer
    is found large enough the string is stored at the offset that is its own length, so that
    it leaves the block when the block is smaller than twice the string and one, and is not
    appended: the buffer's length stays what it was. *)
Theorem output_puts_misplaced (o : snd_output_t) (str : string) (w : world K) :
  buf_ok o -> strlen str < out_size o - out_len o ->
  if out_size o <? 2 * strlen str + 1
  then snd_output_puts o str w = (None, w)
  else exists m, snd_output_puts o str w = (Some (strlen str, set_mem o m), w) /\
    take (Z.to_nat (2 * strlen str + 1)) m =
      take (Z.to_nat (strlen str)) (out_mem o) ++ map Some (chars str ++ [0]) /\
    snd_output_buffer_string (set_mem o m) = (out_len o, m).
Proof.
  intros (H1 & H2 & H3 & H4) Hroom. unfold snd_output_puts, bind, ret. rewrite H1. cbn [Z.eqb SND_OUTPUT_STDIO SND_OUTPUT_BUFFER].
  change (SND_OUTPUT_BUFFER =? SND_OUTPUT_STDIO) with false. cbv iota.
  destruct (Z.leb_spec (out_size o - out_len o) (strlen str)); [lia|]. change (0 <? 0) with false. cbv iota.
  assert (Hl : Z.of_nat (length (chars str ++ [0])) = strlen str + 1)
    by (rewrite length_app; simpl; pose proof (strlen_chars str); lia).
  assert (Hpos : 0 <= strlen str) by (unfold strlen; lia).
  destruct (Z.ltb_spec (out_size o) (2 * strlen str + 1)) as [Hs|Hs].
  - unfold store. destruct (Z.leb_spec (strlen str + Z.of_nat (length (chars str ++ [0]))) (Z.of_nat (length (out_mem o))));
      [lia|]. rewrite andb_false_r. done.
  - destruct (store_spec (out_mem o) (strlen str) (chars str ++ [0])) as (m & -> & Hm & Ht); [lia..|].
    exists m. split; [done|]. split; [|done]. rewrite <- Ht. f_equal. lia.
Qed.
End Theorems.

(** ** Witnesses *)

#[local] Instance toy_stdio : Stdio Z := {
  file_open _ _ := ret 77;
  file_close _ := ret 0;
  file_write _ s := ret (strlen s);
  file_puts _ _ := ret 1;
  file_putc _ c := ret c;
  file_flush _ := ret 0;
  file_stdout := 1;
  file_stderr := 2
}.

(** A new buffer. *)
Definition toy_buffer : snd_output_t := Output 1000000 SND_OUTPUT_BUFFER 1000001 0 4000 (replicate 4000 None).
Definition toy_buffer_world : world Z := World 2 [RMem 1000001; RMem 1000000].

Lemma toy_buffer_ok : out_inv [] toy_buffer toy_buffer_world.
Proof. split; [by_decide|]. split; [unfold toy_buffer; simpl; lia|done]. Defined.

Definition toy_out_ops : list out_op := [Printf true "PCM card 0"; Putc 10; Flush; Putc 65; Printf false "ALL"].

Lemma output_session_bounded_witness :
  exists o o' w1 w2, snd_output_buffer_open (World 0 []) = ((0, Some o), w1) /\
    run_outs toy_out_ops o w1 = (Some o', w2) /\
    out_len o' < Z.of_nat (length (out_mem o')) /\
    (snd_output_close o' w2).1 = 0 /\ held (snd_output_close o' w2).2 ≡ₚ [].
Proof.
  pose proof (output_session_bounded toy_out_ops (World 0 []) ltac:(vm_compute; discriminate)) as H.
  destruct (snd_output_buffer_open (World 0 [])) as [[e h] w1] eqn:Ho.
  assert (He : e = 0) by (apply (f_equal (fun p => p.1.1)) in Ho; vm_compute in Ho; done). subst e.
  destruct (H eq_refl) as (o & -> & Hr). destruct (run_outs toy_out_ops o w1) as [[o'|] w2] eqn:Hrun.
  - exists o, o', w1, w2. split; [done|]. split; [done|]. exact Hr.
  - exfalso. assert (Hc : is_Some (run_outs toy_out_ops o w1).1).
    { assert (Hw : w1 = (snd_output_buffer_open (World 0 [])).2) by (rewrite Ho; done).
      assert (Hob : Some o = (snd_output_buffer_open (World 0 [])).1.2) by (rewrite Ho; done).
      rewrite Hw. vm_compute in Hob. injection Hob as ->. vm_compute. eauto. }
    rewrite Hrun in Hc. destruct Hc. done.
Defined.

(** A text of 4000 characters does not fit in a new buffer. *)
Lemma output_printf_retry_undefined_witness :
  (snd_output_printf toy_buffer true (String.string_of_list_ascii (replicate 4000 "x"%char)) toy_buffer_world).1 = None.
Proof.
  pose proof (output_printf_retry_undefined [] toy_buffer (String.string_of_list_ascii (replicate 4000 "x"%char))
    toy_buffer_world toy_buffer_ok ltac:(vm_compute; discriminate) ltac:(vm_compute; discriminate)) as H.
  assert (He : (resize toy_buffer (strlen (String.string_of_list_ascii (replicate 4000 "x"%char)))
    toy_buffer_world).1.1 = 0) by (vm_compute; reflexivity).
  rewrite He in H. exact H.
Defined.

Lemma output_putc_appends_witness :
  exists es o' w', put_all [111; 107; 266] toy_buffer toy_buffer_world = (Some (es, o'), w') /\ length es = 3%nat /\
    Forall (fun e => e = 0 \/ e = - ENOMEM) es /\
    contents o' = contents toy_buffer ++ map Some (accepted [111; 107; 266] es) /\
    snd_output_buffer_string o' = (out_len toy_buffer + Z.of_nat (length (accepted [111; 107; 266] es)), out_mem o').
Proof.
  apply (output_putc_appends [] [111; 107; 266] toy_buffer toy_buffer_world); [apply toy_buffer_ok|].
  vm_compute. discriminate.
Defined.

(** In a block of 4000 bytes a string of 2000 is written past the end. *)
Lemma output_puts_misplaced_witness :
  snd_output_puts toy_buffer (String.string_of_list_ascii (replicate 2000 "x"%char)) toy_buffer_world =
    (None, toy_buffer_world).
Proof.
  apply (output_puts_misplaced toy_buffer (String.string_of_list_ascii (replicate 2000 "x"%char)) toy_buffer_world);
    [apply toy_buffer_ok|vm_compute; reflexivity].
Defined.
