(* ===== verification/OutputPlain.v ===== *)
(** * Text output without the buffer

    The simplified version in src/src/output.h: an output object is a stream of the C
    library, and the mark [BUF_OUT] stands for a buffer, which swallows everything. *)

From stdpp Require Import strings.
From S2P Require Import Prelude CInt Sys Cards Output.
#[local] Open Scope Z_scope.

Section Plain.
Context {K : Type} `{!Os K, !Stdio K}.

(* [output.h 57-57 _SALSA_BUF_OUT] *)
Definition BUF_OUT : Z := -1.

(* [output.h 59-65 snd_output_stdio_open] *)
Definition snd_output_stdio_open (file mode : string) : io (world K) (Z * Z) :=
  let* fp := lift (file_open file mode) in
  if fp <? 0 then ret (fp, 0) else let* _ := acquire (RMem fp) in ret (0, fp).

(* [output.h 67-72 snd_output_stdio_attach] *)
Definition snd_output_stdio_attach (fp close : Z) : Z * Z := (0, fp).

(* [output.h 74-80 snd_output_close] *)
Definition snd_output_close (out : Z) : io (world K) Z :=
  if negb (out =? BUF_OUT) && negb (out =? file_stdout) && negb (out =? file_stderr)
  then sys_fclose out else ret 0.

(* [output.h 82-93 snd_output_printf] *)
Definition snd_output_printf (out : Z) (text : string) : io (world K) Z :=
  if out =? BUF_OUT then ret 0 else lift (file_write out text).

(* [output.h 95-101 snd_output_puts] *)
Definition snd_output_puts (out : Z) (str : string) : io (world K) Z :=
  if negb (out =? BUF_OUT) then lift (file_puts out str) else ret 0.

(* [output.h 103-109 snd_output_putc] *)
Definition snd_output_putc (out c : Z) : io (world K) Z :=
  if negb (out =? BUF_OUT) then lift (file_putc out c) else ret 0.

(* [output.h 111-117 snd_output_flush] *)
Definition snd_output_flush (out : Z) : io (world K) Z :=
  if negb (out =? BUF_OUT) then lift (file_flush out) else ret 0.

(* [output.h 119-124 snd_output_buffer_open] *)
Definition snd_output_buffer_open : Z * Z := (0, BUF_OUT).

(** One static byte, 0. *)
(* [output.h 126-132 snd_output_buffer_string] *)
Definition snd_output_buffer_string (out : Z) : Z * string := (0, EmptyString).
End Plain.
