(* ===== verification/MixerVolume.v ===== *)
(** * What a simple element's setters and getters agree on

    Theorems about MixerSelem.v and the scaling of Mixer.v: a value set is the value
    read, channel by channel and whatever the card answers; the scaling between the
    user's range and the card's stays in range, is monotone, keeps the ends, and loses
    at most one step on the way back. *)

From stdpp Require Import gmap.
From S2P Require Import Prelude CInt Sys Cards Async PcmTypes Toy Tlv CtlTypes Control ControlSpec CtlAscii.
From S2P Require Import Hcontrol HcontrolSpec Mixer MixerSelem MixerOk MixerSpec MixerLife.
#[local] Open Scope Z_scope.

(** ** Scaling *)

(** Ranges whose products stay inside a [long]: bounds and widths of an [int]. *)
Definition scalable (v : snd_selem_vol_item_t) : Prop :=
  is_s32 (v_min v) /\ is_s32 (v_max v) /\ is_s32 (raw_min v) /\ is_s32 (raw_max v) /\
  0 < v_max v - v_min v <= INT_MAX /\ 0 < raw_max v - raw_min v <= INT_MAX.

#[global] Instance scalable_dec v : Decision (scalable v).
Proof. unfold scalable. apply _. Defined.

(** One scaling without wrapping, from [a..b] to [c..d]. *)
Definition scale (a b c d x : Z) : Z := (x - a) * (d - c) / (b - a) + c.

Lemma scale_within a b c d x : a < b -> c <= d -> a <= x <= b -> c <= scale a b c d x <= d.
Proof.
  intros Hab Hcd Hx. unfold scale. assert (0 <= (x - a) * (d - c) / (b - a)) by (apply Z.div_pos; nia).
  assert ((x - a) * (d - c) / (b - a) <= d - c) by (apply Z.div_le_upper_bound; nia). lia.
Qed.

Lemma scale_mono a b c d x y : a < b -> c <= d -> x <= y -> scale a b c d x <= scale a b c d y.
Proof.
  intros Hab Hcd Hxy. unfold scale. enough ((x - a) * (d - c) / (b - a) <= (y - a) * (d - c) / (b - a)) by lia.
  apply Z.div_le_mono; nia.
Qed.

(** There and back: a step is lost at most where the first range is the narrower. *)
Lemma scale_back a b c d x :
  a < b -> c < d -> b - a <= d - c -> a <= x <= b -> x - 1 <= scale c d a b (scale a b c d x) <= x.
Proof.
  intros Hab Hcd Hw Hx. unfold scale. set (q := (x - a) * (d - c) / (b - a)).
  replace (q + c - c) with q by lia.
  assert (Hq1 : (b - a) * q <= (x - a) * (d - c)) by (apply Z.mul_div_le; lia).
  assert (Hq2 : (x - a) * (d - c) < (b - a) * (q + 1)) by (apply Z.mul_succ_div_gt; lia).
  split.
  - enough (x - a - 1 <= q * (b - a) / (d - c)) by lia. apply Z.div_le_lower_bound; nia.
  - enough (q * (b - a) / (d - c) <= x - a) by lia. apply Z.div_le_upper_bound; nia.
Qed.

Lemma scaling_no_wrap a b c d x :
  is_s32 a -> is_s32 b -> is_s32 c -> is_s32 d -> 0 < b - a <= INT_MAX -> 0 < d - c <= INT_MAX -> a <= x <= b ->
  s64 (s64 (Z.quot (s64 (s64 (x - a) * s64 (d - c))) (s64 (b - a))) + c) = scale a b c d x.
Proof.
  unfold is_s32, INT_MIN, INT_MAX. intros Ha Hb Hc Hd Hab Hcd Hx.
  pose proof (scale_within a b c d x ltac:(lia) ltac:(lia) ltac:(lia)) as Hr. unfold scale in *.
  assert (Hp : 0 <= (x - a) * (d - c) <= 2147483647 * 2147483647) by nia.
  rewrite (s64_id (x - a)), (s64_id (d - c)), (s64_id (b - a)) by (unfold is_s64, LONG_MAX; lia).
  rewrite (s64_id ((x - a) * (d - c))) by (unfold is_s64, LONG_MAX; lia).
  rewrite Z.quot_div_nonneg by lia.
  rewrite (s64_id (_ / _)) by (unfold is_s64, LONG_MAX; lia).
  apply s64_id. unfold is_s64, LONG_MAX. lia.
Qed.

(** The two conversions are scalings, the identity where the ranges are the same. *)
Lemma from_user_scale v x :
  scalable v -> v_min v <= x <= v_max v ->
  convert_from_user v x = scale (v_min v) (v_max v) (raw_min v) (raw_max v) x.
Proof.
  intros (H1 & H2 & H3 & H4 & H5 & H6) Hx. unfold convert_from_user.
  destruct (Z.eqb_spec (v_min v) (raw_min v)) as [E1|]; destruct (Z.eqb_spec (v_max v) (raw_max v)) as [E2|]; simpl.
  1:{ unfold scale. rewrite <- E1, <- E2, Z.div_mul by lia. lia. }
  all: destruct (Z.eqb_spec (v_min v) (v_max v)); [lia|apply scaling_no_wrap; done].
Qed.

Lemma to_user_scale v x :
  scalable v -> raw_min v <= x <= raw_max v ->
  convert_to_user v x = scale (raw_min v) (raw_max v) (v_min v) (v_max v) x.
Proof.
  intros (H1 & H2 & H3 & H4 & H5 & H6) Hx. unfold convert_to_user.
  destruct (Z.eqb_spec (v_min v) (raw_min v)) as [E1|]; destruct (Z.eqb_spec (v_max v) (raw_max v)) as [E2|]; simpl.
  1:{ unfold scale. rewrite <- E1, <- E2, Z.div_mul by lia. lia. }
  all: destruct (Z.eqb_spec (raw_min v) (raw_max v)); [lia|apply scaling_no_wrap; done].
Qed.

(** C18. Scaling a volume from the user's range to the card's: the result lies in the card's
    range, the ends go to the ends, a louder value is never made quieter, and, where the
    user's range is not the wider, scaling back gives the value itself or the one below.
    Both ranges are supposed not to be empty, and their bounds and widths to be ints
    ([scalable]), so that no product leaves a [long]. *)
Theorem volume_scaling (v : snd_selem_vol_item_t) (x : Z) :
  scalable v -> v_min v <= x <= v_max v ->
  raw_min v <= convert_from_user v x <= raw_max v /\
  convert_from_user v (v_min v) = raw_min v /\ convert_from_user v (v_max v) = raw_max v /\
  (forall y, x <= y <= v_max v -> convert_from_user v x <= convert_from_user v y) /\
  (v_max v - v_min v <= raw_max v - raw_min v ->
   x - 1 <= convert_to_user v (convert_from_user v x) <= x).
Proof.
  intros Hs Hx. pose proof Hs as (_ & _ & _ & _ & H5 & H6).
  rewrite !from_user_scale by (done || lia).
  pose proof (scale_within (v_min v) (v_max v) (raw_min v) (raw_max v) x) as Hr.
  split; [apply Hr; lia|]. split; [unfold scale; rewrite Z.sub_diag; done|]. split; [|split].
  - unfold scale. rewrite Z.mul_comm, Z.div_mul; lia.
  - intros y Hy. rewrite from_user_scale by (done || lia). apply scale_mono; lia.
  - intros Hw. rewrite to_user_scale by (done || apply Hr; lia). apply scale_back; lia.
Qed.

Lemma volume_scaling_witness :
  let v := VolItem 0 100 (-10239) 400 0 [] in
  raw_min v <= convert_from_user v 33 <= raw_max v /\
  convert_from_user v (v_min v) = raw_min v /\ convert_from_user v (v_max v) = raw_max v /\
  (forall y, 33 <= y <= v_max v -> convert_from_user v 33 <= convert_from_user v y) /\
  (v_max v - v_min v <= raw_max v - raw_min v ->
   33 - 1 <= convert_to_user v (convert_from_user v 33) <= 33).
Proof. intros v. apply (volume_scaling v 33); [by_decide|vm_compute; split; discriminate]. Defined.

(** ** Values *)

Section Values.
Context {K W : Type} `{!Os K, !AsyncKernel K, !CardKernel K, !CtlKernel K, !MixerApp K W}.
Implicit Types (s : hs K (mx W)) (u : mx W).

(** The mixer's data with one item's body changed. *)
Definition with_body u (str : Z) (it : selem_item) (b : item_body) : mx W :=
  with_mitems u (<[str := set_body b it]> (mitems u)).

Lemma alter_insert_body (m : gmap Z selem_item) str it f :
  m !! str = Some it -> alter f str m = <[str := f it]> m.
Proof. intros H. apply map_eq. intros j. rewrite lookup_alter, lookup_insert, H. case_decide; simplify_eq; done. Qed.

Lemma geti_at str s it : mitems (user s) !! str = Some it -> geti (K := K) (W := W) str s = (it, s).
Proof. intros H. unfold geti, bind, getu, ret. rewrite H. done. Qed.

(** Writing to the card leaves the mixer's data alone. *)
Lemma change_value_frame it f s : user (change_value it f s).2 = user s.
Proof.
  unfold change_value, bind, ret, snd_hctl_elem_read, snd_hctl_elem_write, elem_ctl, gete, geth, bind, ret, onhp.
  destruct (snd_ctl_elem_read _ _ (hprc s)) as [[e v] p]. destruct (e <? 0); [done|]. simpl.
  destruct (snd_ctl_elem_write _ _ p) as [[e' v'] p']. done.
Qed.

Lemma put_vol_spec str f s it :
  mitems (user s) !! str = Some it ->
  put_vol str f s = (tt, HS (the_hctl s) (elems s) (hprc s) (with_body (user s) str it (VolBody (f (as_vol it))))).
Proof.
  intros H. unfold put_vol, seti, setu, with_body, with_mitems. rewrite (alter_insert_body _ _ _ _ H). done.
Qed.

(** A volume item with room for its channels. *)
Definition vol_item (it : selem_item) (v : snd_selem_vol_item_t) : Prop :=
  body it = VolBody v /\ Z.of_nat (length (vol v)) = 2 * channels it /\ channels it <= UINT_MAX.

(** [v'] is [v] with other values. *)
Definition same_range (v v' : snd_selem_vol_item_t) : Prop :=
  v_min v' = v_min v /\ v_max v' = v_max v /\ raw_min v' = raw_min v /\ raw_max v' = raw_max v /\
  db_info v' = db_info v /\ length (vol v') = length (vol v).

(** [v'] is [v] with channel [ch] set to [x]: its two values, and every other value is what
    it was.  A value that was there already leaves the card's value alone. *)
Definition channel_set (ch x : Z) (v v' : snd_selem_vol_item_t) : Prop :=
  same_range v v' /\ nthz 0 (vol v') (USR_IDX ch) = x /\
  nthz 0 (vol v') (RAW_IDX ch) =
    (if x =? nthz 0 (vol v) (USR_IDX ch) then nthz 0 (vol v) (RAW_IDX ch) else convert_from_user v x) /\
  forall i, 0 <= i -> i <> USR_IDX ch -> i <> RAW_IDX ch -> nthz 0 (vol v') i = nthz 0 (vol v) i.

Lemma channel_set_other ch x v v' c :
  channel_set ch x v v' -> 0 <= ch -> 0 <= c -> c <> ch -> nthz 0 (vol v') (USR_IDX c) = nthz 0 (vol v) (USR_IDX c).
Proof. intros (_ & _ & _ & H) Hch Hc Hne. apply H; unfold USR_IDX, RAW_IDX; lia. Qed.

(** Setting one channel: the value is there, the other channels and all else as before,
    whatever the card answers. *)
Lemma update_volume_spec str ch x s it v :
  mitems (user s) !! str = Some it -> vol_item it v -> str <> 0 -> 0 <= ch < channels it ->
  v_min v <= x <= v_max v ->
  exists v', user (_snd_selem_update_volume str ch x s).2 = with_body (user s) str it (VolBody v') /\
    channel_set ch x v v'.
Proof.
  intros Hit (Hb & Hlen & _) Hnz Hch Hx. unfold _snd_selem_update_volume.
  destruct (Z.eqb_spec str 0); [done|]. unfold bind, ret. rewrite (geti_at _ _ _ Hit).
  assert (Hv : as_vol it = v) by (unfold as_vol; rewrite Hb; done). rewrite Hv.
  destruct (Z.ltb_spec x (v_min v)); [lia|]. destruct (Z.ltb_spec (v_max v) x); [lia|]. cbn [orb].
  unfold channel_set.
  destruct (Z.eqb_spec x (nthz 0 (vol v) (USR_IDX ch))) as [He|_].
  { exists v. split; [|split; [done|split; [done|split; done]]]. unfold with_body, with_mitems. simpl.
    replace (set_body (VolBody v) it) with it by (unfold set_body; rewrite <- Hb; destruct it; done).
    rewrite insert_id by done. destruct (user s). done. }
  rewrite (put_vol_spec _ _ _ it) by done. rewrite Hv. set (v1 := set_vol (USR_IDX ch) x v).
  assert (H1 : nthz 0 (vol v1) (USR_IDX ch) = x /\ same_range v v1 /\
    forall i, 0 <= i -> i <> USR_IDX ch -> nthz 0 (vol v1) i = nthz 0 (vol v) i).
  { unfold v1, set_vol, USR_IDX, same_range. simpl. rewrite nthz_upd_eq, length_upd by lia. do 2 (split; [done|]).
    intros i H1 H2. rewrite nthz_upd_ne by lia. done. }
  destruct H1 as (H1 & H2 & H3). cbn [user].
  assert (H4 : nthz 0 (vol v1) (RAW_IDX ch) = nthz 0 (vol v) (RAW_IDX ch))
    by (apply H3; unfold USR_IDX, RAW_IDX; lia).
  destruct (Z.eqb_spec (convert_from_user v x) (nthz 0 (vol v) (RAW_IDX ch))) as [Hraw|_].
  { exists v1. split; [done|]. split; [done|]. split; [done|]. split; [congruence|auto]. }
  rewrite (put_vol_spec _ _ _ (set_body (VolBody v1) it)) by (apply lookup_insert_eq).
  exists (set_vol (RAW_IDX ch) (convert_from_user v x) v1).
  match goal with |- context [change_value ?a ?b ?c] => pose proof (change_value_frame a b c) as Hf end.
  split; [|split; [|split; [|split]]].
  - rewrite Hf. unfold with_body, with_mitems. simpl. rewrite insert_insert_eq. done.
  - unfold same_range in *. simpl. rewrite length_upd. done.
  - simpl. rewrite nthz_upd_ne by (unfold USR_IDX, RAW_IDX; lia). done.
  - destruct H2 as (_ & _ & _ & _ & _ & H2). unfold set_vol. cbn [vol]. clearbody v1. rewrite nthz_upd_eq by (unfold RAW_IDX; lia). done.
  - intros i Hi Hu Hr. simpl. rewrite nthz_upd_ne by (unfold RAW_IDX in *; lia). auto.
Qed.

(** The element [elem] has the item [it] at [str] in its slot [type]. *)
Definition has_item u (elem type str : Z) (it : selem_item) : Prop :=
  exists E, melems u !! elem = Some E /\ slot type E = str /\ str <> 0 /\ mitems u !! str = Some it.

Lemma get_slot_at s elem type str it :
  has_item (user s) elem type str it -> get_slot (K := K) (W := W) elem type s = (str, s).
Proof. intros (E & HE & Hs & _ & _). unfold get_slot, getx, bind, getu, ret. rewrite HE. simpl. rewrite Hs. done. Qed.

Lemma has_item_body u elem type str it b :
  has_item u elem type str it -> has_item (with_body u str it b) elem type str (set_body b it).
Proof. intros (E & HE & Hs & Hn & _). exists E. do 3 (split; [done|]). apply lookup_insert_eq. Qed.

Lemma with_body_twice u str it b b' :
  with_body (with_body u str it b) str (set_body b it) b' = with_body u str it b'.
Proof. unfold with_body, with_mitems. simpl. rewrite insert_insert_eq. done. Qed.

(** The two directions. *)
Definition vol_type (cap : bool) : Z := if cap then ITEM_CVOLUME else ITEM_PVOLUME.
Definition set_volume (cap : bool) : Z -> Z -> Z -> io (hs K (mx W)) Z :=
  if cap then snd_mixer_selem_set_capture_volume else snd_mixer_selem_set_playback_volume.
Definition get_volume (cap : bool) : Z -> Z -> io (hs K (mx W)) (Z * option Z) :=
  if cap then snd_mixer_selem_get_capture_volume else snd_mixer_selem_get_playback_volume.
Definition set_volume_all (cap : bool) : Z -> Z -> io (hs K (mx W)) Z :=
  if cap then snd_mixer_selem_set_capture_volume_all else snd_mixer_selem_set_playback_volume_all.

Lemma channel_in it c : 0 <= c < channels it -> channels it <= UINT_MAX -> db_channel it c = c.
Proof.
  intros Hc Hn. unfold db_channel. rewrite u32_id by (unfold is_u32; lia).
  destruct (Z.leb_spec (channels it) c); [lia|done].
Qed.

Lemma get_volume_at cap s elem str it v c :
  has_item (user s) elem (vol_type cap) str it -> vol_item it v -> 0 <= c < channels it ->
  get_volume cap elem c s = ((0, Some (nthz 0 (vol v) (USR_IDX c))), s).
Proof.
  intros Hi (Hb & _ & Hmax) Hc.
  assert (Hg : _snd_mixer_selem_get_volume elem (vol_type cap) c s = ((0, Some (nthz 0 (vol v) (USR_IDX c))), s)).
  { unfold _snd_mixer_selem_get_volume, bind, ret. rewrite (get_slot_at _ _ _ _ _ Hi).
    destruct Hi as (E & HE & Hs & Hn & Hit). destruct (Z.eqb_spec str 0); [done|].
    rewrite (geti_at _ _ _ Hit), channel_in by done. unfold as_vol. rewrite Hb. done. }
  destruct cap; exact Hg.
Qed.

Lemma set_volume_at cap s elem str it ch x :
  has_item (user s) elem (vol_type cap) str it ->
  set_volume cap elem ch x s = _snd_selem_update_volume str ch x s.
Proof.
  intros Hi. pose proof (get_slot_at _ _ _ _ _ Hi) as Hg.
  destruct cap; simpl; unfold snd_mixer_selem_set_capture_volume, snd_mixer_selem_set_playback_volume, bind;
    simpl in Hg; rewrite Hg; done.
Qed.

Lemma vol_item_body it v v' : vol_item it v -> same_range v v' -> vol_item (set_body (VolBody v') it) v'.
Proof.
  intros (Hb & Hl & Hn) (_ & _ & _ & _ & _ & Hlen). split; [done|]. rewrite Hlen. done.
Qed.

(** C17. A volume set is the volume read: after setting one channel of a simple element,
    for playback or capture, to a value in range, that channel reads the value, the other
    channels read what they read before, and nothing else of the mixer has changed, whatever
    the card answered to the write: its data are the old ones but for this item, whose range
    is the old one and whose values are the old ones but for the channel's two ([channel_set]):
    the user's is the value set, and the card's is the value scaled, or as it was where the
    value was there already. *)
Theorem selem_volume_set_get (cap : bool) elem str it v ch x s :
  has_item (user s) elem (vol_type cap) str it -> vol_item it v -> 0 <= ch < channels it ->
  v_min v <= x <= v_max v ->
  let s' := (set_volume cap elem ch x s).2 in
  (get_volume cap elem ch s').1 = (0, Some x) /\
  (forall c, 0 <= c < channels it -> c <> ch -> (get_volume cap elem c s').1 = (get_volume cap elem c s).1) /\
  exists v', channel_set ch x v v' /\ user s' = with_body (user s) str it (VolBody v').
Proof.
  intros Hi Hv Hch Hx. rewrite (set_volume_at _ _ _ _ _ _ _ Hi).
  pose proof Hi as (E & HE & Hs & Hn & Hit).
  destruct (update_volume_spec str ch x s it v Hit Hv Hn Hch Hx) as (v' & Hu & Hset).
  pose proof Hset as (Hr & H1 & _). pose proof (fun c => channel_set_other ch x v v' c Hset) as H2.
  pose proof (has_item_body _ _ _ _ _ (VolBody v') Hi) as Hi'. rewrite <- Hu in Hi'.
  pose proof (vol_item_body it v v' Hv Hr) as Hv'. intros s'. unfold s'.
  split; [|split; [|eauto]].
  - rewrite (get_volume_at _ _ _ _ _ _ _ Hi' Hv') by done. simpl. rewrite H1. done.
  - intros c Hc Hne. rewrite (get_volume_at _ _ _ _ _ _ _ Hi' Hv'), (get_volume_at _ _ _ _ _ _ _ Hi Hv) by done.
    simpl. rewrite H2 by lia. done.
Qed.

(** A value out of range is dropped without a word. *)
Lemma update_volume_outside str ch x s it v :
  mitems (user s) !! str = Some it -> body it = VolBody v -> str <> 0 -> ~ v_min v <= x <= v_max v ->
  _snd_selem_update_volume str ch x s = (0, s).
Proof.
  intros Hit Hb Hn Hx. unfold _snd_selem_update_volume. destruct (Z.eqb_spec str 0); [done|].
  unfold bind, ret. rewrite (geti_at _ _ _ Hit). unfold as_vol. rewrite Hb.
  destruct (Z.ltb_spec x (v_min v)); [done|]. destruct (Z.ltb_spec (v_max v) x); [done|lia].
Qed.

(** The channels of [ns] set one after the other. *)
Lemma update_loop_spec str x it v ns s :
  mitems (user s) !! str = Some it -> vol_item it v -> str <> 0 -> v_min v <= x <= v_max v ->
  Forall (fun c => 0 <= c < channels it) ns ->
  exists v', user (update_volume_loop str x ns s).2 = with_body (user s) str it (VolBody v') /\ same_range v v' /\
    (0 <= (update_volume_loop str x ns s).1 ->
     forall c, 0 <= c < channels it -> c ∈ ns \/ nthz 0 (vol v) (USR_IDX c) = x -> nthz 0 (vol v') (USR_IDX c) = x).
Proof.
  revert s it v. induction ns as [|c ns IH]; intros s it v Hit Hv Hn Hx Hns; simpl.
  - exists v. split; [|split; [done|]].
    + destruct Hv as (Hb & _). unfold with_body, with_mitems. unfold set_body. rewrite <- Hb.
      destruct it. simpl. rewrite insert_id by done. destruct (user s). done.
    + intros _ c _ [Hc|Hc]; [inversion Hc|done].
  - apply Forall_cons in Hns as [Hc Hns]. destruct (update_volume_spec str c x s it v Hit Hv Hn Hc Hx) as (v1 & Hu & Hset).
    pose proof Hset as (Hr & H1 & _). pose proof (fun d => channel_set_other c x v v1 d Hset) as H2.
    unfold bind. destruct (_snd_selem_update_volume str c x s) as [e s1]. simpl in Hu.
    destruct (e <? 0) eqn:He.
    { exists v1. split; [done|]. split; [done|]. simpl. zbool. lia. }
    set (it1 := set_body (VolBody v1) it).
    assert (Hit1 : mitems (user s1) !! str = Some it1) by (rewrite Hu; apply lookup_insert_eq).
    pose proof (vol_item_body it v v1 Hv Hr) as Hv1. destruct Hr as (R1 & R2 & R3 & R4 & R5 & R6).
    destruct (IH s1 it1 v1 Hit1 Hv1 Hn) as (v2 & Hu2 & Hr2 & H3); [rewrite R1, R2; done|done|].
    exists v2. split; [rewrite Hu2, Hu; apply with_body_twice|].
    split; [unfold same_range in *; intuition congruence|].
    intros Hpos d Hd Hin. apply H3; [done|done|]. destruct (decide (d = c)) as [->|Hne]; [auto|].
    destruct Hin as [Hin|Hin]; [left; apply elem_of_cons in Hin as [?|?]; done|right; rewrite H2 by lia; done].
Qed.

(** Where setting all channels of a volume does not fail, every channel reads the value. *)
Theorem selem_volume_set_all (cap : bool) elem str it v x s :
  has_item (user s) elem (vol_type cap) str it -> vol_item it v -> v_min v <= x <= v_max v ->
  let '(r, s') := set_volume_all cap elem x s in
  0 <= r -> forall c, 0 <= c < channels it -> (get_volume cap elem c s').1 = (0, Some x).
Proof.
  intros Hi Hv Hx. pose proof Hi as (E & HE & Hs & Hn & Hit).
  assert (Hset : set_volume_all cap elem x s = update_volume_loop str x (zseq 0 (Z.to_nat (channels it))) s).
  { pose proof (get_slot_at _ _ _ _ _ Hi) as Hg. destruct cap; simpl in *;
      unfold snd_mixer_selem_set_capture_volume_all, snd_mixer_selem_set_playback_volume_all, bind; rewrite Hg;
      unfold _snd_selem_update_volume_all; (destruct (Z.eqb_spec str 0); [done|]);
      unfold bind; rewrite (geti_at _ _ _ Hit); done. }
  rewrite Hset. destruct (update_loop_spec str x it v (zseq 0 (Z.to_nat (channels it))) s Hit Hv Hn Hx) as (v' & Hu & Hr & Hall).
  { apply List.Forall_forall. intros c Hc%zseq_In. lia. }
  destruct (update_volume_loop _ _ _ s) as [r s']. simpl in *. intros Hpos c Hc.
  pose proof (has_item_body _ _ _ _ _ (VolBody v') Hi) as Hi'. rewrite <- Hu in Hi'.
  rewrite (get_volume_at _ _ _ _ _ _ _ Hi' (vol_item_body it v v' Hv Hr)) by done. simpl.
  rewrite Hall; [done|done|done|left; apply list_elem_of_In, zseq_In; lia].
Qed.

(** ** Switches *)

(** The bit of a channel. *)
Lemma sw_bit_pow c : 0 <= c < 32 -> sw_bit c = 2 ^ c.
Proof.
  intros Hc. unfold sw_bit. rewrite Z.shiftl_1_l. apply u32_id. unfold is_u32, UINT_MAX.
  pose proof (Z.pow_pos_nonneg 2 c). pose proof (Z.pow_lt_mono_r 2 c 32). lia.
Qed.

Lemma land_sw_bit a c : 0 <= c < 32 -> nz (Z.land a (sw_bit c)) = Z.testbit a c.
Proof.
  intros Hc. rewrite sw_bit_pow by done. destruct (Z.testbit a c) eqn:Hb.
  - apply nz_true. intros H0. apply (f_equal (fun z => Z.testbit z c)) in H0.
    rewrite Z.land_spec, Hb, Z.pow2_bits_true, Z.bits_0 in H0 by lia. done.
  - apply nz_false. apply Z.bits_inj'. intros n Hn. rewrite Z.land_spec, Z.bits_0, Z.pow2_bits_eqb by lia.
    destruct (Z.eqb_spec c n) as [<-|]; [rewrite Hb; done|apply andb_false_r].
Qed.

(** The bits with one channel switched. *)
Definition switched (sw ch value : Z) : Z :=
  if nz value then Z.lor sw (sw_bit ch) else Z.land sw (u32 (Z.lnot (sw_bit ch))).

Lemma switched_bit sw ch value c :
  0 <= ch < 32 -> 0 <= c < 32 ->
  Z.testbit (switched sw ch value) c = if c =? ch then nz value else Z.testbit sw c.
Proof.
  intros Hch Hc. unfold switched. rewrite sw_bit_pow by done. destruct (nz value).
  - rewrite Z.lor_spec, Z.pow2_bits_eqb, (Z.eqb_sym ch) by lia. destruct (c =? ch); [apply orb_true_r|apply orb_false_r].
  - rewrite Z.land_spec. unfold u32. change 4294967296 with (2 ^ 32). rewrite Z.mod_pow2_bits_low by lia.
    rewrite Z.lnot_spec, Z.pow2_bits_eqb, (Z.eqb_sym ch) by lia.
    destruct (c =? ch); [apply andb_false_r|apply andb_true_r].
Qed.

Definition sw_type (cap : bool) : Z := if cap then ITEM_CSWITCH else ITEM_PSWITCH.
Definition get_switch (cap : bool) : Z -> Z -> io (hs K (mx W)) (Z * option Z) :=
  if cap then snd_mixer_selem_get_capture_switch else snd_mixer_selem_get_playback_switch.

Lemma get_switch_at cap s elem str it sw c :
  has_item (user s) elem (sw_type cap) str it -> body it = SwBody sw -> channels it <= 32 -> 0 <= c < channels it ->
  get_switch cap elem c s = ((0, Some (b2z (Z.testbit sw c))), s).
Proof.
  intros Hi Hb Hmax Hc.
  assert (Hg : _snd_mixer_selem_get_switch elem (sw_type cap) c s = ((0, Some (b2z (Z.testbit sw c))), s)).
  { unfold _snd_mixer_selem_get_switch, bind, ret. rewrite (get_slot_at _ _ _ _ _ Hi).
    destruct Hi as (E & HE & Hs & Hn & Hit). destruct (Z.eqb_spec str 0); [done|].
    rewrite (geti_at _ _ _ Hit), channel_in by (done || unfold UINT_MAX; lia).
    unfold as_sw. rewrite Hb, land_sw_bit by lia. done. }
  destruct cap; exact Hg.
Qed.

Lemma update_switch_spec elem type str it sw ch value s :
  has_item (user s) elem type str it -> body it = SwBody sw ->
  user (update_switch elem type ch value s).2 = with_body (user s) str it (SwBody (switched sw ch value)).
Proof.
  intros Hi Hb. unfold update_switch, bind, ret. rewrite (get_slot_at _ _ _ _ _ Hi).
  pose proof Hi as (E & HE & Hs & Hn & Hit). destruct (Z.eqb_spec str 0); [done|].
  rewrite (geti_at _ _ _ Hit). assert (Hsw : as_sw it = sw) by (unfold as_sw; rewrite Hb; done).
  rewrite Hsw. fold (switched sw ch value). destruct (Z.eqb_spec sw (switched sw ch value)) as [He|_].
  - rewrite <- He. unfold with_body, with_mitems. simpl.
    replace (set_body (SwBody sw) it) with it by (unfold set_body; rewrite <- Hb; destruct it; done).
    rewrite insert_id by done. destruct (user s). done.
  - assert (Hs2 : seti (K := K) (W := W) str (set_body (SwBody (switched sw ch value))) s =
      (tt, HS (the_hctl s) (elems s) (hprc s) (with_body (user s) str it (SwBody (switched sw ch value))))).
    { unfold seti, setu, with_body, with_mitems. rewrite (alter_insert_body _ _ _ _ Hit). done. }
    rewrite Hs2. rewrite change_value_frame. done.
Qed.

(** A switch set is the switch read: after [update_switch], which every setter of a
    switch comes to, on a channel of an item of up to 32 channels, that channel reads 1 for
    a value other than 0 and 0 for 0, and the other channels read what they read before. *)
Theorem selem_switch_set_get (cap : bool) elem str it sw ch value s :
  has_item (user s) elem (sw_type cap) str it -> body it = SwBody sw -> channels it <= 32 ->
  0 <= ch < channels it ->
  let s' := (update_switch elem (sw_type cap) ch value s).2 in
  (get_switch cap elem ch s').1 = (0, Some (b2z (nz value))) /\
  (forall c, 0 <= c < channels it -> c <> ch -> (get_switch cap elem c s').1 = (get_switch cap elem c s).1).
Proof.
  intros Hi Hb Hmax Hch s'. pose proof (update_switch_spec elem (sw_type cap) str it sw ch value s Hi Hb) as Hu.
  pose proof (has_item_body _ _ _ _ _ (SwBody (switched sw ch value)) Hi) as Hi'. rewrite <- Hu in Hi'.
  fold s' in Hi'. split.
  - rewrite (get_switch_at _ _ _ _ _ _ _ Hi' eq_refl) by done. rewrite switched_bit by lia. rewrite Z.eqb_refl. done.
  - intros c Hc Hne. rewrite (get_switch_at _ _ _ _ _ _ _ Hi' eq_refl), (get_switch_at _ _ _ _ _ _ _ Hi Hb) by done.
    rewrite switched_bit by lia. destruct (Z.eqb_spec c ch); done.
Qed.
End Values.

(** ** Witnesses *)

Definition toy_elem : snd_mixer_elem_t := MElem "Master" 0 0 0 0 [2; 2] [10; 10; 12; 0; 0] 0 0 0.
Definition toy_vol : snd_selem_vol_item_t := VolItem 0 100 0 31 0 [0; 0; 0; 0].
Definition toy_vol_item : selem_item := Item 0 1 2 (VolBody toy_vol).
Definition toy_sw_item : selem_item := Item 0 2 2 (SwBody 0).
Definition toy_card : hs Z (mx (list (Z * Z))) :=
  HS (Hctl 0 toy_handle 0 0 0 0 0) ∅ toy_process
    (MX (Mixer 0 1 32 0 [1] 0 0 0 0) {[ 1 := toy_elem ]} {[ 10 := toy_vol_item; 12 := toy_sw_item ]} ∅ []).

Lemma selem_volume_set_get_witness :
  let s' := (set_volume true 1 1 50 toy_card).2 in
  (get_volume true 1 1 s').1 = (0, Some 50) /\
  (forall c, 0 <= c < 2 -> c <> 1 -> (get_volume true 1 c s').1 = (get_volume true 1 c toy_card).1) /\
  exists v', channel_set 1 50 toy_vol v' /\ user s' = with_body (user toy_card) 10 toy_vol_item (VolBody v').
Proof.
  apply (selem_volume_set_get true 1 10 toy_vol_item toy_vol 1 50 toy_card).
  - exists toy_elem. repeat split. discriminate.
  - split; [done|]. split; [done|vm_compute; discriminate].
  - vm_compute. split; [discriminate|done].
  - vm_compute. split; discriminate.
Defined.

Lemma selem_volume_set_all_witness :
  let '(r, s') := set_volume_all false 1 50 toy_card in
  0 <= r -> forall c, 0 <= c < 2 -> (get_volume false 1 c s').1 = (0, Some 50).
Proof.
  apply (selem_volume_set_all false 1 10 toy_vol_item toy_vol 50 toy_card).
  - exists toy_elem. repeat split. discriminate.
  - split; [done|]. split; [done|vm_compute; discriminate].
  - vm_compute. split; discriminate.
Defined.

Lemma selem_switch_set_get_witness :
  let s' := (update_switch 1 (sw_type false) 1 7 toy_card).2 in
  (get_switch false 1 1 s').1 = (0, Some 1) /\
  (forall c, 0 <= c < 2 -> c <> 1 -> (get_switch false 1 c s').1 = (get_switch false 1 c toy_card).1).
Proof.
  apply (selem_switch_set_get false 1 12 toy_sw_item 0 1 7 toy_card).
  - exists toy_elem. repeat split. discriminate.
  - done.
  - vm_compute. discriminate.
  - vm_compute. split; [discriminate|done].
Defined.
