(* ===== verification/CtlFields.v ===== *)
(** * The fields of the control structures

    The getters and setters of src/src/ctl_macros.h lines 268-1090, over the records of
    CtlTypes.v, and the comparison of two element identifiers, which is shown to be the
    order of their fields. *)

From Stdlib Require Import Ascii String.
From S2P Require Import Prelude CInt Sys Cards Async CtlTypes Control CtlAscii Hcontrol IoDev.
#[local] Open Scope Z_scope.

(** ** Identifiers *)

(* [ctl_macros.h 319-323 snd_ctl_elem_id_get_numid] *)
Definition snd_ctl_elem_id_get_numid := numid.
(** An enumeration is unsigned, the field an [int]. *)
(* [ctl_macros.h 325-329 snd_ctl_elem_id_get_interface] *)
Definition snd_ctl_elem_id_get_interface (id : snd_ctl_elem_id_t) : Z := u32 (iface id).
(* [ctl_macros.h 331-335 snd_ctl_elem_id_get_device] *)
Definition snd_ctl_elem_id_get_device := id_device.
(* [ctl_macros.h 337-341 snd_ctl_elem_id_get_subdevice] *)
Definition snd_ctl_elem_id_get_subdevice := id_subdevice.
(* [ctl_macros.h 343-347 snd_ctl_elem_id_get_name] *)
Definition snd_ctl_elem_id_get_name := id_name.
(* [ctl_macros.h 349-353 snd_ctl_elem_id_get_index] *)
Definition snd_ctl_elem_id_get_index := id_index.

(* [ctl_macros.h 355-359 snd_ctl_elem_id_set_numid] *)
Definition snd_ctl_elem_id_set_numid (id : snd_ctl_elem_id_t) (v : Z) : snd_ctl_elem_id_t :=
  ElemId v (iface id) (id_device id) (id_subdevice id) (id_name id) (id_index id).
(* [ctl_macros.h 361-366 snd_ctl_elem_id_set_interface] *)
Definition snd_ctl_elem_id_set_interface (id : snd_ctl_elem_id_t) (v : Z) : snd_ctl_elem_id_t :=
  ElemId (numid id) (s32 v) (id_device id) (id_subdevice id) (id_name id) (id_index id).
(* [ctl_macros.h 368-372 snd_ctl_elem_id_set_device] *)
Definition snd_ctl_elem_id_set_device (id : snd_ctl_elem_id_t) (v : Z) : snd_ctl_elem_id_t :=
  ElemId (numid id) (iface id) v (id_subdevice id) (id_name id) (id_index id).
(* [ctl_macros.h 374-378 snd_ctl_elem_id_set_subdevice] *)
Definition snd_ctl_elem_id_set_subdevice (id : snd_ctl_elem_id_t) (v : Z) : snd_ctl_elem_id_t :=
  ElemId (numid id) (iface id) (id_device id) v (id_name id) (id_index id).
(** Up to 44 characters; a name of 44 fills the array without a terminating 0. *)
(* [ctl_macros.h 380-384 snd_ctl_elem_id_set_name] *)
Definition snd_ctl_elem_id_set_name (id : snd_ctl_elem_id_t) (v : string) : snd_ctl_elem_id_t :=
  ElemId (numid id) (iface id) (id_device id) (id_subdevice id) (String.substring 0 44 v) (id_index id).
(* [ctl_macros.h 386-390 snd_ctl_elem_id_set_index] *)
Definition snd_ctl_elem_id_set_index (id : snd_ctl_elem_id_t) (v : Z) : snd_ctl_elem_id_t :=
  ElemId (numid id) (iface id) (id_device id) (id_subdevice id) (id_name id) v.

(** [strcmp] has the sign of the first difference of two bytes. *)
Fixpoint strcmp (s t : string) : Z :=
  match s, t with
  | EmptyString, EmptyString => 0
  | EmptyString, String _ _ => -1
  | String _ _, EmptyString => 1
  | String a s, String b t => if code a <? code b then -1 else if code b <? code a then 1 else strcmp s t
  end.

(** Each difference is stored in an [int]; the one of the unsigned fields wraps. *)
(* [ctl_macros.h 392-402 snd_ctl_elem_id_compare_set] *)
Definition snd_ctl_elem_id_compare_set (id1 id2 : snd_ctl_elem_id_t) : Z :=
  let d := s32 (iface id1 - iface id2) in
  if nz d then d
  else
    let d := s32 (id_device id1 - id_device id2) in
    if nz d then d
    else
      let d := s32 (id_subdevice id1 - id_subdevice id2) in
      if nz d then d
      else
        let d := strcmp (id_name id1) (id_name id2) in
        if nz d then d else s32 (id_index id1 - id_index id2).

(** ** Cards and events *)

(* [ctl_macros.h 406-410 snd_ctl_card_info_get_card] *)
Definition snd_ctl_card_info_get_card := ci_card.
(* [ctl_macros.h 412-416 snd_ctl_card_info_get_id] *)
Definition snd_ctl_card_info_get_id := ci_id.
(* [ctl_macros.h 418-422 snd_ctl_card_info_get_driver] *)
Definition snd_ctl_card_info_get_driver := ci_driver.
(* [ctl_macros.h 424-428 snd_ctl_card_info_get_name] *)
Definition snd_ctl_card_info_get_name := ci_name.
(* [ctl_macros.h 430-434 snd_ctl_card_info_get_longname] *)
Definition snd_ctl_card_info_get_longname := ci_longname.
(* [ctl_macros.h 436-440 snd_ctl_card_info_get_mixername] *)
Definition snd_ctl_card_info_get_mixername := ci_mixername.
(* [ctl_macros.h 442-446 snd_ctl_card_info_get_components] *)
Definition snd_ctl_card_info_get_components := ci_components.
(* [ctl_macros.h 450-454 snd_ctl_event_get_type] *)
Definition snd_ctl_event_get_type (e : snd_ctl_event_t) : Z := u32 (ev_type e).
(* [ctl_macros.h 268-272 snd_ctl_event_elem_get_mask] *)
Definition snd_ctl_event_elem_get_mask := ev_mask.
(* [ctl_macros.h 274-279 snd_ctl_event_elem_get_id] *)
Definition snd_ctl_event_elem_get_id := ev_id.
(* [ctl_macros.h 281-285 snd_ctl_event_elem_get_numid] *)
Definition snd_ctl_event_elem_get_numid (e : snd_ctl_event_t) : Z := numid (ev_id e).
(* [ctl_macros.h 287-291 snd_ctl_event_elem_get_interface] *)
Definition snd_ctl_event_elem_get_interface (e : snd_ctl_event_t) : Z := u32 (iface (ev_id e)).
(* [ctl_macros.h 293-297 snd_ctl_event_elem_get_device] *)
Definition snd_ctl_event_elem_get_device (e : snd_ctl_event_t) : Z := id_device (ev_id e).
(* [ctl_macros.h 299-303 snd_ctl_event_elem_get_subdevice] *)
Definition snd_ctl_event_elem_get_subdevice (e : snd_ctl_event_t) : Z := id_subdevice (ev_id e).
(* [ctl_macros.h 305-309 snd_ctl_event_elem_get_name] *)
Definition snd_ctl_event_elem_get_name (e : snd_ctl_event_t) : string := id_name (ev_id e).
(* [ctl_macros.h 311-315 snd_ctl_event_elem_get_index] *)
Definition snd_ctl_event_elem_get_index (e : snd_ctl_event_t) : Z := id_index (ev_id e).

(** ** Lists of elements *)

(* [ctl_macros.h 458-462 snd_ctl_elem_list_set_offset] *)
Definition snd_ctl_elem_list_set_offset (l : snd_ctl_elem_list_t) (v : Z) : snd_ctl_elem_list_t :=
  ElemList v (el_space l) (el_used l) (el_count l) (el_pids l).
(* [ctl_macros.h 464-468 snd_ctl_elem_list_get_used] *)
Definition snd_ctl_elem_list_get_used := el_used.
(* [ctl_macros.h 470-474 snd_ctl_elem_list_get_count] *)
Definition snd_ctl_elem_list_get_count := el_count.
(** [pids[idx]]; what C leaves undefined, an index past the entries or no entries at all, gives zeroes. *)
(* [ctl_macros.h 476-481 snd_ctl_elem_list_get_id] *)
Definition snd_ctl_elem_list_get_id (l : snd_ctl_elem_list_t) (idx : Z) : snd_ctl_elem_id_t :=
  match el_pids l with Some (_, ids) => nthz zero_id ids idx | None => zero_id end.
(* [ctl_macros.h 483-488 snd_ctl_elem_list_get_numid] *)
Definition snd_ctl_elem_list_get_numid (l : snd_ctl_elem_list_t) (idx : Z) : Z := numid (snd_ctl_elem_list_get_id l idx).
(* [ctl_macros.h 490-495 snd_ctl_elem_list_get_interface] *)
Definition snd_ctl_elem_list_get_interface (l : snd_ctl_elem_list_t) (idx : Z) : Z := u32 (iface (snd_ctl_elem_list_get_id l idx)).
(* [ctl_macros.h 497-502 snd_ctl_elem_list_get_device] *)
Definition snd_ctl_elem_list_get_device (l : snd_ctl_elem_list_t) (idx : Z) : Z := id_device (snd_ctl_elem_list_get_id l idx).
(* [ctl_macros.h 504-509 snd_ctl_elem_list_get_subdevice] *)
Definition snd_ctl_elem_list_get_subdevice (l : snd_ctl_elem_list_t) (idx : Z) : Z := id_subdevice (snd_ctl_elem_list_get_id l idx).
(* [ctl_macros.h 511-516 snd_ctl_elem_list_get_name] *)
Definition snd_ctl_elem_list_get_name (l : snd_ctl_elem_list_t) (idx : Z) : string := id_name (snd_ctl_elem_list_get_id l idx).
(* [ctl_macros.h 518-523 snd_ctl_elem_list_get_index] *)
Definition snd_ctl_elem_list_get_index (l : snd_ctl_elem_list_t) (idx : Z) : Z := id_index (snd_ctl_elem_list_get_id l idx).

(** ** Information on an element *)

(* [ctl_macros.h 527-531 snd_ctl_elem_info_get_type] *)
Definition snd_ctl_elem_info_get_type (i : snd_ctl_elem_info_t) : Z := u32 (info_type i).

Definition has_access (bit : Z) (i : snd_ctl_elem_info_t) : Z := b2z (nz (Z.land (info_access i) bit)).

(* [ctl_macros.h 533-537 snd_ctl_elem_info_is_readable] *)
Definition snd_ctl_elem_info_is_readable := has_access ACCESS_READ.
(* [ctl_macros.h 539-543 snd_ctl_elem_info_is_writable] *)
Definition snd_ctl_elem_info_is_writable := has_access ACCESS_WRITE.
(* [ctl_macros.h 545-549 snd_ctl_elem_info_is_volatile] *)
Definition snd_ctl_elem_info_is_volatile := has_access ACCESS_VOLATILE.
(* [ctl_macros.h 551-555 snd_ctl_elem_info_is_inactive] *)
Definition snd_ctl_elem_info_is_inactive := has_access ACCESS_INACTIVE.
(* [ctl_macros.h 557-561 snd_ctl_elem_info_is_locked] *)
Definition snd_ctl_elem_info_is_locked := has_access ACCESS_LOCK.
(* [ctl_macros.h 563-567 snd_ctl_elem_info_is_owner] *)
Definition snd_ctl_elem_info_is_owner := has_access ACCESS_OWNER.
(* [ctl_macros.h 569-573 snd_ctl_elem_info_is_user] *)
Definition snd_ctl_elem_info_is_user := has_access ACCESS_USER.
(* [ctl_macros.h 575-583 snd_ctl_elem_info_is_tlv_readable] *)
Definition snd_ctl_elem_info_is_tlv_readable := has_access ACCESS_TLV_READ.
(* [ctl_macros.h 585-593 snd_ctl_elem_info_is_tlv_writable] *)
Definition snd_ctl_elem_info_is_tlv_writable := has_access ACCESS_TLV_WRITE.
(* [ctl_macros.h 595-603 snd_ctl_elem_info_is_tlv_commandable] *)
Definition snd_ctl_elem_info_is_tlv_commandable := has_access ACCESS_TLV_COMMAND.
(* [ctl_macros.h 605-609 snd_ctl_elem_info_get_owner] *)
Definition snd_ctl_elem_info_get_owner := info_owner.
(* [ctl_macros.h 611-615 snd_ctl_elem_info_get_count] *)
Definition snd_ctl_elem_info_get_count := info_count.
(* [ctl_macros.h 617-621 snd_ctl_elem_info_get_min] *)
Definition snd_ctl_elem_info_get_min (i : snd_ctl_elem_info_t) : Z := i_min (info_integer_value i).
(* [ctl_macros.h 623-627 snd_ctl_elem_info_get_max] *)
Definition snd_ctl_elem_info_get_max (i : snd_ctl_elem_info_t) : Z := i_max (info_integer_value i).
(* [ctl_macros.h 629-633 snd_ctl_elem_info_get_step] *)
Definition snd_ctl_elem_info_get_step (i : snd_ctl_elem_info_t) : Z := i_step (info_integer_value i).
(* [ctl_macros.h 635-639 snd_ctl_elem_info_get_min64] *)
Definition snd_ctl_elem_info_get_min64 (i : snd_ctl_elem_info_t) : Z := i_min (info_integer_value i).
(* [ctl_macros.h 641-645 snd_ctl_elem_info_get_max64] *)
Definition snd_ctl_elem_info_get_max64 (i : snd_ctl_elem_info_t) : Z := i_max (info_integer_value i).
(* [ctl_macros.h 647-651 snd_ctl_elem_info_get_step64] *)
Definition snd_ctl_elem_info_get_step64 (i : snd_ctl_elem_info_t) : Z := i_step (info_integer_value i).
(* [ctl_macros.h 653-657 snd_ctl_elem_info_get_items] *)
Definition snd_ctl_elem_info_get_items (i : snd_ctl_elem_info_t) : Z := items (info_enumerated_value i).
(* [ctl_macros.h 659-663 snd_ctl_elem_info_set_item] *)
Definition snd_ctl_elem_info_set_item (i : snd_ctl_elem_info_t) (v : Z) : snd_ctl_elem_info_t := set_item v i.
(* [ctl_macros.h 665-669 snd_ctl_elem_info_get_item_name] *)
Definition snd_ctl_elem_info_get_item_name (i : snd_ctl_elem_info_t) : string := item_name (info_enumerated_value i).

(** The loop over the dimensions, from the last down to the first. *)
Fixpoint last_dimension (n : nat) (d : list Z) : Z :=
  match n with
  | O => -1
  | S n => if nz (nthz 0 d (Z.of_nat n)) then Z.of_nat n else last_dimension n d
  end.

(* [ctl_macros.h 671-679 snd_ctl_elem_info_get_dimensions] *)
Definition snd_ctl_elem_info_get_dimensions (i : snd_ctl_elem_info_t) : Z := last_dimension 4 (dimen i) + 1.
(* [ctl_macros.h 681-688 snd_ctl_elem_info_get_dimension] *)
Definition snd_ctl_elem_info_get_dimension (i : snd_ctl_elem_info_t) (idx : Z) : Z :=
  if 3 <=? idx then 0 else nthz 0 (dimen i) idx.
(* [ctl_macros.h 690-695 snd_ctl_elem_info_get_id] *)
Definition snd_ctl_elem_info_get_id := info_id.
(* [ctl_macros.h 697-701 snd_ctl_elem_info_get_numid] *)
Definition snd_ctl_elem_info_get_numid (i : snd_ctl_elem_info_t) : Z := numid (info_id i).
(* [ctl_macros.h 703-707 snd_ctl_elem_info_get_interface] *)
Definition snd_ctl_elem_info_get_interface (i : snd_ctl_elem_info_t) : Z := u32 (iface (info_id i)).
(* [ctl_macros.h 709-713 snd_ctl_elem_info_get_device] *)
Definition snd_ctl_elem_info_get_device (i : snd_ctl_elem_info_t) : Z := id_device (info_id i).
(* [ctl_macros.h 715-719 snd_ctl_elem_info_get_subdevice] *)
Definition snd_ctl_elem_info_get_subdevice (i : snd_ctl_elem_info_t) : Z := id_subdevice (info_id i).
(* [ctl_macros.h 721-725 snd_ctl_elem_info_get_name] *)
Definition snd_ctl_elem_info_get_name (i : snd_ctl_elem_info_t) : string := id_name (info_id i).
(* [ctl_macros.h 727-731 snd_ctl_elem_info_get_index] *)
Definition snd_ctl_elem_info_get_index (i : snd_ctl_elem_info_t) : Z := id_index (info_id i).
(* [ctl_macros.h 733-738 snd_ctl_elem_info_set_id] *)
Definition snd_ctl_elem_info_set_id (i : snd_ctl_elem_info_t) (id : snd_ctl_elem_id_t) : snd_ctl_elem_info_t := set_info_id id i.
(* [ctl_macros.h 740-744 snd_ctl_elem_info_set_numid] *)
Definition snd_ctl_elem_info_set_numid (i : snd_ctl_elem_info_t) (v : Z) : snd_ctl_elem_info_t :=
  set_info_id (snd_ctl_elem_id_set_numid (info_id i) v) i.
(* [ctl_macros.h 746-751 snd_ctl_elem_info_set_interface] *)
Definition snd_ctl_elem_info_set_interface (i : snd_ctl_elem_info_t) (v : Z) : snd_ctl_elem_info_t :=
  set_info_id (snd_ctl_elem_id_set_interface (info_id i) v) i.
(* [ctl_macros.h 753-757 snd_ctl_elem_info_set_device] *)
Definition snd_ctl_elem_info_set_device (i : snd_ctl_elem_info_t) (v : Z) : snd_ctl_elem_info_t :=
  set_info_id (snd_ctl_elem_id_set_device (info_id i) v) i.
(* [ctl_macros.h 759-764 snd_ctl_elem_info_set_subdevice] *)
Definition snd_ctl_elem_info_set_subdevice (i : snd_ctl_elem_info_t) (v : Z) : snd_ctl_elem_info_t :=
  set_info_id (snd_ctl_elem_id_set_subdevice (info_id i) v) i.
(* [ctl_macros.h 766-770 snd_ctl_elem_info_set_name] *)
Definition snd_ctl_elem_info_set_name (i : snd_ctl_elem_info_t) (v : string) : snd_ctl_elem_info_t :=
  set_info_id (snd_ctl_elem_id_set_name (info_id i) v) i.
(* [ctl_macros.h 772-776 snd_ctl_elem_info_set_index] *)
Definition snd_ctl_elem_info_set_index (i : snd_ctl_elem_info_t) (v : Z) : snd_ctl_elem_info_t :=
  set_info_id (snd_ctl_elem_id_set_index (info_id i) v) i.

(** ** Values *)

(* [ctl_macros.h 779-784 snd_ctl_elem_value_get_id] *)
Definition snd_ctl_elem_value_get_id := val_id.
(* [ctl_macros.h 786-790 snd_ctl_elem_value_get_numid] *)
Definition snd_ctl_elem_value_get_numid (v : snd_ctl_elem_value_t) : Z := numid (val_id v).
(* [ctl_macros.h 792-796 snd_ctl_elem_value_get_interface] *)
Definition snd_ctl_elem_value_get_interface (v : snd_ctl_elem_value_t) : Z := u32 (iface (val_id v)).
(* [ctl_macros.h 798-802 snd_ctl_elem_value_get_device] *)
Definition snd_ctl_elem_value_get_device (v : snd_ctl_elem_value_t) : Z := id_device (val_id v).
(* [ctl_macros.h 804-808 snd_ctl_elem_value_get_subdevice] *)
Definition snd_ctl_elem_value_get_subdevice (v : snd_ctl_elem_value_t) : Z := id_subdevice (val_id v).
(* [ctl_macros.h 810-814 snd_ctl_elem_value_get_name] *)
Definition snd_ctl_elem_value_get_name (v : snd_ctl_elem_value_t) : string := id_name (val_id v).
(* [ctl_macros.h 816-820 snd_ctl_elem_value_get_index] *)
Definition snd_ctl_elem_value_get_index (v : snd_ctl_elem_value_t) : Z := id_index (val_id v).
(* [ctl_macros.h 822-827 snd_ctl_elem_value_set_id] *)
Definition snd_ctl_elem_value_set_id (v : snd_ctl_elem_value_t) (id : snd_ctl_elem_id_t) : snd_ctl_elem_value_t := set_value_id id v.
(* [ctl_macros.h 829-833 snd_ctl_elem_value_set_numid] *)
Definition snd_ctl_elem_value_set_numid (v : snd_ctl_elem_value_t) (x : Z) : snd_ctl_elem_value_t :=
  set_value_id (snd_ctl_elem_id_set_numid (val_id v) x) v.
(* [ctl_macros.h 835-840 snd_ctl_elem_value_set_interface] *)
Definition snd_ctl_elem_value_set_interface (v : snd_ctl_elem_value_t) (x : Z) : snd_ctl_elem_value_t :=
  set_value_id (snd_ctl_elem_id_set_interface (val_id v) x) v.
(* [ctl_macros.h 842-846 snd_ctl_elem_value_set_device] *)
Definition snd_ctl_elem_value_set_device (v : snd_ctl_elem_value_t) (x : Z) : snd_ctl_elem_value_t :=
  set_value_id (snd_ctl_elem_id_set_device (val_id v) x) v.
(* [ctl_macros.h 848-853 snd_ctl_elem_value_set_subdevice] *)
Definition snd_ctl_elem_value_set_subdevice (v : snd_ctl_elem_value_t) (x : Z) : snd_ctl_elem_value_t :=
  set_value_id (snd_ctl_elem_id_set_subdevice (val_id v) x) v.
(* [ctl_macros.h 855-859 snd_ctl_elem_value_set_name] *)
Definition snd_ctl_elem_value_set_name (v : snd_ctl_elem_value_t) (x : string) : snd_ctl_elem_value_t :=
  set_value_id (snd_ctl_elem_id_set_name (val_id v) x) v.
(* [ctl_macros.h 861-865 snd_ctl_elem_value_set_index] *)
Definition snd_ctl_elem_value_set_index (v : snd_ctl_elem_value_t) (x : Z) : snd_ctl_elem_value_t :=
  set_value_id (snd_ctl_elem_id_set_index (val_id v) x) v.

(** An index past the array is undefined in C; here it reads 0 and a store is lost. *)
(* [ctl_macros.h 867-872 snd_ctl_elem_value_get_boolean] *)
Definition snd_ctl_elem_value_get_boolean (v : snd_ctl_elem_value_t) (idx : Z) : Z := s32 (nthz 0 (val_integer v) idx).
(* [ctl_macros.h 874-879 snd_ctl_elem_value_get_integer] *)
Definition snd_ctl_elem_value_get_integer (v : snd_ctl_elem_value_t) (idx : Z) : Z := nthz 0 (val_integer v) idx.
(* [ctl_macros.h 881-886 snd_ctl_elem_value_get_integer64] *)
Definition snd_ctl_elem_value_get_integer64 (v : snd_ctl_elem_value_t) (idx : Z) : Z := nthz 0 (val_integer v) idx.
(* [ctl_macros.h 888-893 snd_ctl_elem_value_get_enumerated] *)
Definition snd_ctl_elem_value_get_enumerated (v : snd_ctl_elem_value_t) (idx : Z) : Z := nthz 0 (val_enumerated v) idx.
(* [ctl_macros.h 895-900 snd_ctl_elem_value_get_byte] *)
Definition snd_ctl_elem_value_get_byte (v : snd_ctl_elem_value_t) (idx : Z) : Z := nthz 0 (val_bytes v) idx.
(* [ctl_macros.h 902-907 snd_ctl_elem_value_set_boolean] *)
Definition snd_ctl_elem_value_set_boolean (v : snd_ctl_elem_value_t) (idx x : Z) : snd_ctl_elem_value_t := set_integer idx x v.
(* [ctl_macros.h 909-914 snd_ctl_elem_value_set_integer] *)
Definition snd_ctl_elem_value_set_integer (v : snd_ctl_elem_value_t) (idx x : Z) : snd_ctl_elem_value_t := set_integer idx x v.
(* [ctl_macros.h 916-921 snd_ctl_elem_value_set_integer64] *)
Definition snd_ctl_elem_value_set_integer64 (v : snd_ctl_elem_value_t) (idx x : Z) : snd_ctl_elem_value_t := set_integer idx x v.
(* [ctl_macros.h 923-928 snd_ctl_elem_value_set_enumerated] *)
Definition snd_ctl_elem_value_set_enumerated (v : snd_ctl_elem_value_t) (idx x : Z) : snd_ctl_elem_value_t := set_enumerated idx x v.

Definition set_val_bytes (l : list Z) (v : snd_ctl_elem_value_t) : snd_ctl_elem_value_t :=
  ElemValue (val_id v) (val_integer v) (val_enumerated v) l (val_iec958 v).

(* [ctl_macros.h 930-935 snd_ctl_elem_value_set_byte] *)
Definition snd_ctl_elem_value_set_byte (v : snd_ctl_elem_value_t) (idx x : Z) : snd_ctl_elem_value_t :=
  set_val_bytes (upd idx (fun _ => x) (val_bytes v)) v.
(** [data] has [size] bytes at least. *)
(* [ctl_macros.h 937-942 snd_ctl_elem_set_bytes] *)
Definition snd_ctl_elem_set_bytes (v : snd_ctl_elem_value_t) (data : list Z) (size : Z) : snd_ctl_elem_value_t :=
  if size <? 512 then set_val_bytes (take (Z.to_nat size) data ++ drop (Z.to_nat size) (val_bytes v)) v else v.
(* [ctl_macros.h 944-948 snd_ctl_elem_value_get_bytes] *)
Definition snd_ctl_elem_value_get_bytes := val_bytes.
(* [ctl_macros.h 950-955 snd_ctl_elem_value_get_iec958] *)
Definition snd_ctl_elem_value_get_iec958 := val_iec958.
(* [ctl_macros.h 957-962 snd_ctl_elem_value_set_iec958] *)
Definition snd_ctl_elem_value_set_iec958 (v : snd_ctl_elem_value_t) (x : snd_aes_iec958_t) : snd_ctl_elem_value_t :=
  ElemValue (val_id v) (val_integer v) (val_enumerated v) (val_bytes v) x.

(** ** The handle *)

(* [ctl_macros.h 58-62 snd_ctl_poll_descriptors_count] *)
Definition snd_ctl_poll_descriptors_count (ctl : snd_ctl_t) : Z := 1.
(* [ctl_macros.h 64-70 snd_ctl_poll_descriptors] *)
Definition snd_ctl_poll_descriptors (ctl : snd_ctl_t) (space : Z) : Z * pollfd :=
  (1, Pollfd (ctl_fd ctl) (ctl_pollfd_events ctl) 0).
(* [ctl_macros.h 72-78 snd_ctl_poll_descriptors_revents] *)
Definition snd_ctl_poll_descriptors_revents (ctl : snd_ctl_t) (pfds : pollfd) (nfds : Z) : Z * Z := (0, pfd_revents pfds).
(* [ctl_macros.h 1120-1124 snd_async_handler_get_ctl] *)
Definition snd_async_handler_get_ctl (handler : snd_async_handler_t) : Z := h_rec handler.

(** Not implemented by the library. *)
(* [ctl_macros.h 1082-1087 snd_ctl_open_lconf] *)
Definition snd_ctl_open_lconf : Z := - ENXIO.
(* [ctl_macros.h 1088-1092 snd_ctl_set_power_state] *)
Definition snd_ctl_set_power_state : Z := - ENXIO.
(* [ctl_macros.h 1094-1098 snd_ctl_get_power_state] *)
Definition snd_ctl_get_power_state : Z := - ENXIO.
(* [ctl_macros.h 1100-1104 snd_device_name_hint] *)
Definition snd_device_name_hint : Z := - ENXIO.
(* [ctl_macros.h 1106-1110 snd_device_name_free_hint] *)
Definition snd_device_name_free_hint : Z := 0.
(* [ctl_macros.h 1112-1116 snd_device_name_get_hint] *)
Definition snd_device_name_get_hint : Z := 0.

(** ** The order of identifiers *)

(** Two identifiers of the same element, the number apart. *)
Definition same_set (a b : snd_ctl_elem_id_t) : Prop :=
  iface a = iface b /\ id_device a = id_device b /\ id_subdevice a = id_subdevice b /\
  id_name a = id_name b /\ id_index a = id_index b.

(** Fields whose differences an [int] holds. *)
Definition int_id (a : snd_ctl_elem_id_t) : Prop :=
  0 <= iface a <= INT_MAX /\ 0 <= id_device a <= INT_MAX /\ 0 <= id_subdevice a <= INT_MAX /\
  0 <= id_index a <= INT_MAX.

#[global] Instance int_id_dec a : Decision (int_id a).
Proof. unfold int_id. apply _. Defined.

Lemma strcmp_sym s t : strcmp t s = - strcmp s t.
Proof.
  revert t. induction s as [|a s IH]; intros [|b t]; try done. simpl.
  destruct (Z.ltb_spec (code a) (code b)), (Z.ltb_spec (code b) (code a)); try lia; done.
Qed.

Lemma code_inj a b : code a = code b -> a = b.
Proof. unfold code. intros H%Nat2Z.inj. rewrite <- (ascii_nat_embedding a), H. apply ascii_nat_embedding. Qed.

Lemma strcmp_eq s t : strcmp s t = 0 <-> s = t.
Proof.
  split; [|intros ->].
  - revert t. induction s as [|a s IH]; intros [|b t]; try done. simpl.
    destruct (Z.ltb_spec (code a) (code b)); [done|]. destruct (Z.ltb_spec (code b) (code a)); [done|].
    intros ->%IH. rewrite (code_inj a b) by lia. done.
  - induction t as [|a t IH]; simpl; [done|]. rewrite Z.ltb_irrefl. done.
Qed.

Lemma strcmp_trans s t r : strcmp s t < 0 -> strcmp t r < 0 -> strcmp s r < 0.
Proof.
  revert t r. induction s as [|a s IH]; intros [|b t] [|c r]; simpl; try lia.
  destruct (Z.ltb_spec (code a) (code b)), (Z.ltb_spec (code b) (code a)), (Z.ltb_spec (code b) (code c)),
    (Z.ltb_spec (code c) (code b)), (Z.ltb_spec (code a) (code c)), (Z.ltb_spec (code c) (code a)); try lia.
  apply IH.
Qed.

(** The comparison of small fields: the first difference decides. *)
Lemma compare_lex a b :
  int_id a -> int_id b ->
  snd_ctl_elem_id_compare_set a b =
    if iface a =? iface b then
      if id_device a =? id_device b then
        if id_subdevice a =? id_subdevice b then
          if strcmp (id_name a) (id_name b) =? 0 then id_index a - id_index b
          else strcmp (id_name a) (id_name b)
        else id_subdevice a - id_subdevice b
      else id_device a - id_device b
    else iface a - iface b.
Proof.
  unfold int_id, INT_MAX. intros Ha Hb. unfold snd_ctl_elem_id_compare_set.
  rewrite !s32_id by (unfold is_s32, INT_MIN, INT_MAX; lia). unfold nz. cbv zeta.
  destruct (Z.eqb_spec (iface a) (iface b)), (Z.eqb_spec (iface a - iface b) 0); try lia; simpl; [|done].
  destruct (Z.eqb_spec (id_device a) (id_device b)), (Z.eqb_spec (id_device a - id_device b) 0); try lia; simpl; [|done].
  destruct (Z.eqb_spec (id_subdevice a) (id_subdevice b)), (Z.eqb_spec (id_subdevice a - id_subdevice b) 0);
    try lia; simpl; [|done].
  destruct (strcmp (id_name a) (id_name b) =? 0); done.
Qed.

(** [snd_ctl_elem_id_compare_set] is a total order of element identifiers whose fields
    an [int] holds: 0 exactly for two identifiers that agree in interface, device,
    subdevice, name and index; the result changes its sign with the arguments' order; and
    it is transitive. *)
Theorem elem_id_compare_order (a b c : snd_ctl_elem_id_t) :
  int_id a -> int_id b -> int_id c ->
  (snd_ctl_elem_id_compare_set a b = 0 <-> same_set a b) /\
  snd_ctl_elem_id_compare_set b a = - snd_ctl_elem_id_compare_set a b /\
  (snd_ctl_elem_id_compare_set a b < 0 -> snd_ctl_elem_id_compare_set b c < 0 ->
   snd_ctl_elem_id_compare_set a c < 0).
Proof.
  intros Ha Hb Hc. rewrite !compare_lex by done. unfold same_set.
  pose proof (strcmp_eq (id_name a) (id_name b)) as He. split; [|split].
  - rewrite <- He. repeat case_match; zbool; lia.
  - rewrite (strcmp_sym (id_name a)). repeat case_match; zbool; lia.
  - pose proof (strcmp_trans (id_name a) (id_name b) (id_name c)) as Ht.
    assert (H1 : strcmp (id_name a) (id_name b) = 0 -> strcmp (id_name a) (id_name c) = strcmp (id_name b) (id_name c))
      by (intros ->%He; done).
    assert (H2 : strcmp (id_name b) (id_name c) = 0 -> strcmp (id_name a) (id_name c) = strcmp (id_name a) (id_name b))
      by (intros Hbc%strcmp_eq; rewrite Hbc; done).
    repeat case_match; zbool; lia.
Qed.

(** Outside an [int] the differences wrap, and of two identifiers each can be below the
    other. *)
Lemma elem_id_compare_wraps :
  let a := ElemId 1 IFACE_MIXER 0 0 "Master" 0 in
  let b := ElemId 2 IFACE_MIXER 0 0 "Master" 2147483648 in
  snd_ctl_elem_id_compare_set a b < 0 /\ snd_ctl_elem_id_compare_set b a < 0.
Proof. vm_compute. done. Qed.

Lemma elem_id_compare_order_witness :
  let a := ElemId 7 IFACE_MIXER 0 0 "Master Playback Switch" 0 in
  let b := ElemId 3 IFACE_MIXER 0 0 "Master Playback Volume" 0 in
  let c := ElemId 1 IFACE_MIXER 0 0 "Master Playback Volume" 1 in
  (snd_ctl_elem_id_compare_set a b = 0 <-> same_set a b) /\
  snd_ctl_elem_id_compare_set b a = - snd_ctl_elem_id_compare_set a b /\
  (snd_ctl_elem_id_compare_set a b < 0 -> snd_ctl_elem_id_compare_set b c < 0 ->
   snd_ctl_elem_id_compare_set a c < 0).
Proof. intros a b c. apply (elem_id_compare_order a b c); by_decide. Defined.
