(* ===== verification/PcmInfo.v ===== *)
(** * What a PCM says about itself

    The structures [snd_pcm_info_t] and [snd_pcm_status_t] of src/src/asound.h, the calls
    that fetch them and their accessors (src/src/pcm_macros.h 93-165 and 1982-2150).  The
    two ioctls are the class [PcmInfoKernel]. *)

From stdpp Require Import strings.
From S2P Require Import Prelude CInt Sys Cards Async PcmTypes Pcm IoDev.
#[local] Open Scope Z_scope.

(** The three texts are C strings in arrays; [pi_sync] is the 16 bytes of the union. *)
(* [asound.h 306-321 snd_pcm_info_t] *)
Record snd_pcm_info_t := PcmInfo {
  pi_device : Z;
  pi_subdevice : Z;
  pi_stream : Z;
  pi_card : Z;
  pi_id : string;
  pi_name : string;
  pi_subname : string;
  pi_dev_class : Z;
  pi_dev_subclass : Z;
  pi_subdevices_count : Z;
  pi_subdevices_avail : Z;
  pi_sync : list Z
}.

(* [asound.h 440-457 snd_pcm_status_t] *)
Record snd_pcm_status_t := PcmStatus {
  st_state : Z;
  st_trigger_tstamp : snd_timespec;
  st_tstamp : snd_timespec;
  st_appl_ptr : Z;
  st_hw_ptr : Z;
  st_delay : Z;
  st_avail : Z;
  st_avail_max : Z;
  st_overrange : Z;
  st_suspended_state : Z;
  st_audio_tstamp : snd_timespec;
  st_driver_tstamp : snd_timespec;
  st_audio_tstamp_accuracy : Z
}.

(** The second status ioctl, of protocol 2.0.13, reads the type of audio time stamp the
    application asks for from the structure. *)
Inductive status_cmd := Status | StatusExt.

Class PcmInfoKernel (K : Type) := {
  ioctl_pcm_info : Z -> snd_pcm_info_t -> io K (Z * snd_pcm_info_t);
  ioctl_pcm_status : status_cmd -> Z -> snd_pcm_status_t -> io K (Z * snd_pcm_status_t)
}.

(** [SNDRV_PROTOCOL_VERSION(major, minor, subminor)]. *)
Definition PROTOCOL_VERSION (major minor subminor : Z) : Z :=
  Z.lor (Z.lor (Z.shiftl major 16) (Z.shiftl minor 8)) subminor.

Record snd_timestamp_t := Timestamp { ts_sec : Z; ts_usec : Z }.

Section PcmInfo.
Context {K : Type} `{!Os K, !AsyncKernel K, !PcmKernel K, !PcmInfoKernel K}.

(* [pcm_macros.h 93-97 snd_pcm_abort] *)
Definition snd_pcm_abort : io (ps K) Z := snd_pcm_nonblock 2.

(* [pcm_macros.h 111-115 snd_pcm_stream] *)
Definition snd_pcm_stream : io (ps K) Z := let* pcm := getp in ret (stream pcm).

(* [pcm_macros.h 117-121 snd_pcm_poll_descriptors_count] *)
Definition snd_pcm_poll_descriptors_count : Z := 1.

(** The structure [poll] is given; [revents] starts as 0. *)
(* [pcm_macros.h 123-129 snd_pcm_poll_descriptors] *)
Definition snd_pcm_poll_descriptors (space : Z) : io (ps K) (Z * pollfd) :=
  let* pcm := getp in ret (1, Pollfd (fd pcm) (pollfd_events pcm) 0).

(* [pcm_macros.h 131-138 snd_pcm_poll_descriptors_revents] *)
Definition snd_pcm_poll_descriptors_revents (pfds : pollfd) (nfds : Z) : Z * Z := (0, pfd_revents pfds).

(* [pcm_macros.h 140-146 snd_pcm_info] *)
Definition snd_pcm_info (info : snd_pcm_info_t) : io (ps K) (Z * snd_pcm_info_t) :=
  let* pcm := getp in onworld (answer (ioctl_pcm_info (fd pcm) info)).

(* [pcm_macros.h 157-165 snd_pcm_status] *)
Definition snd_pcm_status (status : snd_pcm_status_t) : io (ps K) (Z * snd_pcm_status_t) :=
  let* pcm := getp in
  let cmd := if protocol pcm <? PROTOCOL_VERSION 2 0 13 then Status else StatusExt in
  onworld (answer (ioctl_pcm_status cmd (fd pcm) status)).

(* [pcm_macros.h 199-203 snd_pcm_hwsync] *)
Definition snd_pcm_hwsync : io (ps K) Z := _snd_pcm_hwsync.
End PcmInfo.

(** ** The fields of the status *)

(* [pcm_macros.h 1984-1988 snd_pcm_status_get_state] *)
Definition snd_pcm_status_get_state (obj : snd_pcm_status_t) : Z := u32 (st_state obj).

(** The same time in microseconds; C's division is towards zero. *)
(* [pcm_macros.h 1990-1996 snd_pcm_status_get_trigger_tstamp] *)
Definition to_timestamp (t : snd_timespec) : snd_timestamp_t :=
  Timestamp (tv_sec t) (Z.quot (tv_nsec t) 1000).

(* [pcm_macros.h 1990-1996 snd_pcm_status_get_trigger_tstamp] *)
Definition snd_pcm_status_get_trigger_tstamp (obj : snd_pcm_status_t) : snd_timestamp_t :=
  to_timestamp (st_trigger_tstamp obj).
(* [pcm_macros.h 1998-2003 snd_pcm_status_get_trigger_htstamp] *)
Definition snd_pcm_status_get_trigger_htstamp (obj : snd_pcm_status_t) : snd_timespec :=
  st_trigger_tstamp obj.
(* [pcm_macros.h 2005-2010 snd_pcm_status_get_tstamp] *)
Definition snd_pcm_status_get_tstamp (obj : snd_pcm_status_t) : snd_timestamp_t :=
  to_timestamp (st_tstamp obj).
(* [pcm_macros.h 2012-2016 snd_pcm_status_get_htstamp] *)
Definition snd_pcm_status_get_htstamp (obj : snd_pcm_status_t) : snd_timespec := st_tstamp obj.
(* [pcm_macros.h 2018-2022 snd_pcm_status_get_audio_htstamp] *)
Definition snd_pcm_status_get_audio_htstamp (obj : snd_pcm_status_t) : snd_timespec := st_audio_tstamp obj.
(* [pcm_macros.h 2024-2028 snd_pcm_status_get_delay] *)
Definition snd_pcm_status_get_delay := st_delay.
(* [pcm_macros.h 2030-2034 snd_pcm_status_get_avail] *)
Definition snd_pcm_status_get_avail := st_avail.
(* [pcm_macros.h 2036-2040 snd_pcm_status_get_avail_max] *)
Definition snd_pcm_status_get_avail_max := st_avail_max.
(* [pcm_macros.h 2042-2046 snd_pcm_status_get_overrange] *)
Definition snd_pcm_status_get_overrange := st_overrange.

(** ** The fields of the information *)

(* [pcm_macros.h 2050-2054 snd_pcm_info_get_device] *)
Definition snd_pcm_info_get_device := pi_device.
(* [pcm_macros.h 2056-2060 snd_pcm_info_get_subdevice] *)
Definition snd_pcm_info_get_subdevice := pi_subdevice.
(* [pcm_macros.h 2062-2066 snd_pcm_info_get_stream] *)
Definition snd_pcm_info_get_stream (obj : snd_pcm_info_t) : Z := u32 (pi_stream obj).
(* [pcm_macros.h 2068-2072 snd_pcm_info_get_card] *)
Definition snd_pcm_info_get_card := pi_card.
(* [pcm_macros.h 2074-2078 snd_pcm_info_get_id] *)
Definition snd_pcm_info_get_id := pi_id.
(* [pcm_macros.h 2080-2084 snd_pcm_info_get_name] *)
Definition snd_pcm_info_get_name := pi_name.
(* [pcm_macros.h 2086-2090 snd_pcm_info_get_subdevice_name] *)
Definition snd_pcm_info_get_subdevice_name := pi_subname.
(* [pcm_macros.h 2092-2096 snd_pcm_info_get_class] *)
Definition snd_pcm_info_get_class (obj : snd_pcm_info_t) : Z := u32 (pi_dev_class obj).
(* [pcm_macros.h 2098-2102 snd_pcm_info_get_subclass] *)
Definition snd_pcm_info_get_subclass (obj : snd_pcm_info_t) : Z := u32 (pi_dev_subclass obj).
(* [pcm_macros.h 2104-2108 snd_pcm_info_get_subdevices_count] *)
Definition snd_pcm_info_get_subdevices_count := pi_subdevices_count.
(* [pcm_macros.h 2110-2114 snd_pcm_info_get_subdevices_avail] *)
Definition snd_pcm_info_get_subdevices_avail := pi_subdevices_avail.
(* [pcm_macros.h 2116-2122 snd_pcm_info_get_sync] *)
Definition snd_pcm_info_get_sync := pi_sync.

(* [pcm_macros.h 2124-2128 snd_pcm_info_set_device] *)
Definition snd_pcm_info_set_device (obj : snd_pcm_info_t) (val : Z) : snd_pcm_info_t :=
  let '(PcmInfo _ sd st ca id na sn cl sc co av sy) := obj in PcmInfo val sd st ca id na sn cl sc co av sy.
(* [pcm_macros.h 2130-2134 snd_pcm_info_set_subdevice] *)
Definition snd_pcm_info_set_subdevice (obj : snd_pcm_info_t) (val : Z) : snd_pcm_info_t :=
  let '(PcmInfo de _ st ca id na sn cl sc co av sy) := obj in PcmInfo de val st ca id na sn cl sc co av sy.
(* [pcm_macros.h 2136-2140 snd_pcm_info_set_stream] *)
Definition snd_pcm_info_set_stream (obj : snd_pcm_info_t) (val : Z) : snd_pcm_info_t :=
  let '(PcmInfo de sd _ ca id na sn cl sc co av sy) := obj in PcmInfo de sd (s32 val) ca id na sn cl sc co av sy.

(** ** Theorems *)

(** A whole number of seconds and a part of one, in nanoseconds. *)
Definition normal_time (t : snd_timespec) : Prop := 0 <= tv_nsec t < 1000000000.

Definition nanoseconds (t : snd_timespec) : Z := tv_sec t * 1000000000 + tv_nsec t.
Definition microseconds (t : snd_timestamp_t) : Z := ts_sec t * 1000000 + ts_usec t.

(** The time stamp in microseconds is a normal one, and it is the kernel's time rounded
    down. *)
Theorem status_tstamp_rounds (obj : snd_pcm_status_t) :
  normal_time (st_tstamp obj) ->
  let t := snd_pcm_status_get_tstamp obj in
  0 <= ts_usec t < 1000000 /\
  microseconds t * 1000 <= nanoseconds (snd_pcm_status_get_htstamp obj) < (microseconds t + 1) * 1000.
Proof.
  intros [H1 H2]. unfold snd_pcm_status_get_tstamp, to_timestamp, microseconds, nanoseconds,
    snd_pcm_status_get_htstamp. simpl. rewrite Z.quot_div_nonneg by lia.
  pose proof (Z.div_mod (tv_nsec (st_tstamp obj)) 1000). pose proof (Z.mod_pos_bound (tv_nsec (st_tstamp obj)) 1000).
  lia.
Qed.

Lemma status_tstamp_rounds_witness :
  let obj := PcmStatus 3 (Timespec 0 0) (Timespec 7 123456789) 0 0 0 0 0 0 0 (Timespec 0 0) (Timespec 0 0) 0 in
  snd_pcm_status_get_tstamp obj = Timestamp 7 123456 /\
  0 <= ts_usec (snd_pcm_status_get_tstamp obj) < 1000000.
Proof.
  split; [reflexivity|].
  apply (status_tstamp_rounds (PcmStatus 3 (Timespec 0 0) (Timespec 7 123456789) 0 0 0 0 0 0 0 (Timespec 0 0) (Timespec 0 0) 0)).
  unfold normal_time. simpl. lia.
Defined.
