(* ===== verification/Text.v ===== *)
(** * Text that reads back

    Strings whose characters satisfy a test, and what that says about concatenations:
    a word ends where the first other character is, lines and words separate.  Used for
    the dumps. *)

From stdpp Require Import pretty strings.
From Stdlib Require Import Ascii String.
From S2P Require Import Prelude CInt.
#[local] Open Scope Z_scope.

Fixpoint all_chars (p : ascii -> bool) (s : string) : bool :=
  match s with EmptyString => true | String c s => p c && all_chars p s end.

(** The text [r] does not go on with a character of [p]. *)
Definition stops_at (p : ascii -> bool) (r : string) : Prop :=
  match r with EmptyString => True | String c _ => p c = false end.

Definition is_digit (c : ascii) : bool := (nat_of_ascii "0" <=? nat_of_ascii c)%nat && (nat_of_ascii c <=? nat_of_ascii "9")%nat.
Definition not_newline (c : ascii) : bool := negb (Ascii.eqb c "010").
Definition not_space (c : ascii) : bool := negb (Ascii.eqb c " ").

Fixpoint concat_text (l : list string) : string :=
  match l with [] => EmptyString | s :: l => s +:+ concat_text l end.

#[local] Arguments String.append !_ _ : simpl nomatch.

Lemma append_empty_r s : s +:+ EmptyString = s.
Proof. induction s as [|c s IH]; simpl; [done|]. rewrite IH. done. Qed.

Lemma append_assoc_text a b c : (a +:+ b) +:+ c = a +:+ (b +:+ c).
Proof. induction a as [|x a IH]; simpl; [done|]. rewrite IH. done. Qed.

Lemma append_inj_l a b c : a +:+ b = a +:+ c -> b = c.
Proof. induction a as [|x a IH]; simpl; [done|]. intros [= H]. auto. Qed.

Lemma concat_text_app l k : concat_text (l ++ k) = concat_text l +:+ concat_text k.
Proof. induction l as [|s l IH]; simpl; [done|]. rewrite IH, append_assoc_text. done. Qed.

Lemma length_append_nat a b : String.length (a +:+ b) = (String.length a + String.length b)%nat.
Proof. induction a as [|x a IH]; simpl; [done|]. rewrite IH. done. Qed.

Lemma all_chars_app p a b : all_chars p (a +:+ b) = all_chars p a && all_chars p b.
Proof. induction a as [|c a IH]; simpl; [done|]. rewrite IH, andb_assoc. done. Qed.

Lemma all_chars_imp (p q : ascii -> bool) s :
  (forall c, p c = true -> q c = true) -> all_chars p s = true -> all_chars q s = true.
Proof.
  intros H. induction s as [|c s IH]; simpl; [done|]. intros [Hc Hs]%andb_true_iff.
  rewrite (H c Hc), (IH Hs). done.
Qed.

Lemma all_chars_concat p l : Forall (fun s => all_chars p s = true) l -> all_chars p (concat_text l) = true.
Proof. induction 1 as [|s l Hs Hl IH]; simpl; [done|]. rewrite all_chars_app, Hs, IH. done. Qed.

(** The first word of a text is determined. *)
Lemma word_inj p a b r s :
  all_chars p a = true -> all_chars p b = true -> stops_at p r -> stops_at p s ->
  a +:+ r = b +:+ s -> a = b /\ r = s.
Proof.
  revert b. induction a as [|c a IH]; intros [|d b] Ha Hb Hr Hs H; simpl in *; simplify_eq; [done| | |].
  - apply andb_true_iff in Hb as [Hb _]. congruence.
  - apply andb_true_iff in Ha as [Ha _]. congruence.
  - apply andb_true_iff in Ha as [_ Ha], Hb as [_ Hb].
    destruct (IH b Ha Hb Hr Hs) as [-> ->]; done.
Qed.

(** Lines end with a newline. *)
Lemma lines_inj {A} (h f g : A -> string) l :
  (forall x, In x l -> all_chars not_newline (f x) = true /\ all_chars not_newline (g x) = true) ->
  concat_text (map (fun x => h x +:+ f x +:+ String "010" EmptyString) l) =
  concat_text (map (fun x => h x +:+ g x +:+ String "010" EmptyString) l) ->
  forall x, In x l -> f x = g x.
Proof.
  induction l as [|y l IH]; simpl; [done|]. intros Hl H.
  rewrite !append_assoc_text in H. apply append_inj_l in H.
  destruct (Hl y (or_introl eq_refl)) as [Hf Hg].
  assert (Hn : forall r, stops_at not_newline (String "010" r)) by done.
  destruct (word_inj not_newline _ _ _ _ Hf Hg (Hn _) (Hn _) H) as [H1 H2]. injection H2 as H2.
  intros x [<-|Hx]; [done|]. apply (IH (fun x Hx => Hl x (or_intror Hx)) H2 x Hx).
Qed.

(** Words start with a blank. *)
Lemma words_inj l k :
  Forall (fun s => all_chars not_space s = true) l -> Forall (fun s => all_chars not_space s = true) k ->
  concat_text (map (String " ") l) = concat_text (map (String " ") k) -> l = k.
Proof.
  assert (Hstop : forall l, stops_at not_space (concat_text (map (String " ") l))) by (intros []; done).
  intros Hl. revert k. induction Hl as [|s l Hs Hl IH]; intros k Hk H; destruct Hk as [|t k Ht Hk];
    simpl in H; try done. injection H as H.
  destruct (word_inj not_space _ _ _ _ Hs Ht (Hstop l) (Hstop k) H) as [-> H2].
  rewrite (IH k Hk H2). done.
Qed.

(** ** Decimal numbers *)

Lemma digit_go x s : all_chars is_digit s = true -> all_chars is_digit (pretty_N_go x s) = true.
Proof.
  revert s. induction (N.lt_wf_0 x) as [x _ IH]. intros s Hs.
  destruct (decide (x = 0)%N) as [->|Hne]; [rewrite pretty_N_go_0; done|].
  rewrite pretty_N_go_step by lia. apply IH; [apply N.div_lt; lia|]. simpl. rewrite Hs, andb_true_r.
  unfold pretty_N_char. repeat case_match; done.
Qed.

Lemma digits_pretty z : 0 <= z -> all_chars is_digit (pretty z) = true.
Proof.
  intros Hz. destruct z as [|p|p]; [done| |lia].
  change (pretty (Z.pos p)) with (pretty_N_go (N.pos p) EmptyString). apply digit_go. done.
Qed.

Lemma length_pretty_go x s (k : nat) :
  Z.of_N x < 10 ^ Z.of_nat k -> (String.length (pretty_N_go x s) <= k + String.length s)%nat.
Proof.
  revert x s. induction k as [|k IH]; intros x s Hx.
  - assert (x = 0)%N as -> by lia. rewrite pretty_N_go_0. lia.
  - destruct (decide (x = 0)%N) as [->|Hne]; [rewrite pretty_N_go_0; lia|].
    rewrite pretty_N_go_step by lia. etransitivity; [apply IH|simpl; lia].
    rewrite Nat2Z.inj_succ, Z.pow_succ_r in Hx by lia. rewrite N2Z.inj_div. apply Z.div_lt_upper_bound; lia.
Qed.

(** A 32-bit number has at most ten digits. *)
Lemma length_pretty_u32 z : is_u32 z -> (String.length (pretty z) <= 10)%nat.
Proof.
  unfold is_u32, UINT_MAX. intros Hz. destruct z as [|p|p]; [simpl; lia| |lia].
  change (pretty (Z.pos p)) with (pretty_N_go (N.pos p) EmptyString).
  etransitivity; [apply (length_pretty_go _ _ 10)|simpl; lia]. rewrite <- (positive_N_Z p) in Hz.
  change (10 ^ Z.of_nat 10) with 10000000000. lia.
Qed.
