(* ===== verification/Dump.v ===== *)
(** * Printing parameters

    The dump functions of src/src/pcm_params.c (1015-1132) and src/src/pcm.c (482-573):
    they write through the output objects of Output.v.

    None of them looks at what an output call returns, so that what a dump does is the
    sequence of the calls it makes, a list of [out_call]; [run_calls] makes them.  The mark
    of a [CallPrintf] says whether its format has a conversion.  [%g] of
    the exact rate is the one conversion whose text is a parameter, [rate_text]. *)

From stdpp Require Import pretty strings.
From Stdlib Require Import Ascii String.
From S2P Require Import Prelude CInt Sys Cards Async Mask Interval Format PcmTypes HwParams IoDev PcmInfo Output.
#[local] Open Scope Z_scope.

Inductive out_call :=
  | CallPrintf (conv : bool) (text : string)
  | CallPuts (str : string)
  | CallPutc (c : Z).

Section Run.
Context {K : Type} `{!Os K, !Stdio K}.

(** One call; [None] where it writes outside the buffer or reads a used-up argument list. *)
Definition run_call (c : out_call) (out : snd_output_t) : io (world K) (option snd_output_t) :=
  let* r := match c with
            | CallPrintf conv text => snd_output_printf out conv text
            | CallPuts str => snd_output_puts out str
            | CallPutc c => snd_output_putc out c
            end in
  ret (option_map snd r).

Fixpoint run_calls (calls : list out_call) (out : snd_output_t) : io (world K) (option snd_output_t) :=
  match calls with
  | [] => ret (Some out)
  | c :: calls =>
      let* r := run_call c out in
      match r with Some out => run_calls calls out | None => ret None end
  end.

(** A dump function of the library: it makes its calls and returns 0. *)
Definition dump (calls : list out_call) (out : snd_output_t) : io (world K) (Z * option snd_output_t) :=
  let* r := run_calls calls out in ret (0, r).
End Run.

(** ** Conversions *)

(** [%s]; a NULL pointer prints as glibc prints it. *)
Definition fmt_s (s : option string) : string := default "(null)"%string s.

(** [%u] and [%lu] of a value in range, [%d] and [%ld] of any. *)
Definition fmt_u (v : Z) : string := pretty v.
Definition fmt_d (v : Z) : string := pretty (s32 v).
Definition fmt_ld (v : Z) : string := pretty (s64 v).

(** Zeros in front up to a width. *)
Fixpoint zeros (n : nat) (s : string) : string :=
  match n with O => s | S n => String "0" (zeros n s) end.

(** [%06ld]. *)
Definition fmt_06ld (v : Z) : string :=
  let v := s64 v in
  let digits := pretty (Z.abs v) in
  let sign := if v <? 0 then "-"%string else EmptyString in
  sign +:+ zeros (6 - String.length sign - String.length digits) digits.

Definition line (name value : string) : out_call := CallPrintf true (name +:+ value +:+ String "010" "").

(** ** Hardware parameters *)

(* [pcm_params.c 1032-1042 snd_mask_print] *)
Definition mask_bit_text (var i : Z) : list out_call :=
  if var =? HW_PARAM_ACCESS then [CallPrintf true (" " +:+ fmt_s (snd_pcm_access_name i))]
  else if var =? HW_PARAM_FORMAT then [CallPrintf true (" " +:+ fmt_s (snd_pcm_format_name i))]
  else if var =? HW_PARAM_SUBFORMAT then [CallPrintf true (" " +:+ fmt_s (snd_pcm_subformat_name i))]
  else [].

(* [pcm_params.c 1019-1048 snd_mask_print] *)
Definition snd_mask_print (mask : snd_mask_t) (var : Z) : list out_call :=
  if _snd_mask_empty mask then [CallPuts " NONE"]
  else if mask_is_full mask then [CallPuts " ALL"]
  else mjoin (map (fun i => if nz (_snd_mask_test mask i) then mask_bit_text var i else [])
                (zseq 0 (Z.to_nat SND_MASK_MAX))).

(* [pcm_params.c 1050-1063 snd_interval_print] *)
Definition interval_text (i : snd_interval_t) : string :=
  if interval_is_empty i then "NONE"%string
  else if interval_is_full i then "ALL"%string
  else if interval_is_single i && integer i then fmt_u (imin i)
  else (if openmin i then "(" else "[") +:+ fmt_u (imin i) +:+ " " +:+ fmt_u (imax i) +:+
       (if openmax i then ")" else "]").

(** The two words are formats without a conversion. *)
(* [pcm_params.c 1050-1063 snd_interval_print] *)
Definition snd_interval_print (i : snd_interval_t) : list out_call :=
  [CallPrintf (negb (interval_is_empty i || interval_is_full i)) (interval_text i)].

(* [pcm_params.c 1065-1072 snd_pcm_hw_param_dump] *)
Definition snd_pcm_hw_param_dump (params : snd_pcm_hw_params_t) (var : Z) : list out_call :=
  if hw_is_mask var then snd_mask_print (hw_param_mask_c params var) var
  else if hw_is_interval var then snd_interval_print (hw_param_interval_c params var)
  else [].

(* [pcm_params.c 1076-1092 snd_pcm_hw_param_names] *)
Definition snd_pcm_hw_param_names : list (option string) :=
  (Some <$> ["ACCESS"; "FORMAT"; "SUBFORMAT"]%string) ++ replicate 5 None ++
  (Some <$> ["SAMPLE_BITS"; "FRAME_BITS"; "CHANNELS"; "RATE"; "PERIOD_TIME"; "PERIOD_SIZE";
             "PERIOD_BYTES"; "PERIODS"; "BUFFER_TIME"; "BUFFER_SIZE"; "BUFFER_BYTES"; "TICK_TIME"]%string).

(* [pcm_params.c 1094-1100 dump_one_param] *)
Definition dump_one_param (params : snd_pcm_hw_params_t) (k : Z) : list out_call :=
  CallPrintf true (fmt_s (name_at snd_pcm_hw_param_names k) +:+ ": ") ::
  snd_pcm_hw_param_dump params k ++ [CallPutc 10].

(** The parameters in the order of the two loops. *)
Definition dumped_params : list Z :=
  zseq HW_PARAM_FIRST_MASK (Z.to_nat (HW_PARAM_LAST_MASK - HW_PARAM_FIRST_MASK + 1)) ++
  zseq HW_PARAM_FIRST_INTERVAL (Z.to_nat (HW_PARAM_LAST_INTERVAL - HW_PARAM_FIRST_INTERVAL + 1)).

(* [pcm_params.c 1102-1110 snd_pcm_hw_params_dump] *)
Definition hw_params_calls (params : snd_pcm_hw_params_t) : list out_call :=
  mjoin (map (dump_one_param params) dumped_params).

(** ** Software parameters, the set-up and the status *)

(* [pcm_params.c 1112-1131 snd_pcm_sw_params_dump] *)
Definition sw_params_calls (params : snd_pcm_sw_params_t) : list out_call :=
  [line "tstamp_mode: " (fmt_s (snd_pcm_tstamp_mode_name (tstamp_mode params)));
   line "period_step: " (fmt_u (period_step params));
   line "sleep_min: " (fmt_u (sleep_min params));
   line "avail_min: " (fmt_u (sw_avail_min params));
   line "xfer_align: " (fmt_u (xfer_align params));
   line "silence_threshold: " (fmt_u (silence_threshold params));
   line "silence_size: " (fmt_u (silence_size params));
   line "boundary: " (fmt_u (sw_boundary params))].

(** [rate_text num den] is [%g] of the quotient; [%g] of 0.0 is 0. *)
Definition exact_rate (rate_text : Z -> Z -> string) (num den : Z) : string :=
  (if nz den then rate_text num den else "0"%string) +:+ " (" +:+ fmt_u num +:+ "/" +:+ fmt_u den +:+ ")".

(* [pcm.c 482-506 snd_pcm_dump_hw_setup] *)
Definition hw_setup_calls (rate_text : Z -> Z -> string) (pcm : snd_pcm_t) : list out_call :=
  [line "  stream       : " (fmt_s (snd_pcm_stream_name (stream pcm)));
   line "  access       : " (fmt_s (snd_pcm_access_name (_access pcm)));
   line "  format       : " (fmt_s (snd_pcm_format_name (format pcm)));
   line "  subformat    : " (fmt_s (snd_pcm_subformat_name (subformat pcm)));
   line "  channels     : " (fmt_u (channels pcm));
   line "  rate         : " (fmt_u (rate pcm));
   line "  exact rate   : "
     (exact_rate rate_text (hp_rate_num (hw_params pcm)) (hp_rate_den (hw_params pcm)));
   line "  msbits       : " (fmt_u (hp_msbits (hw_params pcm)));
   line "  buffer_size  : " (fmt_u (buffer_size pcm));
   line "  period_size  : " (fmt_u (period_size pcm));
   line "  period_time  : " (fmt_u (period_time pcm))].

(* [pcm.c 508-535 snd_pcm_dump_sw_setup] *)
Definition sw_setup_calls (pcm : snd_pcm_t) : list out_call :=
  let sw := sw_params pcm in
  [line "  tstamp_mode  : " (fmt_s (snd_pcm_tstamp_mode_name (tstamp_mode sw)));
   line "  period_step  : " (fmt_d (period_step sw));
   line "  avail_min    : " (fmt_ld (sw_avail_min sw));
   line "  start_threshold  : " (fmt_ld (start_threshold sw));
   line "  stop_threshold   : " (fmt_ld (stop_threshold sw));
   line "  silence_threshold: " (fmt_ld (silence_threshold sw));
   line "  silence_size : " (fmt_ld (silence_size sw));
   line "  boundary     : " (fmt_ld (sw_boundary sw))].

(* [pcm.c 537-542 snd_pcm_dump_setup] *)
Definition setup_calls (rate_text : Z -> Z -> string) (pcm : snd_pcm_t) : list out_call :=
  hw_setup_calls rate_text pcm ++ sw_setup_calls pcm.

(** The nanoseconds are printed with the width of microseconds. *)
(* [pcm.c 544-556 snd_pcm_status_dump] *)
Definition status_calls (status : snd_pcm_status_t) : list out_call :=
  let time t := fmt_ld (tv_sec t) +:+ "." +:+ fmt_06ld (tv_nsec t) in
  [line "  state       : " (fmt_s (snd_pcm_state_name (u32 (st_state status))));
   line "  trigger_time: " (time (st_trigger_tstamp status));
   line "  tstamp      : " (time (st_tstamp status));
   line "  delay       : " (fmt_ld (st_delay status));
   line "  avail       : " (fmt_ld (st_avail status));
   line "  avail_max   : " (fmt_ld (st_avail_max status))].

Definition card_line (pcm : snd_pcm_t) (name : string) : out_call :=
  CallPrintf true ("Hardware PCM card " +:+ fmt_d (card pcm) +:+ " '" +:+ name +:+ "' device " +:+
    fmt_d (device pcm) +:+ " subdevice " +:+ fmt_d (subdevice pcm) +:+ String "010" "").

Section Dump.
Context {K : Type} `{!Os K, !Stdio K, !CardKernel K}.
Variable rate_text : Z -> Z -> string.

(* [pcm_params.c 1102-1110 snd_pcm_hw_params_dump] *)
Definition snd_pcm_hw_params_dump (params : snd_pcm_hw_params_t) (out : snd_output_t)
  : io (world K) (Z * option snd_output_t) := dump (hw_params_calls params) out.

(* [pcm_params.c 1112-1131 snd_pcm_sw_params_dump] *)
Definition snd_pcm_sw_params_dump (params : snd_pcm_sw_params_t) (out : snd_output_t)
  : io (world K) (Z * option snd_output_t) := dump (sw_params_calls params) out.

(* [pcm.c 482-506 snd_pcm_dump_hw_setup] *)
Definition snd_pcm_dump_hw_setup (pcm : snd_pcm_t) (out : snd_output_t)
  : io (world K) (Z * option snd_output_t) := dump (hw_setup_calls rate_text pcm) out.

(* [pcm.c 508-535 snd_pcm_dump_sw_setup] *)
Definition snd_pcm_dump_sw_setup (pcm : snd_pcm_t) (out : snd_output_t)
  : io (world K) (Z * option snd_output_t) := dump (sw_setup_calls pcm) out.

(* [pcm.c 537-542 snd_pcm_dump_setup] *)
Definition snd_pcm_dump_setup (pcm : snd_pcm_t) (out : snd_output_t)
  : io (world K) (Z * option snd_output_t) := dump (setup_calls rate_text pcm) out.

(* [pcm.c 544-556 snd_pcm_status_dump] *)
Definition snd_pcm_status_dump (status : snd_pcm_status_t) (out : snd_output_t)
  : io (world K) (Z * option snd_output_t) := dump (status_calls status) out.

(** The card's name is a copy that is freed at the end. *)
(* [pcm.c 558-573 snd_pcm_dump] *)
Definition snd_pcm_dump (pcm : snd_pcm_t) (out : snd_output_t) : io (world K) (Z * option snd_output_t) :=
  let* '(err, name) := snd_card_get_name (card pcm) in
  match name with
  | None => ret (err, Some out)
  | Some (block, name) =>
      if err <? 0 then ret (err, Some out)
      else
        let* r := run_calls (card_line pcm name ::
                    if setup pcm then CallPrintf false (String.append "Its setup is:" (String "010" "")) :: setup_calls rate_text pcm
                    else []) out in
        match r with
        | None => ret (0, None)
        | Some out => let* _ := sys_free block in ret (0, Some out)
        end
  end.
End Dump.
