(* ===== verification/DumpSpec.v ===== *)
(** * Printed parameters: correctness

    On a stream the text of a parameter dump determines the parameters: their masks and
    the values their intervals allow.  In a buffer nothing of it is left but the
    newlines. *)

From stdpp Require Import pretty strings sets.
From Stdlib Require Import Ascii String QArith.
From S2P Require Import Prelude CInt Sys Cards Async Toy Mask Interval Format PcmTypes HwParams HwParamsSpec.
From S2P Require Import IoDev PcmInfo Output Text Dump.
#[local] Open Scope Z_scope.

#[local] Arguments String.append !_ _ : simpl nomatch.

(** ** The text of an interval *)

(** A number the interval allows. *)
Definition allows (i : snd_interval_t) (z : Z) : Prop := in_interval i (inject_Z z).

Lemma allows_spec i z :
  allows i z <-> iempty i = false /\ (if openmin i then imin i < z else imin i <= z) /\
                 (if openmax i then z < imax i else z <= imax i).
Proof.
  unfold allows, in_interval, above, below. destruct (openmin i), (openmax i);
    rewrite <- ?Zlt_Qlt, <- ?Zle_Qle; (split; [intros (H1 & H2 & H3 & _); auto|]); intros (H1 & H2 & H3);
    (split; [done|]; split; [done|]; split; [done|]); intros _; exists z; reflexivity.
Qed.

(** What the text shows of an interval. *)
Inductive shape :=
  | ShNone
  | ShAll
  | ShOne (v : Z)
  | ShRange (o : bool) (min max : Z) (o' : bool).

Definition shape_of (i : snd_interval_t) : shape :=
  if interval_is_empty i then ShNone
  else if interval_is_full i then ShAll
  else if interval_is_single i && integer i then ShOne (imin i)
  else ShRange (openmin i) (imin i) (imax i) (openmax i).

Definition shape_text (s : shape) : string :=
  match s with
  | ShNone => "NONE"
  | ShAll => "ALL"
  | ShOne v => fmt_u v
  | ShRange o min max o' =>
      (if o then "(" else "[") +:+ fmt_u min +:+ " " +:+ fmt_u max +:+ (if o' then ")" else "]")
  end.

Lemma interval_text_shape i : interval_text i = shape_text (shape_of i).
Proof. unfold interval_text, shape_of. repeat case_match; done. Qed.

Definition shape_ok (s : shape) : Prop :=
  match s with ShOne v => 0 <= v | ShRange _ a b _ => 0 <= a /\ 0 <= b | _ => True end.

Lemma fmt_u_inj a b : fmt_u a = fmt_u b -> a = b.
Proof. apply (inj (pretty (A := Z))). Qed.

#[local] Opaque fmt_u.

Lemma not_all_digits c s : is_digit c = false -> forall v, 0 <= v -> fmt_u v <> String c s.
Proof. intros Hc v Hv H. pose proof (digits_pretty v Hv) as Hd. change (pretty v) with (fmt_u v) in Hd. rewrite H in Hd. simpl in Hd. rewrite Hc in Hd. done. Qed.

Lemma range_not_number (o : bool) r v : 0 <= v -> (if o then "(" else "[") +:+ r <> fmt_u v.
Proof. intros Hv H. destruct o; symmetry in H; revert H; apply not_all_digits; done. Qed.

(** Ranges with the same text are the same. *)
Lemma range_text_inj o a b o' p c d p' :
  0 <= a -> 0 <= b -> 0 <= c -> 0 <= d ->
  shape_text (ShRange o a b o') = shape_text (ShRange p c d p') -> ShRange o a b o' = ShRange p c d p'.
Proof.
  cbn [shape_text]. intros Ha Hb Hc Hd H.
  assert (Ho : o = p /\ fmt_u a +:+ " " +:+ fmt_u b +:+ (if o' then ")" else "]") =
               fmt_u c +:+ " " +:+ fmt_u d +:+ (if p' then ")" else "]")).
  { destruct o, p; simpl in H; simplify_eq; done. }
  destruct Ho as [-> Ho].
  assert (Hblank : forall r, stops_at is_digit (" " +:+ r)) by done.
  assert (Hend : forall o : bool, stops_at is_digit (if o then ")" else "]")%string) by (intros []; done).
  destruct (word_inj is_digit _ _ _ _ (digits_pretty a Ha) (digits_pretty c Hc) (Hblank _) (Hblank _) Ho) as [H1 H2].
  apply append_inj_l in H2.
  destruct (word_inj is_digit _ _ _ _ (digits_pretty b Hb) (digits_pretty d Hd) (Hend o') (Hend p') H2) as [H3 H4].
  apply fmt_u_inj in H1, H3. destruct o', p'; simplify_eq; done.
Qed.

Lemma shape_text_inj s t : shape_ok s -> shape_ok t -> shape_text s = shape_text t -> s = t.
Proof.
  destruct s as [| |v|o a b o'], t as [| |v'|p a' b' p']; cbn [shape_ok]; intros Hs Ht H; try done;
    try (destruct o; done); try (destruct p; done);
    try (exfalso; eapply not_all_digits; [| |exact H || (symmetry; exact H)]; done).
  - f_equal. exact (fmt_u_inj _ _ H).
  - exfalso. symmetry in H. revert H. apply range_not_number. done.
  - exfalso. revert H. apply range_not_number. done.
  - apply range_text_inj; tauto.
Qed.

Lemma shape_of_ok i : interval_wf i -> shape_ok (shape_of i).
Proof.
  intros (H1 & H2 & _). unfold is_u32 in *. unfold shape_of. repeat case_match; simpl; lia.
Qed.

(** The numbers a shape stands for. *)
Definition shape_allows (s : shape) (z : Z) : Prop :=
  match s with
  | ShNone => False
  | ShAll => is_u32 z
  | ShOne v => z = v
  | ShRange o a b o' => (if o then a < z else a <= z) /\ (if o' then z < b else z <= b)
  end.

Lemma shape_allows_spec i z :
  interval_wf i -> (iempty i = true \/ exists x, in_interval i x) ->
  (allows i z <-> shape_allows (shape_of i) z).
Proof.
  intros (Hl & Hh & Hb) Hin. rewrite allows_spec. unfold shape_of, interval_is_empty, interval_is_full, interval_is_single.
  destruct (iempty i) eqn:He; simpl; [intuition congruence|]. specialize (Hb eq_refl).
  destruct Hin as [|[x Hx]]; [done|].
  destruct ((imin i =? 0) && negb (openmin i) && (imax i =? UINT_MAX) && negb (openmax i)) eqn:Hf.
  { apply andb_true_iff in Hf as [Hf H4]. apply andb_true_iff in Hf as [Hf H3]. apply andb_true_iff in Hf as [H1 H2].
    zbool. rewrite H2, H4. simpl. unfold is_u32. lia. }
  destruct ((imin i =? imax i) || (u32 (imin i + 1) =? imax i) && openmax i) eqn:Hs; simpl; [|tauto].
  destruct (integer i) eqn:Hn; simpl; [|tauto].
  assert (Hz : exists y, allows i y).
  { pose proof Hx as (_ & _ & _ & Hi). destruct (Hi Hn) as [y Hy]. exists y. unfold allows.
    destruct Hx as (G1 & G2 & G3 & G4). unfold in_interval, above, below in *.
    split; [done|]. split; [|split; [|intros _; exists y; reflexivity]].
    - destruct (openmin i); rewrite <- Hy; done.
    - destruct (openmax i); rewrite <- Hy; done. }
  destruct Hz as [y Hy]. apply allows_spec in Hy as (_ & Hy1 & Hy2).
  apply orb_true_iff in Hs as [Hs|Hs].
  - zbool. assert (openmin i = false /\ openmax i = false) as [-> ->].
    { destruct Hb as [Hb|Hb]; [lia|tauto]. }
    lia.
  - apply andb_true_iff in Hs as [Hs Ho]. rewrite Ho. zbool. unfold bounds_ok in Hb.
    assert (imax i = imin i + 1 \/ imin i = UINT_MAX) as [Hm|Hm].
    { unfold is_u32 in *. destruct (Z.eq_dec (imin i) UINT_MAX); [auto|]. left. rewrite <- Hs. apply u32_id. unfold is_u32. lia. }
    + revert Hy1. rewrite Ho in Hy2. destruct (openmin i); lia.
    + unfold is_u32 in *. rewrite Ho in Hy2. revert Hy1. destruct (openmin i); lia.
Qed.

(** Intervals with the same text allow the same numbers. *)
Lemma interval_text_determines i j :
  interval_wf i -> interval_wf j ->
  (iempty i = true \/ exists x, in_interval i x) -> (iempty j = true \/ exists x, in_interval j x) ->
  interval_text i = interval_text j -> forall z, allows i z <-> allows j z.
Proof.
  intros Hi Hj Hxi Hxj. rewrite !interval_text_shape. intros H z.
  apply shape_text_inj in H; [|apply shape_of_ok; done..].
  rewrite (shape_allows_spec i), (shape_allows_spec j), H by done. done.
Qed.

(** ** The text of a mask *)

#[local] Opaque name_at zseq.
#[local] Opaque _snd_pcm_access_names _snd_pcm_format_names _snd_pcm_subformat_names.

Definition call_text (c : out_call) : string :=
  match c with
  | CallPrintf _ t => t
  | CallPuts s => s
  | CallPutc c => String (ascii_of_nat (Z.to_nat (u8 c))) EmptyString
  end.

(** The text a sequence of calls puts into a stream. *)
Definition calls_text (calls : list out_call) : string := concat_text (map call_text calls).

Lemma calls_text_app l k : calls_text (l ++ k) = calls_text l +:+ calls_text k.
Proof. unfold calls_text. rewrite map_app, concat_text_app. done. Qed.

Lemma calls_text_cons c l : calls_text (c :: l) = call_text c +:+ calls_text l.
Proof. done. Qed.

Definition name_table (var : Z) : list (option string) :=
  if var =? HW_PARAM_ACCESS then _snd_pcm_access_names
  else if var =? HW_PARAM_FORMAT then _snd_pcm_format_names
  else _snd_pcm_subformat_names.

Definition bit_name (var i : Z) : string := fmt_s (name_at (name_table var) i).

Definition set_bits (m : snd_mask_t) : list Z :=
  List.filter (fun i => nz (_snd_mask_test m i)) (zseq 0 (Z.to_nat SND_MASK_MAX)).

(** The words a mask is printed as. *)
Definition mask_words (m : snd_mask_t) (var : Z) : list string :=
  if _snd_mask_empty m then ["NONE"%string]
  else if mask_is_full m then ["ALL"%string]
  else map (bit_name var) (set_bits m).

Lemma mask_bit_text_name var i :
  hw_is_mask var = true -> mask_bit_text var i = [CallPrintf true (String " " (bit_name var i))].
Proof.
  intros Hv%mask_var_range. unfold mask_bit_text, bit_name, name_table, snd_pcm_access_name,
    snd_pcm_format_name, snd_pcm_subformat_name, HW_PARAM_ACCESS, HW_PARAM_FORMAT, HW_PARAM_SUBFORMAT.
  destruct (Z.eqb_spec var 0); [reflexivity|]. destruct (Z.eqb_spec var 1); [reflexivity|].
  destruct (Z.eqb_spec var 2); [reflexivity|lia].
Qed.

Lemma mjoin_if {A B} (f : A -> bool) (g : A -> B) l :
  mjoin (map (fun x => if f x then [g x] else []) l) = map g (List.filter f l).
Proof. induction l as [|x l IH]; simpl; [done|]. destruct (f x); simpl; rewrite <- IH; done. Qed.

Lemma mask_text_words m var :
  hw_is_mask var = true ->
  calls_text (snd_mask_print m var) = concat_text (map (String " ") (mask_words m var)).
Proof.
  intros Hv. unfold snd_mask_print, mask_words. destruct (_snd_mask_empty m); [done|].
  destruct (mask_is_full m); [done|].
  rewrite (List.map_ext _ (fun i => if nz (_snd_mask_test m i)
                                    then [CallPrintf true (String " " (bit_name var i))] else [])).
  - rewrite mjoin_if. unfold calls_text. rewrite !List.map_map. done.
  - intros i. rewrite mask_bit_text_name by done. done.
Qed.

Lemma mask_test_nz m i : mask_wf m -> 0 <= i < SND_MASK_MAX -> nz (_snd_mask_test m i) = true <-> in_mask m i.
Proof.
  intros Hm Hi. pose proof (mask_test_spec m i Hm Hi) as Ht. rewrite nz_true.
  destruct (decide (in_mask m i)) as [Hin|Hin].
  - split; [done|]. intros _ H0. rewrite H0 in Ht. change (u32 0) with 0 in Ht. symmetry in Ht. revert Ht.
    unfold MASK_BIT. clear. assert (H : 0 <= Z.land i 31 < 32) by (change 31 with (Z.ones 5); rewrite Z.land_ones by lia; apply Z.mod_pos_bound; lia).
    rewrite Z.shiftl_1_l, u32_id.
    + pose proof (Z.pow_pos_nonneg 2 (Z.land i 31)). lia.
    + unfold is_u32, UINT_MAX. pose proof (Z.pow_pos_nonneg 2 (Z.land i 31)).
      pose proof (Z.pow_le_mono_r 2 (Z.land i 31) 31). lia.
  - split; [|done]. intros Hne. destruct Hne. pose proof (s32_range (Z.land (word m (MASK_OFS i)) (MASK_BIT i))) as Hr.
    fold (_snd_mask_test m i) in Hr. rewrite <- (s32_id _ Hr). unfold s32. rewrite Ht. done.
Qed.

Lemma set_bits_spec m i : mask_wf m -> In i (set_bits m) <-> in_mask m i.
Proof.
  intros Hm. unfold set_bits. rewrite List.filter_In, zseq_In. rewrite Z2Nat.id by (unfold SND_MASK_MAX; lia). split.
  - intros [Hi Ht]. apply mask_test_nz in Ht; done || (unfold SND_MASK_MAX in *; lia).
  - intros Hin. pose proof Hin as [Hi _]. split; [lia|]. apply mask_test_nz; done.
Qed.

(** Every bit has a name. *)
Definition named (m : snd_mask_t) (var : Z) : Prop :=
  forall i, in_mask m i -> is_Some (name_at (name_table var) i).

(** The names are single words, differ, and are not the words for none and all. *)
Definition table_ok (t : list (option string)) : Prop :=
  (Z.of_nat (length t) < SND_MASK_MAX) /\
  Forall (fun s => all_chars not_space s = true /\ all_chars not_newline s = true /\ s <> "NONE"%string /\ s <> "ALL"%string)
    (omap id t) /\
  NoDup (omap id t).

#[local] Instance table_ok_dec t : Decision (table_ok t).
Proof. unfold table_ok. apply _. Defined.

Lemma tables_ok var : hw_is_mask var = true -> table_ok (name_table var).
Proof.
  intros Hv%mask_var_range. assert (var = 0 \/ var = 1 \/ var = 2) as [->|[->| ->]] by lia; by_decide.
Qed.

#[local] Transparent name_at.

(** Entries of a table that differ are found in one place. *)
Lemma name_at_inj t i j s :
  NoDup (omap id t) -> name_at t i = Some s -> name_at t j = Some s -> i = j.
Proof.
  unfold name_at, nthz. intros Hnd. destruct (Z.ltb_spec i 0), (Z.ltb_spec j 0); try done. intros H1 H2.
  enough (Z.to_nat i = Z.to_nat j) by lia. clear H H0. revert H1 H2. generalize (Z.to_nat i), (Z.to_nat j).
  clear i j. assert (Hin : forall n t, nth n t None = Some s -> s ∈ omap id t).
  { intros n. induction n as [|n IH]; intros [|[x|] t'] H; simpl in *; simplify_eq; set_solver. }
  induction t as [|x t IH]; intros [|n] [|m] H1 H2; simpl in *; simplify_eq; try done.
  - simpl in Hnd. apply NoDup_cons in Hnd as [Hnd _]. destruct Hnd. eauto.
  - simpl in Hnd. apply NoDup_cons in Hnd as [Hnd _]. destruct Hnd. eauto.
  - f_equal. apply IH; try done. destruct x; simpl in Hnd; [apply NoDup_cons in Hnd as [_ Hnd]|]; done.
Qed.

Lemma name_at_elem t i s : name_at t i = Some s -> s ∈ omap id t.
Proof.
  unfold name_at, nthz. destruct (i <? 0); [done|]. generalize (Z.to_nat i). clear i. intros n.
  revert t. induction n as [|n IH]; intros [|[x|] t'] H; simpl in *; simplify_eq; set_solver.
Qed.

Lemma named_bit m var i :
  hw_is_mask var = true -> named m var -> in_mask m i ->
  exists s, name_at (name_table var) i = Some s /\ bit_name var i = s /\ all_chars not_space s = true /\
    s <> "NONE"%string.
Proof.
  intros Hv Hm Hi. destruct (Hm i Hi) as [s Hs]. exists s. unfold bit_name. rewrite Hs. split; [done|].
  split; [done|]. destruct (tables_ok var Hv) as (_ & Ht & _).
  apply name_at_elem in Hs. rewrite Forall_forall in Ht. destruct (Ht s Hs) as (? & _ & ? & _). done.
Qed.

(** A named mask is never full. *)
Lemma named_not_full m var : hw_is_mask var = true -> mask_wf m -> named m var -> mask_is_full m = false.
Proof.
  intros Hv Hm Hn. destruct (mask_is_full m) eqn:Hf; [|done]. exfalso.
  unfold mask_is_full in Hf. rewrite forallb_Forall_eq in Hf.
  assert (Hin : in_mask m (32 * 7 + 31)).
  { apply in_mask_word; [done|done|]. rewrite (word_forall m _ Hm) in Hf.
    specialize (Hf 7 ltac:(done)). simpl in Hf. apply Z.eqb_eq in Hf. rewrite Hf. done. }
  destruct (Hn _ Hin) as [s Hs]. destruct (tables_ok var Hv) as (Hl & _).
  unfold name_at, nthz in Hs. simpl in Hs. rewrite nth_overflow in Hs; [done|]. unfold SND_MASK_MAX in Hl. lia.
Qed.

Lemma mask_words_plain m var :
  hw_is_mask var = true -> mask_wf m -> named m var ->
  Forall (fun s => all_chars not_space s = true) (mask_words m var).
Proof.
  intros Hv Hm Hn. unfold mask_words. destruct (_snd_mask_empty m); [repeat constructor|].
  rewrite (named_not_full m var) by done. apply List.Forall_map, List.Forall_forall. intros i Hi%set_bits_spec; [|done].
  destruct (named_bit m var i Hv Hn Hi) as (s & _ & -> & H & _). done.
Qed.

(** The words of a mask, but for the one that means none, are those of its bits. *)
Lemma mask_words_bits m var s :
  hw_is_mask var = true -> mask_wf m -> named m var -> s <> "NONE"%string ->
  (In s (mask_words m var) <-> exists i, in_mask m i /\ name_at (name_table var) i = Some s).
Proof.
  intros Hv Hm Hn Hs. unfold mask_words. destruct (_snd_mask_empty m) eqn:He.
  - rewrite mask_empty_spec in He by done. split; [intros [H|[]]; congruence|]. intros (i & Hi & _). destruct (He i Hi).
  - rewrite (named_not_full m var) by done. rewrite in_map_iff. split.
    + intros (i & Hi & Hin%set_bits_spec); [|done]. destruct (named_bit m var i Hv Hn Hin) as (t & Ht & Hb & _).
      exists i. split; [done|]. congruence.
    + intros (i & Hin & Hi). exists i. split; [|apply set_bits_spec; done]. unfold bit_name. rewrite Hi. done.
Qed.

(** Masks with the same text are the same. *)
Lemma mask_text_determines m m' var :
  hw_is_mask var = true -> mask_wf m -> mask_wf m' -> named m var -> named m' var ->
  calls_text (snd_mask_print m var) = calls_text (snd_mask_print m' var) -> m = m'.
Proof.
  intros Hv Hm Hm' Hn Hn'. rewrite !mask_text_words by done. intros H.
  apply words_inj in H; [|apply mask_words_plain; done..].
  assert (Hone : forall m1 m2, mask_wf m1 -> mask_wf m2 -> named m1 var -> named m2 var ->
            mask_words m1 var = mask_words m2 var -> forall i, in_mask m1 i -> in_mask m2 i).
  { clear - Hv. intros m1 m2 H1 H2 N1 N2 He i Hi.
    destruct (named_bit m1 var i Hv N1 Hi) as (s & Hs & _ & _ & Hne).
    assert (Hin : In s (mask_words m2 var)) by (rewrite <- He; apply mask_words_bits; eauto).
    apply mask_words_bits in Hin as (j & Hj & Hjs); try done.
    destruct (tables_ok var Hv) as (_ & _ & Hnd).
    rewrite (name_at_inj _ i j s Hnd Hs Hjs). done. }
  apply mask_ext; [done|done|]. intros i. split; eauto.
Qed.

(** ** The lines of a dump *)

Definition header (k : Z) : string := fmt_s (name_at snd_pcm_hw_param_names k) +:+ ": ".
Definition body (p : snd_pcm_hw_params_t) (k : Z) : string := calls_text (snd_pcm_hw_param_dump p k).

Lemma dump_lines p :
  calls_text (hw_params_calls p) =
  concat_text (map (fun k => header k +:+ body p k +:+ String "010" EmptyString) dumped_params).
Proof.
  unfold hw_params_calls. induction dumped_params as [|k l IH]; [done|].
  change (mjoin (map (dump_one_param p) (k :: l))) with (dump_one_param p k ++ mjoin (map (dump_one_param p) l)).
  cbn [map concat_text].
  rewrite calls_text_app, IH. f_equal. unfold dump_one_param. rewrite calls_text_cons, calls_text_app. done.
Qed.

Lemma dumped_params_spec k : In k dumped_params <-> valid_var k.
Proof.
  unfold dumped_params. rewrite in_app_iff, !zseq_In. unfold valid_var, hw_is_mask, hw_is_interval.
  rewrite !andb_true_iff, !Z.leb_le. unfold HW_PARAM_FIRST_MASK, HW_PARAM_LAST_MASK, HW_PARAM_FIRST_INTERVAL,
    HW_PARAM_LAST_INTERVAL, HW_PARAM_ACCESS, HW_PARAM_SUBFORMAT, HW_PARAM_SAMPLE_BITS, HW_PARAM_TICK_TIME. lia.
Qed.

(** Every bit of the masks has a name. *)
Definition all_named (p : snd_pcm_hw_params_t) : Prop :=
  forall k, hw_is_mask k = true -> named (hw_param_mask p k) k.

(** No interval that is not marked empty lacks a value. *)
Definition intervals_live (p : snd_pcm_hw_params_t) : Prop :=
  forall k, hw_is_interval k = true ->
    iempty (hw_param_interval p k) = true \/ exists x, in_interval (hw_param_interval p k) x.

Lemma interval_text_line i : interval_wf i -> all_chars not_newline (interval_text i) = true.
Proof.
  intros Hi%shape_of_ok. rewrite interval_text_shape.
  assert (Hu : forall v, 0 <= v -> all_chars not_newline (fmt_u v) = true).
  { intros v Hv. apply (all_chars_imp is_digit); [|apply digits_pretty; done].
    intros c Hc. unfold not_newline. destruct (Ascii.eqb_spec c "010") as [->|]; done. }
  destruct (shape_of i) as [| |v|o a b o']; cbn [shape_text shape_ok] in *; [done|done|auto|].
  rewrite !all_chars_app, !Hu by tauto. destruct o, o'; done.
Qed.

Lemma body_line p k : params_wf p -> all_named p -> all_chars not_newline (body p k) = true.
Proof.
  intros Hp Hn. unfold body, snd_pcm_hw_param_dump. destruct (hw_is_mask k) eqn:Hk.
  - rewrite mask_text_words by done. apply all_chars_concat, List.Forall_map, List.Forall_forall.
    intros s Hs. simpl. unfold hw_param_mask_c in Hs. specialize (Hn k Hk).
    pose proof (wf_mask p k Hp) as Hm. destruct (String.eqb_spec s "NONE"); [subst; done|].
    apply mask_words_bits in Hs as (i & Hi & His); try done.
    destruct (tables_ok k Hk) as (_ & Ht & _). apply name_at_elem in His.
    rewrite Forall_forall in Ht. apply (Ht s His).
  - destruct (hw_is_interval k) eqn:Hi; [|done]. unfold snd_interval_print. rewrite calls_text_cons.
    cbn [call_text]. rewrite all_chars_app, interval_text_line; [done|apply wf_interval; done].
Qed.

(** The text of a dump determines the parameters. *)
Lemma dump_text_determines p q :
  params_wf p -> params_wf q -> all_named p -> all_named q -> intervals_live p -> intervals_live q ->
  calls_text (hw_params_calls p) = calls_text (hw_params_calls q) ->
  (forall k, hw_is_mask k = true -> hw_param_mask p k = hw_param_mask q k) /\
  (forall k z, hw_is_interval k = true -> allows (hw_param_interval p k) z <-> allows (hw_param_interval q k) z).
Proof.
  intros Hp Hq Np Nq Lp Lq. rewrite !dump_lines. intros H.
  assert (Hb : forall k, valid_var k -> body p k = body q k).
  { intros k Hk. apply (lines_inj header (body p) (body q) dumped_params); [|done|apply dumped_params_spec; done].
    intros x _. split; apply body_line; done. }
  split.
  - intros k Hk. specialize (Hb k (or_introl Hk)). unfold body, snd_pcm_hw_param_dump in Hb. rewrite Hk in Hb.
    apply mask_text_determines in Hb; auto with salsa.
  - intros k z Hk. specialize (Hb k (or_intror Hk)). unfold body, snd_pcm_hw_param_dump in Hb. rewrite Hk in Hb.
    destruct (hw_is_mask k) eqn:Hm; [apply mask_not_interval in Hm; congruence|].
    unfold snd_interval_print in Hb. rewrite !calls_text_cons in Hb. cbn [call_text] in Hb.
    change (calls_text []) with EmptyString in Hb. rewrite !append_empty_r in Hb.
    apply interval_text_determines; auto with salsa.
Qed.

(** ** Dumps to a stream *)

Section Stream.
Context {K : Type} `{!Os K, !Stdio K}.

(** What has been written to the stream [fp], which takes everything it is given. *)
Variable written : K -> string.

Definition reliable (fp : Z) : Prop :=
  (forall t k, written (file_write fp t k).2 = written k +:+ t) /\
  (forall t k, written (file_puts fp t k).2 = written k +:+ t) /\
  (forall c k, written (file_putc fp c k).2 =
               written k +:+ String (ascii_of_nat (Z.to_nat (u8 c))) EmptyString).

Implicit Types w : world K.

Lemma run_calls_stream calls o w :
  out_mode o = SND_OUTPUT_STDIO -> reliable (out_ptr o) ->
  let '(r, w') := run_calls calls o w in
  r = Some o /\ held w' = held w /\ written (ker w') = written (ker w) +:+ calls_text calls.
Proof.
  intros Ho Hr. pose proof Hr as (Hw & Hs & Hc). revert w. induction calls as [|c calls IH]; intros w.
  - simpl. rewrite append_empty_r. done.
  - cbn [run_calls]. unfold bind at 1.
    assert (H1 : let '(r, w') := run_call c o w in
                 r = Some o /\ held w' = held w /\ written (ker w') = written (ker w) +:+ call_text c).
    { unfold run_call, snd_output_printf, snd_output_puts, snd_output_putc. rewrite Ho.
      change (SND_OUTPUT_STDIO =? SND_OUTPUT_STDIO) with true.
      destruct c as [cv t|s|z]; unfold bind, lift, ret; simpl.
      - specialize (Hw t (ker w)). destruct (file_write _ _ _). done.
      - specialize (Hs s (ker w)). destruct (file_puts _ _ _). done.
      - specialize (Hc z (ker w)). destruct (file_putc _ _ _). done. }
    destruct (run_call c o w) as [r w1]. destruct H1 as (-> & H1 & H2).
    specialize (IH w1). destruct (run_calls calls o w1) as [r w2]. destruct IH as (-> & H3 & H4).
    rewrite calls_text_cons. split; [done|]. split; [congruence|]. rewrite H4, H2, append_assoc_text. done.
Qed.

(** C33. What a parameter dump writes to a stream determines the parameters: two sets whose
    masks have named bits only and whose dumps are the same text have the same masks, and
    their intervals allow the same numbers. *)
Theorem hw_dump_determines p q o (w w' : world K) :
  out_mode o = SND_OUTPUT_STDIO -> reliable (out_ptr o) ->
  params_wf p -> params_wf q -> all_named p -> all_named q -> intervals_live p -> intervals_live q ->
  written (ker w) = written (ker w') ->
  written (ker (snd_pcm_hw_params_dump p o w).2) = written (ker (snd_pcm_hw_params_dump q o w').2) ->
  (forall k, hw_is_mask k = true -> hw_param_mask p k = hw_param_mask q k) /\
  (forall k z, hw_is_interval k = true -> allows (hw_param_interval p k) z <-> allows (hw_param_interval q k) z).
Proof.
  intros Ho Hr Hp Hq Np Nq Lp Lq Hw. unfold snd_pcm_hw_params_dump, dump, bind, ret.
  pose proof (run_calls_stream (hw_params_calls p) o w Ho Hr) as H1.
  pose proof (run_calls_stream (hw_params_calls q) o w' Ho Hr) as H2.
  destruct (run_calls _ o w) as [r1 w1], (run_calls _ o w') as [r2 w2].
  destruct H1 as (_ & _ & H1), H2 as (_ & _ & H2). cbn [snd]. rewrite H1, H2, Hw.
  intros H%append_inj_l. apply dump_text_determines; done.
Qed.
End Stream.

(** ** Dumps to a buffer *)

Section Buffer.
Context {K : Type} `{!Os K, !OsLaws K, !Stdio K}.

Implicit Types w : world K.

(** A buffer as it was opened, with [n] characters in it. *)
Definition buf_at (cs : list (option Z)) (o : snd_output_t) : Prop :=
  buf_ok o /\ out_size o = CHUNK /\ out_len o = Z.of_nat (length cs) /\ contents o = cs.

(** A call that the block has room for and that does not reach the first [n] characters. *)
Definition quiet (n : Z) (c : out_call) : Prop :=
  match c with
  | CallPrintf _ t => strlen t <= 100
  | CallPuts s => n <= strlen s <= 100
  | CallPutc _ => False
  end.

Lemma set_mem_at cs o m :
  buf_at cs o -> length m = length (out_mem o) ->
  take (Z.to_nat (out_len o)) m = take (Z.to_nat (out_len o)) (out_mem o) -> buf_at cs (set_mem o m).
Proof.
  intros ((H1 & H2 & H3 & H4) & Hs & Hl & Hc) Hm Ht. split; [|split; [done|split; [done|]]].
  - split; [done|]. split; [simpl; rewrite Hm; done|done].
  - unfold contents in *. simpl. rewrite Ht. done.
Qed.

Lemma run_quiet_call cs c o w :
  buf_at cs o -> Z.of_nat (length cs) <= 1000 -> quiet (Z.of_nat (length cs)) c ->
  exists o', run_call c o w = (Some o', w) /\ buf_at cs o'.
Proof.
  intros Hb Hn Hq. pose proof Hb as ((H1 & H2 & H3 & H4) & Hs & Hl & Hc). unfold CHUNK in *.
  unfold run_call. destruct c as [cv t|s|z]; [| |destruct Hq]; simpl in Hq.
  - unfold snd_output_printf. rewrite H1. change (SND_OUTPUT_BUFFER =? SND_OUTPUT_STDIO) with false.
    destruct (store_text_ok (out_mem o) (out_len o) (out_size o - out_len o) t) as (m & -> & Hm & Ht); [lia..|].
    cbn [set_mem out_size out_len]. destruct (Z.leb_spec (out_size o - out_len o) (strlen t)); [lia|].
    exists (set_mem o m). split; [done|]. apply set_mem_at; done.
  - unfold snd_output_puts. rewrite H1. change (SND_OUTPUT_BUFFER =? SND_OUTPUT_STDIO) with false.
    destruct (Z.leb_spec (out_size o - out_len o) (strlen s)); [lia|].
    destruct (store_spec (out_mem o) (strlen s) (chars s ++ [0])) as (m & Hst & Hm & Ht); [lia| |].
    { rewrite length_app. simpl. pose proof (strlen_chars s). lia. }
    unfold bind, ret. cbn [fst snd]. change (0 <? 0) with false. cbv iota. rewrite Hst.
    exists (set_mem o m). split; [done|]. apply set_mem_at; [done..|].
    apply (f_equal (take (Z.to_nat (out_len o)))) in Ht. rewrite take_take, Nat.min_l in Ht by lia. rewrite Ht.
    assert (Hlen : (Z.to_nat (strlen s) <= length (out_mem o))%nat) by lia.
    rewrite take_app_le by (rewrite length_take; lia). rewrite take_take, Nat.min_l by lia. done.
Qed.

Lemma run_quiet cs calls o w :
  buf_at cs o -> Z.of_nat (length cs) <= 1000 -> Forall (quiet (Z.of_nat (length cs))) calls ->
  exists o', run_calls calls o w = (Some o', w) /\ buf_at cs o'.
Proof.
  intros Hb Hn Hq. revert o Hb. induction Hq as [|c calls Hc Hq IH]; intros o Hb; [eauto|].
  destruct (run_quiet_call cs c o w Hb Hn Hc) as (o1 & Hr & Hb1).
  destruct (IH o1 Hb1) as (o2 & Hr2 & Hb2). exists o2. cbn [run_calls]. unfold bind. rewrite Hr. done.
Qed.

Lemma run_calls_app l k o w :
  run_calls (l ++ k) o w =
  (let '(r, w') := run_calls l o w in match r with Some o' => run_calls k o' w' | None => (None, w') end).
Proof.
  revert o w. induction l as [|c l IH]; intros o w; [done|]. cbn [app run_calls]. unfold bind.
  destruct (run_call c o w) as [[o1|] w1]; [apply IH|done].
Qed.

Lemma run_newline cs o w :
  buf_at cs o -> Z.of_nat (length cs) <= 1000 ->
  exists o', run_call (CallPutc 10) o w = (Some o', w) /\ buf_at (cs ++ [Some 10]) o'.
Proof.
  intros ((H1 & H2 & H3 & H4) & Hs & Hl & Hc) Hn. unfold CHUNK in *.
  unfold run_call, snd_output_putc, bind, ret. rewrite H1. change (SND_OUTPUT_BUFFER =? SND_OUTPUT_STDIO) with false.
  destruct (Z.leb_spec (out_size o) (out_len o + 1)); [lia|]. change (0 <? 0) with false. cbv iota.
  destruct (store_spec (out_mem o) (out_len o) [u8 10]) as (m & -> & Hm & Ht); [lia|simpl; lia|].
  eexists. split; [reflexivity|]. unfold buf_at, buf_ok, contents. simpl. rewrite Hm, length_app. simpl.
  split; [split; [done|lia]|]. split; [done|]. split; [lia|].
  replace (Z.to_nat (out_len o + 1)) with (Z.to_nat (out_len o) + length [u8 10])%nat by (simpl; lia).
  rewrite Ht. unfold contents in Hc. rewrite Hc. done.
Qed.

Lemma strlen_append a b : strlen (a +:+ b) = strlen a + strlen b.
Proof. unfold strlen. rewrite length_append_nat. lia. Qed.

(** A name of a table, or the text for none, is short. *)
Lemma short_entry t i :
  Forall (fun s => strlen s <= 50) (omap id t) -> strlen (fmt_s (name_at t i)) <= 50.
Proof.
  intros Ht. destruct (name_at t i) as [s|] eqn:Hs; [|done]. simpl. apply name_at_elem in Hs.
  rewrite Forall_forall in Ht. auto.
Qed.

Lemma interval_text_short i : interval_wf i -> strlen (interval_text i) <= 100.
Proof.
  intros Hi. pose proof Hi as (Hmin & Hmax & _).
  assert (Hu : forall v, is_u32 v -> strlen (fmt_u v) <= 10).
  { intros v Hv%length_pretty_u32. unfold strlen. change (fmt_u v) with (pretty v). lia. }
  rewrite interval_text_shape. unfold shape_of. repeat case_match; cbn [shape_text]; try done.
  - specialize (Hu _ Hmin). lia.
  - rewrite !strlen_append. pose proof (Hu _ Hmin). pose proof (Hu _ Hmax).
    assert (strlen (if openmin i then "(" else "[") = 1) by (destruct (openmin i); done).
    assert (strlen (if openmax i then ")" else "]") = 1) by (destruct (openmax i); done).
    change (strlen " ") with 1. lia.
Qed.

Lemma body_quiet p k n :
  params_wf p -> valid_var k -> (hw_is_mask k = true -> n <= 4) -> Forall (quiet n) (snd_pcm_hw_param_dump p k).
Proof.
  intros Hp Hk Hn. unfold snd_pcm_hw_param_dump. destruct (hw_is_mask k) eqn:Hm.
  - specialize (Hn eq_refl). unfold snd_mask_print. destruct (_snd_mask_empty _).
    { constructor; [|constructor]. simpl. change (strlen " NONE") with 5. lia. }
    destruct (mask_is_full _).
    { constructor; [|constructor]. simpl. change (strlen " ALL") with 4. lia. }
    apply Forall_forall. intros c Hc. apply list_elem_of_join in Hc as (l & Hc & Hl).
    apply list_elem_of_In, in_map_iff in Hl as (i & <- & _). destruct (nz _); [|apply elem_of_nil in Hc; done].
    rewrite mask_bit_text_name in Hc by done. apply list_elem_of_singleton in Hc as ->. simpl.
    change (String " " (bit_name k i)) with (" " +:+ bit_name k i). rewrite strlen_append.
    unfold bit_name. pose proof (short_entry (name_table k) i). change (strlen " ") with 1.
    enough (Forall (fun s => strlen s <= 50) (omap id (name_table k))) by intuition lia.
    apply mask_var_range in Hm. assert (k = 0 \/ k = 1 \/ k = 2) as [->|[->| ->]] by lia; by_decide.
  - destruct (hw_is_interval k) eqn:Hi; [|constructor]. unfold snd_interval_print. constructor; [|constructor].
    simpl. apply interval_text_short. apply wf_interval. done.
Qed.

Lemma header_quiet k n : quiet n (CallPrintf true (header k)).
Proof.
  simpl. unfold header. rewrite strlen_append. change (strlen ": ") with 2.
  pose proof (short_entry snd_pcm_hw_param_names k). enough (Forall (fun s => strlen s <= 50) (omap id snd_pcm_hw_param_names)) by intuition lia.
  by_decide.
Qed.

Lemma run_line cs p k o w :
  params_wf p -> valid_var k -> buf_at cs o -> Z.of_nat (length cs) <= 1000 ->
  (hw_is_mask k = true -> Z.of_nat (length cs) <= 4) ->
  exists o', run_calls (dump_one_param p k) o w = (Some o', w) /\ buf_at (cs ++ [Some 10]) o'.
Proof.
  intros Hp Hk Hb Hn Hm. unfold dump_one_param. rewrite app_comm_cons, run_calls_app.
  destruct (run_quiet cs (CallPrintf true (header k) :: snd_pcm_hw_param_dump p k) o w Hb Hn) as (o1 & Hr & Hb1).
  { constructor; [apply header_quiet|apply body_quiet; done]. }
  unfold header in Hr. rewrite Hr. destruct (run_newline cs o1 w Hb1 Hn) as (o2 & Hr2 & Hb2).
  exists o2. cbn [run_calls]. unfold bind. rewrite Hr2. done.
Qed.

Lemma run_lines cs p l o w :
  params_wf p -> Forall valid_var l -> buf_at cs o -> Z.of_nat (length cs + length l) <= 1000 ->
  (forall j k, l !! j = Some k -> hw_is_mask k = true -> (length cs + j <= 4)%nat) ->
  exists o', run_calls (mjoin (map (dump_one_param p) l)) o w = (Some o', w) /\
    buf_at (cs ++ replicate (length l) (Some 10)) o'.
Proof.
  intros Hp Hl. revert cs o. induction Hl as [|k l Hk Hl IH]; intros cs o Hb Hn Hm.
  - exists o. simpl. rewrite app_nil_r. done.
  - simpl in Hn. destruct (run_line cs p k o w Hp Hk Hb) as (o1 & Hr & Hb1); [lia| |].
    { intros Hk'. specialize (Hm 0%nat k eq_refl Hk'). lia. }
    destruct (IH (cs ++ [Some 10]) o1 Hb1) as (o2 & Hr2 & Hb2).
    { rewrite length_app. simpl. lia. }
    { intros j k' Hj Hk'. specialize (Hm (S j) k' Hj Hk'). rewrite length_app. simpl. lia. }
    exists o2. change (mjoin (map (dump_one_param p) (k :: l))) with (dump_one_param p k ++ mjoin (map (dump_one_param p) l)).
    rewrite run_calls_app, Hr. split; [done|]. simpl. rewrite <- app_assoc in Hb2. done.
Qed.

Definition newlines (n : nat) : list (option Z) := replicate n (Some 10).

(** C34. A parameter dump to a new buffer leaves a string of 15 newlines: each
    [snd_output_printf] writes its text over the last one, without making the string
    longer, and only the [snd_output_putc] at the end of a line is kept. *)
Theorem hw_dump_buffer_newlines p h (w w1 : world K) :
  params_wf p -> snd_output_buffer_open w = ((0, h), w1) ->
  exists o o', h = Some o /\ snd_pcm_hw_params_dump p o w1 = ((0, Some o'), w1) /\
    snd_output_buffer_string o' = (15, out_mem o') /\
    take 15 (out_mem o') = newlines 15.
Proof.
  intros Hp Hopen. pose proof (buffer_open_spec w) as Ho.
  unfold snd_output_buffer_open, bind, ret, resize, bind, ret in *.
  destruct (sys_alloc sizeof_output w) as [[a|] w0]; [|discriminate].
  simpl out_len in *. simpl out_ptr in *. change (s32 (0 + 0 + CHUNK)) with 4000 in *.
  destruct (sys_realloc 0 (u64 4000) w0) as [[b|] w2]; [|discriminate]. injection Hopen as <- <-. cbn [Z.eqb] in Ho.
  set (o := set_buffer _ _ _ _) in *. destruct Ho as ((Hok & _) & Hl).
  assert (Hb : buf_at [] o) by (split; [done|]; split; [done|]; split; [done|]; done).
  destruct (run_lines [] p dumped_params o w2 Hp) as (o' & Hr & Hb').
  - apply Forall_forall. intros k Hk. apply dumped_params_spec, list_elem_of_In. done.
  - exact Hb.
  - vm_compute. discriminate.
  - intros j k Hj Hk%mask_var_range. do 3 (destruct j as [|j]; [simpl; lia|]).
    exfalso. assert (Hd : Forall (fun k => 3 <= k) (drop 3 dumped_params)) by by_decide.
    rewrite Forall_lookup in Hd. specialize (Hd j k). rewrite lookup_drop in Hd. specialize (Hd Hj). lia.
  - exists o, o'. split; [done|]. unfold snd_pcm_hw_params_dump, dump, hw_params_calls, bind, ret. rewrite Hr.
    split; [done|]. destruct Hb' as (_ & _ & Hl' & Hc'). change (length dumped_params) with 15%nat in *.
    unfold snd_output_buffer_string. simpl in Hl'. rewrite Hl'. split; [done|].
    unfold contents in Hc'. rewrite Hl' in Hc'. exact Hc'.
Qed.
End Buffer.

Section PcmDump.
Context {K : Type} `{!Os K, !Stdio K, !CardKernel K}.
Variable written : K -> string.
Variable rate_text : Z -> Z -> string.

Lemma card_get_name_spec c (w : world K) :
  let '((err, name), w') := snd_card_get_name c w in
  match name with
  | Some (block, _) => err = 0 /\ held w' ≡ₚ RMem block :: held w
  | None => held w' ≡ₚ held w
  end.
Proof.
  unfold snd_card_get_name, bind at 1.
  assert (Hb : balanced (get_card_info (K := K) c)) by (unfold get_card_info; balanced_tac). specialize (Hb w).
  destruct (get_card_info c w) as [[err info] w1]. cbn [snd] in Hb. destruct (err <? 0); [cbn; rewrite Hb; done|].
  unfold bind, ret. pose proof (alloc_spec (Z.of_nat (String.length (ci_name info)) + 1) w1) as Ha.
  destruct (sys_alloc _ w1) as [[a|] w2]; [|rewrite Ha, Hb; done]. split; [done|]. rewrite Ha, Hb. done.
Qed.

(** A dump of a handle to a stream gives back the copy of the card's name: it writes the
    card's line and, for a configured handle, its set-up; or it fails as the look-up of the
    card did and writes nothing. *)
Theorem pcm_dump_stream pcm o (w : world K) :
  out_mode o = SND_OUTPUT_STDIO -> reliable written (out_ptr o) ->
  let '((err, name), w0) := snd_card_get_name (card pcm) w in
  let '((r, o'), w') := snd_pcm_dump rate_text pcm o w in
  o' = Some o /\ held w' ≡ₚ held w /\
  match name with
  | None => r = err /\ written (ker w') = written (ker w0)
  | Some (_, name) =>
      r = 0 /\ exists t, written (ker w') = written (ker w0) +:+ call_text (card_line pcm name) +:+ t /\
        (if setup pcm then t = "Its setup is:" +:+ String "010" (calls_text (setup_calls rate_text pcm)) else t = EmptyString)
  end.
Proof.
  intros Ho Hr. unfold snd_pcm_dump, bind at 1. pose proof (card_get_name_spec (card pcm) w) as Hn.
  destruct (snd_card_get_name (card pcm) w) as [[err [[block name]|]] w0]; [|done].
  destruct Hn as [-> Hn]. change (0 <? 0) with false. cbv iota. unfold bind at 1.
  match goal with |- context [run_calls ?l o w0] => set (calls := l) end.
  pose proof (run_calls_stream written calls o w0 Ho Hr) as Hs.
  destruct (run_calls calls o w0) as [r w1]. destruct Hs as (-> & Hh & Hw).
  unfold bind, ret, sys_free, drop_resource. cbn [fst snd held ker].
  split; [done|]. split; [rewrite Hh, Hn, release_head; done|]. split; [done|].
  rewrite Hw. unfold calls. rewrite calls_text_cons.
  destruct (setup pcm); eexists; (split; [reflexivity|done]).
Qed.
End PcmDump.

(** ** A system that keeps the text, for the witness *)

#[local] Instance log_os : Os string := {
  os_open _ _ := ret 3;
  os_close _ := ret 0;
  os_setfl _ _ := ret 0;
  os_getfl _ := ret 0;
  os_access_ok _ := ret true;
  os_mmap _ _ _ := ret 4096;
  os_munmap _ _ := ret 0;
  os_alloc _ _ := ret None;
  os_poll _ _ _ := ret (1, 4);
  os_sleep _ := ret tt;
  os_page_size := 4096
}.

#[local] Instance log_stdio : Stdio string := {
  file_open _ _ := ret 77;
  file_close _ := ret 0;
  file_write _ t := fun k => (strlen t, k +:+ t);
  file_puts _ t := fun k => (1, k +:+ t);
  file_putc _ c := fun k => (c, k +:+ String (ascii_of_nat (Z.to_nat (u8 c))) EmptyString);
  file_flush _ := ret 0;
  file_stdout := 1;
  file_stderr := 2
}.

(** RW_INTERLEAVED, S16_LE, STD, and from 3 to 7 of everything, integers or not. *)
Definition printed_params (n : bool) : snd_pcm_hw_params_t :=
  HwParams 0 [_snd_mask_set _snd_mask_none 3; _snd_mask_set _snd_mask_none 2; _snd_mask_set _snd_mask_none 0]
    (replicate 12 (Interval 3 7 false false n false)) 0 0 0 0 0 0 0.

Lemma printed_wf n : params_wf (printed_params n).
Proof. destruct n; by_decide. Defined.

Lemma printed_named n : all_named (printed_params n).
Proof.
  intros k Hk i Hi. pose proof (wf_mask _ k (printed_wf n)) as Hw. apply (set_bits_spec _ i Hw) in Hi.
  apply mask_var_range in Hk. assert (k = 0 \/ k = 1 \/ k = 2) as [->|[->| ->]] by lia; vm_compute in Hi;
    destruct Hi as [<-|[]]; eexists; reflexivity.
Defined.

Lemma printed_live n : intervals_live (printed_params n).
Proof.
  intros k Hk%interval_var_range. right. exists (inject_Z 5).
  assert (He : hw_param_interval (printed_params n) k = Interval 3 7 false false n false).
  { unfold hw_param_interval, nthz. change HW_PARAM_FIRST_INTERVAL with 8. destruct (Z.ltb_spec (k - 8) 0); [lia|].
    cbn [printed_params intervals]. rewrite nth_lookup, lookup_replicate_2 by lia. done. }
  rewrite He. split; [done|]. split; [done|]. split; [done|]. intros _. exists 5. reflexivity.
Defined.

Lemma hw_dump_determines_witness :
  let dumped n := ker (snd_pcm_hw_params_dump (printed_params n) (Output 1 SND_OUTPUT_STDIO 77 0 0 []) (World "" [])).2 in
  dumped true = dumped false /\
  (forall k, hw_is_mask k = true -> hw_param_mask (printed_params true) k = hw_param_mask (printed_params false) k) /\
  (forall k z, hw_is_interval k = true ->
     allows (hw_param_interval (printed_params true) k) z <-> allows (hw_param_interval (printed_params false) k) z).
Proof.
  intros dumped. assert (Hd : dumped true = dumped false) by (vm_compute; reflexivity).
  split; [exact Hd|].
  apply (hw_dump_determines (fun k => k) (printed_params true) (printed_params false)
    (Output 1 SND_OUTPUT_STDIO 77 0 0 []) (World "" []) (World "" []));
    [reflexivity|split; [|split]; reflexivity|apply printed_wf|apply printed_wf|apply printed_named|apply printed_named
    |apply printed_live|apply printed_live|reflexivity|exact Hd].
Defined.

#[local] Instance silent_stdio : Stdio Z := {
  file_open _ _ := ret 77;
  file_close _ := ret 0;
  file_write _ t := ret (strlen t);
  file_puts _ _ := ret 1;
  file_putc _ c := ret c;
  file_flush _ := ret 0;
  file_stdout := 1;
  file_stderr := 2
}.

Lemma hw_dump_buffer_newlines_witness :
  let '((e, h), w1) := snd_output_buffer_open (K := Z) (World 0 []) in
  e = 0 /\ exists o o', h = Some o /\ snd_pcm_hw_params_dump (printed_params true) o w1 = ((0, Some o'), w1) /\
    snd_output_buffer_string o' = (15, out_mem o') /\
    take 15 (out_mem o') = newlines 15.
Proof.
  destruct (snd_output_buffer_open (K := Z) (World 0 [])) as [[e h] w1] eqn:He.
  assert (Hz : e = 0) by (vm_compute in He; injection He as <- _ _; reflexivity). subst e.
  split; [reflexivity|]. exact (hw_dump_buffer_newlines (printed_params true) h (World 0 []) w1 (printed_wf true) He).
Defined.
