(* ===== verification/MmapCopy.v ===== *)
(** * Transfers through the mapped buffer

    [snd_pcm_mmap_writei] and [snd_pcm_mmap_readi] (src/src/pcm_macros.h 2188-2211) on the
    bytes of memory: the window that [snd_pcm_mmap_begin] offers, the [memcpy] and the
    commit together move whole frames between the caller's buffer and the channels' areas
    ([snd_pcm_channel_area_addr]). *)

From stdpp Require Import gmap.
From S2P Require Import Prelude CInt Sys Cards Async Format PcmTypes Pcm Toy PcmSpec Area.
#[local] Open Scope Z_scope.

(** The [memcpy] of a transfer, done. *)
Definition copied (m : mem) (c : copy) : mem := memcpy m (copy_dst c) (copy_src c) (copy_bytes c).

(** The areas of an interleaved buffer of whole-byte samples at [base], as the kernel
    describes them: samples of [sb] bytes, the channels of a frame one after the other,
    the first byte of the first frame [f0] bytes in; offsets in bits are 32-bit. *)
Record interleaved (pcm : snd_pcm_t) (base sb f0 : Z) : Prop := {
  il_sample : 0 < sb;
  il_first : 0 <= f0;
  il_channels : 0 < channels pcm;
  il_frame : frame_bits pcm = 8 * (channels pcm * sb);
  il_areas : exists b, running_areas pcm =
    Some (b, map (fun c => PcmTypes.Area base (8 * (f0 + c * sb)) (8 * (channels pcm * sb)))
               (zseq 0 (Z.to_nat (channels pcm))));
  il_range : 8 * (f0 + buffer_size pcm * (channels pcm * sb)) <= UINT_MAX
}.

(** Where sample [f] of channel [c] is. *)
Definition frame_addr (pcm : snd_pcm_t) (base sb f0 c f : Z) : Z :=
  base + f0 + f * (channels pcm * sb) + c * sb.

Section MmapCopy.
Context {K : Type} `{!Os K, !AsyncKernel K, !PcmKernel K}.
Implicit Types s : ps K.

Section Layout.
Context (pcm : snd_pcm_t) (base sb f0 : Z) (Hil : interleaved pcm base sb f0).

(** The frame size of the buffer bounds everything below. *)
Lemma frame_size_pos : 0 < channels pcm * sb.
Proof using Hil. destruct Hil. nia. Qed.

(** The library finds a sample where it is. *)
Lemma area_frame_addr c f :
  0 <= c < channels pcm -> 0 <= f < buffer_size pcm ->
  snd_pcm_channel_area_addr (PcmTypes.Area base (8 * (f0 + c * sb)) (8 * (channels pcm * sb))) f =
  frame_addr pcm base sb f0 c f.
Proof using Hil.
  intros Hc Hf. pose proof frame_size_pos as Hp. destruct Hil. unfold snd_pcm_channel_area_addr, frame_addr. simpl.
  assert (Hb : (f + 1) * (channels pcm * sb) <= buffer_size pcm * (channels pcm * sb)) by nia.
  rewrite u32_id by (unfold is_u32; nia).
  replace (8 * (f0 + c * sb) + 8 * (channels pcm * sb) * f) with ((f0 + c * sb + channels pcm * sb * f) * 8) by lia.
  rewrite Z.div_mul by lia. lia.
Qed.

Lemma first_area_addr f :
  0 <= f < buffer_size pcm ->
  snd_pcm_channel_area_addr (first_area (running_areas pcm)) f = frame_addr pcm base sb f0 0 f.
Proof using Hil.
  intros Hf. destruct (il_areas _ _ _ _ Hil) as [b ->].
  pose proof (il_channels _ _ _ _ Hil). destruct (Z.to_nat (channels pcm)) as [|n] eqn:Hn; [lia|].
  cbn [zseq map first_area]. apply area_frame_addr; lia.
Qed.

Lemma frames_to_bytes_spec n :
  0 <= n <= buffer_size pcm -> u64 (snd_pcm_frames_to_bytes pcm (s64 n)) = n * (channels pcm * sb).
Proof using Hil.
  intros Hn. pose proof frame_size_pos as Hp. destruct Hil. unfold snd_pcm_frames_to_bytes, UINT_MAX in *.
  assert (Hb : n * (channels pcm * sb) <= buffer_size pcm * (channels pcm * sb)) by nia.
  assert (Hb2 : buffer_size pcm <= buffer_size pcm * (channels pcm * sb)) by nia.
  rewrite (s64_id n) by (unfold is_s64, LONG_MAX; lia). rewrite il_frame0.
  rewrite s64_id by (unfold is_s64, LONG_MAX; nia).
  replace (n * (8 * (channels pcm * sb))) with (n * (channels pcm * sb) * 8) by lia.
  rewrite Z.quot_mul by lia. apply u64_id. unfold is_u64, ULONG_MAX. nia.
Qed.
End Layout.

Lemma same_handle_layout p p' base sb f0 :
  same_handle p p' -> interleaved p base sb f0 -> interleaved p' base sb f0.
Proof. intros (sp & sw & -> & _) []. constructor; done. Qed.

(** A transfer's window: the frames that fit are the copy's and the commit's. *)
Lemma mmap_window s size base sb f0 :
  interleaved (the_pcm s) base sb f0 -> 0 < buffer_size (the_pcm s) -> is_u64 size ->
  let bs := buffer_size (the_pcm s) in
  let '(ct, s1) := get_control s in
  let '(avail, s2) := snd_pcm_mmap_avail s1 in
  let offset := appl_ptr ct `mod` bs in
  let n := Z.min size (Z.min avail (bs - offset)) in
  let '(r, s') := snd_pcm_mmap_commit offset n s2 in
  r = n /\ 0 <= n /\ 0 <= offset /\ offset + n <= bs /\
  (forall buffer, snd_pcm_mmap_writei buffer size s =
     ((n, Copy (snd_pcm_channel_area_addr (first_area (running_areas (the_pcm s))) offset) buffer
            (n * (channels (the_pcm s) * sb))), s')) /\
  (forall buffer, snd_pcm_mmap_readi buffer size s =
     ((n, Copy buffer (snd_pcm_channel_area_addr (first_area (running_areas (the_pcm s))) offset)
            (n * (channels (the_pcm s) * sb))), s')).
Proof.
  intros Hil Hbs Hsize bs.
  assert (Hmax : 0 < bs <= LONG_MAX).
  { pose proof (frame_size_pos _ _ _ _ Hil). destruct Hil. unfold UINT_MAX, LONG_MAX in *. fold bs in il_range0, Hbs. nia. }
  pose proof (mmap_begin_eq s size Hmax) as He. fold bs in He.
  pose proof (quiet_get_control s) as [Hh1 _]. destruct (get_control s) as [ct s1].
  pose proof (quiet_mmap_avail s1) as [Hh2 _]. pose proof (mmap_avail_nonneg s1) as Hav.
  destruct (snd_pcm_mmap_avail s1) as [av s2]. cbn [fst snd] in *.
  set (offset := appl_ptr ct `mod` bs) in *. set (n := Z.min size (Z.min av (bs - offset))) in *.
  assert (Hoff : 0 <= offset < bs) by (apply Z.mod_pos_bound; lia). unfold is_u64 in Hsize.
  assert (Hh : same_handle (the_pcm s) (the_pcm s2)) by (etrans; eauto).
  assert (Hb : u64 (snd_pcm_frames_to_bytes (the_pcm s2) (s64 n)) = n * (channels (the_pcm s) * sb)).
  { pose proof (frames_to_bytes_spec _ _ _ _ (same_handle_layout _ _ _ _ _ Hh Hil) n) as Hb.
    destruct Hh as (sp & sw & Heq & _). rewrite Heq in Hb |- *. apply Hb. simpl. fold bs. lia. }
  destruct (snd_pcm_mmap_commit offset n s2) as [r s'] eqn:Hc.
  assert (Hr : r = n).
  { unfold snd_pcm_mmap_commit, bind, getp, ret in Hc. repeat case_match. injection Hc as <- _. apply s64_id. unfold is_s64. lia. }
  subst r. split; [done|]. split; [lia|]. split; [lia|]. split; [lia|].
  split; intros buffer; unfold snd_pcm_mmap_writei, snd_pcm_mmap_readi, bind, getp, ret; rewrite He;
    cbn [the_pcm]; rewrite Hc, Hb; done.
Qed.

(** The frames of a window as bytes. *)
Definition in_window (pcm : snd_pcm_t) (start n sb x : Z) : Prop := start <= x < start + n * (channels pcm * sb).

(** C30. [snd_pcm_mmap_writei] on an interleaved buffer writes whole frames into it: it
    returns the number of frames written, the smallest of those asked for, those with room
    and those up to the buffer's end; sample [f] of each channel, at the address the
    channel's area gives for frame offset + [f], is the caller's sample; no other byte
    changes; and just these frames are committed.  (The caller's buffer lies outside the
    window, as [memcpy] asks.) *)
Theorem mmap_writei_moves s buffer size base sb f0 (m : mem) :
  interleaved (the_pcm s) base sb f0 -> 0 < buffer_size (the_pcm s) -> is_u64 size ->
  let pcm := the_pcm s in
  let '(ct, s1) := get_control s in
  let '(avail, s2) := snd_pcm_mmap_avail s1 in
  let offset := appl_ptr ct `mod` buffer_size pcm in
  let n := Z.min size (Z.min avail (buffer_size pcm - offset)) in
  (forall x, in_window pcm (frame_addr pcm base sb f0 0 offset) n sb x -> ~ in_window pcm buffer n sb x) ->
  let '((r, c), s') := snd_pcm_mmap_writei buffer size s in
  r = n /\ snd_pcm_mmap_commit offset n s2 = (n, s') /\
  (forall ch a b areas f k, running_areas pcm = Some (b, areas) -> areas !! Z.to_nat ch = Some a ->
     0 <= ch < channels pcm -> 0 <= f < n -> 0 <= k < sb ->
     rd (copied m c) (snd_pcm_channel_area_addr a (offset + f) + k) =
     rd m (buffer + f * (channels pcm * sb) + ch * sb + k)) /\
  (forall x, ~ in_window pcm (frame_addr pcm base sb f0 0 offset) n sb x -> rd (copied m c) x = rd m x).
Proof.
  intros Hil Hbs Hsize pcm. pose proof (mmap_window s size base sb f0 Hil Hbs Hsize) as Hw.
  destruct (get_control s) as [ct s1]. destruct (snd_pcm_mmap_avail s1) as [av s2].
  fold pcm in Hw |- *. cbv zeta in Hw |- *. set (offset := appl_ptr ct `mod` buffer_size pcm) in *.
  set (n := Z.min size (Z.min av (buffer_size pcm - offset))) in *. intros _.
  destruct (snd_pcm_mmap_commit offset n s2) as [r s']. destruct Hw as (-> & Hn & Ho & Hle & Hwrite & _).
  rewrite Hwrite. split; [done|]. split; [done|].
  fold pcm in Hil. pose proof (frame_size_pos _ _ _ _ Hil) as Hp.
  assert (Hlen : 0 <= n * (channels pcm * sb)) by (apply Z.mul_nonneg_nonneg; lia).
  unfold copied. cbn [copy_dst copy_src copy_bytes]. split.
  - intros ch a b areas f k Hra Ha Hch Hf Hk.
    destruct (il_areas _ _ _ _ Hil) as [b' Hra']. rewrite Hra' in Hra. injection Hra as _ <-.
    rewrite list_lookup_fmap, zseq_lookup in Ha by lia. injection Ha as <-.
    rewrite Z2Nat.id, Z.add_0_l, (area_frame_addr _ _ _ _ Hil) by lia.
    rewrite (first_area_addr _ _ _ _ Hil) by lia. rewrite memcpy_rd by done. unfold frame_addr.
    rewrite decide_True by nia. f_equal. lia.
  - intros x Hx. destruct (Z.eq_dec n 0) as [Hz|Hz].
    + rewrite memcpy_rd by done. rewrite decide_False by (rewrite Hz; lia). done.
    + rewrite (first_area_addr _ _ _ _ Hil) by lia. rewrite memcpy_rd by done. rewrite decide_False; [done|]. exact Hx.
Qed.

(** The other direction: [snd_pcm_mmap_readi] brings the samples of the window into the
    caller's buffer, in the same order, and changes nothing else. *)
Theorem mmap_readi_moves s buffer size base sb f0 (m : mem) :
  interleaved (the_pcm s) base sb f0 -> 0 < buffer_size (the_pcm s) -> is_u64 size ->
  let pcm := the_pcm s in
  let '(ct, s1) := get_control s in
  let '(avail, s2) := snd_pcm_mmap_avail s1 in
  let offset := appl_ptr ct `mod` buffer_size pcm in
  let n := Z.min size (Z.min avail (buffer_size pcm - offset)) in
  (forall x, in_window pcm (frame_addr pcm base sb f0 0 offset) n sb x -> ~ in_window pcm buffer n sb x) ->
  let '((r, c), s') := snd_pcm_mmap_readi buffer size s in
  r = n /\ snd_pcm_mmap_commit offset n s2 = (n, s') /\
  (forall ch a b areas f k, running_areas pcm = Some (b, areas) -> areas !! Z.to_nat ch = Some a ->
     0 <= ch < channels pcm -> 0 <= f < n -> 0 <= k < sb ->
     rd (copied m c) (buffer + f * (channels pcm * sb) + ch * sb + k) =
     rd m (snd_pcm_channel_area_addr a (offset + f) + k)) /\
  (forall x, ~ in_window pcm buffer n sb x -> rd (copied m c) x = rd m x).
Proof.
  intros Hil Hbs Hsize pcm. pose proof (mmap_window s size base sb f0 Hil Hbs Hsize) as Hw.
  destruct (get_control s) as [ct s1]. destruct (snd_pcm_mmap_avail s1) as [av s2].
  fold pcm in Hw |- *. cbv zeta in Hw |- *. set (offset := appl_ptr ct `mod` buffer_size pcm) in *.
  set (n := Z.min size (Z.min av (buffer_size pcm - offset))) in *. intros _.
  destruct (snd_pcm_mmap_commit offset n s2) as [r s']. destruct Hw as (-> & Hn & Ho & Hle & _ & Hread).
  rewrite Hread. split; [done|]. split; [done|].
  fold pcm in Hil. pose proof (frame_size_pos _ _ _ _ Hil) as Hp.
  assert (Hlen : 0 <= n * (channels pcm * sb)) by (apply Z.mul_nonneg_nonneg; lia).
  unfold copied. cbn [copy_dst copy_src copy_bytes]. split.
  - intros ch a b areas f k Hra Ha Hch Hf Hk.
    destruct (il_areas _ _ _ _ Hil) as [b' Hra']. rewrite Hra' in Hra. injection Hra as _ <-.
    rewrite list_lookup_fmap, zseq_lookup in Ha by lia. injection Ha as <-.
    rewrite Z2Nat.id, Z.add_0_l, (area_frame_addr _ _ _ _ Hil) by lia.
    rewrite (first_area_addr _ _ _ _ Hil) by lia. rewrite memcpy_rd by done. unfold frame_addr.
    rewrite decide_True by nia. f_equal. lia.
  - intros x Hx. rewrite memcpy_rd by done. rewrite decide_False; [done|]. exact Hx.
Qed.
End MmapCopy.

(** ** A witness

    The playback of PcmSpec.v, with two interleaved 16-bit channels mapped at 65536: 924
    frames fit behind the 76 queued before the buffer's end. *)

Definition mapped_playing : ps Z :=
  PS (put_running_areas (Some (9, [PcmTypes.Area 65536 0 32; PcmTypes.Area 65536 16 32])) (the_pcm playing))
    (prc playing).

Lemma mapped_interleaved : interleaved (the_pcm mapped_playing) 65536 2 0.
Proof. constructor; try (vm_compute; (reflexivity || discriminate)). exists 9. reflexivity. Defined.

Lemma mmap_writei_moves_witness :
  let '((r, c), s') := snd_pcm_mmap_writei 4096 8 mapped_playing in
  r = 8 /\ c = Copy (65536 + 76 * 4) 4096 32 /\
  forall x, ~ in_window (the_pcm mapped_playing) (frame_addr (the_pcm mapped_playing) 65536 2 0 0 76) 8 2 x ->
    rd (copied {[4096 := 7]} c) x = rd {[4096 := 7]} x.
Proof.
  pose proof (mmap_writei_moves mapped_playing 4096 8 65536 2 0 {[4096 := 7]} mapped_interleaved) as H.
  assert (H1 : 0 < buffer_size (the_pcm mapped_playing)) by reflexivity.
  assert (H2 : is_u64 8) by by_decide.
  specialize (H H1 H2). cbv zeta in H.
  change (get_control mapped_playing) with (MmapControl 1100 1, mapped_playing) in H. cbv iota beta in H.
  change (snd_pcm_mmap_avail mapped_playing) with (924, mapped_playing) in H. cbv iota beta in H.
  change (Z.min 8 (Z.min 924 (buffer_size (the_pcm mapped_playing) -
    appl_ptr (MmapControl 1100 1) `mod` buffer_size (the_pcm mapped_playing)))) with 8 in H.
  change (appl_ptr (MmapControl 1100 1) `mod` buffer_size (the_pcm mapped_playing)) with 76 in H.
  assert (Hsep : forall x, in_window (the_pcm mapped_playing) (frame_addr (the_pcm mapped_playing) 65536 2 0 0 76) 8 2 x ->
                 ~ in_window (the_pcm mapped_playing) 4096 8 2 x).
  { intros x. unfold in_window, frame_addr. cbn [channels the_pcm mapped_playing playing put_running_areas put_shared put_configuration]. lia. }
  specialize (H Hsep).
  assert (Hc : (snd_pcm_mmap_writei 4096 8 mapped_playing).1 = (8, Copy (65536 + 76 * 4) 4096 32)) by reflexivity.
  destruct (snd_pcm_mmap_writei 4096 8 mapped_playing) as [[r c] s']. cbn [fst] in Hc. injection Hc as -> ->.
  destruct H as (_ & _ & _ & H). split; [reflexivity|]. split; [reflexivity|]. exact H.
Defined.
