(* ===== verification/Accessors.v ===== *)
(** * Accessors of the high-level handles, and walking the mixer

    What is left of src/src/ctl_macros.h, src/src/hctl_macros.h and
    src/src/mixer_macros.h: the information a control handle gives about other devices, the
    fields of an element of hcontrol, polling through hcontrol and the mixer, and the
    identifiers of simple elements.  Walking a mixer's elements by
    [snd_mixer_first_elem] and [snd_mixer_elem_next] is shown to visit each of them. *)

From stdpp Require Import gmap strings.
From Stdlib Require Import String.
From S2P Require Import Prelude CInt Sys Cards Async CtlTypes Control Hcontrol Mixer MixerOk MixerSelem.
From S2P Require Import IoDev Rawmidi Hwdep CtlFields PcmInfo MixerVolume MixerLife ControlSpec HcontrolSpec Toy.
#[local] Open Scope Z_scope.

(** ** Other devices of a card *)

Class CtlInfoKernel (K : Type) := {
  ioctl_ctl_hwdep_info : Z -> snd_hwdep_info_t -> io K (Z * snd_hwdep_info_t);
  ioctl_ctl_pcm_info : Z -> snd_pcm_info_t -> io K (Z * snd_pcm_info_t);
  ioctl_ctl_rawmidi_info : Z -> snd_rawmidi_info_t -> io K (Z * snd_rawmidi_info_t)
}.

Section CtlInfo.
Context {K : Type} `{!Os K, !CtlInfoKernel K}.

(* [ctl_macros.h 173-178 snd_ctl_hwdep_info] *)
Definition snd_ctl_hwdep_info (ctl : snd_ctl_t) (info : snd_hwdep_info_t) : io (world K) (Z * snd_hwdep_info_t) :=
  answer (ioctl_ctl_hwdep_info (ctl_fd ctl) info).

(* [ctl_macros.h 189-194 snd_ctl_pcm_info] *)
Definition snd_ctl_pcm_info (ctl : snd_ctl_t) (info : snd_pcm_info_t) : io (world K) (Z * snd_pcm_info_t) :=
  answer (ioctl_ctl_pcm_info (ctl_fd ctl) info).

(* [ctl_macros.h 213-218 snd_ctl_rawmidi_info] *)
Definition snd_ctl_rawmidi_info (ctl : snd_ctl_t) (info : snd_rawmidi_info_t) : io (world K) (Z * snd_rawmidi_info_t) :=
  answer (ioctl_ctl_rawmidi_info (ctl_fd ctl) info).
End CtlInfo.

(** ** Elements of hcontrol *)

Section HctlAccess.
Context {K U : Type} `{!Os K, !AsyncKernel K, !CardKernel K, !CtlKernel K}.

#[local] Abbreviation H := (io (hs K U)).

(* [hctl_macros.h 69-73 snd_hctl_set_compare] *)
Definition snd_hctl_set_compare (compare : Z) : H Z := ret 0.

(* [hctl_macros.h 75-79 snd_hctl_poll_descriptors_count] *)
Definition snd_hctl_poll_descriptors_count : H Z :=
  let* h := geth in ret (snd_ctl_poll_descriptors_count (hctl_ctl h)).

(* [hctl_macros.h 81-85 snd_hctl_poll_descriptors] *)
Definition snd_hctl_poll_descriptors (space : Z) : H (Z * pollfd) :=
  let* h := geth in ret (snd_ctl_poll_descriptors (hctl_ctl h) space).

(* [hctl_macros.h 87-91 snd_hctl_poll_descriptors_revents] *)
Definition snd_hctl_poll_descriptors_revents (pfds : pollfd) (nfds : Z) : H (Z * Z) :=
  let* h := geth in ret (snd_ctl_poll_descriptors_revents (hctl_ctl h) pfds nfds).

(* [hctl_macros.h 117-121 snd_hctl_ctl] *)
Definition snd_hctl_ctl : H snd_ctl_t := let* h := geth in ret (hctl_ctl h).

(** The address of the handle. *)
(* [hctl_macros.h 186-190 snd_hctl_elem_get_hctl] *)
Definition snd_hctl_elem_get_hctl (elem : Z) : H Z := let* e := gete elem in ret (elem_hctl e).

Definition id_field {A} (f : snd_ctl_elem_id_t -> A) (obj : Z) : H A := let* e := gete obj in ret (f (elem_id e)).

(* [hctl_macros.h 198-202 snd_hctl_elem_get_numid] *)
Definition snd_hctl_elem_get_numid : Z -> H Z := id_field snd_ctl_elem_id_get_numid.
(* [hctl_macros.h 204-208 snd_hctl_elem_get_interface] *)
Definition snd_hctl_elem_get_interface : Z -> H Z := id_field snd_ctl_elem_id_get_interface.
(* [hctl_macros.h 210-214 snd_hctl_elem_get_device] *)
Definition snd_hctl_elem_get_device : Z -> H Z := id_field snd_ctl_elem_id_get_device.
(* [hctl_macros.h 216-220 snd_hctl_elem_get_subdevice] *)
Definition snd_hctl_elem_get_subdevice : Z -> H Z := id_field snd_ctl_elem_id_get_subdevice.
(* [hctl_macros.h 222-226 snd_hctl_elem_get_name] *)
Definition snd_hctl_elem_get_name : Z -> H string := id_field snd_ctl_elem_id_get_name.
(* [hctl_macros.h 228-232 snd_hctl_elem_get_index] *)
Definition snd_hctl_elem_get_index : Z -> H Z := id_field snd_ctl_elem_id_get_index.
End HctlAccess.

(** ** Simple element identifiers *)

(* [mixer_macros.h 74-77 _snd_mixer_selem_id] *)
Record snd_mixer_selem_id_t := SelemId { sel_name : string; sel_index : Z }.

(* [mixer_macros.h 558-562 snd_mixer_selem_id_get_name] *)
Definition snd_mixer_selem_id_get_name := sel_name.
(* [mixer_macros.h 564-568 snd_mixer_selem_id_get_index] *)
Definition snd_mixer_selem_id_get_index := sel_index.
(** [strncpy] over the 60 bytes, the last of them made 0. *)
(* [mixer_macros.h 570-575 snd_mixer_selem_id_set_name] *)
Definition snd_mixer_selem_id_set_name (obj : snd_mixer_selem_id_t) (val : string) : snd_mixer_selem_id_t :=
  SelemId (String.substring 0 59 val) (sel_index obj).
(* [mixer_macros.h 577-581 snd_mixer_selem_id_set_index] *)
Definition snd_mixer_selem_id_set_index (obj : snd_mixer_selem_id_t) (val : Z) : snd_mixer_selem_id_t :=
  SelemId (sel_name obj) val.

Section MixerAccess.
Context {K W : Type} `{!Os K, !AsyncKernel K, !CardKernel K, !CtlKernel K, !MixerApp K W}.

#[local] Abbreviation M := (io (hs K (mx W))).
Implicit Types s : hs K (mx W).

(* [mixer_macros.h 105-109 snd_mixer_poll_descriptors_count] *)
Definition snd_mixer_poll_descriptors_count : M Z := ret 1.

(* [mixer_macros.h 111-116 snd_mixer_poll_descriptors] *)
Definition snd_mixer_poll_descriptors (space : Z) : M (Z * pollfd) := snd_hctl_poll_descriptors space.

(* [mixer_macros.h 118-124 snd_mixer_poll_descriptors_revents] *)
Definition snd_mixer_poll_descriptors_revents (pfds : pollfd) (nfds : Z) : M (Z * Z) :=
  snd_hctl_poll_descriptors_revents pfds nfds.

(* [mixer_macros.h 166-170 snd_mixer_get_callback_private] *)
Definition snd_mixer_get_callback_private : M Z := let* m := getm in ret (mixer_callback_private m).

(* [mixer_macros.h 191-195 snd_mixer_elem_get_callback_private] *)
Definition snd_mixer_elem_get_callback_private (elem : Z) : M Z := let* e := getx elem in ret (m_callback_private e).

(** [SND_MIXER_ELEM_SIMPLE]. *)
(* [mixer_macros.h 197-201 snd_mixer_elem_get_type] *)
Definition snd_mixer_elem_get_type (elem : Z) : M Z := ret 0.

(* [mixer_macros.h 209-217 snd_mixer_wait] *)
Definition snd_mixer_wait (timeout : Z) : M Z :=
  let* '(_, pfd) := snd_mixer_poll_descriptors 1 in
  let* '(r, _) := onhp (onsys (lift (os_poll (pfd_fd pfd) (pfd_events pfd) timeout))) in
  ret (if r <? 0 then r else 0).

(** The handle is there as long as one is attached. *)
(* [mixer_macros.h 233-241 snd_mixer_get_hctl] *)
Definition snd_mixer_get_hctl (attached : bool) (name : string) : M (Z * option Z) :=
  let* h := geth in ret (if attached then (0, Some (hctl_block h)) else (- ENOENT, None)).

(* [mixer_macros.h 250-254 snd_mixer_selem_get_name] *)
Definition snd_mixer_selem_get_name (elem : Z) : M string := let* e := getx elem in ret (sid_name e).

(* [mixer_macros.h 256-260 snd_mixer_selem_get_index] *)
Definition snd_mixer_selem_get_index (elem : Z) : M Z := let* e := getx elem in ret (sid_index e).

(** ** Walking *)

(** Follow [next] from an element to the first NULL; [None] where the fuel is spent. *)
Fixpoint walk (next : Z -> M Z) (fuel : nat) (elem : Z) : M (option (list Z)) :=
  match fuel with
  | O => ret None
  | S fuel =>
      if elem =? 0 then ret (Some [])
      else
        let* e := next elem in
        let* r := walk next fuel e in
        ret (option_map (cons elem) r)
  end.

(** The loop every application writes. *)
Definition elements_forward (fuel : nat) : M (option (list Z)) :=
  let* e := snd_mixer_first_elem in walk snd_mixer_elem_next fuel e.

Definition elements_backward (fuel : nat) : M (option (list Z)) :=
  let* e := snd_mixer_last_elem in walk snd_mixer_elem_prev fuel e.

Section Walk.
Context (s : hs K (mx W)) (Hok : mixer_ok (user s)).
Context (Hsome : 0 < m_count (the_mixer (user s)) <= UINT_MAX).
Context (Hnz : 0 ∉ entries (user s)).

#[local] Abbreviation n := (Z.to_nat (m_count (the_mixer (user s)))).

Lemma entries_length : length (entries (user s)) = n.
Proof using Hok Hsome.
  destruct Hok as (_ & [Hc Ha _ _] & _). unfold entries. rewrite length_take. lia.
Qed.

Lemma entry_at k : (k < n)%nat -> entries (user s) !! k = Some (nthz 0 (pelems (the_mixer (user s))) (Z.of_nat k)).
Proof using Hok Hsome.
  intros Hk. destruct Hok as (_ & [Hc Ha _ _] & _). unfold entries. rewrite lookup_take, decide_True by lia.
  unfold nthz. destruct (Z.ltb_spec (Z.of_nat k) 0); [lia|]. rewrite Nat2Z.id.
  destruct (nth_lookup_or_length (pelems (the_mixer (user s))) k 0) as [He|He]; [exact He|lia].
Qed.

(** An element of the array knows where it is. *)
Lemma entry_index k e : entries (user s) !! k = Some e -> m_index (default zero_melem (melems (user s) !! e)) = Z.of_nat k.
Proof using Hok Hsome.
  intros Hk. destruct Hok as (_ & [_ _ _ Hl] & Hi).
  destruct (Hl e (list_elem_of_lookup_2 _ _ _ Hk)) as [E HE]. rewrite HE. exact (Hi k e E Hk HE).
Qed.

Lemma next_entry k e :
  entries (user s) !! k = Some e -> snd_mixer_elem_next e s = (default 0 (entries (user s) !! S k), s).
Proof using Hok Hsome.
  intros Hk. pose proof (lookup_lt_Some _ _ _ Hk) as Hlt. rewrite entries_length in Hlt.
  unfold snd_mixer_elem_next, getx, getm, getu, pelem, bind, ret. cbn [fst snd].
  rewrite (entry_index k e Hk), (u32_id (_ - 1)) by (unfold is_u32; lia).
  destruct (Z.eqb_spec (Z.of_nat k) (m_count (the_mixer (user s)) - 1)).
  - rewrite lookup_ge_None_2 by (rewrite entries_length; lia). done.
  - rewrite entry_at by lia. rewrite u32_id by (unfold is_u32; lia). unfold bind, getm, getu, ret. simpl.
    do 2 f_equal. lia.
Qed.

Lemma prev_entry k e :
  entries (user s) !! k = Some e ->
  snd_mixer_elem_prev e s = (match k with O => 0 | S j => default 0 (entries (user s) !! j) end, s).
Proof using Hok Hsome.
  intros Hk. pose proof (lookup_lt_Some _ _ _ Hk) as Hlt. rewrite entries_length in Hlt.
  unfold snd_mixer_elem_prev, getx, pelem, getm, getu, bind, ret. cbn [fst snd].
  rewrite (entry_index k e Hk). destruct k as [|j]; [done|].
  destruct (Z.eqb_spec (Z.of_nat (S j)) 0); [lia|]. rewrite entry_at by lia. simpl. do 2 f_equal. lia.
Qed.

Lemma entry_nonzero k e : entries (user s) !! k = Some e -> (e =? 0) = false.
Proof using Hnz.
  intros Hk%list_elem_of_lookup_2. apply Z.eqb_neq. intros ->. done.
Qed.

Lemma walk_forward fuel k :
  (k <= n)%nat -> (n - k < fuel)%nat ->
  walk snd_mixer_elem_next fuel (default 0 (entries (user s) !! k)) s = (Some (drop k (entries (user s))), s).
Proof using Hok Hsome Hnz.
  revert k. induction fuel as [|fuel IH]; intros k Hk Hf; [lia|]. cbn [walk].
  destruct (entries (user s) !! k) as [e|] eqn:He; simpl.
  - rewrite (entry_nonzero k e He). unfold bind at 1. rewrite (next_entry k e He).
    pose proof (lookup_lt_Some _ _ _ He) as Hlt. rewrite entries_length in Hlt.
    unfold bind. rewrite IH by lia. unfold ret. simpl. rewrite (drop_S _ _ _ He). done.
  - apply lookup_ge_None_1 in He. rewrite drop_ge by done. done.
Qed.

Lemma walk_backward fuel k :
  (k <= n)%nat -> (k < fuel)%nat ->
  walk snd_mixer_elem_prev fuel (match k with O => 0 | S j => default 0 (entries (user s) !! j) end) s =
  (Some (rev (take k (entries (user s)))), s).
Proof using Hok Hsome Hnz.
  revert k. induction fuel as [|fuel IH]; intros k Hk Hf; [lia|]. cbn [walk].
  destruct k as [|j]; [done|]. rewrite (entry_at j) by lia. simpl.
  pose proof (entry_at j ltac:(lia)) as He. rewrite (entry_nonzero j _ He).
  unfold bind at 1. rewrite (prev_entry j _ He). unfold bind. rewrite IH by lia.
  unfold ret. simpl. rewrite (take_S_r _ _ _ He), rev_app_distr. done.
Qed.
End Walk.

(** C29. Walking a mixer's elements from [snd_mixer_first_elem] by [snd_mixer_elem_next]
    ends, visits every element of the array once in its order and changes nothing; from
    [snd_mixer_last_elem] by [snd_mixer_elem_prev] it visits them in reverse.  (An empty
    mixer has no first element: both functions then read outside the array.) *)
Theorem mixer_walk_visits s (fuel : nat) :
  mixer_ok (user s) -> 0 < m_count (the_mixer (user s)) <= UINT_MAX -> 0 ∉ entries (user s) ->
  (Z.to_nat (m_count (the_mixer (user s))) < fuel)%nat ->
  elements_forward fuel s = (Some (entries (user s)), s) /\
  elements_backward fuel s = (Some (rev (entries (user s))), s) /\ NoDup (entries (user s)).
Proof.
  intros Hok Hs Hz Hf. split; [|split].
  - unfold elements_forward, bind. unfold snd_mixer_first_elem, pelem, getm, getu, bind, ret.
    pose proof (entry_at s Hok Hs 0 ltac:(lia)) as H0.
    pose proof (walk_forward s Hok Hs Hz fuel 0 ltac:(lia) ltac:(lia)) as H. rewrite H0 in H. exact H.
  - unfold elements_backward, bind. unfold snd_mixer_last_elem, pelem, getm, getu, bind, ret.
    set (c := m_count (the_mixer (user s))) in *.
    destruct (Z.to_nat c) as [|j] eqn:Hj; [lia|].
    pose proof (entry_at s Hok Hs j) as H0. fold c in H0. rewrite Hj in H0. specialize (H0 ltac:(lia)).
    pose proof (walk_backward s Hok Hs Hz fuel (S j)) as H. fold c in H. rewrite Hj in H.
    specialize (H ltac:(lia) ltac:(lia)). cbv iota in H. rewrite H0 in H. simpl in H.
    replace (Z.of_nat j) with (c - 1) in H by lia. rewrite H.
    pose proof (entries_length s Hok Hs) as Hlen. fold c in Hlen. rewrite take_ge by lia. done.
  - destruct Hok as (_ & [_ _ Hnd _] & _). exact Hnd.
Qed.
End MixerAccess.

(** ** A witness: two elements without items *)

Definition plain_elem (name : string) (index : Z) : snd_mixer_elem_t :=
  MElem name 0 0 0 0 [0; 0] [0; 0; 0; 0; 0] index 0 0.

Definition two_elements : hs Z (mx (list (Z * Z))) :=
  HS (Hctl 0 toy_handle 0 0 0 0 0) ∅ toy_process
    (MX (Mixer 0 2 3 0 [8; 5; 0] 0 0 0 0) {[ 5 := plain_elem "PCM" 1; 8 := plain_elem "Master" 0 ]} ∅ ∅ []).

Lemma two_elements_lookup e E :
  melems (user two_elements) !! e = Some E ->
  e = 5 /\ E = plain_elem "PCM" 1 \/ e = 8 /\ E = plain_elem "Master" 0.
Proof.
  cbn [user two_elements melems]. intros [[<- <-]|[_ [<- <-]%lookup_singleton_Some]]%lookup_insert_Some; auto.
Qed.

Lemma two_elements_ok : mixer_ok (user two_elements).
Proof.
  assert (Hslot : forall e E t, melems (user two_elements) !! e = Some E -> slot t E = 0).
  { intros e E t [[_ ->]|[_ ->]]%two_elements_lookup; unfold slot, nthz; simpl;
      destruct (t <? 0); try done; generalize (Z.to_nat t); intros n; do 6 (destruct n as [|n]; [done|]); done. }
  split; [constructor|split; [constructor|]].
  - intros e E [[_ ->]|[_ ->]]%two_elements_lookup; done.
  - intros e E t He Hne. destruct Hne. eauto.
  - intros e E e' E' t t' He _ Hne. destruct Hne. eauto.
  - intros i it Hi. cbn in Hi. rewrite lookup_empty in Hi. done.
  - intros i it i' it' Hi. cbn in Hi. rewrite lookup_empty in Hi. done.
  - cbn. lia.
  - done.
  - by_decide.
  - intros e He. change (entries (user two_elements)) with [8; 5] in He.
    apply elem_of_cons in He as [->|He]; [eexists; reflexivity|].
    apply list_elem_of_singleton in He as ->. eexists; reflexivity.
  - intros k e E Hk [[-> ->]|[-> ->]]%two_elements_lookup; change (entries (user two_elements)) with [8; 5] in Hk;
      destruct k as [|[|k]]; simpl in Hk; simplify_eq; done.
Qed.

Lemma mixer_walk_visits_witness :
  elements_forward 3 two_elements = (Some [8; 5], two_elements) /\
  elements_backward 3 two_elements = (Some [5; 8], two_elements) /\ NoDup [8; 5].
Proof.
  apply (mixer_walk_visits two_elements 3); [apply two_elements_ok|cbn; unfold UINT_MAX; lia|by_decide|cbn; lia].
Defined.
