(* ===== verification/MmapPages.v ===== *)
(** * The shared pages and the ring

    What the two directions of a mapped stream have in common: the positions in the status
    and control pages, which the library reads and stores through [get_control] and
    [snd_pcm_mmap_commit] (src/src/pcm.c 1049-1060), and the frames of the ring at a position.
    [SharedPages] says that the pages are memory. *)

From stdpp Require Import gmap.
From S2P Require Import Prelude CInt Sys Cards Async Format PcmTypes Pcm PcmSpec Area MmapCopy.
#[local] Open Scope Z_scope.

(** Reading a shared page changes nothing; what is stored is what is read. *)
Class SharedPages (K : Type) `{!PcmKernel K} := {
  page_hw : K -> Z -> Z;
  page_control : K -> Z -> mmap_control_t;
  read_status a k : exists st, shared_status a k = (st, k) /\ hw_ptr st = page_hw k a;
  read_control a k : shared_control a k = (page_control k a, k);
  write_control a c k :
    page_control (set_shared_control a c k).2 a = c /\
    forall b, page_hw (set_shared_control a c k).2 b = page_hw k b
}.

Section Pages.
Context {K : Type} `{!Os K, !AsyncKernel K, !PcmKernel K, !SharedPages K}.
(** Where the ring and the two pages are, and the sample size. *)
Context (base sb f0 sa ca : Z).
Implicit Types s : ps K.

(** The handle of a mapped, interleaved stream; its boundary is the 0 it has in this
    library ([boundary_never_set] of PcmOpen.v). *)
Record mapped_pcm (pcm : snd_pcm_t) : Prop := {
  mp_ring : interleaved pcm base sb f0;
  mp_size : 0 < buffer_size pcm;
  mp_boundary : boundary pcm = 0;
  mp_sync : sync_ptr pcm = None;
  mp_status : mmap_status pcm = PtrMap sa;
  mp_control : mmap_control pcm = PtrMap ca
}.

Definition kern s : K := ker (wld (prc s)).
Definition hw_pos s : Z := page_hw (kern s) sa.
Definition appl_pos s : Z := appl_ptr (page_control (kern s) ca).

Definition with_ker (k : K) s : ps K :=
  PS (the_pcm s) (Proc (World k (held (wld (prc s)))) (async_list (prc s)) (sigio_ours (prc s)) (ptrs (prc s))).

Definition frame_size (pcm : snd_pcm_t) : Z := channels pcm * sb.

(** The bytes of one frame, of [n] frames in a row, and of the frame at a position. *)
Definition frame_at (pcm : snd_pcm_t) (m : mem) (a : Z) : list Z := map (rd m) (zseq a (Z.to_nat (frame_size pcm))).

Definition frames_at (pcm : snd_pcm_t) (m : mem) (a n : Z) : list (list Z) :=
  map (fun i => frame_at pcm m (a + i * frame_size pcm)) (zseq 0 (Z.to_nat n)).

Definition ring_addr (pcm : snd_pcm_t) (p : Z) : Z := base + f0 + p mod buffer_size pcm * frame_size pcm.

Definition ring_frames (pcm : snd_pcm_t) (m : mem) (p n : Z) : list (list Z) :=
  map (fun q => frame_at pcm m (ring_addr pcm q)) (zseq p (Z.to_nat n)).

Definition in_ring (pcm : snd_pcm_t) (x : Z) : Prop :=
  base + f0 <= x < base + f0 + buffer_size pcm * frame_size pcm.

(** ** The pages through the library *)

Lemma ps_eta s : PS (the_pcm s) (Proc (World (ker (wld (prc s))) (held (wld (prc s)))) (async_list (prc s))
  (sigio_ours (prc s)) (ptrs (prc s))) = s.
Proof. destruct s as [pcm [[k h] l b p]]. done. Qed.

Lemma get_control_page s :
  mapped_pcm (the_pcm s) -> get_control s = (page_control (kern s) ca, s).
Proof using Type*.
  intros Hm. unfold get_control, bind, getp. rewrite (mp_control _ Hm).
  unfold sysk, onworld, onproc, onsys, lift. rewrite read_control. rewrite ps_eta. done.
Qed.

Lemma with_ptrs_page (f : snd_pcm_t -> Z -> Z -> Z) s :
  mapped_pcm (the_pcm s) -> with_ptrs f s = (f (the_pcm s) (hw_pos s) (appl_pos s), s).
Proof using Type*.
  intros Hm. unfold with_ptrs, bind, getp. unfold get_status, bind, getp. rewrite (mp_status _ Hm).
  unfold sysk, onworld, onproc, onsys, lift. destruct (read_status sa (ker (wld (prc s)))) as (st & -> & Hst).
  rewrite ps_eta, get_control_page by done. unfold ret. rewrite Hst. done.
Qed.

Lemma advance_free a n : 0 <= a -> 0 <= n -> a + n <= LONG_MAX -> advance a n 0 = a + n.
Proof.
  unfold LONG_MAX. intros. unfold advance. rewrite (u64_id (a + n)) by (unfold is_u64, ULONG_MAX; lia).
  destruct (Z.leb_spec 0 (a + n)); [|lia]. rewrite Z.sub_0_r. apply u64_id. unfold is_u64, ULONG_MAX. lia.
Qed.

Lemma commit_page s offset n :
  mapped_pcm (the_pcm s) -> 0 <= n -> 0 <= appl_pos s -> appl_pos s + n <= LONG_MAX ->
  exists k, snd_pcm_mmap_commit offset n s = (s64 n, with_ker k s) /\
    page_hw k sa = hw_pos s /\ appl_ptr (page_control k ca) = appl_pos s + n.
Proof using Type*.
  intros Hm Hn Ha Hmax.
  set (c := MmapControl (appl_pos s + n) (mc_avail_min (page_control (kern s) ca))).
  exists (set_shared_control ca c (kern s)).2. destruct (write_control ca c (kern s)) as [Hc Hh].
  split; [|rewrite Hc, Hh; done].
  unfold snd_pcm_mmap_commit, bind at 1, getp at 1. unfold bind at 1. rewrite get_control_page by done.
  unfold set_appl_ptr, bind at 1. unfold bind at 1. rewrite get_control_page by done.
  fold (appl_pos s). rewrite (mp_boundary _ Hm), (advance_free (appl_pos s) n) by done. fold c.
  unfold set_control, bind at 1, getp at 1. rewrite (mp_control _ Hm). unfold sysk, onworld, onproc, onsys, lift.
  fold (kern s). destruct (set_shared_control ca c (kern s)) as [[] k'].
  unfold _snd_pcm_sync_ptr, bind, getp. cbn [the_pcm]. rewrite (mp_sync _ Hm). done.
Qed.

(** ** Frames of the ring *)

Lemma zseq_app a n m : zseq a (n + m) = zseq a n ++ zseq (a + Z.of_nat n) m.
Proof.
  revert a. induction n as [|n IH]; intros a; simpl; [rewrite Z.add_0_r; done|].
  rewrite IH. do 3 f_equal. lia.
Qed.

Lemma ring_frames_app pcm m p a b :
  0 <= a -> 0 <= b -> ring_frames pcm m p (a + b) = ring_frames pcm m p a ++ ring_frames pcm m (p + a) b.
Proof.
  intros Ha Hb. unfold ring_frames. rewrite Z2Nat.inj_add, zseq_app, map_app by lia. rewrite Z2Nat.id by lia. done.
Qed.

Lemma frame_at_ext pcm m m' a b :
  (forall k, 0 <= k < frame_size pcm -> rd m' (b + k) = rd m (a + k)) -> frame_at pcm m' b = frame_at pcm m a.
Proof.
  intros H. unfold frame_at. apply list_eq. intros i. rewrite !list_lookup_fmap.
  destruct (decide (i < Z.to_nat (frame_size pcm))%nat) as [Hi|Hi].
  - rewrite !zseq_lookup by done. simpl. f_equal. apply H. lia.
  - rewrite !lookup_ge_None_2 by (rewrite zseq_length; lia). done.
Qed.

Lemma ring_frames_length pcm m p n : 0 <= n -> Z.of_nat (length (ring_frames pcm m p n)) = n.
Proof. intros Hn. unfold ring_frames. rewrite length_map, zseq_length. lia. Qed.

(** Where the frames of the ring are. *)
Lemma ring_addr_in pcm p k :
  0 < buffer_size pcm -> 0 <= k < frame_size pcm -> in_ring pcm (ring_addr pcm p + k).
Proof.
  intros Hb Hk. unfold in_ring, ring_addr. pose proof (Z.mod_pos_bound p (buffer_size pcm) Hb). nia.
Qed.

Lemma ring_frames_ext pcm m m' p n :
  0 < buffer_size pcm -> (forall x, in_ring pcm x -> rd m' x = rd m x) ->
  ring_frames pcm m' p n = ring_frames pcm m p n.
Proof.
  intros Hb H. unfold ring_frames. apply map_ext. intros q. apply frame_at_ext. intros k Hk.
  apply H, ring_addr_in; done.
Qed.

(** Lists of frames are equal frame by frame. *)
Lemma map_zseq_ext {A} (f g : Z -> A) a b n :
  (forall i, 0 <= i < Z.of_nat n -> f (a + i) = g (b + i)) -> map f (zseq a n) = map g (zseq b n).
Proof.
  intros H. apply list_eq. intros i. rewrite !list_lookup_fmap. destruct (decide (i < n)%nat) as [Hi|Hi].
  - rewrite !zseq_lookup by done. simpl. f_equal. apply H. lia.
  - rewrite !lookup_ge_None_2 by (rewrite zseq_length; lia). done.
Qed.

(** Positions less than a buffer apart have different places, and their frames' bytes are
    apart. *)
Lemma places_apart bs p q : 0 < bs -> p < q < p + bs -> p mod bs <> q mod bs.
Proof.
  intros Hb Hpq He. pose proof (Z.div_mod p bs ltac:(lia)). pose proof (Z.div_mod q bs ltac:(lia)).
  assert (q - p = bs * (q / bs - p / bs)) by lia.
  assert (q / bs - p / bs <= 0 \/ 1 <= q / bs - p / bs) as [|] by lia; nia.
Qed.

Lemma frames_apart pcm p q x :
  0 < buffer_size pcm -> 0 < frame_size pcm -> p < q < p + buffer_size pcm ->
  ring_addr pcm p <= x < ring_addr pcm p + frame_size pcm ->
  ~ ring_addr pcm q <= x < ring_addr pcm q + frame_size pcm.
Proof.
  intros Hb Hf Hpq. unfold ring_addr. pose proof (places_apart _ p q Hb Hpq).
  set (a := p mod buffer_size pcm) in *. set (b := q mod buffer_size pcm) in *.
  assert (a < b \/ b < a) as [|] by lia; nia.
Qed.

(** Position [p + i] is [i] frames behind [p]'s place, up to the buffer's end. *)
Lemma position_mod bs p i : 0 < bs -> 0 <= i < bs - p mod bs -> (p + i) mod bs = p mod bs + i.
Proof.
  intros Hb Hi. pose proof (Z.div_mod p bs ltac:(lia)). pose proof (Z.mod_pos_bound p bs Hb).
  symmetry. apply Z.mod_unique_pos with (q := p / bs); lia.
Qed.
End Pages.

#[global] Arguments mp_ring {_ _ _ _ _} _ _.
#[global] Arguments mp_size {_ _ _ _ _} _ _.
#[global] Arguments mp_boundary {_ _ _ _ _} _ _.
#[global] Arguments mp_sync {_ _ _ _ _} _ _.
#[global] Arguments mp_status {_ _ _ _ _} _ _.
#[global] Arguments mp_control {_ _ _ _ _} _ _.

(** ** A kernel that is two shared pages, for the witnesses *)

Abbreviation pages := (Z * mmap_control_t)%type.

#[export] Instance pages_os : Os pages := {
  os_open _ _ := ret 3;
  os_close _ := ret 0;
  os_setfl _ _ := ret 0;
  os_getfl _ := ret 0;
  os_access_ok _ := ret true;
  os_mmap _ _ _ := ret 4096;
  os_munmap _ _ := ret 0;
  os_alloc _ _ := ret None;
  os_poll _ _ _ := ret (1, 4);
  os_sleep _ := ret tt;
  os_page_size := 4096
}.

#[export] Instance pages_async : AsyncKernel pages := {
  os_setsig _ _ := ret 0;
  os_setown _ := ret 0;
  os_sigaction _ := ret 0
}.

(** The state is the hardware's position and the control record. *)
#[export] Instance pages_driver : PcmKernel pages := {
  ioctl_cmd _ _ := ret 0;
  ioctl_move _ _ frames := ret (0, frames);
  ioctl_info_subdevice _ := ret (0, 0);
  ioctl_pversion _ := ret (0, 131085);
  ioctl_user_pversion _ _ := ret 0;
  ioctl_hw_refine _ p := ret (0, p);
  ioctl_hw_params _ p := ret (0, p);
  ioctl_sw_params _ p := ret (0, p);
  ioctl_sync_ptr _ sp := ret (0, sp);
  ioctl_channel_info _ c := ret (0, c);
  ioctl_delay _ := ret (0, 0);
  ioctl_xfer _ _ _ n := ret (0, n);
  shared_status _ := fun k => (MmapStatus STATE_RUNNING k.1 (0, 0) 0 (0, 0), k);
  shared_control _ := fun k => (k.2, k);
  set_shared_control _ c := fun k => (tt, (k.1, c))
}.

#[export] Program Instance pages_shared : SharedPages pages := {
  page_hw k _ := k.1;
  page_control k _ := k.2
}.
Next Obligation. intros a k. eexists. split; reflexivity. Qed.
Next Obligation. done. Qed.
Next Obligation. done. Qed.
