(* ===== verification/MmapStream.v ===== *)
(** * A mapped playback as a queue

    The ring buffer of a playback that is written with [snd_pcm_mmap_writei] while the
    hardware plays from it: the frames played are the frames written, in order, and the
    frames between the two positions of the shared pages are those still to come.

    The hardware is the other process: it moves [hw_ptr] of the status page over queued
    frames and reads them from the ring ([step_play]); the application may change any
    memory but the ring ([step_app]). *)

From stdpp Require Import gmap relations.
From S2P Require Import Prelude CInt Sys Cards Async Format PcmTypes Pcm Toy PcmSpec Area MmapCopy MmapPages.
#[local] Open Scope Z_scope.

Section Stream.
Context {K : Type} `{!Os K, !AsyncKernel K, !PcmKernel K, !SharedPages K}.
(** Where the ring and the two pages are, and the sample size. *)
Context (base sb f0 sa ca : Z).
Implicit Types s : ps K.

(** The handle of a mapped, interleaved playback. *)
Record mapped_playback (pcm : snd_pcm_t) : Prop := {
  mp_mapped :> mapped_pcm base sb f0 sa ca pcm;
  mp_stream : stream pcm = STREAM_PLAYBACK
}.

#[local] Abbreviation hw_pos := (hw_pos sa).
#[local] Abbreviation appl_pos := (appl_pos ca).
#[local] Abbreviation frame_size := (frame_size sb).
#[local] Abbreviation frames_at := (frames_at sb).
#[local] Abbreviation ring_addr := (ring_addr base sb f0).
#[local] Abbreviation ring_frames := (ring_frames base sb f0).
#[local] Abbreviation in_ring := (in_ring base sb f0).

(** The handle and its process, the memory, and what has been written and played. *)
Record playback := Playback {
  pb_ps : ps K;
  pb_mem : mem;
  written : list (list Z);
  played : list (list Z)
}.

Inductive step : playback -> playback -> Prop :=
  | step_write s m w p buffer size n c s' :
      is_u64 size -> snd_pcm_mmap_writei buffer size s = ((n, c), s') ->
      (forall x, buffer <= x < buffer + n * frame_size (the_pcm s) -> ~ in_ring (the_pcm s) x) ->
      step (Playback s m w p) (Playback s' (copied m c) (w ++ frames_at (the_pcm s) m buffer n) p)
  | step_play s m w p n k :
      0 <= n <= appl_pos s - hw_pos s ->
      page_hw k sa = hw_pos s + n -> page_control k ca = page_control (kern s) ca ->
      step (Playback s m w p) (Playback (with_ker k s) m w (p ++ ring_frames (the_pcm s) m (hw_pos s) n))
  | step_app s m w p m' :
      (forall x, in_ring (the_pcm s) x -> rd m' x = rd m x) -> step (Playback s m w p) (Playback s m' w p).

(** What a playback keeps: between the positions are the frames written and not played. *)
Record stream_inv (start : Z) (pb : playback) : Prop := {
  si_handle : mapped_playback (the_pcm (pb_ps pb));
  si_start : 0 <= start;
  si_order : start <= hw_pos (pb_ps pb) <= appl_pos (pb_ps pb);
  si_room : appl_pos (pb_ps pb) <= hw_pos (pb_ps pb) + buffer_size (the_pcm (pb_ps pb));
  si_count : appl_pos (pb_ps pb) = start + Z.of_nat (length (written pb));
  si_queue : written pb = played pb ++
    ring_frames (the_pcm (pb_ps pb)) (pb_mem pb) (hw_pos (pb_ps pb)) (appl_pos (pb_ps pb) - hw_pos (pb_ps pb))
}.

(** ** The pages through the library *)

Lemma avail_page s :
  mapped_playback (the_pcm s) -> 0 <= hw_pos s <= appl_pos s -> appl_pos s <= hw_pos s + buffer_size (the_pcm s) ->
  appl_pos s + buffer_size (the_pcm s) <= LONG_MAX ->
  snd_pcm_mmap_avail s = (hw_pos s + buffer_size (the_pcm s) - appl_pos s, s).
Proof using Type*.
  intros Hm Ho Hr Hmax. pose proof (mp_size _ Hm) as Hb.
  unfold snd_pcm_mmap_avail, bind at 1, getp at 1. rewrite (mp_stream _ Hm). change (STREAM_PLAYBACK =? STREAM_PLAYBACK) with true.
  unfold snd_pcm_mmap_playback_avail. rewrite (with_ptrs_page base sb f0 sa ca _ s Hm), (mp_boundary _ Hm).
  rewrite (playback_avail_unwrapped (buffer_size (the_pcm s)) (hw_pos s) (appl_pos s)) by lia.
  rewrite (proj2 (Z.leb_le _ _)) by lia. done.
Qed.

(** The frames copied to the application's position. *)
Section Written.
Context (pcm : snd_pcm_t) (Hil : interleaved pcm base sb f0) (Hb : 0 < buffer_size pcm).
Context (m : mem) (buffer appl n : Z) (Hn : 0 <= n) (Hfit : appl mod buffer_size pcm + n <= buffer_size pcm).

#[local] Abbreviation m' := (memcpy m (ring_addr pcm appl) buffer (n * frame_size pcm)).

Lemma copied_rd x :
  rd m' x = if decide (ring_addr pcm appl <= x < ring_addr pcm appl + n * frame_size pcm)
            then rd m (buffer + (x - ring_addr pcm appl)) else rd m x.
Proof using Hil Hn.
  apply memcpy_rd. pose proof (frame_size_pos _ _ _ _ Hil). unfold frame_size. nia.
Qed.

Lemma new_frames : ring_frames pcm m' appl n = frames_at pcm m buffer n.
Proof using Hil Hn Hb Hfit.
  apply map_zseq_ext. intros i Hi. apply frame_at_ext. intros k Hk.
  rewrite copied_rd. unfold ring_addr. rewrite position_mod by lia.
  pose proof (frame_size_pos _ _ _ _ Hil). unfold frame_size in *. rewrite decide_True by nia. f_equal. lia.
Qed.

(** Frames queued before, less than a buffer behind, stay. *)
Lemma old_frames hw q :
  hw <= appl -> appl + n <= hw + buffer_size pcm -> q = appl - hw ->
  ring_frames pcm m' hw q = ring_frames pcm m hw q.
Proof using Hil Hn Hb Hfit.
  intros Ho Hr ->. apply map_zseq_ext. intros i Hi. apply frame_at_ext. intros k Hk.
  rewrite copied_rd, decide_False; [done|]. set (p := hw + i). unfold ring_addr.
  set (bs := buffer_size pcm) in *. pose proof (frame_size_pos _ _ _ _ Hil) as Hp. fold (frame_size pcm) in Hp.
  pose proof (Z.div_mod appl bs ltac:(lia)). pose proof (Z.mod_pos_bound appl bs Hb).
  pose proof (Z.div_mod p bs ltac:(lia)). pose proof (Z.mod_pos_bound p bs Hb).
  assert (Hout : p mod bs < appl mod bs \/ appl mod bs + n <= p mod bs).
  { assert (hw <= p < appl) by lia. destruct (Z.lt_ge_cases (p mod bs) (appl mod bs)); [auto|]. right.
    assert (p / bs < appl / bs) by nia. nia. }
  destruct Hout; nia.
Qed.
End Written.

(** ** Steps *)

(** What a write does to a playback whose positions have room to go on. *)
Lemma write_spec s m buffer size n c s' :
  mapped_playback (the_pcm s) -> 0 <= hw_pos s <= appl_pos s -> appl_pos s <= hw_pos s + buffer_size (the_pcm s) ->
  appl_pos s + buffer_size (the_pcm s) <= LONG_MAX -> is_u64 size ->
  snd_pcm_mmap_writei buffer size s = ((n, c), s') ->
  0 <= n /\ appl_pos s mod buffer_size (the_pcm s) + n <= buffer_size (the_pcm s) /\
  appl_pos s + n <= hw_pos s + buffer_size (the_pcm s) /\
  (n = 0 \/ c = Copy (ring_addr (the_pcm s) (appl_pos s)) buffer (n * frame_size (the_pcm s))) /\
  copied m c = memcpy m (ring_addr (the_pcm s) (appl_pos s)) buffer (n * frame_size (the_pcm s)) /\
  the_pcm s' = the_pcm s /\ hw_pos s' = hw_pos s /\ appl_pos s' = appl_pos s + n.
Proof using Type*.
  intros Hm Ho Hr Hmax Hs Hw. pose proof (mp_size _ Hm) as Hb.
  pose proof (mmap_window s size base sb f0 (mp_ring _ Hm) Hb Hs) as Hwin.
  rewrite (get_control_page base sb f0 sa ca s Hm) in Hwin. fold (appl_pos s) in Hwin.
  rewrite (avail_page s Hm Ho Hr Hmax) in Hwin. cbv zeta in Hwin.
  set (bs := buffer_size (the_pcm s)) in *.
  set (n0 := Z.min size (Z.min (hw_pos s + bs - appl_pos s) (bs - appl_pos s `mod` bs))) in *.
  unfold is_u64 in Hs. pose proof (Z.mod_pos_bound (appl_pos s) bs Hb) as Hmod.
  destruct (commit_page base sb f0 sa ca s (appl_pos s `mod` bs) n0 Hm) as (k & Hc & Hk1 & Hk2); [lia|lia|lia|].
  rewrite Hc in Hwin. destruct Hwin as (_ & Hn & _ & Hle & Hwrite & _). rewrite Hwrite in Hw. injection Hw as <- <- <-.
  rewrite (first_area_addr _ _ _ _ (mp_ring _ Hm)) by (fold bs; lia).
  assert (Ha : frame_addr (the_pcm s) base sb f0 0 (appl_pos s `mod` bs) = ring_addr (the_pcm s) (appl_pos s)).
  { unfold frame_addr, ring_addr, frame_size. fold bs. lia. }
  rewrite Ha. split; [lia|]. split; [lia|]. split; [lia|]. split; [auto|]. split; [done|]. split; [done|]. split; done.
Qed.

Lemma write_keeps start s m w p buffer size n c s' :
  stream_inv start (Playback s m w p) -> is_u64 size -> snd_pcm_mmap_writei buffer size s = ((n, c), s') ->
  appl_pos s + buffer_size (the_pcm s) <= LONG_MAX ->
  stream_inv start (Playback s' (copied m c) (w ++ frames_at (the_pcm s) m buffer n) p).
Proof using Type*.
  intros [Hm H0 Ho Hr Hcount Hq] Hs Hw Hmax. cbn [pb_ps pb_mem written played] in *.
  pose proof (mp_size _ Hm) as Hb.
  destruct (write_spec s m buffer size n c s' Hm ltac:(lia) Hr Hmax Hs Hw) as (Hn & Hfit & Hroom & _ & -> & Hp & Hh & Ha).
  constructor; cbn [pb_ps pb_mem written played]; rewrite ?Hp, ?Hh, ?Ha; try done; try lia.
  - rewrite length_app. unfold frames_at. rewrite length_map, zseq_length. lia.
  - replace (appl_pos s + n - hw_pos s) with (appl_pos s - hw_pos s + n) by lia.
    rewrite ring_frames_app by lia. replace (hw_pos s + (appl_pos s - hw_pos s)) with (appl_pos s) by lia.
    rewrite (new_frames _ (mp_ring _ Hm)) by done.
    rewrite (old_frames _ (mp_ring _ Hm)) by (done || lia). rewrite Hq, <- app_assoc. done.
Qed.

Lemma step_keeps start pb pb' :
  stream_inv start pb -> step pb pb' ->
  appl_pos (pb_ps pb) + buffer_size (the_pcm (pb_ps pb)) <= LONG_MAX -> stream_inv start pb'.
Proof using Type*.
  intros Hi Hstep Hmax. destruct Hstep as [s m w p buffer size n c s' Hs Hw _|s m w p n k Hn Hk1 Hk2|s m w p m' Hm'].
  - eapply write_keeps; eauto.
  - destruct Hi as [Hm H0 Ho Hr Hcount Hq]. cbn [pb_ps pb_mem written played] in *.
    assert (Hh : hw_pos (with_ker k s) = hw_pos s + n) by done.
    assert (Ha : appl_pos (with_ker k s) = appl_pos s) by (unfold appl_pos, kern; cbn; rewrite Hk2; done).
    constructor; cbn [pb_ps pb_mem written played]; rewrite ?Hh, ?Ha; try done; try lia;
      change (the_pcm (with_ker k s)) with (the_pcm s); try lia.
    rewrite <- app_assoc, <- ring_frames_app by lia. rewrite Hq. do 2 f_equal. lia.
  - destruct Hi as [Hm H0 Ho Hr Hcount Hq]. cbn [pb_ps pb_mem written played] in *.
    constructor; cbn [pb_ps pb_mem written played]; try done.
    rewrite Hq. f_equal. symmetry. apply ring_frames_ext; [apply (mp_size _ Hm)|done].
Qed.

Lemma step_grows pb pb' : step pb pb' -> (length (written pb) <= length (written pb'))%nat.
Proof. intros []; cbn [written]; rewrite ?length_app; lia. Qed.

(** A playback that starts at a position, with nothing queued. *)
Definition starts_at (start : Z) (pb : playback) : Prop :=
  mapped_playback (the_pcm (pb_ps pb)) /\ 0 <= start /\
  hw_pos (pb_ps pb) = start /\ appl_pos (pb_ps pb) = start /\ written pb = [] /\ played pb = [].

Lemma starts_inv start pb : starts_at start pb -> stream_inv start pb.
Proof.
  intros (Hm & H0 & Hh & Ha & Hw & Hp). pose proof (mp_size _ Hm).
  constructor; rewrite ?Hh, ?Ha, ?Hw, ?Hp; try done; try lia; [simpl; lia|]. rewrite Z.sub_diag. done.
Qed.

Lemma step_same_handle start pb pb' :
  stream_inv start pb -> step pb pb' -> appl_pos (pb_ps pb) + buffer_size (the_pcm (pb_ps pb)) <= LONG_MAX ->
  the_pcm (pb_ps pb') = the_pcm (pb_ps pb).
Proof using Type*.
  intros Hi Hstep Hmax. destruct Hstep as [s m w p buffer size n c s' Hs Hw _|s m w p n k Hn Hk1 Hk2|s m w p m' Hm']; try done.
  destruct Hi as [Hm H0 Ho Hr Hcount Hq]. cbn [pb_ps pb_mem written played] in *.
  apply (write_spec s m buffer size n c s' Hm ltac:(lia) Hr Hmax Hs Hw).
Qed.

Lemma steps_keep start pb pb' :
  starts_at start pb -> rtc step pb pb' ->
  start + Z.of_nat (length (written pb')) + buffer_size (the_pcm (pb_ps pb)) <= LONG_MAX ->
  stream_inv start pb' /\ the_pcm (pb_ps pb') = the_pcm (pb_ps pb).
Proof using Type*.
  intros Hst Hsteps. revert pb' Hsteps. refine (rtc_ind_r _ _ _ _); [intros Hmax|intros pb1 pb2 Hsteps Hstep IH Hmax].
  - split; [apply starts_inv; done|done].
  - pose proof (step_grows pb1 pb2 Hstep). destruct IH as [Hi He]; [lia|].
    assert (Hlim : appl_pos (pb_ps pb1) + buffer_size (the_pcm (pb_ps pb1)) <= LONG_MAX).
    { rewrite He, (si_count _ _ Hi). lia. }
    split; [eapply step_keeps; eauto|]. rewrite <- He. eapply step_same_handle; eauto.
Qed.

(** The invariant as a queue. *)
Lemma queue_of_inv start pb :
  stream_inv start pb ->
  exists queued, written pb = played pb ++ queued /\
    Z.of_nat (length queued) = appl_pos (pb_ps pb) - hw_pos (pb_ps pb) /\
    Z.of_nat (length queued) <= buffer_size (the_pcm (pb_ps pb)) /\
    queued = ring_frames (the_pcm (pb_ps pb)) (pb_mem pb) (hw_pos (pb_ps pb)) (Z.of_nat (length queued)).
Proof.
  intros [Hm H0 Ho Hr Hcount Hq]. eexists. split; [exact Hq|]. rewrite ring_frames_length by lia.
  split; [done|]. split; [lia|done].
Qed.

(** C4. A mapped playback is a queue.  However writes by [snd_pcm_mmap_writei] (of any
    size, at any fill level, across the buffer's end as often as it comes), the hardware's
    playing of queued frames and changes of other memory follow each other, the frames
    played so far are the first of the frames written, in order and unchanged; the rest,
    at most a buffer, are the frames of the ring between the two positions.  (As long as
    the positions stay below [LONG_MAX]: the library never wraps them.) *)
Theorem mmap_playback_fifo start pb pb' :
  starts_at start pb -> rtc step pb pb' ->
  start + Z.of_nat (length (written pb')) + buffer_size (the_pcm (pb_ps pb)) <= LONG_MAX ->
  exists queued, written pb' = played pb' ++ queued /\
    Z.of_nat (length queued) = appl_pos (pb_ps pb') - hw_pos (pb_ps pb') /\
    Z.of_nat (length queued) <= buffer_size (the_pcm (pb_ps pb)) /\
    queued = ring_frames (the_pcm (pb_ps pb)) (pb_mem pb') (hw_pos (pb_ps pb')) (Z.of_nat (length queued)).
Proof using Type*.
  intros Hst Hsteps Hmax. destruct (steps_keep start pb pb' Hst Hsteps Hmax) as [Hi <-].
  exact (queue_of_inv start pb' Hi).
Qed.
End Stream.

(** ** A witness *)

(** One 16-bit channel, a buffer of four frames at 4096, and the caller's samples at 100. *)
Definition ring_pcm : snd_pcm_t :=
  put_running_areas (Some (9, [PcmTypes.Area 4096 0 16]))
    (put_shared (PtrMap 1) (PtrMap 2) None
       (put_configuration 0 0 0 1 48000 0 2 4 16 16 (new_pcm 1 0 0 0 STREAM_PLAYBACK 0 3 4))).

Definition ring_state (hw appl : Z) : ps pages :=
  PS ring_pcm (Proc (World (hw, MmapControl appl 1) []) [] false ∅).

Definition caller_memory : mem := write_bytes ∅ 100 [1; 2; 3; 4; 5; 6].

Definition ring_start : playback := Playback (ring_state 6 6) caller_memory [] [].

Lemma ring_starts : starts_at 4096 2 0 1 2 6 ring_start.
Proof.
  split; [|by_decide]. constructor; [|reflexivity]. constructor; try reflexivity.
  constructor; try (vm_compute; (reflexivity || discriminate)). exists 9. reflexivity.
Defined.

#[local] Abbreviation ring_step := (step 4096 2 0 1 2).

Definition after_write (buffer size : Z) (pb : playback) : playback :=
  let '((n, c), s') := snd_pcm_mmap_writei buffer size (pb_ps pb) in
  Playback s' (copied (pb_mem pb) c) (written pb ++ frames_at 2 (the_pcm (pb_ps pb)) (pb_mem pb) buffer n) (played pb).

Definition after_play (n : Z) (pb : playback) : playback :=
  let s := pb_ps pb in
  Playback (with_ker (hw_pos 1 s + n, (kern s).2) s) (pb_mem pb) (written pb)
    (played pb ++ ring_frames 4096 2 0 (the_pcm s) (pb_mem pb) (hw_pos 1 s) n).

Lemma after_write_step buffer size (pb : playback (K := pages)) :
  is_u64 size ->
  (forall x, buffer <= x < buffer + (snd_pcm_mmap_writei buffer size (pb_ps pb)).1.1 * frame_size 2 (the_pcm (pb_ps pb)) ->
     ~ in_ring 4096 2 0 (the_pcm (pb_ps pb)) x) ->
  ring_step pb (after_write buffer size pb).
Proof.
  intros Hs Hx. destruct pb as [s m w p]. unfold after_write. cbn [pb_ps pb_mem written played] in *.
  destruct (snd_pcm_mmap_writei buffer size s) as [[n c] s'] eqn:Hw. apply (step_write 4096 2 0 1 2) with (size := size); done.
Defined.

Lemma after_play_step n (pb : playback (K := pages)) :
  0 <= n <= appl_pos 2 (pb_ps pb) - hw_pos 1 (pb_ps pb) -> ring_step pb (after_play n pb).
Proof. intros Hn. destruct pb as [s m w p]. apply step_play; done. Defined.

(** Two frames up to the buffer's end, one played, three from the buffer's start: one place
    of the four is free again in time. *)
Definition ring_run : playback := after_write 104 5 (after_play 1 (after_write 100 5 ring_start)).

Lemma ring_runs : rtc ring_step ring_start ring_run.
Proof.
  unfold ring_run. set (pb1 := after_write 100 5 ring_start). set (pb2 := after_play 1 pb1).
  apply rtc_l with pb1; [|apply rtc_l with pb2; [|apply rtc_once]].
  - apply after_write_step; [by_decide|]. intros x. unfold in_ring.
    change (snd_pcm_mmap_writei 100 5 (pb_ps ring_start)).1.1 with 2.
    change (the_pcm (pb_ps ring_start)) with ring_pcm.
    change (frame_size 2 ring_pcm) with 2. change (buffer_size ring_pcm) with 4. lia.
  - apply after_play_step. vm_compute. split; discriminate.
  - apply after_write_step; [by_decide|]. intros x. unfold in_ring.
    replace (snd_pcm_mmap_writei 104 5 (pb_ps pb2)).1.1 with 3 by (vm_compute; reflexivity).
    replace (the_pcm (pb_ps pb2)) with ring_pcm by (vm_compute; reflexivity).
    change (frame_size 2 ring_pcm) with 2. change (buffer_size ring_pcm) with 4. lia.
Defined.

Lemma mmap_playback_fifo_witness :
  played ring_run = [[1; 2]] /\ written ring_run = [[1; 2]; [3; 4]; [5; 6]; [0; 0]; [0; 0]] /\
  exists queued, written ring_run = played ring_run ++ queued /\
    Z.of_nat (length queued) = appl_pos 2 (pb_ps ring_run) - hw_pos 1 (pb_ps ring_run) /\
    Z.of_nat (length queued) <= buffer_size (the_pcm (pb_ps ring_start)) /\
    queued = ring_frames 4096 2 0 (the_pcm (pb_ps ring_start)) (pb_mem ring_run) (hw_pos 1 (pb_ps ring_run))
               (Z.of_nat (length queued)).
Proof.
  split; [vm_compute; reflexivity|]. split; [vm_compute; reflexivity|].
  apply (mmap_playback_fifo 4096 2 0 1 2 6 ring_start ring_run ring_starts ring_runs).
  vm_compute. discriminate.
Defined.
