(* ===== verification/MmapRing.v ===== *)
(** * From the mapping to the ring

    [_snd_pcm_mmap] (src/src/pcm.c 783-844) asks the driver where each channel's samples
    are and maps them.  Where the driver describes interleaved channels, as in MmapCopy.v,
    the areas it leaves are the ring that the transfers of MmapCopy.v and the queue of
    MmapStream.v ask for, and it lies in one mapping that the process holds; so that the
    transfers stay inside what was mapped. *)

From stdpp Require Import gmap.
From S2P Require Import Prelude CInt Sys Cards Async Format PcmTypes Pcm Toy PcmSpec PcmMmap Area MmapCopy.
#[local] Open Scope Z_scope.

Section Ring.
Context {K : Type} `{!Os K, !AsyncKernel K, !PcmKernel K, !OsLaws K}.
(** The ring's place in the device, the sample size and the first frame, in bytes. *)
Context (off sb f0 : Z).

(** Channel [c] of [ch] as an interleaved driver describes it. *)
Definition at_channel (ch c : Z) (i : channel_info) : Prop :=
  ci_offset i = off /\ ci_first i = 8 * (f0 + c * sb) /\ ci_step i = 8 * (ch * sb).

(** The driver does so for each of the channels that it has an answer for. *)
Definition interleaved_driver (fd ch : Z) : Prop :=
  forall i k, 0 <= ci_channel i < ch ->
    let '(r, i', _) := ioctl_channel_info fd i k in 0 <= r -> at_channel ch (ci_channel i) i'.

(** ** The loops of [_snd_pcm_mmap] *)

Lemma info_loop_driver pcm ch c infos (w : world K) err infos' w' :
  interleaved_driver (fd pcm) ch -> 0 <= c -> c + Z.of_nat (length infos) <= ch ->
  info_loop pcm c infos w = ((err, infos'), w') -> 0 <= err ->
  Forall2 (at_channel ch) (zseq c (length infos)) infos'.
Proof using Type*.
  intros Hd. revert c w err infos' w'. induction infos as [|i rest IH]; intros c w err infos' w' Hc Hn Hrun Herr.
  { injection Hrun as _ <- _. constructor. }
  simpl in Hn, Hrun. unfold bind at 1, lift in Hrun.
  pose proof (Hd (ChannelInfo c (ci_offset i) (ci_first i) (ci_step i) (ci_addr i)) (ker w)) as Hi.
  destruct (ioctl_channel_info (fd pcm) _ (ker w)) as [[r i'] k]. simpl in Hi.
  destruct (r <? 0) eqn:Hr; zbool; [injection Hrun as <- _ _; lia|].
  unfold bind in Hrun. destruct (info_loop pcm (c + 1) rest _) as [[e rest'] w1] eqn:Hl. injection Hrun as -> <- <-.
  constructor; [apply Hi; lia|]. eapply IH; [| |exact Hl|done]; lia.
Qed.

(** Channels that have an address keep it. *)
Lemma map_loop_given n pcm infos areas (w : world K) :
  length infos = n -> length areas = n -> Forall (fun i => ci_addr i <> 0) infos ->
  map_loop n pcm infos areas w = ((0, infos, area_of <$> infos), w).
Proof.
  revert infos areas w. induction n as [|n IH]; intros infos areas w Hi Ha Hz.
  { destruct infos, areas; done. }
  destruct infos as [|i infos], areas as [|a areas]; try done. apply Forall_cons_1 in Hz as [Hz Hr].
  simpl. rewrite (proj2 (nz_true _) Hz). unfold bind. rewrite IH by (simpl in *; lia || done). done.
Qed.

(** Channels at one offset are mapped at once. *)
Lemma map_loop_ring n pcm infos areas (w : world K) infos' areas' w' :
  length infos = n -> length areas = n -> n <> 0%nat ->
  Forall (fun i => ci_offset i = off /\ ci_addr i = 0) infos ->
  map_loop n pcm infos areas w = ((0, infos', areas'), w') ->
  exists ptr, ptr <> 0 /\ infos' = set_addr ptr <$> infos /\ areas' = area_of <$> infos'.
Proof using Type*.
  intros Hi Ha Hn Hall Hrun. destruct n as [|n]; [done|].
  destruct infos as [|i infos], areas as [|a areas]; try done. apply Forall_cons_1 in Hall as [[Ho Hz] Hall].
  simpl in Hrun. rewrite (proj2 (nz_false _) Hz) in Hrun. unfold bind at 1, sys_mmap, bind at 1, lift in Hrun.
  destruct (os_mmap _ (fd pcm) (ci_offset i) (ker w)) as [ptr k1] eqn:Hm.
  destruct (mmap_law _ _ _ _ _ _ Hm) as [_ Hptr].
  destruct (ptr <? 0) eqn:Hneg; unfold bind, acquire, ret in Hrun; cbn beta iota in Hrun; rewrite Hneg in Hrun; zbool.
  { injection Hrun as -> _ _ _. lia. }
  destruct (Hptr Hneg) as [Hp _].
  assert (Hg : map (fun i1 => if same_offset i i1 then set_addr ptr i1 else i1) infos = set_addr ptr <$> infos).
  { apply map_ext_in. intros j Hj%list_elem_of_In. rewrite Forall_forall in Hall. destruct (Hall j Hj) as [Hoj _].
    unfold same_offset. rewrite Ho, Hoj, Z.eqb_refl. done. }
  change (same_offset (set_addr ptr i)) with (same_offset i) in Hrun. rewrite Hg in Hrun.
  rewrite map_loop_given in Hrun; [|rewrite length_map; simpl in *; lia|simpl in *; lia|].
  2:{ apply Forall_map, Forall_forall. intros j _. exact Hp. }
  injection Hrun as <- <- _. exists ptr. done.
Qed.

(** The successful run. *)
Lemma mmap_run (s : ps K) h s' :
  map_inv (the_pcm s) -> led s ≡ₚ channel_resources (the_pcm s) ++ h -> _snd_pcm_mmap s = (0, s') ->
  let n := Z.to_nat (channels (the_pcm s)) in
  exists b ab w err infos w1 infos' areas w2,
    info_loop (unmapped (the_pcm s)) 0 (replicate n zero_channel) w = ((err, infos), w1) /\ 0 <= err /\
    map_loop n (unmapped (the_pcm s)) infos (replicate n zero_area) w1 = ((0, infos', areas), w2) /\
    the_pcm s' = with_maps (Some (b, infos')) (Some (ab, areas)) (the_pcm s).
Proof using Type*.
  intros Hinv Hh Hrun. cbn zeta. unfold _snd_pcm_mmap, bind at 1 in Hrun.
  pose proof (handle_munmap_spec s h Hinv Hh) as Hm.
  destruct (_snd_pcm_munmap s) as [r0 s1]. destruct Hm as (_ & Hp1 & _ & _).
  unfold bind at 1, getp in Hrun. rewrite Hp1 in Hrun. cbn [channels unmapped put_running_areas put_mmap_channels] in Hrun.
  change (channels (unmapped (the_pcm s))) with (channels (the_pcm s)) in Hrun.
  unfold bind at 1 in Hrun. rewrite onworld_eq in Hrun.
  destruct (sys_alloc _ (wld (prc s1))) as [[b|] w1]; [|discriminate].
  unfold bind at 1 in Hrun. rewrite onworld_eq in Hrun. simpl in Hrun.
  destruct (sys_alloc _ w1) as [[ab|] w2]; [|discriminate].
  unfold bind at 1 in Hrun. rewrite onworld_eq in Hrun. simpl in Hrun.
  destruct (info_loop _ 0 _ w2) as [[err infos] w3] eqn:Hi. destruct (err <? 0) eqn:Herr; zbool.
  { injection Hrun as -> _. lia. }
  unfold bind in Hrun. rewrite onworld_eq in Hrun. simpl in Hrun.
  destruct (map_loop _ _ infos _ w3) as [[[err' infos'] areas'] w4] eqn:Hl. unfold setp, ret in Hrun. simpl in Hrun.
  injection Hrun as -> <-. rewrite Hp1. eauto 20.
Qed.

(** ** The ring *)

(** The areas of a described and mapped device. *)
Lemma ring_areas ch n ptr infos :
  Forall2 (at_channel ch) (zseq 0 n) infos ->
  area_of <$> (set_addr ptr <$> infos) =
  map (fun c => PcmTypes.Area ptr (8 * (f0 + c * sb)) (8 * (ch * sb))) (zseq 0 n).
Proof.
  generalize 0 as a. revert infos. induction n as [|n IH]; intros infos a H; inversion H as [|x i l l' Hi Hl]; [done|].
  simplify_eq. cbn [fmap list_fmap map zseq]. rewrite (IH l' (a + 1)) by done.
  destruct Hi as (_ & Hf & Hs). unfold area_of, set_addr. simpl. rewrite Hf, Hs. done.
Qed.

(** The last channel's last sample ends the ring. *)
Lemma ring_size pcm n ptr infos :
  Forall2 (at_channel (channels pcm)) (zseq 0 n) infos -> n = Z.to_nat (channels pcm) -> ptr <> 0 ->
  0 < channels pcm -> 0 < sb -> 0 <= f0 -> sample_bits pcm = 8 * sb -> 0 < buffer_size pcm <= LONG_MAX ->
  8 * (f0 + buffer_size pcm * (channels pcm * sb)) <= UINT_MAX ->
  f0 + buffer_size pcm * (channels pcm * sb) <= size_at (K := K) pcm (set_addr ptr <$> infos) ptr.
Proof using Type*.
  intros HF Hn Hp Hch Hsb H0 Hbits Hbs Hmax.
  assert (Hsane : Forall (sane_channel pcm) (set_addr ptr <$> infos)).
  { apply Forall_fmap, Forall_forall. intros i [k Hi]%list_elem_of_lookup.
    destruct (Forall2_lookup_r _ _ _ _ _ HF Hi) as (c & Hc & _ & Hf & Hs).
    apply list_elem_of_lookup_2, list_elem_of_In, zseq_In in Hc.
    unfold sane_channel. simpl. rewrite Hf, Hs, Hbits. split; [nia|]. split; [nia|]. split; [lia|].
    assert (c * sb + sb <= channels pcm * sb) by nia. nia. }
  destruct n as [|n]; [lia|]. rewrite zseq_snoc in HF.
  apply Forall2_app_inv_l in HF as (l1 & l2 & _ & H2 & ->). inversion H2 as [|x i l l' Hi Hl]. subst.
  inversion Hl. subst. destruct Hi as (_ & Hf & Hs).
  assert (Hin : set_addr ptr i ∈ set_addr ptr <$> (l1 ++ [i])).
  { apply list_elem_of_fmap_2. apply elem_of_app. right. left. }
  pose proof (size_covers pcm _ _ Hin Hbs Hsane) as Hcov.
  rewrite sane_bits in Hcov; [|done|rewrite Forall_forall in Hsane; apply Hsane; done]. simpl in Hcov.
  rewrite Hf, Hs, Hbits in Hcov. replace (0 + Z.of_nat n) with (channels pcm - 1) in Hcov by lia. nia.
Qed.

(** An address range of a mapping. *)
Definition inside (base size a len : Z) : Prop := base <= a /\ a + len <= base + size.

(** Transfers stay in the ring. *)
Lemma transfer_inside (s : ps K) base size buffer req :
  interleaved (the_pcm s) base sb f0 -> 0 < buffer_size (the_pcm s) -> is_u64 req ->
  f0 + buffer_size (the_pcm s) * (channels (the_pcm s) * sb) <= size ->
  let c := (snd_pcm_mmap_writei buffer req s).1.2 in
  let c' := (snd_pcm_mmap_readi buffer req s).1.2 in
  inside base size (copy_dst c) (copy_bytes c) /\ inside base size (copy_src c') (copy_bytes c').
Proof.
  intros Hil Hbs Hreq Hsize. pose proof (mmap_window s req base sb f0 Hil Hbs Hreq) as Hw.
  destruct (get_control s) as [ct s1]. destruct (snd_pcm_mmap_avail s1) as [av s2]. cbv zeta in Hw |- *.
  set (offset := appl_ptr ct `mod` buffer_size (the_pcm s)) in *.
  set (n := Z.min req _) in *. destruct (snd_pcm_mmap_commit offset n s2) as [r s'].
  destruct Hw as (_ & Hn & Ho & Hle & -> & ->). cbn [fst snd copy_dst copy_src copy_bytes].
  rewrite (first_area_addr _ _ _ _ Hil) by (split; [lia|apply Z.mod_pos_bound; lia]).
  pose proof (frame_size_pos _ _ _ _ Hil) as Hp. destruct Hil as [Hs H0 _ _ _ _]. unfold inside, frame_addr.
  set (fs := channels (the_pcm s) * sb) in *.
  assert (offset * fs + n * fs <= buffer_size (the_pcm s) * fs) by nia.
  assert (0 <= offset * fs) by nia. lia.
Qed.

(** A configuration of whole-byte samples with an interleaved driver, whose ring is less
    than 2^32 bits long (the code has the offset of a frame in an [unsigned int]). *)
Record ring_config (pcm : snd_pcm_t) : Prop := {
  rc_driver : interleaved_driver (fd pcm) (channels pcm);
  rc_channels : 0 < channels pcm;
  rc_sample : 0 < sb;
  rc_first : 0 <= f0;
  rc_bits : sample_bits pcm = 8 * sb;
  rc_frame : frame_bits pcm = 8 * (channels pcm * sb);
  rc_size : 0 < buffer_size pcm;
  rc_range : 8 * (f0 + buffer_size pcm * (channels pcm * sb)) <= UINT_MAX
}.

(** The mapping of an interleaved driver is the ring. *)
Lemma mmap_ring (s s' : ps K) (h : list resource) :
  let pcm := the_pcm s in
  map_inv pcm -> led s ≡ₚ channel_resources pcm ++ h -> ring_config pcm ->
  _snd_pcm_mmap s = (0, s') ->
  exists base size mc ra, RMap base size ∈ led s' /\ interleaved (the_pcm s') base sb f0 /\
    f0 + buffer_size pcm * (channels pcm * sb) <= size /\ the_pcm s' = with_maps mc ra pcm.
Proof using Type*.
  intros pcm Hinv Hh [Hd Hch Hsb H0 Hbits Hfb Hbs Hmax] Hrun.
  destruct (mmap_run s h s' Hinv Hh Hrun) as (b & ab & w & err & infos & w1 & infos' & areas & w2 & Hi & He & Hl & Hp).
  fold pcm in Hi, Hl, Hp. set (n := Z.to_nat (channels pcm)) in *.
  assert (HF : Forall2 (at_channel (channels pcm)) (zseq 0 n) infos).
  { rewrite <- (length_replicate n zero_channel). eapply info_loop_driver; [| | |exact Hi|done]; try done.
    rewrite length_replicate. lia. }
  pose proof (info_loop_spec (unmapped pcm) 0 (replicate n zero_channel) w) as Hz. rewrite Hi in Hz.
  destruct Hz as (_ & _ & Hlen & Hz); [intros i [-> _]%elem_of_replicate; done|]. rewrite length_replicate in Hlen.
  destruct (map_loop_ring n (unmapped pcm) infos (replicate n zero_area) w1 infos' areas w2) as (ptr & Hnz & -> & ->);
    [done|apply length_replicate|lia| |exact Hl|].
  { apply Forall_forall. intros i Hin. split; [|auto]. apply list_elem_of_lookup in Hin as [k Hk].
    destruct (Forall2_lookup_r _ _ _ _ _ HF Hk) as (c & _ & Ho & _). done. }
  assert (Hil : interleaved (the_pcm s') ptr sb f0).
  { rewrite Hp. constructor; try done. exists ab. simpl. rewrite (ring_areas (channels pcm) n) by done. done. }
  assert (Hbs' : 0 < buffer_size pcm <= LONG_MAX) by (unfold UINT_MAX, LONG_MAX in *; nia).
  exists ptr, (size_at (K := K) pcm (set_addr ptr <$> infos) ptr), (Some (b, set_addr ptr <$> infos)), (Some (ab, area_of <$> (set_addr ptr <$> infos))).
  split; [|split; [done|split; [|exact Hp]]].
  - pose proof (handle_mmap_spec s h Hinv Hh) as Hm. rewrite Hrun in Hm. destruct Hm as (_ & _ & _ & _ & _ & Hled & _).
    rewrite Hled, Hp. apply elem_of_app. left. unfold channel_resources. simpl. right. apply elem_of_app. left.
    apply list_elem_of_fmap. exists ptr. split; [done|]. apply elem_of_elements, elem_of_addrs. split; [done|].
    destruct infos as [|i infos]; [simpl in Hlen; lia|]. exists (set_addr ptr i). split; [left|done].
  - apply (ring_size pcm n ptr infos); done.
Qed.

(** C11. From configuration to transfer.  Where the driver describes interleaved channels,
    a successful [_snd_pcm_mmap] leaves the channels' areas as one interleaved ring, in one
    mapping that the process holds and that is large enough for all its frames; and
    whatever positions the shared records hold later, the bytes that
    [snd_pcm_mmap_writei] writes and that [snd_pcm_mmap_readi] reads are inside that
    mapping.  (The ring is to be less than 2^32 bits long: the code has the offset of a
    frame in an [unsigned int].) *)
Theorem mmap_ring_safe (s s' : ps K) (h : list resource) :
  let pcm := the_pcm s in
  map_inv pcm -> led s ≡ₚ channel_resources pcm ++ h -> ring_config pcm ->
  _snd_pcm_mmap s = (0, s') ->
  exists base size, RMap base size ∈ led s' /\ interleaved (the_pcm s') base sb f0 /\
    forall (t : ps K) buffer req, the_pcm t = the_pcm s' -> is_u64 req ->
      let c := (snd_pcm_mmap_writei buffer req t).1.2 in
      let c' := (snd_pcm_mmap_readi buffer req t).1.2 in
      inside base size (copy_dst c) (copy_bytes c) /\ inside base size (copy_src c') (copy_bytes c').
Proof using Type*.
  intros pcm Hinv Hh Hrc Hrun.
  destruct (mmap_ring s s' h Hinv Hh Hrc Hrun) as (base & size & mc & ra & Hl & Hil & Hsize & Hp).
  exists base, size. split; [done|]. split; [done|]. intros t buffer req Ht Hreq.
  apply transfer_inside; rewrite ?Ht; try done; rewrite Hp; [apply (rc_size _ Hrc)|exact Hsize].
Qed.
End Ring.

(** ** A witness: two 16-bit channels, as the toy driver describes them *)

Lemma mmap_ring_safe_witness :
  exists base size, RMap base size ∈ led (_snd_pcm_mmap configured).2 /\
    interleaved (the_pcm (_snd_pcm_mmap configured).2) base 2 0 /\
    let c := (snd_pcm_mmap_writei 100 600 (_snd_pcm_mmap configured).2).1.2 in
    inside base size (copy_dst c) (copy_bytes c).
Proof.
  destruct (mmap_ring_safe 0 2 0 configured (_snd_pcm_mmap configured).2 [RFd 3]) as (base & size & H1 & H2 & H3);
    try (vm_compute; reflexivity); try exact I.
  - constructor; try (vm_compute; (reflexivity || discriminate)).
    intros [c o f st a] k Hc. change (channels (the_pcm configured)) with 2 in *. unfold at_channel. simpl in *. lia.
  - exists base, size. split; [exact H1|]. split; [exact H2|]. apply (H3 _ 100 600 eq_refl). by_decide.
Defined.
