(* ===== verification/MmapCapture.v ===== *)
(** * A mapped capture as a queue

    The other direction of MmapStream.v: the hardware records frames into the ring and the
    application takes them out with [snd_pcm_mmap_readi] (src/src/pcm_macros.h 2203-2211).
    What the application has received are the first of the frames recorded, in order.

    The hardware records where there is room ([step_record]): it may put any samples into
    the free frames and nothing into the others.  The application may change any memory but
    the ring ([step_use]). *)

From stdpp Require Import gmap relations.
From S2P Require Import Prelude CInt Sys Cards Async Format PcmTypes Pcm Toy PcmSpec Area MmapCopy MmapPages.
#[local] Open Scope Z_scope.

Section Capture.
Context {K : Type} `{!Os K, !AsyncKernel K, !PcmKernel K, !SharedPages K}.
Context (base sb f0 sa ca : Z).
Implicit Types s : ps K.

(** The handle of a mapped, interleaved capture. *)
Record mapped_capture (pcm : snd_pcm_t) : Prop := {
  mc_mapped :> mapped_pcm base sb f0 sa ca pcm;
  mc_stream : stream pcm = STREAM_CAPTURE
}.

#[local] Abbreviation hw_pos := (hw_pos sa).
#[local] Abbreviation appl_pos := (appl_pos ca).
#[local] Abbreviation frame_size := (frame_size sb).
#[local] Abbreviation frames_at := (frames_at sb).
#[local] Abbreviation ring_addr := (ring_addr base sb f0).
#[local] Abbreviation ring_frames := (ring_frames base sb f0).
#[local] Abbreviation in_ring := (in_ring base sb f0).

(** The handle and its process, the memory, what the hardware has recorded and what the
    application has received in its own buffers. *)
Record capture := Capture {
  cp_ps : ps K;
  cp_mem : mem;
  recorded : list (list Z);
  received : list (list Z)
}.

(** [x] is a byte of the frame at position [p]. *)
Definition in_frame (pcm : snd_pcm_t) (p x : Z) : Prop := ring_addr pcm p <= x < ring_addr pcm p + frame_size pcm.

Inductive step : capture -> capture -> Prop :=
  | step_read s m r d buffer size n c s' :
      is_u64 size -> snd_pcm_mmap_readi buffer size s = ((n, c), s') ->
      (forall x, buffer <= x < buffer + n * frame_size (the_pcm s) -> ~ in_ring (the_pcm s) x) ->
      step (Capture s m r d) (Capture s' (copied m c) r (d ++ frames_at (the_pcm s) (copied m c) buffer n))
  | step_record s m r d n k m' :
      0 <= n -> hw_pos s + n <= appl_pos s + buffer_size (the_pcm s) ->
      page_hw k sa = hw_pos s + n -> page_control k ca = page_control (kern s) ca ->
      (forall x, in_ring (the_pcm s) x -> (forall p, hw_pos s <= p < hw_pos s + n -> ~ in_frame (the_pcm s) p x) ->
         rd m' x = rd m x) ->
      step (Capture s m r d) (Capture (with_ker k s) m' (r ++ ring_frames (the_pcm s) m' (hw_pos s) n) d)
  | step_use s m r d m' :
      (forall x, in_ring (the_pcm s) x -> rd m' x = rd m x) -> step (Capture s m r d) (Capture s m' r d).

(** What a capture keeps: between the positions are the frames recorded and not received. *)
Record capture_inv (start : Z) (cp : capture) : Prop := {
  ci_handle : mapped_capture (the_pcm (cp_ps cp));
  ci_start : 0 <= start;
  ci_order : start <= appl_pos (cp_ps cp) <= hw_pos (cp_ps cp);
  ci_room : hw_pos (cp_ps cp) <= appl_pos (cp_ps cp) + buffer_size (the_pcm (cp_ps cp));
  ci_count : hw_pos (cp_ps cp) = start + Z.of_nat (length (recorded cp));
  ci_queue : recorded cp = received cp ++
    ring_frames (the_pcm (cp_ps cp)) (cp_mem cp) (appl_pos (cp_ps cp)) (hw_pos (cp_ps cp) - appl_pos (cp_ps cp))
}.

(** ** Reading *)

Lemma capture_avail_page s :
  mapped_capture (the_pcm s) -> 0 <= appl_pos s <= hw_pos s -> hw_pos s <= LONG_MAX ->
  snd_pcm_mmap_avail s = (hw_pos s - appl_pos s, s).
Proof using Type*.
  intros Hm Ho Hmax. unfold snd_pcm_mmap_avail, bind at 1, getp at 1.
  rewrite (mc_stream _ Hm). change (STREAM_CAPTURE =? STREAM_PLAYBACK) with false.
  unfold snd_pcm_mmap_capture_avail. rewrite (with_ptrs_page base sb f0 sa ca _ s Hm).
  unfold capture_avail, LONG_MAX in *. rewrite s64_u64, s64_id by (unfold is_s64, LONG_MAX; lia).
  rewrite (proj2 (Z.ltb_ge _ _)) by lia. rewrite u64_id by (unfold is_u64, ULONG_MAX; lia). done.
Qed.

(** The frames copied out of the ring. *)
Lemma copied_frames pcm m buffer appl n :
  interleaved pcm base sb f0 -> 0 < buffer_size pcm -> 0 <= n -> appl mod buffer_size pcm + n <= buffer_size pcm ->
  frames_at pcm (memcpy m buffer (ring_addr pcm appl) (n * frame_size pcm)) buffer n = ring_frames pcm m appl n.
Proof.
  intros Hil Hb Hn Hfit. apply map_zseq_ext. intros i Hi. apply frame_at_ext. intros k Hk.
  pose proof (frame_size_pos _ _ _ _ Hil). unfold MmapPages.frame_size in *. rewrite memcpy_rd by nia.
  rewrite decide_True by nia. unfold MmapPages.ring_addr, MmapPages.frame_size. rewrite position_mod by lia. f_equal. lia.
Qed.

(** What a read does to a capture whose positions are in order. *)
Lemma read_spec s m buffer size n c s' :
  mapped_capture (the_pcm s) -> 0 <= appl_pos s <= hw_pos s -> hw_pos s <= LONG_MAX -> is_u64 size ->
  snd_pcm_mmap_readi buffer size s = ((n, c), s') ->
  0 <= n /\ appl_pos s mod buffer_size (the_pcm s) + n <= buffer_size (the_pcm s) /\ appl_pos s + n <= hw_pos s /\
  copied m c = memcpy m buffer (ring_addr (the_pcm s) (appl_pos s)) (n * frame_size (the_pcm s)) /\
  the_pcm s' = the_pcm s /\ hw_pos s' = hw_pos s /\ appl_pos s' = appl_pos s + n.
Proof using Type*.
  intros Hm Ho Hmax Hs Hrun. pose proof (mp_size _ Hm) as Hb.
  pose proof (mmap_window s size base sb f0 (mp_ring _ Hm) Hb Hs) as Hwin.
  rewrite (get_control_page base sb f0 sa ca s Hm) in Hwin. fold (appl_pos s) in Hwin.
  rewrite (capture_avail_page s Hm Ho Hmax) in Hwin. cbv zeta in Hwin.
  set (bs := buffer_size (the_pcm s)) in *.
  set (n0 := Z.min size (Z.min (hw_pos s - appl_pos s) (bs - appl_pos s `mod` bs))) in *.
  unfold is_u64 in Hs. pose proof (Z.mod_pos_bound (appl_pos s) bs Hb) as Hmod.
  destruct (commit_page base sb f0 sa ca s (appl_pos s `mod` bs) n0 Hm) as (k & Hc & Hk1 & Hk2); [lia|lia|lia|].
  rewrite Hc in Hwin. destruct Hwin as (_ & Hn & _ & Hle & _ & Hread). rewrite Hread in Hrun. injection Hrun as <- <- <-.
  rewrite (first_area_addr _ _ _ _ (mp_ring _ Hm)) by (fold bs; lia).
  replace (frame_addr (the_pcm s) base sb f0 0 (appl_pos s `mod` bs)) with (ring_addr (the_pcm s) (appl_pos s))
    by (unfold frame_addr, MmapPages.ring_addr, MmapPages.frame_size; fold bs; lia).
  split; [lia|]. split; [lia|]. split; [lia|]. done.
Qed.

(** ** Steps *)

Lemma read_keeps start s m r d buffer size n c s' :
  capture_inv start (Capture s m r d) -> is_u64 size -> snd_pcm_mmap_readi buffer size s = ((n, c), s') ->
  (forall x, buffer <= x < buffer + n * frame_size (the_pcm s) -> ~ in_ring (the_pcm s) x) -> hw_pos s <= LONG_MAX ->
  capture_inv start (Capture s' (copied m c) r (d ++ frames_at (the_pcm s) (copied m c) buffer n)).
Proof using Type*.
  intros [Hm H0 Ho Hr Hcount Hq] Hs Hrun Hx Hmax. cbn [cp_ps cp_mem recorded received] in *.
  pose proof (mp_size _ Hm) as Hb. pose proof (frame_size_pos _ _ _ _ (mp_ring _ Hm)) as Hf.
  destruct (read_spec s m buffer size n c s' Hm ltac:(lia) Hmax Hs Hrun) as (Hn & Hfit & Hle & -> & Hp & Hh & Ha).
  constructor; cbn [cp_ps cp_mem recorded received]; rewrite ?Hp, ?Hh, ?Ha; try done; try lia.
  rewrite (copied_frames _ _ _ _ _ (mp_ring _ Hm)) by done.
  rewrite (ring_frames_ext base sb f0 (the_pcm s) m (memcpy _ _ _ _)); [|done|].
  2:{ intros x Hin. rewrite memcpy_rd by (unfold MmapPages.frame_size; nia). rewrite decide_False; [done|].
      intros Hy. apply (Hx x Hy Hin). }
  rewrite <- app_assoc, <- ring_frames_app by lia. rewrite Hq. do 2 f_equal. lia.
Qed.

Lemma record_keeps start s m r d n k m' :
  capture_inv start (Capture s m r d) -> 0 <= n -> hw_pos s + n <= appl_pos s + buffer_size (the_pcm s) ->
  page_hw k sa = hw_pos s + n -> page_control k ca = page_control (kern s) ca ->
  (forall x, in_ring (the_pcm s) x -> (forall p, hw_pos s <= p < hw_pos s + n -> ~ in_frame (the_pcm s) p x) ->
     rd m' x = rd m x) ->
  capture_inv start (Capture (with_ker k s) m' (r ++ ring_frames (the_pcm s) m' (hw_pos s) n) d).
Proof using Type*.
  intros [Hm H0 Ho Hr Hcount Hq] Hn Hroom Hk1 Hk2 Hx. cbn [cp_ps cp_mem recorded received] in *.
  pose proof (mp_size _ Hm) as Hb. pose proof (frame_size_pos _ _ _ _ (mp_ring _ Hm)) as Hf.
  assert (Hh : hw_pos (with_ker k s) = hw_pos s + n) by done.
  assert (Ha : appl_pos (with_ker k s) = appl_pos s) by (unfold MmapPages.appl_pos, kern; cbn; rewrite Hk2; done).
  constructor; cbn [cp_ps cp_mem recorded received]; rewrite ?Hh, ?Ha; try done; try lia;
    change (the_pcm (with_ker k s)) with (the_pcm s); try lia.
  { rewrite length_app. unfold MmapPages.ring_frames. rewrite length_map, zseq_length. lia. }
  replace (hw_pos s + n - appl_pos s) with (hw_pos s - appl_pos s + n) by lia.
  rewrite ring_frames_app by lia. replace (appl_pos s + (hw_pos s - appl_pos s)) with (hw_pos s) by lia.
  rewrite app_assoc. f_equal. rewrite Hq. f_equal. apply map_zseq_ext. intros i Hi. symmetry.
  apply frame_at_ext. intros j Hj. apply Hx; [apply ring_addr_in; done|].
  intros p Hp. apply (frames_apart base sb f0 _ (appl_pos s + i) p); [done|exact Hf|lia|lia].
Qed.

Lemma capture_step_keeps start cp cp' :
  capture_inv start cp -> step cp cp' -> hw_pos (cp_ps cp) <= LONG_MAX -> capture_inv start cp'.
Proof using Type*.
  intros Hi Hstep Hmax. destruct Hstep as [s m r d buffer size n c s' Hs Hrun Hx|s m r d n k m' Hn Hroom Hk1 Hk2 Hx|s m r d m' Hm'].
  - eapply read_keeps; eauto.
  - eapply record_keeps; eauto.
  - destruct Hi as [Hm H0 Ho Hr Hcount Hq]. cbn [cp_ps cp_mem recorded received] in *.
    constructor; cbn [cp_ps cp_mem recorded received]; try done.
    rewrite Hq. f_equal. symmetry. apply ring_frames_ext; [apply (mp_size _ Hm)|done].
Qed.

Lemma capture_step_grows cp cp' : step cp cp' -> (length (recorded cp) <= length (recorded cp'))%nat.
Proof. intros []; cbn [recorded]; rewrite ?length_app; lia. Qed.

Lemma capture_step_same_handle start cp cp' :
  capture_inv start cp -> step cp cp' -> hw_pos (cp_ps cp) <= LONG_MAX -> the_pcm (cp_ps cp') = the_pcm (cp_ps cp).
Proof using Type*.
  intros Hi Hstep Hmax. destruct Hstep as [s m r d buffer size n c s' Hs Hrun Hx|s m r d n k m' Hn Hroom Hk1 Hk2 Hx|s m r d m' Hm'];
    try done.
  destruct Hi as [Hm H0 Ho Hr Hcount Hq]. cbn [cp_ps cp_mem recorded received] in *.
  apply (read_spec s m buffer size n c s' Hm ltac:(lia) Hmax Hs Hrun).
Qed.
(** A capture that starts at a position, with nothing recorded. *)
Definition starts_at (start : Z) (cp : capture) : Prop :=
  mapped_capture (the_pcm (cp_ps cp)) /\ 0 <= start /\
  hw_pos (cp_ps cp) = start /\ appl_pos (cp_ps cp) = start /\ recorded cp = [] /\ received cp = [].

Lemma capture_starts_inv start cp : starts_at start cp -> capture_inv start cp.
Proof.
  intros (Hm & H0 & Hh & Ha & Hw & Hp). pose proof (mp_size _ Hm).
  constructor; rewrite ?Hh, ?Ha, ?Hw, ?Hp; try done; try lia; [simpl; lia|]. rewrite Z.sub_diag. done.
Qed.

Lemma capture_steps_keep start cp cp' :
  starts_at start cp -> rtc step cp cp' -> start + Z.of_nat (length (recorded cp')) <= LONG_MAX ->
  capture_inv start cp' /\ the_pcm (cp_ps cp') = the_pcm (cp_ps cp).
Proof using Type*.
  intros Hst Hsteps. revert cp' Hsteps. refine (rtc_ind_r _ _ _ _); [intros Hmax|intros cp1 cp2 Hsteps Hstep IH Hmax].
  - split; [apply capture_starts_inv; done|done].
  - pose proof (capture_step_grows cp1 cp2 Hstep). destruct IH as [Hi He]; [lia|].
    assert (Hlim : hw_pos (cp_ps cp1) <= LONG_MAX) by (rewrite (ci_count _ _ Hi); lia).
    split; [eapply capture_step_keeps; eauto|]. rewrite <- He. eapply capture_step_same_handle; eauto.
Qed.

(** The invariant as a queue. *)
Lemma queue_of_capture start cp :
  capture_inv start cp ->
  exists queued, recorded cp = received cp ++ queued /\
    Z.of_nat (length queued) = hw_pos (cp_ps cp) - appl_pos (cp_ps cp) /\
    Z.of_nat (length queued) <= buffer_size (the_pcm (cp_ps cp)) /\
    queued = ring_frames (the_pcm (cp_ps cp)) (cp_mem cp) (appl_pos (cp_ps cp)) (Z.of_nat (length queued)).
Proof.
  intros [Hm H0 Ho Hr Hcount Hq]. eexists. split; [exact Hq|]. rewrite ring_frames_length by lia.
  split; [done|]. split; [lia|done].
Qed.

(** C5. A mapped capture is a queue.  However the hardware's recording into the free
    frames, reads by [snd_pcm_mmap_readi] (of any size, at any fill level, across the
    buffer's end) and changes of other memory follow each other, the frames that the
    application has received are the first of the frames recorded, in order and
    unchanged; the rest, at most a buffer, are the frames of the ring between the two
    positions.  (As long as the positions stay below [LONG_MAX].) *)
Theorem mmap_capture_fifo start cp cp' :
  starts_at start cp -> rtc step cp cp' -> start + Z.of_nat (length (recorded cp')) <= LONG_MAX ->
  exists queued, recorded cp' = received cp' ++ queued /\
    Z.of_nat (length queued) = hw_pos (cp_ps cp') - appl_pos (cp_ps cp') /\
    Z.of_nat (length queued) <= buffer_size (the_pcm (cp_ps cp)) /\
    queued = ring_frames (the_pcm (cp_ps cp)) (cp_mem cp') (appl_pos (cp_ps cp')) (Z.of_nat (length queued)).
Proof using Type*.
  intros Hst Hsteps Hmax. destruct (capture_steps_keep start cp cp' Hst Hsteps Hmax) as [Hi <-].
  exact (queue_of_capture start cp' Hi).
Qed.
End Capture.

(** ** A witness *)

(** One 16-bit channel, a buffer of four frames at 4096. *)
Definition mic_pcm : snd_pcm_t :=
  put_running_areas (Some (9, [PcmTypes.Area 4096 0 16]))
    (put_shared (PtrMap 1) (PtrMap 2) None
       (put_configuration 0 0 0 1 48000 0 2 4 16 16 (new_pcm 1 0 0 0 STREAM_CAPTURE 0 3 4))).

Definition mic_start : capture :=
  Capture (PS mic_pcm (Proc (World (6, MmapControl 6 1) []) [] false ∅)) (∅ : mem) [] [].

Lemma mic_starts : starts_at 4096 2 0 1 2 6 mic_start.
Proof.
  split; [|by_decide]. constructor; [|reflexivity]. constructor; try reflexivity.
  constructor; try (vm_compute; (reflexivity || discriminate)). exists 9. reflexivity.
Defined.

#[local] Abbreviation mic_step := (step 4096 2 0 1 2).

Definition after_read (buffer size : Z) (cp : capture) : capture :=
  let '((n, c), s') := snd_pcm_mmap_readi buffer size (cp_ps cp) in
  let m := copied (cp_mem cp) c in
  Capture s' m (recorded cp) (received cp ++ frames_at 2 (the_pcm (cp_ps cp)) m buffer n).

(** The hardware stores the bytes of [n] frames that do not cross the ring's end. *)
Definition after_record (n : Z) (bytes : list Z) (cp : capture) : capture :=
  let s := cp_ps cp in
  let m := write_bytes (cp_mem cp) (ring_addr 4096 2 0 (the_pcm s) (hw_pos 1 s)) bytes in
  Capture (with_ker (hw_pos 1 s + n, (kern s).2) s) m
    (recorded cp ++ ring_frames 4096 2 0 (the_pcm s) m (hw_pos 1 s) n) (received cp).

Lemma after_read_step buffer size (cp : capture (K := pages)) :
  is_u64 size ->
  (forall x, buffer <= x < buffer + (snd_pcm_mmap_readi buffer size (cp_ps cp)).1.1 * frame_size 2 (the_pcm (cp_ps cp)) ->
     ~ in_ring 4096 2 0 (the_pcm (cp_ps cp)) x) ->
  mic_step cp (after_read buffer size cp).
Proof.
  intros Hs Hx. destruct cp as [s m r d]. unfold after_read. cbn [cp_ps cp_mem recorded received] in *.
  destruct (snd_pcm_mmap_readi buffer size s) as [[n c] s'] eqn:Hw. apply (step_read 4096 2 0 1 2) with (size := size); done.
Defined.

Lemma after_record_step n bytes (cp : capture (K := pages)) :
  let pcm := the_pcm (cp_ps cp) in
  0 < buffer_size pcm -> 0 < frame_size 2 pcm ->
  0 <= n -> hw_pos 1 (cp_ps cp) + n <= appl_pos 2 (cp_ps cp) + buffer_size pcm ->
  Z.of_nat (length bytes) = n * frame_size 2 pcm -> hw_pos 1 (cp_ps cp) mod buffer_size pcm + n <= buffer_size pcm ->
  mic_step cp (after_record n bytes cp).
Proof.
  intros pcm Hbs Hfs Hn Hroom Hlen Hfit. destruct cp as [s m r d]. unfold after_record. cbn [cp_ps cp_mem recorded received] in *.
  apply (step_record 4096 2 0 1 2); try done. fold pcm. intros x _ Hx. rewrite write_bytes_rd.
  destruct (decide _) as [H|]; [exfalso|done]. rewrite Hlen in H. set (a := ring_addr _ _ _ _ _) in H.
  set (i := (x - a) / frame_size 2 pcm).
  pose proof (Z.div_mod (x - a) (frame_size 2 pcm) ltac:(lia)). pose proof (Z.mod_pos_bound (x - a) (frame_size 2 pcm) Hfs).
  assert (Hi : 0 <= i < n) by (unfold i; split; [apply Z.div_pos; lia|apply Z.div_lt_upper_bound; lia]).
  apply (Hx (hw_pos 1 s + i)); [lia|]. unfold in_frame, ring_addr. rewrite position_mod by lia.
  unfold a, ring_addr in *. fold i in H0. lia.
Defined.

(** Two frames recorded up to the ring's end, one received, two recorded from its start, and
    the next received; two are left. *)
Definition mic_run : capture :=
  after_read 102 1 (after_record 2 [5; 6; 7; 8] (after_read 100 1 (after_record 2 [1; 2; 3; 4] mic_start))).

Lemma mic_runs : rtc mic_step mic_start mic_run.
Proof.
  unfold mic_run. set (c1 := after_record 2 [1; 2; 3; 4] mic_start). set (c2 := after_read 100 1 c1).
  set (c3 := after_record 2 [5; 6; 7; 8] c2).
  apply rtc_l with c1; [|apply rtc_l with c2; [|apply rtc_l with c3; [|apply rtc_once]]].
  - apply after_record_step; vm_compute; (reflexivity || discriminate).
  - apply after_read_step; [by_decide|]. intros x. unfold in_ring.
    replace (snd_pcm_mmap_readi 100 1 (cp_ps c1)).1.1 with 1 by (vm_compute; reflexivity).
    replace (the_pcm (cp_ps c1)) with mic_pcm by (vm_compute; reflexivity).
    change (frame_size 2 mic_pcm) with 2. change (buffer_size mic_pcm) with 4. lia.
  - apply after_record_step; vm_compute; (reflexivity || discriminate).
  - apply after_read_step; [by_decide|]. intros x. unfold in_ring.
    replace (snd_pcm_mmap_readi 102 1 (cp_ps c3)).1.1 with 1 by (vm_compute; reflexivity).
    replace (the_pcm (cp_ps c3)) with mic_pcm by (vm_compute; reflexivity).
    change (frame_size 2 mic_pcm) with 2. change (buffer_size mic_pcm) with 4. lia.
Defined.

Lemma mmap_capture_fifo_witness :
  received mic_run = [[1; 2]; [3; 4]] /\ recorded mic_run = [[1; 2]; [3; 4]; [5; 6]; [7; 8]] /\
  exists queued, recorded mic_run = received mic_run ++ queued /\
    Z.of_nat (length queued) = hw_pos 1 (cp_ps mic_run) - appl_pos 2 (cp_ps mic_run) /\
    Z.of_nat (length queued) <= buffer_size (the_pcm (cp_ps mic_start)) /\
    queued = ring_frames 4096 2 0 (the_pcm (cp_ps mic_start)) (cp_mem mic_run) (appl_pos 2 (cp_ps mic_run))
               (Z.of_nat (length queued)).
Proof.
  split; [vm_compute; reflexivity|]. split; [vm_compute; reflexivity|].
  apply (mmap_capture_fifo 4096 2 0 1 2 6 mic_start mic_run mic_starts mic_runs).
  vm_compute. discriminate.
Defined.
