(* ===== verification/MmapOpen.v ===== *)
(** * From an open handle to the queue

    [snd_pcm_hw_params] (src/src/pcm_params.c 983-991) with a mapped access leaves the
    handle that MmapStream.v and MmapCapture.v start from: the ring is mapped (MmapRing.v),
    the pages' pointers are set and the boundary is 0, whatever was called on the handle
    since [snd_pcm_open].  So the whole way, from opening to the samples, is covered. *)

From stdpp Require Import gmap relations.
From Stdlib Require Import String.
From S2P Require Import Prelude CInt Sys Cards Async Format PcmTypes PcmSw Pcm Toy PcmSpec PcmMmap HwParams PcmOpen.
From S2P Require Import Area MmapCopy MmapPages MmapStream MmapRing MmapCapture.
#[local] Open Scope Z_scope.

Section Configured.
Context {K : Type} `{!Os K, !AsyncKernel K, !CardKernel K, !PcmKernel K, !OsLaws K}.
Context (off sb f0 : Z).

Lemma ring_config_same (p p' : snd_pcm_t) :
  ring_config off sb f0 p' -> fd p = fd p' -> channels p = channels p' -> sample_bits p = sample_bits p' ->
  frame_bits p = frame_bits p' -> buffer_size p = buffer_size p' -> ring_config off sb f0 p.
Proof. intros [] H1 H2 H3 H4 H5. constructor; rewrite ?H1, ?H2, ?H3, ?H4, ?H5; done. Qed.

(** The last step of a configuration with a mapped access. *)
Lemma map_if_needed_ring base s s1 err :
  session base s -> setup (the_pcm s) = true -> is_mmap_access (_access (the_pcm s)) = true ->
  ring_config off sb f0 (the_pcm s) -> map_if_needed s = (err, s1) -> 0 <= err ->
  exists ring size, RMap ring size ∈ led s1 /\ interleaved (the_pcm s1) ring sb f0 /\
    f0 + buffer_size (the_pcm s) * (channels (the_pcm s) * sb) <= size.
Proof using Type*.
  intros Hs Hset Hac Hrc Hrun Herr. unfold map_if_needed, bind at 1, getp in Hrun. rewrite Hac in Hrun.
  unfold bind at 1 in Hrun.
  pose proof (handle_mmap_spec s _ (ses_map _ _ Hs) (session_channels _ _ Hs)) as Hspec.
  destruct (_snd_pcm_mmap s) as [r s2] eqn:Hm. destruct Hspec as (_ & _ & _ & Hr & _).
  destruct (r <? 0) eqn:Hneg; zbool.
  { unfold bind in Hrun. destruct (_snd_pcm_munmap s2). injection Hrun as <- _. lia. }
  assert (r = 0) as -> by lia.
  destruct (mmap_ring off sb f0 s s2 _ (ses_map _ _ Hs) (session_channels _ _ Hs) Hrc Hm)
    as (ring & size & mc & ra & Hin & Hil & Hsize & _).
  exists ring, size. unfold bind in Hrun. pose proof (quiet_sync_ptr (K := K) 0 s2) as [Hh (Hl & _)].
  destruct (_snd_pcm_sync_ptr 0 s2) as [e s3]. injection Hrun as _ <-. cbn [snd] in *.
  split; [unfold led in *; rewrite Hl; done|]. split; [|done]. eapply same_handle_layout; eauto.
Qed.

(** What a configuration leaves. *)
Lemma configured_ring base junk params params' (s s' : ps K) :
  session base s -> snd_pcm_hw_params junk params s = (Some (0, params'), s') ->
  is_mmap_access (_access (the_pcm s')) = true -> ring_config off sb f0 (the_pcm s') ->
  sync_ptr (the_pcm s') = None ->
  exists ring size sa ca, RMap ring size ∈ led s' /\
    f0 + buffer_size (the_pcm s') * (channels (the_pcm s') * sb) <= size /\
    mapped_pcm ring sb f0 sa ca (the_pcm s').
Proof using Type*.
  intros Hs Hrun Hac Hrc Hsync.
  pose proof (keeps_hw_params base junk params s Hs) as Hs'. rewrite Hrun in Hs'. cbn [snd] in Hs'.
  unfold snd_pcm_hw_params, bind at 1 in Hrun.
  destruct (_snd_pcm_hw_params junk params s) as [[[err p1]|] s1] eqn:H1; [|discriminate].
  destruct (err <? 0) eqn:Herr; [injection Hrun as -> _ _; zbool; lia|]. zbool.
  destruct (hw_params_run base junk params p1 s err s1 Hs H1 Herr) as (p0 & s6 & H6 & Hset & Hc & Hmap).
  unfold bind in Hrun. pose proof (quiet_prepare (K := K) s1) as [Hh (Hl & _)].
  destruct (snd_pcm_prepare s1) as [e2 s2]. cbn [snd] in *. injection Hrun as -> -> ->.
  pose proof (map_if_needed_config base s6 H6 Hset) as Hc6.
  pose proof (map_if_needed_fd base s6 H6) as Hfd. rewrite Hmap in Hc6, Hfd. cbn [snd] in *.
  destruct Hh as (sp & sw & Hh & Hsp).
  assert (Hcs : config_of (the_pcm s') = config_of (the_pcm s6)) by (rewrite <- Hc6, Hh; done).
  assert (Hf : fd (the_pcm s') = fd (the_pcm s6)) by (rewrite <- Hfd, Hh; done).
  unfold config_of in Hcs. injection Hcs as _ _ Ha _ _ Hch _ _ _ Hbs Hsb Hfb.
  destruct (map_if_needed_ring base s6 s1 err H6 Hset) as (ring & size & Hin & Hil & Hsize); try done; [congruence| |].
  { eapply ring_config_same; eauto. }
  assert (Hshared : exists sa ca, mmap_status (the_pcm s') = PtrMap sa /\ mmap_control (the_pcm s') = PtrMap ca).
  { pose proof (ses_shared _ _ Hs') as Hsh. unfold shared_inv in Hsh. rewrite Hsync in Hsh. exact Hsh. }
  destruct Hshared as (sa & ca & Hsa & Hca). exists ring, size, sa, ca. split; [unfold led in *; rewrite Hl; done|].
  split; [rewrite Hbs, Hch; done|]. constructor; try done.
  - eapply same_handle_layout; [|exact Hil]. exists sp, sw. done.
  - apply (rc_size _ _ _ _ Hrc).
  - apply (ses_boundary _ _ Hs').
Qed.
End Configured.

Section Whole.
Context {K : Type} `{!Os K, !AsyncKernel K, !CardKernel K, !PcmKernel K, !OsLaws K, !SharedPages K}.
Context (off sb f0 : Z).

(** What arrived is the first of what was sent; at most [room] frames are on the way. *)
Definition in_order (sent arrived : list (list Z)) (room : Z) : Prop :=
  exists queued, sent = arrived ++ queued /\ Z.of_nat (length queued) <= room.

(** C2. From [snd_pcm_open] to the samples.  A PCM is opened, any calls are made on it, and
    a configuration with a mapped access succeeds, on a driver of interleaved channels and
    with the records of positions mapped.  Then the ring is in one mapping that the
    process holds, all of it; and from positions that agree, whatever the hardware and the
    application do: the frames that the hardware of a playback plays are the first of
    those written by [snd_pcm_mmap_writei], and the frames that [snd_pcm_mmap_readi]
    brings from a capture are the first of those recorded, in order and unchanged, with at
    most a buffer of frames on the way.  (Positions are to stay below [LONG_MAX].) *)
Theorem open_stream_fifo errno0 name str mode calls junk params params' (p p' : proc K) r pcm (s' : ps K) :
  0 < errno0 -> snd_pcm_open errno0 name str mode p = (r, Some pcm, p') ->
  snd_pcm_hw_params junk params (run_calls calls (PS pcm p')) = (Some (0, params'), s') ->
  is_mmap_access (_access (the_pcm s')) = true -> ring_config off sb f0 (the_pcm s') ->
  sync_ptr (the_pcm s') = None ->
  exists ring size sa ca, RMap ring size ∈ led s' /\
    f0 + buffer_size (the_pcm s') * (channels (the_pcm s') * sb) <= size /\
    forall start m, 0 <= start -> hw_pos sa s' = start -> appl_pos ca s' = start ->
      (stream (the_pcm s') = STREAM_PLAYBACK ->
       forall pb, rtc (MmapStream.step ring sb f0 sa ca) (Playback s' m [] []) pb ->
         start + Z.of_nat (length (written pb)) + buffer_size (the_pcm s') <= LONG_MAX ->
         in_order (written pb) (played pb) (buffer_size (the_pcm s'))) /\
      (stream (the_pcm s') = STREAM_CAPTURE ->
       forall cp, rtc (MmapCapture.step ring sb f0 sa ca) (Capture s' m [] []) cp ->
         start + Z.of_nat (length (recorded cp)) <= LONG_MAX ->
         in_order (recorded cp) (received cp) (buffer_size (the_pcm s'))).
Proof using Type*.
  intros He Hopen Hrun Hac Hrc Hsync. pose proof (open_spec errno0 name str mode p He) as Ho. rewrite Hopen in Ho.
  destruct Ho as [_ Ho]. pose proof (run_calls_session _ calls _ Ho) as Hs.
  destruct (configured_ring off sb f0 _ junk params params' _ s' Hs Hrun Hac Hrc Hsync)
    as (ring & size & sa & ca & Hin & Hsize & Hm).
  exists ring, size, sa, ca. split; [done|]. split; [done|]. intros start m H0 Hh Ha. split; intros Hst.
  - intros pb Hsteps Hmax.
    destruct (MmapStream.steps_keep ring sb f0 sa ca start (Playback s' m [] []) pb) as [Hi He']; [split; done|done|done|].
    destruct (queue_of_inv _ _ _ _ _ _ _ Hi) as (q & Hq & _ & Hlen & _). rewrite He' in Hlen. exists q. done.
  - intros cp Hsteps Hmax.
    destruct (capture_steps_keep ring sb f0 sa ca start (Capture s' m [] []) cp) as [Hi He']; [split; done|done|done|].
    destruct (queue_of_capture _ _ _ _ _ _ _ Hi) as (q & Hq & _ & Hlen & _). rewrite He' in Hlen. exists q. done.
Qed.
End Whole.

(** ** A witness: the toy system with two shared pages *)

Record machine := Machine { m_sys : Z; m_hw : Z; m_control : mmap_control_t }.

Definition on_sys {A} (m : io Z A) : io machine A :=
  fun k => let '(a, z) := m (m_sys k) in (a, Machine z (m_hw k) (m_control k)).

#[local] Instance machine_os : Os machine := {
  os_open path flags := on_sys (os_open path flags);
  os_close fd := on_sys (os_close fd);
  os_setfl fd flags := on_sys (os_setfl fd flags);
  os_getfl fd := on_sys (os_getfl fd);
  os_access_ok path := on_sys (os_access_ok path);
  os_mmap size fd offset := on_sys (os_mmap size fd offset);
  os_munmap addr size := on_sys (os_munmap addr size);
  os_alloc size l := on_sys (os_alloc size l);
  os_poll fd events timeout := on_sys (os_poll fd events timeout);
  os_sleep us := on_sys (os_sleep us);
  os_page_size := 4096
}.

#[local] Program Instance machine_laws : OsLaws machine := { taken k a := taken (m_sys k) a }.
Next Obligation. unfold INT_MAX. simpl. lia. Qed.
Next Obligation.
  intros size fd offset k p k' H. apply (mmap_law size fd offset (m_sys k)). simpl in *. injection H as <- <-. done.
Qed.
Next Obligation. intros. simpl. lia. Qed.
Next Obligation.
  intros size l k a k' H. apply (alloc_law size l (m_sys k) a (m_sys k')). simpl in *. injection H as <- <-. done.
Qed.

#[local] Instance machine_async : AsyncKernel machine := {
  os_setsig _ _ := ret 0;
  os_setown _ := ret 0;
  os_sigaction _ := ret 0
}.

#[local] Instance machine_cards : CardKernel machine := {
  ioctl_card_info c := on_sys (ioctl_card_info c);
  ioctl_prefer a b c := on_sys (ioctl_prefer a b c)
}.

(** Two interleaved 16-bit channels; the pages are the state. *)
#[local] Instance machine_driver : PcmKernel machine := {
  ioctl_cmd _ _ := ret 0;
  ioctl_move _ _ frames := ret (0, frames);
  ioctl_info_subdevice _ := ret (0, 0);
  ioctl_pversion _ := ret (0, 131085);
  ioctl_user_pversion _ _ := ret 0;
  ioctl_hw_refine _ p := ret (0, p);
  ioctl_hw_params _ p := ret (0, p);
  ioctl_sw_params _ p := ret (0, p);
  ioctl_sync_ptr _ sp := ret (0, sp);
  ioctl_channel_info _ c := ret (0, ChannelInfo (ci_channel c) 0 (16 * ci_channel c) 32 0);
  ioctl_delay _ := ret (0, 0);
  ioctl_xfer _ _ _ n := ret (0, n);
  shared_status _ := fun k => (MmapStatus STATE_PREPARED (m_hw k) (0, 0) 0 (0, 0), k);
  shared_control _ := fun k => (m_control k, k);
  set_shared_control _ c := fun k => (tt, Machine (m_sys k) (m_hw k) c)
}.

#[local] Program Instance machine_shared : SharedPages machine := {
  page_hw k _ := m_hw k;
  page_control k _ := m_control k
}.
Next Obligation. intros a k. eexists. split; reflexivity. Qed.
Next Obligation. done. Qed.
Next Obligation. done. Qed.

Definition machine_process : proc machine := Proc (World (Machine 0 0 (MmapControl 0 1)) []) [] false ∅.

Definition machine_opened (stream : Z) : ps machine :=
  match snd_pcm_open 1 "hw:0,0" stream 0 machine_process with
  | (_, Some pcm, p) => PS pcm p
  | (_, None, p) => PS (new_pcm 0 0 0 0 0 0 0 0) p
  end.

(** A configuration is set twice. *)
Definition machine_run (stream : Z) : option (Z * snd_pcm_hw_params_t) * ps machine :=
  snd_pcm_hw_params 0 PcmOpen.stereo (run_calls [CallHwParams 0 PcmOpen.stereo] (machine_opened stream)).

Lemma open_stream_fifo_witness :
  exists ring size sa ca, RMap ring size ∈ led (machine_run STREAM_PLAYBACK).2 /\
    forall m pb, rtc (MmapStream.step ring 2 0 sa ca) (Playback (machine_run STREAM_PLAYBACK).2 m [] []) pb ->
      Z.of_nat (length (written pb)) <= 1000000 ->
      in_order (written pb) (played pb) 1024.
Proof.
  destruct (open_stream_fifo 0 2 0 1 "hw:0,0" STREAM_PLAYBACK 0 [CallHwParams 0 PcmOpen.stereo] 0 PcmOpen.stereo
    (match (machine_run STREAM_PLAYBACK).1 with Some (_, p) => p | None => PcmOpen.stereo end)
    machine_process (prc (machine_opened STREAM_PLAYBACK)) 0 (the_pcm (machine_opened STREAM_PLAYBACK))
    (machine_run STREAM_PLAYBACK).2) as (ring & size & sa & ca & H1 & _ & H3);
    try (vm_compute; reflexivity).
  - constructor; try (vm_compute; (reflexivity || discriminate)).
    intros [c o f st a] k Hc. unfold at_channel.
    replace (channels (the_pcm (machine_run STREAM_PLAYBACK).2)) with 2 in * by (vm_compute; reflexivity). simpl in *. lia.
  - exists ring, size, sa, ca. split; [exact H1|]. intros m pb Hsteps Hmax.
    replace 1024 with (buffer_size (the_pcm (machine_run STREAM_PLAYBACK).2)) by (vm_compute; reflexivity).
    apply (proj1 (H3 0 m (Z.le_refl 0) ltac:(vm_compute; reflexivity) ltac:(vm_compute; reflexivity))
      ltac:(vm_compute; reflexivity) pb Hsteps).
    replace (buffer_size (the_pcm (machine_run STREAM_PLAYBACK).2)) with 1024 by (vm_compute; reflexivity).
    unfold LONG_MAX. lia.
Defined.
