(* ===== verification/Seq.v ===== *)
(** * The sequencer that is not there

    src/src/seq.h and src/src/seqmid.h: salsa-lib has no sequencer.  The headers keep the
    names of alsa-lib's interface so that programs compile; the functions take their
    arguments, change nothing and answer a constant.  Opening a sequencer, allocating one
    of its structures and every request of the kernel fail with [ENXIO]; the fields of the
    structures, which no program can have, are 0.

    A pointer is a number, 0 being NULL.  What could be given back through a pointer is
    left as it was, so that only the answer is modelled. *)

From Stdlib Require Import String.
From S2P Require Import Prelude CInt.
#[local] Open Scope Z_scope.

Definition NULL : Z := 0.

(** The constants that are answered. *)
(* [seq.h 10-14 snd_seq_type_t] *)
Definition SND_SEQ_TYPE_HW : Z := 0.
(* [seq.h 162-165 snd_seq_client_type_t] *)
Definition SND_SEQ_USER_CLIENT : Z := 1.
(* [seq.h 689-692 snd_seq_query_subs_type_t] *)
Definition SND_SEQ_QUERY_SUBS_READ : Z := 0.
(* [seq.h 1065-1069 snd_seq_queue_timer_type_t] *)
Definition SND_SEQ_TIMER_ALSA : Z := 0.

(** ** The handle, clients, ports, queues and events *)

(* [seq.h 25-28 snd_seq_open] *)
Definition snd_seq_open (handle : Z) (name : string) (streams mode : Z) : Z := - ENXIO.

(* [seq.h 31-35 snd_seq_open_lconf] *)
Definition snd_seq_open_lconf (handle : Z) (name : string) (streams mode lconf : Z) : Z := - ENXIO.

(* [seq.h 37-40 snd_seq_name] *)
Definition snd_seq_name (seq : Z) : Z := NULL.

(* [seq.h 42-45 snd_seq_type] *)
Definition snd_seq_type (seq : Z) : Z := SND_SEQ_TYPE_HW.

(* [seq.h 47-50 snd_seq_close] *)
Definition snd_seq_close (handle : Z) : Z := 0.

(* [seq.h 52-55 snd_seq_poll_descriptors_count] *)
Definition snd_seq_poll_descriptors_count (handle events : Z) : Z := 0.

(* [seq.h 57-61 snd_seq_poll_descriptors] *)
Definition snd_seq_poll_descriptors (handle pfds space events : Z) : Z := - ENXIO.

(* [seq.h 63-67 snd_seq_poll_descriptors_revents] *)
Definition snd_seq_poll_descriptors_revents (seq pfds nfds revents : Z) : Z := - ENXIO.

(* [seq.h 69-72 snd_seq_nonblock] *)
Definition snd_seq_nonblock (handle nonblock : Z) : Z := - ENXIO.

(* [seq.h 74-77 snd_seq_client_id] *)
Definition snd_seq_client_id (handle : Z) : Z := - ENXIO.

(* [seq.h 80-83 snd_seq_get_output_buffer_size] *)
Definition snd_seq_get_output_buffer_size (handle : Z) : Z := 0.

(* [seq.h 85-88 snd_seq_get_input_buffer_size] *)
Definition snd_seq_get_input_buffer_size (handle : Z) : Z := 0.

(* [seq.h 90-93 snd_seq_set_output_buffer_size] *)
Definition snd_seq_set_output_buffer_size (handle size : Z) : Z := - ENXIO.

(* [seq.h 95-98 snd_seq_set_input_buffer_size] *)
Definition snd_seq_set_input_buffer_size (handle size : Z) : Z := - ENXIO.

(* [seq.h 103-106 snd_seq_system_info_sizeof] *)
Definition snd_seq_system_info_sizeof : Z := 0.

(* [seq.h 109-112 snd_seq_system_info_malloc] *)
Definition snd_seq_system_info_malloc (ptr : Z) : Z := - ENXIO.

(* [seq.h 114-116 snd_seq_system_info_free] *)
Definition snd_seq_system_info_free (ptr : Z) : unit := tt.

(* [seq.h 118-121 snd_seq_system_info_copy] *)
Definition snd_seq_system_info_copy (dst src : Z) : unit := tt.

(* [seq.h 124-127 snd_seq_system_info_get_queues] *)
Definition snd_seq_system_info_get_queues (info : Z) : Z := 0.

(* [seq.h 129-132 snd_seq_system_info_get_clients] *)
Definition snd_seq_system_info_get_clients (info : Z) : Z := 0.

(* [seq.h 134-137 snd_seq_system_info_get_ports] *)
Definition snd_seq_system_info_get_ports (info : Z) : Z := 0.

(* [seq.h 139-142 snd_seq_system_info_get_channels] *)
Definition snd_seq_system_info_get_channels (info : Z) : Z := 0.

(* [seq.h 144-147 snd_seq_system_info_get_cur_clients] *)
Definition snd_seq_system_info_get_cur_clients (info : Z) : Z := 0.

(* [seq.h 149-152 snd_seq_system_info_get_cur_queues] *)
Definition snd_seq_system_info_get_cur_queues (info : Z) : Z := 0.

(* [seq.h 155-158 snd_seq_system_info] *)
Definition snd_seq_system_info (handle info : Z) : Z := - ENXIO.

(* [seq.h 168-171 snd_seq_client_info_sizeof] *)
Definition snd_seq_client_info_sizeof : Z := 0.

(* [seq.h 175-178 snd_seq_client_info_malloc] *)
Definition snd_seq_client_info_malloc (ptr : Z) : Z := - ENXIO.

(* [seq.h 180-182 snd_seq_client_info_free] *)
Definition snd_seq_client_info_free (ptr : Z) : unit := tt.

(* [seq.h 184-187 snd_seq_client_info_copy] *)
Definition snd_seq_client_info_copy (dst src : Z) : unit := tt.

(* [seq.h 190-193 snd_seq_client_info_get_client] *)
Definition snd_seq_client_info_get_client (info : Z) : Z := - ENXIO.

(* [seq.h 195-198 snd_seq_client_info_get_type] *)
Definition snd_seq_client_info_get_type (info : Z) : Z := SND_SEQ_USER_CLIENT.

(* [seq.h 200-203 snd_seq_client_info_get_name] *)
Definition snd_seq_client_info_get_name (info : Z) : Z := NULL.

(* [seq.h 205-208 snd_seq_client_info_get_broadcast_filter] *)
Definition snd_seq_client_info_get_broadcast_filter (info : Z) : Z := 0.

(* [seq.h 210-213 snd_seq_client_info_get_error_bounce] *)
Definition snd_seq_client_info_get_error_bounce (info : Z) : Z := 0.

(* [seq.h 215-218 snd_seq_client_info_get_event_filter] *)
Definition snd_seq_client_info_get_event_filter (info : Z) : Z := NULL.

(* [seq.h 220-223 snd_seq_client_info_get_num_ports] *)
Definition snd_seq_client_info_get_num_ports (info : Z) : Z := 0.

(* [seq.h 225-228 snd_seq_client_info_get_event_lost] *)
Definition snd_seq_client_info_get_event_lost (info : Z) : Z := 0.

(* [seq.h 231-233 snd_seq_client_info_set_client] *)
Definition snd_seq_client_info_set_client (info client : Z) : unit := tt.

(* [seq.h 235-237 snd_seq_client_info_set_name] *)
Definition snd_seq_client_info_set_name (info : Z) (name : string) : unit := tt.

(* [seq.h 239-241 snd_seq_client_info_set_broadcast_filter] *)
Definition snd_seq_client_info_set_broadcast_filter (info val : Z) : unit := tt.

(* [seq.h 243-245 snd_seq_client_info_set_error_bounce] *)
Definition snd_seq_client_info_set_error_bounce (info val : Z) : unit := tt.

(* [seq.h 247-249 snd_seq_client_info_set_event_filter] *)
Definition snd_seq_client_info_set_event_filter (info filter : Z) : unit := tt.

(* [seq.h 252-255 snd_seq_get_client_info] *)
Definition snd_seq_get_client_info (handle info : Z) : Z := - ENXIO.

(* [seq.h 257-260 snd_seq_get_any_client_info] *)
Definition snd_seq_get_any_client_info (handle client info : Z) : Z := - ENXIO.

(* [seq.h 262-265 snd_seq_set_client_info] *)
Definition snd_seq_set_client_info (handle info : Z) : Z := - ENXIO.

(* [seq.h 267-270 snd_seq_query_next_client] *)
Definition snd_seq_query_next_client (handle info : Z) : Z := - ENXIO.

(* [seq.h 278-281 snd_seq_client_pool_sizeof] *)
Definition snd_seq_client_pool_sizeof : Z := 0.

(* [seq.h 285-288 snd_seq_client_pool_malloc] *)
Definition snd_seq_client_pool_malloc (ptr : Z) : Z := - ENXIO.

(* [seq.h 290-292 snd_seq_client_pool_free] *)
Definition snd_seq_client_pool_free (ptr : Z) : unit := tt.

(* [seq.h 294-297 snd_seq_client_pool_copy] *)
Definition snd_seq_client_pool_copy (dst src : Z) : unit := tt.

(* [seq.h 300-303 snd_seq_client_pool_get_client] *)
Definition snd_seq_client_pool_get_client (info : Z) : Z := - ENXIO.

(* [seq.h 305-308 snd_seq_client_pool_get_output_pool] *)
Definition snd_seq_client_pool_get_output_pool (info : Z) : Z := 0.

(* [seq.h 310-313 snd_seq_client_pool_get_input_pool] *)
Definition snd_seq_client_pool_get_input_pool (info : Z) : Z := 0.

(* [seq.h 315-318 snd_seq_client_pool_get_output_room] *)
Definition snd_seq_client_pool_get_output_room (info : Z) : Z := 0.

(* [seq.h 320-323 snd_seq_client_pool_get_output_free] *)
Definition snd_seq_client_pool_get_output_free (info : Z) : Z := 0.

(* [seq.h 325-328 snd_seq_client_pool_get_input_free] *)
Definition snd_seq_client_pool_get_input_free (info : Z) : Z := 0.

(* [seq.h 330-333 snd_seq_client_pool_set_output_pool] *)
Definition snd_seq_client_pool_set_output_pool (info size : Z) : unit := tt.

(* [seq.h 335-337 snd_seq_client_pool_set_input_pool] *)
Definition snd_seq_client_pool_set_input_pool (info size : Z) : unit := tt.

(* [seq.h 339-341 snd_seq_client_pool_set_output_room] *)
Definition snd_seq_client_pool_set_output_room (info size : Z) : unit := tt.

(* [seq.h 344-347 snd_seq_get_client_pool] *)
Definition snd_seq_get_client_pool (handle info : Z) : Z := - ENXIO.

(* [seq.h 349-352 snd_seq_set_client_pool] *)
Definition snd_seq_set_client_pool (handle info : Z) : Z := - ENXIO.

(* [seq.h 393-396 snd_seq_port_info_sizeof] *)
Definition snd_seq_port_info_sizeof : Z := 0.

(* [seq.h 400-403 snd_seq_port_info_malloc] *)
Definition snd_seq_port_info_malloc (ptr : Z) : Z := - ENXIO.

(* [seq.h 405-407 snd_seq_port_info_free] *)
Definition snd_seq_port_info_free (ptr : Z) : unit := tt.

(* [seq.h 409-412 snd_seq_port_info_copy] *)
Definition snd_seq_port_info_copy (dst src : Z) : unit := tt.

(* [seq.h 415-418 snd_seq_port_info_get_client] *)
Definition snd_seq_port_info_get_client (info : Z) : Z := - ENXIO.

(* [seq.h 420-423 snd_seq_port_info_get_port] *)
Definition snd_seq_port_info_get_port (info : Z) : Z := - ENXIO.

(* [seq.h 425-428 snd_seq_port_info_get_addr] *)
Definition snd_seq_port_info_get_addr (info : Z) : Z := NULL.

(* [seq.h 430-433 snd_seq_port_info_get_name] *)
Definition snd_seq_port_info_get_name (info : Z) : Z := NULL.

(* [seq.h 435-438 snd_seq_port_info_get_capability] *)
Definition snd_seq_port_info_get_capability (info : Z) : Z := 0.

(* [seq.h 440-443 snd_seq_port_info_get_type] *)
Definition snd_seq_port_info_get_type (info : Z) : Z := 0.

(* [seq.h 445-448 snd_seq_port_info_get_midi_channels] *)
Definition snd_seq_port_info_get_midi_channels (info : Z) : Z := 0.

(* [seq.h 450-453 snd_seq_port_info_get_midi_voices] *)
Definition snd_seq_port_info_get_midi_voices (info : Z) : Z := 0.

(* [seq.h 455-458 snd_seq_port_info_get_synth_voices] *)
Definition snd_seq_port_info_get_synth_voices (info : Z) : Z := 0.

(* [seq.h 460-463 snd_seq_port_info_get_read_use] *)
Definition snd_seq_port_info_get_read_use (info : Z) : Z := 0.

(* [seq.h 465-468 snd_seq_port_info_get_write_use] *)
Definition snd_seq_port_info_get_write_use (info : Z) : Z := 0.

(* [seq.h 470-473 snd_seq_port_info_get_port_specified] *)
Definition snd_seq_port_info_get_port_specified (info : Z) : Z := 0.

(* [seq.h 475-478 snd_seq_port_info_get_timestamping] *)
Definition snd_seq_port_info_get_timestamping (info : Z) : Z := 0.

(* [seq.h 480-483 snd_seq_port_info_get_timestamp_real] *)
Definition snd_seq_port_info_get_timestamp_real (info : Z) : Z := 0.

(* [seq.h 485-488 snd_seq_port_info_get_timestamp_queue] *)
Definition snd_seq_port_info_get_timestamp_queue (info : Z) : Z := 0.

(* [seq.h 491-493 snd_seq_port_info_set_client] *)
Definition snd_seq_port_info_set_client (info client : Z) : unit := tt.

(* [seq.h 495-498 snd_seq_port_info_set_port] *)
Definition snd_seq_port_info_set_port (info port : Z) : unit := tt.

(* [seq.h 500-503 snd_seq_port_info_set_addr] *)
Definition snd_seq_port_info_set_addr (info addr : Z) : unit := tt.

(* [seq.h 505-507 snd_seq_port_info_set_name] *)
Definition snd_seq_port_info_set_name (info : Z) (name : string) : unit := tt.

(* [seq.h 509-512 snd_seq_port_info_set_capability] *)
Definition snd_seq_port_info_set_capability (info capability : Z) : unit := tt.

(* [seq.h 514-516 snd_seq_port_info_set_type] *)
Definition snd_seq_port_info_set_type (info type : Z) : unit := tt.

(* [seq.h 518-521 snd_seq_port_info_set_midi_channels] *)
Definition snd_seq_port_info_set_midi_channels (info channels : Z) : unit := tt.

(* [seq.h 523-525 snd_seq_port_info_set_midi_voices] *)
Definition snd_seq_port_info_set_midi_voices (info voices : Z) : unit := tt.

(* [seq.h 527-529 snd_seq_port_info_set_synth_voices] *)
Definition snd_seq_port_info_set_synth_voices (info voices : Z) : unit := tt.

(* [seq.h 531-533 snd_seq_port_info_set_port_specified] *)
Definition snd_seq_port_info_set_port_specified (info val : Z) : unit := tt.

(* [seq.h 535-537 snd_seq_port_info_set_timestamping] *)
Definition snd_seq_port_info_set_timestamping (info enable : Z) : unit := tt.

(* [seq.h 539-542 snd_seq_port_info_set_timestamp_real] *)
Definition snd_seq_port_info_set_timestamp_real (info realtime : Z) : unit := tt.

(* [seq.h 544-546 snd_seq_port_info_set_timestamp_queue] *)
Definition snd_seq_port_info_set_timestamp_queue (info queue : Z) : unit := tt.

(* [seq.h 549-552 snd_seq_create_port] *)
Definition snd_seq_create_port (handle info : Z) : Z := - ENXIO.

(* [seq.h 554-557 snd_seq_delete_port] *)
Definition snd_seq_delete_port (handle port : Z) : Z := - ENXIO.

(* [seq.h 559-563 snd_seq_get_port_info] *)
Definition snd_seq_get_port_info (handle port info : Z) : Z := - ENXIO.

(* [seq.h 565-569 snd_seq_get_any_port_info] *)
Definition snd_seq_get_any_port_info (handle client port info : Z) : Z := - ENXIO.

(* [seq.h 571-575 snd_seq_set_port_info] *)
Definition snd_seq_set_port_info (handle port info : Z) : Z := - ENXIO.

(* [seq.h 577-580 snd_seq_query_next_port] *)
Definition snd_seq_query_next_port (handle info : Z) : Z := - ENXIO.

(* [seq.h 585-588 snd_seq_port_subscribe_sizeof] *)
Definition snd_seq_port_subscribe_sizeof : Z := 0.

(* [seq.h 592-595 snd_seq_port_subscribe_malloc] *)
Definition snd_seq_port_subscribe_malloc (ptr : Z) : Z := - ENXIO.

(* [seq.h 597-599 snd_seq_port_subscribe_free] *)
Definition snd_seq_port_subscribe_free (ptr : Z) : unit := tt.

(* [seq.h 601-604 snd_seq_port_subscribe_copy] *)
Definition snd_seq_port_subscribe_copy (dst src : Z) : unit := tt.

(* [seq.h 607-610 snd_seq_port_subscribe_get_sender] *)
Definition snd_seq_port_subscribe_get_sender (info : Z) : Z := NULL.

(* [seq.h 612-615 snd_seq_port_subscribe_get_dest] *)
Definition snd_seq_port_subscribe_get_dest (info : Z) : Z := NULL.

(* [seq.h 617-620 snd_seq_port_subscribe_get_queue] *)
Definition snd_seq_port_subscribe_get_queue (info : Z) : Z := 0.

(* [seq.h 622-625 snd_seq_port_subscribe_get_exclusive] *)
Definition snd_seq_port_subscribe_get_exclusive (info : Z) : Z := 0.

(* [seq.h 627-630 snd_seq_port_subscribe_get_time_update] *)
Definition snd_seq_port_subscribe_get_time_update (info : Z) : Z := 0.

(* [seq.h 632-635 snd_seq_port_subscribe_get_time_real] *)
Definition snd_seq_port_subscribe_get_time_real (info : Z) : Z := 0.

(* [seq.h 638-641 snd_seq_port_subscribe_set_sender] *)
Definition snd_seq_port_subscribe_set_sender (info addr : Z) : unit := tt.

(* [seq.h 643-646 snd_seq_port_subscribe_set_dest] *)
Definition snd_seq_port_subscribe_set_dest (info addr : Z) : unit := tt.

(* [seq.h 648-650 snd_seq_port_subscribe_set_queue] *)
Definition snd_seq_port_subscribe_set_queue (info q : Z) : unit := tt.

(* [seq.h 652-655 snd_seq_port_subscribe_set_exclusive] *)
Definition snd_seq_port_subscribe_set_exclusive (info val : Z) : unit := tt.

(* [seq.h 657-660 snd_seq_port_subscribe_set_time_update] *)
Definition snd_seq_port_subscribe_set_time_update (info val : Z) : unit := tt.

(* [seq.h 662-665 snd_seq_port_subscribe_set_time_real] *)
Definition snd_seq_port_subscribe_set_time_real (info val : Z) : unit := tt.

(* [seq.h 668-672 snd_seq_get_port_subscription] *)
Definition snd_seq_get_port_subscription (handle sub : Z) : Z := - ENXIO.

(* [seq.h 674-677 snd_seq_subscribe_port] *)
Definition snd_seq_subscribe_port (handle sub : Z) : Z := - ENXIO.

(* [seq.h 679-682 snd_seq_unsubscribe_port] *)
Definition snd_seq_unsubscribe_port (handle sub : Z) : Z := - ENXIO.

(* [seq.h 695-698 snd_seq_query_subscribe_sizeof] *)
Definition snd_seq_query_subscribe_sizeof : Z := 0.

(* [seq.h 702-705 snd_seq_query_subscribe_malloc] *)
Definition snd_seq_query_subscribe_malloc (ptr : Z) : Z := - ENXIO.

(* [seq.h 707-709 snd_seq_query_subscribe_free] *)
Definition snd_seq_query_subscribe_free (ptr : Z) : unit := tt.

(* [seq.h 711-714 snd_seq_query_subscribe_copy] *)
Definition snd_seq_query_subscribe_copy (dst src : Z) : unit := tt.

(* [seq.h 717-720 snd_seq_query_subscribe_get_client] *)
Definition snd_seq_query_subscribe_get_client (info : Z) : Z := 0.

(* [seq.h 722-725 snd_seq_query_subscribe_get_port] *)
Definition snd_seq_query_subscribe_get_port (info : Z) : Z := 0.

(* [seq.h 727-730 snd_seq_query_subscribe_get_root] *)
Definition snd_seq_query_subscribe_get_root (info : Z) : Z := NULL.

(* [seq.h 732-735 snd_seq_query_subscribe_get_type] *)
Definition snd_seq_query_subscribe_get_type (info : Z) : Z := SND_SEQ_QUERY_SUBS_READ.

(* [seq.h 737-740 snd_seq_query_subscribe_get_index] *)
Definition snd_seq_query_subscribe_get_index (info : Z) : Z := 0.

(* [seq.h 742-745 snd_seq_query_subscribe_get_num_subs] *)
Definition snd_seq_query_subscribe_get_num_subs (info : Z) : Z := 0.

(* [seq.h 747-750 snd_seq_query_subscribe_get_addr] *)
Definition snd_seq_query_subscribe_get_addr (info : Z) : Z := NULL.

(* [seq.h 752-755 snd_seq_query_subscribe_get_queue] *)
Definition snd_seq_query_subscribe_get_queue (info : Z) : Z := 0.

(* [seq.h 757-760 snd_seq_query_subscribe_get_exclusive] *)
Definition snd_seq_query_subscribe_get_exclusive (info : Z) : Z := 0.

(* [seq.h 762-765 snd_seq_query_subscribe_get_time_update] *)
Definition snd_seq_query_subscribe_get_time_update (info : Z) : Z := 0.

(* [seq.h 767-770 snd_seq_query_subscribe_get_time_real] *)
Definition snd_seq_query_subscribe_get_time_real (info : Z) : Z := 0.

(* [seq.h 773-776 snd_seq_query_subscribe_set_client] *)
Definition snd_seq_query_subscribe_set_client (info client : Z) : unit := tt.

(* [seq.h 778-780 snd_seq_query_subscribe_set_port] *)
Definition snd_seq_query_subscribe_set_port (info port : Z) : unit := tt.

(* [seq.h 782-785 snd_seq_query_subscribe_set_root] *)
Definition snd_seq_query_subscribe_set_root (info addr : Z) : unit := tt.

(* [seq.h 787-790 snd_seq_query_subscribe_set_type] *)
Definition snd_seq_query_subscribe_set_type (info type : Z) : unit := tt.

(* [seq.h 792-795 snd_seq_query_subscribe_set_index] *)
Definition snd_seq_query_subscribe_set_index (info _index : Z) : unit := tt.

(* [seq.h 798-802 snd_seq_query_port_subscribers] *)
Definition snd_seq_query_port_subscribers (seq subs : Z) : Z := - ENXIO.

(* [seq.h 812-815 snd_seq_queue_info_sizeof] *)
Definition snd_seq_queue_info_sizeof : Z := 0.

(* [seq.h 819-822 snd_seq_queue_info_malloc] *)
Definition snd_seq_queue_info_malloc (ptr : Z) : Z := - ENXIO.

(* [seq.h 824-826 snd_seq_queue_info_free] *)
Definition snd_seq_queue_info_free (ptr : Z) : unit := tt.

(* [seq.h 828-831 snd_seq_queue_info_copy] *)
Definition snd_seq_queue_info_copy (dst src : Z) : unit := tt.

(* [seq.h 834-837 snd_seq_queue_info_get_queue] *)
Definition snd_seq_queue_info_get_queue (info : Z) : Z := 0.

(* [seq.h 839-842 snd_seq_queue_info_get_name] *)
Definition snd_seq_queue_info_get_name (info : Z) : Z := NULL.

(* [seq.h 844-847 snd_seq_queue_info_get_owner] *)
Definition snd_seq_queue_info_get_owner (info : Z) : Z := 0.

(* [seq.h 849-852 snd_seq_queue_info_get_locked] *)
Definition snd_seq_queue_info_get_locked (info : Z) : Z := 0.

(* [seq.h 854-857 snd_seq_queue_info_get_flags] *)
Definition snd_seq_queue_info_get_flags (info : Z) : Z := 0.

(* [seq.h 860-862 snd_seq_queue_info_set_name] *)
Definition snd_seq_queue_info_set_name (info : Z) (name : string) : unit := tt.

(* [seq.h 864-866 snd_seq_queue_info_set_owner] *)
Definition snd_seq_queue_info_set_owner (info owner : Z) : unit := tt.

(* [seq.h 868-870 snd_seq_queue_info_set_locked] *)
Definition snd_seq_queue_info_set_locked (info locked : Z) : unit := tt.

(* [seq.h 872-874 snd_seq_queue_info_set_flags] *)
Definition snd_seq_queue_info_set_flags (info flags : Z) : unit := tt.

(* [seq.h 877-880 snd_seq_create_queue] *)
Definition snd_seq_create_queue (seq info : Z) : Z := - ENXIO.

(* [seq.h 882-885 snd_seq_alloc_named_queue] *)
Definition snd_seq_alloc_named_queue (seq : Z) (name : string) : Z := - ENXIO.

(* [seq.h 887-890 snd_seq_alloc_queue] *)
Definition snd_seq_alloc_queue (handle : Z) : Z := - ENXIO.

(* [seq.h 892-895 snd_seq_free_queue] *)
Definition snd_seq_free_queue (handle q : Z) : Z := - ENXIO.

(* [seq.h 897-900 snd_seq_get_queue_info] *)
Definition snd_seq_get_queue_info (seq q info : Z) : Z := - ENXIO.

(* [seq.h 902-905 snd_seq_set_queue_info] *)
Definition snd_seq_set_queue_info (seq q info : Z) : Z := - ENXIO.

(* [seq.h 907-910 snd_seq_query_named_queue] *)
Definition snd_seq_query_named_queue (seq : Z) (name : string) : Z := - ENXIO.

(* [seq.h 913-916 snd_seq_get_queue_usage] *)
Definition snd_seq_get_queue_usage (handle q : Z) : Z := - ENXIO.

(* [seq.h 918-921 snd_seq_set_queue_usage] *)
Definition snd_seq_set_queue_usage (handle q used : Z) : Z := - ENXIO.

(* [seq.h 926-929 snd_seq_queue_status_sizeof] *)
Definition snd_seq_queue_status_sizeof : Z := 0.

(* [seq.h 933-936 snd_seq_queue_status_malloc] *)
Definition snd_seq_queue_status_malloc (ptr : Z) : Z := - ENXIO.

(* [seq.h 938-940 snd_seq_queue_status_free] *)
Definition snd_seq_queue_status_free (ptr : Z) : unit := tt.

(* [seq.h 942-945 snd_seq_queue_status_copy] *)
Definition snd_seq_queue_status_copy (dst src : Z) : unit := tt.

(* [seq.h 948-951 snd_seq_queue_status_get_queue] *)
Definition snd_seq_queue_status_get_queue (info : Z) : Z := 0.

(* [seq.h 953-956 snd_seq_queue_status_get_events] *)
Definition snd_seq_queue_status_get_events (info : Z) : Z := 0.

(* [seq.h 958-961 snd_seq_queue_status_get_tick_time] *)
Definition snd_seq_queue_status_get_tick_time (info : Z) : Z := 0.

(* [seq.h 963-966 snd_seq_queue_status_get_real_time] *)
Definition snd_seq_queue_status_get_real_time (info : Z) : Z := NULL.

(* [seq.h 968-971 snd_seq_queue_status_get_status] *)
Definition snd_seq_queue_status_get_status (info : Z) : Z := 0.

(* [seq.h 974-978 snd_seq_get_queue_status] *)
Definition snd_seq_get_queue_status (handle q status : Z) : Z := 0.

(* [seq.h 983-986 snd_seq_queue_tempo_sizeof] *)
Definition snd_seq_queue_tempo_sizeof : Z := 0.

(* [seq.h 990-993 snd_seq_queue_tempo_malloc] *)
Definition snd_seq_queue_tempo_malloc (ptr : Z) : Z := - ENXIO.

(* [seq.h 995-997 snd_seq_queue_tempo_free] *)
Definition snd_seq_queue_tempo_free (ptr : Z) : unit := tt.

(* [seq.h 999-1002 snd_seq_queue_tempo_copy] *)
Definition snd_seq_queue_tempo_copy (dst src : Z) : unit := tt.

(* [seq.h 1005-1008 snd_seq_queue_tempo_get_queue] *)
Definition snd_seq_queue_tempo_get_queue (info : Z) : Z := 0.

(* [seq.h 1010-1013 snd_seq_queue_tempo_get_tempo] *)
Definition snd_seq_queue_tempo_get_tempo (info : Z) : Z := 0.

(* [seq.h 1015-1018 snd_seq_queue_tempo_get_ppq] *)
Definition snd_seq_queue_tempo_get_ppq (info : Z) : Z := 0.

(* [seq.h 1020-1023 snd_seq_queue_tempo_get_skew] *)
Definition snd_seq_queue_tempo_get_skew (info : Z) : Z := 0.

(* [seq.h 1025-1028 snd_seq_queue_tempo_get_skew_base] *)
Definition snd_seq_queue_tempo_get_skew_base (info : Z) : Z := 0.

(* [seq.h 1030-1033 snd_seq_queue_tempo_set_tempo] *)
Definition snd_seq_queue_tempo_set_tempo (info tempo : Z) : unit := tt.

(* [seq.h 1035-1037 snd_seq_queue_tempo_set_ppq] *)
Definition snd_seq_queue_tempo_set_ppq (info ppq : Z) : unit := tt.

(* [seq.h 1039-1042 snd_seq_queue_tempo_set_skew] *)
Definition snd_seq_queue_tempo_set_skew (info skew : Z) : unit := tt.

(* [seq.h 1044-1047 snd_seq_queue_tempo_set_skew_base] *)
Definition snd_seq_queue_tempo_set_skew_base (info base : Z) : unit := tt.

(* [seq.h 1050-1054 snd_seq_get_queue_tempo] *)
Definition snd_seq_get_queue_tempo (handle q tempo : Z) : Z := - ENXIO.

(* [seq.h 1056-1060 snd_seq_set_queue_tempo] *)
Definition snd_seq_set_queue_tempo (handle q tempo : Z) : Z := - ENXIO.

(* [seq.h 1072-1075 snd_seq_queue_timer_sizeof] *)
Definition snd_seq_queue_timer_sizeof : Z := 0.

(* [seq.h 1079-1082 snd_seq_queue_timer_malloc] *)
Definition snd_seq_queue_timer_malloc (ptr : Z) : Z := - ENXIO.

(* [seq.h 1084-1086 snd_seq_queue_timer_free] *)
Definition snd_seq_queue_timer_free (ptr : Z) : unit := tt.

(* [seq.h 1088-1091 snd_seq_queue_timer_copy] *)
Definition snd_seq_queue_timer_copy (dst src : Z) : unit := tt.

(* [seq.h 1094-1097 snd_seq_queue_timer_get_queue] *)
Definition snd_seq_queue_timer_get_queue (info : Z) : Z := 0.

(* [seq.h 1099-1102 snd_seq_queue_timer_get_type] *)
Definition snd_seq_queue_timer_get_type (info : Z) : Z := SND_SEQ_TIMER_ALSA.

(* [seq.h 1104-1107 snd_seq_queue_timer_get_id] *)
Definition snd_seq_queue_timer_get_id (info : Z) : Z := NULL.

(* [seq.h 1109-1112 snd_seq_queue_timer_get_resolution] *)
Definition snd_seq_queue_timer_get_resolution (info : Z) : Z := 0.

(* [seq.h 1115-1118 snd_seq_queue_timer_set_type] *)
Definition snd_seq_queue_timer_set_type (info type : Z) : unit := tt.

(* [seq.h 1120-1123 snd_seq_queue_timer_set_id] *)
Definition snd_seq_queue_timer_set_id (info id : Z) : unit := tt.

(* [seq.h 1125-1128 snd_seq_queue_timer_set_resolution] *)
Definition snd_seq_queue_timer_set_resolution (info resolution : Z) : unit := tt.

(* [seq.h 1131-1135 snd_seq_get_queue_timer] *)
Definition snd_seq_get_queue_timer (handle q timer : Z) : Z := - ENXIO.

(* [seq.h 1137-1141 snd_seq_set_queue_timer] *)
Definition snd_seq_set_queue_timer (handle q timer : Z) : Z := - ENXIO.

(* [seq.h 1145-1148 snd_seq_free_event] *)
Definition snd_seq_free_event (ev : Z) : Z := 0.

(* [seq.h 1150-1153 snd_seq_event_length] *)
Definition snd_seq_event_length (ev : Z) : Z := 0.

(* [seq.h 1155-1158 snd_seq_event_output] *)
Definition snd_seq_event_output (handle ev : Z) : Z := - ENXIO.

(* [seq.h 1160-1163 snd_seq_event_output_buffer] *)
Definition snd_seq_event_output_buffer (handle ev : Z) : Z := - ENXIO.

(* [seq.h 1165-1168 snd_seq_event_output_direct] *)
Definition snd_seq_event_output_direct (handle ev : Z) : Z := - ENXIO.

(* [seq.h 1170-1173 snd_seq_event_input] *)
Definition snd_seq_event_input (handle ev : Z) : Z := - ENXIO.

(* [seq.h 1175-1178 snd_seq_event_input_pending] *)
Definition snd_seq_event_input_pending (seq fetch_sequencer : Z) : Z := - ENXIO.

(* [seq.h 1180-1183 snd_seq_drain_output] *)
Definition snd_seq_drain_output (handle : Z) : Z := - ENXIO.

(* [seq.h 1185-1188 snd_seq_event_output_pending] *)
Definition snd_seq_event_output_pending (seq : Z) : Z := - ENXIO.

(* [seq.h 1190-1193 snd_seq_extract_output] *)
Definition snd_seq_extract_output (handle ev : Z) : Z := - ENXIO.

(* [seq.h 1195-1198 snd_seq_drop_output] *)
Definition snd_seq_drop_output (handle : Z) : Z := - ENXIO.

(* [seq.h 1200-1203 snd_seq_drop_output_buffer] *)
Definition snd_seq_drop_output_buffer (handle : Z) : Z := - ENXIO.

(* [seq.h 1205-1208 snd_seq_drop_input] *)
Definition snd_seq_drop_input (handle : Z) : Z := - ENXIO.

(* [seq.h 1210-1213 snd_seq_drop_input_buffer] *)
Definition snd_seq_drop_input_buffer (handle : Z) : Z := - ENXIO.

(* [seq.h 1229-1232 snd_seq_remove_events_sizeof] *)
Definition snd_seq_remove_events_sizeof : Z := 0.

(* [seq.h 1236-1239 snd_seq_remove_events_malloc] *)
Definition snd_seq_remove_events_malloc (ptr : Z) : Z := - ENXIO.

(* [seq.h 1241-1243 snd_seq_remove_events_free] *)
Definition snd_seq_remove_events_free (ptr : Z) : unit := tt.

(* [seq.h 1245-1248 snd_seq_remove_events_copy] *)
Definition snd_seq_remove_events_copy (dst src : Z) : unit := tt.

(* [seq.h 1251-1254 snd_seq_remove_events_get_condition] *)
Definition snd_seq_remove_events_get_condition (info : Z) : Z := 0.

(* [seq.h 1256-1259 snd_seq_remove_events_get_queue] *)
Definition snd_seq_remove_events_get_queue (info : Z) : Z := 0.

(* [seq.h 1261-1264 snd_seq_remove_events_get_time] *)
Definition snd_seq_remove_events_get_time (info : Z) : Z := NULL.

(* [seq.h 1266-1269 snd_seq_remove_events_get_dest] *)
Definition snd_seq_remove_events_get_dest (info : Z) : Z := NULL.

(* [seq.h 1271-1274 snd_seq_remove_events_get_channel] *)
Definition snd_seq_remove_events_get_channel (info : Z) : Z := 0.

(* [seq.h 1276-1279 snd_seq_remove_events_get_event_type] *)
Definition snd_seq_remove_events_get_event_type (info : Z) : Z := 0.

(* [seq.h 1281-1284 snd_seq_remove_events_get_tag] *)
Definition snd_seq_remove_events_get_tag (info : Z) : Z := 0.

(* [seq.h 1287-1290 snd_seq_remove_events_set_condition] *)
Definition snd_seq_remove_events_set_condition (info flags : Z) : unit := tt.

(* [seq.h 1292-1294 snd_seq_remove_events_set_queue] *)
Definition snd_seq_remove_events_set_queue (info queue : Z) : unit := tt.

(* [seq.h 1296-1299 snd_seq_remove_events_set_time] *)
Definition snd_seq_remove_events_set_time (info time : Z) : unit := tt.

(* [seq.h 1301-1304 snd_seq_remove_events_set_dest] *)
Definition snd_seq_remove_events_set_dest (info addr : Z) : unit := tt.

(* [seq.h 1306-1309 snd_seq_remove_events_set_channel] *)
Definition snd_seq_remove_events_set_channel (info channel : Z) : unit := tt.

(* [seq.h 1311-1314 snd_seq_remove_events_set_event_type] *)
Definition snd_seq_remove_events_set_event_type (info type : Z) : unit := tt.

(* [seq.h 1316-1318 snd_seq_remove_events_set_tag] *)
Definition snd_seq_remove_events_set_tag (info tag : Z) : unit := tt.

(* [seq.h 1321-1324 snd_seq_remove_events] *)
Definition snd_seq_remove_events (handle info : Z) : Z := - ENXIO.

(* [seq.h 1328-1330 snd_seq_set_bit] *)
Definition snd_seq_set_bit (nr array : Z) : unit := tt.

(* [seq.h 1332-1335 snd_seq_change_bit] *)
Definition snd_seq_change_bit (nr array : Z) : Z := 0.

(* [seq.h 1337-1340 snd_seq_get_bit] *)
Definition snd_seq_get_bit (nr array : Z) : Z := 0.

(** ** The middle layer *)

(* [seqmid.h 26-30 snd_seq_control_queue] *)
Definition snd_seq_control_queue (seq q type value ev : Z) : Z := - ENXIO.

(* [seqmid.h 41-45 snd_seq_create_simple_port] *)
Definition snd_seq_create_simple_port (seq : Z) (name : string) (caps type : Z) : Z := - ENXIO.

(* [seqmid.h 47-50 snd_seq_delete_simple_port] *)
Definition snd_seq_delete_simple_port (seq port : Z) : Z := 0.

(* [seqmid.h 53-57 snd_seq_connect_from] *)
Definition snd_seq_connect_from (seq my_port src_client src_port : Z) : Z := - ENXIO.

(* [seqmid.h 59-63 snd_seq_connect_to] *)
Definition snd_seq_connect_to (seq my_port dest_client dest_port : Z) : Z := - ENXIO.

(* [seqmid.h 65-69 snd_seq_disconnect_from] *)
Definition snd_seq_disconnect_from (seq my_port src_client src_port : Z) : Z := - ENXIO.

(* [seqmid.h 71-75 snd_seq_disconnect_to] *)
Definition snd_seq_disconnect_to (seq my_port dest_client dest_port : Z) : Z := - ENXIO.

(* [seqmid.h 78-81 snd_seq_set_client_name] *)
Definition snd_seq_set_client_name (seq : Z) (name : string) : Z := - ENXIO.

(* [seqmid.h 83-86 snd_seq_set_client_event_filter] *)
Definition snd_seq_set_client_event_filter (seq event_type : Z) : Z := - ENXIO.

(* [seqmid.h 88-91 snd_seq_set_client_pool_output] *)
Definition snd_seq_set_client_pool_output (seq size : Z) : Z := - ENXIO.

(* [seqmid.h 93-96 snd_seq_set_client_pool_output_room] *)
Definition snd_seq_set_client_pool_output_room (seq size : Z) : Z := - ENXIO.

(* [seqmid.h 98-101 snd_seq_set_client_pool_input] *)
Definition snd_seq_set_client_pool_input (seq size : Z) : Z := - ENXIO.

(* [seqmid.h 103-106 snd_seq_sync_output_queue] *)
Definition snd_seq_sync_output_queue (seq : Z) : Z := - ENXIO.

(* [seqmid.h 109-112 snd_seq_parse_address] *)
Definition snd_seq_parse_address (seq addr : Z) (str : string) : Z := - ENXIO.

(* [seqmid.h 115-118 snd_seq_reset_pool_output] *)
Definition snd_seq_reset_pool_output (seq : Z) : Z := - ENXIO.

(* [seqmid.h 120-123 snd_seq_reset_pool_input] *)
Definition snd_seq_reset_pool_input (seq : Z) : Z := - ENXIO.

(** ** No object comes into being

    Every function that could give a program a sequencer, a queue, a port or a structure
    fails: none of the others is ever called with one. *)
Theorem no_sequencer (name : string) (a b c : Z) :
  Forall (fun answer => answer < 0)
    [snd_seq_open a name b c;
     snd_seq_open_lconf a name b c a;
     snd_seq_system_info_malloc a;
     snd_seq_client_info_malloc a;
     snd_seq_client_pool_malloc a;
     snd_seq_port_info_malloc a;
     snd_seq_create_port a b;
     snd_seq_port_subscribe_malloc a;
     snd_seq_query_subscribe_malloc a;
     snd_seq_queue_info_malloc a;
     snd_seq_create_queue a b;
     snd_seq_alloc_named_queue a name;
     snd_seq_alloc_queue a;
     snd_seq_queue_status_malloc a;
     snd_seq_queue_tempo_malloc a;
     snd_seq_queue_timer_malloc a;
     snd_seq_remove_events_malloc a;
     snd_seq_create_simple_port a name b c].
Proof. repeat constructor; done. Qed.
