(* ===== verification/Disabled.v ===== *)
(** * Parts that are configured out

    A build may leave out TLV data, user-defined elements and asynchronous notification
    (the SALSA_HAS_ options); the headers then have functions of the same names that fail
    with [ENXIO].  A few functions of alsa-lib are never implemented.  All of them take
    their arguments, change nothing and answer a constant; a pointer is a number. *)

From Stdlib Require Import String.
From S2P Require Import Prelude CInt.
#[local] Open Scope Z_scope.

#[local] Abbreviation NULL := 0.

(** ** Without TLV data (ctl_macros.h, hctl_macros.h, mixer_macros.h) *)

(* [ctl_macros.h 968-972 snd_ctl_elem_tlv_read] *)
Definition snd_ctl_elem_tlv_read (ctl id tlv tlv_size : Z) : Z := - ENXIO.

(* [ctl_macros.h 975-979 snd_ctl_elem_tlv_write] *)
Definition snd_ctl_elem_tlv_write (ctl id tlv : Z) : Z := - ENXIO.

(* [ctl_macros.h 982-986 snd_ctl_elem_tlv_command] *)
Definition snd_ctl_elem_tlv_command (ctl id tlv : Z) : Z := - ENXIO.

(* [ctl_macros.h 989-993 snd_tlv_parse_dB_info] *)
Definition snd_tlv_parse_dB_info (tlv tlv_size db_tlvp : Z) : Z := - ENXIO.

(* [ctl_macros.h 996-1000 snd_tlv_get_dB_range] *)
Definition snd_tlv_get_dB_range (tlv rangemin rangemax min max : Z) : Z := - ENXIO.

(* [ctl_macros.h 1003-1007 snd_tlv_convert_to_dB] *)
Definition snd_tlv_convert_to_dB (tlv rangemin rangemax volume db_gain : Z) : Z := - ENXIO.

(* [ctl_macros.h 1010-1014 snd_tlv_convert_from_dB] *)
Definition snd_tlv_convert_from_dB (tlv rangemin rangemax db_gain value xdir : Z) : Z := - ENXIO.

(* [ctl_macros.h 1017-1021 snd_ctl_get_dB_range] *)
Definition snd_ctl_get_dB_range (ctl id min max : Z) : Z := - ENXIO.

(* [ctl_macros.h 1024-1028 snd_ctl_convert_to_dB] *)
Definition snd_ctl_convert_to_dB (ctl id volume db_gain : Z) : Z := - ENXIO.

(* [ctl_macros.h 1031-1035 snd_ctl_convert_from_dB] *)
Definition snd_ctl_convert_from_dB (ctl id db_gain value xdir : Z) : Z := - ENXIO.

(* [hctl_macros.h 167-171 snd_hctl_elem_tlv_read] *)
Definition snd_hctl_elem_tlv_read (elem tlv tlv_size : Z) : Z := - ENXIO.

(* [hctl_macros.h 174-177 snd_hctl_elem_tlv_write] *)
Definition snd_hctl_elem_tlv_write (elem tlv : Z) : Z := - ENXIO.

(* [hctl_macros.h 180-183 snd_hctl_elem_tlv_command] *)
Definition snd_hctl_elem_tlv_command (elem tlv : Z) : Z := - ENXIO.

(* [mixer_macros.h 701-705 snd_mixer_selem_get_playback_dB_range] *)
Definition snd_mixer_selem_get_playback_dB_range (elem min max : Z) : Z := - ENXIO.

(* [mixer_macros.h 708-713 snd_mixer_selem_get_playback_dB] *)
Definition snd_mixer_selem_get_playback_dB (elem channel value : Z) : Z := - ENXIO.

(* [mixer_macros.h 716-720 snd_mixer_selem_ask_playback_vol_dB] *)
Definition snd_mixer_selem_ask_playback_vol_dB (elem value dBvalue : Z) : Z := - ENXIO.

(* [mixer_macros.h 723-727 snd_mixer_selem_ask_playback_dB_vol] *)
Definition snd_mixer_selem_ask_playback_dB_vol (elem dBvalue dir value : Z) : Z := - ENXIO.

(* [mixer_macros.h 729-734 snd_mixer_selem_set_playback_dB] *)
Definition snd_mixer_selem_set_playback_dB (elem channel value dir : Z) : Z := - ENXIO.

(* [mixer_macros.h 737-741 snd_mixer_selem_set_playback_dB_all] *)
Definition snd_mixer_selem_set_playback_dB_all (elem value dir : Z) : Z := - ENXIO.

(* [mixer_macros.h 744-748 snd_mixer_selem_get_capture_dB_range] *)
Definition snd_mixer_selem_get_capture_dB_range (elem min max : Z) : Z := - ENXIO.

(* [mixer_macros.h 751-756 snd_mixer_selem_get_capture_dB] *)
Definition snd_mixer_selem_get_capture_dB (elem channel value : Z) : Z := - ENXIO.

(* [mixer_macros.h 759-763 snd_mixer_selem_ask_capture_vol_dB] *)
Definition snd_mixer_selem_ask_capture_vol_dB (elem value dBvalue : Z) : Z := - ENXIO.

(* [mixer_macros.h 766-770 snd_mixer_selem_ask_capture_dB_vol] *)
Definition snd_mixer_selem_ask_capture_dB_vol (elem value dir dBvalue : Z) : Z := - ENXIO.

(* [mixer_macros.h 773-778 snd_mixer_selem_set_capture_dB] *)
Definition snd_mixer_selem_set_capture_dB (elem channel value dir : Z) : Z := - ENXIO.

(* [mixer_macros.h 781-785 snd_mixer_selem_set_capture_dB_all] *)
Definition snd_mixer_selem_set_capture_dB_all (elem value dir : Z) : Z := - ENXIO.

(** ** Without user-defined elements *)

(* [ctl_macros.h 1042-1046 snd_ctl_elem_add_integer] *)
Definition snd_ctl_elem_add_integer (ctl id count min max step : Z) : Z := - ENXIO.

(* [ctl_macros.h 1049-1054 snd_ctl_elem_add_integer64] *)
Definition snd_ctl_elem_add_integer64 (ctl id count min max step : Z) : Z := - ENXIO.

(* [ctl_macros.h 1057-1061 snd_ctl_elem_add_boolean] *)
Definition snd_ctl_elem_add_boolean (ctl id count : Z) : Z := - ENXIO.

(* [ctl_macros.h 1064-1067 snd_ctl_elem_add_iec958] *)
Definition snd_ctl_elem_add_iec958 (ctl id : Z) : Z := - ENXIO.

(* [ctl_macros.h 1070-1075 snd_ctl_elem_add_enumerated] *)
Definition snd_ctl_elem_add_enumerated (ctl id count items names : Z) : Z := - ENXIO.

(** ** Without asynchronous notification *)

(* [global.h 79-83 snd_async_add_handler] *)
Definition snd_async_add_handler (handler fd callback private_data : Z) : Z := - ENXIO.

(* [global.h 85-88 snd_async_del_handler] *)
Definition snd_async_del_handler (handler : Z) : Z := - ENXIO.

(* [ctl_macros.h 1129-1134 snd_async_add_ctl_handler] *)
Definition snd_async_add_ctl_handler (handler ctl callback private_data : Z) : Z := - ENXIO.

(* [ctl_macros.h 1137-1140 snd_async_handler_get_ctl] *)
Definition snd_async_handler_get_ctl (handler : Z) : Z := NULL.

(* [hctl_macros.h 282-285 snd_hctl_async] *)
Definition snd_hctl_async (hctl sig pid : Z) : Z := - ENXIO.

(* [pcm_macros.h 2250-2255 snd_async_add_pcm_handler] *)
Definition snd_async_add_pcm_handler (handler pcm callback private_data : Z) : Z := - ENXIO.

(* [pcm_macros.h 2258-2261 snd_async_handler_get_pcm] *)
Definition snd_async_handler_get_pcm (handler : Z) : Z := NULL.

(** ** Never implemented *)

(* [pcm_macros.h 2180-2185 snd_pcm_open_lconf] *)
Definition snd_pcm_open_lconf (pcm : Z) (name : string) (stream mode lconf : Z) : Z := - ENXIO.

(* [pcm_macros.h 2214-2218 snd_pcm_mmap_writen] *)
Definition snd_pcm_mmap_writen (pcm bufs size : Z) : Z := - ENXIO.

(* [pcm_macros.h 2221-2225 snd_pcm_mmap_readn] *)
Definition snd_pcm_mmap_readn (pcm bufs size : Z) : Z := - ENXIO.

(* [pcm_macros.h 2228-2237 snd_pcm_set_params] *)
Definition snd_pcm_set_params (pcm format acc channels rate soft_resample latency : Z) : Z := - ENXIO.
