(* ===== verification/Conf.v ===== *)
(** * The configuration that is not there

    src/src/conf.h: salsa-lib reads no configuration.  All that is left of alsa-lib's is the
    global pointer [snd_config], which marks whether [snd_config_update] was called: it is
    NULL or an address that is none.  The other functions take their arguments, change
    nothing and answer a constant, [ENXIO] for the most part; a pointer is a number. *)

From Stdlib Require Import String.
From S2P Require Import Prelude CInt.
#[local] Open Scope Z_scope.

#[local] Abbreviation NULL := 0.

(** ** The mark

    The state is the pointer. *)

(* [conf.h 48-53 snd_config_update] *)
Definition snd_config_update : io Z Z := fun _ => (0, 1).

(** The pointers that [top] and [update] lead to stay as they are. *)
(* [conf.h 56-60 snd_config_update_r] *)
Definition snd_config_update_r (top update : Z) (path : string) : Z := 0.

(* [conf.h 63-66 snd_config_update_free] *)
Definition snd_config_update_free (update : Z) : Z := 0.

(** The code assigns to its own argument: what [top] leads to stays as it is. *)
(* [conf.h 69-75 snd_config_update_ref] *)
Definition snd_config_update_ref (top : Z) : io Z Z := let* _ := snd_config_update in ret 0.

(* [conf.h 78-80 snd_config_unref] *)
Definition snd_config_unref (cfg : Z) : unit := tt.

(** [dummy_conf] is the build with these functions ([SALSA_HAS_DUMMY_CONF]); the others
    have the version of global.h. *)
(* [conf.h 84-88 snd_config_update_free_global] *)
Definition snd_config_update_free_global (dummy_conf : bool) : io Z Z :=
  fun config => (0, if dummy_conf then NULL else config).

(** ** Nodes *)

(* [conf.h 10-17 snd_config_type_t] *)
Definition SND_CONFIG_TYPE_INTEGER : Z := 0.

(* [conf.h 24-27 snd_config_top] *)
Definition snd_config_top (config : Z) : Z := - ENXIO.

(* [conf.h 30-33 snd_config_load] *)
Definition snd_config_load (config in_ : Z) : Z := - ENXIO.

(* [conf.h 36-39 snd_config_load_override] *)
Definition snd_config_load_override (config in_ : Z) : Z := - ENXIO.

(* [conf.h 42-45 snd_config_save] *)
Definition snd_config_save (config out : Z) : Z := - ENXIO.

(* [conf.h 92-96 snd_config_search] *)
Definition snd_config_search (config : Z) (key : string) (result : Z) : Z := - ENXIO.

(* [conf.h 99-103 snd_config_searchv] *)
Definition snd_config_searchv (config result : Z) : Z := - ENXIO.

(* [conf.h 106-111 snd_config_search_definition] *)
Definition snd_config_search_definition (config : Z) (base key : string) (result : Z) : Z := - ENXIO.

(* [conf.h 114-119 snd_config_expand] *)
Definition snd_config_expand (config root : Z) (args : string) (private_data result : Z) : Z := - ENXIO.

(* [conf.h 122-126 snd_config_evaluate] *)
Definition snd_config_evaluate (config root private_data result : Z) : Z := - ENXIO.

(* [conf.h 129-132 snd_config_add] *)
Definition snd_config_add (config leaf : Z) : Z := - ENXIO.

(* [conf.h 135-138 snd_config_delete] *)
Definition snd_config_delete (config : Z) : Z := - ENXIO.

(* [conf.h 141-144 snd_config_delete_compound_members] *)
Definition snd_config_delete_compound_members (config : Z) : Z := - ENXIO.

(* [conf.h 147-150 snd_config_copy] *)
Definition snd_config_copy (dst src : Z) : Z := - ENXIO.

(* [conf.h 154-158 snd_config_make] *)
Definition snd_config_make (config : Z) (key : string) (type : Z) : Z := - ENXIO.

(* [conf.h 161-164 snd_config_make_integer] *)
Definition snd_config_make_integer (config : Z) (key : string) : Z := - ENXIO.

(* [conf.h 167-170 snd_config_make_integer64] *)
Definition snd_config_make_integer64 (config : Z) (key : string) : Z := - ENXIO.

(* [conf.h 173-176 snd_config_make_real] *)
Definition snd_config_make_real (config : Z) (key : string) : Z := - ENXIO.

(* [conf.h 179-182 snd_config_make_string] *)
Definition snd_config_make_string (config : Z) (key : string) : Z := - ENXIO.

(* [conf.h 185-188 snd_config_make_pointer] *)
Definition snd_config_make_pointer (config : Z) (key : string) : Z := - ENXIO.

(* [conf.h 191-194 snd_config_make_compound] *)
Definition snd_config_make_compound (config : Z) (key : string) (join : Z) : Z := - ENXIO.

(* [conf.h 198-202 snd_config_imake_integer] *)
Definition snd_config_imake_integer (config : Z) (key : string) (value : Z) : Z := - ENXIO.

(* [conf.h 205-209 snd_config_imake_integer64] *)
Definition snd_config_imake_integer64 (config : Z) (key : string) (value : Z) : Z := - ENXIO.

(* [conf.h 212-216 snd_config_imake_real] *)
Definition snd_config_imake_real (config : Z) (key : string) (value : Z) : Z := - ENXIO.

(* [conf.h 219-223 snd_config_imake_string] *)
Definition snd_config_imake_string (config : Z) (key ascii : string) : Z := - ENXIO.

(* [conf.h 226-230 snd_config_imake_pointer] *)
Definition snd_config_imake_pointer (config : Z) (key : string) (ptr : Z) : Z := - ENXIO.

(* [conf.h 233-236 snd_config_get_type] *)
Definition snd_config_get_type (config : Z) : Z := SND_CONFIG_TYPE_INTEGER.

(* [conf.h 239-242 snd_config_set_id] *)
Definition snd_config_set_id (config : Z) (id : string) : Z := - ENXIO.

(* [conf.h 245-248 snd_config_set_integer] *)
Definition snd_config_set_integer (config value : Z) : Z := - ENXIO.

(* [conf.h 251-254 snd_config_set_integer64] *)
Definition snd_config_set_integer64 (config value : Z) : Z := - ENXIO.

(* [conf.h 257-260 snd_config_set_real] *)
Definition snd_config_set_real (config value : Z) : Z := - ENXIO.

(* [conf.h 263-266 snd_config_set_string] *)
Definition snd_config_set_string (config : Z) (value : string) : Z := - ENXIO.

(* [conf.h 269-272 snd_config_set_ascii] *)
Definition snd_config_set_ascii (config : Z) (ascii : string) : Z := - ENXIO.

(* [conf.h 275-278 snd_config_set_pointer] *)
Definition snd_config_set_pointer (config ptr : Z) : Z := - ENXIO.

(* [conf.h 281-284 snd_config_get_id] *)
Definition snd_config_get_id (config value : Z) : Z := - ENXIO.

(* [conf.h 287-290 snd_config_get_integer] *)
Definition snd_config_get_integer (config value : Z) : Z := - ENXIO.

(* [conf.h 293-296 snd_config_get_integer64] *)
Definition snd_config_get_integer64 (config value : Z) : Z := - ENXIO.

(* [conf.h 299-302 snd_config_get_real] *)
Definition snd_config_get_real (config value : Z) : Z := - ENXIO.

(* [conf.h 305-308 snd_config_get_ireal] *)
Definition snd_config_get_ireal (config value : Z) : Z := - ENXIO.

(* [conf.h 311-314 snd_config_get_string] *)
Definition snd_config_get_string (config value : Z) : Z := - ENXIO.

(* [conf.h 317-320 snd_config_get_ascii] *)
Definition snd_config_get_ascii (config value : Z) : Z := - ENXIO.

(* [conf.h 323-326 snd_config_get_pointer] *)
Definition snd_config_get_pointer (config value : Z) : Z := - ENXIO.

(* [conf.h 329-332 snd_config_test_id] *)
Definition snd_config_test_id (config : Z) (id : string) : Z := - ENXIO.

(* [conf.h 335-338 snd_config_iterator_first] *)
Definition snd_config_iterator_first (node : Z) : Z := NULL.

(* [conf.h 341-344 snd_config_iterator_next] *)
Definition snd_config_iterator_next (iterator : Z) : Z := NULL.

(* [conf.h 347-350 snd_config_iterator_end] *)
Definition snd_config_iterator_end (node : Z) : Z := NULL.

(* [conf.h 353-356 snd_config_iterator_entry] *)
Definition snd_config_iterator_entry (iterator : Z) : Z := NULL.

(* [conf.h 364-367 snd_config_get_bool_ascii] *)
Definition snd_config_get_bool_ascii (ascii : string) : Z := - ENXIO.

(* [conf.h 370-373 snd_config_get_bool] *)
Definition snd_config_get_bool (conf : Z) : Z := - ENXIO.

(* [conf.h 376-379 snd_config_get_ctl_iface_ascii] *)
Definition snd_config_get_ctl_iface_ascii (ascii : string) : Z := - ENXIO.

(* [conf.h 382-385 snd_config_get_ctl_iface] *)
Definition snd_config_get_ctl_iface (conf : Z) : Z := - ENXIO.

(* [conf.h 399-402 snd_names_list] *)
Definition snd_names_list (iface : string) (list : Z) : Z := - ENXIO.

(* [conf.h 405-407 snd_names_list_free] *)
Definition snd_names_list_free (list : Z) : unit := tt.

(** ** Programs

    A program's calls on the mark. *)
Inductive config_call :=
  | Update
  | UpdateRef (top : Z)
  | FreeGlobal.

Definition run_config (c : config_call) : io Z Z :=
  match c with
  | Update => snd_config_update
  | UpdateRef top => snd_config_update_ref top
  | FreeGlobal => snd_config_update_free_global true
  end.

Definition config_after (calls : list config_call) (config : Z) : Z :=
  fold_left (fun config c => (run_config c config).2) calls config.

(** The mark after any calls is the last one's: set by an update, NULL after freeing; and
    no call fails. *)
Theorem config_marked (calls : list config_call) (c : config_call) (config : Z) :
  (run_config c config).1 = 0 /\
  (config_after (calls ++ [c]) config = NULL <-> c = FreeGlobal).
Proof.
  split; [destruct c; done|]. unfold config_after. rewrite fold_left_app. destruct c; done.
Qed.
