(* ===== verification/Handles.v ===== *)
(** * Small things

    What is left of the interfaces: the names and types of handles, the fields of a
    handler, error texts, time stamps on 32-bit systems, and src/src/input_abi.c, the input
    objects, which are the C library's streams.

    Texts of errors and the conversions of [scanf] are the C library's. *)

From Stdlib Require Import Ascii String.
From S2P Require Import Prelude CInt Sys Cards Async PcmTypes CtlTypes Hcontrol IoDev Output.
#[local] Open Scope Z_scope.

(** ** Handles

    A handle's block is zeroed when it is allocated and nothing in pcm.c or control.c stores
    a name or a type: the name is NULL and the type the first of the enumeration. *)

Definition SND_PCM_TYPE_HW : Z := 0.
Definition SND_CTL_TYPE_HW : Z := 0.

(* [pcm_macros.h 100-103 snd_pcm_name] *)
Definition snd_pcm_name (pcm : snd_pcm_t) : option string := None.

(* [pcm_macros.h 106-109 snd_pcm_type] *)
Definition snd_pcm_type (pcm : snd_pcm_t) : Z := SND_PCM_TYPE_HW.

(* [ctl_macros.h 47-50 snd_ctl_name] *)
Definition snd_ctl_name (ctl : snd_ctl_t) : option string := None.

(* [ctl_macros.h 53-56 snd_ctl_type] *)
Definition snd_ctl_type (ctl : snd_ctl_t) : Z := SND_CTL_TYPE_HW.

(* [hctl_macros.h 58-61 snd_hctl_name] *)
Definition snd_hctl_name (hctl : snd_hctl_t) : option string := snd_ctl_name (hctl_ctl hctl).

(** ** Handlers *)

(* [global_abi.c 25-28 snd_async_handler_get_signo] *)
Definition snd_async_handler_get_signo (h : snd_async_handler_t) : Z := SIGIO.

(* [global_abi.c 30-33 snd_async_handler_get_fd] *)
Definition snd_async_handler_get_fd (h : snd_async_handler_t) : Z := h_fd h.

(* [global_abi.c 35-38 snd_async_handler_get_callback_private] *)
Definition snd_async_handler_get_callback_private (h : snd_async_handler_t) : Z := h_private h.

(* [pcm_macros.h 2242-2245 snd_async_handler_get_pcm] *)
Definition snd_async_handler_get_pcm (handler : snd_async_handler_t) : Z := h_rec handler.

(** ** Errors *)

Section Errors.
Variable strerror : Z -> string.

(* [error.h 28-33 snd_strerror] *)
Definition snd_strerror (errnum : Z) : string :=
  strerror (if errnum <? 0 then s32 (- errnum) else errnum).

(* [error.h 36-39 snd_lib_error_set_handler] *)
Definition snd_lib_error_set_handler (handler : Z) : Z := 0.

(** A result and its negation have the same text; the least integer has no negation. *)
Theorem strerror_of_result (e : Z) :
  0 <= e <= INT_MAX -> snd_strerror (- e) = strerror e /\ snd_strerror e = strerror e /\
  snd_strerror INT_MIN = strerror INT_MIN.
Proof.
  unfold INT_MAX. intros He. unfold snd_strerror. split; [|split; [|reflexivity]].
  - destruct (Z.ltb_spec (- e) 0); [|f_equal; lia].
    rewrite Z.opp_involutive, s32_id by (unfold is_s32, INT_MIN, INT_MAX; lia). done.
  - rewrite (proj2 (Z.ltb_ge _ _)) by lia. done.
Qed.
End Errors.

(** ** Time stamps

    On a 32-bit system whose kernel structures have 64-bit times the program's time stamp is
    narrower than the kernel's. *)

(* [asound.h 49-53 __copy_to_snd_htimestamp] *)
Definition __copy_to_snd_htimestamp (src : snd_timespec) : snd_timespec :=
  Timespec (s32 (tv_sec src)) (s32 (tv_nsec src)).

(* [asound.h 55-60 __to_snd_htimestamp] *)
Definition __to_snd_htimestamp (src : snd_timespec) : snd_timespec := __copy_to_snd_htimestamp src.

(** The copy is exact up to January 2038 and no further. *)
Theorem htimestamp_exact (src : snd_timespec) :
  0 <= tv_sec src -> 0 <= tv_nsec src < 1000000000 ->
  __to_snd_htimestamp src = src <-> tv_sec src <= INT_MAX.
Proof.
  destruct src as [sec nsec]. unfold __to_snd_htimestamp, __copy_to_snd_htimestamp, INT_MAX. cbn [tv_sec tv_nsec].
  intros Hs Hn. rewrite (s32_id nsec) by (unfold is_s32, INT_MIN, INT_MAX; lia). split.
  - intros [= H]. pose proof (s32_range sec) as Hr. unfold is_s32, INT_MAX in Hr. lia.
  - intros H. rewrite s32_id by (unfold is_s32, INT_MIN, INT_MAX; lia). done.
Qed.

(** ** Input

    The C library's reading functions; [file_open] and [file_close] are those of Output.v. *)

Class StdioIn (K : Type) := {
  file_scanf : Z -> string -> io K (Z * list string);    (* the conversions' texts *)
  file_gets : Z -> Z -> io K (option string);
  file_getc : Z -> io K Z;
  file_ungetc : Z -> Z -> io K Z
}.

Section Input.
Context {K : Type} `{!Stdio K, !StdioIn K}.

(** The pointer is stored where opening fails too. *)
(* [input_abi.c 13-18 snd_input_stdio_open] *)
Definition snd_input_stdio_open (file mode : string) : io K (Z * Z) :=
  let* fp := file_open file mode in
  if fp <? 0 then ret (fp, 0) else ret (0, fp).

(* [input_abi.c 20-24 snd_input_stdio_attach] *)
Definition snd_input_stdio_attach (fp _close : Z) : io K (Z * Z) := ret (0, fp).

(* [input_abi.c 26-29 snd_input_close] *)
Definition snd_input_close (input : Z) : io K Z := file_close input.

(* [input_abi.c 31-39 snd_input_scanf] *)
Definition snd_input_scanf (input : Z) (fmt : string) : io K (Z * list string) := file_scanf input fmt.

(* [input_abi.c 41-44 snd_input_gets] *)
Definition snd_input_gets (input size : Z) : io K (option string) := file_gets input size.

(* [input_abi.c 46-49 snd_input_getc] *)
Definition snd_input_getc (input : Z) : io K Z := file_getc input.

(* [input_abi.c 51-54 snd_input_ungetc] *)
Definition snd_input_ungetc (input c : Z) : io K Z := file_ungetc c input.

(* [input_abi.c 56-60 snd_input_buffer_open] *)
Definition snd_input_buffer_open (buffer : string) (size : Z) : io K Z := ret (- ENXIO).
End Input.

(** The same functions of the header, for programs that inline them. *)
Section InputHeader.
Context {K : Type} `{!Stdio K}.

(* [input.h 35-40 snd_input_stdio_open] *)
Definition input_h_stdio_open (file mode : string) : io K (Z * Z) := snd_input_stdio_open file mode.

(* [input.h 43-47 snd_input_stdio_attach] *)
Definition input_h_stdio_attach (fp _close : Z) : io K (Z * Z) := snd_input_stdio_attach fp _close.

(* [input.h 56-60 snd_input_buffer_open] *)
Definition input_h_buffer_open (buffer : string) (size : Z) : io K Z := ret (- ENXIO).
End InputHeader.
