(* ===== verification/TlvLinear.v ===== *)
(** * Linear decibels

    The linear type of src/src/control.c in the build with floating point
    (SALSA_SUPPORT_FLOAT); Tlv.v has the build without, which answers [EINVAL].  A [double]
    is a [spec_float] of 53 bits, whose operations round to the nearest as IEEE 754 says.
    [pow] and [log10] are the C library's, whose last bits C leaves open; the theorem holds
    for any.  Converting a number to [long] that does not fit is undefined: [None].  Words
    that the data does not have read as 0. *)

From Stdlib Require Import SpecFloat.
From S2P Require Import Prelude CInt Tlv.
#[local] Open Scope Z_scope.

Definition double := spec_float.

Definition of_Z (z : Z) : double := binary_normalize 53 1024 z 0 false.

Definition dadd : double -> double -> double := SFadd 53 1024.
Definition dsub : double -> double -> double := SFsub 53 1024.
Definition dmul : double -> double -> double := SFmul 53 1024.
Definition ddiv : double -> double -> double := SFdiv 53 1024.

(** The integer part, and the next integer up, as an exact number. *)
Definition int_part (up : bool) (s : bool) (m : positive) (e : Z) : Z :=
  let n := if s then Z.neg m else Z.pos m in
  if 0 <=? e then n * 2 ^ e
  else if up then - (- n / 2 ^ (- e)) else Z.quot n (2 ^ (- e)).

(** [(long)v]. *)
Definition to_long (v : double) : option Z :=
  match v with
  | S754_zero _ => Some 0
  | S754_finite s m e =>
      let z := int_part false s m e in
      if (- LONG_MAX - 1 <=? z) && (z <=? LONG_MAX) then Some z else None
  | _ => None
  end.

Definition ceil (v : double) : double :=
  match v with
  | S754_finite s m e => if 0 <=? e then v else of_Z (int_part true s m e)
  | _ => v
  end.

Section Linear.
Variable pow : double -> double -> double.
Variable log10 : double -> double.

Definition gain_of (dB : Z) : double := pow (of_Z 10) (ddiv (of_Z dB) (of_Z 2000)).
Definition dB_of (v : double) : option Z := to_long (dmul (dmul (of_Z 100) (of_Z 20)) (log10 v)).

(* [control.c 498-522 tlv_to_dB_linear] *)
Definition tlv_to_dB_linear (tlv : list Z) (rangemin rangemax volume : Z) : Z * option Z :=
  let mindb := s32 (nthz 0 tlv 2) in
  let maxdb := s32 (nthz 0 tlv 3) in
  (0, if (volume <=? rangemin) || (rangemax <=? rangemin) then Some mindb
      else if rangemax <=? volume then Some maxdb
      else
        let val := ddiv (of_Z (s64 (volume - rangemin))) (of_Z (s64 (rangemax - rangemin))) in
        if mindb <=? DB_GAIN_MUTE then option_map (fun dB => s64 (dB + maxdb)) (dB_of val)
        else
          let lmin := gain_of mindb in
          let lmax := gain_of maxdb in
          dB_of (dadd (dmul (dsub lmax lmin) val) lmin)).

(* [control.c 712-735 tlv_from_dB_linear] *)
Definition tlv_from_dB_linear (tlv : list Z) (rangemin rangemax db_gain xdir : Z) : Z * option Z :=
  let min := s32 (nthz 0 tlv 2) in
  let max := s32 (nthz 0 tlv 3) in
  (0, if db_gain <=? min then Some rangemin
      else if max <=? db_gain then Some rangemax
      else
        let vmin := if min <=? DB_GAIN_MUTE then of_Z 0 else gain_of min in
        let vmax := if negb (nz max) then of_Z 1 else gain_of max in
        let v := gain_of db_gain in
        let v := ddiv (dmul (dsub v vmin) (of_Z (s64 (rangemax - rangemin)))) (dsub vmax vmin) in
        let v := if 0 <? xdir then ceil v else v in
        option_map (fun v => s64 (v + rangemin)) (to_long v)).

(** The ends of the range convert to the ends of the gain and back, and values outside are
    taken for the ends. *)
Theorem linear_ends (tlv : list Z) (rangemin rangemax volume xdir : Z) :
  let mindb := s32 (nthz 0 tlv 2) in
  let maxdb := s32 (nthz 0 tlv 3) in
  rangemin < rangemax -> mindb < maxdb ->
  (volume <= rangemin -> tlv_to_dB_linear tlv rangemin rangemax volume = (0, Some mindb)) /\
  (rangemax <= volume -> tlv_to_dB_linear tlv rangemin rangemax volume = (0, Some maxdb)) /\
  tlv_from_dB_linear tlv rangemin rangemax mindb xdir = (0, Some rangemin) /\
  tlv_from_dB_linear tlv rangemin rangemax maxdb xdir = (0, Some rangemax).
Proof.
  intros mindb maxdb Hr Hdb. unfold tlv_to_dB_linear, tlv_from_dB_linear. fold mindb maxdb.
  split; [intros Hv|split; [intros Hv|split]].
  - rewrite (proj2 (Z.leb_le volume rangemin)) by done. done.
  - rewrite (proj2 (Z.leb_gt volume rangemin)), (proj2 (Z.leb_gt rangemax rangemin)), (proj2 (Z.leb_le rangemax volume)) by lia. done.
  - rewrite Z.leb_refl. done.
  - rewrite (proj2 (Z.leb_gt maxdb mindb)), Z.leb_refl by lia. done.
Qed.
End Linear.

(** Half of a range whose bottom is mute, with a [log10] that gives -0.3 there: -600 below
    the top, which is 0. *)
Example linear_half :
  tlv_to_dB_linear (fun _ _ => of_Z 1) (fun _ => ddiv (of_Z (-3)) (of_Z 10)) [2; 8; 4284967297; 0] 0 10 5 = (0, Some (-600)).
Proof. vm_compute. reflexivity. Qed.

(** Rounding up is up. *)
Example ceil_up : map (fun z => to_long (ceil (ddiv (of_Z z) (of_Z 10)))) [-5; 0; 5; 10; 11; -11] =
  [Some 0; Some 0; Some 1; Some 1; Some 2; Some (-1)].
Proof. vm_compute. reflexivity. Qed.
